(* ===== verification/_CoqProject ===== *)
-Q . S2P
Prelude.v
PyDecimal.v
DecimalFacts.v
PyTime.v
Calendar.v
Precision.v
Lineage.v
Registry.v
Transactions.v
Values.v
Position.v
Lots.v
CostBasis.v
Fifo.v
FifoBook.v
Avco.v
AvcoFacts.v
AvcoCheckpoint.v
CostFields.v
Fx.v
Redemption.v
CashEconomics.v
Disposition.v
Calculator.v
CalculatorFacts.v
CalculatorTrades.v
DayCount.v
DayCountFacts.v
AccruedIncome.v
AccruedIncomeFacts.v
PositionValuation.v
PositionValuationFacts.v
EventGraph.v
EventGraphWalk.v
EventGraphFacts.v
EventGraphResolve.v
Settlement.v
SettlementFacts.v
Cashflow.v
CashflowFacts.v
CorporateAction.v
CorporateActionManifest.v
CorporateActionFacts.v
CorporateActionReadiness.v
CorporateActionArrival.v
AmortizedCost.v
AmortizedCostFacts.v
AmortizedStraightLine.v
SourceVersions.v
BookCostAuthority.v
BookCostAuthorityFacts.v
BookCostSources.v
BookCostSourcesFacts.v
BookCostProfile.v
BookCostProfileFacts.v
BookCostMaterialization.v
Timeline.v
TimelineFacts.v
OrderedAppend.v
Timeseries.v
TimeseriesFacts.v
Reconciliation.v
ReconciliationFacts.v
DerivedStateExamples.v
LinkedLegs.v
LinkedLegsFacts.v
UpstreamPairs.v
SourceAppend.v
ValuationAuthority.v
ValuationAuthorityFacts.v
PriceAuthorityFacts.v
ValuationAuthorityExamples.v
SnapshotValuation.v
SnapshotValuationFacts.v
SnapshotValuationExamples.v
