(* ===== verification/Prelude.v ===== *)
(** * lotus-core: a verification development of its transaction-processing core

    lotus-core keeps investment portfolios: transactions arrive as events, are costed, and change
    positions; every calculated amount is stored as NUMERIC(18, 10) and carries a receipt (a
    calculation lineage) that lets a reader check what it was computed from.  Positions are valued,
    aggregated to portfolio days and reconciled.  This library models the deterministic core of that
    system: the domain layer below [src/services/portfolio_transaction_processing_service/app/domain],
    the shared domain code below [src/libs/portfolio-common/portfolio_common/domain], the calculations
    of the valuation, derived-state and reconciliation services and the writers of valuation
    authority, and proves what makes it correct.

    ** The parts and the files

    - [Prelude]: exceptions and the result and state monads (Python's raise, try, finally and mutable
      objects), ASCII text, stable sorting, comparison chains, insertion-ordered dictionaries, and
      the tactics and hints the other files share.
    - [PyDecimal], [DecimalFacts]: Python's [decimal] module as far as the program uses it: contexts,
      rounding, the six operations, comparison; and its exactness lemmas.  [PyTime]: dates and
      datetimes as counts with an optional offset.  [Calendar]: the Gregorian calendar on day counts.
    - [Precision] (financial/precision.py, financial/calculation_precision.py,
      transaction/numeric_policy.py): the policies that admit, round and compute stored amounts.
    - [Lineage] (calculation_lineage.py): canonical payloads, content hashes, receipts.  SHA-256 is
      the parameter [Hashing]; what is used of it is the class [HashingOk] (it produces digests).
    - [Registry] (transaction/type_registry.py): the table of transaction types and its selections.
    - [Transactions] (transaction/booked.py, processing_type.py, corporate_action/classification.py,
      corporate_action/ordering.py, interest_economics.py): booked transactions and order keys.
    - [Values] (decimal_amount.py, currency.py, instrument_classification.py, fee_components.py,
      validation/cash_account.py): reading values of unknown type.
    - [Position] (position/reducer.py, position/history.py): the balance after each transaction, the
      replay of a history with receipts, and the plan for backdated events.
    - [Lots] (lot_state.py, lot_restatement.py, residual_allocation.py, disposal_allocation.py,
      basis_transfer_allocation.py, cost_basis_receipt_integrity.py): lots, restatements, disposal
      and transfer receipts and their version chains.
    - [CostBasis] (models/cost_basis_transaction.py and the shared part of
      cost_basis_strategies.py): the transaction the cost engine mutates, and [CostBasisStrategy],
      the interface between the strategies and their clients.
    - [Fifo], [FifoBook]: FIFOBasisStrategy as an instance of the interface.  Lots are shared mutable
      objects, so the state has a heap of lots, a queue of references per book and an index.
    - [Avco], [AvcoFacts], [AvcoCheckpoint] (average_cost_source_allocation.py and both checkpoint
      modules): AverageCostBasisStrategy, the second instance.
    - [CostFields] (cost_basis_transaction.py): attribute reads, [set_calculated_field], dumps.
    - [Fx] (transaction/fx): canonical foreign-exchange transactions, their validation and update.
    - [Redemption] (transaction/redemption), [CashEconomics] (corporate_action_cash_economics.py).
    - [Disposition] (lot_disposition.py, calculation_errors.py): the engine between calculator and
      strategy, which stages evidence and publishes or discards it, and the error collector.
    - [Calculator] (cost_basis_calculator.py): one program per transaction type over the transaction,
      the engine and the errors; dispatch, guards, sealing.  [CalculatorFacts] and [CalculatorTrades]
      hold its theorems.
    - [DayCount], [DayCountFacts] (valuation/day_count.py): year fractions of an interval.
    - [AccruedIncome], [AccruedIncomeFacts] (valuation/accrued_income.py): income accrued over
      contiguous segments, with the ex-coupon adjustment; it calls the day counts.
    - [PositionValuation], [PositionValuationFacts] (valuation/position_valuation.py and
      policy_registry.py): valuation policies, their catalogue and the amounts they give.
    - [EventGraph] (transaction/event_graph.py): declared nodes, their canonical order and the report
      of their defects.  [EventGraphWalk] proves the two walks of [_cyclic_components],
      [EventGraphFacts] the declaration and ordering loops, [EventGraphResolve] the whole.
    - [Settlement], [SettlementFacts] (transaction/settlement,
      redemption/accrued_interest.py): the cash a transaction settles, the cash-entry policy, the
      generated cash leg and the income component of a redemption.
    - [Cashflow], [CashflowFacts] (cashflow/calculation.py, cashflow/types.py): the cashflow of a
      booked transaction; it calls the settlement and the foreign-exchange validation.
    - [CorporateAction], [CorporateActionManifest], [CorporateActionFacts], [CorporateActionReadiness],
      [CorporateActionArrival] (transaction/corporate_action: event_graph.py, manifest.py,
      cohort_policy.py, arrival.py): declared children of an event, their identities, the cohort rules
      of each family and the readiness of a manifest for the children that have arrived; the order of
      execution comes from [EventGraph].
    - [AmortizedCost], [AmortizedCostFacts], [AmortizedStraightLine] (fixed_income_book_cost/policy.py,
      calculation.py): amortised-cost policies and schedules.  The power of two decimals, which
      compounds an annual yield, is the parameter [decimal_power].
    - [SourceVersions] (source_versions.py and the windows of authority.py): corrections of versioned
      source records, their ranking and validity windows, for any instance of [SourceRecord].
    - [BookCostAuthority], [BookCostAuthorityFacts] (authority.py, policy_registry.py,
      policy_catalog.py): which policy a lot follows; [BookCostSources], [BookCostSourcesFacts]
      (source_facts.py, resolution.py, correction_replay.py): the facts of a lot, their resolution to
      the inputs of a schedule, and the replay a correction asks for.
    - [BookCostProfile], [BookCostProfileFacts], [BookCostMaterialization] (profile.py,
      disposal_basis.py): the persisted schedule of a lot and the book cost its disposals consume.
    - [Timeline], [TimelineFacts], [OrderedAppend] (transaction_ordering.py, transaction_parser.py,
      cost_basis_method.py, processing_checkpoint.py, application/cost_basis_processing/timeline.py):
      the rebuild of a book from its whole history and the append of one transaction to it; they run
      the [Calculator] over the strategies.
    - [Timeseries], [TimeseriesFacts] (portfolio_derived_state_service: position and portfolio
      timeseries): the cash movements, fees and values of a day and their conversion and sum.
    - [Reconciliation], [ReconciliationFacts] (financial_reconciliation_service): the controls that
      recompute cashflows, valuations and portfolio days; they are run against what [Cashflow],
      [PositionValuation] and [Timeseries] calculate.  [DerivedStateExamples]: examples of both.
    - [LinkedLegs], [LinkedLegsFacts], [UpstreamPairs] (cost_basis/corporate_action_reconciliation.py,
      application/corporate_action_reconciliation.py, settlement/upstream_pairing.py): reconciliation
      of the legs of a corporate action and of a product leg with the cash leg supplied for it.
    - [SourceAppend], [ValuationAuthority], [ValuationAuthorityFacts], [PriceAuthorityFacts],
      [ValuationAuthorityExamples] (valuation/assignments.py, valuation/source_facts.py and, of the
      ingestion service, valuation_policy_assignment_writer.py, market_price_source_fact_writer.py and
      reference_data_valuation_policy_dto.py): which policy and price an instrument is valued by; the
      state is the two append-only tables, a step is an accepted batch.
    - [SnapshotValuation], [SnapshotValuationFacts], [SnapshotValuationExamples] (valuation/receipts.py
      and, of the position_valuation_calculator, logic/valuation_logic.py,
      logic/authoritative_valuation.py and the snapshot workflow of valuation_processor.py): how a
      position snapshot is valued, by an assigned policy or by a plain price, and the receipt it is
      published with; it calls [PositionValuation] and the lookups of [ValuationAuthority], and
      [snapshot_evidence] is what the control of [Reconciliation] reads of it.

    Each file names its source modules; definitions keep the source's names where the language allows
    it (a leading underscore is dropped, methods are prefixed where two classes share a name).

    ** How the program is represented

    A decimal is a coefficient and an exponent; [ul d] is its value in units of 10^-10, the storage
    unit, and [stored d] says that NUMERIC(18, 10) holds it exactly.  A raise is a value of [result],
    a mutable object a state; an exception keeps the mutations made before it, as in Python.
    A dictionary is an association list in insertion order.  Six loops carry fuel, and it is
    never exhausted: FIFO consumption has one more than the length of the queue
    ([Fifo.consume_loop_spec]), the loop over calendar years one turn per year of the interval
    ([DayCountFacts.isda_loop_near]), the ex-coupon check one more than the segments of the full
    coupon ([AccruedIncomeFacts.prefix_loop_spec]), the ordering of a graph one turn per node
    ([EventGraphFacts.order_loop_spec]) and its two walks one turn per node and edge
    ([EventGraphWalk.visit_loop_spec], [component_loop_spec]).  Text is ASCII.

    ** What the theorems show

    - Numbers: storability is decided exactly, normalisation is half-even rounding or an overflow
      error, ledger sums are exact or raise, unit costs give their amount back.
    - Receipts: canonical hashes ignore key order; a receipt binds its output and, short of a digest
      collision, no other; payloads round-trip; version chains are accepted exactly when complete.
    - Positions: the reducer refines an integer specification on every branch; a history replays its
      transactions in their precedence and has the balances of that specification, does not depend on
      arrival order and can be resumed at any record; balances stay storable and flat positions carry
      no cost.
    - Lots: restatements are exact or refused; disposal receipts conserve; FIFO consumes the oldest
      lots and conserves quantity and cost along every history; average-cost pools prorate once per
      segment, materialised sources sum to the pool, and a restored checkpoint answers every further
      operation as the exporting engine would.
    - The calculator: on any strategy, evidence is published exactly by calculations that succeed and
      other transactions are untouched; accepted calculations are sealed; on FIFO, sales and
      purchases book what they should, and the ledger of net costs reconciles with the open lots as
      long as purchases fit their book (a purchase that does not is the second defect below).
    - Redemptions and corporate-action cash reconcile proceeds, basis and realised result.
    - Valuation: every day-count convention returns its defining quotient up to rounding in the 50th
      digit and refuses exactly when its evidence is missing; coupon periods are accepted exactly
      when they cover each day once; an ex-coupon adjustment is allowed exactly when every accrued
      day has the terms of the full coupon, and settlement is gross less adjustment; a valuation
      rounds the exact value of its policy once and fills the one measure the policy declares.
    - Event graphs: resolution returns on every declaration, valid exactly when it is well formed and
      acyclic; every node is then ordered, in the least topological order; otherwise the findings are
      exactly the strongly connected components and what waits for them; and none of it depends on
      the order of declaration.
    - Settlement and cashflows: the settled cash refines an integer specification with its
      rejections; the generated leg moves exactly that cash; the cashflows of a redemption and of its
      income component sum to the cashflow of the leg; and a historical rebuild agrees with current
      booking wherever that accepts.
    - Corporate actions: readiness of a manifest is decided by its declared and arrived children
      alone, in whatever order either comes; a ready event executes its source leg first and cash,
      fees and taxes after what they depend on.
    - Amortised cost: accepted schedules are chains of balanced rows that end within tolerance of the
      redemption value; straight-line schedules exist where their sums fit their columns, are monotone
      and end exactly on it.  Assignment windows are accepted exactly when no lookup is ambiguous; a lot
      resolves to a complete bundle of its records in force, fresh and named by the cache key, or to a
      reason; a correction changes nothing before its replay
      date; every accepted schedule becomes a profile; disposals of a lot account for its quantity
      and carrying amount in both currencies.
    - Timelines: a rebuild depends on the set of transactions alone and accounts for each once; the
      checkpoint permits an append exactly when it agrees with the order of a rebuild; an append
      consumes the same lots, at costs within one storage unit.
    - Derived state: position and portfolio days are exact sums rounded once; a published day passes
      its control; the valuation and cashflow controls are decided.
    - Linked legs: a group passes exactly when its basis is conserved; accepted upstream cash legs
      move the settlement amount less their own charges.
    - Valuation authority: in every table the writers can produce each lookup has one answer or none;
      the changes they report bound what has to be valued again; a batch may be sent twice.
    - Snapshots: a snapshot is published with a receipt under an assigned policy, flat, or by a plain
      price; its unrealised result is value less cost and splits exactly into price and currency; and
      what is published with a price passes the valuation control, although the control computes
      in another precision.  The exception to both is a position without quantity outside any policy
      that still carries a cost.

    Eleven theorems are about defects and divergences.  A basis transfer of a few storage units over equal
    lots raises after changing the lots ([FifoBook.fifo_tiny_transfer_raises]); a purchase rejected for
    overflowing the quantity column stays in the queue
    ([CalculatorTrades.refused_purchase_leaves_its_lot]); an admitted yield makes the resolution of a
    lot raise instead of giving a reason ([BookCostSourcesFacts.admitted_yield_raises]); partial
    disposals of a lot worth a few storage units end in a residual that cannot be carried
    ([BookCostMaterialization.tiny_carry_raises]); an append books other costs than the rebuild
    ([OrderedAppend.append_differs_from_rebuild]); an invalid quantity aborts the parsing of a whole
    timeline ([OrderedAppend.invalid_quantity_aborts_parsing]); the cashflow control reports every
    settlement of a corporate action booked as an adjustment
    ([ReconciliationFacts.settlement_adjustment_is_reported]); a bond without quote authority hides a
    stale rate ([ReconciliationFacts.bond_hides_fx_date]); a cash leg of the wrong direction is
    accepted ([UpstreamPairs.wrong_direction_is_accepted]), and one with charges of its own moves less
    than the settlement ([UpstreamPairs.accepted_pair_moves_settlement_amount]); and a position without
    quantity that still carries a cost is published with a result of zero, which the control reports
    ([SnapshotValuationExamples.residual_cost_is_reported]).

    ** Not modelled

    Repositories, message handlers, clocks, SQL models, Kafka clients and the query and control-plane
    services are input and output around this core.  Of the modelled services, runs and findings of a
    reconciliation are not stored and run digests are not computed; the writers' advisory locks are
    left out, as batches are applied one after the other; the claims and statuses of valuation jobs
    and the persistence of snapshots are left out.  Of the domain layer, the validation of
    trades, income and corporate-action children (lists of field-level issues), the
    persisted forms of cost receipts, hash-based payload identities and source observations are not
    modelled.  Of the modelled modules, the coercion of raw text and numbers in the
    CostBasisTransaction constructor and the parsing of raw records (the parser is modelled over typed
    records), the persisted-authority check of the calculator and the linkage part of foreign exchange
    are left out. *)

From Stdlib Require Import ZArith Lia String Ascii List.
From stdpp Require Import base tactics list sorting sets strings.

#[global] Open Scope Z_scope.
#[global] Open Scope list_scope.

(** ** Python exceptions

    One constructor per exception class the modelled code raises.  The message is kept where the
    source builds one; [DecimalSignal] stands for a trapped signal of the [decimal] module.  The amounts
    of [SettlementCashValidationError] are decimals as coefficient and exponent; a message that ends in the
    text of a list or a tuple is kept as its words and the strings [listed]. *)
Inductive decimal_signal := InvalidOperation | DivisionByZero | Overflow.

Inductive DecimalPrecisionViolation := NON_FINITE | EXCESS_SCALE | MAGNITUDE_OVERFLOW.

Inductive AmortizedCostEligibilityReason :=
| ASSIGNMENT_MISSING | ASSIGNMENT_OVERLAPPING | ASSIGNMENT_CONFLICTING | SOURCE_FACT_OVERLAPPING | SOURCE_FACT_CONFLICTING | AUTHORITY_STALE
| CLEAN_COST_EVIDENCE_MISSING | REDEMPTION_VALUE_MISSING | CASHFLOW_SCHEDULE_MISSING | EFFECTIVE_YIELD_MISSING | YIELD_CONVENTION_MISSING
| YIELD_CONVENTION_MISMATCH | PERIOD_RATE_MISSING | POLICY_IDENTITY_MISMATCH | POLICY_UNSUPPORTED | CALCULATION_FAILED
| RESIDUAL_OUTSIDE_TOLERANCE.

Inductive exc :=
| ValueError (msg : string)
| TypeError (msg : string)
| RuntimeError (msg : string)
| ZeroDivisionError (msg : string)
| OverflowError (msg : string)
| KeyError (key : string)
| IndexError (msg : string)
| DecimalSignal (s : decimal_signal)
| DecimalPrecisionError (field_name : string) (v : DecimalPrecisionViolation) (policy_name : string)
| LotRestatementError (msg : string)
| RedemptionCalculationError (code field message : string)
| RedemptionEligibilityError (msg : string)
| CorporateActionCashEconomicsError (msg : string)
| CashAccountRequiredValidationError (reason_code message : string)
| UnsupportedFxRealizedPnlModeError (msg : string)
| UnsupportedDayCountError (msg : string)
| UnsupportedAccruedIncomeError (msg : string)
| UnsupportedValuationError (msg : string)
| UnknownValuationPolicyError (msg : string)
| CashPositionEconomicsError (msg : string)
| SettlementCashValidationError (reason_code field message : string) (available_proceeds fee_amount net_settlement_amount : Z * Z)
| GeneratedCashLegError (field message : string)
| FxValidationError (issues : list (string * string * string))
| IncompleteCorporateActionManifestIdentityError (msg : string)
| AmortizedCostCalculationError (msg : string)
| AmortizedCostReconciliationError (msg : string)
| AmortizedCostDisposalError (msg : string)
| AmortizedCostAuthorityError (msg : string)
| MissingAmortizedCostAssignmentError (msg : string)
| OverlappingAmortizedCostAssignmentError (msg : string) (listed : list string)
| AmortizedCostInputResolutionError (reason : AmortizedCostEligibilityReason) (msg : string) (listed : list string)
| DuplicateAmortizedCostPolicyError (msg : string)
| UnsupportedAmortizedCostPolicyError (msg : string)
| ValuationPolicyAssignmentError (msg : string)
| MissingValuationPolicyAssignmentError (msg : string)
| OverlappingValuationPolicyAssignmentError (msg : string) (listed : list string)
| MarketPriceSourceFactError (msg : string)
| MissingMarketPriceSourceFactError (msg : string)
| OverlappingMarketPriceSourceFactError (msg : string) (listed : list string)
| PositionSnapshotNotValuedError (msg : string)
| InvalidPortfolioPositionContribution (msg : string)
| InvalidPortfolioAggregationScope (msg : string)
| PortfolioContributionScopeMismatch (msg : string)
| PortfolioContributionWindowMismatch (msg : string)
| DuplicatePortfolioPositionContribution (msg : string)
| CurrencyReferenceNotFoundError (msg : string)
| FxRateNotFoundError (msg : string)
| InstrumentReferenceNotFoundError (msg : string)
| UpstreamCashLegPairingError (issues : list (string * string))
| PositionHandlerMissingError (portfolio_id transaction_id transaction_type position_effect : string)
| PositionHistoryInvariantError (msg : string).

#[export] Instance violation_eq_dec : EqDecision DecimalPrecisionViolation.
Proof. solve_decision. Defined.
#[export] Instance signal_eq_dec : EqDecision decimal_signal.
Proof. solve_decision. Defined.
#[export] Instance eligibility_reason_eq_dec : EqDecision AmortizedCostEligibilityReason.
Proof. solve_decision. Defined.
#[export] Instance exc_eq_dec : EqDecision exc.
Proof. solve_decision. Defined.

(** ** The error monad: a Python expression either returns or raises *)
Inductive result (A : Type) := Ok (a : A) | Raise (e : exc).
Arguments Ok {A} a.
Arguments Raise {A} e.

#[export] Instance result_eq_dec `{EqDecision A} : EqDecision (result A).
Proof. solve_decision. Defined.

#[export] Instance result_ret : MRet result := fun A a => Ok a.
#[export] Instance result_bind : MBind result := fun A B f m =>
  match m with Ok a => f a | Raise e => Raise e end.

Definition is_ok {A} (m : result A) : bool := match m with Ok _ => true | Raise _ => false end.

(** [raise_if b e] is [if b: raise e]. *)
Definition raise_if (b : bool) (e : exc) : result unit := if b then Raise e else Ok tt.

Lemma bind_Ok {A B} (m : result A) (f : A -> result B) b :
  (m ≫= f) = Ok b <-> exists a, m = Ok a /\ f a = Ok b.
Proof. destruct m; simpl; naive_solver. Qed.

Lemma bind_ret {A B} (a : A) (f : A -> result B) : (Ok a ≫= f) = f a.
Proof. reflexivity. Qed.

Lemma raise_if_Ok b e u : raise_if b e = Ok u <-> b = false.
Proof. destruct b, u; simpl; naive_solver. Qed.

(** A left fold whose step may raise: [for x in xs: acc = f(acc, x)]. *)
Fixpoint foldM {A B} (f : A -> B -> result A) (acc : A) (xs : list B) : result A :=
  match xs with
  | [] => Ok acc
  | x :: xs' => f acc x ≫= fun acc' => foldM f acc' xs'
  end.

(** [mapM]: a comprehension whose element expression may raise. *)
Fixpoint mapR {A B} (f : A -> result B) (xs : list A) : result (list B) :=
  match xs with
  | [] => Ok []
  | x :: xs' => f x ≫= fun y => mapR f xs' ≫= fun ys => Ok (y :: ys)
  end.

Lemma mapR_Forall2 {A B} (f : A -> result B) xs ys :
  mapR f xs = Ok ys <-> Forall2 (fun x y => f x = Ok y) xs ys.
Proof.
  revert ys; induction xs as [|x xs IH]; intros ys; simpl.
  - split; [intros [= <-]; constructor | inversion 1; done].
  - split.
    + intros (y & Hy & (ys' & Hys & [= <-])%bind_Ok)%bind_Ok. constructor; [done|by apply IH].
    + inversion 1 as [|? y ? ys' Hy Hys]; subst. rewrite Hy; simpl.
      by rewrite (proj2 (IH _) Hys).
Qed.

Lemma Forall2_elem_of_r {A B} (P : A -> B -> Prop) l k y :
  Forall2 P l k -> y ∈ k -> exists x, x ∈ l /\ P x y.
Proof.
  induction 1 as [|x z l k Hxz HF IH]; [by intros ?%elem_of_nil|]. intros [->|Hy]%elem_of_cons.
  - exists x. split; [by left|done].
  - destruct (IH Hy) as (x' & ? & ?). exists x'. split; [by right|done].
Qed.

Lemma mapR_length {A B} (f : A -> result B) xs ys : mapR f xs = Ok ys -> length ys = length xs.
Proof. intros H%mapR_Forall2. symmetry. by eapply Forall2_length. Qed.

(** ** The state-and-error monad

    A method of a mutable Python object: the state survives an exception, with every mutation made
    before the [raise] still in place. *)
Definition st (S A : Type) : Type := S -> result A * S.

#[export] Instance st_ret S : MRet (st S) := fun A a s => (Ok a, s).
#[export] Instance st_bind S : MBind (st S) := fun A B f m s =>
  match m s with (Ok a, s') => f a s' | (Raise e, s') => (Raise e, s') end.

Definition st_lift {S A} (m : result A) : st S A := fun s => (m, s).
Definition st_get {S} : st S S := fun s => (Ok s, s).
Definition st_put {S} (s' : S) : st S unit := fun _ => (Ok tt, s').
Definition st_modify {S} (f : S -> S) : st S unit := fun s => (Ok tt, f s).

Lemma st_bind_Ok {S A B} (m : st S A) (f : A -> st S B) s b s' :
  (m ≫= f) s = (Ok b, s') <-> exists a s1, m s = (Ok a, s1) /\ f a s1 = (Ok b, s').
Proof. unfold mbind, st_bind. destruct (m s) as [[]]; naive_solver. Qed.

(** Forward execution. *)
Lemma st_bind_run {S A B} (m : st S A) (f : A -> st S B) s a s1 :
  m s = (Ok a, s1) -> (m ≫= f) s = f a s1.
Proof. unfold mbind, st_bind. by intros ->. Qed.

Lemma st_lift_run {S A B} (x : result A) (f : A -> st S B) s a :
  x = Ok a -> (st_lift x ≫= f) s = f a s.
Proof. intros ->. done. Qed.

Lemma st_get_run {S B} (f : S -> st S B) s : (st_get ≫= f) s = f s s.
Proof. done. Qed.

Lemma st_modify_run {S B} (g : S -> S) (f : unit -> st S B) s : (st_modify g ≫= f) s = f tt (g s).
Proof. done. Qed.

(** [for x in xs: body(x)] in the state monad. *)
Fixpoint st_iter {S B} (body : B -> st S unit) (xs : list B) : st S unit :=
  match xs with
  | [] => mret tt
  | x :: xs' => body x ≫= fun _ => st_iter body xs'
  end.

(** [[f(x) for x in xs]] in the state monad. *)
Fixpoint st_map {S A B} (f : A -> st S B) (xs : list A) : st S (list B) :=
  match xs with
  | [] => mret []
  | x :: xs' => f x ≫= fun y => st_map f xs' ≫= fun ys => mret (y :: ys)
  end.

(** ** Tactics *)

(** Break a successful monadic computation in the hypotheses into its steps. *)
Ltac inv_ok :=
  repeat match goal with
  | H : Ok _ = Ok _ |- _ => injection H as H; subst
  | H : Raise _ = Ok _ |- _ => discriminate H
  | H : Ok _ = Raise _ |- _ => discriminate H
  | H : mret _ = Ok _ |- _ => injection H as H; subst
  | H : (Ok _, _) = (Ok _, _) |- _ => injection H; clear H; intros; subst
  | H : (Raise _, _) = (Ok _, _) |- _ => discriminate H
  | H : (_ ≫= _) = Ok _ |- _ => apply bind_Ok in H as (? & ? & H)
  | H : (_ ≫= _) _ = (Ok _, _) |- _ => apply st_bind_Ok in H as (? & ? & ? & H)
  | H : raise_if _ _ = Ok _ |- _ => apply raise_if_Ok in H
  end.

(** Run the steps of the goal whose results are known. *)
Ltac run_ok :=
  repeat match goal with
  | H : ?m = Ok _ |- context [?m] => rewrite H; cbn [mbind result_bind]
  end.

(** Case analysis on the first [if] scrutinee found, keeping the equation. *)
Ltac case_if H :=
  match goal with
  | |- context [if ?b then _ else _] => destruct b eqn:H
  end.

Ltac case_if_in K H :=
  match type of K with
  | context [if ?b then _ else _] => destruct b eqn:H
  end.

Create HintDb lotus discriminated.
Create Rewrite HintDb lotus.
#[export] Hint Constructors Forall Forall2 : lotus.

Lemma mapR_app {A B} (f : A -> result B) xs ys us vs :
  mapR f xs = Ok us -> mapR f ys = Ok vs -> mapR f (xs ++ ys) = Ok (us ++ vs).
Proof. rewrite !mapR_Forall2. apply Forall2_app. Qed.

Lemma mapR_ext {A B} (f g : A -> result B) xs : (forall x, x ∈ xs -> f x = g x) -> mapR f xs = mapR g xs.
Proof.
  induction xs as [|x xs IH]; intros E; [done|]. simpl. rewrite (E x) by set_solver.
  rewrite IH by set_solver. done.
Qed.

Lemma mapR_perm {A B} (f : A -> result B) xs ys us :
  xs ≡ₚ ys -> mapR f xs = Ok us -> exists vs, mapR f ys = Ok vs /\ us ≡ₚ vs.
Proof.
  intros Hp. revert us. induction Hp as [|x xs ys Hp IH|x y xs|xs ys zs Hp1 IH1 Hp2 IH2]; intros us H; simpl in *.
  - inv_ok. by exists [].
  - inv_ok. edestruct IH as (vs & -> & Hvs); [done|]. run_ok. eexists. split; [done|]. by constructor.
  - inv_ok. run_ok. eexists. split; [done|]. constructor.
  - destruct (IH1 _ H) as (vs & H1 & Hp3). destruct (IH2 _ H1) as (ws & H2 & Hp4). exists ws. split; [done|]. by rewrite Hp3.
Qed.

(** ** Lists filtered and flattened by booleans *)

Lemma app_nil {A} (xs ys : list A) : (xs ++ ys)%list = [] <-> xs = [] /\ ys = [].
Proof. split; [apply app_eq_nil|by intros [-> ->]]. Qed.

Lemma filter_nil {A} (f : A -> bool) l : List.filter f l = [] <-> forall x, x ∈ l -> f x = false.
Proof.
  induction l as [|x l IH]; cbn [List.filter]; [split; [intros _ x Hx; by apply elem_of_nil in Hx|done]|].
  destruct (f x) eqn:E; [split; [done|]; intros Hf; by rewrite Hf in E by set_solver|]. rewrite IH. set_solver.
Qed.

Lemma filter_perm {A} (f : A -> bool) xs ys : xs ≡ₚ ys -> List.filter f xs ≡ₚ List.filter f ys.
Proof. induction 1 as [|x xs ys _ IH|x y xs|xs ys zs _ IH1 _ IH2]; cbn [List.filter]; [done| | |by rewrite IH1].
  - destruct (f x); by rewrite IH.
  - destruct (f x), (f y); try done. apply Permutation_swap.
Qed.

Lemma flat_map_nil {A B} (f : A -> list B) l : flat_map f l = [] <-> forall x, x ∈ l -> f x = [].
Proof.
  induction l as [|x l IH]; cbn [flat_map]; [split; [intros _ x Hx; by apply elem_of_nil in Hx|done]|]. rewrite app_nil, IH. set_solver.
Qed.

Lemma flat_map_ext_all {A B} (f g : A -> list B) l : (forall x, f x = g x) -> flat_map f l = flat_map g l.
Proof. intros E. induction l as [|x l IH]; [done|]. cbn [flat_map]. by rewrite E, IH. Qed.

(** ** Python strings (ASCII text) *)

(** Characters removed by [str.strip()]: tab..carriage return, 0x1c..0x1f and space. *)
Definition is_space (c : ascii) : bool :=
  let n := N_of_ascii c in
  ((9 <=? n)%N && (n <=? 13)%N) || ((28 <=? n)%N && (n <=? 32)%N).

Definition to_upper (c : ascii) : ascii :=
  let n := N_of_ascii c in
  if (97 <=? n)%N && (n <=? 122)%N then ascii_of_N (n - 32) else c.

Definition to_lower (c : ascii) : ascii :=
  let n := N_of_ascii c in
  if (65 <=? n)%N && (n <=? 90)%N then ascii_of_N (n + 32) else c.

Definition is_alpha (c : ascii) : bool :=
  let n := N_of_ascii c in
  ((65 <=? n)%N && (n <=? 90)%N) || ((97 <=? n)%N && (n <=? 122)%N).

Fixpoint string_map (f : ascii -> ascii) (s : string) : string :=
  match s with EmptyString => EmptyString | String c s' => String (f c) (string_map f s') end.

Fixpoint string_forallb (f : ascii -> bool) (s : string) : bool :=
  match s with EmptyString => true | String c s' => f c && string_forallb f s' end.

Fixpoint lstrip (s : string) : string :=
  match s with
  | EmptyString => EmptyString
  | String c s' => if is_space c then lstrip s' else s
  end.

Fixpoint rstrip (s : string) : string :=
  match s with
  | EmptyString => EmptyString
  | String c s' =>
      match rstrip s' with
      | EmptyString => if is_space c then EmptyString else String c EmptyString
      | r => String c r
      end
  end.

Definition strip (s : string) : string := rstrip (lstrip s).
Definition upper (s : string) : string := string_map to_upper s.
Definition lower (s : string) : string := string_map to_lower s.

(** Truthiness of a string: [bool(s)]. *)
Definition truthy (s : string) : bool := match s with EmptyString => false | _ => true end.

(** [value or default] for an optional string. *)
Definition or_text (v : option string) (default : string) : string :=
  match v with Some s => if truthy s then s else default | None => default end.

(** [s in {...}] for a set of string literals. *)
Definition in_set (s : string) (xs : list string) : bool := existsb (String.eqb s) xs.

Lemma in_set_true s xs : in_set s xs = true <-> In s xs.
Proof.
  unfold in_set. rewrite existsb_exists. split.
  - intros (x & Hx & ->%String.eqb_eq). done.
  - intros H. exists s. by rewrite String.eqb_refl.
Qed.

Lemma in_set_false s xs : in_set s xs = false <-> ~ In s xs.
Proof. rewrite <- in_set_true. by destruct (in_set s xs). Qed.

Lemma lstrip_cases s : lstrip s = ""%string \/ exists c r, lstrip s = String c r /\ is_space c = false.
Proof.
  induction s as [|c s IH]; simpl; [by left|].
  destruct (is_space c) eqn:E; [done|]. right. by exists c, s.
Qed.

Lemma rstrip_head c s : is_space c = false -> exists r, rstrip (String c s) = String c r.
Proof. intros E. simpl. destruct (rstrip s); [rewrite E|]; eauto. Qed.

Lemma lstrip_head c s : is_space c = false -> lstrip (String c s) = String c s.
Proof. intros E. simpl. by rewrite E. Qed.

Lemma rstrip_idem s : rstrip (rstrip s) = rstrip s.
Proof.
  induction s as [|c s IH]; [done|]. simpl.
  destruct (rstrip s) as [|d r] eqn:E.
  - destruct (is_space c) eqn:F; [done|]. simpl. by rewrite F.
  - change (match rstrip (String d r) with
            | EmptyString => if is_space c then EmptyString else String c EmptyString
            | r => String c r end = String c (String d r)).
    by rewrite IH.
Qed.

Lemma strip_truthy c s : is_space c = false -> truthy (strip (String c s)) = true.
Proof. intros E. unfold strip. rewrite lstrip_head by done. by destruct (rstrip_head c s E) as [r ->]. Qed.

(** [strip] is idempotent: a normalised code is a fixed point of normalisation. *)
Lemma strip_idem s : strip (strip s) = strip s.
Proof.
  unfold strip. destruct (lstrip_cases s) as [-> | (c & r & -> & E)]; [done|].
  destruct (rstrip_head c r E) as [r' Hr]. rewrite Hr.
  rewrite lstrip_head by done. rewrite <- Hr. apply rstrip_idem.
Qed.

Lemma to_upper_idem c : to_upper (to_upper c) = to_upper c.
Proof. destruct c as [[] [] [] [] [] [] [] []]; reflexivity. Qed.

Lemma is_space_upper c : is_space (to_upper c) = is_space c.
Proof. destruct c as [[] [] [] [] [] [] [] []]; reflexivity. Qed.

Lemma upper_idem s : upper (upper s) = upper s.
Proof. unfold upper. induction s as [|c s IH]; simpl; [done|]. by rewrite to_upper_idem, IH. Qed.

Lemma lstrip_upper s : lstrip (upper s) = upper (lstrip s).
Proof. unfold upper. induction s as [|c s IH]; simpl; [done|]. rewrite is_space_upper. by destruct (is_space c). Qed.

Lemma rstrip_upper s : rstrip (upper s) = upper (rstrip s).
Proof.
  unfold upper. induction s as [|c s IH]; simpl; [done|]. rewrite IH, is_space_upper.
  destruct (rstrip s); simpl; [by destruct (is_space c)|done].
Qed.

Lemma strip_upper s : strip (upper s) = upper (strip s).
Proof. unfold strip. by rewrite lstrip_upper, rstrip_upper. Qed.

(** [str(value or "").strip().upper()], the normalisation every control code goes through. *)
Definition normalize_code (v : option string) : string := upper (strip (or_text v "")).

Lemma normalize_code_idem v : normalize_code (Some (normalize_code v)) = normalize_code v.
Proof.
  assert (Hs : forall s, or_text (Some s) "" = s) by (intros []; done).
  unfold normalize_code at 1. rewrite Hs. unfold normalize_code.
  by rewrite strip_upper, strip_idem, upper_idem.
Qed.

#[export] Hint Rewrite strip_idem upper_idem normalize_code_idem : lotus.

(** ** Python's stable [sorted] *)

Section StableSort.
Context {A : Type} (leb : A -> A -> bool).

Fixpoint insert_sorted (x : A) (l : list A) : list A :=
  match l with
  | [] => [x]
  | y :: l' => if leb x y then x :: y :: l' else y :: insert_sorted x l'
  end.

(** Insertion from the right keeps equal elements in their input order. *)
Definition stable_sort (l : list A) : list A := foldr insert_sorted [] l.

Lemma insert_sorted_perm x l : insert_sorted x l ≡ₚ x :: l.
Proof. induction l as [|y l IH]; simpl; [done|]. destruct (leb x y); [done|]. rewrite IH. constructor. Qed.

Lemma stable_sort_perm l : stable_sort l ≡ₚ l.
Proof. induction l as [|x l IH]; simpl; [done|]. by rewrite insert_sorted_perm, IH. Qed.

Context (leb_total : forall x y, leb x y = true \/ leb y x = true)
        (leb_trans : forall x y z, leb x y = true -> leb y z = true -> leb x z = true).
Let R x y := leb x y = true.

Lemma insert_sorted_sorted x l : StronglySorted R l -> StronglySorted R (insert_sorted x l).
Proof.
  induction 1 as [|y l Hl IH Hy]; simpl; [by repeat constructor|].
  destruct (leb x y) eqn:E.
  - constructor; [by constructor|]. constructor; [done|]. eapply Forall_impl; [exact Hy|]. intros z. by apply leb_trans.
  - constructor; [done|]. rewrite insert_sorted_perm. constructor; [|done].
    destruct (leb_total x y); [unfold R in *; congruence|done].
Qed.

Lemma stable_sort_sorted l : StronglySorted R (stable_sort l).
Proof. induction l; simpl; [constructor|by apply insert_sorted_sorted]. Qed.

(** Sorting an input whose first part precedes its second sorts the parts separately. *)
Lemma insert_sorted_app x l r :
  Forall (fun y => R x y) r -> insert_sorted x (l ++ r) = insert_sorted x l ++ r.
Proof.
  intros Hr. induction l as [|y l IH]; simpl.
  - destruct r as [|z r]; [done|]. simpl. by rewrite (proj1 (proj1 (Forall_cons _ _ _) Hr)).
  - destruct (leb x y); [done|]. by rewrite IH.
Qed.

Lemma stable_sort_app l r :
  Forall (fun x => Forall (fun y => R x y) r) l -> stable_sort (l ++ r) = stable_sort l ++ stable_sort r.
Proof.
  induction 1 as [|x l Hx Hl IH]; simpl; [done|]. rewrite IH. apply insert_sorted_app.
  by rewrite stable_sort_perm.
Qed.

(** The order of the input does not matter when ties are impossible. *)
Lemma stable_sort_perm_eq l l' :
  (forall x y, x ∈ l -> y ∈ l -> leb x y = true -> leb y x = true -> x = y) ->
  l ≡ₚ l' -> stable_sort l = stable_sort l'.
Proof.
  intros Hanti Hp. apply StronglySorted_unique_strong with R; try apply stable_sort_sorted.
  - intros x y Hx Hy. rewrite stable_sort_perm in Hx, Hy. rewrite <- Hp in Hy. by apply Hanti.
  - by rewrite !stable_sort_perm.
Qed.
End StableSort.

(** ** String order *)

Definition string_leb (s t : string) : bool := match String.compare s t with Gt => false | _ => true end.

Lemma ascii_compare_trans_lt a b c : Ascii.compare a b = Lt -> Ascii.compare b c = Lt -> Ascii.compare a c = Lt.
Proof. unfold Ascii.compare. rewrite !N.compare_lt_iff. apply N.lt_trans. Qed.

Lemma ascii_compare_refl a : Ascii.compare a a = Eq.
Proof. apply N.compare_refl. Qed.

Lemma string_leb_total s t : string_leb s t = true \/ string_leb t s = true.
Proof. unfold string_leb. rewrite (String.compare_antisym t s). destruct (String.compare s t); simpl; auto. Qed.

Lemma string_leb_antisym s t : string_leb s t = true -> string_leb t s = true -> s = t.
Proof.
  unfold string_leb. rewrite (String.compare_antisym t s).
  destruct (String.compare s t) eqn:E; simpl; intros; try done. by apply String.compare_eq_iff.
Qed.

Lemma string_leb_trans s t u : string_leb s t = true -> string_leb t u = true -> string_leb s u = true.
Proof.
  revert t u. induction s as [|a s IH]; intros [|b t] [|c u]; try done. unfold string_leb in *; simpl.
  destruct (Ascii.compare a b) eqn:E1; [|intros _|done].
  - apply Ascii.compare_eq_iff in E1 as ->. intros H1. destruct (Ascii.compare b c); [|done|done]. by apply IH.
  - destruct (Ascii.compare b c) eqn:E2; [|intros _|done].
    + apply Ascii.compare_eq_iff in E2 as ->. by rewrite E1.
    + by rewrite (ascii_compare_trans_lt _ _ _ E1 E2).
Qed.

Lemma string_leb_not_gt s t : string_leb s t = true <-> String.compare s t <> Gt.
Proof. unfold string_leb. by destruct (String.compare s t). Qed.

#[export] Hint Resolve string_leb_total string_leb_antisym : lotus.

(** ** Comparison functions

    Python compares tuples lexicographically; [lex] builds the order of a sort key from the orders of
    its components. *)
Class Comparer {A} (c : A -> A -> comparison) := {
  comparer_sym : forall x y, c y x = CompOpp (c x y);
  comparer_trans : forall x y z, c x y <> Gt -> c y z <> Gt -> c x z <> Gt
}.

Arguments comparer_sym {A} c {_} x y.
Arguments comparer_trans {A} c {_} x y z.

Definition lex (c1 c2 : comparison) : comparison := match c1 with Eq => c2 | _ => c1 end.

Definition leb_of {A} (c : A -> A -> comparison) (x y : A) : bool := match c x y with Gt => false | _ => true end.

#[export] Instance Z_comparer : Comparer Z.compare.
Proof.
  split; [intros; apply Z.compare_antisym|]. intros x y z. rewrite !Z.compare_gt_iff. lia.
Qed.

#[export] Instance string_comparer : Comparer String.compare.
Proof.
  split; [intros; by rewrite String.compare_antisym|]. intros x y z.
  rewrite <- !string_leb_not_gt. apply string_leb_trans.
Qed.

#[export] Instance on_comparer {A B} (f : A -> B) c :
  Comparer c -> Comparer (fun x y => c (f x) (f y)).
Proof. intros [Hs Ht]. split; [done|]. intros x y z. apply Ht. Qed.

Section Comparer.
Context {A : Type} (c : A -> A -> comparison) `{!Comparer c}.

Lemma comparer_eq x y z : c x y = Eq -> c x z = c y z.
Proof.
  intros E. assert (E' : c y x = Eq) by (rewrite (comparer_sym c x y), E; done).
  pose proof (comparer_trans c x y z) as H1. pose proof (comparer_trans c y x z) as H2.
  pose proof (comparer_trans c z x y) as H3. pose proof (comparer_trans c z y x) as H4.
  rewrite (comparer_sym c y z), (comparer_sym c x z) in H3, H4. rewrite E in H1, H3. rewrite E' in H2, H4.
  destruct (c x z), (c y z); simpl in *; naive_solver.
Qed.

Lemma leb_of_total x y : leb_of c x y = true \/ leb_of c y x = true.
Proof. unfold leb_of. rewrite (comparer_sym c x y). destruct (c x y); auto. Qed.

Lemma leb_of_trans x y z : leb_of c x y = true -> leb_of c y z = true -> leb_of c x z = true.
Proof.
  intros H1 H2. pose proof (comparer_trans c x y z) as H. unfold leb_of in *.
  destruct (c x y), (c y z), (c x z); naive_solver.
Qed.

Lemma leb_of_antisym x y : leb_of c x y = true -> leb_of c y x = true -> c x y = Eq.
Proof. unfold leb_of. rewrite (comparer_sym c x y). by destruct (c x y). Qed.

(** The order of the rest decides where the first components tie. *)
Lemma lex_trans x y z r1 r2 r3 : (r1 <> Gt -> r2 <> Gt -> r3 <> Gt) ->
  lex (c x y) r1 <> Gt -> lex (c y z) r2 <> Gt -> lex (c x z) r3 <> Gt.
Proof.
  intros Hd H1 H2. unfold lex in *. pose proof (comparer_trans c x y z) as Ht.
  destruct (c x y) eqn:E1.
  - rewrite (comparer_eq x y z E1). destruct (c y z); [|done|done]. by apply Hd.
  - destruct (c y z) eqn:E2; [| |done].
    + rewrite (comparer_sym c z x), (comparer_eq z y x), <- (comparer_sym c y x), E1; [done|].
      by rewrite (comparer_sym c y z), E2.
    + destruct (c x z) eqn:E3; [|done|by destruct Ht].
      exfalso. rewrite (comparer_eq x z y E3), (comparer_sym c y z), E2 in E1. done.
  - done.
Qed.

#[export] Instance lex_comparer d : Comparer d -> Comparer (fun x y => lex (c x y) (d x y)).
Proof.
  intros Hd. split.
  - intros x y. rewrite (comparer_sym c x y), (comparer_sym d x y). by destruct (c x y).
  - intros x y z. apply lex_trans, (comparer_trans d x y z).
Qed.
End Comparer.

(** ** Insertion-ordered dictionaries

    A Python [dict] as an association list in insertion order with one entry per key. *)
Section ODict.
Context {K V : Type} `{EqDecision K}.

Fixpoint od_get (k : K) (d : list (K * V)) : option V :=
  match d with
  | [] => None
  | (k', v) :: d' => if decide (k = k') then Some v else od_get k d'
  end.

(** [d[k] = v]: replace in place, or append. *)
Fixpoint od_set (k : K) (v : V) (d : list (K * V)) : list (K * V) :=
  match d with
  | [] => [(k, v)]
  | (k', v') :: d' => if decide (k = k') then (k', v) :: d' else (k', v') :: od_set k v d'
  end.

(** [d.pop(k, None)] leaves the other entries in order. *)
Fixpoint od_del (k : K) (d : list (K * V)) : list (K * V) :=
  match d with
  | [] => []
  | (k', v') :: d' => if decide (k = k') then d' else (k', v') :: od_del k d'
  end.

Definition od_get_default (def : V) (k : K) (d : list (K * V)) : V := default def (od_get k d).

Lemma od_get_set k v d : od_get k (od_set k v d) = Some v.
Proof. induction d as [|[k' v'] d IH]; simpl; repeat (case_decide; simpl); congruence. Qed.

Lemma od_get_set_ne k k' v d : k <> k' -> od_get k (od_set k' v d) = od_get k d.
Proof. intros Hne. induction d as [|[j w] d IH]; simpl; repeat (case_decide; simpl); congruence. Qed.

Lemma od_get_None k d : od_get k d = None <-> k ∉ d.*1.
Proof.
  induction d as [|[j w] d IH]; simpl; [split; [intros _; apply not_elem_of_nil|done]|].
  rewrite not_elem_of_cons. case_decide; [subst; naive_solver|]. naive_solver.
Qed.

Lemma od_get_elem k v d : od_get k d = Some v -> (k, v) ∈ d.
Proof.
  induction d as [|[k' v'] d IH]; simpl; [done|]. case_decide; [intros [= ->]; subst; by left|]. right. by apply IH.
Qed.

Lemma od_get_of_elem k v d : NoDup d.*1 -> (k, v) ∈ d -> od_get k d = Some v.
Proof.
  induction d as [|[k' v'] d IH]; cbn [fmap list_fmap]; [by intros _ ?%elem_of_nil|].
  rewrite NoDup_cons, elem_of_cons. intros [Hn Hd] [[= -> ->]|Hk]; simpl; [by rewrite decide_True|].
  rewrite decide_False; [by apply IH|]. intros ->. destruct Hn. by apply (list_elem_of_fmap_2 fst) in Hk.
Qed.

Lemma od_set_keys k v d : (od_set k v d).*1 = if decide (k ∈ d.*1) then d.*1 else d.*1 ++ [k].
Proof.
  induction d as [|[j w] d IH]; [done|]. cbn [od_set].
  destruct (decide (k = j)) as [->|Hne]; cbn [fmap list_fmap fst].
  - rewrite decide_True by set_solver. done.
  - rewrite IH. destruct (decide (k ∈ d.*1)).
    + rewrite decide_True by set_solver. done.
    + rewrite decide_False by set_solver. done.
Qed.

Lemma od_set_NoDup k v d : NoDup d.*1 -> NoDup (od_set k v d).*1.
Proof.
  intros Hd. rewrite od_set_keys. case_decide; [done|]. apply NoDup_app. split; [done|].
  split; [set_solver|]. apply NoDup_singleton.
Qed.

Lemma od_set_fresh k v d : k ∉ d.*1 -> od_set k v d = (d ++ [(k, v)])%list.
Proof.
  induction d as [|[k' v'] d IH]; intros Hk; [done|]. cbn in Hk. cbn [od_set]. rewrite decide_False by set_solver.
  cbn [app]. rewrite IH; [done|]. set_solver.
Qed.

Lemma od_get_app k d d' : k ∉ d.*1 -> od_get k (d ++ d') = od_get k d'.
Proof.
  induction d as [|[k' v'] d IH]; intros Hk; [done|]. cbn in Hk. cbn. rewrite decide_False by set_solver. apply IH. set_solver.
Qed.

Lemma od_set_app k v d d' : k ∉ d.*1 -> od_set k v (d ++ d') = (d ++ od_set k v d')%list.
Proof.
  induction d as [|[k' v'] d IH]; intros Hk; [done|]. cbn in Hk. cbn. rewrite decide_False by set_solver. rewrite IH by set_solver. done.
Qed.

Lemma od_get_del_ne k k' d : k <> k' -> od_get k (od_del k' d) = od_get k d.
Proof.
  intros Hne. induction d as [|[j w] d IH]; cbn [od_del od_get]; [done|].
  destruct (decide (k' = j)) as [<-|Hj]; [by rewrite decide_False|]. cbn [od_get]. by rewrite IH.
Qed.

Lemma od_del_keys k d : (od_del k d).*1 ⊆ d.*1.
Proof. induction d as [|[j w] d IH]; cbn; [done|]. case_decide; cbn; set_solver. Qed.

Lemma od_del_NoDup k d : NoDup d.*1 -> NoDup (od_del k d).*1.
Proof.
  induction d as [|[j w] d IH]; [done|]. cbn [fmap list_fmap fst od_del]. intros [Hj Hd]%NoDup_cons.
  case_decide; [done|]. apply NoDup_cons. split; [|by apply IH]. intros Hin. by apply Hj, (od_del_keys k).
Qed.

Lemma od_get_del k d : NoDup d.*1 -> od_get k (od_del k d) = None.
Proof.
  induction d as [|[j w] d IH]; [done|]. cbn [fmap list_fmap fst od_del]. intros [Hj Hd]%NoDup_cons.
  case_decide as E; [subst; by apply od_get_None|]. cbn [od_get]. rewrite decide_False by done. by apply IH.
Qed.
End ODict.
