(* ===== verification/PyDecimal.v ===== *)
(** * Python's [decimal.Decimal] under a context

    The exact arithmetic every financial calculation of the repository runs on: a finite decimal is
    an integer coefficient with a power-of-ten exponent, an operation computes the exact result and
    rounds it once to the precision of the active context ([Decimal._fix]), and the signals
    [InvalidOperation], [DivisionByZero] and [Overflow] are trapped, as in Python's default context.

    A zero carries no sign here: comparisons and arithmetic of the modelled code never distinguish
    [Decimal("-0")] from [Decimal("0")].  [dval] gives a decimal its rational value; two decimals
    are equal in Python exactly when their values are ([deqb_spec]). *)

From Stdlib Require Import ZArith Lia QArith Qabs Qpower Lqa String Ascii.
From stdpp Require Import base tactics list strings.
From S2P Require Import Prelude.

#[global] Open Scope Z_scope.

(** ** Data *)

Record decimal := Dec { dcoeff : Z; dexp : Z }.

(** What a [Decimal] variable may hold before a finiteness check. *)
Inductive number := Finite (d : decimal) | Infinity (negative : bool) | NaN.
Coercion Finite : decimal >-> number.

Inductive rounding_mode := ROUND_HALF_EVEN | ROUND_DOWN.

Record context := Context { prec : Z; rounding : rounding_mode; Emin : Z; Emax : Z }.

Definition Etiny (ctx : context) : Z := Emin ctx - prec ctx + 1.
Definition Etop (ctx : context) : Z := Emax ctx - prec ctx + 1.

(** [Context(prec=p, rounding=r)] and the ambient default context. *)
Definition make_context (p : Z) (r : rounding_mode) : context := Context p r (-999999) 999999.
Definition default_context : context := make_context 28 ROUND_HALF_EVEN.

#[export] Instance decimal_eq_dec : EqDecision decimal.
Proof. solve_decision. Defined.
#[export] Instance number_eq_dec : EqDecision number.
Proof. solve_decision. Defined.
#[export] Instance rounding_eq_dec : EqDecision rounding_mode.
Proof. solve_decision. Defined.

Definition dzero : decimal := Dec 0 0.
Definition d_one : decimal := Dec 1 0.
Definition dint (n : Z) : decimal := Dec n 0.

(** ** Digit counting and coefficient rounding *)

Fixpoint ndigits_fuel (fuel : nat) (n : Z) : Z :=
  match fuel with
  | O => 1
  | S f => if n <? 10 then 1 else 1 + ndigits_fuel f (n / 10)
  end.

(** [len(self._int)]: the number of decimal digits of a coefficient, 1 for zero. *)
Definition ndigits (c : Z) : Z := ndigits_fuel (Z.to_nat (Z.log2 (Z.abs c))) (Z.abs c).

(** Round the quotient [|c| / p] by the mode; the result is the new magnitude. *)
Definition round_magnitude (mode : rounding_mode) (a p : Z) : Z :=
  let q := a / p in
  let r := a mod p in
  match mode with
  | ROUND_DOWN => q
  | ROUND_HALF_EVEN =>
      match 2 * r ?= p with
      | Lt => q
      | Gt => q + 1
      | Eq => if Z.even q then q else q + 1
      end
  end.

Definition round_coeff (mode : rounding_mode) (c p : Z) : Z :=
  Z.sgn c * round_magnitude mode (Z.abs c) p.

(** [Decimal._fix]: round a finite result to the context. *)
Definition dfix (ctx : context) (d : decimal) : result decimal :=
  let '(Dec c e) := d in
  if c =? 0 then Ok (Dec 0 (Z.min (Z.max e (Etiny ctx)) (Emax ctx))) else
  let exp_min := ndigits c + e - prec ctx in
  if Etop ctx <? exp_min then Raise (DecimalSignal Overflow) else
  let exp_min := Z.max exp_min (Etiny ctx) in
  if e <? exp_min then
    let c' := round_coeff (rounding ctx) c (10 ^ (exp_min - e)) in
    let '(c'', e'') := if 10 ^ prec ctx <=? Z.abs c' then (Z.quot c' 10, exp_min + 1) else (c', exp_min) in
    if Etop ctx <? e'' then Raise (DecimalSignal Overflow) else Ok (Dec c'' e'')
  else Ok (Dec c e).

(** The coefficient of a decimal rescaled to a smaller or equal exponent. *)
Definition align (d : decimal) (e : Z) : Z := dcoeff d * 10 ^ (dexp d - e).

(** ** Arithmetic *)

Definition add_exact (x y : decimal) : decimal :=
  let e := Z.min (dexp x) (dexp y) in Dec (align x e + align y e) e.

Definition neg_exact (x : decimal) : decimal := Dec (- dcoeff x) (dexp x).

Definition mul_exact (x y : decimal) : decimal := Dec (dcoeff x * dcoeff y) (dexp x + dexp y).

Definition dadd (ctx : context) (x y : decimal) : result decimal := dfix ctx (add_exact x y).
Definition dsub (ctx : context) (x y : decimal) : result decimal :=
  dfix ctx (add_exact x (neg_exact y)).
Definition dmul (ctx : context) (x y : decimal) : result decimal := dfix ctx (mul_exact x y).

(** Strip trailing zeros of an exact quotient while the exponent is below the ideal one. *)
Fixpoint strip_to (fuel : nat) (c e ideal : Z) : decimal :=
  match fuel with
  | O => Dec c e
  | S f => if (e <? ideal) && (c mod 10 =? 0) then strip_to f (c / 10) (e + 1) ideal else Dec c e
  end.

(** The unrounded quotient of [Decimal.__truediv__]: [prec + 1] digits or more, made odd when
    inexact so that the final rounding is correct. *)
Definition div_raw (p : Z) (x y : decimal) : decimal :=
  let '(Dec cx ex) := x in
  let '(Dec cy ey) := y in
  if cx =? 0 then Dec 0 (ex - ey) else
  let s := Z.sgn cx * Z.sgn cy in
  let shift := ndigits cy - ndigits cx + p + 1 in
  let e := ex - ey - shift in
  let num := Z.abs cx * 10 ^ Z.max shift 0 in
  let den := Z.abs cy * 10 ^ Z.max (- shift) 0 in
  let q := num / den in
  let r := num mod den in
  if r =? 0 then
    let '(Dec q' e') := strip_to (Z.to_nat (ndigits q)) q e (ex - ey) in Dec (s * q') e'
  else if q mod 5 =? 0 then Dec (s * (q + 1)) e else Dec (s * q) e.

Definition ddiv (ctx : context) (x y : decimal) : result decimal :=
  if dcoeff y =? 0 then
    Raise (DecimalSignal (if dcoeff x =? 0 then InvalidOperation else DivisionByZero))
  else dfix ctx (div_raw (prec ctx) x y).

(** Unary minus and [abs] round to the context too. *)
Definition dneg (ctx : context) (x : decimal) : result decimal := dfix ctx (neg_exact x).
Definition dabs (ctx : context) (x : decimal) : result decimal :=
  dfix ctx (Dec (Z.abs (dcoeff x)) (dexp x)).

(** [Decimal._rescale]: move to exponent [e], rounding when digits are lost. *)
Definition rescale (mode : rounding_mode) (x : decimal) (e : Z) : decimal :=
  if e <=? dexp x then Dec (align x e) e
  else Dec (round_coeff mode (dcoeff x) (10 ^ (e - dexp x))) e.

(** [self.quantize(exp, rounding)] where [exp] has exponent [qe]. *)
Definition quantize (ctx : context) (mode : rounding_mode) (x : decimal) (qe : Z) : result decimal :=
  if negb ((Etiny ctx <=? qe) && (qe <=? Emax ctx)) then Raise (DecimalSignal InvalidOperation) else
  if dcoeff x =? 0 then dfix ctx (Dec 0 qe) else
  let adjusted := dexp x + ndigits (dcoeff x) - 1 in
  if Emax ctx <? adjusted then Raise (DecimalSignal InvalidOperation) else
  if prec ctx <? adjusted - qe + 1 then Raise (DecimalSignal InvalidOperation) else
  let ans := rescale mode x qe in
  if Emax ctx <? dexp ans + ndigits (dcoeff ans) - 1 then Raise (DecimalSignal InvalidOperation) else
  if prec ctx <? ndigits (dcoeff ans) then Raise (DecimalSignal InvalidOperation) else
  dfix ctx ans.

(** ** Comparisons (exact, context-free) *)

Definition dcompare (x y : decimal) : comparison :=
  let e := Z.min (dexp x) (dexp y) in Z.compare (align x e) (align y e).

Definition deqb (x y : decimal) : bool := match dcompare x y with Eq => true | _ => false end.
Definition dltb (x y : decimal) : bool := match dcompare x y with Lt => true | _ => false end.
Definition dleb (x y : decimal) : bool := match dcompare x y with Gt => false | _ => true end.
Definition dis_zero (x : decimal) : bool := dcoeff x =? 0.

(** [min(a, b)] and [max(a, b)] of Python: the first argument wins a tie. *)
Definition dmin (x y : decimal) : decimal := if dltb y x then y else x.
Definition dmax (x y : decimal) : decimal := if dltb x y then y else x.

(** [value or default]: a zero is falsy. *)
Definition dor (x : decimal) (default : decimal) : decimal := if dis_zero x then default else x.

(** [sum(xs, Decimal(0))] in a context. *)
Definition dsum (ctx : context) (xs : list decimal) : result decimal :=
  foldM (dadd ctx) dzero xs.

Declare Scope dec_scope.
Delimit Scope dec_scope with dec.
Notation "x <? y" := (dltb x y) : dec_scope.
Notation "x <=? y" := (dleb x y) : dec_scope.
Notation "x =? y" := (deqb x y) : dec_scope.

(** ** [str(Decimal)]: the to-scientific-string conversion *)

Fixpoint digits_of (fuel : nat) (n : Z) (acc : string) : string :=
  let d := String (ascii_of_N (48 + Z.to_N (n mod 10))) acc in
  match fuel with
  | O => d
  | S f => if n <? 10 then d else digits_of f (n / 10) d
  end.

Definition string_of_nonneg (n : Z) : string := digits_of (Z.to_nat (Z.log2 n)) n "".
Definition string_of_Z (n : Z) : string :=
  if n <? 0 then String.append "-" (string_of_nonneg (- n)) else string_of_nonneg n.

Fixpoint zeros (n : nat) : string := match n with O => "" | S k => String "0" (zeros k) end.

Definition string_of_decimal (x : decimal) : string :=
  let '(Dec c e) := x in
  let int := string_of_nonneg (Z.abs c) in
  let sign := if c <? 0 then "-"%string else ""%string in
  let len := ndigits c in
  let leftdigits := e + len in
  let dotplace := if (e <=? 0) && (-6 <? leftdigits) then leftdigits else 1 in
  let '(intpart, fracpart) :=
    if dotplace <=? 0 then ("0"%string, String.append "." (String.append (zeros (Z.to_nat (- dotplace))) int))
    else if len <=? dotplace then (String.append int (zeros (Z.to_nat (dotplace - len))), ""%string)
    else (substring 0 (Z.to_nat dotplace) int,
          String.append "." (substring (Z.to_nat dotplace) (Z.to_nat (len - dotplace)) int)) in
  let exponent :=
    if leftdigits =? dotplace then ""%string
    else String.append "E" (String.append (if 0 <=? leftdigits - dotplace then "+" else "")
                                          (string_of_Z (leftdigits - dotplace))) in
  String.append sign (String.append intpart (String.append fracpart exponent)).

Arguments dfix : simpl never.
Arguments quantize : simpl never.
Arguments dadd : simpl never.
Arguments dsub : simpl never.
Arguments dmul : simpl never.
Arguments ddiv : simpl never.
Arguments dneg : simpl never.
Arguments dabs : simpl never.
Arguments ndigits : simpl never.
Arguments add_exact : simpl never.
Arguments neg_exact : simpl never.
Arguments mul_exact : simpl never.
Arguments string_of_decimal : simpl never.
Arguments string_of_Z : simpl never.
