(* ===== verification/DecimalFacts.v ===== *)
(** * Arithmetic of the decimal model

    The rational value of a decimal, the rounding function on rationals that [Decimal._fix] and
    [quantize] compute, and the error bounds of every operation.  Numeric equality of decimals is
    coarser than equality of representations ([1.0] and [1.00]); [deq] is that equivalence and the
    operations that do not round are [Proper] for it. *)

From Stdlib Require Import ZArith Lia QArith Qabs Qpower Qminmax Lqa Setoid Morphisms.
From stdpp Require Import base tactics list.
From S2P Require Import Prelude PyDecimal.

#[global] Open Scope Z_scope.

(** ** Powers of ten *)

Definition pow10 (e : Z) : Q := Qpower (10 # 1) e.
Arguments pow10 : simpl never.

Lemma pow10_pos e : (0 < pow10 e)%Q.
Proof. apply Qpower_0_lt. reflexivity. Qed.

Lemma pow10_nonzero e : ~ (pow10 e == 0)%Q.
Proof. pose proof (pow10_pos e). lra. Qed.

Lemma pow10_add a b : (pow10 (a + b) == pow10 a * pow10 b)%Q.
Proof. apply Qpower_plus. discriminate. Qed.

Lemma pow10_Z k : 0 <= k -> (pow10 k == inject_Z (10 ^ k))%Q.
Proof.
  intros Hk. unfold pow10. rewrite <- (Z2Nat.id k Hk). generalize (Z.to_nat k) as n. clear.
  induction n as [|n IH]; [reflexivity|].
  rewrite Nat2Z.inj_succ, <- Z.add_1_r, Qpower_plus by discriminate.
  rewrite IH, Z.pow_add_r by lia. rewrite inject_Z_mult. reflexivity.
Qed.

Lemma pow10_neg_inv k : (pow10 (- k) * pow10 k == 1)%Q.
Proof. rewrite <- pow10_add. replace (- k + k) with 0 by lia. reflexivity. Qed.

Lemma pow10_mono a b : a <= b -> (pow10 a <= pow10 b)%Q.
Proof.
  intros H. replace b with (a + (b - a)) by lia. rewrite pow10_add, (pow10_Z (b - a)) by lia.
  pose proof (pow10_pos a).
  assert (1 <= inject_Z (10 ^ (b - a)))%Q.
  { change 1%Q with (inject_Z 1). rewrite <- Zle_Qle. pose proof (Z.pow_pos_nonneg 10 (b - a)). lia. }
  nra.
Qed.

Lemma pow10_lt_mono a b : a < b -> (pow10 a < pow10 b)%Q.
Proof.
  intros H. apply Qlt_le_trans with (pow10 (a + 1)); [|apply pow10_mono; lia].
  rewrite pow10_add. change (pow10 1) with (10 # 1). pose proof (pow10_pos a). lra.
Qed.

Lemma pow10_lt_inv a b : (pow10 a < pow10 b)%Q -> a < b.
Proof. intros H. destruct (Z.lt_ge_cases a b) as [|Hge]; [done|]. pose proof (pow10_mono b a Hge). lra. Qed.

#[export] Hint Resolve pow10_pos pow10_nonzero : lotus.

(** ** The value of a decimal *)

Definition dval (d : decimal) : Q := inject_Z (dcoeff d) * pow10 (dexp d).
Arguments dval : simpl never.

Lemma dval_Dec c e : dval (Dec c e) = (inject_Z c * pow10 e)%Q.
Proof. reflexivity. Qed.

Lemma dval_zero_iff d : (dval d == 0)%Q <-> dcoeff d = 0.
Proof.
  unfold dval. pose proof (pow10_nonzero (dexp d)). split; intros H0.
  - apply Qmult_integral in H0 as [H0|H0]; [|done].
    change 0%Q with (inject_Z 0) in H0. by rewrite inject_Z_injective in H0.
  - rewrite H0. change (inject_Z 0) with 0%Q. ring.
Qed.

Lemma align_val d e : e <= dexp d -> (dval d == inject_Z (align d e) * pow10 e)%Q.
Proof.
  intros He. unfold dval, align. rewrite inject_Z_mult, <- pow10_Z by lia.
  rewrite <- Qmult_assoc, <- pow10_add. by replace (dexp d - e + e) with (dexp d) by lia.
Qed.

Lemma add_exact_val x y : (dval (add_exact x y) == dval x + dval y)%Q.
Proof.
  unfold add_exact. rewrite dval_Dec, inject_Z_plus.
  rewrite (align_val x (Z.min (dexp x) (dexp y))) by lia.
  rewrite (align_val y (Z.min (dexp x) (dexp y))) by lia. ring.
Qed.

Lemma neg_exact_val x : (dval (neg_exact x) == - dval x)%Q.
Proof. unfold neg_exact, dval; simpl. rewrite inject_Z_opp. ring. Qed.

Lemma mul_exact_val x y : (dval (mul_exact x y) == dval x * dval y)%Q.
Proof. unfold mul_exact, dval; simpl. rewrite inject_Z_mult, pow10_add. ring. Qed.

#[export] Hint Rewrite add_exact_val neg_exact_val mul_exact_val : lotus.

(** ** Comparisons decide the order of values *)

Lemma scaled_compare a b e :
  (inject_Z a * pow10 e ?= inject_Z b * pow10 e)%Q = (a ?= b).
Proof.
  pose proof (pow10_pos e) as Hp. destruct (Z.compare_spec a b) as [->|H|H].
  - by apply Qeq_alt.
  - apply Qlt_alt. apply Qmult_lt_compat_r; [done|]. by rewrite <- Zlt_Qlt.
  - apply Qgt_alt. apply Qmult_lt_compat_r; [done|]. by rewrite <- Zlt_Qlt.
Qed.

Lemma dcompare_spec x y : dcompare x y = (dval x ?= dval y)%Q.
Proof.
  unfold dcompare. set (e := Z.min (dexp x) (dexp y)).
  rewrite <- (scaled_compare _ _ e), (align_val x e), (align_val y e) by lia. reflexivity.
Qed.

Lemma deqb_spec x y : deqb x y = true <-> (dval x == dval y)%Q.
Proof. unfold deqb. rewrite dcompare_spec, Qeq_alt. by destruct (_ ?= _)%Q. Qed.

Lemma dltb_spec x y : dltb x y = true <-> (dval x < dval y)%Q.
Proof. unfold dltb. rewrite dcompare_spec, Qlt_alt. by destruct (_ ?= _)%Q. Qed.

Lemma dleb_spec x y : dleb x y = true <-> (dval x <= dval y)%Q.
Proof. unfold dleb. rewrite dcompare_spec, Qle_alt. by destruct (_ ?= _)%Q. Qed.

Lemma deqb_false x y : deqb x y = false <-> ~ (dval x == dval y)%Q.
Proof. rewrite <- deqb_spec. by destruct (deqb x y). Qed.

Lemma dltb_false x y : dltb x y = false <-> (dval y <= dval x)%Q.
Proof.
  pose proof (dltb_spec x y). destruct (dltb x y); split; intros; try done.
  - pose proof (proj1 H eq_refl). lra.
  - apply Qnot_lt_le. by intros ?%H.
Qed.

Lemma dleb_false x y : dleb x y = false <-> (dval y < dval x)%Q.
Proof.
  pose proof (dleb_spec x y). destruct (dleb x y); split; intros; try done.
  - pose proof (proj1 H eq_refl). lra.
  - apply Qnot_le_lt. by intros ?%H.
Qed.

Lemma dis_zero_spec x : dis_zero x = true <-> (dval x == 0)%Q.
Proof. unfold dis_zero. by rewrite Z.eqb_eq, dval_zero_iff. Qed.

Lemma dis_zero_false x : dis_zero x = false <-> ~ (dval x == 0)%Q.
Proof. rewrite <- dis_zero_spec. by destruct (dis_zero x). Qed.

Lemma dval_dzero : (dval dzero == 0)%Q.
Proof. reflexivity. Qed.

Lemma dval_dint n : (dval (dint n) == inject_Z n)%Q.
Proof. unfold dint, dval; simpl. change (pow10 0) with 1%Q. ring. Qed.

(** Turn every decimal comparison in the hypotheses into a fact about values. *)
Ltac dec_facts :=
  repeat match goal with
  | H : deqb _ _ = true |- _ => apply deqb_spec in H
  | H : deqb _ _ = false |- _ => apply deqb_false in H
  | H : dltb _ _ = true |- _ => apply dltb_spec in H
  | H : dltb _ _ = false |- _ => apply dltb_false in H
  | H : dleb _ _ = true |- _ => apply dleb_spec in H
  | H : dleb _ _ = false |- _ => apply dleb_false in H
  | H : dis_zero _ = true |- _ => apply dis_zero_spec in H
  | H : dis_zero _ = false |- _ => apply dis_zero_false in H
  end;
  rewrite ?dval_dzero in *.

Lemma dmin_val x y : (dval (dmin x y) == Qmin (dval x) (dval y))%Q.
Proof.
  unfold dmin. destruct (dltb y x) eqn:E; dec_facts.
  - rewrite Q.min_r; [reflexivity|lra].
  - rewrite Q.min_l; [reflexivity|lra].
Qed.

Lemma dmax_val x y : (dval (dmax x y) == Qmax (dval x) (dval y))%Q.
Proof.
  unfold dmax. destruct (dltb x y) eqn:E; dec_facts.
  - rewrite Q.max_r; [reflexivity|lra].
  - rewrite Q.max_l; [reflexivity|lra].
Qed.

(** Numeric equality of decimals, [==] of Python. *)
Definition deq (x y : decimal) : Prop := (dval x == dval y)%Q.

#[export] Instance deq_equivalence : Equivalence deq.
Proof.
  split; unfold deq; [intros x; reflexivity|intros x y H; by symmetry|].
  intros x y z H1 H2. by rewrite H1.
Qed.

#[export] Instance dval_proper : Proper (deq ==> Qeq) dval.
Proof. intros x y H. exact H. Qed.

#[export] Instance add_exact_proper : Proper (deq ==> deq ==> deq) add_exact.
Proof. intros x x' Hx y y' Hy. unfold deq in *. by rewrite !add_exact_val, Hx, Hy. Qed.

#[export] Instance mul_exact_proper : Proper (deq ==> deq ==> deq) mul_exact.
Proof. intros x x' Hx y y' Hy. unfold deq in *. by rewrite !mul_exact_val, Hx, Hy. Qed.

#[export] Instance dcompare_proper : Proper (deq ==> deq ==> eq) dcompare.
Proof. intros x x' Hx y y' Hy. unfold deq in *. by rewrite !dcompare_spec, Hx, Hy. Qed.

#[export] Instance dcompare_comparer : Comparer dcompare.
Proof.
  split.
  - intros x y. rewrite !dcompare_spec. symmetry. apply Qcompare_antisym.
  - intros x y z. rewrite !dcompare_spec, <- !Qle_alt. apply Qle_trans.
Qed.

(** ** Digit counts *)

Lemma ndigits_fuel_spec fuel n :
  0 < n -> n < 2 ^ (Z.of_nat fuel + 1) ->
  1 <= ndigits_fuel fuel n /\ 10 ^ (ndigits_fuel fuel n - 1) <= n < 10 ^ ndigits_fuel fuel n.
Proof.
  revert n. induction fuel as [|f IH]; intros n Hn Hlt; simpl.
  - change (2 ^ (Z.of_nat 0 + 1)) with 2 in Hlt. change (10 ^ (1 - 1)) with 1. change (10 ^ 1) with 10. lia.
  - destruct (Z.ltb_spec n 10) as [H|H].
    + change (10 ^ (1 - 1)) with 1. change (10 ^ 1) with 10. lia.
    + destruct (IH (n / 10)) as (H1 & H2 & H3).
      * apply Z.div_str_pos. lia.
      * apply Z.div_lt_upper_bound; [lia|].
        replace (Z.of_nat (S f) + 1) with ((Z.of_nat f + 1) + 1) in Hlt by lia.
        rewrite Z.pow_add_r in Hlt by lia. change (2 ^ 1) with 2 in Hlt.
        pose proof (Z.pow_pos_nonneg 2 (Z.of_nat f + 1)). lia.
      * set (k := ndigits_fuel f (n / 10)) in *. split; [lia|].
        replace (1 + k - 1) with ((k - 1) + 1) by lia. replace (1 + k) with (k + 1) by lia.
        rewrite !Z.pow_add_r by lia. change (10 ^ 1) with 10.
        pose proof (Z.div_mod n 10 ltac:(lia)). pose proof (Z.mod_pos_bound n 10 ltac:(lia)). nia.
Qed.

Lemma ndigits_spec c :
  c <> 0 -> 1 <= ndigits c /\ 10 ^ (ndigits c - 1) <= Z.abs c < 10 ^ ndigits c.
Proof.
  intros Hc. unfold ndigits. apply ndigits_fuel_spec; [lia|].
  rewrite Z2Nat.id by apply Z.log2_nonneg.
  pose proof (Z.log2_spec (Z.abs c) ltac:(lia)). replace (Z.log2 (Z.abs c) + 1) with (Z.succ (Z.log2 (Z.abs c))) by lia. lia.
Qed.

Lemma ndigits_zero : ndigits 0 = 1.
Proof. reflexivity. Qed.

Lemma ndigits_pos c : 1 <= ndigits c.
Proof. destruct (decide (c = 0)) as [->|H]; [done|]. by apply ndigits_spec. Qed.

(** A coefficient below [10 ^ p] has at most [p] digits, and conversely. *)
Lemma ndigits_le_iff c p : 1 <= p -> (ndigits c <= p <-> Z.abs c < 10 ^ p).
Proof.
  intros Hp. destruct (decide (c = 0)) as [->|Hc].
  { rewrite ndigits_zero. pose proof (Z.pow_pos_nonneg 10 p). simpl. lia. }
  destruct (ndigits_spec c Hc) as (H1 & H2 & H3). split; intros H.
  - eapply Z.lt_le_trans; [done|]. apply Z.pow_le_mono_r; lia.
  - destruct (Z.le_gt_cases (ndigits c) p) as [|Hgt]; [done|].
    pose proof (Z.pow_le_mono_r 10 p (ndigits c - 1)). lia.
Qed.

(** ** Rounding a rational to an integer *)

Definition qround (mode : rounding_mode) (x : Q) : Z := round_coeff mode (Qnum x) (Zpos (Qden x)).

Lemma round_magnitude_bounds mode a p :
  0 <= a -> 0 < p -> a / p <= round_magnitude mode a p <= a / p + 1.
Proof.
  intros Ha Hp. unfold round_magnitude.
  destruct mode; [|lia]. destruct (_ ?= _); [destruct (Z.even _)| |]; lia.
Qed.

(** The cross-multiplied monotonicity of rounding: [a/b <= c/d] rounds monotonically. *)
Lemma round_magnitude_mono mode a b c d :
  0 <= a -> 0 <= c -> 0 < b -> 0 < d -> a * d <= c * b ->
  round_magnitude mode a b <= round_magnitude mode c d.
Proof.
  intros Ha Hc Hb Hd Hle.
  pose proof (Z.div_mod a b ltac:(lia)) as E1. pose proof (Z.mod_pos_bound a b Hb) as B1.
  pose proof (Z.div_mod c d ltac:(lia)) as E2. pose proof (Z.mod_pos_bound c d Hd) as B2.
  pose proof (round_magnitude_bounds mode a b Ha Hb) as R1.
  pose proof (round_magnitude_bounds mode c d Hc Hd) as R2.
  assert (Hq : a / b <= c / d).
  { destruct (Z.le_gt_cases (a / b) (c / d)) as [|Hgt]; [done|]. exfalso.
    assert (b * (c / d + 1) <= a) by nia. assert (c < d * (c / d + 1)) by lia. nia. }
  destruct (Z.eq_dec (a / b) (c / d)) as [Heq|Hne]; [|lia].
  unfold round_magnitude. rewrite Heq in *. set (q := c / d) in *.
  assert (Hr : (a mod b) * d <= (c mod d) * b) by nia.
  destruct mode; [|lia].
  destruct (Z.compare_spec (2 * (a mod b)) b); destruct (Z.compare_spec (2 * (c mod d)) d);
    destruct (Z.even q); try lia; exfalso; nia.
Qed.

Lemma round_coeff_nonneg mode c p : 0 <= c -> 0 < p -> 0 <= round_coeff mode c p.
Proof.
  intros Hc Hp. unfold round_coeff. pose proof (round_magnitude_bounds mode (Z.abs c) p).
  pose proof (Z.div_pos (Z.abs c) p). destruct (Z.sgn_spec c) as [[? ->]|[[? ->]|[? ->]]]; lia.
Qed.

Lemma round_coeff_opp mode c p : round_coeff mode (- c) p = - round_coeff mode c p.
Proof. unfold round_coeff. rewrite Z.sgn_opp, Z.abs_opp. lia. Qed.

Lemma round_coeff_mono mode a b c d :
  0 < b -> 0 < d -> a * d <= c * b -> round_coeff mode a b <= round_coeff mode c d.
Proof.
  intros Hb Hd H.
  destruct (Z.le_gt_cases 0 a) as [Ha|Ha]; destruct (Z.le_gt_cases 0 c) as [Hc|Hc].
  - pose proof (round_magnitude_mono mode a b c d Ha Hc Hb Hd H).
    unfold round_coeff. rewrite !Z.abs_eq by done.
    destruct (Z.sgn_spec a) as [[? ->]|[[<- ->]|[? ?]]]; [|by pose proof (round_coeff_nonneg mode c d Hc Hd) as H1;
      unfold round_coeff in H1; rewrite Z.abs_eq in H1 by done; simpl; lia|lia].
    rewrite (Z.sgn_pos c) by nia. lia.
  - exfalso. nia.
  - pose proof (round_coeff_nonneg mode c d Hc Hd).
    pose proof (round_coeff_nonneg mode (- a) b). rewrite round_coeff_opp in *. lia.
  - pose proof (round_magnitude_mono mode (- c) d (- a) b).
    unfold round_coeff. rewrite !Z.abs_neq, !Z.sgn_neg by lia. lia.
Qed.

Lemma qround_mono mode x y : (x <= y)%Q -> qround mode x <= qround mode y.
Proof. unfold Qle, qround. intros H. apply round_coeff_mono; lia. Qed.

#[export] Instance qround_proper mode : Proper (Qeq ==> eq) (qround mode).
Proof. intros x y H. apply Z.le_antisymm; apply qround_mono; lra. Qed.

Lemma round_magnitude_multiple mode k p : 0 <= k -> 0 < p -> round_magnitude mode (k * p) p = k.
Proof.
  intros Hk Hp. unfold round_magnitude. rewrite Z.div_mul, Z.mod_mul by lia.
  destruct mode; [|done]. destruct (Z.compare_spec (2 * 0) p); [lia|done|lia].
Qed.

Lemma round_coeff_multiple mode k p : 0 < p -> round_coeff mode (k * p) p = k.
Proof.
  intros Hp. unfold round_coeff. rewrite Z.abs_mul, (Z.abs_eq p) by lia.
  rewrite round_magnitude_multiple by lia. rewrite Z.sgn_mul, (Z.sgn_pos p) by lia.
  rewrite Z.mul_1_r, Z.mul_comm. apply Z.abs_sgn.
Qed.

Lemma qround_int mode n : qround mode (inject_Z n) = n.
Proof. unfold qround; simpl. rewrite <- (Z.mul_1_r n) at 1. by apply round_coeff_multiple. Qed.

Lemma qround_opp mode x : qround mode (- x) = - qround mode x.
Proof. unfold qround; simpl. apply round_coeff_opp. Qed.

Lemma round_coeff_qround mode c p :
  0 < p -> round_coeff mode c p = qround mode (inject_Z c / inject_Z p).
Proof.
  intros Hp. destruct p as [|p|p]; [lia| |lia].
  unfold qround, Qdiv, Qinv, inject_Z; simpl. by rewrite Z.mul_1_r.
Qed.

Lemma round_coeff_half_even c p :
  0 < p -> 2 * Z.abs (round_coeff ROUND_HALF_EVEN c p * p - c) <= p.
Proof.
  intros Hp. pose proof (Z.div_mod (Z.abs c) p ltac:(lia)) as E.
  pose proof (Z.mod_pos_bound (Z.abs c) p Hp) as B.
  assert (H : 2 * Z.abs (round_magnitude ROUND_HALF_EVEN (Z.abs c) p * p - Z.abs c) <= p).
  { unfold round_magnitude. set (q := Z.abs c / p) in *. set (r := Z.abs c mod p) in *.
    destruct (Z.compare_spec (2 * r) p); [destruct (Z.even q)| |]; nia. }
  unfold round_coeff. destruct (Z.sgn_spec c) as [[? ->]|[[? ->]|[? ->]]]; nia.
Qed.

Lemma qround_half_even x : (Qabs (inject_Z (qround ROUND_HALF_EVEN x) - x) <= 1 # 2)%Q.
Proof.
  pose proof (round_coeff_half_even (Qnum x) (Zpos (Qden x)) ltac:(lia)) as H.
  unfold qround. destruct x as [n d]; simpl in *. set (k := round_coeff _ _ _) in *.
  unfold Qabs, Qminus, Qle; simpl. lia.
Qed.

(** Rounding finds the unique integer strictly closer than one half. *)
Lemma qround_near x n : (Qabs (x - inject_Z n) < 1 # 2)%Q -> qround ROUND_HALF_EVEN x = n.
Proof.
  intros H. pose proof (qround_half_even x) as H2. set (k := qround ROUND_HALF_EVEN x) in *.
  apply Qabs_Qlt_condition in H. apply Qabs_Qle_condition in H2.
  assert (inject_Z (k - n) < 1)%Q.
  { replace (k - n) with (k + - n) by lia. rewrite inject_Z_plus, inject_Z_opp. lra. }
  assert (-1 < inject_Z (k - n))%Q.
  { replace (k - n) with (k + - n) by lia. rewrite inject_Z_plus, inject_Z_opp. lra. }
  change 1%Q with (inject_Z 1) in *. change (-1)%Q with (inject_Z (-1)) in *.
  rewrite <- Zlt_Qlt in *. lia.
Qed.

(** ** [Decimal._fix] rounds once, at a known exponent *)

Definition fix_exponent (ctx : context) (d : decimal) : Z :=
  Z.max (ndigits (dcoeff d) + dexp d - prec ctx) (Etiny ctx).

(** Contexts the code builds: positive precision, wide symmetric exponent range. *)
Definition wide (ctx : context) : Prop :=
  1 <= prec ctx <= 1000 /\ Emin ctx = -999999 /\ Emax ctx = 999999.

Lemma make_context_wide p r : 1 <= p <= 1000 -> wide (make_context p r).
Proof. done. Qed.

Lemma dval_abs d : (Qabs (dval d) == inject_Z (Z.abs (dcoeff d)) * pow10 (dexp d))%Q.
Proof.
  unfold dval. rewrite Qabs_Qmult, (Qabs_pos (pow10 _)) by (apply Qlt_le_weak, pow10_pos).
  apply Qmult_comp; [|reflexivity]. unfold Qabs, inject_Z. reflexivity.
Qed.

(** The adjusted exponent brackets the magnitude. *)
Lemma dval_adjusted d :
  dcoeff d <> 0 ->
  (pow10 (ndigits (dcoeff d) - 1 + dexp d) <= Qabs (dval d))%Q /\
  (Qabs (dval d) < pow10 (ndigits (dcoeff d) + dexp d))%Q.
Proof.
  intros Hc. destruct (ndigits_spec _ Hc) as (H1 & H2 & H3). pose proof (pow10_pos (dexp d)) as Hp.
  rewrite dval_abs, !pow10_add. split.
  - rewrite pow10_Z by lia. apply Qmult_le_compat_r; [by rewrite <- Zle_Qle|lra].
  - rewrite (pow10_Z (ndigits _)) by lia. apply Qmult_lt_compat_r; [done|by rewrite <- Zlt_Qlt].
Qed.

Lemma ndigits_exp_bound d k :
  dcoeff d <> 0 -> (Qabs (dval d) < pow10 k)%Q -> ndigits (dcoeff d) + dexp d <= k.
Proof.
  intros Hc Hk. destruct (dval_adjusted d Hc) as [H _].
  assert (ndigits (dcoeff d) - 1 + dexp d < k) by (apply pow10_lt_inv; lra). lia.
Qed.

Lemma scaled_int_div d e :
  e <= dexp d -> (dval d / pow10 e == inject_Z (align d e))%Q.
Proof. intros H. rewrite (align_val d e H). field. apply pow10_nonzero. Qed.

Lemma scaled_div_pow c e E : e <= E ->
  (inject_Z c * pow10 e / pow10 E == inject_Z c / inject_Z (10 ^ (E - e)))%Q.
Proof.
  intros H. rewrite <- pow10_Z by lia. replace E with (e + (E - e)) at 1 by lia.
  rewrite pow10_add. field. split; apply pow10_nonzero.
Qed.

(** Rounding away at most the digits beyond the precision cannot exceed the next power of ten. *)
Lemma round_carry mode c e p E :
  c <> 0 -> 1 <= p -> e < E -> ndigits c + e - p <= E ->
  10 ^ p <= Z.abs (round_coeff mode c (10 ^ (E - e))) ->
  Z.abs (round_coeff mode c (10 ^ (E - e))) = 10 ^ p.
Proof.
  intros Hc Hp He HE Hbig. destruct (ndigits_spec c Hc) as (_ & _ & Hd).
  pose proof (Z.pow_pos_nonneg 10 (E - e)) as Hpos. set (P := 10 ^ (E - e)) in *.
  assert (Hle : Z.abs c < 10 ^ p * P).
  { unfold P. rewrite <- Z.pow_add_r by lia. eapply Z.lt_le_trans; [done|]. apply Z.pow_le_mono_r; lia. }
  pose proof (Z.div_lt_upper_bound (Z.abs c) P (10 ^ p) ltac:(lia) ltac:(lia)).
  pose proof (Z.div_pos (Z.abs c) P ltac:(lia) ltac:(lia)).
  pose proof (round_magnitude_bounds mode (Z.abs c) P ltac:(lia) ltac:(lia)).
  unfold round_coeff in *. set (m := round_magnitude _ _ _) in *. clearbody m.
  destruct (Z.sgn_spec c) as [[? E1]|[[? E1]|[? E1]]]; rewrite E1 in *; lia.
Qed.

Lemma quot10_exact c p : 1 <= p -> Z.abs c = 10 ^ p -> Z.quot c 10 * 10 = c.
Proof.
  intros Hp Hc. replace p with (1 + (p - 1)) in Hc by lia. rewrite Z.pow_add_r in Hc by lia.
  change (10 ^ 1) with 10 in Hc. set (k := 10 ^ (p - 1)) in *.
  assert (c = k * 10 \/ c = (- k) * 10) as [-> | ->] by lia; by rewrite Z.quot_mul.
Qed.

Lemma dfix_spec ctx d r :
  1 <= prec ctx ->
  dfix ctx d = Ok r ->
  (dval r == inject_Z (qround (rounding ctx) (dval d / pow10 (fix_exponent ctx d)))
             * pow10 (fix_exponent ctx d))%Q.
Proof.
  intros Hprec. destruct d as [c e]. unfold dfix, fix_exponent; simpl.
  destruct (Z.eqb_spec c 0) as [->|Hc].
  { intros [= <-]. rewrite !dval_Dec. change (inject_Z 0) with 0%Q.
    rewrite (qround_proper _ _ (inject_Z 0)), qround_int; [|change (inject_Z 0) with 0%Q; field; apply pow10_nonzero].
    change (inject_Z 0) with 0%Q. ring. }
  destruct (Z.ltb_spec (Etop ctx) (ndigits c + e - prec ctx)); [done|].
  set (E := Z.max (ndigits c + e - prec ctx) (Etiny ctx)).
  destruct (Z.ltb_spec e E) as [Hlt|Hge].
  - set (c' := round_coeff _ _ _).
    assert (Hc' : c' = qround (rounding ctx) (dval (Dec c e) / pow10 E)).
    { unfold c'. rewrite round_coeff_qround by (apply Z.pow_pos_nonneg; lia).
      apply qround_proper. rewrite dval_Dec, scaled_div_pow by lia. reflexivity. }
    rewrite <- Hc'. destruct (Z.leb_spec (10 ^ prec ctx) (Z.abs c')) as [Hbig|Hsmall].
    + destruct (_ <? _); [done|]. intros [= <-]. rewrite dval_Dec, pow10_add.
      change (pow10 1) with (inject_Z 10).
      rewrite <- (quot10_exact c' (prec ctx) Hprec) at 2; [rewrite inject_Z_mult; ring|].
      unfold c' in *. apply round_carry; [done|done|done|lia|done].
    + destruct (_ <? _); [done|]. intros [= <-]. by rewrite dval_Dec.
  - intros [= <-]. rewrite (qround_proper _ _ _ (scaled_int_div (Dec c e) E Hge)), qround_int.
    by rewrite (align_val (Dec c e) E Hge).
Qed.

Lemma dfix_zero ctx d r : dcoeff d = 0 -> dfix ctx d = Ok r -> (dval r == 0)%Q.
Proof. destruct d as [c e]; simpl. intros ->. unfold dfix. intros [= <-]. by apply dval_zero_iff. Qed.

(** [_fix] succeeds on every value whose magnitude is far from the exponent limit. *)
Lemma dfix_Ok ctx d :
  wide ctx -> (Qabs (dval d) < pow10 900000)%Q -> exists r, dfix ctx d = Ok r.
Proof.
  intros (Hp & Hmin & Hmax) Hv. destruct d as [c e]. unfold dfix.
  destruct (Z.eqb_spec c 0) as [->|Hc]; [eauto|].
  pose proof (ndigits_exp_bound (Dec c e) 900000 Hc Hv) as Hb. simpl in Hb.
  unfold Etop, Etiny in *. destruct (Z.ltb_spec (Emax ctx - prec ctx + 1) (ndigits c + e - prec ctx)); [lia|].
  set (E := Z.max _ _). assert (HE : E + 1 <= Emax ctx - prec ctx + 1) by lia.
  destruct (e <? E); [|eauto].
  destruct (_ <=? _); [destruct (Z.ltb_spec (Emax ctx - prec ctx + 1) (E + 1)) | destruct (Z.ltb_spec (Emax ctx - prec ctx + 1) E)]; eauto; lia.
Qed.

(** A value with at most [prec] significant digits is unchanged by [_fix]. *)
Lemma dfix_exact ctx d n k :
  wide ctx -> (dval d == inject_Z n * pow10 k)%Q -> Z.abs n < 10 ^ prec ctx ->
  -1000 <= k <= 1000 ->
  exists r, dfix ctx d = Ok r /\ (dval r == dval d)%Q.
Proof.
  intros Hw Hv Hn Hk. assert (Habs : (Qabs (dval d) < pow10 (prec ctx + k))%Q).
  { rewrite Hv. change (Qabs (inject_Z n * pow10 k)) with (Qabs (dval (Dec n k))).
    rewrite dval_abs, pow10_add, (pow10_Z (prec ctx)) by (destruct Hw; lia). simpl.
    apply Qmult_lt_compat_r; [apply pow10_pos|by rewrite <- Zlt_Qlt]. }
  destruct Hw as (Hp & Hmin & Hmax).
  destruct (dfix_Ok ctx d) as [r Hr]; [done|eapply Qlt_le_trans; [done|apply pow10_mono; lia]|].
  exists r. split; [done|]. destruct (decide (dcoeff d = 0)) as [Hc|Hc].
  { rewrite (dfix_zero ctx d r Hc Hr). symmetry. by apply dval_zero_iff. }
  pose proof (ndigits_exp_bound d _ Hc Habs) as Hb.
  rewrite (dfix_spec ctx d r) by (done || lia). unfold fix_exponent, Etiny.
  set (E := Z.max _ _). assert (HE : E <= k) by lia.
  assert (Hd : (dval d / pow10 E == inject_Z (n * 10 ^ (k - E)))%Q).
  { rewrite Hv, inject_Z_mult, <- pow10_Z by lia. replace k with ((k - E) + E) at 1 by lia.
    rewrite pow10_add. field. apply pow10_nonzero. }
  rewrite (qround_proper _ _ _ Hd), qround_int, <- Hd. field. apply pow10_nonzero.
Qed.

(** The rounding error of [_fix], absolute and (away from the subnormal range) relative. *)
Lemma dfix_error ctx d r :
  1 <= prec ctx -> rounding ctx = ROUND_HALF_EVEN -> dfix ctx d = Ok r ->
  (Qabs (dval r - dval d) <= (1 # 2) * pow10 (fix_exponent ctx d))%Q.
Proof.
  intros Hp Hm Hr. rewrite (dfix_spec ctx d r Hp Hr), Hm. set (E := fix_exponent ctx d).
  pose proof (qround_half_even (dval d / pow10 E)) as H. set (k := qround _ _) in *.
  assert (Hx : (inject_Z k * pow10 E - dval d == (inject_Z k - dval d / pow10 E) * pow10 E)%Q)
    by (field; apply pow10_nonzero).
  rewrite Hx.
  rewrite Qabs_Qmult, (Qabs_pos (pow10 E)) by (apply Qlt_le_weak, pow10_pos).
  apply Qmult_le_compat_r; [done|apply Qlt_le_weak, pow10_pos].
Qed.

(** Rounding moves a value below [10 ^ k] by at most half a unit of its last place. *)
Lemma dfix_near ctx k d r :
  1 <= prec ctx -> rounding ctx = ROUND_HALF_EVEN -> Etiny ctx <= k - prec ctx -> (Qabs (dval d) < pow10 k)%Q -> dfix ctx d = Ok r ->
  (Qabs (dval r - dval d) <= (1 # 2) * pow10 (k - prec ctx))%Q.
Proof.
  intros Hp Hm Hk Hd Hr. pose proof (pow10_pos (k - prec ctx)). destruct (Z.eq_dec (dcoeff d) 0) as [Hz|Hz].
  - rewrite (dfix_zero _ _ _ Hz Hr), (proj2 (dval_zero_iff d) Hz). change (Qabs (0 - 0)) with 0%Q. lra.
  - eapply Qle_trans; [by apply dfix_error|]. apply Qmult_le_l; [lra|]. apply pow10_mono.
    pose proof (ndigits_exp_bound d k Hz Hd). unfold fix_exponent. lia.
Qed.

Lemma dfix_rel_error ctx d r :
  wide ctx -> rounding ctx = ROUND_HALF_EVEN -> (pow10 (-900000) <= Qabs (dval d))%Q ->
  dfix ctx d = Ok r ->
  (Qabs (dval r - dval d) <= (1 # 2) * pow10 (1 - prec ctx) * Qabs (dval d))%Q.
Proof.
  intros (Hp & Hmin & Hmax) Hm Hd Hr. pose proof (dfix_error ctx d r ltac:(lia) Hm Hr) as He.
  assert (Hc : dcoeff d <> 0).
  { intros H0%dval_zero_iff. rewrite H0 in Hd. pose proof (pow10_pos (-900000)). change (Qabs 0) with 0%Q in Hd. lra. }
  destruct (dval_adjusted d Hc) as [Hlo Hhi].
  assert (-900000 < ndigits (dcoeff d) + dexp d) by (apply pow10_lt_inv; lra).
  unfold fix_exponent, Etiny in He. rewrite Z.max_l in He by lia.
  replace (ndigits (dcoeff d) + dexp d - prec ctx) with ((1 - prec ctx) + (ndigits (dcoeff d) - 1 + dexp d)) in He by lia.
  rewrite pow10_add in He. pose proof (pow10_pos (1 - prec ctx)). nra.
Qed.


(** ** [quantize] *)

Lemma quantize_spec ctx mode x qe r :
  wide ctx -> -1000 <= qe <= 1000 -> quantize ctx mode x qe = Ok r ->
  (dval r == inject_Z (qround mode (dval x / pow10 qe)) * pow10 qe)%Q.
Proof.
  intros Hw Hq. unfold quantize. destruct (negb _); [done|].
  destruct (Z.eqb_spec (dcoeff x) 0) as [Hc|Hc].
  { intros Hr. apply dfix_zero in Hr; [|done]. rewrite Hr. apply dval_zero_iff in Hc.
    assert (Hz : (dval x / pow10 qe == inject_Z 0)%Q) by (rewrite Hc; change (inject_Z 0) with 0%Q; field; apply pow10_nonzero).
    rewrite (qround_proper _ _ _ Hz), qround_int. change (inject_Z 0) with 0%Q. ring. }
  destruct (_ <? _); [done|]. destruct (_ <? _); [done|]. destruct (_ <? _); [done|].
  assert (Hres : (dval (rescale mode x qe) == inject_Z (qround mode (dval x / pow10 qe)) * pow10 qe)%Q
                 /\ rescale mode x qe = Dec (qround mode (dval x / pow10 qe)) qe).
  { unfold rescale. destruct (Z.leb_spec qe (dexp x)) as [Hle|Hgt].
    - rewrite (qround_proper _ _ _ (scaled_int_div x qe Hle)), qround_int. done.
    - rewrite round_coeff_qround by (apply Z.pow_pos_nonneg; lia).
      unfold dval at 2 3. rewrite (qround_proper _ _ _ (scaled_div_pow (dcoeff x) (dexp x) qe ltac:(lia))). done. }
  destruct Hres as [Hv Hres]. rewrite Hres in *. simpl. set (k := qround _ _) in *.
  destruct (Z.ltb_spec (prec ctx) (ndigits k)) as [|Hd]; [done|]. intros Hr.
  apply ndigits_le_iff in Hd; [|destruct Hw; lia].
  destruct (dfix_exact ctx (Dec k qe) k qe Hw) as (r' & Hr' & Hv'); [reflexivity|done|done|].
  rewrite Hr in Hr'. injection Hr' as ->. by rewrite Hv'.
Qed.

(** Only [InvalidOperation] can come out of a failing [quantize] of a moderate value, and none does
    when one digit of headroom is left. *)
Lemma quantize_Ok ctx mode x qe :
  wide ctx -> -1000 <= qe <= 1000 -> (Qabs (dval x) < pow10 (prec ctx + qe - 1))%Q ->
  exists r, quantize ctx mode x qe = Ok r.
Proof.
  intros Hw Hq Hv. pose proof Hw as (Hp & Hmin & Hmax). unfold quantize, Etiny.
  rewrite (proj2 (Z.leb_le _ qe)) by lia. rewrite (proj2 (Z.leb_le qe _)) by lia. simpl.
  destruct (Z.eqb_spec (dcoeff x) 0) as [Hc|Hc].
  { apply dfix_Ok; [done|]. rewrite dval_Dec. change (Qabs (inject_Z 0 * pow10 qe)) with (Qabs (0 * pow10 qe)).
    rewrite Qmult_0_l. apply pow10_pos. }
  pose proof (ndigits_exp_bound x _ Hc Hv) as Hb.
  destruct (Z.ltb_spec (Emax ctx) (dexp x + ndigits (dcoeff x) - 1)); [lia|].
  destruct (Z.ltb_spec (prec ctx) (dexp x + ndigits (dcoeff x) - 1 - qe + 1)); [lia|].
  set (k := dcoeff (rescale mode x qe)).
  assert (Hr : rescale mode x qe = Dec k qe) by (unfold k, rescale; by destruct (_ <=? _)).
  assert (Hk : Z.abs k <= 10 ^ (prec ctx - 1)).
  { unfold k. clear k Hr. unfold rescale. destruct (Z.leb_spec qe (dexp x)) as [Hle|Hgt]; simpl.
    - unfold align. rewrite Z.abs_mul, (Z.abs_eq (10 ^ _)) by (apply Z.pow_nonneg; lia).
      destruct (ndigits_spec _ Hc) as (? & ? & ?).
      apply Z.lt_le_incl, Z.lt_le_trans with (10 ^ ndigits (dcoeff x) * 10 ^ (dexp x - qe)).
      + apply Z.mul_lt_mono_pos_r; [apply Z.pow_pos_nonneg; lia|done].
      + rewrite <- Z.pow_add_r by lia. apply Z.pow_le_mono_r; lia.
    - destruct (Z.le_gt_cases (10 ^ (prec ctx - 1)) (Z.abs (round_coeff mode (dcoeff x) (10 ^ (qe - dexp x))))) as [Hbig|]; [|lia].
      destruct (decide (prec ctx = 1)) as [E1|].
      + rewrite E1 in *. change (10 ^ (1 - 1)) with 1 in *.
        destruct (ndigits_spec _ Hc) as (? & ? & ?).
        assert (Hs : Z.abs (dcoeff x) < 10 ^ (qe - dexp x)) by (eapply Z.lt_le_trans; [done|apply Z.pow_le_mono_r; lia]).
        pose proof (round_magnitude_bounds mode (Z.abs (dcoeff x)) (10 ^ (qe - dexp x)) ltac:(lia) ltac:(lia)) as Hm.
        rewrite Z.div_small in Hm by lia. unfold round_coeff. set (m := round_magnitude _ _ _) in *. clearbody m.
        destruct (Z.sgn_spec (dcoeff x)) as [[? ->]|[[? ->]|[? ->]]]; lia.
      + rewrite (round_carry mode _ _ (prec ctx - 1) qe Hc); lia. }
  rewrite Hr. simpl.
  assert (Hkp : Z.abs k < 10 ^ prec ctx).
  { pose proof (Z.pow_lt_mono_r 10 (prec ctx - 1) (prec ctx)). lia. }
  pose proof (proj2 (ndigits_le_iff k (prec ctx) ltac:(lia)) Hkp).
  destruct (Z.ltb_spec (Emax ctx) (qe + ndigits k - 1)); [lia|].
  destruct (Z.ltb_spec (prec ctx) (ndigits k)); [lia|].
  destruct (dfix_exact ctx (Dec k qe) k qe Hw) as (r & Hx & _); [reflexivity|done|done|eauto].
Qed.

(** ** Addition and multiplication of values with few digits are exact *)

(** [d] is a multiple of [10 ^ k] with fewer than [p] digits: [n * 10 ^ k], [|n| < 10 ^ p]. *)
Definition units (k : Z) (d : decimal) (n : Z) : Prop := (dval d == inject_Z n * pow10 k)%Q.

Lemma units_add k x y m n : units k x m -> units k y n -> units k (add_exact x y) (m + n).
Proof. unfold units. intros Hx Hy. rewrite add_exact_val, Hx, Hy, inject_Z_plus. ring. Qed.

Lemma units_sub k x y m n : units k x m -> units k y n -> units k (add_exact x (neg_exact y)) (m - n).
Proof.
  unfold units. intros Hx Hy. rewrite add_exact_val, neg_exact_val, Hx, Hy.
  replace (m - n) with (m + - n) by lia. rewrite inject_Z_plus, inject_Z_opp. ring.
Qed.

Lemma units_mul k l x y m n : units k x m -> units l y n -> units (k + l) (mul_exact x y) (m * n).
Proof. unfold units. intros Hx Hy. rewrite mul_exact_val, Hx, Hy, inject_Z_mult, pow10_add. ring. Qed.

Lemma units_inj k d m n : units k d m -> units k d n -> m = n.
Proof.
  unfold units. intros Hm Hn. rewrite Hm in Hn. pose proof (pow10_nonzero k).
  apply inject_Z_injective. eapply Qmult_inj_r; [|exact Hn]. done.
Qed.

Lemma units_zero k d : dcoeff d = 0 -> units k d 0.
Proof. intros H. unfold units. apply dval_zero_iff in H. rewrite H. change (inject_Z 0) with 0%Q. ring. Qed.

Lemma units_compare k x y m n : units k x m -> units k y n -> (dval x ?= dval y)%Q = (m ?= n).
Proof. intros Hx Hy. rewrite <- (scaled_compare m n k). by apply Qcompare_comp. Qed.

Lemma units_lt k x y m n : units k x m -> units k y n -> ((dval x < dval y)%Q <-> m < n).
Proof. intros Hx Hy. by rewrite Qlt_alt, (units_compare k x y m n Hx Hy), Z.compare_lt_iff. Qed.

Lemma units_le k x y m n : units k x m -> units k y n -> ((dval x <= dval y)%Q <-> m <= n).
Proof. intros Hx Hy. by rewrite Qle_alt, (units_compare k x y m n Hx Hy), Z.compare_le_iff. Qed.

Lemma units_eq k x y m n : units k x m -> units k y n -> ((dval x == dval y)%Q <-> m = n).
Proof. intros Hx Hy. by rewrite Qeq_alt, (units_compare k x y m n Hx Hy), Z.compare_eq_iff. Qed.

Lemma units_dzero k : units k dzero 0.
Proof. by apply units_zero. Qed.
#[export] Hint Resolve units_dzero units_add units_sub : lotus.

Lemma dfix_units ctx k d n :
  wide ctx -> -1000 <= k <= 1000 -> units k d n -> Z.abs n < 10 ^ prec ctx ->
  exists r, dfix ctx d = Ok r /\ units k r n.
Proof.
  intros Hw Hk Hd Hn. destruct (dfix_exact ctx d n k Hw Hd Hn Hk) as (r & Hr & Hv).
  exists r. split; [done|]. unfold units. by rewrite Hv.
Qed.

(** ** Division *)

Lemma strip_to_val fuel c e i : (dval (strip_to fuel c e i) == dval (Dec c e))%Q.
Proof.
  revert c e. induction fuel as [|f IH]; intros c e; simpl; [reflexivity|].
  destruct ((e <? i) && (c mod 10 =? 0)) eqn:E; [|reflexivity].
  apply andb_true_iff in E as [_ E%Z.eqb_eq]. rewrite IH, !dval_Dec, pow10_add.
  change (pow10 1) with (inject_Z 10). rewrite (Z.div_mod c 10) at 2 by lia.
  rewrite E, Z.add_0_r, inject_Z_mult. ring.
Qed.

Lemma inject_Z_nonzero z : z <> 0 -> ~ (inject_Z z == 0)%Q.
Proof. intros H E. apply H. change 0%Q with (inject_Z 0) in E. by apply inject_Z_injective. Qed.

Lemma inject_Z_sgn z : (inject_Z z == inject_Z (Z.sgn z) * inject_Z (Z.abs z))%Q.
Proof. rewrite <- inject_Z_mult. by rewrite Z.mul_comm, Z.abs_sgn. Qed.

(** The quotient as a sign, a ratio of shifted coefficients and a power of ten. *)
Lemma quotient_shifted cx ex cy ey shift :
  cx <> 0 -> cy <> 0 ->
  (inject_Z cx * pow10 ex / (inject_Z cy * pow10 ey) ==
   inject_Z (Z.sgn cx * Z.sgn cy) *
   (inject_Z (Z.abs cx * 10 ^ Z.max shift 0) / inject_Z (Z.abs cy * 10 ^ Z.max (- shift) 0)
    * pow10 (ex - ey - shift)))%Q.
Proof.
  intros Hx Hy. rewrite !inject_Z_mult, <- !pow10_Z by lia.
  rewrite (inject_Z_sgn cx), (inject_Z_sgn cy).
  replace ex with ((ex - ey - shift) + ey + Z.max shift 0 + - Z.max (- shift) 0) at 1 by lia.
  rewrite !pow10_add.
  assert (Hi : (pow10 (- Z.max (- shift) 0) == / pow10 (Z.max (- shift) 0))%Q).
  { pose proof (pow10_neg_inv (Z.max (- shift) 0)) as H. pose proof (pow10_nonzero (Z.max (- shift) 0)).
    apply Qmult_inj_r with (z := pow10 (Z.max (- shift) 0)); [done|]. rewrite H. field. done. }
  rewrite Hi. assert (Hs : (inject_Z (Z.sgn cy) * inject_Z (Z.sgn cy) == 1)%Q).
  { rewrite <- inject_Z_mult. by destruct (Z.sgn_spec cy) as [[? ->]|[[? ->]|[? ->]]]. }
  assert (Hsy : ~ (inject_Z (Z.sgn cy) == 0)%Q) by (intros E; rewrite E in Hs; lra).
  assert (Hinv : (inject_Z (Z.sgn cy) == / inject_Z (Z.sgn cy))%Q).
  { apply Qmult_inj_r with (z := inject_Z (Z.sgn cy)); [done|]. rewrite Hs. field. done. }
  rewrite Hinv at 2. field.
  repeat split; try apply pow10_nonzero; try done. apply inject_Z_nonzero. lia.
Qed.

Lemma Qabs_sgn_mul cx cy q :
  cx <> 0 -> cy <> 0 -> (Qabs (inject_Z (Z.sgn cx * Z.sgn cy) * q) == Qabs q)%Q.
Proof.
  intros Hx Hy. rewrite Qabs_Qmult.
  destruct (Z.sgn_spec cx) as [[? ->]|[[? ?]|[? ->]]]; [|lia|];
  destruct (Z.sgn_spec cy) as [[? ->]|[[? ?]|[? ->]]]; try lia; change (Qabs (inject_Z _)) with 1%Q; ring.
Qed.

(** The magnitude [div_raw] computes is within one of the exact ratio. *)
Lemma floor_near num den m :
  0 < den -> m = num / den \/ m = num / den + 1 -> (Qabs (inject_Z m - inject_Z num / inject_Z den) <= 1)%Q.
Proof.
  intros Hd Hm. pose proof (Z.div_mod num den ltac:(lia)). pose proof (Z.mod_pos_bound num den Hd).
  assert (Hdq : (0 < inject_Z den)%Q) by (change 0%Q with (inject_Z 0); by rewrite <- Zlt_Qlt).
  assert (inject_Z (num / den) <= inject_Z num / inject_Z den)%Q.
  { apply Qle_shift_div_l; [done|]. rewrite <- inject_Z_mult, <- Zle_Qle. lia. }
  assert (inject_Z num / inject_Z den < inject_Z (num / den + 1))%Q.
  { apply Qlt_shift_div_r; [done|]. rewrite <- inject_Z_mult, <- Zlt_Qlt. lia. }
  rewrite inject_Z_plus in *. change (inject_Z 1) with 1%Q in *.
  apply Qabs_Qle_condition. destruct Hm as [-> | ->]; [|rewrite inject_Z_plus; change (inject_Z 1) with 1%Q]; split; lra.
Qed.

Lemma ratio_large cx cy p shift :
  cx <> 0 -> cy <> 0 -> 1 <= p -> shift = ndigits cy - ndigits cx + p + 1 ->
  10 ^ p * (Z.abs cy * 10 ^ Z.max (- shift) 0) <= Z.abs cx * 10 ^ Z.max shift 0.
Proof.
  intros Hx Hy Hp Hs. destruct (ndigits_spec cx Hx) as (? & Hlo & _). destruct (ndigits_spec cy Hy) as (? & _ & Hhi).
  pose proof (Z.pow_pos_nonneg 10 (Z.max shift 0)). pose proof (Z.pow_pos_nonneg 10 (Z.max (- shift) 0)).
  pose proof (Z.pow_pos_nonneg 10 p).
  apply Z.le_trans with (10 ^ p * (10 ^ ndigits cy * 10 ^ Z.max (- shift) 0)).
  - apply Z.mul_le_mono_nonneg_l; [lia|]. apply Z.mul_le_mono_nonneg_r; lia.
  - apply Z.le_trans with (10 ^ (ndigits cx - 1) * 10 ^ Z.max shift 0).
    + rewrite <- !Z.pow_add_r by lia. apply Z.pow_le_mono_r; lia.
    + apply Z.mul_le_mono_nonneg_r; lia.
Qed.

(** The raw quotient: sign, a magnitude within one of the ratio, at the working exponent. *)
Lemma div_raw_val p cx ex cy ey :
  cx <> 0 -> cy <> 0 ->
  let shift := ndigits cy - ndigits cx + p + 1 in
  let num := Z.abs cx * 10 ^ Z.max shift 0 in
  let den := Z.abs cy * 10 ^ Z.max (- shift) 0 in
  exists m, (m = num / den \/ m = num / den + 1) /\
    (dval (div_raw p (Dec cx ex) (Dec cy ey)) ==
     inject_Z (Z.sgn cx * Z.sgn cy) * (inject_Z m * pow10 (ex - ey - shift)))%Q.
Proof.
  intros Hx Hy shift num den. unfold div_raw. rewrite (proj2 (Z.eqb_neq cx 0) Hx).
  fold shift num den. cbv zeta. destruct (num mod den =? 0).
  - exists (num / den). split; [by left|].
    pose proof (strip_to_val (Z.to_nat (ndigits (num / den))) (num / den) (ex - ey - shift) (ex - ey)) as Hv.
    destruct (strip_to _ _ _ _) as [q' e']. rewrite !dval_Dec in *. rewrite inject_Z_mult, <- Hv. ring.
  - destruct (_ =? 0); [exists (num / den + 1)|exists (num / den)];
      (split; [tauto|rewrite dval_Dec, (inject_Z_mult (Z.sgn cx * Z.sgn cy)); ring]).
Qed.

Lemma div_raw_error p x y :
  1 <= p -> dcoeff y <> 0 ->
  (Qabs (dval (div_raw p x y) - dval x / dval y) <= pow10 (- p) * Qabs (dval x / dval y))%Q.
Proof.
  intros Hp Hy. destruct x as [cx ex], y as [cy ey]; simpl in Hy. pose proof (pow10_pos (- p)) as Hpp.
  destruct (decide (cx = 0)) as [->|Hx].
  { change (div_raw p (Dec 0 ex) (Dec cy ey)) with (Dec 0 (ex - ey)). rewrite !dval_Dec. change (inject_Z 0) with 0%Q.
    assert (Hz : (0 * pow10 (ex - ey) - 0 * pow10 ex / (inject_Z cy * pow10 ey) == 0)%Q).
    { field. split; [apply pow10_nonzero|by apply inject_Z_nonzero]. }
    rewrite Hz. apply Qle_trans with 0%Q; [discriminate|]. apply Qmult_le_0_compat; [lra|apply Qabs_nonneg]. }
  destruct (div_raw_val p cx ex cy ey Hx Hy) as (m & Hm & Hv). simpl in Hv, Hm. rewrite Hv. clear Hv.
  set (shift := ndigits cy - ndigits cx + p + 1) in *. set (e := ex - ey - shift) in *.
  rewrite !dval_Dec, (quotient_shifted cx ex cy ey shift Hx Hy).
  set (num := Z.abs cx * 10 ^ Z.max shift 0) in *. set (den := Z.abs cy * 10 ^ Z.max (- shift) 0) in *. fold e.
  assert (Hden : 0 < den) by (unfold den; apply Z.mul_pos_pos; [lia|apply Z.pow_pos_nonneg; lia]).
  pose proof (floor_near num den m Hden Hm) as Hnear.
  assert (Hlarge : (pow10 p <= inject_Z num / inject_Z den)%Q).
  { rewrite pow10_Z by lia. apply Qle_shift_div_l; [by rewrite <- (Zlt_Qlt 0)|].
    rewrite <- inject_Z_mult, <- Zle_Qle. by apply ratio_large. }
  set (t := (inject_Z num / inject_Z den)%Q) in *. set (s := inject_Z (Z.sgn cx * Z.sgn cy)).
  assert (Hf : (s * (inject_Z m * pow10 e) - s * (t * pow10 e) == s * ((inject_Z m - t) * pow10 e))%Q) by ring.
  rewrite Hf. unfold s. rewrite !Qabs_sgn_mul by done. rewrite !Qabs_Qmult.
  pose proof (pow10_pos e). rewrite (Qabs_pos (pow10 e)) by lra. pose proof (pow10_pos p).
  rewrite (Qabs_pos t) by lra. pose proof (pow10_neg_inv p).
  assert (1 <= pow10 (- p) * t)%Q by nra.
  apply Qle_trans with (1 * pow10 e)%Q; [apply Qmult_le_compat_r; lra|nra].
Qed.

(** Division is correct to one unit in the last of [prec] digits. *)
Lemma ddiv_error ctx x y r :
  wide ctx -> 2 <= prec ctx -> rounding ctx = ROUND_HALF_EVEN ->
  (pow10 (-800000) <= Qabs (dval x / dval y))%Q ->
  ddiv ctx x y = Ok r ->
  (Qabs (dval r - dval x / dval y) <= pow10 (1 - prec ctx) * Qabs (dval x / dval y))%Q.
Proof.
  intros Hw Hp Hm Hlo. unfold ddiv. destruct (Z.eqb_spec (dcoeff y) 0) as [|Hy]; [done|]. intros Hr.
  pose proof (div_raw_error (prec ctx) x y ltac:(lia) Hy) as H1.
  set (raw := div_raw (prec ctx) x y) in *. set (t := (dval x / dval y)%Q) in *.
  assert (Hsmall : (pow10 (- prec ctx) <= 1 # 100)%Q) by (change (1 # 100) with (pow10 (-2)); apply pow10_mono; lia).
  pose proof (Qabs_triangle_reverse t (dval raw)) as Htr.
  assert (Hsym : (Qabs (t - dval raw) == Qabs (dval raw - t))%Q) by (rewrite Qabs_Qminus; reflexivity).
  pose proof (Qabs_triangle (dval raw - t) t) as Htr2.
  assert (Hs2 : (dval raw - t + t == dval raw)%Q) by ring. rewrite Hs2 in Htr2.
  pose proof (pow10_pos (- prec ctx)) as Hpp.
  assert (Hrawlo : (pow10 (-900000) <= Qabs (dval raw))%Q).
  { pose proof (pow10_mono (-900000) (-800001) ltac:(lia)).
    assert (pow10 (-800000) == 10 * pow10 (-800001))%Q by (change (-800000) with (1 + -800001); rewrite pow10_add; reflexivity).
    pose proof (Qabs_nonneg t). nra. }
  pose proof (dfix_rel_error ctx raw r Hw Hm Hrawlo Hr) as H2.
  replace (1 - prec ctx) with (1 + - prec ctx) in * by lia. rewrite pow10_add in *. change (pow10 1) with 10%Q in *.
  pose proof (Qabs_triangle (dval r - dval raw) (dval raw - t)) as Htr3.
  assert (Hs3 : (dval r - dval raw + (dval raw - t) == dval r - t)%Q) by ring. rewrite Hs3 in Htr3.
  set (a := Qabs t) in *. set (b := Qabs (dval raw)) in *. set (w := pow10 (- prec ctx)) in *.
  assert (0 <= a)%Q by apply Qabs_nonneg.
  assert (Hb : (b <= (101 # 100) * a)%Q) by nra.
  assert ((1 # 2) * (10 * w) * b <= (1 # 2) * (10 * w) * ((101 # 100) * a))%Q by nra.
  nra.
Qed.

Lemma ddiv_Ok ctx x y :
  wide ctx -> dcoeff y <> 0 -> (Qabs (dval x / dval y) < pow10 800000)%Q ->
  exists r, ddiv ctx x y = Ok r.
Proof.
  intros Hw Hy Hhi. unfold ddiv. rewrite (proj2 (Z.eqb_neq _ _) Hy). apply dfix_Ok; [done|].
  pose proof (div_raw_error (prec ctx) x y ltac:(destruct Hw; lia) Hy) as H1.
  set (raw := div_raw (prec ctx) x y) in *. set (t := (dval x / dval y)%Q) in *.
  pose proof (Qabs_triangle (dval raw - t) t) as Htr. assert (Hs : (dval raw - t + t == dval raw)%Q) by ring.
  rewrite Hs in Htr. assert (pow10 (- prec ctx) <= 1)%Q by (change 1%Q with (pow10 0); apply pow10_mono; destruct Hw; lia).
  pose proof (Qabs_nonneg t).
  assert (10 * pow10 800000 <= pow10 900000)%Q
    by (change 10%Q with (pow10 1); rewrite <- pow10_add; apply pow10_mono; lia).
  nra.
Qed.

(** A quotient that has a decimal expansion of at most [p] digits is computed exactly. *)
Lemma div_raw_exact p x y n k :
  1 <= p -> dcoeff y <> 0 -> (dval x / dval y == inject_Z n * pow10 k)%Q -> Z.abs n < 10 ^ p ->
  (dval (div_raw p x y) == inject_Z n * pow10 k)%Q.
Proof.
  intros Hp Hy Hq Hn. destruct x as [cx ex], y as [cy ey]; simpl in Hy.
  destruct (decide (cx = 0)) as [->|Hx].
  { rewrite <- Hq. change (div_raw p (Dec 0 ex) (Dec cy ey)) with (Dec 0 (ex - ey)). rewrite !dval_Dec. change (inject_Z 0) with 0%Q.
    field. split; [apply pow10_nonzero|by apply inject_Z_nonzero]. }
  rewrite <- Hq. rewrite !dval_Dec, (quotient_shifted cx ex cy ey (ndigits cy - ndigits cx + p + 1) Hx Hy).
  unfold div_raw. rewrite (proj2 (Z.eqb_neq cx 0) Hx). cbv zeta.
  set (shift := ndigits cy - ndigits cx + p + 1) in *. set (num := Z.abs cx * 10 ^ Z.max shift 0) in *.
  set (den := Z.abs cy * 10 ^ Z.max (- shift) 0) in *. set (e := ex - ey - shift).
  assert (Hden : 0 < den) by (unfold den; apply Z.mul_pos_pos; [lia|apply Z.pow_pos_nonneg; lia]).
  assert (Hdq : (0 < inject_Z den)%Q) by (change 0%Q with (inject_Z 0); by rewrite <- Zlt_Qlt).
  assert (Hlarge : 10 ^ p * den <= num) by (by apply ratio_large).
  assert (Ht : (inject_Z num / inject_Z den * pow10 e == inject_Z (Z.abs n) * pow10 k)%Q).
  { rewrite !dval_Dec, (quotient_shifted cx ex cy ey shift Hx Hy) in Hq. fold num den e in Hq. apply Qabs_wd in Hq.
    rewrite Qabs_sgn_mul in Hq by done. rewrite !Qabs_Qmult in Hq. rewrite (Qabs_pos (pow10 e)), (Qabs_pos (pow10 k)) in Hq
      by (apply Qlt_le_weak, pow10_pos).
    rewrite (Qabs_pos (inject_Z num / inject_Z den)) in Hq; [exact Hq|].
    apply Qle_shift_div_l; [done|]. rewrite Qmult_0_l. change 0%Q with (inject_Z 0). rewrite <- Zle_Qle.
    pose proof (Z.pow_pos_nonneg 10 p). nia. }
  assert (Hke : e <= k).
  { apply Z.nlt_ge. intros Hlt. pose proof (pow10_lt_mono k e Hlt) as Hpk. pose proof (pow10_pos k) as Pk. pose proof (pow10_pos e) as Pe.
    assert (Hbig : (inject_Z (Z.abs n) + 1 <= inject_Z num / inject_Z den)%Q).
    { apply Qle_shift_div_l; [done|]. change 1%Q with (inject_Z 1). rewrite <- inject_Z_plus, <- inject_Z_mult, <- Zle_Qle. nia. }
    assert (Hn0 : (0 <= inject_Z (Z.abs n))%Q) by (change 0%Q with (inject_Z 0); rewrite <- Zle_Qle; lia). nra. }
  assert (Hmul : num = Z.abs n * 10 ^ (k - e) * den).
  { apply inject_Z_injective. rewrite !inject_Z_mult, <- pow10_Z by lia. replace k with ((k - e) + e) in Ht by lia.
    rewrite pow10_add in Ht. pose proof (pow10_nonzero e) as Ze.
    assert (Ht' : (inject_Z num / inject_Z den == inject_Z (Z.abs n) * pow10 (k - e))%Q).
    { apply Qmult_inj_r with (z := pow10 e); [done|]. rewrite Ht. ring. }
    rewrite <- Ht'. field. apply inject_Z_nonzero. lia. }
  assert (Hmod : num mod den = 0) by (rewrite Hmul; apply Z.mod_mul; lia).
  assert (Hdiv : (inject_Z (num / den) == inject_Z num / inject_Z den)%Q).
  { rewrite Hmul, Z.div_mul by lia. rewrite (inject_Z_mult _ den). field. apply inject_Z_nonzero. lia. }
  rewrite Hmod. change (0 =? 0) with true. cbv iota.
  pose proof (strip_to_val (Z.to_nat (ndigits (num / den))) (num / den) e (ex - ey)) as Hv.
  destruct (strip_to _ _ _ _) as [q' e']. rewrite !dval_Dec in *. by rewrite inject_Z_mult, <- Qmult_assoc, Hv, Hdiv.
Qed.

Lemma ddiv_exact ctx x y n k :
  wide ctx -> -1000 <= k <= 1000 -> dcoeff y <> 0 -> (dval x / dval y == inject_Z n * pow10 k)%Q -> Z.abs n < 10 ^ prec ctx ->
  exists r, ddiv ctx x y = Ok r /\ units k r n.
Proof.
  intros Hw Hk Hy Hq Hn. unfold ddiv. rewrite (proj2 (Z.eqb_neq _ _) Hy).
  apply dfix_units; [done|done| |done]. unfold units. apply div_raw_exact; try done. destruct Hw; lia.
Qed.

(** ** [_fix] is monotone on non-negative values *)

Lemma dfix_nonneg ctx d r : 1 <= prec ctx -> (0 <= dval d)%Q -> dfix ctx d = Ok r -> (0 <= dval r)%Q.
Proof.
  intros Hp Hd Hr. rewrite (dfix_spec ctx d r Hp Hr). pose proof (pow10_pos (fix_exponent ctx d)).
  apply Qmult_le_0_compat; [|lra]. change 0%Q with (inject_Z 0). rewrite <- Zle_Qle.
  rewrite <- (qround_int (rounding ctx) 0). apply qround_mono.
  apply Qle_shift_div_l; [done|]. change (inject_Z 0) with 0%Q. lra.
Qed.

Lemma scaled_le a b e : (inject_Z a * pow10 e <= inject_Z b * pow10 e)%Q <-> a <= b.
Proof. rewrite Qle_alt, scaled_compare. apply Z.compare_le_iff. Qed.

(** Rounding to exponent [E] stays below any bound that is a multiple of [10 ^ E]. *)
Lemma qround_scaled_le mode v E K :
  E <= K -> (v <= pow10 K)%Q -> (inject_Z (qround mode (v / pow10 E)) * pow10 E <= pow10 K)%Q.
Proof.
  intros HE Hv. replace K with ((K - E) + E) by lia. rewrite pow10_add, (pow10_Z (K - E)) by lia.
  rewrite scaled_le, <- (qround_int mode (10 ^ (K - E))). apply qround_mono. pose proof (pow10_pos E).
  apply Qle_shift_div_r; [done|]. rewrite <- pow10_Z by lia. rewrite <- pow10_add.
  by replace (K - E + E) with K by lia.
Qed.

Lemma qround_scaled_ge mode v E K :
  E <= K -> (pow10 K <= v)%Q -> (pow10 K <= inject_Z (qround mode (v / pow10 E)) * pow10 E)%Q.
Proof.
  intros HE Hv. replace K with ((K - E) + E) by lia. rewrite pow10_add, (pow10_Z (K - E)) by lia.
  rewrite scaled_le. rewrite <- (qround_int mode (10 ^ (K - E))) at 1. apply qround_mono. pose proof (pow10_pos E).
  apply Qle_shift_div_l; [done|]. rewrite <- pow10_Z by lia. rewrite <- pow10_add.
  by replace (K - E + E) with K by lia.
Qed.

Lemma dfix_mono ctx x y rx ry :
  1 <= prec ctx -> (0 <= dval x)%Q -> (dval x <= dval y)%Q ->
  dfix ctx x = Ok rx -> dfix ctx y = Ok ry -> (dval rx <= dval ry)%Q.
Proof.
  intros Hp Hx Hxy Hrx Hry.
  destruct (decide (dcoeff x = 0)) as [Hcx|Hcx].
  { rewrite (dfix_zero ctx x rx Hcx Hrx). apply (dfix_nonneg ctx y ry Hp); [lra|done]. }
  assert (Hx0 : (0 < dval x)%Q) by (apply Qle_lteq in Hx as [|Hx]; [done|symmetry in Hx; by apply dval_zero_iff in Hx]).
  assert (Hcy : dcoeff y <> 0) by (intros E%dval_zero_iff; lra).
  destruct (dval_adjusted x Hcx) as [Hx1 Hx2]. destruct (dval_adjusted y Hcy) as [Hy1 Hy2].
  rewrite Qabs_pos in Hx1, Hx2, Hy1, Hy2 by lra.
  assert (ndigits (dcoeff x) - 1 + dexp x < ndigits (dcoeff y) + dexp y) by (apply pow10_lt_inv; lra).
  rewrite (dfix_spec ctx x rx Hp Hrx), (dfix_spec ctx y ry Hp Hry).
  assert (HE : fix_exponent ctx x <= fix_exponent ctx y) by (unfold fix_exponent; lia).
  destruct (Z.eq_dec (fix_exponent ctx x) (fix_exponent ctx y)) as [Heq|Hne].
  { rewrite Heq, scaled_le. apply qround_mono. pose proof (pow10_pos (fix_exponent ctx y)).
    apply Qle_shift_div_l; [done|]. rewrite <- Qmult_comm, Qmult_div_r; [done|apply pow10_nonzero]. }
  set (K := ndigits (dcoeff y) - 1 + dexp y).
  apply Qle_trans with (pow10 K).
  - apply qround_scaled_le; [unfold fix_exponent, K in *; lia|].
    apply Qlt_le_weak, Qlt_le_trans with (pow10 (ndigits (dcoeff x) + dexp x)); [done|].
    apply pow10_mono. unfold fix_exponent, K in *. lia.
  - apply qround_scaled_ge; [unfold fix_exponent, K in *; lia|done].
Qed.
