(* ===== verification/PyTime.v ===== *)
(** * Python dates and datetimes

    A [date] is the number of days since 1970-01-01; a [datetime] is its wall-clock microseconds
    since the same epoch with the UTC offset of its [tzinfo], if any.  Arithmetic that leaves the
    years 1..9999 raises [OverflowError], as in Python. *)

From Stdlib Require Import ZArith Lia String Ascii.
From stdpp Require Import base tactics list strings.
From S2P Require Import Prelude PyDecimal.

#[local] Open Scope string_scope.
#[local] Open Scope Z_scope.

Definition date := Z.

Record datetime := { dt_us : Z; dt_utcoffset : option Z }.

#[export] Instance datetime_eq_dec : EqDecision datetime.
Proof. solve_decision. Defined.

Definition us_per_day : Z := 86400000000.
Definition date_min : date := -719162.
Definition date_max : date := 2932896.

Definition dt_date (d : datetime) : date := dt_us d / us_per_day.

(** [value.tzinfo is None or value.utcoffset() is None]. *)
Definition is_naive (d : datetime) : bool :=
  match dt_utcoffset d with None => true | Some _ => false end.

(** [value.astimezone(timezone.utc)] of an aware datetime. *)
Definition astimezone_utc (d : datetime) : datetime :=
  {| dt_us := dt_us d - default 0 (dt_utcoffset d); dt_utcoffset := Some 0 |}.

(** The instant of an aware datetime, by which Python compares them. *)
Definition dt_instant (d : datetime) : Z := dt_us d - default 0 (dt_utcoffset d).

Definition replace_utc (d : datetime) : datetime := {| dt_us := dt_us d; dt_utcoffset := Some 0 |}.

(** [d - timedelta(days=n)]. *)
Definition date_sub_days (d : date) (n : Z) : result date :=
  if (d - n <? date_min) || (date_max <? d - n)
  then Raise (OverflowError "date value out of range") else Ok (d - n).

Lemma astimezone_utc_instant d : dt_us (astimezone_utc d) = dt_instant d.
Proof. reflexivity. Qed.

Lemma astimezone_utc_idem d : astimezone_utc (astimezone_utc d) = astimezone_utc d.
Proof. unfold astimezone_utc; simpl. f_equal. lia. Qed.

(** ** ISO 8601 text *)

Definition pad_left (n : nat) (s : string) : string :=
  String.append (zeros (n - String.length s)) s.

(** Civil year, month and day of a day number. *)
Definition civil_of_days (d : date) : Z * Z * Z :=
  let z := d + 719468 in
  let era := z / 146097 in
  let doe := z - era * 146097 in
  let yoe := (doe - doe / 1460 + doe / 36524 - doe / 146096) / 365 in
  let doy := doe - (365 * yoe + yoe / 4 - yoe / 100) in
  let mp := (5 * doy + 2) / 153 in
  let day := doy - (153 * mp + 2) / 5 + 1 in
  let month := if mp <? 10 then mp + 3 else mp - 9 in
  let year := yoe + era * 400 + (if month <=? 2 then 1 else 0) in
  (year, month, day).

Definition date_isoformat (d : date) : string :=
  let '(y, m, dd) := civil_of_days d in
  pad_left 4 (string_of_nonneg y) +:+ "-" +:+ pad_left 2 (string_of_nonneg m) +:+ "-" +:+ pad_left 2 (string_of_nonneg dd).

Definition offset_isoformat (off : Z) : string :=
  let a := Z.abs off in
  let total := a / 1000000 in
  let sign := if off <? 0 then "-" else "+" in
  let hm := sign +:+ pad_left 2 (string_of_nonneg (total / 3600)) +:+ ":" +:+ pad_left 2 (string_of_nonneg (total / 60 mod 60)) in
  let us := a mod 1000000 in
  let secs := if (total mod 60 =? 0) && (us =? 0) then "" else ":" +:+ pad_left 2 (string_of_nonneg (total mod 60)) in
  hm +:+ secs +:+ (if us =? 0 then "" else "." +:+ pad_left 6 (string_of_nonneg us)).

Definition datetime_isoformat (d : datetime) : string :=
  let us := dt_us d mod us_per_day in
  let secs := us / 1000000 in
  let micro := us mod 1000000 in
  date_isoformat (dt_date d) +:+ "T" +:+
  pad_left 2 (string_of_nonneg (secs / 3600)) +:+ ":" +:+
  pad_left 2 (string_of_nonneg (secs / 60 mod 60)) +:+ ":" +:+
  pad_left 2 (string_of_nonneg (secs mod 60)) +:+
  (if micro =? 0 then "" else "." +:+ pad_left 6 (string_of_nonneg micro)) +:+
  match dt_utcoffset d with None => "" | Some off => offset_isoformat off end.

Arguments date_isoformat : simpl never.
Arguments datetime_isoformat : simpl never.
