(* ===== verification/Calendar.v ===== *)
(** * The proleptic Gregorian calendar

    [datetime.date] by components: [PyTime.civil_of_days] splits a day number into year, month and
    day; [days_of_civil] is its inverse, the constructor [date(y, m, d)]. *)

From Stdlib Require Import ZArith Lia String.
From stdpp Require Import base tactics list strings.
From S2P Require Import Prelude PyDecimal PyTime.

#[local] Open Scope string_scope.
#[local] Open Scope Z_scope.

(** [calendar.isleap]. *)
Definition isleap (y : Z) : bool := (y mod 4 =? 0) && (negb (y mod 100 =? 0) || (y mod 400 =? 0)).

Definition days_in_month (y m : Z) : Z :=
  if m =? 2 then (if isleap y then 29 else 28)
  else if (m =? 4) || (m =? 6) || (m =? 9) || (m =? 11) then 30 else 31.

Definition date_year (d : date) : Z := fst (fst (civil_of_days d)).
Definition date_month (d : date) : Z := snd (fst (civil_of_days d)).
Definition date_day (d : date) : Z := snd (civil_of_days d).

(** The day number of a civil date; the year is counted from March. *)
Definition days_of_civil (y m d : Z) : date :=
  let y' := if m <=? 2 then y - 1 else y in
  let m' := if m <=? 2 then m + 9 else m - 3 in
  365 * y' + y' / 4 - y' / 100 + y' / 400 + (153 * m' + 2) / 5 + d - 1 - 719468.

(** [date(y, m, d)]. *)
Definition make_date (y m d : Z) : result date :=
  if negb ((1 <=? y) && (y <=? 9999)) then Raise (ValueError "year is out of range") else
  if negb ((1 <=? m) && (m <=? 12)) then Raise (ValueError "month must be in 1..12") else
  if negb ((1 <=? d) && (d <=? days_in_month y m)) then Raise (ValueError "day is out of range for month")
  else Ok (days_of_civil y m d).

(** ** Components of a day number *)

(** The year of an era, counted from March, of a day of the era. *)
Lemma year_of_era doe : 0 <= doe < 146097 ->
  let yoe := (doe - doe / 1460 + doe / 36524 - doe / 146096) / 365 in
  0 <= yoe < 400 /\
  365 * yoe + yoe / 4 - yoe / 100 <= doe < 365 * (yoe + 1) + (yoe + 1) / 4 - (yoe + 1) / 100 + (yoe + 1) / 400.
Proof. intros H. cbv zeta. Z.div_mod_to_equations; lia. Qed.

(** The same year without eras, and the day of the year. *)
Lemma march_year d : exists y' doy mp,
  0 <= doy /\ doy <= 365 /\ (doy = 365 -> y' mod 4 = 3 /\ (y' mod 100 = 99 -> y' mod 400 = 399)) /\
  mp = (5 * doy + 2) / 153 /\
  d + 719468 = 365 * y' + y' / 4 - y' / 100 + y' / 400 + doy /\
  civil_of_days d = ((if (if mp <? 10 then mp + 3 else mp - 9) <=? 2 then y' + 1 else y'), (if mp <? 10 then mp + 3 else mp - 9),
                     doy - (153 * mp + 2) / 5 + 1).
Proof.
  set (z := d + 719468). set (era := z / 146097). set (doe := z - era * 146097).
  set (yoe := (doe - doe / 1460 + doe / 36524 - doe / 146096) / 365).
  assert (Hdoe : 0 <= doe < 146097) by (unfold doe, era; Z.div_mod_to_equations; lia).
  pose proof (year_of_era doe Hdoe) as [Hy Hb]. fold yoe in Hy, Hb.
  exists (yoe + era * 400), (doe - (365 * yoe + yoe / 4 - yoe / 100)), ((5 * (doe - (365 * yoe + yoe / 4 - yoe / 100)) + 2) / 153).
  assert (E4 : (yoe + era * 400) / 4 = yoe / 4 + era * 100) by (Z.div_mod_to_equations; lia).
  assert (E100 : (yoe + era * 400) / 100 = yoe / 100 + era * 4) by (Z.div_mod_to_equations; lia).
  assert (E400 : (yoe + era * 400) / 400 = era) by (Z.div_mod_to_equations; lia).
  assert (M4 : (yoe + era * 400) mod 4 = yoe mod 4) by (Z.div_mod_to_equations; lia).
  assert (M100 : (yoe + era * 400) mod 100 = yoe mod 100) by (Z.div_mod_to_equations; lia).
  assert (M400 : (yoe + era * 400) mod 400 = yoe) by (Z.div_mod_to_equations; lia).
  rewrite E4, E100, E400, M4, M100, M400. clear E4 E100 E400 M4 M100 M400.
  split; [lia|]. split; [Z.div_mod_to_equations; lia|]. split; [Z.div_mod_to_equations; lia|]. split; [done|]. split; [unfold doe; lia|].
  unfold civil_of_days. fold z era doe yoe. f_equal. f_equal. by destruct (_ <=? 2); lia.
Qed.

Lemma isleap_true y : y mod 4 = 0 -> (y mod 100 = 0 -> y mod 400 = 0) -> isleap y = true.
Proof.
  intros H4 H. unfold isleap. rewrite H4. cbn. destruct (Z.eqb_spec (y mod 100) 0) as [E|]; [|done]. by rewrite (H E).
Qed.

Lemma isleap_false y : isleap y = false -> y mod 4 <> 0 \/ (y mod 100 = 0 /\ y mod 400 <> 0).
Proof. unfold isleap. destruct (Z.eqb_spec (y mod 4) 0), (Z.eqb_spec (y mod 100) 0), (Z.eqb_spec (y mod 400) 0); cbn; intros; try done; auto. Qed.

(** Evaluate closed arithmetic. *)
#[local] Ltac compute_constants :=
  unfold days_in_month; cbv beta iota zeta;
  repeat match goal with
  | |- context [?f ?a ?b] =>
      lazymatch a with Z0 => idtac | Zpos _ => idtac | Zneg _ => idtac end;
      lazymatch b with Z0 => idtac | Zpos _ => idtac | Zneg _ => idtac end;
      lazymatch f with Z.add => idtac | Z.sub => idtac | Z.mul => idtac | Z.div => idtac | Z.leb => idtac | Z.ltb => idtac | Z.eqb => idtac end;
      let v := eval vm_compute in (f a b) in change (f a b) with v; cbv beta iota delta [orb]
  end.

(** A month of a March-based year: its length, and where it lies. *)
Lemma march_month y' doy mp :
  0 <= doy <= 365 -> (doy = 365 -> isleap (y' + 1) = true) -> mp = (5 * doy + 2) / 153 ->
  let m := if mp <? 10 then mp + 3 else mp - 9 in
  let y := if m <=? 2 then y' + 1 else y' in
  1 <= m <= 12 /\ 1 <= doy - (153 * mp + 2) / 5 + 1 <= days_in_month y m /\
  (if m <=? 2 then y - 1 else y) = y' /\ (if m <=? 2 then m + 9 else m - 3) = mp.
Proof.
  intros H Hl Hm. assert (Hb : 153 * mp <= 5 * doy + 2 < 153 * (mp + 1)) by (Z.div_mod_to_equations; lia). clear Hm.
  assert (mp = 0 \/ mp = 1 \/ mp = 2 \/ mp = 3 \/ mp = 4 \/ mp = 5 \/ mp = 6 \/ mp = 7 \/ mp = 8 \/ mp = 9 \/ mp = 10 \/ mp = 11) as Hmp by lia.
  assert (Hfeb : mp = 11 -> isleap (y' + 1) = false -> doy <= 364)
    by (intros _ E; assert (doy <> 365) by (intros ->; by rewrite Hl in E); lia). clear Hl.
  repeat destruct Hmp as [->|Hmp]; [..|subst mp]; compute_constants; try lia.
  specialize (Hfeb eq_refl). destruct (isleap (y' + 1)); [lia|]. specialize (Hfeb eq_refl). lia.
Qed.

Lemma leap_day y' : y' mod 4 = 3 -> (y' mod 100 = 99 -> y' mod 400 = 399) -> isleap (y' + 1) = true.
Proof.
  intros H4 H. apply isleap_true; [clear H; Z.div_mod_to_equations; lia|]. intros E.
  specialize (H ltac:(Z.div_mod_to_equations; lia)). Z.div_mod_to_equations; lia.
Qed.

Lemma civil_valid d : let y := date_year d in let m := date_month d in
  1 <= m <= 12 /\ 1 <= date_day d <= days_in_month y m /\ days_of_civil y m (date_day d) = d.
Proof.
  destruct (march_year d) as (y' & doy & mp & H0 & H1 & Hl & Hm & Hd & Hc). unfold date_year, date_month, date_day. rewrite Hc. cbn [fst snd].
  destruct (march_month y' doy mp) as (Hmm & Hdd & Ey & Em); [lia|intros E; destruct (Hl E); by apply leap_day|done|].
  split; [done|]. split; [done|]. unfold days_of_civil. rewrite Ey, Em. lia.
Qed.

(** ** Order *)

Definition first_of_month (y m : Z) : date := days_of_civil y m 1.
Definition jan1 (y : Z) : date := first_of_month y 1.

Lemma days_of_civil_first y m d : days_of_civil y m d = first_of_month y m + (d - 1).
Proof. unfold first_of_month, days_of_civil. destruct (m <=? 2); lia. Qed.

Lemma leap_step y : (y / 4 - y / 100 + y / 400) - ((y - 1) / 4 - (y - 1) / 100 + (y - 1) / 400) = if isleap y then 1 else 0.
Proof.
  destruct (isleap y) eqn:E; [|apply isleap_false in E; Z.div_mod_to_equations; lia].
  unfold isleap in E. apply andb_true_iff in E as [E4%Z.eqb_eq E]. apply orb_true_iff in E as [E|E].
  - apply negb_true_iff, Z.eqb_neq in E. Z.div_mod_to_equations; lia.
  - apply Z.eqb_eq in E. Z.div_mod_to_equations; lia.
Qed.

Lemma jan1_step y : jan1 (y + 1) = jan1 y + 365 + (if isleap y then 1 else 0).
Proof. rewrite <- leap_step. unfold jan1, first_of_month, days_of_civil. compute_constants. replace (y + 1 - 1) with y by lia. lia. Qed.

Lemma jan1_mono y y' : y <= y' -> jan1 y <= jan1 y'.
Proof. intros H. unfold jan1, first_of_month, days_of_civil. compute_constants. Z.div_mod_to_equations; lia. Qed.

Lemma months_mono y m m' : 1 <= m -> m <= m' -> m' <= 12 -> first_of_month y m <= first_of_month y m'.
Proof.
  intros. unfold first_of_month, days_of_civil. pose proof (leap_step y). destruct (isleap y), (Z.leb_spec m 2), (Z.leb_spec m' 2);
    Z.div_mod_to_equations; lia.
Qed.

(** A month is followed by the next, December by the next January. *)
Lemma month_step y m : 1 <= m <= 12 ->
  first_of_month y m + days_in_month y m = if m =? 12 then jan1 (y + 1) else first_of_month y (m + 1).
Proof.
  intros H. pose proof (leap_step y) as Hl.
  assert (m = 1 \/ m = 2 \/ m = 3 \/ m = 4 \/ m = 5 \/ m = 6 \/ m = 7 \/ m = 8 \/ m = 9 \/ m = 10 \/ m = 11 \/ m = 12) as Hm by lia.
  unfold jan1, first_of_month, days_of_civil. replace (y + 1 - 1) with y by lia.
  repeat destruct Hm as [->|Hm]; [..|subst m]; compute_constants; replace (y + 1 - 1) with y by lia; try lia. destruct (isleap y); lia.
Qed.

Lemma month_end y m : 1 <= m <= 12 -> first_of_month y m + days_in_month y m <= jan1 (y + 1).
Proof.
  intros H. rewrite month_step by done. destruct (Z.eqb_spec m 12); [lia|].
  etrans; [apply (months_mono y (m + 1) 12); lia|]. pose proof (month_step y 12 ltac:(lia)) as Hs. cbn [Z.eqb Pos.eqb] in Hs.
  rewrite <- Hs. unfold days_in_month. compute_constants. lia.
Qed.

#[local] Opaque civil_of_days days_of_civil.

Lemma date_in_month d : first_of_month (date_year d) (date_month d) <= d < first_of_month (date_year d) (date_month d) + days_in_month (date_year d) (date_month d).
Proof. destruct (civil_valid d) as (Hm & Hd & E). rewrite days_of_civil_first in E. lia. Qed.

Lemma date_in_year d : jan1 (date_year d) <= d < jan1 (date_year d + 1).
Proof.
  pose proof (date_in_month d). destruct (civil_valid d) as (Hm & _ & _). pose proof (month_end (date_year d) (date_month d) Hm).
  pose proof (months_mono (date_year d) 1 (date_month d) ltac:(lia) ltac:(lia) ltac:(lia)) as Hj. fold (jan1 (date_year d)) in Hj. lia.
Qed.

Lemma date_year_unique d y : jan1 y <= d < jan1 (y + 1) -> date_year d = y.
Proof.
  intros H. pose proof (date_in_year d). destruct (Z.lt_total (date_year d) y) as [Hl|[->|Hl]]; [|done|].
  - pose proof (jan1_mono (date_year d + 1) y ltac:(lia)). lia.
  - pose proof (jan1_mono (y + 1) (date_year d) ltac:(lia)). lia.
Qed.

Lemma date_year_mono d d' : d <= d' -> date_year d <= date_year d'.
Proof.
  intros H. pose proof (date_in_year d). pose proof (date_in_year d'). destruct (Z.le_gt_cases (date_year d) (date_year d')) as [|Hg]; [done|].
  pose proof (jan1_mono (date_year d' + 1) (date_year d) ltac:(lia)). lia.
Qed.

(** Dates are ordered by year, month, day. *)
Lemma date_order d d' : d <= d' ->
  12 * date_year d + date_month d <= 12 * date_year d' + date_month d' /\
  (12 * date_year d + date_month d = 12 * date_year d' + date_month d' -> date_day d' - date_day d = d' - d).
Proof.
  intros H. pose proof (date_year_mono d d' H). destruct (civil_valid d) as (Hm & Hd & E), (civil_valid d') as (Hm' & Hd' & E').
  split.
  - destruct (Z.eq_dec (date_year d) (date_year d')) as [Ey|]; [|lia].
    destruct (Z.le_gt_cases (date_month d) (date_month d')) as [|Hg]; [lia|].
    pose proof (date_in_month d). pose proof (date_in_month d') as Hin. rewrite <- Ey in Hin.
    pose proof (month_step (date_year d) (date_month d') ltac:(lia)) as Hs. destruct (Z.eqb_spec (date_month d') 12); [lia|].
    pose proof (months_mono (date_year d) (date_month d' + 1) (date_month d) ltac:(lia) ltac:(lia) ltac:(lia)). lia.
  - intros Ek. assert (date_year d' = date_year d /\ date_month d' = date_month d) as [Ey Em] by lia.
    rewrite Ey, Em in E'. rewrite days_of_civil_first in E, E'. lia.
Qed.

Lemma civil_unique y m dd : 1 <= m <= 12 -> 1 <= dd <= days_in_month y m ->
  date_year (days_of_civil y m dd) = y /\ date_month (days_of_civil y m dd) = m /\ date_day (days_of_civil y m dd) = dd.
Proof.
  intros Hm Hd. rewrite days_of_civil_first. remember (first_of_month y m + (dd - 1)) as d eqn:Hdef.
  pose proof (month_end y m Hm). pose proof (months_mono y 1 m ltac:(lia) ltac:(lia) ltac:(lia)) as Hj. fold (jan1 y) in Hj.
  assert (Ey : date_year d = y) by (apply date_year_unique; lia). pose proof (date_in_month d) as Hin. rewrite Ey in Hin.
  destruct (civil_valid d) as (Hm' & Hd' & E). rewrite Ey in Hd', E.
  assert (Em : date_month d = m).
  { destruct (Z.lt_total (date_month d) m) as [Hl|[?|Hl]]; [|done|].
    - pose proof (month_step y (date_month d) Hm') as Hs. destruct (Z.eqb_spec (date_month d) 12); [lia|].
      pose proof (months_mono y (date_month d + 1) m ltac:(lia) ltac:(lia) ltac:(lia)). lia.
    - pose proof (month_step y m Hm) as Hs. destruct (Z.eqb_spec m 12); [lia|].
      pose proof (months_mono y (m + 1) (date_month d) ltac:(lia) ltac:(lia) ltac:(lia)). lia. }
  split; [done|]. split; [done|]. rewrite Em, days_of_civil_first in E. lia.
Qed.

(** ** The range of [date] *)

Definition in_range (d : date) : Prop := date_min <= d <= date_max.

Lemma jan1_first : jan1 1 = date_min.
Proof. reflexivity. Qed.
Lemma jan1_last : jan1 10000 = date_max + 1.
Proof. reflexivity. Qed.

Lemma year_in_range d : in_range d -> 1 <= date_year d <= 9999.
Proof.
  intros [H1 H2]. pose proof (date_in_year d). rewrite <- jan1_first in H1.
  split; [destruct (Z.le_gt_cases 1 (date_year d)) as [|Hg]; [done|]|destruct (Z.le_gt_cases (date_year d) 9999) as [|Hg]; [done|]].
  - pose proof (jan1_mono (date_year d + 1) 1 ltac:(lia)). lia.
  - pose proof (jan1_mono 10000 (date_year d) ltac:(lia)). rewrite jan1_last in *. lia.
Qed.

Lemma make_jan1 y : 1 <= y <= 9999 -> make_date y 1 1 = Ok (jan1 y).
Proof.
  intros H. unfold make_date. by rewrite (proj2 (Z.leb_le 1 y)), (proj2 (Z.leb_le y 9999)) by lia.
Qed.

Lemma make_first y m : 1 <= y <= 9999 -> 1 <= m <= 12 -> make_date y m 1 = Ok (first_of_month y m).
Proof.
  intros H Hm. unfold make_date. rewrite (proj2 (Z.leb_le 1 y)), (proj2 (Z.leb_le y 9999)), (proj2 (Z.leb_le 1 m)), (proj2 (Z.leb_le m 12)) by lia.
  cbn [andb negb]. rewrite (proj2 (Z.leb_le 1 (days_in_month y m))); [done|]. unfold days_in_month. repeat destruct (_ : bool); lia.
Qed.
