(* ===== verification/Precision.v ===== *)
(** * Decimal precision policies

    [portfolio_common/domain/financial/precision.py] (exact representability at the persistence
    boundary) and [calculation_precision.py] (round once, then prove exact persistence), with the
    policy instances of [domain/transaction/numeric_policy.py] and the position and cashflow
    [numeric_policy.py].  The theorems give each digit-level check its meaning as a statement about
    the rational value: what is accepted is exactly what a NUMERIC(precision, scale) column holds,
    and [normalize] computes round-half-even to that scale or reports the overflow. *)

From Stdlib Require Import ZArith Lia QArith Qabs Lqa String.
From stdpp Require Import base tactics list strings.
From S2P Require Import Prelude PyDecimal DecimalFacts.

#[local] Open Scope string_scope.
#[local] Open Scope Z_scope.


(** ** [DecimalPrecisionPolicy] *)

Record DecimalPrecisionPolicy := {
  dp_name : string;
  dp_precision : option Z;
  dp_scale : option Z
}.

(** [__post_init__]: the constructor validates its arguments. *)
Definition make_DecimalPrecisionPolicy (name : string) (precision scale : option Z)
  : result DecimalPrecisionPolicy :=
  if negb (truthy name) then Raise (ValueError "Decimal precision policy name is required") else
  match precision, scale with
  | None, None => Ok {| dp_name := name; dp_precision := None; dp_scale := None |}
  | None, Some _ | Some _, None =>
      Raise (ValueError "unbounded Decimal policy requires null precision and scale")
  | Some p, Some s =>
      if p <=? 0 then Raise (ValueError "Decimal precision must be greater than zero") else
      if (s <? 0) || (p <? s)
      then Raise (ValueError "Decimal scale must satisfy 0 <= scale <= precision")
      else Ok {| dp_name := name; dp_precision := precision; dp_scale := scale |}
  end.

Definition is_unbounded (p : DecimalPrecisionPolicy) : bool :=
  match dp_precision p with None => true | Some _ => false end.

(** [while digits and digits[-1] == 0 and exponent < 0: digits.pop(); exponent += 1], on the
    coefficient the digits spell; one digit is dropped per turn, so [ndigits] turns are enough. *)
Definition strip_trailing_zeros (c e : Z) : decimal := strip_to (Z.to_nat (ndigits c)) c e 0.

Definition require_exact (p : DecimalPrecisionPolicy) (value : number) (field_name : string)
  : result decimal :=
  match value with
  | Infinity _ | NaN => Raise (DecimalPrecisionError field_name NON_FINITE (dp_name p))
  | Finite d =>
      if is_unbounded p || dis_zero d then Ok d else
      match dp_precision p, dp_scale p with
      | Some precision, Some scale =>
          let '(Dec digits exponent) := strip_trailing_zeros (dcoeff d) (dexp d) in
          let significant_digit_count := ndigits digits in
          let fractional_digit_count := Z.max (- exponent) 0 in
          if scale <? fractional_digit_count
          then Raise (DecimalPrecisionError field_name EXCESS_SCALE (dp_name p)) else
          let integer_digit_count := Z.max (significant_digit_count + exponent) 0 in
          if precision - scale <? integer_digit_count
          then Raise (DecimalPrecisionError field_name MAGNITUDE_OVERFLOW (dp_name p))
          else Ok d
      | _, _ => Raise (RuntimeError "bounded Decimal policy is missing precision or scale")
      end
  end.

Definition EXACT_UNBOUNDED : DecimalPrecisionPolicy :=
  {| dp_name := "exact-unbounded"; dp_precision := None; dp_scale := None |}.
Definition BOUNDED_18_10_EXACT : DecimalPrecisionPolicy :=
  {| dp_name := "bounded-18-10-exact"; dp_precision := Some 18; dp_scale := Some 10 |}.
Definition BOUNDED_18_4_EXACT : DecimalPrecisionPolicy :=
  {| dp_name := "bounded-18-4-exact"; dp_precision := Some 18; dp_scale := Some 4 |}.

(** ** [CalculatedDecimalPolicy] *)

Record CalculatedDecimalPolicy := {
  cp_name : string;
  cp_version : string;
  cp_precision : Z;
  cp_scale : Z;
  cp_working_precision : Z;
  cp_rounding : rounding_mode;
  cp_persistence_policy : DecimalPrecisionPolicy;
  cp_quantum : decimal
}.

Definition make_CalculatedDecimalPolicy (name version : string) (precision scale working : Z)
  (mode : rounding_mode) : result CalculatedDecimalPolicy :=
  pp ← make_DecimalPrecisionPolicy (name +:+ "@" +:+ version) (Some precision) (Some scale);
  if working <? precision * 2
  then Raise (ValueError "calculation working precision must be at least twice storage precision")
  else Ok {| cp_name := name; cp_version := version; cp_precision := precision; cp_scale := scale;
             cp_working_precision := working; cp_rounding := mode;
             cp_persistence_policy := pp; cp_quantum := Dec 1 (- scale) |}.

Definition policy_id (p : CalculatedDecimalPolicy) : string := dp_name (cp_persistence_policy p).

Definition arithmetic_context (p : CalculatedDecimalPolicy) : context :=
  make_context (cp_working_precision p) (cp_rounding p).

(** [localcontext()] with [context.prec] replaced: the ambient context otherwise. *)
Definition quantize_context (p : CalculatedDecimalPolicy) : context :=
  make_context (cp_working_precision p) (rounding default_context).

Definition normalize (p : CalculatedDecimalPolicy) (value : number) (field_name : string)
  : result decimal :=
  match value with
  | Infinity _ | NaN => Raise (DecimalPrecisionError field_name NON_FINITE (policy_id p))
  | Finite d =>
      match require_exact (cp_persistence_policy p) d field_name with
      | Ok r => Ok r
      | Raise (DecimalPrecisionError _ EXCESS_SCALE _) =>
          match quantize (quantize_context p) (cp_rounding p) d (dexp (cp_quantum p)) with
          | Ok normalized => require_exact (cp_persistence_policy p) normalized field_name
          | Raise (DecimalSignal InvalidOperation) =>
              Raise (DecimalPrecisionError field_name MAGNITUDE_OVERFLOW (policy_id p))
          | Raise e => Raise e
          end
      | Raise e => Raise e
      end
  end.

Definition calculate (p : CalculatedDecimalPolicy) (left right : number) (field_name : string)
  (operation : context -> decimal -> decimal -> result decimal) : result decimal :=
  match left, right with
  | Finite a, Finite b =>
      r ← operation (arithmetic_context p) a b;
      normalize p (Finite r) field_name
  | _, _ => Raise (DecimalPrecisionError field_name NON_FINITE (policy_id p))
  end.

Definition p_add p left right field_name := calculate p left right field_name dadd.
Definition p_subtract p left right field_name := calculate p left right field_name dsub.
Definition p_multiply p left right field_name := calculate p left right field_name dmul.
Definition p_divide p (dividend divisor : number) field_name : result decimal :=
  match divisor with
  | Finite d =>
      if dis_zero d then Raise (ZeroDivisionError (field_name +:+ " divisor must not be zero"))
      else calculate p dividend divisor field_name ddiv
  | _ => calculate p dividend divisor field_name ddiv
  end.

(** ** Policy instances *)

Definition ledger_policy (name : string) : CalculatedDecimalPolicy :=
  {| cp_name := name; cp_version := "1.0.0"; cp_precision := 18; cp_scale := 10;
     cp_working_precision := 64; cp_rounding := ROUND_HALF_EVEN;
     cp_persistence_policy :=
       {| dp_name := name +:+ "@1.0.0"; dp_precision := Some 18; dp_scale := Some 10 |};
     cp_quantum := Dec 1 (-10) |}.

Definition TRANSACTION_PERSISTENCE_PRECISION_V1 : DecimalPrecisionPolicy :=
  {| dp_name := "transaction-persistence-v1"; dp_precision := Some 18; dp_scale := Some 10 |}.
Definition TRANSACTION_COST_LEDGER_OUTPUT_V1 := ledger_policy "transaction-cost-ledger-output".
Definition COST_BASIS_STATE_LEDGER_OUTPUT_V1 := ledger_policy "cost-basis-state-ledger-output".
Definition POSITION_HISTORY_LEDGER_OUTPUT_V1 := ledger_policy "position-history-ledger-output".
Definition CASHFLOW_LEDGER_OUTPUT_V1 := ledger_policy "cashflow-ledger-output".

Definition require_transaction_persistence_precision (value : option number) (field_name : string)
  : result (option decimal) :=
  match value with
  | None => Ok None
  | Some v => r ← require_exact TRANSACTION_PERSISTENCE_PRECISION_V1 v field_name; Ok (Some r)
  end.

(** The instances are what their constructors return. *)
Lemma ledger_policy_constructed name :
  name <> "" ->
  make_CalculatedDecimalPolicy name "1.0.0" 18 10 64 ROUND_HALF_EVEN = Ok (ledger_policy name).
Proof. destruct name; [done|]. intros _. reflexivity. Qed.

Arguments require_exact : simpl never.
Arguments normalize : simpl never.

(** ** What the digit checks mean *)

(** [d] is exactly representable by NUMERIC(p, s): [n] units of [10 ^ -s] with [|n| < 10 ^ p]. *)
Definition storable (p s : Z) (d : decimal) : Prop := exists n, units (- s) d n /\ Z.abs n < 10 ^ p.

Definition bounded_policy (name : string) (p s : Z) : DecimalPrecisionPolicy :=
  {| dp_name := name; dp_precision := Some p; dp_scale := Some s |}.

Section RequireExact.
Context (name : string) (p s : Z) (Hp : 0 < p) (Hs : 0 <= s <= p).
Let pol := bounded_policy name p s.

Lemma strip_to_done fuel c e :
  c <> 0 -> ndigits c <= Z.of_nat fuel ->
  let '(Dec c' e') := strip_to fuel c e 0 in c' <> 0 /\ (0 <= e' \/ c' mod 10 <> 0).
Proof.
  revert c e. induction fuel as [|f IH]; intros c e Hc Hd; simpl.
  - pose proof (ndigits_pos c). lia.
  - destruct ((e <? 0) && (c mod 10 =? 0)) eqn:E.
    + apply andb_true_iff in E as [He Hm]. apply Z.eqb_eq in Hm.
      pose proof (Z.div_mod c 10 ltac:(lia)) as Hdm.
      assert (Hq : c / 10 <> 0) by lia. apply IH; [done|].
      destruct (decide (ndigits c = 1)) as [H1|H1].
      * destruct (ndigits_spec c Hc) as (_ & _ & H2). rewrite H1 in H2. change (10 ^ 1) with 10 in H2. lia.
      * enough (ndigits (c / 10) <= ndigits c - 1) by lia. pose proof (ndigits_pos c).
        apply ndigits_le_iff; [lia|]. destruct (ndigits_spec c Hc) as (_ & _ & H2).
        replace (ndigits c) with (1 + (ndigits c - 1)) in H2 by lia. rewrite Z.pow_add_r in H2 by lia.
        change (10 ^ 1) with 10 in H2. lia.
    + split; [done|]. apply andb_false_iff in E as [E|E]; [left; by apply Z.ltb_ge|right; by apply Z.eqb_neq].
Qed.

(** Stripping leaves the value alone and no strippable zero behind. *)
Lemma strip_trailing_zeros_spec d :
  dcoeff d <> 0 ->
  exists c e, strip_trailing_zeros (dcoeff d) (dexp d) = Dec c e /\
    (dval (Dec c e) == dval d)%Q /\ c <> 0 /\ (0 <= e \/ c mod 10 <> 0).
Proof.
  intros Hc. unfold strip_trailing_zeros.
  pose proof (strip_to_done (Z.to_nat (ndigits (dcoeff d))) (dcoeff d) (dexp d) Hc) as H.
  pose proof (strip_to_val (Z.to_nat (ndigits (dcoeff d))) (dcoeff d) (dexp d) 0) as Hv.
  destruct (strip_to _ _ _ _) as [c e]. exists c, e. pose proof (ndigits_pos (dcoeff d)).
  destruct H as [? ?]; [lia|]. split; [done|]. split; [|done]. rewrite Hv. by destruct d.
Qed.

(** No fractional digit beyond the scale means a whole number of storage units, and conversely. *)
Lemma scale_fits_iff c e :
  c <> 0 -> 0 <= e \/ c mod 10 <> 0 ->
  (Z.max (- e) 0 <= s <-> exists n, units (- s) (Dec c e) n).
Proof.
  intros Hc Hst. split.
  - intros He. exists (c * 10 ^ (e + s)). unfold units.
    rewrite dval_Dec, inject_Z_mult, <- pow10_Z by lia. rewrite <- Qmult_assoc, <- pow10_add.
    by replace (e + s + - s) with e by lia.
  - intros [n Hn]. destruct (Z.le_gt_cases (- s) e) as [|Hlt]; [lia|]. exfalso.
    assert (Hcn : c = n * 10 ^ (- s - e)).
    { apply (units_inj e (Dec c e)); [by unfold units; rewrite dval_Dec|]. unfold units in *.
      rewrite Hn, inject_Z_mult, <- pow10_Z by lia. rewrite <- Qmult_assoc, <- pow10_add.
      by replace (- s - e + e) with (- s) by lia. }
    destruct Hst as [|Hm]; [lia|]. apply Hm. rewrite Hcn.
    replace (- s - e) with ((- s - e - 1) + 1) by lia. rewrite Z.pow_add_r by lia.
    change (10 ^ 1) with 10. rewrite Z.mul_assoc. apply Z.mod_mul. lia.
Qed.

Lemma units_magnitude d n :
  dcoeff d <> 0 -> units (- s) d n ->
  (Z.max (ndigits (dcoeff d) + dexp d) 0 <= p - s <-> Z.abs n < 10 ^ p).
Proof.
  intros Hc Hn. assert (Hz : (Qabs (dval d) == inject_Z (Z.abs n) * pow10 (- s))%Q).
  { unfold units in Hn. rewrite Hn. exact (dval_abs (Dec n (- s))). }
  assert (Hps : (pow10 (p - s) == inject_Z (10 ^ p) * pow10 (- s))%Q).
  { replace (p - s) with (p + - s) by lia. by rewrite pow10_add, pow10_Z by lia. }
  assert (Hiff : (Qabs (dval d) < pow10 (p - s))%Q <-> Z.abs n < 10 ^ p).
  { rewrite Hz, Hps, Qlt_alt, scaled_compare. apply Z.compare_lt_iff. }
  rewrite <- Hiff. destruct (dval_adjusted d Hc) as [Hlo Hhi]. split; intros H.
  - eapply Qlt_le_trans; [exact Hhi|]. apply pow10_mono. lia.
  - pose proof (ndigits_exp_bound d (p - s) Hc H). lia.
Qed.

Lemma require_exact_units (d : decimal) n f :
  units (- s) d n ->
  require_exact pol d f =
    if Z.abs n <? 10 ^ p then Ok d else Raise (DecimalPrecisionError f MAGNITUDE_OVERFLOW name).
Proof.
  intros Hn. unfold require_exact; simpl. unfold dis_zero.
  destruct (Z.eqb_spec (dcoeff d) 0) as [Hc|Hc].
  { rewrite (units_inj _ _ _ _ Hn (units_zero (- s) d Hc)).
    rewrite (proj2 (Z.ltb_lt (Z.abs 0) (10 ^ p))); [done|]. apply Z.pow_pos_nonneg; lia. }
  destruct (strip_trailing_zeros_spec d Hc) as (c & e & -> & Hv & Hc' & Hst).
  assert (Hn' : units (- s) (Dec c e) n) by (unfold units; rewrite Hv; exact Hn).
  rewrite (proj2 (Z.ltb_ge s _)) by (apply (scale_fits_iff c e Hc' Hst); eauto).
  pose proof (units_magnitude (Dec c e) n Hc' Hn') as Hm. simpl in Hm.
  destruct (Z.ltb_spec (p - s) (Z.max (ndigits c + e) 0)), (Z.ltb_spec (Z.abs n) (10 ^ p)); (done || lia).
Qed.

Lemma require_exact_excess (d : decimal) f :
  (forall n, ~ units (- s) d n) ->
  require_exact pol d f = Raise (DecimalPrecisionError f EXCESS_SCALE name).
Proof.
  intros Hno. unfold require_exact; simpl. unfold dis_zero.
  destruct (Z.eqb_spec (dcoeff d) 0) as [Hc|Hc]; [by destruct (Hno 0); apply units_zero|].
  destruct (strip_trailing_zeros_spec d Hc) as (c & e & -> & Hv & Hc' & Hst).
  destruct (Z.ltb_spec s (Z.max (- e) 0)) as [|Hle]; [done|].
  apply (scale_fits_iff c e Hc' Hst) in Hle as [n Hn]. exfalso. apply (Hno n).
  unfold units in *. by rewrite <- Hv.
Qed.

(** Every finite decimal either is a whole number of storage units or is not. *)
Lemma units_dec d : (exists n, units (- s) d n) \/ (forall n, ~ units (- s) d n).
Proof.
  destruct (decide (dcoeff d = 0)) as [Hc|Hc]; [left; exists 0; by apply units_zero|].
  destruct (strip_trailing_zeros_spec d Hc) as (c & e & _ & Hv & Hc' & Hst).
  pose proof (scale_fits_iff c e Hc' Hst) as Hi. unfold units in *.
  destruct (Z.le_gt_cases (Z.max (- e) 0) s) as [Hle|Hgt].
  - left. apply Hi in Hle as [n Hn]. exists n. by rewrite <- Hv.
  - right. intros n Hn. rewrite <- Hv in Hn. assert (Z.max (- e) 0 <= s) by (apply Hi; by exists n). lia.
Qed.

Lemma require_exact_Ok (d : decimal) f r : require_exact pol d f = Ok r -> r = d /\ storable p s d.
Proof.
  destruct (units_dec d) as [[n Hn]|Hno].
  - rewrite (require_exact_units d n f Hn). destruct (Z.ltb_spec (Z.abs n) (10 ^ p)); [|done].
    intros [= <-]. split; [done|]. by exists n.
  - by rewrite require_exact_excess.
Qed.

Lemma require_exact_storable (d : decimal) f : storable p s d -> require_exact pol d f = Ok d.
Proof. intros (n & Hn & Hlt). rewrite (require_exact_units d n f Hn). by rewrite (proj2 (Z.ltb_lt _ _) Hlt). Qed.
End RequireExact.

(** ** [normalize] is round-half-even to the storage scale *)

(** The shape [make_CalculatedDecimalPolicy] guarantees, for the half-even policies in use. *)
Record wf_policy (pol : CalculatedDecimalPolicy) : Prop := {
  wf_precision : 0 < cp_precision pol;
  wf_scale : 0 <= cp_scale pol <= cp_precision pol;
  wf_working : cp_precision pol * 2 <= cp_working_precision pol <= 1000;
  wf_rounding : cp_rounding pol = ROUND_HALF_EVEN;
  wf_persistence : cp_persistence_policy pol =
    bounded_policy (dp_name (cp_persistence_policy pol)) (cp_precision pol) (cp_scale pol);
  wf_quantum : cp_quantum pol = Dec 1 (- cp_scale pol)
}.

Lemma ledger_policy_wf name : wf_policy (ledger_policy name).
Proof. by constructor. Qed.
#[export] Hint Resolve ledger_policy_wf : lotus.

Lemma quantize_failure ctx mode x qe e :
  wide ctx -> -1000 <= qe <= 1000 -> quantize ctx mode x qe = Raise e -> e = DecimalSignal InvalidOperation.
Proof.
  intros Hw Hq. unfold quantize. destruct (negb _); [by intros [= <-]|].
  destruct (dcoeff x =? 0); [by unfold dfix|].
  destruct (_ <? _); [by intros [= <-]|]. destruct (_ <? _); [by intros [= <-]|].
  destruct (_ <? _); [by intros [= <-]|].
  assert (Hr : exists k, rescale mode x qe = Dec k qe) by (unfold rescale; destruct (_ <=? _); eauto).
  destruct Hr as [k ->]. simpl. destruct (Z.ltb_spec (prec ctx) (ndigits k)) as [|Hk]; [by intros [= <-]|].
  apply ndigits_le_iff in Hk; [|destruct Hw; lia].
  destruct (dfix_exact ctx (Dec k qe) k qe Hw) as (r & -> & _); (done || reflexivity).
Qed.

Section Normalize.
Context (pol : CalculatedDecimalPolicy) (Hwf : wf_policy pol).
#[local] Notation p := (cp_precision pol).
#[local] Notation s := (cp_scale pol).

(** The number of storage units nearest to a value, ties to even. *)
Definition to_units (d : decimal) : Z := qround ROUND_HALF_EVEN (dval d * pow10 s).

Lemma to_units_exact d n : units (- s) d n -> to_units d = n.
Proof.
  intros H. unfold to_units. rewrite <- (qround_int ROUND_HALF_EVEN n). apply qround_proper.
  unfold units in H. rewrite H, <- Qmult_assoc, <- pow10_add. replace (- s + s) with 0 by lia.
  change (pow10 0) with 1%Q. ring.
Qed.

Lemma to_units_large d :
  10 ^ p <= Z.abs (to_units d) \/ (Qabs (dval d) < pow10 (cp_working_precision pol - s - 1))%Q.
Proof.
  destruct Hwf. destruct (Qlt_le_dec (Qabs (dval d)) (pow10 (cp_working_precision pol - s - 1))) as [|Hge]; [by right|].
  left. assert (Hbig : (pow10 (2 * p - s - 1) <= Qabs (dval d))%Q) by (eapply Qle_trans; [|exact Hge]; apply pow10_mono; lia).
  assert (Hbig2 : (inject_Z (10 ^ p) <= Qabs (dval d) * pow10 s)%Q).
  { apply Qle_trans with (pow10 (2 * p - s - 1) * pow10 s)%Q.
    - rewrite <- pow10_add, <- pow10_Z by lia. apply pow10_mono. lia.
    - apply Qmult_le_compat_r; [done|]. apply Qlt_le_weak, pow10_pos. }
  assert (Hr : forall x, (inject_Z (10 ^ p) <= x)%Q -> 10 ^ p <= qround ROUND_HALF_EVEN x).
  { intros x Hx. rewrite <- (qround_int ROUND_HALF_EVEN (10 ^ p)) at 1. by apply qround_mono. }
  unfold to_units. destruct (Qlt_le_dec (dval d) 0) as [Hneg|Hpos].
  - rewrite Qabs_neg in Hbig2 by lra.
    specialize (Hr (- (dval d * pow10 s))%Q ltac:(lra)). rewrite qround_opp in Hr. lia.
  - rewrite Qabs_pos in Hbig2 by lra. specialize (Hr (dval d * pow10 s)%Q ltac:(lra)). lia.
Qed.

Lemma normalize_units (d : decimal) n f :
  units (- s) d n -> Z.abs n < 10 ^ p -> normalize pol d f = Ok d.
Proof.
  destruct Hwf. intros Hn Hlt. unfold normalize. rewrite wf_persistence0.
  by rewrite require_exact_storable by (try lia; by exists n).
Qed.

(** Total specification of [normalize] on finite values. *)
Lemma normalize_total (d : decimal) f :
  (Z.abs (to_units d) < 10 ^ p ->
     exists r, normalize pol d f = Ok r /\ units (- s) r (to_units d)) /\
  (10 ^ p <= Z.abs (to_units d) ->
     normalize pol d f = Raise (DecimalPrecisionError f MAGNITUDE_OVERFLOW (policy_id pol))).
Proof.
  destruct Hwf. unfold normalize, policy_id. rewrite wf_persistence0. simpl.
  set (nm := dp_name _). destruct (units_dec p s ltac:(lia) d) as [[n Hn]|Hno].
  - rewrite (require_exact_units nm p s) with (n := n) by (done || lia). rewrite (to_units_exact d n Hn).
    destruct (Z.ltb_spec (Z.abs n) (10 ^ p)); split; intros; (lia || eauto).
  - rewrite require_exact_excess by (done || lia). rewrite wf_quantum0. simpl.
    assert (Hw : wide (quantize_context pol)) by (apply make_context_wide; lia).
    assert (Hk : -1000 <= - s <= 1000) by lia.
    destruct (quantize (quantize_context pol) (cp_rounding pol) d (- s)) as [r|e] eqn:Hq.
    + pose proof (quantize_spec _ _ _ _ _ Hw Hk Hq) as Hv.
      assert (Hu : units (- s) r (to_units d)).
      { unfold units, to_units. rewrite Hv, wf_rounding0. apply Qmult_comp; [|reflexivity].
        assert (Heq : (dval d / pow10 (- s) == dval d * pow10 s)%Q).
        { apply Qmult_inj_r with (z := pow10 (- s)); [apply pow10_nonzero|].
          rewrite <- Qmult_assoc, <- pow10_add. replace (s + - s) with 0 by lia. change (pow10 0) with 1%Q.
          field. apply pow10_nonzero. }
        by rewrite (qround_proper _ _ _ Heq). }
      rewrite (require_exact_units nm p s) with (n := to_units d) by (done || lia).
      destruct (Z.ltb_spec (Z.abs (to_units d)) (10 ^ p)); split; intros; (lia || eauto).
    + rewrite (quantize_failure _ _ _ _ _ Hw Hk Hq). split; [|done]. intros Hlt. exfalso.
      destruct (to_units_large d) as [|Hs]; [lia|].
      destruct (quantize_Ok (quantize_context pol) (cp_rounding pol) d (- s) Hw Hk) as [r Hr]; [|congruence].
      simpl. by replace (cp_working_precision pol + - s - 1) with (cp_working_precision pol - s - 1) by lia.
Qed.

Lemma normalize_Ok (d : decimal) f r :
  normalize pol d f = Ok r -> units (- s) r (to_units d) /\ Z.abs (to_units d) < 10 ^ p.
Proof.
  destruct (normalize_total d f) as [H1 H2]. destruct (Z.lt_ge_cases (Z.abs (to_units d)) (10 ^ p)) as [Hlt|Hge].
  - destruct (H1 Hlt) as (r' & Hr & Hu). rewrite Hr. by intros [= <-].
  - by rewrite (H2 Hge).
Qed.

(** A value strictly within half a storage unit of [n] units normalises to exactly [n]. *)
Lemma to_units_near d n :
  (Qabs (dval d - inject_Z n * pow10 (- s)) < (1 # 2) * pow10 (- s))%Q -> to_units d = n.
Proof.
  intros H. unfold to_units. apply qround_near.
  assert (Hx : (dval d * pow10 s - inject_Z n == (dval d - inject_Z n * pow10 (- s)) * pow10 s)%Q).
  { pose proof (pow10_neg_inv s) as E.
    transitivity (dval d * pow10 s - inject_Z n * (pow10 (- s) * pow10 s))%Q; [rewrite E; ring|ring]. }
  rewrite Hx, Qabs_Qmult, (Qabs_pos (pow10 s)) by (apply Qlt_le_weak, pow10_pos).
  pose proof (pow10_neg_inv s). pose proof (pow10_pos s). nra.
Qed.

Lemma to_units_mono x y : (dval x <= dval y)%Q -> to_units x <= to_units y.
Proof. intros H. unfold to_units. apply qround_mono. pose proof (pow10_pos s). nra. Qed.
End Normalize.

(** ** Arithmetic of the (18, 10) ledgers

    [ledger d n]: the decimal [d] is stored as [n] units of [1e-10]. *)

Definition ledger (d : decimal) (n : Z) : Prop := units (-10) d n /\ Z.abs n < 10 ^ 18.

Section Ledger.
Context (name : string).
#[local] Notation pol := (ledger_policy name).
#[local] Notation overflow f := (Raise (DecimalPrecisionError f MAGNITUDE_OVERFLOW (policy_id pol))).

Lemma ledger_units d n : ledger d n -> units (-10) d n.
Proof. by intros []. Qed.

Lemma ledger_inj d m n : ledger d m -> ledger d n -> m = n.
Proof. intros [H1 _] [H2 _]. by eapply units_inj. Qed.

Lemma ledger_dzero : ledger dzero 0.
Proof. split; [apply units_dzero|done]. Qed.

Lemma ledger_lt x y m n : ledger x m -> ledger y n -> dltb x y = (m <? n).
Proof.
  intros [Hx _] [Hy _]. pose proof (units_lt (-10) x y m n Hx Hy) as H.
  destruct (Z.ltb_spec m n); [by apply dltb_spec, H|]. apply not_true_iff_false. rewrite dltb_spec, H. lia.
Qed.

Lemma ledger_le x y m n : ledger x m -> ledger y n -> dleb x y = (m <=? n).
Proof.
  intros [Hx _] [Hy _]. pose proof (units_le (-10) x y m n Hx Hy) as H.
  destruct (Z.leb_spec m n); [by apply dleb_spec, H|]. apply not_true_iff_false. rewrite dleb_spec, H. lia.
Qed.

Lemma ledger_eq x y m n : ledger x m -> ledger y n -> deqb x y = (m =? n).
Proof.
  intros [Hx _] [Hy _]. pose proof (units_eq (-10) x y m n Hx Hy) as H.
  destruct (Z.eqb_spec m n); [by apply deqb_spec, H|]. apply not_true_iff_false. by rewrite deqb_spec, H.
Qed.

Lemma ledger_is_zero x m : ledger x m -> dis_zero x = (m =? 0).
Proof.
  intros [Hx _]. pose proof (units_eq (-10) x dzero m 0 Hx (units_dzero _)) as H. rewrite dval_dzero in H.
  destruct (Z.eqb_spec m 0); [by apply dis_zero_spec, H|]. apply not_true_iff_false. by rewrite dis_zero_spec, H.
Qed.

Lemma ledger_min x y m n : ledger x m -> ledger y n -> ledger (dmin x y) (Z.min m n).
Proof. intros Hx Hy. unfold dmin. rewrite (ledger_lt y x n m) by done. destruct (Z.ltb_spec n m); [rewrite Z.min_r|rewrite Z.min_l]; (done || lia). Qed.

Lemma ledger_normalize d n f : ledger d n -> normalize pol d f = Ok d.
Proof. intros [Hn Hlt]. eapply normalize_units; [apply ledger_policy_wf|exact Hn|exact Hlt]. Qed.

(** Inversion of a successful normalisation to the ledger. *)
Lemma ledger_of_normalize d f r : normalize pol (Finite d) f = Ok r -> ledger r (to_units pol d).
Proof. intros H. apply normalize_Ok in H; [exact H|apply ledger_policy_wf]. Qed.

Lemma ledger_normalize_units d n f :
  units (-10) d n ->
  normalize pol (Finite d) f = if Z.abs n <? 10 ^ 18 then Ok d else overflow f.
Proof.
  intros Hn. destruct (Z.ltb_spec (Z.abs n) (10 ^ 18)); [by eapply ledger_normalize|].
  destruct (normalize_total pol (ledger_policy_wf name) d f) as [_ H2]. apply H2.
  by rewrite (to_units_exact pol d n Hn).
Qed.

Lemma ledger_context_wide : wide (arithmetic_context pol).
Proof. by apply make_context_wide. Qed.

Lemma p_op_units op x y n f :
  (exists r, op (arithmetic_context pol) x y = Ok r /\ units (-10) r n) ->
  (Z.abs n < 10 ^ 18 -> exists r, calculate pol (Finite x) (Finite y) f op = Ok r /\ ledger r n) /\
  (10 ^ 18 <= Z.abs n -> calculate pol (Finite x) (Finite y) f op = overflow f).
Proof.
  intros (r & Hr & Hu). unfold calculate. rewrite Hr. simpl. rewrite (ledger_normalize_units r n f Hu).
  split; intros H; [rewrite (proj2 (Z.ltb_lt _ _) H); by exists r|by rewrite (proj2 (Z.ltb_ge _ _) H)].
Qed.

Lemma p_add_spec x y m n f :
  ledger x m -> ledger y n ->
  (Z.abs (m + n) < 10 ^ 18 -> exists r, p_add pol x y f = Ok r /\ ledger r (m + n)) /\
  (10 ^ 18 <= Z.abs (m + n) -> p_add pol x y f = overflow f).
Proof.
  intros [Hx Bx] [Hy By]. apply p_op_units. unfold dadd.
  apply dfix_units; [apply ledger_context_wide|lia|by apply units_add|].
  change (10 ^ prec (arithmetic_context pol)) with (10 ^ 64). change (10 ^ 18) with 1000000000000000000 in *. lia.
Qed.

Lemma p_subtract_spec x y m n f :
  ledger x m -> ledger y n ->
  (Z.abs (m - n) < 10 ^ 18 -> exists r, p_subtract pol x y f = Ok r /\ ledger r (m - n)) /\
  (10 ^ 18 <= Z.abs (m - n) -> p_subtract pol x y f = overflow f).
Proof.
  intros [Hx Bx] [Hy By]. apply p_op_units. unfold dsub.
  apply dfix_units; [apply ledger_context_wide|lia|by apply units_sub|].
  change (10 ^ prec (arithmetic_context pol)) with (10 ^ 64). change (10 ^ 18) with 1000000000000000000 in *. lia.
Qed.

Lemma p_add_Ok x y m n f r : ledger x m -> ledger y n -> p_add pol x y f = Ok r -> ledger r (m + n).
Proof.
  intros Hx Hy. destruct (p_add_spec x y m n f Hx Hy) as [H1 H2].
  destruct (Z.lt_ge_cases (Z.abs (m + n)) (10 ^ 18)) as [H|H].
  - destruct (H1 H) as (r' & -> & Hr). by intros [= <-].
  - by rewrite (H2 H).
Qed.

Lemma p_subtract_Ok x y m n f r :
  ledger x m -> ledger y n -> p_subtract pol x y f = Ok r -> ledger r (m - n).
Proof.
  intros Hx Hy. destruct (p_subtract_spec x y m n f Hx Hy) as [H1 H2].
  destruct (Z.lt_ge_cases (Z.abs (m - n)) (10 ^ 18)) as [H|H].
  - destruct (H1 H) as (r' & -> & Hr). by intros [= <-].
  - by rewrite (H2 H).
Qed.

(** Subtracting two same-sign ledger values never overflows. *)
Lemma p_subtract_nonneg x y m n f :
  ledger x m -> ledger y n -> 0 <= m -> 0 <= n -> exists r, p_subtract pol x y f = Ok r /\ ledger r (m - n).
Proof. intros Hx Hy ? ?. apply p_subtract_spec; [done|done|]. destruct Hx, Hy. lia. Qed.

(** The product of two ledger values is exact in the working precision, then rounded once. *)
Lemma p_multiply_spec x y m n f :
  ledger x m -> ledger y n ->
  let k := round_coeff ROUND_HALF_EVEN (m * n) (10 ^ 10) in
  (Z.abs k < 10 ^ 18 -> exists r, p_multiply pol x y f = Ok r /\ ledger r k) /\
  (10 ^ 18 <= Z.abs k -> p_multiply pol x y f = overflow f).
Proof.
  intros [Hx Bx] [Hy By]. unfold p_multiply, calculate, dmul.
  destruct (dfix_units (arithmetic_context pol) (-20) (mul_exact x y) (m * n)) as (r & -> & Hu);
    [apply ledger_context_wide|lia|by apply (units_mul (-10) (-10))| |].
  { change (10 ^ prec (arithmetic_context pol)) with (10 ^ 64). change (10 ^ 18) with 1000000000000000000 in *.
    rewrite Z.abs_mul. nia. }
  simpl. assert (Hk : to_units pol r = round_coeff ROUND_HALF_EVEN (m * n) (10 ^ 10)).
  { rewrite round_coeff_qround by done. unfold to_units. apply qround_proper. unfold units in Hu. rewrite Hu.
    change (pow10 (cp_scale pol)) with (10000000000 # 1).
    change (pow10 (-20)) with (1 # 100000000000000000000). unfold Qdiv.
    change (/ inject_Z (10 ^ 10))%Q with (1 # 10000000000). rewrite <- Qmult_assoc. apply Qmult_comp; reflexivity. }
  destruct (normalize_total pol (ledger_policy_wf name) r f) as [H1 H2]. rewrite Hk in *. split; intros H.
  - destruct (H1 H) as (r' & -> & Hr'). by exists r'.
  - by rewrite H2.
Qed.

(** A unit cost kept at working precision: non-negative and far from the exponent limits. *)
Definition unit_cost (c : decimal) : Prop := (0 <= dval c)%Q /\ (dval c <= pow10 100)%Q.

Lemma ledger_val_bound x m : ledger x m -> (Qabs (dval x) < pow10 8)%Q.
Proof.
  intros [Hx Bx]. unfold units in Hx. rewrite Hx. change (Qabs (inject_Z m * pow10 (-10))) with (Qabs (dval (Dec m (-10)))).
  rewrite dval_abs. simpl. change (pow10 8) with (pow10 (18 + -10)). rewrite pow10_add, (pow10_Z 18) by lia.
  apply Qmult_lt_compat_r; [apply pow10_pos|by rewrite <- Zlt_Qlt].
Qed.

Lemma ledger_nonneg x m : ledger x m -> 0 <= m -> (0 <= dval x)%Q.
Proof. intros [Hx _] Hm. apply (units_le (-10) dzero x 0 m); [apply units_dzero|done|done]. Qed.

Lemma ledger_val_lower x m : ledger x m -> 0 < m -> (pow10 (-10) <= dval x)%Q.
Proof.
  intros [Hx _] Hm. unfold units in Hx. rewrite Hx.
  apply Qle_trans with (inject_Z 1 * pow10 (-10))%Q; [rewrite Qmult_1_l; lra|]. rewrite scaled_le. lia.
Qed.

Lemma dmul_unit_cost_Ok q k c : ledger q k -> unit_cost c -> exists r, dmul (arithmetic_context pol) q c = Ok r.
Proof.
  intros Hq [Hc0 Hc]. apply dfix_Ok; [apply ledger_context_wide|]. rewrite mul_exact_val, Qabs_Qmult.
  pose proof (ledger_val_bound q k Hq) as Hb. rewrite (Qabs_pos (dval c)) by done.
  apply Qle_lt_trans with (pow10 8 * pow10 100)%Q.
  - apply Qle_trans with (pow10 8 * dval c)%Q; [apply Qmult_le_compat_r; lra|].
    rewrite !(Qmult_comm (pow10 8)). apply Qmult_le_compat_r; [done|]. apply Qlt_le_weak, pow10_pos.
  - rewrite <- pow10_add. by apply pow10_lt_mono.
Qed.

(** Cost of a smaller quantity at the same unit cost: computed too, and not larger. *)
Lemma p_multiply_mono q q' k k' c f f' r n :
  ledger q k -> ledger q' k' -> 0 <= k' <= k -> unit_cost c ->
  p_multiply pol q c f = Ok r -> ledger r n ->
  exists r' n', p_multiply pol q' c f' = Ok r' /\ ledger r' n' /\ 0 <= n' <= n.
Proof.
  intros Hq Hq' Hk Hc Hr Hn. destruct (dmul_unit_cost_Ok q k c Hq Hc) as [w Hw].
  destruct (dmul_unit_cost_Ok q' k' c Hq' Hc) as [w' Hw'].
  unfold p_multiply, calculate in *. rewrite Hw in Hr. rewrite Hw'. simpl in *.
  pose proof (ledger_of_normalize w f r Hr) as Hr1. rewrite (ledger_inj _ _ _ Hn Hr1) in *.
  assert (Hq0 : (0 <= dval q')%Q) by (apply (ledger_nonneg q' k'); [done|lia]).
  assert (Hqq : (dval q' <= dval q)%Q) by (apply (units_le (-10) q' q k' k); [apply Hq'|apply Hq|lia]).
  destruct Hc as [Hc0 Hc1].
  assert (Hle : (dval w' <= dval w)%Q).
  { apply (dfix_mono (arithmetic_context pol) (mul_exact q' c) (mul_exact q c)); [done| | |done|done].
    - rewrite mul_exact_val. by apply Qmult_le_0_compat.
    - rewrite !mul_exact_val. by apply Qmult_le_compat_r. }
  assert (Hw0 : (0 <= dval w')%Q).
  { apply (dfix_nonneg (arithmetic_context pol) (mul_exact q' c)); [done| |done]. rewrite mul_exact_val. by apply Qmult_le_0_compat. }
  pose proof (to_units_mono pol w' w Hle) as Hm. pose proof (to_units_mono pol dzero w' Hw0) as H0.
  rewrite (to_units_exact pol dzero 0 (units_dzero _)) in H0. destruct Hr1 as [_ Hb].
  destruct (normalize_total pol (ledger_policy_wf name) w' f') as [H1 _]. destruct H1 as (r' & Hr' & Hu'); [simpl; lia|].
  exists r', (to_units pol w'). split; [done|]. split; [|lia]. split; [exact Hu'|lia].
Qed.

Lemma ddiv_zero_num ctx x y r : dcoeff x = 0 -> ddiv ctx x y = Ok r -> (dval r == 0)%Q.
Proof.
  unfold ddiv. destruct x as [cx ex], y as [cy ey]; simpl. intros ->. destruct (cy =? 0); [done|].
  by apply dfix_zero.
Qed.

Lemma ledger_quotient_bounds c n q k :
  ledger c n -> 0 < n -> ledger q k -> 0 < k ->
  (pow10 (-18) <= dval c / dval q)%Q /\ (dval c / dval q <= pow10 18)%Q.
Proof.
  intros Hc Hn Hq Hk. pose proof (ledger_val_lower c n Hc Hn). pose proof (ledger_val_lower q k Hq Hk).
  pose proof (ledger_val_bound c n Hc) as Bc. pose proof (ledger_val_bound q k Hq) as Bq.
  pose proof (pow10_pos (-10)). rewrite Qabs_pos in Bc, Bq by lra. split.
  - apply Qle_shift_div_l; [lra|]. apply Qle_trans with (pow10 (-18) * pow10 8)%Q.
    + rewrite !(Qmult_comm (pow10 (-18))). apply Qmult_le_compat_r; [lra|]. apply Qlt_le_weak, pow10_pos.
    + rewrite <- pow10_add. done.
  - apply Qle_shift_div_r; [lra|]. apply Qle_trans with (pow10 18 * pow10 (-10))%Q.
    + rewrite <- pow10_add. change (18 + -10) with 8. lra.
    + rewrite !(Qmult_comm (pow10 18)). apply Qmult_le_compat_r; [lra|]. apply Qlt_le_weak, pow10_pos.
Qed.

(** The unit cost of a ledger amount over a ledger quantity, to 64 digits. *)
Lemma ledger_unit_cost c n q k :
  ledger c n -> 0 <= n -> ledger q k -> 0 < k ->
  exists u, ddiv (arithmetic_context pol) c q = Ok u /\ unit_cost u /\
    (Qabs (dval u - dval c / dval q) <= pow10 (-63) * (dval c / dval q))%Q.
Proof.
  intros Hc Hn Hq Hk. assert (Hq0 : dcoeff q <> 0).
  { intros E%dval_zero_iff. pose proof (ledger_val_lower q k Hq Hk). pose proof (pow10_pos (-10)). lra. }
  assert (Hdiv0 : (0 <= dval c / dval q)%Q).
  { pose proof (ledger_val_lower q k Hq Hk). pose proof (pow10_pos (-10)). pose proof (ledger_nonneg c n Hc Hn).
    apply Qle_shift_div_l; [lra|]. lra. }
  destruct (decide (n = 0)) as [->|Hn0].
  - assert (Hcz : dcoeff c = 0) by (apply dval_zero_iff, (units_eq (-10) c dzero 0 0); [apply Hc|apply units_dzero|done]).
    assert (Hz : (dval c / dval q == 0)%Q).
    { apply dval_zero_iff in Hcz. rewrite Hcz. unfold Qdiv. ring. }
    destruct (ddiv_Ok (arithmetic_context pol) c q) as [u Hu]; [apply ledger_context_wide|done| |].
    { rewrite Hz. apply pow10_pos. }
    exists u. split; [done|]. pose proof (ddiv_zero_num _ _ _ _ Hcz Hu) as Hv.
    split; [split; rewrite Hv; [lra|apply Qlt_le_weak, pow10_pos]|].
    rewrite Hv, Hz. apply Qle_trans with 0%Q; [discriminate|]. rewrite Qmult_0_r. lra.
  - destruct (ledger_quotient_bounds c n q k Hc ltac:(lia) Hq Hk) as [Hlo Hhi].
    destruct (ddiv_Ok (arithmetic_context pol) c q) as [u Hu]; [apply ledger_context_wide|done| |].
    { rewrite Qabs_pos by done. eapply Qle_lt_trans; [exact Hhi|]. by apply pow10_lt_mono. }
    exists u. split; [done|].
    pose proof (ddiv_error (arithmetic_context pol) c q u ledger_context_wide ltac:(done) eq_refl) as He.
    rewrite (Qabs_pos (dval c / dval q)) in He by done.
    specialize (He ltac:(eapply Qle_trans; [|exact Hlo]; by apply pow10_mono) Hu).
    change (1 - prec (arithmetic_context pol)) with (-63) in He. split; [|done].
    apply Qabs_Qle_condition in He as [He1 He2].
    assert (pow10 (-63) <= 1 # 10)%Q by (change (1 # 10) with (pow10 (-1)); by apply pow10_mono).
    pose proof (pow10_pos (-63)). split; [nra|].
    apply Qle_trans with (2 * pow10 18)%Q; [nra|]. change (2 * pow10 18 <= pow10 100)%Q.
    apply Qle_trans with (pow10 1 * pow10 18)%Q; [|rewrite <- pow10_add; by apply pow10_mono].
    apply Qmult_le_compat_r; [discriminate|]. apply Qlt_le_weak, pow10_pos.
Qed.

Lemma ledger_nonzero q k : ledger q k -> 0 < k -> dcoeff q <> 0.
Proof. intros Hq Hk E%dval_zero_iff. pose proof (ledger_val_lower q k Hq Hk). pose proof (pow10_pos (-10)). lra. Qed.

(** Away from a tie, half-even rounding leaves room on both sides. *)
Lemma round_strict a k :
  0 < k -> 0 <= a -> 2 * (a mod k) <> k -> 2 * Z.abs (round_coeff ROUND_HALF_EVEN a k * k - a) <= k - 1.
Proof.
  intros Hk Ha Hne. pose proof (Z.div_mod a k ltac:(lia)) as Hdm. pose proof (Z.mod_pos_bound a k Hk) as Hmb.
  unfold round_coeff. rewrite (Z.abs_eq a) by done. unfold round_magnitude.
  destruct (Z.compare_spec (2 * (a mod k)) k) as [E|E|E]; [lia| |];
    (destruct (Z.sgn_spec a) as [[? ->]|[[Ha0 ->]|[? ?]]]; [nia| |lia]); subst a; rewrite Z.mod_0_l in E by lia; nia.
Qed.

(** A quotient of products is [a / k] units. *)
Lemma share_value p t a k :
  units (-20) p a -> ledger t k -> 0 < k -> (dval p / dval t == inject_Z a / inject_Z k * pow10 (-10))%Q.
Proof.
  intros Hp [Ht _] Hk. unfold units in *. rewrite Hp, Ht. change (-20) with (-10 + -10). rewrite pow10_add. field.
  split; [apply inject_Z_nonzero; lia|apply pow10_nonzero].
Qed.

(** A tie is an exact decimal, so the working context does not disturb it. *)
Lemma share_tie p t a k :
  units (-20) p a -> ledger t k -> 0 < k -> 0 <= a < 10 ^ 40 -> 2 * (a mod k) = k ->
  exists w, ddiv (arithmetic_context pol) p t = Ok w /\ to_units pol w = round_coeff ROUND_HALF_EVEN a k.
Proof.
  intros Hp Ht Hk Ha Htie. pose proof (Z.div_mod a k ltac:(lia)) as Hdm.
  assert (Hv : (inject_Z a / inject_Z k == inject_Z (10 * (a / k) + 5) * (1 # 10))%Q).
  { assert (E : (inject_Z 2 * inject_Z a == inject_Z k * (inject_Z 2 * inject_Z (a / k) + 1))%Q).
    { change 1%Q with (inject_Z 1). rewrite <- !inject_Z_mult, <- inject_Z_plus, <- inject_Z_mult. f_equiv. lia. }
    rewrite inject_Z_plus, inject_Z_mult. change (inject_Z 10) with 10%Q. change (inject_Z 5) with 5%Q. change (inject_Z 2) with 2%Q in E.
    apply Qmult_inj_r with (z := inject_Z k); [apply inject_Z_nonzero; lia|]. field_simplify; [|apply inject_Z_nonzero; lia]. lra. }
  destruct (ddiv_exact (arithmetic_context pol) p t (10 * (a / k) + 5) (-11)) as (w & Hw & Hu).
  - apply ledger_context_wide.
  - lia.
  - by apply (ledger_nonzero t k).
  - rewrite (share_value p t a k Hp Ht Hk), Hv. change (-11) with (-1 + -10). rewrite pow10_add. change (pow10 (-1)) with (1 # 10). ring.
  - change (10 ^ prec (arithmetic_context pol)) with (10 ^ 64). assert (0 <= a / k <= a) by (split; [apply Z.div_pos; lia|nia]). lia.
  - exists w. split; [done|]. rewrite round_coeff_qround by done. unfold to_units. apply qround_proper. unfold units in Hu. rewrite Hu, Hv.
    change (pow10 (cp_scale pol)) with (pow10 10). rewrite <- Qmult_assoc, <- pow10_add. reflexivity.
Qed.

(** Ranges of [a / k] and [1 / k] for an amount [k] of the column. *)
Lemma unit_ratio {t} a k :
  ledger t k -> 0 < k -> 0 <= a -> a < 10 ^ 18 * k ->
  (0 < inject_Z k)%Q /\ (pow10 (-18) <= / inject_Z k)%Q /\
  (0 <= inject_Z a / inject_Z k)%Q /\ (inject_Z a / inject_Z k <= pow10 18)%Q.
Proof.
  intros Ht Hk Ha Hlt. assert (Hkq : (0 < inject_Z k)%Q) by (change 0%Q with (inject_Z 0); by rewrite <- Zlt_Qlt).
  assert (Hk18 : (inject_Z k <= pow10 18)%Q) by (rewrite pow10_Z by lia; rewrite <- Zle_Qle; destruct Ht; lia).
  split; [done|]. split; [|split].
  - apply Qle_shift_inv_l; [done|]. apply Qle_trans with (pow10 (-18) * pow10 18)%Q; [|rewrite <- pow10_add; discriminate].
    rewrite !(Qmult_comm (pow10 (-18))). apply Qmult_le_compat_r; [done|]. apply Qlt_le_weak, pow10_pos.
  - apply Qle_shift_div_l; [done|]. rewrite Qmult_0_l. change 0%Q with (inject_Z 0). by rewrite <- Zle_Qle.
  - apply Qle_shift_div_r; [done|]. rewrite pow10_Z by lia. rewrite <- inject_Z_mult, <- Zle_Qle. lia.
Qed.

(** The working context computes a share to within a tiny fraction of a unit. *)
Lemma share_error p t a k w :
  units (-20) p a -> ledger t k -> 0 < k -> 0 <= a -> a < 10 ^ 18 * k -> ddiv (arithmetic_context pol) p t = Ok w ->
  (Qabs (dval w - inject_Z a / inject_Z k * pow10 (-10)) <= pow10 (-29) * pow10 (-10))%Q.
Proof.
  intros Hp Ht Hk Ha Hlt Hw. pose proof (share_value p t a k Hp Ht Hk) as Hv. pose proof (pow10_pos (-10)) as P10.
  destruct (unit_ratio a k Ht Hk Ha Hlt) as (Hkq & Hinv18 & Hv0 & Hv1).
  destruct (decide (a = 0)) as [->|Hane].
  { assert (Hz : dcoeff p = 0) by (apply dval_zero_iff; unfold units in Hp; rewrite Hp; change (inject_Z 0) with 0%Q; ring).
    rewrite (ddiv_zero_num _ _ _ _ Hz Hw). assert (E : (0 - inject_Z 0 / inject_Z k * pow10 (-10) == 0)%Q) by (change (inject_Z 0) with 0%Q; field; apply inject_Z_nonzero; lia).
    rewrite E. rewrite <- pow10_add. apply Qlt_le_weak, pow10_pos. }
  assert (Hlo : (pow10 (-28) <= dval p / dval t)%Q).
  { rewrite Hv. change (-28) with (-18 + -10). rewrite pow10_add. apply Qmult_le_compat_r; [|lra].
    apply Qle_trans with (/ inject_Z k)%Q; [done|]. unfold Qdiv. rewrite <- (Qmult_1_l (/ inject_Z k)) at 1.
    apply Qmult_le_compat_r; [change 1%Q with (inject_Z 1); rewrite <- Zle_Qle; lia|]. apply Qlt_le_weak, Qinv_lt_0_compat. done. }
  pose proof (ddiv_error (arithmetic_context pol) p t w ledger_context_wide ltac:(done) eq_refl) as He.
  rewrite Qabs_pos in He at 1 by (eapply Qle_trans; [|exact Hlo]; apply Qlt_le_weak, pow10_pos).
  specialize (He ltac:(eapply Qle_trans; [|exact Hlo]; by apply pow10_mono) Hw).
  change (1 - prec (arithmetic_context pol)) with (-63) in He. rewrite Hv in He. eapply Qle_trans; [exact He|].
  rewrite Qabs_pos by nra. pose proof (pow10_pos (-63)) as P63.
  assert (E63 : (pow10 (-63) * pow10 18 <= pow10 (-29))%Q) by (rewrite <- pow10_add; by apply pow10_mono).
  rewrite Qmult_assoc. apply Qmult_le_compat_r; [|lra]. eapply Qle_trans; [|exact E63].
  rewrite !(Qmult_comm (pow10 (-63))). apply Qmult_le_compat_r; lra.
Qed.

Lemma share_no_tie p t a k w :
  units (-20) p a -> ledger t k -> 0 < k -> 0 <= a -> a < 10 ^ 18 * k -> 2 * (a mod k) <> k ->
  ddiv (arithmetic_context pol) p t = Ok w -> to_units pol w = round_coeff ROUND_HALF_EVEN a k.
Proof.
  intros Hp Ht Hk Ha Hlt Hne Hw. pose proof (round_strict a k Hk Ha Hne) as Hstrict. set (z := round_coeff _ a k) in *.
  pose proof (pow10_pos (-10)) as P10. destruct (unit_ratio a k Ht Hk Ha Hlt) as (Hkq & Hinv18 & Hv0 & Hv1).
  apply (to_units_near pol w z). change (- cp_scale pol) with (-10).
  assert (Hnear : (Qabs (inject_Z a / inject_Z k - inject_Z z) <= (1 # 2) - (1 # 2) * / inject_Z k)%Q).
  { apply Qabs_Qle_condition. assert (Hzk : (inject_Z a / inject_Z k - inject_Z z == inject_Z (a - z * k) * / inject_Z k)%Q).
    { unfold Z.sub. rewrite inject_Z_plus, inject_Z_opp, inject_Z_mult. field. apply inject_Z_nonzero. lia. }
    assert (Hhalf : ((1 # 2) - (1 # 2) * / inject_Z k == inject_Z (k - 1) * / inject_Z k * (1 # 2))%Q).
    { unfold Z.sub. rewrite inject_Z_plus, inject_Z_opp. change (inject_Z 1) with 1%Q. field. apply inject_Z_nonzero. lia. }
    rewrite Hzk, Hhalf. assert (Hinv : (0 < / inject_Z k)%Q) by (by apply Qinv_lt_0_compat).
    assert (B1 : (2 * inject_Z (a - z * k) <= inject_Z (k - 1))%Q) by (change 2%Q with (inject_Z 2); rewrite <- inject_Z_mult, <- Zle_Qle; lia).
    assert (B2 : (- inject_Z (k - 1) <= 2 * inject_Z (a - z * k))%Q) by (change 2%Q with (inject_Z 2); rewrite <- inject_Z_opp, <- inject_Z_mult, <- Zle_Qle; lia).
    split; nra. }
  pose proof (share_error p t a k w Hp Ht Hk Ha Hlt Hw) as Herr.
  assert (H29 : (pow10 (-29) < (1 # 2) * / inject_Z k)%Q).
  { apply Qlt_le_trans with ((1 # 2) * pow10 (-18))%Q; [reflexivity|nra]. }
  apply Qabs_Qle_condition in Hnear as [N1 N2], Herr as [R1 R2]. apply Qabs_Qlt_condition. split; nra.
Qed.

(** A proportional share [c * r / t] with [r <= t] is computed with a single half-even rounding of the
    exact ratio: the 64 working digits leave no trace.  In particular it is not negative and does not
    exceed the amount it is a share of. *)
Lemma proportional_share c n r m t k :
  ledger c n -> 0 <= n -> ledger r m -> ledger t k -> 0 <= m <= k -> 0 < k ->
  exists p w, dmul (arithmetic_context pol) c r = Ok p /\ ddiv (arithmetic_context pol) p t = Ok w /\
    to_units pol w = round_coeff ROUND_HALF_EVEN (n * m) k /\ 0 <= to_units pol w <= n.
Proof.
  intros Hc Hn Hr Ht Hm Hk. assert (Bc := proj2 Hc). assert (Bt := proj2 Ht).
  destruct (dfix_units (arithmetic_context pol) (-20) (mul_exact c r) (n * m)) as (p & Hp & Hu);
    [apply ledger_context_wide|lia|apply (units_mul (-10) (-10)); [apply Hc|apply Hr]| |].
  { change (10 ^ prec (arithmetic_context pol)) with (10 ^ 64). change (10 ^ 18) with 1000000000000000000 in *. rewrite Z.abs_mul. nia. }
  assert (Hw : exists w, ddiv (arithmetic_context pol) p t = Ok w /\ to_units pol w = round_coeff ROUND_HALF_EVEN (n * m) k).
  { destruct (decide (2 * ((n * m) mod k) = k)) as [Htie|Hne].
    - apply share_tie; try done. change (10 ^ 18) with 1000000000000000000 in *. nia.
    - destruct (ddiv_Ok (arithmetic_context pol) p t) as [w Hw]; [apply ledger_context_wide|by apply (ledger_nonzero t k)| |].
      { rewrite (share_value p t _ k Hu Ht Hk), Qabs_Qmult, (Qabs_pos (pow10 (-10))) by (apply Qlt_le_weak, pow10_pos).
        apply Qle_lt_trans with (pow10 36 * pow10 (-10))%Q; [|rewrite <- pow10_add; by apply pow10_lt_mono].
        apply Qmult_le_compat_r; [|apply Qlt_le_weak, pow10_pos]. rewrite Qabs_pos.
        - apply Qle_shift_div_r; [by rewrite <- (Zlt_Qlt 0)|]. rewrite (pow10_Z 36) by lia. rewrite <- inject_Z_mult, <- Zle_Qle.
          change (10 ^ 18) with 1000000000000000000 in *. nia.
        - apply Qle_shift_div_l; [by rewrite <- (Zlt_Qlt 0)|]. rewrite Qmult_0_l. change 0%Q with (inject_Z 0). rewrite <- Zle_Qle. nia. }
      exists w. split; [done|]. apply (share_no_tie p t); try done; nia. }
  destruct Hw as (w & Hw & Ew). exists p, w. split; [exact Hp|]. split; [done|]. split; [done|]. rewrite Ew.
  split; [apply round_coeff_nonneg; nia|]. rewrite <- (round_coeff_multiple ROUND_HALF_EVEN n k Hk) at 2.
  apply round_coeff_mono; nia.
Qed.

(** Multiplying back by the quantity recovers the booked amount exactly. *)
Lemma unit_cost_roundtrip c n q k u f :
  ledger c n -> 0 <= n -> ledger q k -> 0 < k -> ddiv (arithmetic_context pol) c q = Ok u ->
  exists r, p_multiply pol q u f = Ok r /\ ledger r n.
Proof.
  intros Hc Hn Hq Hk Hu. destruct (ledger_unit_cost c n q k Hc Hn Hq Hk) as (u' & Hu' & Huc & He).
  rewrite Hu in Hu'. injection Hu' as <-. destruct (dmul_unit_cost_Ok q k u Hq Huc) as [w Hw].
  unfold p_multiply, calculate. rewrite Hw. simpl.
  pose proof (ledger_val_lower q k Hq Hk) as Hql. pose proof (pow10_pos (-10)) as Hp10.
  pose proof (ledger_val_bound c n Hc) as Bc. pose proof (ledger_nonneg c n Hc Hn) as Hc0.
  rewrite Qabs_pos in Bc by done.
  set (P := mul_exact q u). assert (HP : (Qabs (dval P - dval c) <= pow10 (-63) * dval c)%Q).
  { unfold P. rewrite mul_exact_val.
    assert (Hx : (dval q * dval u - dval c == (dval u - dval c / dval q) * dval q)%Q) by (field; lra).
    rewrite Hx, Qabs_Qmult, (Qabs_pos (dval q)) by lra.
    apply Qle_trans with (pow10 (-63) * (dval c / dval q) * dval q)%Q; [apply Qmult_le_compat_r; lra|].
    assert (Hy : (pow10 (-63) * (dval c / dval q) * dval q == pow10 (-63) * dval c)%Q) by (field; lra). lra. }
  assert (Hs63 : (pow10 (-63) * pow10 8 == pow10 (-55))%Q) by (by rewrite <- pow10_add).
  assert (Hquarter : (pow10 (-55) <= (1 # 10) * pow10 (-10))%Q).
  { change (1 # 10) with (pow10 (-1)). rewrite <- pow10_add. by apply pow10_mono. }
  assert (HwP : (Qabs (dval w - dval P) <= (1 # 10) * pow10 (-10))%Q).
  { pose proof (dfix_error (arithmetic_context pol) P w ltac:(done) eq_refl Hw) as Hf.
    destruct (decide (dcoeff P = 0)) as [Hz|Hz].
    { rewrite (dfix_zero _ _ _ Hz Hw). apply dval_zero_iff in Hz. rewrite Hz. change (Qabs (0 - 0)) with 0%Q. lra. }
    eapply Qle_trans; [exact Hf|].
    assert (HPb : (Qabs (dval P) < pow10 9)%Q).
    { pose proof (Qabs_triangle (dval P - dval c) (dval c)) as Ht.
      assert (Hs : (dval P - dval c + dval c == dval P)%Q) by ring. rewrite Hs, (Qabs_pos (dval c)) in Ht by done.
      assert (pow10 (-63) <= 1)%Q by (change 1%Q with (pow10 0); by apply pow10_mono).
      assert (pow10 9 == 10 * pow10 8)%Q by reflexivity. pose proof (pow10_pos 8). nra. }
    pose proof (ndigits_exp_bound P 9 Hz HPb) as Hb.
    apply Qle_trans with (1 * pow10 (-55))%Q; [|lra].
    apply Qle_trans with (1 * pow10 (fix_exponent (arithmetic_context pol) P))%Q.
    + apply Qmult_le_compat_r; [discriminate|]. apply Qlt_le_weak, pow10_pos.
    + rewrite !Qmult_1_l. apply pow10_mono. unfold fix_exponent, Etiny.
      change (prec (arithmetic_context pol)) with 64. change (Emin (arithmetic_context pol)) with (-999999). lia. }
  assert (Hnear : to_units pol w = n).
  { apply to_units_near. change (cp_scale pol) with 10.
    destruct Hc as [Hcu _]. unfold units in Hcu. rewrite <- Hcu.
    pose proof (Qabs_triangle (dval w - dval P) (dval P - dval c)) as Ht.
    assert (Hs : (dval w - dval P + (dval P - dval c) == dval w - dval c)%Q) by ring. rewrite Hs in Ht.
    pose proof (pow10_pos (-63)). assert (pow10 (-63) * dval c <= pow10 (-55))%Q by nra. change (- (10)) with (-10). lra. }
  destruct (normalize_total pol (ledger_policy_wf name) w f) as [H1 _]. rewrite Hnear in H1.
  destruct Hc as [_ Hb]. destruct (H1 Hb) as (r & Hr & Hur). exists r. split; [done|]. by split.
Qed.

Lemma calculate_storable op x y f r :
  calculate pol (Finite x) (Finite y) f op = Ok r -> exists n, ledger r n.
Proof. unfold calculate. intros H. inv_ok. eexists. by eapply ledger_of_normalize. Qed.
End Ledger.

#[export] Hint Resolve ledger_units ledger_dzero : lotus.

(** ** Properties *)

(** A bounded precision policy accepts a finite decimal, unchanged, exactly when its value is
    representable by NUMERIC(precision, scale); it reports [EXCESS_SCALE] exactly when the value is
    not a whole number of storage units and [MAGNITUDE_OVERFLOW] exactly when it is one that needs
    more than [precision] digits. *)
Theorem require_exact_decides_storability name p s pol (d : decimal) f :
  make_DecimalPrecisionPolicy name (Some p) (Some s) = Ok pol ->
  (require_exact pol d f = Ok d <-> storable p s d) /\
  (require_exact pol d f = Raise (DecimalPrecisionError f EXCESS_SCALE name)
     <-> forall n, ~ units (- s) d n) /\
  (require_exact pol d f = Raise (DecimalPrecisionError f MAGNITUDE_OVERFLOW name)
     <-> exists n, units (- s) d n /\ 10 ^ p <= Z.abs n).
Proof.
  unfold make_DecimalPrecisionPolicy. intros H. destruct (negb _); [done|].
  destruct (Z.leb_spec p 0); [done|]. destruct ((s <? 0) || (p <? s)) eqn:E; [done|]. injection H as <-.
  apply orb_false_iff in E as [E1%Z.ltb_ge E2%Z.ltb_ge]. fold (bounded_policy name p s).
  destruct (units_dec p s ltac:(lia) d) as [[n Hn]|Hno].
  - rewrite (require_exact_units name p s) with (n := n) by (done || lia).
    assert (Hu : forall m, units (- s) d m -> m = n) by (intros m Hm; by eapply units_inj).
    destruct (Z.ltb_spec (Z.abs n) (10 ^ p)); repeat split; intros Hx; try done;
      try (by exists n); try (by destruct (Hx n)).
    + destruct Hx as (m & Hm%Hu & ?). lia.
    + destruct Hx as (m & Hm%Hu & ?). lia.
  - rewrite require_exact_excess by (done || lia).
    repeat split; intros Hx; try done; destruct Hx as (m & Hm & ?); by destruct (Hno m).
Qed.

Lemma require_exact_decides_storability_witness :
  require_exact BOUNDED_18_10_EXACT (Dec 125 (-2)) "f" = Ok (Dec 125 (-2)) <-> storable 18 10 (Dec 125 (-2)).
Proof.
  exact (proj1 (require_exact_decides_storability "bounded-18-10-exact" 18 10 BOUNDED_18_10_EXACT
                  (Dec 125 (-2)) "f" eq_refl)).
Defined.

(** For every constructible half-even calculation policy, [normalize] maps a finite value to the
    nearest multiple of [10 ^ -scale], ties to even, when that multiple fits the storage precision,
    and otherwise raises [MAGNITUDE_OVERFLOW]; a value already storable comes back unchanged. *)
Theorem normalize_rounds_half_even name version p s w pol (d : decimal) f :
  make_CalculatedDecimalPolicy name version p s w ROUND_HALF_EVEN = Ok pol -> w <= 1000 ->
  let n := qround ROUND_HALF_EVEN (dval d * pow10 s) in
  (Z.abs n < 10 ^ p -> exists r, normalize pol d f = Ok r /\ units (- s) r n) /\
  (10 ^ p <= Z.abs n ->
     normalize pol d f = Raise (DecimalPrecisionError f MAGNITUDE_OVERFLOW (policy_id pol))) /\
  (storable p s d -> normalize pol d f = Ok d).
Proof.
  unfold make_CalculatedDecimalPolicy, make_DecimalPrecisionPolicy. intros H Hw1000.
  destruct (negb _); [done|]. destruct (Z.leb_spec p 0); [done|].
  destruct ((s <? 0) || (p <? s)) eqn:E; [done|]. simpl in H. destruct (Z.ltb_spec w (p * 2)); [done|].
  injection H as <-. apply orb_false_iff in E as [E1%Z.ltb_ge E2%Z.ltb_ge].
  set (pol := Build_CalculatedDecimalPolicy _ _ _ _ _ _ _ _).
  assert (Hwf : wf_policy pol) by (constructor; simpl; (done || lia)).
  destruct (normalize_total pol Hwf d f) as [N1 N2]. split; [exact N1|]. split; [exact N2|].
  intros (m & Hm & Hlt). by eapply (normalize_units pol Hwf).
Qed.

Lemma normalize_rounds_half_even_witness :
  exists r, normalize (ledger_policy "x") (Dec 125 (-12)) "f" = Ok r /\ units (-10) r 1.
Proof.
  refine (proj1 (normalize_rounds_half_even "x" "1.0.0" 18 10 64 (ledger_policy "x") (Dec 125 (-12)) "f"
                   eq_refl _) _); [lia|]. vm_compute. reflexivity.
Defined.

(** On two ledger amounts, [add] and [subtract] of a ledger policy are exact: the result carries
    exactly the sum (difference) of the stored units, or the operation raises [MAGNITUDE_OVERFLOW]
    because that sum needs more than 18 digits. *)
Theorem ledger_add_subtract_exact name x y m n f :
  ledger x m -> ledger y n ->
  let overflow := Raise (DecimalPrecisionError f MAGNITUDE_OVERFLOW (policy_id (ledger_policy name))) in
  (Z.abs (m + n) < 10 ^ 18 -> exists r, p_add (ledger_policy name) x y f = Ok r /\ ledger r (m + n)) /\
  (10 ^ 18 <= Z.abs (m + n) -> p_add (ledger_policy name) x y f = overflow) /\
  (Z.abs (m - n) < 10 ^ 18 -> exists r, p_subtract (ledger_policy name) x y f = Ok r /\ ledger r (m - n)) /\
  (10 ^ 18 <= Z.abs (m - n) -> p_subtract (ledger_policy name) x y f = overflow).
Proof.
  intros Hx Hy. destruct (p_add_spec name x y m n f Hx Hy) as [A1 A2].
  destruct (p_subtract_spec name x y m n f Hx Hy) as [S1 S2]. by repeat split.
Qed.

Lemma ledger_add_subtract_exact_witness :
  exists r, p_add (ledger_policy "x") (Dec 15 (-1)) (Dec 25 (-2)) "f" = Ok r /\ ledger r 17500000000.
Proof.
  refine (proj1 (ledger_add_subtract_exact "x" (Dec 15 (-1)) (Dec 25 (-2)) 15000000000 2500000000 "f" _ _) _);
    [split; vm_compute; reflexivity|split; vm_compute; reflexivity|vm_compute; reflexivity].
Defined.

(** The unit cost [amount / quantity] kept at 64 digits multiplied back by the quantity gives the
    booked amount exactly, for every storable amount and positive storable quantity. *)
Theorem unit_cost_recovers_amount name c n q k f :
  ledger c n -> 0 <= n -> ledger q k -> 0 < k ->
  exists u r, ddiv (arithmetic_context (ledger_policy name)) c q = Ok u /\
    p_multiply (ledger_policy name) q u f = Ok r /\ ledger r n.
Proof.
  intros Hc Hn Hq Hk. destruct (ledger_unit_cost name c n q k Hc Hn Hq Hk) as (u & Hu & _).
  destruct (unit_cost_roundtrip name c n q k u f Hc Hn Hq Hk Hu) as (r & Hr & Hl). eauto.
Qed.

Lemma unit_cost_recovers_amount_witness :
  exists u r, ddiv (arithmetic_context (ledger_policy "x")) (Dec 100 0) (Dec 3 0) = Ok u /\
    p_multiply (ledger_policy "x") (Dec 3 0) u "f" = Ok r /\ ledger r 1000000000000.
Proof.
  apply (unit_cost_recovers_amount "x" (Dec 100 0) 1000000000000 (Dec 3 0) 30000000000 "f");
    try lia; split; vm_compute; reflexivity.
Defined.

Arguments normalize : simpl never.
Arguments require_exact : simpl never.
Arguments p_add : simpl never.
Arguments p_subtract : simpl never.
Arguments p_multiply : simpl never.
Arguments p_divide : simpl never.
