(* ===== verification/Lineage.v ===== *)
(** * Calculation lineage

    [portfolio_common/domain/calculation_lineage.py]: the canonical JSON text of a financial payload,
    its SHA-256 content hash, and the three-layer receipt (input, calculation, output) every derived
    value carries.  The digest function of [hashlib] is the parameter [sha256_hexdigest]; the only
    fact used about it is that it returns 64 lowercase hexadecimal characters. *)

From Stdlib Require Import ZArith Lia String Ascii.
From stdpp Require Import base tactics list sorting strings.
From S2P Require Import Prelude PyDecimal PyTime Precision.

#[local] Open Scope string_scope.
#[local] Open Scope Z_scope.

(** ** The hash function of [hashlib] *)

Class Hashing := { sha256_hexdigest : string -> string }.

Definition is_hex (c : ascii) : bool :=
  let n := N_of_ascii c in ((48 <=? n)%N && (n <=? 57)%N) || ((97 <=? n)%N && (n <=? 102)%N).

Definition is_sha256_digest (s : string) : bool :=
  (Nat.eqb (String.length s) 64) && string_forallb is_hex s.

(** [hexdigest()] of SHA-256 is 64 lowercase hexadecimal digits. *)
Class HashingOk `{Hashing} := digest_shape : forall s, is_sha256_digest (sha256_hexdigest s) = true.

(** ** Payload values and canonical JSON *)

(** The Python values a payload may hold. *)
Inductive payload :=
| PNone
| PBool (b : bool)
| PInt (n : Z)
| PStr (s : string)
| PFloat
| PDecimal (d : number)
| PDatetime (d : datetime)
| PDate (d : date)
| PEnum (value : payload)
| PMap (entries : list (string * payload))
| PSet (items : list payload)
| PSeq (items : list payload).

Inductive json :=
| JNull
| JBool (b : bool)
| JInt (n : Z)
| JStr (s : string)
| JObj (entries : list (string * json))
| JArr (items : list json).

(** [json.dumps] escapes of an ASCII string. *)
Definition hex_digit (n : N) : ascii := if (n <? 10)%N then ascii_of_N (48 + n) else ascii_of_N (87 + n).

Definition json_escape_char (c : ascii) : string :=
  let n := N_of_ascii c in
  if (n =? 34)%N then String "\" (String "034" "")
  else if (n =? 92)%N then "\\"
  else if (n =? 10)%N then "\n"
  else if (n =? 13)%N then "\r"
  else if (n =? 9)%N then "\t"
  else if (n =? 8)%N then "\b"
  else if (n =? 12)%N then "\f"
  else if (n <? 32)%N || (126 <? n)%N
  then "\u00" +:+ String (hex_digit (n / 16)) (String (hex_digit (n mod 16)) "")
  else String c "".

Fixpoint json_escape (s : string) : string :=
  match s with EmptyString => "" | String c s' => json_escape_char c +:+ json_escape s' end.

Definition json_string (s : string) : string := String "034" (json_escape s +:+ String "034" "").

Fixpoint join (sep : string) (xs : list string) : string :=
  match xs with
  | [] => ""
  | [x] => x
  | x :: xs' => x +:+ sep +:+ join sep xs'
  end.

Definition key_leb {A} (x y : string * A) : bool := string_leb (fst x) (fst y).

(** [json.dumps(value, sort_keys=True, separators=(",", ":"), ensure_ascii=True)].  The entries are
    rendered first and sorted by key, which is the same text as rendering the sorted entries. *)
Fixpoint json_dumps (j : json) : string :=
  match j with
  | JNull => "null"
  | JBool b => if b then "true" else "false"
  | JInt n => string_of_Z n
  | JStr s => json_string s
  | JArr xs => "[" +:+ join "," (map json_dumps xs) +:+ "]"
  | JObj es =>
      "{" +:+ join "," (map (fun e => json_string (fst e) +:+ ":" +:+ snd e)
                          (stable_sort key_leb (map (fun e => (fst e, json_dumps (snd e))) es))) +:+ "}"
  end.

Definition canonical_sort_key (j : json) : string := json_dumps j.

(** [_normalize_lineage_value]. *)
Fixpoint normalize_lineage_value (v : payload) : result json :=
  match v with
  | PNone => Ok JNull
  | PBool b => Ok (JBool b)
  | PInt n => Ok (JInt n)
  | PStr s => Ok (JStr s)
  | PFloat => Raise (TypeError "float values are prohibited in financial calculation lineage")
  | PDecimal (Finite d) => Ok (JObj [("decimal", JStr (string_of_decimal d))])
  | PDecimal _ => Raise (ValueError "non-finite Decimal values are prohibited in calculation lineage")
  | PDatetime d =>
      if is_naive d then Raise (ValueError "lineage datetime values must be timezone-aware")
      else Ok (JObj [("datetime", JStr (datetime_isoformat (astimezone_utc d)))])
  | PDate d => Ok (JObj [("date", JStr (date_isoformat d))])
  | PEnum v' => normalize_lineage_value v'
  | PMap es =>
      entries ← (fix go es := match es with
        | [] => Ok []
        | (k, v') :: es' =>
            if truthy k then
              j ← normalize_lineage_value v'; js ← go es'; Ok ((k, j) :: js)
            else Raise (TypeError "calculation lineage mapping keys must be nonblank strings")
        end) es;
      Ok (JObj entries)
  | PSet xs =>
      items ← (fix go xs := match xs with
        | [] => Ok []
        | x :: xs' => j ← normalize_lineage_value x; js ← go xs'; Ok (j :: js)
        end) xs;
      Ok (JArr (stable_sort (fun a b => string_leb (canonical_sort_key a) (canonical_sort_key b)) items))
  | PSeq xs =>
      items ← (fix go xs := match xs with
        | [] => Ok []
        | x :: xs' => j ← normalize_lineage_value x; js ← go xs'; Ok (j :: js)
        end) xs;
      Ok (JArr items)
  end.

Section Lineage.
Context `{Hashing}.

Definition canonical_content_hash (p : payload) : result string :=
  normalized ← normalize_lineage_value p;
  Ok (sha256_hexdigest (json_dumps normalized)).

Definition require_sha256_digest (value field_name : string) : result string :=
  if is_sha256_digest value then Ok value
  else Raise (ValueError (field_name +:+ " must be a lowercase SHA-256 hex digest")).

(** ** [NumericOutputPolicyLineage] *)

Record NumericOutputPolicyLineage := {
  np_name : string; np_version : string; np_precision : Z; np_scale : Z;
  np_working_precision : Z; np_rounding : string
}.

#[export] Instance numeric_policy_eq_dec : EqDecision NumericOutputPolicyLineage.
Proof. solve_decision. Defined.

Definition require_nonblank (value field_name : string) : result string :=
  if truthy (strip value) then Ok (strip value)
  else Raise (ValueError (field_name +:+ " must be nonblank")).

Definition make_NumericOutputPolicyLineage (name version : string) (precision scale working : Z)
  (rounding : string) : result NumericOutputPolicyLineage :=
  name' ← require_nonblank name "name";
  version' ← require_nonblank version "version";
  rounding' ← require_nonblank rounding "rounding";
  if precision <? 1 then Raise (ValueError "precision must be positive") else
  if (scale <? 0) || (precision <? scale) then Raise (ValueError "scale must be between zero and precision") else
  if working <? precision then Raise (ValueError "working_precision must be at least precision") else
  Ok {| np_name := name'; np_version := version'; np_precision := precision; np_scale := scale;
        np_working_precision := working; np_rounding := rounding' |}.

Definition np_lineage_payload (p : NumericOutputPolicyLineage) : payload :=
  PMap [("name", PStr (np_name p)); ("precision", PInt (np_precision p));
        ("rounding", PStr (np_rounding p)); ("scale", PInt (np_scale p));
        ("version", PStr (np_version p)); ("working_precision", PInt (np_working_precision p))].

Definition rounding_name (r : rounding_mode) : string :=
  match r with ROUND_HALF_EVEN => "ROUND_HALF_EVEN" | ROUND_DOWN => "ROUND_DOWN" end.

(** [CalculatedDecimalPolicy.lineage_identity]. *)
Definition lineage_identity (p : CalculatedDecimalPolicy) : result NumericOutputPolicyLineage :=
  make_NumericOutputPolicyLineage (cp_name p) (cp_version p) (cp_precision p) (cp_scale p)
    (cp_working_precision p) (rounding_name (cp_rounding p)).

(** ** [CalculationLineage] *)

Record CalculationLineage := {
  cl_algorithm_id : string;
  cl_algorithm_version : Z;
  cl_intermediate_precision : Z;
  cl_input_content_hash : string;
  cl_calculation_content_hash : string;
  cl_output_content_hash : string;
  cl_numeric_output_policy : option NumericOutputPolicyLineage
}.

Definition make_CalculationLineage (algorithm_id : string) (algorithm_version intermediate_precision : Z)
  (input_hash calculation_hash output_hash : string) (np : option NumericOutputPolicyLineage)
  : result CalculationLineage :=
  if negb (truthy (strip algorithm_id)) then Raise (ValueError "algorithm_id must be nonblank") else
  if algorithm_version <? 1 then Raise (ValueError "algorithm_version must be positive") else
  if intermediate_precision <? 1 then Raise (ValueError "intermediate_precision must be positive") else
  _ ← require_sha256_digest input_hash "input_content_hash";
  _ ← require_sha256_digest calculation_hash "calculation_content_hash";
  _ ← require_sha256_digest output_hash "output_content_hash";
  Ok {| cl_algorithm_id := algorithm_id; cl_algorithm_version := algorithm_version;
        cl_intermediate_precision := intermediate_precision; cl_input_content_hash := input_hash;
        cl_calculation_content_hash := calculation_hash; cl_output_content_hash := output_hash;
        cl_numeric_output_policy := np |}.

Definition cl_lineage_payload (l : CalculationLineage) : payload :=
  PMap ([("algorithm_id", PStr (cl_algorithm_id l));
         ("algorithm_version", PInt (cl_algorithm_version l));
         ("calculation_content_hash", PStr (cl_calculation_content_hash l));
         ("input_content_hash", PStr (cl_input_content_hash l));
         ("intermediate_precision", PInt (cl_intermediate_precision l));
         ("output_content_hash", PStr (cl_output_content_hash l))] ++
        match cl_numeric_output_policy l with
        | None => []
        | Some np => [("numeric_output_policy", np_lineage_payload np)]
        end)%list.

(** The payload hashed into [calculation_content_hash]. *)
Definition calculation_payload (algorithm_id : string) (algorithm_version : Z) (input_hash : string)
  (intermediate_precision : Z) (np : option NumericOutputPolicyLineage) : payload :=
  PMap ([("algorithm_id", PStr algorithm_id);
         ("algorithm_version", PInt algorithm_version);
         ("input_content_hash", PStr input_hash);
         ("intermediate_precision", PInt intermediate_precision)] ++
        match np with
        | None => []
        | Some p => [("numeric_output_policy", np_lineage_payload p)]
        end)%list.

Definition output_payload_binding (calculation_hash : string) (output : payload) : payload :=
  PMap [("calculation_content_hash", PStr calculation_hash); ("output", output)].

Definition build_calculation_lineage (algorithm_id : string) (algorithm_version intermediate_precision : Z)
  (input_payload output_payload : payload) (np : option NumericOutputPolicyLineage)
  : result CalculationLineage :=
  let normalized_algorithm_id := strip algorithm_id in
  if negb (truthy normalized_algorithm_id) then Raise (ValueError "algorithm_id must be nonblank") else
  if algorithm_version <? 1 then Raise (ValueError "algorithm_version must be positive") else
  if intermediate_precision <? 1 then Raise (ValueError "intermediate_precision must be positive") else
  input_hash ← canonical_content_hash input_payload;
  calculation_hash ← canonical_content_hash
    (calculation_payload normalized_algorithm_id algorithm_version input_hash intermediate_precision np);
  output_hash ← canonical_content_hash (output_payload_binding calculation_hash output_payload);
  make_CalculationLineage normalized_algorithm_id algorithm_version intermediate_precision
    input_hash calculation_hash output_hash np.

Definition calculation_lineage_binds_output (l : CalculationLineage) (output_payload : payload) : result bool :=
  expected ← canonical_content_hash
    (calculation_payload (cl_algorithm_id l) (cl_algorithm_version l) (cl_input_content_hash l)
       (cl_intermediate_precision l) (cl_numeric_output_policy l));
  if negb (String.eqb (cl_calculation_content_hash l) expected) then Ok false else
  output_hash ← canonical_content_hash (output_payload_binding expected output_payload);
  Ok (String.eqb (cl_output_content_hash l) output_hash).

Definition required_payload_string (es : list (string * payload)) (key : string) : result string :=
  match od_get key es with
  | Some (PStr s) => Ok s
  | _ => Raise (TypeError (key +:+ " must be a string"))
  end.

Definition required_payload_int (es : list (string * payload)) (key : string) : result Z :=
  match od_get key es with
  | Some (PInt n) => Ok n
  | _ => Raise (TypeError (key +:+ " must be an integer"))
  end.

Definition calculation_lineage_from_payload (p : payload) : result (option CalculationLineage) :=
  match p with
  | PNone => Ok None
  | PMap es =>
      np ← match od_get "numeric_output_policy" es with
           | None | Some PNone => Ok None
           | Some (PMap ns) =>
               name ← required_payload_string ns "name";
               version ← required_payload_string ns "version";
               precision ← required_payload_int ns "precision";
               scale ← required_payload_int ns "scale";
               working ← required_payload_int ns "working_precision";
               rounding ← required_payload_string ns "rounding";
               np ← make_NumericOutputPolicyLineage name version precision scale working rounding;
               Ok (Some np)
           | Some _ => Raise (TypeError "numeric_output_policy must be an object")
           end;
      algorithm_id ← required_payload_string es "algorithm_id";
      algorithm_version ← required_payload_int es "algorithm_version";
      intermediate_precision ← required_payload_int es "intermediate_precision";
      input_hash ← required_payload_string es "input_content_hash";
      calculation_hash ← required_payload_string es "calculation_content_hash";
      output_hash ← required_payload_string es "output_content_hash";
      l ← make_CalculationLineage algorithm_id algorithm_version intermediate_precision
            input_hash calculation_hash output_hash np;
      Ok (Some l)
  | _ => Raise (TypeError "calculation lineage payload must be an object")
  end.
End Lineage.

Arguments normalize_lineage_value : simpl nomatch.

(** ** Canonicalisation does not depend on key order *)

(** One [key, value] pair of a mapping. *)
Definition normalize_entry (e : string * payload) : result (string * json) :=
  if truthy (fst e) then (j ← normalize_lineage_value (snd e); Ok (fst e, j))
  else Raise (TypeError "calculation lineage mapping keys must be nonblank strings").

Lemma normalize_PMap es :
  normalize_lineage_value (PMap es) =
  (entries ← mapR normalize_entry es;
   Ok (JObj entries)).
Proof.
  simpl. f_equal. induction es as [|[k v] es IH]; [done|]. simpl. rewrite IH. unfold normalize_entry. simpl.
  destruct (truthy k); [|done]. by destruct (normalize_lineage_value v).
Qed.

Lemma normalize_PSeq xs :
  normalize_lineage_value (PSeq xs) =
  (items ← mapR normalize_lineage_value xs; Ok (JArr items)).
Proof. simpl. f_equal. induction xs as [|x xs IH]; [done|]. simpl. by rewrite IH. Qed.

(** A payload of normalisable parts normalises. *)
Lemma normalize_map_ok es :
  Forall (fun e => truthy (fst e) = true /\ is_ok (normalize_lineage_value (snd e)) = true) es ->
  is_ok (normalize_lineage_value (PMap es)) = true.
Proof.
  intros HF. rewrite normalize_PMap. assert (H : exists us, mapR normalize_entry es = Ok us); [|by destruct H as [us ->]].
  induction HF as [|[k v] es [Hk Hv] HF [us IH]]; [by exists []|]. simpl in Hk, Hv |- *.
  destruct (normalize_lineage_value v) as [j|] eqn:Ej; [|done].
  assert (normalize_entry (k, v) = Ok (k, j)) as -> by (unfold normalize_entry; simpl; by rewrite Hk, Ej).
  simpl. rewrite IH. eauto.
Qed.

Lemma normalize_seq_ok xs :
  Forall (fun x => is_ok (normalize_lineage_value x) = true) xs -> is_ok (normalize_lineage_value (PSeq xs)) = true.
Proof.
  intros HF. rewrite normalize_PSeq. assert (H : exists us, mapR normalize_lineage_value xs = Ok us); [|by destruct H as [us ->]].
  induction HF as [|v xs Hv HF [us IH]]; [by exists []|]. simpl. destruct (normalize_lineage_value v); [|done].
  simpl. rewrite IH. eauto.
Qed.

Lemma key_leb_total {A} (x y : string * A) : key_leb x y = true \/ key_leb y x = true.
Proof. apply string_leb_total. Qed.

Lemma key_leb_trans {A} (x y z : string * A) : key_leb x y = true -> key_leb y z = true -> key_leb x z = true.
Proof. apply string_leb_trans. Qed.

Lemma NoDup_fst_inj {A} (l : list (string * A)) x y : NoDup l.*1 -> x ∈ l -> y ∈ l -> fst x = fst y -> x = y.
Proof.
  induction l as [|z l IH]; [by intros _ ?%elem_of_nil|]. cbn [fmap list_fmap].
  rewrite NoDup_cons, !elem_of_cons. intros [Hn Hd] [->|Hx] [->|Hy] E; try done.
  - destruct Hn. rewrite E. by apply list_elem_of_fmap_2.
  - destruct Hn. rewrite <- E. by apply list_elem_of_fmap_2.
  - by apply IH.
Qed.

Lemma keys_map_snd {A B} (g : A -> B) (us : list (string * A)) :
  (map (fun e => (fst e, g (snd e))) us).*1 = us.*1.
Proof. induction us as [|e us IH]; [done|]. cbn [map fmap list_fmap fst]. f_equal. exact IH. Qed.

Lemma json_dumps_obj_perm us vs :
  us ≡ₚ vs -> NoDup us.*1 -> json_dumps (JObj us) = json_dumps (JObj vs).
Proof.
  intros Hp Hd. simpl. do 4 f_equal. apply stable_sort_perm_eq.
  - apply key_leb_total.
  - apply key_leb_trans.
  - intros x y Hx Hy H1 H2. apply NoDup_fst_inj with (map (fun e => (fst e, json_dumps (snd e))) us); try done.
    + by rewrite keys_map_snd.
    + by apply string_leb_antisym.
  - by apply Permutation_map.
Qed.

(** Two payloads with the same contents: mappings may list their (distinct) keys in any order. *)
Inductive same_payload : payload -> payload -> Prop :=
| same_refl p : same_payload p p
| same_map es es1 es' :
    Forall2 (fun a b => fst a = fst b /\ same_payload (snd a) (snd b)) es es1 ->
    es1 ≡ₚ es' -> NoDup es.*1 -> same_payload (PMap es) (PMap es')
| same_seq xs ys : Forall2 same_payload xs ys -> same_payload (PSeq xs) (PSeq ys)
| same_enum p q : same_payload p q -> same_payload (PEnum p) (PEnum q).

Definition same_text (p q : payload) : Prop :=
  forall j, normalize_lineage_value p = Ok j ->
  exists j', normalize_lineage_value q = Ok j' /\ json_dumps j = json_dumps j'.

Lemma mapR_keys es us :
  mapR normalize_entry es = Ok us ->
  us.*1 = es.*1.
Proof.
  revert us. induction es as [|[k v] es IH]; intros us Hu; simpl in Hu; inv_ok; [done|].
  unfold normalize_entry in *. simpl in *. destruct (truthy k); inv_ok. simpl. f_equal. by apply IH.
Qed.

Lemma same_text_entries es es1 us :
  Forall2 (fun a b => fst a = fst b /\ same_text (snd a) (snd b)) es es1 ->
  mapR normalize_entry es = Ok us ->
  exists vs, mapR normalize_entry es1 = Ok vs /\
    map (fun e => (fst e, json_dumps (snd e))) us = map (fun e => (fst e, json_dumps (snd e))) vs.
Proof.
  intros HF. revert us. induction HF as [|[k v] [k' v'] es es1 [Hk Hv] HF IH]; intros us Hu; simpl in *.
  - inv_ok. by exists [].
  - subst k'. apply bind_Ok in Hu as (e & He & (us' & Hus & [= <-])%bind_Ok).
    unfold normalize_entry in He. simpl in He. destruct (truthy k) eqn:Ek; [|done].
    apply bind_Ok in He as (j & Hj & [= <-]).
    destruct (Hv _ Hj) as (j' & Hj' & Hjj). destruct (IH _ Hus) as (vs & -> & Hvs).
    assert (normalize_entry (k, v') = Ok (k, j')) as ->.
    { unfold normalize_entry. simpl. by rewrite Ek, Hj'. }
    simpl. eexists. split; [done|]. simpl. congruence.
Qed.

Lemma same_text_items xs ys us :
  Forall2 same_text xs ys -> mapR normalize_lineage_value xs = Ok us ->
  exists vs, mapR normalize_lineage_value ys = Ok vs /\ map json_dumps us = map json_dumps vs.
Proof.
  intros HF. revert us. induction HF as [|x y xs ys Hxy HF IH]; intros us Hu; simpl in *.
  - inv_ok. by exists [].
  - apply bind_Ok in Hu as (j & Hxj & (us' & Hus & [= <-])%bind_Ok).
    destruct (Hxy _ Hxj) as (j' & -> & Hj). destruct (IH _ Hus) as (vs & -> & Hvs). simpl.
    eexists. split; [done|]. simpl. congruence.
Qed.

Lemma same_payload_text p q : same_payload p q -> same_text p q.
Proof.
  revert p q. fix IH 3. intros p q Hs. destruct Hs as [p|es es1 es' HF Hp Hd|xs ys HF|p q Hs].
  - intros j Hj. by exists j.
  - intros j Hj. rewrite normalize_PMap in *. inv_ok.
    assert (HF' : Forall2 (fun a b => fst a = fst b /\ same_text (snd a) (snd b)) es es1).
    { clear - HF IH. induction HF as [|a b es es1 [H1 H2] HF IHF]; constructor; [|exact IHF].
      split; [exact H1|]. apply IH. exact H2. }
    destruct (same_text_entries _ _ _ HF' H) as (vs & Hvs & Hmap).
    destruct (mapR_perm _ _ _ _ Hp Hvs) as (ws & Hws & Hperm). rewrite Hws. simpl. eexists. split; [done|].
    transitivity (json_dumps (JObj vs)).
    + simpl. by rewrite Hmap.
    + apply json_dumps_obj_perm; [done|]. rewrite (mapR_keys _ _ Hvs).
      replace (es1.*1) with (es.*1); [done|]. clear - HF.
      induction HF as [|a b es es1 [H1 _] HF IHF]; [done|]. cbn [fmap list_fmap]. by rewrite H1, IHF.
  - intros j Hj. rewrite normalize_PSeq in *. inv_ok.
    assert (HF' : Forall2 same_text xs ys).
    { clear - HF IH. induction HF as [|a b xs ys H1 HF IHF]; constructor; [apply IH; exact H1|exact IHF]. }
    destruct (same_text_items _ _ _ HF' H) as (vs & -> & Hmap). simpl. eexists. split; [done|]. simpl. by rewrite Hmap.
  - exact (IH p q Hs).
Qed.

(** ** Properties *)

Section LineageProperties.
Context {hashing : Hashing}.

Lemma canonical_content_hash_digest {hashing_ok : HashingOk} p h :
  canonical_content_hash p = Ok h -> is_sha256_digest h = true.
Proof. unfold canonical_content_hash. intros Hh. inv_ok. apply digest_shape. Qed.

Lemma require_sha256_digest_Ok value field v :
  require_sha256_digest value field = Ok v -> is_sha256_digest value = true.
Proof. unfold require_sha256_digest. by destruct (is_sha256_digest value). Qed.

Lemma require_nonblank_Ok value field v :
  require_nonblank value field = Ok v -> v = strip value /\ truthy v = true.
Proof. unfold require_nonblank. destruct (truthy _) eqn:E; [|done]. intros [= <-]. done. Qed.

Lemma make_CalculationLineage_Ok algorithm_id version prec_ ih ch oh np l :
  make_CalculationLineage algorithm_id version prec_ ih ch oh np = Ok l ->
  0 < version /\ 0 < prec_ /\ Forall (fun h => is_sha256_digest h = true) [ih; ch; oh] /\
  l = {| cl_algorithm_id := algorithm_id; cl_algorithm_version := version;
         cl_intermediate_precision := prec_; cl_input_content_hash := ih;
         cl_calculation_content_hash := ch; cl_output_content_hash := oh; cl_numeric_output_policy := np |}.
Proof.
  unfold make_CalculationLineage. intros Hl.
  case_if_in Hl E1; [done|]. case_if_in Hl E2; [done|]. case_if_in Hl E3; [done|].
  apply bind_Ok in Hl as (? & ?%require_sha256_digest_Ok & Hl).
  apply bind_Ok in Hl as (? & ?%require_sha256_digest_Ok & Hl).
  apply bind_Ok in Hl as (? & ?%require_sha256_digest_Ok & [= <-]).
  repeat split; try lia; auto with lotus.
Qed.

(** A validated policy identity holds stripped texts, so validating it again changes nothing. *)
Lemma make_NumericOutputPolicyLineage_canonical n v pr sc w r p :
  make_NumericOutputPolicyLineage n v pr sc w r = Ok p ->
  make_NumericOutputPolicyLineage (np_name p) (np_version p) (np_precision p) (np_scale p)
    (np_working_precision p) (np_rounding p) = Ok p.
Proof.
  intros Hp. unfold make_NumericOutputPolicyLineage in Hp.
  apply bind_Ok in Hp as (n' & [-> En]%require_nonblank_Ok & Hp).
  apply bind_Ok in Hp as (v' & [-> Ev]%require_nonblank_Ok & Hp).
  apply bind_Ok in Hp as (r' & [-> Er]%require_nonblank_Ok & Hp).
  case_if_in Hp E4; [done|]. case_if_in Hp E5; [done|]. case_if_in Hp E6; [done|].
  injection Hp as <-. unfold make_NumericOutputPolicyLineage, require_nonblank. simpl.
  rewrite !strip_idem, En, Ev, Er. simpl. by rewrite E4, E5, E6.
Qed.

(** The content hash of a payload does not depend on the order in which any of its mappings, at
    any depth, list their keys. *)
Theorem canonical_hash_key_order p q h :
  same_payload p q -> canonical_content_hash p = Ok h -> canonical_content_hash q = Ok h.
Proof.
  intros Hs Hh. unfold canonical_content_hash in *. apply bind_Ok in Hh as (j & Hj0 & [= <-]).
  destruct (same_payload_text p q Hs _ Hj0) as (j' & -> & Hj). simpl. by rewrite Hj.
Qed.

Lemma build_calculation_lineage_inv algorithm_id version prec_ input output np l :
  build_calculation_lineage algorithm_id version prec_ input output np = Ok l ->
  exists ih ch oh,
    canonical_content_hash input = Ok ih /\
    canonical_content_hash (calculation_payload (strip algorithm_id) version ih prec_ np) = Ok ch /\
    canonical_content_hash (output_payload_binding ch output) = Ok oh /\
    l = {| cl_algorithm_id := strip algorithm_id; cl_algorithm_version := version;
           cl_intermediate_precision := prec_; cl_input_content_hash := ih;
           cl_calculation_content_hash := ch; cl_output_content_hash := oh; cl_numeric_output_policy := np |}.
Proof.
  intros Hb. unfold build_calculation_lineage in Hb. do 3 (case_if_in Hb E; [done|]; clear E).
  apply bind_Ok in Hb as (ih & Hi & (ch & Hc & (oh & Ho & Hl)%bind_Ok)%bind_Ok).
  apply make_CalculationLineage_Ok in Hl as (_ & _ & _ & ->). exists ih, ch, oh. done.
Qed.

(** A receipt is accepted for the output it was built for. *)
Lemma lineage_binds_own algorithm_id version prec_ input output np l :
  build_calculation_lineage algorithm_id version prec_ input output np = Ok l ->
  calculation_lineage_binds_output l output = Ok true.
Proof.
  intros (ih & ch & oh & _ & Hc & Ho & ->)%build_calculation_lineage_inv.
  unfold calculation_lineage_binds_output; simpl. rewrite Hc. simpl.
  rewrite String.eqb_refl. simpl. rewrite Ho. simpl. by rewrite String.eqb_refl.
Qed.

(** A receipt that [build_calculation_lineage] returns is accepted by
    [calculation_lineage_binds_output] for the output it was built for; and an accepted output has
    the same canonical text as the bound one unless two different texts with one SHA-256 digest are
    at hand. *)
Theorem lineage_binds_exactly_its_output algorithm_id version prec_ input output np l :
  build_calculation_lineage algorithm_id version prec_ input output np = Ok l ->
  calculation_lineage_binds_output l output = Ok true /\
  (forall output', calculation_lineage_binds_output l output' = Ok true ->
     (exists j j', normalize_lineage_value (output_payload_binding (cl_calculation_content_hash l) output) = Ok j /\
        normalize_lineage_value (output_payload_binding (cl_calculation_content_hash l) output') = Ok j' /\
        json_dumps j = json_dumps j') \/
     (exists s t, s <> t /\ sha256_hexdigest s = sha256_hexdigest t)).
Proof.
  intros Hb. split; [exact (lineage_binds_own _ _ _ _ _ _ _ Hb)|].
  destruct (build_calculation_lineage_inv _ _ _ _ _ _ _ Hb) as (ih & ch & oh & _ & Hc & Ho & ->).
  intros output'. unfold calculation_lineage_binds_output; simpl. rewrite Hc. simpl.
  rewrite String.eqb_refl. simpl. intros (oh' & Ho' & [= <-%String.eqb_eq])%bind_Ok.
  apply bind_Ok in Ho as (j & Hj & [= Hjh]). apply bind_Ok in Ho' as (j' & Hj' & [= Hjh']).
  destruct (decide (json_dumps j = json_dumps j')) as [E|E]; [left; eauto|right].
  exists (json_dumps j), (json_dumps j'). split; [done|congruence].
Qed.

(** Rehydrating the persisted payload of a valid receipt gives the receipt back. *)
Theorem lineage_payload_roundtrip algorithm_id version prec_ ih ch oh np l :
  make_CalculationLineage algorithm_id version prec_ ih ch oh np = Ok l ->
  (forall p, np = Some p -> exists n v r, make_NumericOutputPolicyLineage n v (np_precision p) (np_scale p)
                                            (np_working_precision p) r = Ok p) ->
  calculation_lineage_from_payload (cl_lineage_payload l) = Ok (Some l).
Proof.
  intros Hl Hnp. pose proof Hl as Hm. apply make_CalculationLineage_Ok in Hm as (_ & _ & _ & El).
  rewrite El in Hl |- *. destruct np as [p|]; simpl.
  - destruct (Hnp p eq_refl) as (n & v & r & Hp).
    rewrite (make_NumericOutputPolicyLineage_canonical _ _ _ _ _ _ _ Hp). simpl. by rewrite Hl.
  - by rewrite Hl.
Qed.

(** Building a receipt succeeds whenever both payloads normalise. *)
Lemma build_calculation_lineage_total {hashing_ok : HashingOk} algorithm_id version prec_ input output np :
  truthy (strip algorithm_id) = true -> 0 < version -> 0 < prec_ ->
  is_ok (normalize_lineage_value input) = true -> is_ok (normalize_lineage_value output) = true ->
  exists l, build_calculation_lineage algorithm_id version prec_ input output np = Ok l.
Proof.
  intros Hid Hv Hpr Hin Hout. unfold build_calculation_lineage. rewrite Hid. simpl.
  rewrite (proj2 (Z.ltb_ge version 1)), (proj2 (Z.ltb_ge prec_ 1)) by lia.
  unfold canonical_content_hash.
  destruct (normalize_lineage_value input) as [ji|]; [|done].
  destruct (normalize_lineage_value output) as [jo|] eqn:Eo; [|done]. simpl.
  destruct np as [np|]; simpl; rewrite Eo; simpl; unfold make_CalculationLineage, require_sha256_digest;
    rewrite !digest_shape, strip_idem, Hid; simpl;
    rewrite (proj2 (Z.ltb_ge version 1)), (proj2 (Z.ltb_ge prec_ 1)) by lia; eauto.
Qed.
End LineageProperties.

(** ** Witnesses: a concrete digest function *)

Definition digest_zero : string := "0000000000000000000000000000000000000000000000000000000000000000".

Definition constant_hashing : Hashing := {| sha256_hexdigest := fun _ => digest_zero |}.

Lemma constant_hashing_ok : @HashingOk constant_hashing.
Proof. intros s. reflexivity. Qed.

Lemma canonical_hash_key_order_witness :
  @canonical_content_hash constant_hashing (PMap [("b", PDecimal (Finite (Dec 10 (-1)))); ("a", PInt 1)]) = Ok digest_zero.
Proof.
  apply (@canonical_hash_key_order constant_hashing
           (PMap [("a", PInt 1); ("b", PDecimal (Finite (Dec 10 (-1))))])).
  - eapply same_map with (es1 := [("a", PInt 1); ("b", PDecimal (Finite (Dec 10 (-1))))]).
    + repeat constructor.
    + constructor.
    + apply (bool_decide_unpack _). vm_compute. exact I.
  - vm_compute. reflexivity.
Defined.

Definition witness_policy : NumericOutputPolicyLineage :=
  {| np_name := "ledger"; np_version := "v1"; np_precision := 28; np_scale := 10;
     np_working_precision := 50; np_rounding := "ROUND_HALF_EVEN" |}.

Definition witness_lineage : CalculationLineage :=
  {| cl_algorithm_id := "position-history"; cl_algorithm_version := 1; cl_intermediate_precision := 28;
     cl_input_content_hash := digest_zero; cl_calculation_content_hash := digest_zero;
     cl_output_content_hash := digest_zero; cl_numeric_output_policy := Some witness_policy |}.

Lemma lineage_binds_exactly_its_output_witness :
  @calculation_lineage_binds_output constant_hashing witness_lineage (PMap [("quantity", PDecimal (Finite (dint 5)))]) = Ok true.
Proof.
  eapply (@lineage_binds_exactly_its_output constant_hashing " position-history " 1 28 (PMap [("x", PNone)])
            (PMap [("quantity", PDecimal (Finite (dint 5)))]) (Some witness_policy)).
  vm_compute. reflexivity.
Defined.

Lemma lineage_payload_roundtrip_witness :
  calculation_lineage_from_payload (cl_lineage_payload witness_lineage) = Ok (Some witness_lineage).
Proof.
  eapply (lineage_payload_roundtrip "position-history" 1 28 digest_zero digest_zero digest_zero (Some witness_policy)).
  - vm_compute. reflexivity.
  - intros p [= <-]. exists " ledger ", "v1", "ROUND_HALF_EVEN". vm_compute. reflexivity.
Defined.
