(* ===== verification/Registry.v ===== *)
(** * The transaction type registry

    [portfolio_common/domain/transaction/type_registry.py]: the canonical classification of every
    transaction type, and the lookups and derived sets that the calculators consult.  A Python
    [frozenset] of codes is the list of its members in registry order. *)

From Stdlib Require Import ZArith Lia String.
From stdpp Require Import base tactics list sorting strings.
From S2P Require Import Prelude.

#[local] Open Scope string_scope.

Definition SUPPORTED := "supported".
Definition LIMITED := "limited".
Definition DEFAULT_STRATEGY := "default_strategy".
Definition INTERNAL_GENERATED := "internal_generated".
Definition TARGET_NOT_IMPLEMENTED := "target_not_implemented".
Definition MIGRATION_ONLY := "migration_only".

Record TransactionTypeDefinition := {
  code : string;
  lifecycle_family : string;
  economic_role : string;
  position_effect : string;
  cash_effect : string;
  lot_behavior : string;
  settlement_behavior : string;
  income_behavior : string;
  default_cash_entry_mode : option string;
  calculation_support_status : string;
  production_booking_allowed : bool
}.

(** [_definition]: the keyword arguments in order, the defaulted ones last. *)
Definition definition (c family role position cash lot settlement income : string) (mode : option string)
  (status : string) (production : bool) : TransactionTypeDefinition :=
  {| code := c; lifecycle_family := family; economic_role := role; position_effect := position;
     cash_effect := cash; lot_behavior := lot; settlement_behavior := settlement;
     income_behavior := income; default_cash_entry_mode := mode;
     calculation_support_status := status; production_booking_allowed := production |}.

(** ** The literal entries, in source order *)

Definition def_BUY := definition "BUY"
  "trade" "security_buy" "increase" "outflow" "open_lot" "requires_cash_leg"
  "none" None SUPPORTED true.

Definition def_SELL := definition "SELL"
  "trade" "security_sell" "decrease" "inflow" "consume_lot" "requires_cash_leg"
  "none" None SUPPORTED true.

Definition def_FX_SPOT := definition "FX_SPOT"
  "fx" "fx_trade" "none" "linked_cash_legs" "none" "requires_cash_leg"
  "none" None SUPPORTED true.

Definition def_FX_FORWARD := definition "FX_FORWARD"
  "fx" "fx_forward" "none" "linked_cash_legs" "none" "requires_cash_leg"
  "none" None SUPPORTED true.

Definition def_FX_SWAP := definition "FX_SWAP"
  "fx" "fx_swap" "none" "linked_cash_legs" "none" "requires_cash_leg"
  "none" None SUPPORTED true.

Definition def_INTEREST := definition "INTEREST"
  "income" "income_receipt" "none" "inflow" "none" "requires_cash_leg"
  "interest_income" (Some "AUTO_GENERATE") SUPPORTED true.

Definition def_DIVIDEND := definition "DIVIDEND"
  "income" "income_receipt" "none" "inflow" "none" "requires_cash_leg"
  "distribution_income" (Some "AUTO_GENERATE") SUPPORTED true.

Definition def_DEPOSIT := definition "DEPOSIT"
  "cash_movement" "cash_deposit" "cash_increase" "inflow" "none" "cash_account_required"
  "none" None SUPPORTED true.

Definition def_WITHDRAWAL := definition "WITHDRAWAL"
  "cash_movement" "cash_withdrawal" "cash_decrease" "outflow" "none" "cash_account_required"
  "none" None SUPPORTED true.

Definition def_FEE := definition "FEE"
  "expense" "fee" "cash_decrease" "outflow" "none" "cash_account_required"
  "none" None LIMITED true.

Definition def_TAX := definition "TAX"
  "expense" "tax" "cash_decrease" "outflow" "none" "cash_account_required"
  "none" None LIMITED true.

Definition def_TRANSFER_IN := definition "TRANSFER_IN"
  "transfer" "security_transfer_in" "increase" "none" "preserve_or_restate_lot" "not_applicable"
  "none" None SUPPORTED true.

Definition def_TRANSFER_OUT := definition "TRANSFER_OUT"
  "transfer" "security_transfer_out" "decrease" "none" "preserve_or_consume_lot" "not_applicable"
  "none" None SUPPORTED true.

Definition def_MERGER_OUT := definition "MERGER_OUT"
  "corporate_action" "source_security_leg" "decrease" "none" "transfer_basis_out" "not_applicable"
  "none" None SUPPORTED true.

Definition def_MERGER_IN := definition "MERGER_IN"
  "corporate_action" "target_security_leg" "increase" "none" "transfer_basis_in" "not_applicable"
  "none" None SUPPORTED true.

Definition def_EXCHANGE_OUT := definition "EXCHANGE_OUT"
  "corporate_action" "source_security_leg" "decrease" "none" "transfer_basis_out" "not_applicable"
  "none" None SUPPORTED true.

Definition def_EXCHANGE_IN := definition "EXCHANGE_IN"
  "corporate_action" "target_security_leg" "increase" "none" "transfer_basis_in" "not_applicable"
  "none" None SUPPORTED true.

Definition def_REPLACEMENT_OUT := definition "REPLACEMENT_OUT"
  "corporate_action" "source_security_leg" "decrease" "none" "transfer_basis_out" "not_applicable"
  "none" None SUPPORTED true.

Definition def_REPLACEMENT_IN := definition "REPLACEMENT_IN"
  "corporate_action" "target_security_leg" "increase" "none" "transfer_basis_in" "not_applicable"
  "none" None SUPPORTED true.

Definition def_SPIN_OFF := definition "SPIN_OFF"
  "corporate_action" "source_security_reduction" "decrease" "none" "partial_basis_transfer" "not_applicable"
  "none" None SUPPORTED true.

Definition def_SPIN_IN := definition "SPIN_IN"
  "corporate_action" "target_security_leg" "increase" "none" "basis_allocation_in" "not_applicable"
  "none" None SUPPORTED true.

Definition def_DEMERGER_OUT := definition "DEMERGER_OUT"
  "corporate_action" "source_security_reduction" "decrease" "none" "partial_basis_transfer" "not_applicable"
  "none" None SUPPORTED true.

Definition def_DEMERGER_IN := definition "DEMERGER_IN"
  "corporate_action" "target_security_leg" "increase" "none" "basis_allocation_in" "not_applicable"
  "none" None SUPPORTED true.

Definition def_CASH_CONSIDERATION := definition "CASH_CONSIDERATION"
  "corporate_action" "cash_consideration" "none" "inflow" "none" "requires_cash_leg"
  "none" None SUPPORTED true.

Definition def_CASH_IN_LIEU := definition "CASH_IN_LIEU"
  "corporate_action" "fractional_cash_settlement" "decrease" "inflow" "consume_lot" "requires_cash_leg"
  "none" None SUPPORTED true.

Definition def_MATURITY_REDEMPTION := definition "MATURITY_REDEMPTION"
  "redemption" "maturity_redemption" "decrease" "inflow" "consume_lot" "requires_cash_leg"
  "none" (Some "AUTO_GENERATE") SUPPORTED true.

Definition def_CALL_REDEMPTION := definition "CALL_REDEMPTION"
  "redemption" "call_redemption" "decrease" "inflow" "consume_lot" "requires_cash_leg"
  "none" (Some "AUTO_GENERATE") SUPPORTED true.

Definition def_PARTIAL_REDEMPTION := definition "PARTIAL_REDEMPTION"
  "redemption" "partial_redemption" "decrease" "inflow" "consume_lot" "requires_cash_leg"
  "none" (Some "AUTO_GENERATE") SUPPORTED true.

Definition def_SPLIT := definition "SPLIT"
  "corporate_action" "quantity_restatement" "increase" "none" "quantity_restatement" "not_applicable"
  "none" None SUPPORTED true.

Definition def_REVERSE_SPLIT := definition "REVERSE_SPLIT"
  "corporate_action" "quantity_restatement" "decrease" "none" "quantity_restatement" "not_applicable"
  "none" None SUPPORTED true.

Definition def_CONSOLIDATION := definition "CONSOLIDATION"
  "corporate_action" "quantity_restatement" "decrease" "none" "quantity_restatement" "not_applicable"
  "none" None SUPPORTED true.

Definition def_BONUS_ISSUE := definition "BONUS_ISSUE"
  "corporate_action" "quantity_restatement" "increase" "none" "quantity_restatement" "not_applicable"
  "none" None SUPPORTED true.

Definition def_STOCK_DIVIDEND := definition "STOCK_DIVIDEND"
  "corporate_action" "quantity_restatement" "increase" "none" "quantity_restatement" "not_applicable"
  "none" None SUPPORTED true.

Definition def_RIGHTS_ANNOUNCE := definition "RIGHTS_ANNOUNCE"
  "rights" "rights_notification" "none" "none" "none" "not_applicable"
  "none" None DEFAULT_STRATEGY true.

Definition def_RIGHTS_ALLOCATE := definition "RIGHTS_ALLOCATE"
  "rights" "rights_allocation" "increase" "none" "open_rights_lot" "not_applicable"
  "none" None SUPPORTED true.

Definition def_RIGHTS_EXPIRE := definition "RIGHTS_EXPIRE"
  "rights" "rights_expiry" "decrease" "none" "consume_rights_lot" "not_applicable"
  "none" None SUPPORTED true.

Definition def_RIGHTS_ADJUSTMENT := definition "RIGHTS_ADJUSTMENT"
  "rights" "rights_adjustment" "none" "none" "policy_adjustment" "not_applicable"
  "none" None DEFAULT_STRATEGY true.

Definition def_RIGHTS_SELL := definition "RIGHTS_SELL"
  "rights" "rights_sale" "decrease" "inflow" "consume_rights_lot" "requires_cash_leg"
  "none" None SUPPORTED true.

Definition def_RIGHTS_SUBSCRIBE := definition "RIGHTS_SUBSCRIBE"
  "rights" "rights_subscription" "decrease" "outflow" "consume_rights_lot" "requires_cash_leg"
  "none" None SUPPORTED true.

Definition def_RIGHTS_OVERSUBSCRIBE := definition "RIGHTS_OVERSUBSCRIBE"
  "rights" "rights_oversubscription" "decrease" "outflow" "consume_rights_lot" "requires_cash_leg"
  "none" None SUPPORTED true.

Definition def_RIGHTS_REFUND := definition "RIGHTS_REFUND"
  "rights" "rights_refund" "none" "inflow" "none" "requires_cash_leg"
  "none" None SUPPORTED true.

Definition def_RIGHTS_SHARE_DELIVERY := definition "RIGHTS_SHARE_DELIVERY"
  "rights" "rights_share_delivery" "increase" "none" "open_lot" "not_applicable"
  "none" None SUPPORTED true.

Definition def_ADJUSTMENT := definition "ADJUSTMENT"
  "adjustment" "cash_or_position_adjustment" "mixed" "mixed" "policy_adjustment" "conditional"
  "none" None DEFAULT_STRATEGY true.

Definition def_FX_CASH_SETTLEMENT_BUY := definition "FX_CASH_SETTLEMENT_BUY"
  "fx" "generated_fx_cash_leg" "cash_increase" "inflow" "none" "cash_account_required"
  "none" None INTERNAL_GENERATED false.

Definition def_FX_CASH_SETTLEMENT_SELL := definition "FX_CASH_SETTLEMENT_SELL"
  "fx" "generated_fx_cash_leg" "cash_decrease" "outflow" "none" "cash_account_required"
  "none" None INTERNAL_GENERATED false.

Definition def_OTHER := definition "OTHER"
  "migration" "unknown_legacy_type" "unknown" "unknown" "unknown" "unknown"
  "none" None MIGRATION_ONLY false.

Definition registry_entries : list (string * TransactionTypeDefinition) := [
  ("BUY", def_BUY);
  ("SELL", def_SELL);
  ("FX_SPOT", def_FX_SPOT);
  ("FX_FORWARD", def_FX_FORWARD);
  ("FX_SWAP", def_FX_SWAP);
  ("INTEREST", def_INTEREST);
  ("DIVIDEND", def_DIVIDEND);
  ("DEPOSIT", def_DEPOSIT);
  ("WITHDRAWAL", def_WITHDRAWAL);
  ("FEE", def_FEE);
  ("TAX", def_TAX);
  ("TRANSFER_IN", def_TRANSFER_IN);
  ("TRANSFER_OUT", def_TRANSFER_OUT);
  ("MERGER_OUT", def_MERGER_OUT);
  ("MERGER_IN", def_MERGER_IN);
  ("EXCHANGE_OUT", def_EXCHANGE_OUT);
  ("EXCHANGE_IN", def_EXCHANGE_IN);
  ("REPLACEMENT_OUT", def_REPLACEMENT_OUT);
  ("REPLACEMENT_IN", def_REPLACEMENT_IN);
  ("SPIN_OFF", def_SPIN_OFF);
  ("SPIN_IN", def_SPIN_IN);
  ("DEMERGER_OUT", def_DEMERGER_OUT);
  ("DEMERGER_IN", def_DEMERGER_IN);
  ("CASH_CONSIDERATION", def_CASH_CONSIDERATION);
  ("CASH_IN_LIEU", def_CASH_IN_LIEU);
  ("MATURITY_REDEMPTION", def_MATURITY_REDEMPTION);
  ("CALL_REDEMPTION", def_CALL_REDEMPTION);
  ("PARTIAL_REDEMPTION", def_PARTIAL_REDEMPTION);
  ("SPLIT", def_SPLIT);
  ("REVERSE_SPLIT", def_REVERSE_SPLIT);
  ("CONSOLIDATION", def_CONSOLIDATION);
  ("BONUS_ISSUE", def_BONUS_ISSUE);
  ("STOCK_DIVIDEND", def_STOCK_DIVIDEND);
  ("RIGHTS_ANNOUNCE", def_RIGHTS_ANNOUNCE);
  ("RIGHTS_ALLOCATE", def_RIGHTS_ALLOCATE);
  ("RIGHTS_EXPIRE", def_RIGHTS_EXPIRE);
  ("RIGHTS_ADJUSTMENT", def_RIGHTS_ADJUSTMENT);
  ("RIGHTS_SELL", def_RIGHTS_SELL);
  ("RIGHTS_SUBSCRIBE", def_RIGHTS_SUBSCRIBE);
  ("RIGHTS_OVERSUBSCRIBE", def_RIGHTS_OVERSUBSCRIBE);
  ("RIGHTS_REFUND", def_RIGHTS_REFUND);
  ("RIGHTS_SHARE_DELIVERY", def_RIGHTS_SHARE_DELIVERY);
  ("ADJUSTMENT", def_ADJUSTMENT);
  ("FX_CASH_SETTLEMENT_BUY", def_FX_CASH_SETTLEMENT_BUY);
  ("FX_CASH_SETTLEMENT_SELL", def_FX_CASH_SETTLEMENT_SELL);
  ("OTHER", def_OTHER)].

Definition TARGET_NOT_IMPLEMENTED_TYPES : list (string * (string * string)) := [
  ("AMORTIZATION", ("redemption", "principal_amortization"));
  ("ACCRETION", ("redemption", "discount_accretion"));
  ("CONVERSION_EVENT", ("conversion", "parent_conversion_event"));
  ("CONVERSION_OUT", ("conversion", "source_security_leg"));
  ("CONVERSION_IN", ("conversion", "target_security_leg"));
  ("EXERCISE_OUT", ("conversion", "source_contract_leg"));
  ("EXERCISE_IN", ("conversion", "target_security_leg"));
  ("STRIKE_PAYMENT", ("conversion", "strike_cash_payment"))].

Definition target_definition (e : string * (string * string)) : TransactionTypeDefinition :=
  definition (fst e) (fst (snd e)) (snd (snd e))
    "target_model_required" "target_model_required" "target_model_required" "target_model_required"
    "none" None TARGET_NOT_IMPLEMENTED false.

(** The loop that adds the target-only types to [_REGISTRY]. *)
Definition full_registry : list (string * TransactionTypeDefinition) :=
  fold_left (fun r e => od_set (fst e) (target_definition e) r) TARGET_NOT_IMPLEMENTED_TYPES registry_entries.

(** [dict(sorted(_REGISTRY.items()))]; the keys are distinct, so the definitions are never compared. *)
Definition TRANSACTION_TYPE_REGISTRY : list (string * TransactionTypeDefinition) :=
  Eval vm_compute in stable_sort (fun a b => string_leb (fst a) (fst b)) full_registry.

Definition codes_where (p : TransactionTypeDefinition -> bool) : list string :=
  map fst (List.filter (fun e => p (snd e)) TRANSACTION_TYPE_REGISTRY).

Definition TRANSACTION_TYPE_CODES : list string := map fst TRANSACTION_TYPE_REGISTRY.

Definition PRODUCTION_BOOKING_TRANSACTION_TYPES : list string := codes_where production_booking_allowed.

Definition INCOME_RECOGNITION_TRANSACTION_TYPES : list string :=
  codes_where (fun d => production_booking_allowed d && negb (String.eqb (income_behavior d) "none")).

Definition get_transaction_type_definition (c : string) : option TransactionTypeDefinition :=
  od_get (normalize_code (Some c)) TRANSACTION_TYPE_REGISTRY.

Definition is_registered_transaction_type (c : string) : bool :=
  match get_transaction_type_definition c with Some _ => true | None => false end.

Definition is_production_booking_transaction_type (c : string) : bool :=
  match get_transaction_type_definition c with Some d => production_booking_allowed d | None => false end.

(** The blank-free, lowercased arguments of the [production_transaction_types_for_*] selectors. *)
Definition normalized_selectors (xs : list string) : list string :=
  List.filter truthy (map (fun x => lower (strip x)) xs).

Definition production_transaction_types_for_lifecycle_families (families : list string) : list string :=
  codes_where (fun d => production_booking_allowed d && in_set (lifecycle_family d) (normalized_selectors families)).

Definition production_transaction_types_for_position_effects (effects : list string) : list string :=
  codes_where (fun d => production_booking_allowed d && in_set (position_effect d) (normalized_selectors effects)).

Definition production_transaction_types_for_lot_behaviors (behaviors : list string) : list string :=
  codes_where (fun d => production_booking_allowed d && in_set (lot_behavior d) (normalized_selectors behaviors)).

Definition production_transaction_types_for_generated_cash_legs : list string :=
  codes_where (fun d => production_booking_allowed d
    && in_set (lifecycle_family d) ["trade"; "income"; "redemption"]
    && in_set (cash_effect d) ["inflow"; "outflow"]
    && String.eqb (settlement_behavior d) "requires_cash_leg").

Definition require_registered_transaction_type (c : string) : result TransactionTypeDefinition :=
  let normalized := normalize_code (Some c) in
  match od_get normalized TRANSACTION_TYPE_REGISTRY with
  | Some d => Ok d
  | None => Raise (ValueError ("Unknown transaction type: " +:+ or_text (Some normalized) "<blank>"))
  end.

(** ** Properties *)

Definition registry_order (a b : string * TransactionTypeDefinition) : Prop := string_leb (fst a) (fst b) = true.

Lemma registry_is_sorted_copy :
  TRANSACTION_TYPE_REGISTRY = stable_sort (fun a b => string_leb (fst a) (fst b)) full_registry.
Proof. vm_compute. reflexivity. Qed.

Lemma registry_keys_NoDup : NoDup (TRANSACTION_TYPE_REGISTRY.*1).
Proof. apply (bool_decide_unpack _). vm_compute. exact I. Qed.

Lemma registry_entry_consistent k d :
  (k, d) ∈ TRANSACTION_TYPE_REGISTRY -> code d = k /\ normalize_code (Some k) = k /\ k <> "".
Proof.
  assert (H : Forall (fun e => code (snd e) = fst e /\ normalize_code (Some (fst e)) = fst e /\ fst e <> "")
                TRANSACTION_TYPE_REGISTRY).
  { apply (bool_decide_unpack _). vm_compute. exact I. }
  rewrite Forall_forall in H. intros Hk. exact (H _ Hk).
Qed.

Lemma get_definition_elem c d :
  get_transaction_type_definition c = Some d <-> (normalize_code (Some c), d) ∈ TRANSACTION_TYPE_REGISTRY.
Proof.
  split; [apply od_get_elem|]. apply od_get_of_elem, registry_keys_NoDup.
Qed.

Lemma codes_where_elem p c :
  c ∈ codes_where p <-> exists d, (c, d) ∈ TRANSACTION_TYPE_REGISTRY /\ p d = true.
Proof.
  unfold codes_where. rewrite list_elem_of_In, in_map_iff. split.
  - intros ([c' d] & <- & [H1 H2]%filter_In). exists d. by rewrite list_elem_of_In.
  - intros (d & Hd%list_elem_of_In & Hp). exists (c, d). rewrite filter_In. done.
Qed.

Lemma registry_lookup_elem k d : (k, d) ∈ TRANSACTION_TYPE_REGISTRY -> get_transaction_type_definition k = Some d.
Proof. intros H. apply get_definition_elem. by destruct (registry_entry_consistent _ _ H) as (_ & -> & _). Qed.

Lemma registry_support k d :
  (k, d) ∈ TRANSACTION_TYPE_REGISTRY ->
  production_booking_allowed d = in_set (calculation_support_status d) [SUPPORTED; LIMITED; DEFAULT_STRATEGY].
Proof.
  assert (H : Forall (fun e => production_booking_allowed (snd e) =
              in_set (calculation_support_status (snd e)) [SUPPORTED; LIMITED; DEFAULT_STRATEGY])
                TRANSACTION_TYPE_REGISTRY).
  { apply (bool_decide_unpack _). vm_compute. exact I. }
  rewrite Forall_forall in H. exact (H (k, d)).
Qed.

(** The registry holds each of its codes once, in increasing order, every entry carries its own
    key as code, and a lookup is insensitive to case and surrounding blanks: whatever spelling is
    asked for, the definition found is the one whose code is the normalised spelling. *)
Theorem registry_lookup_canonical :
  StronglySorted registry_order TRANSACTION_TYPE_REGISTRY /\ NoDup TRANSACTION_TYPE_CODES /\
  TRANSACTION_TYPE_REGISTRY ≡ₚ full_registry /\
  (forall c d, get_transaction_type_definition c = Some d -> code d = normalize_code (Some c)) /\
  (forall c, get_transaction_type_definition (normalize_code (Some c)) = get_transaction_type_definition c) /\
  (forall k d, (k, d) ∈ TRANSACTION_TYPE_REGISTRY -> get_transaction_type_definition k = Some d).
Proof.
  split; [|split; [|split; [|split; [|split]]]].
  - rewrite registry_is_sorted_copy. apply (stable_sort_sorted _ (fun x y => string_leb_total (fst x) (fst y))
      (fun x y z => string_leb_trans (fst x) (fst y) (fst z))).
  - exact registry_keys_NoDup.
  - rewrite registry_is_sorted_copy. apply stable_sort_perm.
  - intros c d H%get_definition_elem. by apply registry_entry_consistent in H as [-> _].
  - intros c. unfold get_transaction_type_definition. by rewrite normalize_code_idem.
  - apply registry_lookup_elem.
Qed.

#[local] Strategy opaque [TRANSACTION_TYPE_REGISTRY codes_where].

Lemma is_production_get c d :
  get_transaction_type_definition c = Some d -> is_production_booking_transaction_type c = production_booking_allowed d.
Proof. unfold is_production_booking_transaction_type. by intros ->. Qed.

Lemma position_effects_elem c effects :
  c ∈ production_transaction_types_for_position_effects effects <->
  exists d, (c, d) ∈ TRANSACTION_TYPE_REGISTRY /\ production_booking_allowed d = true /\
    In (position_effect d) (normalized_selectors effects).
Proof.
  unfold production_transaction_types_for_position_effects. rewrite codes_where_elem.
  apply exist_proper. intros d. by rewrite andb_true_iff, in_set_true.
Qed.

(** A type may be booked in production exactly when its calculation support is [supported],
    [limited] or [default_strategy]; and only bookable types enter the derived selections, whatever
    the spelling of the selectors. *)
Theorem production_types_are_supported :
  (forall c d, get_transaction_type_definition c = Some d ->
     is_production_booking_transaction_type c =
     in_set (calculation_support_status d) [SUPPORTED; LIMITED; DEFAULT_STRATEGY]) /\
  (forall c effects, c ∈ production_transaction_types_for_position_effects effects <->
     exists d, get_transaction_type_definition c = Some d /\ code d = c /\
       is_production_booking_transaction_type c = true /\
       In (position_effect d) (normalized_selectors effects)) /\
  (forall c, c ∈ production_transaction_types_for_generated_cash_legs ->
     is_production_booking_transaction_type c = true).
Proof.
  split; [|split].
  - intros c d Hd. rewrite (is_production_get _ _ Hd). apply get_definition_elem in Hd.
    exact (registry_support _ _ Hd).
  - intros c effects. rewrite position_effects_elem. split.
    + intros (d & Hd & H1 & H2). exists d. pose proof (registry_lookup_elem _ _ Hd) as Hg.
      rewrite (is_production_get _ _ Hg). destruct (registry_entry_consistent _ _ Hd) as (Hc & _). auto.
    + intros (d & Hd & Hc & H1 & H2). rewrite (is_production_get _ _ Hd) in H1. exists d. split; [|auto].
      apply get_definition_elem in Hd. destruct (registry_entry_consistent _ _ Hd) as (E & _). congruence.
  - intros c Hc. apply codes_where_elem in Hc as (d & Hd & Hp).
    rewrite (is_production_get _ _ (registry_lookup_elem _ _ Hd)).
    destruct (production_booking_allowed d); [reflexivity|discriminate Hp].
Qed.
