(* ===== verification/Transactions.v ===== *)
(** * Booked transactions

    The canonical booked transaction ([transaction/booked.py]), the resolution of its processing type
    ([transaction/processing_type.py]), the corporate-action classification and ordering policies
    ([transaction/corporate_action/]) and the INTEREST economics shared by the calculators.

    The [Decimal] fields of a booked transaction are finite: they come from [NUMERIC] columns through
    the persistence precision policy, which rejects [NaN] and infinities. *)

From Stdlib Require Import ZArith Lia QArith String.
From stdpp Require Import base tactics list strings.
From S2P Require Import Prelude PyDecimal DecimalFacts PyTime Precision Lineage.

#[local] Open Scope string_scope.
#[local] Open Scope Z_scope.

(** ** [BookedTransaction] *)

Record BookedTransaction := {
  tx_transaction_id : string;
  tx_portfolio_id : string;
  tx_instrument_id : string;
  tx_security_id : string;
  tx_transaction_date : datetime;
  tx_transaction_type : string;
  tx_quantity : decimal;
  tx_price : decimal;
  tx_gross_transaction_amount : decimal;
  tx_trade_currency : string;
  tx_currency : string;
  tx_trade_fee : option decimal;
  tx_brokerage : option decimal;
  tx_stamp_duty : option decimal;
  tx_exchange_fee : option decimal;
  tx_gst : option decimal;
  tx_other_fees : option decimal;
  tx_settlement_date : option datetime;
  tx_net_cost : option decimal;
  tx_gross_cost : option decimal;
  tx_realized_gain_loss : option decimal;
  tx_transaction_fx_rate : option decimal;
  tx_transaction_fx_rate_origin : option string;
  tx_net_cost_local : option decimal;
  tx_realized_gain_loss_local : option decimal;
  tx_economic_event_id : option string;
  tx_linked_transaction_group_id : option string;
  tx_calculation_policy_id : option string;
  tx_calculation_policy_version : option string;
  tx_source_system : option string;
  tx_source_record_id : option string;
  tx_source_batch_id : option string;
  tx_observed_at : option datetime;
  tx_cash_entry_mode : option string;
  tx_external_cash_transaction_id : option string;
  tx_settlement_cash_account_id : option string;
  tx_settlement_cash_instrument_id : option string;
  tx_movement_direction : option string;
  tx_originating_transaction_id : option string;
  tx_originating_transaction_type : option string;
  tx_adjustment_reason : option string;
  tx_link_type : option string;
  tx_reconciliation_key : option string;
  tx_interest_direction : option string;
  tx_withholding_tax_amount : option decimal;
  tx_other_interest_deductions_amount : option decimal;
  tx_net_interest_amount : option decimal;
  tx_component_type : option string;
  tx_component_id : option string;
  tx_linked_component_ids : option (list string);
  tx_fx_cash_leg_role : option string;
  tx_linked_fx_cash_leg_id : option string;
  tx_settlement_status : option string;
  tx_pair_base_currency : option string;
  tx_pair_quote_currency : option string;
  tx_fx_rate_quote_convention : option string;
  tx_buy_currency : option string;
  tx_sell_currency : option string;
  tx_buy_amount : option decimal;
  tx_sell_amount : option decimal;
  tx_contract_rate : option decimal;
  tx_fx_contract_id : option string;
  tx_fx_contract_open_transaction_id : option string;
  tx_fx_contract_close_transaction_id : option string;
  tx_settlement_of_fx_contract_id : option string;
  tx_swap_event_id : option string;
  tx_near_leg_group_id : option string;
  tx_far_leg_group_id : option string;
  tx_spot_exposure_model : option string;
  tx_fx_realized_pnl_mode : option string;
  tx_allocated_cost_basis_local : option decimal;
  tx_allocated_cost_basis_base : option decimal;
  tx_realized_capital_pnl_local : option decimal;
  tx_realized_fx_pnl_local : option decimal;
  tx_realized_total_pnl_local : option decimal;
  tx_realized_capital_pnl_base : option decimal;
  tx_realized_fx_pnl_base : option decimal;
  tx_realized_total_pnl_base : option decimal;
  tx_parent_transaction_reference : option string;
  tx_linked_parent_event_id : option string;
  tx_parent_event_reference : option string;
  tx_child_role : option string;
  tx_child_sequence_hint : option Z;
  tx_dependency_reference_ids : option (list string);
  tx_source_instrument_id : option string;
  tx_target_instrument_id : option string;
  tx_source_transaction_reference : option string;
  tx_target_transaction_reference : option string;
  tx_external_destination_reference : option string;
  tx_linked_cash_transaction_id : option string;
  tx_redemption_price_type : option string;
  tx_old_factor : option decimal;
  tx_new_factor : option decimal;
  tx_principal_proceeds_local : option decimal;
  tx_accrued_interest_proceeds_local : option decimal;
  tx_embedded_fee_amount_local : option decimal;
  tx_embedded_tax_amount_local : option decimal;
  tx_has_synthetic_flow : option bool;
  tx_synthetic_flow_effective_date : option date;
  tx_synthetic_flow_amount_local : option decimal;
  tx_synthetic_flow_currency : option string;
  tx_synthetic_flow_amount_base : option decimal;
  tx_synthetic_flow_fx_rate_to_base : option decimal;
  tx_synthetic_flow_price_used : option decimal;
  tx_synthetic_flow_quantity_used : option decimal;
  tx_synthetic_flow_valuation_method : option string;
  tx_synthetic_flow_classification : option string;
  tx_synthetic_flow_price_source : option string;
  tx_synthetic_flow_fx_source : option string;
  tx_synthetic_flow_source : option string;
  tx_created_at : option datetime;
  tx_epoch : option Z;
  tx_tenant_id : option string;
  tx_calculation_lineage : option CalculationLineage;
  tx_lot_restatement : option (list (string * decimal));
  tx_source_lot_order_quantity : option decimal;
  tx_source_lot_original_quantity : option decimal
}.

(** The keyword constructor with the defaults of the dataclass. *)
Definition booked_transaction (transaction_id : string) (portfolio_id : string) (instrument_id :
  string) (security_id : string) (transaction_date : datetime) (transaction_type : string) (quantity :
  decimal) (price : decimal) (gross_transaction_amount : decimal) (trade_currency : string) (currency
  : string) : BookedTransaction := {|
  tx_transaction_id := transaction_id;
  tx_portfolio_id := portfolio_id;
  tx_instrument_id := instrument_id;
  tx_security_id := security_id;
  tx_transaction_date := transaction_date;
  tx_transaction_type := transaction_type;
  tx_quantity := quantity;
  tx_price := price;
  tx_gross_transaction_amount := gross_transaction_amount;
  tx_trade_currency := trade_currency;
  tx_currency := currency;
  tx_trade_fee := Some dzero;
  tx_brokerage := None;
  tx_stamp_duty := None;
  tx_exchange_fee := None;
  tx_gst := None;
  tx_other_fees := None;
  tx_settlement_date := None;
  tx_net_cost := None;
  tx_gross_cost := None;
  tx_realized_gain_loss := None;
  tx_transaction_fx_rate := None;
  tx_transaction_fx_rate_origin := None;
  tx_net_cost_local := None;
  tx_realized_gain_loss_local := None;
  tx_economic_event_id := None;
  tx_linked_transaction_group_id := None;
  tx_calculation_policy_id := None;
  tx_calculation_policy_version := None;
  tx_source_system := None;
  tx_source_record_id := None;
  tx_source_batch_id := None;
  tx_observed_at := None;
  tx_cash_entry_mode := None;
  tx_external_cash_transaction_id := None;
  tx_settlement_cash_account_id := None;
  tx_settlement_cash_instrument_id := None;
  tx_movement_direction := None;
  tx_originating_transaction_id := None;
  tx_originating_transaction_type := None;
  tx_adjustment_reason := None;
  tx_link_type := None;
  tx_reconciliation_key := None;
  tx_interest_direction := None;
  tx_withholding_tax_amount := None;
  tx_other_interest_deductions_amount := None;
  tx_net_interest_amount := None;
  tx_component_type := None;
  tx_component_id := None;
  tx_linked_component_ids := None;
  tx_fx_cash_leg_role := None;
  tx_linked_fx_cash_leg_id := None;
  tx_settlement_status := None;
  tx_pair_base_currency := None;
  tx_pair_quote_currency := None;
  tx_fx_rate_quote_convention := None;
  tx_buy_currency := None;
  tx_sell_currency := None;
  tx_buy_amount := None;
  tx_sell_amount := None;
  tx_contract_rate := None;
  tx_fx_contract_id := None;
  tx_fx_contract_open_transaction_id := None;
  tx_fx_contract_close_transaction_id := None;
  tx_settlement_of_fx_contract_id := None;
  tx_swap_event_id := None;
  tx_near_leg_group_id := None;
  tx_far_leg_group_id := None;
  tx_spot_exposure_model := None;
  tx_fx_realized_pnl_mode := None;
  tx_allocated_cost_basis_local := None;
  tx_allocated_cost_basis_base := None;
  tx_realized_capital_pnl_local := None;
  tx_realized_fx_pnl_local := None;
  tx_realized_total_pnl_local := None;
  tx_realized_capital_pnl_base := None;
  tx_realized_fx_pnl_base := None;
  tx_realized_total_pnl_base := None;
  tx_parent_transaction_reference := None;
  tx_linked_parent_event_id := None;
  tx_parent_event_reference := None;
  tx_child_role := None;
  tx_child_sequence_hint := None;
  tx_dependency_reference_ids := None;
  tx_source_instrument_id := None;
  tx_target_instrument_id := None;
  tx_source_transaction_reference := None;
  tx_target_transaction_reference := None;
  tx_external_destination_reference := None;
  tx_linked_cash_transaction_id := None;
  tx_redemption_price_type := None;
  tx_old_factor := None;
  tx_new_factor := None;
  tx_principal_proceeds_local := None;
  tx_accrued_interest_proceeds_local := None;
  tx_embedded_fee_amount_local := None;
  tx_embedded_tax_amount_local := None;
  tx_has_synthetic_flow := None;
  tx_synthetic_flow_effective_date := None;
  tx_synthetic_flow_amount_local := None;
  tx_synthetic_flow_currency := None;
  tx_synthetic_flow_amount_base := None;
  tx_synthetic_flow_fx_rate_to_base := None;
  tx_synthetic_flow_price_used := None;
  tx_synthetic_flow_quantity_used := None;
  tx_synthetic_flow_valuation_method := None;
  tx_synthetic_flow_classification := None;
  tx_synthetic_flow_price_source := None;
  tx_synthetic_flow_fx_source := None;
  tx_synthetic_flow_source := None;
  tx_created_at := None;
  tx_epoch := None;
  tx_tenant_id := None;
  tx_calculation_lineage := None;
  tx_lot_restatement := None;
  tx_source_lot_order_quantity := None;
  tx_source_lot_original_quantity := None
|}.

(** ** Control codes

    [portfolio_common/domain/transaction_control_codes.py]. *)

Definition normalize_transaction_control_code (value : option string) : string := normalize_code value.

Definition normalize_optional_transaction_control_code (value : option string) : option string :=
  match value with None => None | Some v => Some (normalize_transaction_control_code (Some v)) end.

(** ** Processing type

    [transaction/processing_type.py]; the [Protocol] is a class with one instance per record. *)

Class ProcessingTypeSource (T : Type) := {
  pt_transaction_type : T -> string;
  pt_component_type : T -> option string
}.

#[export] Instance booked_processing_source : ProcessingTypeSource BookedTransaction :=
  {| pt_transaction_type := tx_transaction_type; pt_component_type := tx_component_type |}.

Definition FX_COMPONENT_PROCESSING_TYPES : list string :=
  ["FX_CONTRACT_OPEN"; "FX_CONTRACT_CLOSE"; "FX_CASH_SETTLEMENT_BUY"; "FX_CASH_SETTLEMENT_SELL"].

Definition NON_CASHFLOW_PROCESSING_TYPES : list string := ["FX_CONTRACT_OPEN"; "FX_CONTRACT_CLOSE"].

Definition normalize_processing_type (value : option string) : string := normalize_transaction_control_code value.

Definition resolve_effective_processing_transaction_type `{ProcessingTypeSource T} (t : T) : string :=
  let component_type := normalize_processing_type (pt_component_type t) in
  if in_set component_type FX_COMPONENT_PROCESSING_TYPES then component_type
  else normalize_processing_type (Some (pt_transaction_type t)).

Definition requires_cashflow_processing `{ProcessingTypeSource T} (t : T) : bool :=
  negb (in_set (resolve_effective_processing_transaction_type t) NON_CASHFLOW_PROCESSING_TYPES).

(** ** Corporate-action classification

    [transaction/corporate_action/classification.py]. *)

Definition BASIS_TRANSFER_CORPORATE_ACTION_TYPES : list string :=
  ["SPIN_OFF"; "SPIN_IN"; "DEMERGER_OUT"; "DEMERGER_IN"; "CASH_CONSIDERATION"].
Definition QUANTITY_TRANSFER_CORPORATE_ACTION_PAIRS : list (string * string) :=
  [("MERGER_OUT", "MERGER_IN"); ("EXCHANGE_OUT", "EXCHANGE_IN"); ("REPLACEMENT_OUT", "REPLACEMENT_IN")].
Definition SOURCE_QUANTITY_TRANSFER_TRANSACTION_TYPES : list string :=
  map fst QUANTITY_TRANSFER_CORPORATE_ACTION_PAIRS.
Definition TARGET_QUANTITY_TRANSFER_TRANSACTION_TYPES : list string :=
  map snd QUANTITY_TRANSFER_CORPORATE_ACTION_PAIRS.
Definition FRACTIONAL_CASH_BASIS_TRANSACTION_TYPES : list string := ["CASH_IN_LIEU"].
Definition RECONCILABLE_CORPORATE_ACTION_TYPES : list string :=
  (BASIS_TRANSFER_CORPORATE_ACTION_TYPES ++ SOURCE_QUANTITY_TRANSFER_TRANSACTION_TYPES ++
   TARGET_QUANTITY_TRANSFER_TRANSACTION_TYPES ++ FRACTIONAL_CASH_BASIS_TRANSACTION_TYPES ++ ["ADJUSTMENT"])%list.
Definition MANIFEST_GOVERNED_CORPORATE_ACTION_TYPES : list string :=
  (RECONCILABLE_CORPORATE_ACTION_TYPES ++ ["FEE"; "TAX"])%list.
Definition SOURCE_BASIS_TRANSFER_TRANSACTION_TYPES : list string := ["SPIN_OFF"; "DEMERGER_OUT"].
Definition TARGET_BASIS_TRANSFER_TRANSACTION_TYPES : list string := ["SPIN_IN"; "DEMERGER_IN"].
Definition CASH_CONSIDERATION_TRANSACTION_TYPE : string := "CASH_CONSIDERATION".
Definition SAME_INSTRUMENT_CORPORATE_ACTION_TYPES : list string :=
  ["SPLIT"; "REVERSE_SPLIT"; "CONSOLIDATION"; "BONUS_ISSUE"; "STOCK_DIVIDEND"].

Definition normalize_corporate_action_transaction_type (t : option string) : string := normalize_code t.

Definition is_reconcilable_corporate_action (t : option string) : bool :=
  in_set (normalize_corporate_action_transaction_type t) RECONCILABLE_CORPORATE_ACTION_TYPES.

Definition is_manifest_governed_corporate_action (t : option string) : bool :=
  in_set (normalize_corporate_action_transaction_type t) MANIFEST_GOVERNED_CORPORATE_ACTION_TYPES.

(** ** Corporate-action ordering

    [transaction/corporate_action/ordering.py]. *)

Class CorporateActionOrderable (T : Type) := {
  ca_transaction_id : T -> string;
  ca_transaction_type : T -> string;
  ca_child_sequence_hint : T -> option Z;
  ca_target_instrument_id : T -> option string
}.

#[export] Instance booked_orderable : CorporateActionOrderable BookedTransaction :=
  {| ca_transaction_id := tx_transaction_id; ca_transaction_type := tx_transaction_type;
     ca_child_sequence_hint := tx_child_sequence_hint; ca_target_instrument_id := tx_target_instrument_id |}.

Definition SOURCE_OUT_RANK_TYPES : list string :=
  (SOURCE_BASIS_TRANSFER_TRANSACTION_TYPES ++ ["RIGHTS_ANNOUNCE"; "RIGHTS_ALLOCATE"])%list.
Definition TARGET_IN_RANK_TYPES : list string :=
  (TARGET_BASIS_TRANSFER_TRANSACTION_TYPES ++
   ["RIGHTS_SUBSCRIBE"; "RIGHTS_OVERSUBSCRIBE"; "RIGHTS_SELL"; "RIGHTS_EXPIRE"; "RIGHTS_ADJUSTMENT"])%list.
Definition CASH_CONSIDERATION_RANK_TYPES : list string :=
  [CASH_CONSIDERATION_TRANSACTION_TYPE; "RIGHTS_SHARE_DELIVERY"].

(** The five key groups of the dictionary are disjoint, so their order does not matter. *)
Definition DEPENDENCY_RANK_BY_TYPE : list (string * Z) :=
  (map (fun k => (k, 0)) SOURCE_OUT_RANK_TYPES ++ map (fun k => (k, 1)) TARGET_IN_RANK_TYPES ++
   map (fun k => (k, 2)) CASH_CONSIDERATION_RANK_TYPES ++ [("RIGHTS_REFUND", 3)] ++
   map (fun k => (k, 5)) SAME_INSTRUMENT_CORPORATE_ACTION_TYPES)%list.

Definition corporate_action_dependency_rank `{CorporateActionOrderable T} (t : T) : Z :=
  od_get_default 4 (normalize_corporate_action_transaction_type (Some (ca_transaction_type t)))
    DEPENDENCY_RANK_BY_TYPE.

Definition corporate_action_target_order_key `{CorporateActionOrderable T} (t : T) : Z * string :=
  (match ca_child_sequence_hint t with Some hint => hint | None => 2147483647 end,
   or_text (ca_target_instrument_id t) "").

(** [-quantity] is evaluated in the ambient context of the caller. *)
Definition same_time_restatement_order_key `{CorporateActionOrderable T} (t : T) (quantity : decimal)
  : result (option (decimal * string)) :=
  if in_set (normalize_corporate_action_transaction_type (Some (ca_transaction_type t)))
       SAME_INSTRUMENT_CORPORATE_ACTION_TYPES
  then q ← dneg default_context quantity; Ok (Some (q, ca_transaction_id t))
  else Ok None.

(** ** Interest economics

    [portfolio_common/domain/transaction/interest_economics.py]. *)

Definition INTEREST_WORKING_PRECISION : Z := 64.

Definition interest_context : context := make_context INTEREST_WORKING_PRECISION ROUND_HALF_EVEN.

(** [value or Decimal(0)] for an optional decimal. *)
Definition decimal_or_zero (v : option decimal) : decimal := match v with Some d => dor d dzero | None => dzero end.

Definition calculate_interest_pre_fee_net (gross : decimal) (withholding other : option decimal) : result decimal :=
  net ← dsub interest_context gross (decimal_or_zero withholding);
  dsub interest_context net (decimal_or_zero other).

Definition has_negative_interest_pre_fee_net (transaction_type : string) (gross : decimal)
  (withholding other : option decimal) : result bool :=
  if negb (String.eqb (upper (strip transaction_type)) "INTEREST") then Ok false else
  net ← calculate_interest_pre_fee_net gross withholding other;
  Ok (dltb net dzero).

(** ** Properties *)

Definition opt_ledger (v : option decimal) (n : Z) : Prop :=
  match v with Some d => ledger d n | None => n = 0 end.

Lemma decimal_or_zero_ledger v n : opt_ledger v n -> ledger (decimal_or_zero v) n.
Proof.
  destruct v as [d|]; simpl; [|intros ->; apply ledger_dzero]. intros H. unfold dor.
  rewrite (ledger_is_zero _ _ H). destruct (Z.eqb_spec n 0) as [->|]; [apply ledger_dzero|done].
Qed.

Lemma interest_sub_exact x y m n :
  units (-10) x m -> units (-10) y n -> Z.abs (m - n) < 10 ^ 60 ->
  exists r, dsub interest_context x y = Ok r /\ units (-10) r (m - n).
Proof.
  intros Hx Hy Hb. apply dfix_units; [by apply make_context_wide|lia|by apply units_sub|].
  eapply Z.lt_le_trans; [exact Hb|]. by vm_compute.
Qed.

(** For stored amounts, the INTEREST net before fees is the exact difference gross - withholding
    - other deductions, and a record is reported negative exactly when it is an INTEREST whose
    deductions exceed its gross amount. *)
Theorem interest_net_exact ty g w o n m k :
  ledger g n -> opt_ledger w m -> opt_ledger o k ->
  (exists r, calculate_interest_pre_fee_net g w o = Ok r /\ units (-10) r (n - m - k)) /\
  has_negative_interest_pre_fee_net ty g w o =
    Ok (String.eqb (normalize_code (Some ty)) "INTEREST" && (n <? m + k)).
Proof.
  intros Hg Hw Ho. apply decimal_or_zero_ledger in Hw, Ho.
  assert (Hnet : exists r, calculate_interest_pre_fee_net g w o = Ok r /\ units (-10) r (n - m - k)).
  { unfold calculate_interest_pre_fee_net. destruct Hg, Hw, Ho.
    destruct (interest_sub_exact g _ n m ltac:(done) ltac:(done) ltac:(lia)) as (r1 & -> & Hr1). cbn [mbind result_bind].
    apply interest_sub_exact; [done|done|lia]. }
  split; [done|]. destruct Hnet as (r & Hr & Hu). unfold has_negative_interest_pre_fee_net. rewrite Hr.
  replace (upper (strip ty)) with (normalize_code (Some ty)) by (by destruct ty).
  destruct (String.eqb _ "INTEREST"); simpl; [|done]. f_equal.
  pose proof (units_lt (-10) r dzero _ 0 Hu (units_dzero _)) as Hlt. rewrite <- dltb_spec in Hlt.
  destruct (Z.ltb_spec n (m + k)); [apply Hlt; lia|]. apply not_true_iff_false. rewrite Hlt. lia.
Qed.

Lemma interest_net_exact_witness :
  has_negative_interest_pre_fee_net " interest" (Dec 1000 (-2)) (Some (Dec 1001 (-2))) None = Ok true.
Proof.
  refine (proj2 (interest_net_exact " interest" (Dec 1000 (-2)) (Some (Dec 1001 (-2))) None
                   100000000000 100100000000 0 _ _ _)).
  - split; [reflexivity|lia].
  - split; [reflexivity|lia].
  - reflexivity.
Defined.
