(* ===== verification/Values.v ===== *)
(** * Dynamically typed values at the edge of the cost engine

    The helpers that read a value of unknown type and turn it into a decimal, a control code or a
    currency: [portfolio_common/domain/decimal_amount.py], [domain/currency.py],
    [domain/instrument_classification.py], [domain/transaction/fee_components.py] and the
    cash-account check of [transaction/validation/cash_account.py].  A value is a [payload]; text
    values are ASCII. *)

From Stdlib Require Import ZArith Lia QArith String Ascii.
From stdpp Require Import base tactics list strings.
From S2P Require Import Prelude PyDecimal DecimalFacts PyTime Precision Lineage Registry Transactions.

#[local] Open Scope string_scope.
#[local] Open Scope Z_scope.

(** ** Exceptions as text

    [isinstance(exc, ValueError)] and [str(exc)] for the exception classes of the model. *)

Definition violation_value (v : DecimalPrecisionViolation) : string :=
  match v with NON_FINITE => "non_finite" | EXCESS_SCALE => "excess_scale" | MAGNITUDE_OVERFLOW => "magnitude_overflow" end.

Definition is_value_error (e : exc) : bool :=
  match e with
  | ValueError _ | DecimalPrecisionError _ _ _ | LotRestatementError _ | RedemptionCalculationError _ _ _
  | RedemptionEligibilityError _ | CorporateActionCashEconomicsError _ | CashAccountRequiredValidationError _ _
  | UnsupportedFxRealizedPnlModeError _ | UnsupportedDayCountError _ | UnsupportedAccruedIncomeError _
  | UnsupportedValuationError _ | CashPositionEconomicsError _ | PositionHandlerMissingError _ _ _ _
  | PositionHistoryInvariantError _ | SettlementCashValidationError _ _ _ _ _ _ | GeneratedCashLegError _ _ | FxValidationError _
  | IncompleteCorporateActionManifestIdentityError _ | AmortizedCostCalculationError _ | AmortizedCostReconciliationError _
  | AmortizedCostDisposalError _ | AmortizedCostAuthorityError _ | MissingAmortizedCostAssignmentError _
  | OverlappingAmortizedCostAssignmentError _ _ | AmortizedCostInputResolutionError _ _ _ | DuplicateAmortizedCostPolicyError _
  | UnsupportedAmortizedCostPolicyError _ | ValuationPolicyAssignmentError _ | MissingValuationPolicyAssignmentError _
  | OverlappingValuationPolicyAssignmentError _ _ | MarketPriceSourceFactError _ | MissingMarketPriceSourceFactError _
  | OverlappingMarketPriceSourceFactError _ _ | PositionSnapshotNotValuedError _ | InvalidPortfolioPositionContribution _
  | InvalidPortfolioAggregationScope _ | PortfolioContributionScopeMismatch _ | PortfolioContributionWindowMismatch _
  | DuplicatePortfolioPositionContribution _ | UpstreamCashLegPairingError _ => true
  | _ => false
  end.

Definition exc_text (e : exc) : string :=
  match e with
  | ValueError m | TypeError m | RuntimeError m | ZeroDivisionError m | OverflowError m | IndexError m
  | LotRestatementError m | RedemptionEligibilityError m | CorporateActionCashEconomicsError m
  | UnsupportedFxRealizedPnlModeError m | UnsupportedDayCountError m | UnsupportedAccruedIncomeError m
  | UnsupportedValuationError m | UnknownValuationPolicyError m | CashPositionEconomicsError m | PositionHistoryInvariantError m
  | IncompleteCorporateActionManifestIdentityError m | AmortizedCostCalculationError m | AmortizedCostReconciliationError m
  | AmortizedCostDisposalError m | AmortizedCostAuthorityError m | MissingAmortizedCostAssignmentError m
  | DuplicateAmortizedCostPolicyError m | UnsupportedAmortizedCostPolicyError m | ValuationPolicyAssignmentError m
  | MissingValuationPolicyAssignmentError m | MarketPriceSourceFactError m | MissingMarketPriceSourceFactError m
  | PositionSnapshotNotValuedError m | InvalidPortfolioPositionContribution m | InvalidPortfolioAggregationScope m
  | PortfolioContributionScopeMismatch m | PortfolioContributionWindowMismatch m | DuplicatePortfolioPositionContribution m
  | CurrencyReferenceNotFoundError m | FxRateNotFoundError m | InstrumentReferenceNotFoundError m => m
  | UpstreamCashLegPairingError issues =>
      or_text (Some (join "; " (map (fun '(field, message) => field +:+ ": " +:+ message) issues))) "Dual-leg pairing validation failed"
  | DecimalPrecisionError f v p => f +:+ " violates Decimal precision policy " +:+ p +:+ ": " +:+ violation_value v
  | RedemptionCalculationError c f m => c +:+ ": " +:+ f +:+ ": " +:+ m
  | CashAccountRequiredValidationError _ m => m
  | SettlementCashValidationError c f m _ _ _ => c +:+ ": " +:+ f +:+ ": " +:+ m
  | GeneratedCashLegError f m => f +:+ ": " +:+ m
  | FxValidationError issues => or_text (Some (join "; " (map (fun '(code, field, _) => code +:+ ": " +:+ field) issues))) "FX validation failed"
  | _ => ""
  end.

(** [try: m except <classes selected by handles> as exc: h exc]. *)
Definition st_try {S A} (m : st S A) (handles : exc -> bool) (h : exc -> st S A) : st S A := fun s =>
  match m s with
  | (Raise e, s') => if handles e then h e s' else (Raise e, s')
  | r => r
  end.

(** [try: m finally: f], where [f] itself does not raise in the modelled uses unless it says so. *)
Definition st_finally {S A} (m : st S A) (f : st S unit) : st S A := fun s =>
  let '(r, s') := m s in
  match f s' with (Ok _, s'') => (r, s'') | (Raise e, s'') => (Raise e, s'') end.

(** ** [Decimal(text)] *)

Definition is_digit (c : ascii) : bool := let n := N_of_ascii c in (48 <=? n)%N && (n <=? 57)%N.

(** The digits at the start of a text, as a number with their count, and the rest. *)
Fixpoint take_digits (s : string) (acc count : Z) : Z * Z * string :=
  match s with
  | String c s' => if is_digit c then take_digits s' (10 * acc + (Z.of_N (N_of_ascii c) - 48)) (count + 1) else (acc, count, s)
  | EmptyString => (acc, count, s)
  end.

Fixpoint drop_underscores (s : string) : string :=
  match s with
  | EmptyString => ""
  | String c s' => if Ascii.eqb c "_" then drop_underscores s' else String c (drop_underscores s')
  end.

Definition take_sign (s : string) : bool * string :=
  match s with
  | String c s' => if Ascii.eqb c "-" then (true, s') else if Ascii.eqb c "+" then (false, s') else (false, s)
  | EmptyString => (false, s)
  end.

(** The exponent part after the digits: nothing, or [E] with a signed integer. *)
Definition parse_exponent (s : string) : option Z :=
  match s with
  | EmptyString => Some 0
  | String c s' =>
      if Ascii.eqb (to_lower c) "e" then
        let '(negative, s'') := take_sign s' in
        let '(n, count, rest) := take_digits s'' 0 0 in
        if (count =? 0) || truthy rest then None else Some (if (negative : bool) then - n else n)
      else None
  end.

Definition parse_finite (negative : bool) (s : string) : option number :=
  let '(whole, n1, rest) := take_digits s 0 0 in
  let '(coefficient, n2, rest) :=
    match rest with
    | String c rest' => if Ascii.eqb c "." then take_digits rest' whole 0 else (whole, 0, rest)
    | EmptyString => (whole, 0, rest)
    end in
  if (n1 + n2 =? 0) then None else
  match parse_exponent rest with
  | Some e => Some (Finite (Dec (if negative then - coefficient else coefficient) (e - n2)))
  | None => None
  end.

Definition all_digits (s : string) : bool := let '(_, _, rest) := take_digits s 0 0 in negb (truthy rest).

Fixpoint drop_prefix (p s : string) : option string :=
  match p, s with
  | EmptyString, _ => Some s
  | String c p', String d s' => if Ascii.eqb c d then drop_prefix p' s' else None
  | _, EmptyString => None
  end.

Definition is_nan_text (s : string) : bool :=
  match drop_prefix "nan" s, drop_prefix "snan" s with
  | Some rest, _ | None, Some rest => all_digits rest
  | None, None => false
  end.

(** [Decimal(text)]; [None] where the constructor signals [InvalidOperation]. *)
Definition decimal_of_string (text : string) : option number :=
  let '(negative, s) := take_sign (drop_underscores (strip text)) in
  if in_set (lower s) ["inf"; "infinity"] then Some (Infinity negative)
  else if is_nan_text (lower s) then Some NaN
  else parse_finite negative s.

(** ** Decimals of unknown values *)

(** Python truth of a value. *)
Definition payload_truthy (v : payload) : bool :=
  match v with
  | PNone => false
  | PBool b => b
  | PInt n => negb (n =? 0)
  | PStr s => truthy s
  | PDecimal (Finite d) => negb (dis_zero d)
  | PMap es => match es with [] => false | _ => true end
  | PSet xs | PSeq xs => match xs with [] => false | _ => true end
  | _ => true
  end.

Definition finite_or_none (n : option number) : option decimal :=
  match n with Some (Finite d) => Some d | _ => None end.

Definition decimal_or_none (value : payload) : option decimal :=
  match value with
  | PDecimal n => finite_or_none (Some n)
  | PInt n => Some (dint n)
  | PStr s => if truthy (strip s) then finite_or_none (decimal_of_string (strip s)) else None
  | _ => None
  end.

Definition decimal_or_zero (value : payload) : decimal :=
  match decimal_or_none value with Some d => dor d dzero | None => dzero end.

Definition required_decimal (value : payload) (field_name : string) : result decimal :=
  match decimal_or_none value with Some d => Ok d | None => Raise (ValueError (field_name +:+ " is required")) end.

Definition is_blank (value : payload) : bool := match value with PStr s => negb (truthy (strip s)) | _ => false end.

Definition is_none (value : payload) : bool := match value with PNone => true | _ => false end.

(** ** Currency and instrument codes *)

Definition normalize_currency_code (currency_code : payload) : result string :=
  match currency_code with
  | PStr s =>
      let normalized := upper (strip s) in
      if negb (Nat.eqb (String.length normalized) 3) || negb (string_forallb is_alpha normalized)
      then Raise (ValueError "Currency code must be a three-letter ISO 4217 code.") else Ok normalized
  | _ => Raise (ValueError "Currency code must be a string.")
  end.

Definition is_cash_instrument (product_type asset_class : option string) : bool :=
  in_set "CASH" [normalize_transaction_control_code product_type; normalize_transaction_control_code asset_class].

(** ** Fee components *)

Definition TRANSACTION_FEE_COMPONENT_FIELDS : list string := ["brokerage"; "stamp_duty"; "exchange_fee"; "gst"; "other_fees"].

Definition optional_fee_amount (value : payload) (field_name : string) : result (option decimal) :=
  if is_none value then Ok None else
  match decimal_or_none value with
  | Some d => Ok (Some d)
  | None => Raise (ValueError (field_name +:+ " must be numeric."))
  end.

Definition ensure_non_negative_fee_amount (amount : decimal) (field_name : string) : result unit :=
  raise_if (dltb amount dzero) (ValueError (field_name +:+ " must be greater than or equal to zero.")).

Definition validated_optional_fee_amount (value : payload) (field_name : string) : result (option decimal) :=
  amount ← optional_fee_amount value field_name;
  match (amount : option decimal) with
  | Some d => _ ← ensure_non_negative_fee_amount d field_name; Ok (Some d)
  | None => Ok None
  end.

Definition fee_component_amount (value : payload) (field_name : string) : result decimal :=
  if is_none value || is_blank value then Ok dzero else
  match decimal_or_none value with
  | Some d => Ok d
  | None => Raise (ValueError (field_name +:+ " must be numeric."))
  end.

Definition validated_fee_component_amount (value : payload) (field_name : string) : result decimal :=
  amount ← fee_component_amount value field_name;
  _ ← ensure_non_negative_fee_amount amount field_name;
  Ok amount.

Definition has_fee_components (components : list (string * payload)) : bool :=
  existsb (fun e => negb (is_none (snd e))) components.

(** The sum is taken in the context of the caller. *)
Definition total_fee_component_amount_in (ctx : context) (components : list (string * payload)) : result decimal :=
  foldM (fun total e => amount ← validated_fee_component_amount (snd e) (fst e); dadd ctx total amount) dzero components.
Definition total_fee_component_amount (components : list (string * payload)) : result decimal :=
  total_fee_component_amount_in default_context components.

Definition resolve_transaction_trade_fee_in (ctx : context) (trade_fee : payload) (components : list (string * payload))
  : result (option decimal) :=
  normalized ← validated_optional_fee_amount trade_fee "trade_fee";
  if negb (has_fee_components components) then Ok normalized
  else total ← total_fee_component_amount_in ctx components; Ok (Some total).
Definition resolve_transaction_trade_fee (trade_fee : payload) (components : list (string * payload)) : result (option decimal) :=
  resolve_transaction_trade_fee_in default_context trade_fee components.

(** ** Cash-account bookings *)

Definition has_instrument_classification (product_type asset_class : option string) : bool :=
  truthy (normalize_transaction_control_code product_type) || truthy (normalize_transaction_control_code asset_class).

Definition assert_cash_account_required_instrument (transaction_type : string) (instrument_reference_available : bool)
  (product_type asset_class : option string) : result unit :=
  let normalized_type := normalize_transaction_control_code (Some transaction_type) in
  match get_transaction_type_definition normalized_type with
  | None => Ok tt
  | Some definition =>
      if negb (String.eqb (settlement_behavior definition) "cash_account_required") then Ok tt else
      if negb instrument_reference_available || negb (has_instrument_classification product_type asset_class) then
        Raise (CashAccountRequiredValidationError "CASH_ACCOUNT_001_INSTRUMENT_AUTHORITY_UNAVAILABLE"
          (normalized_type +:+ " requires authoritative cash instrument metadata; instrument classification is unavailable."))
      else raise_if (negb (is_cash_instrument product_type asset_class))
        (CashAccountRequiredValidationError "CASH_ACCOUNT_002_NON_CASH_INSTRUMENT"
          (normalized_type +:+ " must be represented as a cash instrument posting."))
  end.
