(* ===== verification/Position.v ===== *)
(** * Position balances and position history

    [position/reducer.py] and [position/history.py]: the pure transition of one position balance by
    one booked transaction, the plan for backdated transactions, and the deterministic replay that
    turns a transaction stream into history records carrying their lineage. *)

From Stdlib Require Import ZArith Lia QArith Qabs String.
From stdpp Require Import base tactics list sorting strings.
From S2P Require Import Prelude PyDecimal DecimalFacts PyTime Precision Lineage Registry Transactions.

#[local] Open Scope string_scope.
#[local] Open Scope Z_scope.

(** ** Type groups *)

Definition REDEMPTION_TRANSACTION_TYPES : list string :=
  ["MATURITY_REDEMPTION"; "CALL_REDEMPTION"; "PARTIAL_REDEMPTION"].
Definition CASH_POSITION_INFLOW_TRANSACTION_TYPES : list string := ["DEPOSIT"; "FX_CASH_SETTLEMENT_BUY"].
Definition CASH_POSITION_OUTFLOW_TRANSACTION_TYPES : list string :=
  ["WITHDRAWAL"; "FEE"; "TAX"; "FX_CASH_SETTLEMENT_SELL"].
Definition CASH_POSITION_DELTA_TRANSACTION_TYPES : list string :=
  (CASH_POSITION_INFLOW_TRANSACTION_TYPES ++ CASH_POSITION_OUTFLOW_TRANSACTION_TYPES ++ ["ADJUSTMENT"])%list.
Definition POSITION_TRANSFER_TRANSACTION_TYPES : list string :=
  ["TRANSFER_IN"; "TRANSFER_OUT"; "MERGER_IN"; "MERGER_OUT"; "EXCHANGE_IN"; "EXCHANGE_OUT";
   "REPLACEMENT_IN"; "REPLACEMENT_OUT"; "SPIN_IN"; "DEMERGER_IN"; "RIGHTS_ALLOCATE";
   "RIGHTS_SHARE_DELIVERY"; "RIGHTS_SUBSCRIBE"; "RIGHTS_OVERSUBSCRIBE"; "RIGHTS_SELL"; "RIGHTS_EXPIRE"].
Definition POSITION_TRANSFER_INFLOW_TRANSACTION_TYPES : list string :=
  ["TRANSFER_IN"; "MERGER_IN"; "EXCHANGE_IN"; "REPLACEMENT_IN"; "SPIN_IN"; "DEMERGER_IN";
   "RIGHTS_ALLOCATE"; "RIGHTS_SHARE_DELIVERY"].
Definition SAME_INSTRUMENT_QUANTITY_DECREASE_TYPES : list string := ["REVERSE_SPLIT"; "CONSOLIDATION"].
Definition POSITION_START_DATE : date := 0.

(** ** State *)

Record PositionBalanceState := {
  ps_quantity : decimal; ps_cost_basis : decimal; ps_cost_basis_local : decimal
}.

Definition initial_position : PositionBalanceState :=
  {| ps_quantity := dzero; ps_cost_basis := dzero; ps_cost_basis_local := dzero |}.

Record BackdatedRecalculationDecision := {
  should_recalculate : bool;
  effective_completed_date : date;
  recalculation_watermark_date : option date;
  bd_reason : string
}.

(** ** Backdated recalculation *)

Definition plan_backdated_recalculation (event_epoch : option Z) (transaction_date current_watermark_date : date)
  (latest_position_history_date latest_completed_snapshot_date : option date)
  : result BackdatedRecalculationDecision :=
  let effective := Z.max (Z.max current_watermark_date (default POSITION_START_DATE latest_position_history_date))
                         (default POSITION_START_DATE latest_completed_snapshot_date) in
  let should := match event_epoch with None => transaction_date <? effective | Some _ => false end in
  watermark ← (if should then (d ← date_sub_days transaction_date 1; Ok (Some d)) else Ok None);
  Ok {| should_recalculate := should; effective_completed_date := effective;
        recalculation_watermark_date := watermark;
        bd_reason := if should then "original_backdated_transaction" else "current_or_replay_event" |}.

(** ** The handlers

    They run under [POSITION_HISTORY_LEDGER_OUTPUT_V1.arithmetic_context()]. *)

#[local] Notation policy := POSITION_HISTORY_LEDGER_OUTPUT_V1.

Definition position_context : context := arithmetic_context policy.

Definition position_state (quantity cost_basis cost_basis_local : decimal) : result PositionBalanceState :=
  q ← normalize policy quantity "position_history.quantity";
  c ← normalize policy cost_basis "position_history.cost_basis";
  l ← normalize policy cost_basis_local "position_history.cost_basis_local";
  Ok {| ps_quantity := q; ps_cost_basis := c; ps_cost_basis_local := l |}.

Definition normalize_position_code (v : option string) : string := normalize_code v.

Definition cost_basis_with_optional_net_cost (current : decimal) (net_cost : option decimal) : result decimal :=
  match net_cost with Some n => dadd position_context current n | None => Ok current end.

Definition buy_position_state (s : PositionBalanceState) (t : BookedTransaction) (_ : string)
  : result PositionBalanceState :=
  q ← dadd position_context (ps_quantity s) (tx_quantity t);
  c ← cost_basis_with_optional_net_cost (ps_cost_basis s) (tx_net_cost t);
  l ← cost_basis_with_optional_net_cost (ps_cost_basis_local s) (tx_net_cost_local t);
  position_state q c l.

Definition sell_position_state (s : PositionBalanceState) (t : BookedTransaction) (_ : string)
  : result PositionBalanceState :=
  q ← dsub position_context (ps_quantity s) (tx_quantity t);
  c ← cost_basis_with_optional_net_cost (ps_cost_basis s) (tx_net_cost t);
  l ← cost_basis_with_optional_net_cost (ps_cost_basis_local s) (tx_net_cost_local t);
  position_state q c l.

Definition assert_one_cash_sign (txn_type field_name : string) (expects_inflow : bool) (amount : option decimal)
  : result unit :=
  match amount with
  | None => Ok tt
  | Some a =>
      if dis_zero a then Ok tt else
      if (if expects_inflow then dltb a dzero else dltb dzero a)
      then Raise (CashPositionEconomicsError
             (txn_type +:+ " " +:+ field_name +:+ " must be " +:+
              (if expects_inflow then "non-negative" else "non-positive") +:+
              "; received " +:+ string_of_decimal a +:+ "."))
      else Ok tt
  end.

Definition assert_cash_position_economics (t : BookedTransaction) (txn_type : string) : result unit :=
  if negb (in_set txn_type (CASH_POSITION_INFLOW_TRANSACTION_TYPES ++ CASH_POSITION_OUTFLOW_TRANSACTION_TYPES))
  then Ok tt else
  let expects_inflow := in_set txn_type CASH_POSITION_INFLOW_TRANSACTION_TYPES in
  _ ← assert_one_cash_sign txn_type "net_cost" expects_inflow (tx_net_cost t);
  assert_one_cash_sign txn_type "net_cost_local" expects_inflow (tx_net_cost_local t).

Definition cash_position_amount_delta (ctx : context) (t : BookedTransaction) (txn_type : string)
  : result decimal :=
  let gross_amount := tx_gross_transaction_amount t in
  magnitude ← dabs ctx (if negb (dis_zero gross_amount) then gross_amount else tx_quantity t);
  magnitude ← (if String.eqb txn_type "FEE" then
                 match tx_net_cost_local t with
                 | Some n => if negb (dis_zero n) then dabs ctx n else Ok magnitude
                 | None => Ok magnitude
                 end
               else Ok magnitude);
  if in_set txn_type (CASH_POSITION_INFLOW_TRANSACTION_TYPES ++ ["ADJUSTMENT"]) then
    if String.eqb txn_type "ADJUSTMENT" then
      let movement_direction := normalize_position_code (Some (or_text (tx_movement_direction t) "INFLOW")) in
      if String.eqb movement_direction "OUTFLOW" then dneg ctx magnitude else Ok magnitude
    else Ok magnitude
  else dneg ctx magnitude.

(** A booked cost, unless it is absent or a zero the quantity stands in for. *)
Definition cost_delta_or (use_quantity_fallback : bool) (net_cost : option decimal) (quantity_delta : decimal)
  : decimal :=
  match net_cost with
  | Some n => if use_quantity_fallback && deqb n dzero then quantity_delta else n
  | None => quantity_delta
  end.

Definition cash_position_deltas (ctx : context) (t : BookedTransaction) (txn_type : string)
  : result (decimal * decimal * decimal) :=
  _ ← assert_cash_position_economics t txn_type;
  quantity_delta ← cash_position_amount_delta ctx t txn_type;
  let use_quantity_fallback := String.eqb txn_type "ADJUSTMENT" ||
    in_set txn_type (CASH_POSITION_INFLOW_TRANSACTION_TYPES ++ CASH_POSITION_OUTFLOW_TRANSACTION_TYPES) in
  Ok (quantity_delta,
      cost_delta_or use_quantity_fallback (tx_net_cost t) quantity_delta,
      cost_delta_or use_quantity_fallback (tx_net_cost_local t) quantity_delta).

Definition cash_delta_position_state (s : PositionBalanceState) (t : BookedTransaction) (txn_type : string)
  : result PositionBalanceState :=
  '(dq, dc, dl) ← cash_position_deltas position_context t txn_type;
  q ← dadd position_context (ps_quantity s) dq;
  c ← dadd position_context (ps_cost_basis s) dc;
  l ← dadd position_context (ps_cost_basis_local s) dl;
  position_state q c l.

Definition transfer_cost_basis (current : decimal) (net_cost : option decimal) (gross : decimal) (is_inflow : bool)
  : result decimal :=
  match net_cost with
  | Some n => dadd position_context current n
  | None => if is_inflow then dadd position_context current gross else dsub position_context current gross
  end.

Definition transfer_position_state (s : PositionBalanceState) (t : BookedTransaction) (txn_type : string)
  : result PositionBalanceState :=
  let transfer_quantity := tx_quantity t in
  if dleb transfer_quantity dzero then Ok s else
  let is_inflow := in_set txn_type POSITION_TRANSFER_INFLOW_TRANSACTION_TYPES in
  let transfer_sign := if is_inflow then dint 1 else dint (-1) in
  dq ← dmul position_context transfer_sign transfer_quantity;
  q ← dadd position_context (ps_quantity s) dq;
  c ← transfer_cost_basis (ps_cost_basis s) (tx_net_cost t) (tx_gross_transaction_amount t) is_inflow;
  l ← transfer_cost_basis (ps_cost_basis_local s) (tx_net_cost_local t) (tx_gross_transaction_amount t) is_inflow;
  position_state q c l.

Definition quantity_delta_position_state (s : PositionBalanceState) (quantity_delta : decimal)
  : result PositionBalanceState :=
  q ← dadd position_context (ps_quantity s) quantity_delta;
  position_state q (ps_cost_basis s) (ps_cost_basis_local s).

Definition same_instrument_action_state (s : PositionBalanceState) (t : BookedTransaction) (txn_type : string)
  : result PositionBalanceState :=
  let sign := if in_set txn_type SAME_INSTRUMENT_QUANTITY_DECREASE_TYPES then dint (-1) else dint 1 in
  dq ← dmul position_context sign (tx_quantity t);
  quantity_delta_position_state s dq.

Definition spin_off_cost_basis (current : decimal) (net_cost : option decimal) (gross : decimal) : result decimal :=
  match net_cost with
  | Some n => dadd position_context current n
  | None => dsub position_context current gross
  end.

Definition spin_off_position_state (s : PositionBalanceState) (t : BookedTransaction) (_ : string)
  : result PositionBalanceState :=
  dq ← (if dltb dzero (tx_quantity t) then dneg position_context (tx_quantity t) else Ok dzero);
  q ← dadd position_context (ps_quantity s) dq;
  c ← spin_off_cost_basis (ps_cost_basis s) (tx_net_cost t) (tx_gross_transaction_amount t);
  l ← spin_off_cost_basis (ps_cost_basis_local s) (tx_net_cost_local t) (tx_gross_transaction_amount t);
  position_state q c l.

Definition fx_contract_open_position_state (s : PositionBalanceState) (_ : BookedTransaction) (_ : string)
  : result PositionBalanceState := quantity_delta_position_state s (dint 1).

Definition fx_contract_close_position_state (s : PositionBalanceState) (_ : BookedTransaction) (_ : string)
  : result PositionBalanceState := quantity_delta_position_state s (dint (-1)).

Definition zeroed_cost_basis_when_flat (s : PositionBalanceState) : result PositionBalanceState :=
  if negb (dis_zero (ps_quantity s)) then Ok s else position_state (ps_quantity s) dzero dzero.

Definition PositionUpdateHandler : Type :=
  PositionBalanceState -> BookedTransaction -> string -> result PositionBalanceState.

Definition position_update_handler (txn_type : string) : option PositionUpdateHandler :=
  if String.eqb txn_type "BUY" then Some buy_position_state else
  if in_set txn_type (["SELL"; "CASH_IN_LIEU"] ++ REDEMPTION_TRANSACTION_TYPES) then Some sell_position_state else
  if in_set txn_type CASH_POSITION_DELTA_TRANSACTION_TYPES then Some cash_delta_position_state else
  if in_set txn_type POSITION_TRANSFER_TRANSACTION_TYPES then Some transfer_position_state else
  if in_set txn_type SAME_INSTRUMENT_CORPORATE_ACTION_TYPES then Some same_instrument_action_state else
  if in_set txn_type ["SPIN_OFF"; "DEMERGER_OUT"] then Some spin_off_position_state else
  if String.eqb txn_type "FX_CONTRACT_OPEN" then Some fx_contract_open_position_state else
  if String.eqb txn_type "FX_CONTRACT_CLOSE" then Some fx_contract_close_position_state else
  None.

Definition calculate_next_position_state (s : PositionBalanceState) (t : BookedTransaction)
  : result PositionBalanceState :=
  let txn_type := resolve_effective_processing_transaction_type t in
  next_state ← match position_update_handler txn_type with
    | Some handler => handler s t txn_type
    | None =>
        match get_transaction_type_definition txn_type with
        | Some d =>
            if production_booking_allowed d && negb (String.eqb (position_effect d) "none")
            then Raise (PositionHandlerMissingError (tx_portfolio_id t) (tx_transaction_id t) txn_type (position_effect d))
            else Ok s
        | None => Ok s
        end
    end;
  zeroed_cost_basis_when_flat next_state.

(** ** Exact arithmetic of the 64-digit working context

    Amounts are counted in units of [1e-10]; sums of ledger amounts never reach 60 digits, so the
    context never rounds them. *)

Section WorkingContext.
#[local] Notation ctx := position_context.

Lemma position_context_wide : wide ctx.
Proof. by apply make_context_wide. Qed.

Lemma working_exact d n : units (-10) d n -> Z.abs n < 10 ^ 60 -> exists r, dfix ctx d = Ok r /\ units (-10) r n.
Proof.
  intros Hd Hn. apply dfix_units; [apply position_context_wide|lia|done|].
  eapply Z.lt_le_trans; [exact Hn|]. by vm_compute.
Qed.

Lemma working_add x y m n :
  units (-10) x m -> units (-10) y n -> Z.abs (m + n) < 10 ^ 60 -> exists r, dadd ctx x y = Ok r /\ units (-10) r (m + n).
Proof. intros. apply working_exact; auto with lotus. Qed.

Lemma working_sub x y m n :
  units (-10) x m -> units (-10) y n -> Z.abs (m - n) < 10 ^ 60 -> exists r, dsub ctx x y = Ok r /\ units (-10) r (m - n).
Proof. intros. apply working_exact; auto with lotus. Qed.

Lemma units_neg k x m : units k x m -> units k (neg_exact x) (- m).
Proof. unfold units. intros H. rewrite neg_exact_val, H, inject_Z_opp. ring. Qed.

Lemma units_abs k x m : units k x m -> units k (Dec (Z.abs (dcoeff x)) (dexp x)) (Z.abs m).
Proof.
  unfold units. intros H. rewrite dval_Dec, <- dval_abs, H, Qabs_Qmult, (Qabs_pos (pow10 k)); [reflexivity|].
  apply Qlt_le_weak, pow10_pos.
Qed.

Lemma working_neg x m : units (-10) x m -> Z.abs m < 10 ^ 60 -> exists r, dneg ctx x = Ok r /\ units (-10) r (- m).
Proof. intros Hx Hm. apply working_exact; [by apply units_neg|lia]. Qed.

Lemma working_abs x m : units (-10) x m -> Z.abs m < 10 ^ 60 -> exists r, dabs ctx x = Ok r /\ units (-10) r (Z.abs m).
Proof. intros Hx Hm. apply working_exact; [by apply units_abs|lia]. Qed.

Lemma units_dint n : units 0 (dint n) n.
Proof. unfold units, dint. rewrite dval_Dec. reflexivity. Qed.

Lemma units_dint_ledger n : units (-10) (dint n) (n * 10 ^ 10).
Proof.
  unfold units, dint. rewrite dval_Dec, inject_Z_mult, <- pow10_Z by lia. rewrite <- Qmult_assoc, <- pow10_add. reflexivity.
Qed.

Lemma working_scale s x m :
  units (-10) x m -> Z.abs (s * m) < 10 ^ 60 -> exists r, dmul ctx (dint s) x = Ok r /\ units (-10) r (s * m).
Proof. intros Hx Hm. apply working_exact; [|done]. exact (units_mul 0 (-10) _ _ _ _ (units_dint s) Hx). Qed.
End WorkingContext.

(** ** Abstract specification: integer balances

    A balance is a triple of integers (units of [1e-10]); a transaction adds a triple to it; a
    position whose quantity reaches zero keeps no cost. *)

Record Balance := { b_quantity : Z; b_cost : Z; b_cost_local : Z }.

Definition b_add (a d : Balance) : Balance :=
  {| b_quantity := b_quantity a + b_quantity d; b_cost := b_cost a + b_cost d;
     b_cost_local := b_cost_local a + b_cost_local d |}.

Definition b_settle (a : Balance) : Balance :=
  if b_quantity a =? 0 then {| b_quantity := 0; b_cost := 0; b_cost_local := 0 |} else a.

Definition b_in_range (a : Balance) : Prop :=
  Z.abs (b_quantity a) < 10 ^ 18 /\ Z.abs (b_cost a) < 10 ^ 18 /\ Z.abs (b_cost_local a) < 10 ^ 18.

(** Units of a stored amount. *)
Definition amount (d : decimal) : Z := to_units policy d.

Definition amount_or (d : option decimal) (fallback : Z) : Z := match d with Some x => amount x | None => fallback end.

(** A booked cash cost counts unless it is absent or zero. *)
Definition cash_cost_or (d : option decimal) (fallback : Z) : Z :=
  match d with Some x => if amount x =? 0 then fallback else amount x | None => fallback end.

Definition cash_magnitude (t : BookedTransaction) (ty : string) : Z :=
  let base := if amount (tx_gross_transaction_amount t) =? 0 then amount (tx_quantity t)
              else amount (tx_gross_transaction_amount t) in
  if String.eqb ty "FEE" then Z.abs (cash_cost_or (tx_net_cost_local t) base) else Z.abs base.

Definition cash_is_inflow (t : BookedTransaction) (ty : string) : bool :=
  if String.eqb ty "ADJUSTMENT"
  then negb (String.eqb (normalize_code (Some (or_text (tx_movement_direction t) "INFLOW"))) "OUTFLOW")
  else in_set ty CASH_POSITION_INFLOW_TRANSACTION_TYPES.

Definition signed (positive : bool) (n : Z) : Z := if positive then n else - n.

(** What one transaction of processing type [ty] adds to a balance. *)
Definition position_delta (t : BookedTransaction) (ty : string) : Balance :=
  let q := amount (tx_quantity t) in
  let g := amount (tx_gross_transaction_amount t) in
  let nc := tx_net_cost t in
  let nl := tx_net_cost_local t in
  if String.eqb ty "BUY" then {| b_quantity := q; b_cost := amount_or nc 0; b_cost_local := amount_or nl 0 |} else
  if in_set ty (["SELL"; "CASH_IN_LIEU"] ++ REDEMPTION_TRANSACTION_TYPES)
  then {| b_quantity := - q; b_cost := amount_or nc 0; b_cost_local := amount_or nl 0 |} else
  if in_set ty CASH_POSITION_DELTA_TRANSACTION_TYPES then
    let m := signed (cash_is_inflow t ty) (cash_magnitude t ty) in
    {| b_quantity := m; b_cost := cash_cost_or nc m; b_cost_local := cash_cost_or nl m |} else
  if in_set ty POSITION_TRANSFER_TRANSACTION_TYPES then
    if q <=? 0 then {| b_quantity := 0; b_cost := 0; b_cost_local := 0 |} else
    let inflow := in_set ty POSITION_TRANSFER_INFLOW_TRANSACTION_TYPES in
    {| b_quantity := signed inflow q; b_cost := amount_or nc (signed inflow g);
       b_cost_local := amount_or nl (signed inflow g) |} else
  if in_set ty SAME_INSTRUMENT_CORPORATE_ACTION_TYPES
  then {| b_quantity := signed (negb (in_set ty SAME_INSTRUMENT_QUANTITY_DECREASE_TYPES)) q;
          b_cost := 0; b_cost_local := 0 |} else
  if in_set ty ["SPIN_OFF"; "DEMERGER_OUT"]
  then {| b_quantity := - Z.max q 0; b_cost := amount_or nc (- g); b_cost_local := amount_or nl (- g) |} else
  if String.eqb ty "FX_CONTRACT_OPEN" then {| b_quantity := 10 ^ 10; b_cost := 0; b_cost_local := 0 |} else
  if String.eqb ty "FX_CONTRACT_CLOSE" then {| b_quantity := - 10 ^ 10; b_cost := 0; b_cost_local := 0 |} else
  {| b_quantity := 0; b_cost := 0; b_cost_local := 0 |}.

(** The booked sign of a cash cost contradicts the direction of the movement. *)
Definition cash_sign_contradiction (t : BookedTransaction) (ty : string) : Prop :=
  exists c, (tx_net_cost t = Some c \/ tx_net_cost_local t = Some c) /\
    ((In ty CASH_POSITION_INFLOW_TRANSACTION_TYPES /\ amount c < 0) \/
     (In ty CASH_POSITION_OUTFLOW_TRANSACTION_TYPES /\ 0 < amount c)).

(** ** Refinement *)

Definition pos_refines (s : PositionBalanceState) (a : Balance) : Prop :=
  ledger (ps_quantity s) (b_quantity a) /\ ledger (ps_cost_basis s) (b_cost a) /\
  ledger (ps_cost_basis_local s) (b_cost_local a).

Definition opt_stored (d : option decimal) : Prop := match d with Some x => exists n, ledger x n | None => True end.

(** The amounts of a booked transaction fit [NUMERIC(18, 10)] columns. *)
Definition stored_transaction (t : BookedTransaction) : Prop :=
  (exists n, ledger (tx_quantity t) n) /\ (exists n, ledger (tx_gross_transaction_amount t) n) /\
  opt_stored (tx_net_cost t) /\ opt_stored (tx_net_cost_local t).

Definition is_overflow (e : exc) : Prop :=
  exists f, e = DecimalPrecisionError f MAGNITUDE_OVERFLOW (policy_id policy).

(** The outcome of a handler that should move the balance to [a]. *)
Definition reaches (m : result PositionBalanceState) (a : Balance) : Prop :=
  match m with
  | Ok s => pos_refines s a
  | Raise e => is_overflow e /\ ~ b_in_range a
  end.

Lemma ledger_amount d n : ledger d n -> amount d = n.
Proof. intros [H _]. by apply to_units_exact. Qed.

Lemma stored_amount d : (exists n, ledger d n) -> units (-10) d (amount d) /\ Z.abs (amount d) < 10 ^ 18.
Proof. intros [n H]. rewrite (ledger_amount d n H). exact H. Qed.

Lemma position_normalize (d : decimal) n f :
  units (-10) d n ->
  normalize policy d f = if Z.abs n <? 10 ^ 18 then Ok d
                         else Raise (DecimalPrecisionError f MAGNITUDE_OVERFLOW (policy_id policy)).
Proof. apply ledger_normalize_units. Qed.

Lemma position_state_reaches q c l a :
  units (-10) q (b_quantity a) -> units (-10) c (b_cost a) -> units (-10) l (b_cost_local a) ->
  reaches (position_state q c l) a.
Proof.
  intros Hq Hc Hl. unfold position_state.
  rewrite (position_normalize q _ _ Hq), (position_normalize c _ _ Hc), (position_normalize l _ _ Hl).
  unfold reaches, is_overflow, b_in_range.
  destruct (Z.ltb_spec (Z.abs (b_quantity a)) (10 ^ 18)); simpl; [|split; [eauto|lia]].
  destruct (Z.ltb_spec (Z.abs (b_cost a)) (10 ^ 18)); simpl; [|split; [eauto|lia]].
  destruct (Z.ltb_spec (Z.abs (b_cost_local a)) (10 ^ 18)); simpl; [|split; [eauto|lia]].
  by repeat split.
Qed.

(** Run one exact operation of the working context; its operands' units are among the hypotheses. *)
Ltac working :=
  match goal with
  | |- context [dadd position_context ?x ?y] =>
      let r := fresh "r" in
      edestruct (working_add x y) as (r & -> & ?); [eassumption|eassumption|try lia|]; cbn [mbind result_bind]
  | |- context [dsub position_context ?x ?y] =>
      let r := fresh "r" in
      edestruct (working_sub x y) as (r & -> & ?); [eassumption|eassumption|try lia|]; cbn [mbind result_bind]
  | |- context [dmul position_context (dint ?s) ?y] =>
      let r := fresh "r" in
      edestruct (working_scale s y) as (r & -> & ?); [eassumption|try lia|]; cbn [mbind result_bind]
  | |- context [dneg position_context ?x] =>
      let r := fresh "r" in
      edestruct (working_neg x) as (r & -> & ?); [eassumption|try lia|]; cbn [mbind result_bind]
  | |- context [dabs position_context ?x] =>
      let r := fresh "r" in
      edestruct (working_abs x) as (r & -> & ?); [eassumption|try lia|]; cbn [mbind result_bind]
  end.

Section Handlers.
Context (s : PositionBalanceState) (a : Balance) (t : BookedTransaction)
        (Hs : pos_refines s a) (Ht : stored_transaction t).

#[local] Notation q := (amount (tx_quantity t)).
#[local] Notation g := (amount (tx_gross_transaction_amount t)).

Lemma state_units :
  (units (-10) (ps_quantity s) (b_quantity a) /\ Z.abs (b_quantity a) < 10 ^ 18) /\
  (units (-10) (ps_cost_basis s) (b_cost a) /\ Z.abs (b_cost a) < 10 ^ 18) /\
  (units (-10) (ps_cost_basis_local s) (b_cost_local a) /\ Z.abs (b_cost_local a) < 10 ^ 18).
Proof. exact Hs. Qed.

Lemma quantity_units : units (-10) (tx_quantity t) q /\ Z.abs q < 10 ^ 18.
Proof. apply stored_amount, Ht. Qed.

Lemma gross_units : units (-10) (tx_gross_transaction_amount t) g /\ Z.abs g < 10 ^ 18.
Proof. apply stored_amount, Ht. Qed.

Lemma optional_cost_add c n o :
  units (-10) c n -> Z.abs n < 10 ^ 18 -> opt_stored o ->
  exists r, cost_basis_with_optional_net_cost c o = Ok r /\ units (-10) r (n + amount_or o 0).
Proof.
  intros Hc Hn Ho. destruct o as [x|]; simpl.
  - destruct (stored_amount x Ho). working. eauto.
  - exists c. split; [done|]. by replace (n + 0) with n by lia.
Qed.

Lemma transfer_cost_add c n o inflow :
  units (-10) c n -> Z.abs n < 10 ^ 18 -> opt_stored o ->
  exists r, transfer_cost_basis c o (tx_gross_transaction_amount t) inflow = Ok r /\
    units (-10) r (n + amount_or o (signed inflow g)).
Proof.
  intros Hc Hn Ho. destruct gross_units. destruct o as [x|]; simpl.
  - destruct (stored_amount x Ho). working. eauto.
  - destruct inflow; simpl; working; eauto.
Qed.

Lemma spin_off_cost_add c n o :
  units (-10) c n -> Z.abs n < 10 ^ 18 -> opt_stored o ->
  exists r, spin_off_cost_basis c o (tx_gross_transaction_amount t) = Ok r /\ units (-10) r (n + amount_or o (- g)).
Proof.
  intros Hc Hn Ho. destruct gross_units. destruct o as [x|]; simpl.
  - destruct (stored_amount x Ho). working. eauto.
  - working; eauto.
Qed.

Lemma buy_reaches ty :
  reaches (buy_position_state s t ty)
    (b_add a {| b_quantity := q; b_cost := amount_or (tx_net_cost t) 0; b_cost_local := amount_or (tx_net_cost_local t) 0 |}).
Proof.
  destruct state_units as ([] & [] & []), quantity_units. unfold buy_position_state. working.
  destruct Ht as (_ & _ & Hc & Hl).
  edestruct (optional_cost_add (ps_cost_basis s)) as (? & -> & ?); [done..|]. simpl.
  edestruct (optional_cost_add (ps_cost_basis_local s)) as (? & -> & ?); [done..|]. simpl.
  by apply position_state_reaches.
Qed.

Lemma sell_reaches ty :
  reaches (sell_position_state s t ty)
    (b_add a {| b_quantity := - q; b_cost := amount_or (tx_net_cost t) 0; b_cost_local := amount_or (tx_net_cost_local t) 0 |}).
Proof.
  destruct state_units as ([] & [] & []), quantity_units. unfold sell_position_state. working.
  destruct Ht as (_ & _ & Hc & Hl).
  edestruct (optional_cost_add (ps_cost_basis s)) as (? & -> & ?); [done..|]. simpl.
  edestruct (optional_cost_add (ps_cost_basis_local s)) as (? & -> & ?); [done..|]. simpl.
  by apply position_state_reaches.
Qed.

Lemma quantity_delta_reaches d n :
  units (-10) d n -> Z.abs n < 10 ^ 18 ->
  reaches (quantity_delta_position_state s d) (b_add a {| b_quantity := n; b_cost := 0; b_cost_local := 0 |}).
Proof.
  intros Hd Hn. destruct state_units as ([] & [] & []). unfold quantity_delta_position_state. working.
  apply position_state_reaches; simpl; [done| |]; by rewrite Z.add_0_r.
Qed.

Lemma same_instrument_reaches ty :
  reaches (same_instrument_action_state s t ty)
    (b_add a {| b_quantity := signed (negb (in_set ty SAME_INSTRUMENT_QUANTITY_DECREASE_TYPES)) q;
                b_cost := 0; b_cost_local := 0 |}).
Proof.
  destruct quantity_units. unfold same_instrument_action_state.
  destruct (in_set ty _); simpl; working; apply quantity_delta_reaches; try lia.
  - by replace (- q) with (-1 * q) by lia.
  - by replace q with (1 * q) by lia.
Qed.

Lemma transfer_reaches ty :
  0 < q ->
  reaches (transfer_position_state s t ty)
    (b_add a {| b_quantity := signed (in_set ty POSITION_TRANSFER_INFLOW_TRANSACTION_TYPES) q;
                b_cost := amount_or (tx_net_cost t) (signed (in_set ty POSITION_TRANSFER_INFLOW_TRANSACTION_TYPES) g);
                b_cost_local := amount_or (tx_net_cost_local t)
                                  (signed (in_set ty POSITION_TRANSFER_INFLOW_TRANSACTION_TYPES) g) |}).
Proof.
  intros Hq. destruct state_units as ([] & [] & []), quantity_units. unfold transfer_position_state.
  assert (dleb (tx_quantity t) dzero = false) as ->.
  { rewrite (ledger_le _ _ q 0); [by apply Z.leb_gt|by split|apply ledger_dzero]. }
  destruct Ht as (_ & _ & Hc & Hl). generalize (in_set ty POSITION_TRANSFER_INFLOW_TRANSACTION_TYPES) as b. intros b.
  assert (exists r, dmul position_context (if b then dint 1 else dint (-1)) (tx_quantity t) = Ok r /\
            units (-10) r (signed b q)) as (dq & -> & Hdq).
  { destruct b; unfold signed; working; eexists; (split; [reflexivity|]).
    - by replace q with (1 * q) by lia.
    - by replace (- q) with (-1 * q) by lia. }
  simpl. assert (Z.abs (signed b q) < 10 ^ 18) by (destruct b; simpl; lia). working.
  edestruct (transfer_cost_add (ps_cost_basis s)) as (? & -> & ?); [done..|]. simpl.
  edestruct (transfer_cost_add (ps_cost_basis_local s)) as (? & -> & ?); [done..|]. simpl.
  by apply position_state_reaches.
Qed.

Lemma transfer_nothing ty : q <= 0 -> transfer_position_state s t ty = Ok s.
Proof.
  intros Hq. destruct quantity_units. unfold transfer_position_state.
  rewrite (ledger_le _ _ q 0); [by rewrite (proj2 (Z.leb_le _ _) Hq)|by split|apply ledger_dzero].
Qed.

Lemma spin_off_reaches ty :
  reaches (spin_off_position_state s t ty)
    (b_add a {| b_quantity := - Z.max q 0; b_cost := amount_or (tx_net_cost t) (- g);
                b_cost_local := amount_or (tx_net_cost_local t) (- g) |}).
Proof.
  destruct state_units as ([] & [] & []), quantity_units. unfold spin_off_position_state.
  assert (exists r, (if dltb dzero (tx_quantity t) then dneg position_context (tx_quantity t) else Ok dzero) = Ok r /\
            units (-10) r (- Z.max q 0)) as (dq & -> & Hdq).
  { rewrite (ledger_lt _ _ 0 q); [|apply ledger_dzero|by split]. destruct (Z.ltb_spec 0 q).
    - working. eexists; split; [done|]. by rewrite Z.max_l by lia.
    - exists dzero. split; [done|]. rewrite Z.max_r by lia. apply units_dzero. }
  simpl. destruct Ht as (_ & _ & Hc & Hl). working.
  edestruct (spin_off_cost_add (ps_cost_basis s)) as (? & -> & ?); [done..|]. simpl.
  edestruct (spin_off_cost_add (ps_cost_basis_local s)) as (? & -> & ?); [done..|]. simpl.
  by apply position_state_reaches.
Qed.

(** *** Cash movements *)

Lemma stored_is_zero d : (exists n, ledger d n) -> dis_zero d = (amount d =? 0).
Proof. intros [n H]. rewrite (ledger_amount d n H). by apply ledger_is_zero. Qed.

Lemma cash_magnitude_units ty :
  exists m, (magnitude ← dabs position_context
               (if negb (dis_zero (tx_gross_transaction_amount t)) then tx_gross_transaction_amount t else tx_quantity t);
             if String.eqb ty "FEE" then
               match tx_net_cost_local t with
               | Some n => if negb (dis_zero n) then dabs position_context n else Ok magnitude
               | None => Ok magnitude
               end
             else Ok magnitude) = Ok m /\
    units (-10) m (cash_magnitude t ty) /\ 0 <= cash_magnitude t ty < 10 ^ 18.
Proof.
  destruct quantity_units, gross_units. destruct Ht as (_ & Hg & _ & Hl).
  unfold cash_magnitude. rewrite (stored_is_zero _ Hg). set (base := if g =? 0 then q else g).
  assert (exists m, dabs position_context (if negb (g =? 0) then tx_gross_transaction_amount t else tx_quantity t) = Ok m /\
            units (-10) m (Z.abs base) /\ Z.abs base < 10 ^ 18) as (m & -> & Hm & Hb).
  { unfold base. destruct (g =? 0); simpl; working; eauto. }
  simpl. destruct (String.eqb ty "FEE"); [|exists m; split; [done|split; [done|lia]]].
  destruct (tx_net_cost_local t) as [n|]; simpl; [|exists m; split; [done|split; [done|lia]]].
  rewrite (stored_is_zero _ Hl). destruct (stored_amount n Hl) as [Hn Bn].
  destruct (amount n =? 0); simpl; [exists m; split; [done|split; [done|lia]]|]. working.
  eexists. split; [done|]. split; [done|lia].
Qed.

Lemma cash_amount_units ty :
  In ty CASH_POSITION_DELTA_TRANSACTION_TYPES ->
  exists m, cash_position_amount_delta position_context t ty = Ok m /\
    units (-10) m (signed (cash_is_inflow t ty) (cash_magnitude t ty)) /\
    Z.abs (signed (cash_is_inflow t ty) (cash_magnitude t ty)) < 10 ^ 18.
Proof.
  intros Hty. destruct (cash_magnitude_units ty) as (m & Hm & Hu & Hb).
  apply bind_Ok in Hm as (m0 & Hm0 & Hm). unfold cash_position_amount_delta.
  rewrite Hm0. cbn [mbind result_bind]. rewrite Hm. cbn [mbind result_bind]. unfold cash_is_inflow.
  assert (Hneg : exists r, dneg position_context m = Ok r /\ units (-10) r (- cash_magnitude t ty)) by (working; eauto).
  destruct Hneg as (r & Hr & Hru).
  destruct (String.eqb_spec ty "ADJUSTMENT") as [->|Hne].
  - change (in_set "ADJUSTMENT" _) with true. cbv iota. unfold normalize_position_code.
    destruct (String.eqb _ "OUTFLOW"); simpl; [exists r|exists m]; (split; [done|split; [done|lia]]).
  - assert (in_set ty (CASH_POSITION_INFLOW_TRANSACTION_TYPES ++ ["ADJUSTMENT"]) =
            in_set ty CASH_POSITION_INFLOW_TRANSACTION_TYPES) as ->.
    { unfold in_set. rewrite existsb_app. simpl. rewrite (proj2 (String.eqb_neq _ _) Hne). by rewrite !orb_false_r. }
    destruct (in_set ty _); simpl; [exists m|exists r]; (split; [done|split; [done|lia]]).
Qed.

Lemma cash_cost_units o d n :
  opt_stored o -> units (-10) d n -> Z.abs n < 10 ^ 18 ->
  units (-10) (cost_delta_or true o d) (cash_cost_or o n) /\ Z.abs (cash_cost_or o n) < 10 ^ 18.
Proof.
  intros Ho Hd Hn. destruct o as [x|]; simpl; [|done]. destruct (stored_amount x Ho).
  rewrite (ledger_eq x dzero (amount x) 0); [|by split|apply ledger_dzero].
  by destruct (amount x =? 0).
Qed.

Lemma cash_reaches ty :
  In ty CASH_POSITION_DELTA_TRANSACTION_TYPES -> assert_cash_position_economics t ty = Ok tt ->
  let m := signed (cash_is_inflow t ty) (cash_magnitude t ty) in
  reaches (cash_delta_position_state s t ty)
    (b_add a {| b_quantity := m; b_cost := cash_cost_or (tx_net_cost t) m;
                b_cost_local := cash_cost_or (tx_net_cost_local t) m |}).
Proof.
  intros Hty Hok m. destruct state_units as ([] & [] & []).
  destruct (cash_amount_units ty Hty) as (d & Hd & Hdu & Hdb). fold m in Hdu, Hdb.
  unfold cash_delta_position_state, cash_position_deltas. rewrite Hok. cbn [mbind result_bind]. rewrite Hd.
  cbn [mbind result_bind].
  assert (String.eqb ty "ADJUSTMENT" ||
    in_set ty (CASH_POSITION_INFLOW_TRANSACTION_TYPES ++ CASH_POSITION_OUTFLOW_TRANSACTION_TYPES) = true) as ->.
  { by repeat (destruct Hty as [<-|Hty]; [reflexivity|]). }
  destruct Ht as (_ & _ & Hc & Hl).
  destruct (cash_cost_units _ d m Hc Hdu Hdb), (cash_cost_units _ d m Hl Hdu Hdb).
  working. working. working. by apply position_state_reaches.
Qed.

Lemma cash_sign_check ty f inflow o :
  opt_stored o ->
  match assert_one_cash_sign ty f inflow o with
  | Ok _ => match o with Some c => if inflow then 0 <= amount c else amount c <= 0 | None => True end
  | Raise e => (exists msg, e = CashPositionEconomicsError msg) /\
               exists c, o = Some c /\ if inflow then amount c < 0 else 0 < amount c
  end.
Proof.
  intros Ho. destruct o as [c|]; simpl; [|done]. rewrite (stored_is_zero _ Ho).
  destruct (Z.eqb_spec (amount c) 0) as [->|]; [by destruct inflow|]. destruct (stored_amount c Ho).
  rewrite (ledger_lt c dzero (amount c) 0), (ledger_lt dzero c 0 (amount c)) by (try split; try done; apply ledger_dzero).
  destruct inflow.
  - destruct (Z.ltb_spec (amount c) 0); [|lia]. split; eauto.
  - destruct (Z.ltb_spec 0 (amount c)); [|lia]. split; eauto.
Qed.

Lemma cash_directions_disjoint ty :
  In ty CASH_POSITION_INFLOW_TRANSACTION_TYPES -> ~ In ty CASH_POSITION_OUTFLOW_TRANSACTION_TYPES.
Proof. intros Hi Ho%in_set_true. by repeat (destruct Hi as [<-|Hi]; [discriminate Ho|]). Qed.

Lemma cash_economics_check ty :
  match assert_cash_position_economics t ty with
  | Ok _ => ~ cash_sign_contradiction t ty
  | Raise e => (exists msg, e = CashPositionEconomicsError msg) /\ cash_sign_contradiction t ty
  end.
Proof.
  destruct Ht as (_ & _ & Hc & Hl). unfold assert_cash_position_economics, cash_sign_contradiction.
  pose proof (cash_directions_disjoint ty) as Hd. destruct (in_set ty (_ ++ _)) eqn:E; cbn [negb].
  - pose proof (cash_sign_check ty "net_cost" (in_set ty CASH_POSITION_INFLOW_TRANSACTION_TYPES) _ Hc) as H1.
    pose proof (cash_sign_check ty "net_cost_local" (in_set ty CASH_POSITION_INFLOW_TRANSACTION_TYPES) _ Hl) as H2.
    assert (E2 : in_set ty CASH_POSITION_INFLOW_TRANSACTION_TYPES = false -> In ty CASH_POSITION_OUTFLOW_TRANSACTION_TYPES).
    { intros Hf. apply in_set_true, in_app_iff in E as [Hi%in_set_true|]; [congruence|done]. }
    pose proof (in_set_true ty CASH_POSITION_INFLOW_TRANSACTION_TYPES) as E1.
    destruct (assert_one_cash_sign ty "net_cost" _ _) as [u1|e1]; cbn [mbind result_bind];
      [destruct (assert_one_cash_sign ty "net_cost_local" _ _) as [u2|e2]|].
    + intros (c & Hcc & Hs2). destruct (in_set ty CASH_POSITION_INFLOW_TRANSACTION_TYPES);
        destruct Hcc as [Hcc|Hcc]; rewrite Hcc in *; naive_solver lia.
    + destruct H2 as [He (c & Hcc & Hsg)]. split; [done|]. exists c. split; [by right|].
      destruct (in_set ty CASH_POSITION_INFLOW_TRANSACTION_TYPES); [left|right]; naive_solver.
    + destruct H1 as [He (c & Hcc & Hsg)]. split; [done|]. exists c. split; [by left|].
      destruct (in_set ty CASH_POSITION_INFLOW_TRANSACTION_TYPES); [left|right]; naive_solver.
  - intros (c & _ & [[Hi _]|[Hi _]]); apply not_true_iff_false in E; apply E, in_set_true, in_app_iff; auto.
Qed.
End Handlers.

(** ** The whole transition *)

Lemma zeroed_refines s a : pos_refines s a -> exists s', zeroed_cost_basis_when_flat s = Ok s' /\ pos_refines s' (b_settle a).
Proof.
  intros Hs. unfold zeroed_cost_basis_when_flat, b_settle. pose proof Hs as (Hq & _ & _).
  rewrite (ledger_is_zero _ _ Hq). destruct (Z.eqb_spec (b_quantity a) 0) as [E|]; simpl; [|eauto].
  unfold position_state. rewrite E in Hq.
  rewrite (position_normalize (ps_quantity s) 0), (position_normalize dzero 0), (position_normalize dzero 0);
    [|apply units_dzero..|apply Hq].
  simpl. eexists. split; [done|]. split; [exact Hq|split; apply ledger_dzero].
Qed.

Lemma resolve_normal (t : BookedTransaction) :
  normalize_code (Some (resolve_effective_processing_transaction_type t)) = resolve_effective_processing_transaction_type t.
Proof.
  unfold resolve_effective_processing_transaction_type, normalize_processing_type, normalize_transaction_control_code.
  destruct (in_set _ _); apply normalize_code_idem.
Qed.

(** Every production type that declares a position effect has a handler. *)
Lemma handler_coverage k d :
  (k, d) ∈ TRANSACTION_TYPE_REGISTRY -> production_booking_allowed d = true -> position_effect d <> "none" ->
  position_update_handler k <> None.
Proof.
  assert (H : forallb (fun e => negb (production_booking_allowed (snd e)) || String.eqb (position_effect (snd e)) "none" ||
                match position_update_handler (fst e) with Some _ => true | None => false end)
              TRANSACTION_TYPE_REGISTRY = true) by (vm_compute; reflexivity).
  intros Hk Hp He. rewrite forallb_forall in H. apply list_elem_of_In, H in Hk. simpl in Hk.
  rewrite Hp, (proj2 (String.eqb_neq _ _) He) in Hk. simpl in Hk. by destruct (position_update_handler k).
Qed.

Lemma b_add_zero a : b_add a {| b_quantity := 0; b_cost := 0; b_cost_local := 0 |} = a.
Proof. destruct a. unfold b_add; simpl. f_equal; lia. Qed.

Lemma cash_dispatch t ty :
  In ty CASH_POSITION_DELTA_TRANSACTION_TYPES ->
  position_update_handler ty = Some cash_delta_position_state /\
  let m := signed (cash_is_inflow t ty) (cash_magnitude t ty) in
  position_delta t ty = {| b_quantity := m; b_cost := cash_cost_or (tx_net_cost t) m;
                           b_cost_local := cash_cost_or (tx_net_cost_local t) m |}.
Proof. intros H. by repeat (destruct H as [<-|H]; [split; reflexivity|]). Qed.

Lemma noncash_economics t ty :
  ~ In ty CASH_POSITION_DELTA_TRANSACTION_TYPES -> assert_cash_position_economics t ty = Ok tt.
Proof.
  intros Hn. unfold assert_cash_position_economics.
  destruct (in_set ty (_ ++ _)) eqn:E; [|done]. apply in_set_true in E. destruct Hn.
  unfold CASH_POSITION_DELTA_TRANSACTION_TYPES. rewrite !in_app_iff in *. naive_solver.
Qed.

Lemma noncash_reaches s a t ty h :
  pos_refines s a -> stored_transaction t -> ~ In ty CASH_POSITION_DELTA_TRANSACTION_TYPES ->
  position_update_handler ty = Some h -> reaches (h s t ty) (b_add a (position_delta t ty)).
Proof.
  intros Hs Ht Hn. unfold position_update_handler, position_delta. apply in_set_false in Hn.
  rewrite Hn. destruct (String.eqb ty "BUY"); [intros [= <-]; by apply buy_reaches|].
  destruct (in_set ty (["SELL"; _] ++ _)); [intros [= <-]; by apply sell_reaches|].
  destruct (in_set ty POSITION_TRANSFER_TRANSACTION_TYPES).
  { intros [= <-]. destruct (Z.leb_spec (amount (tx_quantity t)) 0); [|by apply transfer_reaches].
    rewrite transfer_nothing, b_add_zero by done. exact Hs. }
  destruct (in_set ty SAME_INSTRUMENT_CORPORATE_ACTION_TYPES); [intros [= <-]; by apply same_instrument_reaches|].
  destruct (in_set ty ["SPIN_OFF"; _]); [intros [= <-]; by apply spin_off_reaches|].
  destruct (String.eqb ty "FX_CONTRACT_OPEN");
    [intros [= <-]; apply quantity_delta_reaches; [done|apply (units_dint_ledger 1)|lia]|].
  destruct (String.eqb ty "FX_CONTRACT_CLOSE");
    [intros [= <-]; apply quantity_delta_reaches; [done|apply (units_dint_ledger (-1))|lia]|done].
Qed.

Lemma cash_raises s t ty e :
  assert_cash_position_economics t ty = Raise e -> cash_delta_position_state s t ty = Raise e.
Proof. intros H. unfold cash_delta_position_state, cash_position_deltas. by rewrite H. Qed.

Lemma no_handler_delta t ty :
  position_update_handler ty = None -> position_delta t ty = {| b_quantity := 0; b_cost := 0; b_cost_local := 0 |}.
Proof.
  unfold position_update_handler, position_delta.
  by repeat match goal with |- (if ?b then Some _ else _) = None -> _ => destruct b; [discriminate|] end.
Qed.

(** The outcome of one whole transition from the balance [a]. *)
Definition step_outcome (t : BookedTransaction) (a : Balance) (m : result PositionBalanceState) : Prop :=
  let ty := resolve_effective_processing_transaction_type t in
  let target := b_add a (position_delta t ty) in
  match m with
  | Ok s => pos_refines s (b_settle target) /\ b_in_range target /\ ~ cash_sign_contradiction t ty
  | Raise e => (is_overflow e /\ ~ b_in_range target) \/
               ((exists msg, e = CashPositionEconomicsError msg) /\ cash_sign_contradiction t ty)
  end.

Lemma reaches_outcome t a m :
  let ty := resolve_effective_processing_transaction_type t in
  stored_transaction t -> assert_cash_position_economics t ty = Ok tt ->
  reaches m (b_add a (position_delta t ty)) -> step_outcome t a (m ≫= zeroed_cost_basis_when_flat).
Proof.
  intros ty Ht Hok Hr. pose proof (cash_economics_check t Ht ty) as Hcheck. rewrite Hok in Hcheck.
  unfold step_outcome. fold ty. destruct m as [s1|e]; simpl; [|by left].
  destruct (zeroed_refines _ _ Hr) as (s2 & -> & Hs2). destruct Hr as ((_ & ?) & (_ & ?) & (_ & ?)).
  split; [done|]. split; [split; auto|done].
Qed.

Lemma unhandled_neutral s t :
  position_update_handler (resolve_effective_processing_transaction_type t) = None ->
  calculate_next_position_state s t = (Ok s ≫= zeroed_cost_basis_when_flat).
Proof.
  intros Hh. unfold calculate_next_position_state. rewrite Hh.
  destruct (get_transaction_type_definition _) as [d|] eqn:Ed; [|done].
  destruct (production_booking_allowed d) eqn:Ep; [|done].
  destruct (String.eqb_spec (position_effect d) "none") as [|Hne]; [done|].
  apply get_definition_elem in Ed. rewrite resolve_normal in Ed. by destruct (handler_coverage _ _ Ed Ep Hne).
Qed.

Lemma step_refines s a t :
  pos_refines s a -> stored_transaction t -> step_outcome t a (calculate_next_position_state s t).
Proof.
  intros Hs Ht. set (ty := resolve_effective_processing_transaction_type t).
  destruct (in_dec string_dec ty CASH_POSITION_DELTA_TRANSACTION_TYPES) as [Hin|Hin].
  - destruct (cash_dispatch t ty Hin) as [Hh Hdelta]. unfold calculate_next_position_state. fold ty. rewrite Hh.
    destruct (assert_cash_position_economics t ty) as [[]|e] eqn:E.
    + apply reaches_outcome; [done..|]. fold ty. rewrite Hdelta. by apply cash_reaches.
    + rewrite (cash_raises _ _ _ _ E). right. pose proof (cash_economics_check t Ht ty) as Hc. by rewrite E in Hc.
  - pose proof (noncash_economics t ty Hin) as Hok. destruct (position_update_handler ty) as [h|] eqn:Eh.
    + unfold calculate_next_position_state. fold ty. rewrite Eh. apply reaches_outcome; [done..|]. by apply noncash_reaches.
    + rewrite unhandled_neutral by done. apply reaches_outcome; [done..|]. fold ty.
      by rewrite (no_handler_delta t ty Eh), b_add_zero.
Qed.

(** *** Invariant: a balance is a ledger value, and a flat position carries no cost *)

Definition position_ok (s : PositionBalanceState) : Prop :=
  exists a, pos_refines s a /\ (b_quantity a = 0 -> b_cost a = 0 /\ b_cost_local a = 0).

Lemma position_state_ledger q c l s : position_state q c l = Ok s -> exists a, pos_refines s a.
Proof.
  intros H. unfold position_state in H. apply bind_Ok in H as (q' & Hq & (c' & Hc & (l' & Hl & [= <-])%bind_Ok)%bind_Ok).
  exists {| b_quantity := to_units policy q; b_cost := to_units policy c; b_cost_local := to_units policy l |}.
  split; [|split]; simpl; by eapply ledger_of_normalize.
Qed.

Lemma handler_ledger s t ty h s' a :
  pos_refines s a -> position_update_handler ty = Some h -> h s t ty = Ok s' -> exists a', pos_refines s' a'.
Proof.
  intros Ha. unfold position_update_handler.
  repeat match goal with |- (if ?b then Some _ else _) = Some _ -> _ => destruct b; [intros [= <-]|] end; [..|done];
    unfold buy_position_state, sell_position_state, cash_delta_position_state, transfer_position_state,
      same_instrument_action_state, spin_off_position_state, fx_contract_open_position_state,
      fx_contract_close_position_state, quantity_delta_position_state; intros H;
    try (destruct (dleb (tx_quantity t) dzero); [injection H as <-; by exists a|]);
    inv_ok; repeat (match type of H with (let '(_, _) := ?x in _) = _ => destruct x end; inv_ok);
    by eapply position_state_ledger.
Qed.

Lemma settled_ok s a : pos_refines s (b_settle a) -> position_ok s.
Proof.
  intros H. exists (b_settle a). split; [done|]. unfold b_settle.
  destruct (Z.eqb_spec (b_quantity a) 0); simpl; [done|lia].
Qed.

Lemma initial_position_ok : position_ok initial_position.
Proof. exists {| b_quantity := 0; b_cost := 0; b_cost_local := 0 |}. split; [|done]. repeat split; apply ledger_dzero. Qed.

Lemma next_position_ok s t s' : position_ok s -> calculate_next_position_state s t = Ok s' -> position_ok s'.
Proof.
  intros (a & Ha & _) H. destruct (position_update_handler (resolve_effective_processing_transaction_type t)) as [h|] eqn:Eh.
  - unfold calculate_next_position_state in H. rewrite Eh in H. apply bind_Ok in H as (s1 & Hh & Hz).
    destruct (handler_ledger _ _ _ _ _ _ Ha Eh Hh) as [a1 Ha1].
    destruct (zeroed_refines _ _ Ha1) as (s2 & Hs2 & Hr). rewrite Hs2 in Hz. injection Hz as <-. by apply settled_ok in Hr.
  - rewrite unhandled_neutral in H by done. simpl in H. destruct (zeroed_refines _ _ Ha) as (s2 & Hs2 & Hr).
    rewrite Hs2 in H. injection H as <-. by apply settled_ok in Hr.
Qed.

(** *** Direction of the quantity *)

(** The sign of the quantity change of a positive-quantity transaction; [None] when it depends on
    the booked movement direction. *)
Definition quantity_direction (ty : string) : option Z :=
  if String.eqb ty "BUY" then Some 1 else
  if in_set ty (["SELL"; "CASH_IN_LIEU"] ++ REDEMPTION_TRANSACTION_TYPES) then Some (-1) else
  if in_set ty CASH_POSITION_DELTA_TRANSACTION_TYPES then
    if String.eqb ty "ADJUSTMENT" then None
    else Some (if in_set ty CASH_POSITION_INFLOW_TRANSACTION_TYPES then 1 else -1) else
  if in_set ty POSITION_TRANSFER_TRANSACTION_TYPES then
    Some (if in_set ty POSITION_TRANSFER_INFLOW_TRANSACTION_TYPES then 1 else -1) else
  if in_set ty SAME_INSTRUMENT_CORPORATE_ACTION_TYPES then
    Some (if in_set ty SAME_INSTRUMENT_QUANTITY_DECREASE_TYPES then -1 else 1) else
  if in_set ty ["SPIN_OFF"; "DEMERGER_OUT"] then Some (-1) else
  if String.eqb ty "FX_CONTRACT_OPEN" then Some 1 else
  if String.eqb ty "FX_CONTRACT_CLOSE" then Some (-1) else Some 0.

Lemma cash_magnitude_pos t ty : 0 < amount (tx_quantity t) -> 0 < cash_magnitude t ty.
Proof.
  intros Hq. unfold cash_magnitude, cash_cost_or.
  destruct (Z.eqb_spec (amount (tx_gross_transaction_amount t)) 0), (String.eqb ty "FEE"), (tx_net_cost_local t) as [c|];
    try (destruct (Z.eqb_spec (amount c) 0)); lia.
Qed.

Lemma position_delta_direction t ty d :
  0 < amount (tx_quantity t) -> quantity_direction ty = Some d -> Z.sgn (b_quantity (position_delta t ty)) = d.
Proof.
  intros Hq. pose proof (cash_magnitude_pos t ty Hq). unfold quantity_direction, position_delta, cash_is_inflow, signed.
  destruct (String.eqb ty "BUY"); cbn [b_quantity]; [intros [= <-]; lia|].
  destruct (in_set ty (["SELL"; "CASH_IN_LIEU"] ++ REDEMPTION_TRANSACTION_TYPES)); cbn [b_quantity]; [intros [= <-]; lia|].
  destruct (in_set ty CASH_POSITION_DELTA_TRANSACTION_TYPES); cbn [b_quantity].
  { destruct (String.eqb ty "ADJUSTMENT"); [done|]. destruct (in_set ty _); intros [= <-]; cbn [b_quantity]; lia. }
  destruct (in_set ty POSITION_TRANSFER_TRANSACTION_TYPES); cbn [b_quantity].
  { rewrite (proj2 (Z.leb_gt _ _)) by lia. destruct (in_set ty _); intros [= <-]; cbn [b_quantity]; lia. }
  destruct (in_set ty SAME_INSTRUMENT_CORPORATE_ACTION_TYPES); cbn [b_quantity].
  { destruct (in_set ty SAME_INSTRUMENT_QUANTITY_DECREASE_TYPES); intros [= <-]; cbn [b_quantity negb]; lia. }
  destruct (in_set ty ["SPIN_OFF"; "DEMERGER_OUT"]); cbn [b_quantity]; [intros [= <-]; lia|].
  destruct (String.eqb ty "FX_CONTRACT_OPEN"); cbn [b_quantity]; [intros [= <-]; done|].
  destruct (String.eqb ty "FX_CONTRACT_CLOSE"); cbn [b_quantity]; intros [= <-]; done.
Qed.

(** The direction the registry declares. *)
Definition declared_direction (effect : string) : option Z :=
  if in_set effect ["increase"; "cash_increase"] then Some 1 else
  if in_set effect ["decrease"; "cash_decrease"] then Some (-1) else
  if String.eqb effect "none" then Some 0 else None.

Lemma declared_direction_agrees k d n :
  (k, d) ∈ TRANSACTION_TYPE_REGISTRY -> declared_direction (position_effect d) = Some n -> quantity_direction k = Some n.
Proof.
  assert (H : forallb (fun e => match declared_direction (position_effect (snd e)) with
                | None => true
                | Some n => match quantity_direction (fst e) with Some m => m =? n | None => false end
                end) TRANSACTION_TYPE_REGISTRY = true) by (vm_compute; reflexivity).
  intros Hk Hn. rewrite forallb_forall in H. apply list_elem_of_In, H in Hk. simpl in Hk. rewrite Hn in Hk.
  destruct (quantity_direction k) as [m|]; [|done]. by apply Z.eqb_eq in Hk as ->.
Qed.

(** ** Position history *)

Record PositionHistoryRecord := {
  ph_portfolio_id : string; ph_security_id : string; ph_transaction_id : string;
  ph_position_date : date;
  ph_quantity : decimal; ph_cost_basis : decimal; ph_cost_basis_local : decimal;
  ph_epoch : Z;
  ph_calculation_lineage : option CalculationLineage
}.

Definition balance (r : PositionHistoryRecord) : PositionBalanceState :=
  {| ps_quantity := ph_quantity r; ps_cost_basis := ph_cost_basis r; ps_cost_basis_local := ph_cost_basis_local r |}.

Record PositionRecalculationState := {
  rs_portfolio_id : string; rs_security_id : string; rs_epoch : Z; rs_watermark_date : date; rs_status : string
}.

Definition canonical_ordering_datetime (value : datetime) (field_name : string) : result datetime :=
  if is_naive value
  then Raise (PositionHistoryInvariantError ("Position-history " +:+ field_name +:+ " must be timezone-aware."))
  else Ok (astimezone_utc value).

(** The nine components of the replay key. *)
Record PositionTransactionOrderKey := {
  ok_date : date; ok_timestamp : datetime; ok_rank : Z; ok_sequence : Z; ok_target : string;
  ok_restatement_quantity : decimal; ok_restatement_id : string; ok_ingestion : datetime; ok_transaction_id : string
}.

Definition position_transaction_ordering_key (t : BookedTransaction) : result PositionTransactionOrderKey :=
  transaction_timestamp ← canonical_ordering_datetime (tx_transaction_date t) "transaction_date";
  ingestion_timestamp ← match tx_created_at t with
    | Some created => canonical_ordering_datetime created "created_at"
    | None => Ok {| dt_us := 0; dt_utcoffset := Some 0 |}
    end;
  let '(target_sequence, target_instrument_id) := corporate_action_target_order_key t in
  restatement ← same_time_restatement_order_key t (tx_quantity t);
  let '(restatement_quantity, restatement_id) := default (dzero, "") restatement in
  Ok {| ok_date := dt_date transaction_timestamp; ok_timestamp := transaction_timestamp;
        ok_rank := corporate_action_dependency_rank t; ok_sequence := target_sequence;
        ok_target := target_instrument_id; ok_restatement_quantity := restatement_quantity;
        ok_restatement_id := restatement_id; ok_ingestion := ingestion_timestamp;
        ok_transaction_id := tx_transaction_id t |}.

(** Tuple comparison; aware datetimes compare by instant, decimals by value. *)
Definition order_key_compare (x y : PositionTransactionOrderKey) : comparison :=
  lex (Z.compare (ok_date x) (ok_date y))
 (lex (Z.compare (dt_instant (ok_timestamp x)) (dt_instant (ok_timestamp y)))
 (lex (Z.compare (ok_rank x) (ok_rank y))
 (lex (Z.compare (ok_sequence x) (ok_sequence y))
 (lex (String.compare (ok_target x) (ok_target y))
 (lex (dcompare (ok_restatement_quantity x) (ok_restatement_quantity y))
 (lex (String.compare (ok_restatement_id x) (ok_restatement_id y))
 (lex (Z.compare (dt_instant (ok_ingestion x)) (dt_instant (ok_ingestion y)))
      (String.compare (ok_transaction_id x) (ok_transaction_id y))))))))).

Definition with_key (t : BookedTransaction) : result (PositionTransactionOrderKey * BookedTransaction) :=
  k ← position_transaction_ordering_key t; Ok (k, t).

Definition keyed_leb (x y : PositionTransactionOrderKey * BookedTransaction) : bool :=
  leb_of order_key_compare (fst x) (fst y).

(** [sorted(transactions, key=...)]: the keys are computed first, in input order. *)
Definition order_position_transactions (ts : list BookedTransaction) : result (list BookedTransaction) :=
  keyed ← mapR with_key ts;
  Ok (map snd (stable_sort keyed_leb keyed)).

Definition single_position_key (anchor : option PositionHistoryRecord) (ts : list BookedTransaction) : bool :=
  match ts with
  | [] => true
  | t0 :: _ =>
      forallb (fun t => String.eqb (tx_portfolio_id t) (tx_portfolio_id t0) &&
                        String.eqb (tx_security_id t) (tx_security_id t0)) ts &&
      match anchor with
      | None => true
      | Some r => String.eqb (ph_portfolio_id r) (tx_portfolio_id t0) &&
                  String.eqb (ph_security_id r) (tx_security_id t0)
      end
  end.

Definition require_single_position_key (anchor : option PositionHistoryRecord) (ts : list BookedTransaction)
  : result unit :=
  raise_if (negb (single_position_key anchor ts))
    (PositionHistoryInvariantError
       "Position history requires transactions and anchor for one portfolio-security key").

Definition optional_text (v : option string) : payload := match v with Some s => PStr s | None => PNone end.
Definition optional_decimal (v : option decimal) : payload := match v with Some d => PDecimal (Finite d) | None => PNone end.
Definition optional_lineage (v : option CalculationLineage) : payload :=
  match v with Some l => cl_lineage_payload l | None => PNone end.

Definition order_key_payload (k : PositionTransactionOrderKey) : payload :=
  PSeq [PDate (ok_date k); PDatetime (ok_timestamp k); PInt (ok_rank k); PInt (ok_sequence k); PStr (ok_target k);
        PDecimal (Finite (ok_restatement_quantity k)); PStr (ok_restatement_id k); PDatetime (ok_ingestion k);
        PStr (ok_transaction_id k)].

Definition position_history_lineage_input (previous : PositionBalanceState) (prior : option CalculationLineage)
  (t : BookedTransaction) (epoch : Z) : result payload :=
  key ← position_transaction_ordering_key t;
  Ok (PMap [
    ("epoch", PInt epoch);
    ("previous_balance", PMap [
      ("cost_basis", PDecimal (Finite (ps_cost_basis previous)));
      ("cost_basis_local", PDecimal (Finite (ps_cost_basis_local previous)));
      ("quantity", PDecimal (Finite (ps_quantity previous)))]);
    ("prior_calculation_lineage", optional_lineage prior);
    ("transaction", PMap [
      ("booked_transaction_type", PStr (tx_transaction_type t));
      ("calculation_lineage", optional_lineage (tx_calculation_lineage t));
      ("component_type", optional_text (tx_component_type t));
      ("effective_processing_transaction_type", PStr (resolve_effective_processing_transaction_type t));
      ("gross_transaction_amount", PDecimal (Finite (tx_gross_transaction_amount t)));
      ("movement_direction", optional_text (tx_movement_direction t));
      ("net_cost", optional_decimal (tx_net_cost t));
      ("net_cost_local", optional_decimal (tx_net_cost_local t));
      ("ordering_key", order_key_payload key);
      ("portfolio_id", PStr (tx_portfolio_id t));
      ("quantity", PDecimal (Finite (tx_quantity t)));
      ("security_id", PStr (tx_security_id t));
      ("transaction_id", PStr (tx_transaction_id t))])]).

(** The payload a record's lineage binds. *)
Definition position_output_payload (s : PositionBalanceState) (epoch : Z) (portfolio_id security_id transaction_id : string)
  (position_date : date) : payload :=
  PMap [("cost_basis", PDecimal (Finite (ps_cost_basis s)));
        ("cost_basis_local", PDecimal (Finite (ps_cost_basis_local s)));
        ("epoch", PInt epoch);
        ("portfolio_id", PStr portfolio_id);
        ("position_date", PDate position_date);
        ("quantity", PDecimal (Finite (ps_quantity s)));
        ("security_id", PStr security_id);
        ("transaction_id", PStr transaction_id)].

Section History.
Context `{hashing : Hashing}.

(** The body of the loop: the record after one transaction. *)
Definition next_record (previous : PositionBalanceState) (prior : option CalculationLineage) (epoch : Z)
  (t : BookedTransaction) : result PositionHistoryRecord :=
  ts ← canonical_ordering_datetime (tx_transaction_date t) "transaction_date";
  let position_date := dt_date ts in
  current ← calculate_next_position_state previous t;
  input ← position_history_lineage_input previous prior t epoch;
  np ← lineage_identity policy;
  l ← build_calculation_lineage "position-history-state-transition" 1 (cp_working_precision policy) input
        (position_output_payload current epoch (tx_portfolio_id t) (tx_security_id t) (tx_transaction_id t) position_date)
        (Some np);
  Ok {| ph_portfolio_id := tx_portfolio_id t; ph_security_id := tx_security_id t;
        ph_transaction_id := tx_transaction_id t; ph_position_date := position_date;
        ph_quantity := ps_quantity current; ph_cost_basis := ps_cost_basis current;
        ph_cost_basis_local := ps_cost_basis_local current; ph_epoch := epoch;
        ph_calculation_lineage := Some l |}.

Fixpoint history_loop (previous : PositionBalanceState) (prior : option CalculationLineage) (epoch : Z)
  (ts : list BookedTransaction) : result (list PositionHistoryRecord) :=
  match ts with
  | [] => Ok []
  | t :: ts' =>
      r ← next_record previous prior epoch t;
      rs ← history_loop (balance r) (ph_calculation_lineage r) epoch ts';
      Ok (r :: rs)
  end.

Definition start_balance (anchor : option PositionHistoryRecord) : PositionBalanceState :=
  match anchor with Some r => balance r | None => initial_position end.

Definition start_lineage (anchor : option PositionHistoryRecord) : option CalculationLineage :=
  match anchor with Some r => ph_calculation_lineage r | None => None end.

Definition build_position_history (anchor : option PositionHistoryRecord) (ts : list BookedTransaction) (epoch : Z)
  : result (list PositionHistoryRecord) :=
  ordered ← order_position_transactions ts;
  match ordered with
  | [] => Ok []
  | _ =>
      _ ← require_single_position_key anchor ordered;
      history_loop (start_balance anchor) (start_lineage anchor) epoch ordered
  end.
End History.

(** *** Replay order *)

#[export] Instance order_key_comparer : Comparer order_key_compare.
Proof.
  unfold order_key_compare.
  repeat (apply lex_comparer;
    [first [apply (on_comparer ok_date Z.compare) | apply (on_comparer (fun k => dt_instant (ok_timestamp k)) Z.compare)
     | apply (on_comparer ok_rank Z.compare) | apply (on_comparer ok_sequence Z.compare)
     | apply (on_comparer ok_target String.compare) | apply (on_comparer ok_restatement_quantity dcompare)
     | apply (on_comparer ok_restatement_id String.compare)
     | apply (on_comparer (fun k => dt_instant (ok_ingestion k)) Z.compare)]; typeclasses eauto|]).
  apply (on_comparer ok_transaction_id String.compare); typeclasses eauto.
Qed.

Lemma keyed_leb_total x y : keyed_leb x y = true \/ keyed_leb y x = true.
Proof. apply leb_of_total, _. Qed.

Lemma keyed_leb_trans x y z : keyed_leb x y = true -> keyed_leb y z = true -> keyed_leb x z = true.
Proof. apply leb_of_trans, _. Qed.

(** Keys that compare equal belong to transactions with the same identifier. *)
Lemma order_key_eq_id x y : order_key_compare x y = Eq -> ok_transaction_id x = ok_transaction_id y.
Proof.
  unfold order_key_compare, lex. intros H. repeat (case_match; try discriminate). by apply String.compare_eq_iff.
Qed.

Lemma with_key_id t k t' : with_key t = Ok (k, t') -> t' = t /\ position_transaction_ordering_key t = Ok k /\
  ok_transaction_id k = tx_transaction_id t.
Proof.
  unfold with_key. intros (k' & Hk & [= <- <-])%bind_Ok. split; [done|]. split; [done|].
  unfold position_transaction_ordering_key in Hk. inv_ok.
  destruct (corporate_action_target_order_key t). inv_ok. destruct (default _ _). by inv_ok.
Qed.

Lemma keyed_elem ts ks k t : mapR with_key ts = Ok ks -> (k, t) ∈ ks ->
  t ∈ ts /\ position_transaction_ordering_key t = Ok k /\ ok_transaction_id k = tx_transaction_id t.
Proof.
  intros HF%mapR_Forall2. revert k t. induction HF as [|t0 [k0 t0'] ts ks Ht HF IH]; intros k t Hin; [by apply elem_of_nil in Hin|].
  apply with_key_id in Ht as (-> & Hk & Hid). apply elem_of_cons in Hin as [[= -> ->]|Hin]; [split; [by left|done]|].
  destruct (IH _ _ Hin). split; [by right|done].
Qed.

Lemma keyed_snd ts ks : mapR with_key ts = Ok ks -> map snd ks = ts.
Proof.
  intros HF%mapR_Forall2. induction HF as [|t0 [k0 t0'] ts ks Ht HF IH]; simpl; [done|].
  apply with_key_id in Ht as (-> & _ & _). by rewrite IH.
Qed.

Lemma ids_inj ts t t' :
  NoDup (map tx_transaction_id ts) -> t ∈ ts -> t' ∈ ts -> tx_transaction_id t = tx_transaction_id t' -> t = t'.
Proof.
  induction ts as [|t0 ts IH]; simpl; [by intros _ ?%elem_of_nil|]. rewrite NoDup_cons, !elem_of_cons.
  intros [Hn Hd] [->|H1] [->|H2] E; try done; [| |by apply IH]; destruct Hn.
  - rewrite E. by apply (list_elem_of_fmap_2 tx_transaction_id).
  - rewrite <- E. by apply (list_elem_of_fmap_2 tx_transaction_id).
Qed.

Lemma order_transactions_perm ts ts' o :
  NoDup (map tx_transaction_id ts) -> ts ≡ₚ ts' ->
  order_position_transactions ts = Ok o -> order_position_transactions ts' = Ok o.
Proof.
  intros Hd Hp (ks & Hks & [= <-])%bind_Ok. unfold order_position_transactions.
  destruct (mapR_perm _ _ _ _ Hp Hks) as (ks' & -> & Hpk). simpl. do 2 f_equal. symmetry.
  apply stable_sort_perm_eq; [apply keyed_leb_total|apply keyed_leb_trans| |done].
  intros [k1 t1] [k2 t2] H1 H2 L1 L2.
  destruct (keyed_elem _ _ _ _ Hks H1) as (I1 & K1 & D1), (keyed_elem _ _ _ _ Hks H2) as (I2 & K2 & D2).
  pose proof (leb_of_antisym order_key_compare k1 k2 L1 L2) as E.
  apply order_key_eq_id in E. rewrite D1, D2 in E. pose proof (ids_inj _ _ _ Hd I1 I2 E) as ->. congruence.
Qed.

Lemma order_transactions_app ts1 ts2 o1 o2 :
  (forall t1 t2 k1 k2, t1 ∈ ts1 -> t2 ∈ ts2 -> position_transaction_ordering_key t1 = Ok k1 ->
     position_transaction_ordering_key t2 = Ok k2 -> leb_of order_key_compare k1 k2 = true) ->
  order_position_transactions ts1 = Ok o1 -> order_position_transactions ts2 = Ok o2 ->
  order_position_transactions (ts1 ++ ts2)%list = Ok (o1 ++ o2)%list.
Proof.
  intros Hle (ks1 & H1 & [= <-])%bind_Ok (ks2 & H2 & [= <-])%bind_Ok. unfold order_position_transactions.
  rewrite (mapR_app _ _ _ _ _ H1 H2). simpl. rewrite stable_sort_app; [by rewrite map_app|].
  apply Forall_forall. intros [k1 t1] I1. apply Forall_forall. intros [k2 t2] I2.
  destruct (keyed_elem _ _ _ _ H1 I1) as (? & ? & _), (keyed_elem _ _ _ _ H2 I2) as (? & ? & _).
  by apply (Hle t1 t2).
Qed.

Lemma order_transactions_elem ts o : order_position_transactions ts = Ok o -> o ≡ₚ ts.
Proof.
  intros (ks & Hk & [= <-])%bind_Ok. rewrite <- (keyed_snd _ _ Hk). apply Permutation_map, stable_sort_perm.
Qed.

(** *** The loop as a fold of transitions *)

(** The balances after each transaction, without the records that carry them. *)
Fixpoint replay (s : PositionBalanceState) (ts : list BookedTransaction) : result (list PositionBalanceState) :=
  match ts with
  | [] => Ok []
  | t :: ts' => s' ← calculate_next_position_state s t; rest ← replay s' ts'; Ok (s' :: rest)
  end.

Section HistoryProofs.
Context `{hashing : Hashing}.

(** A record reports its transaction, its date and the balance its lineage binds. *)
Definition record_reports (epoch : Z) (t : BookedTransaction) (r : PositionHistoryRecord) : Prop :=
  ph_portfolio_id r = tx_portfolio_id t /\ ph_security_id r = tx_security_id t /\
  ph_transaction_id r = tx_transaction_id t /\ ph_epoch r = epoch /\
  ph_position_date r = dt_date (astimezone_utc (tx_transaction_date t)) /\
  exists l, ph_calculation_lineage r = Some l /\
    calculation_lineage_binds_output l
      (position_output_payload (balance r) epoch (ph_portfolio_id r) (ph_security_id r) (ph_transaction_id r)
         (ph_position_date r)) = Ok true.

Lemma next_record_Ok s prior epoch t r :
  next_record s prior epoch t = Ok r ->
  calculate_next_position_state s t = Ok (balance r) /\ record_reports epoch t r.
Proof.
  unfold next_record, canonical_ordering_datetime. destruct (is_naive _); [done|]. simpl.
  intros ([q c l'] & Hc & (input & _ & (l & Hl & [= <-])%bind_Ok)%bind_Ok)%bind_Ok.
  split; [done|]. unfold record_reports, balance; simpl. repeat split.
  eexists; split; [done|]. by eapply lineage_binds_own.
Qed.

Lemma history_loop_Ok s prior epoch ts rs :
  history_loop s prior epoch ts = Ok rs -> replay s ts = Ok (map balance rs) /\ Forall2 (record_reports epoch) ts rs.
Proof.
  revert s prior rs. induction ts as [|t ts IH]; simpl; intros s prior rs H; [injection H as <-; by split|].
  apply bind_Ok in H as (r & [Hn Hr]%next_record_Ok & (rs' & H0 & [= <-])%bind_Ok). destruct (IH _ _ _ H0) as [H1 H2]. rewrite Hn. simpl. rewrite H1. simpl. auto with lotus.
Qed.

Lemma history_loop_app s prior epoch ts1 ts2 rs1 rs2 :
  history_loop s prior epoch ts1 = Ok rs1 ->
  history_loop (from_option balance s (last rs1)) (from_option ph_calculation_lineage prior (last rs1)) epoch ts2 = Ok rs2 ->
  history_loop s prior epoch (ts1 ++ ts2)%list = Ok (rs1 ++ rs2)%list.
Proof.
  revert s prior rs1. induction ts1 as [|t ts1 IH]; simpl; intros s prior rs1 H1 H2.
  - injection H1 as <-. exact H2.
  - apply bind_Ok in H1 as (r & Hr & (rs & Hrs & [= <-])%bind_Ok). rewrite Hr. simpl.
    rewrite (IH _ _ _ Hrs); [done|]. rewrite last_cons in H2. by destruct (last rs).
Qed.

Lemma canonical_ordering_datetime_Ok v f d : canonical_ordering_datetime v f = Ok d -> d = astimezone_utc v.
Proof. unfold canonical_ordering_datetime. destruct (is_naive v); [done|]. by intros [= <-]. Qed.

Lemma ordering_key_aware t k :
  position_transaction_ordering_key t = Ok k ->
  is_naive (tx_transaction_date t) = false /\ is_naive (ok_timestamp k) = false /\ is_naive (ok_ingestion k) = false.
Proof.
  unfold position_transaction_ordering_key. intros (ts & Hts & (ing & Hing & H)%bind_Ok)%bind_Ok.
  assert (is_naive (tx_transaction_date t) = false) as Hn by (unfold canonical_ordering_datetime in Hts; by destruct (is_naive _)).
  apply canonical_ordering_datetime_Ok in Hts as ->. destruct (corporate_action_target_order_key t).
  apply bind_Ok in H as (r & _ & H). destruct (default _ r). injection H as <-. simpl. split; [done|]. split; [done|].
  destruct (tx_created_at t); [by apply canonical_ordering_datetime_Ok in Hing as ->|by injection Hing as <-].
Qed.

Lemma optional_lineage_normal v : is_ok (normalize_lineage_value (optional_lineage v)) = true.
Proof. destruct v as [l|]; [|done]. simpl. by destruct (cl_numeric_output_policy l). Qed.

Lemma optional_text_normal v : is_ok (normalize_lineage_value (optional_text v)) = true.
Proof. by destruct v. Qed.

Lemma optional_decimal_normal v : is_ok (normalize_lineage_value (optional_decimal v)) = true.
Proof. by destruct v. Qed.

Lemma datetime_normal d : is_naive d = false -> is_ok (normalize_lineage_value (PDatetime d)) = true.
Proof. by destruct d as [u [o|]]. Qed.

#[local] Hint Resolve optional_lineage_normal optional_text_normal optional_decimal_normal datetime_normal : lotus.

Lemma lineage_input_normal s prior t epoch k :
  position_transaction_ordering_key t = Ok k ->
  exists p, position_history_lineage_input s prior t epoch = Ok p /\ is_ok (normalize_lineage_value p) = true.
Proof.
  intros Hk. unfold position_history_lineage_input. rewrite Hk. eexists; split; [reflexivity|].
  destruct (ordering_key_aware t k Hk) as (_ & H1 & H2).
  assert (Hkey : is_ok (normalize_lineage_value (order_key_payload k)) = true)
    by (apply normalize_seq_ok; repeat (apply Forall_cons; split; [auto with lotus; reflexivity|]); constructor).
  repeat (first [apply normalize_map_ok | apply Forall_nil_2 | apply Forall_cons_2; [split; [reflexivity|]|]];
          cbn [snd]); auto with lotus.
Qed.

Lemma position_policy_identity : exists np, lineage_identity policy = Ok np.
Proof. eexists. vm_compute. reflexivity. Qed.

Lemma next_record_total {hashing_ok : HashingOk} s prior epoch t k s' :
  position_transaction_ordering_key t = Ok k -> calculate_next_position_state s t = Ok s' ->
  exists r, next_record s prior epoch t = Ok r /\ balance r = s'.
Proof.
  intros Hk Hs. destruct (ordering_key_aware t k Hk) as (Hn & _). destruct (lineage_input_normal s prior t epoch k Hk) as (p & Hp & Hok).
  unfold next_record, canonical_ordering_datetime. rewrite Hn. cbn [mbind result_bind]. rewrite Hs. cbn [mbind result_bind].
  rewrite Hp. cbn [mbind result_bind]. destruct position_policy_identity as [np ->]. cbn [mbind result_bind].
  edestruct build_calculation_lineage_total as [l ->]; [reflexivity|lia|reflexivity|exact Hok|reflexivity|].
  eexists. split; [done|]. by destruct s'.
Qed.

Lemma history_loop_total {hashing_ok : HashingOk} s prior epoch ts ss :
  Forall (fun t => is_ok (position_transaction_ordering_key t) = true) ts -> replay s ts = Ok ss ->
  exists rs, history_loop s prior epoch ts = Ok rs /\ map balance rs = ss.
Proof.
  intros HF. revert s prior ss. induction HF as [|t ts Ht HF IH]; simpl; intros s prior ss Hss.
  - injection Hss as <-. by exists [].
  - apply bind_Ok in Hss as (s' & Hs & (rest & Hrest & [= <-])%bind_Ok).
    destruct (position_transaction_ordering_key t) as [k|] eqn:Hk; [|done].
    destruct (next_record_total s prior epoch t k s' Hk Hs) as (r & -> & <-).
    destruct (IH _ (ph_calculation_lineage r) _ Hrest) as (rs & Hrs & <-). exists (r :: rs). simpl. by rewrite Hrs.
Qed.

Lemma ordered_keys_ok ts o :
  order_position_transactions ts = Ok o -> Forall (fun t => is_ok (position_transaction_ordering_key t) = true) o.
Proof.
  intros Ho. pose proof (order_transactions_elem _ _ Ho) as Hp. rewrite Hp.
  apply bind_Ok in Ho as (ks & HF%mapR_Forall2 & _). clear Hp. induction HF as [|t [k t'] ts ks Ht HF IH]; constructor; [|done].
  apply with_key_id in Ht as (_ & Hk & _). by rewrite Hk.
Qed.

Lemma replay_ok s ts ss : position_ok s -> replay s ts = Ok ss -> Forall position_ok ss.
Proof.
  revert s ss. induction ts as [|t ts IH]; simpl; intros s ss Hs H; [injection H as <-; constructor|].
  apply bind_Ok in H as (s' & Hs' & (rest & Hr & [= <-])%bind_Ok). pose proof (next_position_ok _ _ _ Hs Hs').
  constructor; [done|]. by eapply IH.
Qed.

(** The recursion of [build_position_history] without its empty-input shortcut. *)
Lemma build_history_inv anchor ts epoch rs :
  build_position_history anchor ts epoch = Ok rs <->
  exists o, order_position_transactions ts = Ok o /\ single_position_key anchor o = true /\
    history_loop (start_balance anchor) (start_lineage anchor) epoch o = Ok rs.
Proof.
  unfold build_position_history. rewrite bind_Ok. split.
  - intros (o & Ho & H). exists o. split; [done|]. destruct o as [|t o]; [done|].
    apply bind_Ok in H as (u & Hu%raise_if_Ok & H). by rewrite negb_false_iff in Hu.
  - intros (o & Ho & Hk & H). exists o. split; [done|]. destruct o as [|t o]; [done|].
    unfold require_single_position_key. by rewrite Hk.
Qed.

Lemma single_key_app anchor ts1 ts2 epoch rs r :
  single_position_key anchor ts1 = true -> Forall2 (record_reports epoch) ts1 rs -> last rs = Some r ->
  single_position_key (Some r) ts2 = true -> single_position_key anchor (ts1 ++ ts2)%list = true.
Proof.
  intros H1 HF Hl H2. destruct ts1 as [|t0 ts1]; [by inversion HF; subst|]. simpl in H1 |- *.
  rewrite !String.eqb_refl in *. cbn [andb] in *. apply andb_true_iff in H1 as [Ha Han]. rewrite Han, andb_true_r, forallb_app, Ha.
  simpl. destruct ts2 as [|u0 ts2]; [done|]. simpl in H2. apply andb_true_iff in H2 as [H2 Hr].
  apply andb_true_iff in Hr as [Hp%String.eqb_eq Hq%String.eqb_eq].
  assert (ph_portfolio_id r = tx_portfolio_id t0 /\ ph_security_id r = tx_security_id t0) as [Ep Eq].
  { apply last_Some_elem_of in Hl. eapply Forall2_elem_of_r in Hl as (t & Ht & Hrep); [|exact HF].
    destruct Hrep as (-> & -> & _). apply elem_of_cons in Ht as [->|Ht]; [done|].
    rewrite forallb_forall in Ha. apply list_elem_of_In, Ha in Ht. by apply andb_true_iff in Ht as [->%String.eqb_eq ->%String.eqb_eq]. }
  rewrite <- Ep, <- Eq, Hp, Hq. exact H2.
Qed.
End HistoryProofs.

(** *** The replay as a specification

    Which of two transactions is replayed first, read off the transactions: the earlier instant; then the rank and the
    target of a corporate action; then, of restatements, the larger quantity; then the arrival; then the identifier. *)

Definition restates (t : BookedTransaction) : bool :=
  in_set (normalize_corporate_action_transaction_type (Some (tx_transaction_type t))) SAME_INSTRUMENT_CORPORATE_ACTION_TYPES.
Definition restated_quantity (t : BookedTransaction) : Z := if restates t then amount (tx_quantity t) else 0.
Definition restatement_id (t : BookedTransaction) : string := if restates t then tx_transaction_id t else "".
Definition arrival (t : BookedTransaction) : Z := from_option dt_instant 0 (tx_created_at t).

Definition replay_precedence (t u : BookedTransaction) : comparison :=
  lex (Z.compare (dt_instant (tx_transaction_date t)) (dt_instant (tx_transaction_date u)))
 (lex (Z.compare (corporate_action_dependency_rank t) (corporate_action_dependency_rank u))
 (lex (Z.compare (fst (corporate_action_target_order_key t)) (fst (corporate_action_target_order_key u)))
 (lex (String.compare (snd (corporate_action_target_order_key t)) (snd (corporate_action_target_order_key u)))
 (lex (Z.compare (restated_quantity u) (restated_quantity t))
 (lex (String.compare (restatement_id t) (restatement_id u))
 (lex (Z.compare (arrival t) (arrival u)) (String.compare (tx_transaction_id t) (tx_transaction_id u)))))))).

(** Timestamps that say where they are on the time line. *)
Definition aware (t : BookedTransaction) : Prop :=
  is_naive (tx_transaction_date t) = false /\ forall c, tx_created_at t = Some c -> is_naive c = false.

Definition one_position (anchor : option PositionHistoryRecord) (ts : list BookedTransaction) : Prop :=
  exists portfolio security, Forall (fun t => tx_portfolio_id t = portfolio /\ tx_security_id t = security) ts /\
    match anchor with Some r => ph_portfolio_id r = portfolio /\ ph_security_id r = security | None => True end.

(** The balances of the specification after each transaction, and that they stay where the code can follow. *)
Fixpoint spec_balances (a : Balance) (ts : list BookedTransaction) : list Balance :=
  match ts with
  | [] => []
  | t :: ts' => let b := b_settle (b_add a (position_delta t (resolve_effective_processing_transaction_type t))) in b :: spec_balances b ts'
  end.

Fixpoint admissible (a : Balance) (ts : list BookedTransaction) : Prop :=
  match ts with
  | [] => True
  | t :: ts' =>
      let ty := resolve_effective_processing_transaction_type t in
      let target := b_add a (position_delta t ty) in
      b_in_range target /\ ~ cash_sign_contradiction t ty /\ admissible (b_settle target) ts'
  end.

Lemma replay_spec s a ts : pos_refines s a -> Forall stored_transaction ts ->
  match replay s ts with Ok ss => Forall2 pos_refines ss (spec_balances a ts) /\ admissible a ts | Raise _ => ~ admissible a ts end.
Proof.
  intros Hs HF. revert s a Hs. induction HF as [|t ts Ht _ IH]; intros s a Hs; [by split; [constructor|]|].
  pose proof (step_refines s a t Hs Ht) as Hstep. cbn [replay spec_balances admissible]. unfold step_outcome in Hstep.
  destruct (calculate_next_position_state s t) as [s'|e]; cbn [mbind result_bind].
  - destruct Hstep as (Hs' & Hin & Hno). specialize (IH s' _ Hs'). destruct (replay s' ts) as [rest|e]; cbn [mbind result_bind]; [|tauto].
    destruct IH as [H1 H2]. split; [by constructor|done].
  - destruct Hstep as [[_ ?]|[_ ?]]; tauto.
Qed.

(** What the components of the replay key of a stored transaction are. *)
Record keyed_by (t : BookedTransaction) (k : PositionTransactionOrderKey) : Prop := {
  kb_date : ok_date k = dt_instant (tx_transaction_date t) / us_per_day;
  kb_instant : dt_instant (ok_timestamp k) = dt_instant (tx_transaction_date t);
  kb_rank : ok_rank k = corporate_action_dependency_rank t;
  kb_target : (ok_sequence k, ok_target k) = corporate_action_target_order_key t;
  kb_restated : units (-10) (ok_restatement_quantity k) (- restated_quantity t);
  kb_restatement_id : ok_restatement_id k = restatement_id t;
  kb_arrival : dt_instant (ok_ingestion k) = arrival t;
  kb_id : ok_transaction_id k = tx_transaction_id t
}.

Lemma utc_instant d : dt_instant (astimezone_utc d) = dt_instant d.
Proof. unfold dt_instant, astimezone_utc. cbn. lia. Qed.

Lemma restated_total t : stored_transaction t -> exists r, same_time_restatement_order_key t (tx_quantity t) = Ok r /\
  units (-10) (fst (default (dzero, "") r)) (- restated_quantity t) /\ snd (default (dzero, "") r) = restatement_id t.
Proof.
  intros (Hq & _). apply stored_amount in Hq as [Uq Bq]. unfold same_time_restatement_order_key, restated_quantity, restatement_id. cbn [ca_transaction_type ca_transaction_id booked_orderable].
  fold (restates t). destruct (restates t); [|eexists; split; [done|]; split; [apply units_dzero|done]].
  destruct (dfix_units default_context (-10) (neg_exact (tx_quantity t)) (- amount (tx_quantity t))) as (r & Hr & Ur).
  - apply make_context_wide. lia.
  - lia.
  - by apply units_neg.
  - change (10 ^ prec default_context) with (10 ^ 28). lia.
  - unfold dneg. rewrite Hr. eexists. split; [done|]. done.
Qed.

Lemma ordering_key_total t : aware t -> stored_transaction t -> exists k, position_transaction_ordering_key t = Ok k.
Proof.
  intros [Hd Hc] (r & Hr & _)%restated_total. unfold position_transaction_ordering_key, canonical_ordering_datetime. rewrite Hd. cbn [mbind result_bind].
  assert (Hi : exists i, (match tx_created_at t with Some c => if is_naive c then Raise (PositionHistoryInvariantError ("Position-history " +:+ "created_at" +:+ " must be timezone-aware."))
    else Ok (astimezone_utc c) | None => Ok {| dt_us := 0; dt_utcoffset := Some 0 |} end) = Ok i).
  { destruct (tx_created_at t) as [c|]; [rewrite (Hc c eq_refl)|]; by eexists. }
  destruct Hi as (i & ->). cbn [mbind result_bind]. destruct (corporate_action_target_order_key t). rewrite Hr. cbn [mbind result_bind].
  destruct (default _ r). by eexists.
Qed.

Lemma ordering_key_by t k : stored_transaction t -> position_transaction_ordering_key t = Ok k -> keyed_by t k.
Proof.
  intros (r & Hr & Uq & Eid)%restated_total. unfold position_transaction_ordering_key. intros (ts & Hts%canonical_ordering_datetime_Ok & (ing & Hing & H)%bind_Ok)%bind_Ok.
  subst ts. destruct (corporate_action_target_order_key t) as [sequence target] eqn:Et. rewrite Hr in H. cbn [mbind result_bind] in H.
  destruct (default _ r) as [q i]. injection H as <-. split; cbn; try done.
  - apply utc_instant.
  - unfold arrival. destruct (tx_created_at t); [apply canonical_ordering_datetime_Ok in Hing as ->; apply utc_instant|by injection Hing as <-].
Qed.

(** The date of an instant adds nothing to the order of instants. *)
Lemma date_of_instant x y c : lex (Z.compare (x / us_per_day) (y / us_per_day)) (lex (Z.compare x y) c) = lex (Z.compare x y) c.
Proof.
  assert (P : 0 < us_per_day) by done. destruct (Z.compare_spec (x / us_per_day) (y / us_per_day)) as [E|E|E]; cbn [lex]; [done|..];
    destruct (Z.compare_spec x y) as [->|L|L]; cbn [lex]; try done; try lia;
    [pose proof (Z.div_le_mono y x us_per_day P)|pose proof (Z.div_le_mono x y us_per_day P)]; lia.
Qed.

Lemma key_precedence t u k l : keyed_by t k -> keyed_by u l -> order_key_compare k l = replay_precedence t u.
Proof.
  intros [D1 I1 R1 T1 Q1 N1 A1 J1] [D2 I2 R2 T2 Q2 N2 A2 J2]. unfold order_key_compare, replay_precedence.
  rewrite D1, D2, I1, I2, R1, R2, <- T1, <- T2, N1, N2, A1, A2, J1, J2, date_of_instant. cbn [fst snd].
  assert (dcompare (ok_restatement_quantity k) (ok_restatement_quantity l) = Z.compare (restated_quantity u) (restated_quantity t)) as ->; [|done].
  rewrite dcompare_spec, (units_compare (-10) _ _ _ _ Q1 Q2). apply Z.compare_opp.
Qed.

Lemma ordered_by_precedence ts o : Forall stored_transaction ts -> order_position_transactions ts = Ok o ->
  StronglySorted (fun t u => replay_precedence t u <> Gt) o.
Proof.
  intros Hst (ks & Hks & [= <-])%bind_Ok. assert (Hk : Forall (fun x => keyed_by (snd x) (fst x)) (stable_sort keyed_leb ks)).
  { rewrite stable_sort_perm. apply Forall_forall. intros [k t] (Hin & Hk & _)%(keyed_elem _ _ _ _ Hks). apply ordering_key_by; [|done].
    exact (proj1 (Forall_forall _ _) Hst t Hin). }
  pose proof (stable_sort_sorted keyed_leb keyed_leb_total keyed_leb_trans ks) as Hs. induction Hs as [|[k t] xs _ IH Hf]; [constructor|].
  apply Forall_cons in Hk as [Hkt Hk]. cbn [map snd]. constructor; [by apply IH|]. apply Forall_forall. intros u ([l u'] & -> & Hu)%list_elem_of_fmap.
  pose proof (proj1 (Forall_forall _ _) Hf _ Hu) as Hle. pose proof (proj1 (Forall_forall _ _) Hk _ Hu) as Hlu. cbn [fst snd] in *.
  rewrite <- (key_precedence _ _ _ _ Hkt Hlu). unfold keyed_leb, leb_of in Hle. cbn [fst] in Hle. by destruct (order_key_compare k l).
Qed.

Lemma order_total ts : Forall aware ts -> Forall stored_transaction ts -> exists o, order_position_transactions ts = Ok o.
Proof.
  intros Ha Hs. assert (H : exists ks, mapR with_key ts = Ok ks); [|destruct H as (ks & Hks); unfold order_position_transactions; rewrite Hks; by eexists].
  induction Ha as [|t ts Ht _ IH]; [by eexists|]. apply Forall_cons in Hs as [Hst Hs]. destruct (ordering_key_total t Ht Hst) as (k & Hk).
  destruct (IH Hs) as (ks & Hks). assert (Hw : with_key t = Ok (k, t)) by (unfold with_key; by rewrite Hk).
  exists ((k, t) :: ks). simpl. rewrite Hw. simpl. by rewrite Hks.
Qed.

Lemma one_position_perm anchor ts o : o ≡ₚ ts -> one_position anchor ts -> one_position anchor o.
Proof. intros Hp (p & q & HF & Ha). exists p, q. by rewrite Hp. Qed.

Lemma one_position_key anchor o : one_position anchor o -> single_position_key anchor o = true.
Proof.
  intros (p & q & HF & Ha). unfold single_position_key. destruct o as [|t o]; [done|]. assert (Ht : tx_portfolio_id t = p /\ tx_security_id t = q) by by inversion HF.
  destruct Ht as [-> ->]. apply andb_true_iff. split.
  - apply forallb_forall. intros u Hu%list_elem_of_In. destruct (proj1 (Forall_forall _ _) HF u Hu) as [-> ->]. by rewrite !String.eqb_refl.
  - destruct anchor as [r|]; [|done]. destruct Ha as [-> ->]. by rewrite !String.eqb_refl.
Qed.

(** ** Properties *)

(** C15: One transition of a stored balance by a stored transaction computes exactly the integer
    specification: the balance moves by [position_delta] and is cleared of cost when flat; it fails
    only by magnitude overflow, exactly when a component leaves the 18-digit range, or by a
    [CashPositionEconomicsError], exactly when a booked cash cost contradicts its direction.  In
    particular no production transaction type lacks a handler. *)
Theorem position_step_refines s a t :
  pos_refines s a -> stored_transaction t ->
  let ty := resolve_effective_processing_transaction_type t in
  let target := b_add a (position_delta t ty) in
  match calculate_next_position_state s t with
  | Ok s' => pos_refines s' (b_settle target) /\ b_in_range target /\ ~ cash_sign_contradiction t ty
  | Raise e => (is_overflow e /\ ~ b_in_range target) \/
               ((exists msg, e = CashPositionEconomicsError msg) /\ cash_sign_contradiction t ty)
  end.
Proof. apply step_refines. Qed.

(** Whatever transaction is applied, a balance whose amounts are storable and which carries no
    cost when flat is taken to such a balance, and so is every balance of a whole history. *)
Theorem position_invariant s ts ss :
  position_ok initial_position /\
  (position_ok s -> replay s ts = Ok ss -> Forall position_ok ss).
Proof. split; [apply initial_position_ok|apply replay_ok]. Qed.

(** The quantity moves the way the transaction-type registry declares: a positive-quantity
    transaction of a type with an increasing (decreasing) position effect raises (lowers) the
    quantity, and a type without position effect leaves it as it is. *)
Theorem quantity_moves_as_declared s a t d s' :
  pos_refines s a -> stored_transaction t -> 0 < amount (tx_quantity t) ->
  get_transaction_type_definition (resolve_effective_processing_transaction_type t) = Some d ->
  calculate_next_position_state s t = Ok s' ->
  (In (position_effect d) ["increase"; "cash_increase"] -> dltb (ps_quantity s) (ps_quantity s') = true) /\
  (In (position_effect d) ["decrease"; "cash_decrease"] -> dltb (ps_quantity s') (ps_quantity s) = true) /\
  (position_effect d = "none" -> deqb (ps_quantity s') (ps_quantity s) = true).
Proof.
  intros Hs Ht Hq Hd Hn. set (ty := resolve_effective_processing_transaction_type t) in *.
  pose proof (step_refines s a t Hs Ht) as Ho. rewrite Hn in Ho. destruct Ho as ((Hq' & _) & _).
  fold ty in Hq'. destruct Hs as (Hq0 & _).
  assert (E : b_quantity (b_settle (b_add a (position_delta t ty))) = b_quantity a + b_quantity (position_delta t ty)).
  { unfold b_settle, b_add; simpl. by destruct (Z.eqb_spec (b_quantity a + b_quantity (position_delta t ty)) 0). }
  rewrite E in Hq'. apply get_definition_elem in Hd. unfold ty in Hd. rewrite resolve_normal in Hd. fold ty in Hd.
  assert (Hdir : forall n, declared_direction (position_effect d) = Some n -> Z.sgn (b_quantity (position_delta t ty)) = n).
  { intros n Hn'. apply position_delta_direction; [done|]. by apply (declared_direction_agrees _ d). }
  rewrite (ledger_lt _ _ _ _ Hq0 Hq'), (ledger_lt _ _ _ _ Hq' Hq0), (ledger_eq _ _ _ _ Hq' Hq0).
  rewrite !Z.ltb_lt, Z.eqb_eq. split; [|split].
  - intros [He|[He|[]]]; specialize (Hdir 1); rewrite <- He in Hdir; specialize (Hdir eq_refl); lia.
  - intros [He|[He|[]]]; specialize (Hdir (-1)); rewrite <- He in Hdir; specialize (Hdir eq_refl); lia.
  - intros He; specialize (Hdir 0); rewrite He in Hdir; specialize (Hdir eq_refl); lia.
Qed.

(** C16: Building a position history of stored transactions replays them in their order and computes the integer
    specification.  On success the records report the transactions one by one, in an order in which none
    follows a transaction it has precedence over; after each of them the balance is the one that the
    specification reaches by adding the declared deltas so far, and the receipt of the record binds it.
    It succeeds whenever the timestamps are aware, the transactions and the anchor belong to one
    position and no balance on the way leaves its columns or contradicts a booked cash cost. *)
Theorem history_is_ordered_replay `{hashing_ok : HashingOk} anchor ts epoch a :
  pos_refines (start_balance anchor) a -> Forall stored_transaction ts ->
  (forall rs, build_position_history anchor ts epoch = Ok rs ->
     exists o, o ≡ₚ ts /\ StronglySorted (fun t u => replay_precedence t u <> Gt) o /\ Forall2 (record_reports epoch) o rs /\
       Forall2 pos_refines (map balance rs) (spec_balances a o) /\ admissible a o) /\
  (Forall aware ts -> one_position anchor ts ->
   (forall o, o ≡ₚ ts -> StronglySorted (fun t u => replay_precedence t u <> Gt) o -> admissible a o) ->
   exists rs, build_position_history anchor ts epoch = Ok rs).
Proof.
  intros Ha Hst. split.
  - intros rs (o & Ho & _ & Hl)%build_history_inv. exists o. pose proof (order_transactions_elem _ _ Ho) as Hp.
    destruct (history_loop_Ok _ _ _ _ _ Hl) as [Hr Hrep]. assert (Hso : Forall stored_transaction o) by by rewrite Hp.
    pose proof (replay_spec _ _ _ Ha Hso) as Hs. rewrite Hr in Hs. split_and!; [done|exact (ordered_by_precedence _ _ Hst Ho)|done|apply Hs|apply Hs].
  - intros Haw Hone Hadm. destruct (order_total ts Haw Hst) as (o & Ho). pose proof (order_transactions_elem _ _ Ho) as Hp.
    assert (Hso : Forall stored_transaction o) by by rewrite Hp. pose proof (replay_spec _ _ _ Ha Hso) as Hs.
    specialize (Hadm o Hp (ordered_by_precedence _ _ Hst Ho)). destruct (replay (start_balance anchor) o) as [ss|e] eqn:Er; [|done].
    destruct (history_loop_total _ (start_lineage anchor) epoch _ _ (ordered_keys_ok _ _ Ho) Er) as (rs & Hrs & _).
    exists rs. apply build_history_inv. exists o. split_and!; [done| |done]. apply one_position_key. by eapply one_position_perm.
Qed.

(** The order in which distinct transactions arrive does not matter: any permutation of the
    input builds the same history. *)
Theorem history_order_independent `{Hashing} anchor ts ts' epoch rs :
  NoDup (map tx_transaction_id ts) -> ts ≡ₚ ts' ->
  build_position_history anchor ts epoch = Ok rs -> build_position_history anchor ts' epoch = Ok rs.
Proof.
  intros Hd Hp (o & Ho & Hk & Hl)%build_history_inv. apply build_history_inv. exists o.
  split; [|done]. by apply (order_transactions_perm ts).
Qed.

(** Rebuilding from the last record of a prefix gives the same records as rebuilding everything,
    as long as the later transactions do not sort before the earlier ones. *)
Theorem history_resumes_from_anchor `{Hashing} anchor ts1 ts2 epoch rs1 r rs2 :
  (forall t1 t2 k1 k2, t1 ∈ ts1 -> t2 ∈ ts2 -> position_transaction_ordering_key t1 = Ok k1 ->
     position_transaction_ordering_key t2 = Ok k2 -> leb_of order_key_compare k1 k2 = true) ->
  build_position_history anchor ts1 epoch = Ok rs1 -> last rs1 = Some r ->
  build_position_history (Some r) ts2 epoch = Ok rs2 ->
  build_position_history anchor (ts1 ++ ts2)%list epoch = Ok (rs1 ++ rs2)%list.
Proof.
  intros Hle (o1 & Ho1 & Hk1 & Hl1)%build_history_inv Hr (o2 & Ho2 & Hk2 & Hl2)%build_history_inv.
  apply build_history_inv. exists (o1 ++ o2)%list. split; [by apply order_transactions_app|]. split.
  - destruct (history_loop_Ok _ _ _ _ _ Hl1) as [_ HF]. by eapply single_key_app.
  - apply history_loop_app; [done|]. by rewrite Hr.
Qed.

(** A transaction is replayed as backdated exactly when it is an original event dated before one of
    the completed dates (watermark, latest history record, latest completed snapshot, or the start
    date standing in for a missing one); the new watermark is then the day before the transaction,
    so every date the transaction can affect lies after it. *)
Theorem backdated_plan_covers epoch td wm hist snap :
  date_min < td <= date_max ->
  let completed := [wm; default POSITION_START_DATE hist; default POSITION_START_DATE snap] in
  exists p, plan_backdated_recalculation epoch td wm hist snap = Ok p /\
    In (effective_completed_date p) completed /\
    (forall d, In d completed -> d <= effective_completed_date p) /\
    (should_recalculate p = true <-> epoch = None /\ exists d, In d completed /\ td < d) /\
    (should_recalculate p = true -> recalculation_watermark_date p = Some (td - 1)) /\
    (should_recalculate p = false -> recalculation_watermark_date p = None).
Proof.
  intros Htd completed. unfold plan_backdated_recalculation, date_sub_days.
  set (h := default POSITION_START_DATE hist) in *. set (c := default POSITION_START_DATE snap) in *.
  set (eff := Z.max (Z.max wm h) c).
  assert (Hin : In eff completed) by (unfold eff, completed; simpl; lia).
  assert (Hmax : forall d, In d completed -> d <= eff) by (unfold eff, completed; simpl; lia).
  assert (Hiff : td < eff <-> exists d, In d completed /\ td < d).
  { split; [by exists eff|]. intros (d & Hd%Hmax & ?). lia. }
  assert ((td - 1 <? date_min) || (date_max <? td - 1) = false) as -> by lia.
  destruct epoch as [e|]; [|destruct (Z.ltb_spec td eff)]; simpl; eexists; (split; [reflexivity|]); simpl;
    repeat split; try done; try tauto; try naive_solver lia.
Qed.

(** *** Witnesses *)

Definition wit_tx (id ty : string) (q gross day : Z) : BookedTransaction :=
  booked_transaction id "P1" "I1" "S1" {| dt_us := day * us_per_day; dt_utcoffset := Some 0 |} ty
    (dint q) d_one (dint gross) "USD" "USD".

Lemma wit_stored id ty q gross day :
  Z.abs q < 10 ^ 8 -> Z.abs gross < 10 ^ 8 -> stored_transaction (wit_tx id ty q gross day).
Proof.
  intros Hq Hg. split; [|split; [|split]]; try exact I.
  - exists (q * 10 ^ 10). split; [apply units_dint_ledger|lia].
  - exists (gross * 10 ^ 10). split; [apply units_dint_ledger|lia].
Defined.

Definition wit_balance : Balance := {| b_quantity := 0; b_cost := 0; b_cost_local := 0 |}.

Lemma wit_initial : pos_refines initial_position wit_balance.
Proof. repeat split; apply ledger_dzero. Defined.

Lemma position_step_refines_witness :
  exists s', calculate_next_position_state initial_position (wit_tx "T1" "transfer_in" 5 100 0) = Ok s' /\
    pos_refines s' {| b_quantity := 5 * 10 ^ 10; b_cost := 100 * 10 ^ 10; b_cost_local := 100 * 10 ^ 10 |}.
Proof.
  pose proof (position_step_refines initial_position wit_balance (wit_tx "T1" "transfer_in" 5 100 0)
                wit_initial (wit_stored "T1" "transfer_in" 5 100 0 eq_refl eq_refl)) as H.
  destruct (calculate_next_position_state initial_position (wit_tx "T1" "transfer_in" 5 100 0)) as [s'|e] eqn:E;
    [|vm_compute in E; discriminate E].
  exists s'. split; [reflexivity|]. exact (proj1 H).
Defined.

Lemma position_invariant_witness :
  Forall position_ok [{| ps_quantity := dint 5; ps_cost_basis := dint 100; ps_cost_basis_local := dint 100 |}; initial_position].
Proof.
  apply (proj2 (position_invariant initial_position
    [wit_tx "T1" "TRANSFER_IN" 5 100 0; wit_tx "T2" "TRANSFER_OUT" 5 70 1] _)).
  - apply initial_position_ok.
  - vm_compute. reflexivity.
Defined.

Lemma quantity_moves_as_declared_witness :
  dltb (dint 0) (dint 5) = true.
Proof.
  refine (proj1 (quantity_moves_as_declared initial_position wit_balance (wit_tx "T1" "BUY" 5 100 0) def_BUY
            {| ps_quantity := dint 5; ps_cost_basis := dzero; ps_cost_basis_local := dzero |}
            wit_initial (wit_stored "T1" "BUY" 5 100 0 eq_refl eq_refl) _ _ _) _).
  - vm_compute. reflexivity.
  - vm_compute. reflexivity.
  - vm_compute. reflexivity.
  - left. reflexivity.
Defined.

#[local] Existing Instance constant_hashing.
#[local] Existing Instance constant_hashing_ok.

Definition wit_history : list BookedTransaction :=
  [wit_tx "T2" "SELL" 2 0 1; wit_tx "T1" "BUY" 5 100 0].

Lemma history_is_ordered_replay_witness :
  exists rs o, build_position_history None wit_history 0 = Ok rs /\ o ≡ₚ wit_history /\
    StronglySorted (fun t u => replay_precedence t u <> Gt) o /\ Forall2 pos_refines (map balance rs) (spec_balances wit_balance o).
Proof.
  destruct (build_position_history None wit_history 0) as [rs|e] eqn:E; [|vm_compute in E; discriminate E].
  assert (Hs : Forall stored_transaction wit_history)
    by (constructor; [exact (wit_stored "T2" "SELL" 2 0 1 eq_refl eq_refl)|constructor; [exact (wit_stored "T1" "BUY" 5 100 0 eq_refl eq_refl)|constructor]]).
  destruct (proj1 (history_is_ordered_replay None wit_history 0 wit_balance wit_initial Hs) rs E) as (o & H1 & H2 & _ & H3 & _).
  exists rs, o. split_and!; [reflexivity|exact H1|exact H2|exact H3].
Defined.

Lemma history_order_independent_witness :
  build_position_history None (rev wit_history) 0 = build_position_history None wit_history 0.
Proof.
  destruct (build_position_history None wit_history 0) as [rs|e] eqn:E; [|vm_compute in E; discriminate E].
  apply (history_order_independent None wit_history); [| |exact E].
  - apply (bool_decide_unpack _). vm_compute. exact I.
  - apply Permutation_rev.
Defined.

Lemma history_resumes_from_anchor_witness :
  exists rs1 r rs2, build_position_history (Some r) [wit_tx "T2" "SELL" 2 0 1] 0 = Ok rs2 /\
    build_position_history None ([wit_tx "T1" "BUY" 5 100 0] ++ [wit_tx "T2" "SELL" 2 0 1])%list 0 = Ok (rs1 ++ rs2)%list.
Proof.
  destruct (build_position_history None [wit_tx "T1" "BUY" 5 100 0] 0) as [rs1|e] eqn:E1; [|vm_compute in E1; discriminate E1].
  pose proof E1 as E1'. vm_compute in E1'. injection E1' as E1'.
  destruct (last rs1) as [r|] eqn:El; [|subst rs1; discriminate El].
  destruct (build_position_history (Some r) [wit_tx "T2" "SELL" 2 0 1] 0) as [rs2|e] eqn:E2.
  - exists rs1, r, rs2. split; [exact E2|].
    apply (history_resumes_from_anchor None _ _ 0 rs1 r rs2); [|exact E1|exact El|exact E2].
    intros t1 t2 k1 k2 ->%list_elem_of_singleton ->%list_elem_of_singleton H1 H2. vm_compute in H1, H2.
    injection H1 as <-. injection H2 as <-. vm_compute. reflexivity.
  - exfalso. rewrite <- E1' in El. simpl in El. injection El as <-. vm_compute in E2. discriminate E2.
Defined.

Lemma backdated_plan_covers_witness :
  exists p, plan_backdated_recalculation None 100 90 (Some 120) None = Ok p /\ recalculation_watermark_date p = Some 99.
Proof.
  destruct (backdated_plan_covers None 100 90 (Some 120) None) as (p & Hp & _ & _ & Hs & Hw & _); [vm_compute; split; [reflexivity|discriminate]|].
  exists p. split; [exact Hp|]. apply Hw, Hs. split; [reflexivity|]. exists 120. split; [right; left; reflexivity|reflexivity].
Defined.
