(* ===== verification/Lots.v ===== *)
(** * Lot state, restatement and allocation receipts

    The data of the cost-basis engine: open lots ([calculation/lot_state.py]), residual-safe
    apportionment ([calculation/residual_allocation.py]), exact quantity restatement
    ([calculation/lot_restatement.py]), the disposal and basis-transfer receipts
    ([calculation/disposal_allocation.py], [calculation/basis_transfer_allocation.py]) and their
    canonical payloads ([portfolio_common/domain/cost_basis_receipt_integrity.py]).

    The [isinstance] checks of the constructors hold by typing here; every other check is a guard of
    the [make_*] function, in source order. *)

From Stdlib Require Import ZArith Lia Lqa QArith Qabs Qreduction String Ascii.
From Stdlib Require Qcanon.
From stdpp Require Import base tactics list strings.
From S2P Require Import Prelude PyDecimal DecimalFacts PyTime Precision Lineage.

#[local] Open Scope string_scope.
#[local] Open Scope Z_scope.

#[local] Notation policy := COST_BASIS_STATE_LEDGER_OUTPUT_V1.

(** ** Open lots *)

Definition require_non_negative_decimal (value : decimal) (field_name : string) : result unit :=
  raise_if (dltb value dzero) (ValueError (field_name +:+ " must be non-negative")).

Definition require_positive_decimal (value : decimal) (field_name : string) : result unit :=
  _ ← require_non_negative_decimal value field_name;
  raise_if (deqb value dzero) (ValueError (field_name +:+ " must be positive")).

Definition resolve_source_lot_original_quantity (original_quantity order_quantity : option decimal)
  (current_quantity : decimal) : result decimal :=
  match original_quantity, order_quantity with
  | Some q, _ => Ok q
  | None, Some _ => Raise (ValueError "Restored source lot is missing original quantity authority")
  | None, None => Ok current_quantity
  end.

Record AmortizedCostCarryState := {
  ac_profile_id : string; ac_profile_version : Z; ac_profile_content_hash : string;
  ac_recognized_through_date : date; ac_scheduled_cost_local : decimal;
  ac_carrying_amount_local : decimal; ac_carrying_amount_base : decimal;
  ac_book_cost_fx_rate_to_base : decimal
}.

Definition make_AmortizedCostCarryState (profile_id : string) (profile_version : Z) (profile_content_hash : string)
  (recognized_through_date : date) (scheduled carrying_local carrying_base fx : decimal)
  : result AmortizedCostCarryState :=
  let normalized_profile_id := strip profile_id in
  _ ← raise_if (negb (truthy normalized_profile_id)) (ValueError "profile_id must be nonblank");
  _ ← raise_if (profile_version <? 1) (ValueError "profile_version must be positive");
  _ ← require_sha256_digest profile_content_hash "profile_content_hash";
  _ ← require_non_negative_decimal scheduled "scheduled_cost_local";
  _ ← require_non_negative_decimal carrying_local "carrying_amount_local";
  _ ← require_non_negative_decimal carrying_base "carrying_amount_base";
  _ ← require_positive_decimal fx "book_cost_fx_rate_to_base";
  Ok {| ac_profile_id := normalized_profile_id; ac_profile_version := profile_version;
        ac_profile_content_hash := profile_content_hash; ac_recognized_through_date := recognized_through_date;
        ac_scheduled_cost_local := scheduled; ac_carrying_amount_local := carrying_local;
        ac_carrying_amount_base := carrying_base; ac_book_cost_fx_rate_to_base := fx |}.

Record OpenLotState := {
  ol_original_quantity : decimal; ol_quantity : decimal; ol_cost_local : decimal; ol_cost_base : decimal;
  ol_amortized_cost : option AmortizedCostCarryState
}.

Definition make_OpenLotState (original_quantity quantity cost_local cost_base : decimal)
  (amortized_cost : option AmortizedCostCarryState) : result OpenLotState :=
  _ ← require_non_negative_decimal original_quantity "original_quantity";
  _ ← require_non_negative_decimal quantity "quantity";
  _ ← require_non_negative_decimal cost_local "cost_local";
  _ ← require_non_negative_decimal cost_base "cost_base";
  _ ← raise_if (dltb original_quantity quantity) (ValueError "quantity must not exceed original_quantity");
  _ ← raise_if (deqb quantity dzero && match amortized_cost with Some _ => true | None => false end)
        (ValueError "closed lot state must not retain amortized-cost carry state");
  Ok {| ol_original_quantity := original_quantity; ol_quantity := quantity; ol_cost_local := cost_local;
        ol_cost_base := cost_base; ol_amortized_cost := amortized_cost |}.

(** A [CostLot] object; its identity is its place in a heap, see the FIFO strategy. *)
Record CostLot := {
  lot_transaction_id : string; lot_lot_id : string; lot_acquisition_date : date;
  lot_original_quantity : decimal; lot_remaining_quantity : decimal;
  lot_cost_per_share_local : decimal; lot_cost_per_share_base : decimal
}.

Definition make_CostLot (transaction_id lot_id : string) (acquisition_date : date)
  (quantity cost_per_share_local cost_per_share_base : decimal) (original_quantity : option decimal)
  : result CostLot :=
  let original := default quantity original_quantity in
  _ ← raise_if (dltb original quantity) (ValueError "lot original_quantity must not be below open quantity");
  Ok {| lot_transaction_id := transaction_id; lot_lot_id := lot_id; lot_acquisition_date := acquisition_date;
        lot_original_quantity := original; lot_remaining_quantity := quantity;
        lot_cost_per_share_local := cost_per_share_local; lot_cost_per_share_base := cost_per_share_base |}.

Definition open_state (l : CostLot) : result OpenLotState :=
  cost_local ← p_multiply policy (lot_remaining_quantity l) (lot_cost_per_share_local l) "lot_cost_local";
  cost_base ← p_multiply policy (lot_remaining_quantity l) (lot_cost_per_share_base l) "lot_cost_base";
  make_OpenLotState (lot_original_quantity l) (lot_remaining_quantity l) cost_local cost_base None.

(** ** Residual-safe apportionment *)

Definition allocate_nonnegative_storage_share (candidate aggregate allocated : decimal) (field_name : string)
  : result decimal :=
  normalized ← normalize policy candidate field_name;
  unallocated ← p_subtract policy aggregate allocated ("unallocated_" +:+ field_name);
  _ ← raise_if (dltb normalized dzero || dltb unallocated dzero)
        (ValueError (field_name +:+ " allocation must not be negative"));
  Ok (dmin normalized unallocated).

(** ** Quantity restatement *)

Definition LOT_QUANTITY_SCALE : Z := 10.

Definition require_exact_persistable_quantity (value : decimal) (field_name : string) : result decimal :=
  match require_exact TRANSACTION_PERSISTENCE_PRECISION_V1 value field_name with
  | Ok d => Ok d
  | Raise _ => Raise (LotRestatementError (field_name +:+ " exceeds governed quantity precision"))
  end.

Definition require_non_negative_persistable_quantity (value : decimal) (field_name : string) : result decimal :=
  _ ← raise_if (dltb value dzero) (LotRestatementError (field_name +:+ " must be non-negative"));
  require_exact_persistable_quantity value field_name.

Definition require_positive_persistable_quantity (value : decimal) (field_name : string) : result decimal :=
  amount ← require_non_negative_persistable_quantity value field_name;
  _ ← raise_if (deqb amount dzero) (LotRestatementError (field_name +:+ " must be positive"));
  Ok amount.

Record LotRestatement := { lr_quantity_before : decimal; lr_quantity_after : decimal }.

Definition make_LotRestatement (quantity_before quantity_after : decimal) : result LotRestatement :=
  _ ← require_positive_persistable_quantity quantity_before "quantity_before";
  _ ← require_positive_persistable_quantity quantity_after "quantity_after";
  _ ← raise_if (deqb quantity_before quantity_after) (LotRestatementError "lot restatement must change quantity");
  Ok {| lr_quantity_before := quantity_before; lr_quantity_after := quantity_after |}.

(** The sum is taken in the ambient 28-digit context. *)
Definition from_signed_delta (quantity_before signed_quantity_delta : decimal) : result LotRestatement :=
  quantity_after ← dadd default_context quantity_before signed_quantity_delta;
  make_LotRestatement quantity_before quantity_after.

(** [apply]: the scaled quantity as a [Fraction] of storage units, which must be an integer. *)
Definition restated_units (r : LotRestatement) (quantity : decimal) : Q :=
  Qred (dval quantity * dval (lr_quantity_after r) / dval (lr_quantity_before r) * inject_Z (10 ^ LOT_QUANTITY_SCALE)).

Definition lr_apply (r : LotRestatement) (quantity : decimal) (field_name : string) : result decimal :=
  _ ← require_non_negative_persistable_quantity quantity field_name;
  let storage_units := restated_units r quantity in
  _ ← raise_if (negb (Pos.eqb (Qden storage_units) 1))
        (LotRestatementError (field_name +:+ " cannot be restated exactly at 10 decimal places"));
  res ← dfix default_context (Dec (Qnum storage_units) (- LOT_QUANTITY_SCALE));
  require_exact_persistable_quantity res field_name.

Definition lr_lineage_payload (r : LotRestatement) : list (string * decimal) :=
  [("quantity_before", lr_quantity_before r); ("quantity_after", lr_quantity_after r);
   ("factor_numerator", lr_quantity_after r); ("factor_denominator", lr_quantity_before r)].

(** ** Canonical receipt payloads *)

Definition BASIS_TRANSFER_LINEAGE_ALGORITHM_ID := "cost-basis-lot-basis-transfer-allocation".
Definition BASIS_TRANSFER_LINEAGE_ALGORITHM_VERSION : Z := 1.
Definition LOT_DISPOSAL_LINEAGE_ALGORITHM_ID := "cost-basis-lot-disposal-allocation".
Definition LOT_DISPOSAL_LINEAGE_ALGORITHM_VERSION : Z := 2.

(** A decimal at exactly the ledger scale. *)
Definition canonical_decimal (d : number) (field_path : string) : result decimal :=
  normalized ← normalize policy d field_path;
  quantize (arithmetic_context policy) (cp_rounding policy) normalized (- cp_scale policy).

Fixpoint canonical_cost_basis_output (value : payload) (field_path : string) : result payload :=
  match value with
  | PDecimal d => c ← canonical_decimal d field_path; Ok (PDecimal (Finite c))
  | PMap es =>
      es' ← (fix go es := match es with
        | [] => Ok []
        | (k, v) :: es' =>
            v' ← canonical_cost_basis_output v (field_path +:+ "." +:+ k); rest ← go es'; Ok ((k, v') :: rest)
        end) es;
      Ok (PMap es')
  | PSet xs =>
      xs' ← (fix go xs := match xs with
        | [] => Ok []
        | x :: xs' => x' ← canonical_cost_basis_output x (field_path +:+ "[]"); rest ← go xs'; Ok (x' :: rest)
        end) xs;
      Ok (PSet xs')
  | PSeq xs =>
      xs' ← (fix go (i : Z) xs := match xs with
        | [] => Ok []
        | x :: xs' =>
            x' ← canonical_cost_basis_output x (field_path +:+ "[" +:+ string_of_Z i +:+ "]");
            rest ← go (i + 1) xs'; Ok (x' :: rest)
        end) 0 xs;
      Ok (PSeq xs')
  | _ => Ok value
  end.

(** The top-level mapping: the path of an entry is its key. *)
Definition canonical_cost_basis_output_payload (es : list (string * payload)) : result payload :=
  es' ← mapR (fun e => v ← canonical_cost_basis_output (snd e) (fst e); Ok (fst e, v)) es;
  Ok (PMap es').

Definition decimal_entry (k : string) (d : decimal) : string * payload := (k, PDecimal (Finite d)).

(** ** Amortized-cost evidence *)

Definition require_decimal (value : decimal) (field_name : string) (positive allow_negative : bool) : result unit :=
  raise_if ((negb allow_negative && dltb value dzero) || (positive && deqb value dzero))
    (ValueError (field_name +:+ " must be " +:+ (if positive then "positive" else "non-negative"))).

Record AmortizedCostAllocationEvidence := {
  ae_profile_id : string; ae_profile_version : Z; ae_profile_content_hash : string; ae_currency : string;
  ae_disposal_date : date; ae_recognized_through_date : date;
  ae_original_quantity : decimal; ae_open_quantity_before : decimal; ae_consumed_quantity : decimal;
  ae_residual_quantity : decimal; ae_scheduled_cost_local : decimal; ae_current_cost_local : decimal;
  ae_current_cost_base : decimal; ae_consumed_cost_local : decimal; ae_residual_cost_local : decimal;
  ae_book_cost_fx_rate_to_base : decimal; ae_consumed_cost_base : decimal; ae_residual_cost_base : decimal;
  ae_retained_rounding_residual_local : decimal; ae_retained_rounding_residual_base : decimal;
  ae_calculation_lineage : CalculationLineage
}.

Definition ae_output_payload (e : AmortizedCostAllocationEvidence) : result payload :=
  canonical_cost_basis_output_payload [
    decimal_entry "consumed_cost_base" (ae_consumed_cost_base e);
    decimal_entry "consumed_cost_local" (ae_consumed_cost_local e);
    decimal_entry "consumed_quantity" (ae_consumed_quantity e);
    decimal_entry "current_cost_base" (ae_current_cost_base e);
    decimal_entry "current_cost_local" (ae_current_cost_local e);
    decimal_entry "open_quantity_before" (ae_open_quantity_before e);
    ("recognized_through_date", PDate (ae_recognized_through_date e));
    decimal_entry "residual_cost_base" (ae_residual_cost_base e);
    decimal_entry "residual_cost_local" (ae_residual_cost_local e);
    decimal_entry "residual_quantity" (ae_residual_quantity e);
    decimal_entry "retained_rounding_residual_base" (ae_retained_rounding_residual_base e);
    decimal_entry "retained_rounding_residual_local" (ae_retained_rounding_residual_local e);
    decimal_entry "scheduled_cost_local" (ae_scheduled_cost_local e)].

Definition ae_semantic_payload (e : AmortizedCostAllocationEvidence) : payload :=
  PMap [
    ("calculation_lineage", cl_lineage_payload (ae_calculation_lineage e));
    decimal_entry "consumed_cost_base" (ae_consumed_cost_base e);
    decimal_entry "consumed_cost_local" (ae_consumed_cost_local e);
    decimal_entry "consumed_quantity" (ae_consumed_quantity e);
    ("currency", PStr (ae_currency e));
    decimal_entry "current_cost_local" (ae_current_cost_local e);
    decimal_entry "current_cost_base" (ae_current_cost_base e);
    ("disposal_date", PDate (ae_disposal_date e));
    decimal_entry "book_cost_fx_rate_to_base" (ae_book_cost_fx_rate_to_base e);
    decimal_entry "original_quantity" (ae_original_quantity e);
    decimal_entry "open_quantity_before" (ae_open_quantity_before e);
    ("profile_content_hash", PStr (ae_profile_content_hash e));
    ("profile_id", PStr (ae_profile_id e));
    ("profile_version", PInt (ae_profile_version e));
    ("recognized_through_date", PDate (ae_recognized_through_date e));
    decimal_entry "residual_cost_base" (ae_residual_cost_base e);
    decimal_entry "residual_cost_local" (ae_residual_cost_local e);
    decimal_entry "residual_quantity" (ae_residual_quantity e);
    decimal_entry "retained_rounding_residual_base" (ae_retained_rounding_residual_base e);
    decimal_entry "retained_rounding_residual_local" (ae_retained_rounding_residual_local e);
    decimal_entry "scheduled_cost_local" (ae_scheduled_cost_local e)].

Section Receipts.
Context `{hashing : Hashing}.

(** [x + y != z] under the ambient context. *)
Definition sum_differs (x y z : decimal) (msg : string) : result unit :=
  s ← dadd default_context x y; raise_if (negb (deqb s z)) (ValueError msg).

(** [__post_init__] of the evidence; [e] holds the constructor's arguments. *)
Definition make_AmortizedCostAllocationEvidence (e : AmortizedCostAllocationEvidence)
  : result AmortizedCostAllocationEvidence :=
  profile_id ← require_nonblank (ae_profile_id e) "profile_id";
  currency ← require_nonblank (ae_currency e) "currency";
  _ ← raise_if (ae_profile_version e <? 1) (ValueError "profile_version must be positive");
  _ ← require_sha256_digest (ae_profile_content_hash e) "profile_content_hash";
  _ ← raise_if (ae_disposal_date e <? ae_recognized_through_date e)
        (ValueError "recognized_through_date must not be after disposal_date");
  _ ← require_decimal (ae_original_quantity e) "original_quantity" true false;
  _ ← require_decimal (ae_open_quantity_before e) "open_quantity_before" true false;
  _ ← require_decimal (ae_consumed_quantity e) "consumed_quantity" true false;
  _ ← require_decimal (ae_residual_quantity e) "residual_quantity" false false;
  _ ← require_decimal (ae_scheduled_cost_local e) "scheduled_cost_local" false false;
  _ ← require_decimal (ae_current_cost_local e) "current_cost_local" false false;
  _ ← require_decimal (ae_current_cost_base e) "current_cost_base" false false;
  _ ← require_decimal (ae_consumed_cost_local e) "consumed_cost_local" false false;
  _ ← require_decimal (ae_residual_cost_local e) "residual_cost_local" false false;
  _ ← require_decimal (ae_book_cost_fx_rate_to_base e) "book_cost_fx_rate_to_base" true false;
  _ ← require_decimal (ae_consumed_cost_base e) "consumed_cost_base" false false;
  _ ← require_decimal (ae_residual_cost_base e) "residual_cost_base" false false;
  _ ← require_decimal (ae_retained_rounding_residual_local e) "retained_rounding_residual_local" false true;
  _ ← require_decimal (ae_retained_rounding_residual_base e) "retained_rounding_residual_base" false true;
  _ ← raise_if (dltb (ae_original_quantity e) (ae_open_quantity_before e))
        (ValueError "open_quantity_before must not exceed original_quantity");
  _ ← sum_differs (ae_consumed_quantity e) (ae_residual_quantity e) (ae_open_quantity_before e)
        "amortized-cost quantity does not conserve the pre-disposal lot";
  _ ← sum_differs (ae_consumed_cost_local e) (ae_residual_cost_local e) (ae_current_cost_local e)
        "amortized local cost does not conserve current lot cost";
  _ ← sum_differs (ae_consumed_cost_base e) (ae_residual_cost_base e) (ae_current_cost_base e)
        "amortized base cost does not conserve current lot cost";
  let e' := {| ae_profile_id := profile_id; ae_profile_version := ae_profile_version e;
    ae_profile_content_hash := ae_profile_content_hash e; ae_currency := currency;
    ae_disposal_date := ae_disposal_date e; ae_recognized_through_date := ae_recognized_through_date e;
    ae_original_quantity := ae_original_quantity e; ae_open_quantity_before := ae_open_quantity_before e;
    ae_consumed_quantity := ae_consumed_quantity e; ae_residual_quantity := ae_residual_quantity e;
    ae_scheduled_cost_local := ae_scheduled_cost_local e; ae_current_cost_local := ae_current_cost_local e;
    ae_current_cost_base := ae_current_cost_base e; ae_consumed_cost_local := ae_consumed_cost_local e;
    ae_residual_cost_local := ae_residual_cost_local e; ae_book_cost_fx_rate_to_base := ae_book_cost_fx_rate_to_base e;
    ae_consumed_cost_base := ae_consumed_cost_base e; ae_residual_cost_base := ae_residual_cost_base e;
    ae_retained_rounding_residual_local := ae_retained_rounding_residual_local e;
    ae_retained_rounding_residual_base := ae_retained_rounding_residual_base e;
    ae_calculation_lineage := ae_calculation_lineage e |} in
  output ← ae_output_payload e';
  binds ← calculation_lineage_binds_output (ae_calculation_lineage e') output;
  _ ← raise_if (negb binds) (ValueError "amortized-cost evidence does not match calculation lineage");
  Ok e'.

(** ** Disposal receipts *)

Record SourceLotDisposalAllocation := {
  da_source_lot_id : string; da_source_transaction_id : string; da_source_acquisition_date : date;
  da_allocation_ordinal : Z;
  da_consumed_quantity : decimal; da_consumed_cost_local : decimal; da_consumed_cost_base : decimal;
  da_source_original_quantity : option decimal; da_source_open_quantity_before : option decimal;
  da_amortized_cost_evidence : option AmortizedCostAllocationEvidence
}.

Definition make_SourceLotDisposalAllocation (a : SourceLotDisposalAllocation) : result SourceLotDisposalAllocation :=
  lot_id ← require_nonblank (da_source_lot_id a) "source_lot_id";
  transaction_id ← require_nonblank (da_source_transaction_id a) "source_transaction_id";
  _ ← raise_if (da_allocation_ordinal a <? 1) (ValueError "allocation_ordinal must be positive");
  _ ← require_decimal (da_consumed_quantity a) "consumed_quantity" true false;
  _ ← require_decimal (da_consumed_cost_local a) "consumed_cost_local" false false;
  _ ← require_decimal (da_consumed_cost_base a) "consumed_cost_base" false false;
  _ ← match da_source_original_quantity a, da_source_open_quantity_before a with
      | None, None => Ok tt
      | Some original, Some open_before =>
          _ ← require_decimal original "source_original_quantity" true false;
          _ ← require_decimal open_before "source_open_quantity_before" true false;
          _ ← raise_if (dltb original open_before) (ValueError "source open quantity must not exceed original quantity");
          raise_if (dltb open_before (da_consumed_quantity a))
            (ValueError "consumed quantity must not exceed source open quantity")
      | _, _ => Raise (ValueError "source quantity authority must be complete when supplied")
      end;
  _ ← match da_amortized_cost_evidence a with
      | None => Ok tt
      | Some e =>
          raise_if (negb (deqb (ae_consumed_quantity e) (da_consumed_quantity a)) ||
                    negb (deqb (ae_consumed_cost_local e) (da_consumed_cost_local a)) ||
                    negb (deqb (ae_consumed_cost_base e) (da_consumed_cost_base a)))
            (ValueError "amortized-cost evidence must match allocated quantity and cost")
      end;
  Ok {| da_source_lot_id := lot_id; da_source_transaction_id := transaction_id;
        da_source_acquisition_date := da_source_acquisition_date a; da_allocation_ordinal := da_allocation_ordinal a;
        da_consumed_quantity := da_consumed_quantity a; da_consumed_cost_local := da_consumed_cost_local a;
        da_consumed_cost_base := da_consumed_cost_base a; da_source_original_quantity := da_source_original_quantity a;
        da_source_open_quantity_before := da_source_open_quantity_before a;
        da_amortized_cost_evidence := da_amortized_cost_evidence a |}.

Definition lot_disposal_allocation_payload (a : SourceLotDisposalAllocation) (evidence : option payload) : payload :=
  PMap ([("allocation_ordinal", PInt (da_allocation_ordinal a));
         decimal_entry "consumed_cost_base" (da_consumed_cost_base a);
         decimal_entry "consumed_cost_local" (da_consumed_cost_local a);
         decimal_entry "consumed_quantity" (da_consumed_quantity a);
         ("source_acquisition_date", PDate (da_source_acquisition_date a));
         ("source_lot_id", PStr (da_source_lot_id a));
         ("source_transaction_id", PStr (da_source_transaction_id a))] ++
        match evidence with Some e => [("amortized_cost_evidence", e)] | None => [] end)%list.

Definition source_lot_disposal_allocation_payload (a : SourceLotDisposalAllocation) : payload :=
  lot_disposal_allocation_payload a (option_map ae_semantic_payload (da_amortized_cost_evidence a)).

Definition lot_disposal_lineage_input_payload (allocations : list payload) : result payload :=
  canonical_cost_basis_output_payload [("allocations", PSeq allocations)].

Definition lot_disposal_lineage_output_payload (cost_base cost_local quantity : decimal) : result payload :=
  canonical_cost_basis_output_payload [
    decimal_entry "consumed_cost_base" cost_base;
    decimal_entry "consumed_cost_local" cost_local;
    decimal_entry "consumed_quantity" quantity].

Record LotDisposalResult := {
  dr_cost_base : decimal; dr_cost_local : decimal; dr_consumed_quantity : decimal;
  dr_allocations : list SourceLotDisposalAllocation;
  dr_error_reason : option string;
  dr_calculation_lineage : option CalculationLineage
}.

(** [_sum_amounts]: one amount summed with the ledger policy. *)
Definition policy_sum (field_name : string) (xs : list decimal) : result decimal :=
  foldM (fun (acc x : decimal) => p_add policy acc x field_name) dzero xs.

(** The three accumulations of the loop run in lockstep. *)
Fixpoint allocation_totals (q cl cb : decimal) (xs : list SourceLotDisposalAllocation)
  : result (decimal * decimal * decimal) :=
  match xs with
  | [] => Ok (q, cl, cb)
  | a :: xs' =>
      q' ← p_add policy q (da_consumed_quantity a) "allocated_disposal_quantity";
      cl' ← p_add policy cl (da_consumed_cost_local a) "allocated_disposal_cost_local";
      cb' ← p_add policy cb (da_consumed_cost_base a) "allocated_disposal_cost_base";
      allocation_totals q' cl' cb' xs'
  end.

Definition build_conserved_allocation_lineage (r : LotDisposalResult) : result CalculationLineage :=
  '(quantity, cost_local, cost_base) ← allocation_totals dzero dzero dzero (dr_allocations r);
  _ ← raise_if (negb (deqb quantity (dr_consumed_quantity r)))
        (ValueError "source-lot allocation quantity does not reconcile to disposal aggregate");
  _ ← raise_if (negb (deqb cost_local (dr_cost_local r)))
        (ValueError "source-lot local cost does not reconcile to disposal aggregate");
  _ ← raise_if (negb (deqb cost_base (dr_cost_base r)))
        (ValueError "source-lot base cost does not reconcile to disposal aggregate");
  input ← lot_disposal_lineage_input_payload (map source_lot_disposal_allocation_payload (dr_allocations r));
  output ← lot_disposal_lineage_output_payload (dr_cost_base r) (dr_cost_local r) (dr_consumed_quantity r);
  np ← lineage_identity policy;
  build_calculation_lineage LOT_DISPOSAL_LINEAGE_ALGORITHM_ID LOT_DISPOSAL_LINEAGE_ALGORITHM_VERSION
    (cp_working_precision policy) input output (Some np).

(** [tuple(range(1, n + 1))]. *)
Definition ordinals_from_one (n : nat) : list Z := map Z.of_nat (seq 1 n).

Definition make_LotDisposalResult (cost_base cost_local consumed_quantity : decimal)
  (allocations : list SourceLotDisposalAllocation) (error_reason : option string) : result LotDisposalResult :=
  _ ← require_decimal cost_base "cost_base" false false;
  _ ← require_decimal cost_local "cost_local" false false;
  _ ← require_decimal consumed_quantity "consumed_quantity" false false;
  _ ← raise_if (negb (bool_decide (map da_allocation_ordinal allocations = ordinals_from_one (length allocations))))
        (ValueError "allocation ordinals must be contiguous from one");
  _ ← raise_if (negb (bool_decide (NoDup (map da_source_lot_id allocations))))
        (ValueError "a source lot can appear only once in one disposal result");
  let r := {| dr_cost_base := cost_base; dr_cost_local := cost_local; dr_consumed_quantity := consumed_quantity;
              dr_allocations := allocations; dr_error_reason := None; dr_calculation_lineage := None |} in
  let nonempty := match allocations with [] => false | _ => true end in
  match error_reason with
  | Some reason =>
      normalized_error ← (if truthy (strip reason) then Ok (strip reason)
                          else Raise (ValueError "error_reason must be nonblank when supplied"));
      _ ← raise_if (negb (dis_zero cost_base) || negb (dis_zero cost_local) || negb (dis_zero consumed_quantity) || nonempty)
            (ValueError "failed disposal results cannot carry economics or allocations");
      Ok {| dr_cost_base := cost_base; dr_cost_local := cost_local; dr_consumed_quantity := consumed_quantity;
            dr_allocations := allocations; dr_error_reason := Some normalized_error; dr_calculation_lineage := None |}
  | None =>
      if deqb consumed_quantity dzero then
        _ ← raise_if (negb (dis_zero cost_base) || negb (dis_zero cost_local) || nonempty)
              (ValueError "zero-quantity disposal results must be empty");
        Ok r
      else
        _ ← raise_if (negb nonempty) (ValueError "successful disposal must carry source-lot allocations");
        l ← build_conserved_allocation_lineage r;
        Ok {| dr_cost_base := cost_base; dr_cost_local := cost_local; dr_consumed_quantity := consumed_quantity;
              dr_allocations := allocations; dr_error_reason := None; dr_calculation_lineage := Some l |}
  end.

Definition failed_disposal (reason : string) : result LotDisposalResult :=
  make_LotDisposalResult dzero dzero dzero [] (Some reason).

Definition empty_disposal : result LotDisposalResult := make_LotDisposalResult dzero dzero dzero [] None.

Definition legacy_tuple (r : LotDisposalResult) : decimal * decimal * decimal * option string :=
  (dr_cost_base r, dr_cost_local r, dr_consumed_quantity r, dr_error_reason r).

Record TransactionLotDisposal := { td_disposal_transaction_id : string; td_result : LotDisposalResult }.

Definition make_TransactionLotDisposal (disposal_transaction_id : string) (r : LotDisposalResult)
  : result TransactionLotDisposal :=
  id ← require_nonblank disposal_transaction_id "disposal_transaction_id";
  _ ← raise_if (match dr_error_reason r with Some _ => true | None => dleb (dr_consumed_quantity r) dzero end)
        (ValueError "transaction disposal evidence requires a successful positive result");
  Ok {| td_disposal_transaction_id := id; td_result := r |}.

(** ** Basis-transfer receipts *)

Definition nonnegative_decimal (value : decimal) (field_name : string) : result decimal :=
  _ ← raise_if (dltb value dzero) (ValueError (field_name +:+ " must be nonnegative")); Ok value.

Record SourceLotBasisTransferAllocation := {
  ba_allocation_ordinal : Z; ba_source_lot_id : string; ba_source_transaction_id : string;
  ba_source_acquisition_date : date; ba_retained_quantity : decimal;
  ba_source_cost_local_before : decimal; ba_source_cost_base_before : decimal;
  ba_transferred_cost_local : decimal; ba_transferred_cost_base : decimal;
  ba_retained_cost_local : decimal; ba_retained_cost_base : decimal
}.

Definition make_SourceLotBasisTransferAllocation (a : SourceLotBasisTransferAllocation)
  : result SourceLotBasisTransferAllocation :=
  _ ← raise_if (ba_allocation_ordinal a <? 1) (ValueError "allocation_ordinal must be a positive integer");
  lot_id ← require_nonblank (ba_source_lot_id a) "source_lot_id";
  transaction_id ← require_nonblank (ba_source_transaction_id a) "source_transaction_id";
  _ ← nonnegative_decimal (ba_retained_quantity a) "retained_quantity";
  _ ← nonnegative_decimal (ba_source_cost_local_before a) "source_cost_local_before";
  _ ← nonnegative_decimal (ba_source_cost_base_before a) "source_cost_base_before";
  _ ← nonnegative_decimal (ba_transferred_cost_local a) "transferred_cost_local";
  _ ← nonnegative_decimal (ba_transferred_cost_base a) "transferred_cost_base";
  _ ← nonnegative_decimal (ba_retained_cost_local a) "retained_cost_local";
  _ ← nonnegative_decimal (ba_retained_cost_base a) "retained_cost_base";
  _ ← raise_if (dleb (ba_retained_quantity a) dzero) (ValueError "retained_quantity must be positive");
  _ ← raise_if (dis_zero (ba_transferred_cost_local a) && dis_zero (ba_transferred_cost_base a))
        (ValueError "basis-transfer allocations require a positive basis movement");
  _ ← sum_differs (ba_transferred_cost_local a) (ba_retained_cost_local a) (ba_source_cost_local_before a)
        "source local basis must equal transferred plus retained basis";
  _ ← sum_differs (ba_transferred_cost_base a) (ba_retained_cost_base a) (ba_source_cost_base_before a)
        "source base basis must equal transferred plus retained basis";
  Ok {| ba_allocation_ordinal := ba_allocation_ordinal a; ba_source_lot_id := lot_id;
        ba_source_transaction_id := transaction_id; ba_source_acquisition_date := ba_source_acquisition_date a;
        ba_retained_quantity := ba_retained_quantity a; ba_source_cost_local_before := ba_source_cost_local_before a;
        ba_source_cost_base_before := ba_source_cost_base_before a;
        ba_transferred_cost_local := ba_transferred_cost_local a; ba_transferred_cost_base := ba_transferred_cost_base a;
        ba_retained_cost_local := ba_retained_cost_local a; ba_retained_cost_base := ba_retained_cost_base a |}.

Record LotBasisTransferResult := {
  br_transferred_cost_local : decimal; br_transferred_cost_base : decimal;
  br_allocations : list SourceLotBasisTransferAllocation;
  br_error_reason : option string;
  br_calculation_lineage : option CalculationLineage
}.

Definition basis_transfer_lineage_input_payload (xs : list SourceLotBasisTransferAllocation) : result payload :=
  canonical_cost_basis_output_payload [("allocations", PSeq (map (fun a => PMap [
    ("allocation_ordinal", PInt (ba_allocation_ordinal a));
    decimal_entry "retained_quantity" (ba_retained_quantity a);
    decimal_entry "source_cost_base_before" (ba_source_cost_base_before a);
    decimal_entry "source_cost_local_before" (ba_source_cost_local_before a);
    ("source_acquisition_date", PDate (ba_source_acquisition_date a));
    ("source_lot_id", PStr (ba_source_lot_id a));
    ("source_transaction_id", PStr (ba_source_transaction_id a));
    decimal_entry "transferred_cost_base" (ba_transferred_cost_base a);
    decimal_entry "transferred_cost_local" (ba_transferred_cost_local a)]) xs))].

Definition basis_transfer_lineage_output_payload (xs : list SourceLotBasisTransferAllocation)
  (transferred_cost_base transferred_cost_local : decimal) : result payload :=
  canonical_cost_basis_output_payload [
    ("allocations", PSeq (map (fun a => PMap [
      ("allocation_ordinal", PInt (ba_allocation_ordinal a));
      decimal_entry "retained_cost_base" (ba_retained_cost_base a);
      decimal_entry "retained_cost_local" (ba_retained_cost_local a);
      ("source_lot_id", PStr (ba_source_lot_id a));
      decimal_entry "transferred_cost_base" (ba_transferred_cost_base a);
      decimal_entry "transferred_cost_local" (ba_transferred_cost_local a)]) xs));
    decimal_entry "transferred_cost_base" transferred_cost_base;
    decimal_entry "transferred_cost_local" transferred_cost_local].

Definition build_basis_transfer_lineage (r : LotBasisTransferResult) : result CalculationLineage :=
  local_total ← policy_sum "transferred_cost_local" (map ba_transferred_cost_local (br_allocations r));
  base_total ← policy_sum "transferred_cost_base" (map ba_transferred_cost_base (br_allocations r));
  _ ← raise_if (negb (deqb local_total (br_transferred_cost_local r)))
        (ValueError "source-lot local basis does not reconcile to transfer aggregate");
  _ ← raise_if (negb (deqb base_total (br_transferred_cost_base r)))
        (ValueError "source-lot base basis does not reconcile to transfer aggregate");
  input ← basis_transfer_lineage_input_payload (br_allocations r);
  output ← basis_transfer_lineage_output_payload (br_allocations r) (br_transferred_cost_base r) (br_transferred_cost_local r);
  np ← lineage_identity policy;
  build_calculation_lineage BASIS_TRANSFER_LINEAGE_ALGORITHM_ID BASIS_TRANSFER_LINEAGE_ALGORITHM_VERSION
    (cp_working_precision policy) input output (Some np).

Definition make_LotBasisTransferResult (transferred_cost_local transferred_cost_base : decimal)
  (allocations : list SourceLotBasisTransferAllocation) (error_reason : option string) : result LotBasisTransferResult :=
  _ ← nonnegative_decimal transferred_cost_local "transferred_cost_local";
  _ ← nonnegative_decimal transferred_cost_base "transferred_cost_base";
  let nonempty := match allocations with [] => false | _ => true end in
  match error_reason with
  | Some reason =>
      normalized_error ← require_nonblank reason "error_reason";
      _ ← raise_if (nonempty || negb (dis_zero transferred_cost_local) || negb (dis_zero transferred_cost_base))
            (ValueError "failed basis transfers cannot carry economics");
      Ok {| br_transferred_cost_local := transferred_cost_local; br_transferred_cost_base := transferred_cost_base;
            br_allocations := allocations; br_error_reason := Some normalized_error; br_calculation_lineage := None |}
  | None =>
      _ ← raise_if (negb nonempty) (ValueError "successful basis transfer requires source-lot allocations");
      _ ← raise_if (negb (bool_decide (map ba_allocation_ordinal allocations = ordinals_from_one (length allocations))))
            (ValueError "basis-transfer allocation ordinals must be contiguous");
      _ ← raise_if (negb (bool_decide (NoDup (map ba_source_lot_id allocations))))
            (ValueError "a source lot can appear only once in one basis transfer");
      let r := {| br_transferred_cost_local := transferred_cost_local; br_transferred_cost_base := transferred_cost_base;
                  br_allocations := allocations; br_error_reason := None; br_calculation_lineage := None |} in
      l ← build_basis_transfer_lineage r;
      Ok {| br_transferred_cost_local := transferred_cost_local; br_transferred_cost_base := transferred_cost_base;
            br_allocations := allocations; br_error_reason := None; br_calculation_lineage := Some l |}
  end.

Definition failed_transfer (reason : string) : result LotBasisTransferResult :=
  make_LotBasisTransferResult dzero dzero [] (Some reason).

Record TransactionLotBasisTransfer := {
  tb_source_transaction_id : string; tb_target_transaction_id : string; tb_target_lot_id : string;
  tb_result : LotBasisTransferResult
}.

Definition make_TransactionLotBasisTransfer (source_transaction_id target_transaction_id target_lot_id : string)
  (r : LotBasisTransferResult) : result TransactionLotBasisTransfer :=
  source ← require_nonblank source_transaction_id "source_transaction_id";
  target ← require_nonblank target_transaction_id "target_transaction_id";
  lot ← require_nonblank target_lot_id "target_lot_id";
  _ ← raise_if (String.eqb source target) (ValueError "source and target transaction ids must differ");
  _ ← raise_if (negb (String.eqb lot ("LOT-" +:+ target))) (ValueError "target_lot_id must derive from target_transaction_id");
  _ ← raise_if (match br_error_reason r with Some _ => true | None => false end)
        (ValueError "transaction basis-transfer evidence requires a successful result");
  Ok {| tb_source_transaction_id := source; tb_target_transaction_id := target; tb_target_lot_id := lot; tb_result := r |}.

(** ** Receipt version chains *)

Record CostBasisReceiptVersion := {
  rv_previous_receipt_content_hash : option string; rv_receipt_content_hash : string;
  rv_receipt_id : string; rv_receipt_version : Z
}.

Fixpoint verify_chain_from (expected_version : Z) (expected_id previous_hash : option string)
  (rs : list CostBasisReceiptVersion) : result unit :=
  match rs with
  | [] => Ok tt
  | r :: rs' =>
      let id := rv_receipt_id r in
      _ ← raise_if (negb (truthy id) || negb (String.eqb (strip id) id)) (ValueError "receipt id must be canonical nonblank text");
      _ ← match expected_id with
          | None => Ok tt
          | Some e => raise_if (negb (String.eqb id e)) (ValueError "receipt version chain contains multiple receipt identities")
          end;
      _ ← raise_if (negb (rv_receipt_version r =? expected_version))
            (ValueError "receipt versions must be contiguous and ordered from one");
      content_hash ← require_sha256_digest (rv_receipt_content_hash r) "receipt_content_hash";
      _ ← (if expected_version =? 1 then
             raise_if (match rv_previous_receipt_content_hash r with Some _ => true | None => false end)
               (ValueError "first receipt version cannot have a predecessor")
           else
             match rv_previous_receipt_content_hash r with
             | None => Raise (TypeError "object of type 'NoneType' has no len()")
             | Some p =>
                 _ ← require_sha256_digest p "previous_receipt_content_hash";
                 raise_if (match previous_hash with Some h => negb (String.eqb p h) | None => true end)
                   (ValueError "receipt version chain hash does not match predecessor")
             end);
      verify_chain_from (expected_version + 1) (Some (default id expected_id)) (Some content_hash) rs'
  end.

Definition verify_cost_basis_receipt_version_chain (rs : list CostBasisReceiptVersion) : result unit :=
  match rs with
  | [] => Raise (ValueError "receipt version chain must not be empty")
  | _ => verify_chain_from 1 None None rs
  end.

Definition receipt_version_content_hash (receipt_id semantic_content_hash : string) (receipt_version : Z)
  (previous : option string) : result string :=
  canonical_content_hash (PMap [
    ("previous_receipt_content_hash", match previous with Some h => PStr h | None => PNone end);
    ("receipt_id", PStr receipt_id);
    ("receipt_version", PInt receipt_version);
    ("semantic_content_hash", PStr semantic_content_hash)]).

Definition verify_active_lot_disposal_lineage (lineage : option CalculationLineage) (allocation_payloads : list payload)
  (cost_base cost_local quantity : decimal) : result unit :=
  match lineage with
  | None => Raise (ValueError "active receipt lacks disposal lineage")
  | Some l =>
      _ ← raise_if (negb (String.eqb (cl_algorithm_id l) LOT_DISPOSAL_LINEAGE_ALGORITHM_ID) ||
                    negb (cl_algorithm_version l =? LOT_DISPOSAL_LINEAGE_ALGORITHM_VERSION))
            (ValueError "disposal lineage algorithm identity is unsupported");
      np ← lineage_identity policy;
      _ ← raise_if (negb (cl_intermediate_precision l =? np_working_precision np) ||
                    negb (bool_decide (cl_numeric_output_policy l = Some np)))
            (ValueError "disposal lineage numeric policy is unsupported");
      input ← lot_disposal_lineage_input_payload allocation_payloads;
      h ← canonical_content_hash input;
      _ ← raise_if (negb (String.eqb (cl_input_content_hash l) h))
            (ValueError "disposal lineage does not bind persisted inputs");
      output ← lot_disposal_lineage_output_payload cost_base cost_local quantity;
      binds ← calculation_lineage_binds_output l output;
      raise_if (negb binds) (ValueError "disposal lineage does not bind persisted outputs")
  end.
End Receipts.

(** ** Facts about the ledger policy of the cost-basis state *)

Lemma cost_policy_identity : exists np, lineage_identity policy = Ok np.
Proof. eexists. vm_compute. reflexivity. Qed.

Lemma cost_normalize (d : decimal) n f : ledger d n -> normalize policy d f = Ok d.
Proof. apply ledger_normalize. Qed.

Lemma require_decimal_nonneg d n f : ledger d n -> 0 <= n -> require_decimal d f false false = Ok tt.
Proof.
  intros Hd Hn. unfold require_decimal. simpl. rewrite (ledger_lt d dzero n 0 Hd ledger_dzero).
  by destruct (Z.ltb_spec n 0); [lia|].
Qed.

Lemma require_decimal_pos d n f : ledger d n -> 0 < n -> require_decimal d f true false = Ok tt.
Proof.
  intros Hd Hn. unfold require_decimal. simpl. rewrite (ledger_lt d dzero n 0 Hd ledger_dzero), (ledger_eq d dzero n 0 Hd ledger_dzero).
  destruct (Z.ltb_spec n 0), (Z.eqb_spec n 0); try lia. done.
Qed.

Lemma require_decimal_Ok d n f : ledger d n -> require_decimal d f false false = Ok tt -> 0 <= n.
Proof.
  intros Hd. unfold require_decimal. simpl. rewrite (ledger_lt d dzero n 0 Hd ledger_dzero).
  destruct (Z.ltb_spec n 0); [done|lia].
Qed.

Lemma make_OpenLotState_Ok o q cl cb no nq ncl ncb :
  ledger o no -> ledger q nq -> ledger cl ncl -> ledger cb ncb -> 0 <= nq <= no -> 0 <= ncl -> 0 <= ncb ->
  make_OpenLotState o q cl cb None =
    Ok {| ol_original_quantity := o; ol_quantity := q; ol_cost_local := cl; ol_cost_base := cb; ol_amortized_cost := None |}.
Proof.
  intros Ho Hq Hl Hb Hn Hnl Hnb. unfold make_OpenLotState, require_non_negative_decimal.
  rewrite (ledger_lt o dzero no 0), (ledger_lt q dzero nq 0), (ledger_lt cl dzero ncl 0), (ledger_lt cb dzero ncb 0),
    (ledger_lt o q no nq) by (done || apply ledger_dzero).
  rewrite !(proj2 (Z.ltb_ge _ _)) by lia. simpl. by rewrite andb_false_r.
Qed.

(** *** Canonical payloads of ledger amounts exist *)

Lemma canonical_decimal_Ok d n f : ledger d n -> exists c, canonical_decimal d f = Ok c.
Proof.
  intros Hd. unfold canonical_decimal. rewrite (cost_normalize d n f Hd). cbn [mbind result_bind].
  apply quantize_Ok; [apply (ledger_context_wide "x")|simpl; lia|].
  eapply Qlt_trans; [exact (ledger_val_bound d n Hd)|]. by apply pow10_lt_mono.
Qed.

Definition canon_ok (p : payload) : Prop :=
  forall path, exists p', canonical_cost_basis_output p path = Ok p' /\ is_ok (normalize_lineage_value p') = true.

Lemma canon_decimal d : (exists n, ledger d n) -> canon_ok (PDecimal (Finite d)).
Proof.
  intros [n Hd] path. destruct (canonical_decimal_Ok d n path Hd) as [c Hc]. simpl. rewrite Hc. by eexists.
Qed.

Lemma canon_int n : canon_ok (PInt n).
Proof. intros path. by exists (PInt n). Qed.
Lemma canon_str s : canon_ok (PStr s).
Proof. intros path. by exists (PStr s). Qed.
Lemma canon_date d : canon_ok (PDate d).
Proof. intros path. by exists (PDate d). Qed.

Lemma canon_map es : Forall (fun e => truthy (fst e) = true /\ canon_ok (snd e)) es -> canon_ok (PMap es).
Proof.
  intros HF path. cbn [canonical_cost_basis_output].
  assert (H : exists es', (fix go es := match es with
        | [] => Ok []
        | (k, v) :: es' =>
            v' ← canonical_cost_basis_output v (path +:+ "." +:+ k); rest ← go es'; Ok ((k, v') :: rest)
        end) es = Ok es' /\ Forall (fun e => truthy (fst e) = true /\ is_ok (normalize_lineage_value (snd e)) = true) es').
  { induction HF as [|[k v] es [Hk Hv] HF (es' & IH & IHF)]; [by exists []|].
    destruct (Hv (path +:+ "." +:+ k)) as (v' & Hv' & Hok). simpl in *. rewrite Hv'. simpl. rewrite IH. simpl.
    eexists; split; [done|]. by constructor. }
  destruct H as (es' & -> & HF'). eexists; split; [reflexivity|]. by apply normalize_map_ok.
Qed.

Lemma canon_seq xs : Forall canon_ok xs -> canon_ok (PSeq xs).
Proof.
  intros HF path. cbn [canonical_cost_basis_output].
  assert (H : forall i, exists xs', (fix go (i : Z) xs := match xs with
        | [] => Ok []
        | x :: xs' =>
            x' ← canonical_cost_basis_output x (path +:+ "[" +:+ string_of_Z i +:+ "]");
            rest ← go (i + 1) xs'; Ok (x' :: rest)
        end) i xs = Ok xs' /\ Forall (fun x => is_ok (normalize_lineage_value x) = true) xs').
  { induction HF as [|x xs Hx HF IH]; intros i; [by exists []|].
    destruct (Hx (path +:+ "[" +:+ string_of_Z i +:+ "]")) as (x' & Hx' & Hok). destruct (IH (i + 1)) as (xs' & Hxs & Hall).
    rewrite Hx'. simpl. rewrite Hxs. simpl. eexists; split; [done|]. by constructor. }
  destruct (H 0) as (xs' & -> & HF'). eexists; split; [reflexivity|]. by apply normalize_seq_ok.
Qed.

Lemma canon_payload es :
  Forall (fun e => truthy (fst e) = true /\ canon_ok (snd e)) es ->
  exists p, canonical_cost_basis_output_payload es = Ok p /\ is_ok (normalize_lineage_value p) = true.
Proof.
  intros HF. unfold canonical_cost_basis_output_payload.
  assert (H : exists es', mapR (fun e => v ← canonical_cost_basis_output (snd e) (fst e); Ok (fst e, v)) es = Ok es' /\
    Forall (fun e => truthy (fst e) = true /\ is_ok (normalize_lineage_value (snd e)) = true) es').
  { induction HF as [|[k v] es [Hk Hv] HF (es' & IH & IHF)]; [by exists []|].
    destruct (Hv k) as (v' & Hv' & Hok). simpl in *. rewrite Hv'. simpl. rewrite IH. simpl.
    eexists; split; [done|]. by constructor. }
  destruct H as (es' & -> & HF'). eexists; split; [reflexivity|]. by apply normalize_map_ok.
Qed.

#[export] Hint Resolve canon_decimal canon_int canon_str canon_date : lotus.

(** Discharge the canonicalisation of a literal payload. *)
Ltac canon :=
  repeat first [apply canon_payload | apply canon_map | apply canon_seq | apply Forall_nil_2
    | apply Forall_cons_2; [split; [reflexivity|]; cbn [snd decimal_entry]|] ]; eauto with lotus.

(** ** Exact restatement *)

Lemma persistable_exact d f n : ledger d n -> require_exact TRANSACTION_PERSISTENCE_PRECISION_V1 d f = Ok d.
Proof.
  intros [Hn Hlt]. apply (require_exact_storable "transaction-persistence-v1" 18 10); [lia|lia|by exists n].
Qed.

Lemma persistable_iff d f : is_ok (require_exact_persistable_quantity d f) = true <-> exists n, ledger d n.
Proof.
  unfold require_exact_persistable_quantity. split.
  - destruct (require_exact _ d f) as [r|] eqn:E; [|done]. intros _.
    apply (require_exact_Ok "transaction-persistence-v1" 18 10) in E as [-> (n & Hn & Hlt)]; [|lia|lia]. by exists n.
  - intros (n & Hn). by rewrite (persistable_exact d f n Hn).
Qed.

Lemma persistable_Ok d f n : ledger d n -> require_exact_persistable_quantity d f = Ok d.
Proof.
  intros Hn. unfold require_exact_persistable_quantity. by rewrite (persistable_exact d f n Hn).
Qed.

Lemma persistable_Raise d f :
  (forall n, ~ ledger d n) ->
  require_exact_persistable_quantity d f = Raise (LotRestatementError (f +:+ " exceeds governed quantity precision")).
Proof.
  intros Hn. pose proof (persistable_iff d f) as [H _]. unfold require_exact_persistable_quantity in *.
  destruct (require_exact _ d f); [|done]. destruct (H eq_refl) as [n Hl]. by destruct (Hn n).
Qed.

Lemma positive_persistable_inv d f r :
  require_positive_persistable_quantity d f = Ok r -> exists n, ledger d n /\ 0 < n.
Proof.
  unfold require_positive_persistable_quantity, require_non_negative_persistable_quantity. intros H.
  apply bind_Ok in H as (a & (u & Hlt%raise_if_Ok & Ha)%bind_Ok & (u' & Heq%raise_if_Ok & _)%bind_Ok).
  assert (Hok : is_ok (require_exact_persistable_quantity d f) = true) by (by rewrite Ha).
  apply persistable_iff in Hok as [n Hn]. rewrite (persistable_Ok d f n Hn) in Ha. injection Ha as <-.
  rewrite (ledger_lt d dzero n 0 Hn ledger_dzero) in Hlt. rewrite (ledger_eq d dzero n 0 Hn ledger_dzero) in Heq.
  exists n. split; [done|]. lia.
Qed.

(** The ratio of a valid restatement, in units. *)
Definition restates (r : LotRestatement) (before after : Z) : Prop :=
  ledger (lr_quantity_before r) before /\ ledger (lr_quantity_after r) after /\ 0 < before /\ 0 < after /\ before <> after.

Lemma make_LotRestatement_inv b a r :
  make_LotRestatement b a = Ok r ->
  lr_quantity_before r = b /\ lr_quantity_after r = a /\ exists nb na, restates r nb na.
Proof.
  unfold make_LotRestatement. intros (b' & Hb & (a' & Ha & (u & Hne%raise_if_Ok & [= <-])%bind_Ok)%bind_Ok)%bind_Ok.
  apply positive_persistable_inv in Hb as (nb & Hb & Pb), Ha as (na & Ha & Pa).
  split; [done|]. split; [done|]. exists nb, na. split; [done|]. split; [done|]. split; [done|]. split; [done|].
  intros ->. by rewrite (ledger_eq b a na na Hb Ha), Z.eqb_refl in Hne.
Qed.

Lemma restated_units_val r nb na q n :
  restates r nb na -> ledger q n -> (restated_units r q == inject_Z (n * na) / inject_Z nb)%Q.
Proof.
  intros ([Hb _] & [Ha _] & Pb & _ & _) [Hq _]. unfold restated_units, units in *. rewrite Qred_correct, Hb, Ha, Hq.
  change (inject_Z (10 ^ LOT_QUANTITY_SCALE)) with (pow10 10). pose proof (pow10_neg_inv 10) as E.
  change (- 10) with (-10) in E. pose proof (pow10_nonzero (-10)) as Hz.
  assert (Hnb : ~ (inject_Z nb == 0)%Q) by (apply inject_Z_nonzero; lia). rewrite inject_Z_mult.
  transitivity ((inject_Z n * inject_Z na / inject_Z nb) * (pow10 (-10) * pow10 10))%Q; [field; by split|].
  rewrite E. field. done.
Qed.

Lemma restated_units_integer r nb na q n k :
  restates r nb na -> ledger q n -> n * na = k * nb -> restated_units r q = inject_Z k.
Proof.
  intros Hr Hq Hk. pose proof Hr as (_ & _ & Pb & _). pose proof (restated_units_val r nb na q n Hr Hq) as E.
  rewrite Hk, inject_Z_mult in E. assert (Hnb : ~ (inject_Z nb == 0)%Q) by (apply inject_Z_nonzero; lia).
  assert (E' : (restated_units r q == inject_Z k)%Q) by (rewrite E; field; done).
  unfold restated_units in *. rewrite Qred_correct in E'. apply Qred_complete in E'. rewrite E'.
  apply Qcanon.Qred_identity. simpl. apply Z.gcd_1_r.
Qed.

Lemma restated_units_fraction r nb na q n :
  restates r nb na -> ledger q n -> Qden (restated_units r q) = 1%positive -> exists k, n * na = k * nb.
Proof.
  intros Hr Hq Hd. pose proof Hr as (_ & _ & Pb & _). pose proof (restated_units_val r nb na q n Hr Hq) as E.
  exists (Qnum (restated_units r q)).
  assert (Hu : restated_units r q = inject_Z (Qnum (restated_units r q))).
  { destruct (restated_units r q) as [num den]. simpl in *. by rewrite Hd. }
  rewrite Hu in E. assert (Hnb : ~ (inject_Z nb == 0)%Q) by (apply inject_Z_nonzero; lia).
  apply inject_Z_injective. rewrite (inject_Z_mult (Qnum _) nb), E. field. done.
Qed.

(** A multiple of the quantum that is too large for the column is still too large after rounding to
    the 28 digits of the ambient context. *)
Lemma rounded_overflow k r :
  10 ^ 18 <= k -> dfix default_context (Dec k (-10)) = Ok r -> forall n, ~ ledger r n.
Proof.
  intros Hk Hr n Hn. pose proof (ledger_val_bound r n Hn) as Hb.
  assert (H1 : exists r1, dfix default_context (Dec (10 ^ 18) (-10)) = Ok r1) by (eexists; vm_compute; reflexivity).
  destruct H1 as [r1 H1].
  assert (Hle : (dval r1 <= dval r)%Q).
  { eapply dfix_mono; [| | |exact H1|exact Hr]; [simpl; lia|by vm_compute|]. rewrite !dval_Dec. by apply scaled_le. }
  vm_compute in H1. injection H1 as <-. assert (E : (dval (Dec 1000000000000000000 (-10)) == pow10 8)%Q) by (by vm_compute).
  rewrite E in Hle. apply Qabs_Qlt_condition in Hb. lra.
Qed.

Lemma lr_apply_spec r nb na q n f :
  restates r nb na -> ledger q n -> 0 <= n ->
  match lr_apply r q f with
  | Ok d => exists k, n * na = k * nb /\ ledger d k
  | Raise e => (e = LotRestatementError (f +:+ " cannot be restated exactly at 10 decimal places") /\
                 forall k, n * na <> k * nb) \/
               (e = LotRestatementError (f +:+ " exceeds governed quantity precision") /\
                 exists k, n * na = k * nb /\ 10 ^ 18 <= k)
  end.
Proof.
  intros Hr Hq Hn. unfold lr_apply, require_non_negative_persistable_quantity.
  rewrite (ledger_lt q dzero n 0 Hq ledger_dzero), (proj2 (Z.ltb_ge _ _) Hn). cbn [raise_if mbind result_bind].
  rewrite (persistable_Ok q f n Hq). cbn [mbind result_bind].
  destruct (Pos.eqb_spec (Qden (restated_units r q)) 1) as [E|E]; cbn [negb raise_if mbind result_bind].
  - destruct (restated_units_fraction r nb na q n Hr Hq E) as [k Hk].
    rewrite (restated_units_integer r nb na q n k Hr Hq Hk). cbn [Qnum inject_Z].
    assert (0 <= k) by (destruct Hr as (_ & _ & Pb & Pa & _); nia).
    destruct (Z.lt_ge_cases k (10 ^ 18)) as [Hlt|Hge].
    + destruct (dfix_units default_context (-10) (Dec k (-10)) k) as (d & Hd & Hu);
        [by apply make_context_wide|lia|unfold units; by rewrite dval_Dec|simpl; lia|].
      change (- LOT_QUANTITY_SCALE) with (-10). rewrite Hd. cbn [mbind result_bind].
      assert (Hl : ledger d k) by (split; [done|lia]). rewrite (persistable_Ok d f k Hl). by exists k.
    + change (- LOT_QUANTITY_SCALE) with (-10).
      destruct (dfix default_context (Dec k (-10))) as [d|e] eqn:Ed; cbn [mbind result_bind].
      * rewrite persistable_Raise by (by eapply rounded_overflow). right. split; [done|]. by exists k.
      * exfalso. destruct Hr as ([_ Ba] & [_ Bb] & Pb & Pa & _). destruct Hq as [_ Bq].
        destruct (dfix_Ok default_context (Dec k (-10))) as [d Hd]; [by apply make_context_wide| |congruence].
        rewrite dval_abs. simpl. rewrite Z.abs_eq by lia.
        apply Qle_lt_trans with (pow10 36 * pow10 (-10))%Q; [|rewrite <- pow10_add; by apply pow10_lt_mono].
        rewrite (pow10_Z 36) by lia. apply scaled_le. nia.
  - left. split; [done|]. intros k Hk. apply E. by rewrite (restated_units_integer r nb na q n k Hr Hq Hk).
Qed.

(** ** Sums in units *)

Definition ul (d : decimal) : Z := to_units policy d.

Definition stored (d : decimal) : Prop := ledger d (ul d).

Lemma ledger_ul d n : ledger d n -> ul d = n.
Proof. intros [H _]. by apply to_units_exact. Qed.

Lemma ledger_stored d n : ledger d n -> stored d.
Proof. intros H. unfold stored. by rewrite (ledger_ul d n H). Qed.

Definition zsum (xs : list Z) : Z := foldr Z.add 0 xs.

Arguments zsum : simpl never.

Lemma zsum_cons x xs : zsum (x :: xs) = x + zsum xs.
Proof. done. Qed.

Lemma zsum_nil : zsum [] = 0.
Proof. done. Qed.

Lemma zsum_app xs ys : zsum (xs ++ ys)%list = zsum xs + zsum ys.
Proof. induction xs as [|x xs IH]; simpl; [done|]. rewrite !zsum_cons, IH. lia. Qed.

Lemma zsum_perm xs ys : xs ≡ₚ ys -> zsum xs = zsum ys.
Proof. induction 1; rewrite ?zsum_cons; lia. Qed.

Lemma zsum_nonneg xs : Forall (fun x => 0 <= x) xs -> 0 <= zsum xs.
Proof. induction 1; rewrite ?zsum_cons, ?zsum_nil; lia. Qed.

#[export] Hint Resolve ledger_stored : lotus.

Lemma cost_add_stored x y f r : stored x -> stored y -> p_add policy x y f = Ok r -> stored r /\ ul r = ul x + ul y.
Proof.
  intros Hx Hy H. pose proof (p_add_Ok _ x y _ _ f r Hx Hy H) as Hr. pose proof (ledger_ul _ _ Hr). split; [by eapply ledger_stored|done].
Qed.

Lemma cost_sub_stored x y f r : stored x -> stored y -> p_subtract policy x y f = Ok r -> stored r /\ ul r = ul x - ul y.
Proof.
  intros Hx Hy H. pose proof (p_subtract_Ok _ x y _ _ f r Hx Hy H) as Hr. pose proof (ledger_ul _ _ Hr). split; [by eapply ledger_stored|done].
Qed.

Lemma cost_add_total x y f :
  stored x -> stored y -> Z.abs (ul x + ul y) < 10 ^ 18 ->
  exists r, p_add policy x y f = Ok r /\ stored r /\ ul r = ul x + ul y.
Proof.
  intros Hx Hy Hb. destruct (proj1 (p_add_spec (cp_name policy) x y (ul x) (ul y) f Hx Hy) Hb) as (r & Hr & Hl).
  exists r. split; [exact Hr|]. split; [by eapply ledger_stored|by apply ledger_ul].
Qed.

Lemma cost_sub_total x y f :
  stored x -> stored y -> Z.abs (ul x - ul y) < 10 ^ 18 ->
  exists r, p_subtract policy x y f = Ok r /\ stored r /\ ul r = ul x - ul y.
Proof.
  intros Hx Hy Hb. destruct (proj1 (p_subtract_spec (cp_name policy) x y (ul x) (ul y) f Hx Hy) Hb) as (r & Hr & Hl).
  exists r. split; [exact Hr|]. split; [by eapply ledger_stored|by apply ledger_ul].
Qed.

(** The same for every (18,10) ledger policy. *)
Section Ledgers.
Context (name : string).
#[local] Notation pol := (ledger_policy name).

Lemma book_add x y f r : stored x -> stored y -> p_add pol x y f = Ok r -> stored r /\ ul r = ul x + ul y.
Proof.
  intros Hx Hy Hr%(p_add_Ok _ x y _ _ f r Hx Hy). split; [by eapply ledger_stored|by apply ledger_ul].
Qed.

Lemma book_sub x y f r : stored x -> stored y -> p_subtract pol x y f = Ok r -> stored r /\ ul r = ul x - ul y.
Proof.
  intros Hx Hy Hr%(p_subtract_Ok _ x y _ _ f r Hx Hy). split; [by eapply ledger_stored|by apply ledger_ul].
Qed.

(** Normalising rounds to the unit, which [ul] already does. *)
Lemma book_normalize d f r : normalize pol (Finite d) f = Ok r -> stored r /\ ul r = ul d.
Proof.
  intros Hr%ledger_of_normalize. split; [by eapply ledger_stored|]. by apply ledger_ul.
Qed.

Lemma book_normalize_id d f : stored d -> normalize pol (Finite d) f = Ok d.
Proof. apply ledger_normalize. Qed.

Lemma book_multiply x y f r : stored x -> stored y -> p_multiply pol x y f = Ok r ->
  stored r /\ ul r = round_coeff ROUND_HALF_EVEN (ul x * ul y) (10 ^ 10).
Proof.
  intros Hx Hy H. destruct (p_multiply_spec name x y _ _ f Hx Hy) as [H1 H2].
  destruct (Z.lt_ge_cases (Z.abs (round_coeff ROUND_HALF_EVEN (ul x * ul y) (10 ^ 10))) (10 ^ 18)) as [B|B].
  - destruct (H1 B) as (r' & E & Hr). rewrite H in E. injection E as <-. split; [by eapply ledger_stored|by apply ledger_ul].
  - by rewrite (H2 B) in H.
Qed.

Lemma book_multiply_stored x y f r : p_multiply pol (Finite x) (Finite y) f = Ok r -> stored r.
Proof. unfold p_multiply, calculate. intros (d & _ & Hr%book_normalize)%bind_Ok. by destruct Hr. Qed.
End Ledgers.

Lemma zsum_map_nonneg {A} (f : A -> Z) xs : Forall (fun x => 0 <= f x) xs -> 0 <= zsum (map f xs).
Proof. intros H. apply zsum_nonneg. by rewrite Forall_map. Qed.

Lemma stored_deqb x y : stored x -> stored y -> deqb x y = (ul x =? ul y).
Proof. apply ledger_eq. Qed.

Lemma stored_dltb x y : stored x -> stored y -> dltb x y = (ul x <? ul y).
Proof. apply ledger_lt. Qed.

Lemma stored_dleb x y : stored x -> stored y -> dleb x y = (ul x <=? ul y).
Proof. apply ledger_le. Qed.

Lemma stored_dzero : stored dzero.
Proof. exact (ledger_stored _ _ ledger_dzero). Qed.

Lemma ul_dzero : ul dzero = 0.
Proof. exact (ledger_ul _ _ ledger_dzero). Qed.

(** Sums and differences in the ambient 28-digit context are exact too. *)
Lemma ambient_exact d n : units (-10) d n -> Z.abs n < 10 ^ 28 -> exists r, dfix default_context d = Ok r /\ units (-10) r n.
Proof. intros Hd Hn. apply dfix_units; [by apply make_context_wide|lia|done|done]. Qed.

Lemma ambient_add x y :
  stored x -> stored y -> Z.abs (ul x + ul y) < 10 ^ 18 ->
  exists r, dadd default_context x y = Ok r /\ stored r /\ ul r = ul x + ul y.
Proof.
  intros [Hx _] [Hy _] Hn. destruct (ambient_exact (add_exact x y) (ul x + ul y)) as (r & Hr & Hu); [by apply units_add|lia|].
  assert (Hl : ledger r (ul x + ul y)) by (by split). exists r. split; [done|]. split; [by eapply ledger_stored|by apply ledger_ul].
Qed.

Lemma ambient_sub x y :
  stored x -> stored y -> Z.abs (ul x - ul y) < 10 ^ 18 ->
  exists r, dsub default_context x y = Ok r /\ stored r /\ ul r = ul x - ul y.
Proof.
  intros [Hx _] [Hy _] Hn. destruct (ambient_exact (add_exact x (neg_exact y)) (ul x - ul y)) as (r & Hr & Hu); [by apply units_sub|lia|].
  assert (Hl : ledger r (ul x - ul y)) by (by split). exists r. split; [done|]. split; [by eapply ledger_stored|by apply ledger_ul].
Qed.

Lemma make_LotRestatement_Ok b a :
  stored b -> stored a -> 0 < ul b -> 0 < ul a -> ul a <> ul b ->
  make_LotRestatement b a = Ok {| lr_quantity_before := b; lr_quantity_after := a |}.
Proof.
  intros Sb Sa Pb Pa Hne. unfold make_LotRestatement, require_positive_persistable_quantity, require_non_negative_persistable_quantity.
  rewrite (stored_dltb _ _ Sb stored_dzero), (stored_dltb _ _ Sa stored_dzero), ul_dzero, !(proj2 (Z.ltb_ge _ _)) by lia.
  cbn [raise_if mbind result_bind]. rewrite (persistable_Ok b _ _ Sb), (persistable_Ok a _ _ Sa). cbn [mbind result_bind].
  rewrite (stored_deqb _ _ Sb stored_dzero), (stored_deqb _ _ Sa stored_dzero), (stored_deqb _ _ Sb Sa), ul_dzero,
    !(proj2 (Z.eqb_neq _ _)) by lia. done.
Qed.

Lemma ledger_dint n : Z.abs n < 10 ^ 8 -> ledger (dint n) (n * 10 ^ 10).
Proof.
  intros Hn. split; [|lia]. unfold units, dint. rewrite dval_Dec, inject_Z_mult, <- (pow10_Z 10) by lia.
  rewrite <- Qmult_assoc, <- pow10_add. reflexivity.
Qed.

Lemma stored_dint n : Z.abs n < 10 ^ 8 -> stored (dint n).
Proof. intros Hn. by eapply ledger_stored, ledger_dint. Qed.

Lemma ul_dint n : Z.abs n < 10 ^ 8 -> ul (dint n) = n * 10 ^ 10.
Proof. intros Hn. by apply ledger_ul, ledger_dint. Qed.

Lemma policy_sum_stored f acc xs r :
  stored acc -> Forall stored xs -> foldM (fun a x : decimal => p_add policy a x f) acc xs = Ok r ->
  stored r /\ ul r = ul acc + zsum (map ul xs).
Proof.
  intros Ha HF. revert acc Ha r. induction HF as [|x xs Hx HF IH]; intros acc Ha r H; simpl in *.
  - injection H as <-. rewrite zsum_nil. split; [done|lia].
  - rewrite zsum_cons. apply bind_Ok in H as (a' & H1 & H2). destruct (cost_add_stored _ _ _ _ Ha Hx H1) as [Ha' E].
    destruct (IH _ Ha' _ H2) as [Hr ->]. split; [done|lia].
Qed.

Definition allocation_stored (a : SourceLotDisposalAllocation) : Prop :=
  stored (da_consumed_quantity a) /\ stored (da_consumed_cost_local a) /\ stored (da_consumed_cost_base a).

Lemma allocation_totals_stored q cl cb xs q' cl' cb' :
  stored q -> stored cl -> stored cb -> Forall allocation_stored xs ->
  allocation_totals q cl cb xs = Ok (q', cl', cb') ->
  (stored q' /\ ul q' = ul q + zsum (map (fun a => ul (da_consumed_quantity a)) xs)) /\
  (stored cl' /\ ul cl' = ul cl + zsum (map (fun a => ul (da_consumed_cost_local a)) xs)) /\
  (stored cb' /\ ul cb' = ul cb + zsum (map (fun a => ul (da_consumed_cost_base a)) xs)).
Proof.
  intros Hq Hl Hb HF. revert q cl cb Hq Hl Hb.
  induction HF as [|a xs (Sq & Sl & Sb) HF IH]; intros q cl cb Hq Hl Hb H; simpl in *.
  - injection H as <- <- <-. change (zsum []) with 0. rewrite !Z.add_0_r. done.
  - apply bind_Ok in H as (q1 & H1 & (l1 & H2 & (b1 & H3 & H)%bind_Ok)%bind_Ok).
    destruct (cost_add_stored _ _ _ _ Hq Sq H1) as [? E1], (cost_add_stored _ _ _ _ Hl Sl H2) as [? E2],
      (cost_add_stored _ _ _ _ Hb Sb H3) as [? E3].
    destruct (IH q1 l1 b1 ltac:(done) ltac:(done) ltac:(done) H) as ((? & ->) & (? & ->) & (? & ->)).
    rewrite !zsum_cons. split; [split; [done|lia]|]. split; (split; [done|lia]).
Qed.

Definition allocation_nonneg (a : SourceLotDisposalAllocation) : Prop :=
  0 <= ul (da_consumed_quantity a) /\ 0 <= ul (da_consumed_cost_local a) /\ 0 <= ul (da_consumed_cost_base a).

(** The lockstep accumulation succeeds while the totals fit. *)
Lemma allocation_totals_total q cl cb xs :
  stored q -> stored cl -> stored cb -> Forall allocation_stored xs -> Forall allocation_nonneg xs ->
  0 <= ul q -> 0 <= ul cl -> 0 <= ul cb ->
  ul q + zsum (map (fun a => ul (da_consumed_quantity a)) xs) < 10 ^ 18 ->
  ul cl + zsum (map (fun a => ul (da_consumed_cost_local a)) xs) < 10 ^ 18 ->
  ul cb + zsum (map (fun a => ul (da_consumed_cost_base a)) xs) < 10 ^ 18 ->
  exists t, allocation_totals q cl cb xs = Ok t.
Proof.
  intros Hq Hl Hb HF HN. revert q cl cb Hq Hl Hb.
  induction HF as [|a xs (Sq & Sl & Sb) HF IH]; intros q cl cb Hq Hl Hb P1 P2 P3 B1 B2 B3; simpl in *; [eauto|]. rewrite !zsum_cons in *.
  apply Forall_cons in HN as [(N1 & N2 & N3) HN].
  assert (Z1 : 0 <= zsum (map (fun a => ul (da_consumed_quantity a)) xs)) by (apply zsum_map_nonneg; eapply Forall_impl; [exact HN|]; by intros ? (? & ? & ?)).
  assert (Z2 : 0 <= zsum (map (fun a => ul (da_consumed_cost_local a)) xs)) by (apply zsum_map_nonneg; eapply Forall_impl; [exact HN|]; by intros ? (? & ? & ?)).
  assert (Z3 : 0 <= zsum (map (fun a => ul (da_consumed_cost_base a)) xs)) by (apply zsum_map_nonneg; eapply Forall_impl; [exact HN|]; by intros ? (? & ? & ?)).
  destruct (cost_add_total q _ "allocated_disposal_quantity" Hq Sq) as (q1 & -> & ? & ?); [lia|].
  destruct (cost_add_total cl _ "allocated_disposal_cost_local" Hl Sl) as (l1 & -> & ? & ?); [lia|].
  destruct (cost_add_total cb _ "allocated_disposal_cost_base" Hb Sb) as (b1 & -> & ? & ?); [lia|].
  simpl. apply IH; try done; lia.
Qed.

Section ReceiptProofs.
Context `{hashing : Hashing}.

Lemma make_LotDisposalResult_inv cb cl q xs r :
  make_LotDisposalResult cb cl q xs None = Ok r ->
  (dr_cost_base r = cb /\ dr_cost_local r = cl /\ dr_consumed_quantity r = q /\ dr_allocations r = xs /\ dr_error_reason r = None) /\
  map da_allocation_ordinal xs = ordinals_from_one (length xs) /\ NoDup (map da_source_lot_id xs) /\
  (deqb q dzero = false -> exists l, dr_calculation_lineage r = Some l /\
     build_conserved_allocation_lineage
       {| dr_cost_base := cb; dr_cost_local := cl; dr_consumed_quantity := q;
          dr_allocations := xs; dr_error_reason := None; dr_calculation_lineage := None |} = Ok l).
Proof.
  unfold make_LotDisposalResult.
  intros (u1 & _ & (u2 & _ & (u3 & _ & (u4 & Ho%raise_if_Ok & (u5 & Hd%raise_if_Ok & H)%bind_Ok)%bind_Ok)%bind_Ok)%bind_Ok)%bind_Ok.
  apply negb_false_iff, bool_decide_eq_true_1 in Ho. apply negb_false_iff, bool_decide_eq_true_1 in Hd.
  destruct (deqb q dzero) eqn:E.
  - apply bind_Ok in H as (u6 & _ & [= <-]). by repeat split.
  - apply bind_Ok in H as (u6 & _ & (l & Hl & [= <-])%bind_Ok). repeat split; try done. intros _. by exists l.
Qed.

Lemma conserved_lineage_inv r l :
  build_conserved_allocation_lineage r = Ok l ->
  exists q cl cb input output np,
    allocation_totals dzero dzero dzero (dr_allocations r) = Ok (q, cl, cb) /\
    deqb q (dr_consumed_quantity r) = true /\ deqb cl (dr_cost_local r) = true /\ deqb cb (dr_cost_base r) = true /\
    lot_disposal_lineage_input_payload (map source_lot_disposal_allocation_payload (dr_allocations r)) = Ok input /\
    lot_disposal_lineage_output_payload (dr_cost_base r) (dr_cost_local r) (dr_consumed_quantity r) = Ok output /\
    lineage_identity policy = Ok np /\
    build_calculation_lineage LOT_DISPOSAL_LINEAGE_ALGORITHM_ID LOT_DISPOSAL_LINEAGE_ALGORITHM_VERSION
      (cp_working_precision policy) input output (Some np) = Ok l.
Proof.
  unfold build_conserved_allocation_lineage.
  intros ([[q cl] cb] & Ht & (u1 & H1%raise_if_Ok & (u2 & H2%raise_if_Ok & (u3 & H3%raise_if_Ok & H)%bind_Ok)%bind_Ok)%bind_Ok)%bind_Ok.
  apply negb_false_iff in H1, H2, H3.
  apply bind_Ok in H as (input & Hi & (output & Ho & (np & Hnp & Hl)%bind_Ok)%bind_Ok).
  exists q, cl, cb, input, output, np. done.
Qed.

Lemma build_calculation_lineage_input algorithm_id version prec_ input output np l :
  build_calculation_lineage algorithm_id version prec_ input output np = Ok l ->
  canonical_content_hash input = Ok (cl_input_content_hash l) /\ cl_algorithm_id l = strip algorithm_id /\
  cl_algorithm_version l = version /\ cl_intermediate_precision l = prec_ /\ cl_numeric_output_policy l = np.
Proof.
  intros Hb. unfold build_calculation_lineage in Hb. do 3 (case_if_in Hb E; [done|]; clear E).
  apply bind_Ok in Hb as (ih & Hi & (ch & _ & (oh & _ & Hl)%bind_Ok)%bind_Ok).
  apply make_CalculationLineage_Ok in Hl as (_ & _ & _ & ->). done.
Qed.

(** Receipts of reconciled allocations exist. *)
Lemma allocation_payload_canon a :
  allocation_stored a -> da_amortized_cost_evidence a = None -> canon_ok (source_lot_disposal_allocation_payload a).
Proof.
  intros (Sq & Sl & Sb) Hn. unfold source_lot_disposal_allocation_payload, lot_disposal_allocation_payload. rewrite Hn.
  cbn [option_map app]. canon; apply canon_decimal; eexists; eassumption.
Qed.

Lemma make_LotDisposalResult_total {hashing_ok : HashingOk} cb cl q xs :
  stored cb -> stored cl -> stored q -> 0 <= ul cb -> 0 <= ul cl -> 0 < ul q ->
  Forall allocation_stored xs -> Forall allocation_nonneg xs -> Forall (fun a => da_amortized_cost_evidence a = None) xs ->
  map da_allocation_ordinal xs = ordinals_from_one (length xs) -> NoDup (map da_source_lot_id xs) ->
  ul q = zsum (map (fun a => ul (da_consumed_quantity a)) xs) ->
  ul cl = zsum (map (fun a => ul (da_consumed_cost_local a)) xs) ->
  ul cb = zsum (map (fun a => ul (da_consumed_cost_base a)) xs) ->
  exists l, make_LotDisposalResult cb cl q xs None =
    Ok {| dr_cost_base := cb; dr_cost_local := cl; dr_consumed_quantity := q; dr_allocations := xs;
          dr_error_reason := None; dr_calculation_lineage := Some l |}.
Proof.
  intros Sb Sl Sq Pb Pl Pq HS HN HE Ho Hd Eq El Eb. unfold make_LotDisposalResult.
  rewrite (require_decimal_nonneg cb _ _ Sb Pb), (require_decimal_nonneg cl _ _ Sl Pl),
    (require_decimal_nonneg q _ _ Sq ltac:(lia)). cbn [mbind result_bind].
  rewrite (bool_decide_true _ Ho), (bool_decide_true _ Hd), (stored_deqb _ _ Sq stored_dzero), ul_dzero, (proj2 (Z.eqb_neq _ _)) by lia.
  cbn [negb raise_if mbind result_bind].
  destruct xs as [|a xs]; [change (ul q = 0) in Eq; lia|]. cbn [negb raise_if mbind result_bind].
  set (ys := a :: xs) in *.
  assert (Bq := proj2 Sq). assert (Bl := proj2 Sl). assert (Bb := proj2 Sb).
  destruct (allocation_totals_total dzero dzero dzero ys) as [[[q' cl'] cb'] Ht];
    rewrite ?ul_dzero; try apply stored_dzero; try done; try lia.
  destruct (allocation_totals_stored _ _ _ ys q' cl' cb' stored_dzero stored_dzero stored_dzero HS Ht)
    as ((S1 & U1) & (S2 & U2) & (S3 & U3)). rewrite ul_dzero in *.
  unfold build_conserved_allocation_lineage. cbn [dr_allocations dr_consumed_quantity dr_cost_local dr_cost_base].
  rewrite Ht. cbn [mbind result_bind].
  rewrite (stored_deqb _ _ S1 Sq), (stored_deqb _ _ S2 Sl), (stored_deqb _ _ S3 Sb), !(proj2 (Z.eqb_eq _ _)) by lia.
  cbn [negb raise_if mbind result_bind].
  destruct (canon_payload [("allocations", PSeq (map source_lot_disposal_allocation_payload ys))]) as (input & Hi & Ni).
  { constructor; [|done]. split; [done|]. apply canon_seq, Forall_fmap, Forall_forall. intros x Hx.
    apply allocation_payload_canon; [by eapply Forall_forall in HS|by eapply Forall_forall in HE]. }
  unfold lot_disposal_lineage_input_payload, lot_disposal_lineage_output_payload. rewrite Hi. cbn [mbind result_bind].
  destruct (canon_payload [decimal_entry "consumed_cost_base" cb; decimal_entry "consumed_cost_local" cl;
    decimal_entry "consumed_quantity" q]) as (output & Hout & Nout); [canon; apply canon_decimal; eexists; eassumption|].
  rewrite Hout. cbn [mbind result_bind]. destruct cost_policy_identity as [np ->]. cbn [mbind result_bind].
  destruct (build_calculation_lineage_total LOT_DISPOSAL_LINEAGE_ALGORITHM_ID LOT_DISPOSAL_LINEAGE_ALGORITHM_VERSION
    (cp_working_precision policy) input output (Some np)) as [l ->]; try done. by exists l.
Qed.

Lemma failed_disposal_Ok reason :
  truthy (strip reason) = true ->
  failed_disposal reason = Ok {| dr_cost_base := dzero; dr_cost_local := dzero; dr_consumed_quantity := dzero;
    dr_allocations := []; dr_error_reason := Some (strip reason); dr_calculation_lineage := None |}.
Proof. intros H. unfold failed_disposal, make_LotDisposalResult. by rewrite H. Qed.
End ReceiptProofs.

(** ** Properties *)

(** A restatement is exact or refused: a stored quantity is scaled to after/before of itself when
    that is a whole number of storage units that fits the column, and otherwise the call raises a
    [LotRestatementError]; no rounding takes place.  Restating every part of a quantity that adds up
    to [quantity_before] gives parts that add up to exactly [quantity_after]. *)
Theorem restatement_exact_or_refused b a r :
  make_LotRestatement b a = Ok r ->
  (forall q f, stored q -> 0 <= ul q ->
     match lr_apply r q f with
     | Ok d => stored d /\ ul d * ul b = ul q * ul a
     | Raise e => (exists msg, e = LotRestatementError msg) /\
                  ((forall k, k * ul b <> ul q * ul a) \/ (exists k, k * ul b = ul q * ul a /\ 10 ^ 18 <= k))
     end) /\
  (forall qs f ds, Forall (fun q => stored q /\ 0 <= ul q) qs -> zsum (map ul qs) = ul b ->
     mapR (fun q => lr_apply r q f) qs = Ok ds -> zsum (map ul ds) = ul a).
Proof.
  intros (Eb & Ea & nb & na & Hr)%make_LotRestatement_inv. pose proof Hr as (Lb & La & Pb & Pa & _).
  rewrite Eb in Lb. rewrite Ea in La. rewrite (ledger_ul _ _ Lb), (ledger_ul _ _ La).
  assert (Happ : forall q f, stored q -> 0 <= ul q -> match lr_apply r q f with
     | Ok d => stored d /\ ul d * nb = ul q * na
     | Raise e => (exists msg, e = LotRestatementError msg) /\
                  ((forall k, k * nb <> ul q * na) \/ (exists k, k * nb = ul q * na /\ 10 ^ 18 <= k))
     end).
  { intros q f Hq Hn. pose proof (lr_apply_spec r nb na q (ul q) f Hr Hq Hn) as H. destruct (lr_apply r q f) as [d|e].
    - destruct H as (k & Hk & Hd). rewrite (ledger_ul _ _ Hd). split; [by eapply ledger_stored|lia].
    - destruct H as [[-> H]|[-> (k & Hk & Hge)]]; (split; [eauto|]).
      + left. intros k Hk. by apply (H k).
      + right. exists k. split; [lia|done]. }
  split; [done|]. intros qs f ds HF Hs HM%mapR_Forall2.
  assert (H : zsum (map ul ds) * nb = zsum (map ul qs) * na).
  { clear Hs. induction HM as [|q d qs ds Hqd HM IH]; [done|]. apply Forall_cons in HF as [[Sq Nq] HF].
    specialize (Happ q f Sq Nq). rewrite Hqd in Happ. destruct Happ as [_ E]. simpl. rewrite !zsum_cons.
    specialize (IH HF). lia. }
  rewrite Hs in H. nia.
Qed.

Lemma restatement_exact_or_refused_witness :
  exists d, lr_apply {| lr_quantity_before := dint 3; lr_quantity_after := dint 4 |} (Dec 15 (-1)) "q" = Ok d /\
    ul d * ul (dint 3) = ul (Dec 15 (-1)) * ul (dint 4).
Proof.
  assert (Hs : stored (Dec 15 (-1))) by (split; [reflexivity|vm_compute; reflexivity]).
  pose proof (proj1 (restatement_exact_or_refused (dint 3) (dint 4)
                {| lr_quantity_before := dint 3; lr_quantity_after := dint 4 |} eq_refl) (Dec 15 (-1)) "q" Hs
                ltac:(vm_compute; discriminate)) as H.
  destruct (lr_apply _ (Dec 15 (-1)) "q") as [d|e] eqn:E; [|vm_compute in E; discriminate E].
  exists d. split; [reflexivity|exact (proj2 H)].
Defined.

(** A successful non-empty disposal receipt conserves: the allocated quantities and costs add up
    to the aggregates, the ordinals run from one, no source lot appears twice, and the reader's
    verification of the persisted lineage accepts the receipt. *)
Theorem disposal_receipt_conserves `{Hashing} cb cl q xs r :
  make_LotDisposalResult cb cl q xs None = Ok r -> deqb q dzero = false ->
  stored cb -> stored cl -> stored q -> Forall allocation_stored xs ->
  ul q = zsum (map (fun a => ul (da_consumed_quantity a)) xs) /\
  ul cl = zsum (map (fun a => ul (da_consumed_cost_local a)) xs) /\
  ul cb = zsum (map (fun a => ul (da_consumed_cost_base a)) xs) /\
  map da_allocation_ordinal xs = ordinals_from_one (length xs) /\ NoDup (map da_source_lot_id xs) /\
  verify_active_lot_disposal_lineage (dr_calculation_lineage r) (map source_lot_disposal_allocation_payload xs) cb cl q = Ok tt.
Proof.
  intros Hr Hq Sb Sl Sq HF. destruct (make_LotDisposalResult_inv _ _ _ _ _ Hr) as (_ & Ho & Hd & Hl).
  destruct (Hl Hq) as (l & -> & Hb). apply conserved_lineage_inv in Hb.
  destruct Hb as (q' & cl' & cb' & input & output & np & Ht & E1 & E2 & E3 & Hi & Hout & Hnp & Hb).
  cbn [dr_allocations dr_consumed_quantity dr_cost_local dr_cost_base] in *.
  destruct (allocation_totals_stored dzero dzero dzero xs q' cl' cb' stored_dzero stored_dzero stored_dzero HF Ht)
    as ((S1 & U1) & (S2 & U2) & (S3 & U3)). rewrite ul_dzero in *.
  rewrite (stored_deqb _ _ S1 Sq) in E1. rewrite (stored_deqb _ _ S2 Sl) in E2. rewrite (stored_deqb _ _ S3 Sb) in E3.
  split; [lia|]. split; [lia|]. split; [lia|]. split; [done|]. split; [done|].
  pose proof (lineage_binds_own _ _ _ _ _ _ _ Hb) as Hbind.
  apply build_calculation_lineage_input in Hb as (Hih & Hid & Hv & Hp & Hn).
  unfold verify_active_lot_disposal_lineage. rewrite Hid, Hv. cbn [mbind result_bind raise_if negb orb String.eqb].
  change (strip LOT_DISPOSAL_LINEAGE_ALGORITHM_ID) with LOT_DISPOSAL_LINEAGE_ALGORITHM_ID.
  rewrite String.eqb_refl, Z.eqb_refl, Hnp, Hp, Hn, Hi, Hout. cbn [mbind result_bind raise_if negb orb].
  assert (np_working_precision np = cp_working_precision policy) as ->.
  { vm_compute in Hnp. by injection Hnp as <-. }
  rewrite Z.eqb_refl, bool_decide_true by done. cbn [mbind result_bind raise_if negb orb].
  rewrite Hih. cbn [mbind result_bind]. rewrite String.eqb_refl. cbn [mbind result_bind raise_if negb].
  rewrite Hbind. done.
Qed.

Definition wit_allocation (n : Z) (lot : string) (q cl cb : Z) : SourceLotDisposalAllocation :=
  {| da_source_lot_id := lot; da_source_transaction_id := "T"; da_source_acquisition_date := 0;
     da_allocation_ordinal := n; da_consumed_quantity := dint q; da_consumed_cost_local := dint cl;
     da_consumed_cost_base := dint cb; da_source_original_quantity := None; da_source_open_quantity_before := None;
     da_amortized_cost_evidence := None |}.

Lemma disposal_receipt_conserves_witness :
  exists r, @make_LotDisposalResult constant_hashing (dint 30) (dint 33) (dint 5)
              [wit_allocation 1 "LOT-A" 2 11 10; wit_allocation 2 "LOT-B" 3 22 20] None = Ok r /\
    @verify_active_lot_disposal_lineage constant_hashing (dr_calculation_lineage r)
      (map source_lot_disposal_allocation_payload [wit_allocation 1 "LOT-A" 2 11 10; wit_allocation 2 "LOT-B" 3 22 20])
      (dint 30) (dint 33) (dint 5) = Ok tt.
Proof.
  destruct (@make_LotDisposalResult constant_hashing (dint 30) (dint 33) (dint 5)
              [wit_allocation 1 "LOT-A" 2 11 10; wit_allocation 2 "LOT-B" 3 22 20] None) as [r|e] eqn:E;
    [|vm_compute in E; discriminate E].
  exists r. split; [reflexivity|].
  assert (Hs := stored_dint).
  refine (proj2 (proj2 (proj2 (proj2 (proj2 (@disposal_receipt_conserves constant_hashing (dint 30) (dint 33) (dint 5) _ r E _ _ _ _ _)))))).
  - vm_compute. reflexivity.
  - apply Hs. lia.
  - apply Hs. lia.
  - apply Hs. lia.
  - repeat constructor; simpl; apply Hs; lia.
Defined.

(** A complete root-to-head chain: versions count up, the identity stays, every version points at the
    content hash of its predecessor. *)
Inductive chained : Z -> string -> option string -> list CostBasisReceiptVersion -> Prop :=
| chained_nil v id prev : chained v id prev []
| chained_cons v id prev r rs :
    rv_receipt_version r = v -> rv_receipt_id r = id -> rv_previous_receipt_content_hash r = prev ->
    is_sha256_digest (rv_receipt_content_hash r) = true ->
    chained (v + 1) id (Some (rv_receipt_content_hash r)) rs -> chained v id prev (r :: rs).

Lemma require_sha256_digest_true h f : is_sha256_digest h = true -> require_sha256_digest h f = Ok h.
Proof. unfold require_sha256_digest. by intros ->. Qed.

Lemma verify_chain_from_spec v id h rs :
  1 < v -> truthy id = true -> strip id = id -> is_sha256_digest h = true ->
  verify_chain_from v (Some id) (Some h) rs = Ok tt <-> chained v id (Some h) rs.
Proof.
  intros Hv Ht Hs. revert v h Hv. induction rs as [|r rs IH]; intros v h Hv Hh; [split; [constructor|done]|].
  cbn [verify_chain_from]. rewrite (proj2 (Z.eqb_neq v 1)) by lia. split.
  - intros (u1 & H1%raise_if_Ok & (u2 & H2%raise_if_Ok & (u3 & H3%raise_if_Ok & (c & Hc & H)%bind_Ok)%bind_Ok)%bind_Ok)%bind_Ok.
    apply negb_false_iff in H2, H3. apply String.eqb_eq in H2. apply Z.eqb_eq in H3.
    pose proof (require_sha256_digest_Ok _ _ _ Hc) as Hd. rewrite (require_sha256_digest_true _ _ Hd) in Hc. injection Hc as <-.
    destruct (rv_previous_receipt_content_hash r) as [p|] eqn:Ep; [|done].
    apply bind_Ok in H as (u4 & (p' & _ & Hp%raise_if_Ok)%bind_Ok & H). apply negb_false_iff, String.eqb_eq in Hp as ->.
    constructor; try done. apply IH; [lia|done|exact H].
  - inversion 1 as [|? ? ? ? ? Ev Eid Eprev Hd Hch]; subst. rewrite Ht, Hs, !String.eqb_refl, Z.eqb_refl, Eprev.
    cbn [negb orb raise_if mbind result_bind].
    rewrite (require_sha256_digest_true _ _ Hd), (require_sha256_digest_true h _ Hh). cbn [mbind result_bind].
    rewrite String.eqb_refl. cbn [negb raise_if mbind result_bind default]. apply IH; [lia|done|exact Hch].
Qed.

(** [verify_cost_basis_receipt_version_chain] accepts exactly the non-empty chains that start at
    version one without predecessor, keep one canonical receipt identity, number the versions without
    gaps and link every version to the content hash of the one before it. *)
Theorem receipt_chain_verified rs :
  verify_cost_basis_receipt_version_chain rs = Ok tt <->
  exists id, rs <> [] /\ truthy id = true /\ strip id = id /\ chained 1 id None rs.
Proof.
  destruct rs as [|r rs]; [split; [done|by intros (id & ? & _)]|]. unfold verify_cost_basis_receipt_version_chain.
  cbn [verify_chain_from]. change (1 =? 1) with true. cbv iota. split.
  - intros (u1 & [H1 H1']%raise_if_Ok%orb_false_iff & (u2 & _ & (u3 & H3%raise_if_Ok & (c & Hc & (u4 & H4%raise_if_Ok & H)%bind_Ok)%bind_Ok)%bind_Ok)%bind_Ok)%bind_Ok.
    apply negb_false_iff in H1, H1', H3. apply String.eqb_eq in H1'. apply Z.eqb_eq in H3.
    pose proof (require_sha256_digest_Ok _ _ _ Hc) as Hd. rewrite (require_sha256_digest_true _ _ Hd) in Hc. injection Hc as <-.
    exists (rv_receipt_id r). split; [done|]. split; [done|]. split; [done|].
    constructor; try done; [by destruct (rv_previous_receipt_content_hash r)|].
    by apply verify_chain_from_spec in H.
  - intros (id & _ & Ht & Hs & Hch). inversion Hch as [|? ? ? ? ? Ev Eid Eprev Hd Hch']; subst.
    rewrite Ht, Hs, String.eqb_refl, Eprev, Ev. cbn [negb orb raise_if mbind result_bind Z.eqb Pos.eqb].
    rewrite (require_sha256_digest_true _ _ Hd). cbn [mbind result_bind default]. by apply verify_chain_from_spec.
Qed.
