(* ===== verification/CostBasis.v ===== *)
(** * Cost-basis transactions and the parts shared by the lot strategies

    [cost_basis/models/cost_basis_transaction.py] and the strategy-independent functions of
    [cost_basis/calculation/cost_basis_strategies.py]: validation of lot inputs, apportionment of
    disposal residuals, basis-transfer checks and receipts, and the [CostBasisStrategy] protocol as
    an interface with the laws a lot book promises to its clients. *)

From Stdlib Require Import ZArith Lia QArith String.
From stdpp Require Import base tactics list strings.
From S2P Require Import Prelude PyDecimal DecimalFacts PyTime Precision Lineage Transactions Lots.

#[local] Open Scope string_scope.
#[local] Open Scope Z_scope.

#[local] Notation policy := COST_BASIS_STATE_LEDGER_OUTPUT_V1.

(** ** The transaction model *)

Record Fees := {
  fee_stamp_duty : decimal; fee_exchange_fee : decimal; fee_gst : decimal; fee_brokerage : decimal; fee_other_fees : decimal
}.

Definition non_negative (value : decimal) (field_name : string) : result decimal :=
  _ ← raise_if (dltb value dzero) (ValueError (field_name +:+ " must be greater than or equal to 0")); Ok value.

Definition optional_non_negative (value : option decimal) (field_name : string) : result (option decimal) :=
  match value with
  | Some v => _ ← raise_if (dltb v dzero) (ValueError (field_name +:+ " must be greater than or equal to 0")); Ok (Some v)
  | None => Ok None
  end.

Definition optional_positive (value : option decimal) (field_name : string) : result (option decimal) :=
  match value with
  | Some v => _ ← raise_if (dleb v dzero) (ValueError (field_name +:+ " must be greater than 0")); Ok (Some v)
  | None => Ok None
  end.

Definition make_Fees (stamp_duty exchange_fee gst brokerage other_fees : decimal) : result Fees :=
  stamp_duty ← non_negative stamp_duty "stamp_duty";
  exchange_fee ← non_negative exchange_fee "exchange_fee";
  gst ← non_negative gst "gst";
  brokerage ← non_negative brokerage "brokerage";
  other_fees ← non_negative other_fees "other_fees";
  Ok {| fee_stamp_duty := stamp_duty; fee_exchange_fee := exchange_fee; fee_gst := gst;
        fee_brokerage := brokerage; fee_other_fees := other_fees |}.

Definition total_fees (f : Fees) : result decimal :=
  a ← dadd default_context (fee_stamp_duty f) (fee_exchange_fee f);
  b ← dadd default_context a (fee_gst f);
  c ← dadd default_context b (fee_brokerage f);
  dadd default_context c (fee_other_fees f).

(** The declared fields; the extension fields set from keyword arguments are [ct_extra_fields]. *)
Record CostBasisTransaction := {
  ct_transaction_id : string; ct_portfolio_id : string; ct_instrument_id : string; ct_security_id : string;
  ct_transaction_type : string; ct_transaction_date : datetime; ct_settlement_date : option datetime;
  ct_child_sequence_hint : option Z; ct_target_instrument_id : option string;
  ct_quantity : decimal; ct_gross_transaction_amount : decimal; ct_net_transaction_amount : option decimal;
  ct_fees : option Fees; ct_accrued_interest : option decimal; ct_average_price : option decimal;
  ct_trade_currency : string; ct_portfolio_base_currency : string; ct_transaction_fx_rate : option decimal;
  ct_net_cost : option decimal; ct_gross_cost : option decimal; ct_realized_gain_loss : option decimal;
  ct_net_cost_local : option decimal; ct_realized_gain_loss_local : option decimal;
  ct_source_lot_order_quantity : option decimal; ct_source_lot_original_quantity : option decimal;
  ct_lot_restatement : option (list (string * decimal)); ct_error_reason : option string;
  ct_extra_fields : list (string * payload)
}.

Definition utc_aware_datetime (value : datetime) : datetime :=
  if is_naive value then replace_utc value else value.

Definition extra_text (t : CostBasisTransaction) (k : string) : option string :=
  match od_get k (ct_extra_fields t) with Some (PStr s) => Some s | _ => None end.

#[export] Instance cost_processing_source : ProcessingTypeSource CostBasisTransaction :=
  {| pt_transaction_type := ct_transaction_type; pt_component_type := fun t => extra_text t "component_type" |}.

#[export] Instance cost_orderable : CorporateActionOrderable CostBasisTransaction :=
  {| ca_transaction_id := ct_transaction_id; ca_transaction_type := ct_transaction_type;
     ca_child_sequence_hint := ct_child_sequence_hint; ca_target_instrument_id := ct_target_instrument_id |}.

(** [CostBasisTransaction.__init__] on arguments of the declared types. *)
Definition make_CostBasisTransaction (t : CostBasisTransaction) : result CostBasisTransaction :=
  quantity ← non_negative (ct_quantity t) "quantity";
  gross ← non_negative (ct_gross_transaction_amount t) "gross_transaction_amount";
  net ← optional_non_negative (ct_net_transaction_amount t) "net_transaction_amount";
  fees ← match ct_fees t with
         | Some f => Ok f
         | None => make_Fees dzero dzero dzero dzero dzero
         end;
  accrued ← optional_non_negative (ct_accrued_interest t) "accrued_interest";
  average ← optional_non_negative (ct_average_price t) "average_price";
  fx ← optional_positive (ct_transaction_fx_rate t) "transaction_fx_rate";
  order ← optional_non_negative (ct_source_lot_order_quantity t) "source_lot_order_quantity";
  original ← optional_non_negative (ct_source_lot_original_quantity t) "source_lot_original_quantity";
  Ok {| ct_transaction_id := ct_transaction_id t; ct_portfolio_id := ct_portfolio_id t;
        ct_instrument_id := ct_instrument_id t; ct_security_id := ct_security_id t;
        ct_transaction_type := ct_transaction_type t;
        ct_transaction_date := utc_aware_datetime (ct_transaction_date t);
        ct_settlement_date := option_map utc_aware_datetime (ct_settlement_date t);
        ct_child_sequence_hint := ct_child_sequence_hint t; ct_target_instrument_id := ct_target_instrument_id t;
        ct_quantity := quantity; ct_gross_transaction_amount := gross; ct_net_transaction_amount := net;
        ct_fees := Some fees; ct_accrued_interest := accrued; ct_average_price := average;
        ct_trade_currency := ct_trade_currency t; ct_portfolio_base_currency := ct_portfolio_base_currency t;
        ct_transaction_fx_rate := fx; ct_net_cost := ct_net_cost t; ct_gross_cost := ct_gross_cost t;
        ct_realized_gain_loss := ct_realized_gain_loss t; ct_net_cost_local := ct_net_cost_local t;
        ct_realized_gain_loss_local := ct_realized_gain_loss_local t;
        ct_source_lot_order_quantity := order; ct_source_lot_original_quantity := original;
        ct_lot_restatement := ct_lot_restatement t; ct_error_reason := ct_error_reason t;
        ct_extra_fields := ct_extra_fields t |}.

(** ** Lot input validation *)

Definition is_buy_transaction (t : CostBasisTransaction) : bool :=
  String.eqb (normalize_code (Some (ct_transaction_type t))) "BUY".

Definition should_skip_empty_buy_lot (t : CostBasisTransaction) (quantity net_cost net_cost_local : decimal) : result bool :=
  if dltb dzero quantity then Ok false else
  if deqb quantity dzero && deqb net_cost dzero && deqb net_cost_local dzero then Ok true else
  Raise (ValueError ("Buy transaction " +:+ ct_transaction_id t +:+ " must have positive lot quantity.")).

Definition validate_non_negative_buy_lot_cost_basis (t : CostBasisTransaction) (net_cost net_cost_local : decimal)
  : result unit :=
  raise_if (negb (dleb dzero net_cost && dleb dzero net_cost_local))
    (ValueError ("Buy transaction " +:+ ct_transaction_id t +:+ " must have non-negative lot cost basis.")).

Definition validated_buy_lot_inputs (t : CostBasisTransaction) : result (option (decimal * decimal * decimal)) :=
  match ct_net_cost t, ct_net_cost_local t with
  | Some net_cost, Some net_cost_local =>
      let quantity := ct_quantity t in
      skip ← should_skip_empty_buy_lot t quantity net_cost net_cost_local;
      if (skip : bool) then Ok None else
      _ ← validate_non_negative_buy_lot_cost_basis t net_cost net_cost_local;
      Ok (Some (quantity, net_cost, net_cost_local))
  | _, _ => Raise (ValueError ("Buy transaction " +:+ ct_transaction_id t +:+
                     " must have net_cost and net_cost_local calculated before adding as a lot."))
  end.

Definition source_lot_original_quantity (t : CostBasisTransaction) (current_quantity : decimal) : result decimal :=
  resolve_source_lot_original_quantity (ct_source_lot_original_quantity t) (ct_source_lot_order_quantity t) current_quantity.

Definition non_positive_sell_quantity_error (sell_quantity : decimal) : option string :=
  if dleb dzero sell_quantity then None
  else Some ("Sell quantity (" +:+ string_of_decimal sell_quantity +:+ ") must not be negative.").

Definition utc_transaction_date (t : CostBasisTransaction) : date :=
  dt_date (astimezone_utc (utc_aware_datetime (ct_transaction_date t))).

(** ** Disposal residuals *)

Record UnreconciledSourceDisposalAllocation := {
  ua_source_lot_id : string; ua_source_transaction_id : string; ua_source_acquisition_date : date;
  ua_consumed_quantity : decimal; ua_consumed_cost_local : decimal; ua_consumed_cost_base : decimal;
  ua_source_original_quantity : decimal; ua_source_open_quantity_before : decimal
}.

(** The loop over [candidates[:-1]] and the final residual. *)
Fixpoint apportion_from (candidates : list decimal) (aggregate allocated : decimal) (field_name : string)
  : result (list decimal) :=
  match candidates with
  | [] => Ok []
  | [_] => r ← p_subtract policy aggregate allocated field_name; Ok [r]
  | candidate :: rest =>
      share ← allocate_nonnegative_storage_share (dmax candidate dzero) aggregate allocated field_name;
      allocated' ← p_add policy allocated (Finite share) ("allocated_" +:+ field_name);
      shares ← apportion_from rest aggregate allocated' field_name;
      Ok (share :: shares)
  end.

Definition apportion_nonnegative_disposal_values (candidates : list decimal) (aggregate : decimal) (field_name : string)
  : result (list decimal) :=
  match candidates with
  | [] => Raise (ValueError (field_name +:+ " disposal requires at least one source allocation"))
  | _ => apportion_from candidates aggregate dzero field_name
  end.

Fixpoint reconciled_allocations (index : Z)
  (xs : list (UnreconciledSourceDisposalAllocation * decimal)) (local_costs base_costs : list decimal)
  : result (list SourceLotDisposalAllocation) :=
  match xs, local_costs, base_costs with
  | [], _, _ => Ok []
  | (a, quantity) :: xs', l :: ls, b :: bs =>
      r ← make_SourceLotDisposalAllocation
        {| da_source_lot_id := ua_source_lot_id a; da_source_transaction_id := ua_source_transaction_id a;
           da_source_acquisition_date := ua_source_acquisition_date a; da_allocation_ordinal := index;
           da_consumed_quantity := quantity; da_consumed_cost_local := l; da_consumed_cost_base := b;
           da_source_original_quantity := Some (ua_source_original_quantity a);
           da_source_open_quantity_before := Some (ua_source_open_quantity_before a);
           da_amortized_cost_evidence := None |};
      rs ← reconciled_allocations (index + 1) xs' ls bs;
      Ok (r :: rs)
  | _ :: _, _, _ => Raise (IndexError "list index out of range")
  end.

Definition reconcile_disposal_allocation_residuals (xs : list UnreconciledSourceDisposalAllocation)
  (cost_base cost_local quantity : decimal) : result (list SourceLotDisposalAllocation) :=
  let quantity_sources := List.filter (fun a => dltb dzero (ua_consumed_quantity a)) xs in
  quantities ← apportion_nonnegative_disposal_values (map ua_consumed_quantity quantity_sources) quantity "consumed_quantity";
  let quantity_allocations := List.filter (fun p => dltb dzero (snd p)) (combine quantity_sources quantities) in
  local_costs ← apportion_nonnegative_disposal_values
    (map (fun p => ua_consumed_cost_local (fst p)) quantity_allocations) cost_local "disposed_cost_local";
  base_costs ← apportion_nonnegative_disposal_values
    (map (fun p => ua_consumed_cost_base (fst p)) quantity_allocations) cost_base "disposed_cost_base";
  reconciled_allocations 1 quantity_allocations local_costs base_costs.

(** ** Basis transfers *)

Definition basis_transfer_amount_error (cost_base cost_local available_base available_local : decimal) : option string :=
  if dltb cost_base dzero || dltb cost_local dzero then Some "Basis transfer amounts must not be negative." else
  if dltb available_base cost_base || dltb available_local cost_local then
    Some ("Basis transfer exceeds available cost basis (requested_base=" +:+ string_of_decimal cost_base +:+
          ", available_base=" +:+ string_of_decimal available_base +:+ ", requested_local=" +:+ string_of_decimal cost_local +:+
          ", available_local=" +:+ string_of_decimal available_local +:+ ").") else
  if dleb available_base dzero || dleb available_local dzero
  then Some "No positive cost basis is available to transfer." else None.

(** One source lot with its state before and after. *)
Record SourceLotMovement := {
  sm_lot_id : string; sm_transaction_id : string; sm_acquisition_date : date;
  sm_before : OpenLotState; sm_after : OpenLotState
}.

Section Receipts.
Context `{hashing : Hashing}.

Fixpoint basis_transfer_allocations (ordinal : Z) (xs : list SourceLotMovement)
  : result (list SourceLotBasisTransferAllocation) :=
  match xs with
  | [] => Ok []
  | x :: xs' =>
      local_delta ← p_subtract policy (ol_cost_local (sm_before x)) (ol_cost_local (sm_after x)) "transferred_cost_local";
      base_delta ← p_subtract policy (ol_cost_base (sm_before x)) (ol_cost_base (sm_after x)) "transferred_cost_base";
      if dis_zero local_delta && dis_zero base_delta then basis_transfer_allocations ordinal xs' else
      a ← make_SourceLotBasisTransferAllocation
        {| ba_allocation_ordinal := ordinal; ba_source_lot_id := sm_lot_id x;
           ba_source_transaction_id := sm_transaction_id x; ba_source_acquisition_date := sm_acquisition_date x;
           ba_retained_quantity := ol_quantity (sm_after x);
           ba_source_cost_local_before := ol_cost_local (sm_before x);
           ba_source_cost_base_before := ol_cost_base (sm_before x);
           ba_transferred_cost_local := local_delta; ba_transferred_cost_base := base_delta;
           ba_retained_cost_local := ol_cost_local (sm_after x); ba_retained_cost_base := ol_cost_base (sm_after x) |};
      rest ← basis_transfer_allocations (ordinal + 1) xs';
      Ok (a :: rest)
  end.

Definition basis_transfer_result (source_lots : list SourceLotMovement) (transferred_cost_local transferred_cost_base : decimal)
  : result LotBasisTransferResult :=
  allocations ← basis_transfer_allocations 1 source_lots;
  make_LotBasisTransferResult transferred_cost_local transferred_cost_base allocations None.
End Receipts.

(** ** Basis-transfer receipts exist *)

(** A movement that takes basis from a lot and never adds to it. *)
Record movement_ok (m : SourceLotMovement) : Prop := {
  mv_lot_id : truthy (strip (sm_lot_id m)) = true;
  mv_transaction_id : truthy (strip (sm_transaction_id m)) = true;
  mv_quantity : stored (ol_quantity (sm_after m)) /\ 0 < ul (ol_quantity (sm_after m));
  mv_stored : stored (ol_cost_local (sm_before m)) /\ stored (ol_cost_base (sm_before m)) /\
              stored (ol_cost_local (sm_after m)) /\ stored (ol_cost_base (sm_after m));
  mv_local : 0 <= ul (ol_cost_local (sm_after m)) <= ul (ol_cost_local (sm_before m));
  mv_base : 0 <= ul (ol_cost_base (sm_after m)) <= ul (ol_cost_base (sm_before m))
}.

Definition moved_local (m : SourceLotMovement) : Z := ul (ol_cost_local (sm_before m)) - ul (ol_cost_local (sm_after m)).
Definition moved_base (m : SourceLotMovement) : Z := ul (ol_cost_base (sm_before m)) - ul (ol_cost_base (sm_after m)).

Record transfer_stored (a : SourceLotBasisTransferAllocation) : Prop := {
  ts_quantity : stored (ba_retained_quantity a);
  ts_before : stored (ba_source_cost_local_before a) /\ stored (ba_source_cost_base_before a);
  ts_transferred : stored (ba_transferred_cost_local a) /\ stored (ba_transferred_cost_base a);
  ts_retained : stored (ba_retained_cost_local a) /\ stored (ba_retained_cost_base a);
  ts_nonneg : 0 <= ul (ba_transferred_cost_local a) /\ 0 <= ul (ba_transferred_cost_base a)
}.

Lemma nonnegative_Ok d f : stored d -> 0 <= ul d -> nonnegative_decimal d f = Ok d.
Proof. intros Sd Pd. unfold nonnegative_decimal. by rewrite (stored_dltb _ _ Sd stored_dzero), ul_dzero, (proj2 (Z.ltb_ge _ _)). Qed.

Lemma sum_differs_Ok x y z msg :
  stored x -> stored y -> stored z -> ul x + ul y = ul z -> sum_differs x y z msg = Ok tt.
Proof.
  intros Sx Sy Sz E. unfold sum_differs. destruct (ambient_add x y Sx Sy) as (s & -> & Ss & Es); [destruct Sz; lia|].
  cbn [mbind result_bind]. by rewrite (stored_deqb _ _ Ss Sz), Es, E, Z.eqb_refl.
Qed.

Lemma stored_dis_zero d : stored d -> dis_zero d = (ul d =? 0).
Proof.
  intros Sd. rewrite <- ul_dzero, <- (stored_deqb _ _ Sd stored_dzero). apply eq_true_iff_eq. rewrite dis_zero_spec, deqb_spec.
  done.
Qed.

(** The entry of a lot that loses basis. *)
Lemma transfer_entry m ordinal ld bd :
  movement_ok m -> 1 <= ordinal -> stored ld -> stored bd -> ul ld = moved_local m -> ul bd = moved_base m ->
  dis_zero ld && dis_zero bd = false ->
  exists a, make_SourceLotBasisTransferAllocation
      {| ba_allocation_ordinal := ordinal; ba_source_lot_id := sm_lot_id m;
         ba_source_transaction_id := sm_transaction_id m; ba_source_acquisition_date := sm_acquisition_date m;
         ba_retained_quantity := ol_quantity (sm_after m);
         ba_source_cost_local_before := ol_cost_local (sm_before m);
         ba_source_cost_base_before := ol_cost_base (sm_before m);
         ba_transferred_cost_local := ld; ba_transferred_cost_base := bd;
         ba_retained_cost_local := ol_cost_local (sm_after m); ba_retained_cost_base := ol_cost_base (sm_after m) |} = Ok a /\
    transfer_stored a /\ ba_allocation_ordinal a = ordinal /\ ba_source_lot_id a = strip (sm_lot_id m) /\
    ul (ba_transferred_cost_local a) = moved_local m /\ ul (ba_transferred_cost_base a) = moved_base m.
Proof.
  intros [I1 I2 [Sq Pq] (S1 & S2 & S3 & S4) Bl Bb] Ho Sl Sb El Eb Hz. unfold moved_local, moved_base in *.
  unfold make_SourceLotBasisTransferAllocation, require_nonblank.
  cbn [ba_allocation_ordinal ba_source_lot_id ba_source_transaction_id ba_source_acquisition_date ba_retained_quantity
    ba_source_cost_local_before ba_source_cost_base_before ba_transferred_cost_local ba_transferred_cost_base
    ba_retained_cost_local ba_retained_cost_base].
  rewrite (proj2 (Z.ltb_ge _ _) Ho), I1, I2, !nonnegative_Ok by (done || lia).
  rewrite (stored_dleb _ _ Sq stored_dzero), ul_dzero, (proj2 (Z.leb_gt _ _)), Hz by lia.
  rewrite (sum_differs_Ok ld _ _ _ Sl S3 S1), (sum_differs_Ok bd _ _ _ Sb S4 S2) by lia.
  eexists. split; [reflexivity|]. split; [|done]. constructor; simpl; try done. lia.
Qed.

Lemma transfer_entries ms : forall start, (1 <= start)%nat -> Forall movement_ok ms ->
  exists xs, basis_transfer_allocations (Z.of_nat start) ms = Ok xs /\
    Forall transfer_stored xs /\ map ba_allocation_ordinal xs = map Z.of_nat (seq start (length xs)) /\
    map ba_source_lot_id xs `sublist_of` map (fun m => strip (sm_lot_id m)) ms /\
    zsum (map (fun a => ul (ba_transferred_cost_local a)) xs) = zsum (map moved_local ms) /\
    zsum (map (fun a => ul (ba_transferred_cost_base a)) xs) = zsum (map moved_base ms).
Proof.
  induction ms as [|m ms IH]; intros start Hs HF; [by exists []|]. apply Forall_cons in HF as [Hm HF].
  pose proof Hm as [_ _ _ (S1 & S2 & S3 & S4) Bl Bb]. cbn [basis_transfer_allocations map].
  destruct (cost_sub_total _ _ "transferred_cost_local" S1 S3) as (ld & -> & Sl & El); [destruct S1; lia|]. cbn [mbind result_bind].
  destruct (cost_sub_total _ _ "transferred_cost_base" S2 S4) as (bd & -> & Sb & Eb); [destruct S2; lia|]. cbn [mbind result_bind].
  fold (moved_local m) in El. fold (moved_base m) in Eb. rewrite !zsum_cons.
  destruct (dis_zero ld && dis_zero bd) eqn:Hz.
  - destruct (IH start Hs HF) as (xs & -> & T & O & L & Tl & Tb). rewrite !stored_dis_zero in Hz by done.
    apply andb_true_iff in Hz as [Hz1%Z.eqb_eq Hz2%Z.eqb_eq]. exists xs. repeat (split; [done || by constructor || lia|]). lia.
  - destruct (transfer_entry m (Z.of_nat start) ld bd Hm ltac:(lia) Sl Sb El Eb Hz) as (a & -> & Ta & Oa & La & Tl & Tb).
    cbn [mbind result_bind]. replace (Z.of_nat start + 1) with (Z.of_nat (S start)) by lia.
    destruct (IH (S start) ltac:(lia) HF) as (xs & -> & T & O & L & Tl' & Tb'). cbn [mbind result_bind].
    exists (a :: xs). split; [done|]. split; [by constructor|]. cbn [map length seq]. rewrite Oa, O, La, !zsum_cons.
    repeat (split; [done || by constructor || lia|]). lia.
Qed.

Lemma policy_sum_total f acc xs :
  stored acc -> 0 <= ul acc -> Forall (fun x => stored x /\ 0 <= ul x) xs -> ul acc + zsum (map ul xs) < 10 ^ 18 ->
  exists r, foldM (fun (acc x : decimal) => p_add policy acc x f) acc xs = Ok r.
Proof.
  intros Sa Pa HF. revert acc Sa Pa. induction HF as [|x xs [Sx Px] HF IH]; intros acc Sa Pa Hb; cbn [foldM map] in *; [by eexists|].
  rewrite zsum_cons in Hb. assert (0 <= zsum (map ul xs)).
  { apply zsum_map_nonneg. eapply Forall_impl; [exact HF|]. by intros ? [_ ?]. }
  destruct (cost_add_total acc x f Sa Sx) as (acc' & -> & Sa' & Ea'); [lia|]. cbn [mbind result_bind]. apply IH; done || lia.
Qed.

Lemma policy_sum_exact f xs d :
  Forall (fun x => stored x /\ 0 <= ul x) xs -> stored d -> ul d = zsum (map ul xs) ->
  exists r, policy_sum f xs = Ok r /\ deqb r d = true.
Proof.
  intros HF Sd Ed. destruct (policy_sum_total f dzero xs stored_dzero) as [r Hr]; rewrite ?ul_dzero; try done; [destruct Sd; lia|].
  destruct (policy_sum_stored f dzero xs r stored_dzero) as [Sr Er]; [eapply Forall_impl; [exact HF|]; by intros ? [? _]|exact Hr|].
  exists r. split; [exact Hr|]. rewrite (stored_deqb _ _ Sr Sd), Er, ul_dzero, Ed. lia.
Qed.

Section TransferReceipt.
Context `{hashing_ok : HashingOk}.

Lemma transfer_payloads xs cl cb :
  Forall transfer_stored xs -> stored cl -> stored cb ->
  (exists p, basis_transfer_lineage_input_payload xs = Ok p /\ is_ok (normalize_lineage_value p) = true) /\
  (exists p, basis_transfer_lineage_output_payload xs cb cl = Ok p /\ is_ok (normalize_lineage_value p) = true).
Proof.
  intros HF Sl Sb. split; apply canon_payload.
  - constructor; [|done]. split; [done|]. apply canon_seq, Forall_fmap. eapply Forall_impl; [exact HF|].
    intros a [T1 [T2 T3] [T4 T5] [T6 T7] _]. simpl. canon; apply canon_decimal; eexists; eassumption.
  - constructor; [|canon; apply canon_decimal; eexists; eassumption]. split; [done|]. apply canon_seq, Forall_fmap.
    eapply Forall_impl; [exact HF|].
    intros a [T1 [T2 T3] [T4 T5] [T6 T7] _]. simpl. canon; apply canon_decimal; eexists; eassumption.
Qed.

(** Movements that add up to the requested amounts give a receipt. *)
Lemma basis_transfer_result_total ms cl cb :
  Forall movement_ok ms -> NoDup (map (fun m => strip (sm_lot_id m)) ms) -> stored cl -> stored cb ->
  ul cl = zsum (map moved_local ms) -> ul cb = zsum (map moved_base ms) -> 0 < ul cl + ul cb ->
  exists r, basis_transfer_result ms cl cb = Ok r /\ br_error_reason r = None /\
    br_transferred_cost_local r = cl /\ br_transferred_cost_base r = cb.
Proof.
  intros HF Hnd Sl Sb El Eb Hpos. destruct (transfer_entries ms 1 ltac:(lia) HF) as (xs & Hxs & T & O & L & Tl & Tb).
  change (Z.of_nat 1) with 1 in Hxs. unfold basis_transfer_result. rewrite Hxs. cbn [mbind result_bind].
  assert (Pl : 0 <= ul cl) by (rewrite El; apply zsum_map_nonneg; eapply Forall_impl; [exact HF|]; intros m [_ _ _ _ ? _]; unfold moved_local; lia).
  assert (Pb : 0 <= ul cb) by (rewrite Eb; apply zsum_map_nonneg; eapply Forall_impl; [exact HF|]; intros m [_ _ _ _ _ ?]; unfold moved_base; lia).
  unfold make_LotBasisTransferResult. rewrite !nonnegative_Ok by done. cbn [mbind result_bind].
  rewrite (bool_decide_true _ O), (bool_decide_true (NoDup _)) by (by eapply sublist_NoDup).
  destruct xs as [|a xs]; [cbn [map] in Tl, Tb; rewrite zsum_nil in Tl, Tb; lia|]. cbn [negb raise_if mbind result_bind].
  unfold build_basis_transfer_lineage. cbn [br_allocations br_transferred_cost_local br_transferred_cost_base].
  set (ys := a :: xs) in *.
  destruct (policy_sum_exact "transferred_cost_local" (map ba_transferred_cost_local ys) cl) as (r1 & -> & E1);
    [apply Forall_fmap; eapply Forall_impl; [exact T|]; intros x [_ _ [? _] _ [? _]]; by split|done|rewrite map_map; lia|].
  cbn [mbind result_bind].
  destruct (policy_sum_exact "transferred_cost_base" (map ba_transferred_cost_base ys) cb) as (r2 & -> & E2);
    [apply Forall_fmap; eapply Forall_impl; [exact T|]; intros x [_ _ [_ ?] _ [_ ?]]; by split|done|rewrite map_map; lia|].
  cbn [mbind result_bind]. rewrite E1, E2. cbn [negb raise_if mbind result_bind].
  destruct (transfer_payloads ys cl cb T Sl Sb) as [(p1 & -> & N1) (p2 & -> & N2)]. cbn [mbind result_bind].
  destruct cost_policy_identity as [np ->]. cbn [mbind result_bind].
  destruct (build_calculation_lineage_total BASIS_TRANSFER_LINEAGE_ALGORITHM_ID BASIS_TRANSFER_LINEAGE_ALGORITHM_VERSION
    (cp_working_precision policy) p1 p2 (Some np)) as [l ->]; try done. by eexists.
Qed.
End TransferReceipt.

(** ** The strategy protocol *)

Class CostBasisStrategy `{hashing : Hashing} (St : Type) := {
  strategy_init : St;
  add_buy_lot : CostBasisTransaction -> st St unit;
  consume_sell_quantity_with_allocations : string -> string -> decimal -> st St LotDisposalResult;
  get_available_quantity : St -> string -> string -> decimal;
  restate_lot_quantities : string -> string -> decimal -> st St LotRestatement;
  transfer_basis_out_with_allocations : string -> string -> decimal -> decimal -> st St LotBasisTransferResult;
  get_open_lot_states : St -> result (list (string * OpenLotState))
}.

Section Protocol.
Context {hashing : Hashing} {St : Type} `{!CostBasisStrategy St}.

Definition consume_sell_quantity (portfolio_id instrument_id : string) (sell_quantity : decimal)
  : st St (decimal * decimal * decimal * option string) :=
  r ← consume_sell_quantity_with_allocations portfolio_id instrument_id sell_quantity; mret (legacy_tuple r).

Definition transfer_basis_out (portfolio_id instrument_id : string) (cost_base cost_local : decimal) : st St (option string) :=
  r ← transfer_basis_out_with_allocations portfolio_id instrument_id cost_base cost_local; mret (br_error_reason r).

Definition set_initial_lots (ts : list CostBasisTransaction) : st St unit :=
  st_iter (fun t => if is_buy_transaction t then add_buy_lot t else mret tt) ts.

Definition restore_open_lots (ts : list CostBasisTransaction) : st St unit := st_iter add_buy_lot ts.
End Protocol.
