(* ===== verification/Fifo.v ===== *)
(** * The FIFO strategy

    [FIFOBasisStrategy] of [cost_basis/calculation/cost_basis_strategies.py].  The lots are mutable
    objects reached both from the queue of their book and from the index by transaction id, so they
    live in a heap and the queues and the index hold references into it.  The three dictionaries are
    [defaultdict]s that are only ever looked up by key, so reading a missing key is reading its
    default. *)

From Stdlib Require Import ZArith Lia QArith String.
From stdpp Require Import base tactics list sets strings.
From S2P Require Import Prelude PyDecimal DecimalFacts PyTime Precision Lineage Transactions Lots CostBasis.

#[local] Open Scope string_scope.
#[local] Open Scope Z_scope.

#[local] Notation policy := COST_BASIS_STATE_LEDGER_OUTPUT_V1.

Definition BookKey : Type := string * string.

(** A reference to a [CostLot] object: its position in the heap. *)
Definition lot_ref : Type := nat.

Record FifoState := {
  fs_heap : list CostLot;
  fs_open_lots : list (BookKey * list lot_ref);
  fs_lots_by_transaction_id : list (string * lot_ref);
  fs_available_quantities : list (BookKey * decimal)
}.

Definition fifo_init : FifoState :=
  {| fs_heap := []; fs_open_lots := []; fs_lots_by_transaction_id := []; fs_available_quantities := [] |}.

Definition set_heap (h : list CostLot) (s : FifoState) : FifoState :=
  {| fs_heap := h; fs_open_lots := fs_open_lots s; fs_lots_by_transaction_id := fs_lots_by_transaction_id s;
     fs_available_quantities := fs_available_quantities s |}.
Definition set_open_lots (key : BookKey) (q : list lot_ref) (s : FifoState) : FifoState :=
  {| fs_heap := fs_heap s; fs_open_lots := od_set key q (fs_open_lots s);
     fs_lots_by_transaction_id := fs_lots_by_transaction_id s; fs_available_quantities := fs_available_quantities s |}.
Definition set_lot_by_id (id : string) (r : lot_ref) (s : FifoState) : FifoState :=
  {| fs_heap := fs_heap s; fs_open_lots := fs_open_lots s;
     fs_lots_by_transaction_id := od_set id r (fs_lots_by_transaction_id s);
     fs_available_quantities := fs_available_quantities s |}.
Definition set_available (key : BookKey) (d : decimal) (s : FifoState) : FifoState :=
  {| fs_heap := fs_heap s; fs_open_lots := fs_open_lots s; fs_lots_by_transaction_id := fs_lots_by_transaction_id s;
     fs_available_quantities := od_set key d (fs_available_quantities s) |}.

Definition book (key : BookKey) (s : FifoState) : list lot_ref := od_get_default [] key (fs_open_lots s).
Definition available (key : BookKey) (s : FifoState) : decimal := od_get_default dzero key (fs_available_quantities s).

Definition fifo_get_available_quantity (s : FifoState) (portfolio_id instrument_id : string) : decimal :=
  available (portfolio_id, instrument_id) s.

(** Dereference and assign. *)
Definition deref (r : lot_ref) : st FifoState CostLot := fun s =>
  match fs_heap s !! r with Some l => (Ok l, s) | None => (Raise (RuntimeError "dangling lot reference"), s) end.
Definition assign (r : lot_ref) (l : CostLot) : st FifoState unit := st_modify (fun s => set_heap (<[r := l]> (fs_heap s)) s).

Definition with_remaining (q : decimal) (l : CostLot) : CostLot :=
  {| lot_transaction_id := lot_transaction_id l; lot_lot_id := lot_lot_id l; lot_acquisition_date := lot_acquisition_date l;
     lot_original_quantity := lot_original_quantity l; lot_remaining_quantity := q;
     lot_cost_per_share_local := lot_cost_per_share_local l; lot_cost_per_share_base := lot_cost_per_share_base l |}.
Definition with_unit_costs (local base : decimal) (l : CostLot) : CostLot :=
  {| lot_transaction_id := lot_transaction_id l; lot_lot_id := lot_lot_id l; lot_acquisition_date := lot_acquisition_date l;
     lot_original_quantity := lot_original_quantity l; lot_remaining_quantity := lot_remaining_quantity l;
     lot_cost_per_share_local := local; lot_cost_per_share_base := base |}.
Definition with_quantities (original remaining : decimal) (l : CostLot) : CostLot :=
  {| lot_transaction_id := lot_transaction_id l; lot_lot_id := lot_lot_id l; lot_acquisition_date := lot_acquisition_date l;
     lot_original_quantity := original; lot_remaining_quantity := remaining;
     lot_cost_per_share_local := lot_cost_per_share_local l; lot_cost_per_share_base := lot_cost_per_share_base l |}.

(** ** Adding a lot *)

(** A new lot before it enters the book. *)
Definition new_lot (t : CostBasisTransaction) (quantity net_cost net_cost_local : decimal) : result CostLot :=
  cost_per_share_local ← ddiv (arithmetic_context policy) net_cost_local quantity;
  cost_per_share_base ← ddiv (arithmetic_context policy) net_cost quantity;
  original ← source_lot_original_quantity t quantity;
  make_CostLot (ct_transaction_id t) ("LOT-" +:+ ct_transaction_id t) (utc_transaction_date t) quantity
    cost_per_share_local cost_per_share_base (Some original).

Definition fifo_add_buy_lot (t : CostBasisTransaction) : st FifoState unit :=
  validated ← st_lift (validated_buy_lot_inputs t);
  match (validated : option (decimal * decimal * decimal)) with
  | None => mret tt
  | Some (quantity, net_cost, net_cost_local) =>
      l ← st_lift (new_lot t quantity net_cost net_cost_local);
      let key := (ct_portfolio_id t, ct_instrument_id t) in
      s ← st_get;
      let r := length (fs_heap s) in
      _ ← st_modify (fun s => set_heap (fs_heap s ++ [l])%list s);
      _ ← st_modify (fun s => set_open_lots key (book key s ++ [r])%list s);
      _ ← st_modify (set_lot_by_id (ct_transaction_id t) r);
      s' ← st_get;
      total ← st_lift (p_add policy (available key s') quantity "available_quantity");
      st_modify (set_available key total)
  end.

(** ** Consuming *)

Section Fifo.
Context `{hashing : Hashing}.

Definition consume_next_fifo_lot (key : BookKey) (required_quantity : decimal) (allocation_ordinal : Z)
  : st FifoState (SourceLotDisposalAllocation * decimal) :=
  s ← st_get;
  match book key s with
  | [] => st_lift (Raise (IndexError "deque index out of range"))
  | r :: queue =>
      current_lot ← deref r;
      state_before ← st_lift (open_state current_lot);
      let matched_quantity := dmin required_quantity (lot_remaining_quantity current_lot) in
      remaining ← st_lift (p_subtract policy (lot_remaining_quantity current_lot) matched_quantity "open_quantity");
      let current_lot := with_remaining remaining current_lot in
      _ ← assign r current_lot;
      state_after ← (if deqb remaining dzero then
                       state ← st_lift (make_OpenLotState (lot_original_quantity current_lot) dzero dzero dzero None);
                       _ ← st_modify (set_open_lots key queue);
                       mret state
                     else st_lift (open_state current_lot));
      cost_base ← st_lift (p_subtract policy (ol_cost_base state_before) (ol_cost_base state_after) "disposed_cost_base");
      cost_local ← st_lift (p_subtract policy (ol_cost_local state_before) (ol_cost_local state_after) "disposed_cost_local");
      allocation ← st_lift (make_SourceLotDisposalAllocation
        {| da_source_lot_id := lot_lot_id current_lot; da_source_transaction_id := lot_transaction_id current_lot;
           da_source_acquisition_date := lot_acquisition_date current_lot; da_allocation_ordinal := allocation_ordinal;
           da_consumed_quantity := matched_quantity; da_consumed_cost_local := cost_local; da_consumed_cost_base := cost_base;
           da_source_original_quantity := Some (ol_original_quantity state_before);
           da_source_open_quantity_before := Some (ol_quantity state_before);
           da_amortized_cost_evidence := None |});
      rest ← st_lift (p_subtract policy required_quantity matched_quantity "remaining_disposal_quantity");
      mret (allocation, rest)
  end.

(** The accumulators of the loop. *)
Record Matched := { mt_cost_base : decimal; mt_cost_local : decimal; mt_quantity : decimal;
                    mt_allocations : list SourceLotDisposalAllocation }.

(** [while required_quantity > 0 and lots_for_instrument]: each turn either empties the head of the
    queue or brings the required quantity to zero, so one turn per queued lot, plus one to leave, is
    enough ([fifo_consume_spec]). *)
Fixpoint consume_loop (fuel : nat) (key : BookKey) (required_quantity : decimal) (acc : Matched) : st FifoState Matched :=
  s ← st_get;
  if negb (dltb dzero required_quantity) || match book key s with [] => true | _ => false end then mret acc else
  match fuel with
  | O => st_lift (Raise (RuntimeError "FIFO loop bound exceeded"))
  | S fuel' =>
      '(allocation, rest) ← consume_next_fifo_lot key required_quantity (Z.of_nat (length (mt_allocations acc)) + 1);
      cost_base ← st_lift (p_add policy (mt_cost_base acc) (da_consumed_cost_base allocation) "disposed_cost_base");
      cost_local ← st_lift (p_add policy (mt_cost_local acc) (da_consumed_cost_local allocation) "disposed_cost_local");
      quantity ← st_lift (p_add policy (mt_quantity acc) (da_consumed_quantity allocation) "consumed_quantity");
      consume_loop fuel' key rest
        {| mt_cost_base := cost_base; mt_cost_local := cost_local; mt_quantity := quantity;
           mt_allocations := (mt_allocations acc ++ [allocation])%list |}
  end.

Definition fifo_consume_sell_quantity_with_allocations (portfolio_id instrument_id : string) (sell_quantity : decimal)
  : st FifoState LotDisposalResult :=
  let key := (portfolio_id, instrument_id) in
  s ← st_get;
  let available_qty := available key s in
  match non_positive_sell_quantity_error sell_quantity with
  | Some e => st_lift (failed_disposal e)
  | None =>
      if dltb available_qty sell_quantity then
        st_lift (failed_disposal ("Sell quantity (" +:+ string_of_decimal sell_quantity +:+
                   ") exceeds available holdings (" +:+ string_of_decimal available_qty +:+ ")."))
      else if deqb sell_quantity dzero then st_lift empty_disposal
      else
        m ← consume_loop (S (length (book key s))) key sell_quantity
              {| mt_cost_base := dzero; mt_cost_local := dzero; mt_quantity := dzero; mt_allocations := [] |};
        left ← st_lift (p_subtract policy available_qty (mt_quantity m) "available_quantity");
        _ ← st_modify (set_available key left);
        st_lift (make_LotDisposalResult (mt_cost_base m) (mt_cost_local m) (mt_quantity m) (mt_allocations m) None)
  end.

(** ** Restatement *)

Record ProposedRestatement := {
  pr_ref : lot_ref; pr_original_quantity : decimal; pr_open_quantity : decimal; pr_state_before : OpenLotState
}.

Definition propose (restatement : LotRestatement) (r : lot_ref) : st FifoState ProposedRestatement :=
  l ← deref r;
  original ← st_lift (lr_apply restatement (lot_original_quantity l) "original_quantity");
  open_quantity ← st_lift (lr_apply restatement (lot_remaining_quantity l) "open_quantity");
  state ← st_lift (open_state l);
  mret {| pr_ref := r; pr_original_quantity := original; pr_open_quantity := open_quantity; pr_state_before := state |}.

Definition apply_proposed (p : ProposedRestatement) : st FifoState unit :=
  l ← deref (pr_ref p);
  let l := with_quantities (pr_original_quantity p) (pr_open_quantity p) l in
  _ ← assign (pr_ref p) l;
  local ← st_lift (ddiv (arithmetic_context policy) (ol_cost_local (pr_state_before p)) (pr_open_quantity p));
  _ ← assign (pr_ref p) (with_unit_costs local (lot_cost_per_share_base l) l);
  base ← st_lift (ddiv (arithmetic_context policy) (ol_cost_base (pr_state_before p)) (pr_open_quantity p));
  assign (pr_ref p) (with_unit_costs local base l).

Definition fifo_restate_lot_quantities (portfolio_id instrument_id : string) (signed_quantity_delta : decimal)
  : st FifoState LotRestatement :=
  let key := (portfolio_id, instrument_id) in
  s ← st_get;
  restatement ← st_lift (from_signed_delta (available key s) signed_quantity_delta);
  proposed ← st_map (propose restatement) (book key s);
  _ ← st_iter apply_proposed proposed;
  _ ← st_modify (set_available key (lr_quantity_after restatement));
  mret restatement.

(** ** Basis transfer *)

Definition deref_all (refs : list lot_ref) : st FifoState (list CostLot) := st_map deref refs.

(** [sum((lot.open_state().cost for lot in lots), Decimal(0))] in the ambient context. *)
Definition sum_open_costs (cost : OpenLotState -> decimal) (lots : list CostLot) : result decimal :=
  foldM (fun acc l => state ← open_state l; dadd default_context acc (cost state)) dzero lots.

Definition basis_transfer_error (lots : list CostLot) (cost_base cost_local : decimal) : result (option string) :=
  total_base ← sum_open_costs ol_cost_base lots;
  total_local ← sum_open_costs ol_cost_local lots;
  Ok (basis_transfer_amount_error cost_base cost_local total_base total_local).

Definition assign_fifo_lot_costs (r : lot_ref) (cost_base cost_local : decimal) : st FifoState unit :=
  l ← deref r;
  base ← st_lift (ddiv (arithmetic_context policy) cost_base (lot_remaining_quantity l));
  let l := with_unit_costs (lot_cost_per_share_local l) base l in
  _ ← assign r l;
  local ← st_lift (ddiv (arithmetic_context policy) cost_local (lot_remaining_quantity l));
  assign r (with_unit_costs local base l).

(** [state.cost * remaining / total] in the working context. *)
Definition scaled_cost (cost remaining total : decimal) : result decimal :=
  p ← dmul (arithmetic_context policy) cost remaining; ddiv (arithmetic_context policy) p total.

(** The loop over [open_lots[:-1]] followed by the assignment of the residual to the last lot. *)
Fixpoint allocate_transfer_loop (refs : list lot_ref) (total_base total_local remaining_base remaining_local : decimal)
  (allocated_base allocated_local : decimal) : st FifoState unit :=
  match refs with
  | [] => st_lift (Raise (IndexError "list index out of range"))
  | [final] =>
      cost_base ← st_lift (p_subtract policy remaining_base allocated_base "open_cost_base");
      cost_local ← st_lift (p_subtract policy remaining_local allocated_local "open_cost_local");
      assign_fifo_lot_costs final cost_base cost_local
  | r :: refs' =>
      l ← deref r;
      state ← st_lift (open_state l);
      raw_next_base ← st_lift (scaled_cost (ol_cost_base state) remaining_base total_base);
      raw_next_local ← st_lift (scaled_cost (ol_cost_local state) remaining_local total_local);
      next_base ← st_lift (allocate_nonnegative_storage_share raw_next_base remaining_base allocated_base "open_cost_base");
      next_local ← st_lift (allocate_nonnegative_storage_share raw_next_local remaining_local allocated_local "open_cost_local");
      _ ← assign_fifo_lot_costs r next_base next_local;
      allocated_base ← st_lift (p_add policy allocated_base (Finite next_base) "allocated_cost_base");
      allocated_local ← st_lift (p_add policy allocated_local (Finite next_local) "allocated_cost_local");
      allocate_transfer_loop refs' total_base total_local remaining_base remaining_local allocated_base allocated_local
  end.

(** The lots of the queue that still hold a quantity. *)
Definition open_refs (refs : list lot_ref) (lots : list CostLot) : list lot_ref :=
  map fst (List.filter (fun p => dltb dzero (lot_remaining_quantity (snd p))) (combine refs lots)).

Definition allocate_fifo_basis_transfer (refs : list lot_ref) (cost_base cost_local : decimal) : st FifoState unit :=
  lots ← deref_all refs;
  let refs' := open_refs refs lots in
  open_lots ← deref_all refs';
  total_base ← st_lift (sum_open_costs ol_cost_base open_lots);
  total_local ← st_lift (sum_open_costs ol_cost_local open_lots);
  remaining_base ← st_lift (dsub default_context total_base cost_base);
  remaining_local ← st_lift (dsub default_context total_local cost_local);
  allocate_transfer_loop refs' total_base total_local remaining_base remaining_local dzero dzero.

Definition lot_movement (l : CostLot) (before : OpenLotState) : result SourceLotMovement :=
  after ← open_state l;
  Ok {| sm_lot_id := lot_lot_id l; sm_transaction_id := lot_transaction_id l;
        sm_acquisition_date := lot_acquisition_date l; sm_before := before; sm_after := after |}.

Definition fifo_transfer_basis_out_with_allocations (portfolio_id instrument_id : string) (cost_base cost_local : decimal)
  : st FifoState LotBasisTransferResult :=
  let key := (portfolio_id, instrument_id) in
  s ← st_get;
  let refs := book key s in
  lots ← deref_all refs;
  error ← st_lift (basis_transfer_error lots cost_base cost_local);
  match (error : option string) with
  | Some e => st_lift (failed_transfer e)
  | None =>
      let refs' := open_refs refs lots in
      open_lots ← deref_all refs';
      states_before ← st_lift (mapR open_state open_lots);
      _ ← allocate_fifo_basis_transfer refs cost_base cost_local;
      lots_after ← deref_all refs';
      movements ← st_lift (mapR (fun p => lot_movement (fst p) (snd p)) (combine lots_after states_before));
      st_lift (basis_transfer_result movements cost_local cost_base)
  end.

(** ** Observation *)

Definition fifo_get_open_lot_states (s : FifoState) : result (list (string * OpenLotState)) :=
  mapR (fun e => match fs_heap s !! snd e with
                 | Some l => state ← open_state l; Ok (fst e, state)
                 | None => Raise (RuntimeError "dangling lot reference")
                 end) (fs_lots_by_transaction_id s).
End Fifo.

#[export] Instance fifo_strategy `{hashing : Hashing} : CostBasisStrategy FifoState := {
  strategy_init := fifo_init;
  add_buy_lot := fifo_add_buy_lot;
  consume_sell_quantity_with_allocations := fifo_consume_sell_quantity_with_allocations;
  get_available_quantity := fifo_get_available_quantity;
  restate_lot_quantities := fifo_restate_lot_quantities;
  transfer_basis_out_with_allocations := fifo_transfer_basis_out_with_allocations;
  get_open_lot_states := fifo_get_open_lot_states
}.

(** ** Valid lots *)

(** Costs of a lot in units, at its remaining quantity. *)
Definition lot_qty (l : CostLot) : Z := ul (lot_remaining_quantity l).

Definition product_units (q c : decimal) : Z :=
  match p_multiply policy q c "" with Ok r => ul r | Raise _ => 0 end.

Definition lot_local (l : CostLot) : Z := product_units (lot_remaining_quantity l) (lot_cost_per_share_local l).
Definition lot_base (l : CostLot) : Z := product_units (lot_remaining_quantity l) (lot_cost_per_share_base l).

Definition costed (q c : decimal) : Prop := unit_cost c /\ is_ok (p_multiply policy q c "") = true.

Record lot_valid (l : CostLot) : Prop := {
  lv_remaining : stored (lot_remaining_quantity l);
  lv_original : stored (lot_original_quantity l);
  lv_range : 0 <= lot_qty l <= ul (lot_original_quantity l);
  lv_local : costed (lot_remaining_quantity l) (lot_cost_per_share_local l);
  lv_base : costed (lot_remaining_quantity l) (lot_cost_per_share_base l)
}.

(** An entry of a queue: a valid lot that still holds a quantity, with usable identifiers. *)
Record open_lot (l : CostLot) : Prop := {
  op_valid : lot_valid l;
  op_positive : 0 < lot_qty l;
  op_lot_id : truthy (strip (lot_lot_id l)) = true;
  op_transaction_id : truthy (strip (lot_transaction_id l)) = true
}.

Lemma cost_multiply_mono q q' c f f' r :
  stored q -> stored q' -> 0 <= ul q' <= ul q -> unit_cost c -> p_multiply policy q c f = Ok r -> stored r ->
  exists r', p_multiply policy q' c f' = Ok r' /\ stored r' /\ 0 <= ul r' <= ul r.
Proof.
  intros Hq Hq' Hle Hc Hr Sr.
  destruct (p_multiply_mono (cp_name policy) q q' _ _ c f f' r (ul r) Hq Hq' Hle Hc Hr Sr) as (r' & n' & Hr' & Ln & B).
  exists r'. split; [exact Hr'|]. rewrite (ledger_ul _ _ Ln). split; [by eapply ledger_stored|done].
Qed.

Lemma product_field q c f :
  stored q -> 0 <= ul q -> costed q c ->
  exists r, p_multiply policy q c f = Ok r /\ stored r /\ ul r = product_units q c /\ 0 <= ul r.
Proof.
  intros Hq Hn [Hc Hok]. unfold product_units. destruct (p_multiply policy q c "") as [r|] eqn:E; [|done].
  assert (Hr : stored r) by (destruct (calculate_storable _ _ _ _ _ _ E) as [n Hr]; by eapply ledger_stored).
  pose proof E as E0. unfold p_multiply, calculate in E |- *. apply bind_Ok in E as (w & Hw & Hnorm).
  pose proof (ledger_of_normalize _ w _ r Hnorm) as Hu. pose proof (ledger_ul _ _ Hu) as Eu.
  destruct (proj1 (normalize_total policy (ledger_policy_wf _) w f)) as (r' & Hr' & Hu').
  { destruct Hu as [_ Hb]. exact Hb. }
  rewrite Hw. cbn [mbind result_bind]. exists r'. split; [exact Hr'|].
  assert (Hl : ledger r' (ul r)) by (rewrite Eu; split; [exact Hu'|apply Hu]).
  rewrite (ledger_ul _ _ Hl). split; [by eapply ledger_stored|]. split; [done|].
  destruct (cost_multiply_mono q q c "" "" r Hq Hq ltac:(lia) Hc E0 Hr) as (r2 & _ & _ & B). lia.
Qed.

Lemma open_state_valid l :
  lot_valid l ->
  exists o, open_state l = Ok o /\ ol_original_quantity o = lot_original_quantity l /\ ol_quantity o = lot_remaining_quantity l /\
    stored (ol_cost_local o) /\ ul (ol_cost_local o) = lot_local l /\ 0 <= lot_local l /\
    stored (ol_cost_base o) /\ ul (ol_cost_base o) = lot_base l /\ 0 <= lot_base l.
Proof.
  intros [Hr Ho Hn Hl Hb]. unfold open_state.
  destruct (product_field _ _ "lot_cost_local" Hr (proj1 Hn) Hl) as (cl & -> & Sl & El & Pl). cbn [mbind result_bind].
  destruct (product_field _ _ "lot_cost_base" Hr (proj1 Hn) Hb) as (cb & -> & Sb & Eb & Pb). cbn [mbind result_bind].
  rewrite (make_OpenLotState_Ok _ _ _ _ _ _ _ _ Ho Hr Sl Sb Hn Pl Pb). eexists. split; [done|]. simpl.
  unfold lot_local, lot_base. rewrite <- El, <- Eb. done.
Qed.

Lemma costed_smaller q q' c :
  stored q -> stored q' -> 0 <= ul q' <= ul q -> costed q c -> costed q' c /\ product_units q' c <= product_units q c.
Proof.
  intros Hq Hq' Hle Hc. pose proof Hc as [Huc _].
  destruct (product_field q c "" Hq ltac:(lia) Hc) as (r & Hr & Sr & Er & _).
  destruct (cost_multiply_mono q q' c "" "" r Hq Hq' Hle Huc Hr Sr) as (r' & Hr' & _ & B).
  split; [split; [done|]|]; unfold product_units; rewrite Hr'; [done|]. rewrite Hr. lia.
Qed.

Lemma with_remaining_valid q l :
  lot_valid l -> stored q -> 0 <= ul q <= lot_qty l ->
  lot_valid (with_remaining q l) /\ lot_local (with_remaining q l) <= lot_local l /\ lot_base (with_remaining q l) <= lot_base l.
Proof.
  intros [Hr Ho Hn Hl Hb] Hq Hle. destruct (costed_smaller _ q _ Hr Hq Hle Hl), (costed_smaller _ q _ Hr Hq Hle Hb).
  split; [|done]. constructor; simpl; try done. unfold lot_qty in *; simpl. lia.
Qed.

Lemma make_allocation_Ok lot_id txn_id d ordinal q cl cb original open_before :
  truthy (strip lot_id) = true -> truthy (strip txn_id) = true -> 1 <= ordinal ->
  stored q -> 0 < ul q -> stored cl -> 0 <= ul cl -> stored cb -> 0 <= ul cb ->
  stored original -> stored open_before -> ul q <= ul open_before <= ul original ->
  make_SourceLotDisposalAllocation
    {| da_source_lot_id := lot_id; da_source_transaction_id := txn_id; da_source_acquisition_date := d;
       da_allocation_ordinal := ordinal; da_consumed_quantity := q; da_consumed_cost_local := cl; da_consumed_cost_base := cb;
       da_source_original_quantity := Some original; da_source_open_quantity_before := Some open_before;
       da_amortized_cost_evidence := None |} =
  Ok {| da_source_lot_id := strip lot_id; da_source_transaction_id := strip txn_id; da_source_acquisition_date := d;
        da_allocation_ordinal := ordinal; da_consumed_quantity := q; da_consumed_cost_local := cl; da_consumed_cost_base := cb;
        da_source_original_quantity := Some original; da_source_open_quantity_before := Some open_before;
        da_amortized_cost_evidence := None |}.
Proof.
  intros H1 H2 H3 Sq Pq Sl Pl Sb Pb So Sp Hr. unfold make_SourceLotDisposalAllocation, require_nonblank; simpl.
  rewrite H1, H2, (proj2 (Z.ltb_ge _ _) H3), (require_decimal_pos q _ _ Sq Pq), (require_decimal_nonneg cl _ _ Sl Pl),
    (require_decimal_nonneg cb _ _ Sb Pb), (require_decimal_pos original _ _ So ltac:(lia)),
    (require_decimal_pos open_before _ _ Sp ltac:(lia)), (stored_dltb _ _ So Sp), (stored_dltb _ _ Sp Sq).
  by rewrite !(proj2 (Z.ltb_ge _ _)) by lia.
Qed.

(** ** The queue of a book *)

Record queue_view (key : BookKey) (s : FifoState) (refs : list lot_ref) (ls : list CostLot) : Prop := {
  qv_book : book key s = refs;
  qv_nodup : NoDup refs;
  qv_heap : Forall2 (fun r l => fs_heap s !! r = Some l) refs ls;
  qv_open : Forall open_lot ls
}.

(** Only the lots [refs] and the queue of [key] may differ. *)
Record same_elsewhere (key : BookKey) (refs : list lot_ref) (s s' : FifoState) : Prop := {
  se_available : fs_available_quantities s' = fs_available_quantities s;
  se_by_id : fs_lots_by_transaction_id s' = fs_lots_by_transaction_id s;
  se_length : length (fs_heap s') = length (fs_heap s);
  se_heap : forall r, r ∉ refs -> fs_heap s' !! r = fs_heap s !! r;
  se_books : forall k, k <> key -> book k s' = book k s
}.

Lemma same_elsewhere_refl key refs s : same_elsewhere key refs s s.
Proof. by constructor. Qed.

Lemma same_elsewhere_trans key refs refs' s s1 s2 :
  refs' ⊆ refs -> same_elsewhere key refs s s1 -> same_elsewhere key refs' s1 s2 -> same_elsewhere key refs s s2.
Proof.
  intros Hsub [A1 B1 L1 H1 K1] [A2 B2 L2 H2 K2]. constructor; try congruence.
  - intros r Hr. rewrite H2 by set_solver. by apply H1.
  - intros k Hk. rewrite K2 by done. by apply K1.
Qed.

Lemma same_elsewhere_weaken key refs refs' s s' :
  refs ⊆ refs' -> same_elsewhere key refs s s' -> same_elsewhere key refs' s s'.
Proof. intros Hsub [A B L H K]. constructor; try done. intros r Hr. apply H. set_solver. Qed.

Lemma book_set_open key q s : book key (set_open_lots key q s) = q.
Proof. unfold book, od_get_default, set_open_lots; simpl. by rewrite od_get_set. Qed.

Lemma book_set_open_ne k key q s : k <> key -> book k (set_open_lots key q s) = book k s.
Proof. intros Hk. unfold book, od_get_default, set_open_lots; simpl. by rewrite od_get_set_ne. Qed.

Lemma heap_update_view (s : FifoState) r l' refs ls :
  r ∉ refs -> Forall2 (fun r l => fs_heap s !! r = Some l) refs ls ->
  Forall2 (fun x l => <[r := l']> (fs_heap s) !! x = Some l) refs ls.
Proof.
  intros Hr HF. induction HF as [|x l refs ls Hx HF IH]; constructor.
  - rewrite list_lookup_insert_ne; [done|]. intros ->. set_solver.
  - apply IH. set_solver.
Qed.

Section Consume.
Context `{hashing : Hashing}.

(** What one allocation reports about the lot it came from. *)
Record allocation_of (l : CostLot) (ordinal q cl cb : Z) (a : SourceLotDisposalAllocation) : Prop := {
  ao_lot_id : da_source_lot_id a = strip (lot_lot_id l);
  ao_transaction_id : da_source_transaction_id a = strip (lot_transaction_id l);
  ao_ordinal : da_allocation_ordinal a = ordinal;
  ao_stored : allocation_stored a;
  ao_quantity : ul (da_consumed_quantity a) = q;
  ao_local : ul (da_consumed_cost_local a) = cl;
  ao_base : ul (da_consumed_cost_base a) = cb;
  ao_plain : da_amortized_cost_evidence a = None
}.

Lemma deref_Some s r l : fs_heap s !! r = Some l -> deref r s = (Ok l, s).
Proof. unfold deref. by intros ->. Qed.

(** The head of the queue is used up. *)
Lemma consume_next_full key s r refs l ls required ordinal :
  queue_view key s (r :: refs) (l :: ls) -> stored required -> lot_qty l <= ul required -> 1 <= ordinal ->
  exists a rest s', consume_next_fifo_lot key required ordinal s = (Ok (a, rest), s') /\
    same_elsewhere key [r] s s' /\ queue_view key s' refs ls /\
    stored rest /\ ul rest = ul required - lot_qty l /\
    allocation_of l ordinal (lot_qty l) (lot_local l) (lot_base l) a.
Proof.
  intros [Hb Hd HF HO] Sr Hle Hord. apply Forall2_cons in HF as [Hl HF]. apply Forall_cons in HO as [[Hv Hpos Hid1 Hid2] HO].
  apply NoDup_cons in Hd as [Hnr Hd]. unfold consume_next_fifo_lot. rewrite st_get_run, Hb.
  rewrite (st_bind_run _ _ _ _ _ (deref_Some _ _ _ Hl)).
  destruct (open_state_valid l Hv) as (o & Ho & Eo & Eq & Sl & El & Pl & Sb & Eb & Pb). rewrite (st_lift_run _ _ _ _ Ho).
  pose proof (lv_remaining l Hv) as Srem. pose proof (ledger_min _ _ _ _ Sr Srem) as Hmin.
  fold (lot_qty l) in Hmin. rewrite Z.min_r in Hmin by done. set (mq := dmin required (lot_remaining_quantity l)) in *.
  pose proof (ledger_ul _ _ Hmin) as Emq. apply ledger_stored in Hmin.
  destruct (cost_sub_total _ mq "open_quantity" Srem Hmin) as (rem & Hrem & Srem' & Erem); [unfold lot_qty in *; lia|].
  fold (lot_qty l) in Erem. rewrite (st_lift_run _ _ _ _ Hrem). unfold assign. rewrite st_modify_run.
  rewrite (stored_deqb _ _ Srem' stored_dzero), ul_dzero, (proj2 (Z.eqb_eq _ _)) by lia.
  pose proof (lv_range l Hv) as Hrg. cbn [lot_original_quantity with_remaining].
  pose proof (make_OpenLotState_Ok (lot_original_quantity l) dzero dzero dzero _ 0 0 0 (lv_original l Hv) ledger_dzero ledger_dzero ledger_dzero
                ltac:(lia) ltac:(lia) ltac:(lia)) as Hst.
  erewrite st_bind_run; [|rewrite (st_lift_run _ _ _ _ Hst), st_modify_run; reflexivity]. cbn [ol_cost_base ol_cost_local].
  destruct (cost_sub_total (ol_cost_base o) dzero "disposed_cost_base" Sb stored_dzero) as (cb & Hcb & Scb & Ecb);
    [rewrite ul_dzero; destruct Sb; lia|].
  rewrite (st_lift_run _ _ _ _ Hcb).
  destruct (cost_sub_total (ol_cost_local o) dzero "disposed_cost_local" Sl stored_dzero) as (cl & Hcl & Scl & Ecl);
    [rewrite ul_dzero; destruct Sl; lia|].
  rewrite (st_lift_run _ _ _ _ Hcl). rewrite ul_dzero in Ecb, Ecl.
  rewrite Eo, Eq. cbn [lot_lot_id lot_transaction_id lot_acquisition_date with_remaining].
  erewrite st_lift_run; [|apply make_allocation_Ok; try done; try (by apply Hv); try lia; unfold lot_qty in *; lia].
  destruct (cost_sub_total required mq "remaining_disposal_quantity" Sr Hmin) as (rest & Hrest & Srest & Erest);
    [destruct Sr; lia|].
  rewrite (st_lift_run _ _ _ _ Hrest). eexists _, rest, _. split; [reflexivity|].
  split; [|split; [|split; [done|split; [lia|]]]].
  - constructor; simpl; [done|done|by rewrite length_insert| |].
    + intros x Hx. apply list_lookup_insert_ne. set_solver.
    + intros k Hk. by rewrite book_set_open_ne.
  - constructor; [apply book_set_open|done|by apply heap_update_view|done].
  - constructor; simpl; try done; lia.
Qed.

(** The head of the queue keeps a remainder. *)
Lemma consume_next_partial key s r refs l ls required ordinal :
  queue_view key s (r :: refs) (l :: ls) -> stored required -> 0 < ul required < lot_qty l -> 1 <= ordinal ->
  exists a rest s' l', consume_next_fifo_lot key required ordinal s = (Ok (a, rest), s') /\
    same_elsewhere key [r] s s' /\ queue_view key s' (r :: refs) (l' :: ls) /\
    lot_lot_id l' = lot_lot_id l /\ lot_transaction_id l' = lot_transaction_id l /\
    lot_qty l' = lot_qty l - ul required /\ 0 <= lot_local l' <= lot_local l /\ 0 <= lot_base l' <= lot_base l /\
    stored rest /\ ul rest = 0 /\
    allocation_of l ordinal (ul required) (lot_local l - lot_local l') (lot_base l - lot_base l') a /\
    exists rem, stored rem /\ l' = with_remaining rem l.
Proof.
  intros [Hb Hd HF HO] Sr Hlt Hord. apply Forall2_cons in HF as [Hl HF]. apply Forall_cons in HO as [[Hv Hpos Hid1 Hid2] HO].
  pose proof Hd as Hd'. apply NoDup_cons in Hd' as [Hnr _]. unfold consume_next_fifo_lot. rewrite st_get_run, Hb.
  rewrite (st_bind_run _ _ _ _ _ (deref_Some _ _ _ Hl)).
  destruct (open_state_valid l Hv) as (o & Ho & Eo & Eq & Sl & El & Pl & Sb & Eb & Pb). rewrite (st_lift_run _ _ _ _ Ho).
  pose proof (lv_remaining l Hv) as Srem. pose proof (ledger_min _ _ _ _ Sr Srem) as Hmin.
  fold (lot_qty l) in Hmin. rewrite Z.min_l in Hmin by lia. set (mq := dmin required (lot_remaining_quantity l)) in *.
  pose proof (ledger_ul _ _ Hmin) as Emq. apply ledger_stored in Hmin.
  destruct (cost_sub_total _ mq "open_quantity" Srem Hmin) as (rem & Hrem & Srem' & Erem); [unfold lot_qty in *; destruct Srem; lia|].
  fold (lot_qty l) in Erem. rewrite (st_lift_run _ _ _ _ Hrem). unfold assign. rewrite st_modify_run.
  rewrite (stored_deqb _ _ Srem' stored_dzero), ul_dzero, (proj2 (Z.eqb_neq _ _)) by lia.
  destruct (with_remaining_valid rem l Hv Srem' ltac:(lia)) as (Hv' & Ll & Lb). set (l' := with_remaining rem l) in *.
  destruct (open_state_valid l' Hv') as (o' & Ho' & _ & _ & Sl' & El' & Pl' & Sb' & Eb' & Pb').
  rewrite (st_lift_run _ _ _ _ Ho').
  destruct (cost_sub_total (ol_cost_base o) (ol_cost_base o') "disposed_cost_base" Sb Sb') as (cb & Hcb & Scb & Ecb); [destruct Sb; lia|].
  rewrite (st_lift_run _ _ _ _ Hcb).
  destruct (cost_sub_total (ol_cost_local o) (ol_cost_local o') "disposed_cost_local" Sl Sl') as (cl & Hcl & Scl & Ecl); [destruct Sl; lia|].
  rewrite (st_lift_run _ _ _ _ Hcl), Eo, Eq. pose proof (lv_range l Hv) as Hrg.
  erewrite st_lift_run; [|apply make_allocation_Ok; try done; try (by apply Hv); try lia; unfold lot_qty in *; lia].
  destruct (cost_sub_total required mq "remaining_disposal_quantity" Sr Hmin) as (rest & Hrest & Srest & Erest); [destruct Sr; lia|].
  rewrite (st_lift_run _ _ _ _ Hrest). assert (Eql : lot_qty l' = lot_qty l - ul required) by (change (lot_qty l') with (ul rem); lia).
  eexists _, rest, _, l'. split; [reflexivity|]. split; [|split; [|repeat (split; [done || lia|])]].
  - constructor; simpl; [done|done|by rewrite length_insert| |done].
    intros x Hx. apply list_lookup_insert_ne. set_solver.
  - constructor; [done|done| |].
    + constructor; [|by apply heap_update_view]. simpl. apply list_lookup_insert_eq. by apply lookup_lt_Some in Hl.
    + constructor; [|done]. by constructor; [|lia|..].
  - split; [constructor; simpl; try done; lia|by exists rem].
Qed.

(** *** The abstract queue: quantities only *)

(** What is taken from each lot, and what is left, when [q] is consumed first-in first-out. *)
Fixpoint fifo_take (q : Z) (qs : list Z) : list Z :=
  match qs with
  | [] => []
  | x :: xs => if q <=? 0 then [] else Z.min q x :: fifo_take (q - Z.min q x) xs
  end.

Fixpoint fifo_left (q : Z) (qs : list Z) : list Z :=
  match qs with
  | [] => []
  | x :: xs => if q <=? 0 then x :: xs else if x <=? q then fifo_left (q - x) xs else (x - q) :: xs
  end.

Lemma fifo_take_zero qs : fifo_take 0 qs = [].
Proof. by destruct qs. Qed.

Lemma fifo_left_zero qs : fifo_left 0 qs = qs.
Proof. by destruct qs. Qed.

Lemma fifo_take_sum q qs : 0 <= q <= zsum qs -> Forall (fun x => 0 < x) qs -> zsum (fifo_take q qs) = q.
Proof.
  intros Hq HF. revert q Hq. induction HF as [|x xs Hx HF IH]; intros q Hq; simpl; rewrite ?zsum_nil, ?zsum_cons in *; [lia|].
  assert (0 <= zsum xs) by (apply zsum_nonneg; eapply Forall_impl; [exact HF|]; simpl; lia).
  destruct (Z.leb_spec q 0); [rewrite zsum_nil; lia|]. rewrite zsum_cons, IH; lia.
Qed.

Lemma fifo_left_sum q qs : 0 <= q <= zsum qs -> Forall (fun x => 0 < x) qs -> zsum (fifo_left q qs) = zsum qs - q.
Proof.
  intros Hq HF. revert q Hq. induction HF as [|x xs Hx HF IH]; intros q Hq; simpl; rewrite ?zsum_nil, ?zsum_cons in *; [lia|].
  destruct (Z.leb_spec q 0); [rewrite zsum_cons; lia|]. destruct (Z.leb_spec x q); [rewrite IH; lia|]. rewrite zsum_cons. lia.
Qed.

Lemma fifo_left_all qs : Forall (fun x => 0 < x) qs -> fifo_left (zsum qs) qs = [].
Proof.
  induction 1 as [|x xs Hx HF IH]; [done|]. cbn [fifo_left]. rewrite zsum_cons.
  assert (0 <= zsum xs) by (apply zsum_nonneg; eapply Forall_impl; [exact HF|]; simpl; lia).
  rewrite (proj2 (Z.leb_gt _ _)), (proj2 (Z.leb_le _ _)) by lia. by replace (x + zsum xs - x) with (zsum xs) by lia.
Qed.

(** ** The loop *)

(** The lots a consumption of [q] units leaves: the oldest are used up, at most one keeps a part, the rest is untouched. *)
Inductive leaves : Z -> list CostLot -> list CostLot -> Prop :=
| leaves_all ls : leaves 0 ls ls
| leaves_part l q rem ls : 0 < q < lot_qty l -> stored rem -> ul rem = lot_qty l - q -> leaves q (l :: ls) (with_remaining rem l :: ls)
| leaves_rest l q ls ls' : lot_qty l <= q -> leaves (q - lot_qty l) ls ls' -> leaves q (l :: ls) ls'.

Record consumption (key : BookKey) (s : FifoState) (refs : list lot_ref) (ls : list CostLot) (q : Z) (start : nat)
  (s' : FifoState) (refs' : list lot_ref) (ls' : list CostLot) (news : list SourceLotDisposalAllocation) : Prop := {
  cn_frame : same_elsewhere key refs s s';
  cn_view : queue_view key s' refs' ls';
  cn_refs : refs' ⊆ refs;
  cn_left : map lot_qty ls' = fifo_left q (map lot_qty ls);
  cn_taken : map (fun a => ul (da_consumed_quantity a)) news = fifo_take q (map lot_qty ls);
  cn_sources : map da_source_lot_id news = map (fun l => strip (lot_lot_id l)) (take (length news) ls);
  cn_ordinals : map da_allocation_ordinal news = map Z.of_nat (seq start (length news));
  cn_stored : Forall allocation_stored news;
  cn_nonneg : Forall allocation_nonneg news;
  cn_plain : Forall (fun a => da_amortized_cost_evidence a = None) news;
  cn_local : zsum (map (fun a => ul (da_consumed_cost_local a)) news) = zsum (map lot_local ls) - zsum (map lot_local ls');
  cn_base : zsum (map (fun a => ul (da_consumed_cost_base a)) news) = zsum (map lot_base ls) - zsum (map lot_base ls');
  cn_cost_bounds : 0 <= zsum (map lot_local ls') <= zsum (map lot_local ls) /\ 0 <= zsum (map lot_base ls') <= zsum (map lot_base ls);
  cn_ids : exists k, map lot_lot_id ls' = drop k (map lot_lot_id ls);
  cn_lots : leaves q ls ls'
}.

Lemma lots_cost_nonneg ls : Forall open_lot ls -> 0 <= zsum (map lot_local ls) /\ 0 <= zsum (map lot_base ls).
Proof.
  intros HF. split; apply zsum_map_nonneg; (eapply Forall_impl; [exact HF|]); intros l [Hv _ _ _];
    destruct (open_state_valid l Hv) as (o & H); tauto.
Qed.

Lemma consumption_none key s refs ls start : queue_view key s refs ls -> consumption key s refs ls 0 start s refs ls [].
Proof.
  intros Hv. pose proof (lots_cost_nonneg ls (qv_open _ _ _ _ Hv)).
  constructor; simpl; rewrite ?fifo_left_zero, ?fifo_take_zero, ?zsum_nil;
    first [done | lia | apply same_elsewhere_refl | by exists 0%nat | by constructor].
Qed.

Lemma consumption_partial key s r refs l ls q start s' l' a :
  queue_view key s (r :: refs) (l :: ls) -> 0 < q < lot_qty l ->
  same_elsewhere key [r] s s' -> queue_view key s' (r :: refs) (l' :: ls) -> lot_lot_id l' = lot_lot_id l ->
  lot_qty l' = lot_qty l - q -> 0 <= lot_local l' <= lot_local l -> 0 <= lot_base l' <= lot_base l ->
  (exists rem, stored rem /\ l' = with_remaining rem l) ->
  allocation_of l (Z.of_nat start) q (lot_local l - lot_local l') (lot_base l - lot_base l') a ->
  consumption key s (r :: refs) (l :: ls) q start s' (r :: refs) (l' :: ls) [a].
Proof.
  intros Hv Hq Hf Hv' Hid Hql Hll Hbb (rem & Srem & El') [A1 A2 A3 A4 A5 A6 A7 A8].
  pose proof (lots_cost_nonneg (l :: ls) (qv_open _ _ _ _ Hv)) as [N1 N2]. simpl in N1, N2. rewrite !zsum_cons in N1, N2.
  pose proof (lots_cost_nonneg ls (proj2 (proj1 (Forall_cons _ _ _) (qv_open _ _ _ _ Hv)))) as [M1 M2].
  constructor; simpl; rewrite ?zsum_cons, ?zsum_nil, ?A1, ?A3, ?A5.
  - eapply same_elsewhere_weaken; [|exact Hf]. set_solver.
  - done.
  - done.
  - rewrite (proj2 (Z.leb_gt q 0)), (proj2 (Z.leb_gt (lot_qty l) q)) by lia. by rewrite Hql.
  - rewrite (proj2 (Z.leb_gt q 0)), Z.min_l by lia. by rewrite Z.sub_diag, fifo_take_zero.
  - done.
  - done.
  - by constructor.
  - constructor; [|done]. split; lia.
  - by constructor.
  - lia.
  - lia.
  - lia.
  - exists 0%nat. simpl. by rewrite Hid.
  - rewrite El'. constructor; [done|done|]. by rewrite El' in Hql.
Qed.

Lemma consumption_full key s r refs l ls q start s1 a s' refs' ls' news :
  queue_view key s (r :: refs) (l :: ls) -> lot_qty l <= q ->
  same_elsewhere key [r] s s1 ->
  allocation_of l (Z.of_nat start) (lot_qty l) (lot_local l) (lot_base l) a ->
  consumption key s1 refs ls (q - lot_qty l) (S start) s' refs' ls' news ->
  consumption key s (r :: refs) (l :: ls) q start s' refs' ls' (a :: news).
Proof.
  intros Hv Hq Hf [A1 A2 A3 A4 A5 A6 A7 A8] [C1 C2 C3 C4 C5 C6 C7 C8 C9 C10 C11 C12 C13 C14 C15].
  pose proof (proj1 (proj1 (Forall_cons _ _ _) (qv_open _ _ _ _ Hv))) as [Hlv Hpos _ _].
  destruct (open_state_valid l Hlv) as (o & _ & _ & _ & _ & _ & P1 & _ & _ & P2).
  constructor; simpl; rewrite ?zsum_cons, ?A1, ?A3, ?A5.
  - eapply same_elsewhere_trans; [|eapply same_elsewhere_weaken; [|exact Hf]|exact C1]; set_solver.
  - done.
  - set_solver.
  - by rewrite (proj2 (Z.leb_gt q 0)), (proj2 (Z.leb_le (lot_qty l) q)) by lia.
  - rewrite (proj2 (Z.leb_gt q 0)), Z.min_r by lia. by rewrite C5.
  - by rewrite C6.
  - by rewrite C7.
  - by constructor.
  - constructor; [split; lia|done].
  - by constructor.
  - lia.
  - lia.
  - lia.
  - destruct C14 as [k Hk]. by exists (S k).
  - by constructor.
Qed.

Record matched_ok (m : Matched) : Prop := {
  mo_base : stored (mt_cost_base m) /\ 0 <= ul (mt_cost_base m);
  mo_local : stored (mt_cost_local m) /\ 0 <= ul (mt_cost_local m);
  mo_quantity : stored (mt_quantity m) /\ 0 <= ul (mt_quantity m)
}.

(** The accumulators after a turn. *)
Lemma matched_add acc a l ordinal q cl cb :
  matched_ok acc -> allocation_of l ordinal q cl cb a -> 0 <= q -> 0 <= cl -> 0 <= cb ->
  ul (mt_cost_base acc) + cb < 10 ^ 18 -> ul (mt_cost_local acc) + cl < 10 ^ 18 -> ul (mt_quantity acc) + q < 10 ^ 18 ->
  exists b c d, p_add policy (mt_cost_base acc) (da_consumed_cost_base a) "disposed_cost_base" = Ok b /\
    p_add policy (mt_cost_local acc) (da_consumed_cost_local a) "disposed_cost_local" = Ok c /\
    p_add policy (mt_quantity acc) (da_consumed_quantity a) "consumed_quantity" = Ok d /\
    let acc' := {| mt_cost_base := b; mt_cost_local := c; mt_quantity := d; mt_allocations := (mt_allocations acc ++ [a])%list |} in
    matched_ok acc' /\ ul b = ul (mt_cost_base acc) + cb /\ ul c = ul (mt_cost_local acc) + cl /\ ul d = ul (mt_quantity acc) + q.
Proof.
  intros [[S1 P1] [S2 P2] [S3 P3]] [_ _ _ (T1 & T2 & T3) Eq El Eb _] Hq Hcl Hcb B1 B2 B3.
  destruct (cost_add_total _ _ "disposed_cost_base" S1 T3) as (b & Hb & Sb & Ub); [lia|].
  destruct (cost_add_total _ _ "disposed_cost_local" S2 T2) as (c & Hc & Sc & Uc); [lia|].
  destruct (cost_add_total _ _ "consumed_quantity" S3 T1) as (d & Hd & Sd & Ud); [lia|].
  exists b, c, d. split; [done|]. split; [done|]. split; [done|]. split; [|lia].
  constructor; (split; [done|simpl; lia]).
Qed.

Lemma st_bind_pair {S A B C} (m : st S (A * B)) (k : A * B -> st S C) s a b s' :
  m s = (Ok (a, b), s') -> (m ≫= k) s = k (a, b) s'.
Proof. intros H. by rewrite (st_bind_run _ _ _ _ _ H). Qed.

Lemma consume_loop_stop fuel key required acc s :
  dltb dzero required = false -> consume_loop fuel key required acc s = (Ok acc, s).
Proof. intros H. destruct fuel; simpl; rewrite st_get_run, H; done. Qed.

(** The loop consumes exactly the required quantity: it never runs out of fuel, of lots or of room. *)
Lemma consume_loop_spec key ls : forall fuel s refs required acc,
  queue_view key s refs ls -> stored required -> 0 <= ul required <= zsum (map lot_qty ls) ->
  (length ls <= fuel)%nat -> matched_ok acc ->
  ul (mt_cost_base acc) + zsum (map lot_base ls) < 10 ^ 18 ->
  ul (mt_cost_local acc) + zsum (map lot_local ls) < 10 ^ 18 ->
  ul (mt_quantity acc) + ul required < 10 ^ 18 ->
  exists m s' refs' ls' news, consume_loop fuel key required acc s = (Ok m, s') /\
    consumption key s refs ls (ul required) (S (length (mt_allocations acc))) s' refs' ls' news /\
    matched_ok m /\ mt_allocations m = (mt_allocations acc ++ news)%list /\
    ul (mt_quantity m) = ul (mt_quantity acc) + ul required /\
    ul (mt_cost_local m) = ul (mt_cost_local acc) + (zsum (map lot_local ls) - zsum (map lot_local ls')) /\
    ul (mt_cost_base m) = ul (mt_cost_base acc) + (zsum (map lot_base ls) - zsum (map lot_base ls')).
Proof.
  induction ls as [|l ls IH]; intros fuel s refs required acc Hv Sr Hr Hfuel Hacc Bb Bl Bq.
  all: destruct (Z.eq_dec (ul required) 0) as [Hz|Hz].
  1,3: rewrite consume_loop_stop by (rewrite (stored_dltb _ _ stored_dzero Sr), ul_dzero, Hz; done);
    rewrite Hz; exists acc, s, refs; eexists _, []; split; [done|]; split; [by apply consumption_none|];
    rewrite app_nil_r; repeat (split; [done || lia|]); lia.
  1: { simpl in Hr. rewrite zsum_nil in Hr. lia. }
  destruct fuel as [|fuel]; [simpl in Hfuel; lia|]. simpl in Hr, Bb, Bl. rewrite !zsum_cons in *.
  pose proof (qv_heap _ _ _ _ Hv) as HF. destruct refs as [|r refs]; [by inversion HF|].
  pose proof (lots_cost_nonneg ls (proj2 (proj1 (Forall_cons _ _ _) (qv_open _ _ _ _ Hv)))) as [M1 M2].
  pose proof (proj1 (proj1 (Forall_cons _ _ _) (qv_open _ _ _ _ Hv))) as [Hlv Hpos _ _].
  destruct (open_state_valid l Hlv) as (_o & _ & _ & _ & _ & _ & P1 & _ & _ & P2).
  cbn [consume_loop]. rewrite st_get_run, (stored_dltb _ _ stored_dzero Sr), ul_dzero, (qv_book _ _ _ _ Hv).
  rewrite (proj2 (Z.ltb_lt 0 (ul required))) by lia. cbn [negb orb].
  set (ord := Z.of_nat (length (mt_allocations acc)) + 1).
  assert (Hord : ord = Z.of_nat (S (length (mt_allocations acc)))) by lia.
  destruct (Z.le_gt_cases (lot_qty l) (ul required)) as [Hge|Hlt].
  - destruct (consume_next_full key s r refs l ls required ord Hv Sr Hge ltac:(lia))
      as (a & rest & s1 & Hrun & Hf & Hv1 & Srest & Erest & Ha).
    rewrite (st_bind_pair _ _ _ _ _ _ Hrun). cbv beta iota.
    destruct (matched_add acc a l ord _ _ _ Hacc Ha ltac:(lia) P1 P2 ltac:(lia) ltac:(lia) ltac:(lia))
      as (b & c & d & Hb & Hc & Hd & Hacc' & Eb & Ec & Ed).
    rewrite (st_lift_run _ _ _ _ Hb), (st_lift_run _ _ _ _ Hc), (st_lift_run _ _ _ _ Hd).
    simpl in Hfuel.
    edestruct (IH fuel s1 refs rest) as (m & s' & refs' & ls' & news & Hloop & Hcn & Hm & Hal & Eq & El & Ebb);
      [exact Hv1|exact Srest| | |exact Hacc'|..]; cbn [mt_cost_base mt_cost_local mt_quantity]; try lia.
    exists m, s', refs', ls', (a :: news). split; [exact Hloop|].
    cbn [mt_allocations mt_cost_base mt_cost_local mt_quantity] in *.
    split; [|rewrite Hal, <- app_assoc; simpl; rewrite !zsum_cons; repeat (split; [done || lia|]); lia].
    rewrite Hord in Ha. eapply consumption_full; [exact Hv|exact Hge|exact Hf|exact Ha|].
    rewrite <- Erest. by rewrite length_app, Nat.add_1_r in Hcn.
  - destruct (consume_next_partial key s r refs l ls required ord Hv Sr ltac:(lia) ltac:(lia))
      as (a & rest & s1 & l' & Hrun & Hf & Hv1 & Eid & _ & Eql & Bl' & Bb' & Srest & Erest & Ha & Hrem).
    rewrite (st_bind_pair _ _ _ _ _ _ Hrun). cbv beta iota.
    destruct (matched_add acc a l ord _ _ _ Hacc Ha ltac:(lia) ltac:(lia) ltac:(lia) ltac:(lia) ltac:(lia) ltac:(lia))
      as (b & c & d & Hb & Hc & Hd & Hacc' & Eb & Ec & Ed).
    rewrite (st_lift_run _ _ _ _ Hb), (st_lift_run _ _ _ _ Hc), (st_lift_run _ _ _ _ Hd).
    rewrite consume_loop_stop by (rewrite (stored_dltb _ _ stored_dzero Srest), ul_dzero, Erest; done).
    eexists _, s1, (r :: refs), (l' :: ls), [a]. split; [reflexivity|].
    split; [rewrite Hord in Ha; eapply consumption_partial; done || lia|].
    cbn [mt_allocations mt_cost_base mt_cost_local mt_quantity map]. rewrite !zsum_cons. repeat (split; [done || lia|]); lia.
Qed.

(** ** The book *)

(** A book in agreement with its aggregate: the available quantity is the sum of the open lots, lot
    identities are distinct, and the total costs fit the ledger column. *)
Record book_ok (key : BookKey) (s : FifoState) (ls : list CostLot) : Prop := {
  bk_view : queue_view key s (book key s) ls;
  bk_available : stored (available key s);
  bk_agrees : ul (available key s) = zsum (map lot_qty ls);
  bk_distinct : NoDup (map (fun l => strip (lot_lot_id l)) ls);
  bk_local : zsum (map lot_local ls) < 10 ^ 18;
  bk_base : zsum (map lot_base ls) < 10 ^ 18
}.

(** The whole state: every book is in order and no lot is in two books. *)
Record fifo_ok (s : FifoState) : Prop := {
  fo_books : forall key, exists ls, book_ok key s ls;
  fo_disjoint : forall k k', k <> k' -> book k s ## book k' s
}.

Lemma available_set key d s : available key (set_available key d s) = d.
Proof. unfold available, od_get_default, set_available; simpl. by rewrite od_get_set. Qed.

Lemma available_set_ne k key d s : k <> key -> available k (set_available key d s) = available k s.
Proof. intros Hk. unfold available, od_get_default, set_available; simpl. by rewrite od_get_set_ne. Qed.

(** Books that share neither queue, lots nor aggregate with the change keep their state. *)
Lemma book_ok_frame k key s s' d ls :
  k <> key -> same_elsewhere key (book key s) s s' -> book k s ## book key s ->
  book_ok k s ls -> book_ok k (set_available key d s') ls.
Proof.
  intros Hk [A B L H K] Hd [[_ N F O] Sa Ea D Bl Bb].
  assert (Eb : book k (set_available key d s') = book k s) by (change (book k s' = book k s); by apply K).
  assert (Eav : available k (set_available key d s') = available k s).
  { rewrite available_set_ne by done. unfold available. by rewrite A. }
  constructor; rewrite ?Eav; try done. rewrite Eb. constructor; [exact Eb|done| |done].
  clear -F H Hd. induction F as [|r l refs ls Hr F IH]; constructor.
  - simpl. rewrite H; [done|]. set_solver.
  - apply IH. set_solver.
Qed.

Lemma drop_NoDup {A} (k : nat) (xs : list A) : NoDup xs -> NoDup (drop k xs).
Proof. intros H. rewrite <- (take_drop k xs) in H. by apply NoDup_app in H as (_ & _ & ?). Qed.

Lemma take_NoDup {A} (k : nat) (xs : list A) : NoDup xs -> NoDup (take k xs).
Proof. intros H. rewrite <- (take_drop k xs) in H. by apply NoDup_app in H as (? & _). Qed.

(** What a successful disposal of [q] units from the lots [ls] does. *)
Record disposed (key : BookKey) (s : FifoState) (ls : list CostLot) (q : Z) (r : LotDisposalResult)
  (s' : FifoState) (ls' : list CostLot) : Prop := {
  ds_ok : dr_error_reason r = None;
  ds_quantity : ul (dr_consumed_quantity r) = q;
  ds_taken : map (fun a => ul (da_consumed_quantity a)) (dr_allocations r) = fifo_take q (map lot_qty ls);
  ds_sources : map da_source_lot_id (dr_allocations r) = map (fun l => strip (lot_lot_id l)) (take (length (dr_allocations r)) ls);
  ds_left : map lot_qty ls' = fifo_left q (map lot_qty ls);
  ds_local : ul (dr_cost_local r) = zsum (map lot_local ls) - zsum (map lot_local ls');
  ds_base : ul (dr_cost_base r) = zsum (map lot_base ls) - zsum (map lot_base ls');
  ds_nonneg : 0 <= ul (dr_cost_local r) /\ 0 <= ul (dr_cost_base r);
  ds_stored : stored (dr_consumed_quantity r) /\ stored (dr_cost_local r) /\ stored (dr_cost_base r);
  ds_available : ul (available key s') = ul (available key s) - q;
  ds_index : fs_lots_by_transaction_id s' = fs_lots_by_transaction_id s;
  ds_lots : leaves q ls ls'
}.

Lemma consume_success {hashing_ok : HashingOk} p i q s ls :
  book_ok (p, i) s ls -> stored q -> 0 < ul q <= zsum (map lot_qty ls) ->
  exists r s1 s' ls', fifo_consume_sell_quantity_with_allocations p i q s = (Ok r, s') /\
    s' = set_available (p, i) (available (p, i) s') s1 /\ same_elsewhere (p, i) (book (p, i) s) s s1 /\
    book (p, i) s' ⊆ book (p, i) s /\ book_ok (p, i) s' ls' /\ disposed (p, i) s ls (ul q) r s' ls'.
Proof.
  set (key := (p, i)). intros [Hv Sa Ea Hd Bl Bb] Sq Hq. unfold fifo_consume_sell_quantity_with_allocations. fold key.
  rewrite st_get_run. unfold non_positive_sell_quantity_error.
  rewrite (stored_dleb _ _ stored_dzero Sq), ul_dzero, (proj2 (Z.leb_le 0 _)) by lia.
  rewrite (stored_dltb _ _ Sa Sq), Ea, (proj2 (Z.ltb_ge _ _)) by lia.
  rewrite (stored_deqb _ _ Sq stored_dzero), ul_dzero, (proj2 (Z.eqb_neq _ _)) by lia.
  set (acc := {| mt_cost_base := dzero; mt_cost_local := dzero; mt_quantity := dzero; mt_allocations := [] |}).
  assert (Hacc : matched_ok acc) by (constructor; (split; [apply stored_dzero|simpl; rewrite ul_dzero; lia])).
  destruct (consume_loop_spec key ls (S (length (book key s))) s (book key s) q acc Hv Sq ltac:(lia))
    as (m & s1 & refs' & ls' & news & Hrun & Hcn & Hm & Hal & Eq & El & Eb); simpl; rewrite ?ul_dzero; try done; try lia.
  { pose proof (Forall2_length _ _ _ (qv_heap _ _ _ _ Hv)). lia. }
  { destruct Sq; lia. }
  simpl in Eq, El, Eb, Hal. rewrite ul_dzero in Eq, El, Eb.
  rewrite (st_bind_run _ _ _ _ _ Hrun). destruct Hm as [[S1 P1] [S2 P2] [S3 P3]].
  destruct (cost_sub_total _ _ "available_quantity" Sa S3) as (left & Hleft & Sleft & Eleft); [destruct Sa; lia|].
  rewrite (st_lift_run _ _ _ _ Hleft), st_modify_run. destruct Hcn as [C1 C2 C3 C4 C5 C6 C7 C8 C9 C10 C11 C12 C13 [k C14] C15].
  assert (HO : Forall (fun x => 0 < x) (map lot_qty ls)).
  { apply Forall_fmap. eapply Forall_impl; [exact (qv_open _ _ _ _ Hv)|]. by intros l [_ ? _ _]. }
  pose proof (fifo_take_sum (ul q) (map lot_qty ls) ltac:(lia) HO) as Ez. pose proof (fifo_left_sum (ul q) (map lot_qty ls) ltac:(lia) HO) as Ez'.
  destruct (make_LotDisposalResult_total (mt_cost_base m) (mt_cost_local m) (mt_quantity m) (mt_allocations m)) as [lin Hres];
    rewrite ?Hal, ?C5, ?C6; try done; try lia.
  { rewrite <- firstn_map. by apply take_NoDup. }
  rewrite Hal in Hres. rewrite Hres. eexists _, s1, _, ls'. split; [reflexivity|].
  split; [by rewrite available_set|]. split; [done|].
  change (book key (set_available key left s1)) with (book key s1). rewrite (qv_book _ _ _ _ C2). split; [done|].
  split.
  - constructor; rewrite ?available_set; try done; try lia.
    + change (book key (set_available key left s1)) with (book key s1). rewrite (qv_book _ _ _ _ C2).
      destruct C2 as [V1 V2 V3 V4]. by constructor.
    + rewrite C4. lia.
    + rewrite <- (map_map lot_lot_id strip), C14, <- skipn_map, map_map. by apply drop_NoDup.
  - constructor; cbn [dr_error_reason dr_consumed_quantity dr_allocations dr_cost_local dr_cost_base]; rewrite ?available_set, ?Hal; try done; try lia.
    apply C1.
Qed.
End Consume.

(** ** Adding *)

Lemma priced c q u :
  stored c -> 0 <= ul c -> stored q -> 0 < ul q -> ddiv (arithmetic_context policy) c q = Ok u ->
  costed q u /\ product_units q u = ul c.
Proof.
  intros Sc Pc Sq Pq Hu.
  destruct (ledger_unit_cost (cp_name policy) c _ q _ Sc Pc Sq Pq) as (u' & Hu' & Huc & _).
  destruct (unit_cost_roundtrip (cp_name policy) c _ q _ u "" Sc Pc Sq Pq Hu) as (r & Hr & Hl).
  assert (u' = u) as -> by (change (ddiv (arithmetic_context policy) c q = Ok u') in Hu'; congruence).
  change (p_multiply policy q u "" = Ok r) in Hr.
  split; [split; [done|by rewrite Hr]|]. unfold product_units. rewrite Hr. by apply ledger_ul.
Qed.

Lemma priced_total c q : stored c -> 0 <= ul c -> stored q -> 0 < ul q -> exists u, ddiv (arithmetic_context policy) c q = Ok u.
Proof.
  intros Sc Pc Sq Pq. destruct (ledger_unit_cost (cp_name policy) c _ q _ Sc Pc Sq Pq) as (u & Hu & _). by exists u.
Qed.

(** A transaction that carries everything a lot needs. *)
Record lot_input (t : CostBasisTransaction) (net_cost net_cost_local original : decimal) : Prop := {
  li_net_cost : ct_net_cost t = Some net_cost;
  li_net_cost_local : ct_net_cost_local t = Some net_cost_local;
  li_original : source_lot_original_quantity t (ct_quantity t) = Ok original;
  li_stored : stored (ct_quantity t) /\ stored net_cost /\ stored net_cost_local /\ stored original;
  li_range : 0 < ul (ct_quantity t) <= ul original;
  li_costs : 0 <= ul net_cost /\ 0 <= ul net_cost_local;
  li_id : truthy (strip (ct_transaction_id t)) = true
}.

Definition lot_of (t : CostBasisTransaction) (original local base : decimal) : CostLot :=
  {| lot_transaction_id := ct_transaction_id t; lot_lot_id := "LOT-" +:+ ct_transaction_id t;
     lot_acquisition_date := utc_transaction_date t; lot_original_quantity := original;
     lot_remaining_quantity := ct_quantity t; lot_cost_per_share_local := local; lot_cost_per_share_base := base |}.

Lemma new_lot_spec t nc ncl original :
  lot_input t nc ncl original ->
  exists local base, new_lot t (ct_quantity t) nc ncl = Ok (lot_of t original local base) /\
    open_lot (lot_of t original local base) /\ lot_local (lot_of t original local base) = ul ncl /\
    lot_base (lot_of t original local base) = ul nc.
Proof.
  intros [H1 H2 H3 (Sq & Sn & Sl & So) Hr [Pn Pl] Hid]. unfold new_lot.
  destruct (priced_total ncl _ Sl Pl Sq ltac:(lia)) as [ul Hul]. rewrite Hul. cbn [mbind result_bind].
  destruct (priced_total nc _ Sn Pn Sq ltac:(lia)) as [ub Hub]. rewrite Hub. cbn [mbind result_bind].
  rewrite H3. cbn [mbind result_bind]. unfold make_CostLot. simpl default.
  rewrite (stored_dltb _ _ So Sq), (proj2 (Z.ltb_ge _ _)) by lia. cbn [raise_if mbind result_bind].
  destruct (priced _ _ _ Sl Pl Sq ltac:(lia) Hul) as [Cl El]. destruct (priced _ _ _ Sn Pn Sq ltac:(lia) Hub) as [Cb Eb].
  exists ul, ub. split; [done|]. split; [|done].
  constructor; [constructor; unfold lot_qty; simpl; try done; lia|unfold lot_qty; simpl; lia| |done].
  by apply strip_truthy.
Qed.

Lemma validated_lot_input t nc ncl original :
  lot_input t nc ncl original -> validated_buy_lot_inputs t = Ok (Some (ct_quantity t, nc, ncl)).
Proof.
  intros [H1 H2 H3 (Sq & Sn & Sl & So) Hr [Pn Pl] Hid]. unfold validated_buy_lot_inputs. rewrite H1, H2.
  unfold should_skip_empty_buy_lot, validate_non_negative_buy_lot_cost_basis.
  rewrite (stored_dltb _ _ stored_dzero Sq), (stored_dleb _ _ stored_dzero Sn), (stored_dleb _ _ stored_dzero Sl), ul_dzero.
  by rewrite (proj2 (Z.ltb_lt _ _)), !(proj2 (Z.leb_le _ _)) by lia.
Qed.

Lemma heap_extend (s : FifoState) (x : CostLot) refs ls :
  Forall2 (fun r l => fs_heap s !! r = Some l) refs ls ->
  Forall2 (fun r l => fs_heap (set_heap (fs_heap s ++ [x])%list s) !! r = Some l) refs ls.
Proof. intros HF. eapply Forall2_impl; [exact HF|]. intros r l Hl. simpl. by apply lookup_app_l_Some. Qed.

Lemma refs_in_heap (s : FifoState) refs ls :
  Forall2 (fun r l => fs_heap s !! r = Some l) refs ls -> length (fs_heap s) ∉ refs.
Proof.
  intros HF. induction HF as [|r l refs ls Hl HF IH]; [set_solver|]. apply lookup_lt_Some in Hl.
  rewrite elem_of_cons. intros [E|Hin]; [lia|done].
Qed.

(** The state after a lot has been added to the end of the queue. *)
Definition added (key : BookKey) (id : string) (l : CostLot) (total : decimal) (s : FifoState) : FifoState :=
  set_available key total (set_lot_by_id id (length (fs_heap s))
    (set_open_lots key (book key s ++ [length (fs_heap s)])%list (set_heap (fs_heap s ++ [l])%list s))).

Lemma add_run t nc ncl original s ls :
  let key := (ct_portfolio_id t, ct_instrument_id t) in
  lot_input t nc ncl original -> book_ok key s ls -> zsum (map lot_qty ls) + ul (ct_quantity t) < 10 ^ 18 ->
  exists local base total, let l := lot_of t original local base in
    fifo_add_buy_lot t s = (Ok tt, added key (ct_transaction_id t) l total s) /\
    open_lot l /\ lot_local l = ul ncl /\ lot_base l = ul nc /\
    stored total /\ ul total = ul (available key s) + ul (ct_quantity t).
Proof.
  intros key Hi [Hv Sa Ea Hd Bl Bb] Bq. unfold fifo_add_buy_lot. rewrite (st_lift_run _ _ _ _ (validated_lot_input _ _ _ _ Hi)).
  destruct (new_lot_spec t nc ncl original Hi) as (local & base & Hl & Ho & El & Eb).
  rewrite (st_lift_run _ _ _ _ Hl). rewrite st_get_run, !st_modify_run, st_get_run.
  destruct Hi as [H1 H2 H3 (Sq & _) Hr _ _].
  destruct (cost_add_total (available key s) (ct_quantity t) "available_quantity" Sa Sq) as (total & Ht & St & Et).
  { rewrite Ea. assert (0 <= zsum (map lot_qty ls)); [|lia]. apply zsum_map_nonneg.
    eapply Forall_impl; [exact (qv_open _ _ _ _ Hv)|]. intros x [_ ? _ _]. lia. }
  exists local, base, total. split; [|done]. fold key. erewrite st_lift_run; [|exact Ht]. done.
Qed.

Lemma book_added key id l total s : book key (added key id l total s) = (book key s ++ [length (fs_heap s)])%list.
Proof. exact (book_set_open key _ (set_heap (fs_heap s ++ [l])%list s)). Qed.

Lemma book_added_ne k key id l total s : k <> key -> book k (added key id l total s) = book k s.
Proof. exact (book_set_open_ne k key _ (set_heap (fs_heap s ++ [l])%list s)). Qed.

Lemma available_added key id l total s : available key (added key id l total s) = total.
Proof. apply available_set. Qed.

Lemma added_same_book key id l total s ls :
  book_ok key s ls -> open_lot l -> stored total -> ul total = ul (available key s) + lot_qty l ->
  strip (lot_lot_id l) ∉ map (fun l => strip (lot_lot_id l)) ls ->
  zsum (map lot_local ls) + lot_local l < 10 ^ 18 -> zsum (map lot_base ls) + lot_base l < 10 ^ 18 ->
  book_ok key (added key id l total s) (ls ++ [l])%list.
Proof.
  intros [[_ N F O] Sa Ea D Bl Bb] Ho St Et Hd Hl Hb.
  pose proof (refs_in_heap s _ _ F) as Hfresh.
  constructor; rewrite ?map_app, ?zsum_app; cbn [map]; rewrite ?zsum_cons, ?zsum_nil.
  - constructor; [done|rewrite book_added..|].
    + apply NoDup_app. split; [done|]. split; [|apply NoDup_singleton]. intros x Hx ->%list_elem_of_singleton. done.
    + apply Forall2_app; [by apply heap_extend|]. constructor; [|done]. simpl. by apply list_lookup_middle.
    + apply Forall_app. split; [done|by constructor].
  - by rewrite available_added.
  - rewrite available_added. lia.
  - apply NoDup_app. split; [done|]. split; [|apply NoDup_singleton]. intros x Hx ->%list_elem_of_singleton. done.
  - lia.
  - lia.
Qed.

Lemma added_other_book k key id l total s ls :
  k <> key -> book_ok k s ls -> book_ok k (added key id l total s) ls.
Proof.
  intros Hk [[_ N F O] Sa Ea D Bl Bb].
  assert (Eav : available k (added key id l total s) = available k s) by (unfold added; by rewrite available_set_ne).
  constructor; rewrite ?Eav; try done. rewrite book_added_ne by done. constructor; try done; [by apply book_added_ne|].
  exact (heap_extend s l _ _ F).
Qed.

Lemma added_fifo_ok key id l total s ls :
  fifo_ok s -> book_ok key s ls -> open_lot l -> stored total -> ul total = ul (available key s) + lot_qty l ->
  strip (lot_lot_id l) ∉ map (fun l => strip (lot_lot_id l)) ls ->
  zsum (map lot_local ls) + lot_local l < 10 ^ 18 -> zsum (map lot_base ls) + lot_base l < 10 ^ 18 ->
  fifo_ok (added key id l total s).
Proof.
  intros [HB HD] Hok Ho St Et Hd Hl Hb.
  assert (Hfresh : forall k, length (fs_heap s) ∉ book k s).
  { intros k. destruct (HB k) as (lk & [[_ _ F _] _ _ _ _ _]). by eapply refs_in_heap. }
  constructor.
  - intros k. destruct (decide (k = key)) as [->|Hk]; [eexists; by eapply added_same_book|].
    destruct (HB k) as (lk & Hlk). exists lk. by apply added_other_book.
  - intros k k' Hne. specialize (HD k k' Hne). pose proof (Hfresh k). pose proof (Hfresh k').
    destruct (decide (k = key)) as [->|Hk]; [|destruct (decide (k' = key)) as [->|Hk']];
      rewrite ?book_added, ?book_added_ne by done; set_solver.
Qed.

Lemma fifo_init_ok : fifo_ok fifo_init.
Proof.
  constructor; [|by intros k k' _ x ?%elem_of_nil]. intros key. exists []. constructor; try done; try apply stored_dzero.
  - by constructor; [|apply NoDup_nil_2|..].
  - apply NoDup_nil_2.
Qed.

(** The three outcomes of a disposal. *)
Lemma consume_refused `{hashing : Hashing} p i q s ls :
  book_ok (p, i) s ls -> stored q -> ul q < 0 \/ zsum (map lot_qty ls) < ul q ->
  exists r reason, fifo_consume_sell_quantity_with_allocations p i q s = (Ok r, s) /\ dr_error_reason r = Some reason /\
    dr_consumed_quantity r = dzero /\ dr_cost_local r = dzero /\ dr_cost_base r = dzero /\ dr_allocations r = [].
Proof.
  intros Hb Sq Hq. unfold fifo_consume_sell_quantity_with_allocations, non_positive_sell_quantity_error. rewrite st_get_run.
  rewrite (stored_dleb _ _ stored_dzero Sq), (stored_dltb _ _ (bk_available _ _ _ Hb) Sq), (bk_agrees _ _ _ Hb), ul_dzero.
  unfold st_lift. destruct (Z.leb_spec 0 (ul q)); [rewrite (proj2 (Z.ltb_lt _ _)) by lia|];
    (rewrite failed_disposal_Ok by (by apply strip_truthy)); by eexists _, _.
Qed.

Lemma lots_qty_nonneg ls : Forall open_lot ls -> 0 <= zsum (map lot_qty ls).
Proof. intros HF. apply zsum_map_nonneg. eapply Forall_impl; [exact HF|]. intros x [_ ? _ _]. lia. Qed.

Lemma consume_nothing `{hashing : Hashing} p i q s ls :
  book_ok (p, i) s ls -> stored q -> ul q = 0 ->
  exists r, fifo_consume_sell_quantity_with_allocations p i q s = (Ok r, s) /\ dr_error_reason r = None /\
    dr_consumed_quantity r = dzero /\ dr_cost_local r = dzero /\ dr_cost_base r = dzero /\ dr_allocations r = [].
Proof.
  intros Hb Sq Hq. pose proof (lots_qty_nonneg ls (qv_open _ _ _ _ (bk_view _ _ _ Hb))).
  unfold fifo_consume_sell_quantity_with_allocations, non_positive_sell_quantity_error. rewrite st_get_run.
  rewrite (stored_dleb _ _ stored_dzero Sq), (stored_dltb _ _ (bk_available _ _ _ Hb) Sq), (bk_agrees _ _ _ Hb),
    (stored_deqb _ _ Sq stored_dzero), ul_dzero, Hq, (proj2 (Z.ltb_ge _ _)) by lia.
  by eexists.
Qed.

(** A disposal from one book leaves every other book alone. *)
Lemma consume_other_books {key : BookKey} {s s1 s' : FifoState} :
  s' = set_available key (available key s') s1 -> same_elsewhere key (book key s) s s1 ->
  (forall k k', k <> k' -> book k s ## book k' s) ->
  forall k ls, k <> key -> book_ok k s ls -> book_ok k s' ls.
Proof. intros -> Hf HD k ls Hk Hok. eapply book_ok_frame; try done. by apply HD. Qed.

Lemma consume_fifo_ok `{hashing_ok : HashingOk} p i q s ls :
  fifo_ok s -> book_ok (p, i) s ls -> stored q -> 0 < ul q <= zsum (map lot_qty ls) ->
  exists r s' ls', fifo_consume_sell_quantity_with_allocations p i q s = (Ok r, s') /\ fifo_ok s' /\
    book_ok (p, i) s' ls' /\ disposed (p, i) s ls (ul q) r s' ls' /\
    (forall k lk, k <> (p, i) -> book_ok k s lk -> book_ok k s' lk).
Proof.
  intros [HB HD] Hb Sq Hq.
  destruct (consume_success p i q s ls Hb Sq Hq) as (r & s1 & s' & ls' & Hrun & Es & Hf & Hsub & Hok & Hd).
  pose proof (consume_other_books Es Hf HD) as Hother. exists r, s', ls'. split; [done|]. split; [|done].
  assert (Hbk : forall k, book k s' ⊆ book k s).
  { intros k. destruct (decide (k = (p, i))) as [->|Hk]; [done|]. rewrite Es. by rewrite <- (se_books _ _ _ _ Hf k Hk). }
  constructor.
  - intros k. destruct (decide (k = (p, i))) as [->|Hk]; [by exists ls'|].
    destruct (HB k) as [lk Hlk]. exists lk. by apply Hother.
  - intros k k' Hne. specialize (HD k k' Hne). pose proof (Hbk k). pose proof (Hbk k'). set_solver.
Qed.

(** *** Histories of one book *)

(** Running totals of a book: what came in and what disposals reported. *)
Record Totals := { to_quantity : Z; to_local : Z; to_base : Z }.
Definition totals_add (t : Totals) (q l b : Z) : Totals :=
  {| to_quantity := to_quantity t + q; to_local := to_local t + l; to_base := to_base t + b |}.
Definition no_totals : Totals := {| to_quantity := 0; to_local := 0; to_base := 0 |}.

(** A new lot fits the book: its identity is not in use and the totals stay within the column. *)
Definition lot_fits (t : CostBasisTransaction) (nc ncl : decimal) (s : FifoState) : Prop :=
  exists ls, book_ok (ct_portfolio_id t, ct_instrument_id t) s ls /\
    strip ("LOT-" +:+ ct_transaction_id t) ∉ map (fun l => strip (lot_lot_id l)) ls /\
    zsum (map lot_qty ls) + ul (ct_quantity t) < 10 ^ 18 /\
    zsum (map lot_local ls) + ul ncl < 10 ^ 18 /\ zsum (map lot_base ls) + ul nc < 10 ^ 18.

Inductive history `{hashing : Hashing} (key : BookKey) : FifoState -> Totals -> Totals -> Prop :=
| history_init : history key fifo_init no_totals no_totals
| history_buy s bought sold t nc ncl original s' :
    history key s bought sold -> lot_input t nc ncl original -> lot_fits t nc ncl s ->
    fifo_add_buy_lot t s = (Ok tt, s') ->
    history key s' (if decide ((ct_portfolio_id t, ct_instrument_id t) = key)
                    then totals_add bought (ul (ct_quantity t)) (ul ncl) (ul nc) else bought) sold
| history_sell s bought sold p i q r s' :
    history key s bought sold -> stored q -> fifo_consume_sell_quantity_with_allocations p i q s = (Ok r, s') ->
    history key s' bought
      (if decide ((p, i) = key)
       then totals_add sold (ul (dr_consumed_quantity r)) (ul (dr_cost_local r)) (ul (dr_cost_base r)) else sold).

Definition balanced (key : BookKey) (s : FifoState) (bought sold : Totals) : Prop :=
  exists ls, book_ok key s ls /\
    to_quantity bought = to_quantity sold + zsum (map lot_qty ls) /\
    to_local bought = to_local sold + zsum (map lot_local ls) /\
    to_base bought = to_base sold + zsum (map lot_base ls).

Lemma book_ok_functional key s ls ls' : book_ok key s ls -> book_ok key s ls' -> ls = ls'.
Proof.
  intros [[_ _ F _] _ _ _ _ _] [[_ _ F' _] _ _ _ _ _]. revert ls' F'.
  induction F as [|r l refs ls Hl F IH]; intros ls' F'; inversion F' as [|? ? ? ? Hl' F'']; subst; [done|].
  f_equal; [congruence|by apply IH].
Qed.

Lemma buy_step t nc ncl original s s' :
  fifo_ok s -> lot_input t nc ncl original -> lot_fits t nc ncl s -> fifo_add_buy_lot t s = (Ok tt, s') ->
  exists ls l, let key := (ct_portfolio_id t, ct_instrument_id t) in
    fifo_ok s' /\ book_ok key s ls /\ book_ok key s' (ls ++ [l])%list /\
    lot_qty l = ul (ct_quantity t) /\ lot_local l = ul ncl /\ lot_base l = ul nc /\ lot_original_quantity l = original /\
    (forall k lk, k <> key -> book_ok k s lk -> book_ok k s' lk).
Proof.
  intros Hok Hi (ls & Hb & Hd & Bq & Bl & Bb) Hrun.
  destruct (add_run t nc ncl original s ls Hi Hb Bq) as (local & base & total & Hrun' & Ho & El & Eb & St & Et).
  rewrite Hrun in Hrun'. injection Hrun' as ->. exists ls, (lot_of t original local base).
  split; [eapply added_fifo_ok; try done; lia|]. split; [done|]. split; [eapply added_same_book; try done; lia|].
  repeat (split; [done|]). intros k lk Hk Hlk. by apply added_other_book.
Qed.

Lemma sell_step `{hashing_ok : HashingOk} p i q s r s' :
  fifo_ok s -> stored q -> fifo_consume_sell_quantity_with_allocations p i q s = (Ok r, s') ->
  exists ls ls', fifo_ok s' /\ book_ok (p, i) s ls /\ book_ok (p, i) s' ls' /\
    ul (dr_consumed_quantity r) = zsum (map lot_qty ls) - zsum (map lot_qty ls') /\
    ul (dr_cost_local r) = zsum (map lot_local ls) - zsum (map lot_local ls') /\
    ul (dr_cost_base r) = zsum (map lot_base ls) - zsum (map lot_base ls') /\
    (forall k lk, k <> (p, i) -> book_ok k s lk -> book_ok k s' lk).
Proof.
  intros Hok Sq Hrun. destruct (fo_books _ Hok (p, i)) as [ls Hb].
  destruct (Z.lt_total (ul q) 0) as [Hn|[Hz|Hp]]; [|destruct (consume_nothing p i q s ls Hb Sq Hz) as (r' & Hrun' & Hr)|
    destruct (Z.le_gt_cases (ul q) (zsum (map lot_qty ls))) as [Hle|Hgt]].
  1: destruct (consume_refused p i q s ls Hb Sq (or_introl Hn)) as (r' & reason & Hrun' & _ & Hr).
  4: destruct (consume_refused p i q s ls Hb Sq (or_intror Hgt)) as (r' & reason & Hrun' & _ & Hr).
  1,2,4: rewrite Hrun in Hrun'; injection Hrun' as -> ->; exists ls, ls; destruct_and? Hr;
    repeat match goal with E : _ = dzero |- _ => rewrite E; clear E end; rewrite ?ul_dzero; repeat (split; [done || lia|]); done.
  destruct (consume_fifo_ok p i q s ls Hok Hb Sq ltac:(lia)) as (r' & s2 & ls' & Hrun' & Hok' & Hb' & [D1 D2 D3 D4 D5 D6 D7 D8 DS D9 D10 D11] & Ho).
  rewrite Hrun in Hrun'. injection Hrun' as -> ->. exists ls, ls'. repeat (split; [done|]).
  split; [|done]. rewrite D2. pose proof (bk_agrees _ _ _ Hb). pose proof (bk_agrees _ _ _ Hb'). lia.
Qed.

Lemma history_balanced `{hashing_ok : HashingOk} key s bought sold :
  history key s bought sold -> fifo_ok s /\ balanced key s bought sold.
Proof.
  induction 1 as [|s bought sold t nc ncl original s' Hh [Hok (lk & Hlk & Eq & El & Eb)] Hi Hf Hrun
                  |s bought sold p i q r s' Hh [Hok (lk & Hlk & Eq & El & Eb)] Sq Hrun].
  - split; [apply fifo_init_ok|]. destruct (fo_books _ fifo_init_ok key) as [ls Hls]. exists ls. split; [done|].
    destruct ls; [done|]. destruct Hls as [[_ _ F _] _ _ _ _ _]. inversion F.
  - destruct (buy_step t nc ncl original s s' Hok Hi Hf Hrun) as (ls & l & Hok' & Hb & Hb' & E1 & E2 & E3 & _ & Ho).
    split; [done|]. case_decide as E; [|exists lk; split; [by apply Ho|done]].
    rewrite E in *. rewrite (book_ok_functional _ _ _ _ Hlk Hb) in *. exists (ls ++ [l])%list. split; [done|].
    rewrite !map_app, !zsum_app. simpl. rewrite !zsum_cons, !zsum_nil. lia.
  - destruct (sell_step p i q s r s' Hok Sq Hrun) as (ls & ls' & Hok' & Hb & Hb' & E1 & E2 & E3 & Ho).
    split; [done|]. case_decide as E; [|exists lk; split; [by apply Ho|done]].
    rewrite E in *. rewrite (book_ok_functional _ _ _ _ Hlk Hb) in *. exists ls'. split; [done|]. simpl. lia.
Qed.

(** ** Properties *)

(** C17: A disposal under FIFO is the disposal the abstract queue prescribes.  On a book in agreement
    with its aggregate, a negative or excessive request is answered with an error and a zero request
    with an empty receipt, the state untouched; every other request succeeds (the loop bound is never
    met), takes the quantity from the oldest lots first and from no lot more than it holds, removes
    exactly the emptied lots, and books as cost in each currency precisely what the carrying cost of
    the book lost.  The book is in agreement with its aggregate afterwards. *)
Theorem fifo_disposal_correct `{hashing_ok : HashingOk} p i q s ls :
  book_ok (p, i) s ls -> stored q ->
  let run := fifo_consume_sell_quantity_with_allocations p i q s in
  (ul q < 0 \/ zsum (map lot_qty ls) < ul q ->
     exists r reason, run = (Ok r, s) /\ dr_error_reason r = Some reason /\ dr_consumed_quantity r = dzero /\ dr_allocations r = []) /\
  (ul q = 0 -> exists r, run = (Ok r, s) /\ dr_error_reason r = None /\ dr_consumed_quantity r = dzero /\ dr_allocations r = []) /\
  (0 < ul q <= zsum (map lot_qty ls) ->
     exists r s' ls', run = (Ok r, s') /\ book_ok (p, i) s' ls' /\ disposed (p, i) s ls (ul q) r s' ls').
Proof.
  intros Hb Sq run. split; [|split].
  - intros Hq. destruct (consume_refused p i q s ls Hb Sq Hq) as (r & reason & Hr). exists r, reason. by destruct_and? Hr.
  - intros Hq. destruct (consume_nothing p i q s ls Hb Sq Hq) as (r & Hr). exists r. by destruct_and? Hr.
  - intros Hq. destruct (consume_success p i q s ls Hb Sq Hq) as (r & s1 & s' & ls' & Hrun & _ & _ & _ & Hok & Hd).
    by exists r, s', ls'.
Qed.

(** A small history: 3 units for 100, 2 units for 70, then 4 units sold. *)
Definition wit_buy (id : string) (q cost : Z) : CostBasisTransaction :=
  {| ct_transaction_id := id; ct_portfolio_id := "P"; ct_instrument_id := "I"; ct_security_id := "I";
     ct_transaction_type := "BUY"; ct_transaction_date := {| dt_us := 0; dt_utcoffset := Some 0 |}; ct_settlement_date := None;
     ct_child_sequence_hint := None; ct_target_instrument_id := None; ct_quantity := dint q;
     ct_gross_transaction_amount := dint cost; ct_net_transaction_amount := None; ct_fees := None;
     ct_accrued_interest := None; ct_average_price := None; ct_trade_currency := "USD";
     ct_portfolio_base_currency := "USD"; ct_transaction_fx_rate := None; ct_net_cost := Some (dint cost);
     ct_gross_cost := None; ct_realized_gain_loss := None; ct_net_cost_local := Some (dint cost);
     ct_realized_gain_loss_local := None; ct_source_lot_order_quantity := None; ct_source_lot_original_quantity := None;
     ct_lot_restatement := None; ct_error_reason := None; ct_extra_fields := [] |}.

Lemma wit_buy_input id q c :
  0 < q < 10 ^ 8 -> 0 <= c < 10 ^ 8 -> truthy (strip id) = true -> lot_input (wit_buy id q c) (dint c) (dint c) (dint q).
Proof.
  intros Hq Hc Hid. constructor; try done; simpl; rewrite ?ul_dint by lia; try lia.
  repeat match goal with |- _ /\ _ => split end; apply stored_dint; lia.
Qed.

(** Two purchases leave the book they should. *)
Lemma wit_history `{hashing_ok : HashingOk} :
  exists s ls, history ("P", "I") s (totals_add (totals_add no_totals (3 * 10 ^ 10) (100 * 10 ^ 10) (100 * 10 ^ 10))
                                  (2 * 10 ^ 10) (70 * 10 ^ 10) (70 * 10 ^ 10)) no_totals /\
    fifo_ok s /\ book_ok ("P", "I") s ls /\ map lot_qty ls = [3 * 10 ^ 10; 2 * 10 ^ 10] /\
    map (fun l => ul (lot_original_quantity l)) ls = [3 * 10 ^ 10; 2 * 10 ^ 10] /\
    map lot_base ls = [100 * 10 ^ 10; 70 * 10 ^ 10] /\ map lot_local ls = [100 * 10 ^ 10; 70 * 10 ^ 10].
Proof.
  assert (Hf0 : lot_fits (wit_buy "A" 3 100) (dint 100) (dint 100) fifo_init).
  { destruct (fo_books _ fifo_init_ok ("P", "I")) as [ls Hls]. exists ls. split; [done|].
    destruct Hls as [[_ _ F _] _ _ _ _ _]. inversion F. simpl. rewrite zsum_nil, !ul_dint by lia.
    split; [by intros ?%elem_of_nil|lia]. }
  pose proof (wit_buy_input "A" 3 100 ltac:(lia) ltac:(lia) eq_refl) as Hi0.
  destruct (fo_books _ fifo_init_ok ("P", "I")) as [l0 Hl0].
  destruct (fifo_add_buy_lot (wit_buy "A" 3 100) fifo_init) as [[[]|e] s1] eqn:E1; [|vm_compute in E1; discriminate E1].
  pose proof (history_buy ("P", "I") _ _ _ _ _ _ _ s1 (history_init _) Hi0 Hf0 E1) as Hh1.
  destruct (buy_step _ _ _ _ _ s1 fifo_init_ok Hi0 Hf0 E1) as (ls0 & l & Hok1 & Hb0 & Hb1 & Q1 & L1 & B1 & O1 & _).
  assert (ls0 = []) as -> by (destruct Hb0 as [[_ _ F _] _ _ _ _ _]; by inversion F).
  pose proof (wit_buy_input "B" 2 70 ltac:(lia) ltac:(lia) eq_refl) as Hi1.
  simpl in Q1. rewrite ul_dint in Q1, L1, B1 by lia.
  assert (Hf1 : lot_fits (wit_buy "B" 2 70) (dint 70) (dint 70) s1).
  { exists [l]. split; [done|]. simpl. rewrite !zsum_cons, !zsum_nil, Q1, L1, B1, !ul_dint by lia. split; [|lia].
    destruct Hb1 as [[_ _ F _] _ _ _ _ _]. vm_compute in E1. injection E1 as <-. apply Forall2_cons_inv_r in F as (r & rs & Hr & _ & E).
    vm_compute in E. injection E as <- <-. injection Hr as <-. apply (bool_decide_unpack _). by vm_compute. }
  destruct (fifo_add_buy_lot (wit_buy "B" 2 70) s1) as [[[]|e] s2] eqn:E2.
  2: { exfalso. vm_compute in E1. injection E1 as <-. vm_compute in E2. discriminate E2. }
  pose proof (history_buy ("P", "I") _ _ _ _ _ _ _ s2 Hh1 Hi1 Hf1 E2) as Hh2.
  destruct (buy_step _ _ _ _ _ s2 Hok1 Hi1 Hf1 E2) as (ls1 & l' & Hok2 & Hb1' & Hb2 & Q2 & L2 & B2 & O2 & _).
  rewrite (book_ok_functional _ _ _ _ Hb1' Hb1) in Hb2. simpl in Q2. rewrite ul_dint in Q2 by lia.
  rewrite ul_dint in L2, B2 by lia. exists s2, [l; l'].
  split; [|split; [done|split; [done|cbn [map]; rewrite Q1, Q2, O1, O2, L1, L2, B1, B2;
    rewrite (ul_dint 3), (ul_dint 2) by lia; split_and!; reflexivity]]].
  rewrite !decide_True in Hh2 by done. cbn [ct_quantity wit_buy] in Hh2. rewrite !ul_dint in Hh2 by lia. exact Hh2.
Qed.

Lemma fifo_disposal_correct_witness :
  exists s r s', @fifo_consume_sell_quantity_with_allocations constant_hashing "P" "I" (dint 4) s = (Ok r, s') /\
    map (fun a => ul (da_consumed_quantity a)) (dr_allocations r) = [3 * 10 ^ 10; 1 * 10 ^ 10].
Proof.
  destruct (@wit_history constant_hashing constant_hashing_ok) as (s & ls & _ & _ & Hb & Hq & _).
  pose proof (@fifo_disposal_correct constant_hashing constant_hashing_ok "P" "I" (dint 4) s ls Hb (stored_dint 4 ltac:(lia))) as Hd.
  destruct Hd as (_ & _ & Hd). rewrite Hq, ul_dint in Hd by lia.
  destruct (Hd ltac:(vm_compute; split; [reflexivity|discriminate])) as (r & s' & ls' & Hrun & _ & Hdis).
  exists s, r, s'. split; [exact Hrun|]. rewrite (ds_taken _ _ _ _ _ _ _ Hdis), Hq. reflexivity.
Defined.

(** Over any history of purchases and disposals of any books, nothing is lost or created: what a
    book was given equals what its disposal receipts reported plus what its open lots still carry, in
    quantity and in both currencies, to the last storage unit; the available quantity is the
    difference; and selling all of it reports exactly the cost not yet reported. *)
Theorem fifo_history_conserves `{hashing_ok : HashingOk} p i s bought sold :
  history (p, i) s bought sold ->
  fifo_ok s /\ balanced (p, i) s bought sold /\
  ul (fifo_get_available_quantity s p i) = to_quantity bought - to_quantity sold /\
  (forall q, stored q -> ul q = to_quantity bought - to_quantity sold -> 0 < ul q ->
     exists r s', fifo_consume_sell_quantity_with_allocations p i q s = (Ok r, s') /\ dr_error_reason r = None /\
       ul (dr_cost_local r) = to_local bought - to_local sold /\ ul (dr_cost_base r) = to_base bought - to_base sold /\
       ul (fifo_get_available_quantity s' p i) = 0).
Proof.
  intros Hh. destruct (history_balanced _ _ _ _ Hh) as [Hok Hbal]. split; [done|]. split; [done|].
  destruct Hbal as (ls & Hb & Eq & El & Eb). pose proof (bk_agrees _ _ _ Hb) as Ha.
  split; [unfold fifo_get_available_quantity; lia|]. intros q Sq E Hpos.
  destruct (consume_fifo_ok p i q s ls Hok Hb Sq ltac:(lia)) as (r & s' & ls' & Hrun & _ & Hb' & [D1 D2 D3 D4 D5 D6 D7 D8 DS D9 D10 D11] & _).
  assert (ls' = []) as ->.
  { assert (HO : Forall (fun x => 0 < x) (map lot_qty ls)).
    { apply Forall_fmap. eapply Forall_impl; [exact (qv_open _ _ _ _ (bk_view _ _ _ Hb))|]. by intros l [_ ? _ _]. }
    replace (ul q) with (zsum (map lot_qty ls)) in D5 by lia. rewrite fifo_left_all in D5 by done. by destruct ls'. }
  simpl in D6, D7. rewrite zsum_nil in D6, D7. exists r, s'. split; [done|]. split; [done|].
  split; [lia|]. split; [lia|]. unfold fifo_get_available_quantity. lia.
Qed.

Lemma fifo_history_conserves_witness :
  exists s r s', @fifo_consume_sell_quantity_with_allocations constant_hashing "P" "I" (dint 5) s = (Ok r, s') /\
    ul (dr_cost_base r) = 170 * 10 ^ 10.
Proof.
  destruct (@wit_history constant_hashing constant_hashing_ok) as (s & ls & Hh & _).
  destruct (@fifo_history_conserves constant_hashing constant_hashing_ok "P" "I" s _ _ Hh) as (_ & _ & _ & Hd).
  destruct (Hd (dint 5) (stored_dint 5 ltac:(lia)) ltac:(vm_compute; reflexivity) ltac:(vm_compute; reflexivity))
    as (r & s' & Hrun & _ & _ & Hc & _).
  exists s, r, s'. split; [exact Hrun|]. rewrite Hc. reflexivity.
Defined.

(** A purchase becomes a lot or is refused, with the state untouched when it is refused.  Missing
    costs, a quantity that is not positive (unless quantity and costs are all zero, which adds
    nothing) and negative costs raise; otherwise, in a book with room, one lot enters at the end of
    the queue, its carrying cost is the booked cost exactly although it is kept as cost per share,
    the lot is found under its transaction id, and every book of the state stays in order. *)
Theorem fifo_add_lot_correct t s :
  fifo_ok s ->
  (ct_net_cost t = None \/ ct_net_cost_local t = None -> exists e, fifo_add_buy_lot t s = (Raise (ValueError e), s)) /\
  (forall nc ncl, ct_net_cost t = Some nc -> ct_net_cost_local t = Some ncl ->
     stored (ct_quantity t) -> stored nc -> stored ncl ->
     (ul (ct_quantity t) = 0 -> ul nc = 0 -> ul ncl = 0 -> fifo_add_buy_lot t s = (Ok tt, s)) /\
     (ul (ct_quantity t) < 0 \/ (ul (ct_quantity t) = 0 /\ (ul nc <> 0 \/ ul ncl <> 0)) \/ ul nc < 0 \/ ul ncl < 0 ->
        exists e, fifo_add_buy_lot t s = (Raise (ValueError e), s))) /\
  (forall nc ncl original, lot_input t nc ncl original -> lot_fits t nc ncl s ->
     exists s' ls l, fifo_add_buy_lot t s = (Ok tt, s') /\ fifo_ok s' /\
       book_ok (ct_portfolio_id t, ct_instrument_id t) s ls /\
       book_ok (ct_portfolio_id t, ct_instrument_id t) s' (ls ++ [l])%list /\
       lot_qty l = ul (ct_quantity t) /\ lot_local l = ul ncl /\ lot_base l = ul nc /\
       exists r, od_get (ct_transaction_id t) (fs_lots_by_transaction_id s') = Some r /\ fs_heap s' !! r = Some l).
Proof.
  intros Hok. split; [|split].
  - intros H. unfold fifo_add_buy_lot, validated_buy_lot_inputs. destruct (ct_net_cost t), (ct_net_cost_local t);
      try by eexists. by destruct H.
  - intros nc ncl E1 E2 Sq Sn Sl. unfold fifo_add_buy_lot, validated_buy_lot_inputs. rewrite E1, E2.
    unfold should_skip_empty_buy_lot, validate_non_negative_buy_lot_cost_basis.
    rewrite (stored_dltb _ _ stored_dzero Sq), (stored_deqb _ _ Sq stored_dzero), (stored_deqb _ _ Sn stored_dzero),
      (stored_deqb _ _ Sl stored_dzero), (stored_dleb _ _ stored_dzero Sn), (stored_dleb _ _ stored_dzero Sl), ul_dzero.
    split; [by intros -> -> ->|]. intros H.
    destruct (Z.ltb_spec 0 (ul (ct_quantity t))).
    + cbn [mbind result_bind]. destruct (Z.leb_spec 0 (ul nc)), (Z.leb_spec 0 (ul ncl)); try lia; by eexists.
    + destruct (Z.eqb_spec (ul (ct_quantity t)) 0), (Z.eqb_spec (ul nc) 0), (Z.eqb_spec (ul ncl) 0); try lia; by eexists.
  - intros nc ncl original Hi Hf. pose proof Hf as (ls & Hb & Hd & Bq & Bl & Bb).
    destruct (add_run t nc ncl original s ls Hi Hb Bq) as (local & base & total & Hrun & Ho & El & Eb & St & Et).
    eexists _, ls, _. split; [exact Hrun|]. split; [eapply added_fifo_ok; try done; lia|]. split; [done|].
    split; [eapply added_same_book; try done; lia|]. repeat (split; [done|]).
    exists (length (fs_heap s)). split; [apply od_get_set|]. simpl. by apply list_lookup_middle.
Qed.

Lemma fifo_add_lot_correct_witness :
  exists s ls l, fifo_add_buy_lot (wit_buy "A" 3 100) fifo_init = (Ok tt, s) /\
    book_ok ("P", "I") s (ls ++ [l])%list /\ lot_base l = ul (dint 100).
Proof.
  destruct (proj2 (proj2 (fifo_add_lot_correct (wit_buy "A" 3 100) fifo_init fifo_init_ok)) (dint 100) (dint 100) (dint 3)
    (wit_buy_input "A" 3 100 ltac:(lia) ltac:(lia) eq_refl)) as (s & ls & l & Hrun & _ & _ & Hb & _ & _ & Hl & _).
  { destruct (fo_books _ fifo_init_ok ("P", "I")) as [ls Hls]. exists ls. split; [exact Hls|].
    destruct Hls as [[_ _ F _] _ _ _ _ _]. inversion F. simpl. rewrite zsum_nil, !ul_dint by lia.
    split; [by intros ?%elem_of_nil|lia]. }
  exists s, ls, l. split; [exact Hrun|]. split; [exact Hb|exact Hl].
Defined.
