(* ===== verification/FifoBook.v ===== *)
(** * Restatement and basis transfer of a FIFO book

    Correctness of [fifo_restate_lot_quantities] and [fifo_transfer_basis_out_with_allocations]: what a
    corporate action does to the lots of one book, and that it does it to the whole book or not at
    all. *)

From Stdlib Require Import ZArith Lia QArith String.
From stdpp Require Import base tactics list sets strings.
From S2P Require Import Prelude PyDecimal DecimalFacts PyTime Precision Lineage Transactions Lots CostBasis Fifo.

#[local] Open Scope string_scope.
#[local] Open Scope Z_scope.

#[local] Notation policy := COST_BASIS_STATE_LEDGER_OUTPUT_V1.

(** ** Read-only passes *)

(** A pass that only reads the lots of a queue is a pure map over them. *)
Lemma st_map_read {B} (f : lot_ref -> st FifoState B) (g : lot_ref * CostLot -> result B) s refs ls :
  (forall r l, fs_heap s !! r = Some l -> f r s = (g (r, l), s)) ->
  Forall2 (fun r l => fs_heap s !! r = Some l) refs ls ->
  st_map f refs s = (mapR g (combine refs ls), s).
Proof.
  intros Hf. induction 1 as [|r l refs ls Hr HF IH]; [done|]. cbn [st_map combine mapR].
  unfold mbind at 1, st_bind at 1. rewrite (Hf r l Hr). destruct (g (r, l)) as [b|e]; [|done].
  unfold mbind at 1, st_bind at 1. rewrite IH. by destruct (mapR g (combine refs ls)).
Qed.

Lemma deref_all_run s refs ls :
  Forall2 (fun r l => fs_heap s !! r = Some l) refs ls -> deref_all refs s = (Ok ls, s).
Proof.
  intros HF. unfold deref_all. rewrite (st_map_read _ (fun p => Ok (snd p)) s refs ls); [|by apply deref_Some|done].
  f_equal. induction HF as [|r l refs ls Hr HF IH]; [done|]. cbn [combine mapR]. by rewrite IH.
Qed.

(** ** Restatement *)

Definition propose_lot (restatement : LotRestatement) (p : lot_ref * CostLot) : result ProposedRestatement :=
  original ← lr_apply restatement (lot_original_quantity (snd p)) "original_quantity";
  open_quantity ← lr_apply restatement (lot_remaining_quantity (snd p)) "open_quantity";
  state ← open_state (snd p);
  Ok {| pr_ref := fst p; pr_original_quantity := original; pr_open_quantity := open_quantity; pr_state_before := state |}.

Lemma propose_run restatement s r l :
  fs_heap s !! r = Some l -> propose restatement r s = (propose_lot restatement (r, l), s).
Proof.
  intros Hr. unfold propose. rewrite (st_bind_run _ _ _ _ _ (deref_Some _ _ _ Hr)). unfold propose_lot, st_lift, mbind, st_bind. cbn [fst snd].
  destruct (lr_apply restatement _ "original_quantity") as [o|]; [|done]. cbn [result_bind].
  destruct (lr_apply restatement _ "open_quantity") as [q|]; [|done]. cbn [result_bind].
  by destruct (open_state l).
Qed.

(** [l'] is [l] with its quantities scaled by [after / before] and its costs unchanged. *)
Record restated (before after : Z) (l l' : CostLot) : Prop := {
  rs_lot_id : lot_lot_id l' = lot_lot_id l;
  rs_transaction_id : lot_transaction_id l' = lot_transaction_id l;
  rs_open : open_lot l';
  rs_quantity : lot_qty l' * before = lot_qty l * after;
  rs_original : ul (lot_original_quantity l') * before = ul (lot_original_quantity l) * after;
  rs_local : lot_local l' = lot_local l;
  rs_base : lot_base l' = lot_base l
}.

Lemma apply_proposed_run restatement nb na s r l p :
  restates restatement nb na -> fs_heap s !! r = Some l -> open_lot l -> propose_lot restatement (r, l) = Ok p ->
  pr_ref p = r /\ exists l', apply_proposed p s = (Ok tt, set_heap (<[r := l']> (fs_heap s)) s) /\ restated nb na l l'.
Proof.
  intros Hrs Hr [Hv Hpos I1 I2] Hp. unfold propose_lot in Hp. cbn [fst snd] in Hp. pose proof (lv_range l Hv) as Hrg.
  pose proof Hrs as (_ & _ & Pb & Pa & _).
  apply bind_Ok in Hp as (o & Ho & (q & Hq & (st & Hst & [= <-])%bind_Ok)%bind_Ok).
  pose proof (lr_apply_spec _ nb na _ _ "original_quantity" Hrs (lv_original l Hv) ltac:(lia)) as H1. rewrite Ho in H1.
  destruct H1 as (ko & Eo & Lo). pose proof (ledger_ul _ _ Lo) as Uo. apply ledger_stored in Lo.
  pose proof (lr_apply_spec _ nb na _ _ "open_quantity" Hrs (lv_remaining l Hv) ltac:(unfold lot_qty in *; lia)) as H2. rewrite Hq in H2.
  destruct H2 as (kq & Eq & Lq). pose proof (ledger_ul _ _ Lq) as Uq. apply ledger_stored in Lq. fold (lot_qty l) in Eq.
  destruct (open_state_valid l Hv) as (st' & Hst' & _ & _ & Sl & El & Pl & Sb & Eb & Pb').
  rewrite Hst in Hst'. injection Hst' as <-.
  assert (Hkq : 0 < ul q <= ul o) by nia.
  destruct (priced_total (ol_cost_local st) q Sl ltac:(lia) Lq ltac:(lia)) as [ulc Hul].
  destruct (priced_total (ol_cost_base st) q Sb ltac:(lia) Lq ltac:(lia)) as [ubc Hub].
  destruct (priced _ _ _ Sl ltac:(lia) Lq ltac:(lia) Hul) as [Cl Fl].
  destruct (priced _ _ _ Sb ltac:(lia) Lq ltac:(lia) Hub) as [Cb Fb].
  split; [done|]. exists (with_unit_costs ulc ubc (with_quantities o q l)). split.
  - unfold apply_proposed. cbn [pr_ref pr_original_quantity pr_open_quantity pr_state_before].
    rewrite (st_bind_run _ _ _ _ _ (deref_Some _ _ _ Hr)). unfold assign. rewrite st_modify_run.
    rewrite (st_lift_run _ _ _ _ Hul), st_modify_run, (st_lift_run _ _ _ _ Hub). unfold st_modify, set_heap; simpl.
    by rewrite !list_insert_insert_eq.
  - constructor; [done|done| |change (ul q * nb = lot_qty l * na); lia|simpl; lia
                 |change (product_units q ulc = lot_local l); lia|change (product_units q ubc = lot_base l); lia].
    constructor; try done; unfold lot_qty; simpl; [|lia]. constructor; unfold lot_qty; simpl; done || lia.
Qed.

Lemma apply_all_run restatement nb na refs : forall ls ps s,
  restates restatement nb na -> NoDup refs -> Forall2 (fun r l => fs_heap s !! r = Some l) refs ls -> Forall open_lot ls ->
  mapR (propose_lot restatement) (combine refs ls) = Ok ps ->
  exists h ls', st_iter apply_proposed ps s = (Ok tt, set_heap h s) /\ length h = length (fs_heap s) /\
    (forall r, r ∉ refs -> h !! r = fs_heap s !! r) /\
    Forall2 (fun r l => h !! r = Some l) refs ls' /\ Forall2 (restated nb na) ls ls'.
Proof.
  induction refs as [|r refs IH]; intros ls ps s Hrs Hnd HF HO Hps; inversion HF as [|? l ? ls0 Hr HF0]; subst.
  - injection Hps as <-. exists (fs_heap s), []. split; [by destruct s|]. done.
  - cbn [combine mapR] in Hps. apply bind_Ok in Hps as (p & Hp & (ps0 & Hps0 & [= <-])%bind_Ok).
    apply Forall_cons in HO as [Hol HO]. apply NoDup_cons in Hnd as [Hnr Hnd].
    destruct (apply_proposed_run restatement nb na s r l p Hrs Hr Hol Hp) as (_ & l' & Hrun & Hl').
    destruct (IH ls0 ps0 (set_heap (<[r := l']> (fs_heap s)) s) Hrs Hnd) as (h & ls' & Hrun' & Hlen & Hfr & HF' & HR); try done.
    { by apply heap_update_view. }
    exists h, (l' :: ls'). cbn [st_iter]. rewrite (st_bind_run _ _ _ _ _ Hrun). split; [by rewrite Hrun'|].
    simpl in *. rewrite length_insert in Hlen. split; [done|]. split.
    { intros x Hx. rewrite Hfr by set_solver. apply list_lookup_insert_ne. set_solver. }
    split; [|by constructor]. constructor; [|done]. rewrite Hfr by done.
    apply list_lookup_insert_eq. by apply lookup_lt_Some in Hr.
Qed.

Lemma restated_sums nb na ls ls' :
  0 < nb -> Forall2 (restated nb na) ls ls' ->
  zsum (map lot_qty ls') * nb = zsum (map lot_qty ls) * na /\
  zsum (map lot_local ls') = zsum (map lot_local ls) /\ zsum (map lot_base ls') = zsum (map lot_base ls) /\
  map (fun l => strip (lot_lot_id l)) ls' = map (fun l => strip (lot_lot_id l)) ls /\ Forall open_lot ls'.
Proof.
  intros Hn. induction 1 as [|l l' ls ls' [R1 R2 R3 R4 R5 R6 R7] HR (I1 & I2 & I3 & I4 & I5)]; [done|].
  cbn [map]. rewrite !zsum_cons, R1, I4. repeat (split; [done || lia|]). by constructor.
Qed.

(** Replacing the lots of one book and its aggregate. *)
Lemma book_replaced key s h d ls' :
  fifo_ok s -> length h = length (fs_heap s) -> (forall r, r ∉ book key s -> h !! r = fs_heap s !! r) ->
  Forall2 (fun r l => h !! r = Some l) (book key s) ls' -> Forall open_lot ls' ->
  stored d -> ul d = zsum (map lot_qty ls') -> NoDup (map (fun l => strip (lot_lot_id l)) ls') ->
  zsum (map lot_local ls') < 10 ^ 18 -> zsum (map lot_base ls') < 10 ^ 18 ->
  fifo_ok (set_available key d (set_heap h s)) /\ book_ok key (set_available key d (set_heap h s)) ls'.
Proof.
  intros [HB HD] Hlen Hfr HF HO Sd Ed Hnd Bl Bb.
  assert (Hk : book_ok key (set_available key d (set_heap h s)) ls').
  { destruct (HB key) as (ls & [[_ N _ _] _ _ _ _ _]). constructor; rewrite ?available_set; done || by constructor. }
  split; [|done]. constructor; [|exact HD].
  intros k. destruct (decide (k = key)) as [->|Hne]; [by exists ls'|]. destruct (HB k) as (lk & Hlk). exists lk.
  eapply book_ok_frame; [done| |by apply HD|done]. by constructor.
Qed.

(** A lot whose quantities scale to storable quantities gets a proposal. *)
Definition restatable (before after : Z) (l : CostLot) : Prop :=
  exists original open, original * before = ul (lot_original_quantity l) * after /\ original < 10 ^ 18 /\
    open * before = lot_qty l * after.

Lemma lr_apply_total r nb na q k f :
  restates r nb na -> stored q -> 0 <= ul q -> k * nb = ul q * na -> k < 10 ^ 18 -> is_ok (lr_apply r q f) = true.
Proof.
  intros Hrs Sq Pq Hk Hlt. pose proof Hrs as (_ & _ & Pb & _). pose proof (lr_apply_spec r nb na q _ f Hrs Sq Pq) as H.
  destruct (lr_apply r q f); [done|]. destruct H as [[_ H]|[_ (k' & Hk' & Hge)]]; [by destruct (H k)|nia].
Qed.

Lemma propose_lot_total r nb na x l :
  restates r nb na -> open_lot l -> restatable nb na l -> exists p, propose_lot r (x, l) = Ok p.
Proof.
  intros Hrs [Hv Hpos _ _] (k & k' & E1 & B1 & E2). pose proof Hrs as (_ & _ & Pb & Pa & _). pose proof (lv_range l Hv) as Hrg.
  pose proof (lr_apply_total r nb na _ k "original_quantity" Hrs (lv_original l Hv) ltac:(lia) E1 B1) as H1.
  pose proof (lr_apply_total r nb na _ k' "open_quantity" Hrs (lv_remaining l Hv) ltac:(unfold lot_qty in *; lia) E2 ltac:(nia)) as H2.
  unfold propose_lot. cbn [fst snd].
  destruct (lr_apply r (lot_original_quantity l) "original_quantity"); [|done]. cbn [mbind result_bind].
  destruct (lr_apply r (lot_remaining_quantity l) "open_quantity"); [|done]. cbn [mbind result_bind].
  destruct (open_state_valid l Hv) as (o & -> & _). by eexists.
Qed.

Lemma propose_total r nb na refs ls :
  restates r nb na -> length refs = length ls -> Forall open_lot ls -> Forall (restatable nb na) ls ->
  exists ps, mapR (propose_lot r) (combine refs ls) = Ok ps.
Proof.
  intros Hrs. revert refs. induction ls as [|l ls IH]; intros [|x refs] Hlen HO HR; try done; [by eexists|].
  apply Forall_cons in HO as [Ho HO], HR as [Hl HR]. injection Hlen as Hlen.
  destruct (IH refs Hlen HO HR) as [ps Hps]. destruct (propose_lot_total r nb na x l Hrs Ho Hl) as [p Hp].
  exists (p :: ps). cbn [combine mapR]. by rewrite Hp, Hps.
Qed.

Lemma restate_success key s ls delta :
  book_ok key s ls -> stored delta -> ul delta <> 0 -> 0 < ul (available key s) -> 0 < ul (available key s) + ul delta < 10 ^ 18 ->
  Forall (restatable (ul (available key s)) (ul (available key s) + ul delta)) ls ->
  exists r s', fifo_restate_lot_quantities (fst key) (snd key) delta s = (Ok r, s').
Proof.
  intros [[_ N F O] Sa Ag D Bl Bb] Sd Hd Hpa Ha HR. unfold fifo_restate_lot_quantities. rewrite <- surjective_pairing, st_get_run.
  destruct (ambient_add _ _ Sa Sd ltac:(lia)) as (after & Hafter & Sf & Ef). unfold from_signed_delta. rewrite Hafter.
  cbn [mbind result_bind]. rewrite (make_LotRestatement_Ok _ _ Sa Sf) by lia.
  erewrite st_lift_run by done. set (r := {| lr_quantity_before := _; lr_quantity_after := _ |}).
  rewrite <- Ef in HR. assert (Hrs : restates r (ul (available key s)) (ul after)) by (repeat (split; [done || lia|]); lia).
  destruct (propose_total r _ _ (book key s) ls Hrs (Forall2_length _ _ _ F) O HR) as [ps Hps].
  unfold mbind at 1, st_bind at 1. rewrite (st_map_read _ _ s _ _ (propose_run r s) F), Hps.
  destruct (apply_all_run r _ _ _ ls ps s Hrs N F O Hps) as (h & ls' & Hrun & _).
  rewrite (st_bind_run _ _ _ _ _ Hrun), st_modify_run. by eexists _, _.
Qed.

(** ** Basis transfer *)

Lemma sum_open_costs_run (cost : OpenLotState -> decimal) (units_of : CostLot -> Z) ls :
  (forall l, lot_valid l -> exists o, open_state l = Ok o /\ stored (cost o) /\ ul (cost o) = units_of l /\ 0 <= units_of l) ->
  Forall lot_valid ls -> zsum (map units_of ls) < 10 ^ 18 ->
  exists d, sum_open_costs cost ls = Ok d /\ stored d /\ ul d = zsum (map units_of ls).
Proof.
  intros Hc HF Hb. unfold sum_open_costs.
  assert (Hgen : forall acc, stored acc -> 0 <= ul acc -> ul acc + zsum (map units_of ls) < 10 ^ 18 ->
    exists d, foldM (fun acc l => state ← open_state l; dadd default_context acc (cost state)) acc ls = Ok d /\
      stored d /\ ul d = ul acc + zsum (map units_of ls)).
  { clear Hb. induction HF as [|l ls Hl HF IH]; intros acc Sa Pa Hb; cbn [map foldM] in *; rewrite ?zsum_nil, ?zsum_cons in *.
    { exists acc. split; [done|]. split; [done|lia]. }
    destruct (Hc l Hl) as (o & -> & So & Eo & Po). cbn [mbind result_bind].
    assert (Hn : 0 <= zsum (map units_of ls)).
    { apply zsum_map_nonneg. eapply Forall_impl; [exact HF|]. intros x Hx. destruct (Hc x Hx) as (? & _ & _ & _ & ?). done. }
    destruct (ambient_add acc (cost o) Sa So ltac:(lia)) as (acc' & -> & Sa' & Ea'). cbn [mbind result_bind].
    destruct (IH acc' Sa' ltac:(lia) ltac:(lia)) as (d & Hd & Sd & Ed). exists d. split; [done|]. split; [done|lia]. }
  destruct (Hgen dzero stored_dzero) as (d & Hd & Sd & Ed); rewrite ?ul_dzero in *; try lia. exists d. split; [done|]. split; [done|lia].
Qed.

Lemma open_base l : lot_valid l ->
  exists o, open_state l = Ok o /\ stored (ol_cost_base o) /\ ul (ol_cost_base o) = lot_base l /\ 0 <= lot_base l.
Proof. intros Hl. destruct (open_state_valid l Hl) as (o & Ho & _ & _ & _ & _ & _ & ? & ? & ?). by exists o. Qed.

Lemma open_local l : lot_valid l ->
  exists o, open_state l = Ok o /\ stored (ol_cost_local o) /\ ul (ol_cost_local o) = lot_local l /\ 0 <= lot_local l.
Proof. intros Hl. destruct (open_state_valid l Hl) as (o & Ho & _ & _ & ? & ? & ? & _). by exists o. Qed.

Lemma open_refs_all refs ls : length refs = length ls -> Forall open_lot ls -> open_refs refs ls = refs.
Proof.
  unfold open_refs. revert refs. induction ls as [|l ls IH]; intros [|r refs] Hlen HO; try done.
  apply Forall_cons in HO as [[Hv Hpos _ _] HO]. injection Hlen as Hlen. cbn [combine List.filter snd].
  rewrite (stored_dltb _ _ stored_dzero (lv_remaining l Hv)), ul_dzero, (proj2 (Z.ltb_lt _ _)) by exact Hpos.
  cbn [map fst]. by rewrite IH.
Qed.

(** The share of a lot in what the book retains: within its own cost and within what is left. *)
Lemma share_spec c remaining total allocated f :
  stored c -> 0 <= ul c -> stored remaining -> stored total -> 0 <= ul remaining <= ul total -> 0 < ul total ->
  stored allocated -> 0 <= ul allocated <= ul remaining ->
  exists raw d, scaled_cost c remaining total = Ok raw /\
    allocate_nonnegative_storage_share raw remaining allocated f = Ok d /\
    stored d /\ 0 <= ul d <= ul c /\ ul d <= ul remaining - ul allocated.
Proof.
  intros Sc Pc Sr St Hr Ht Sa Ha.
  destruct (proportional_share (cp_name policy) c _ remaining _ total _ Sc Pc Sr St Hr Ht) as (p & w & Hp & Hw & _ & Hb).
  exists w. change (dmul (arithmetic_context policy) c remaining = Ok p) in Hp.
  change (ddiv (arithmetic_context policy) p total = Ok w) in Hw. change (0 <= ul w <= ul c) in Hb.
  unfold scaled_cost. rewrite Hp. cbn [mbind result_bind].
  destruct (normalize_total policy (ledger_policy_wf _) w f) as [Hn _].
  destruct Hn as (n & Hn & Hu); [change (Z.abs (ul w) < 10 ^ 18); destruct Sc; lia|].
  assert (Ln : ledger n (ul w)) by (split; [exact Hu|destruct Sc; lia]). pose proof (ledger_ul _ _ Ln) as En. apply ledger_stored in Ln.
  destruct (cost_sub_total remaining allocated ("unallocated_" +:+ f) Sr Sa) as (left & Hleft & Sl & El); [destruct Sr; lia|].
  unfold allocate_nonnegative_storage_share. rewrite Hn. cbn [mbind result_bind]. rewrite Hleft. cbn [mbind result_bind].
  rewrite (stored_dltb _ _ Ln stored_dzero), (stored_dltb _ _ Sl stored_dzero), ul_dzero, !(proj2 (Z.ltb_ge _ _)) by lia.
  cbn [orb raise_if mbind result_bind]. exists (dmin n left). split; [done|]. split; [done|].
  pose proof (ledger_min _ _ _ _ Ln Sl) as Hm. rewrite (ledger_ul _ _ Hm). split; [by eapply ledger_stored|]. lia.
Qed.

(** [l'] is [l] with other costs. *)
Record recosted (l l' : CostLot) (local base : Z) : Prop := {
  rc_lot_id : lot_lot_id l' = lot_lot_id l;
  rc_transaction_id : lot_transaction_id l' = lot_transaction_id l;
  rc_acquisition_date : lot_acquisition_date l' = lot_acquisition_date l;
  rc_open : open_lot l';
  rc_quantity : lot_remaining_quantity l' = lot_remaining_quantity l;
  rc_original : lot_original_quantity l' = lot_original_quantity l;
  rc_local : lot_local l' = local;
  rc_base : lot_base l' = base
}.

Lemma assign_costs_run s r l cb cl :
  fs_heap s !! r = Some l -> open_lot l -> stored cb -> 0 <= ul cb -> stored cl -> 0 <= ul cl ->
  exists l', assign_fifo_lot_costs r cb cl s = (Ok tt, set_heap (<[r := l']> (fs_heap s)) s) /\ recosted l l' (ul cl) (ul cb).
Proof.
  intros Hr [Hv Hpos I1 I2] Sb Pb Sl Pl. pose proof (lv_remaining l Hv) as Sq. unfold lot_qty in Hpos.
  destruct (priced_total cb _ Sb Pb Sq Hpos) as [ub Hub]. destruct (priced_total cl _ Sl Pl Sq Hpos) as [uc Huc].
  destruct (priced _ _ _ Sb Pb Sq Hpos Hub) as [Cb Eb]. destruct (priced _ _ _ Sl Pl Sq Hpos Huc) as [Cl El].
  exists (with_unit_costs uc ub l). split.
  - unfold assign_fifo_lot_costs. rewrite (st_bind_run _ _ _ _ _ (deref_Some _ _ _ Hr)), (st_lift_run _ _ _ _ Hub).
    unfold assign. rewrite st_modify_run. cbn [lot_remaining_quantity with_unit_costs]. rewrite (st_lift_run _ _ _ _ Huc).
    unfold st_modify, set_heap; simpl. by rewrite list_insert_insert_eq.
  - constructor; try done. constructor; try done. destruct Hv. by constructor.
Qed.

(** The lots of a book after its costs have been redistributed. *)
Record redistributed (ls ls' : list CostLot) (local base : Z) : Prop := {
  rd_lots : Forall2 (fun l l' => recosted l l' (lot_local l') (lot_base l')) ls ls';
  rd_local : zsum (map lot_local ls') = local;
  rd_base : zsum (map lot_base ls') = base;
  rd_shrunk : forall k l l', (S k < length ls)%nat -> ls !! k = Some l -> ls' !! k = Some l' ->
    lot_local l' <= lot_local l /\ lot_base l' <= lot_base l
}.

Lemma redistributed_last l l' local base : recosted l l' local base -> redistributed [l] [l'] local base.
Proof.
  intros H. pose proof (rc_local _ _ _ _ H) as El. pose proof (rc_base _ _ _ _ H) as Eb.
  constructor; cbn [map]; rewrite ?zsum_cons, ?zsum_nil; try lia.
  - constructor; [|done]. by rewrite El, Eb.
  - intros k x x' Hk. simpl in Hk. lia.
Qed.

Lemma redistributed_cons l l' ls ls' a b local base :
  recosted l l' a b -> a <= lot_local l -> b <= lot_base l -> redistributed ls ls' local base ->
  redistributed (l :: ls) (l' :: ls') (a + local) (b + base).
Proof.
  intros H Ha Hb [R1 R2 R3 R4]. pose proof (rc_local _ _ _ _ H) as El. pose proof (rc_base _ _ _ _ H) as Eb.
  constructor; cbn [map]; rewrite ?zsum_cons; try lia.
  - constructor; [by rewrite El, Eb|done].
  - intros [|k] x x' Hk Hx Hx'; simpl in *; [simplify_eq; lia|]. apply (R4 k); [lia|done|done].
Qed.

Lemma transfer_loop_run tb tl rb rl :
  stored tb -> stored tl -> stored rb -> stored rl -> 0 < ul tb -> 0 < ul tl -> 0 <= ul rb <= ul tb -> 0 <= ul rl <= ul tl ->
  forall refs ls s ab al, refs <> [] -> NoDup refs -> Forall2 (fun r l => fs_heap s !! r = Some l) refs ls -> Forall open_lot ls ->
  stored ab -> stored al -> 0 <= ul ab <= ul rb -> 0 <= ul al <= ul rl ->
  exists h ls', allocate_transfer_loop refs tb tl rb rl ab al s = (Ok tt, set_heap h s) /\ length h = length (fs_heap s) /\
    (forall r, r ∉ refs -> h !! r = fs_heap s !! r) /\ Forall2 (fun r l => h !! r = Some l) refs ls' /\
    redistributed ls ls' (ul rl - ul al) (ul rb - ul ab).
Proof.
  intros Stb Stl Srb Srl Ptb Ptl Hrb Hrl. induction refs as [|r refs IH]; intros ls s ab al Hne Hnd HF HO Sab Sal Hab Hal; [done|].
  inversion HF as [|? l ? ls0 Hr HF0]; subst. apply NoDup_cons in Hnd as [Hnr Hnd]. apply Forall_cons in HO as [Ho HO].
  destruct refs as [|r' refs].
  - inversion HF0; subst. cbn [allocate_transfer_loop].
    destruct (cost_sub_total rb ab "open_cost_base" Srb Sab) as (cb & Hcb & Scb & Ecb); [destruct Srb; lia|].
    destruct (cost_sub_total rl al "open_cost_local" Srl Sal) as (cl & Hcl & Scl & Ecl); [destruct Srl; lia|].
    rewrite (st_lift_run _ _ _ _ Hcb), (st_lift_run _ _ _ _ Hcl).
    destruct (assign_costs_run s r l cb cl Hr Ho Scb ltac:(lia) Scl ltac:(lia)) as (l' & -> & Hrc). rewrite Ecb, Ecl in Hrc.
    exists (<[r := l']> (fs_heap s)), [l']. split; [done|]. rewrite length_insert. split; [done|].
    split; [intros x Hx; apply list_lookup_insert_ne; set_solver|].
    split; [constructor; [|done]; apply list_lookup_insert_eq; by apply lookup_lt_Some in Hr|by apply redistributed_last].
  - destruct (open_state_valid l (op_valid l Ho)) as (o & Hst & _ & _ & Sl & El & Pl & Sb & Eb & Pb).
    destruct (share_spec (ol_cost_base o) rb tb ab "open_cost_base") as (rawb & nb & Hrawb & Hnb & Snb & Bnb & Bnb'); try done; [lia|].
    destruct (share_spec (ol_cost_local o) rl tl al "open_cost_local") as (rawl & nl & Hrawl & Hnl & Snl & Bnl & Bnl'); try done; [lia|].
    destruct (assign_costs_run s r l nb nl Hr Ho Snb ltac:(lia) Snl ltac:(lia)) as (l' & Hasg & Hrc).
    destruct (cost_add_total ab nb "allocated_cost_base" Sab Snb) as (ab' & Hab' & Sab' & Eab'); [destruct Srb; lia|].
    destruct (cost_add_total al nl "allocated_cost_local" Sal Snl) as (al' & Hal' & Sal' & Eal'); [destruct Srl; lia|].
    destruct (IH ls0 (set_heap (<[r := l']> (fs_heap s)) s) ab' al') as (h & ls' & Hrun & Hlen & Hfr & HF' & HR); try done; try lia.
    { by apply heap_update_view. }
    exists h, (l' :: ls'). split; [|simpl in Hlen, Hfr; rewrite length_insert in Hlen; split; [done|split; [|split]]].
    + change (allocate_transfer_loop (r :: r' :: refs) tb tl rb rl ab al s) with
        ((l ← deref r; state ← st_lift (open_state l);
          raw_next_base ← st_lift (scaled_cost (ol_cost_base state) rb tb);
          raw_next_local ← st_lift (scaled_cost (ol_cost_local state) rl tl);
          next_base ← st_lift (allocate_nonnegative_storage_share raw_next_base rb ab "open_cost_base");
          next_local ← st_lift (allocate_nonnegative_storage_share raw_next_local rl al "open_cost_local");
          _ ← assign_fifo_lot_costs r next_base next_local;
          ab ← st_lift (p_add policy ab (Finite next_base) "allocated_cost_base");
          al ← st_lift (p_add policy al (Finite next_local) "allocated_cost_local");
          allocate_transfer_loop (r' :: refs) tb tl rb rl ab al) s).
      rewrite (st_bind_run _ _ _ _ _ (deref_Some _ _ _ Hr)), (st_lift_run _ _ _ _ Hst), (st_lift_run _ _ _ _ Hrawb),
        (st_lift_run _ _ _ _ Hrawl), (st_lift_run _ _ _ _ Hnb), (st_lift_run _ _ _ _ Hnl), (st_bind_run _ _ _ _ _ Hasg),
        (st_lift_run _ _ _ _ Hab'), (st_lift_run _ _ _ _ Hal').
      exact Hrun.
    + intros x Hx. rewrite Hfr by set_solver. apply list_lookup_insert_ne. set_solver.
    + constructor; [|done]. rewrite Hfr by done. apply list_lookup_insert_eq. by apply lookup_lt_Some in Hr.
    + replace (ul rl - ul al) with (ul nl + (ul rl - ul al')) by lia. replace (ul rb - ul ab) with (ul nb + (ul rb - ul ab')) by lia.
      apply redistributed_cons; [done|lia|lia|done].
Qed.

(** When a basis transfer is accepted. *)
Definition transferable (ls : list CostLot) (cl cb : Z) : Prop :=
  0 <= cb <= zsum (map lot_base ls) /\ 0 <= cl <= zsum (map lot_local ls) /\
  0 < zsum (map lot_base ls) /\ 0 < zsum (map lot_local ls).

Lemma book_totals key s ls :
  book_ok key s ls ->
  exists tb tl, sum_open_costs ol_cost_base ls = Ok tb /\ stored tb /\ ul tb = zsum (map lot_base ls) /\
    sum_open_costs ol_cost_local ls = Ok tl /\ stored tl /\ ul tl = zsum (map lot_local ls).
Proof.
  intros [[_ _ _ O] _ _ _ Bl Bb].
  assert (Hv : Forall lot_valid ls) by (eapply Forall_impl; [exact O|]; by intros l [? _ _ _]).
  destruct (sum_open_costs_run ol_cost_base lot_base ls open_base Hv Bb) as (tb & ? & ? & ?).
  destruct (sum_open_costs_run ol_cost_local lot_local ls open_local Hv Bl) as (tl & ? & ? & ?). by exists tb, tl.
Qed.

Lemma basis_transfer_error_spec key s ls cb cl :
  book_ok key s ls -> stored cb -> stored cl ->
  (transferable ls (ul cl) (ul cb) -> basis_transfer_error ls cb cl = Ok None) /\
  (~ transferable ls (ul cl) (ul cb) ->
     exists reason, basis_transfer_error ls cb cl = Ok (Some reason) /\ truthy (strip reason) = true).
Proof.
  intros Hb Sb Sl. destruct (book_totals key s ls Hb) as (tb & tl & Htb & Stb & Etb & Htl & Stl & Etl).
  unfold basis_transfer_error. rewrite Htb. cbn [mbind result_bind]. rewrite Htl. cbn [mbind result_bind]. unfold basis_transfer_amount_error.
  rewrite (stored_dltb _ _ Sb stored_dzero), (stored_dltb _ _ Sl stored_dzero), (stored_dltb _ _ Stb Sb), (stored_dltb _ _ Stl Sl),
    (stored_dleb _ _ Stb stored_dzero), (stored_dleb _ _ Stl stored_dzero), ul_dzero, Etb, Etl. unfold transferable. split.
  - intros H. by rewrite !(proj2 (Z.ltb_ge _ _)), !(proj2 (Z.leb_gt _ _)) by lia.
  - intros H.
    destruct ((ul cb <? 0) || (ul cl <? 0)) eqn:E1; [eexists; split; [done|by apply strip_truthy]|].
    destruct ((zsum (map lot_base ls) <? ul cb) || (zsum (map lot_local ls) <? ul cl)) eqn:E2;
      [eexists; split; [done|by apply strip_truthy]|].
    destruct ((zsum (map lot_base ls) <=? 0) || (zsum (map lot_local ls) <=? 0)) eqn:E3;
      [eexists; split; [done|by apply strip_truthy]|]. exfalso. lia.
Qed.

Lemma allocate_run key s ls cb cl :
  book_ok key s ls -> stored cb -> stored cl -> transferable ls (ul cl) (ul cb) ->
  exists h ls', allocate_fifo_basis_transfer (book key s) cb cl s = (Ok tt, set_heap h s) /\ length h = length (fs_heap s) /\
    (forall r, r ∉ book key s -> h !! r = fs_heap s !! r) /\ Forall2 (fun r l => h !! r = Some l) (book key s) ls' /\
    redistributed ls ls' (zsum (map lot_local ls) - ul cl) (zsum (map lot_base ls) - ul cb).
Proof.
  intros Hb Sb Sl (H1 & H2 & H3 & H4). destruct (book_totals key s ls Hb) as (tb & tl & Htb & Stb & Etb & Htl & Stl & Etl).
  destruct Hb as [[_ N F O] _ _ _ Bl Bb]. unfold allocate_fifo_basis_transfer.
  rewrite (st_bind_run _ _ _ _ _ (deref_all_run s _ _ F)), (open_refs_all _ _ (Forall2_length _ _ _ F) O).
  rewrite (st_bind_run _ _ _ _ _ (deref_all_run s _ _ F)), (st_lift_run _ _ _ _ Htb), (st_lift_run _ _ _ _ Htl).
  destruct (ambient_sub tb cb Stb Sb) as (rb & Hrb & Srb & Erb); [lia|].
  destruct (ambient_sub tl cl Stl Sl) as (rl & Hrl & Srl & Erl); [lia|].
  rewrite (st_lift_run _ _ _ _ Hrb), (st_lift_run _ _ _ _ Hrl).
  destruct (transfer_loop_run tb tl rb rl Stb Stl Srb Srl ltac:(lia) ltac:(lia) ltac:(lia) ltac:(lia) (book key s) ls s dzero dzero)
    as (h & ls' & Hrun & Hlen & Hfr & HF & HR); rewrite ?ul_dzero; try done; try apply stored_dzero; try lia.
  { intros E. rewrite E in F. apply Forall2_nil_inv_l in F as ->. cbn [map] in H3. rewrite zsum_nil in H3. lia. }
  exists h, ls'. repeat (split; [done|]). by rewrite !ul_dzero, !Z.sub_0_r, Erb, Erl, Etb, Etl in HR.
Qed.

(** The movements of the receipt. *)
Lemma movements_run ls ls' local base :
  Forall open_lot ls -> redistributed ls ls' local base ->
  exists states ms, mapR open_state ls = Ok states /\
    mapR (fun p => lot_movement (fst p) (snd p)) (combine ls' states) = Ok ms /\
    map (fun m => strip (sm_lot_id m)) ms = map (fun l => strip (lot_lot_id l)) ls /\
    zsum (map moved_local ms) = zsum (map lot_local ls) - zsum (map lot_local ls') /\
    zsum (map moved_base ms) = zsum (map lot_base ls) - zsum (map lot_base ls') /\
    (Forall2 (fun l l' => lot_local l' <= lot_local l /\ lot_base l' <= lot_base l) ls ls' -> Forall movement_ok ms).
Proof.
  intros HO [R _ _ _]. clear local base. induction R as [|l l' ls ls' H R IH]; [by exists [], []|].
  apply Forall_cons in HO as [[Hv Hpos I1 I2] HO]. destruct (IH HO) as (sts & ms & E1 & E2 & E3 & E4 & E5 & E6). clear IH.
  destruct (open_state_valid l Hv) as (o & Ho & _ & _ & Sl & El & Pl & Sb & Eb & Pb).
  destruct H as [C1 C2 C3 [Hv' Hpos' J1 J2] C5 C6 _ _].
  destruct (open_state_valid l' Hv') as (o' & Ho' & _ & Oq & Sl' & El' & Pl' & Sb' & Eb' & Pb').
  assert (Hm : exists m, lot_movement l' o = Ok m /\ sm_lot_id m = lot_lot_id l' /\ sm_transaction_id m = lot_transaction_id l' /\
    sm_before m = o /\ sm_after m = o') by (unfold lot_movement; rewrite Ho'; by eexists).
  destruct Hm as (m & Hm & M1 & M2 & M3 & M4). exists (o :: sts), (m :: ms). cbn [mapR]. rewrite Ho, E1. split; [done|].
  cbn [combine mapR fst snd]. rewrite Hm, E2. split; [done|].
  cbn [map]. rewrite !zsum_cons, E3, E4, E5, M1, C1. split; [done|].
  unfold moved_local at 1, moved_base at 1. rewrite M3, M4. split; [lia|]. split; [lia|].
  intros [[Hl Hb] HR]%Forall2_cons. constructor; [|by apply E6].
  constructor; rewrite ?M1, ?M2, ?M3, ?M4, ?Oq; try done; try lia. split; [apply Hv'|exact Hpos'].
Qed.

Lemma shrunk_all ls ls' local base :
  redistributed ls ls' local base ->
  (forall l l', last ls = Some l -> last ls' = Some l' -> lot_local l' <= lot_local l /\ lot_base l' <= lot_base l) ->
  Forall2 (fun l l' => lot_local l' <= lot_local l /\ lot_base l' <= lot_base l) ls ls'.
Proof.
  intros [R _ _ Hsh] Hlast. pose proof (Forall2_length _ _ _ R) as Hlen. apply Forall2_same_length_lookup_2; [done|].
  intros k l l' Hl Hl'. pose proof (lookup_lt_Some _ _ _ Hl) as Hk.
  destruct (decide (S k < length ls)%nat) as [|Hn]; [by eapply Hsh|].
  apply Hlast; rewrite last_lookup; [replace (pred (length ls)) with k by lia|replace (pred (length ls')) with k by lia]; done.
Qed.

Lemma redistributed_lots ls ls' local base :
  redistributed ls ls' local base ->
  Forall open_lot ls' /\ map lot_qty ls' = map lot_qty ls /\
  map (fun l => strip (lot_lot_id l)) ls' = map (fun l => strip (lot_lot_id l)) ls.
Proof.
  intros [R _ _ _]. clear local base. induction R as [|l l' ls ls' [C1 C2 C3 C4 C5 C6 _ _] R (I1 & I2 & I3)]; [done|].
  cbn [map]. rewrite I2, I3, C1. unfold lot_qty at 1. rewrite C5. split; [by constructor|done].
Qed.

(** The costs of one book change, nothing else. *)
Lemma book_recosted key s h ls ls' :
  fifo_ok s -> book_ok key s ls -> (forall r, r ∉ book key s -> h !! r = fs_heap s !! r) ->
  Forall2 (fun r l => h !! r = Some l) (book key s) ls' -> Forall open_lot ls' -> map lot_qty ls' = map lot_qty ls ->
  map (fun l => strip (lot_lot_id l)) ls' = map (fun l => strip (lot_lot_id l)) ls ->
  zsum (map lot_local ls') < 10 ^ 18 -> zsum (map lot_base ls') < 10 ^ 18 ->
  fifo_ok (set_heap h s) /\ book_ok key (set_heap h s) ls'.
Proof.
  intros [HB HD] [[_ N F O] Sa Ag D Bl Bb] Hfr HF HO Q I Bl' Bb'.
  assert (Hk : book_ok key (set_heap h s) ls') by (constructor; rewrite ?Q, ?I; done || by constructor).
  split; [|done]. constructor; [|exact HD].
  intros k. destruct (decide (k = key)) as [->|Hne]; [by exists ls'|].
  destruct (HB k) as (lk & [[_ Nk Fk Ok] Sk Ek Dk Blk Bbk]). exists lk. specialize (HD k key Hne).
  constructor; try done. constructor; try done. change (book k (set_heap h s)) with (book k s).
  clear -Fk Hfr HD. induction Fk as [|r l refs ls Hr Fk IH]; constructor; [simpl; rewrite Hfr; set_solver|]. apply IH. set_solver.
Qed.

Lemma transfer_run `{hashing : Hashing} p i cb cl s ls :
  fifo_ok s -> book_ok (p, i) s ls -> stored cb -> stored cl -> transferable ls (ul cl) (ul cb) ->
  exists s' ls' ms, fifo_transfer_basis_out_with_allocations p i cb cl s = (basis_transfer_result ms cl cb, s') /\
    fifo_ok s' /\ book_ok (p, i) s' ls' /\
    redistributed ls ls' (zsum (map lot_local ls) - ul cl) (zsum (map lot_base ls) - ul cb) /\
    NoDup (map (fun m => strip (sm_lot_id m)) ms) /\ zsum (map moved_local ms) = ul cl /\ zsum (map moved_base ms) = ul cb /\
    (Forall2 (fun l l' => lot_local l' <= lot_local l /\ lot_base l' <= lot_base l) ls ls' -> Forall movement_ok ms).
Proof.
  set (key := (p, i)). intros Hok Hb Sb Sl Ht. pose proof (proj1 (basis_transfer_error_spec key s ls cb cl Hb Sb Sl) Ht) as Herr.
  destruct (allocate_run key s ls cb cl Hb Sb Sl Ht) as (h & ls' & Hrun & Hlen & Hfr & HF & HR).
  pose proof Hb as [[_ N F O] Sa Ag D Bl Bb].
  destruct (redistributed_lots _ _ _ _ HR) as (O' & Q' & I').
  destruct (movements_run ls ls' _ _ O HR) as (sts & ms & E1 & E2 & E3 & E4 & E5 & E6).
  destruct (book_recosted key s h ls ls' Hok Hb Hfr HF O' Q' I') as [Hok' Hb'];
    rewrite ?(rd_local _ _ _ _ HR), ?(rd_base _ _ _ _ HR); try (destruct Ht as (H1 & H2 & _); lia).
  exists (set_heap h s), ls', ms. split; [|rewrite E3, E4, E5, (rd_local _ _ _ _ HR), (rd_base _ _ _ _ HR);
    repeat (split; [done || lia|]); done].
  unfold fifo_transfer_basis_out_with_allocations. fold key. rewrite st_get_run, (st_bind_run _ _ _ _ _ (deref_all_run s _ _ F)).
  rewrite (st_lift_run _ _ _ _ Herr), (open_refs_all _ _ (Forall2_length _ _ _ F) O), (st_bind_run _ _ _ _ _ (deref_all_run s _ _ F)),
    (st_lift_run _ _ _ _ E1), (st_bind_run _ _ _ _ _ Hrun), (st_bind_run _ _ _ _ _ (deref_all_run (set_heap h s) _ _ HF)),
    (st_lift_run _ _ _ _ E2). done.
Qed.

(** ** Properties *)

(** A quantity restatement is all or nothing.  When it raises, no lot and no aggregate has
    changed; when it returns, every lot of the book has been scaled by exactly after/before, keeps
    its identity and its carrying cost in both currencies to the storage unit, the available quantity
    is the requested one and equals the sum of the lots, and every book of the state stays in order.
    It does return whenever every quantity of the book scales to a storable quantity. *)
Theorem fifo_restatement_correct p i delta s ls :
  fifo_ok s -> book_ok (p, i) s ls ->
  (stored delta -> ul delta <> 0 -> 0 < ul (available (p, i) s) -> 0 < ul (available (p, i) s) + ul delta < 10 ^ 18 ->
   Forall (restatable (ul (available (p, i) s)) (ul (available (p, i) s) + ul delta)) ls ->
   exists r s', fifo_restate_lot_quantities p i delta s = (Ok r, s')) /\
  match fifo_restate_lot_quantities p i delta s with
  | (Raise _, s') => s' = s
  | (Ok r, s') =>
      fifo_ok s' /\ available (p, i) s' = lr_quantity_after r /\
      lr_quantity_before r = available (p, i) s /\ dadd default_context (available (p, i) s) delta = Ok (lr_quantity_after r) /\
      fs_open_lots s' = fs_open_lots s /\
      exists ls', book_ok (p, i) s' ls' /\ Forall2 (restated (ul (lr_quantity_before r)) (ul (lr_quantity_after r))) ls ls'
  end.
Proof.
  intros Hok Hb. split; [intros; by apply (restate_success (p, i) s ls)|].
  set (key := (p, i)) in *. unfold fifo_restate_lot_quantities. fold key. rewrite st_get_run.
  unfold from_signed_delta. destruct (dadd default_context (available key s) delta) as [after|e] eqn:Ea; [|done].
  cbn [mbind result_bind]. destruct (make_LotRestatement (available key s) after) as [r|e] eqn:Er; [|done].
  pose proof (make_LotRestatement_inv _ _ _ Er) as (E1 & E2 & nb & na & Hrs).
  rewrite (st_lift_run (Ok r) _ _ _ eq_refl). destruct Hb as [[_ N F O] Sa Ag D Bl Bb].
  unfold mbind at 1, st_bind at 1. rewrite (st_map_read _ _ s _ _ (propose_run r s) F).
  destruct (mapR (propose_lot r) (combine (book key s) ls)) as [ps|e] eqn:Eps; [|done].
  destruct (apply_all_run r nb na _ ls ps s Hrs N F O Eps) as (h & ls' & Hrun & Hlen & Hfr & HF & HR).
  rewrite (st_bind_run _ _ _ _ _ Hrun), st_modify_run. cbn [mret st_ret].
  pose proof Hrs as (Lb & La & Pb & Pa & _). rewrite E1 in Lb. rewrite E2 in La. rewrite E1, E2, (ledger_ul _ _ La), (ledger_ul _ _ Lb).
  destruct (restated_sums nb na ls ls' Pb HR) as (Sq & Sl & Sb & Sid & HO).
  rewrite <- Ag, (ledger_ul _ _ Lb) in Sq.
  destruct (book_replaced key s h after ls' Hok Hlen Hfr HF HO) as [Hok' Hb']; rewrite ?Sid, ?Sl, ?Sb; try done.
  { by eapply ledger_stored. }
  { rewrite (ledger_ul _ _ La). nia. }
  unfold mret, st_ret. split; [done|]. split; [apply available_set|]. repeat (split; [done|]). by exists ls'.
Qed.

Lemma fifo_restatement_correct_witness :
  exists s r s' ls', fifo_restate_lot_quantities "P" "I" (dint 5) s = (Ok r, s') /\
    book_ok ("P", "I") s' ls' /\ map lot_qty ls' = [6 * 10 ^ 10; 4 * 10 ^ 10].
Proof.
  destruct (@wit_history constant_hashing constant_hashing_ok) as (s & ls & _ & Hok & Hb & Hq & Ho & _).
  destruct (fifo_restatement_correct "P" "I" (dint 5) s ls Hok Hb) as [Hrun H].
  assert (Ha : ul (available ("P", "I") s) = 5 * 10 ^ 10) by (rewrite (bk_agrees _ _ _ Hb), Hq; reflexivity).
  rewrite Ha, ul_dint in Hrun by lia.
  destruct Hrun as (r & s' & Hrun); [exact (stored_dint 5 ltac:(lia))|lia|lia|lia| |].
  { destruct ls as [|l [|l' [|? ?]]]; simplify_eq/=.
    constructor; [|constructor; [|constructor]]; [exists (6 * 10 ^ 10), (6 * 10 ^ 10)|exists (4 * 10 ^ 10), (4 * 10 ^ 10)]; lia. }
  rewrite Hrun in H. destruct H as (_ & _ & E1 & E2 & _ & ls' & Hb' & HR). exists s, r, s', ls'. split; [exact Hrun|]. split; [exact Hb'|].
  destruct (ambient_add _ _ (bk_available _ _ _ Hb) (stored_dint 5 ltac:(lia))) as (after & Ea & _ & Ea');
    [rewrite Ha, ul_dint by lia; reflexivity|]. rewrite Ea in E2. injection E2 as E2.
  rewrite E1, <- E2, Ha, Ea', Ha, ul_dint in HR by lia.
  destruct ls as [|l [|l' [|? ?]]]; simplify_eq/=.
  apply Forall2_cons_inv_l in HR as (x & xs & [_ _ _ R1 _ _ _] & HR & ->).
  apply Forall2_cons_inv_l in HR as (y & ys & [_ _ _ R2 _ _ _] & HR & ->). apply Forall2_nil_inv_l in HR as ->.
  simpl. f_equal; [lia|]. f_equal. lia.
Defined.

(** A basis transfer takes exactly the requested cost out of the book.  A request that is
    negative, exceeds the carrying cost or meets a book without cost is refused with the state
    untouched.  Otherwise quantities and identities of the lots stay, the carrying costs afterwards
    add up to the costs before less the amounts requested, in both currencies and to the storage
    unit, and no lot but the last, which receives the rounding residual, ends with more than it had;
    when the last does not either, the call returns a receipt for the requested amounts. *)
Theorem fifo_basis_transfer_correct `{hashing_ok : HashingOk} p i cb cl s ls :
  fifo_ok s -> book_ok (p, i) s ls -> stored cb -> stored cl ->
  let run := fifo_transfer_basis_out_with_allocations p i cb cl s in
  (~ transferable ls (ul cl) (ul cb) ->
     exists r reason, run = (Ok r, s) /\ br_error_reason r = Some reason /\ br_allocations r = []) /\
  (transferable ls (ul cl) (ul cb) ->
     exists ls', fifo_ok (snd run) /\ book_ok (p, i) (snd run) ls' /\
       redistributed ls ls' (zsum (map lot_local ls) - ul cl) (zsum (map lot_base ls) - ul cb) /\
       (0 < ul cl + ul cb ->
        (forall l l', last ls = Some l -> last ls' = Some l' -> lot_local l' <= lot_local l /\ lot_base l' <= lot_base l) ->
        exists r, fst run = Ok r /\ br_error_reason r = None /\ br_transferred_cost_local r = cl /\ br_transferred_cost_base r = cb)).
Proof.
  intros Hok Hb Sb Sl run. split.
  - intros Hn. destruct (proj2 (basis_transfer_error_spec (p, i) s ls cb cl Hb Sb Sl) Hn) as (reason & Herr & Hr).
    destruct Hb as [[_ N F O] _ _ _ _ _]. unfold run, fifo_transfer_basis_out_with_allocations.
    rewrite st_get_run, (st_bind_run _ _ _ _ _ (deref_all_run s _ _ F)), (st_lift_run _ _ _ _ Herr).
    unfold st_lift, failed_transfer, make_LotBasisTransferResult, require_nonblank. rewrite Hr. by eexists _, _.
  - intros Ht. destruct (transfer_run p i cb cl s ls Hok Hb Sb Sl Ht) as (s' & ls' & ms & Hrun & Hok' & Hb' & HR & Hnd & El & Eb & Hm).
    unfold run. rewrite Hrun. exists ls'. repeat (split; [done|]). intros Hpos Hlast.
    destruct (basis_transfer_result_total ms cl cb (Hm (shrunk_all _ _ _ _ HR Hlast)) Hnd Sl Sb ltac:(lia) ltac:(lia) Hpos)
      as (r & Hr & H1 & H2 & H3). by exists r.
Qed.

Lemma fifo_basis_transfer_correct_witness :
  exists s ls', book_ok ("P", "I") (snd (@fifo_transfer_basis_out_with_allocations constant_hashing "P" "I" (dint 17) (dint 34) s)) ls' /\
    zsum (map lot_base ls') = 153 * 10 ^ 10 /\ zsum (map lot_local ls') = 136 * 10 ^ 10.
Proof.
  destruct (@wit_history constant_hashing constant_hashing_ok) as (s & ls & _ & Hok & Hb & _ & _ & Eb & El).
  destruct (@fifo_basis_transfer_correct constant_hashing constant_hashing_ok "P" "I" (dint 17) (dint 34) s ls Hok Hb
    (stored_dint 17 ltac:(lia)) (stored_dint 34 ltac:(lia))) as [_ H].
  rewrite !ul_dint in H by lia. unfold transferable in H. rewrite Eb, El in H.
  destruct H as (ls' & _ & Hb' & [_ R1 R2 _] & _); [vm_compute; intuition discriminate|].
  exists s, ls'. split; [exact Hb'|]. split; [exact R2|exact R1].
Defined.

(** Four lots of one unit at a cost of 0.9999999999 each. *)
Definition four_lots : FifoState :=
  snd (st_iter fifo_add_buy_lot
    (map (fun id => {| ct_transaction_id := id; ct_portfolio_id := "P"; ct_instrument_id := "I"; ct_security_id := "I";
       ct_transaction_type := "BUY"; ct_transaction_date := {| dt_us := 0; dt_utcoffset := Some 0 |}; ct_settlement_date := None;
       ct_child_sequence_hint := None; ct_target_instrument_id := None; ct_quantity := dint 1;
       ct_gross_transaction_amount := dint 1; ct_net_transaction_amount := None; ct_fees := None;
       ct_accrued_interest := None; ct_average_price := None; ct_trade_currency := "USD";
       ct_portfolio_base_currency := "USD"; ct_transaction_fx_rate := None; ct_net_cost := Some (Dec 9999999999 (-10));
       ct_gross_cost := None; ct_realized_gain_loss := None; ct_net_cost_local := Some (Dec 9999999999 (-10));
       ct_realized_gain_loss_local := None; ct_source_lot_order_quantity := None; ct_source_lot_original_quantity := None;
       ct_lot_restatement := None; ct_error_reason := None; ct_extra_fields := [] |}) ["A"; "B"; "C"; "D"]) fifo_init).

(** The residual can make the last lot grow: from a book of four such lots a transfer of two
    storage units, which every check accepts, raises instead of returning a receipt, after the costs
    of the lots have been rewritten. *)
Theorem fifo_tiny_transfer_raises `{hashing : Hashing} :
  exists s', fifo_transfer_basis_out_with_allocations "P" "I" (Dec 2 (-10)) (Dec 2 (-10)) four_lots =
      (Raise (ValueError "transferred_cost_local must be nonnegative"), s') /\
    map lot_local (fs_heap four_lots) = [9999999999; 9999999999; 9999999999; 9999999999] /\
    map lot_local (fs_heap s') = [9999999998; 9999999998; 9999999998; 10000000000].
Proof.
  exists (snd (fifo_transfer_basis_out_with_allocations "P" "I" (Dec 2 (-10)) (Dec 2 (-10)) four_lots)).
  split; [|split]; vm_compute; reflexivity.
Qed.
