(* ===== verification/Avco.v ===== *)
(** * The average-cost strategy

    [AverageCostPool] and [AverageCostSourceAllocation] of
    [cost_basis/calculation/average_cost_source_allocation.py], the AVCO strategy of
    [cost_basis/calculation/cost_basis_strategies.py] and the checkpoints of
    [cost_basis/average_cost_pool_checkpoint.py] and [cost_basis/average_cost_allocation_checkpoint.py].

    A pool holds the aggregate of one book.  The sources of the book are scaled lazily: a contribution
    remembers the scales at its entry, the book keeps the current ones, and [materialize_book]
    divides the two when the states of the single sources are needed.  The dictionaries are
    [defaultdict]s; reading a missing key inserts its default, which matters only for the pools and
    for the two lists of source ids, whose keys are tested or enumerated. *)

From Stdlib Require Import ZArith Lia QArith String.
From stdpp Require Import base tactics list strings.
From S2P Require Import Prelude PyDecimal DecimalFacts PyTime Precision Lineage Transactions Lots CostBasis.

#[local] Open Scope string_scope.
#[local] Open Scope Z_scope.

#[local] Notation policy := COST_BASIS_STATE_LEDGER_OUTPUT_V1.
#[local] Notation ctx := (arithmetic_context policy).

Definition BookKey : Type := string * string.
Definition unit_scale : decimal := dint 1.

(** [x * y / z] in the working context. *)
Definition mul_div (x y z : decimal) : result decimal := p ← dmul ctx x y; ddiv ctx p z.

(** ** The pool *)

Record AverageCostPool := {
  ap_quantity : decimal; ap_cost_local : decimal; ap_cost_base : decimal;
  ap_segment_start_quantity : decimal; ap_segment_start_cost_local : decimal; ap_segment_start_cost_base : decimal
}.

Definition empty_pool : AverageCostPool :=
  {| ap_quantity := dzero; ap_cost_local := dzero; ap_cost_base := dzero;
     ap_segment_start_quantity := dzero; ap_segment_start_cost_local := dzero; ap_segment_start_cost_base := dzero |}.

Definition set_quantity (q : decimal) (p : AverageCostPool) : AverageCostPool :=
  {| ap_quantity := q; ap_cost_local := ap_cost_local p; ap_cost_base := ap_cost_base p;
     ap_segment_start_quantity := ap_segment_start_quantity p; ap_segment_start_cost_local := ap_segment_start_cost_local p;
     ap_segment_start_cost_base := ap_segment_start_cost_base p |}.
Definition set_cost_local (c : decimal) (p : AverageCostPool) : AverageCostPool :=
  {| ap_quantity := ap_quantity p; ap_cost_local := c; ap_cost_base := ap_cost_base p;
     ap_segment_start_quantity := ap_segment_start_quantity p; ap_segment_start_cost_local := ap_segment_start_cost_local p;
     ap_segment_start_cost_base := ap_segment_start_cost_base p |}.
Definition set_cost_base (c : decimal) (p : AverageCostPool) : AverageCostPool :=
  {| ap_quantity := ap_quantity p; ap_cost_local := ap_cost_local p; ap_cost_base := c;
     ap_segment_start_quantity := ap_segment_start_quantity p; ap_segment_start_cost_local := ap_segment_start_cost_local p;
     ap_segment_start_cost_base := ap_segment_start_cost_base p |}.
Definition set_segment_quantity (q : decimal) (p : AverageCostPool) : AverageCostPool :=
  {| ap_quantity := ap_quantity p; ap_cost_local := ap_cost_local p; ap_cost_base := ap_cost_base p;
     ap_segment_start_quantity := q; ap_segment_start_cost_local := ap_segment_start_cost_local p;
     ap_segment_start_cost_base := ap_segment_start_cost_base p |}.
(** A new disposal segment starts at the current aggregate. *)
Definition start_segment (p : AverageCostPool) : AverageCostPool :=
  {| ap_quantity := ap_quantity p; ap_cost_local := ap_cost_local p; ap_cost_base := ap_cost_base p;
     ap_segment_start_quantity := ap_quantity p; ap_segment_start_cost_local := ap_cost_local p;
     ap_segment_start_cost_base := ap_cost_base p |}.

Definition pool_add (quantity cost_local cost_base : decimal) : st AverageCostPool unit :=
  p ← st_get;
  q ← st_lift (p_add policy (ap_quantity p) quantity "pool_quantity");
  _ ← st_modify (set_quantity q);
  l ← st_lift (p_add policy (ap_cost_local p) cost_local "pool_cost_local");
  _ ← st_modify (set_cost_local l);
  b ← st_lift (p_add policy (ap_cost_base p) cost_base "pool_cost_base");
  _ ← st_modify (set_cost_base b);
  st_modify start_segment.

(** The [if quantity_after.is_zero()] of [dispose]: the costs of what is left of the segment. *)
Definition rebook_segment (quantity_after : decimal) : st AverageCostPool unit :=
  p ← st_get;
  if dis_zero quantity_after then
    _ ← st_modify (set_cost_local dzero);
    st_modify (set_cost_base dzero)
  else
    remaining_cost_local ← st_lift (mul_div (ap_segment_start_cost_local p) quantity_after (ap_segment_start_quantity p));
    remaining_cost_base ← st_lift (mul_div (ap_segment_start_cost_base p) quantity_after (ap_segment_start_quantity p));
    l ← st_lift (normalize policy (Finite remaining_cost_local) "pool_cost_local");
    _ ← st_modify (set_cost_local l);
    b ← st_lift (normalize policy (Finite remaining_cost_base) "pool_cost_base");
    st_modify (set_cost_base b).

(** Returns the disposed (base, local) cost. *)
Definition dispose (quantity : decimal) : st AverageCostPool (decimal * decimal) :=
  p ← st_get;
  quantity_after ← st_lift (p_subtract policy (ap_quantity p) quantity "pool_quantity");
  _ ← rebook_segment quantity_after;
  _ ← st_modify (set_quantity quantity_after);
  p' ← st_get;
  base ← st_lift (p_subtract policy (ap_cost_base p) (ap_cost_base p') "disposed_cost_base");
  local ← st_lift (p_subtract policy (ap_cost_local p) (ap_cost_local p') "disposed_cost_local");
  mret (base, local).

Definition pool_transfer_basis_out (cost_local cost_base : decimal) : st AverageCostPool unit :=
  p ← st_get;
  l ← st_lift (p_subtract policy (ap_cost_local p) cost_local "pool_cost_local");
  _ ← st_modify (set_cost_local l);
  b ← st_lift (p_subtract policy (ap_cost_base p) cost_base "pool_cost_base");
  _ ← st_modify (set_cost_base b);
  st_modify start_segment.

(** ** Lazily scaled sources *)

Record AverageCostSourceContribution := {
  sc_book_key : BookKey; sc_source_lot_id : string; sc_source_acquisition_date : date; sc_generation : Z;
  sc_original_quantity : decimal; sc_quantity : decimal; sc_cost_local : decimal; sc_cost_base : decimal;
  sc_disposal_scale_at_entry : decimal; sc_cost_local_scale_at_entry : decimal; sc_cost_base_scale_at_entry : decimal;
  sc_cost_local_generation : Z; sc_cost_base_generation : Z
}.

Record AverageCostSourceAllocation := {
  as_contributions : list (string * AverageCostSourceContribution);
  as_source_ids : list (BookKey * list string);
  as_active_source_ids : list (BookKey * list string);
  as_generation : list (BookKey * Z);
  as_disposal_scale : list (BookKey * decimal);
  as_segment_start_scale : list (BookKey * decimal);
  as_segment_start_quantity : list (BookKey * decimal);
  as_cost_local_scale : list (BookKey * decimal);
  as_cost_base_scale : list (BookKey * decimal);
  as_cost_local_generation : list (BookKey * Z);
  as_cost_base_generation : list (BookKey * Z)
}.

Definition allocation_init : AverageCostSourceAllocation :=
  {| as_contributions := [];
     as_source_ids := [];
     as_active_source_ids := [];
     as_generation := [];
     as_disposal_scale := [];
     as_segment_start_scale := [];
     as_segment_start_quantity := [];
     as_cost_local_scale := [];
     as_cost_base_scale := [];
     as_cost_local_generation := [];
     as_cost_base_generation := [] |}.

Definition with_contributions (v : list (string * AverageCostSourceContribution)) (a : AverageCostSourceAllocation) : AverageCostSourceAllocation :=
  {| as_contributions := v; as_source_ids := as_source_ids a; as_active_source_ids := as_active_source_ids a;
     as_generation := as_generation a; as_disposal_scale := as_disposal_scale a;
     as_segment_start_scale := as_segment_start_scale a; as_segment_start_quantity := as_segment_start_quantity a;
     as_cost_local_scale := as_cost_local_scale a; as_cost_base_scale := as_cost_base_scale a;
     as_cost_local_generation := as_cost_local_generation a; as_cost_base_generation := as_cost_base_generation a |}.
Definition with_source_ids (v : list (BookKey * list string)) (a : AverageCostSourceAllocation) : AverageCostSourceAllocation :=
  {| as_contributions := as_contributions a; as_source_ids := v; as_active_source_ids := as_active_source_ids a;
     as_generation := as_generation a; as_disposal_scale := as_disposal_scale a;
     as_segment_start_scale := as_segment_start_scale a; as_segment_start_quantity := as_segment_start_quantity a;
     as_cost_local_scale := as_cost_local_scale a; as_cost_base_scale := as_cost_base_scale a;
     as_cost_local_generation := as_cost_local_generation a; as_cost_base_generation := as_cost_base_generation a |}.
Definition with_active_source_ids (v : list (BookKey * list string)) (a : AverageCostSourceAllocation) : AverageCostSourceAllocation :=
  {| as_contributions := as_contributions a; as_source_ids := as_source_ids a; as_active_source_ids := v;
     as_generation := as_generation a; as_disposal_scale := as_disposal_scale a;
     as_segment_start_scale := as_segment_start_scale a; as_segment_start_quantity := as_segment_start_quantity a;
     as_cost_local_scale := as_cost_local_scale a; as_cost_base_scale := as_cost_base_scale a;
     as_cost_local_generation := as_cost_local_generation a; as_cost_base_generation := as_cost_base_generation a |}.
Definition with_generation (v : list (BookKey * Z)) (a : AverageCostSourceAllocation) : AverageCostSourceAllocation :=
  {| as_contributions := as_contributions a; as_source_ids := as_source_ids a;
     as_active_source_ids := as_active_source_ids a; as_generation := v; as_disposal_scale := as_disposal_scale a;
     as_segment_start_scale := as_segment_start_scale a; as_segment_start_quantity := as_segment_start_quantity a;
     as_cost_local_scale := as_cost_local_scale a; as_cost_base_scale := as_cost_base_scale a;
     as_cost_local_generation := as_cost_local_generation a; as_cost_base_generation := as_cost_base_generation a |}.
Definition with_disposal_scale (v : list (BookKey * decimal)) (a : AverageCostSourceAllocation) : AverageCostSourceAllocation :=
  {| as_contributions := as_contributions a; as_source_ids := as_source_ids a;
     as_active_source_ids := as_active_source_ids a; as_generation := as_generation a; as_disposal_scale := v;
     as_segment_start_scale := as_segment_start_scale a; as_segment_start_quantity := as_segment_start_quantity a;
     as_cost_local_scale := as_cost_local_scale a; as_cost_base_scale := as_cost_base_scale a;
     as_cost_local_generation := as_cost_local_generation a; as_cost_base_generation := as_cost_base_generation a |}.
Definition with_segment_start_scale (v : list (BookKey * decimal)) (a : AverageCostSourceAllocation) : AverageCostSourceAllocation :=
  {| as_contributions := as_contributions a; as_source_ids := as_source_ids a;
     as_active_source_ids := as_active_source_ids a; as_generation := as_generation a;
     as_disposal_scale := as_disposal_scale a; as_segment_start_scale := v;
     as_segment_start_quantity := as_segment_start_quantity a; as_cost_local_scale := as_cost_local_scale a;
     as_cost_base_scale := as_cost_base_scale a; as_cost_local_generation := as_cost_local_generation a;
     as_cost_base_generation := as_cost_base_generation a |}.
Definition with_segment_start_quantity (v : list (BookKey * decimal)) (a : AverageCostSourceAllocation) : AverageCostSourceAllocation :=
  {| as_contributions := as_contributions a; as_source_ids := as_source_ids a;
     as_active_source_ids := as_active_source_ids a; as_generation := as_generation a;
     as_disposal_scale := as_disposal_scale a; as_segment_start_scale := as_segment_start_scale a;
     as_segment_start_quantity := v; as_cost_local_scale := as_cost_local_scale a;
     as_cost_base_scale := as_cost_base_scale a; as_cost_local_generation := as_cost_local_generation a;
     as_cost_base_generation := as_cost_base_generation a |}.
Definition with_cost_local_scale (v : list (BookKey * decimal)) (a : AverageCostSourceAllocation) : AverageCostSourceAllocation :=
  {| as_contributions := as_contributions a; as_source_ids := as_source_ids a;
     as_active_source_ids := as_active_source_ids a; as_generation := as_generation a;
     as_disposal_scale := as_disposal_scale a; as_segment_start_scale := as_segment_start_scale a;
     as_segment_start_quantity := as_segment_start_quantity a; as_cost_local_scale := v;
     as_cost_base_scale := as_cost_base_scale a; as_cost_local_generation := as_cost_local_generation a;
     as_cost_base_generation := as_cost_base_generation a |}.
Definition with_cost_base_scale (v : list (BookKey * decimal)) (a : AverageCostSourceAllocation) : AverageCostSourceAllocation :=
  {| as_contributions := as_contributions a; as_source_ids := as_source_ids a;
     as_active_source_ids := as_active_source_ids a; as_generation := as_generation a;
     as_disposal_scale := as_disposal_scale a; as_segment_start_scale := as_segment_start_scale a;
     as_segment_start_quantity := as_segment_start_quantity a; as_cost_local_scale := as_cost_local_scale a;
     as_cost_base_scale := v; as_cost_local_generation := as_cost_local_generation a;
     as_cost_base_generation := as_cost_base_generation a |}.
Definition with_cost_local_generation (v : list (BookKey * Z)) (a : AverageCostSourceAllocation) : AverageCostSourceAllocation :=
  {| as_contributions := as_contributions a; as_source_ids := as_source_ids a;
     as_active_source_ids := as_active_source_ids a; as_generation := as_generation a;
     as_disposal_scale := as_disposal_scale a; as_segment_start_scale := as_segment_start_scale a;
     as_segment_start_quantity := as_segment_start_quantity a; as_cost_local_scale := as_cost_local_scale a;
     as_cost_base_scale := as_cost_base_scale a; as_cost_local_generation := v;
     as_cost_base_generation := as_cost_base_generation a |}.
Definition with_cost_base_generation (v : list (BookKey * Z)) (a : AverageCostSourceAllocation) : AverageCostSourceAllocation :=
  {| as_contributions := as_contributions a; as_source_ids := as_source_ids a;
     as_active_source_ids := as_active_source_ids a; as_generation := as_generation a;
     as_disposal_scale := as_disposal_scale a; as_segment_start_scale := as_segment_start_scale a;
     as_segment_start_quantity := as_segment_start_quantity a; as_cost_local_scale := as_cost_local_scale a;
     as_cost_base_scale := as_cost_base_scale a; as_cost_local_generation := as_cost_local_generation a;
     as_cost_base_generation := v |}.

Definition gen_of (key : BookKey) (d : list (BookKey * Z)) : Z := od_get_default 0 key d.
Definition scale_of (key : BookKey) (d : list (BookKey * decimal)) : decimal := od_get_default unit_scale key d.
Definition amount_of (key : BookKey) (d : list (BookKey * decimal)) : decimal := od_get_default dzero key d.
Definition ids_of (key : BookKey) (d : list (BookKey * list string)) : list string := od_get_default [] key d.

Definition add_source (key : BookKey) (source_transaction_id source_lot_id : string) (acquired : date)
  (quantity : decimal) (original_quantity : option decimal) (cost_local cost_base pool_quantity_after : decimal)
  : st AverageCostSourceAllocation unit :=
  a ← st_get;
  _ ← st_lift (raise_if (match od_get source_transaction_id (as_contributions a) with Some _ => true | None => false end)
                 (ValueError "AVCO source transaction identity must be unique"));
  let c := {| sc_book_key := key; sc_source_lot_id := source_lot_id; sc_source_acquisition_date := acquired;
    sc_generation := gen_of key (as_generation a);
    sc_original_quantity := default quantity original_quantity; sc_quantity := quantity;
    sc_cost_local := cost_local; sc_cost_base := cost_base;
    sc_disposal_scale_at_entry := scale_of key (as_disposal_scale a);
    sc_cost_local_scale_at_entry := scale_of key (as_cost_local_scale a);
    sc_cost_base_scale_at_entry := scale_of key (as_cost_base_scale a);
    sc_cost_local_generation := gen_of key (as_cost_local_generation a);
    sc_cost_base_generation := gen_of key (as_cost_base_generation a) |} in
  _ ← st_modify (fun a => with_contributions (od_set source_transaction_id c (as_contributions a)) a);
  _ ← st_modify (fun a => with_source_ids (od_set key (ids_of key (as_source_ids a) ++ [source_transaction_id])%list (as_source_ids a)) a);
  _ ← st_modify (fun a => with_active_source_ids
         (od_set key (ids_of key (as_active_source_ids a) ++ [source_transaction_id])%list (as_active_source_ids a)) a);
  _ ← st_modify (fun a => with_segment_start_scale (od_set key (scale_of key (as_disposal_scale a)) (as_segment_start_scale a)) a);
  st_modify (fun a => with_segment_start_quantity (od_set key pool_quantity_after (as_segment_start_quantity a)) a).

Definition apply_disposal (key : BookKey) (quantity_before quantity_after : decimal) : st AverageCostSourceAllocation unit :=
  _ ← st_lift (raise_if (dleb quantity_before dzero) (ValueError "AVCO source allocation requires positive quantity_before"));
  _ ← st_lift (raise_if (dltb quantity_after dzero || dltb quantity_before quantity_after)
                 (ValueError "AVCO source allocation quantity_after is outside the pool"));
  if dis_zero quantity_after then
    _ ← st_modify (fun a => with_active_source_ids (od_set key [] (as_active_source_ids a)) a);
    _ ← st_modify (fun a => with_generation (od_set key (gen_of key (as_generation a) + 1) (as_generation a)) a);
    _ ← st_modify (fun a => with_disposal_scale (od_set key unit_scale (as_disposal_scale a)) a);
    _ ← st_modify (fun a => with_segment_start_scale (od_set key unit_scale (as_segment_start_scale a)) a);
    _ ← st_modify (fun a => with_segment_start_quantity (od_set key dzero (as_segment_start_quantity a)) a);
    _ ← st_modify (fun a => with_cost_local_scale (od_set key unit_scale (as_cost_local_scale a)) a);
    _ ← st_modify (fun a => with_cost_base_scale (od_set key unit_scale (as_cost_base_scale a)) a);
    _ ← st_modify (fun a => with_cost_local_generation (od_set key (gen_of key (as_cost_local_generation a) + 1) (as_cost_local_generation a)) a);
    st_modify (fun a => with_cost_base_generation (od_set key (gen_of key (as_cost_base_generation a) + 1) (as_cost_base_generation a)) a)
  else
    a ← st_get;
    let segment_start_quantity := amount_of key (as_segment_start_quantity a) in
    _ ← st_lift (raise_if (dleb segment_start_quantity dzero)
                   (ValueError "AVCO source allocation disposal segment is not initialized"));
    scale ← st_lift (mul_div (scale_of key (as_segment_start_scale a)) quantity_after segment_start_quantity);
    st_modify (fun a => with_disposal_scale (od_set key scale (as_disposal_scale a)) a).

(** [self._contributions[id]]. *)
Definition contribution_of (a : AverageCostSourceAllocation) (id : string) : result AverageCostSourceContribution :=
  match od_get id (as_contributions a) with Some c => Ok c | None => Raise (KeyError id) end.

Definition restate_contribution (restatement : LotRestatement) (c : AverageCostSourceContribution)
  : result AverageCostSourceContribution :=
  original ← lr_apply restatement (sc_original_quantity c) "original_quantity";
  quantity ← lr_apply restatement (sc_quantity c) "source_quantity";
  Ok {| sc_book_key := sc_book_key c; sc_source_lot_id := sc_source_lot_id c;
        sc_source_acquisition_date := sc_source_acquisition_date c; sc_generation := sc_generation c;
        sc_original_quantity := original; sc_quantity := quantity; sc_cost_local := sc_cost_local c;
        sc_cost_base := sc_cost_base c; sc_disposal_scale_at_entry := sc_disposal_scale_at_entry c;
        sc_cost_local_scale_at_entry := sc_cost_local_scale_at_entry c;
        sc_cost_base_scale_at_entry := sc_cost_base_scale_at_entry c;
        sc_cost_local_generation := sc_cost_local_generation c; sc_cost_base_generation := sc_cost_base_generation c |}.

(** Reading [_active_source_ids_by_key[book_key]] inserts an empty list for a new key. *)
Definition active_ids (key : BookKey) : st AverageCostSourceAllocation (list string) :=
  a ← st_get;
  let ids := ids_of key (as_active_source_ids a) in
  _ ← st_modify (fun a => with_active_source_ids (od_set key ids (as_active_source_ids a)) a);
  mret ids.

Definition apply_quantity_restatement (key : BookKey) (restatement : LotRestatement) : st AverageCostSourceAllocation unit :=
  ids ← active_ids key;
  a ← st_get;
  proposed ← st_lift (mapR (fun id => c ← contribution_of a id; c' ← restate_contribution restatement c; Ok (id, c')) ids);
  segment ← st_lift (lr_apply restatement (amount_of key (as_segment_start_quantity a)) "source_allocation_segment_start_quantity");
  _ ← st_modify (fun a => with_contributions (fold_left (fun d e => od_set (fst e) (snd e) d) proposed (as_contributions a)) a);
  st_modify (fun a => with_segment_start_quantity (od_set key segment (as_segment_start_quantity a)) a).

Definition scaled_basis_factor (current_scale cost_before cost_after : decimal) (currency_basis : string) : result decimal :=
  _ ← raise_if (dleb cost_before dzero) (ValueError ("AVCO " +:+ currency_basis +:+ " cost basis must be positive before transfer"));
  _ ← raise_if (dltb cost_after dzero || dltb cost_before cost_after)
        (ValueError ("AVCO " +:+ currency_basis +:+ " cost basis after transfer is invalid"));
  mul_div current_scale cost_after cost_before.

Definition apply_basis_transfer (key : BookKey) (local_before local_after base_before base_after : decimal)
  : st AverageCostSourceAllocation unit :=
  a ← st_get;
  local_scale ← st_lift (scaled_basis_factor (scale_of key (as_cost_local_scale a)) local_before local_after "local");
  base_scale ← st_lift (scaled_basis_factor (scale_of key (as_cost_base_scale a)) base_before base_after "base");
  _ ← st_modify (fun a => with_cost_local_scale (od_set key (dor local_scale unit_scale) (as_cost_local_scale a)) a);
  _ ← st_modify (fun a => with_cost_base_scale (od_set key (dor base_scale unit_scale) (as_cost_base_scale a)) a);
  _ ← st_modify (fun a => if dis_zero local_scale
         then with_cost_local_generation (od_set key (gen_of key (as_cost_local_generation a) + 1) (as_cost_local_generation a)) a else a);
  st_modify (fun a => if dis_zero base_scale
         then with_cost_base_generation (od_set key (gen_of key (as_cost_base_generation a) + 1) (as_cost_base_generation a)) a else a).

(** ** Materialisation *)

Definition Sources : Type := list (string * AverageCostSourceContribution).

Definition disposal_factor (a : AverageCostSourceAllocation) (c : AverageCostSourceContribution) : result decimal :=
  if negb (sc_generation c =? gen_of (sc_book_key c) (as_generation a)) then Ok dzero
  else ddiv ctx (scale_of (sc_book_key c) (as_disposal_scale a)) (sc_disposal_scale_at_entry c).

Definition materialized_quantity (c : AverageCostSourceContribution) (current_generation : Z)
  (factor aggregate allocated : decimal) : result decimal :=
  if negb (sc_generation c =? current_generation) then Ok dzero else
  product ← dmul ctx (sc_quantity c) factor;
  quantity ← quantize ctx ROUND_DOWN product (- LOT_QUANTITY_SCALE);
  bounded_share ← allocate_nonnegative_storage_share quantity aggregate allocated "open_quantity";
  Ok (dmin bounded_share (sc_original_quantity c)).

(** The first loop: quantities rounded down, in source order; returns them with their total. *)
Fixpoint materialized_quantities (a : AverageCostSourceAllocation) (generation : Z) (aggregate : decimal)
  (sources : Sources) (quantities : list (string * decimal)) (allocated : decimal)
  : result (list (string * decimal) * decimal) :=
  match sources with
  | [] => Ok (quantities, allocated)
  | (id, c) :: rest =>
      factor ← disposal_factor a c;
      quantity ← materialized_quantity c generation factor aggregate allocated;
      allocated' ← p_add policy allocated (Finite quantity) "allocated_quantity";
      materialized_quantities a generation aggregate rest (od_set id quantity quantities) allocated'
  end.

Definition quantity_of (id : string) (quantities : list (string * decimal)) : result decimal :=
  match od_get id quantities with Some q => Ok q | None => Raise (KeyError id) end.

(** The loop over the sources in reverse; [sources] is the reversed list. *)
Fixpoint assign_residual_loop (generation : Z) (sources : Sources) (quantities : list (string * decimal)) (remaining : decimal)
  : result (list (string * decimal)) :=
  match sources with
  | [] => _ ← raise_if (negb (deqb remaining dzero)) (ValueError "AVCO pool quantity exceeds source original quantity authority");
          Ok quantities
  | (id, c) :: rest =>
      if deqb remaining dzero then Ok quantities else
      if negb (sc_generation c =? generation) then assign_residual_loop generation rest quantities remaining else
      current ← quantity_of id quantities;
      headroom ← p_subtract policy (sc_original_quantity c) (Finite current) "source_quantity_headroom";
      let assigned := dmin remaining headroom in
      total ← p_add policy (Finite current) assigned "open_quantity";
      remaining' ← p_subtract policy remaining assigned "unallocated_open_quantity";
      assign_residual_loop generation rest (od_set id total quantities) remaining'
  end.

Definition assign_quantity_residual (sources : Sources) (quantities : list (string * decimal)) (generation : Z)
  (aggregate allocated : decimal) : result (list (string * decimal)) :=
  remaining ← p_subtract policy aggregate allocated "unallocated_open_quantity";
  assign_residual_loop generation (reverse sources) quantities remaining.

(** The last source with a positive quantity in the current cost generation. *)
Fixpoint last_cost_source (generation_of : AverageCostSourceContribution -> Z) (generation : Z)
  (sources : Sources) (quantities : list (string * decimal)) (last : option string) : result (option string) :=
  match sources with
  | [] => Ok last
  | (id, c) :: rest =>
      q ← quantity_of id quantities;
      if dleb q dzero then last_cost_source generation_of generation rest quantities last else
      last_cost_source generation_of generation rest quantities (if generation_of c =? generation then Some id else last)
  end.

Definition materialized_cost (eligible : bool) (source_cost : decimal) (source_generation current_generation : Z)
  (id : string) (last_source_id : option string) (scale scale_at_entry factor aggregate allocated : decimal)
  (field_name : string) : result decimal :=
  if negb eligible || negb (source_generation =? current_generation) then Ok dzero else
  if bool_decide (Some id = last_source_id) then p_subtract policy aggregate allocated field_name else
  x ← dmul ctx source_cost factor;
  y ← dmul ctx x scale;
  materialized ← ddiv ctx y scale_at_entry;
  allocate_nonnegative_storage_share materialized aggregate allocated field_name.

(** [allocated.add(...)] on the accumulator pool. *)
Definition accumulate (p : AverageCostPool) (quantity cost_local cost_base : decimal) : result AverageCostPool :=
  match pool_add quantity cost_local cost_base p with (Ok _, p') => Ok p' | (Raise e, _) => Raise e end.

(** The second loop: one open lot state per source. *)
Fixpoint materialized_states (a : AverageCostSourceAllocation) (key : BookKey) (pool : AverageCostPool)
  (quantities : list (string * decimal)) (last_local last_base : option string)
  (sources : Sources) (states : list (string * OpenLotState)) (allocated : AverageCostPool)
  : result (list (string * OpenLotState)) :=
  match sources with
  | [] => Ok states
  | (id, c) :: rest =>
      factor ← disposal_factor a c;
      quantity ← quantity_of id quantities;
      cost_local ← materialized_cost (dltb dzero quantity) (sc_cost_local c) (sc_cost_local_generation c)
        (gen_of key (as_cost_local_generation a)) id last_local (scale_of key (as_cost_local_scale a))
        (sc_cost_local_scale_at_entry c) factor (ap_cost_local pool) (ap_cost_local allocated) "lot_cost_local";
      cost_base ← materialized_cost (dltb dzero quantity) (sc_cost_base c) (sc_cost_base_generation c)
        (gen_of key (as_cost_base_generation a)) id last_base (scale_of key (as_cost_base_scale a))
        (sc_cost_base_scale_at_entry c) factor (ap_cost_base pool) (ap_cost_base allocated) "lot_cost_base";
      state ← make_OpenLotState (sc_original_quantity c) quantity cost_local cost_base None;
      allocated' ← accumulate allocated (ol_quantity state) (ol_cost_local state) (ol_cost_base state);
      materialized_states a key pool quantities last_local last_base rest (od_set id state states) allocated'
  end.

(** [materialize_book] on the active sources of the book. *)
Definition materialize_sources (a : AverageCostSourceAllocation) (key : BookKey) (pool : AverageCostPool) (sources : Sources)
  : result (list (string * OpenLotState)) :=
  let generation := gen_of key (as_generation a) in
  '(quantities, allocated) ← materialized_quantities a generation (ap_quantity pool) sources [] dzero;
  quantities ← assign_quantity_residual sources quantities generation (ap_quantity pool) allocated;
  last_local ← last_cost_source sc_cost_local_generation (gen_of key (as_cost_local_generation a)) sources quantities None;
  last_base ← last_cost_source sc_cost_base_generation (gen_of key (as_cost_base_generation a)) sources quantities None;
  materialized_states a key pool quantities last_local last_base sources [] empty_pool.

Definition sources_of (a : AverageCostSourceAllocation) (ids : list string) : result Sources :=
  mapR (fun id => c ← contribution_of a id; Ok (id, c)) ids.

Definition active_source_contributions (key : BookKey) : st AverageCostSourceAllocation Sources :=
  ids ← active_ids key; a ← st_get; st_lift (sources_of a ids).

Definition materialize_book (key : BookKey) (pool : AverageCostPool) : st AverageCostSourceAllocation (list (string * OpenLotState)) :=
  sources ← active_source_contributions key; a ← st_get; st_lift (materialize_sources a key pool sources).

(** ** The strategy *)

Record AvcoState := { av_pools : list (BookKey * AverageCostPool); av_allocation : AverageCostSourceAllocation }.

Definition avco_init : AvcoState := {| av_pools := []; av_allocation := allocation_init |}.

Definition pool_of (key : BookKey) (s : AvcoState) : AverageCostPool := od_get_default empty_pool key (av_pools s).

Definition set_pool (key : BookKey) (p : AverageCostPool) (s : AvcoState) : AvcoState :=
  {| av_pools := od_set key p (av_pools s); av_allocation := av_allocation s |}.

(** [self._pools[key]]: inserts an empty pool for a new key. *)
Definition get_pool (key : BookKey) : st AvcoState AverageCostPool := fun s =>
  (Ok (pool_of key s), set_pool key (pool_of key s) s).

(** A method of the pool object of a book. *)
Definition on_pool {A} (key : BookKey) (m : st AverageCostPool A) : st AvcoState A := fun s =>
  let '(r, p) := m (pool_of key s) in (r, set_pool key p s).

(** A method of the allocation object. *)
Definition on_allocation {A} (m : st AverageCostSourceAllocation A) : st AvcoState A := fun s =>
  let '(r, a) := m (av_allocation s) in (r, {| av_pools := av_pools s; av_allocation := a |}).

Definition avco_add_buy_lot (t : CostBasisTransaction) : st AvcoState unit :=
  validated ← st_lift (validated_buy_lot_inputs t);
  match (validated : option (decimal * decimal * decimal)) with
  | None => mret tt
  | Some (quantity, net_cost, net_cost_local) =>
      let key := (ct_portfolio_id t, ct_instrument_id t) in
      _ ← on_pool key (pool_add quantity net_cost_local net_cost);
      original ← st_lift (source_lot_original_quantity t quantity);
      pool ← get_pool key;
      on_allocation (add_source key (ct_transaction_id t) ("LOT-" +:+ ct_transaction_id t) (utc_transaction_date t)
        quantity (Some original) net_cost_local net_cost (ap_quantity pool))
  end.

Definition avco_get_available_quantity (s : AvcoState) (portfolio_id instrument_id : string) : decimal :=
  ap_quantity (pool_of (portfolio_id, instrument_id) s).

(** One source's consumption, before residuals are reconciled. *)
Definition source_delta (states_before states_after : list (string * OpenLotState)) (e : string * AverageCostSourceContribution)
  : result UnreconciledSourceDisposalAllocation :=
  let '(id, c) := e in
  before ← match od_get id states_before with Some st => Ok st | None => Raise (KeyError id) end;
  closed ← make_OpenLotState (sc_quantity c) dzero dzero dzero None;
  let after := default closed (od_get id states_after) in
  quantity ← p_subtract policy (ol_quantity before) (ol_quantity after) "consumed_quantity";
  local ← p_subtract policy (ol_cost_local before) (ol_cost_local after) "disposed_cost_local";
  base ← p_subtract policy (ol_cost_base before) (ol_cost_base after) "disposed_cost_base";
  Ok {| ua_source_lot_id := sc_source_lot_id c; ua_source_transaction_id := id;
        ua_source_acquisition_date := sc_source_acquisition_date c; ua_consumed_quantity := quantity;
        ua_consumed_cost_local := local; ua_consumed_cost_base := base;
        ua_source_original_quantity := ol_original_quantity before; ua_source_open_quantity_before := ol_quantity before |}.

Section Avco.
Context `{hashing : Hashing}.

Definition avco_consume_sell_quantity_with_allocations (portfolio_id instrument_id : string) (sell_quantity : decimal)
  : st AvcoState LotDisposalResult :=
  let key : BookKey := (portfolio_id, instrument_id) in
  pool ← get_pool key;
  let total_qty := ap_quantity pool in
  match non_positive_sell_quantity_error sell_quantity with
  | Some e => st_lift (failed_disposal e)
  | None =>
      if dltb total_qty sell_quantity then
        st_lift (failed_disposal ("Sell quantity (" +:+ string_of_decimal sell_quantity +:+
                   ") exceeds available average cost holdings (" +:+ string_of_decimal total_qty +:+ ")."))
      else if dis_zero total_qty then st_lift (failed_disposal "No holdings to sell against (Average Cost method).")
      else if deqb sell_quantity dzero then st_lift empty_disposal
      else
        sources ← on_allocation (active_source_contributions key);
        states_before ← on_allocation (materialize_book key pool);
        '(cogs_base, cogs_local) ← on_pool key (dispose sell_quantity);
        pool' ← get_pool key;
        _ ← on_allocation (apply_disposal key total_qty (ap_quantity pool'));
        states_after ← on_allocation (materialize_book key pool');
        allocations ← st_lift (mapR (source_delta states_before states_after) sources);
        reconciled ← st_lift (reconcile_disposal_allocation_residuals allocations cogs_base cogs_local sell_quantity);
        st_lift (make_LotDisposalResult cogs_base cogs_local sell_quantity reconciled None)
  end.

Definition avco_restate_lot_quantities (portfolio_id instrument_id : string) (signed_quantity_delta : decimal)
  : st AvcoState LotRestatement :=
  let key : BookKey := (portfolio_id, instrument_id) in
  pool ← get_pool key;
  restatement ← st_lift (from_signed_delta (ap_quantity pool) signed_quantity_delta);
  segment_start_quantity ← st_lift (lr_apply restatement (ap_segment_start_quantity pool) "segment_start_quantity");
  _ ← on_allocation (apply_quantity_restatement key restatement);
  _ ← on_pool key (st_modify (set_quantity (lr_quantity_after restatement)));
  _ ← on_pool key (st_modify (set_segment_quantity segment_start_quantity));
  mret restatement.

(** One source's states around a basis transfer. *)
Definition source_movement (states_before states_after : list (string * OpenLotState)) (e : string * AverageCostSourceContribution)
  : result SourceLotMovement :=
  let '(id, c) := e in
  before ← match od_get id states_before with Some st => Ok st | None => Raise (KeyError id) end;
  after ← match od_get id states_after with Some st => Ok st | None => Raise (KeyError id) end;
  Ok {| sm_lot_id := sc_source_lot_id c; sm_transaction_id := id; sm_acquisition_date := sc_source_acquisition_date c;
        sm_before := before; sm_after := after |}.

Definition avco_transfer_basis_out_with_allocations (portfolio_id instrument_id : string) (cost_base cost_local : decimal)
  : st AvcoState LotBasisTransferResult :=
  let key : BookKey := (portfolio_id, instrument_id) in
  pool ← get_pool key;
  match basis_transfer_amount_error cost_base cost_local (ap_cost_base pool) (ap_cost_local pool) with
  | Some e => st_lift (failed_transfer e)
  | None =>
      states_before ← on_allocation (materialize_book key pool);
      sources ← on_allocation (active_source_contributions key);
      _ ← on_pool key (pool_transfer_basis_out cost_local cost_base);
      pool' ← get_pool key;
      _ ← on_allocation (apply_basis_transfer key (ap_cost_local pool) (ap_cost_local pool') (ap_cost_base pool) (ap_cost_base pool'));
      states_after ← on_allocation (materialize_book key pool');
      movements ← st_lift (mapR (source_movement states_before states_after) sources);
      st_lift (basis_transfer_result movements cost_local cost_base)
  end.

(** [materialize]: the states of all sources of all books, closed ones at zero. *)
Definition source_state (a : AverageCostSourceAllocation) (active : list (string * OpenLotState)) (id : string)
  : result (string * OpenLotState) :=
  c ← contribution_of a id;
  closed ← make_OpenLotState (sc_original_quantity c) dzero dzero dzero None;
  Ok (id, default closed (od_get id active)).

Definition materialize (s : AvcoState) : result (list (string * OpenLotState)) :=
  foldM (fun states e =>
    let '(key, ids) := e in
    sources ← sources_of (av_allocation s) (ids_of key (as_active_source_ids (av_allocation s)));
    active ← materialize_sources (av_allocation s) key (pool_of key s) sources;
    found ← mapR (source_state (av_allocation s) active) ids;
    Ok (fold_left (fun d e => od_set (fst e) (snd e) d) found states)) [] (as_source_ids (av_allocation s)).
End Avco.

#[export] Instance avco_strategy `{hashing : Hashing} : CostBasisStrategy AvcoState := {
  strategy_init := avco_init;
  add_buy_lot := avco_add_buy_lot;
  consume_sell_quantity_with_allocations := avco_consume_sell_quantity_with_allocations;
  get_available_quantity := avco_get_available_quantity;
  restate_lot_quantities := avco_restate_lot_quantities;
  transfer_basis_out_with_allocations := avco_transfer_basis_out_with_allocations;
  get_open_lot_states := materialize
}.

(** ** Checkpoints *)

Definition AVERAGE_COST_POOL_STATE_VERSION := "avco-pool-v1".
Definition AVERAGE_COST_ALLOCATION_STATE_VERSION := "avco-source-allocation-v1".

Record AverageCostPoolCheckpoint := {
  pc_portfolio_id : string; pc_instrument_id : string; pc_security_id : string;
  pc_representative_source_transaction_id : option string;
  pc_quantity : decimal; pc_cost_local : decimal; pc_cost_base : decimal;
  pc_state_version : string; pc_calculation_lineage : option CalculationLineage
}.

Definition require_nonnegative_finite (value : decimal) (field_name : string) : result unit :=
  raise_if (dltb value dzero) (ValueError (field_name +:+ " must be nonnegative")).

Definition make_AverageCostPoolCheckpoint (p : AverageCostPoolCheckpoint) : result AverageCostPoolCheckpoint :=
  _ ← require_nonnegative_finite (pc_quantity p) "Average cost pool quantity";
  _ ← require_nonnegative_finite (pc_cost_local p) "Average cost pool local basis";
  _ ← require_nonnegative_finite (pc_cost_base p) "Average cost pool base basis";
  _ ← raise_if (dltb dzero (pc_quantity p) && negb (truthy (default "" (pc_representative_source_transaction_id p))))
        (ValueError "Positive average cost pool requires representative source lineage");
  _ ← raise_if (deqb (pc_quantity p) dzero && (negb (deqb (pc_cost_local p) dzero) || negb (deqb (pc_cost_base p) dzero)))
        (ValueError "Closed average cost pool must have zero local and base basis");
  Ok p.

Definition is_compatible (p : AverageCostPoolCheckpoint) (portfolio_id instrument_id security_id : string) : bool :=
  String.eqb (pc_state_version p) AVERAGE_COST_POOL_STATE_VERSION && String.eqb (pc_portfolio_id p) portfolio_id &&
  String.eqb (pc_instrument_id p) instrument_id && String.eqb (pc_security_id p) security_id.

Definition as_open_lot_state (p : AverageCostPoolCheckpoint) : result OpenLotState :=
  make_OpenLotState (pc_quantity p) (pc_quantity p) (pc_cost_local p) (pc_cost_base p) None.

Definition sum_state_field (field : OpenLotState -> decimal) (states : list OpenLotState) (field_name : string) : result decimal :=
  foldM (fun (acc : decimal) o => p_add policy acc (Finite (field o)) ("pool_" +:+ field_name)) dzero states.

(** [next((id for id, state in reversed(items) if state.quantity > 0), default)]. *)
Definition last_open_source (states : list (string * OpenLotState)) : option string :=
  match List.find (fun e => dltb dzero (ol_quantity (snd e))) (reverse states) with Some e => Some (fst e) | None => None end.

Definition from_open_lot_states (portfolio_id instrument_id security_id : string) (states : list (string * OpenLotState))
  : result AverageCostPoolCheckpoint :=
  quantity ← sum_state_field ol_quantity (map snd states) "quantity";
  cost_local ← sum_state_field ol_cost_local (map snd states) "cost_local";
  cost_base ← sum_state_field ol_cost_base (map snd states) "cost_base";
  make_AverageCostPoolCheckpoint
    {| pc_portfolio_id := portfolio_id; pc_instrument_id := instrument_id; pc_security_id := security_id;
       pc_representative_source_transaction_id := last_open_source states; pc_quantity := quantity;
       pc_cost_local := cost_local; pc_cost_base := cost_base; pc_state_version := AVERAGE_COST_POOL_STATE_VERSION;
       pc_calculation_lineage := None |}.

Record AverageCostSourceAccumulator := {
  ca_source_transaction_id : string; ca_source_lot_id : string; ca_source_acquisition_date : date;
  ca_source_sequence : Z; ca_generation : Z;
  ca_original_quantity : decimal; ca_quantity : decimal; ca_cost_local : decimal; ca_cost_base : decimal;
  ca_disposal_scale_at_entry : decimal; ca_cost_local_scale_at_entry : decimal; ca_cost_base_scale_at_entry : decimal;
  ca_cost_local_generation : Z; ca_cost_base_generation : Z
}.

Definition require_checkpoint_decimal (value : decimal) (field_name : string) (positive : bool) : result unit :=
  raise_if (dltb value dzero || (positive && deqb value dzero))
    (ValueError (field_name +:+ " must be " +:+ (if positive then "positive" else "nonnegative"))).

Definition require_nonnegative_integer (value : Z) (field_name : string) : result unit :=
  raise_if (value <? 0) (ValueError (field_name +:+ " must be nonnegative")).

Definition make_AverageCostSourceAccumulator (c : AverageCostSourceAccumulator) : result AverageCostSourceAccumulator :=
  id ← require_nonblank (ca_source_transaction_id c) "source_transaction_id";
  lot ← require_nonblank (ca_source_lot_id c) "source_lot_id";
  _ ← require_nonnegative_integer (ca_source_sequence c) "source_sequence";
  _ ← raise_if (ca_source_sequence c <? 1) (ValueError "source_sequence must be positive");
  _ ← require_nonnegative_integer (ca_generation c) "generation";
  _ ← require_nonnegative_integer (ca_cost_local_generation c) "cost_local_generation";
  _ ← require_nonnegative_integer (ca_cost_base_generation c) "cost_base_generation";
  _ ← require_checkpoint_decimal (ca_original_quantity c) "original_quantity" false;
  _ ← require_checkpoint_decimal (ca_quantity c) "quantity" false;
  _ ← require_checkpoint_decimal (ca_cost_local c) "cost_local" false;
  _ ← require_checkpoint_decimal (ca_cost_base c) "cost_base" false;
  _ ← raise_if (dltb (ca_original_quantity c) (ca_quantity c)) (ValueError "AVCO source quantity must not exceed original_quantity");
  _ ← raise_if (deqb (ca_quantity c) dzero) (ValueError "active AVCO source quantity must be positive");
  _ ← require_checkpoint_decimal (ca_disposal_scale_at_entry c) "disposal_scale_at_entry" true;
  _ ← require_checkpoint_decimal (ca_cost_local_scale_at_entry c) "cost_local_scale_at_entry" true;
  _ ← require_checkpoint_decimal (ca_cost_base_scale_at_entry c) "cost_base_scale_at_entry" true;
  Ok {| ca_source_transaction_id := id; ca_source_lot_id := lot;
        ca_source_acquisition_date := ca_source_acquisition_date c; ca_source_sequence := ca_source_sequence c;
        ca_generation := ca_generation c; ca_original_quantity := ca_original_quantity c; ca_quantity := ca_quantity c;
        ca_cost_local := ca_cost_local c; ca_cost_base := ca_cost_base c;
        ca_disposal_scale_at_entry := ca_disposal_scale_at_entry c;
        ca_cost_local_scale_at_entry := ca_cost_local_scale_at_entry c;
        ca_cost_base_scale_at_entry := ca_cost_base_scale_at_entry c;
        ca_cost_local_generation := ca_cost_local_generation c; ca_cost_base_generation := ca_cost_base_generation c |}.

Record AverageCostAllocationCheckpoint := {
  ck_pool : AverageCostPoolCheckpoint;
  ck_segment_start_quantity : decimal; ck_segment_start_cost_local : decimal; ck_segment_start_cost_base : decimal;
  ck_source_allocation_segment_start_quantity : decimal;
  ck_allocation_generation : Z; ck_disposal_scale : decimal; ck_segment_start_scale : decimal;
  ck_cost_local_scale : decimal; ck_cost_base_scale : decimal;
  ck_cost_local_generation : Z; ck_cost_base_generation : Z;
  ck_sources : list AverageCostSourceAccumulator; ck_state_version : string
}.

Definition normalize_checkpoint_value (value : decimal) : result decimal := quantize ctx (cp_rounding policy) value (- cp_scale policy).

(** The total of one field over the sources of the current generation, unrounded until the end. *)
Definition materialized_total (ck : AverageCostAllocationCheckpoint) (value : AverageCostSourceAccumulator -> decimal)
  (scale : option (decimal * (AverageCostSourceAccumulator -> decimal)))
  (generation : option ((AverageCostSourceAccumulator -> Z) * Z)) : result decimal :=
  total ← foldM (fun total source =>
    if match generation with Some (g, current) => negb (g source =? current) | None => false end then Ok total else
    materialized ← mul_div (value source) (ck_disposal_scale ck) (ca_disposal_scale_at_entry source);
    materialized ← match scale with
      | Some (s, at_entry) => mul_div materialized s (at_entry source)
      | None => Ok materialized
      end;
    dadd ctx total materialized) dzero (ck_sources ck);
  normalize_checkpoint_value total.

Definition validate_materialized_totals (ck : AverageCostAllocationCheckpoint) : result unit :=
  let p := ck_pool ck in
  expected_disposal_scale ← mul_div (ck_segment_start_scale ck) (pc_quantity p) (ck_source_allocation_segment_start_quantity ck);
  x ← normalize_checkpoint_value expected_disposal_scale;
  y ← normalize_checkpoint_value (ck_disposal_scale ck);
  _ ← raise_if (negb (deqb x y)) (ValueError "AVCO disposal scale conflicts with source-allocation segment");
  _ ← raise_if (dltb (ck_segment_start_quantity ck) (pc_quantity p)) (ValueError "AVCO pool quantity exceeds its disposal segment");
  local ← mul_div (ck_segment_start_cost_local ck) (pc_quantity p) (ck_segment_start_quantity ck);
  base ← mul_div (ck_segment_start_cost_base ck) (pc_quantity p) (ck_segment_start_quantity ck);
  l ← normalize_checkpoint_value local;
  differs ← (if negb (deqb l (pc_cost_local p)) then Ok true
             else b ← normalize_checkpoint_value base; Ok (negb (deqb b (pc_cost_base p))));
  _ ← raise_if differs (ValueError "AVCO pool costs conflict with disposal segment state");
  expected_quantity ← materialized_total ck ca_quantity None None;
  expected_cost_local ← materialized_total ck ca_cost_local (Some (ck_cost_local_scale ck, ca_cost_local_scale_at_entry))
    (Some (ca_cost_local_generation, ck_cost_local_generation ck));
  expected_cost_base ← materialized_total ck ca_cost_base (Some (ck_cost_base_scale ck, ca_cost_base_scale_at_entry))
    (Some (ca_cost_base_generation, ck_cost_base_generation ck));
  raise_if (negb (deqb expected_quantity (pc_quantity p)) || negb (deqb expected_cost_local (pc_cost_local p)) ||
            negb (deqb expected_cost_base (pc_cost_base p)))
    (ValueError "AVCO source accumulators conflict with aggregate pool state").

Definition any_nonzero (xs : list decimal) : bool := existsb (fun x => negb (dis_zero x)) xs.

Definition make_AverageCostAllocationCheckpoint (ck : AverageCostAllocationCheckpoint) : result AverageCostAllocationCheckpoint :=
  _ ← require_checkpoint_decimal (ck_segment_start_quantity ck) "segment_start_quantity" false;
  _ ← require_checkpoint_decimal (ck_segment_start_cost_local ck) "segment_start_cost_local" false;
  _ ← require_checkpoint_decimal (ck_segment_start_cost_base ck) "segment_start_cost_base" false;
  _ ← require_checkpoint_decimal (ck_source_allocation_segment_start_quantity ck) "source_allocation_segment_start_quantity" false;
  _ ← require_nonnegative_integer (ck_allocation_generation ck) "allocation_generation";
  _ ← require_nonnegative_integer (ck_cost_local_generation ck) "cost_local_generation";
  _ ← require_nonnegative_integer (ck_cost_base_generation ck) "cost_base_generation";
  _ ← require_checkpoint_decimal (ck_disposal_scale ck) "disposal_scale" true;
  _ ← require_checkpoint_decimal (ck_segment_start_scale ck) "segment_start_scale" true;
  _ ← require_checkpoint_decimal (ck_cost_local_scale ck) "cost_local_scale" true;
  _ ← require_checkpoint_decimal (ck_cost_base_scale ck) "cost_base_scale" true;
  _ ← raise_if (negb (String.eqb (ck_state_version ck) AVERAGE_COST_ALLOCATION_STATE_VERSION))
        (ValueError "unsupported AVCO source-allocation checkpoint version");
  let source_ids := map ca_source_transaction_id (ck_sources ck) in
  _ ← raise_if (negb (bool_decide (NoDup source_ids)) || negb (bool_decide (NoDup (map ca_source_lot_id (ck_sources ck)))))
        (ValueError "AVCO source-allocation identities must be unique");
  _ ← raise_if (negb (bool_decide (map ca_source_sequence (ck_sources ck) = ordinals_from_one (length (ck_sources ck)))))
        (ValueError "AVCO source sequences must be contiguous from one");
  _ ← raise_if (existsb (fun c => negb (ca_generation c =? ck_allocation_generation ck)) (ck_sources ck))
        (ValueError "active AVCO sources must match the allocation generation");
  _ ← raise_if (existsb (fun c => (ck_cost_local_generation ck <? ca_cost_local_generation c) ||
                                  (ck_cost_base_generation ck <? ca_cost_base_generation c)) (ck_sources ck))
        (ValueError "active AVCO source cost generation cannot be in the future");
  if deqb (pc_quantity (ck_pool ck)) dzero then
    _ ← raise_if (match ck_sources ck with [] => false | _ => true end)
          (ValueError "closed AVCO checkpoint cannot retain active sources");
    _ ← raise_if (any_nonzero [ck_segment_start_quantity ck; ck_segment_start_cost_local ck; ck_segment_start_cost_base ck;
                               ck_source_allocation_segment_start_quantity ck])
          (ValueError "closed AVCO checkpoint must have zero segment state");
    Ok ck
  else
    _ ← raise_if (match ck_sources ck with [] => true | _ => false end)
          (ValueError "open AVCO checkpoint requires active source accumulators");
    _ ← raise_if (match pc_representative_source_transaction_id (ck_pool ck) with
                  | Some r => negb (bool_decide (r ∈ source_ids)) | None => true end)
          (ValueError "AVCO representative source is absent from the accumulator");
    _ ← raise_if (dleb (ck_segment_start_quantity ck) dzero) (ValueError "open AVCO checkpoint requires positive segment quantity");
    _ ← raise_if (dleb (ck_source_allocation_segment_start_quantity ck) dzero)
          (ValueError "open AVCO checkpoint requires positive source-allocation segment");
    _ ← validate_materialized_totals ck;
    Ok ck.

(** The accumulator of the [n]th active source. *)
Definition source_accumulator (n : Z) (e : string * AverageCostSourceContribution) : result AverageCostSourceAccumulator :=
  let '(id, c) := e in
  make_AverageCostSourceAccumulator
    {| ca_source_transaction_id := id; ca_source_lot_id := sc_source_lot_id c;
       ca_source_acquisition_date := sc_source_acquisition_date c; ca_source_sequence := n; ca_generation := sc_generation c;
       ca_original_quantity := sc_original_quantity c; ca_quantity := sc_quantity c;
       ca_cost_local := sc_cost_local c; ca_cost_base := sc_cost_base c;
       ca_disposal_scale_at_entry := sc_disposal_scale_at_entry c;
       ca_cost_local_scale_at_entry := sc_cost_local_scale_at_entry c;
       ca_cost_base_scale_at_entry := sc_cost_base_scale_at_entry c;
       ca_cost_local_generation := sc_cost_local_generation c; ca_cost_base_generation := sc_cost_base_generation c |}.

Fixpoint source_accumulators (n : Z) (sources : Sources) : result (list AverageCostSourceAccumulator) :=
  match sources with
  | [] => Ok []
  | e :: rest => c ← source_accumulator n e; cs ← source_accumulators (n + 1) rest; Ok (c :: cs)
  end.

Definition export_checkpoint (key : BookKey) (security_id : string) (pool : AverageCostPool)
  : st AverageCostSourceAllocation AverageCostAllocationCheckpoint :=
  active_sources ← active_source_contributions key;
  a ← st_get;
  let representative := if dltb dzero (ap_quantity pool) then option_map fst (last active_sources) else None in
  pool_checkpoint ← st_lift (make_AverageCostPoolCheckpoint
    {| pc_portfolio_id := fst key; pc_instrument_id := snd key; pc_security_id := security_id;
       pc_representative_source_transaction_id := representative; pc_quantity := ap_quantity pool;
       pc_cost_local := ap_cost_local pool; pc_cost_base := ap_cost_base pool;
       pc_state_version := AVERAGE_COST_POOL_STATE_VERSION; pc_calculation_lineage := None |});
  let is_closed := dis_zero (ap_quantity pool) in
  sources ← st_lift (source_accumulators 1 active_sources);
  st_lift (make_AverageCostAllocationCheckpoint
    {| ck_pool := pool_checkpoint;
       ck_segment_start_quantity := if is_closed then dzero else ap_segment_start_quantity pool;
       ck_segment_start_cost_local := if is_closed then dzero else ap_segment_start_cost_local pool;
       ck_segment_start_cost_base := if is_closed then dzero else ap_segment_start_cost_base pool;
       ck_source_allocation_segment_start_quantity := if is_closed then dzero else amount_of key (as_segment_start_quantity a);
       ck_allocation_generation := gen_of key (as_generation a);
       ck_disposal_scale := scale_of key (as_disposal_scale a);
       ck_segment_start_scale := scale_of key (as_segment_start_scale a);
       ck_cost_local_scale := scale_of key (as_cost_local_scale a);
       ck_cost_base_scale := scale_of key (as_cost_base_scale a);
       ck_cost_local_generation := gen_of key (as_cost_local_generation a);
       ck_cost_base_generation := gen_of key (as_cost_base_generation a);
       ck_sources := sources; ck_state_version := AVERAGE_COST_ALLOCATION_STATE_VERSION |}).

Definition restored_contribution (key : BookKey) (c : AverageCostSourceAccumulator) : string * AverageCostSourceContribution :=
  (ca_source_transaction_id c,
   {| sc_book_key := key; sc_source_lot_id := ca_source_lot_id c; sc_source_acquisition_date := ca_source_acquisition_date c;
      sc_generation := ca_generation c; sc_original_quantity := ca_original_quantity c; sc_quantity := ca_quantity c;
      sc_cost_local := ca_cost_local c; sc_cost_base := ca_cost_base c;
      sc_disposal_scale_at_entry := ca_disposal_scale_at_entry c;
      sc_cost_local_scale_at_entry := ca_cost_local_scale_at_entry c;
      sc_cost_base_scale_at_entry := ca_cost_base_scale_at_entry c;
      sc_cost_local_generation := ca_cost_local_generation c; sc_cost_base_generation := ca_cost_base_generation c |}).

Definition restore_checkpoint (ck : AverageCostAllocationCheckpoint) : st AverageCostSourceAllocation AverageCostPool :=
  a ← st_get;
  _ ← st_lift (raise_if (match as_contributions a with [] => false | _ => true end)
                 (ValueError "AVCO source-allocation restore requires an empty engine"));
  let key : BookKey := (pc_portfolio_id (ck_pool ck), pc_instrument_id (ck_pool ck)) in
  _ ← st_lift (raise_if (match od_get key (as_source_ids a), od_get key (as_active_source_ids a) with None, None => false | _, _ => true end)
                 (ValueError "AVCO source-allocation checkpoint book already exists"));
  let restored := map (restored_contribution key) (ck_sources ck) in
  _ ← st_modify (fun a => with_contributions (fold_left (fun d e => od_set (fst e) (snd e) d) restored (as_contributions a)) a);
  let source_ids := map fst restored in
  _ ← st_modify (fun a => with_source_ids (od_set key source_ids (as_source_ids a)) a);
  _ ← st_modify (fun a => with_active_source_ids (od_set key source_ids (as_active_source_ids a)) a);
  _ ← st_modify (fun a => with_generation (od_set key (ck_allocation_generation ck) (as_generation a)) a);
  _ ← st_modify (fun a => with_disposal_scale (od_set key (ck_disposal_scale ck) (as_disposal_scale a)) a);
  _ ← st_modify (fun a => with_segment_start_scale (od_set key (ck_segment_start_scale ck) (as_segment_start_scale a)) a);
  _ ← st_modify (fun a => with_segment_start_quantity
         (od_set key (ck_source_allocation_segment_start_quantity ck) (as_segment_start_quantity a)) a);
  _ ← st_modify (fun a => with_cost_local_scale (od_set key (ck_cost_local_scale ck) (as_cost_local_scale a)) a);
  _ ← st_modify (fun a => with_cost_base_scale (od_set key (ck_cost_base_scale ck) (as_cost_base_scale a)) a);
  _ ← st_modify (fun a => with_cost_local_generation (od_set key (ck_cost_local_generation ck) (as_cost_local_generation a)) a);
  _ ← st_modify (fun a => with_cost_base_generation (od_set key (ck_cost_base_generation ck) (as_cost_base_generation a)) a);
  mret {| ap_quantity := pc_quantity (ck_pool ck); ap_cost_local := pc_cost_local (ck_pool ck); ap_cost_base := pc_cost_base (ck_pool ck);
          ap_segment_start_quantity := ck_segment_start_quantity ck; ap_segment_start_cost_local := ck_segment_start_cost_local ck;
          ap_segment_start_cost_base := ck_segment_start_cost_base ck |}.

Definition export_allocation_checkpoint (portfolio_id instrument_id security_id : string)
  : st AvcoState AverageCostAllocationCheckpoint :=
  let key : BookKey := (portfolio_id, instrument_id) in
  s ← st_get;
  match od_get key (av_pools s) with
  | None => st_lift (Raise (ValueError "Average cost allocation checkpoint book was not found"))
  | Some pool => on_allocation (export_checkpoint key security_id pool)
  end.

Definition from_allocation_checkpoint (ck : AverageCostAllocationCheckpoint) : result AvcoState :=
  let key : BookKey := (pc_portfolio_id (ck_pool ck), pc_instrument_id (ck_pool ck)) in
  match restore_checkpoint ck allocation_init with
  | (Ok pool, a) => Ok {| av_pools := [(key, pool)]; av_allocation := a |}
  | (Raise e, _) => Raise e
  end.
