(* ===== verification/AvcoFacts.v ===== *)
(** * The average-cost pool and its sources: correctness

    What [AverageCostPool.dispose] books, that materialised sources add up to their pool, and that a
    book restored from its checkpoint continues as the original would. *)

From Stdlib Require Import ZArith Lia QArith String.
From stdpp Require Import base tactics list sets strings.
From S2P Require Import Prelude PyDecimal DecimalFacts PyTime Precision Lineage Transactions Lots CostBasis Avco.

#[local] Open Scope string_scope.
#[local] Open Scope Z_scope.

#[local] Notation policy := COST_BASIS_STATE_LEDGER_OUTPUT_V1.
#[local] Notation ctx := (arithmetic_context policy).

(** ** The pool *)

(** The cost of [q] units of a segment of [t] units carrying [c]: the exact ratio rounded half-even
    once. *)
Definition prorated (c q t : Z) : Z := if q =? 0 then 0 else round_coeff ROUND_HALF_EVEN (c * q) t.

Lemma prorated_full c q : 0 < q -> prorated c q q = c.
Proof. intros Hq. unfold prorated. rewrite (proj2 (Z.eqb_neq q 0)) by lia. by apply round_coeff_multiple. Qed.

Lemma prorated_mono c q q' t : 0 <= c -> 0 <= q <= q' -> 0 < t -> prorated c q t <= prorated c q' t.
Proof.
  intros Hc Hq Ht. unfold prorated. destruct (Z.eqb_spec q 0), (Z.eqb_spec q' 0); try lia.
  - apply round_coeff_nonneg; nia.
  - apply round_coeff_mono; nia.
Qed.

Lemma prorated_bounds c q t : 0 <= c -> 0 <= q <= t -> 0 < t -> 0 <= prorated c q t <= c.
Proof.
  intros Hc Hq Ht. split; [|pose proof (prorated_mono c q t t Hc ltac:(lia) Ht) as H; by rewrite prorated_full in H].
  apply Z.le_trans with (prorated c 0 t); [done|]. apply prorated_mono; lia.
Qed.

(** A pool whose costs are those of what is left of its current disposal segment. *)
Record pool_ok (p : AverageCostPool) : Prop := {
  po_quantity : stored (ap_quantity p);
  po_cost_local : stored (ap_cost_local p);
  po_cost_base : stored (ap_cost_base p);
  po_segment_quantity : stored (ap_segment_start_quantity p);
  po_segment_local : stored (ap_segment_start_cost_local p) /\ 0 <= ul (ap_segment_start_cost_local p);
  po_segment_base : stored (ap_segment_start_cost_base p) /\ 0 <= ul (ap_segment_start_cost_base p);
  po_range : 0 <= ul (ap_quantity p) <= ul (ap_segment_start_quantity p);
  po_local : ul (ap_cost_local p) = prorated (ul (ap_segment_start_cost_local p)) (ul (ap_quantity p)) (ul (ap_segment_start_quantity p));
  po_base : ul (ap_cost_base p) = prorated (ul (ap_segment_start_cost_base p)) (ul (ap_quantity p)) (ul (ap_segment_start_quantity p))
}.

Definition same_segment (p p' : AverageCostPool) : Prop :=
  ap_segment_start_quantity p' = ap_segment_start_quantity p /\
  ap_segment_start_cost_local p' = ap_segment_start_cost_local p /\
  ap_segment_start_cost_base p' = ap_segment_start_cost_base p.

Lemma mul_div_prorated c q t f :
  stored c -> 0 <= ul c -> stored q -> stored t -> 0 < ul q <= ul t ->
  exists w n, mul_div c q t = Ok w /\ normalize policy (Finite w) f = Ok n /\ stored n /\ ul n = prorated (ul c) (ul q) (ul t).
Proof.
  intros Sc Pc Sq St Hq.
  destruct (proportional_share (cp_name policy) c _ q _ t _ Sc Pc Sq St ltac:(lia) ltac:(lia)) as (p & w & Hp & Hw & Ew & Bw).
  change (dmul ctx c q = Ok p) in Hp. change (ddiv ctx p t = Ok w) in Hw. change (ul w = round_coeff ROUND_HALF_EVEN (ul c * ul q) (ul t)) in Ew.
  change (0 <= ul w <= ul c) in Bw. unfold mul_div. rewrite Hp. cbn [mbind result_bind]. exists w.
  destruct (normalize_total policy (ledger_policy_wf _) w f) as [Hn _].
  destruct Hn as (n & Hn & Hu); [change (Z.abs (ul w) < 10 ^ 18); destruct Sc; lia|].
  assert (Ln : ledger n (ul w)) by (split; [exact Hu|destruct Sc; lia]).
  exists n. split; [done|]. split; [done|]. split; [by eapply ledger_stored|].
  rewrite (ledger_ul _ _ Ln), Ew. unfold prorated. by rewrite (proj2 (Z.eqb_neq _ _)) by lia.
Qed.

Lemma rebook_spec qa p :
  pool_ok p -> stored qa -> 0 <= ul qa <= ul (ap_quantity p) -> 0 < ul (ap_quantity p) ->
  exists cl cb, rebook_segment qa p = (Ok tt, set_cost_base cb (set_cost_local cl p)) /\
    stored cl /\ ul cl = prorated (ul (ap_segment_start_cost_local p)) (ul qa) (ul (ap_segment_start_quantity p)) /\
    stored cb /\ ul cb = prorated (ul (ap_segment_start_cost_base p)) (ul qa) (ul (ap_segment_start_quantity p)).
Proof.
  intros [Sq Sl Sb Ssq [Ssl Psl] [Ssb Psb] Hr El Eb] Sqa Hqa Hpos. unfold rebook_segment. rewrite st_get_run, (stored_dis_zero _ Sqa).
  destruct (Z.eqb_spec (ul qa) 0) as [E|E].
  - exists dzero, dzero. rewrite E, ul_dzero. split_and!; done || apply stored_dzero.
  - destruct (mul_div_prorated (ap_segment_start_cost_local p) qa (ap_segment_start_quantity p) "pool_cost_local")
      as (wl & cl & H1 & H2 & H3 & H4); try done; [lia|].
    destruct (mul_div_prorated (ap_segment_start_cost_base p) qa (ap_segment_start_quantity p) "pool_cost_base")
      as (wb & cb & H5 & H6 & H7 & H8); try done; [lia|].
    exists cl, cb. by rewrite (st_lift_run _ _ _ _ H1), (st_lift_run _ _ _ _ H5), (st_lift_run _ _ _ _ H2), st_modify_run,
      (st_lift_run _ _ _ _ H6).
Qed.

(** A disposal out of the pool. *)
Lemma dispose_spec d p :
  pool_ok p -> stored d -> 0 < ul d <= ul (ap_quantity p) ->
  exists b l p', dispose d p = (Ok (b, l), p') /\ pool_ok p' /\ same_segment p p' /\
    ul (ap_quantity p') = ul (ap_quantity p) - ul d /\
    stored b /\ ul b = ul (ap_cost_base p) - ul (ap_cost_base p') /\ 0 <= ul b /\
    stored l /\ ul l = ul (ap_cost_local p) - ul (ap_cost_local p') /\ 0 <= ul l.
Proof.
  intros Hp Sd Hd. pose proof Hp as [Sq Sl Sb Ssq [Ssl Psl] [Ssb Psb] Hr El Eb]. unfold dispose. rewrite st_get_run.
  destruct (cost_sub_total _ _ "pool_quantity" Sq Sd) as (qa & Hqa & Sqa & Eqa); [destruct Sq; lia|].
  rewrite (st_lift_run _ _ _ _ Hqa).
  destruct (rebook_spec qa p Hp Sqa ltac:(lia) ltac:(lia)) as (cl & cb & Hrun & Scl & Ecl & Scb & Ecb).
  rewrite (st_bind_run _ _ _ _ _ Hrun), st_modify_run, st_get_run.
  cbn [ap_cost_base ap_cost_local set_quantity set_cost_base set_cost_local].
  pose proof (prorated_mono _ (ul qa) (ul (ap_quantity p)) (ul (ap_segment_start_quantity p)) Psl ltac:(lia) ltac:(lia)).
  pose proof (prorated_mono _ (ul qa) (ul (ap_quantity p)) (ul (ap_segment_start_quantity p)) Psb ltac:(lia) ltac:(lia)).
  pose proof (prorated_bounds _ (ul qa) (ul (ap_segment_start_quantity p)) Psl ltac:(lia) ltac:(lia)).
  pose proof (prorated_bounds _ (ul qa) (ul (ap_segment_start_quantity p)) Psb ltac:(lia) ltac:(lia)).
  destruct (cost_sub_total (ap_cost_base p) cb "disposed_cost_base" Sb Scb) as (b & Hb & Sb' & Eb'); [destruct Sb; lia|].
  destruct (cost_sub_total (ap_cost_local p) cl "disposed_cost_local" Sl Scl) as (l & Hl & Sl' & El'); [destruct Sl; lia|].
  rewrite (st_lift_run _ _ _ _ Hb), (st_lift_run _ _ _ _ Hl). eexists b, l, _. split; [reflexivity|].
  simpl. split; [|split_and!; done || lia]. constructor; simpl; done || lia.
Qed.

(** A purchase starts a new segment. *)
Lemma pool_add_spec q l b p :
  pool_ok p -> stored q -> stored l -> stored b -> 0 < ul q -> 0 <= ul l -> 0 <= ul b ->
  ul (ap_quantity p) + ul q < 10 ^ 18 -> ul (ap_cost_local p) + ul l < 10 ^ 18 -> ul (ap_cost_base p) + ul b < 10 ^ 18 ->
  exists p', pool_add q l b p = (Ok tt, p') /\ pool_ok p' /\ ul (ap_quantity p') = ul (ap_quantity p) + ul q /\
    ul (ap_cost_local p') = ul (ap_cost_local p) + ul l /\ ul (ap_cost_base p') = ul (ap_cost_base p) + ul b.
Proof.
  intros [Sq Sl Sb Ssq [Ssl Psl] [Ssb Psb] Hr El Eb] Sq' Sl' Sb' Pq Pl Pb B1 B2 B3.
  assert (Hn : 0 <= ul (ap_cost_local p) /\ 0 <= ul (ap_cost_base p)).
  { rewrite El, Eb. unfold prorated. destruct (Z.eqb_spec (ul (ap_quantity p)) 0); [lia|].
    split; apply round_coeff_nonneg; nia. }
  unfold pool_add. rewrite st_get_run.
  destruct (cost_add_total _ _ "pool_quantity" Sq Sq') as (q1 & H1 & S1 & E1); [lia|].
  destruct (cost_add_total _ _ "pool_cost_local" Sl Sl') as (l1 & H2 & S2 & E2); [lia|].
  destruct (cost_add_total _ _ "pool_cost_base" Sb Sb') as (b1 & H3 & S3 & E3); [lia|].
  rewrite (st_lift_run _ _ _ _ H1), st_modify_run, (st_lift_run _ _ _ _ H2), st_modify_run, (st_lift_run _ _ _ _ H3), st_modify_run.
  eexists. split; [reflexivity|]. simpl. split; [|lia].
  constructor; simpl; try done; rewrite ?prorated_full; lia || (split; [done|lia]).
Qed.

Lemma dispose_many ds : forall p,
  pool_ok p -> Forall (fun d => stored d /\ 0 < ul d) ds -> zsum (map ul ds) <= ul (ap_quantity p) ->
  exists rs p', st_map dispose ds p = (Ok rs, p') /\ pool_ok p' /\ same_segment p p' /\
    ul (ap_quantity p') = ul (ap_quantity p) - zsum (map ul ds) /\
    Forall (fun r => 0 <= ul (fst r) /\ 0 <= ul (snd r)) rs /\
    zsum (map (fun r => ul (fst r)) rs) = ul (ap_cost_base p) - ul (ap_cost_base p') /\
    zsum (map (fun r => ul (snd r)) rs) = ul (ap_cost_local p) - ul (ap_cost_local p').
Proof.
  induction ds as [|d ds IH]; intros p Hp HF Hs; cbn [map] in *; rewrite ?zsum_nil, ?zsum_cons in *.
  - exists [], p. split; [done|]. cbn [map]. rewrite !zsum_nil. split_and!; done || lia.
  - apply Forall_cons in HF as [[Sd Pd] HF].
    assert (0 <= zsum (map ul ds)) by (apply zsum_map_nonneg; eapply Forall_impl; [exact HF|]; simpl; intros ? [_ ?]; lia).
    destruct (dispose_spec d p Hp Sd ltac:(lia)) as (b & l & p1 & Hrun & Hp1 & (G1 & G2 & G3) & Eq & Sb & Eb & Pb & Sl & El & Pl).
    destruct (IH p1 Hp1 HF ltac:(lia)) as (rs & p' & Hrun' & Hp' & (K1 & K2 & K3) & Eq' & Hn & Eb' & El').
    exists ((b, l) :: rs), p'. cbn [st_map]. rewrite (st_bind_run _ _ _ _ _ Hrun), (st_bind_run _ _ _ _ _ Hrun').
    split; [done|]. split; [done|]. split; [unfold same_segment; by rewrite K1, K2, K3|]. split; [lia|].
    split; [by constructor|]. cbn [map fst snd]. rewrite !zsum_cons. lia.
Qed.

(** ** Materialised sources *)

(** A share is stored, not negative and within what is left of the aggregate. *)
Lemma share_inv candidate aggregate allocated f d :
  stored aggregate -> stored allocated ->
  allocate_nonnegative_storage_share candidate aggregate allocated f = Ok d ->
  stored d /\ 0 <= ul d <= ul aggregate - ul allocated.
Proof.
  intros Sg Sa. unfold allocate_nonnegative_storage_share.
  intros (n & Hn & (left & Hl & (u & Hr%raise_if_Ok & [= <-])%bind_Ok)%bind_Ok)%bind_Ok.
  destruct (cost_sub_stored _ _ _ _ Sg Sa Hl) as [Sl El].
  assert (Ln : stored n) by (eapply ledger_stored, ledger_of_normalize, Hn).
  apply orb_false_iff in Hr as [H1 H2]. rewrite (stored_dltb _ _ Ln stored_dzero), ul_dzero in H1.
  rewrite (stored_dltb _ _ Sl stored_dzero), ul_dzero in H2.
  pose proof (ledger_min _ _ _ _ Ln Sl) as Hm. rewrite (ledger_ul _ _ Hm). split; [by eapply ledger_stored|lia].
Qed.

(** What the source lots admit. *)
Definition source_ok (e : string * AverageCostSourceContribution) : Prop :=
  stored (sc_original_quantity (snd e)) /\ 0 <= ul (sc_original_quantity (snd e)).

Definition original_units (e : string * AverageCostSourceContribution) : Z := ul (sc_original_quantity (snd e)).

(** Quantities of the sources [es], in order, each within the authority of its source. *)
Definition quantities_ok (es : Sources) (qs : list (string * decimal)) : Prop :=
  Forall2 (fun e q => fst q = fst e /\ stored (snd q) /\ 0 <= ul (snd q) <= original_units e) es qs.

Definition quantity_units (qs : list (string * decimal)) : Z := zsum (map (fun q => ul (snd q)) qs).

Lemma quantities_keys es qs : quantities_ok es qs -> qs.*1 = es.*1.
Proof. induction 1 as [|e q es qs [E _] HF IH]; [done|]. cbn. by rewrite E, IH. Qed.

Lemma quantity_inv c g factor aggregate allocated q :
  stored aggregate -> stored allocated -> 0 <= ul allocated <= ul aggregate ->
  stored (sc_original_quantity c) -> 0 <= ul (sc_original_quantity c) ->
  materialized_quantity c g factor aggregate allocated = Ok q ->
  stored q /\ 0 <= ul q <= ul (sc_original_quantity c) /\ ul q <= ul aggregate - ul allocated.
Proof.
  intros Sg Sa Ha So Po. unfold materialized_quantity. destruct (negb _).
  - intros [= <-]. rewrite ul_dzero. split; [apply stored_dzero|]. lia.
  - intros (p & _ & (r & _ & (b & Hb & [= <-])%bind_Ok)%bind_Ok)%bind_Ok.
    destruct (share_inv _ _ _ _ _ Sg Sa Hb) as [Sb Bb]. pose proof (ledger_min _ _ _ _ Sb So) as Hm. rewrite (ledger_ul _ _ Hm).
    split; [by eapply ledger_stored|]. lia.
Qed.

Lemma materialized_quantities_inv a g aggregate : stored aggregate -> forall es done_es qs allocated qs' total,
  NoDup ((done_es ++ es)%list).*1 -> Forall source_ok es -> quantities_ok done_es qs ->
  stored allocated -> ul allocated = quantity_units qs -> 0 <= ul allocated <= ul aggregate ->
  materialized_quantities a g aggregate es qs allocated = Ok (qs', total) ->
  quantities_ok (done_es ++ es)%list qs' /\ stored total /\ ul total = quantity_units qs' /\ ul total <= ul aggregate.
Proof.
  intros Sg. induction es as [|[id c] es IH]; intros done_es qs allocated qs' total Hnd HF Hq Sa Ea Ha H; cbn [materialized_quantities] in H.
  - injection H as <- <-. rewrite app_nil_r. split_and!; done || lia.
  - apply bind_Ok in H as (f & _ & (q & Hmq & (al & Hal & H)%bind_Ok)%bind_Ok). apply Forall_cons in HF as [[So Po] HF].
    destruct (quantity_inv _ _ _ _ _ _ Sg Sa Ha So Po Hmq) as (Sq & Bq & Bq'). simpl in Bq.
    destruct (cost_add_stored _ _ _ _ Sa Sq Hal) as [Sal Eal].
    assert (Hfresh : id ∉ qs.*1).
    { rewrite (quantities_keys _ _ Hq). rewrite fmap_app in Hnd. apply NoDup_app in Hnd as (_ & Hd & _).
      intros Hin. apply (Hd id Hin). cbn. set_solver. }
    rewrite (od_set_fresh _ _ _ Hfresh) in H.
    destruct (IH (done_es ++ [(id, c)])%list (qs ++ [(id, q)])%list al qs' total) as (R1 & R2 & R3 & R4); try done.
    + by rewrite <- app_assoc.
    + apply Forall2_app; [done|]. constructor; [|done]. by split_and!; simpl; try done; unfold original_units; simpl; lia.
    + unfold quantity_units in *. rewrite map_app, zsum_app. cbn [map snd]. rewrite zsum_cons, zsum_nil. lia.
    + lia.
    + by rewrite <- app_assoc in R1.
Qed.

Lemma quantity_lookup es qs id c :
  NoDup es.*1 -> quantities_ok es qs -> (id, c) ∈ es ->
  exists q, od_get id qs = Some q /\ stored q /\ 0 <= ul q <= ul (sc_original_quantity c).
Proof.
  intros Hnd HF. induction HF as [|[id' c'] [k q] es qs (E & Sq & Bq) HF IH]; [by intros ?%elem_of_nil|]. simpl in E. subst k.
  cbn in Hnd. apply NoDup_cons in Hnd as [Hn Hnd]. rewrite elem_of_cons. intros [[= -> ->]|Hin]; cbn [od_get].
  - rewrite decide_True by done. exists q. split; [done|]. split; [done|exact Bq].
  - rewrite decide_False; [by apply IH|]. intros ->. apply Hn. by apply (list_elem_of_fmap_2 fst) in Hin.
Qed.

Lemma quantity_update es qs id c q q' :
  NoDup es.*1 -> quantities_ok es qs -> (id, c) ∈ es -> od_get id qs = Some q ->
  stored q' -> 0 <= ul q' <= ul (sc_original_quantity c) ->
  quantities_ok es (od_set id q' qs) /\ quantity_units (od_set id q' qs) = quantity_units qs - ul q + ul q'.
Proof.
  intros Hnd HF. induction HF as [|[id' c'] [k x] es qs (E & Sq & Bq) HF IH]; [by intros ?%elem_of_nil|]. simpl in E. subst k.
  cbn in Hnd. apply NoDup_cons in Hnd as [Hn Hnd]. rewrite elem_of_cons. unfold quantity_units in *. intros [[= -> ->]|Hin]; cbn [od_get od_set].
  - rewrite !decide_True by done. intros [= ->] Sq' Bq'. split; [constructor; [|done]; by split_and!; simpl; try done; unfold original_units; simpl; lia|].
    cbn [map snd]. rewrite !zsum_cons. lia.
  - rewrite !decide_False by (intros ->; apply Hn; by apply (list_elem_of_fmap_2 fst) in Hin). intros Hg Sq' Bq'.
    destruct (IH Hnd Hin Hg Sq' Bq') as [R1 R2]. split; [by constructor|]. cbn [map snd]. rewrite !zsum_cons. lia.
Qed.

Lemma residual_inv g es : NoDup es.*1 -> Forall source_ok es -> forall rs qs remaining qs',
  (forall e, e ∈ rs -> e ∈ es) -> quantities_ok es qs -> stored remaining -> 0 <= ul remaining ->
  assign_residual_loop g rs qs remaining = Ok qs' ->
  quantities_ok es qs' /\ quantity_units qs' = quantity_units qs + ul remaining.
Proof.
  intros Hnd HO. induction rs as [|[id c] rs IH]; intros qs remaining qs' Hsub Hq Sr Pr H; cbn [assign_residual_loop] in H.
  - apply bind_Ok in H as (u & Hz%raise_if_Ok & [= <-]). apply negb_false_iff in Hz.
    rewrite (stored_deqb _ _ Sr stored_dzero), ul_dzero in Hz. split; [done|]. lia.
  - destruct (deqb remaining dzero) eqn:Ez.
    { injection H as <-. rewrite (stored_deqb _ _ Sr stored_dzero), ul_dzero in Ez. split; [done|lia]. }
    destruct (negb _); [apply (IH qs remaining); try done; set_solver|].
    assert (Hin : (id, c) ∈ es) by (apply Hsub; set_solver).
    destruct (quantity_lookup es qs id c Hnd Hq Hin) as (q & Hg & Sq & Bq). unfold quantity_of in H. rewrite Hg in H. cbn [mbind result_bind] in H.
    assert (So : stored (sc_original_quantity c)) by (eapply Forall_forall in HO; [|exact Hin]; apply HO).
    apply bind_Ok in H as (hd & Hh & (tot & Ht & (rem & Hrem & H)%bind_Ok)%bind_Ok).
    destruct (cost_sub_stored _ _ _ _ So Sq Hh) as [Sh Eh]. pose proof (ledger_min _ _ _ _ Sr Sh) as Hm.
    pose proof (ledger_ul _ _ Hm) as Em. apply ledger_stored in Hm.
    destruct (cost_add_stored _ _ _ _ Sq Hm Ht) as [St Et]. destruct (cost_sub_stored _ _ _ _ Sr Hm Hrem) as [Srem Erem].
    destruct (quantity_update es qs id c q tot Hnd Hq Hin Hg St ltac:(lia)) as [R1 R2].
    destruct (IH (od_set id tot qs) rem qs') as [R3 R4]; try done; [set_solver|lia|]. split; [done|lia].
Qed.

(** A source carries cost when it has a quantity and its cost generation is the current one. *)
Definition carries (gen : AverageCostSourceContribution -> Z) (g : Z) (qs : list (string * decimal))
  (e : string * AverageCostSourceContribution) : bool :=
  match od_get (fst e) qs with Some q => (0 <? ul q) && (gen (snd e) =? g) | None => false end.

(** The remaining sources [es] and the allocated cost [al]: either the last carrying source is still to
    come and will take the residual, or the allocation is complete. *)
Definition pending (elig : string * AverageCostSourceContribution -> bool) (last : option string) (aggregate al : Z) (es : Sources) : Prop :=
  (Forall (fun e => elig e = false) es /\ al = match last with None => 0 | Some _ => aggregate end) \/
  (exists id es1 c es2, last = Some id /\ es = (es1 ++ (id, c) :: es2)%list /\ elig (id, c) = true /\ Forall (fun e => elig e = false) es2).

Lemma last_cost_source_inv gen g qs full : NoDup full.*1 -> quantities_ok full qs -> forall es prior last r aggregate,
  full = (prior ++ es)%list -> (forall al, al = 0 -> pending (carries gen g qs) last aggregate al prior) ->
  last_cost_source gen g es qs last = Ok r ->
  forall al, al = 0 -> pending (carries gen g qs) r aggregate al full.
Proof.
  intros Hnd Hq. induction es as [|[id c] es IH]; intros prior last r aggregate Hfull Hp H; cbn [last_cost_source] in H.
  - injection H as <-. rewrite app_nil_r in Hfull. by subst.
  - assert (Hin : (id, c) ∈ full) by (rewrite Hfull; set_solver).
    destruct (quantity_lookup full qs id c Hnd Hq Hin) as (q & Hg & Sq & Bq). unfold quantity_of in H. rewrite Hg in H. cbn [mbind result_bind] in H.
    rewrite (stored_dleb _ _ Sq stored_dzero), ul_dzero in H.
    assert (Hc : carries gen g qs (id, c) = (0 <? ul q) && (gen c =? g)) by (unfold carries; simpl; by rewrite Hg).
    assert (Hskip : carries gen g qs (id, c) = false -> forall al, al = 0 -> pending (carries gen g qs) last aggregate al (prior ++ [(id, c)])%list).
    { intros Hf al Hal. destruct (Hp al Hal) as [[HF E]|(i & e1 & c1 & e2 & E1 & E2 & E3 & E4)].
      - left. split; [apply Forall_app; split; [done|by constructor]|done].
      - right. exists i, e1, c1, (e2 ++ [(id, c)])%list. split_and!; try done; [by rewrite E2, <- app_assoc|].
        apply Forall_app. split; [done|by constructor]. }
    destruct (Z.leb_spec (ul q) 0).
    + apply (IH (prior ++ [(id, c)])%list last r aggregate); [by rewrite <- app_assoc| |done].
      apply Hskip. rewrite Hc, (proj2 (Z.ltb_ge _ _)) by lia. done.
    + rewrite (proj2 (Z.ltb_lt 0 (ul q))) in Hc by lia. simpl in Hc. rewrite <- Hc in H.
      apply (IH (prior ++ [(id, c)])%list (if carries gen g qs (id, c) then Some id else last) r aggregate); [by rewrite <- app_assoc| |done].
      destruct (carries gen g qs (id, c)) eqn:Ec; [|by apply Hskip].
      intros al Hal. right. by exists id, prior, c, [].
Qed.

(** One materialised cost. *)
Lemma cost_inv (q : decimal) cost sg g id last scale entry factor aggregate allocated f d :
  stored q -> stored aggregate -> stored allocated -> 0 <= ul allocated <= ul aggregate ->
  materialized_cost (dltb dzero q) cost sg g id last scale entry factor aggregate allocated f = Ok d ->
  stored d /\ 0 <= ul d <= ul aggregate - ul allocated /\
  ((0 <? ul q) && (sg =? g) = false -> ul d = 0) /\
  ((0 <? ul q) && (sg =? g) = true -> last = Some id -> ul d = ul aggregate - ul allocated).
Proof.
  intros Sq Sg Sa Ha. unfold materialized_cost. rewrite (stored_dltb _ _ stored_dzero Sq), ul_dzero.
  rewrite <- negb_andb. destruct (_ && _); cbn [negb].
  - case_bool_decide as E.
    + intros H. destruct (cost_sub_stored _ _ _ _ Sg Sa H) as [Sd Ed]. split_and!; done || lia.
    + intros (x & _ & (y & _ & (m & _ & H)%bind_Ok)%bind_Ok)%bind_Ok. destruct (share_inv _ _ _ _ _ Sg Sa H) as [Sd Bd].
      split; [done|]. split; [lia|]. split; [done|]. intros _ El. congruence.
  - intros [= <-]. rewrite ul_dzero. split_and!; try apply stored_dzero; done || lia.
Qed.

Lemma pending_step elig last aggregate al id c es d :
  NoDup (((id, c) :: es) : Sources).*1 -> pending elig last aggregate al ((id, c) :: es) ->
  (elig (id, c) = false -> d = 0) -> (elig (id, c) = true -> last = Some id -> d = aggregate - al) ->
  pending elig last aggregate (al + d) es.
Proof.
  intros Hnd [[HF E]|(i & e1 & c1 & e2 & E1 & E2 & E3 & E4)] H0 H1.
  - apply Forall_cons in HF as [Hf HF]. left. split; [done|]. rewrite (H0 Hf). lia.
  - destruct e1 as [|e e1]; simpl in E2; simplify_eq.
    + left. split; [done|]. rewrite (H1 E3 eq_refl). lia.
    + right. by exists i, e1, c1, e2.
Qed.

Record accumulator_ok (p : AverageCostPool) : Prop := {
  ak_quantity : stored (ap_quantity p); ak_local : stored (ap_cost_local p); ak_base : stored (ap_cost_base p)
}.

Lemma accumulate_inv p q l b p' :
  accumulator_ok p -> stored q -> stored l -> stored b -> accumulate p q l b = Ok p' ->
  accumulator_ok p' /\ ul (ap_cost_local p') = ul (ap_cost_local p) + ul l /\ ul (ap_cost_base p') = ul (ap_cost_base p) + ul b.
Proof.
  intros [Sq Sl Sb] Sq' Sl' Sb'. unfold accumulate. destruct (pool_add q l b p) as [[[]|e] p1] eqn:E; [|done]. intros [= <-].
  unfold pool_add in E. rewrite st_get_run in E. unfold st_lift, st_modify, mbind, st_bind in E.
  destruct (p_add policy (ap_quantity p) q "pool_quantity") as [q1|] eqn:E1; [|done].
  destruct (p_add policy (ap_cost_local p) l "pool_cost_local") as [l1|] eqn:E2; [|done].
  destruct (p_add policy (ap_cost_base p) b "pool_cost_base") as [b1|] eqn:E3; [|done]. injection E as <-.
  destruct (cost_add_stored _ _ _ _ Sq Sq' E1), (cost_add_stored _ _ _ _ Sl Sl' E2), (cost_add_stored _ _ _ _ Sb Sb' E3).
  split; [by constructor|done].
Qed.

Lemma make_OpenLotState_inv o q l b x :
  make_OpenLotState o q l b None = Ok x ->
  ol_original_quantity x = o /\ ol_quantity x = q /\ ol_cost_local x = l /\ ol_cost_base x = b.
Proof.
  unfold make_OpenLotState.
  intros (u1 & _ & (u2 & _ & (u3 & _ & (u4 & _ & (u5 & _ & (u6 & _ & [= <-])%bind_Ok)%bind_Ok)%bind_Ok)%bind_Ok)%bind_Ok)%bind_Ok. done.
Qed.

(** The state of a source. *)
Definition state_for (qs : list (string * decimal)) (e : string * AverageCostSourceContribution) (o : string * OpenLotState) : Prop :=
  fst o = fst e /\ ol_original_quantity (snd o) = sc_original_quantity (snd e) /\ od_get (fst e) qs = Some (ol_quantity (snd o)) /\
  stored (ol_cost_local (snd o)) /\ 0 <= ul (ol_cost_local (snd o)) /\ stored (ol_cost_base (snd o)) /\ 0 <= ul (ol_cost_base (snd o)).

Definition local_units (os : list (string * OpenLotState)) : Z := zsum (map (fun o => ul (ol_cost_local (snd o))) os).
Definition base_units (os : list (string * OpenLotState)) : Z := zsum (map (fun o => ul (ol_cost_base (snd o))) os).

Lemma states_keys qs es os : Forall2 (state_for qs) es os -> os.*1 = es.*1.
Proof. induction 1 as [|e o es os [E _] HF IH]; [done|]. cbn. by rewrite E, IH. Qed.

Lemma units_snoc os id o :
  local_units (os ++ [(id, o)])%list = local_units os + ul (ol_cost_local o) /\
  base_units (os ++ [(id, o)])%list = base_units os + ul (ol_cost_base o).
Proof.
  unfold local_units, base_units. rewrite !map_app, !zsum_app. cbn [map snd]. rewrite !zsum_cons, !zsum_nil. lia.
Qed.

Section States.
Context (a : AverageCostSourceAllocation) (key : BookKey) (pool : AverageCostPool) (qs : list (string * decimal)).
Context (full : Sources) (last_local last_base : option string).
Hypothesis (Hnd : NoDup full.*1) (Hq : quantities_ok full qs).
Hypothesis (Sl : stored (ap_cost_local pool)) (Sb : stored (ap_cost_base pool)).
#[local] Notation elig_local := (carries sc_cost_local_generation (gen_of key (as_cost_local_generation a)) qs).
#[local] Notation elig_base := (carries sc_cost_base_generation (gen_of key (as_cost_base_generation a)) qs).

Lemma materialized_states_inv es : forall done_es os al os',
  full = (done_es ++ es)%list -> Forall2 (state_for qs) done_es os -> accumulator_ok al ->
  ul (ap_cost_local al) = local_units os -> ul (ap_cost_base al) = base_units os ->
  0 <= local_units os <= ul (ap_cost_local pool) -> 0 <= base_units os <= ul (ap_cost_base pool) ->
  pending elig_local last_local (ul (ap_cost_local pool)) (local_units os) es ->
  pending elig_base last_base (ul (ap_cost_base pool)) (base_units os) es ->
  materialized_states a key pool qs last_local last_base es os al = Ok os' ->
  Forall2 (state_for qs) full os' /\
  local_units os' = match last_local with None => 0 | Some _ => ul (ap_cost_local pool) end /\
  base_units os' = match last_base with None => 0 | Some _ => ul (ap_cost_base pool) end.
Proof.
  induction es as [|[id c] es IH]; intros done_es os al os' Hfull HF Hal El Eb Bl Bb Pl Pb H; cbn [materialized_states] in H.
  - injection H as <-. rewrite app_nil_r in Hfull. subst full. split; [done|].
    split; [destruct Pl as [[_ ?]|(? & e1 & ? & ? & _ & E & _)]|destruct Pb as [[_ ?]|(? & e1 & ? & ? & _ & E & _)]]; try done; by destruct e1.
  - assert (Hin : (id, c) ∈ full) by (rewrite Hfull; set_solver).
    destruct (quantity_lookup full qs id c Hnd Hq Hin) as (q & Hg & Sq & Bq).
    apply bind_Ok in H as (f & _ & H). unfold quantity_of in H. rewrite Hg in H. cbn [mbind result_bind] in H.
    apply bind_Ok in H as (cl & Hcl & (cb & Hcb & (o & Ho & (al' & Hal' & H)%bind_Ok)%bind_Ok)%bind_Ok).
    destruct (make_OpenLotState_inv _ _ _ _ _ Ho) as (O1 & O2 & O3 & O4).
    destruct Hal as [Aq Al Ab].
    destruct (cost_inv _ _ _ _ _ _ _ _ _ _ _ _ _ Sq Sl Al ltac:(lia) Hcl) as (Scl & Bcl & Zcl & Tcl).
    destruct (cost_inv _ _ _ _ _ _ _ _ _ _ _ _ _ Sq Sb Ab ltac:(lia) Hcb) as (Scb & Bcb & Zcb & Tcb).
    rewrite O2, O3, O4 in Hal'. destruct (accumulate_inv _ _ _ _ _ (Build_accumulator_ok _ Aq Al Ab) Sq Scl Scb Hal') as (Hal1 & E1 & E2).
    assert (Hfresh : id ∉ os.*1).
    { rewrite (states_keys _ _ _ HF). rewrite Hfull, fmap_app in Hnd. apply NoDup_app in Hnd as (_ & Hd & _).
      intros Hi. apply (Hd id Hi). cbn. set_solver. }
    assert (Hnd' : NoDup ((id, c) :: es : Sources).*1) by (rewrite Hfull, fmap_app in Hnd; by apply NoDup_app in Hnd as (_ & _ & ?)).
    rewrite (od_set_fresh _ _ _ Hfresh) in H. destruct (units_snoc os id o) as [U1 U2].
    apply (IH (done_es ++ [(id, c)])%list (os ++ [(id, o)])%list al' os'); rewrite ?U1, ?U2, ?O3, ?O4; try done; try lia.
    + by rewrite <- app_assoc.
    + apply Forall2_app; [done|]. constructor; [|done]. unfold state_for. simpl. rewrite O1, O2, O3, O4. split_and!; done || lia.
    + eapply pending_step; [exact Hnd'|exact Pl| |]; unfold carries; simpl; rewrite Hg; [exact Zcl|]. intros X Y. rewrite (Tcl X Y). lia.
    + eapply pending_step; [exact Hnd'|exact Pb| |]; unfold carries; simpl; rewrite Hg; [exact Zcb|]. intros X Y. rewrite (Tcb X Y). lia.
Qed.
End States.

(** ** Materialisation succeeds *)

(** The unbounded share of a source, as the storage column takes it. *)
Definition raw_quantity (a : AverageCostSourceAllocation) (c : AverageCostSourceContribution) : result decimal :=
  factor ← disposal_factor a c;
  product ← dmul ctx (sc_quantity c) factor;
  quantity ← quantize ctx ROUND_DOWN product (- LOT_QUANTITY_SCALE);
  normalize policy (Finite quantity) "open_quantity".

Definition raw_cost (a : AverageCostSourceAllocation) (c : AverageCostSourceContribution) (cost scale entry : decimal) (field : string) : result decimal :=
  factor ← disposal_factor a c;
  x ← dmul ctx cost factor;
  y ← dmul ctx x scale;
  materialized ← ddiv ctx y entry;
  normalize policy (Finite materialized) field.

Definition nonneg_result (r : result decimal) : Prop := exists d, r = Ok d /\ 0 <= ul d.

(** An active source whose shares the arithmetic can represent. *)
Record scalable (a : AverageCostSourceAllocation) (key : BookKey) (e : string * AverageCostSourceContribution) : Prop := {
  sb_ok : source_ok e;
  sb_current : sc_generation (snd e) = gen_of key (as_generation a);
  sb_quantity : nonneg_result (raw_quantity a (snd e));
  sb_local : nonneg_result (raw_cost a (snd e) (sc_cost_local (snd e)) (scale_of key (as_cost_local_scale a)) (sc_cost_local_scale_at_entry (snd e)) "lot_cost_local");
  sb_base : nonneg_result (raw_cost a (snd e) (sc_cost_base (snd e)) (scale_of key (as_cost_base_scale a)) (sc_cost_base_scale_at_entry (snd e)) "lot_cost_base")
}.

Lemma share_total candidate aggregate allocated f n :
  stored aggregate -> stored allocated -> 0 <= ul allocated <= ul aggregate ->
  normalize policy (Finite candidate) f = Ok n -> 0 <= ul n ->
  exists d, allocate_nonnegative_storage_share candidate aggregate allocated f = Ok d.
Proof.
  intros Sg Sa Ha Hn Pn. unfold allocate_nonnegative_storage_share. rewrite Hn. cbn [mbind result_bind].
  destruct (cost_sub_total aggregate allocated ("unallocated_" +:+ f) Sg Sa) as (left & Hl & Sl & El); [destruct Sg; lia|].
  rewrite Hl. cbn [mbind result_bind]. assert (Ln : stored n) by (eapply ledger_stored, ledger_of_normalize, Hn).
  rewrite (stored_dltb _ _ Ln stored_dzero), (stored_dltb _ _ Sl stored_dzero), ul_dzero, !(proj2 (Z.ltb_ge _ _)) by lia. by eexists.
Qed.

Lemma materialized_quantities_total a key aggregate : stored aggregate -> forall es qs allocated,
  Forall (scalable a key) es -> stored allocated -> 0 <= ul allocated <= ul aggregate ->
  exists r, materialized_quantities a (gen_of key (as_generation a)) aggregate es qs allocated = Ok r.
Proof.
  intros Sg. induction es as [|[id c] es IH]; intros qs allocated HF Sa Ha; cbn [materialized_quantities]; [by eexists|].
  apply Forall_cons in HF as [[[So Po] Hg Hq _ _] HF]. simpl in *. destruct Hq as (n & Hn & Pn). unfold raw_quantity in Hn.
  apply bind_Ok in Hn as (f & Hf & (p & Hp & (q & Hq & Hn)%bind_Ok)%bind_Ok). rewrite Hf. cbn [mbind result_bind].
  assert (Hm : exists d, materialized_quantity c (gen_of key (as_generation a)) f aggregate allocated = Ok d).
  { unfold materialized_quantity. rewrite Hg, Z.eqb_refl, Hp. cbn [negb mbind result_bind]. rewrite Hq. cbn [mbind result_bind].
    destruct (share_total q aggregate allocated "open_quantity" n Sg Sa Ha Hn Pn) as [d ->]. by eexists. }
  destruct Hm as [d Hd]. rewrite Hd. cbn [mbind result_bind]. destruct (quantity_inv _ _ _ _ _ _ Sg Sa Ha So Po Hd) as (Sd & Bd & Bd').
  destruct (cost_add_total allocated d "allocated_quantity" Sa Sd) as (al & Hal & Sal & Eal); [destruct Sg; lia|].
  rewrite Hal. cbn [mbind result_bind]. apply IH; done || lia.
Qed.

Definition headroom (qs : list (string * decimal)) (e : string * AverageCostSourceContribution) : Z :=
  original_units e - match od_get (fst e) qs with Some q => ul q | None => 0 end.

Lemma headroom_set qs id q rs : id ∉ (rs : Sources).*1 -> map (headroom (od_set id q qs)) rs = map (headroom qs) rs.
Proof.
  intros Hn. induction rs as [|[i c] rs IH]; [done|]. cbn in Hn. cbn [map]. rewrite IH by set_solver. f_equal.
  unfold headroom. simpl. rewrite od_get_set_ne; [done|]. set_solver.
Qed.

Lemma residual_total g es : NoDup es.*1 -> Forall source_ok es -> Forall (fun e => sc_generation (snd e) = g) es -> forall rs qs remaining,
  NoDup rs.*1 -> (forall e, e ∈ rs -> e ∈ es) -> quantities_ok es qs -> stored remaining -> 0 <= ul remaining <= zsum (map (headroom qs) rs) ->
  exists qs', assign_residual_loop g rs qs remaining = Ok qs'.
Proof.
  intros Hnd HO HG. induction rs as [|[id c] rs IH]; intros qs remaining Hndr Hsub Hq Sr Hr; cbn [assign_residual_loop map] in *; rewrite ?zsum_nil, ?zsum_cons in *.
  - rewrite (stored_deqb _ _ Sr stored_dzero), ul_dzero, (proj2 (Z.eqb_eq _ _)) by lia. by eexists.
  - destruct (deqb remaining dzero) eqn:Ez; [by eexists|].
    assert (Hin : (id, c) ∈ es) by (apply Hsub; set_solver). pose proof (proj1 (Forall_forall _ _) HG _ Hin) as Eg. simpl in Eg.
    rewrite Eg, Z.eqb_refl. cbn [negb]. cbn in Hndr. apply NoDup_cons in Hndr as [Hnr Hndr].
    destruct (quantity_lookup es qs id c Hnd Hq Hin) as (q & Hg & Sq & Bq). unfold quantity_of. rewrite Hg. cbn [mbind result_bind].
    destruct (proj1 (Forall_forall _ _) HO _ Hin) as [So Po]. simpl in So, Po.
    unfold headroom in Hr at 1. simpl in Hr. rewrite Hg in Hr. unfold original_units in Hr. simpl in Hr.
    destruct (cost_sub_total (sc_original_quantity c) q "source_quantity_headroom" So Sq) as (h & Hh & Sh & Eh); [destruct So; lia|].
    rewrite Hh. cbn [mbind result_bind]. pose proof (ledger_min _ _ _ _ Sr Sh) as Hm. pose proof (ledger_ul _ _ Hm) as Em. apply ledger_stored in Hm.
    destruct (cost_add_total q (dmin remaining h) "open_quantity" Sq Hm) as (tot & Ht & St & Et); [destruct So; lia|]. rewrite Ht. cbn [mbind result_bind].
    destruct (cost_sub_total remaining (dmin remaining h) "unallocated_open_quantity" Sr Hm) as (rem & Hrem & Srem & Erem); [destruct Sr; lia|].
    rewrite Hrem. cbn [mbind result_bind].
    destruct (quantity_update es qs id c q tot Hnd Hq Hin Hg St ltac:(lia)) as [R1 _].
    assert (0 <= zsum (map (headroom qs) rs)).
    { apply zsum_map_nonneg, Forall_forall. intros [i c'] Hi. destruct (quantity_lookup es qs i c' Hnd Hq) as (q' & Hg' & _ & B'); [apply Hsub; set_solver|].
      unfold headroom, original_units. simpl. rewrite Hg'. lia. }
    apply IH; try done; [set_solver|]. rewrite (headroom_set _ _ _ _ Hnr). lia.
Qed.

Lemma headroom_sum es qs : NoDup es.*1 -> quantities_ok es qs -> zsum (map (headroom qs) es) = zsum (map original_units es) - quantity_units qs.
Proof.
  intros Hnd HF. unfold quantity_units. induction HF as [|[id c] [k q] es qs (E & Sq & Bq) HF IH]; [done|]. simpl in E. subst k.
  cbn in Hnd. apply NoDup_cons in Hnd as [Hn Hnd]. cbn [map snd]. rewrite !zsum_cons.
  assert (Hrest : map (headroom ((id, q) :: qs)) es = map (headroom qs) es).
  { clear -Hn. induction es as [|[i c'] es IH]; [done|]. cbn in Hn. cbn [map]. rewrite IH by set_solver. f_equal.
    unfold headroom. cbn. rewrite decide_False by set_solver. done. }
  rewrite Hrest, (IH Hnd). unfold headroom at 1. cbn. rewrite decide_True by done. lia.
Qed.

Definition qty (qs : list (string * decimal)) (e : string * AverageCostSourceContribution) : Z :=
  match od_get (fst e) qs with Some q => ul q | None => 0 end.

Lemma cost_total a c (q : decimal) cost sg g id last scale entry factor aggregate allocated f :
  stored q -> stored aggregate -> stored allocated -> 0 <= ul allocated <= ul aggregate ->
  disposal_factor a c = Ok factor -> nonneg_result (raw_cost a c cost scale entry f) ->
  exists d, materialized_cost (dltb dzero q) cost sg g id last scale entry factor aggregate allocated f = Ok d.
Proof.
  intros Sq Sg Sa Ha Hf (n & Hn & Pn). unfold raw_cost in Hn. rewrite Hf in Hn. cbn [mbind result_bind] in Hn.
  apply bind_Ok in Hn as (x & Hx & (y & Hy & (m & Hm & Hn)%bind_Ok)%bind_Ok). unfold materialized_cost.
  destruct (_ || _); [by eexists|]. destruct (bool_decide _).
  - destruct (cost_sub_total aggregate allocated f Sg Sa) as (d & Hd & _); [destruct Sg; lia|]. by exists d.
  - rewrite Hx. cbn [mbind result_bind]. rewrite Hy. cbn [mbind result_bind]. rewrite Hm. cbn [mbind result_bind].
    by apply (share_total m aggregate allocated f n).
Qed.

Lemma accumulate_total p q l b :
  accumulator_ok p -> stored q -> stored l -> stored b -> Z.abs (ul (ap_quantity p) + ul q) < 10 ^ 18 ->
  Z.abs (ul (ap_cost_local p) + ul l) < 10 ^ 18 -> Z.abs (ul (ap_cost_base p) + ul b) < 10 ^ 18 ->
  exists p', accumulate p q l b = Ok p' /\ ul (ap_quantity p') = ul (ap_quantity p) + ul q.
Proof.
  intros [Sq Sl Sb] Sq' Sl' Sb' B1 B2 B3. unfold accumulate, pool_add. rewrite st_get_run.
  destruct (cost_add_total _ _ "pool_quantity" Sq Sq' B1) as (q1 & H1 & _ & E1).
  destruct (cost_add_total _ _ "pool_cost_local" Sl Sl' B2) as (l1 & H2 & _).
  destruct (cost_add_total _ _ "pool_cost_base" Sb Sb' B3) as (b1 & H3 & _).
  rewrite (st_lift_run _ _ _ _ H1), st_modify_run, (st_lift_run _ _ _ _ H2), st_modify_run, (st_lift_run _ _ _ _ H3), st_modify_run.
  by eexists.
Qed.

Lemma materialized_states_total a key pool qs full last_local last_base :
  NoDup full.*1 -> quantities_ok full qs -> stored (ap_cost_local pool) -> stored (ap_cost_base pool) -> forall es os al,
  (forall e, e ∈ es -> e ∈ full) -> Forall (scalable a key) es -> accumulator_ok al -> 0 <= ul (ap_quantity al) ->
  0 <= ul (ap_cost_local al) <= ul (ap_cost_local pool) -> 0 <= ul (ap_cost_base al) <= ul (ap_cost_base pool) ->
  ul (ap_quantity al) + zsum (map (qty qs) es) < 10 ^ 18 ->
  exists os', materialized_states a key pool qs last_local last_base es os al = Ok os'.
Proof.
  intros Hnd Hq Sl Sb. induction es as [|[id c] es IH]; intros os al Hsub HF Hal Pq Bl Bb Bq; cbn [materialized_states map] in *; [by eexists|].
  rewrite zsum_cons in Bq. assert (Hin : (id, c) ∈ full) by (apply Hsub; set_solver).
  destruct (quantity_lookup full qs id c Hnd Hq Hin) as (q & Hg & Sq & Hqr). unfold qty in Bq at 1. simpl in Bq. rewrite Hg in Bq.
  assert (0 <= zsum (map (qty qs) es)).
  { apply zsum_map_nonneg, Forall_forall. intros [i c'] Hi. destruct (quantity_lookup full qs i c' Hnd Hq) as (q' & Hg' & _ & B'); [apply Hsub; set_solver|].
    unfold qty. simpl. rewrite Hg'. lia. }
  apply Forall_cons in HF as [[[So Po] _ (n & Hn & _) Hl Hb] HF]. simpl in So, Po, Hl, Hb, Hn.
  unfold raw_quantity in Hn. apply bind_Ok in Hn as (f & Hf & _). rewrite Hf. cbn [mbind result_bind]. unfold quantity_of. rewrite Hg. cbn [mbind result_bind].
  pose proof Hal as [Aq Al Ab].
  destruct (cost_total a c q (sc_cost_local c) (sc_cost_local_generation c) (gen_of key (as_cost_local_generation a)) id last_local _ _ f _ _ _ Sq Sl Al Bl Hf Hl) as [cl Hcl].
  rewrite Hcl. cbn [mbind result_bind]. destruct (cost_inv _ _ _ _ _ _ _ _ _ _ _ _ _ Sq Sl Al Bl Hcl) as (Scl & Bcl & _).
  destruct (cost_total a c q (sc_cost_base c) (sc_cost_base_generation c) (gen_of key (as_cost_base_generation a)) id last_base _ _ f _ _ _ Sq Sb Ab Bb Hf Hb) as [cb Hcb].
  rewrite Hcb. cbn [mbind result_bind]. destruct (cost_inv _ _ _ _ _ _ _ _ _ _ _ _ _ Sq Sb Ab Bb Hcb) as (Scb & Bcb & _).
  rewrite (make_OpenLotState_Ok _ _ _ _ _ _ _ _ So Sq Scl Scb) by lia. cbn [mbind result_bind ol_quantity ol_cost_local ol_cost_base].
  destruct (accumulate_total al q cl cb Hal Sq Scl Scb) as (al' & Hal' & Eq'); [lia|destruct Sl; lia|destruct Sb; lia|].
  rewrite Hal'. cbn [mbind result_bind]. destruct (accumulate_inv _ _ _ _ _ Hal Sq Scl Scb Hal') as (Hok & E1 & E2).
  apply IH; try done; [set_solver|lia..].
Qed.

Lemma last_cost_source_total gen g qs full : NoDup full.*1 -> quantities_ok full qs -> forall es last,
  (forall e, e ∈ es -> e ∈ full) -> exists r, last_cost_source gen g es qs last = Ok r.
Proof.
  intros Hnd Hq. induction es as [|[id c] es IH]; intros last Hsub; cbn [last_cost_source]; [by eexists|].
  destruct (quantity_lookup full qs id c Hnd Hq) as (q & Hg & _); [apply Hsub; set_solver|]. unfold quantity_of. rewrite Hg. cbn [mbind result_bind].
  destruct (dleb q dzero); apply IH; set_solver.
Qed.

Lemma qty_sum es qs : NoDup es.*1 -> quantities_ok es qs -> zsum (map (qty qs) es) = quantity_units qs.
Proof.
  intros Hnd Hq. pose proof (headroom_sum es qs Hnd Hq) as H.
  assert (E : zsum (map (headroom qs) es) = zsum (map original_units es) - zsum (map (qty qs) es)); [|lia].
  clear. induction es as [|e es IH]; [done|]. cbn [map]. rewrite !zsum_cons, IH. unfold headroom, qty. lia.
Qed.

(** ** Properties *)

(** Disposals out of an average-cost pool book the average cost, exactly: whatever the number and
    size of the disposals of a segment, the costs they report add up to the cost before less the cost
    of the remaining quantity, which is the segment's cost times remaining over initial quantity
    rounded half-even once; no disposal reports a negative cost, and the last one, which empties the
    pool, reports all that is left. *)
Theorem pool_disposals_prorate p ds :
  pool_ok p -> Forall (fun d => stored d /\ 0 < ul d) ds -> zsum (map ul ds) <= ul (ap_quantity p) ->
  exists rs p', st_map dispose ds p = (Ok rs, p') /\ pool_ok p' /\
    let left := ul (ap_quantity p) - zsum (map ul ds) in
    let remaining c := prorated (ul (c p)) left (ul (ap_segment_start_quantity p)) in
    ul (ap_quantity p') = left /\
    ul (ap_cost_local p') = remaining ap_segment_start_cost_local /\ ul (ap_cost_base p') = remaining ap_segment_start_cost_base /\
    Forall (fun r => 0 <= ul (fst r) /\ 0 <= ul (snd r)) rs /\
    zsum (map (fun r => ul (snd r)) rs) = ul (ap_cost_local p) - remaining ap_segment_start_cost_local /\
    zsum (map (fun r => ul (fst r)) rs) = ul (ap_cost_base p) - remaining ap_segment_start_cost_base /\
    (left = 0 -> ul (ap_cost_local p') = 0 /\ ul (ap_cost_base p') = 0).
Proof.
  intros Hp HF Hs. destruct (dispose_many ds p Hp HF Hs) as (rs & p' & Hrun & Hp' & (G1 & G2 & G3) & Eq & Hn & Eb & El).
  exists rs, p'. split; [done|]. split; [done|]. pose proof (po_local _ Hp') as Hl. pose proof (po_base _ Hp') as Hb.
  rewrite G1, G2, Eq in Hl. rewrite G1, G3, Eq in Hb. cbv zeta beta. rewrite <- Hl, <- Hb.
  split_and!; try done; try lia. intros E. rewrite E in Hl, Hb. done.
Qed.

(** 3 units bought for 100, sold one by one: 33.3333333333, 33.3333333334 and 33.3333333333. *)
Lemma pool_disposals_prorate_witness :
  exists rs p', st_map dispose [dint 1; dint 1; dint 1] (snd (pool_add (dint 3) (dint 100) (dint 100) empty_pool)) = (Ok rs, p') /\
    zsum (map (fun r => ul (snd r)) rs) = 100 * 10 ^ 10.
Proof.
  assert (He : pool_ok empty_pool).
  { constructor; simpl; try apply stored_dzero; try (split; [apply stored_dzero|]); rewrite ?ul_dzero; done. }
  destruct (pool_add_spec (dint 3) (dint 100) (dint 100) empty_pool He) as (p & Hrun & Hp & Eq & El & Eb);
    [apply stored_dint; lia..|vm_compute; done|vm_compute; done|vm_compute; done|vm_compute; done|vm_compute; done|vm_compute; done|].
  rewrite Hrun. cbn [snd]. cbn [ap_quantity ap_cost_local ap_cost_base empty_pool] in Eq, El, Eb. rewrite ul_dzero, ul_dint in Eq, El by lia.
  destruct (pool_disposals_prorate p [dint 1; dint 1; dint 1] Hp) as (rs & p' & Hrun' & _ & H).
  - repeat constructor; try (apply stored_dint; lia); vm_compute; reflexivity.
  - rewrite Eq. vm_compute. discriminate.
  - exists rs, p'. split; [exact Hrun'|]. cbv zeta beta in H. destruct H as (_ & _ & _ & _ & H & _). rewrite H, Eq, El.
    reflexivity.
Defined.

Definition pool_amounts (p : AverageCostPool) : Prop :=
  stored (ap_quantity p) /\ stored (ap_cost_local p) /\ stored (ap_cost_base p) /\
  0 <= ul (ap_quantity p) /\ 0 <= ul (ap_cost_local p) /\ 0 <= ul (ap_cost_base p).

Lemma accumulator_empty : accumulator_ok empty_pool.
Proof. constructor; apply stored_dzero. Qed.

(** The quantity part of a materialisation. *)
Lemma quantities_sum a key pool es qs al qs' :
  pool_amounts pool -> NoDup es.*1 -> Forall source_ok es ->
  materialized_quantities a (gen_of key (as_generation a)) (ap_quantity pool) es [] dzero = Ok (qs, al) ->
  assign_quantity_residual es qs (gen_of key (as_generation a)) (ap_quantity pool) al = Ok qs' ->
  quantities_ok es qs' /\ quantity_units qs' = ul (ap_quantity pool).
Proof.
  intros (Sq & _ & _ & Pq & _) Hnd HF Hm Hr.
  destruct (materialized_quantities_inv a (gen_of key (as_generation a)) _ Sq es [] [] dzero qs al) as (Q1 & Sal & Eal & Bal);
    try done; try apply stored_dzero; rewrite ?ul_dzero; try done; try by constructor.
  unfold assign_quantity_residual in Hr. apply bind_Ok in Hr as (rem & Hrem & Hr). destruct (cost_sub_stored _ _ _ _ Sq Sal Hrem) as [Srem Erem].
  destruct (residual_inv (gen_of key (as_generation a)) es Hnd HF (reverse es) qs rem qs') as [R1 R2]; try done; [intros e; by rewrite elem_of_reverse|lia|].
  split; [done|lia].
Qed.

Lemma pending_start elig last aggregate es :
  pending elig last aggregate 0 es ->
  match last with None => 0 | Some _ => aggregate end = (if existsb elig es then aggregate else 0).
Proof.
  intros [[HF E]|(id & e1 & c & e2 & -> & -> & E & _)].
  - rewrite <- E. destruct (existsb elig es) eqn:Ex; [|done]. apply existsb_exists in Ex as (e & Hin & He).
    apply list_elem_of_In in Hin. rewrite Forall_forall in HF. by rewrite (HF e Hin) in He.
  - rewrite existsb_app. cbn [existsb]. by rewrite E, orb_true_r.
Qed.

(** The residual pass succeeds when the lots have authority for the pool. *)
Lemma assign_residual_total a key pool es qs al :
  pool_amounts pool -> NoDup es.*1 -> Forall (scalable a key) es -> ul (ap_quantity pool) <= zsum (map original_units es) ->
  quantities_ok es qs -> stored al -> ul al = quantity_units qs -> ul al <= ul (ap_quantity pool) ->
  exists qs', assign_quantity_residual es qs (gen_of key (as_generation a)) (ap_quantity pool) al = Ok qs'.
Proof.
  intros (Sq & _ & _ & Pq & _) Hnd HS Ho Q1 Sal Eal Bal.
  assert (HF : Forall source_ok es) by (eapply Forall_impl; [exact HS|]; by intros e [? _ _ _ _]).
  assert (0 <= quantity_units qs).
  { unfold quantity_units. apply zsum_map_nonneg. clear -Q1. induction Q1 as [|e q es qs (_ & _ & ?) HF IH]; constructor; [lia|done]. }
  unfold assign_quantity_residual. destruct (cost_sub_total _ _ "unallocated_open_quantity" Sq Sal) as (rem & Hrem & Srem & Erem); [destruct Sq; lia|].
  rewrite Hrem. cbn [mbind result_bind]. apply (residual_total _ es Hnd HF); try done.
  - eapply Forall_impl; [exact HS|]. by intros e [_ ? _ _ _].
  - rewrite (reverse_Permutation es). done.
  - intros e. by rewrite elem_of_reverse.
  - rewrite (zsum_perm _ (map (headroom qs) es)) by (apply fmap_Permutation, reverse_Permutation). rewrite (headroom_sum es qs Hnd Q1). lia.
Qed.

Lemma materialize_inv a key pool es os :
  pool_amounts pool -> NoDup es.*1 -> Forall source_ok es -> materialize_sources a key pool es = Ok os ->
  exists qs, Forall2 (state_for qs) es os /\ quantities_ok es qs /\
    zsum (map (fun o => ul (ol_quantity (snd o))) os) = ul (ap_quantity pool) /\
    local_units os = (if existsb (carries sc_cost_local_generation (gen_of key (as_cost_local_generation a)) qs) es
                      then ul (ap_cost_local pool) else 0) /\
    base_units os = (if existsb (carries sc_cost_base_generation (gen_of key (as_cost_base_generation a)) qs) es
                     then ul (ap_cost_base pool) else 0).
Proof.
  intros Hp Hnd HF H. unfold materialize_sources in H.
  apply bind_Ok in H as ([qs al] & Hm & (qs' & Hr & (ll & Hll & (lb & Hlb & Hs)%bind_Ok)%bind_Ok)%bind_Ok).
  destruct (quantities_sum a key pool es qs al qs' Hp Hnd HF Hm Hr) as [Q1 Q2]. pose proof Hp as (_ & Sl & Sb & _ & Pl & Pb).
  assert (Hnil : forall gen g last agg al0, al0 = 0 -> last = None -> pending (carries gen g qs') last agg al0 [])
    by (intros ? ? ? ? ? -> ->; left; by split).
  pose proof (last_cost_source_inv _ _ qs' es Hnd Q1 es [] None ll (ul (ap_cost_local pool)) eq_refl (fun al0 E => Hnil _ _ _ _ al0 E eq_refl) Hll 0 eq_refl) as Pll.
  pose proof (last_cost_source_inv _ _ qs' es Hnd Q1 es [] None lb (ul (ap_cost_base pool)) eq_refl (fun al0 E => Hnil _ _ _ _ al0 E eq_refl) Hlb 0 eq_refl) as Plb.
  exists qs'. rewrite <- (pending_start _ _ _ _ Pll), <- (pending_start _ _ _ _ Plb).
  destruct (materialized_states_inv a key pool qs' es ll lb Hnd Q1 Sl Sb es [] [] empty_pool os) as (R1 & R2 & R3);
    try done; try apply accumulator_empty; try (by constructor); try (unfold local_units, base_units; cbn [map]; rewrite zsum_nil; lia).
  split; [done|]. split; [done|]. split; [|done]. rewrite <- Q2.
  clear -R1 Q1 Hnd. rewrite <- (qty_sum es qs' Hnd Q1). clear -R1. f_equal. induction R1 as [|e o es os (_ & _ & Hg & _) HF IH]; [done|].
  cbn [map]. rewrite IH. unfold qty at 2. by rewrite Hg.
Qed.

Lemma materialize_total a key pool es :
  pool_amounts pool -> NoDup es.*1 -> Forall (scalable a key) es -> ul (ap_quantity pool) <= zsum (map original_units es) ->
  exists os, materialize_sources a key pool es = Ok os.
Proof.
  intros Hp Hnd HS Ho. assert (HF : Forall source_ok es) by (eapply Forall_impl; [exact HS|]; by intros e [? _ _ _ _]).
  pose proof Hp as (Sq & Sl & Sb & Pq & Pl & Pb). unfold materialize_sources.
  destruct (materialized_quantities_total a key _ Sq es [] dzero HS stored_dzero) as [[qs al] Hm]; [rewrite ul_dzero; lia|].
  rewrite Hm. cbn [mbind result_bind].
  destruct (materialized_quantities_inv a (gen_of key (as_generation a)) _ Sq es [] [] dzero qs al) as (Q1 & Sal & Eal & Bal);
    try done; try apply stored_dzero; rewrite ?ul_dzero; try done; try by constructor.
  destruct (assign_residual_total a key pool es qs al Hp Hnd HS Ho Q1 Sal Eal Bal) as [qs' Hr]. rewrite Hr.
  cbn [mbind result_bind]. destruct (quantities_sum a key pool es qs al qs' Hp Hnd HF Hm Hr) as [Q2 E2].
  destruct (last_cost_source_total sc_cost_local_generation (gen_of key (as_cost_local_generation a)) qs' es Hnd Q2 es None) as [ll ->]; [done|].
  destruct (last_cost_source_total sc_cost_base_generation (gen_of key (as_cost_base_generation a)) qs' es Hnd Q2 es None) as [lb ->]; [done|].
  cbn [mbind result_bind]. apply (materialized_states_total a key pool qs' es ll lb Hnd Q2 Sl Sb); try done; try apply accumulator_empty;
    cbn [ap_quantity ap_cost_local ap_cost_base empty_pool]; rewrite ?ul_dzero; try lia.
  rewrite (qty_sum es qs' Hnd Q2), E2. destruct Sq. lia.
Qed.

(** C19: The states of the single sources always add up to their pool.  Materialising a book gives one
    state per active source, in source order, none with a negative amount or above the original
    quantity of its lot; the quantities add up to the quantity of the pool and the costs, in either
    currency, to the cost of the pool, unless no source carries cost in the current generation, when
    all are zero.  It does succeed whenever the scaled shares are representable and the lots have
    authority for the quantity of the pool. *)
Theorem materialized_sources_sum_to_pool a key pool es :
  pool_amounts pool -> NoDup es.*1 ->
  (forall os, Forall source_ok es -> materialize_sources a key pool es = Ok os ->
     exists qs, Forall2 (state_for qs) es os /\ quantities_ok es qs /\
       zsum (map (fun o => ul (ol_quantity (snd o))) os) = ul (ap_quantity pool) /\
       local_units os = (if existsb (carries sc_cost_local_generation (gen_of key (as_cost_local_generation a)) qs) es
                         then ul (ap_cost_local pool) else 0) /\
       base_units os = (if existsb (carries sc_cost_base_generation (gen_of key (as_cost_base_generation a)) qs) es
                        then ul (ap_cost_base pool) else 0)) /\
  (Forall (scalable a key) es -> ul (ap_quantity pool) <= zsum (map original_units es) ->
     exists os, materialize_sources a key pool es = Ok os).
Proof.
  intros Hp Hnd. split; [intros os HF H; by apply (materialize_inv a key pool es os)|]. by apply materialize_total.
Qed.

(** Two sources, 3 units for 100 and 2 units for 71, of which 4 units have been sold. *)
Definition wit_key : BookKey := ("P", "I").
Definition wit_avco : AvcoState := snd ((
  _ ← on_pool wit_key (pool_add (dint 3) (dint 100) (dint 100));
  _ ← on_allocation (add_source wit_key "A" "LOT-A" 0 (dint 3) (Some (dint 3)) (dint 100) (dint 100) (dint 3));
  _ ← on_pool wit_key (pool_add (dint 2) (dint 71) (dint 71));
  _ ← on_allocation (add_source wit_key "B" "LOT-B" 0 (dint 2) (Some (dint 2)) (dint 71) (dint 71) (dint 5));
  _ ← on_pool wit_key (dispose (dint 4));
  on_allocation (apply_disposal wit_key (dint 5) (dint 1))) avco_init).
Definition wit_sources : Sources := default [] (match fst (active_source_contributions wit_key (av_allocation wit_avco)) with Ok es => Some es | _ => None end).

Lemma materialized_sources_sum_to_pool_witness :
  exists os, materialize_sources (av_allocation wit_avco) wit_key (pool_of wit_key wit_avco) wit_sources = Ok os /\
    zsum (map (fun o => ul (ol_quantity (snd o))) os) = ul (ap_quantity (pool_of wit_key wit_avco)).
Proof.
  assert (Hp : pool_amounts (pool_of wit_key wit_avco)).
  { unfold pool_amounts, stored, ledger, units. split_and!; vm_compute; reflexivity || discriminate. }
  destruct (materialize_sources (av_allocation wit_avco) wit_key (pool_of wit_key wit_avco) wit_sources) as [os|e] eqn:E;
    [|vm_compute in E; discriminate E].
  exists os. split; [reflexivity|].
  destruct (proj1 (materialized_sources_sum_to_pool (av_allocation wit_avco) wit_key _ wit_sources Hp ltac:(apply (bool_decide_unpack _); vm_compute; exact I)) os)
    as (qs & _ & _ & H1 & _).
  - let l := eval vm_compute in wit_sources in change wit_sources with l.
    apply Forall_cons_2; [|apply Forall_cons_2; [|apply Forall_nil_2]]; unfold source_ok, stored, ledger, units;
      split_and!; vm_compute; reflexivity || discriminate.
  - exact E.
  - exact H1.
Defined.
