(* ===== verification/AvcoCheckpoint.v ===== *)
(** * Continuing an average-cost book from its checkpoint

    Two AVCO engines that agree on one book answer every further operation on that book alike; an
    engine restored from a checkpoint agrees with the engine that exported it. *)

From Stdlib Require Import ZArith Lia QArith String.
From stdpp Require Import base tactics list sets strings.
From S2P Require Import Prelude PyDecimal DecimalFacts PyTime Precision Lineage Transactions Lots CostBasis Fifo Avco AvcoFacts.

#[local] Open Scope string_scope.
#[local] Open Scope Z_scope.

#[local] Notation policy := COST_BASIS_STATE_LEDGER_OUTPUT_V1.
#[local] Notation ctx := (arithmetic_context policy).

(** ** Programs that respect a relation on states *)

(** Run from [s1] and [s2], [m] gives the same result, one that satisfies [P] when it succeeds, and
    leaves related states. *)
Definition agrees_at {S A} (R : S -> S -> Prop) (P : A -> Prop) (m : st S A) (s1 s2 : S) : Prop :=
  fst (m s1) = fst (m s2) /\ R (snd (m s1)) (snd (m s2)) /\ (forall x, fst (m s1) = Ok x -> P x).

Definition agrees {S A} (R : S -> S -> Prop) (P : A -> Prop) (m : st S A) : Prop :=
  forall s1 s2, R s1 s2 -> agrees_at R P m s1 s2.

Section Agrees.
Context {S : Type} (R : S -> S -> Prop).

Lemma agrees_at_bind {A B} (P : A -> Prop) (Q : B -> Prop) (m : st S A) (k : A -> st S B) s1 s2 :
  agrees_at R P m s1 s2 -> (forall x, fst (m s1) = Ok x -> P x -> R (snd (m s1)) (snd (m s2)) -> agrees_at R Q (k x) (snd (m s1)) (snd (m s2))) ->
  agrees_at R Q (m ≫= k) s1 s2.
Proof.
  unfold agrees_at. intros (E & HR & HP) Hk. unfold mbind, st_bind.
  destruct (m s1) as [[x|e] s1'], (m s2) as [[y|e'] s2']; simpl in *; simplify_eq; [|done].
  apply Hk; auto.
Qed.

Lemma agrees_bind {A B} (P : A -> Prop) (Q : B -> Prop) (m : st S A) (k : A -> st S B) :
  agrees R P m -> (forall x, P x -> agrees R Q (k x)) -> agrees R Q (m ≫= k).
Proof. intros Hm Hk s1 s2 HR. eapply agrees_at_bind; [by apply Hm|]. intros x _ Hx HR'. by apply Hk. Qed.

Lemma agrees_lift {A} (r : result A) : agrees R (fun x => r = Ok x) (st_lift r).
Proof. by intros s1 s2 HR. Qed.

Lemma agrees_ret {A} (x : A) : agrees R (fun y => y = x) (mret x).
Proof. intros s1 s2 HR. repeat split; try done. by intros y [= ->]. Qed.

Lemma agrees_modify f : (forall s1 s2, R s1 s2 -> R (f s1) (f s2)) -> agrees R (fun _ => True) (st_modify f).
Proof. intros Hf s1 s2 HR. repeat split; try done. by apply Hf. Qed.

Lemma agrees_weaken {A} (P Q : A -> Prop) (m : st S A) : (forall x, P x -> Q x) -> agrees R P m -> agrees R Q m.
Proof. intros HPQ Hm s1 s2 HR. destruct (Hm s1 s2 HR) as (? & ? & HP). repeat split; try done. intros x Hx. by apply HPQ, HP. Qed.

Lemma agrees_at_get {A} (Q : A -> Prop) (k : S -> st S A) s1 s2 :
  R s1 s2 -> k s1 = k s2 -> agrees R Q (k s2) -> agrees_at R Q (st_get ≫= k) s1 s2.
Proof.
  intros HR E Ha.  unfold agrees_at. change ((st_get ≫= k) s1) with (k s1 s1). change ((st_get ≫= k) s2) with (k s2 s2).
  rewrite E. by apply Ha.
Qed.

Lemma agrees_get {A} (Q : A -> Prop) (k : S -> st S A) :
  (forall s1 s2, R s1 s2 -> k s1 = k s2 /\ agrees R Q (k s2)) -> agrees R Q (st_get ≫= k).
Proof. intros Hk s1 s2 HR. destruct (Hk s1 s2 HR). by apply agrees_at_get. Qed.

Lemma agrees_raise_if {A} (P : A -> Prop) b e k :
  (b = false -> agrees R P k) -> agrees R P (st_lift (raise_if b e) ≫= fun _ => k).
Proof. intros Hk. apply (agrees_bind _ _ _ _ (agrees_lift _)). intros u Hu. by apply Hk, (raise_if_Ok _ e u). Qed.
End Agrees.

(** ** One book of the allocation *)

(** Two allocations that agree on a book: on its active sources, its scales and its generations, and
    on which of the transaction ids in [unused] are taken. *)
Record alloc_equiv (key : BookKey) (unused : string -> Prop) (a1 a2 : AverageCostSourceAllocation) : Prop := {
  ae_ids : ids_of key (as_active_source_ids a1) = ids_of key (as_active_source_ids a2);
  ae_contributions : forall id, id ∈ ids_of key (as_active_source_ids a1) ->
    exists c, od_get id (as_contributions a1) = Some c /\ od_get id (as_contributions a2) = Some c /\ sc_book_key c = key;
  ae_unused : forall id, unused id -> od_get id (as_contributions a1) = None <-> od_get id (as_contributions a2) = None;
  ae_generation : gen_of key (as_generation a1) = gen_of key (as_generation a2);
  ae_disposal_scale : scale_of key (as_disposal_scale a1) = scale_of key (as_disposal_scale a2);
  ae_segment_start_scale : scale_of key (as_segment_start_scale a1) = scale_of key (as_segment_start_scale a2);
  ae_segment_start_quantity : amount_of key (as_segment_start_quantity a1) = amount_of key (as_segment_start_quantity a2);
  ae_cost_local_scale : scale_of key (as_cost_local_scale a1) = scale_of key (as_cost_local_scale a2);
  ae_cost_base_scale : scale_of key (as_cost_base_scale a1) = scale_of key (as_cost_base_scale a2);
  ae_cost_local_generation : gen_of key (as_cost_local_generation a1) = gen_of key (as_cost_local_generation a2);
  ae_cost_base_generation : gen_of key (as_cost_base_generation a1) = gen_of key (as_cost_base_generation a2)
}.

Record avco_equiv (key : BookKey) (unused : string -> Prop) (s1 s2 : AvcoState) : Prop := {
  ve_pool : pool_of key s1 = pool_of key s2;
  ve_allocation : alloc_equiv key unused (av_allocation s1) (av_allocation s2)
}.

Lemma default_set {K V} `{EqDecision K} (def v : V) (k : K) d : od_get_default def k (od_set k v d) = v.
Proof. unfold od_get_default. by rewrite od_get_set. Qed.

Lemma default_single {K V} `{EqDecision K} (def v : V) (k : K) : od_get_default def k [(k, v)] = v.
Proof. exact (default_set def v k []). Qed.

Section Book.
Context (key : BookKey) (unused : string -> Prop).
#[local] Notation R := (alloc_equiv key unused).

(** Assigning the same value to the book in one of its dictionaries. *)
Ltac assigned := intros ? ? []; constructor;
  unfold ids_of, gen_of, scale_of, amount_of in *; simpl;
  rewrite ?default_set; first [done | congruence | by intros ? ?%elem_of_nil].
Ltac assigns := repeat (apply (agrees_bind _ (fun _ => True)); [apply agrees_modify; assigned | intros _ _]);
  apply agrees_modify; assigned.

(** *** The sources *)

Lemma active_sources_agree : agrees R (Forall (fun e => sc_book_key (snd e) = key)) (active_source_contributions key).
Proof.
  intros a1 a2 HR. unfold agrees_at, active_source_contributions, active_ids, mbind, st_bind, st_get, st_modify, mret, st_ret, st_lift. simpl.
  pose proof HR as []. rewrite <- ae_ids0. split_and!.
  - apply mapR_ext. intros id Hid. unfold contribution_of; simpl. by destruct (ae_contributions0 id Hid) as (c & -> & -> & _).
  - constructor; unfold ids_of; simpl; rewrite ?default_set; done.
  - intros es Hes%mapR_Forall2. eapply Forall2_Forall_r; [exact Hes|]. apply Forall_forall. intros id Hid e.
    unfold contribution_of; simpl. destruct (ae_contributions0 id Hid) as (c & -> & _ & Hc). by intros [= <-].
Qed.

(** *** Materialisation *)

Lemma disposal_factor_agrees a1 a2 c : R a1 a2 -> sc_book_key c = key -> disposal_factor a1 c = disposal_factor a2 c.
Proof. intros [] Hc. unfold disposal_factor. by rewrite Hc, ae_generation0, ae_disposal_scale0. Qed.

Lemma materialized_quantities_agree a1 a2 g agg sources : R a1 a2 -> Forall (fun e => sc_book_key (snd e) = key) sources ->
  forall qs x, materialized_quantities a1 g agg sources qs x = materialized_quantities a2 g agg sources qs x.
Proof.
  intros HR. induction 1 as [|[id c] sources Hc _ IH]; intros qs x; [done|]. cbn [materialized_quantities].
  rewrite (disposal_factor_agrees a1 a2) by done. destruct (disposal_factor a2 c); [|done]. simpl.
  destruct (materialized_quantity _ _ _ _ _); [|done]. simpl. destruct (p_add _ _ _ _); [|done]. apply IH.
Qed.

Lemma materialized_states_agree a1 a2 pool qs ll lb sources : R a1 a2 -> Forall (fun e => sc_book_key (snd e) = key) sources ->
  forall os x, materialized_states a1 key pool qs ll lb sources os x = materialized_states a2 key pool qs ll lb sources os x.
Proof.
  intros HR. induction 1 as [|[id c] sources Hc _ IH]; intros os x; [done|]. cbn [materialized_states].
  rewrite (disposal_factor_agrees a1 a2) by done. destruct HR.
  rewrite ae_cost_local_generation0, ae_cost_base_generation0, ae_cost_local_scale0, ae_cost_base_scale0.
  destruct (disposal_factor a2 c); [|done]. simpl. destruct (quantity_of _ _); [|done]. simpl.
  do 2 (destruct (materialized_cost _ _ _ _ _ _ _ _ _ _ _ _); [|done]; simpl).
  destruct (make_OpenLotState _ _ _ _ _); [|done]. simpl. destruct (accumulate _ _ _ _); [|done]. apply IH.
Qed.

Lemma materialize_sources_agree a1 a2 pool sources : R a1 a2 -> Forall (fun e => sc_book_key (snd e) = key) sources ->
  materialize_sources a1 key pool sources = materialize_sources a2 key pool sources.
Proof.
  intros HR Hs. pose proof HR as []. unfold materialize_sources.
  rewrite ae_generation0, ae_cost_local_generation0, ae_cost_base_generation0, (materialized_quantities_agree a1 a2) by done.
  destruct (materialized_quantities _ _ _ _ _ _) as [[qs x]|]; [|done]. simpl.
  destruct (assign_quantity_residual _ _ _ _ _); [|done]. simpl.
  do 2 (destruct (last_cost_source _ _ _ _ _); [|done]; simpl). by apply materialized_states_agree.
Qed.

Lemma materialize_book_agrees pool : agrees R (fun _ => True) (materialize_book key pool).
Proof.
  apply (agrees_bind _ _ _ _ _ active_sources_agree). intros sources Hs. apply agrees_get.
  intros a1 a2 HR. rewrite (materialize_sources_agree a1 a2) by done. split; [done|].
  by eapply agrees_weaken; [|apply agrees_lift].
Qed.

(** *** The mutations *)

Lemma apply_disposal_agrees q q' : agrees R (fun _ => True) (apply_disposal key q q').
Proof.
  unfold apply_disposal. apply agrees_raise_if. intros _. apply agrees_raise_if. intros _.
  destruct (dis_zero q'); [assigns|].
  apply agrees_get. intros a1 a2 HR. split; [by destruct HR as [_ _ _ _ _ -> -> _ _ _ _]|].
  apply agrees_raise_if. intros _.
  apply (agrees_bind _ _ _ _ _ (agrees_lift _ _)). intros scale _. apply agrees_modify; assigned.
Qed.

Lemma apply_basis_transfer_agrees l l' b b' : agrees R (fun _ => True) (apply_basis_transfer key l l' b b').
Proof.
  unfold apply_basis_transfer.
  apply agrees_get. intros a1 a2 HR. split; [by destruct HR as [_ _ _ _ _ _ _ -> -> _ _]|].
  apply (agrees_bind _ _ _ _ _ (agrees_lift _ _)). intros ls _.
  apply (agrees_bind _ _ _ _ _ (agrees_lift _ _)). intros bs _.
  destruct (dis_zero ls), (dis_zero bs); assigns.
Qed.

(** Restating the same sources on both sides. *)
Lemma fold_set_agrees (new : Sources) d1 d2 : Forall (fun e => sc_book_key (snd e) = key) new ->
  let set := fold_left (fun d e => od_set (fst e) (snd e) d) new in
  (forall id c, od_get id d1 = Some c -> od_get id d2 = Some c -> sc_book_key c = key ->
    exists c', od_get id (set d1) = Some c' /\ od_get id (set d2) = Some c' /\ sc_book_key c' = key) /\
  (forall id, od_get id d1 = None <-> od_get id d2 = None -> od_get id (set d1) = None <-> od_get id (set d2) = None).
Proof.
  intros Hn. revert d1 d2. induction Hn as [|[i c0] new Hc _ IH]; intros d1 d2; simpl; [eauto|].
  destruct (IH (od_set i c0 d1) (od_set i c0 d2)) as [IH1 IH2]. split.
  - intros id c H1 H2 H3. destruct (decide (id = i)) as [->|Hne].
    + apply (IH1 i c0); by rewrite ?od_get_set.
    + apply (IH1 id c); by rewrite ?od_get_set_ne.
  - intros id Hid. apply IH2. destruct (decide (id = i)) as [->|Hne]; by rewrite ?od_get_set, ?od_get_set_ne.
Qed.

Lemma restated_sources_agree r a1 a2 ids : R a1 a2 -> ids = ids_of key (as_active_source_ids a1) ->
  let restated a := mapR (fun id => c ← contribution_of a id; c' ← restate_contribution r c; Ok (id, c')) ids in
  restated a1 = restated a2 /\ forall new, restated a2 = Ok new -> Forall (fun e => sc_book_key (snd e) = key) new.
Proof.
  intros [] ->. simpl. split.
  - apply mapR_ext. intros id Hid. unfold contribution_of. by destruct (ae_contributions0 id Hid) as (c & -> & -> & _).
  - intros new Hn%mapR_Forall2. eapply Forall2_Forall_r; [exact Hn|]. apply Forall_forall. intros id Hid e.
    unfold contribution_of. destruct (ae_contributions0 id Hid) as (c & _ & -> & Hc). simpl. unfold restate_contribution.
    intros (c' & (? & _ & (? & _ & [= <-])%bind_Ok)%bind_Ok & [= <-])%bind_Ok. done.
Qed.

Lemma active_ids_agree a1 a2 : R a1 a2 ->
  fst (active_ids key a1) = Ok (ids_of key (as_active_source_ids a1)) /\ fst (active_ids key a2) = fst (active_ids key a1) /\
  ids_of key (as_active_source_ids (snd (active_ids key a1))) = ids_of key (as_active_source_ids a1) /\
  R (snd (active_ids key a1)) (snd (active_ids key a2)).
Proof.
  intros []. unfold active_ids, mbind, st_bind, st_get, st_modify, mret, st_ret; simpl. rewrite <- ae_ids0.
  split_and!; [done|done| |constructor]; unfold ids_of; simpl; rewrite ?default_set; done.
Qed.

Lemma restate_contributions_agrees new : Forall (fun e => sc_book_key (snd e) = key) new ->
  agrees R (fun _ => True) (st_modify (fun a => with_contributions (fold_left (fun d e => od_set (fst e) (snd e) d) new (as_contributions a)) a)).
Proof.
  intros Hn. apply agrees_modify. intros a1 a2 [].
  destruct (fold_set_agrees new (as_contributions a1) (as_contributions a2) Hn) as [H1 H2].
  constructor; simpl; try done.
  - intros id Hid. destruct (ae_contributions0 id Hid) as (c & ? & ? & ?). by apply (H1 id c).
  - intros id Hid. by apply H2, ae_unused0.
Qed.

Lemma apply_quantity_restatement_agrees r : agrees R (fun _ => True) (apply_quantity_restatement key r).
Proof.
  intros a1 a2 HR. destruct (active_ids_agree a1 a2 HR) as (E1 & E2 & E3 & HR').
  apply (agrees_at_bind _ (fun _ => True)); [by unfold agrees_at; rewrite E2|]. intros ids Hids _ _. rewrite E1 in Hids. injection Hids as <-.
  destruct (restated_sources_agree r _ _ _ HR' (eq_sym E3)) as [E Hn].
  apply agrees_at_get; [done|by rewrite E; destruct HR' as [_ _ _ _ _ _ -> _ _ _ _]|].
  apply (agrees_bind _ _ _ _ _ (agrees_lift _ _)). intros new Hnew.
  apply (agrees_bind _ _ _ _ _ (agrees_lift _ _)). intros segment _.
  apply (agrees_bind _ (fun _ => True)); [by apply restate_contributions_agrees, Hn|]. intros _ _.
  apply agrees_modify; assigned.
Qed.

Lemma add_source_agrees id lot day q original l b after : unused id ->
  agrees R (fun _ => True) (add_source key id lot day q original l b after).
Proof.
  intros Hid. apply agrees_get. intros a1 a2 HR. pose proof HR as []. split.
  - rewrite ae_generation0, ae_disposal_scale0, ae_cost_local_scale0, ae_cost_base_scale0, ae_cost_local_generation0, ae_cost_base_generation0.
    destruct (od_get id (as_contributions a1)) eqn:E1, (od_get id (as_contributions a2)) eqn:E2; try done; exfalso; naive_solver.
  - apply agrees_raise_if. intros _.
    intros b1 b2 []. unfold agrees_at. split_and!; [done| |done].
    cbn [mbind st_bind st_modify mret st_ret fst snd].
    constructor; unfold ids_of, scale_of, amount_of, gen_of in *; simpl; rewrite ?default_set; try done; try congruence.
    + intros i [Hi|Hi%list_elem_of_singleton]%elem_of_app.
      * destruct (decide (i = id)) as [->|Hne]; [by rewrite !od_get_set; eauto|]. rewrite !od_get_set_ne by done. auto.
      * subst i. rewrite !od_get_set. eauto.
    + intros i Hi. destruct (decide (i = id)) as [->|Hne]; [by rewrite !od_get_set|]. rewrite !od_get_set_ne by done. auto.
Qed.
End Book.

(** ** The strategy *)

Section Strategy.
Context `{hashing : Hashing} (key : BookKey) (unused : string -> Prop).
#[local] Notation R := (avco_equiv key unused).
#[local] Notation any := (fun _ => True).

Lemma on_allocation_agrees {A} (P : A -> Prop) m : agrees (alloc_equiv key unused) P m -> agrees R P (on_allocation m).
Proof.
  intros Hm s1 s2 [Hp Ha]. destruct (Hm _ _ Ha) as (E & Ha' & HP). unfold agrees_at, on_allocation.
  destruct (m (av_allocation s1)), (m (av_allocation s2)). simpl in *. by split_and!.
Qed.

Lemma on_pool_agrees {A} (m : st AverageCostPool A) : agrees R any (on_pool key m).
Proof.
  intros s1 s2 [Hp Ha]. unfold agrees_at, on_pool. rewrite <- Hp. destruct (m (pool_of key s1)). simpl.
  split_and!; [done| |done]. constructor; [|done]. unfold pool_of; simpl. by rewrite !default_set.
Qed.

Lemma get_pool_agrees : agrees R any (get_pool key).
Proof.
  intros s1 s2 [Hp Ha]. unfold agrees_at, get_pool. simpl. split_and!; [by rewrite Hp| |done].
  constructor; [|done]. unfold pool_of at 1 3; simpl. by rewrite !default_set.
Qed.

Lemma lift_agrees {A} (r : result A) : agrees R any (st_lift r).
Proof. by eapply agrees_weaken; [|apply agrees_lift]. Qed.

Lemma sources_agrees : agrees R any (on_allocation (active_source_contributions key)).
Proof. by eapply agrees_weaken; [|apply on_allocation_agrees, active_sources_agree]. Qed.

Lemma any_bind {A B} (m : st AvcoState A) (k : A -> st AvcoState B) :
  agrees R any m -> (forall x, agrees R any (k x)) -> agrees R any (m ≫= k).
Proof. intros Hm Hk. by apply (agrees_bind _ any); [|intros x _]. Qed.

#[local] Hint Resolve on_pool_agrees get_pool_agrees lift_agrees sources_agrees any_bind on_allocation_agrees
  materialize_book_agrees apply_disposal_agrees apply_basis_transfer_agrees apply_quantity_restatement_agrees
  add_source_agrees : agree.

Lemma consume_agrees q : agrees R any (avco_consume_sell_quantity_with_allocations (fst key) (snd key) q).
Proof.
  unfold avco_consume_sell_quantity_with_allocations. rewrite <- surjective_pairing. cbv zeta.
  apply any_bind; [auto with agree|]. intros pool. repeat case_match; eauto with agree.
  repeat (apply any_bind; [auto with agree|intros]). case_match. auto 20 with agree.
Qed.

Lemma restate_agrees d : agrees R any (avco_restate_lot_quantities (fst key) (snd key) d).
Proof.
  unfold avco_restate_lot_quantities. rewrite <- surjective_pairing. cbv zeta.
  repeat (apply any_bind; [auto with agree|intros]). by eapply agrees_weaken; [|apply agrees_ret].
Qed.

Lemma transfer_agrees b l : agrees R any (avco_transfer_basis_out_with_allocations (fst key) (snd key) b l).
Proof.
  unfold avco_transfer_basis_out_with_allocations. rewrite <- surjective_pairing. cbv zeta.
  apply any_bind; [auto with agree|]. intros pool. case_match; auto 20 with agree.
Qed.

Lemma buy_agrees t : (ct_portfolio_id t, ct_instrument_id t) = key -> unused (ct_transaction_id t) ->
  agrees R any (avco_add_buy_lot t).
Proof.
  intros Hk Hu. unfold avco_add_buy_lot. rewrite Hk. apply any_bind; [auto with agree|]. intros [[[q b] l]|].
  - auto 20 with agree.
  - by eapply agrees_weaken; [|apply agrees_ret].
Qed.
End Strategy.

(** ** Further work on a book *)

Inductive BookOperation :=
| Buy (t : CostBasisTransaction)
| Sell (quantity : decimal)
| Restate (signed_quantity_delta : decimal)
| TransferOut (cost_base cost_local : decimal).

Inductive BookAnswer :=
| Bought (r : result unit)
| Sold (r : result LotDisposalResult)
| Restated (r : result LotRestatement)
| Transferred (r : result LotBasisTransferResult).

Section Work.
Context `{hashing : Hashing}.

Definition perform (key : BookKey) (op : BookOperation) (s : AvcoState) : BookAnswer * AvcoState :=
  match op with
  | Buy t => prod_map Bought id (avco_add_buy_lot t s)
  | Sell q => prod_map Sold id (avco_consume_sell_quantity_with_allocations (fst key) (snd key) q s)
  | Restate d => prod_map Restated id (avco_restate_lot_quantities (fst key) (snd key) d s)
  | TransferOut b l => prod_map Transferred id (avco_transfer_basis_out_with_allocations (fst key) (snd key) b l s)
  end.

Fixpoint perform_all (key : BookKey) (ops : list BookOperation) (s : AvcoState) : list BookAnswer :=
  match ops with
  | [] => []
  | op :: rest => let '(answer, s') := perform key op s in answer :: perform_all key rest s'
  end.

(** Purchases are of this book and carry ids that satisfy [unused]. *)
Definition buys_ok (key : BookKey) (unused : string -> Prop) (op : BookOperation) : Prop :=
  match op with Buy t => (ct_portfolio_id t, ct_instrument_id t) = key /\ unused (ct_transaction_id t) | _ => True end.

Lemma perform_agrees key unused op s1 s2 : buys_ok key unused op -> avco_equiv key unused s1 s2 ->
  fst (perform key op s1) = fst (perform key op s2) /\ avco_equiv key unused (snd (perform key op s1)) (snd (perform key op s2)).
Proof.
  intros Hop HR. destruct op; simpl in *.
  - destruct (buy_agrees key unused t (proj1 Hop) (proj2 Hop) s1 s2 HR) as (-> & ? & _). done.
  - destruct (consume_agrees key unused quantity s1 s2 HR) as (-> & ? & _). done.
  - destruct (restate_agrees key unused signed_quantity_delta s1 s2 HR) as (-> & ? & _). done.
  - destruct (transfer_agrees key unused cost_base cost_local s1 s2 HR) as (-> & ? & _). done.
Qed.

Lemma perform_all_agrees key unused ops : Forall (buys_ok key unused) ops -> forall s1 s2, avco_equiv key unused s1 s2 ->
  perform_all key ops s1 = perform_all key ops s2.
Proof.
  induction 1 as [|op ops Hop _ IH]; intros s1 s2 HR; [done|]. simpl.
  destruct (perform_agrees key unused op s1 s2 Hop HR) as [E HR'].
  destruct (perform key op s1), (perform key op s2). simpl in *. subst. f_equal. by apply IH.
Qed.
End Work.

(** ** The round trip *)

(** The active sources of the book carry its key and ids without surrounding blanks. *)
Definition tidy_source (key : BookKey) (e : string * AverageCostSourceContribution) : Prop :=
  sc_book_key (snd e) = key /\ strip (fst e) = fst e /\ strip (sc_source_lot_id (snd e)) = sc_source_lot_id (snd e).

Definition tidy_book (key : BookKey) (s : AvcoState) : Prop :=
  forall id c, id ∈ ids_of key (as_active_source_ids (av_allocation s)) ->
    od_get id (as_contributions (av_allocation s)) = Some c -> tidy_source key (id, c).

Lemma restored_source key n e c : tidy_source key e -> source_accumulator n e = Ok c -> restored_contribution key c = e.
Proof.
  destruct e as [id s]. intros (Hk & Hid & Hlot). unfold source_accumulator, make_AverageCostSourceAccumulator. simpl.
  intros (id' & [-> _]%require_nonblank_Ok & H1)%bind_Ok. apply bind_Ok in H1 as (lot' & [-> _]%require_nonblank_Ok & H1).
  simpl in *. repeat (apply bind_Ok in H1 as (_ & _ & H1)). injection H1 as <-. unfold restored_contribution. simpl.
  rewrite Hid, Hlot, <- Hk. by destruct s.
Qed.

Lemma restored_sources key es : Forall (tidy_source key) es -> forall n cs,
  source_accumulators n es = Ok cs -> map (restored_contribution key) cs = es.
Proof.
  induction 1 as [|e es He _ IH]; intros n cs; [by intros [= <-]|]. simpl.
  intros (c & Hc & (cs' & Hcs & [= <-])%bind_Ok)%bind_Ok. simpl. by rewrite (restored_source _ _ _ _ He Hc), (IH _ _ Hcs).
Qed.

(** A checkpoint that is built is the one requested, and its sources are distinct. *)
Lemma make_checkpoint_Ok ck ck' : make_AverageCostAllocationCheckpoint ck = Ok ck' ->
  ck' = ck /\ NoDup (map ca_source_transaction_id (ck_sources ck)).
Proof.
  unfold make_AverageCostAllocationCheckpoint. intros H1.
  do 12 (apply bind_Ok in H1 as (_ & _ & H1)).
  apply bind_Ok in H1 as (_ & [Hd _]%raise_if_Ok%orb_false_iff & H1). apply negb_false_iff, bool_decide_eq_true in Hd.
  do 3 (apply bind_Ok in H1 as (_ & _ & H1)). split; [|done].
  destruct (deqb _ _); repeat (apply bind_Ok in H1 as (_ & _ & H1)); by injection H1 as <-.
Qed.

Lemma fold_set_fresh {V} (es d : list (string * V)) : NoDup (d ++ es)%list.*1 ->
  fold_left (fun d e => od_set (fst e) (snd e) d) es d = (d ++ es)%list.
Proof.
  revert d. induction es as [|[i v] es IH]; intros d Hd; [by rewrite app_nil_r|]. simpl.
  rewrite fmap_app in Hd. pose proof (proj1 (NoDup_app _ _) Hd) as (_ & Hi & _).
  rewrite od_set_fresh by (intros Hin; apply (Hi i Hin); left).
  rewrite IH by (by rewrite fmap_app, fmap_app, <- (assoc_L (++))). by rewrite <- (assoc_L (++)).
Qed.

(** What an engine holds when its checkpoint is accepted. *)
Lemma export_inv p i security s ck s1 :
  export_allocation_checkpoint p i security s = (Ok ck, s1) -> dis_zero (ap_quantity (pool_of (p, i) s)) = false ->
  let key := (p, i) in let a := av_allocation s in let pool := pool_of key s in
  exists es cs, sources_of a (ids_of key (as_active_source_ids a)) = Ok es /\ source_accumulators 1 es = Ok cs /\
    pc_portfolio_id (ck_pool ck) = p /\ pc_instrument_id (ck_pool ck) = i /\
    ap_quantity pool = pc_quantity (ck_pool ck) /\ ap_cost_local pool = pc_cost_local (ck_pool ck) /\ ap_cost_base pool = pc_cost_base (ck_pool ck) /\
    ap_segment_start_quantity pool = ck_segment_start_quantity ck /\ ap_segment_start_cost_local pool = ck_segment_start_cost_local ck /\
    ap_segment_start_cost_base pool = ck_segment_start_cost_base ck /\
    amount_of key (as_segment_start_quantity a) = ck_source_allocation_segment_start_quantity ck /\
    gen_of key (as_generation a) = ck_allocation_generation ck /\ scale_of key (as_disposal_scale a) = ck_disposal_scale ck /\
    scale_of key (as_segment_start_scale a) = ck_segment_start_scale ck /\ scale_of key (as_cost_local_scale a) = ck_cost_local_scale ck /\
    scale_of key (as_cost_base_scale a) = ck_cost_base_scale ck /\ gen_of key (as_cost_local_generation a) = ck_cost_local_generation ck /\
    gen_of key (as_cost_base_generation a) = ck_cost_base_generation ck /\ ck_sources ck = cs /\
    NoDup (map ca_source_transaction_id cs).
Proof.
  intros Hx Hopen. unfold export_allocation_checkpoint, mbind, st_bind, st_get in Hx.
  match type of Hx with match ?o with _ => _ end _ = _ => destruct o as [pool|] eqn:Ep end; [|done].
  assert (Hp : pool_of (p, i) s = pool) by exact (f_equal (default empty_pool) Ep).
  simpl. rewrite Hp in *.
  unfold on_allocation, export_checkpoint, active_source_contributions, active_ids in Hx.
  unfold mbind, st_bind, st_get, st_modify, st_lift, mret, st_ret in Hx. simpl in Hx.
  change (sources_of (with_active_source_ids _ (av_allocation s))) with (sources_of (av_allocation s)) in Hx.
  destruct (sources_of _ _) as [es|] eqn:Ees; [|done].
  destruct (make_AverageCostPoolCheckpoint _) as [pc|] eqn:Epc; [|done].
  destruct (source_accumulators 1 es) as [cs|] eqn:Ecs; [|done]. rewrite Hopen in Hx.
  destruct (make_AverageCostAllocationCheckpoint _) as [ck'|] eqn:Eck; [|done]. injection Hx as <- _.
  apply make_checkpoint_Ok in Eck as [-> Hnd]. simpl in *.
  unfold make_AverageCostPoolCheckpoint in Epc. do 5 (apply bind_Ok in Epc as (_ & _ & Epc)). injection Epc as <-.
  by exists es, cs.
Qed.

(** An engine restored from the checkpoint agrees with the engine that wrote it. *)
Lemma restored_agrees p i security s ck s1 :
  export_allocation_checkpoint p i security s = (Ok ck, s1) -> dis_zero (ap_quantity (pool_of (p, i) s)) = false -> tidy_book (p, i) s ->
  exists s', from_allocation_checkpoint ck = Ok s' /\
    avco_equiv (p, i) (fun id => od_get id (as_contributions (av_allocation s)) = None) s s'.
Proof.
  intros Hx Hopen Ht. pose proof (export_inv _ _ _ _ _ _ Hx Hopen) as
    (es & cs & Hes & Hcs & Ep & Ei & E1 & E2 & E3 & E4 & E5 & E6 & E7 & E8 & E9 & E10 & E11 & E12 & E13 & E14 & Esrc & Hnd).
  assert (Htidy : Forall (tidy_source (p, i)) es).
  { apply mapR_Forall2 in Hes. eapply Forall2_Forall_r; [exact Hes|]. apply Forall_forall. intros id Hid e.
    unfold contribution_of. destruct (od_get id _) eqn:Eid; [|done]. intros [= <-]. by apply Ht. }
  pose proof (restored_sources _ _ Htidy _ _ Hcs) as Hback.
  assert (Hids : es.*1 = ids_of (p, i) (as_active_source_ids (av_allocation s))).
  { apply mapR_Forall2 in Hes. clear - Hes. induction Hes as [|id e ids es He _ IH]; [done|]. simpl. f_equal; [|done].
    apply bind_Ok in He as (c & _ & [= <-]). done. }
  assert (Hne : NoDup es.*1).
  { rewrite <- Hback. by rewrite <- list_fmap_compose. }
  eexists. split.
  - unfold from_allocation_checkpoint, restore_checkpoint, mbind, st_bind, st_get, st_modify, st_lift, mret, st_ret. simpl.
    rewrite Ep, Ei, Esrc, Hback, fold_set_fresh by done. reflexivity.
  - constructor.
    + unfold pool_of at 2. simpl. rewrite default_single. destruct (pool_of (p, i) s). simpl in *. by f_equal.
    + constructor; unfold ids_of, gen_of, scale_of, amount_of in *; simpl; rewrite ?default_single; try done.
      * intros id Hid. rewrite <- Hids in Hid. apply list_elem_of_fmap in Hid as ([id' c] & -> & He).
        exists c. simpl. split_and!.
        -- apply mapR_Forall2 in Hes. apply list_elem_of_lookup_1 in He as [n Hn].
           destruct (Forall2_lookup_r _ _ _ _ _ Hes Hn) as (j & _ & Hj).
           apply bind_Ok in Hj as (c' & Hc' & [= -> ->]). unfold contribution_of in Hc'. by destruct (od_get _ _); simplify_eq.
        -- by apply od_get_of_elem.
        -- by apply (proj1 (Forall_forall _ _) Htidy (id', c)).
      * intros id Hid. split; [intros _|done]. apply od_get_None. rewrite Hids. intros Hin.
        apply mapR_Forall2 in Hes. apply list_elem_of_lookup_1 in Hin as [n Hn].
        destruct (Forall2_lookup_l _ _ _ _ _ Hes Hn) as (e & _ & He). unfold contribution_of in He. by rewrite Hid in He.
Qed.

(** C18: when an average-cost engine exports the checkpoint of an open book, an engine restored from
    that checkpoint exists and answers every further sequence of purchases, sales, restatements and
    basis transfers on the book exactly as the exporting engine would have: the same results, errors
    included.  The book's source and lot ids carry no surrounding blanks (the checkpoint strips
    them), and purchases use transaction ids the exporting engine has not seen (the restored engine
    no longer knows the ids of closed sources). *)
Theorem checkpoint_continues `{hashing : Hashing} (portfolio_id instrument_id security_id : string) (s s1 : AvcoState)
  (ck : AverageCostAllocationCheckpoint) :
  export_allocation_checkpoint portfolio_id instrument_id security_id s = (Ok ck, s1) ->
  dis_zero (ap_quantity (pool_of (portfolio_id, instrument_id) s)) = false ->
  tidy_book (portfolio_id, instrument_id) s ->
  exists s', from_allocation_checkpoint ck = Ok s' /\
    forall ops, Forall (buys_ok (portfolio_id, instrument_id) (fun id => od_get id (as_contributions (av_allocation s)) = None)) ops ->
      perform_all (portfolio_id, instrument_id) ops s' = perform_all (portfolio_id, instrument_id) ops s.
Proof.
  intros Hx Hopen Ht. destruct (restored_agrees _ _ _ _ _ _ Hx Hopen Ht) as (s' & Hs' & HR).
  exists s'. split; [done|]. intros ops Hops. symmetry. exact (perform_all_agrees _ _ ops Hops _ _ HR).
Qed.

(** Two sources, a sale of most of the pool, the checkpoint, then a purchase, a sale and a basis transfer. *)
Lemma checkpoint_continues_witness :
  exists ck s', fst (export_allocation_checkpoint "P" "I" "I" wit_avco) = Ok ck /\ from_allocation_checkpoint ck = Ok s' /\
    let ops := [Buy (wit_buy "C" 4 90); Sell (dint 2); TransferOut (dint 5) (dint 5)] in
    @perform_all constant_hashing ("P", "I") ops s' = @perform_all constant_hashing ("P", "I") ops wit_avco.
Proof.
  assert (Eids : ids_of ("P", "I") (as_active_source_ids (av_allocation wit_avco)) = ["A"; "B"]) by (vm_compute; reflexivity).
  assert (Enew : od_get "C" (as_contributions (av_allocation wit_avco)) = None) by (vm_compute; reflexivity).
  assert (Eopen : dis_zero (ap_quantity (pool_of ("P", "I") wit_avco)) = false) by (vm_compute; reflexivity).
  destruct (export_allocation_checkpoint "P" "I" "I" wit_avco) as [[ck|e] s1] eqn:E; [|vm_compute in E; discriminate E].
  destruct (@checkpoint_continues constant_hashing "P" "I" "I" wit_avco s1 ck E Eopen) as (s' & Hs' & Hops).
  - intros id c Hid Hc. rewrite Eids in Hid.
    apply elem_of_cons in Hid as [-> | Hid]; [|apply list_elem_of_singleton in Hid as ->];
      clear - Hc; vm_compute in Hc; injection Hc as <-; repeat split.
  - exists ck, s'. split; [reflexivity|]. split; [exact Hs'|]. apply Hops.
    apply Forall_cons_2; [split; [reflexivity|exact Enew]|].
    apply Forall_cons_2; [exact I|]. apply Forall_cons_2; [exact I|]. apply Forall_nil_2.
Defined.
