(* ===== verification/CostFields.v ===== *)
(** * Attributes of a cost-basis transaction

    The mutable object of [cost_basis/models/cost_basis_transaction.py]: assignment of a declared
    field, [set_calculated_field], [getattr] and [model_dump].  Extension attributes live in
    [_extra_fields]; numeric ones hold finite decimals, numeric text or [None], text ones strings or
    [None].  A calculated field whose name is declared is stored in both places, as in the source. *)

From Stdlib Require Import ZArith Lia QArith String.
From stdpp Require Import base tactics list strings.
From S2P Require Import Prelude PyDecimal DecimalFacts PyTime Precision Lineage Registry Transactions Values Position Lots CostBasis.

#[local] Open Scope string_scope.
#[local] Open Scope Z_scope.

(** ** Assignment *)

Definition set_transaction_type (v : string) (t : CostBasisTransaction) : CostBasisTransaction :=
  {| ct_transaction_id := ct_transaction_id t; ct_portfolio_id := ct_portfolio_id t;
     ct_instrument_id := ct_instrument_id t; ct_security_id := ct_security_id t; ct_transaction_type := v;
     ct_transaction_date := ct_transaction_date t; ct_settlement_date := ct_settlement_date t;
     ct_child_sequence_hint := ct_child_sequence_hint t; ct_target_instrument_id := ct_target_instrument_id t;
     ct_quantity := ct_quantity t; ct_gross_transaction_amount := ct_gross_transaction_amount t;
     ct_net_transaction_amount := ct_net_transaction_amount t; ct_fees := ct_fees t;
     ct_accrued_interest := ct_accrued_interest t; ct_average_price := ct_average_price t;
     ct_trade_currency := ct_trade_currency t; ct_portfolio_base_currency := ct_portfolio_base_currency t;
     ct_transaction_fx_rate := ct_transaction_fx_rate t; ct_net_cost := ct_net_cost t;
     ct_gross_cost := ct_gross_cost t; ct_realized_gain_loss := ct_realized_gain_loss t;
     ct_net_cost_local := ct_net_cost_local t; ct_realized_gain_loss_local := ct_realized_gain_loss_local t;
     ct_source_lot_order_quantity := ct_source_lot_order_quantity t;
     ct_source_lot_original_quantity := ct_source_lot_original_quantity t;
     ct_lot_restatement := ct_lot_restatement t; ct_error_reason := ct_error_reason t;
     ct_extra_fields := ct_extra_fields t |}.

Definition set_quantity (v : decimal) (t : CostBasisTransaction) : CostBasisTransaction :=
  {| ct_transaction_id := ct_transaction_id t; ct_portfolio_id := ct_portfolio_id t;
     ct_instrument_id := ct_instrument_id t; ct_security_id := ct_security_id t;
     ct_transaction_type := ct_transaction_type t; ct_transaction_date := ct_transaction_date t;
     ct_settlement_date := ct_settlement_date t; ct_child_sequence_hint := ct_child_sequence_hint t;
     ct_target_instrument_id := ct_target_instrument_id t; ct_quantity := v;
     ct_gross_transaction_amount := ct_gross_transaction_amount t;
     ct_net_transaction_amount := ct_net_transaction_amount t; ct_fees := ct_fees t;
     ct_accrued_interest := ct_accrued_interest t; ct_average_price := ct_average_price t;
     ct_trade_currency := ct_trade_currency t; ct_portfolio_base_currency := ct_portfolio_base_currency t;
     ct_transaction_fx_rate := ct_transaction_fx_rate t; ct_net_cost := ct_net_cost t;
     ct_gross_cost := ct_gross_cost t; ct_realized_gain_loss := ct_realized_gain_loss t;
     ct_net_cost_local := ct_net_cost_local t; ct_realized_gain_loss_local := ct_realized_gain_loss_local t;
     ct_source_lot_order_quantity := ct_source_lot_order_quantity t;
     ct_source_lot_original_quantity := ct_source_lot_original_quantity t;
     ct_lot_restatement := ct_lot_restatement t; ct_error_reason := ct_error_reason t;
     ct_extra_fields := ct_extra_fields t |}.

Definition set_gross_transaction_amount (v : decimal) (t : CostBasisTransaction) : CostBasisTransaction :=
  {| ct_transaction_id := ct_transaction_id t; ct_portfolio_id := ct_portfolio_id t;
     ct_instrument_id := ct_instrument_id t; ct_security_id := ct_security_id t;
     ct_transaction_type := ct_transaction_type t; ct_transaction_date := ct_transaction_date t;
     ct_settlement_date := ct_settlement_date t; ct_child_sequence_hint := ct_child_sequence_hint t;
     ct_target_instrument_id := ct_target_instrument_id t; ct_quantity := ct_quantity t;
     ct_gross_transaction_amount := v; ct_net_transaction_amount := ct_net_transaction_amount t;
     ct_fees := ct_fees t; ct_accrued_interest := ct_accrued_interest t;
     ct_average_price := ct_average_price t; ct_trade_currency := ct_trade_currency t;
     ct_portfolio_base_currency := ct_portfolio_base_currency t;
     ct_transaction_fx_rate := ct_transaction_fx_rate t; ct_net_cost := ct_net_cost t;
     ct_gross_cost := ct_gross_cost t; ct_realized_gain_loss := ct_realized_gain_loss t;
     ct_net_cost_local := ct_net_cost_local t; ct_realized_gain_loss_local := ct_realized_gain_loss_local t;
     ct_source_lot_order_quantity := ct_source_lot_order_quantity t;
     ct_source_lot_original_quantity := ct_source_lot_original_quantity t;
     ct_lot_restatement := ct_lot_restatement t; ct_error_reason := ct_error_reason t;
     ct_extra_fields := ct_extra_fields t |}.

Definition set_trade_currency (v : string) (t : CostBasisTransaction) : CostBasisTransaction :=
  {| ct_transaction_id := ct_transaction_id t; ct_portfolio_id := ct_portfolio_id t;
     ct_instrument_id := ct_instrument_id t; ct_security_id := ct_security_id t;
     ct_transaction_type := ct_transaction_type t; ct_transaction_date := ct_transaction_date t;
     ct_settlement_date := ct_settlement_date t; ct_child_sequence_hint := ct_child_sequence_hint t;
     ct_target_instrument_id := ct_target_instrument_id t; ct_quantity := ct_quantity t;
     ct_gross_transaction_amount := ct_gross_transaction_amount t;
     ct_net_transaction_amount := ct_net_transaction_amount t; ct_fees := ct_fees t;
     ct_accrued_interest := ct_accrued_interest t; ct_average_price := ct_average_price t;
     ct_trade_currency := v; ct_portfolio_base_currency := ct_portfolio_base_currency t;
     ct_transaction_fx_rate := ct_transaction_fx_rate t; ct_net_cost := ct_net_cost t;
     ct_gross_cost := ct_gross_cost t; ct_realized_gain_loss := ct_realized_gain_loss t;
     ct_net_cost_local := ct_net_cost_local t; ct_realized_gain_loss_local := ct_realized_gain_loss_local t;
     ct_source_lot_order_quantity := ct_source_lot_order_quantity t;
     ct_source_lot_original_quantity := ct_source_lot_original_quantity t;
     ct_lot_restatement := ct_lot_restatement t; ct_error_reason := ct_error_reason t;
     ct_extra_fields := ct_extra_fields t |}.

Definition set_portfolio_base_currency (v : string) (t : CostBasisTransaction) : CostBasisTransaction :=
  {| ct_transaction_id := ct_transaction_id t; ct_portfolio_id := ct_portfolio_id t;
     ct_instrument_id := ct_instrument_id t; ct_security_id := ct_security_id t;
     ct_transaction_type := ct_transaction_type t; ct_transaction_date := ct_transaction_date t;
     ct_settlement_date := ct_settlement_date t; ct_child_sequence_hint := ct_child_sequence_hint t;
     ct_target_instrument_id := ct_target_instrument_id t; ct_quantity := ct_quantity t;
     ct_gross_transaction_amount := ct_gross_transaction_amount t;
     ct_net_transaction_amount := ct_net_transaction_amount t; ct_fees := ct_fees t;
     ct_accrued_interest := ct_accrued_interest t; ct_average_price := ct_average_price t;
     ct_trade_currency := ct_trade_currency t; ct_portfolio_base_currency := v;
     ct_transaction_fx_rate := ct_transaction_fx_rate t; ct_net_cost := ct_net_cost t;
     ct_gross_cost := ct_gross_cost t; ct_realized_gain_loss := ct_realized_gain_loss t;
     ct_net_cost_local := ct_net_cost_local t; ct_realized_gain_loss_local := ct_realized_gain_loss_local t;
     ct_source_lot_order_quantity := ct_source_lot_order_quantity t;
     ct_source_lot_original_quantity := ct_source_lot_original_quantity t;
     ct_lot_restatement := ct_lot_restatement t; ct_error_reason := ct_error_reason t;
     ct_extra_fields := ct_extra_fields t |}.

Definition set_transaction_fx_rate (v : option decimal) (t : CostBasisTransaction) : CostBasisTransaction :=
  {| ct_transaction_id := ct_transaction_id t; ct_portfolio_id := ct_portfolio_id t;
     ct_instrument_id := ct_instrument_id t; ct_security_id := ct_security_id t;
     ct_transaction_type := ct_transaction_type t; ct_transaction_date := ct_transaction_date t;
     ct_settlement_date := ct_settlement_date t; ct_child_sequence_hint := ct_child_sequence_hint t;
     ct_target_instrument_id := ct_target_instrument_id t; ct_quantity := ct_quantity t;
     ct_gross_transaction_amount := ct_gross_transaction_amount t;
     ct_net_transaction_amount := ct_net_transaction_amount t; ct_fees := ct_fees t;
     ct_accrued_interest := ct_accrued_interest t; ct_average_price := ct_average_price t;
     ct_trade_currency := ct_trade_currency t; ct_portfolio_base_currency := ct_portfolio_base_currency t;
     ct_transaction_fx_rate := v; ct_net_cost := ct_net_cost t; ct_gross_cost := ct_gross_cost t;
     ct_realized_gain_loss := ct_realized_gain_loss t; ct_net_cost_local := ct_net_cost_local t;
     ct_realized_gain_loss_local := ct_realized_gain_loss_local t;
     ct_source_lot_order_quantity := ct_source_lot_order_quantity t;
     ct_source_lot_original_quantity := ct_source_lot_original_quantity t;
     ct_lot_restatement := ct_lot_restatement t; ct_error_reason := ct_error_reason t;
     ct_extra_fields := ct_extra_fields t |}.

Definition set_net_cost (v : option decimal) (t : CostBasisTransaction) : CostBasisTransaction :=
  {| ct_transaction_id := ct_transaction_id t; ct_portfolio_id := ct_portfolio_id t;
     ct_instrument_id := ct_instrument_id t; ct_security_id := ct_security_id t;
     ct_transaction_type := ct_transaction_type t; ct_transaction_date := ct_transaction_date t;
     ct_settlement_date := ct_settlement_date t; ct_child_sequence_hint := ct_child_sequence_hint t;
     ct_target_instrument_id := ct_target_instrument_id t; ct_quantity := ct_quantity t;
     ct_gross_transaction_amount := ct_gross_transaction_amount t;
     ct_net_transaction_amount := ct_net_transaction_amount t; ct_fees := ct_fees t;
     ct_accrued_interest := ct_accrued_interest t; ct_average_price := ct_average_price t;
     ct_trade_currency := ct_trade_currency t; ct_portfolio_base_currency := ct_portfolio_base_currency t;
     ct_transaction_fx_rate := ct_transaction_fx_rate t; ct_net_cost := v; ct_gross_cost := ct_gross_cost t;
     ct_realized_gain_loss := ct_realized_gain_loss t; ct_net_cost_local := ct_net_cost_local t;
     ct_realized_gain_loss_local := ct_realized_gain_loss_local t;
     ct_source_lot_order_quantity := ct_source_lot_order_quantity t;
     ct_source_lot_original_quantity := ct_source_lot_original_quantity t;
     ct_lot_restatement := ct_lot_restatement t; ct_error_reason := ct_error_reason t;
     ct_extra_fields := ct_extra_fields t |}.

Definition set_gross_cost (v : option decimal) (t : CostBasisTransaction) : CostBasisTransaction :=
  {| ct_transaction_id := ct_transaction_id t; ct_portfolio_id := ct_portfolio_id t;
     ct_instrument_id := ct_instrument_id t; ct_security_id := ct_security_id t;
     ct_transaction_type := ct_transaction_type t; ct_transaction_date := ct_transaction_date t;
     ct_settlement_date := ct_settlement_date t; ct_child_sequence_hint := ct_child_sequence_hint t;
     ct_target_instrument_id := ct_target_instrument_id t; ct_quantity := ct_quantity t;
     ct_gross_transaction_amount := ct_gross_transaction_amount t;
     ct_net_transaction_amount := ct_net_transaction_amount t; ct_fees := ct_fees t;
     ct_accrued_interest := ct_accrued_interest t; ct_average_price := ct_average_price t;
     ct_trade_currency := ct_trade_currency t; ct_portfolio_base_currency := ct_portfolio_base_currency t;
     ct_transaction_fx_rate := ct_transaction_fx_rate t; ct_net_cost := ct_net_cost t; ct_gross_cost := v;
     ct_realized_gain_loss := ct_realized_gain_loss t; ct_net_cost_local := ct_net_cost_local t;
     ct_realized_gain_loss_local := ct_realized_gain_loss_local t;
     ct_source_lot_order_quantity := ct_source_lot_order_quantity t;
     ct_source_lot_original_quantity := ct_source_lot_original_quantity t;
     ct_lot_restatement := ct_lot_restatement t; ct_error_reason := ct_error_reason t;
     ct_extra_fields := ct_extra_fields t |}.

Definition set_realized_gain_loss (v : option decimal) (t : CostBasisTransaction) : CostBasisTransaction :=
  {| ct_transaction_id := ct_transaction_id t; ct_portfolio_id := ct_portfolio_id t;
     ct_instrument_id := ct_instrument_id t; ct_security_id := ct_security_id t;
     ct_transaction_type := ct_transaction_type t; ct_transaction_date := ct_transaction_date t;
     ct_settlement_date := ct_settlement_date t; ct_child_sequence_hint := ct_child_sequence_hint t;
     ct_target_instrument_id := ct_target_instrument_id t; ct_quantity := ct_quantity t;
     ct_gross_transaction_amount := ct_gross_transaction_amount t;
     ct_net_transaction_amount := ct_net_transaction_amount t; ct_fees := ct_fees t;
     ct_accrued_interest := ct_accrued_interest t; ct_average_price := ct_average_price t;
     ct_trade_currency := ct_trade_currency t; ct_portfolio_base_currency := ct_portfolio_base_currency t;
     ct_transaction_fx_rate := ct_transaction_fx_rate t; ct_net_cost := ct_net_cost t;
     ct_gross_cost := ct_gross_cost t; ct_realized_gain_loss := v; ct_net_cost_local := ct_net_cost_local t;
     ct_realized_gain_loss_local := ct_realized_gain_loss_local t;
     ct_source_lot_order_quantity := ct_source_lot_order_quantity t;
     ct_source_lot_original_quantity := ct_source_lot_original_quantity t;
     ct_lot_restatement := ct_lot_restatement t; ct_error_reason := ct_error_reason t;
     ct_extra_fields := ct_extra_fields t |}.

Definition set_net_cost_local (v : option decimal) (t : CostBasisTransaction) : CostBasisTransaction :=
  {| ct_transaction_id := ct_transaction_id t; ct_portfolio_id := ct_portfolio_id t;
     ct_instrument_id := ct_instrument_id t; ct_security_id := ct_security_id t;
     ct_transaction_type := ct_transaction_type t; ct_transaction_date := ct_transaction_date t;
     ct_settlement_date := ct_settlement_date t; ct_child_sequence_hint := ct_child_sequence_hint t;
     ct_target_instrument_id := ct_target_instrument_id t; ct_quantity := ct_quantity t;
     ct_gross_transaction_amount := ct_gross_transaction_amount t;
     ct_net_transaction_amount := ct_net_transaction_amount t; ct_fees := ct_fees t;
     ct_accrued_interest := ct_accrued_interest t; ct_average_price := ct_average_price t;
     ct_trade_currency := ct_trade_currency t; ct_portfolio_base_currency := ct_portfolio_base_currency t;
     ct_transaction_fx_rate := ct_transaction_fx_rate t; ct_net_cost := ct_net_cost t;
     ct_gross_cost := ct_gross_cost t; ct_realized_gain_loss := ct_realized_gain_loss t;
     ct_net_cost_local := v; ct_realized_gain_loss_local := ct_realized_gain_loss_local t;
     ct_source_lot_order_quantity := ct_source_lot_order_quantity t;
     ct_source_lot_original_quantity := ct_source_lot_original_quantity t;
     ct_lot_restatement := ct_lot_restatement t; ct_error_reason := ct_error_reason t;
     ct_extra_fields := ct_extra_fields t |}.

Definition set_realized_gain_loss_local (v : option decimal) (t : CostBasisTransaction) : CostBasisTransaction :=
  {| ct_transaction_id := ct_transaction_id t; ct_portfolio_id := ct_portfolio_id t;
     ct_instrument_id := ct_instrument_id t; ct_security_id := ct_security_id t;
     ct_transaction_type := ct_transaction_type t; ct_transaction_date := ct_transaction_date t;
     ct_settlement_date := ct_settlement_date t; ct_child_sequence_hint := ct_child_sequence_hint t;
     ct_target_instrument_id := ct_target_instrument_id t; ct_quantity := ct_quantity t;
     ct_gross_transaction_amount := ct_gross_transaction_amount t;
     ct_net_transaction_amount := ct_net_transaction_amount t; ct_fees := ct_fees t;
     ct_accrued_interest := ct_accrued_interest t; ct_average_price := ct_average_price t;
     ct_trade_currency := ct_trade_currency t; ct_portfolio_base_currency := ct_portfolio_base_currency t;
     ct_transaction_fx_rate := ct_transaction_fx_rate t; ct_net_cost := ct_net_cost t;
     ct_gross_cost := ct_gross_cost t; ct_realized_gain_loss := ct_realized_gain_loss t;
     ct_net_cost_local := ct_net_cost_local t; ct_realized_gain_loss_local := v;
     ct_source_lot_order_quantity := ct_source_lot_order_quantity t;
     ct_source_lot_original_quantity := ct_source_lot_original_quantity t;
     ct_lot_restatement := ct_lot_restatement t; ct_error_reason := ct_error_reason t;
     ct_extra_fields := ct_extra_fields t |}.

Definition set_lot_restatement (v : option (list (string * decimal))) (t : CostBasisTransaction) : CostBasisTransaction :=
  {| ct_transaction_id := ct_transaction_id t; ct_portfolio_id := ct_portfolio_id t;
     ct_instrument_id := ct_instrument_id t; ct_security_id := ct_security_id t;
     ct_transaction_type := ct_transaction_type t; ct_transaction_date := ct_transaction_date t;
     ct_settlement_date := ct_settlement_date t; ct_child_sequence_hint := ct_child_sequence_hint t;
     ct_target_instrument_id := ct_target_instrument_id t; ct_quantity := ct_quantity t;
     ct_gross_transaction_amount := ct_gross_transaction_amount t;
     ct_net_transaction_amount := ct_net_transaction_amount t; ct_fees := ct_fees t;
     ct_accrued_interest := ct_accrued_interest t; ct_average_price := ct_average_price t;
     ct_trade_currency := ct_trade_currency t; ct_portfolio_base_currency := ct_portfolio_base_currency t;
     ct_transaction_fx_rate := ct_transaction_fx_rate t; ct_net_cost := ct_net_cost t;
     ct_gross_cost := ct_gross_cost t; ct_realized_gain_loss := ct_realized_gain_loss t;
     ct_net_cost_local := ct_net_cost_local t; ct_realized_gain_loss_local := ct_realized_gain_loss_local t;
     ct_source_lot_order_quantity := ct_source_lot_order_quantity t;
     ct_source_lot_original_quantity := ct_source_lot_original_quantity t; ct_lot_restatement := v;
     ct_error_reason := ct_error_reason t; ct_extra_fields := ct_extra_fields t |}.

Definition set_extra_fields (v : list (string * payload)) (t : CostBasisTransaction) : CostBasisTransaction :=
  {| ct_transaction_id := ct_transaction_id t; ct_portfolio_id := ct_portfolio_id t;
     ct_instrument_id := ct_instrument_id t; ct_security_id := ct_security_id t;
     ct_transaction_type := ct_transaction_type t; ct_transaction_date := ct_transaction_date t;
     ct_settlement_date := ct_settlement_date t; ct_child_sequence_hint := ct_child_sequence_hint t;
     ct_target_instrument_id := ct_target_instrument_id t; ct_quantity := ct_quantity t;
     ct_gross_transaction_amount := ct_gross_transaction_amount t;
     ct_net_transaction_amount := ct_net_transaction_amount t; ct_fees := ct_fees t;
     ct_accrued_interest := ct_accrued_interest t; ct_average_price := ct_average_price t;
     ct_trade_currency := ct_trade_currency t; ct_portfolio_base_currency := ct_portfolio_base_currency t;
     ct_transaction_fx_rate := ct_transaction_fx_rate t; ct_net_cost := ct_net_cost t;
     ct_gross_cost := ct_gross_cost t; ct_realized_gain_loss := ct_realized_gain_loss t;
     ct_net_cost_local := ct_net_cost_local t; ct_realized_gain_loss_local := ct_realized_gain_loss_local t;
     ct_source_lot_order_quantity := ct_source_lot_order_quantity t;
     ct_source_lot_original_quantity := ct_source_lot_original_quantity t;
     ct_lot_restatement := ct_lot_restatement t; ct_error_reason := ct_error_reason t; ct_extra_fields := v |}.

(** ** Reading *)

(** [fees.model_dump()]. *)
Definition fees_payload (f : Fees) : payload :=
  PMap [decimal_entry "stamp_duty" (fee_stamp_duty f); decimal_entry "exchange_fee" (fee_exchange_fee f);
        decimal_entry "gst" (fee_gst f); decimal_entry "brokerage" (fee_brokerage f);
        decimal_entry "other_fees" (fee_other_fees f)].

(** The declared fields, by name. *)
Definition declared_fields (t : CostBasisTransaction) : list (string * payload) :=
  [("transaction_id", PStr (ct_transaction_id t));
   ("portfolio_id", PStr (ct_portfolio_id t));
   ("instrument_id", PStr (ct_instrument_id t));
   ("security_id", PStr (ct_security_id t));
   ("transaction_type", PStr (ct_transaction_type t));
   ("transaction_date", PDatetime (ct_transaction_date t));
   ("settlement_date", match ct_settlement_date t with Some v => PDatetime v | None => PNone end);
   ("child_sequence_hint", match ct_child_sequence_hint t with Some v => PInt v | None => PNone end);
   ("target_instrument_id", optional_text (ct_target_instrument_id t));
   ("quantity", PDecimal (Finite (ct_quantity t)));
   ("gross_transaction_amount", PDecimal (Finite (ct_gross_transaction_amount t)));
   ("net_transaction_amount", optional_decimal (ct_net_transaction_amount t));
   ("fees", match ct_fees t with Some v => fees_payload v | None => PNone end);
   ("accrued_interest", optional_decimal (ct_accrued_interest t));
   ("average_price", optional_decimal (ct_average_price t));
   ("trade_currency", PStr (ct_trade_currency t));
   ("portfolio_base_currency", PStr (ct_portfolio_base_currency t));
   ("transaction_fx_rate", optional_decimal (ct_transaction_fx_rate t));
   ("net_cost", optional_decimal (ct_net_cost t));
   ("gross_cost", optional_decimal (ct_gross_cost t));
   ("realized_gain_loss", optional_decimal (ct_realized_gain_loss t));
   ("net_cost_local", optional_decimal (ct_net_cost_local t));
   ("realized_gain_loss_local", optional_decimal (ct_realized_gain_loss_local t));
   ("source_lot_order_quantity", optional_decimal (ct_source_lot_order_quantity t));
   ("source_lot_original_quantity", optional_decimal (ct_source_lot_original_quantity t));
   ("lot_restatement", match ct_lot_restatement t with Some v => PMap (map (fun e => decimal_entry (fst e) (snd e)) v) | None => PNone end);
   ("error_reason", optional_text (ct_error_reason t))].

(** [getattr(transaction, name, None)] with [None] for a missing attribute; [attribute] tells the two
    apart. *)
Definition attribute (t : CostBasisTransaction) (name : string) : option payload :=
  match od_get name (declared_fields t) with Some v => Some v | None => od_get name (ct_extra_fields t) end.

Definition attr (t : CostBasisTransaction) (name : string) : payload := default PNone (attribute t name).

Definition text_of (v : payload) : option string := match v with PStr s => Some s | _ => None end.
Definition attr_text (t : CostBasisTransaction) (name : string) : option string := text_of (attr t name).

(** ** [set_calculated_field] *)

Definition finite_of (v : payload) : option decimal := match v with PDecimal (Finite d) => Some d | _ => None end.

Definition decimals_of (v : payload) : option (list (string * decimal)) :=
  match v with
  | PMap es => Some (omap (fun e => match finite_of (snd e) with Some d => Some (fst e, d) | None => None end) es)
  | _ => None
  end.

(** [setattr]: a declared field is assigned; the calculator calls it on these names only. *)
Definition set_declared (name : string) (v : payload) (t : CostBasisTransaction) : CostBasisTransaction :=
  if String.eqb name "net_cost" then set_net_cost (finite_of v) t
  else if String.eqb name "gross_cost" then set_gross_cost (finite_of v) t
  else if String.eqb name "net_cost_local" then set_net_cost_local (finite_of v) t
  else if String.eqb name "realized_gain_loss" then set_realized_gain_loss (finite_of v) t
  else if String.eqb name "realized_gain_loss_local" then set_realized_gain_loss_local (finite_of v) t
  else if String.eqb name "lot_restatement" then set_lot_restatement (decimals_of v) t
  else t.

Definition set_calculated_field (name : string) (v : payload) (t : CostBasisTransaction) : CostBasisTransaction :=
  let t' := set_declared name v t in
  set_extra_fields (od_set name v (ct_extra_fields t')) t'.

(** ** [model_dump(exclude=...)] *)

Definition model_dump (excluded : list string) (t : CostBasisTransaction) : list (string * payload) :=
  fold_left (fun d e => if in_set (fst e) excluded then d else od_set (fst e) (attr t (fst e)) d)
    (ct_extra_fields t) (List.filter (fun e => negb (in_set (fst e) excluded)) (declared_fields t)).
