(* ===== verification/Fx.v ===== *)
(** * Foreign-exchange components

    [transaction/fx/models.py], [transaction/fx/validation.py] and the baseline update of
    [transaction/fx/baseline_processing.py], for a cost-basis transaction as the source.  The
    [FxTransactionSource] protocol check is the presence of its attributes. *)

From Stdlib Require Import ZArith Lia QArith String.
From stdpp Require Import base tactics list strings.
From S2P Require Import Prelude PyDecimal DecimalFacts PyTime Precision Lineage Registry Transactions Values Position Lots CostBasis CostFields.

#[local] Open Scope string_scope.
#[local] Open Scope Z_scope.

Definition FX_BUSINESS_TRANSACTION_TYPES : list string := production_transaction_types_for_lifecycle_families ["fx"].
Definition FX_COMPONENT_TYPES : list string :=
  ["FX_CONTRACT_OPEN"; "FX_CONTRACT_CLOSE"; "FX_CASH_SETTLEMENT_BUY"; "FX_CASH_SETTLEMENT_SELL"].
Definition FX_CASH_LEG_ROLES : list string := ["BUY"; "SELL"].
Definition FX_RATE_QUOTE_CONVENTIONS : list string := ["QUOTE_PER_BASE"; "BASE_PER_QUOTE"].
Definition FX_SPOT_EXPOSURE_MODELS : list string := ["NONE"; "FX_CONTRACT"].
Definition FX_REALIZED_PNL_MODES : list string := ["NONE"; "UPSTREAM_PROVIDED"; "CASH_LOT_COST_METHOD"].

(** [isinstance(transaction, FxTransactionSource)]: every attribute of the protocol is present. *)
Definition FX_SOURCE_ATTRIBUTES : list string :=
  ["transaction_id"; "transaction_type"; "component_type"; "component_id"; "linked_component_ids"; "portfolio_id";
   "instrument_id"; "security_id"; "transaction_date"; "settlement_date"; "quantity"; "price"; "gross_transaction_amount";
   "trade_currency"; "currency"; "pair_base_currency"; "pair_quote_currency"; "fx_rate_quote_convention"; "buy_currency";
   "sell_currency"; "buy_amount"; "sell_amount"; "contract_rate"].

Definition is_fx_source (t : CostBasisTransaction) : bool :=
  forallb (fun name => match attribute t name with Some _ => true | None => false end) FX_SOURCE_ATTRIBUTES.

(** ** The canonical transaction *)

Record FxCanonicalTransaction := {
  fx_transaction_id : string; fx_transaction_type : string; fx_component_type : string; fx_component_id : string;
  fx_portfolio_id : string; fx_instrument_id : string; fx_security_id : string; fx_transaction_date : datetime;
  fx_quantity : decimal; fx_price : option decimal; fx_gross_transaction_amount : decimal;
  fx_trade_currency : string; fx_currency : string; fx_pair_base_currency : string; fx_pair_quote_currency : string;
  fx_rate_quote_convention : string; fx_buy_currency : string; fx_sell_currency : string;
  fx_buy_amount : decimal; fx_sell_amount : decimal; fx_contract_rate : decimal;
  fx_trade_fee : decimal; fx_withholding_tax_amount : decimal; fx_linked_component_ids : option (list payload);
  fx_settlement_date : option datetime; fx_economic_event_id : option string; fx_linked_transaction_group_id : option string;
  fx_calculation_policy_id : option string; fx_calculation_policy_version : option string;
  fx_cash_leg_role : option string; fx_linked_fx_cash_leg_id : option string; fx_settlement_status : option string;
  fx_contract_id : option string; fx_contract_open_transaction_id : option string; fx_contract_close_transaction_id : option string;
  fx_settlement_of_fx_contract_id : option string; fx_swap_event_id : option string; fx_near_leg_group_id : option string;
  fx_far_leg_group_id : option string; fx_spot_exposure_model : option string; fx_realized_pnl_mode : option string;
  fx_realized_capital_pnl_local : option decimal; fx_realized_fx_pnl_local : option decimal; fx_realized_total_pnl_local : option decimal;
  fx_realized_capital_pnl_base : option decimal; fx_realized_fx_pnl_base : option decimal; fx_realized_total_pnl_base : option decimal
}.

(** The [fees] object answers for the fee components when it is there. *)
Definition fee_component_values (t : CostBasisTransaction) : list (string * payload) :=
  map (fun name => (name,
    match ct_fees t with
    | Some f => match fees_payload f with PMap es => od_get_default PNone name es | _ => PNone end
    | None => attr t name
    end)) TRANSACTION_FEE_COMPONENT_FIELDS.

(** [value or Decimal(0)] for an optional amount. *)
Definition or_zero (v : option decimal) : decimal := match v with Some d => dor d dzero | None => dzero end.

Definition resolved_source_trade_fee (t : CostBasisTransaction) : result decimal :=
  aggregate ← resolve_transaction_trade_fee (attr t "trade_fee") [];
  components ← resolve_transaction_trade_fee PNone (fee_component_values t);
  Ok (if negb (deqb (or_zero components) dzero) then or_zero components else or_zero aggregate).

Definition optional_source_decimal (t : CostBasisTransaction) (field_name : string) : result decimal :=
  if is_none (attr t field_name) then Ok dzero else
  match decimal_or_none (attr t field_name) with
  | Some d => Ok d
  | None => Raise (ValueError (field_name +:+ " must be numeric."))
  end.

(** [source.x or ""] as the value handed to [normalize_currency_code]. *)
Definition text_or_empty (v : payload) : payload := if payload_truthy v then v else PStr "".

Definition fx_from_transaction (t : CostBasisTransaction) : result FxCanonicalTransaction :=
  trade_fee ← resolved_source_trade_fee t;
  withholding ← optional_source_decimal t "withholding_tax_amount";
  trade_currency ← normalize_currency_code (PStr (ct_trade_currency t));
  currency ← normalize_currency_code (attr t "currency");
  pair_base ← normalize_currency_code (text_or_empty (attr t "pair_base_currency"));
  pair_quote ← normalize_currency_code (text_or_empty (attr t "pair_quote_currency"));
  buy_currency ← normalize_currency_code (text_or_empty (attr t "buy_currency"));
  sell_currency ← normalize_currency_code (text_or_empty (attr t "sell_currency"));
  let text := attr_text t in
  let amount name := finite_of (attr t name) in
  Ok {| fx_transaction_id := ct_transaction_id t;
        fx_transaction_type := normalize_transaction_control_code (Some (ct_transaction_type t));
        fx_component_type := normalize_transaction_control_code (Some (or_text (text "component_type") ""));
        fx_component_id := or_text (text "component_id") "";
        fx_portfolio_id := ct_portfolio_id t; fx_instrument_id := ct_instrument_id t; fx_security_id := ct_security_id t;
        fx_transaction_date := ct_transaction_date t; fx_quantity := ct_quantity t; fx_price := amount "price";
        fx_gross_transaction_amount := ct_gross_transaction_amount t; fx_trade_currency := trade_currency;
        fx_currency := currency; fx_pair_base_currency := pair_base; fx_pair_quote_currency := pair_quote;
        fx_rate_quote_convention := normalize_transaction_control_code (Some (or_text (text "fx_rate_quote_convention") ""));
        fx_buy_currency := buy_currency; fx_sell_currency := sell_currency;
        fx_buy_amount := or_zero (amount "buy_amount"); fx_sell_amount := or_zero (amount "sell_amount");
        fx_contract_rate := or_zero (amount "contract_rate"); fx_trade_fee := trade_fee;
        fx_withholding_tax_amount := withholding;
        fx_linked_component_ids := match attr t "linked_component_ids" with PSeq xs => Some xs | _ => None end;
        fx_settlement_date := ct_settlement_date t; fx_economic_event_id := text "economic_event_id";
        fx_linked_transaction_group_id := text "linked_transaction_group_id";
        fx_calculation_policy_id := text "calculation_policy_id"; fx_calculation_policy_version := text "calculation_policy_version";
        fx_cash_leg_role := normalize_optional_transaction_control_code (text "fx_cash_leg_role");
        fx_linked_fx_cash_leg_id := text "linked_fx_cash_leg_id";
        fx_settlement_status := normalize_optional_transaction_control_code (text "settlement_status");
        fx_contract_id := text "fx_contract_id"; fx_contract_open_transaction_id := text "fx_contract_open_transaction_id";
        fx_contract_close_transaction_id := text "fx_contract_close_transaction_id";
        fx_settlement_of_fx_contract_id := text "settlement_of_fx_contract_id"; fx_swap_event_id := text "swap_event_id";
        fx_near_leg_group_id := text "near_leg_group_id"; fx_far_leg_group_id := text "far_leg_group_id";
        fx_spot_exposure_model := normalize_optional_transaction_control_code (text "spot_exposure_model");
        fx_realized_pnl_mode := normalize_optional_transaction_control_code (text "fx_realized_pnl_mode");
        fx_realized_capital_pnl_local := amount "realized_capital_pnl_local";
        fx_realized_fx_pnl_local := amount "realized_fx_pnl_local";
        fx_realized_total_pnl_local := amount "realized_total_pnl_local";
        fx_realized_capital_pnl_base := amount "realized_capital_pnl_base";
        fx_realized_fx_pnl_base := amount "realized_fx_pnl_base";
        fx_realized_total_pnl_base := amount "realized_total_pnl_base" |}.

(** ** Validation *)

Record FxValidationIssue := { fi_code : string; fi_field : string; fi_message : string }.

Definition issue_if (b : bool) (code field message : string) : list FxValidationIssue :=
  if b then [{| fi_code := code; fi_field := field; fi_message := message |}] else [].

Definition absent (v : option string) : bool := negb (truthy (or_text v "")).

Definition validate_control_codes (x : FxCanonicalTransaction) : list FxValidationIssue :=
  issue_if (negb (in_set (normalize_transaction_control_code (Some (fx_transaction_type x))) FX_BUSINESS_TRANSACTION_TYPES))
    "FX_001_INVALID_TRANSACTION_TYPE" "transaction_type" "transaction_type must be FX_SPOT, FX_FORWARD, or FX_SWAP." ++
  issue_if (negb (in_set (normalize_transaction_control_code (Some (fx_component_type x))) FX_COMPONENT_TYPES))
    "FX_002_INVALID_COMPONENT_TYPE" "component_type"
    "component_type must be FX_CONTRACT_OPEN, FX_CONTRACT_CLOSE, FX_CASH_SETTLEMENT_BUY, or FX_CASH_SETTLEMENT_SELL.".

Definition validate_component_identity (x : FxCanonicalTransaction) : list FxValidationIssue :=
  issue_if (negb (truthy (strip (fx_component_id x)))) "FX_003_MISSING_COMPONENT_ID" "component_id"
    "component_id is required for canonical FX validation.".

Definition fx_validate_zero (value : option decimal) (field code message : string) : list FxValidationIssue :=
  issue_if (match value with Some d => negb (deqb d dzero) | None => true end) code field message.

Definition validate_zero_quantity_and_price (x : FxCanonicalTransaction) : list FxValidationIssue :=
  fx_validate_zero (Some (fx_quantity x)) "quantity" "FX_004_NON_ZERO_QUANTITY" "quantity must be zero for canonical FX transactions." ++
  fx_validate_zero (fx_price x) "price" "FX_005_NON_ZERO_PRICE" "price must be zero for canonical FX transactions.".

Definition validate_settlement_dates (x : FxCanonicalTransaction) : list FxValidationIssue :=
  match fx_settlement_date x with
  | None => issue_if true "FX_006_MISSING_SETTLEMENT_DATE" "settlement_date" "settlement_date is required for canonical FX validation."
  | Some settled => issue_if (dt_instant settled <? dt_instant (fx_transaction_date x)) "FX_007_INVALID_DATE_ORDER" "transaction_date"
                      "transaction_date must be on or before settlement_date."
  end.

Definition validate_currency_pair (x : FxCanonicalTransaction) : list FxValidationIssue :=
  issue_if (negb (truthy (fx_pair_base_currency x)) || negb (truthy (fx_pair_quote_currency x)))
    "FX_009_MISSING_PAIR_CURRENCY" "pair_base_currency" "pair_base_currency and pair_quote_currency are required." ++
  issue_if (String.eqb (fx_buy_currency x) (fx_sell_currency x))
    "FX_008_SAME_CURRENCY_NOT_ALLOWED" "buy_currency" "buy_currency and sell_currency must differ for FX transactions.".

Definition validate_quote_convention (x : FxCanonicalTransaction) : list FxValidationIssue :=
  issue_if (negb (in_set (normalize_transaction_control_code (Some (fx_rate_quote_convention x))) FX_RATE_QUOTE_CONVENTIONS))
    "FX_010_INVALID_QUOTE_CONVENTION" "fx_rate_quote_convention"
    "fx_rate_quote_convention must be QUOTE_PER_BASE or BASE_PER_QUOTE.".

Definition validate_positive_decimal (value : decimal) (field code message : string) : list FxValidationIssue :=
  issue_if (dleb value dzero) code field message.

Definition validate_positive_amounts_and_rate (x : FxCanonicalTransaction) : list FxValidationIssue :=
  validate_positive_decimal (fx_buy_amount x) "buy_amount" "FX_011_NON_POSITIVE_BUY_AMOUNT" "buy_amount must be greater than zero." ++
  validate_positive_decimal (fx_sell_amount x) "sell_amount" "FX_012_NON_POSITIVE_SELL_AMOUNT" "sell_amount must be greater than zero." ++
  validate_positive_decimal (fx_contract_rate x) "contract_rate" "FX_013_NON_POSITIVE_CONTRACT_RATE" "contract_rate must be greater than zero.".

Definition validate_fx_embedded_fee (trade_fee : decimal) : list FxValidationIssue :=
  issue_if (negb (deqb trade_fee dzero)) "FX_025_NON_ZERO_EMBEDDED_FEE" "trade_fee"
    "Embedded FX fees are unsupported; book a separate FEE or TAX transaction with governed economic-event and transaction-group linkage.".

Definition validate_fx_embedded_tax (withholding_tax_amount : decimal) : list FxValidationIssue :=
  issue_if (negb (deqb withholding_tax_amount dzero)) "FX_026_NON_ZERO_EMBEDDED_TAX" "withholding_tax_amount"
    "Embedded FX taxes are unsupported; book a separate TAX transaction with governed economic-event and transaction-group linkage.".

Definition validate_strict_metadata (x : FxCanonicalTransaction) (strict_metadata : bool) : list FxValidationIssue :=
  if negb strict_metadata then [] else
  issue_if (absent (fx_economic_event_id x) || absent (fx_linked_transaction_group_id x))
    "FX_014_MISSING_LINKAGE_IDENTIFIER" "economic_event_id"
    "economic_event_id and linked_transaction_group_id are required under strict metadata validation." ++
  issue_if (absent (fx_calculation_policy_id x) || absent (fx_calculation_policy_version x))
    "FX_015_MISSING_POLICY_METADATA" "calculation_policy_id"
    "calculation_policy_id and calculation_policy_version are required under strict metadata validation.".

Definition starts_with (prefix s : string) : bool := match drop_prefix prefix s with Some _ => true | None => false end.

Definition validate_cash_settlement_component (x : FxCanonicalTransaction) : list FxValidationIssue :=
  if negb (starts_with "FX_CASH_SETTLEMENT" (normalize_transaction_control_code (Some (fx_component_type x)))) then [] else
  issue_if (negb (in_set (normalize_transaction_control_code (fx_cash_leg_role x)) FX_CASH_LEG_ROLES))
    "FX_016_INVALID_FX_CASH_ROLE" "fx_cash_leg_role" "fx_cash_leg_role must be BUY or SELL for cash settlement components." ++
  issue_if (absent (fx_linked_fx_cash_leg_id x))
    "FX_017_MISSING_LINKED_FX_CASH_LEG" "linked_fx_cash_leg_id" "linked_fx_cash_leg_id is required for FX cash settlement components.".

Definition validate_contract_identifier (x : FxCanonicalTransaction) : list FxValidationIssue :=
  let requires_contract_id :=
    in_set (normalize_transaction_control_code (Some (fx_transaction_type x))) ["FX_FORWARD"; "FX_SWAP"] ||
    starts_with "FX_CONTRACT" (normalize_transaction_control_code (Some (fx_component_type x))) in
  issue_if (requires_contract_id && absent (fx_contract_id x))
    "FX_018_MISSING_FX_CONTRACT_ID" "fx_contract_id" "fx_contract_id is required for forwards, swaps, and contract components.".

Definition validate_swap_structure (x : FxCanonicalTransaction) : list FxValidationIssue :=
  if negb (String.eqb (normalize_transaction_control_code (Some (fx_transaction_type x))) "FX_SWAP") then [] else
  if absent (fx_swap_event_id x) || absent (fx_near_leg_group_id x) || absent (fx_far_leg_group_id x) then
    issue_if true "FX_019_MISSING_SWAP_GROUP_IDENTIFIER" "swap_event_id"
      "swap_event_id, near_leg_group_id, and far_leg_group_id are required for FX_SWAP."
  else issue_if (bool_decide (fx_near_leg_group_id x = fx_far_leg_group_id x)) "FX_024_INVALID_SWAP_GROUP_STRUCTURE" "near_leg_group_id"
         "near_leg_group_id and far_leg_group_id must be distinct for FX_SWAP.".

Definition present {A} (v : option A) : bool := match v with Some _ => true | None => false end.

Definition validate_optional_policy_modes (x : FxCanonicalTransaction) : list FxValidationIssue :=
  issue_if (present (fx_spot_exposure_model x) &&
            negb (in_set (normalize_transaction_control_code (fx_spot_exposure_model x)) FX_SPOT_EXPOSURE_MODELS))
    "FX_020_INVALID_SPOT_EXPOSURE_MODEL" "spot_exposure_model" "spot_exposure_model must be NONE or FX_CONTRACT when provided." ++
  issue_if (present (fx_realized_pnl_mode x) &&
            negb (in_set (normalize_transaction_control_code (fx_realized_pnl_mode x)) FX_REALIZED_PNL_MODES))
    "FX_021_INVALID_REALIZED_PNL_MODE" "fx_realized_pnl_mode"
    "fx_realized_pnl_mode must be NONE, UPSTREAM_PROVIDED, or CASH_LOT_COST_METHOD when provided.".

Definition validate_realized_capital_pnl_zero (field_name : string) (value : option decimal) : list FxValidationIssue :=
  issue_if (match value with Some d => negb (deqb d dzero) | None => false end)
    "FX_022_NON_ZERO_REALIZED_CAPITAL_PNL" field_name (field_name +:+ " must be explicit zero for FX.").

Definition validate_realized_total_identity (capital fx total : option decimal) (total_field : string) : result (list FxValidationIssue) :=
  match total, fx with
  | Some total, Some fx =>
      expected ← dadd default_context (or_zero capital) fx;
      Ok (issue_if (negb (deqb total expected)) "FX_023_REALIZED_TOTAL_PNL_MISMATCH" total_field
            (total_field +:+ " must equal realized_capital_pnl + realized_fx_pnl."))
  | _, _ => Ok []
  end.

Definition validate_realized_pnl_fields (x : FxCanonicalTransaction) : result (list FxValidationIssue) :=
  let capital := (validate_realized_capital_pnl_zero "realized_capital_pnl_local" (fx_realized_capital_pnl_local x) ++
                  validate_realized_capital_pnl_zero "realized_capital_pnl_base" (fx_realized_capital_pnl_base x))%list in
  local ← validate_realized_total_identity (fx_realized_capital_pnl_local x) (fx_realized_fx_pnl_local x)
            (fx_realized_total_pnl_local x) "realized_total_pnl_local";
  base ← validate_realized_total_identity (fx_realized_capital_pnl_base x) (fx_realized_fx_pnl_base x)
            (fx_realized_total_pnl_base x) "realized_total_pnl_base";
  Ok (capital ++ local ++ base)%list.

Definition validate_fx_transaction (x : FxCanonicalTransaction) (strict_metadata : bool) : result (list FxValidationIssue) :=
  let issues := (validate_control_codes x ++ validate_component_identity x ++ validate_zero_quantity_and_price x ++
    validate_settlement_dates x ++ validate_currency_pair x ++ validate_quote_convention x ++
    validate_positive_amounts_and_rate x ++ validate_fx_embedded_fee (fx_trade_fee x) ++
    validate_fx_embedded_tax (fx_withholding_tax_amount x) ++ validate_strict_metadata x strict_metadata ++
    validate_cash_settlement_component x ++ validate_contract_identifier x ++ validate_swap_structure x ++
    validate_optional_policy_modes x)%list in
  pnl ← validate_realized_pnl_fields x;
  Ok (issues ++ pnl)%list.

(** ** The baseline update *)

Definition FX_BASELINE_REALIZED_PNL_MODES : list string := ["NONE"; "UPSTREAM_PROVIDED"].

Definition assert_supported_baseline_realized_mode (realized_mode : string) : result unit :=
  raise_if (negb (in_set realized_mode FX_BASELINE_REALIZED_PNL_MODES))
    (UnsupportedFxRealizedPnlModeError ("FX realized P&L mode '" +:+ realized_mode +:+
       "' is not supported by baseline FX cost processing; supported modes are NONE and UPSTREAM_PROVIDED.")).

Definition resolve_total_pnl (total : option decimal) (capital fx : decimal) : result decimal :=
  match total with Some d => Ok d | None => dadd default_context capital fx end.

(** (capital, fx, total) in local, then in base currency. *)
Definition resolve_realized_pnl_values (t : CostBasisTransaction) (realized_mode : string)
  : result (decimal * decimal * decimal * (decimal * decimal * decimal)) :=
  if String.eqb realized_mode "NONE" then Ok ((dzero, dzero, dzero), (dzero, dzero, dzero)) else
  let amount name := finite_of (attr t name) in
  let capital_local := default dzero (amount "realized_capital_pnl_local") in
  let capital_base := default dzero (amount "realized_capital_pnl_base") in
  let fx_local := default dzero (amount "realized_fx_pnl_local") in
  let fx_base := default dzero (amount "realized_fx_pnl_base") in
  total_local ← resolve_total_pnl (amount "realized_total_pnl_local") capital_local fx_local;
  total_base ← resolve_total_pnl (amount "realized_total_pnl_base") capital_base fx_base;
  Ok ((capital_local, fx_local, total_local), (capital_base, fx_base, total_base)).

Definition build_fx_baseline_processing_update (t : CostBasisTransaction) : result (list (string * payload)) :=
  let realized_mode := normalize_transaction_control_code (Some (or_text (attr_text t "fx_realized_pnl_mode") "NONE")) in
  _ ← assert_supported_baseline_realized_mode realized_mode;
  '((capital_local, fx_local, total_local), (capital_base, fx_base, total_base)) ← resolve_realized_pnl_values t realized_mode;
  Ok [("fx_realized_pnl_mode", PStr realized_mode);
      decimal_entry "gross_cost" (default dzero (ct_gross_cost t)); decimal_entry "net_cost" (default dzero (ct_net_cost t));
      decimal_entry "realized_gain_loss" (default dzero (ct_realized_gain_loss t));
      decimal_entry "net_cost_local" (default dzero (ct_net_cost_local t));
      decimal_entry "realized_gain_loss_local" (default dzero (ct_realized_gain_loss_local t));
      decimal_entry "realized_capital_pnl_local" capital_local; decimal_entry "realized_fx_pnl_local" fx_local;
      decimal_entry "realized_total_pnl_local" total_local; decimal_entry "realized_capital_pnl_base" capital_base;
      decimal_entry "realized_fx_pnl_base" fx_base; decimal_entry "realized_total_pnl_base" total_base].
