(* ===== verification/Redemption.v ===== *)
(** * Fixed-income redemptions

    [transaction/redemption/eligibility.py] and [transaction/redemption/economics.py]: which
    instruments may be redeemed, how the redeemed quantity is resolved from an explicit quantity or
    a pool-factor transition, and the principal, cash and capital result of one redemption leg.
    The optional terms are read from the transaction without conversion, so they are [payload]
    values; the code checks that each is a finite [Decimal]. *)

From Stdlib Require Import ZArith Lia QArith String.
From stdpp Require Import base tactics list strings.
From S2P Require Import Prelude PyDecimal DecimalFacts PyTime Precision Lineage Registry Transactions Values Position Lots.

#[local] Open Scope string_scope.
#[local] Open Scope Z_scope.

#[local] Notation policy := TRANSACTION_COST_LEDGER_OUTPUT_V1.

(** ** Eligibility *)

Definition REDEMPTION_ELIGIBLE_ASSET_CLASSES : list string := ["FIXED_INCOME"].
Definition TERM_REDEEMABLE_PRODUCT_TYPES : list string :=
  ["ASSET_BACKED_SECURITY"; "BOND"; "CERTIFICATE_OF_DEPOSIT"; "COMMERCIAL_PAPER"; "CONVERTIBLE_BOND"; "FIXED_INCOME";
   "MONEY_MARKET_INSTRUMENT"; "MORTGAGE_BACKED_SECURITY"; "NOTE"; "STRUCTURED_CALLABLE_NOTE"; "STRUCTURED_NOTE";
   "TREASURY_BILL"].
Definition REDEMPTION_ELIGIBLE_PRODUCT_TYPES_BY_TRANSACTION : list (string * list string) :=
  [("MATURITY_REDEMPTION", TERM_REDEEMABLE_PRODUCT_TYPES);
   ("CALL_REDEMPTION", TERM_REDEEMABLE_PRODUCT_TYPES ++ ["PERPETUAL_BOND"]);
   ("PARTIAL_REDEMPTION", TERM_REDEEMABLE_PRODUCT_TYPES ++ ["PERPETUAL_BOND"])]%list.

Definition assert_redemption_settlement_date (transaction_type : string) (settlement_date : option datetime)
  : result (option string) :=
  let normalized := normalize_transaction_control_code (Some transaction_type) in
  if negb (in_set normalized REDEMPTION_TRANSACTION_TYPES) then Ok None else
  match settlement_date with
  | None => Raise (ValueError ("settlement_date is required for " +:+ normalized +:+ "."))
  | Some _ => Ok (Some normalized)
  end.

Definition assert_redemption_command_eligible (transaction_type : string) (settlement_date : option datetime)
  (product_type asset_class : option string) : result unit :=
  normalized_type ← assert_redemption_settlement_date transaction_type settlement_date;
  match (normalized_type : option string) with
  | None => Ok tt
  | Some ty =>
      let product := normalize_transaction_control_code product_type in
      let asset := normalize_transaction_control_code asset_class in
      match od_get ty REDEMPTION_ELIGIBLE_PRODUCT_TYPES_BY_TRANSACTION with
      | None => Raise (KeyError ty)
      | Some eligible =>
          _ ← raise_if (negb (in_set product eligible))
                (RedemptionEligibilityError (ty +:+ " requires an explicitly redemption-eligible product_type; received " +:+
                   or_text (Some product) "MISSING" +:+ "."));
          raise_if (truthy asset && negb (in_set asset REDEMPTION_ELIGIBLE_ASSET_CLASSES))
            (RedemptionEligibilityError (ty +:+ " requires FIXED_INCOME asset_class when supplied; received " +:+ asset +:+ "."))
      end
  end.

(** ** Terms *)

Definition FULL_REDEMPTION_TRANSACTION_TYPES : list string := ["MATURITY_REDEMPTION"; "CALL_REDEMPTION"].
Definition REDEMPTION_WORKING_PRECISION : Z := 64.

Record RedemptionTerms := {
  rt_transaction_type : string; rt_position_quantity : decimal; rt_redemption_price : decimal;
  rt_allocated_cost_basis_local : decimal; rt_allocated_cost_basis_base : decimal; rt_fx_rate_to_base : decimal;
  rt_redeemed_quantity : option decimal; rt_old_factor : payload; rt_new_factor : payload;
  rt_principal_proceeds_local : payload; rt_accrued_interest_proceeds_local : payload;
  rt_embedded_fee_amount_local : payload; rt_embedded_tax_amount_local : payload;
  rt_reconciliation_tolerance : decimal
}.

Definition default_tolerance : decimal := Dec 1 (-10).

Record RedemptionEconomics := {
  re_redeemed_quantity : decimal; re_remaining_quantity : decimal; re_derived_principal_proceeds_local : decimal;
  re_principal_proceeds_local : decimal; re_accrued_interest_proceeds_local : decimal;
  re_total_cash_proceeds_local : decimal; re_principal_proceeds_base : decimal;
  re_realized_capital_pnl_local : decimal; re_realized_capital_pnl_base : decimal;
  re_calculation_lineage : CalculationLineage
}.

(** A value the code accepts as a finite [Decimal]. *)
Definition as_decimal (v : payload) : option decimal := match v with PDecimal (Finite d) => Some d | _ => None end.

Definition require_positive (value : payload) (code field : string) : result decimal :=
  match as_decimal value with
  | Some d => if dleb d dzero then Raise (RedemptionCalculationError code field "value must be a positive finite decimal.") else Ok d
  | None => Raise (RedemptionCalculationError code field "value must be a positive finite decimal.")
  end.

Definition require_nonnegative (value : payload) (code field : string) : result decimal :=
  match as_decimal value with
  | Some d => if dltb d dzero then Raise (RedemptionCalculationError code field "value must be a non-negative finite decimal.") else Ok d
  | None => Raise (RedemptionCalculationError code field "value must be a non-negative finite decimal.")
  end.

Definition require_within_tolerance (left right tolerance : decimal) (code field : string) : result unit :=
  difference ← dsub default_context left right;
  magnitude ← dabs default_context difference;
  raise_if (dltb tolerance magnitude)
    (RedemptionCalculationError code field ("values differ by more than the governed tolerance " +:+ string_of_decimal tolerance +:+ ".")).

Definition with_transaction_type (ty : string) (t : RedemptionTerms) : RedemptionTerms :=
  {| rt_transaction_type := ty; rt_position_quantity := rt_position_quantity t; rt_redemption_price := rt_redemption_price t;
     rt_allocated_cost_basis_local := rt_allocated_cost_basis_local t; rt_allocated_cost_basis_base := rt_allocated_cost_basis_base t;
     rt_fx_rate_to_base := rt_fx_rate_to_base t; rt_redeemed_quantity := rt_redeemed_quantity t;
     rt_old_factor := rt_old_factor t; rt_new_factor := rt_new_factor t;
     rt_principal_proceeds_local := rt_principal_proceeds_local t;
     rt_accrued_interest_proceeds_local := rt_accrued_interest_proceeds_local t;
     rt_embedded_fee_amount_local := rt_embedded_fee_amount_local t;
     rt_embedded_tax_amount_local := rt_embedded_tax_amount_local t;
     rt_reconciliation_tolerance := rt_reconciliation_tolerance t |}.

(** A [Decimal] field as the value the checks see. *)
Definition dfield (d : decimal) : payload := PDecimal (Finite d).

(** The decimals of the terms after validation. *)
Record ValidatedAmounts := { va_accrued : decimal; va_fee : decimal; va_tax : decimal; va_principal : option decimal }.

Definition validated_inputs (t : RedemptionTerms) : result (RedemptionTerms * ValidatedAmounts) :=
  let ty := upper (strip (or_text (Some (rt_transaction_type t)) "")) in
  _ ← raise_if (negb (in_set ty REDEMPTION_TRANSACTION_TYPES))
        (RedemptionCalculationError "REDEMPTION_001_INVALID_TRANSACTION_TYPE" "transaction_type"
           "transaction type must belong to the canonical redemption family.");
  _ ← require_positive (dfield (rt_position_quantity t)) "REDEMPTION_002_NON_POSITIVE_POSITION_QUANTITY" "position_quantity";
  _ ← require_nonnegative (dfield (rt_redemption_price t)) "REDEMPTION_011_NON_POSITIVE_REDEMPTION_PRICE" "redemption_price";
  _ ← require_positive (dfield (rt_fx_rate_to_base t)) "REDEMPTION_014_NON_POSITIVE_FX_RATE" "fx_rate_to_base";
  _ ← require_nonnegative (dfield (rt_reconciliation_tolerance t)) "REDEMPTION_016_INVALID_TOLERANCE" "reconciliation_tolerance";
  _ ← require_nonnegative (dfield (rt_allocated_cost_basis_local t)) "REDEMPTION_013_INVALID_MONETARY_INPUT" "allocated_cost_basis_local";
  _ ← require_nonnegative (dfield (rt_allocated_cost_basis_base t)) "REDEMPTION_013_INVALID_MONETARY_INPUT" "allocated_cost_basis_base";
  accrued ← require_nonnegative (rt_accrued_interest_proceeds_local t) "REDEMPTION_013_INVALID_MONETARY_INPUT" "accrued_interest_proceeds_local";
  fee ← require_nonnegative (rt_embedded_fee_amount_local t) "REDEMPTION_013_INVALID_MONETARY_INPUT" "embedded_fee_amount_local";
  tax ← require_nonnegative (rt_embedded_tax_amount_local t) "REDEMPTION_013_INVALID_MONETARY_INPUT" "embedded_tax_amount_local";
  principal ← (if is_none (rt_principal_proceeds_local t) then Ok None
               else d ← require_nonnegative (rt_principal_proceeds_local t) "REDEMPTION_013_INVALID_MONETARY_INPUT" "principal_proceeds_local";
                    Ok (Some d));
  _ ← match rt_redeemed_quantity t with
      | Some q => require_positive (dfield q) "REDEMPTION_006_NON_POSITIVE_REDEEMED_QUANTITY" "redeemed_quantity"
      | None => Ok dzero
      end;
  Ok (with_transaction_type ty t, {| va_accrued := accrued; va_fee := fee; va_tax := tax; va_principal := principal |}).

(** ** Quantity *)

Definition factor_redeemed_quantity (t : RedemptionTerms) : result (option decimal) :=
  if is_none (rt_old_factor t) && is_none (rt_new_factor t) then Ok None else
  _ ← raise_if (is_none (rt_old_factor t) || is_none (rt_new_factor t))
        (RedemptionCalculationError "REDEMPTION_004_INCOMPLETE_FACTOR_AUTHORITY" "old_factor"
           "old_factor and new_factor must be supplied together.");
  let invalid := RedemptionCalculationError "REDEMPTION_005_INVALID_FACTOR_TRANSITION" "new_factor"
                   "factor transition requires 0 <= new_factor < old_factor." in
  match as_decimal (rt_old_factor t), as_decimal (rt_new_factor t) with
  | Some old, Some new =>
      _ ← raise_if (dleb old dzero || dltb new dzero || dleb old new) invalid;
      released ← dsub (arithmetic_context policy) old new;
      product ← dmul (arithmetic_context policy) (rt_position_quantity t) released;
      quantity ← ddiv (arithmetic_context policy) product old;
      q ← normalize policy (Finite quantity) "factor_redeemed_quantity";
      Ok (Some q)
  | _, _ => Raise invalid
  end.

Definition resolve_redeemed_quantity (t : RedemptionTerms) : result decimal :=
  factor_quantity ← factor_redeemed_quantity t;
  quantity ← match rt_redeemed_quantity t, (factor_quantity : option decimal) with
    | Some explicit, Some by_factor =>
        _ ← require_within_tolerance explicit by_factor (rt_reconciliation_tolerance t)
              "REDEMPTION_010_QUANTITY_AUTHORITY_MISMATCH" "redeemed_quantity";
        Ok explicit
    | Some explicit, None => Ok explicit
    | None, Some by_factor => Ok by_factor
    | None, None => Raise (RedemptionCalculationError "REDEMPTION_003_MISSING_QUANTITY_AUTHORITY" "redeemed_quantity"
                      "redeemed quantity or a complete old/new factor transition is required.")
    end;
  _ ← raise_if (dltb (rt_position_quantity t) quantity)
        (RedemptionCalculationError "REDEMPTION_007_QUANTITY_EXCEEDS_POSITION" "redeemed_quantity"
           "redeemed quantity must not exceed the available position quantity.");
  quantity ← (if in_set (rt_transaction_type t) FULL_REDEMPTION_TRANSACTION_TYPES then
                _ ← require_within_tolerance quantity (rt_position_quantity t) (rt_reconciliation_tolerance t)
                      "REDEMPTION_008_FULL_REDEMPTION_QUANTITY_MISMATCH" "redeemed_quantity";
                Ok (rt_position_quantity t)
              else if dleb (rt_position_quantity t) quantity then
                Raise (RedemptionCalculationError "REDEMPTION_009_PARTIAL_REDEMPTION_CLOSES_POSITION" "redeemed_quantity"
                  "PARTIAL_REDEMPTION must leave a positive remaining position.")
              else Ok quantity);
  normalize policy (Finite quantity) "redeemed_quantity".

(** ** Economics *)

Definition calculate_redemption_principal_proceeds_local (redeemed_quantity redemption_price : decimal) : result decimal :=
  dmul (make_context REDEMPTION_WORKING_PRECISION ROUND_HALF_EVEN) redeemed_quantity redemption_price.

Definition derive_redemption_principal_proceeds_local (redeemed_quantity redemption_price : decimal) : result decimal :=
  raw ← calculate_redemption_principal_proceeds_local redeemed_quantity redemption_price;
  normalize policy (Finite raw) "derived_principal_proceeds_local".

Definition resolve_principal_proceeds (t : RedemptionTerms) (provided : option decimal) (derived : decimal) : result decimal :=
  match provided with
  | None => Ok derived
  | Some principal =>
      _ ← require_within_tolerance principal derived (rt_reconciliation_tolerance t)
            "REDEMPTION_012_PRINCIPAL_PROCEEDS_MISMATCH" "principal_proceeds_local";
      normalize policy (Finite principal) "principal_proceeds_local"
  end.

Definition lineage_input (t : RedemptionTerms) : list (string * payload) :=
  [("transaction_type", PStr (rt_transaction_type t)); decimal_entry "position_quantity" (rt_position_quantity t);
   decimal_entry "redemption_price" (rt_redemption_price t);
   decimal_entry "allocated_cost_basis_local" (rt_allocated_cost_basis_local t);
   decimal_entry "allocated_cost_basis_base" (rt_allocated_cost_basis_base t);
   decimal_entry "fx_rate_to_base" (rt_fx_rate_to_base t);
   ("redeemed_quantity", optional_decimal (rt_redeemed_quantity t)); ("old_factor", rt_old_factor t);
   ("new_factor", rt_new_factor t); ("principal_proceeds_local", rt_principal_proceeds_local t);
   ("accrued_interest_proceeds_local", rt_accrued_interest_proceeds_local t);
   ("embedded_fee_amount_local", rt_embedded_fee_amount_local t);
   ("embedded_tax_amount_local", rt_embedded_tax_amount_local t);
   decimal_entry "reconciliation_tolerance" (rt_reconciliation_tolerance t)].

Section Economics.
Context `{hashing : Hashing}.

Definition calculate_redemption_economics (terms : RedemptionTerms) : result RedemptionEconomics :=
  '(normalized, amounts) ← validated_inputs terms;
  quantity ← resolve_redeemed_quantity normalized;
  derived_principal ← derive_redemption_principal_proceeds_local quantity (rt_redemption_price normalized);
  principal ← resolve_principal_proceeds normalized (va_principal amounts) derived_principal;
  accrued_interest ← normalize policy (Finite (va_accrued amounts)) "accrued_interest_proceeds_local";
  embedded_fees ← normalize policy (Finite (va_fee amounts)) "embedded_fee_amount_local";
  embedded_taxes ← normalize policy (Finite (va_tax amounts)) "embedded_tax_amount_local";
  gross ← p_add policy (principal : decimal) (Finite accrued_interest) "gross_cash_proceeds_local";
  deductions ← p_add policy (embedded_fees : decimal) (Finite embedded_taxes) "embedded_deductions_local";
  total_cash ← p_subtract policy (gross : decimal) (Finite deductions) "total_cash_proceeds_local";
  _ ← raise_if (dltb total_cash dzero)
        (RedemptionCalculationError "REDEMPTION_015_NEGATIVE_TOTAL_CASH_PROCEEDS" "total_cash_proceeds_local"
           "principal plus interest must cover embedded fees and taxes.");
  remaining_quantity ← p_subtract policy (rt_position_quantity normalized) (Finite quantity) "remaining_quantity";
  principal_base ← p_multiply policy (principal : decimal) (rt_fx_rate_to_base normalized) "principal_proceeds_base";
  capital_pnl_local ← p_subtract policy (principal : decimal) (rt_allocated_cost_basis_local normalized) "realized_capital_pnl_local";
  capital_pnl_base ← p_subtract policy (principal_base : decimal) (rt_allocated_cost_basis_base normalized) "realized_capital_pnl_base";
  let output :=
    [decimal_entry "accrued_interest_proceeds_local" accrued_interest;
     decimal_entry "derived_principal_proceeds_local" derived_principal;
     decimal_entry "principal_proceeds_base" principal_base; decimal_entry "principal_proceeds_local" principal;
     decimal_entry "realized_capital_pnl_base" capital_pnl_base; decimal_entry "realized_capital_pnl_local" capital_pnl_local;
     decimal_entry "redeemed_quantity" quantity; decimal_entry "remaining_quantity" remaining_quantity;
     decimal_entry "total_cash_proceeds_local" total_cash] in
  np ← lineage_identity policy;
  lineage ← build_calculation_lineage "fixed-income-redemption-economics" 1 (cp_working_precision policy)
              (PMap (lineage_input normalized)) (PMap output) (Some np);
  Ok {| re_redeemed_quantity := quantity; re_remaining_quantity := remaining_quantity;
        re_derived_principal_proceeds_local := derived_principal; re_principal_proceeds_local := principal;
        re_accrued_interest_proceeds_local := accrued_interest; re_total_cash_proceeds_local := total_cash;
        re_principal_proceeds_base := principal_base; re_realized_capital_pnl_local := capital_pnl_local;
        re_realized_capital_pnl_base := capital_pnl_base; re_calculation_lineage := lineage |}.
End Economics.

(** ** What a redemption computes *)

Lemma require_nonnegative_inv v code field d : require_nonnegative v code field = Ok d -> v = PDecimal (Finite d).
Proof. unfold require_nonnegative, as_decimal. repeat case_match; naive_solver. Qed.

Lemma require_positive_inv q code field d : require_positive (dfield q) code field = Ok d -> d = q /\ dleb q dzero = false.
Proof. unfold require_positive, dfield. simpl. destruct (dleb q dzero) eqn:E; naive_solver. Qed.

(** The ambient [abs] and unary minus of a stored amount are exact. *)
Lemma ambient_abs x : stored x -> exists r, dabs default_context x = Ok r /\ stored r /\ ul r = Z.abs (ul x).
Proof.
  intros [Ux Bx]. destruct (ambient_exact (Dec (Z.abs (dcoeff x)) (dexp x)) (Z.abs (ul x))) as (r & Hr & Ur).
  - by apply units_abs.
  - lia.
  - assert (Hl : ledger r (Z.abs (ul x))) by (split; [done|lia]). exists r.
    split; [done|]. split; [by eapply ledger_stored|by apply ledger_ul].
Qed.

(** Two stored amounts accepted by the tolerance check differ by at most the tolerance. *)
Lemma within_tolerance_inv x y tol code field u :
  stored x -> stored y -> stored tol -> Z.abs (ul x - ul y) < 10 ^ 18 ->
  require_within_tolerance x y tol code field = Ok u -> Z.abs (ul x - ul y) <= ul tol.
Proof.
  intros Sx Sy St Hb. unfold require_within_tolerance. destruct (ambient_sub x y Sx Sy Hb) as (r & -> & Sr & Er). simpl.
  destruct (ambient_abs r Sr) as (m & -> & Sm & Em). simpl. rewrite raise_if_Ok, (stored_dltb _ _ St Sm), Em, Er. lia.
Qed.

(** The terms that passed validation, with their kind. *)
Lemma validated_inputs_inv t n a : validated_inputs t = Ok (n, a) ->
  n = with_transaction_type (normalize_code (Some (rt_transaction_type t))) t /\
  in_set (rt_transaction_type n) REDEMPTION_TRANSACTION_TYPES = true /\
  dleb (rt_position_quantity t) dzero = false /\
  rt_accrued_interest_proceeds_local t = PDecimal (Finite (va_accrued a)) /\
  rt_embedded_fee_amount_local t = PDecimal (Finite (va_fee a)) /\
  rt_embedded_tax_amount_local t = PDecimal (Finite (va_tax a)) /\
  rt_principal_proceeds_local t = match va_principal a with Some d => PDecimal (Finite d) | None => PNone end.
Proof.
  unfold validated_inputs. intros H1. apply bind_Ok in H1 as ([] & Hty%raise_if_Ok%negb_false_iff & H1).
  apply bind_Ok in H1 as (q & [-> Hq]%require_positive_inv & H1). do 5 (apply bind_Ok in H1 as (? & _ & H1)).
  do 3 (let Hv := fresh in apply bind_Ok in H1 as (? & Hv%require_nonnegative_inv & H1)).
  apply bind_Ok in H1 as (p & Hp & H1). apply bind_Ok in H1 as (? & _ & H1). injection H1 as <- <-. simpl.
  split_and!; try done. destruct (is_none (rt_principal_proceeds_local t)) eqn:En.
  - injection Hp as <-. by destruct (rt_principal_proceeds_local t).
  - by apply bind_Ok in Hp as (d & Hd%require_nonnegative_inv & [= <-]).
Qed.

Lemma full_types_kind ty : in_set ty REDEMPTION_TRANSACTION_TYPES = true ->
  in_set ty FULL_REDEMPTION_TRANSACTION_TYPES = negb (String.eqb ty "PARTIAL_REDEMPTION").
Proof.
  unfold in_set, REDEMPTION_TRANSACTION_TYPES, FULL_REDEMPTION_TRANSACTION_TYPES. simpl.
  destruct (String.eqb_spec ty "MATURITY_REDEMPTION") as [->|]; [done|].
  destruct (String.eqb_spec ty "CALL_REDEMPTION") as [->|]; [done|].
  by destruct (String.eqb_spec ty "PARTIAL_REDEMPTION") as [->|].
Qed.

(** A factor transition yields a stored quantity. *)
Lemma factor_quantity_stored t q : factor_redeemed_quantity t = Ok (Some q) -> stored q.
Proof.
  unfold factor_redeemed_quantity. destruct (_ && _); [done|]. intros (_ & _ & H1)%bind_Ok.
  destruct (as_decimal (rt_old_factor t)), (as_decimal (rt_new_factor t)); try done.
  do 4 (apply bind_Ok in H1 as (? & _ & H1)). apply bind_Ok in H1 as (r & Hr%book_normalize & [= <-]). by destruct Hr.
Qed.

(** The resolved quantity lies within the position: all of it, or strictly less for a partial one. *)
Lemma resolve_quantity_inv t q :
  stored (rt_position_quantity t) -> (forall d, rt_redeemed_quantity t = Some d -> stored d) ->
  resolve_redeemed_quantity t = Ok q ->
  stored q /\ ul q <= ul (rt_position_quantity t) /\
  (if in_set (rt_transaction_type t) FULL_REDEMPTION_TRANSACTION_TYPES then ul q = ul (rt_position_quantity t)
   else ul q < ul (rt_position_quantity t)).
Proof.
  intros Sp Sr. unfold resolve_redeemed_quantity. intros (f & Hf & H1)%bind_Ok. apply bind_Ok in H1 as (x & Hx & H1).
  assert (Sx : stored x).
  { destruct (rt_redeemed_quantity t) as [e|], f as [b|]; try done.
    - apply bind_Ok in Hx as (_ & _ & [= <-]). by apply Sr.
    - injection Hx as <-. by apply Sr.
    - injection Hx as <-. by eapply factor_quantity_stored. }
  apply bind_Ok in H1 as ([] & Hle%raise_if_Ok & H1). rewrite (stored_dltb _ _ Sp Sx) in Hle.
  apply bind_Ok in H1 as (y & Hy & (Sq & Eq)%book_normalize). destruct (in_set _ FULL_REDEMPTION_TRANSACTION_TYPES).
  - apply bind_Ok in Hy as (_ & _ & [= <-]). split_and!; [done|lia|lia].
  - rewrite (stored_dleb _ _ Sp Sx) in Hy. destruct (Z.leb_spec (ul (rt_position_quantity t)) (ul x)); [done|].
    injection Hy as <-. split_and!; [done|lia|lia].
Qed.

(** The amounts of a computed redemption, in storage units. *)
Definition redemption_reconciles (terms : RedemptionTerms) (e : RedemptionEconomics) : Prop :=
  let position := ul (rt_position_quantity terms) in
  let principal := ul (re_principal_proceeds_local e) in
  exists fee tax accrued,
    rt_embedded_fee_amount_local terms = PDecimal (Finite fee) /\
    rt_embedded_tax_amount_local terms = PDecimal (Finite tax) /\
    rt_accrued_interest_proceeds_local terms = PDecimal (Finite accrued) /\
    ul (re_redeemed_quantity e) + ul (re_remaining_quantity e) = position /\
    (if String.eqb (normalize_code (Some (rt_transaction_type terms))) "PARTIAL_REDEMPTION"
     then 0 < ul (re_remaining_quantity e) else ul (re_remaining_quantity e) = 0) /\
    ul (re_total_cash_proceeds_local e) = principal + ul accrued - (ul fee + ul tax) /\
    0 <= ul (re_total_cash_proceeds_local e) /\
    ul (re_realized_capital_pnl_local e) = principal - ul (rt_allocated_cost_basis_local terms) /\
    ul (re_realized_capital_pnl_base e) = ul (re_principal_proceeds_base e) - ul (rt_allocated_cost_basis_base terms) /\
    (match rt_principal_proceeds_local terms with
     | PDecimal (Finite p) => stored p -> principal = ul p /\
         (stored (rt_reconciliation_tolerance terms) -> Z.abs (principal - ul (re_derived_principal_proceeds_local e)) < 10 ^ 18 ->
          Z.abs (principal - ul (re_derived_principal_proceeds_local e)) <= ul (rt_reconciliation_tolerance terms))
     | _ => principal = ul (re_derived_principal_proceeds_local e)
     end).

Lemma principal_inv t n provided derived principal :
  resolve_principal_proceeds n provided derived = Ok principal -> stored derived ->
  rt_reconciliation_tolerance n = rt_reconciliation_tolerance t ->
  rt_principal_proceeds_local t = match provided with Some d => PDecimal (Finite d) | None => PNone end ->
  stored principal /\
  match rt_principal_proceeds_local t with
  | PDecimal (Finite p) => stored p -> ul principal = ul p /\
      (stored (rt_reconciliation_tolerance t) -> Z.abs (ul principal - ul derived) < 10 ^ 18 ->
       Z.abs (ul principal - ul derived) <= ul (rt_reconciliation_tolerance t))
  | _ => ul principal = ul derived
  end.
Proof.
  intros Hr Sd Et ->. unfold resolve_principal_proceeds in Hr. destruct provided as [p|]; [|by injection Hr as <-].
  apply bind_Ok in Hr as ([] & Ht & (Sr & Er)%book_normalize). split; [done|]. intros Sp. split; [done|]. intros St Hb.
  rewrite Er in *. rewrite Et in Ht. by eapply within_tolerance_inv.
Qed.

(** A redemption that is computed splits the position into redeemed and remaining quantity
    without loss, redeems the whole position for maturities and calls and leaves a positive rest for
    partial ones; its cash is principal plus interest less embedded fees and taxes, never negative;
    its realised capital result is principal less the allocated basis in both currencies, with no
    interest mixed in; and a principal supplied by the source is used as given, within the
    tolerance of the derived one. *)
Theorem redemption_economics_reconcile `{hashing : Hashing} (terms : RedemptionTerms) (e : RedemptionEconomics) :
  stored (rt_position_quantity terms) -> stored (rt_allocated_cost_basis_local terms) -> stored (rt_allocated_cost_basis_base terms) ->
  (forall d, rt_redeemed_quantity terms = Some d -> stored d) ->
  calculate_redemption_economics terms = Ok e -> redemption_reconciles terms e.
Proof.
  intros Sp Sl Sb Sr. unfold calculate_redemption_economics. intros ([n a] & Hv & H1)%bind_Ok.
  destruct (validated_inputs_inv _ _ _ Hv) as (-> & Hty & Hpos & Ea & Ef & Ex & Epr).
  apply bind_Ok in H1 as (q & Hq & H1). destruct (resolve_quantity_inv (with_transaction_type (normalize_code (Some (rt_transaction_type terms))) terms) q Sp Sr Hq) as (Sq & Hle & Hkind).
  rewrite (full_types_kind _ Hty) in Hkind.
  apply bind_Ok in H1 as (derived & (? & _ & (Sd & _)%book_normalize)%bind_Ok & H1).
  apply bind_Ok in H1 as (principal & Hpr & H1). destruct (principal_inv terms _ _ _ _ Hpr Sd eq_refl Epr) as [Spr Hprin].
  apply bind_Ok in H1 as (accrued & (Sa & Eaa)%book_normalize & H1).
  apply bind_Ok in H1 as (fees & (Sf & Eff)%book_normalize & H1).
  apply bind_Ok in H1 as (taxes & (Sx & Exx)%book_normalize & H1).
  apply bind_Ok in H1 as (gross & (Sg & Eg)%book_add & H1); [|done..].
  apply bind_Ok in H1 as (ded & (Sde & Ede)%book_add & H1); [|done..].
  apply bind_Ok in H1 as (cash & (Sc & Ec)%book_sub & H1); [|done..].
  apply bind_Ok in H1 as ([] & Hcash%raise_if_Ok & H1). rewrite (stored_dltb _ _ Sc stored_dzero), ul_dzero in Hcash.
  apply bind_Ok in H1 as (rem & (Srem & Erem)%book_sub & H1); [|done..].
  apply bind_Ok in H1 as (pb & Spb%book_multiply_stored & H1).
  apply bind_Ok in H1 as (cl & (Scl & Ecl)%book_sub & H1); [|done..].
  apply bind_Ok in H1 as (cb & (Scb & Ecb)%book_sub & H1); [|done..].
  apply bind_Ok in H1 as (? & _ & H1). apply bind_Ok in H1 as (lin & _ & [= <-]).
  cbn [with_transaction_type rt_position_quantity rt_transaction_type rt_allocated_cost_basis_local rt_allocated_cost_basis_base]
    in Erem, Hle, Hkind, Ecl, Ecb.
  exists (va_fee a), (va_tax a), (va_accrued a). simpl. split_and!; try done; try lia.
  destruct (String.eqb _ "PARTIAL_REDEMPTION"); cbn in Hkind; lia.
Qed.

Definition wit_terms : RedemptionTerms :=
  {| rt_transaction_type := " partial_redemption "; rt_position_quantity := dint 1000; rt_redemption_price := Dec 101 (-2);
     rt_allocated_cost_basis_local := dint 240; rt_allocated_cost_basis_base := dint 300; rt_fx_rate_to_base := Dec 13 (-1);
     rt_redeemed_quantity := None; rt_old_factor := dfield (Dec 80 (-2)); rt_new_factor := dfield (Dec 60 (-2));
     rt_principal_proceeds_local := PNone; rt_accrued_interest_proceeds_local := dfield (dint 5);
     rt_embedded_fee_amount_local := dfield (dint 2); rt_embedded_tax_amount_local := dfield dzero;
     rt_reconciliation_tolerance := default_tolerance |}.

(** A quarter of a thousand bonds is redeemed at 101 per cent after a factor step from 0.8 to 0.6. *)
Lemma redemption_economics_reconcile_witness :
  exists e, @calculate_redemption_economics constant_hashing wit_terms = Ok e /\
    ul (re_redeemed_quantity e) + ul (re_remaining_quantity e) = 1000 * 10 ^ 10 /\ 0 < ul (re_remaining_quantity e) /\
    ul (re_realized_capital_pnl_local e) = ul (re_principal_proceeds_local e) - 240 * 10 ^ 10.
Proof.
  destruct (@calculate_redemption_economics constant_hashing wit_terms) as [e|x] eqn:E; [|vm_compute in E; discriminate E].
  exists e. split; [reflexivity|].
  destruct (@redemption_economics_reconcile constant_hashing wit_terms e) as (fee & tax & acc & _ & _ & _ & H1 & H2 & _ & _ & H3 & _).
  - apply stored_dint. lia.
  - apply stored_dint. lia.
  - apply stored_dint. lia.
  - intros d [=].
  - exact E.
  - change (rt_position_quantity wit_terms) with (dint 1000) in H1. change (rt_allocated_cost_basis_local wit_terms) with (dint 240) in H3.
    rewrite ul_dint in H1, H3 by lia. split; [exact H1|]. split; [exact H2|exact H3].
Defined.
