(* ===== verification/CashEconomics.v ===== *)
(** * Corporate-action cash economics

    [cost_basis/corporate_action_cash_economics.py]: basis disposal and realised result of a cash
    consideration or cash in lieu, reconciled with the amounts the source provides. *)

From Stdlib Require Import ZArith Lia QArith String.
From stdpp Require Import base tactics list strings.
From S2P Require Import Prelude PyDecimal DecimalFacts PyTime Precision Lineage Lots.

#[local] Open Scope string_scope.
#[local] Open Scope Z_scope.

#[local] Notation policy := TRANSACTION_COST_LEDGER_OUTPUT_V1.

Record CorporateActionCashEconomics := {
  ce_net_proceeds_local : decimal; ce_net_proceeds_base : decimal;
  ce_allocated_cost_basis_local : decimal; ce_allocated_cost_basis_base : decimal;
  ce_realized_capital_pnl_local : decimal; ce_realized_fx_pnl_local : decimal; ce_realized_total_pnl_local : decimal;
  ce_realized_capital_pnl_base : decimal; ce_realized_fx_pnl_base : decimal; ce_realized_total_pnl_base : decimal
}.

(** The keyword arguments of the calculation. *)
Record CashEconomicsInput := {
  ci_gross_proceeds_local : decimal; ci_fees_local : decimal;
  ci_allocated_cost_basis_local : option decimal; ci_allocated_cost_basis_base : option decimal;
  ci_local_currency : string; ci_base_currency : string; ci_transaction_fx_rate : decimal;
  ci_realized_capital_pnl_local : option decimal; ci_realized_fx_pnl_local : option decimal; ci_realized_total_pnl_local : option decimal;
  ci_realized_capital_pnl_base : option decimal; ci_realized_fx_pnl_base : option decimal; ci_realized_total_pnl_base : option decimal
}.

#[local] Notation economics_error msg := (CorporateActionCashEconomicsError msg).

Definition currency (value : string) : result string :=
  let normalized := normalize_code (Some value) in
  _ ← raise_if (negb (truthy normalized)) (economics_error "currency must not be empty");
  Ok normalized.

Definition validate_non_negative (value : decimal) (field_name : string) : result unit :=
  raise_if (dltb value dzero) (economics_error (field_name +:+ " must be greater than or equal to 0")).

Definition required_non_negative_basis (value : option decimal) (field_name : string) : result decimal :=
  match value with
  | None => Raise (economics_error (field_name +:+ " is required"))
  | Some d => _ ← validate_non_negative d field_name; Ok d
  end.

Definition same_currency_components (expected_total : decimal) (provided_capital provided_fx : option decimal)
  (currency_basis : string) : result (decimal * decimal) :=
  let capital := default expected_total provided_capital in
  let fx := default dzero provided_fx in
  _ ← raise_if (negb (deqb capital expected_total) || negb (deqb fx dzero))
        (economics_error ("same-currency realized P&L " +:+ currency_basis +:+
           " components must assign total P&L to capital and zero to FX"));
  Ok (capital, fx).

Definition required_cross_currency_components (provided_capital provided_fx : option decimal) (expected_total : decimal)
  (currency_basis : string) : result (decimal * decimal) :=
  match provided_capital, provided_fx with
  | Some capital, Some fx =>
      component_total ← p_add policy capital fx ("realized_total_pnl_" +:+ currency_basis);
      _ ← raise_if (negb (deqb component_total expected_total))
            (economics_error ("cross-currency realized capital and FX P&L " +:+ currency_basis +:+
               " components must reconcile to proceeds less allocated basis"));
      Ok (capital, fx)
  | _, _ => Raise (economics_error ("cross-currency realized capital and FX P&L " +:+ currency_basis +:+ " components are required"))
  end.

Definition validate_optional_total (provided : option decimal) (expected : decimal) (field_name : string) : result unit :=
  match provided with
  | Some d => raise_if (negb (deqb d expected)) (economics_error (field_name +:+ " must reconcile to proceeds less allocated basis"))
  | None => Ok tt
  end.

(** The capital and FX components of both bases. *)
Definition pnl_components (i : CashEconomicsInput) (basis_local basis_base expected_total_local expected_total_base : decimal)
  : result (decimal * decimal * (decimal * decimal)) :=
  local_code ← currency (ci_local_currency i);
  base_code ← currency (ci_base_currency i);
  if String.eqb local_code base_code then
    expected_basis_base ← p_multiply policy basis_local (ci_transaction_fx_rate i) "allocated_cost_basis_base";
    _ ← raise_if (negb (deqb basis_base expected_basis_base))
          (economics_error "allocated_cost_basis_base must equal allocated_cost_basis_local converted at transaction_fx_rate for same-currency consideration");
    l ← same_currency_components expected_total_local (ci_realized_capital_pnl_local i) (ci_realized_fx_pnl_local i) "local";
    b ← same_currency_components expected_total_base (ci_realized_capital_pnl_base i) (ci_realized_fx_pnl_base i) "base";
    Ok (l, b)
  else
    l ← required_cross_currency_components (ci_realized_capital_pnl_local i) (ci_realized_fx_pnl_local i) expected_total_local "local";
    b ← required_cross_currency_components (ci_realized_capital_pnl_base i) (ci_realized_fx_pnl_base i) expected_total_base "base";
    Ok (l, b).

Definition calculate_corporate_action_cash_economics (i : CashEconomicsInput) : result CorporateActionCashEconomics :=
  _ ← validate_non_negative (ci_gross_proceeds_local i) "gross_proceeds_local";
  _ ← validate_non_negative (ci_fees_local i) "fees_local";
  _ ← raise_if (dleb (ci_transaction_fx_rate i) dzero) (economics_error "transaction_fx_rate must be greater than 0");
  basis_local ← required_non_negative_basis (ci_allocated_cost_basis_local i) "allocated_cost_basis_local";
  basis_base ← required_non_negative_basis (ci_allocated_cost_basis_base i) "allocated_cost_basis_base";
  net_proceeds_local ← p_subtract policy (ci_gross_proceeds_local i) (ci_fees_local i) "net_proceeds_local";
  _ ← raise_if (dltb net_proceeds_local dzero) (economics_error "fees_local must not exceed gross_proceeds_local");
  net_proceeds_base ← p_multiply policy (net_proceeds_local : decimal) (ci_transaction_fx_rate i) "net_proceeds_base";
  expected_total_local ← p_subtract policy (net_proceeds_local : decimal) (basis_local : decimal) "realized_total_pnl_local";
  expected_total_base ← p_subtract policy (net_proceeds_base : decimal) (basis_base : decimal) "realized_total_pnl_base";
  '((capital_local, fx_local), (capital_base, fx_base)) ←
    pnl_components i basis_local basis_base expected_total_local expected_total_base;
  _ ← validate_optional_total (ci_realized_total_pnl_local i) expected_total_local "realized_total_pnl_local";
  _ ← validate_optional_total (ci_realized_total_pnl_base i) expected_total_base "realized_total_pnl_base";
  Ok {| ce_net_proceeds_local := net_proceeds_local; ce_net_proceeds_base := net_proceeds_base;
        ce_allocated_cost_basis_local := basis_local; ce_allocated_cost_basis_base := basis_base;
        ce_realized_capital_pnl_local := capital_local; ce_realized_fx_pnl_local := fx_local;
        ce_realized_total_pnl_local := expected_total_local; ce_realized_capital_pnl_base := capital_base;
        ce_realized_fx_pnl_base := fx_base; ce_realized_total_pnl_base := expected_total_base |}.

(** ** Reconciliation *)

Definition opt_amount_stored (d : option decimal) : Prop := match d with Some x => stored x | None => True end.

(** Every amount of the input is a ledger amount. *)
Record input_stored (i : CashEconomicsInput) : Prop := {
  is_gross : stored (ci_gross_proceeds_local i); is_fees : stored (ci_fees_local i);
  is_rate : stored (ci_transaction_fx_rate i);
  is_basis_local : opt_amount_stored (ci_allocated_cost_basis_local i); is_basis_base : opt_amount_stored (ci_allocated_cost_basis_base i);
  is_capital_local : opt_amount_stored (ci_realized_capital_pnl_local i); is_fx_local : opt_amount_stored (ci_realized_fx_pnl_local i);
  is_capital_base : opt_amount_stored (ci_realized_capital_pnl_base i); is_fx_base : opt_amount_stored (ci_realized_fx_pnl_base i)
}.

Lemma same_components_inv e c f basis x y : stored e -> opt_amount_stored c -> opt_amount_stored f ->
  same_currency_components e c f basis = Ok (x, y) -> stored x /\ stored y /\ ul x = ul e /\ ul y = 0.
Proof.
  intros Se Sc Sf. unfold same_currency_components. intros (_ & [H1 H2]%raise_if_Ok%orb_false_iff & [= <- <-])%bind_Ok.
  assert (Sx : stored (default e c)) by (by destruct c). assert (Sy : stored (default dzero f)) by (destruct f; [done|apply stored_dzero]).
  apply negb_false_iff in H1, H2. rewrite (stored_deqb _ _ Sx Se) in H1. rewrite (stored_deqb _ _ Sy stored_dzero), ul_dzero in H2.
  split_and!; [done|done|lia|lia].
Qed.

Lemma cross_components_inv e c f basis x y : stored e -> opt_amount_stored c -> opt_amount_stored f ->
  required_cross_currency_components c f e basis = Ok (x, y) -> stored x /\ stored y /\ ul x + ul y = ul e.
Proof.
  intros Se Sc Sf. unfold required_cross_currency_components. destruct c as [c|], f as [f|]; try done.
  intros (t & (St & Et)%book_add & (_ & Ht%raise_if_Ok%negb_false_iff & [= <- <-])%bind_Ok)%bind_Ok; [|done..].
  rewrite (stored_deqb _ _ St Se) in Ht. split_and!; [done|done|lia].
Qed.

Lemma basis_inv d f r : required_non_negative_basis d f = Ok r -> d = Some r /\ (opt_amount_stored d -> stored r /\ 0 <= ul r).
Proof.
  destruct d as [x|]; [|done]. intros (_ & Hx%raise_if_Ok & [= <-])%bind_Ok. split; [done|]. intros Sx. split; [done|].
  rewrite (stored_dltb _ _ Sx stored_dzero), ul_dzero in Hx. lia.
Qed.

(** the cash economics of a corporate action reconcile: net proceeds are gross less fees and not
    negative, converted once at the transaction rate; the total result is proceeds less allocated
    basis and equals capital plus FX in the local and in the base currency; when both currencies are
    the same nothing is booked as FX and the base basis is the converted local one; totals supplied
    by the source equal the computed ones. *)
Theorem cash_economics_reconcile (i : CashEconomicsInput) (e : CorporateActionCashEconomics) :
  input_stored i -> calculate_corporate_action_cash_economics i = Ok e ->
  0 <= ul (ce_net_proceeds_local e) /\ ul (ce_net_proceeds_local e) = ul (ci_gross_proceeds_local i) - ul (ci_fees_local i) /\
  ul (ce_net_proceeds_base e) = round_coeff ROUND_HALF_EVEN (ul (ce_net_proceeds_local e) * ul (ci_transaction_fx_rate i)) (10 ^ 10) /\
  ci_allocated_cost_basis_local i = Some (ce_allocated_cost_basis_local e) /\ 0 <= ul (ce_allocated_cost_basis_local e) /\
  ci_allocated_cost_basis_base i = Some (ce_allocated_cost_basis_base e) /\ 0 <= ul (ce_allocated_cost_basis_base e) /\
  ul (ce_realized_total_pnl_local e) = ul (ce_net_proceeds_local e) - ul (ce_allocated_cost_basis_local e) /\
  ul (ce_realized_total_pnl_base e) = ul (ce_net_proceeds_base e) - ul (ce_allocated_cost_basis_base e) /\
  ul (ce_realized_capital_pnl_local e) + ul (ce_realized_fx_pnl_local e) = ul (ce_realized_total_pnl_local e) /\
  ul (ce_realized_capital_pnl_base e) + ul (ce_realized_fx_pnl_base e) = ul (ce_realized_total_pnl_base e) /\
  (normalize_code (Some (ci_local_currency i)) = normalize_code (Some (ci_base_currency i)) ->
     ul (ce_realized_fx_pnl_local e) = 0 /\ ul (ce_realized_fx_pnl_base e) = 0 /\
     ul (ce_allocated_cost_basis_base e) =
       round_coeff ROUND_HALF_EVEN (ul (ce_allocated_cost_basis_local e) * ul (ci_transaction_fx_rate i)) (10 ^ 10)) /\
  (forall t, ci_realized_total_pnl_local i = Some t -> deqb t (ce_realized_total_pnl_local e) = true) /\
  (forall t, ci_realized_total_pnl_base i = Some t -> deqb t (ce_realized_total_pnl_base e) = true).
Proof.
  intros [Sg Sf Sr Sbl Sbb Scl Sfl Scb Sfb]. unfold calculate_corporate_action_cash_economics. intros H1.
  do 3 (apply bind_Ok in H1 as (_ & _ & H1)).
  apply bind_Ok in H1 as (bl & [El HSl]%basis_inv & H1). destruct (HSl Sbl) as [Sl Pl].
  apply bind_Ok in H1 as (bb & [Eb HSb]%basis_inv & H1). destruct (HSb Sbb) as [Sb Pb].
  apply bind_Ok in H1 as (n & (Sn & En)%book_sub & H1); [|done..].
  apply bind_Ok in H1 as (_ & Hn%raise_if_Ok & H1). rewrite (stored_dltb _ _ Sn stored_dzero), ul_dzero in Hn.
  apply bind_Ok in H1 as (nb & (Snb & Enb)%book_multiply & H1); [|done..].
  apply bind_Ok in H1 as (tl & (Stl & Etl)%book_sub & H1); [|done..].
  apply bind_Ok in H1 as (tb & (Stb & Etb)%book_sub & H1); [|done..].
  apply bind_Ok in H1 as ([[cl fl] [cb fb]] & Hc & H1).
  apply bind_Ok in H1 as ([] & Htl & H1). apply bind_Ok in H1 as ([] & Htb & [= <-]). simpl.
  unfold pnl_components in Hc. apply bind_Ok in Hc as (lc & (_ & _ & [= <-])%bind_Ok & Hc).
  apply bind_Ok in Hc as (bc & (_ & _ & [= <-])%bind_Ok & Hc).
  assert (Ht : forall o t f, validate_optional_total o t f = Ok tt -> forall d, o = Some d -> deqb d t = true).
  { intros o t f Ho d ->. by apply raise_if_Ok, negb_false_iff in Ho. }
  destruct (String.eqb_spec (normalize_code (Some (ci_local_currency i))) (normalize_code (Some (ci_base_currency i)))) as [Esame|Ediff].
  - apply bind_Ok in Hc as (eb & (Seb & Eeb)%book_multiply & Hc); [|done..].
    apply bind_Ok in Hc as ([] & Heb%raise_if_Ok%negb_false_iff & Hc). rewrite (stored_deqb _ _ Sb Seb) in Heb.
    apply bind_Ok in Hc as ([? ?] & (? & ? & E1 & E2)%same_components_inv & Hc); [|done..].
    apply bind_Ok in Hc as ([? ?] & (? & ? & E3 & E4)%same_components_inv & Hc); [|done..]. simplify_eq/=.
    split_and!; try done; try lia; by eapply Ht.
  - apply bind_Ok in Hc as ([? ?] & (? & ? & E1)%cross_components_inv & Hc); [|done..].
    apply bind_Ok in Hc as ([? ?] & (? & ? & E2)%cross_components_inv & Hc); [|done..]. simplify_eq/=.
    split_and!; try done; try lia; by eapply Ht.
Qed.

Definition wit_cash_input : CashEconomicsInput :=
  {| ci_gross_proceeds_local := dint 110; ci_fees_local := dint 10; ci_allocated_cost_basis_local := Some (dint 80);
     ci_allocated_cost_basis_base := Some (dint 90); ci_local_currency := "eur"; ci_base_currency := "USD";
     ci_transaction_fx_rate := Dec 11 (-1); ci_realized_capital_pnl_local := Some (dint 20); ci_realized_fx_pnl_local := Some dzero;
     ci_realized_total_pnl_local := None; ci_realized_capital_pnl_base := Some (dint 15); ci_realized_fx_pnl_base := Some (dint 5);
     ci_realized_total_pnl_base := Some (dint 20) |}.

(** 110 less 10 of fees against a basis of 80, at 1.1: 20 realised in both currencies. *)
Lemma cash_economics_reconcile_witness :
  exists e, calculate_corporate_action_cash_economics wit_cash_input = Ok e /\
    ul (ce_realized_capital_pnl_base e) + ul (ce_realized_fx_pnl_base e) = ul (ce_net_proceeds_base e) - ul (ce_allocated_cost_basis_base e).
Proof.
  destruct (calculate_corporate_action_cash_economics wit_cash_input) as [e|x] eqn:E; [|vm_compute in E; discriminate E].
  exists e. split; [reflexivity|].
  destruct (cash_economics_reconcile wit_cash_input e) as (_ & _ & _ & _ & _ & _ & _ & _ & H1 & _ & H2 & _).
  - constructor; try (apply stored_dint; lia); try exact stored_dzero.
  - exact E.
  - rewrite H2. exact H1.
Defined.
