(* ===== verification/Disposition.v ===== *)
(** * The lot disposition engine

    [cost_basis/calculation/lot_disposition.py] and [calculation_errors.py]: acquisitions and
    disposals are delegated to a cost-basis strategy, and the evidence of a disposal or a basis
    transfer is staged per transaction, published when the whole transaction succeeds and discarded
    otherwise.  The engine is written against the strategy interface. *)

From Stdlib Require Import ZArith Lia QArith String.
From stdpp Require Import base tactics list strings.
From S2P Require Import Prelude PyDecimal DecimalFacts PyTime Precision Lineage Registry Transactions Values Lots CostBasis.

#[local] Open Scope string_scope.
#[local] Open Scope Z_scope.

(** ** The error collector *)

Definition contains (needle haystack : string) : bool :=
  match String.index 0 needle haystack with Some _ => true | None => false end.

(** [_errored_transactions]: the reasons by transaction id, in order of the first error. *)
Definition Errors : Type := list (string * string).

Definition add_error (transaction_id error_reason : string) (errors : Errors) : Errors :=
  match od_get transaction_id errors with
  | Some existing =>
      if contains error_reason existing then errors
      else od_set transaction_id (existing +:+ "; " +:+ error_reason) errors
  | None => od_set transaction_id error_reason errors
  end.

Definition get_errors (errors : Errors) : list (string * string) := errors.
Definition has_errors (errors : Errors) : bool := match errors with [] => false | _ => true end.
Definition has_errors_for (transaction_id : string) (errors : Errors) : bool :=
  match od_get transaction_id errors with Some _ => true | None => false end.
Definition clear_errors (_ : Errors) : Errors := [].

(** ** Equality of evidence

    Dataclass equality compares the fields; decimals compare by value. *)

Definition opt_eqb {A} (eqb : A -> A -> bool) (x y : option A) : bool :=
  match x, y with Some a, Some b => eqb a b | None, None => true | _, _ => false end.

Fixpoint list_eqb {A} (eqb : A -> A -> bool) (xs ys : list A) : bool :=
  match xs, ys with
  | [], [] => true
  | x :: xs', y :: ys' => eqb x y && list_eqb eqb xs' ys'
  | _, _ => false
  end.

#[export] Instance lineage_eq_dec : EqDecision CalculationLineage.
Proof. solve_decision. Defined.

Definition lineage_eqb (x y : CalculationLineage) : bool := bool_decide (x = y).

Definition evidence_eqb (x y : AmortizedCostAllocationEvidence) : bool :=
  String.eqb (ae_profile_id x) (ae_profile_id y) && (ae_profile_version x =? ae_profile_version y) &&
  String.eqb (ae_profile_content_hash x) (ae_profile_content_hash y) && String.eqb (ae_currency x) (ae_currency y) &&
  (ae_disposal_date x =? ae_disposal_date y) && (ae_recognized_through_date x =? ae_recognized_through_date y) &&
  deqb (ae_original_quantity x) (ae_original_quantity y) && deqb (ae_open_quantity_before x) (ae_open_quantity_before y) &&
  deqb (ae_consumed_quantity x) (ae_consumed_quantity y) && deqb (ae_residual_quantity x) (ae_residual_quantity y) &&
  deqb (ae_scheduled_cost_local x) (ae_scheduled_cost_local y) && deqb (ae_current_cost_local x) (ae_current_cost_local y) &&
  deqb (ae_current_cost_base x) (ae_current_cost_base y) && deqb (ae_consumed_cost_local x) (ae_consumed_cost_local y) &&
  deqb (ae_residual_cost_local x) (ae_residual_cost_local y) &&
  deqb (ae_book_cost_fx_rate_to_base x) (ae_book_cost_fx_rate_to_base y) &&
  deqb (ae_consumed_cost_base x) (ae_consumed_cost_base y) && deqb (ae_residual_cost_base x) (ae_residual_cost_base y) &&
  deqb (ae_retained_rounding_residual_local x) (ae_retained_rounding_residual_local y) &&
  deqb (ae_retained_rounding_residual_base x) (ae_retained_rounding_residual_base y) &&
  lineage_eqb (ae_calculation_lineage x) (ae_calculation_lineage y).

Definition disposal_allocation_eqb (x y : SourceLotDisposalAllocation) : bool :=
  String.eqb (da_source_lot_id x) (da_source_lot_id y) && String.eqb (da_source_transaction_id x) (da_source_transaction_id y) &&
  (da_source_acquisition_date x =? da_source_acquisition_date y) && (da_allocation_ordinal x =? da_allocation_ordinal y) &&
  deqb (da_consumed_quantity x) (da_consumed_quantity y) && deqb (da_consumed_cost_local x) (da_consumed_cost_local y) &&
  deqb (da_consumed_cost_base x) (da_consumed_cost_base y) &&
  opt_eqb deqb (da_source_original_quantity x) (da_source_original_quantity y) &&
  opt_eqb deqb (da_source_open_quantity_before x) (da_source_open_quantity_before y) &&
  opt_eqb evidence_eqb (da_amortized_cost_evidence x) (da_amortized_cost_evidence y).

Definition disposal_result_eqb (x y : LotDisposalResult) : bool :=
  deqb (dr_cost_base x) (dr_cost_base y) && deqb (dr_cost_local x) (dr_cost_local y) &&
  deqb (dr_consumed_quantity x) (dr_consumed_quantity y) &&
  list_eqb disposal_allocation_eqb (dr_allocations x) (dr_allocations y) &&
  opt_eqb String.eqb (dr_error_reason x) (dr_error_reason y) &&
  opt_eqb lineage_eqb (dr_calculation_lineage x) (dr_calculation_lineage y).

Definition disposal_eqb (x y : TransactionLotDisposal) : bool :=
  String.eqb (td_disposal_transaction_id x) (td_disposal_transaction_id y) && disposal_result_eqb (td_result x) (td_result y).

Definition transfer_allocation_eqb (x y : SourceLotBasisTransferAllocation) : bool :=
  (ba_allocation_ordinal x =? ba_allocation_ordinal y) && String.eqb (ba_source_lot_id x) (ba_source_lot_id y) &&
  String.eqb (ba_source_transaction_id x) (ba_source_transaction_id y) &&
  (ba_source_acquisition_date x =? ba_source_acquisition_date y) && deqb (ba_retained_quantity x) (ba_retained_quantity y) &&
  deqb (ba_source_cost_local_before x) (ba_source_cost_local_before y) &&
  deqb (ba_source_cost_base_before x) (ba_source_cost_base_before y) &&
  deqb (ba_transferred_cost_local x) (ba_transferred_cost_local y) &&
  deqb (ba_transferred_cost_base x) (ba_transferred_cost_base y) &&
  deqb (ba_retained_cost_local x) (ba_retained_cost_local y) && deqb (ba_retained_cost_base x) (ba_retained_cost_base y).

Definition transfer_result_eqb (x y : LotBasisTransferResult) : bool :=
  deqb (br_transferred_cost_local x) (br_transferred_cost_local y) &&
  deqb (br_transferred_cost_base x) (br_transferred_cost_base y) &&
  list_eqb transfer_allocation_eqb (br_allocations x) (br_allocations y) &&
  opt_eqb String.eqb (br_error_reason x) (br_error_reason y) &&
  opt_eqb lineage_eqb (br_calculation_lineage x) (br_calculation_lineage y).

Definition transfer_eqb (x y : TransactionLotBasisTransfer) : bool :=
  String.eqb (tb_source_transaction_id x) (tb_source_transaction_id y) &&
  String.eqb (tb_target_transaction_id x) (tb_target_transaction_id y) &&
  String.eqb (tb_target_lot_id x) (tb_target_lot_id y) && transfer_result_eqb (tb_result x) (tb_result y).

(** ** The engine *)

Record LotDispositionEngine (St : Type) := {
  le_strategy : St;
  le_pending_disposals : list (string * TransactionLotDisposal);
  le_disposals : list (string * TransactionLotDisposal);
  le_pending_transfers : list (string * TransactionLotBasisTransfer);
  le_transfers : list (string * TransactionLotBasisTransfer)
}.
Arguments le_strategy {St}.
Arguments le_pending_disposals {St}.
Arguments le_disposals {St}.
Arguments le_pending_transfers {St}.
Arguments le_transfers {St}.

Definition normalized_transaction_id (transaction_id : string) : result string :=
  let normalized := strip transaction_id in
  _ ← raise_if (negb (truthy normalized)) (ValueError "transaction_id must be nonblank");
  Ok normalized.

Section Engine.
Context {hashing : Hashing} {St : Type} `{!CostBasisStrategy St}.
#[local] Notation Engine := (LotDispositionEngine St).

Definition engine_init (s : St) : Engine :=
  {| le_strategy := s; le_pending_disposals := []; le_disposals := []; le_pending_transfers := []; le_transfers := [] |}.

Definition set_strategy (s : St) (e : Engine) : Engine :=
  {| le_strategy := s; le_pending_disposals := le_pending_disposals e; le_disposals := le_disposals e;
     le_pending_transfers := le_pending_transfers e; le_transfers := le_transfers e |}.
Definition set_pending_disposals d (e : Engine) : Engine :=
  {| le_strategy := le_strategy e; le_pending_disposals := d; le_disposals := le_disposals e;
     le_pending_transfers := le_pending_transfers e; le_transfers := le_transfers e |}.
Definition set_disposals d (e : Engine) : Engine :=
  {| le_strategy := le_strategy e; le_pending_disposals := le_pending_disposals e; le_disposals := d;
     le_pending_transfers := le_pending_transfers e; le_transfers := le_transfers e |}.
Definition set_pending_transfers d (e : Engine) : Engine :=
  {| le_strategy := le_strategy e; le_pending_disposals := le_pending_disposals e; le_disposals := le_disposals e;
     le_pending_transfers := d; le_transfers := le_transfers e |}.
Definition set_transfers d (e : Engine) : Engine :=
  {| le_strategy := le_strategy e; le_pending_disposals := le_pending_disposals e; le_disposals := le_disposals e;
     le_pending_transfers := le_pending_transfers e; le_transfers := d |}.

(** A method of the strategy object. *)
Definition on_strategy {A} (m : st St A) : st Engine A := fun e =>
  let '(r, s) := m (le_strategy e) in (r, set_strategy s e).

Definition engine_add_buy_lot (t : CostBasisTransaction) : st Engine unit :=
  if dltb dzero (ct_quantity t) then on_strategy (add_buy_lot t) else mret tt.

Definition engine_get_available_quantity (portfolio_id instrument_id : string) (e : Engine) : decimal :=
  get_available_quantity (le_strategy e) portfolio_id instrument_id.

Definition engine_restate_lot_quantities (t : CostBasisTransaction) (signed_quantity_delta : decimal) : st Engine LotRestatement :=
  on_strategy (restate_lot_quantities (ct_portfolio_id t) (ct_instrument_id t) signed_quantity_delta).

(** [pending.get(id) or published.get(id)]. *)
Definition existing_record {V} (id : string) (pending published : list (string * V)) : option V :=
  match od_get id pending with Some r => Some r | None => od_get id published end.

Definition stage_disposal (d : TransactionLotDisposal) : st Engine unit :=
  let id := td_disposal_transaction_id d in
  e ← st_get;
  _ ← st_lift (raise_if (match existing_record id (le_pending_disposals e) (le_disposals e) with
                         | Some existing => negb (disposal_eqb existing d) | None => false end)
                 (ValueError "one disposal transaction produced conflicting source-lot evidence"));
  st_modify (fun e => set_pending_disposals (od_set id d (le_pending_disposals e)) e).

Definition record_disposal (d : TransactionLotDisposal) : st Engine unit :=
  let id := td_disposal_transaction_id d in
  e ← st_get;
  _ ← st_lift (raise_if (match od_get id (le_disposals e) with
                         | Some existing => negb (disposal_eqb existing d) | None => false end)
                 (ValueError "one disposal transaction produced conflicting source-lot evidence"));
  st_modify (fun e => set_disposals (od_set id d (le_disposals e)) e).

Definition stage_basis_transfer (b : TransactionLotBasisTransfer) : st Engine unit :=
  let id := tb_source_transaction_id b in
  e ← st_get;
  _ ← st_lift (raise_if (match existing_record id (le_pending_transfers e) (le_transfers e) with
                         | Some existing => negb (transfer_eqb existing b) | None => false end)
                 (ValueError "one source transaction produced conflicting basis-transfer evidence"));
  st_modify (fun e => set_pending_transfers (od_set id b (le_pending_transfers e)) e).

Definition record_basis_transfer (b : TransactionLotBasisTransfer) : st Engine unit :=
  let id := tb_source_transaction_id b in
  e ← st_get;
  _ ← st_lift (raise_if (match od_get id (le_transfers e) with
                         | Some existing => negb (transfer_eqb existing b) | None => false end)
                 (ValueError "one source transaction produced conflicting basis-transfer evidence"));
  st_modify (fun e => set_transfers (od_set id b (le_transfers e)) e).

Definition engine_consume_sell_quantity_with_allocations (t : CostBasisTransaction) : st Engine LotDisposalResult :=
  sell_quantity ← st_lift (required_decimal (PDecimal (Finite (ct_quantity t))) "quantity");
  r ← on_strategy (consume_sell_quantity_with_allocations (ct_portfolio_id t) (ct_instrument_id t) sell_quantity);
  match dr_error_reason r with
  | None =>
      if dltb dzero (dr_consumed_quantity r) then
        d ← st_lift (make_TransactionLotDisposal (ct_transaction_id t) r);
        _ ← stage_disposal d;
        mret r
      else mret r
  | Some _ => mret r
  end.

Definition engine_consume_sell_quantity (t : CostBasisTransaction) : st Engine (decimal * decimal * decimal * option string) :=
  r ← engine_consume_sell_quantity_with_allocations t; mret (legacy_tuple r).

Definition engine_transfer_basis_out (t : CostBasisTransaction) (cost_base cost_local : decimal) : st Engine LotBasisTransferResult :=
  match extra_text t "target_transaction_reference" with
  | Some target =>
      if negb (truthy (strip target)) then st_lift (failed_transfer "Basis-only transfer requires target_transaction_reference.")
      else
        r ← on_strategy (transfer_basis_out_with_allocations (ct_portfolio_id t) (ct_instrument_id t) cost_base cost_local);
        match br_error_reason r with
        | None =>
            b ← st_lift (make_TransactionLotBasisTransfer (ct_transaction_id t) target ("LOT-" +:+ strip target) r);
            _ ← stage_basis_transfer b;
            mret r
        | Some _ => mret r
        end
  | None => st_lift (failed_transfer "Basis-only transfer requires target_transaction_reference.")
  end.

(** [dict.pop(key, None)]. *)
Definition pop_pending_disposal (id : string) : st Engine (option TransactionLotDisposal) :=
  e ← st_get;
  _ ← st_modify (fun e => set_pending_disposals (od_del id (le_pending_disposals e)) e);
  mret (od_get id (le_pending_disposals e)).

Definition pop_pending_transfer (id : string) : st Engine (option TransactionLotBasisTransfer) :=
  e ← st_get;
  _ ← st_modify (fun e => set_pending_transfers (od_del id (le_pending_transfers e)) e);
  mret (od_get id (le_pending_transfers e)).

Definition commit_disposal_record (transaction_id : string) : st Engine unit :=
  id ← st_lift (normalized_transaction_id transaction_id);
  pending ← pop_pending_disposal id;
  _ ← match (pending : option TransactionLotDisposal) with Some d => record_disposal d | None => mret tt end;
  id ← st_lift (normalized_transaction_id transaction_id);
  pending_transfer ← pop_pending_transfer id;
  match (pending_transfer : option TransactionLotBasisTransfer) with Some b => record_basis_transfer b | None => mret tt end.

Definition discard_pending_disposal (transaction_id : string) : st Engine unit :=
  id ← st_lift (normalized_transaction_id transaction_id);
  _ ← pop_pending_disposal id;
  id ← st_lift (normalized_transaction_id transaction_id);
  _ ← pop_pending_transfer id;
  mret tt.

(** [transaction_ids] is [None] for all records. *)
Definition selected_records {V} (transaction_ids : option (list string)) (records : list (string * V)) : result (list V) :=
  ids ← match transaction_ids with
        | Some ids => xs ← mapR normalized_transaction_id ids; Ok (Some xs)
        | None => Ok None
        end;
  Ok (map snd (List.filter (fun r => match (ids : option (list string)) with Some xs => in_set (fst r) xs | None => true end) records)).

Definition disposal_records (transaction_ids : option (list string)) (e : Engine) : result (list TransactionLotDisposal) :=
  selected_records transaction_ids (le_disposals e).
Definition basis_transfer_records (transaction_ids : option (list string)) (e : Engine) : result (list TransactionLotBasisTransfer) :=
  selected_records transaction_ids (le_transfers e).

Definition clear_disposal_records (e : Engine) : Engine :=
  {| le_strategy := le_strategy e; le_pending_disposals := []; le_disposals := []; le_pending_transfers := []; le_transfers := [] |}.

Definition engine_set_initial_lots (ts : list CostBasisTransaction) : st Engine unit :=
  on_strategy (set_initial_lots (List.filter (fun t => is_buy_transaction t && dltb dzero (ct_quantity t)) ts)).

Definition engine_restore_open_lots (ts : list CostBasisTransaction) : st Engine unit := on_strategy (restore_open_lots ts).

Definition engine_get_open_lot_states (e : Engine) : result (list (string * OpenLotState)) := get_open_lot_states (le_strategy e).
End Engine.
