(* ===== verification/Calculator.v ===== *)
(** * The cost-basis calculator

    [cost_basis/calculation/cost_basis_calculator.py]: one strategy per transaction type computes
    cost and realised result of a transaction, consumes or creates lots through the disposition
    engine and reports rule violations to the error collector.  The state is the transaction being
    calculated (a mutable object), the engine and the collector; an exception keeps every mutation
    made before it. *)

From Stdlib Require Import ZArith Lia QArith String.
From stdpp Require Import base tactics list strings.
From S2P Require Import Prelude PyDecimal DecimalFacts PyTime Precision Lineage Registry Transactions Values Position Lots CostBasis CostFields Fx Redemption CashEconomics Disposition.

#[local] Open Scope string_scope.
#[local] Open Scope Z_scope.

#[local] Notation policy := TRANSACTION_COST_LEDGER_OUTPUT_V1.

Definition TRANSACTION_COST_CALCULATION_ALGORITHM_ID := "transaction-cost-basis-calculation".
Definition TRANSACTION_COST_CALCULATION_ALGORITHM_VERSION : Z := 2.
Definition ACCRUED_INTEREST_EXCLUDED_FROM_BOOK_COST_POLICIES : list string := ["BUY_EXCLUDE_ACCRUED_INTEREST_FROM_BOOK_COST"].
Definition SELL_ALLOW_OVERSOLD_POLICIES : list string := ["SELL_ALLOW_OVERSOLD_POLICY"].
Definition FX_BASELINE_TRANSACTION_TYPES : list string := ["FX_SPOT"; "FX_FORWARD"; "FX_SWAP"].

(** ** Reading the transaction *)

Definition is_accrued_interest_excluded_from_book_cost (t : CostBasisTransaction) : bool :=
  in_set (normalize_code (attr_text t "calculation_policy_id")) ACCRUED_INTEREST_EXCLUDED_FROM_BOOK_COST_POLICIES.

(** [repr] of a value that is not a decimal, in an error message. *)
Definition payload_repr (v : payload) : string :=
  match v with
  | PNone => "None"
  | PStr s => "'" +:+ s +:+ "'"
  | PDecimal NaN => "Decimal('NaN')"
  | PDecimal (Infinity negative) => if negative then "Decimal('-Infinity')" else "Decimal('Infinity')"
  | PBool b => if b then "True" else "False"
  | _ => ""
  end.

Definition normalize_decimal_field (value : payload) (field_name : string) : result decimal :=
  match decimal_or_none value with
  | Some d => Ok d
  | None => Raise (ValueError ("invalid decimal for " +:+ field_name +:+ ": " +:+ payload_repr value))
  end.

Definition calc_is_cash_instrument (t : CostBasisTransaction) : bool :=
  is_cash_instrument (attr_text t "product_type") (attr_text t "asset_class").

Definition calc_decimal_or_zero (value : payload) (field_name : string) : result decimal :=
  if is_none value || is_blank value then Ok dzero else normalize_decimal_field value field_name.

Definition cash_movement_amount (t : CostBasisTransaction) : result decimal :=
  gross_amount ← calc_decimal_or_zero (dfield (ct_gross_transaction_amount t)) "gross_transaction_amount";
  quantity_amount ← calc_decimal_or_zero (dfield (ct_quantity t)) "quantity";
  dabs default_context (if negb (dis_zero gross_amount) then gross_amount else quantity_amount).

Definition transaction_total_fees (t : CostBasisTransaction) : result decimal :=
  match ct_fees t with Some f => total_fees f | None => Ok dzero end.

Definition cash_outflow_book_cost (t : CostBasisTransaction) : result decimal :=
  cash_amount ← cash_movement_amount t;
  if negb (String.eqb (normalize_code (Some (ct_transaction_type t))) "FEE") then Ok cash_amount else
  fees ← transaction_total_fees t;
  p_add policy (cash_amount : decimal) (Finite fees) "net_cost_local".

Definition optional_transaction_decimal (t : CostBasisTransaction) (field_name : string) : result (option decimal) :=
  if is_none (attr t field_name) || is_blank (attr t field_name) then Ok None
  else d ← normalize_decimal_field (attr t field_name) field_name; Ok (Some d).

Definition transaction_fx_rate_or_one (t : CostBasisTransaction) : decimal :=
  match ct_transaction_fx_rate t with Some r => dor r d_one | None => d_one end.

Definition calculate_transaction_cash_economics (t : CostBasisTransaction) : result CorporateActionCashEconomics :=
  fees ← transaction_total_fees t;
  basis_local ← optional_transaction_decimal t "allocated_cost_basis_local";
  basis_base ← optional_transaction_decimal t "allocated_cost_basis_base";
  capital_local ← optional_transaction_decimal t "realized_capital_pnl_local";
  fx_local ← optional_transaction_decimal t "realized_fx_pnl_local";
  total_local ← optional_transaction_decimal t "realized_total_pnl_local";
  capital_base ← optional_transaction_decimal t "realized_capital_pnl_base";
  fx_base ← optional_transaction_decimal t "realized_fx_pnl_base";
  total_base ← optional_transaction_decimal t "realized_total_pnl_base";
  calculate_corporate_action_cash_economics
    {| ci_gross_proceeds_local := ct_gross_transaction_amount t; ci_fees_local := fees;
       ci_allocated_cost_basis_local := basis_local; ci_allocated_cost_basis_base := basis_base;
       ci_local_currency := ct_trade_currency t; ci_base_currency := ct_portfolio_base_currency t;
       ci_transaction_fx_rate := transaction_fx_rate_or_one t;
       ci_realized_capital_pnl_local := capital_local; ci_realized_fx_pnl_local := fx_local; ci_realized_total_pnl_local := total_local;
       ci_realized_capital_pnl_base := capital_base; ci_realized_fx_pnl_base := fx_base; ci_realized_total_pnl_base := total_base |}.

Definition redemption_terms (t : CostBasisTransaction) (position_quantity allocated_cost_basis_local allocated_cost_basis_base : decimal)
  : result RedemptionTerms :=
  let price := match attribute t "price" with Some v => v | None => optional_decimal (ct_average_price t) end in
  match decimal_or_none price with
  | None => Raise (RedemptionCalculationError "REDEMPTION_013_INVALID_MONETARY_INPUT" "redemption_price" "must be a finite decimal")
  | Some redemption_price =>
      let old_factor := attr t "old_factor" in
      let new_factor := attr t "new_factor" in
      let factor_authority_supplied := negb (is_none old_factor) || negb (is_none new_factor) in
      let or_zero_field name := if payload_truthy (attr t name) then attr t name else dfield dzero in
      Ok {| rt_transaction_type := ct_transaction_type t; rt_position_quantity := position_quantity;
            rt_redemption_price := redemption_price; rt_allocated_cost_basis_local := allocated_cost_basis_local;
            rt_allocated_cost_basis_base := allocated_cost_basis_base; rt_fx_rate_to_base := transaction_fx_rate_or_one t;
            rt_redeemed_quantity := if dis_zero (ct_quantity t) && factor_authority_supplied then None else Some (ct_quantity t);
            rt_old_factor := old_factor; rt_new_factor := new_factor;
            rt_principal_proceeds_local := attr t "principal_proceeds_local";
            rt_accrued_interest_proceeds_local := or_zero_field "accrued_interest_proceeds_local";
            rt_embedded_fee_amount_local := or_zero_field "embedded_fee_amount_local";
            rt_embedded_tax_amount_local := or_zero_field "embedded_tax_amount_local";
            rt_reconciliation_tolerance := default_tolerance |}
  end.

(** ** Lineage payloads *)

Definition TRANSACTION_COST_INPUT_EXCLUDED : list string :=
  ["calculation_lineage"; "allocated_cost_basis_base"; "allocated_cost_basis_local"; "tenant_id"; "created_at"; "epoch";
   "economic_event_id"; "error_reason"; "external_cash_transaction_id"; "gross_cost"; "linked_transaction_group_id";
   "net_cost"; "net_cost_local"; "trade_fee"; "realized_gain_loss"; "realized_gain_loss_local"; "realized_capital_pnl_base";
   "realized_capital_pnl_local"; "realized_fx_pnl_base"; "realized_fx_pnl_local"; "realized_total_pnl_base"; "realized_total_pnl_local"].

Definition transaction_cost_input (t : CostBasisTransaction) : list (string * payload) := model_dump TRANSACTION_COST_INPUT_EXCLUDED t.

Definition transaction_cost_output_payload (t : CostBasisTransaction) : result (list (string * payload)) :=
  basis_base ← optional_transaction_decimal t "allocated_cost_basis_base";
  basis_local ← optional_transaction_decimal t "allocated_cost_basis_local";
  capital_base ← optional_transaction_decimal t "realized_capital_pnl_base";
  capital_local ← optional_transaction_decimal t "realized_capital_pnl_local";
  fx_base ← optional_transaction_decimal t "realized_fx_pnl_base";
  fx_local ← optional_transaction_decimal t "realized_fx_pnl_local";
  total_base ← optional_transaction_decimal t "realized_total_pnl_base";
  total_local ← optional_transaction_decimal t "realized_total_pnl_local";
  Ok [("allocated_cost_basis_base", optional_decimal basis_base); ("allocated_cost_basis_local", optional_decimal basis_local);
      ("fee_components", match ct_fees t with Some f => fees_payload f | None => PMap [] end);
      ("gross_cost", optional_decimal (ct_gross_cost t)); ("lot_restatement", attr t "lot_restatement");
      ("net_cost", optional_decimal (ct_net_cost t)); ("net_cost_local", optional_decimal (ct_net_cost_local t));
      ("realized_capital_pnl_base", optional_decimal capital_base); ("realized_capital_pnl_local", optional_decimal capital_local);
      ("realized_fx_pnl_base", optional_decimal fx_base); ("realized_fx_pnl_local", optional_decimal fx_local);
      ("realized_gain_loss", optional_decimal (ct_realized_gain_loss t));
      ("realized_gain_loss_local", optional_decimal (ct_realized_gain_loss_local t));
      ("realized_total_pnl_base", optional_decimal total_base); ("realized_total_pnl_local", optional_decimal total_local);
      ("transaction_fx_rate", optional_decimal (ct_transaction_fx_rate t)); ("transaction_id", PStr (ct_transaction_id t))].

(** ** The calculation state *)

Record Calc (St : Type) := {
  cs_transaction : CostBasisTransaction; cs_engine : LotDispositionEngine St; cs_errors : Errors
}.
Arguments cs_transaction {St}.
Arguments cs_engine {St}.
Arguments cs_errors {St}.

(** The outcome of a guard: whether the calculation goes on. *)
#[local] Notation "'guard' m ; k" := (ok ← m; if (ok : bool) then k else mret tt) (at level 100, m at level 99, k at level 200).

Section Calculator.
Context {hashing : Hashing} {St : Type} `{!CostBasisStrategy St}.
#[local] Notation M := (st (Calc St)).

Definition txn : M CostBasisTransaction := fun s => (Ok (cs_transaction s), s).
Definition assign_txn (f : CostBasisTransaction -> CostBasisTransaction) : M unit :=
  st_modify (fun s => {| cs_transaction := f (cs_transaction s); cs_engine := cs_engine s; cs_errors := cs_errors s |}).
Definition on_engine {A} (m : st (LotDispositionEngine St) A) : M A := fun s =>
  let '(r, e) := m (cs_engine s) in (r, {| cs_transaction := cs_transaction s; cs_engine := e; cs_errors := cs_errors s |}).
(** [error_reporter.add_error(transaction.transaction_id, reason)]. *)
Definition report (reason : string) : M unit :=
  st_modify (fun s => {| cs_transaction := cs_transaction s; cs_engine := cs_engine s;
                         cs_errors := add_error (ct_transaction_id (cs_transaction s)) reason (cs_errors s) |}).
(** Report, and stop the calculation. *)
Definition reject (reason : string) : M bool := _ ← report reason; mret false.

Definition InvariantErrorAdder : Type := CostBasisTransaction -> string -> string.
Definition buy_invariant : InvariantErrorAdder := fun _ message => "BUY invariant violation: " +:+ message.
Definition sell_invariant : InvariantErrorAdder := fun _ message => "SELL invariant violation: " +:+ message.
Definition redemption_invariant : InvariantErrorAdder := fun t message =>
  normalize_code (Some (ct_transaction_type t)) +:+ " invariant violation: " +:+ message.
Definition dividend_invariant : InvariantErrorAdder := fun _ message => "DIVIDEND invariant violation: " +:+ message.
Definition interest_invariant : InvariantErrorAdder := fun _ message => "INTEREST invariant violation: " +:+ message.
Definition cash_consideration_invariant : InvariantErrorAdder := fun _ message => "CASH_CONSIDERATION invariant violation: " +:+ message.
Definition cash_in_lieu_invariant : InvariantErrorAdder := fun _ message => "CASH_IN_LIEU invariant violation: " +:+ message.
Definition adjustment_invariant : InvariantErrorAdder := fun _ message => "ADJUSTMENT invariant violation: " +:+ message.

Definition reject_with (add : InvariantErrorAdder) (message : string) : M bool := t ← txn; reject (add t message).

Definition apply_zero_cost_fields : M unit :=
  assign_txn (fun t => set_gross_cost (Some dzero) (set_net_cost_local (Some dzero) (set_net_cost (Some dzero) t))).
Definition apply_zero_realized_pnl : M unit :=
  assign_txn (fun t => set_realized_gain_loss_local (Some dzero) (set_realized_gain_loss (Some dzero) t)).
Definition apply_no_realized_pnl : M unit :=
  assign_txn (fun t => set_realized_gain_loss_local None (set_realized_gain_loss None t)).

(** [value != Decimal(0)] for an optional amount; [None] differs from zero. *)
Definition differs_from_zero (v : option decimal) : bool := match v with Some d => negb (deqb d dzero) | None => true end.
Definition has_non_zero_cost_fields (t : CostBasisTransaction) : bool :=
  differs_from_zero (ct_net_cost t) || differs_from_zero (ct_net_cost_local t).
Definition has_non_zero_realized_pnl (t : CostBasisTransaction) : bool :=
  differs_from_zero (ct_realized_gain_loss t) || differs_from_zero (ct_realized_gain_loss_local t).

(** *** Shared validations *)

Definition validate_zero_quantity_and_price (transaction_label : string) (add : InvariantErrorAdder) : M bool :=
  t ← txn;
  if negb (deqb (ct_quantity t) dzero) then reject_with add ("quantity_delta must be 0 for " +:+ transaction_label +:+ ".") else
  match normalize_decimal_field (match attribute t "price" with Some v => v | None => dfield dzero end) "price" with
  | Raise e => reject_with add (exc_text e)
  | Ok price =>
      if negb (deqb price dzero) then reject_with add ("price must be 0 for " +:+ transaction_label +:+ ".") else mret true
  end.

Definition validate_zero_cost_and_realized_pnl (realized_label : string) (add : InvariantErrorAdder) : M bool :=
  t ← txn;
  if has_non_zero_cost_fields t then reject_with add "net_cost and net_cost_local must be 0." else
  if has_non_zero_realized_pnl t then
    reject_with add ("realized capital/FX P&L must be explicit zero for " +:+ realized_label +:+ ".")
  else mret true.

Definition validate_disposal_availability (add : InvariantErrorAdder) : M bool :=
  t ← txn;
  s ← st_get;
  let available := engine_get_available_quantity (ct_portfolio_id t) (ct_instrument_id t) (cs_engine s) in
  if dleb (ct_quantity t) available then mret true else
  if in_set (normalize_code (attr_text t "calculation_policy_id")) SELL_ALLOW_OVERSOLD_POLICIES
  then reject_with add "oversold policy is configured but not supported in current engine."
  else reject_with add "sell quantity exceeds available holdings under strict oversell policy.".

Definition consume_disposal_cost_basis (add : InvariantErrorAdder) : M (option (decimal * decimal * decimal)) :=
  t ← txn;
  '(cogs_base, cogs_local, consumed_quantity, error_reason) ← on_engine (engine_consume_sell_quantity t);
  if truthy (default "" error_reason) then _ ← report (default "" error_reason); mret None else
  if dleb consumed_quantity dzero then _ ← reject_with add "consumed_quantity must be > 0."; mret None else
  if dltb cogs_base dzero || dltb cogs_local dzero then
    _ ← reject_with add "disposed cost basis must be non-negative."; mret None
  else mret (Some (cogs_base, cogs_local, consumed_quantity)).

Definition record_buy_lot : M unit :=
  t ← txn;
  st_try (on_engine (engine_add_buy_lot t)) is_value_error (fun e => report (exc_text e)).

(** *** Purchases *)

Definition apply_buy_cost_fields : M unit :=
  t ← txn;
  total_fees_local ← st_lift (transaction_total_fees t);
  let accrued_interest_local := match ct_accrued_interest t with Some d => dor d dzero | None => dzero end in
  let fx_rate := transaction_fx_rate_or_one t in
  gross_cost ← st_lift (p_multiply policy (ct_gross_transaction_amount t) fx_rate "gross_cost");
  _ ← assign_txn (set_gross_cost (Some gross_cost));
  before_interest ← st_lift (p_add policy (ct_gross_transaction_amount t) (total_fees_local : decimal) "net_cost_local");
  _ ← assign_txn (set_net_cost_local (Some before_interest));
  net_cost_local ← (if is_accrued_interest_excluded_from_book_cost t then mret before_interest
                    else st_lift (p_add policy (before_interest : decimal) accrued_interest_local "net_cost_local"));
  _ ← assign_txn (set_net_cost_local (Some net_cost_local));
  net_cost ← st_lift (p_multiply policy (net_cost_local : decimal) fx_rate "net_cost");
  _ ← assign_txn (set_net_cost (Some net_cost));
  apply_zero_realized_pnl.

Definition validate_non_negative_buy_costs : M bool :=
  t ← txn;
  match ct_gross_cost t, ct_net_cost_local t, ct_net_cost t with
  | Some gross_cost, Some net_cost_local, Some net_cost =>
      if dltb gross_cost dzero then reject_with buy_invariant "gross_cost must be >= 0." else
      if dltb net_cost_local dzero then reject_with buy_invariant "book_cost_local must be >= 0." else
      if dltb net_cost dzero then reject_with buy_invariant "book_cost_base must be >= 0." else mret true
  | _, _, _ => reject_with buy_invariant "gross_cost, book_cost_local, and book_cost_base must be calculated."
  end.

Definition validate_buy_cost_fields : M bool :=
  t ← txn;
  if dleb (ct_quantity t) dzero then reject_with buy_invariant "quantity_delta must be > 0." else
  costs_ok ← validate_non_negative_buy_costs;
  if negb costs_ok then mret false else
  t ← txn;
  if has_non_zero_realized_pnl t then reject_with buy_invariant "realized P&L must be explicit zero for BUY." else mret true.

Definition BuyStrategy : M unit :=
  _ ← apply_buy_cost_fields;
  guard validate_buy_cost_fields;
  record_buy_lot.

(** *** Sales *)

Definition net_sell_proceeds_local (t : CostBasisTransaction) : result decimal :=
  fees ← transaction_total_fees t;
  p_subtract policy (ct_gross_transaction_amount t) (fees : decimal) "net_sell_proceeds_local".

Definition validate_sell_quantity_and_proceeds (proceeds_local proceeds_base : decimal) : M bool :=
  t ← txn;
  if dltb proceeds_local dzero then reject_with sell_invariant "net_sell_proceeds_local must be >= 0." else
  if dltb proceeds_base dzero then reject_with sell_invariant "net_sell_proceeds_base must be >= 0." else
  if dleb (ct_quantity t) dzero then reject_with sell_invariant "quantity_delta must be > 0." else mret true.

(** [policy.normalize(-amount, field_name)]. *)
Definition normalized_negation (amount : decimal) (field_name : string) : result decimal :=
  negated ← dneg default_context amount; normalize policy (Finite negated) field_name.

Definition apply_sell_disposal_fields (proceeds_local proceeds_base cogs_base cogs_local : decimal) : M unit :=
  gain_local ← st_lift (p_subtract policy proceeds_local cogs_local "realized_gain_loss_local");
  _ ← assign_txn (set_realized_gain_loss_local (Some gain_local));
  gain ← st_lift (p_subtract policy proceeds_base cogs_base "realized_gain_loss");
  _ ← assign_txn (set_realized_gain_loss (Some gain));
  net_cost ← st_lift (normalized_negation cogs_base "net_cost");
  _ ← assign_txn (set_net_cost (Some net_cost));
  net_cost_local ← st_lift (normalized_negation cogs_local "net_cost_local");
  _ ← assign_txn (set_net_cost_local (Some net_cost_local));
  gross_cost ← st_lift (normalized_negation cogs_base "gross_cost");
  assign_txn (set_gross_cost (Some gross_cost)).

Definition validate_sell_disposal_fields : M bool :=
  t ← txn;
  match ct_net_cost t, ct_net_cost_local t with
  | Some net_cost, Some net_cost_local =>
      if dleb net_cost dzero && dleb net_cost_local dzero then mret true
      else reject_with sell_invariant "net_cost and net_cost_local must be <= 0 for SELL disposal."
  | _, _ => reject_with sell_invariant "net_cost and net_cost_local must be calculated for SELL disposal."
  end.

Definition SellStrategy : M unit :=
  t ← txn;
  proceeds_local ← st_lift (net_sell_proceeds_local t);
  proceeds_base ← st_lift (p_multiply policy (proceeds_local : decimal) (transaction_fx_rate_or_one t) "net_sell_proceeds_base");
  guard validate_sell_quantity_and_proceeds proceeds_local proceeds_base;
  guard validate_disposal_availability sell_invariant;
  consumed ← consume_disposal_cost_basis sell_invariant;
  match (consumed : option (decimal * decimal * decimal)) with
  | None => mret tt
  | Some (cogs_base, cogs_local, _) =>
      _ ← apply_sell_disposal_fields proceeds_local proceeds_base cogs_base cogs_local;
      _ ← validate_sell_disposal_fields;
      mret tt
  end.

(** *** Redemptions *)

Definition is_redemption_error (e : exc) : bool := match e with RedemptionCalculationError _ _ _ => true | _ => false end.

(** The economics of the redemption, or [None] after a reported [RedemptionCalculationError]. *)
Definition redemption_economics (position_quantity basis_local basis_base : decimal) : M (option RedemptionEconomics) :=
  t ← txn;
  st_try (e ← st_lift (terms ← redemption_terms t position_quantity basis_local basis_base; calculate_redemption_economics terms);
          mret (Some e))
    is_redemption_error (fun e => _ ← report (exc_text e); mret None).

Definition set_fields (es : list (string * payload)) : M unit :=
  assign_txn (fun t => fold_left (fun t e => set_calculated_field (fst e) (snd e) t) es t).

Definition RedemptionStrategy : M unit :=
  t ← txn;
  guard (st_try (_ ← st_lift (assert_redemption_command_eligible (ct_transaction_type t) (ct_settlement_date t)
                                (attr_text t "product_type") (attr_text t "asset_class")); mret true)
           is_value_error (fun e => reject (exc_text e)));
  s ← st_get;
  let available := engine_get_available_quantity (ct_portfolio_id t) (ct_instrument_id t) (cs_engine s) in
  preview ← redemption_economics available dzero dzero;
  match (preview : option RedemptionEconomics) with
  | None => mret tt
  | Some preview =>
      _ ← assign_txn (set_quantity (re_redeemed_quantity preview));
      consumed ← consume_disposal_cost_basis redemption_invariant;
      match (consumed : option (decimal * decimal * decimal)) with
      | None => mret tt
      | Some (cogs_base, cogs_local, _) =>
          economics ← redemption_economics available cogs_local cogs_base;
          match (economics : option RedemptionEconomics) with
          | None => mret tt
          | Some economics =>
              net_cost_local ← st_lift (normalized_negation cogs_local "net_cost_local");
              _ ← assign_txn (set_net_cost_local (Some net_cost_local));
              net_cost ← st_lift (normalized_negation cogs_base "net_cost");
              _ ← assign_txn (set_net_cost (Some net_cost));
              gross_cost ← st_lift (normalized_negation cogs_base "gross_cost");
              _ ← assign_txn (set_gross_cost (Some gross_cost));
              _ ← assign_txn (set_realized_gain_loss_local (Some (re_realized_capital_pnl_local economics)));
              _ ← assign_txn (set_realized_gain_loss (Some (re_realized_capital_pnl_base economics)));
              set_fields
                [decimal_entry "allocated_cost_basis_local" cogs_local; decimal_entry "allocated_cost_basis_base" cogs_base;
                 decimal_entry "realized_capital_pnl_local" (re_realized_capital_pnl_local economics);
                 decimal_entry "realized_fx_pnl_local" dzero;
                 decimal_entry "realized_total_pnl_local" (re_realized_capital_pnl_local economics);
                 decimal_entry "realized_capital_pnl_base" (re_realized_capital_pnl_base economics);
                 decimal_entry "realized_fx_pnl_base" dzero;
                 decimal_entry "realized_total_pnl_base" (re_realized_capital_pnl_base economics)]
          end
      end
  end.

(** *** Cash movements *)

Definition CashInflowStrategy : M unit :=
  t ← txn;
  cash_amount_local ← st_lift (cash_movement_amount t);
  _ ← assign_txn (set_gross_cost (Some cash_amount_local));
  _ ← assign_txn (set_net_cost_local (Some cash_amount_local));
  net_cost ← st_lift (p_multiply policy (cash_amount_local : decimal) (transaction_fx_rate_or_one t) "net_cost");
  _ ← assign_txn (set_net_cost (Some net_cost));
  t ← txn;
  on_engine (engine_add_buy_lot (set_quantity cash_amount_local t)).

Definition CashOutflowStrategy : M unit :=
  t ← txn;
  cash_amount_local ← st_lift (cash_outflow_book_cost t);
  net_cost_local ← st_lift (dneg default_context cash_amount_local);
  _ ← assign_txn (set_net_cost_local (Some net_cost_local));
  net_cost ← st_lift (p_multiply policy (net_cost_local : decimal) (transaction_fx_rate_or_one t) "net_cost");
  _ ← assign_txn (set_net_cost (Some net_cost));
  _ ← assign_txn (set_gross_cost (Some net_cost));
  apply_no_realized_pnl.

Definition AdjustmentStrategy : M unit :=
  t ← txn;
  let direction := normalize_code (Some (or_text (attr_text t "movement_direction") "INFLOW")) in
  if negb (in_set direction ["INFLOW"; "OUTFLOW"]) then
    _ ← reject_with adjustment_invariant "movement_direction must be INFLOW or OUTFLOW."; mret tt
  else
    amount ← st_lift (cash_movement_amount t);
    signed_amount_local ← st_lift (if String.eqb direction "OUTFLOW" then dneg default_context amount else Ok amount);
    _ ← assign_txn (set_net_cost_local (Some signed_amount_local));
    net_cost ← st_lift (p_multiply policy (signed_amount_local : decimal) (transaction_fx_rate_or_one t) "net_cost");
    _ ← assign_txn (set_net_cost (Some net_cost));
    _ ← assign_txn (set_gross_cost (Some net_cost));
    apply_no_realized_pnl.

(** *** Transfers *)

Definition SecurityInflowStrategy : M unit :=
  t ← txn;
  let gross := ct_gross_transaction_amount t in
  _ ← assign_txn (set_gross_cost (Some gross));
  _ ← assign_txn (set_net_cost_local (Some gross));
  net_cost ← st_lift (p_multiply policy gross (transaction_fx_rate_or_one t) "net_cost");
  _ ← assign_txn (set_net_cost (Some net_cost));
  if dltb dzero (ct_quantity t) then record_buy_lot else mret tt.

Definition SecurityOutflowStrategy : M unit :=
  t ← txn;
  '(cogs_base, cogs_local, consumed_quantity, error_reason) ← on_engine (engine_consume_sell_quantity t);
  if truthy (default "" error_reason) then report (default "" error_reason) else
  if dltb dzero consumed_quantity then
    net_cost ← st_lift (normalized_negation cogs_base "net_cost");
    _ ← assign_txn (set_net_cost (Some net_cost));
    net_cost_local ← st_lift (normalized_negation cogs_local "net_cost_local");
    _ ← assign_txn (set_net_cost_local (Some net_cost_local));
    _ ← assign_txn (set_gross_cost (Some net_cost));
    apply_no_realized_pnl
  else mret tt.

Definition PartialTransferOutStrategy : M unit :=
  t ← txn;
  if dltb dzero (ct_quantity t) then SecurityOutflowStrategy else
  let basis_out_local := ct_gross_transaction_amount t in
  basis_out_base ← st_lift (p_multiply policy basis_out_local (transaction_fx_rate_or_one t) "net_cost");
  basis_transfer ← on_engine (engine_transfer_basis_out t basis_out_base basis_out_local);
  match br_error_reason basis_transfer with
  | Some reason => report reason
  | None =>
      net_cost_local ← st_lift (dneg default_context basis_out_local);
      _ ← assign_txn (set_net_cost_local (Some net_cost_local));
      net_cost ← st_lift (dneg default_context basis_out_base);
      _ ← assign_txn (set_net_cost (Some net_cost));
      gross_cost ← st_lift (dneg default_context basis_out_base);
      _ ← assign_txn (set_gross_cost (Some gross_cost));
      apply_no_realized_pnl
  end.

Definition IncomeStrategy : M unit := _ ← apply_zero_cost_fields; apply_no_realized_pnl.

(** *** Corporate-action cash *)

Definition apply_corporate_action_cash_economics (e : CorporateActionCashEconomics) : M unit :=
  _ ← set_fields [decimal_entry "allocated_cost_basis_local" (ce_allocated_cost_basis_local e);
                  decimal_entry "allocated_cost_basis_base" (ce_allocated_cost_basis_base e)];
  net_cost_local ← st_lift (dneg default_context (ce_allocated_cost_basis_local e));
  _ ← assign_txn (set_net_cost_local (Some net_cost_local));
  net_cost ← st_lift (dneg default_context (ce_allocated_cost_basis_base e));
  _ ← assign_txn (set_net_cost (Some net_cost));
  gross_cost ← st_lift (dneg default_context (ce_allocated_cost_basis_base e));
  _ ← assign_txn (set_gross_cost (Some gross_cost));
  _ ← assign_txn (set_realized_gain_loss_local (Some (ce_realized_total_pnl_local e)));
  _ ← assign_txn (set_realized_gain_loss (Some (ce_realized_total_pnl_base e)));
  set_fields
    [decimal_entry "realized_capital_pnl_local" (ce_realized_capital_pnl_local e);
     decimal_entry "realized_fx_pnl_local" (ce_realized_fx_pnl_local e);
     decimal_entry "realized_total_pnl_local" (ce_realized_total_pnl_local e);
     decimal_entry "realized_capital_pnl_base" (ce_realized_capital_pnl_base e);
     decimal_entry "realized_fx_pnl_base" (ce_realized_fx_pnl_base e);
     decimal_entry "realized_total_pnl_base" (ce_realized_total_pnl_base e)].

Definition cash_economics (add : InvariantErrorAdder) : M (option CorporateActionCashEconomics) :=
  t ← txn;
  st_try (e ← st_lift (calculate_transaction_cash_economics t); mret (Some e))
    is_value_error (fun e => _ ← reject_with add (exc_text e); mret None).

Definition CashConsiderationStrategy : M unit :=
  guard validate_zero_quantity_and_price "CASH_CONSIDERATION" cash_consideration_invariant;
  t ← txn;
  if dleb (ct_gross_transaction_amount t) dzero then
    _ ← reject_with cash_consideration_invariant "gross cash proceeds must be greater than 0."; mret tt
  else
    economics ← cash_economics cash_consideration_invariant;
    match (economics : option CorporateActionCashEconomics) with
    | None => mret tt
    | Some e => apply_corporate_action_cash_economics e
    end.

Definition CashInLieuStrategy : M unit :=
  t ← txn;
  if dleb (ct_quantity t) dzero then
    _ ← reject_with cash_in_lieu_invariant "quantity_delta must be greater than 0."; mret tt
  else if dleb (ct_gross_transaction_amount t) dzero then
    _ ← reject_with cash_in_lieu_invariant "gross cash proceeds must be greater than 0."; mret tt
  else
    economics ← cash_economics cash_in_lieu_invariant;
    match (economics : option CorporateActionCashEconomics) with
    | None => mret tt
    | Some e =>
        guard validate_disposal_availability cash_in_lieu_invariant;
        consumed ← consume_disposal_cost_basis cash_in_lieu_invariant;
        match (consumed : option (decimal * decimal * decimal)) with
        | None => mret tt
        | Some (consumed_base, consumed_local, consumed_quantity) =>
            if negb (deqb consumed_quantity (ct_quantity t)) then
              _ ← reject_with cash_in_lieu_invariant "consumed quantity must equal fractional quantity."; mret tt
            else if negb (deqb consumed_local (ce_allocated_cost_basis_local e)) || negb (deqb consumed_base (ce_allocated_cost_basis_base e)) then
              _ ← reject_with cash_in_lieu_invariant "consumed local/base basis must equal allocated fractional basis."; mret tt
            else apply_corporate_action_cash_economics e
        end
    end.

(** *** Restatements, income and the rest *)

Definition is_restatement_error (e : exc) : bool := match e with LotRestatementError _ => true | _ => false end.

Definition QuantityRestatementStrategy : M unit :=
  _ ← apply_zero_cost_fields;
  _ ← apply_zero_realized_pnl;
  t ← txn;
  let direction := match get_transaction_type_definition (ct_transaction_type t) with
                   | Some d => if in_set (position_effect d) ["increase"; "decrease"] then Some (position_effect d) else None
                   | None => None
                   end in
  match direction with
  | None => report "Quantity restatement invariant violation: transaction type has no direction."
  | Some effect =>
      signed_quantity_delta ← st_lift (if String.eqb effect "decrease" then dneg default_context (ct_quantity t) else Ok (ct_quantity t));
      restatement ← st_try (r ← on_engine (engine_restate_lot_quantities t signed_quantity_delta); mret (Some r))
        is_restatement_error
        (fun e => _ ← report ("Quantity restatement invariant violation: " +:+ exc_text e); mret None);
      match (restatement : option LotRestatement) with
      | None => mret tt
      | Some r => set_fields [("lot_restatement", PMap (map (fun e => decimal_entry (fst e) (snd e)) (lr_lineage_payload r)))]
      end
  end.

Definition DividendStrategy : M unit :=
  _ ← apply_zero_cost_fields;
  _ ← apply_zero_realized_pnl;
  guard validate_zero_quantity_and_price "DIVIDEND" dividend_invariant;
  t ← txn;
  if dleb (ct_gross_transaction_amount t) dzero then
    _ ← reject_with dividend_invariant "gross_dividend_local must be > 0 for DIVIDEND."; mret tt
  else _ ← validate_zero_cost_and_realized_pnl "DIVIDEND" dividend_invariant; mret tt.

Definition resolve_interest_direction : M (option string) :=
  t ← txn;
  let direction := match attr_text t "interest_direction" with
                   | None => "INCOME"
                   | Some raw => if truthy raw then normalize_code (Some raw) else "INCOME"
                   end in
  if in_set direction ["INCOME"; "EXPENSE"] then mret (Some direction)
  else _ ← reject_with interest_invariant "interest_direction must be INCOME or EXPENSE when provided."; mret None.

Definition InterestStrategy : M unit :=
  _ ← apply_zero_cost_fields;
  _ ← apply_zero_realized_pnl;
  direction ← resolve_interest_direction;
  match (direction : option string) with
  | None => mret tt
  | Some _ =>
      guard validate_zero_quantity_and_price "INTEREST" interest_invariant;
      t ← txn;
      if dleb (ct_gross_transaction_amount t) dzero then
        _ ← reject_with interest_invariant "gross_interest_local must be > 0 for INTEREST baseline."; mret tt
      else _ ← validate_zero_cost_and_realized_pnl "INTEREST" interest_invariant; mret tt
  end.

Definition DefaultStrategy : M unit :=
  t ← txn;
  let gross := ct_gross_transaction_amount t in
  _ ← assign_txn (set_gross_cost (Some gross));
  _ ← assign_txn (set_net_cost_local (Some gross));
  net_cost ← st_lift (p_multiply policy gross (transaction_fx_rate_or_one t) "net_cost");
  assign_txn (set_net_cost (Some net_cost)).

(** *** Foreign exchange *)

Definition validate_canonical_fx_transaction : M bool :=
  t ← txn;
  if negb (is_fx_source t) then reject "FX validation failed: required canonical FX fields are incomplete." else
  canonical ← st_try (c ← st_lift (fx_from_transaction t); mret (Some c)) is_value_error
    (fun e => _ ← report "FX validation failed: canonical FX fields are incomplete or invalid (ValueError)."; mret None);
  match (canonical : option FxCanonicalTransaction) with
  | None => mret false
  | Some c =>
      issues ← st_lift (validate_fx_transaction c false);
      match (issues : list FxValidationIssue) with
      | [] => mret true
      | _ => reject ("FX validation failed: " +:+ join "; " (map (fun i => fi_code i +:+ ":" +:+ fi_field i) issues) +:+ ".")
      end
  end.

Definition is_unsupported_mode (e : exc) : bool := match e with UnsupportedFxRealizedPnlModeError _ => true | _ => false end.

Definition FxBaselineStrategy : M unit :=
  guard validate_canonical_fx_transaction;
  t ← txn;
  update ← st_try (u ← st_lift (build_fx_baseline_processing_update t); mret (Some u)) is_unsupported_mode
    (fun e => _ ← report (exc_text e); mret None);
  match (update : option (list (string * payload))) with
  | None => mret tt
  | Some u => set_fields u
  end.

(** ** Dispatch *)

Definition strategies : list (string * M unit) :=
  [("BUY", BuyStrategy); ("SELL", SellStrategy); ("FX_SPOT", FxBaselineStrategy); ("FX_FORWARD", FxBaselineStrategy);
   ("FX_SWAP", FxBaselineStrategy); ("INTEREST", InterestStrategy); ("DIVIDEND", DividendStrategy);
   ("TRANSFER_IN", SecurityInflowStrategy); ("TRANSFER_OUT", SecurityOutflowStrategy); ("MERGER_IN", SecurityInflowStrategy);
   ("EXCHANGE_IN", SecurityInflowStrategy); ("REPLACEMENT_IN", SecurityInflowStrategy); ("MERGER_OUT", SecurityOutflowStrategy);
   ("EXCHANGE_OUT", SecurityOutflowStrategy); ("REPLACEMENT_OUT", SecurityOutflowStrategy); ("SPIN_IN", SecurityInflowStrategy);
   ("DEMERGER_IN", SecurityInflowStrategy); ("SPIN_OFF", PartialTransferOutStrategy); ("DEMERGER_OUT", PartialTransferOutStrategy);
   ("CASH_CONSIDERATION", CashConsiderationStrategy); ("CASH_IN_LIEU", CashInLieuStrategy);
   ("MATURITY_REDEMPTION", RedemptionStrategy); ("CALL_REDEMPTION", RedemptionStrategy); ("PARTIAL_REDEMPTION", RedemptionStrategy);
   ("SPLIT", QuantityRestatementStrategy); ("REVERSE_SPLIT", QuantityRestatementStrategy);
   ("CONSOLIDATION", QuantityRestatementStrategy); ("BONUS_ISSUE", QuantityRestatementStrategy);
   ("STOCK_DIVIDEND", QuantityRestatementStrategy); ("RIGHTS_ANNOUNCE", DefaultStrategy); ("RIGHTS_ALLOCATE", SecurityInflowStrategy);
   ("RIGHTS_EXPIRE", SecurityOutflowStrategy); ("RIGHTS_ADJUSTMENT", DefaultStrategy); ("RIGHTS_SELL", SecurityOutflowStrategy);
   ("RIGHTS_SUBSCRIBE", SecurityOutflowStrategy); ("RIGHTS_OVERSUBSCRIBE", SecurityOutflowStrategy);
   ("RIGHTS_REFUND", IncomeStrategy); ("RIGHTS_SHARE_DELIVERY", SecurityInflowStrategy); ("ADJUSTMENT", AdjustmentStrategy)].

Definition CASH_OUTFLOW_STRATEGY_TYPES : list string :=
  ["SELL"; "WITHDRAWAL"; "FEE"; "TAX"; "TRANSFER_OUT"; "MERGER_OUT"; "EXCHANGE_OUT"; "REPLACEMENT_OUT"].

Definition resolve_strategy (transaction_type : string) (t : CostBasisTransaction) : M (option (M unit)) :=
  if negb (is_production_booking_transaction_type transaction_type) then
    let support_status := match get_transaction_type_definition transaction_type with
                          | Some d => calculation_support_status d | None => "unknown" end in
    _ ← report ("CostBasisTransaction type '" +:+ transaction_type +:+ "' is not allowed for production booking (registry_status=" +:+
                support_status +:+ ").");
    mret None
  else if calc_is_cash_instrument t && String.eqb transaction_type "DEPOSIT" then mret (Some CashInflowStrategy)
  else if calc_is_cash_instrument t && in_set transaction_type CASH_OUTFLOW_STRATEGY_TYPES then mret (Some CashOutflowStrategy)
  else match od_get transaction_type strategies with
       | Some strategy => mret (Some strategy)
       | None => _ ← report ("No cost calculation strategy is registered for '" +:+ transaction_type +:+ "'."); mret None
       end.

(** ** Currency context *)

Definition normalize_transaction_currencies : M unit :=
  assign_txn (fun t => set_portfolio_base_currency (normalize_code (Some (ct_portfolio_base_currency t)))
                         (set_trade_currency (normalize_code (Some (ct_trade_currency t))) t)).

Definition normalize_existing_transaction_fx_rate : M bool :=
  t ← txn;
  match ct_transaction_fx_rate t with
  | None => mret true
  | Some rate => if dltb dzero rate then mret true else reject "Missing/invalid FX rate for transaction."
  end.

Definition validate_normalized_transaction_fx : M bool :=
  t ← txn;
  if String.eqb (ct_trade_currency t) (ct_portfolio_base_currency t) then
    _ ← (if present (ct_transaction_fx_rate t) then mret tt else assign_txn (set_transaction_fx_rate (Some d_one)));
    mret true
  else match ct_transaction_fx_rate t with
       | Some rate => if dltb dzero rate then mret true
                      else reject ("Missing/invalid FX rate for cross-currency transaction from " +:+ ct_trade_currency t +:+ " to " +:+
                                   ct_portfolio_base_currency t +:+ ".")
       | None => reject ("Missing/invalid FX rate for cross-currency transaction from " +:+ ct_trade_currency t +:+ " to " +:+
                         ct_portfolio_base_currency t +:+ ".")
       end.

Definition validate_transaction_currency_context : M bool :=
  _ ← normalize_transaction_currencies;
  ok ← normalize_existing_transaction_fx_rate;
  if negb ok then mret false else
  t ← txn;
  if in_set (upper (strip (ct_transaction_type t))) FX_BASELINE_TRANSACTION_TYPES then mret true
  else validate_normalized_transaction_fx.

(** ** One transaction *)

Definition normalize_cash_movement_inputs : M unit :=
  t ← txn;
  gross ← st_lift (calc_decimal_or_zero (dfield (ct_gross_transaction_amount t)) "gross_transaction_amount");
  _ ← assign_txn (set_gross_transaction_amount gross);
  quantity ← st_lift (calc_decimal_or_zero (dfield (ct_quantity t)) "quantity");
  assign_txn (set_quantity quantity).

(** The lineage is kept as the payload of the receipt. *)
Definition transaction_lineage (input : list (string * payload)) (t : CostBasisTransaction) : result CalculationLineage :=
  input_payload ← canonical_cost_basis_output_payload input;
  output ← transaction_cost_output_payload t;
  output_payload ← canonical_cost_basis_output_payload output;
  np ← lineage_identity policy;
  build_calculation_lineage TRANSACTION_COST_CALCULATION_ALGORITHM_ID TRANSACTION_COST_CALCULATION_ALGORITHM_VERSION
    (cp_working_precision policy) input_payload output_payload (Some np).

(** The guarded part: run the strategy and publish its evidence unless it reported an error. *)
Definition run_strategy (strategy : M unit) (input : list (string * payload)) (transaction_id : string) : M unit :=
  _ ← strategy;
  s ← st_get;
  if has_errors_for transaction_id (cs_errors s) then mret tt else
  t ← txn;
  lineage ← st_lift (transaction_lineage input t);
  _ ← set_fields [("calculation_lineage", cl_lineage_payload lineage)];
  on_engine (commit_disposal_record transaction_id).

Definition calculate_transaction_costs : M unit :=
  guard validate_transaction_currency_context;
  _ ← assign_txn (fun t => set_transaction_type (upper (strip (ct_transaction_type t))) t);
  t ← txn;
  if negb (present (get_transaction_type_definition (ct_transaction_type t))) then
    report ("Unknown transaction type '" +:+ ct_transaction_type t +:+ "'.")
  else
  guard (match assert_cash_account_required_instrument (resolve_effective_processing_transaction_type t) true
                 (attr_text t "product_type") (attr_text t "asset_class") with
         | Ok _ => mret true
         | Raise (CashAccountRequiredValidationError code message) => reject (code +:+ ": " +:+ message)
         | Raise e => st_lift (Raise e)
         end);
  _ ← (if calc_is_cash_instrument t then normalize_cash_movement_inputs else mret tt);
  t ← txn;
  let input := transaction_cost_input t in
  strategy ← resolve_strategy (ct_transaction_type t) t;
  match (strategy : option (M unit)) with
  | None => mret tt
  | Some strategy =>
      let transaction_id := ct_transaction_id t in
      _ ← on_engine (discard_pending_disposal transaction_id);
      st_finally (run_strategy strategy input transaction_id) (on_engine (discard_pending_disposal transaction_id))
  end.
End Calculator.
