(* ===== verification/CalculatorFacts.v ===== *)
(** * What a calculation may touch

    Every strategy of the calculator is a program over the transaction, the engine and the error
    collector.  [touches] says what all of them have in common: the transaction keeps its identity,
    published evidence is not touched, staged evidence changes for this transaction only, and
    reported errors are never withdrawn.  On top of it: evidence is published exactly when the whole
    calculation succeeds, and a successful calculation is sealed by a lineage of its outputs. *)

From Stdlib Require Import ZArith Lia QArith String.
From stdpp Require Import base tactics list sets strings.
From S2P Require Import Prelude PyDecimal DecimalFacts PyTime Precision Lineage Registry Transactions Values Position Lots CostBasis CostFields Fx Redemption CashEconomics Disposition Calculator.

#[local] Open Scope string_scope.
#[local] Open Scope Z_scope.

(** ** Programs that respect a preorder on states *)

Definition respects {S A} (R : S -> S -> Prop) (m : st S A) : Prop := forall s r s', m s = (r, s') -> R s s'.

Section Respects.
Context {S : Type} (R : S -> S -> Prop) `{!PreOrder R}.

Lemma respects_ret {A} (a : A) : respects R (mret a).
Proof. by intros s r s' [= <- <-]. Qed.
Lemma respects_lift {A} (m : result A) : respects R (st_lift m).
Proof. by intros s r s' [= <- <-]. Qed.
Lemma respects_get : respects R st_get.
Proof. by intros s r s' [= <- <-]. Qed.
Lemma respects_modify f : (forall s, R s (f s)) -> respects R (st_modify f).
Proof. by intros H s r s' [= <- <-]. Qed.
Lemma respects_bind {A B} (m : st S A) (f : A -> st S B) : respects R m -> (forall a, respects R (f a)) -> respects R (m ≫= f).
Proof.
  intros Hm Hf s r s'. unfold mbind, st_bind. destruct (m s) as [[a|e] s1] eqn:E.
  - intros Hr. etrans; [by eapply Hm|]. by eapply Hf.
  - intros [= <- <-]. by eapply Hm.
Qed.
Lemma respects_try {A} (m : st S A) handles h : respects R m -> (forall e, respects R (h e)) -> respects R (st_try m handles h).
Proof.
  intros Hm Hh s r s'. unfold st_try. destruct (m s) as [[a|e] s1] eqn:E; [intros [= <- <-]; by eapply Hm|].
  destruct (handles e); [|intros [= <- <-]; by eapply Hm]. intros Hr. etrans; [by eapply Hm|]. by eapply Hh.
Qed.
(** A lifted value that is known to exist. *)
Lemma respects_lift_bind {A B} (m : result A) (f : A -> st S B) :
  (forall a, m = Ok a -> respects R (f a)) -> respects R (st_lift m ≫= f).
Proof. intros Hf s r s'. unfold mbind, st_bind, st_lift. destruct m as [a|e]; [by apply Hf|by intros [= <- <-]]. Qed.
End Respects.

(** Walk through a program; the leaves are in the hint database. *)
Create HintDb frame.
Ltac frame_with step :=
  intros;
  repeat match goal with
  | |- _ => step
  | |- respects _ (mret _) => apply respects_ret, _
  | |- respects _ (st_lift _) => apply respects_lift, _
  | |- respects _ st_get => apply respects_get, _
  | |- respects _ (st_try _ _ _) => apply respects_try; [apply _| |intros ?]
  | |- respects _ (st_lift _ ≫= _) => apply respects_lift_bind; [apply _|intros ? ?]
  | |- respects _ _ => solve [eauto with frame]
  | |- respects _ (_ ≫= _) => apply respects_bind; [apply _| |intros ?]
  | |- respects _ (match ?x with _ => _ end) => destruct x eqn:?
  end.
Ltac frame := frame_with ltac:(idtac; fail).

(** ** Staged evidence *)

(** One kind of evidence: staged records carry their key and agree with what is published. *)
Definition staged_ok {V} (key : V -> string) (eqb : V -> V -> bool) (pending published : list (string * V)) : Prop :=
  NoDup pending.*1 /\
  forall k v, od_get k pending = Some v -> key v = k /\ forall x, od_get k published = Some x -> eqb x v = true.

Section Staged.
Context {V : Type} (key : V -> string) (eqb : V -> V -> bool).

Lemma staged_ok_set pending published v :
  staged_ok key eqb pending published -> (forall x, od_get (key v) published = Some x -> eqb x v = true) ->
  staged_ok key eqb (od_set (key v) v pending) published.
Proof.
  intros [Hn Hs] Hv. split; [by apply od_set_NoDup|]. intros k w. destruct (decide (k = key v)) as [->|Hne].
  - rewrite od_get_set. intros [= <-]. done.
  - rewrite od_get_set_ne by done. apply Hs.
Qed.

Lemma staged_ok_del pending published k : staged_ok key eqb pending published -> staged_ok key eqb (od_del k pending) published.
Proof.
  intros [Hn Hs]. split; [by apply od_del_NoDup|]. intros j w. destruct (decide (j = k)) as [->|Hne].
  - by rewrite od_get_del.
  - rewrite od_get_del_ne by done. apply Hs.
Qed.

Lemma staged_ok_publish pending published k v :
  staged_ok key eqb pending published -> od_get k pending = None -> staged_ok key eqb pending (od_set k v published).
Proof.
  intros [Hn Hs] Hk. split; [done|]. intros j w Hw. destruct (Hs j w Hw) as [Hkey Hx]. split; [done|].
  intros x. rewrite od_get_set_ne by congruence. apply Hx.
Qed.
End Staged.

(** ** Equality of evidence is transitive *)

Definition transitive_eqb {A} (eqb : A -> A -> bool) : Prop := forall x y z, eqb x y = true -> eqb y z = true -> eqb x z = true.

Lemma deqb_trans : transitive_eqb deqb.
Proof. intros x y z. rewrite !deqb_spec. intros -> ->. done. Qed.
Lemma string_eqb_trans : transitive_eqb String.eqb.
Proof. intros x y z. rewrite !String.eqb_eq. congruence. Qed.
Lemma Z_eqb_trans : transitive_eqb Z.eqb.
Proof. intros x y z. lia. Qed.
Lemma lineage_eqb_trans : transitive_eqb lineage_eqb.
Proof. intros x y z. unfold lineage_eqb. rewrite !bool_decide_eq_true. congruence. Qed.
Lemma opt_eqb_trans {A} (eqb : A -> A -> bool) : transitive_eqb eqb -> transitive_eqb (opt_eqb eqb).
Proof. intros Ht [x|] [y|] [z|]; cbn; eauto; done. Qed.
Lemma list_eqb_trans {A} (eqb : A -> A -> bool) : transitive_eqb eqb -> transitive_eqb (list_eqb eqb).
Proof.
  intros Ht. intros xs. induction xs as [|x xs IH]; intros [|y ys] [|z zs]; cbn; try done. rewrite !andb_true_iff. intros [] []. eauto.
Qed.

(** Field by field, with the transitivity of each field's equality. *)
#[local] Ltac fieldwise tac :=
  intros x y z; rewrite !andb_true_iff; intros; destruct_and!; split_and!;
  first [eapply deqb_trans; eassumption | eapply string_eqb_trans; eassumption | eapply Z_eqb_trans; eassumption
        |eapply lineage_eqb_trans; eassumption | eapply opt_eqb_trans; [tac|eassumption..] | eapply list_eqb_trans; [tac|eassumption..]].

Lemma evidence_eqb_trans : transitive_eqb evidence_eqb.
Proof. unfold evidence_eqb. fieldwise idtac. Qed.
Lemma disposal_allocation_eqb_trans : transitive_eqb disposal_allocation_eqb.
Proof. unfold disposal_allocation_eqb. fieldwise ltac:(apply deqb_trans || apply evidence_eqb_trans). Qed.
Lemma disposal_eqb_trans : transitive_eqb disposal_eqb.
Proof.
  unfold disposal_eqb, disposal_result_eqb.
  fieldwise ltac:(apply disposal_allocation_eqb_trans || apply string_eqb_trans || apply lineage_eqb_trans).
Qed.
Lemma transfer_allocation_eqb_trans : transitive_eqb transfer_allocation_eqb.
Proof. unfold transfer_allocation_eqb. fieldwise idtac. Qed.
Lemma transfer_eqb_trans : transitive_eqb transfer_eqb.
Proof.
  unfold transfer_eqb, transfer_result_eqb.
  fieldwise ltac:(apply transfer_allocation_eqb_trans || apply string_eqb_trans || apply lineage_eqb_trans).
Qed.

(** ** The error collector *)

Lemma add_error_keeps id reason errors id' : has_errors_for id' errors = true -> has_errors_for id' (add_error id reason errors) = true.
Proof.
  unfold has_errors_for, add_error. intros H. destruct (decide (id' = id)) as [->|Hne].
  - destruct (od_get id errors) eqn:E; [|done]. destruct (contains _ _); [by rewrite E|]. by rewrite od_get_set.
  - destruct (od_get id errors); [destruct (contains _ _)|]; by rewrite ?od_get_set_ne.
Qed.

Lemma add_error_reports id reason errors : has_errors_for id (add_error id reason errors) = true.
Proof.
  unfold has_errors_for, add_error. destruct (od_get id errors) eqn:E; [|by rewrite od_get_set].
  destruct (contains _ _); [by rewrite E|by rewrite od_get_set].
Qed.

Lemma add_error_other id reason errors id' : id' <> id -> has_errors_for id' (add_error id reason errors) = has_errors_for id' errors.
Proof. unfold has_errors_for, add_error. intros Hne. destruct (od_get id errors); [destruct (contains _ _)|]; by rewrite ?od_get_set_ne. Qed.

Section Engine.
Context {hashing : Hashing} {St : Type} `{!CostBasisStrategy St}.
#[local] Notation Engine := (LotDispositionEngine St).

Definition disposals_ok (e : Engine) : Prop := staged_ok td_disposal_transaction_id disposal_eqb (le_pending_disposals e) (le_disposals e).
Definition transfers_ok (e : Engine) : Prop := staged_ok tb_source_transaction_id transfer_eqb (le_pending_transfers e) (le_transfers e).
Definition engine_ok (e : Engine) : Prop := disposals_ok e /\ transfers_ok e.

Lemma engine_init_ok s : engine_ok (engine_init s).
Proof. split; (split; [apply NoDup_nil_2|done]). Qed.

(** What calculating the transaction [id] may do to the engine before publication. *)
Record engine_touches (id : string) (e e' : Engine) : Prop := {
  et_disposals : le_disposals e' = le_disposals e;
  et_transfers : le_transfers e' = le_transfers e;
  et_pending_disposals : forall k, k <> strip id -> od_get k (le_pending_disposals e') = od_get k (le_pending_disposals e);
  et_pending_transfers : forall k, k <> strip id -> od_get k (le_pending_transfers e') = od_get k (le_pending_transfers e);
  et_ok : engine_ok e -> engine_ok e'
}.

#[export] Instance engine_touches_preorder id : PreOrder (engine_touches id).
Proof.
  split; [by constructor|]. intros e1 e2 e3 [A1 A2 A3 A4 A5] [B1 B2 B3 B4 B5]. constructor; [congruence..|intros k Hk|intros k Hk|auto].
  - by rewrite B3, A3.
  - by rewrite B4, A4.
Qed.

Lemma on_strategy_touches {A} id (m : st St A) : respects (engine_touches id) (on_strategy m).
Proof. intros e r e'. unfold on_strategy. destruct (m _) as [r0 s]. intros [= <- <-]. by constructor. Qed.

Lemma existing_record_agrees {V} id (pending published : list (string * V)) eqb v key :
  staged_ok key eqb pending published ->
  match existing_record id pending published with Some x => negb (eqb x v) | None => false end = false ->
  transitive_eqb eqb ->
  forall x, od_get id published = Some x -> eqb x v = true.
Proof.
  unfold existing_record. intros [_ Hs] Hc Ht x Hx. destruct (od_get id pending) as [y|] eqn:E.
  - apply negb_false_iff in Hc. destruct (Hs _ _ E) as [_ Hy]. eauto.
  - rewrite Hx in Hc. by apply negb_false_iff in Hc.
Qed.

Lemma make_disposal_id id r d : make_TransactionLotDisposal id r = Ok d -> td_disposal_transaction_id d = strip id.
Proof. unfold make_TransactionLotDisposal. intros Hd. apply bind_Ok in Hd as (x & [-> _]%require_nonblank_Ok & Hd). by inv_ok. Qed.
Lemma make_transfer_id id target lot r b : make_TransactionLotBasisTransfer id target lot r = Ok b -> tb_source_transaction_id b = strip id.
Proof. unfold make_TransactionLotBasisTransfer. intros Hd. apply bind_Ok in Hd as (x & [-> _]%require_nonblank_Ok & Hd). by inv_ok. Qed.

Lemma stage_disposal_touches id d : td_disposal_transaction_id d = strip id -> respects (engine_touches id) (stage_disposal d).
Proof.
  intros Hd e r e'. unfold stage_disposal. rewrite st_get_run. unfold mbind, st_bind, st_lift, raise_if.
  destruct (match existing_record _ _ _ with Some x => _ | None => _ end) eqn:E; intros [= <- <-]; [done|].
  constructor; cbn; try done.
  - intros k Hk. by rewrite od_get_set_ne by congruence.
  - intros [Hdis Htr]. split; [|done]. apply staged_ok_set; [done|]. eapply existing_record_agrees; [done..|apply disposal_eqb_trans].
Qed.

Lemma stage_transfer_touches id b : tb_source_transaction_id b = strip id -> respects (engine_touches id) (stage_basis_transfer b).
Proof.
  intros Hd e r e'. unfold stage_basis_transfer. rewrite st_get_run. unfold mbind, st_bind, st_lift, raise_if.
  destruct (match existing_record _ _ _ with Some x => _ | None => _ end) eqn:E; intros [= <- <-]; [done|].
  constructor; cbn; try done.
  - intros k Hk. by rewrite od_get_set_ne by congruence.
  - intros [Hdis Htr]. split; [done|]. apply staged_ok_set; [done|]. eapply existing_record_agrees; [done..|apply transfer_eqb_trans].
Qed.

#[local] Hint Resolve on_strategy_touches stage_disposal_touches stage_transfer_touches make_disposal_id make_transfer_id : frame.

Lemma consume_touches t : respects (engine_touches (ct_transaction_id t)) (engine_consume_sell_quantity_with_allocations t).
Proof. unfold engine_consume_sell_quantity_with_allocations. frame. Qed.
#[local] Hint Resolve consume_touches : frame.
Lemma consume_sell_touches t : respects (engine_touches (ct_transaction_id t)) (engine_consume_sell_quantity t).
Proof. unfold engine_consume_sell_quantity. frame. Qed.
Lemma transfer_touches t base local : respects (engine_touches (ct_transaction_id t)) (engine_transfer_basis_out t base local).
Proof. unfold engine_transfer_basis_out. frame. Qed.
Lemma add_buy_lot_touches id t : respects (engine_touches id) (engine_add_buy_lot t).
Proof. unfold engine_add_buy_lot. frame. Qed.
Lemma restate_touches id t delta : respects (engine_touches id) (engine_restate_lot_quantities t delta).
Proof. apply on_strategy_touches. Qed.

(** *** Publication *)

(** What one of the two dictionaries of staged evidence goes through when [id] is closed. *)
Definition closed {V} (id : string) (pending pending' published published' : list (string * V)) (commit : bool) : Prop :=
  od_get id pending' = None /\
  (forall k, k <> id -> od_get k pending' = od_get k pending) /\
  (forall k, k <> id -> od_get k published' = od_get k published) /\
  od_get id published' = match commit, od_get id pending with true, Some v => Some v | _, _ => od_get id published end.

Definition closes (id : string) (commit : bool) (e e' : Engine) : Prop :=
  engine_ok e' /\
  closed id (le_pending_disposals e) (le_pending_disposals e') (le_disposals e) (le_disposals e') commit /\
  closed id (le_pending_transfers e) (le_pending_transfers e') (le_transfers e) (le_transfers e') commit.

Lemma closed_discard {V} id (pending published : list (string * V)) :
  NoDup pending.*1 -> closed id pending (od_del id pending) published published false.
Proof. intros Hn. split_and!; [by apply od_get_del| |done|done]. intros k Hk. by apply od_get_del_ne. Qed.

Lemma closed_commit_none {V} id (pending published : list (string * V)) :
  NoDup pending.*1 -> od_get id pending = None -> closed id pending (od_del id pending) published published true.
Proof. intros Hn Hp. split_and!; [by apply od_get_del| |done|by rewrite Hp]. intros k Hk. by apply od_get_del_ne. Qed.

Lemma closed_commit_some {V} id (pending published : list (string * V)) v :
  NoDup pending.*1 -> od_get id pending = Some v -> closed id pending (od_del id pending) published (od_set id v published) true.
Proof.
  intros Hn Hp. split_and!; [by apply od_get_del| | |by rewrite Hp, od_get_set]; intros k Hk; [by apply od_get_del_ne|by apply od_get_set_ne].
Qed.

Lemma discard_closes id (e : Engine) : engine_ok e -> truthy (strip id) = true ->
  exists e', discard_pending_disposal id e = (Ok tt, e') /\ closes (strip id) false e e'.
Proof.
  intros [Hd Ht] Hid. unfold discard_pending_disposal, normalized_transaction_id. rewrite Hid. eexists. split; [reflexivity|].
  split_and!; cbn; [split; by apply staged_ok_del|apply closed_discard, Hd|apply closed_discard, Ht].
Qed.

Lemma discard_blank id (e : Engine) : truthy (strip id) = false -> discard_pending_disposal id e = (Raise (ValueError "transaction_id must be nonblank"), e).
Proof. intros Hid. unfold discard_pending_disposal, normalized_transaction_id. by rewrite Hid. Qed.

(** Publishing the staged disposal, if there is one, cannot conflict. *)
Lemma publish_disposal id (e : Engine) : engine_ok e ->
  let e1 := set_pending_disposals (od_del id (le_pending_disposals e)) e in
  exists e', match od_get id (le_pending_disposals e) with Some d => record_disposal d | None => mret tt end e1 = (Ok tt, e') /\
    engine_ok e' /\ le_pending_transfers e' = le_pending_transfers e /\ le_transfers e' = le_transfers e /\
    closed id (le_pending_disposals e) (le_pending_disposals e') (le_disposals e) (le_disposals e') true.
Proof.
  intros [Hd Ht] e1. destruct (od_get id (le_pending_disposals e)) as [d|] eqn:E.
  - destruct Hd as [Hn Hs]. destruct (Hs _ _ E) as [Hk Hx]. unfold record_disposal. rewrite st_get_run, Hk. cbn [le_disposals e1 set_pending_disposals].
    rewrite (st_lift_run _ _ _ tt); [|apply raise_if_Ok; destruct (od_get id (le_disposals e)) as [x|] eqn:Ex; [by rewrite Hx|done]].
    eexists. split; [reflexivity|]. split_and!; try done; [|by apply closed_commit_some].
    split; [|done]. apply staged_ok_publish; [by apply staged_ok_del|by apply od_get_del].
  - eexists. split; [reflexivity|]. split_and!; try done; [split; [by apply staged_ok_del|done]|apply closed_commit_none; [apply Hd|done]].
Qed.

Lemma publish_transfer id (e : Engine) : engine_ok e ->
  let e1 := set_pending_transfers (od_del id (le_pending_transfers e)) e in
  exists e', match od_get id (le_pending_transfers e) with Some b => record_basis_transfer b | None => mret tt end e1 = (Ok tt, e') /\
    engine_ok e' /\ le_pending_disposals e' = le_pending_disposals e /\ le_disposals e' = le_disposals e /\
    closed id (le_pending_transfers e) (le_pending_transfers e') (le_transfers e) (le_transfers e') true.
Proof.
  intros [Hd Ht] e1. destruct (od_get id (le_pending_transfers e)) as [d|] eqn:E.
  - destruct Ht as [Hn Hs]. destruct (Hs _ _ E) as [Hk Hx]. unfold record_basis_transfer. rewrite st_get_run, Hk. cbn [le_transfers e1 set_pending_transfers].
    rewrite (st_lift_run _ _ _ tt); [|apply raise_if_Ok; destruct (od_get id (le_transfers e)) as [x|] eqn:Ex; [by rewrite Hx|done]].
    eexists. split; [reflexivity|]. split_and!; try done; [|by apply closed_commit_some].
    split; [done|]. apply staged_ok_publish; [by apply staged_ok_del|by apply od_get_del].
  - eexists. split; [reflexivity|]. split_and!; try done; [split; [done|by apply staged_ok_del]|apply closed_commit_none; [apply Ht|done]].
Qed.

Lemma commit_closes id (e : Engine) : engine_ok e -> truthy (strip id) = true ->
  exists e', commit_disposal_record id e = (Ok tt, e') /\ closes (strip id) true e e'.
Proof.
  intros He Hid. unfold commit_disposal_record, normalized_transaction_id, pop_pending_disposal, pop_pending_transfer. rewrite Hid.
  destruct (publish_disposal (strip id) e He) as (e1 & E1 & He1 & Hp & Ht & Hc).
  destruct (publish_transfer (strip id) e1 He1) as (e2 & E2 & He2 & Hp2 & Hd2 & Hc2).
  exists e2. split.
  - unfold mbind, st_bind, st_get, st_modify, st_lift, mret, st_ret in *. cbn [raise_if negb] in *. cbn in *. rewrite E1. by rewrite E2.
  - split_and!; [done|by rewrite Hp2, Hd2|by rewrite <- Hp, <- Ht].
Qed.
End Engine.

(** ** Frames of the calculator *)

Section Frames.
Context {hashing : Hashing} {St : Type} `{!CostBasisStrategy St}.
#[local] Notation M := (st (Calc St)).

Definition calc_id (s : Calc St) : string := ct_transaction_id (cs_transaction s).

(** What a calculation of the transaction [id] may do before its evidence is published. *)
Definition touches (id : string) (s s' : Calc St) : Prop :=
  calc_id s = id ->
  calc_id s' = id /\ engine_touches id (cs_engine s) (cs_engine s') /\
  (has_errors_for id (cs_errors s) = true -> has_errors_for id (cs_errors s') = true) /\
  forall k, k <> id -> has_errors_for k (cs_errors s') = has_errors_for k (cs_errors s).

#[export] Instance touches_preorder id : PreOrder (touches id).
Proof.
  split; [by intros s ?|]. intros s1 s2 s3 H1 H2 E1. destruct (H1 E1) as (E2 & T2 & R2 & O2). destruct (H2 E2) as (E3 & T3 & R3 & O3).
  split_and!; [done|by etrans|auto|]. intros k Hk. by rewrite O3, O2.
Qed.

Lemma respects_txn {A} id (f : CostBasisTransaction -> M A) :
  (forall t, ct_transaction_id t = id -> respects (touches id) (f t)) -> respects (touches id) (txn ≫= f).
Proof.
  intros Hf s r s' Hr Hid. unfold mbind, st_bind, txn in Hr. eapply Hf; done.
Qed.

Lemma respects_assign id f : (forall t, ct_transaction_id (f t) = ct_transaction_id t) -> respects (touches id) (assign_txn f).
Proof. intros Hf. apply respects_modify. intros s Hs. unfold calc_id in *. cbn. by rewrite Hf. Qed.

Lemma respects_on_engine {A} id (m : st (LotDispositionEngine St) A) : respects (engine_touches id) m -> respects (touches id) (on_engine m).
Proof. intros Hm s r s'. unfold on_engine. destruct (m _) as [r0 e] eqn:E. intros [= <- <-] Hs. split_and!; try done. by eapply Hm. Qed.

Lemma respects_report id reason : respects (touches id) (report reason).
Proof.
  apply respects_modify. intros s Hs. unfold calc_id in *. cbn. rewrite Hs. split_and!; try done; [intros; by apply add_error_keeps|].
  intros k Hk. by apply add_error_other.
Qed.

Lemma set_calculated_field_id name v t : ct_transaction_id (set_calculated_field name v t) = ct_transaction_id t.
Proof. unfold set_calculated_field, set_declared. by repeat case_match. Qed.

Lemma respects_set_fields id es : respects (touches id) (set_fields es).
Proof.
  apply respects_assign. induction es as [|e es IH]; intros t; [done|]. cbn [fold_left]. by rewrite IH, set_calculated_field_id.
Qed.

Lemma on_engine_consume id t : ct_transaction_id t = id -> respects (touches id) (on_engine (engine_consume_sell_quantity t)).
Proof. intros <-. apply respects_on_engine, consume_sell_touches. Qed.
Lemma on_engine_transfer id t base local : ct_transaction_id t = id -> respects (touches id) (on_engine (engine_transfer_basis_out t base local)).
Proof. intros <-. apply respects_on_engine, transfer_touches. Qed.
Lemma on_engine_buy id t : respects (touches id) (on_engine (engine_add_buy_lot t)).
Proof. apply respects_on_engine, add_buy_lot_touches. Qed.
Lemma on_engine_restate id t delta : respects (touches id) (on_engine (engine_restate_lot_quantities t delta)).
Proof. apply respects_on_engine, restate_touches. Qed.
#[local] Hint Resolve respects_report respects_set_fields on_engine_consume on_engine_transfer on_engine_buy on_engine_restate : frame.

#[local] Hint Extern 1 (respects _ (assign_txn _)) => apply respects_assign; done : frame.
#[local] Ltac walk := frame_with ltac:(idtac; lazymatch goal with |- respects _ (txn ≫= _) => apply respects_txn; intros ? ? end).

Lemma reject_touches id reason : respects (touches id) (reject reason).
Proof. unfold reject. walk. Qed.
#[local] Hint Resolve reject_touches : frame.
Lemma reject_with_touches id add message : respects (touches id) (reject_with add message).
Proof. unfold reject_with. walk. Qed.
#[local] Hint Resolve reject_with_touches : frame.
(** Guards and assignments. *)
Lemma apply_zero_cost_fields_touches id : respects (touches id) apply_zero_cost_fields.
Proof. unfold apply_zero_cost_fields. walk. Qed.
Lemma apply_zero_realized_pnl_touches id : respects (touches id) apply_zero_realized_pnl.
Proof. unfold apply_zero_realized_pnl. walk. Qed.
Lemma apply_no_realized_pnl_touches id : respects (touches id) apply_no_realized_pnl.
Proof. unfold apply_no_realized_pnl. walk. Qed.
Lemma validate_zero_quantity_and_price_touches id label add : respects (touches id) (validate_zero_quantity_and_price label add).
Proof. unfold validate_zero_quantity_and_price. walk. Qed.
Lemma validate_zero_cost_and_realized_pnl_touches id label add : respects (touches id) (validate_zero_cost_and_realized_pnl label add).
Proof. unfold validate_zero_cost_and_realized_pnl. walk. Qed.
Lemma validate_disposal_availability_touches id add : respects (touches id) (validate_disposal_availability add).
Proof. unfold validate_disposal_availability. walk. Qed.
Lemma consume_disposal_cost_basis_touches id add : respects (touches id) (consume_disposal_cost_basis add).
Proof. unfold consume_disposal_cost_basis. walk. Qed.
Lemma record_buy_lot_touches id : respects (touches id) record_buy_lot.
Proof. unfold record_buy_lot. walk. Qed.
Lemma validate_non_negative_buy_costs_touches id : respects (touches id) validate_non_negative_buy_costs.
Proof. unfold validate_non_negative_buy_costs. walk. Qed.
Lemma validate_sell_quantity_and_proceeds_touches id a b : respects (touches id) (validate_sell_quantity_and_proceeds a b).
Proof. unfold validate_sell_quantity_and_proceeds. walk. Qed.
Lemma apply_sell_disposal_fields_touches id a b c d : respects (touches id) (apply_sell_disposal_fields a b c d).
Proof. unfold apply_sell_disposal_fields. walk. Qed.
Lemma validate_sell_disposal_fields_touches id : respects (touches id) validate_sell_disposal_fields.
Proof. unfold validate_sell_disposal_fields. walk. Qed.
Lemma redemption_economics_touches id a b c : respects (touches id) (redemption_economics a b c).
Proof. unfold redemption_economics. walk. Qed.
Lemma apply_corporate_action_cash_economics_touches id e : respects (touches id) (apply_corporate_action_cash_economics e).
Proof. unfold apply_corporate_action_cash_economics. walk. Qed.
Lemma cash_economics_touches id add : respects (touches id) (cash_economics add).
Proof. unfold cash_economics. walk. Qed.
Lemma resolve_interest_direction_touches id : respects (touches id) resolve_interest_direction.
Proof. unfold resolve_interest_direction. walk. Qed.
Lemma validate_canonical_fx_transaction_touches id : respects (touches id) validate_canonical_fx_transaction.
Proof. unfold validate_canonical_fx_transaction. walk. Qed.
#[local] Hint Resolve apply_zero_cost_fields_touches apply_zero_realized_pnl_touches apply_no_realized_pnl_touches
  validate_zero_quantity_and_price_touches validate_zero_cost_and_realized_pnl_touches
  validate_disposal_availability_touches consume_disposal_cost_basis_touches record_buy_lot_touches
  validate_non_negative_buy_costs_touches validate_sell_quantity_and_proceeds_touches
  apply_sell_disposal_fields_touches validate_sell_disposal_fields_touches redemption_economics_touches
  apply_corporate_action_cash_economics_touches cash_economics_touches resolve_interest_direction_touches
  validate_canonical_fx_transaction_touches : frame.

(** Parts of strategies. *)
Lemma apply_buy_cost_fields_touches id : respects (touches id) apply_buy_cost_fields.
Proof. unfold apply_buy_cost_fields. walk. Qed.
Lemma validate_buy_cost_fields_touches id : respects (touches id) validate_buy_cost_fields.
Proof. unfold validate_buy_cost_fields. walk. Qed.
Lemma SecurityOutflowStrategy_touches id : respects (touches id) SecurityOutflowStrategy.
Proof. unfold SecurityOutflowStrategy. walk. Qed.
#[local] Hint Resolve apply_buy_cost_fields_touches validate_buy_cost_fields_touches SecurityOutflowStrategy_touches : frame.

(** Strategies. *)
Lemma BuyStrategy_touches id : respects (touches id) BuyStrategy.
Proof. unfold BuyStrategy. walk. Qed.
Lemma SellStrategy_touches id : respects (touches id) SellStrategy.
Proof. unfold SellStrategy. walk. Qed.
Lemma RedemptionStrategy_touches id : respects (touches id) RedemptionStrategy.
Proof. unfold RedemptionStrategy. walk. Qed.
Lemma CashInflowStrategy_touches id : respects (touches id) CashInflowStrategy.
Proof. unfold CashInflowStrategy. walk. Qed.
Lemma CashOutflowStrategy_touches id : respects (touches id) CashOutflowStrategy.
Proof. unfold CashOutflowStrategy. walk. Qed.
Lemma AdjustmentStrategy_touches id : respects (touches id) AdjustmentStrategy.
Proof. unfold AdjustmentStrategy. walk. Qed.
Lemma SecurityInflowStrategy_touches id : respects (touches id) SecurityInflowStrategy.
Proof. unfold SecurityInflowStrategy. walk. Qed.
Lemma PartialTransferOutStrategy_touches id : respects (touches id) PartialTransferOutStrategy.
Proof. unfold PartialTransferOutStrategy. walk. Qed.
Lemma IncomeStrategy_touches id : respects (touches id) IncomeStrategy.
Proof. unfold IncomeStrategy. walk. Qed.
Lemma CashConsiderationStrategy_touches id : respects (touches id) CashConsiderationStrategy.
Proof. unfold CashConsiderationStrategy. walk. Qed.
Lemma CashInLieuStrategy_touches id : respects (touches id) CashInLieuStrategy.
Proof. unfold CashInLieuStrategy. walk. Qed.
Lemma QuantityRestatementStrategy_touches id : respects (touches id) QuantityRestatementStrategy.
Proof. unfold QuantityRestatementStrategy. walk. Qed.
Lemma DividendStrategy_touches id : respects (touches id) DividendStrategy.
Proof. unfold DividendStrategy. walk. Qed.
Lemma InterestStrategy_touches id : respects (touches id) InterestStrategy.
Proof. unfold InterestStrategy. walk. Qed.
Lemma DefaultStrategy_touches id : respects (touches id) DefaultStrategy.
Proof. unfold DefaultStrategy. walk. Qed.
Lemma FxBaselineStrategy_touches id : respects (touches id) FxBaselineStrategy.
Proof. unfold FxBaselineStrategy. walk. Qed.
#[local] Hint Resolve BuyStrategy_touches SellStrategy_touches RedemptionStrategy_touches CashInflowStrategy_touches
  CashOutflowStrategy_touches AdjustmentStrategy_touches SecurityInflowStrategy_touches
  PartialTransferOutStrategy_touches IncomeStrategy_touches CashConsiderationStrategy_touches
  CashInLieuStrategy_touches QuantityRestatementStrategy_touches DividendStrategy_touches InterestStrategy_touches
  DefaultStrategy_touches FxBaselineStrategy_touches : frame.

Lemma strategies_touch id name m : od_get name strategies = Some m -> respects (touches id) m.
Proof.
  intros H%od_get_elem. apply (list_elem_of_fmap_2 snd) in H. revert H. unfold strategies. cbn [fmap list_fmap snd].
  rewrite !elem_of_cons. intros H. repeat destruct H as [->|H]; eauto with frame. by apply elem_of_nil in H.
Qed.

Lemma normalize_cash_touches id : respects (touches id) normalize_cash_movement_inputs.
Proof. unfold normalize_cash_movement_inputs. walk. Qed.
Lemma validate_currency_touches id : respects (touches id) validate_transaction_currency_context.
Proof.
  unfold validate_transaction_currency_context, normalize_transaction_currencies, normalize_existing_transaction_fx_rate,
    validate_normalized_transaction_fx. walk.
Qed.

(** The strategy of a transaction, and that finding it touches nothing but the errors. *)
Lemma resolve_strategy_inv name t s r s' :
  resolve_strategy name t s = (r, s') ->
  touches (calc_id s) s s' /\ cs_engine s' = cs_engine s /\ cs_transaction s' = cs_transaction s /\
  exists o, r = Ok o /\ forall m, o = Some m -> s' = s /\ forall id, respects (touches id) m.
Proof.
  assert (respects (touches (calc_id s)) (resolve_strategy name t)) as Hw by (unfold resolve_strategy; walk).
  intros Hr. split; [by eapply Hw|]. revert Hr. clear Hw. unfold resolve_strategy, report.
  destruct (negb _); [intros [= <- <-]; naive_solver|].
  destruct (_ && _); [intros [= <- <-]; naive_solver eauto with frame|].
  destruct (_ && _); [intros [= <- <-]; naive_solver eauto with frame|].
  destruct (od_get name strategies) as [m|] eqn:E; [|intros [= <- <-]; naive_solver].
  intros [= <- <-]. split_and!; [done..|]. eexists. split; [done|]. intros ? [= <-]. split; [done|]. intros id. by eapply strategies_touch.
Qed.
End Frames.

(** ** The seal of a calculation *)

Section Seal.
Context {hashing : Hashing} {St : Type} `{!CostBasisStrategy St}.
#[local] Notation M := (st (Calc St)).

Lemma attribute_set_lineage v t name :
  name <> "calculation_lineage" -> attribute (set_calculated_field "calculation_lineage" v t) name = attribute t name.
Proof.
  intros Hne. unfold set_calculated_field. change (set_declared "calculation_lineage" v t) with t.
  unfold attribute. change (declared_fields (set_extra_fields _ t)) with (declared_fields t). cbn [ct_extra_fields set_extra_fields].
  by rewrite od_get_set_ne.
Qed.

Lemma attr_own_lineage v t : attr (set_calculated_field "calculation_lineage" v t) "calculation_lineage" = v.
Proof.
  unfold set_calculated_field. change (set_declared "calculation_lineage" v t) with t. unfold attr, attribute.
  change (od_get "calculation_lineage" (declared_fields _)) with (@None payload). cbn [ct_extra_fields set_extra_fields].
  by rewrite od_get_set.
Qed.

Lemma output_set_lineage v t :
  transaction_cost_output_payload (set_calculated_field "calculation_lineage" v t) = transaction_cost_output_payload t.
Proof.
  unfold transaction_cost_output_payload, optional_transaction_decimal, attr. rewrite !attribute_set_lineage by done. reflexivity.
Qed.

(** The transaction carries a receipt of this algorithm for [input] that binds its own outputs. *)
Definition sealed (input : list (string * payload)) (t : CostBasisTransaction) : Prop :=
  exists l canonical_input output canonical_output np,
    attr t "calculation_lineage" = cl_lineage_payload l /\
    canonical_cost_basis_output_payload input = Ok canonical_input /\
    transaction_cost_output_payload t = Ok output /\ canonical_cost_basis_output_payload output = Ok canonical_output /\
    lineage_identity TRANSACTION_COST_LEDGER_OUTPUT_V1 = Ok np /\
    cl_algorithm_id l = TRANSACTION_COST_CALCULATION_ALGORITHM_ID /\
    cl_algorithm_version l = TRANSACTION_COST_CALCULATION_ALGORITHM_VERSION /\
    cl_numeric_output_policy l = Some np /\
    canonical_content_hash canonical_input = Ok (cl_input_content_hash l) /\
    calculation_lineage_binds_output l canonical_output = Ok true.

Lemma lineage_seals input t l :
  transaction_lineage input t = Ok l -> sealed input (set_calculated_field "calculation_lineage" (cl_lineage_payload l) t).
Proof.
  unfold transaction_lineage. intros H. apply bind_Ok in H as (ci & Hci & H). apply bind_Ok in H as (o & Ho & H).
  apply bind_Ok in H as (co & Hco & H). apply bind_Ok in H as (np & Hnp & H).
  destruct (build_calculation_lineage_inv _ _ _ _ _ _ _ H) as (ih & ch & oh & Hi & _ & _ & ->).
  eexists _, ci, o, co, np. rewrite output_set_lineage, attr_own_lineage. split_and!; try done. by eapply lineage_binds_own.
Qed.

(** ** Publication follows the outcome *)

Definition published_unchanged (id : string) (e e' : LotDispositionEngine St) : Prop :=
  od_get id (le_disposals e') = od_get id (le_disposals e) /\ od_get id (le_transfers e') = od_get id (le_transfers e).

Definition nothing_staged (id : string) (e : LotDispositionEngine St) : Prop :=
  od_get id (le_pending_disposals e) = None /\ od_get id (le_pending_transfers e) = None.

(** The records of every other transaction. *)
Definition others_unchanged (id : string) (e e' : LotDispositionEngine St) : Prop :=
  forall k, k <> id ->
    od_get k (le_disposals e') = od_get k (le_disposals e) /\ od_get k (le_transfers e') = od_get k (le_transfers e) /\
    od_get k (le_pending_disposals e') = od_get k (le_pending_disposals e) /\
    od_get k (le_pending_transfers e') = od_get k (le_pending_transfers e).

(** What the calculation of [id] does to the rest of the state, whatever its outcome. *)
Record framed (id : string) (s s' : Calc St) : Prop := {
  fr_id : calc_id s' = id;
  fr_ok : engine_ok (cs_engine s');
  fr_others : others_unchanged (strip id) (cs_engine s) (cs_engine s');
  fr_errors : has_errors_for id (cs_errors s) = true -> has_errors_for id (cs_errors s') = true;
  fr_other_errors : forall k, k <> id -> has_errors_for k (cs_errors s') = has_errors_for k (cs_errors s)
}.

Lemma framed_trans id s1 s2 s3 : framed id s1 s2 -> framed id s2 s3 -> framed id s1 s3.
Proof.
  intros [] []. constructor; auto; [|intros k Hk; etrans; eauto].
  intros k Hk. destruct (fr_others0 k Hk) as (?&?&?&?), (fr_others1 k Hk) as (?&?&?&?). split_and!; congruence.
Qed.

Lemma touches_framed id s s' : touches id s s' -> calc_id s = id -> engine_ok (cs_engine s) ->
  framed id s s' /\ forall k, published_unchanged k (cs_engine s) (cs_engine s').
Proof.
  intros Ht Hid He. destruct (Ht Hid) as (Hid' & [] & Hr & Ho). unfold published_unchanged. split; [|intros; split; congruence].
  constructor; auto. intros k Hk. split_and!; try congruence; auto.
Qed.

Lemma closes_framed id b s e' : calc_id s = id -> closes (strip id) b (cs_engine s) e' ->
  let s' := {| cs_transaction := cs_transaction s; cs_engine := e'; cs_errors := cs_errors s |} in
  framed id s s' /\ nothing_staged (strip id) e'.
Proof.
  intros Hid (He & (D1 & D2 & D3 & D4) & (T1 & T2 & T3 & T4)) s'. split; [|by split].
  constructor; try done. intros k Hk. cbn. rewrite D2, D3, T2, T3 by done. done.
Qed.

Lemma run_strategy_outcome id strategy input s r s' :
  respects (touches id) strategy -> calc_id s = id -> engine_ok (cs_engine s) -> truthy (strip id) = true ->
  run_strategy strategy input id s = (r, s') ->
  framed id s s' /\
  (published_unchanged (strip id) (cs_engine s) (cs_engine s') /\ (r = Ok tt -> has_errors_for id (cs_errors s') = true) \/
   r = Ok tt /\ has_errors_for id (cs_errors s') = false /\ sealed input (cs_transaction s')).
Proof.
  intros Hst Hid He Hnb. unfold run_strategy, mbind at 1, st_bind at 1.
  destruct (strategy s) as [o s1] eqn:E1. destruct (touches_framed id s s1) as [F1 P1]; [by eapply Hst|done..|].
  destruct o as [[]|e]; [|intros [= <- <-]; split; [done|]; left; split; [apply P1|done]].
  rewrite st_get_run. destruct (has_errors_for id (cs_errors s1)) eqn:Herr.
  { intros [= <- <-]. split; [done|]. left. split; [apply P1|done]. }
  unfold txn, set_fields, assign_txn. unfold mbind at 1, st_bind at 1. unfold mbind at 1, st_bind at 1, st_lift.
  destruct (transaction_lineage input (cs_transaction s1)) as [l|e] eqn:El; [|intros [= <- <-]; split; [done|]; left; split; [apply P1|done]].
  rewrite st_modify_run. cbn [fold_left fst snd]. set (s2 := {| cs_engine := cs_engine s1 |}). unfold on_engine.
  change (cs_engine s2) with (cs_engine s1).
  destruct (commit_closes id (cs_engine s1)) as (e' & -> & Hc); [apply F1|done|].
  intros [= <- <-]. destruct (closes_framed id true s2 e') as [F2 _]; [etrans; [apply set_calculated_field_id|apply F1]|done|].
  split.
  - eapply framed_trans; [exact F1|]. destruct F1, F2. by constructor.
  - right. split_and!; [done..|]. by apply lineage_seals.
Qed.

(** *** The checks before a strategy runs *)

(** They change the transaction and the errors only. *)
Definition quiet (id : string) (s s' : Calc St) : Prop :=
  calc_id s = id ->
  calc_id s' = id /\ cs_engine s' = cs_engine s /\
  (has_errors_for id (cs_errors s) = true -> has_errors_for id (cs_errors s') = true) /\
  forall k, k <> id -> has_errors_for k (cs_errors s') = has_errors_for k (cs_errors s).

#[export] Instance quiet_preorder id : PreOrder (quiet id).
Proof.
  split; [by intros s ?|]. intros s1 s2 s3 H1 H2 E1. destruct (H1 E1) as (E2 & T2 & R2 & O2). destruct (H2 E2) as (E3 & T3 & R3 & O3).
  split_and!; [done|congruence|auto|]. intros k Hk. by rewrite O3, O2.
Qed.

Lemma quiet_txn id : respects (quiet id) (@txn St).
Proof. by intros s r s' [= <- <-]. Qed.
Lemma quiet_assign id f : (forall t, ct_transaction_id (f t) = ct_transaction_id t) -> respects (quiet id) (@assign_txn St f).
Proof. intros Hf. apply respects_modify. intros s Hs. unfold calc_id in *. cbn. by rewrite Hf. Qed.
Lemma quiet_report id reason : respects (quiet id) (@report St reason).
Proof.
  apply respects_modify. intros s Hs. unfold calc_id in *. cbn. rewrite Hs. split_and!; try done; [intros; by apply add_error_keeps|].
  intros k Hk. by apply add_error_other.
Qed.
#[local] Hint Resolve quiet_txn quiet_report : frame.
#[local] Hint Extern 1 (respects (quiet _) (assign_txn _)) => apply quiet_assign; done : frame.

Lemma quiet_cash id : respects (quiet id) (@normalize_cash_movement_inputs St).
Proof. unfold normalize_cash_movement_inputs. frame. Qed.
Lemma quiet_currency id : respects (quiet id) (@validate_transaction_currency_context St).
Proof.
  unfold validate_transaction_currency_context, normalize_transaction_currencies, normalize_existing_transaction_fx_rate,
    validate_normalized_transaction_fx, reject. frame.
Qed.

(** A check that stops the calculation has reported an error. *)
Definition rejects (id : string) (m : M bool) : Prop :=
  forall s s', calc_id s = id -> m s = (Ok false, s') -> has_errors_for id (cs_errors s') = true.

Lemma rejects_currency id : rejects id validate_transaction_currency_context.
Proof.
  intros s s' <-. unfold calc_id, validate_transaction_currency_context, normalize_transaction_currencies, normalize_existing_transaction_fx_rate,
    validate_normalized_transaction_fx, reject, report, assign_txn, txn, st_modify, mbind, st_bind, mret, st_ret. cbn [cs_transaction cs_errors cs_engine].
  intros Hr. repeat (case_match; simplify_eq/=; try apply add_error_reports).
Qed.

(** *** The outcome of a calculation *)

(** Either nothing is published, and an orderly return has reported an error; or the calculation
    returned without error and the transaction is sealed. *)
Definition concluded (id : string) (s : Calc St) (r : result unit) (s' : Calc St) : Prop :=
  framed id s s' /\ (nothing_staged (strip id) (cs_engine s) -> nothing_staged (strip id) (cs_engine s')) /\
  (published_unchanged (strip id) (cs_engine s) (cs_engine s') /\ (r = Ok tt -> has_errors_for id (cs_errors s') = true) \/
   r = Ok tt /\ has_errors_for id (cs_errors s') = false /\
   exists t, ct_transaction_id t = id /\ sealed (transaction_cost_input t) (cs_transaction s')).

Definition outcome (id : string) (m : M unit) : Prop := forall s r s',
  calc_id s = id -> engine_ok (cs_engine s) -> m s = (r, s') -> concluded id s r s'.

Lemma quiet_framed id s s' : quiet id s s' -> calc_id s = id -> engine_ok (cs_engine s) -> framed id s s' /\ cs_engine s' = cs_engine s.
Proof.
  intros Hq Hid He. destruct (Hq Hid) as (Hid' & Eq & Hr & Ho). split; [|done]. constructor; try done; rewrite Eq; [done|]. by intros k Hk.
Qed.

(** A quiet step at the end. *)
Lemma concluded_quiet id s r s' : quiet id s s' -> calc_id s = id -> engine_ok (cs_engine s) ->
  (r = Ok tt -> has_errors_for id (cs_errors s') = true) -> concluded id s r s'.
Proof.
  intros Hq Hid He Hr. destruct (quiet_framed id s s') as [F Eq]; [done..|]. unfold concluded, nothing_staged, published_unchanged.
  rewrite Eq. split_and!; [done..|]. by left.
Qed.

(** A quiet step before. *)
Lemma outcome_after id m s0 s r s' : quiet id s0 s -> outcome id m -> calc_id s0 = id -> engine_ok (cs_engine s0) -> m s = (r, s') ->
  concluded id s0 r s'.
Proof.
  intros Hq Hm Hid He Hr. destruct (quiet_framed id s0 s) as [F Eq]; [done..|]. unfold concluded. rewrite <- Eq in *.
  destruct (Hm s r s') as (F' & Hrest); [apply F|done|done|]. split; [by eapply framed_trans|done].
Qed.

Lemma outcome_bind {A} id (m : M A) f : respects (quiet id) m -> (forall a, outcome id (f a)) -> outcome id (m ≫= f).
Proof.
  intros Hm Hf s r s' Hid He. unfold mbind, st_bind. destruct (m s) as [[a|e] s1] eqn:E; intros Hr.
  - eapply outcome_after; [by eapply Hm|apply Hf|done..].
  - injection Hr as <- <-. apply concluded_quiet; [by eapply Hm|done..].
Qed.

Lemma outcome_guard id m k : respects (quiet id) m -> rejects id m -> outcome id k -> outcome id (m ≫= fun ok : bool => if ok then k else mret tt).
Proof.
  intros Hm Hj Hk s r s' Hid He. unfold mbind, st_bind. destruct (m s) as [[[]|e] s1] eqn:E; intros Hr.
  - eapply outcome_after; [by eapply Hm|done..].
  - injection Hr as <- <-. apply concluded_quiet; [by eapply Hm|done..|]. intros _. by eapply Hj.
  - injection Hr as <- <-. apply concluded_quiet; [by eapply Hm|done..].
Qed.

Lemma outcome_report id reason : outcome id (report reason).
Proof.
  intros s r s' Hid He Hr. apply concluded_quiet; [by eapply quiet_report|done..|]. intros _. injection Hr as <- <-.
  unfold calc_id in Hid. cbn. rewrite Hid. apply add_error_reports.
Qed.

Lemma outcome_txn id f : (forall t, ct_transaction_id t = id -> outcome id (f t)) -> outcome id (txn ≫= f).
Proof. intros Hf s r s' Hid He Hr. unfold mbind, st_bind, txn in Hr. eapply Hf; [exact Hid|done..]. Qed.

(** The part of the calculation that runs a strategy. *)
Lemma outcome_run id strategy t : ct_transaction_id t = id -> respects (touches id) strategy ->
  outcome id (on_engine (discard_pending_disposal id) ≫= fun _ : unit =>
    st_finally (run_strategy strategy (transaction_cost_input t) id) (on_engine (discard_pending_disposal id))).
Proof.
  intros Ht Hst s r s' Hid He. unfold mbind at 1, st_bind at 1. unfold on_engine at 1. destruct (truthy (strip id)) eqn:Hnb.
  - destruct (discard_closes id (cs_engine s) He Hnb) as (e1 & -> & Hc1). cbn [fst snd].
    destruct (closes_framed id false s e1) as [F1 N1]; [done..|]. set (s1 := {| cs_engine := e1 |}) in *.
    unfold st_finally. destruct (run_strategy strategy _ id s1) as [r2 s2] eqn:E2.
    apply run_strategy_outcome in E2 as [F2 Hout]; [|done|apply F1|apply F1|done]. unfold on_engine.
    destruct (discard_closes id (cs_engine s2)) as (e3 & -> & Hc3); [apply F2|done|].
    intros [= <- <-]. destruct (closes_framed id false s2 e3) as [F3 N3]; [apply F2|done|].
    split; [by eapply framed_trans; [exact F1|eapply framed_trans]|]. split; [done|].
    destruct Hc1 as (_ & (_ & _ & _ & D1) & (_ & _ & _ & T1)), Hc3 as (_ & (_ & _ & _ & D3) & (_ & _ & _ & T3)).
    destruct Hout as [[[P1 P2] Herr]|(-> & Hno & Hs)].
    + left. split; [|done]. split; cbn; [by rewrite D3, P1, <- D1|by rewrite T3, P2, <- T1].
    + right. split_and!; [done..|]. by exists t.
  - rewrite discard_blank by done. intros [= <- <-]. apply concluded_quiet; [|done..]. by intros _.
Qed.

Lemma resolve_strategy_none name t s s' : resolve_strategy name t s = (Ok None, s') -> has_errors_for (calc_id s) (cs_errors s') = true.
Proof.
  unfold resolve_strategy, report. destruct (negb _); [intros [= <-]; apply add_error_reports|]. do 2 (destruct (_ && _); [done|]).
  destruct (od_get name strategies); [done|]. intros [= <-]. apply add_error_reports.
Qed.

Lemma quiet_resolve id name t : respects (quiet id) (resolve_strategy name t).
Proof. unfold resolve_strategy. frame. Qed.

Lemma outcome_resolve id name t (k : M unit -> M unit) :
  (forall m, respects (touches id) m -> outcome id (k m)) ->
  outcome id (resolve_strategy name t ≫= fun o : option (M unit) => match o with Some m => k m | None => mret tt end).
Proof.
  intros Hk s r s' Hid He. unfold mbind, st_bind. destruct (resolve_strategy name t s) as [o s1] eqn:E.
  destruct (resolve_strategy_inv name t s o s1 E) as (_ & _ & _ & x & -> & Hx). destruct x as [m|].
  - destruct (Hx m eq_refl) as [-> Hm]. by eapply Hk.
  - intros [= <- <-]. apply concluded_quiet; [by eapply quiet_resolve|done..|]. intros _. rewrite <- Hid. by eapply resolve_strategy_none.
Qed.

Lemma calculate_outcome id : outcome id calculate_transaction_costs.
Proof.
  unfold calculate_transaction_costs. apply outcome_guard; [apply quiet_currency|apply rejects_currency|].
  apply outcome_bind; [by apply quiet_assign|intros _]. apply outcome_txn. intros t Ht.
  destruct (negb _); [apply outcome_report|]. apply outcome_guard.
  - case_match; [by apply respects_ret, _|]. case_match; try by apply respects_lift, _. unfold reject. frame.
  - intros s s' <-. repeat case_match; try done. intros [= <-]. apply add_error_reports.
  - apply outcome_bind; [destruct (calc_is_cash_instrument t); [apply quiet_cash|by apply respects_ret, _]|intros _].
    apply outcome_txn. intros t1 Ht1. apply outcome_resolve. intros m Hm. rewrite Ht1. by apply outcome_run.
Qed.

(** C2: Evidence discipline of [calculate_transaction_costs].  Whatever the outcome, the calculation
    keeps the transaction's id, never touches the evidence or the errors of another transaction,
    never withdraws an error, and leaves nothing staged for its own transaction.  Published evidence
    of the transaction changes only when the calculation returns without raising and without a
    reported error. *)
Theorem calculation_evidence_discipline s r s' :
  engine_ok (cs_engine s) -> calculate_transaction_costs s = (r, s') ->
  let id := ct_transaction_id (cs_transaction s) in
  ct_transaction_id (cs_transaction s') = id /\ engine_ok (cs_engine s') /\
  others_unchanged (strip id) (cs_engine s) (cs_engine s') /\
  (forall k, has_errors_for k (cs_errors s) = true -> has_errors_for k (cs_errors s') = true) /\
  (forall k, k <> id -> has_errors_for k (cs_errors s') = has_errors_for k (cs_errors s)) /\
  (nothing_staged (strip id) (cs_engine s) -> nothing_staged (strip id) (cs_engine s')) /\
  (published_unchanged (strip id) (cs_engine s) (cs_engine s') \/ r = Ok tt /\ has_errors_for id (cs_errors s') = false).
Proof.
  intros He Hr id. destruct (calculate_outcome id s r s' eq_refl He Hr) as ([Hid Hok Ho Herr Hoth] & Hn & Hp).
  split_and!; try done; [|naive_solver]. intros k Hk. destruct (decide (k = id)) as [->|Hne]; [by apply Herr|by rewrite Hoth].
Qed.

(** A calculation that returns without raising and without an error for its transaction has
    sealed it: the transaction carries a receipt of the cost algorithm whose input hash is the hash
    of its normalized inputs and which [calculation_lineage_binds_output] accepts for the cost and
    realised-result fields the transaction ends with. *)
Theorem accepted_calculation_is_sealed s s' :
  engine_ok (cs_engine s) -> calculate_transaction_costs s = (Ok tt, s') ->
  has_errors_for (ct_transaction_id (cs_transaction s)) (cs_errors s') = false ->
  exists t, ct_transaction_id t = ct_transaction_id (cs_transaction s) /\ sealed (transaction_cost_input t) (cs_transaction s').
Proof.
  intros He Hr Hno. destruct (calculate_outcome _ s _ s' eq_refl He Hr) as (_ & _ & [[_ Herr]|(_ & _ & Hs)]); [|done].
  unfold calc_id in Herr. rewrite (Herr eq_refl) in Hno. done.
Qed.
End Seal.
