(* ===== verification/CalculatorTrades.v ===== *)
(** * Trades: the calculator on top of the FIFO book

    What BUY and SELL compute, and that the costs the calculator books on transactions reconcile with
    the cost of the open lots along every history of calculations. *)

From Stdlib Require Import ZArith Lia QArith String.
From stdpp Require Import base tactics list sets strings.
From S2P Require Import Prelude PyDecimal DecimalFacts PyTime Precision Lineage Registry Transactions Values Position Lots CostBasis Fifo CostFields Fx Redemption CashEconomics Disposition Calculator CalculatorFacts.

#[local] Open Scope string_scope.
#[local] Open Scope Z_scope.

#[local] Notation policy := TRANSACTION_COST_LEDGER_OUTPUT_V1.

(** ** What preparation keeps *)

(** Normalising currencies, the rate default and the type leave the economics alone. *)
Record same_economics (t t' : CostBasisTransaction) : Prop := {
  sm_id : ct_transaction_id t' = ct_transaction_id t;
  sm_portfolio : ct_portfolio_id t' = ct_portfolio_id t;
  sm_instrument : ct_instrument_id t' = ct_instrument_id t;
  sm_quantity : ct_quantity t' = ct_quantity t;
  sm_gross : ct_gross_transaction_amount t' = ct_gross_transaction_amount t;
  sm_fees : ct_fees t' = ct_fees t;
  sm_accrued : ct_accrued_interest t' = ct_accrued_interest t;
  sm_rate : transaction_fx_rate_or_one t' = transaction_fx_rate_or_one t;
  sm_order : ct_source_lot_order_quantity t' = ct_source_lot_order_quantity t;
  sm_original : ct_source_lot_original_quantity t' = ct_source_lot_original_quantity t;
  sm_extra : ct_extra_fields t' = ct_extra_fields t
}.

#[export] Instance same_economics_preorder : PreOrder same_economics.
Proof. split; [by constructor|]. intros ? ? ? [] []. constructor; congruence. Qed.

Section Runs.
Context {hashing : Hashing} {St : Type} `{!CostBasisStrategy St}.
#[local] Notation M := (st (Calc St)).

Lemma currency_prepares (s : Calc St) s1 : validate_transaction_currency_context s = (Ok true, s1) ->
  same_economics (cs_transaction s) (cs_transaction s1) /\ ct_transaction_type (cs_transaction s1) = ct_transaction_type (cs_transaction s) /\
  cs_engine s1 = cs_engine s /\ cs_errors s1 = cs_errors s.
Proof.
  unfold validate_transaction_currency_context, normalize_transaction_currencies, normalize_existing_transaction_fx_rate,
    validate_normalized_transaction_fx, reject, report, assign_txn, txn, st_modify, mbind, st_bind, mret, st_ret.
  cbn [cs_transaction cs_errors cs_engine]. intros Hr. unfold present in Hr.
  repeat (case_match; simplify_eq/=); (split_and!; [constructor|..]); try done;
    unfold transaction_fx_rate_or_one; cbn; by match goal with E : ct_transaction_fx_rate _ = _ |- _ => rewrite E end.
Qed.

(** Staging and publication do not touch the strategy. *)
Lemma discard_strategy id (e : LotDispositionEngine St) r e' : discard_pending_disposal id e = (r, e') -> le_strategy e' = le_strategy e.
Proof. unfold discard_pending_disposal, normalized_transaction_id. destruct (truthy _); cbn; by intros [= <- <-]. Qed.

Lemma commit_strategy id (e : LotDispositionEngine St) r e' : commit_disposal_record id e = (r, e') -> le_strategy e' = le_strategy e.
Proof.
  assert (respects (fun e e' : LotDispositionEngine St => le_strategy e' = le_strategy e) (commit_disposal_record id)) as Hc; [|by intros ?%Hc].
  assert (PreOrder (fun e e' : LotDispositionEngine St => le_strategy e' = le_strategy e)) by (split; [done|]; intros ???; congruence).
  assert (forall f, (forall e, le_strategy (f e) = le_strategy e) ->
    respects (fun e e' : LotDispositionEngine St => le_strategy e' = le_strategy e) (st_modify f)) as Hm by (intros f Hf; by apply respects_modify).
  unfold commit_disposal_record, record_disposal, record_basis_transfer, pop_pending_disposal, pop_pending_transfer.
  frame; by apply Hm.
Qed.

(** The attributes that decide whether a transaction moves cash. *)
Lemma same_cash t t' : same_economics t t' -> calc_is_cash_instrument t' = calc_is_cash_instrument t.
Proof.
  intros [_ _ _ _ _ _ _ _ _ _ E]. unfold calc_is_cash_instrument, attr_text, attr, attribute. rewrite E.
  change (od_get "product_type" (declared_fields t')) with (@None payload). change (od_get "product_type" (declared_fields t)) with (@None payload).
  change (od_get "asset_class" (declared_fields t')) with (@None payload). change (od_get "asset_class" (declared_fields t)) with (@None payload).
  done.
Qed.

(** The strategy [m] was run on the prepared transaction. *)
Record ran (m : M unit) (s s' s1 s2 : Calc St) : Prop := {
  rn_economics : same_economics (cs_transaction s) (cs_transaction s1);
  rn_before : le_strategy (cs_engine s1) = le_strategy (cs_engine s);
  rn_errors_before : cs_errors s1 = cs_errors s;
  rn_run : m s1 = (Ok tt, s2);
  rn_after : le_strategy (cs_engine s') = le_strategy (cs_engine s2);
  rn_errors : cs_errors s' = cs_errors s2;
  rn_seal : has_errors_for (ct_transaction_id (cs_transaction s)) (cs_errors s2) = false ->
    exists v, cs_transaction s' = set_calculated_field "calculation_lineage" v (cs_transaction s2);
  rn_ok : engine_ok (cs_engine s) -> truthy (strip (ct_transaction_id (cs_transaction s))) = true -> engine_ok (cs_engine s1);
  rn_published : has_errors_for (ct_transaction_id (cs_transaction s)) (cs_errors s2) = false ->
    truthy (strip (ct_transaction_id (cs_transaction s))) = true -> engine_ok (cs_engine s2) ->
    let id := strip (ct_transaction_id (cs_transaction s)) in
    od_get id (le_disposals (cs_engine s')) =
      match od_get id (le_pending_disposals (cs_engine s2)) with Some d => Some d | None => od_get id (le_disposals (cs_engine s2)) end
}.

Lemma txn_run {A} (f : CostBasisTransaction -> M A) (s : Calc St) : (txn ≫= f) s = f (cs_transaction s) s.
Proof. done. Qed.

Lemma run_strategy_ran m input id (s1 s2 : Calc St) :
  run_strategy m input id s1 = (Ok tt, s2) ->
  exists s', m s1 = (Ok tt, s') /\ le_strategy (cs_engine s2) = le_strategy (cs_engine s') /\ cs_errors s2 = cs_errors s' /\
    (has_errors_for id (cs_errors s') = false ->
     exists v, cs_transaction s2 = set_calculated_field "calculation_lineage" v (cs_transaction s')) /\
    (has_errors_for id (cs_errors s') = false -> truthy (strip id) = true -> engine_ok (cs_engine s') ->
     closes (strip id) true (cs_engine s') (cs_engine s2)).
Proof.
  unfold run_strategy. intros ([] & s' & Hm & H)%st_bind_Ok. exists s'. split; [done|]. rewrite st_get_run in H.
  destruct (has_errors_for id (cs_errors s')) eqn:E; [by injection H as <-|].
  rewrite txn_run in H. apply st_bind_Ok in H as (l & ? & [= Hl <-] & H).
  unfold set_fields, assign_txn in H. rewrite st_modify_run in H. unfold on_engine in H. cbn [fold_left fst snd cs_engine] in H.
  destruct (commit_disposal_record id (cs_engine s')) as [r e'] eqn:Ec. injection H as -> <-. cbn.
  split_and!; [by eapply commit_strategy|done|by eexists|]. intros _ Hid Hok.
  destruct (commit_closes id (cs_engine s') Hok Hid) as (e2 & E2 & Hcl). rewrite Ec in E2. by injection E2 as <-.
Qed.

(** The strategy is found and run, or the type is refused. *)
Lemma dispatch_ran m (s s' : Calc St) :
  let t := cs_transaction s in
  (strategy ← resolve_strategy (ct_transaction_type t) t;
   match (strategy : option (M unit)) with
   | None => mret tt
   | Some strategy =>
       _ ← on_engine (discard_pending_disposal (ct_transaction_id t));
       st_finally (run_strategy strategy (transaction_cost_input t) (ct_transaction_id t)) (on_engine (discard_pending_disposal (ct_transaction_id t)))
   end) s = (Ok tt, s') ->
  calc_is_cash_instrument t = false -> od_get (ct_transaction_type t) strategies = Some m ->
  cs_engine s' = cs_engine s /\ has_errors_for (ct_transaction_id t) (cs_errors s') = true \/ exists s1 s2, ran m s s' s1 s2.
Proof.
  intros t Hc Hcash Hm. apply st_bind_Ok in Hc as (o & s1 & Ho & Hc).
  destruct o as [m'|]; cycle 1.
  { injection Hc as <-. left. split; [by apply resolve_strategy_inv in Ho as (_ & -> & _)|]. by apply resolve_strategy_none in Ho. }
  right. unfold resolve_strategy in Ho. rewrite Hcash, Hm in Ho. cbn [andb] in Ho. destruct (negb _); [done|]. injection Ho as -> <-.
  apply st_bind_Ok in Hc as ([] & s2 & Hd & Hc). unfold on_engine in Hd.
  destruct (discard_pending_disposal (ct_transaction_id t) (cs_engine s)) as [r e1] eqn:E1. injection Hd as -> <-.
  pose proof E1 as E1'. apply discard_strategy in E1.
  unfold st_finally in Hc. destruct (run_strategy _ _ _ _) as [r2 s3] eqn:E2. unfold on_engine in Hc.
  destruct (discard_pending_disposal (ct_transaction_id t) (cs_engine s3)) as [r3 e4] eqn:E4. pose proof E4 as E4'. apply discard_strategy in E4.
  destruct r3 as [[]|]; [|done]. injection Hc as -> <-. apply run_strategy_ran in E2 as (s2 & Hrun & H1 & H2 & H3 & H4).
  eexists {| cs_engine := e1 |}, s2. constructor; [|exact E1| |exact Hrun|cbn; congruence|done|done| |]; [done..| |].
  - intros Hok Hid. destruct (discard_closes _ (cs_engine s) Hok Hid) as (e2 & E2 & Hcl & _). fold t in E2. rewrite E1' in E2.
    injection E2 as <-. exact Hcl.
  - intros Hno Hid Hok id. destruct (H4 Hno Hid Hok) as (Hok3 & (_ & _ & _ & P3) & _).
    destruct (discard_closes _ (cs_engine s3) Hok3 Hid) as (e5 & E5 & _ & (_ & _ & _ & P5) & _). fold t in E5. rewrite E4' in E5.
    injection E5 as <-. etrans; [exact P5|exact P3].
Qed.

Lemma calculate_ran m (s s' : Calc St) :
  calculate_transaction_costs s = (Ok tt, s') -> calc_is_cash_instrument (cs_transaction s) = false ->
  od_get (upper (strip (ct_transaction_type (cs_transaction s)))) strategies = Some m ->
  le_strategy (cs_engine s') = le_strategy (cs_engine s) /\ has_errors_for (ct_transaction_id (cs_transaction s)) (cs_errors s') = true \/
  exists s1 s2, ran m s s' s1 s2.
Proof.
  intros Hc Hcash Hm. unfold calculate_transaction_costs in Hc.
  apply st_bind_Ok in Hc as ([] & s1 & Hv & Hc); [|injection Hc as <-; left; split;
    [destruct (quiet_currency _ _ _ _ Hv eq_refl) as (_ & -> & _); done|by eapply (rejects_currency _ s)]].
  apply currency_prepares in Hv as (E1 & Ty & En & Er).
  unfold assign_txn in Hc. rewrite st_modify_run, txn_run in Hc. cbn [cs_engine cs_errors cs_transaction] in Hc.
  set (t2 := set_transaction_type (upper (strip (ct_transaction_type (cs_transaction s1)))) (cs_transaction s1)) in *.
  assert (E2 : same_economics (cs_transaction s) t2) by (etrans; [exact E1|by constructor]).
  set (s2 := {| cs_transaction := t2 |}) in *.
  destruct (negb _); [injection Hc as <-; left; cbn; rewrite En; split; [done|]; rewrite (sm_id _ _ E1); apply add_error_reports|].
  apply st_bind_Ok in Hc as (ok & s3 & Hg & Hc).
  assert (ok = true /\ s3 = s2 \/ ok = false /\ le_strategy (cs_engine s3) = le_strategy (cs_engine s2) /\
    has_errors_for (ct_transaction_id (cs_transaction s)) (cs_errors s3) = true) as [[-> ->]|(-> & Es & Herr)].
  { clear -Hg E1. revert Hg. repeat case_match; try done; intros Hg; [injection Hg as <- <-; by left|]. injection Hg as <- <-. right. split_and!; [done..|].
    cbn. rewrite (sm_id _ _ E1). apply add_error_reports. }
  2: { injection Hc as <-. left. rewrite Es. cbn. by rewrite En. }
  rewrite (same_cash _ _ E2), Hcash in Hc. apply st_bind_Ok in Hc as ([] & ? & [= <-] & Hc). rewrite txn_run in Hc.
  destruct (dispatch_ran m s2 s' Hc) as [[Hs Herr]|(s4 & s5 & [R1 R2 R3 R4 R5 R6 R7 R8 R9])].
  - exact (eq_trans (same_cash _ _ E2) Hcash).
  - cbn. by rewrite Ty.
  - left. rewrite Hs, <- (sm_id _ _ E2). cbn. by rewrite En.
  - right. exists s4, s5. rewrite (sm_id _ _ E2 : ct_transaction_id (cs_transaction s2) = _) in *.
    constructor; try done; [by etrans|cbn in R2; congruence|cbn in R3; congruence|]. intros Hok Hid. apply R8; [cbn; by rewrite En|done].
Qed.

(** ** Purchases *)

Definition accrued_interest_or_zero (t : CostBasisTransaction) : decimal :=
  match ct_accrued_interest t with Some d => dor d dzero | None => dzero end.

(** The costs a purchase books. *)
Definition buy_costs (t : CostBasisTransaction) (gross_cost net_cost_local net_cost : decimal) : Prop :=
  exists fees before_interest,
    transaction_total_fees t = Ok fees /\
    p_multiply policy (ct_gross_transaction_amount t) (transaction_fx_rate_or_one t) "gross_cost" = Ok gross_cost /\
    p_add policy (ct_gross_transaction_amount t) fees "net_cost_local" = Ok before_interest /\
    (if is_accrued_interest_excluded_from_book_cost t then Ok before_interest
     else p_add policy before_interest (accrued_interest_or_zero t) "net_cost_local") = Ok net_cost_local /\
    p_multiply policy net_cost_local (transaction_fx_rate_or_one t) "net_cost" = Ok net_cost.

Definition buy_fields (gross_cost net_cost_local net_cost : decimal) (t : CostBasisTransaction) : CostBasisTransaction :=
  set_realized_gain_loss_local (Some dzero) (set_realized_gain_loss (Some dzero)
    (set_net_cost (Some net_cost) (set_net_cost_local (Some net_cost_local) (set_gross_cost (Some gross_cost) t)))).

Definition with_transaction (t : CostBasisTransaction) (s : Calc St) : Calc St :=
  {| cs_transaction := t; cs_engine := cs_engine s; cs_errors := cs_errors s |}.

Lemma apply_buy_inv (s s' : Calc St) : apply_buy_cost_fields s = (Ok tt, s') ->
  exists gc ncl nc, buy_costs (cs_transaction s) gc ncl nc /\ s' = with_transaction (buy_fields gc ncl nc (cs_transaction s)) s.
Proof.
  unfold apply_buy_cost_fields, apply_zero_realized_pnl, assign_txn. rewrite txn_run. intros H.
  apply st_bind_Ok in H as (fees & ? & [= Hf <-] & H). apply st_bind_Ok in H as (gc & ? & [= Hg <-] & H). rewrite st_modify_run in H.
  apply st_bind_Ok in H as (before & ? & [= Hb <-] & H). rewrite st_modify_run in H.
  apply st_bind_Ok in H as (ncl & s1 & Hn & H). rewrite st_modify_run in H.
  apply st_bind_Ok in H as (nc & ? & [= Hc <-] & H). rewrite st_modify_run in H. injection H as <-.
  exists gc, ncl, nc. unfold buy_costs.
  destruct (is_accrued_interest_excluded_from_book_cost (cs_transaction s)) eqn:Ex; injection Hn as <- <-; (split; [|done]);
    exists fees, before; rewrite ?Ex; by split_and!.
Qed.

(** A rejection reports and changes nothing else. *)
Lemma reject_with_run add message (s : Calc St) : reject_with add message s =
  (Ok false, {| cs_transaction := cs_transaction s; cs_engine := cs_engine s;
                cs_errors := add_error (ct_transaction_id (cs_transaction s)) (add (cs_transaction s) message) (cs_errors s) |}).
Proof. done. Qed.

(** The outcome of a check: accepted without a trace, or refused with an error. *)
Definition checked (s : Calc St) (ok : bool) (s' : Calc St) : Prop :=
  if ok then s' = s
  else cs_transaction s' = cs_transaction s /\ cs_engine s' = cs_engine s /\
       has_errors_for (ct_transaction_id (cs_transaction s)) (cs_errors s') = true.

Lemma reject_checked add message (s : Calc St) ok s' : reject_with add message s = (Ok ok, s') -> checked s ok s'.
Proof. rewrite reject_with_run. intros [= <- <-]. split_and!; [done..|]. apply add_error_reports. Qed.

Lemma mret_checked (s : Calc St) ok s' : (mret true : M bool) s = (Ok ok, s') -> checked s ok s'.
Proof. by intros [= <- <-]. Qed.
#[local] Hint Resolve reject_checked mret_checked : core.

Lemma buy_checked (s : Calc St) ok s' gc ncl nc t :
  cs_transaction s = buy_fields gc ncl nc t -> validate_buy_cost_fields s = (Ok ok, s') ->
  checked s ok s' /\ (ok = true -> dleb (ct_quantity t) dzero = false /\ dltb ncl dzero = false /\ dltb nc dzero = false).
Proof.
  intros Ht. unfold validate_buy_cost_fields, validate_non_negative_buy_costs. rewrite txn_run, Ht. cbn [ct_quantity buy_fields].
  destruct (dleb _ dzero) eqn:Eq; [intros H; split; [eauto|]; rewrite reject_with_run in H; by injection H as <- <-|].
  intros (b & s1 & H1 & H)%st_bind_Ok. rewrite txn_run, Ht in H1.
  change (ct_gross_cost (buy_fields gc ncl nc t)) with (Some gc) in H1.
  change (ct_net_cost_local (buy_fields gc ncl nc t)) with (Some ncl) in H1.
  change (ct_net_cost (buy_fields gc ncl nc t)) with (Some nc) in H1. cbv beta iota in H1. revert H1 H.
  destruct (dltb gc dzero); [|destruct (dltb ncl dzero) eqn:El; [|destruct (dltb nc dzero) eqn:Ec]];
    intros Hb H; try (assert (b = false) as -> by (rewrite reject_with_run in Hb; by injection Hb);
      injection H as <- <-; split; [by eapply reject_checked|done]).
  injection Hb as <- <-. cbn [negb] in H. rewrite txn_run, Ht in H. injection H as <- <-. done.
Qed.

Lemma engine_add_run t (e : LotDispositionEngine St) : dleb (ct_quantity t) dzero = false ->
  engine_add_buy_lot t e = on_strategy (add_buy_lot t) e.
Proof. intros Hq. unfold engine_add_buy_lot. apply dleb_false, dltb_spec in Hq. by rewrite Hq. Qed.

Lemma report_run reason (s : Calc St) : report reason s =
  (Ok tt, {| cs_transaction := cs_transaction s; cs_engine := cs_engine s;
             cs_errors := add_error (ct_transaction_id (cs_transaction s)) reason (cs_errors s) |}).
Proof. done. Qed.

Lemma record_buy_run (s : Calc St) r st' :
  let t := cs_transaction s in
  dleb (ct_quantity t) dzero = false -> add_buy_lot t (le_strategy (cs_engine s)) = (r, st') ->
  record_buy_lot s =
    match r with
    | Ok _ => (Ok tt, {| cs_transaction := t; cs_engine := set_strategy st' (cs_engine s); cs_errors := cs_errors s |})
    | Raise e =>
        let s1 := {| cs_transaction := t; cs_engine := set_strategy st' (cs_engine s); cs_errors := cs_errors s |} in
        if is_value_error e then report (exc_text e) s1 else (Raise e, s1)
    end.
Proof.
  intros t Hq Ha. unfold record_buy_lot. rewrite txn_run. unfold st_try, on_engine. fold t. rewrite engine_add_run by done.
  unfold on_strategy. rewrite Ha. by destruct r as [[]|e].
Qed.

Lemma buy_inv (s s' : Calc St) : BuyStrategy s = (Ok tt, s') ->
  exists gc ncl nc, let t := buy_fields gc ncl nc (cs_transaction s) in
    buy_costs (cs_transaction s) gc ncl nc /\ cs_transaction s' = t /\
    (cs_engine s' = cs_engine s /\ has_errors_for (ct_transaction_id t) (cs_errors s') = true \/
     dleb (ct_quantity t) dzero = false /\ dltb ncl dzero = false /\ dltb nc dzero = false /\
     exists r, add_buy_lot t (le_strategy (cs_engine s)) = (r, le_strategy (cs_engine s')) /\
       match r with
       | Ok _ => cs_errors s' = cs_errors s
       | Raise _ => has_errors_for (ct_transaction_id t) (cs_errors s') = true
       end).
Proof.
  unfold BuyStrategy. intros ([] & s1 & (gc & ncl & nc & Hc & ->)%apply_buy_inv & H)%st_bind_Ok. exists gc, ncl, nc.
  set (t := buy_fields gc ncl nc (cs_transaction s)). cbn zeta. apply st_bind_Ok in H as (ok & s2 & Hv & H). split; [done|].
  eapply buy_checked in Hv as [Hk Hok]; [|reflexivity]. destruct ok; cbn in Hk; subst; cycle 1.
  { injection H as <-. destruct Hk as (Et & Ee & Er). split; [exact Et|]. left. by split. }
  destruct (Hok eq_refl) as (Hq & Hl & Hb).
  destruct (add_buy_lot t (le_strategy (cs_engine s))) as [r st'] eqn:Ea.
  change (record_buy_lot (with_transaction t s) = (Ok tt, s')) in H. rewrite (record_buy_run (with_transaction t s) r st' Hq Ea) in H. destruct r as [[]|e].
  - injection H as <-. split; [done|]. right. split_and!; [done..|]. by exists (Ok tt).
  - cbv zeta in H. destruct (is_value_error e); [|discriminate H]. rewrite report_run in H. apply (f_equal snd) in H. cbn [snd] in H. subst s'.
    split; [done|]. right. split_and!; [done..|]. exists (Raise e). split; [done|apply add_error_reports].
Qed.

(** ** Sales *)

(** The realised result and the costs a sale books. *)
Definition sell_amounts (t : CostBasisTransaction) (r : LotDisposalResult) (gain_local gain net_cost_local net_cost gross_cost : decimal) : Prop :=
  exists proceeds_local proceeds_base,
    net_sell_proceeds_local t = Ok proceeds_local /\
    p_multiply policy proceeds_local (transaction_fx_rate_or_one t) "net_sell_proceeds_base" = Ok proceeds_base /\
    dltb proceeds_local dzero = false /\ dltb proceeds_base dzero = false /\
    p_subtract policy proceeds_local (dr_cost_local r) "realized_gain_loss_local" = Ok gain_local /\
    p_subtract policy proceeds_base (dr_cost_base r) "realized_gain_loss" = Ok gain /\
    normalized_negation (dr_cost_base r) "net_cost" = Ok net_cost /\
    normalized_negation (dr_cost_local r) "net_cost_local" = Ok net_cost_local /\
    normalized_negation (dr_cost_base r) "gross_cost" = Ok gross_cost.

Definition sell_fields (gain_local gain net_cost_local net_cost gross_cost : decimal) (t : CostBasisTransaction) : CostBasisTransaction :=
  set_gross_cost (Some gross_cost) (set_net_cost_local (Some net_cost_local) (set_net_cost (Some net_cost)
    (set_realized_gain_loss (Some gain) (set_realized_gain_loss_local (Some gain_local) t)))).

Lemma sell_quantity_checked a b (s : Calc St) ok s' : validate_sell_quantity_and_proceeds a b s = (Ok ok, s') ->
  checked s ok s' /\ (ok = true -> dltb a dzero = false /\ dltb b dzero = false /\ dleb (ct_quantity (cs_transaction s)) dzero = false).
Proof.
  unfold validate_sell_quantity_and_proceeds. rewrite txn_run.
  destruct (dltb a dzero); [|destruct (dltb b dzero); [|destruct (dleb _ dzero)]]; intros H; (split; [eauto|]);
    try done; rewrite reject_with_run in H; by injection H as <- <-.
Qed.

Lemma availability_checked add (s : Calc St) ok s' : validate_disposal_availability add s = (Ok ok, s') -> checked s ok s'.
Proof. unfold validate_disposal_availability. rewrite txn_run, st_get_run. destruct (dleb _ _); [eauto|]. destruct (in_set _ _); eauto. Qed.

(** Consuming: the disposal of the engine, accepted or refused with an error. *)
Lemma consume_inv add (s s' : Calc St) o : consume_disposal_cost_basis add s = (Ok o, s') ->
  exists r, engine_consume_sell_quantity_with_allocations (cs_transaction s) (cs_engine s) = (Ok r, cs_engine s') /\
    cs_transaction s' = cs_transaction s /\
    match o with
    | Some (base, local, quantity) => base = dr_cost_base r /\ local = dr_cost_local r /\ quantity = dr_consumed_quantity r /\ cs_errors s' = cs_errors s /\
        dleb (dr_consumed_quantity r) dzero = false
    | None => has_errors_for (ct_transaction_id (cs_transaction s)) (cs_errors s') = true /\
              (truthy (default "" (dr_error_reason r)) || dleb (dr_consumed_quantity r) dzero ||
               (dltb (dr_cost_base r) dzero || dltb (dr_cost_local r) dzero) = true)
    end.
Proof.
  unfold consume_disposal_cost_basis. rewrite txn_run. intros ([[[base local] quantity] reason] & s1 & H1 & H)%st_bind_Ok.
  unfold on_engine, engine_consume_sell_quantity in H1. unfold mbind, st_bind in H1.
  destruct (engine_consume_sell_quantity_with_allocations _ _) as [[r|e] e1] eqn:Er; [|done]. exists r. unfold legacy_tuple in H1.
  injection H1 as <- <- <- <- <-. revert H.
  destruct (truthy _); [intros [= <- <-]; split_and!; [done..|apply add_error_reports|done]|].
  destruct (dleb _ _) eqn:Eq; [intros [= <- <-]; split_and!; [done..|apply add_error_reports|done]|].
  destruct (_ || _); [intros [= <- <-]; split_and!; [done..|apply add_error_reports|done]|].
  intros [= <- <-]. done.
Qed.

Lemma apply_sell_inv pl pb r (s s' : Calc St) : apply_sell_disposal_fields pl pb (dr_cost_base r) (dr_cost_local r) s = (Ok tt, s') ->
  exists gl g ncl nc gc,
    p_subtract policy pl (dr_cost_local r) "realized_gain_loss_local" = Ok gl /\
    p_subtract policy pb (dr_cost_base r) "realized_gain_loss" = Ok g /\
    normalized_negation (dr_cost_base r) "net_cost" = Ok nc /\
    normalized_negation (dr_cost_local r) "net_cost_local" = Ok ncl /\
    normalized_negation (dr_cost_base r) "gross_cost" = Ok gc /\
    s' = with_transaction (sell_fields gl g ncl nc gc (cs_transaction s)) s.
Proof.
  unfold apply_sell_disposal_fields, assign_txn. intros H.
  apply st_bind_Ok in H as (gl & ? & [= Hgl <-] & H). rewrite st_modify_run in H.
  apply st_bind_Ok in H as (g & ? & [= Hg <-] & H). rewrite st_modify_run in H.
  apply st_bind_Ok in H as (nc & ? & [= Hnc <-] & H). rewrite st_modify_run in H.
  apply st_bind_Ok in H as (ncl & ? & [= Hncl <-] & H). rewrite st_modify_run in H.
  apply st_bind_Ok in H as (gc & ? & [= Hgc <-] & H). injection H as <-. exists gl, g, ncl, nc, gc. by split_and!.
Qed.

Lemma sell_checked (s : Calc St) ok s' : validate_sell_disposal_fields s = (Ok ok, s') -> checked s ok s'.
Proof. unfold validate_sell_disposal_fields. rewrite txn_run. repeat case_match; eauto. Qed.

(** A sale refused before or by the engine, or booked from the engine's disposal. *)
Lemma sell_inv (s s' : Calc St) : SellStrategy s = (Ok tt, s') ->
  let t := cs_transaction s in
  cs_engine s' = cs_engine s /\ has_errors_for (ct_transaction_id t) (cs_errors s') = true \/
  dleb (ct_quantity t) dzero = false /\
  exists r, engine_consume_sell_quantity_with_allocations t (cs_engine s) = (Ok r, cs_engine s') /\
    (has_errors_for (ct_transaction_id t) (cs_errors s') = true /\
     (truthy (default "" (dr_error_reason r)) || dleb (dr_consumed_quantity r) dzero || (dltb (dr_cost_base r) dzero || dltb (dr_cost_local r) dzero) = true) \/
     dleb (dr_consumed_quantity r) dzero = false /\
     exists gl g ncl nc gc, sell_amounts t r gl g ncl nc gc /\ cs_transaction s' = sell_fields gl g ncl nc gc t /\
       (cs_errors s' = cs_errors s \/
        has_errors_for (ct_transaction_id t) (cs_errors s') = true /\ dleb nc dzero && dleb ncl dzero = false)).
Proof.
  intros H t. unfold SellStrategy in H. rewrite txn_run in H. fold t in H.
  apply st_bind_Ok in H as (pl & ? & [= Hpl <-] & H). apply st_bind_Ok in H as (pb & ? & [= Hpb <-] & H).
  apply st_bind_Ok in H as (ok & s1 & [Hk Hv]%sell_quantity_checked & H).
  destruct ok; [|injection H as <-; left; by destruct Hk as (_ & ? & ?)]. cbn in Hk; subst s1.
  destruct (Hv eq_refl) as (Hl & Hb & Hq). apply st_bind_Ok in H as (ok & s1 & Hk%availability_checked & H).
  destruct ok; [|injection H as <-; left; by destruct Hk as (_ & ? & ?)]. cbn in Hk; subst s1.
  right. split; [done|]. apply st_bind_Ok in H as (o & s1 & (r & Hr & Et & Ho)%consume_inv & H). exists r.
  destruct o as [[[base local] quantity]|]; [|injection H as <-; split; [done|by left]].
  destruct Ho as (-> & -> & -> & Ee & Hpos). apply st_bind_Ok in H as ([] & s2 & Ha & H).
  apply apply_sell_inv in Ha as (gl & g & ncl & nc & gc & A1 & A2 & A3 & A4 & A5 & ->).
  apply st_bind_Ok in H as (ok & s3 & Hk & H). injection H as <-. rewrite Et in Hk.
  assert (Hno : ok = false -> dleb nc dzero && dleb ncl dzero = false).
  { intros ->. unfold validate_sell_disposal_fields in Hk. rewrite txn_run in Hk.
    change (ct_net_cost (cs_transaction _)) with (Some nc) in Hk. change (ct_net_cost_local (cs_transaction _)) with (Some ncl) in Hk.
    cbv beta iota in Hk. by destruct (_ && _). }
  apply sell_checked in Hk. fold t in Et.
  assert (Hs : sell_amounts t r gl g ncl nc gc) by (exists pl, pb; by split_and!).
  destruct ok; [cbn in Hk; subst s3|destruct Hk as (E1 & E2 & E3); rewrite E2].
  - split; [done|]. right. split; [done|]. exists gl, g, ncl, nc, gc. split_and!; [done| |left; by rewrite <- Ee]. cbn. by rewrite ?Et.
  - split; [done|]. right. split; [done|]. exists gl, g, ncl, nc, gc. split_and!; [done|by rewrite E1|]. right. split; [exact E3|by apply Hno].
Qed.
End Runs.

(** ** The ledger and the lots *)

Lemma normalized_negation_spec c f r : stored c -> normalized_negation c f = Ok r -> stored r /\ ul r = - ul c.
Proof.
  intros Sc. unfold normalized_negation. intros (n & Hn & Hr)%bind_Ok. apply book_normalize in Hr as [Sr ->]. split; [done|].
  destruct Sc as [Hc Bc]. destruct (ambient_exact (neg_exact c) (- ul c)) as (r' & Hr' & Hu); [by apply units_neg|lia|].
  unfold dneg in Hn. rewrite Hr' in Hn. injection Hn as <-. apply ledger_ul. split; [done|lia].
Qed.

Section Ledger.
Context {hashing : Hashing} {hashing_ok : HashingOk}.
#[local] Notation Engine := (LotDispositionEngine FifoState).

Definition transaction_key (t : CostBasisTransaction) : BookKey := (ct_portfolio_id t, ct_instrument_id t).
Definition trade_type (t : CostBasisTransaction) : string := upper (strip (ct_transaction_type t)).

(** A security trade the ledger theorems speak about: a purchase the book has room for, or a sale,
    of a storable quantity, not reported before. *)
Record trade (t : CostBasisTransaction) (e : Engine) (errors : Errors) : Prop := {
  tr_security : calc_is_cash_instrument t = false;
  tr_quantity : stored (ct_quantity t);
  tr_id : truthy (strip (ct_transaction_id t)) = true;
  tr_fresh : has_errors_for (ct_transaction_id t) errors = false;
  tr_type : trade_type t = "BUY" /\ ct_source_lot_order_quantity t = None /\ ct_source_lot_original_quantity t = None /\
              (forall gc ncl nc, buy_costs t gc ncl nc -> lot_fits t nc ncl (le_strategy e)) \/
            trade_type t = "SELL"
}.

Lemma buy_costs_same t t' gc ncl nc : same_economics t t' -> buy_costs t' gc ncl nc -> buy_costs t gc ncl nc.
Proof.
  intros [_ _ _ _ Eg Ef Ea Er _ _ Ex]. unfold buy_costs, transaction_total_fees, accrued_interest_or_zero.
  assert (is_accrued_interest_excluded_from_book_cost t' = is_accrued_interest_excluded_from_book_cost t) as ->.
  { unfold is_accrued_interest_excluded_from_book_cost, attr_text, attr, attribute. rewrite Ex.
    change (od_get "calculation_policy_id" (declared_fields t')) with (@None payload).
    change (od_get "calculation_policy_id" (declared_fields t)) with (@None payload). done. }
  by rewrite Eg, Ef, Ea, Er.
Qed.

Lemma buy_lot_input t t' gc ncl nc e errors :
  trade t e errors -> trade_type t = "BUY" -> ct_source_lot_original_quantity t = None -> ct_source_lot_order_quantity t = None ->
  same_economics t t' -> buy_costs t' gc ncl nc ->
  dleb (ct_quantity t') dzero = false -> dltb ncl dzero = false -> dltb nc dzero = false ->
  lot_input (buy_fields gc ncl nc t') nc ncl (ct_quantity t).
Proof.
  intros [_ Sq Hid _ _] _ Ho Hr Hs (fees & before & _ & _ & Hb & Hl & Hn) Pq Pl Pn.
  assert (Sl : stored ncl).
  { destruct (is_accrued_interest_excluded_from_book_cost t'); [injection Hl as <-; revert Hb|revert Hl];
      unfold p_add, calculate; intros (d & _ & Hr')%bind_Ok; by apply book_normalize in Hr' as []. }
  apply book_multiply_stored in Hn. rewrite (sm_quantity _ _ Hs) in Pq.
  rewrite (stored_dleb _ _ Sq stored_dzero), ul_dzero in Pq. rewrite (stored_dltb _ _ Sl stored_dzero), ul_dzero in Pl.
  rewrite (stored_dltb _ _ Hn stored_dzero), ul_dzero in Pn. apply Z.leb_gt in Pq. apply Z.ltb_ge in Pl, Pn.
  constructor; cbn; rewrite ?(sm_quantity _ _ Hs), ?(sm_id _ _ Hs); try done; try lia.
  unfold source_lot_original_quantity, resolve_source_lot_original_quantity. cbn.
  by rewrite (sm_original _ _ Hs), (sm_order _ _ Hs), Ho, Hr.
Qed.

(** What a transaction with its calculated costs adds to a book. *)
Definition amount (v : option decimal) : Z := match v with Some d => ul d | None => 0 end.
Definition signed_quantity (t : CostBasisTransaction) : Z :=
  if String.eqb (trade_type t) "BUY" then ul (ct_quantity t) else - ul (ct_quantity t).
Definition booked (key : BookKey) (t : CostBasisTransaction) (s' : Calc FifoState) (total : Totals) : Totals :=
  if has_errors_for (ct_transaction_id t) (cs_errors s') then total else
  if decide (transaction_key t = key)
  then totals_add total (signed_quantity t) (amount (ct_net_cost_local (cs_transaction s'))) (amount (ct_net_cost (cs_transaction s')))
  else total.

(** The sums of the open lots of a book. *)
Definition lots_total (ls : list CostLot) : Totals :=
  {| to_quantity := zsum (map lot_qty ls); to_local := zsum (map lot_local ls); to_base := zsum (map lot_base ls) |}.

Definition reconciles (key : BookKey) (s : FifoState) (total : Totals) : Prop := exists ls, book_ok key s ls /\ lots_total ls = total.

(** A step of the strategy state books [delta] on [key] and nothing elsewhere. *)
Definition books_move (key : BookKey) (q l b : Z) (s s' : FifoState) : Prop :=
  fifo_ok s' /\ forall k total, reconciles k s total -> reconciles k s' (if decide (key = k) then totals_add total q l b else total).

Lemma books_move_none key s : fifo_ok s -> books_move key 0 0 0 s s.
Proof.
  intros Hok. split; [done|]. intros k [q l b] Hr. case_decide; [|done]. unfold totals_add; cbn. by rewrite !Z.add_0_r.
Qed.

Lemma books_move_buy t nc ncl original s s' :
  fifo_ok s -> lot_input t nc ncl original -> lot_fits t nc ncl s -> fifo_add_buy_lot t s = (Ok tt, s') ->
  books_move (transaction_key t) (ul (ct_quantity t)) (ul ncl) (ul nc) s s'.
Proof.
  intros Hok Hi Hf Hrun. destruct (buy_step t nc ncl original s s' Hok Hi Hf Hrun) as (ls & l & Hok' & Hb & Hb' & E1 & E2 & E3 & _ & Ho).
  split; [done|]. intros k total (lk & Hlk & <-). case_decide as E; [subst k|exists lk; split; [apply Ho; [by intros ->|done]|done]].
  rewrite (book_ok_functional _ _ _ _ Hlk Hb). exists (ls ++ [l])%list. split; [done|].
  unfold lots_total, totals_add; cbn. rewrite !map_app, !zsum_app; cbn. rewrite !zsum_cons, !zsum_nil, E1, E2, E3, !Z.add_0_r. done.
Qed.

Lemma books_move_sell p i q s r s' :
  fifo_ok s -> stored q -> fifo_consume_sell_quantity_with_allocations p i q s = (Ok r, s') ->
  books_move (p, i) (- ul (dr_consumed_quantity r)) (- ul (dr_cost_local r)) (- ul (dr_cost_base r)) s s'.
Proof.
  intros Hok Sq Hrun. destruct (sell_step p i q s r s' Hok Sq Hrun) as (ls & ls' & Hok' & Hb & Hb' & E1 & E2 & E3 & Ho).
  split; [done|]. intros k total (lk & Hlk & <-). case_decide as E; [subst k|exists lk; split; [apply Ho; [by intros ->|done]|done]].
  rewrite (book_ok_functional _ _ _ _ Hlk Hb). exists ls'. split; [done|].
  unfold lots_total, totals_add; cbn. rewrite E1, E2, E3. f_equal; lia.
Qed.

Lemma engine_consume_fifo t (e : Engine) r e' :
  engine_consume_sell_quantity_with_allocations t e = (Ok r, e') ->
  fifo_consume_sell_quantity_with_allocations (ct_portfolio_id t) (ct_instrument_id t) (ct_quantity t) (le_strategy e) = (Ok r, le_strategy e').
Proof.
  unfold engine_consume_sell_quantity_with_allocations. intros (q & ? & [= Hq <-] & H)%st_bind_Ok.
  apply st_bind_Ok in H as (r' & e1 & H1 & H). unfold on_strategy in H1. cbn in Hq. subst q.
  destruct (consume_sell_quantity_with_allocations _ _ _ _) as [r0 s1] eqn:E. injection H1 as -> <-. cbn in E. rewrite E.
  destruct (dr_error_reason r'); [by injection H as <- <-|]. destruct (dltb _ _); [|by injection H as <- <-].
  apply st_bind_Ok in H as (d & ? & [= Hd <-] & H). apply st_bind_Ok in H as ([] & e2 & Hs & H). injection H as <- <-.
  unfold stage_disposal in Hs. rewrite st_get_run in Hs. apply st_bind_Ok in Hs as ([] & ? & [= _ <-] & Hs). by injection Hs as <-.
Qed.

(** A successful disposal is staged under the transaction's id. *)
Lemma engine_consume_staged t (e : Engine) r e' :
  engine_consume_sell_quantity_with_allocations t e = (Ok r, e') -> dr_error_reason r = None -> dltb dzero (dr_consumed_quantity r) = true ->
  od_get (strip (ct_transaction_id t)) (le_pending_disposals e') =
    Some {| td_disposal_transaction_id := strip (ct_transaction_id t); td_result := r |}.
Proof.
  unfold engine_consume_sell_quantity_with_allocations. intros (q & ? & [= Hq <-] & H)%st_bind_Ok Hr Hp.
  apply st_bind_Ok in H as (r' & e1 & H1 & H).
  destruct (dr_error_reason r') eqn:Er; [injection H as <- <-; by rewrite Hr in Er|].
  destruct (dltb dzero (dr_consumed_quantity r')) eqn:Ep; [|injection H as <- <-; by rewrite Ep in Hp].
  apply st_bind_Ok in H as (d & ? & [= Hd <-] & H). apply st_bind_Ok in H as ([] & e2 & Hs & H). injection H as <- <-.
  unfold make_TransactionLotDisposal in Hd. apply bind_Ok in Hd as (x & [-> _]%require_nonblank_Ok & Hd). apply bind_Ok in Hd as (? & _ & Hd).
  injection Hd as <-. unfold stage_disposal in Hs. rewrite st_get_run in Hs. apply st_bind_Ok in Hs as ([] & ? & [= _ <-] & Hs).
  injection Hs as <-. apply od_get_set.
Qed.

(** The disposal of a positive storable quantity under FIFO: refused and without effect, or complete. *)
Lemma fifo_consume_cases p i q s r s' :
  fifo_ok s -> stored q -> 0 < ul q -> fifo_consume_sell_quantity_with_allocations p i q s = (Ok r, s') ->
  (dr_consumed_quantity r = dzero /\ s' = s) \/
  dr_error_reason r = None /\ stored (dr_consumed_quantity r) /\ ul (dr_consumed_quantity r) = ul q /\
  stored (dr_cost_local r) /\ stored (dr_cost_base r) /\ 0 <= ul (dr_cost_local r) /\ 0 <= ul (dr_cost_base r).
Proof.
  intros Hok Sq Hq Hrun. destruct (fo_books _ Hok (p, i)) as [ls Hb].
  destruct (Z.le_gt_cases (ul q) (zsum (map lot_qty ls))) as [Hle|Hgt].
  - destruct (consume_fifo_ok p i q s ls Hok Hb Sq ltac:(lia)) as (r' & s2 & ls' & Hrun' & _ & _ & [D1 D2 D3 D4 D5 D6 D7 D8 DS D9 D10 D11] & _).
    rewrite Hrun in Hrun'. injection Hrun' as <- <-. right.
    destruct DS as (? & ? & ?). split_and!; try done; lia.
  - destruct (consume_refused p i q s ls Hb Sq (or_intror Hgt)) as (r' & reason & Hrun' & _ & Hr & _).
    rewrite Hrun in Hrun'. injection Hrun' as <- <-. by left.
Qed.

Lemma buy_strategy : od_get "BUY" (@strategies hashing FifoState _) = Some BuyStrategy.
Proof. reflexivity. Qed.
Lemma sell_strategy : od_get "SELL" (@strategies hashing FifoState _) = Some SellStrategy.
Proof. reflexivity. Qed.

(** Sealing keeps the costs. *)
Lemma lineage_keeps_costs v t : let t' := set_calculated_field "calculation_lineage" v t in
  ct_net_cost t' = ct_net_cost t /\ ct_net_cost_local t' = ct_net_cost_local t /\
  ct_realized_gain_loss t' = ct_realized_gain_loss t /\ ct_realized_gain_loss_local t' = ct_realized_gain_loss_local t.
Proof. done. Qed.

Lemma same_key t t' : same_economics t t' -> transaction_key t' = transaction_key t.
Proof. intros Hs. unfold transaction_key. by rewrite (sm_portfolio _ _ Hs), (sm_instrument _ _ Hs). Qed.

Lemma lot_fits_same t t1 gc ncl nc s : same_economics t t1 -> lot_fits t nc ncl s -> lot_fits (buy_fields gc ncl nc t1) nc ncl s.
Proof.
  intros Hs. unfold lot_fits. cbn [ct_transaction_id ct_portfolio_id ct_instrument_id ct_quantity buy_fields set_realized_gain_loss_local
    set_realized_gain_loss set_net_cost set_net_cost_local set_gross_cost].
  by rewrite (sm_id _ _ Hs), (sm_quantity _ _ Hs), (sm_portfolio _ _ Hs), (sm_instrument _ _ Hs).
Qed.

(** The lot of a priced purchase enters the book. *)
Lemma buy_books t t1 gc ncl nc e errors s r s' :
  trade t e errors -> trade_type t = "BUY" -> le_strategy e = s -> fifo_ok s -> same_economics t t1 -> buy_costs t1 gc ncl nc ->
  dleb (ct_quantity t1) dzero = false -> dltb ncl dzero = false -> dltb nc dzero = false ->
  fifo_add_buy_lot (buy_fields gc ncl nc t1) s = (r, s') ->
  r = Ok tt /\ stored ncl /\ stored nc /\ 0 < ul (ct_quantity t) /\
  books_move (transaction_key t) (ul (ct_quantity t)) (ul ncl) (ul nc) s s'.
Proof.
  intros Htr Hty He Hok Hs Hb Pq Pl Pn Hadd. pose proof Htr as [_ _ _ _ [(_ & Hor & Horg & Hfit)|Hsell]]; [|by rewrite Hty in Hsell].
  pose proof (buy_lot_input t t1 gc ncl nc _ _ Htr Hty Horg Hor Hs Hb Pq Pl Pn) as Hin.
  pose proof (lot_fits_same t t1 gc ncl nc _ Hs (Hfit _ _ _ (buy_costs_same _ _ _ _ _ Hs Hb))) as Hf. rewrite He in Hf.
  assert (r = Ok tt) as ->.
  { destruct Hf as (ls & Hbk & _ & Bq & _). destruct (add_run _ nc ncl _ _ ls Hin Hbk Bq) as (lo & ba & to & Hrun & _).
    rewrite Hadd in Hrun. by apply (f_equal fst) in Hrun. }
  apply (books_move_buy _ nc ncl _ _ _ Hok Hin Hf) in Hadd.
  rewrite <- (same_key _ _ Hs), <- (sm_quantity _ _ Hs). destruct Hin as [_ _ _ (S1 & S2 & S3 & _) Hq _ _].
  split_and!; [done..|apply Hq|exact Hadd].
Qed.

Lemma fifo_add_method t (s : FifoState) : add_buy_lot t s = fifo_add_buy_lot t s.
Proof. unfold add_buy_lot. reflexivity. Qed.

(** A calculated purchase. *)
Lemma buy_calculated t (s s' : Calc FifoState) :
  cs_transaction s = t -> trade t (cs_engine s) (cs_errors s) -> trade_type t = "BUY" -> fifo_ok (le_strategy (cs_engine s)) ->
  calculate_transaction_costs s = (Ok tt, s') ->
  le_strategy (cs_engine s') = le_strategy (cs_engine s) /\ has_errors_for (ct_transaction_id t) (cs_errors s') = true \/
  exists gc ncl nc, buy_costs t gc ncl nc /\ stored ncl /\ stored nc /\ 0 < ul (ct_quantity t) /\
    has_errors_for (ct_transaction_id t) (cs_errors s') = false /\
    books_move (transaction_key t) (ul (ct_quantity t)) (ul ncl) (ul nc) (le_strategy (cs_engine s)) (le_strategy (cs_engine s')) /\
    exists v t1, same_economics t t1 /\ cs_transaction s' = set_calculated_field "calculation_lineage" v (buy_fields gc ncl nc t1).
Proof.
  intros <- Htr Hty Hok Hc. destruct (calculate_ran BuyStrategy s s' Hc (tr_security _ _ _ Htr)) as [Hleft|(s1 & s2 & [R1 R2 R3 R4 R5 R6 R7 R8 R9])];
    [|by left|].
  { unfold trade_type in Hty. rewrite Hty. apply buy_strategy. }
  apply buy_inv in R4 as (gc & ncl & nc & Hb & Et & [[Ee Her]|(Pq & Pl & Pn & r & Ha & Hr)]).
  { left. split; [congruence|]. rewrite R6, <- (sm_id _ _ R1). exact Her. }
  rewrite R2, fifo_add_method in Ha.
  destruct (buy_books _ _ gc ncl nc _ _ _ r _ Htr Hty eq_refl Hok R1 Hb Pq Pl Pn Ha) as (-> & S1 & S2 & Hq & Hmv).
  right. exists gc, ncl, nc. split; [by apply (buy_costs_same _ _ _ _ _ R1)|]. rewrite R6, R5, Hr, R3.
  split_and!; [done..|by apply (tr_fresh _ _ _ Htr)|done|].
  destruct R7 as [v Hv]; [rewrite Hr, R3; by apply (tr_fresh _ _ _ Htr)|]. exists v, (cs_transaction s1). by rewrite Hv, Et.
Qed.

Lemma sell_amounts_same t t' r gl g ncl nc gc : same_economics t t' -> sell_amounts t' r gl g ncl nc gc -> sell_amounts t r gl g ncl nc gc.
Proof.
  intros [_ _ _ _ Eg Ef _ Er _ _ _]. unfold sell_amounts, net_sell_proceeds_local, transaction_total_fees. by rewrite Eg, Ef, Er.
Qed.

(** A calculated sale. *)
Lemma sell_calculated t (s s' : Calc FifoState) :
  cs_transaction s = t -> trade t (cs_engine s) (cs_errors s) -> trade_type t = "SELL" -> fifo_ok (le_strategy (cs_engine s)) ->
  calculate_transaction_costs s = (Ok tt, s') ->
  le_strategy (cs_engine s') = le_strategy (cs_engine s) /\ has_errors_for (ct_transaction_id t) (cs_errors s') = true \/
  exists r gl g ncl nc gc, sell_amounts t r gl g ncl nc gc /\ stored (dr_cost_local r) /\ stored (dr_cost_base r) /\ 0 < ul (ct_quantity t) /\
    ul (dr_consumed_quantity r) = ul (ct_quantity t) /\
    fifo_consume_sell_quantity_with_allocations (ct_portfolio_id t) (ct_instrument_id t) (ct_quantity t) (le_strategy (cs_engine s)) =
      (Ok r, le_strategy (cs_engine s')) /\
    has_errors_for (ct_transaction_id t) (cs_errors s') = false /\
    (engine_ok (cs_engine s) -> od_get (strip (ct_transaction_id t)) (le_disposals (cs_engine s')) =
       Some {| td_disposal_transaction_id := strip (ct_transaction_id t); td_result := r |}) /\
    exists v t1, same_economics t t1 /\ cs_transaction s' = set_calculated_field "calculation_lineage" v (sell_fields gl g ncl nc gc t1).
Proof.
  intros <- Htr Hty Hok Hc. destruct (calculate_ran SellStrategy s s' Hc (tr_security _ _ _ Htr)) as [Hleft|(s1 & s2 & [R1 R2 R3 R4 R5 R6 R7 R8 R9])];
    [|by left|].
  { unfold trade_type in Hty. rewrite Hty. apply sell_strategy. }
  pose proof (tr_quantity _ _ _ Htr) as Sq. rewrite R5, R6. rewrite <- R2 in *.
  destruct (SellStrategy_touches _ _ _ _ R4 (sm_id _ _ R1)) as (_ & [_ _ _ _ T] & _). apply sell_inv in R4 as [[Ee Her]|(Pq & r & Hr & Hout)]; [left; rewrite Ee; by rewrite <- (sm_id _ _ R1)|].
  pose proof (engine_consume_staged _ _ _ _ Hr) as Hst. apply engine_consume_fifo in Hr.
  rewrite (sm_quantity _ _ R1), (sm_portfolio _ _ R1), (sm_instrument _ _ R1), (sm_id _ _ R1) in *.
  rewrite (stored_dleb _ _ Sq stored_dzero), ul_dzero in Pq. apply Z.leb_gt in Pq.
  destruct (fifo_consume_cases _ _ _ _ r _ Hok Sq Pq Hr) as [[E1 E2]|(E1 & S1 & E2 & S2 & S3 & P2 & P3)].
  - left. rewrite E2. split; [done|]. destruct Hout as [[Her _]|[Hp _]]; [done|]. by rewrite E1 in Hp.
  - right. exists r. destruct Hout as [[_ Her]|(_ & gl & g & ncl & nc & gc & Hs & Et & Her)].
    { exfalso. rewrite E1, (stored_dleb _ _ S1 stored_dzero), (stored_dltb _ _ S2 stored_dzero), (stored_dltb _ _ S3 stored_dzero), ul_dzero, E2 in Her.
      rewrite (proj2 (Z.leb_gt _ _)), !(proj2 (Z.ltb_ge _ _)) in Her by lia. done. }
    assert (Hno : cs_errors s2 = cs_errors s1).
    { destruct Her as [?|[_ Her]]; [done|]. destruct Hs as (pl & pb & _ & _ & _ & _ & _ & _ & N1 & N2 & _).
      apply normalized_negation_spec in N1 as [T1 V1]; [|done]. apply normalized_negation_spec in N2 as [T2 V2]; [|done].
      rewrite (stored_dleb _ _ T1 stored_dzero), (stored_dleb _ _ T2 stored_dzero), ul_dzero in Her.
      rewrite !(proj2 (Z.leb_le _ _)) in Her by lia. done. }
    exists gl, g, ncl, nc, gc. split; [by apply (sell_amounts_same _ _ _ _ _ _ _ _ R1)|]. rewrite Hno, R3.
    split_and!; [done..|by apply (tr_fresh _ _ _ Htr)| |].
    { intros He. pose proof (tr_id _ _ _ Htr) as Hid. rewrite R9; [|rewrite Hno, R3; by apply (tr_fresh _ _ _ Htr)|done|by apply T, R8].
      rewrite Hst; [done..|]. rewrite (stored_dltb _ _ stored_dzero S1), ul_dzero. apply Z.ltb_lt. lia. }
    destruct R7 as [v Hv]; [rewrite Hno, R3; by apply (tr_fresh _ _ _ Htr)|].
    exists v, (cs_transaction s1). by rewrite Hv, Et.
Qed.

(** *** Histories of calculations *)

Definition start (t : CostBasisTransaction) (e : Engine) (errors : Errors) : Calc FifoState :=
  {| cs_transaction := t; cs_engine := e; cs_errors := errors |}.

(** A calculator that has processed trades one after the other, each purchase of which fits its book; [total] sums, over the accepted
    trades of the book [key], the signed quantity and the costs the calculator wrote on them. *)
Inductive ledger (key : BookKey) : Engine -> Errors -> Totals -> Prop :=
| ledger_init : ledger key (engine_init fifo_init) [] no_totals
| ledger_step e errors total t s' :
    ledger key e errors total -> trade t e errors -> calculate_transaction_costs (start t e errors) = (Ok tt, s') ->
    ledger key (cs_engine s') (cs_errors s') (booked key t s' total).

Lemma sell_moves t (s : FifoState) r gl g ncl nc gc s' :
  fifo_ok s -> stored (ct_quantity t) -> sell_amounts t r gl g ncl nc gc -> stored (dr_cost_local r) -> stored (dr_cost_base r) ->
  ul (dr_consumed_quantity r) = ul (ct_quantity t) ->
  fifo_consume_sell_quantity_with_allocations (ct_portfolio_id t) (ct_instrument_id t) (ct_quantity t) s = (Ok r, s') ->
  stored ncl /\ stored nc /\ ul ncl = - ul (dr_cost_local r) /\ ul nc = - ul (dr_cost_base r) /\
  books_move (transaction_key t) (- ul (ct_quantity t)) (ul ncl) (ul nc) s s'.
Proof.
  intros Hok Sq (pl & pb & _ & _ & _ & _ & _ & _ & N1 & N2 & _) Sl Sb Ec Hrun. apply books_move_sell in Hrun; [|done..].
  apply normalized_negation_spec in N1 as [T1 V1]; [|done]. apply normalized_negation_spec in N2 as [T2 V2]; [|done].
  rewrite Ec in Hrun. rewrite V1, V2. by split_and!.
Qed.

Lemma trade_step key t e errors s' total :
  fifo_ok (le_strategy e) -> trade t e errors -> calculate_transaction_costs (start t e errors) = (Ok tt, s') ->
  reconciles key (le_strategy e) total ->
  fifo_ok (le_strategy (cs_engine s')) /\ reconciles key (le_strategy (cs_engine s')) (booked key t s' total).
Proof.
  intros Hok Htr Hc Hr. unfold booked.
  destruct (tr_type _ _ _ Htr) as [(Hty & _)|Hty]; unfold signed_quantity; rewrite Hty.
  - destruct (buy_calculated t (start t e errors) s' eq_refl Htr Hty Hok Hc)
      as [[E1 E2]|(gc & ncl & nc & _ & _ & _ & _ & Hno & [Hok' Hmv] & v & t1 & _ & Et)]; [by rewrite E1, E2|].
    rewrite Hno. split; [done|]. specialize (Hmv key total Hr). rewrite Et. exact Hmv.
  - destruct (sell_calculated t (start t e errors) s' eq_refl Htr Hty Hok Hc)
      as [[E1 E2]|(r & gl & g & ncl & nc & gc & Hs & S1 & S2 & _ & Eq & Hrun & Hno & _ & v & t1 & _ & Et)]; [by rewrite E1, E2|].
    destruct (sell_moves t _ r gl g ncl nc gc _ Hok (tr_quantity _ _ _ Htr) Hs S1 S2 Eq Hrun) as (_ & _ & _ & _ & Hok' & Hmv).
    rewrite Hno. split; [done|]. specialize (Hmv key total Hr). rewrite Et. exact Hmv.
Qed.

Lemma ledger_balanced key e errors total : ledger key e errors total -> fifo_ok (le_strategy e) /\ reconciles key (le_strategy e) total.
Proof.
  induction 1 as [|e errors total t s' _ [Hok Hr] Htr Hc]; [|by eapply trade_step].
  split; [apply fifo_init_ok|]. destruct (fo_books _ fifo_init_ok key) as [ls Hls]. exists ls. split; [done|].
  destruct Hls as [[_ _ F _] _ _ _ _ _]. by inversion F.
Qed.

(** *** Properties *)

(** C1: The ledger reconciles with the lots.  Along every history of calculated security trades
    under FIFO, accepted or rejected in any mixture, whose purchases fit the book they are offered to,
    the open lots of a book hold exactly the quantity bought less sold, and their cost in local and in
    base currency is exactly the sum of the signed net costs the calculator wrote on the accepted
    transactions of that book.  A purchase fits ([lot_fits]) when no open lot of the book carries its
    identity and the quantity and both costs of the book with the new lot stay within the columns;
    the condition is needed, since a purchase that overflows the quantity is rejected and its lot
    stays in the queue ([refused_purchase_leaves_its_lot]). *)
Theorem ledger_reconciles_with_lots key e errors total :
  ledger key e errors total -> exists ls, book_ok key (le_strategy e) ls /\
    zsum (map lot_qty ls) = to_quantity total /\ zsum (map lot_local ls) = to_local total /\ zsum (map lot_base ls) = to_base total.
Proof. intros [_ (ls & Hb & <-)]%ledger_balanced. by exists ls. Qed.


(** What an accepted purchase books.  The local net cost is exactly gross plus fees plus accrued
    interest, the last unless the calculation policy excludes it; the base net cost is the local one
    at the transaction's rate, rounded once; the realised result is zero; and one lot enters the
    book with exactly that quantity and those costs. *)
Theorem purchase_books_its_cost t e errors s' fees :
  trade t e errors -> trade_type t = "BUY" -> fifo_ok (le_strategy e) ->
  stored (ct_gross_transaction_amount t) -> transaction_total_fees t = Ok fees -> stored fees -> stored (accrued_interest_or_zero t) ->
  calculate_transaction_costs (start t e errors) = (Ok tt, s') -> has_errors_for (ct_transaction_id t) (cs_errors s') = false ->
  exists ncl nc,
    ct_net_cost_local (cs_transaction s') = Some ncl /\
    ul ncl = ul (ct_gross_transaction_amount t) + ul fees +
             (if is_accrued_interest_excluded_from_book_cost t then 0 else ul (accrued_interest_or_zero t)) /\
    ct_net_cost (cs_transaction s') = Some nc /\ p_multiply policy ncl (transaction_fx_rate_or_one t) "net_cost" = Ok nc /\
    ct_realized_gain_loss (cs_transaction s') = Some dzero /\ ct_realized_gain_loss_local (cs_transaction s') = Some dzero /\
    books_move (transaction_key t) (ul (ct_quantity t)) (ul ncl) (ul nc) (le_strategy e) (le_strategy (cs_engine s')).
Proof.
  intros Htr Hty Hok Sg Hf Sf Sa Hc Hno.
  destruct (buy_calculated t (start t e errors) s' eq_refl Htr Hty Hok Hc)
    as [[_ E2]|(gc & ncl & nc & (fees' & before & F1 & _ & F2 & F3 & F4) & _ & _ & _ & _ & Hmv & v & t1 & _ & Et)]; [by rewrite E2 in Hno|].
  rewrite Hf in F1. injection F1 as <-. apply book_add in F2 as [Sb Eb]; [|done..].
  exists ncl, nc. rewrite Et. split_and!; try done. destruct (is_accrued_interest_excluded_from_book_cost t); [injection F3 as <-; lia|].
  apply book_add in F3 as [_ ->]; [|done..]. lia.
Qed.
End Ledger.

(** ** A small ledger

    Three units bought for 100, two sold for 90. *)
Definition wit_purchase : CostBasisTransaction := wit_buy "A" 3 100.
Definition wit_sale : CostBasisTransaction := set_transaction_type "SELL" (wit_buy "S" 2 90).
Definition wit_bought : Calc FifoState :=
  snd (@calculate_transaction_costs constant_hashing FifoState _ (start wit_purchase (engine_init fifo_init) [])).
Definition wit_sold : Calc FifoState :=
  snd (@calculate_transaction_costs constant_hashing FifoState _ (start wit_sale (cs_engine wit_bought) (cs_errors wit_bought))).

Lemma wit_bought_run : @calculate_transaction_costs constant_hashing FifoState _ (start wit_purchase (engine_init fifo_init) []) = (Ok tt, wit_bought).
Proof. vm_compute. reflexivity. Qed.
Lemma wit_sold_run :
  @calculate_transaction_costs constant_hashing FifoState _ (start wit_sale (cs_engine wit_bought) (cs_errors wit_bought)) = (Ok tt, wit_sold).
Proof. vm_compute. reflexivity. Qed.

Lemma wit_purchase_costs gc ncl nc : buy_costs wit_purchase gc ncl nc -> ul ncl = 100 * 10 ^ 10 /\ ul nc = 100 * 10 ^ 10.
Proof.
  intros (fees & before & H1 & _ & H3 & H4 & H5). vm_compute in H1. injection H1 as <-. vm_compute in H3. injection H3 as <-.
  vm_compute in H4. injection H4 as <-. vm_compute in H5. injection H5 as <-. by vm_compute.
Qed.

Lemma wit_purchase_trade : trade wit_purchase (engine_init fifo_init) [].
Proof.
  constructor; [vm_compute; reflexivity|apply stored_dint; lia|reflexivity|reflexivity|]. left. split_and!; [vm_compute; reflexivity|done..|].
  intros gc ncl nc [E1 E2]%wit_purchase_costs. destruct (fo_books _ fifo_init_ok ("P", "I")) as [ls Hls]. exists ls. split; [exact Hls|].
  destruct Hls as [[_ _ F _] _ _ _ _ _]. inversion F. cbn [map]. rewrite !zsum_nil, E1, E2. cbn [ct_quantity wit_purchase wit_buy].
  rewrite ul_dint by lia. split; [by intros ?%elem_of_nil|lia].
Qed.

Lemma wit_sale_trade : trade wit_sale (cs_engine wit_bought) (cs_errors wit_bought).
Proof.
  constructor; [vm_compute; reflexivity|apply stored_dint; lia|reflexivity|vm_compute; reflexivity|]. right. vm_compute. reflexivity.
Qed.

Lemma wit_fifo_ok : @ledger constant_hashing ("P", "I") (cs_engine wit_bought) (cs_errors wit_bought)
  (booked ("P", "I") wit_purchase wit_bought no_totals).
Proof. eapply ledger_step; [apply ledger_init|apply wit_purchase_trade|exact wit_bought_run]. Qed.

Lemma wit_engine_ok : engine_ok (cs_engine wit_bought).
Proof.
  eapply fr_ok, proj1, (calculate_outcome "A" (start wit_purchase (engine_init fifo_init) [])); [reflexivity| |exact wit_bought_run].
  apply engine_init_ok.
Qed.

Lemma start_engine_ok t (e : LotDispositionEngine FifoState) errors : engine_ok e -> engine_ok (cs_engine (start t e errors)).
Proof. done. Qed.

Lemma calculation_evidence_discipline_witness :
  nothing_staged "S" (cs_engine wit_sold) /\ od_get "S" (le_disposals (cs_engine wit_sold)) <> None /\
  has_errors_for "S" (cs_errors wit_sold) = false.
Proof.
  pose proof (@calculation_evidence_discipline constant_hashing FifoState _ (start wit_sale (cs_engine wit_bought) (cs_errors wit_bought)) (Ok tt) wit_sold
    (start_engine_ok _ _ _ wit_engine_ok) wit_sold_run) as H.
  destruct H as (_ & _ & _ & _ & _ & Hn & Hp).
  assert (Hpub : od_get "S" (le_disposals (cs_engine wit_sold)) <> None) by (vm_compute; discriminate).
  split; [apply Hn; vm_compute; split; reflexivity|]. split; [exact Hpub|].
  destruct Hp as [[E _]|[_ E]]; [|exact E]. exfalso. apply Hpub. etrans; [exact E|]. vm_compute. reflexivity.
Defined.

Lemma accepted_calculation_is_sealed_witness :
  exists input, @sealed constant_hashing input (cs_transaction wit_sold).
Proof.
  destruct (@accepted_calculation_is_sealed constant_hashing FifoState _ (start wit_sale (cs_engine wit_bought) (cs_errors wit_bought)) wit_sold
    (start_engine_ok _ _ _ wit_engine_ok) wit_sold_run) as (t & _ & Hs).
  - vm_compute. reflexivity.
  - eexists. exact Hs.
Defined.

Lemma ledger_reconciles_with_lots_witness :
  exists ls, book_ok ("P", "I") (le_strategy (cs_engine wit_sold)) ls /\ zsum (map lot_qty ls) = 1 * 10 ^ 10 /\
    zsum (map lot_base ls) = 333333333333.
Proof.
  destruct (@ledger_reconciles_with_lots constant_hashing constant_hashing_ok ("P", "I") _ _ _
    (@ledger_step constant_hashing _ _ _ _ _ _ wit_fifo_ok wit_sale_trade wit_sold_run)) as (ls & Hb & E1 & _ & E3).
  exists ls. split; [exact Hb|]. rewrite E1, E3. vm_compute. split; reflexivity.
Defined.


Lemma purchase_books_its_cost_witness :
  exists ncl, ct_net_cost_local (cs_transaction wit_bought) = Some ncl /\ ul ncl = 100 * 10 ^ 10.
Proof.
  destruct (@purchase_books_its_cost constant_hashing wit_purchase (engine_init fifo_init) [] wit_bought dzero wit_purchase_trade)
    as (ncl & nc & E & El & _).
  - vm_compute. reflexivity.
  - exact fifo_init_ok.
  - apply stored_dint; lia.
  - vm_compute. reflexivity.
  - apply stored_dzero.
  - apply stored_dzero.
  - exact wit_bought_run.
  - vm_compute. reflexivity.
  - exists ncl. split; [exact E|]. rewrite El. vm_compute. reflexivity.
Defined.

(** ** A purchase beyond the quantity column *)

(** 99,999,999 units are held; a purchase of two more does not fit NUMERIC(18, 10). *)
Definition wit_large : Calc FifoState :=
  snd (@calculate_transaction_costs constant_hashing FifoState _ (start (wit_buy "A" 99999999 100) (engine_init fifo_init) [])).
Definition wit_refused : Calc FifoState :=
  snd (@calculate_transaction_costs constant_hashing FifoState _ (start (wit_buy "B" 2 10) (cs_engine wit_large) (cs_errors wit_large))).

(** A purchase that the calculator rejects because the book's quantity would overflow has
    already entered the queue: the calculation returns with an error for the transaction, the
    available quantity is unchanged, and the book holds the rejected lot. *)
Theorem refused_purchase_leaves_its_lot :
  @calculate_transaction_costs constant_hashing FifoState _ (start (wit_buy "B" 2 10) (cs_engine wit_large) (cs_errors wit_large)) =
    (Ok tt, wit_refused) /\
  has_errors_for "B" (cs_errors wit_refused) = true /\
  available ("P", "I") (le_strategy (cs_engine wit_refused)) = available ("P", "I") (le_strategy (cs_engine wit_large)) /\
  length (book ("P", "I") (le_strategy (cs_engine wit_large))) = 1%nat /\
  map (fun r => option_map lot_transaction_id (fs_heap (le_strategy (cs_engine wit_refused)) !! r))
    (book ("P", "I") (le_strategy (cs_engine wit_refused))) = [Some "A"; Some "B"].
Proof. vm_compute. split_and!; reflexivity. Qed.
