(* ===== verification/DayCount.v ===== *)
(** * Day counts

    [portfolio_common/domain/valuation/day_count.py]: versioned day-count conventions and the year
    fraction of an interval. *)

From Stdlib Require Import ZArith Lia QArith Qabs Lqa String.
From stdpp Require Import base tactics list strings.
From S2P Require Import Prelude PyDecimal DecimalFacts PyTime Calendar Lineage.

#[local] Open Scope string_scope.
#[local] Open Scope Z_scope.

Definition DAY_COUNT_INTERMEDIATE_PRECISION : Z := 50.
Definition day_count_context : context := make_context DAY_COUNT_INTERMEDIATE_PRECISION ROUND_HALF_EVEN.

Inductive DayCountConvention :=
| ACTUAL_365_FIXED | ACTUAL_360 | BUSINESS_252 | THIRTY_360_US | THIRTY_E_360 | THIRTY_E_360_ISDA
| ACTUAL_ACTUAL_ISDA | ACTUAL_ACTUAL_ICMA.

#[export] Instance convention_eq_dec : EqDecision DayCountConvention.
Proof. solve_decision. Defined.

Definition convention_value (c : DayCountConvention) : string :=
  match c with
  | ACTUAL_365_FIXED => "ACT/365.FIXED" | ACTUAL_360 => "ACT/360" | BUSINESS_252 => "BUS/252"
  | THIRTY_360_US => "30/360.US" | THIRTY_E_360 => "30E/360" | THIRTY_E_360_ISDA => "30E/360.ISDA"
  | ACTUAL_ACTUAL_ISDA => "ACT/ACT.ISDA" | ACTUAL_ACTUAL_ICMA => "ACT/ACT.ICMA"
  end.

(** ** Inputs *)

Record BusinessDayCalendar := {
  bc_calendar_id : string; bc_calendar_version : string; bc_valid_from : date; bc_valid_to : date;
  bc_business_dates : list date; bc_source_system : string; bc_source_revision : string; bc_calendar_content_hash : string
}.

(** [business_dates] is a set: a list without duplicates. *)
Definition make_BusinessDayCalendar `{Hashing} (calendar_id calendar_version : string) (valid_from valid_to : date)
  (business_dates : list date) (source_system source_revision : string) : result BusinessDayCalendar :=
  _ ← raise_if (negb (truthy (strip calendar_id))) (ValueError "calendar_id must be nonblank");
  _ ← raise_if (negb (truthy (strip calendar_version))) (ValueError "calendar_version must be nonblank");
  _ ← raise_if (negb (truthy (strip source_system))) (ValueError "source_system must be nonblank");
  _ ← raise_if (negb (truthy (strip source_revision))) (ValueError "source_revision must be nonblank");
  _ ← raise_if (valid_to <? valid_from) (ValueError "calendar valid_to must be on or after valid_from");
  _ ← raise_if (existsb (fun day => (day <? valid_from) || (valid_to <? day)) business_dates)
        (ValueError "business_dates must fall within the calendar validity window");
  hash ← canonical_content_hash
    (PMap [("business_dates", PSet (map PDate business_dates)); ("calendar_id", PStr (strip calendar_id));
           ("calendar_version", PStr (strip calendar_version)); ("source_revision", PStr (strip source_revision));
           ("source_system", PStr (strip source_system)); ("valid_from", PDate valid_from); ("valid_to", PDate valid_to)]);
  Ok {| bc_calendar_id := calendar_id; bc_calendar_version := calendar_version; bc_valid_from := valid_from;
        bc_valid_to := valid_to; bc_business_dates := business_dates; bc_source_system := source_system;
        bc_source_revision := source_revision; bc_calendar_content_hash := hash |}.

Record IcmaReferencePeriod := { ir_reference_start : date; ir_reference_end : date; ir_coupon_frequency_per_year : Z }.

#[export] Instance IcmaReferencePeriod_eq_dec : EqDecision IcmaReferencePeriod.
Proof. solve_decision. Defined.

Definition make_IcmaReferencePeriod (reference_start reference_end : date) (frequency : Z) : result IcmaReferencePeriod :=
  _ ← raise_if (reference_end <=? reference_start) (ValueError "reference_end must be after reference_start");
  _ ← raise_if (frequency <? 1) (ValueError "coupon_frequency_per_year must be positive");
  Ok {| ir_reference_start := reference_start; ir_reference_end := reference_end; ir_coupon_frequency_per_year := frequency |}.

Record DayCountInputs := {
  di_period_start : date; di_period_end : date; di_business_day_calendar : option BusinessDayCalendar;
  di_contractual_termination_date : option date; di_icma_reference_periods : list IcmaReferencePeriod
}.

Definition make_DayCountInputs (i : DayCountInputs) : result DayCountInputs :=
  _ ← raise_if (di_period_end i <? di_period_start i) (ValueError "period_end must be on or after period_start");
  _ ← raise_if (match di_contractual_termination_date i with Some d => d <? di_period_end i | None => false end)
        (ValueError "contractual_termination_date cannot precede period_end");
  Ok i.

(** ** The catalogue *)

Record DayCountConventionDefinition := {
  dc_convention : DayCountConvention; dc_convention_version : Z; dc_denominator : option Z; dc_requires_business_day_calendar : bool
}.

Definition CONVENTIONS : list DayCountConventionDefinition :=
  [{| dc_convention := ACTUAL_365_FIXED; dc_convention_version := 1; dc_denominator := Some 365; dc_requires_business_day_calendar := false |};
   {| dc_convention := ACTUAL_360; dc_convention_version := 1; dc_denominator := Some 360; dc_requires_business_day_calendar := false |};
   {| dc_convention := BUSINESS_252; dc_convention_version := 1; dc_denominator := Some 252; dc_requires_business_day_calendar := true |};
   {| dc_convention := THIRTY_360_US; dc_convention_version := 1; dc_denominator := Some 360; dc_requires_business_day_calendar := false |};
   {| dc_convention := THIRTY_360_US; dc_convention_version := 2; dc_denominator := Some 360; dc_requires_business_day_calendar := false |};
   {| dc_convention := THIRTY_E_360; dc_convention_version := 1; dc_denominator := Some 360; dc_requires_business_day_calendar := false |};
   {| dc_convention := THIRTY_E_360_ISDA; dc_convention_version := 1; dc_denominator := Some 360; dc_requires_business_day_calendar := false |};
   {| dc_convention := ACTUAL_ACTUAL_ISDA; dc_convention_version := 1; dc_denominator := None; dc_requires_business_day_calendar := false |};
   {| dc_convention := ACTUAL_ACTUAL_ICMA; dc_convention_version := 1; dc_denominator := None; dc_requires_business_day_calendar := false |}].

Definition supported_day_count_conventions : list DayCountConventionDefinition := CONVENTIONS.

Definition CONVENTIONS_BY_KEY : list (string * Z * DayCountConventionDefinition) :=
  fold_left (fun d c => od_set (convention_value (dc_convention c), dc_convention_version c) c d) CONVENTIONS [].

Definition resolve_day_count_convention (convention : string) (convention_version : Z) : result DayCountConventionDefinition :=
  let normalized_convention := upper (strip convention) in
  if negb (truthy normalized_convention) then Raise (ValueError "convention must be nonblank") else
  if convention_version <? 1 then Raise (ValueError "convention_version must be positive") else
  match od_get (normalized_convention, convention_version) CONVENTIONS_BY_KEY with
  | Some d => Ok d
  | None => Raise (UnsupportedDayCountError ("unsupported day-count convention: " +:+ normalized_convention +:+ "@" +:+
                     string_of_Z convention_version))
  end.

(** ** Numerators *)

Definition ratio (numerator denominator : Z) : result decimal := ddiv day_count_context (dint numerator) (dint denominator).

Definition thirty_360_numerator (period_start period_end : date) (start_day end_day : Z) : Z :=
  360 * (date_year period_end - date_year period_start) + 30 * (date_month period_end - date_month period_start) + end_day - start_day.

Definition is_last_day_of_month (value : date) : result bool :=
  if date_month value =? 12 then Ok (date_day value =? 31) else
  next ← make_date (date_year value) (date_month value + 1) 1;
  last ← date_sub_days next 1;
  Ok (date_day value =? date_day last).

Definition is_last_day_of_february (value : date) : result bool :=
  if date_month value =? 2 then is_last_day_of_month value else Ok false.

Definition thirty_360_us_days (period_start period_end : date) (adjust_paired_february_eom : bool) : result Z :=
  start_feb ← is_last_day_of_february period_start;
  end_feb ← (if adjust_paired_february_eom && start_feb then is_last_day_of_february period_end else Ok false);
  let end_day := if (end_feb : bool) then 30 else date_day period_end in
  let start_day := if start_feb || (date_day period_start =? 31) then 30 else date_day period_start in
  let end_day := if (start_day =? 30) && (end_day =? 31) then 30 else end_day in
  Ok (thirty_360_numerator period_start period_end start_day end_day).

Definition thirty_e_360_days (period_start period_end : date) : Z :=
  thirty_360_numerator period_start period_end (Z.min (date_day period_start) 30) (Z.min (date_day period_end) 30).

Definition thirty_e_360_isda_days (i : DayCountInputs) : result Z :=
  match di_contractual_termination_date i with
  | None => Raise (UnsupportedDayCountError "30E/360.ISDA requires the contractual termination date")
  | Some termination_date =>
      let period_start := di_period_start i in
      let period_end := di_period_end i in
      start_last ← is_last_day_of_month period_start;
      let start_day := if (start_last : bool) then 30 else date_day period_start in
      let is_february_termination := (date_month period_end =? 2) && (period_end =? termination_date) in
      end_last ← is_last_day_of_month period_end;
      let end_day := if end_last && negb is_february_termination then 30 else date_day period_end in
      Ok (thirty_360_numerator period_start period_end start_day end_day)
  end.

Definition business_day_count (i : DayCountInputs) : result Z :=
  match di_business_day_calendar i with
  | None => Raise (UnsupportedDayCountError "BUS/252 requires an authoritative business-day calendar")
  | Some c =>
      if (di_period_start i <? bc_valid_from c) || (bc_valid_to c <? di_period_end i)
      then Raise (UnsupportedDayCountError "business-day calendar does not cover the calculation interval")
      else Ok (Z.of_nat (length (List.filter (fun d => (di_period_start i <=? d) && (d <? di_period_end i)) (bc_business_dates c))))
  end.

(** ** Actual/actual *)

(** The [while] loop; the fuel bounds the number of calendar years. *)
Fixpoint isda_loop (fuel : nat) (segment_start period_end : date) (fraction : decimal) : result decimal :=
  if negb (segment_start <? period_end) then Ok fraction else
  match fuel with
  | O => Raise (RuntimeError "unreachable")
  | S fuel' =>
      segment_end ← (if date_year segment_start =? date_year period_end then Ok period_end
                     else make_date (date_year segment_start + 1) 1 1);
      let denominator := if isleap (date_year segment_start) then 366 else 365 in
      quotient ← ddiv day_count_context (dint (segment_end - segment_start)) (dint denominator);
      fraction ← dadd day_count_context fraction quotient;
      isda_loop fuel' segment_end period_end fraction
  end.

Definition actual_actual_isda_fraction (period_start period_end : date) : result decimal :=
  fraction ← isda_loop (Z.to_nat (date_year period_end - date_year period_start + 1)) period_start period_end dzero;
  dfix day_count_context fraction.

Definition reference_leb (x y : IcmaReferencePeriod) : bool :=
  (ir_reference_start x <? ir_reference_start y) ||
  ((ir_reference_start x =? ir_reference_start y) && (ir_reference_end x <=? ir_reference_end y)).

Definition ICMA_COVERAGE_ERROR : exc :=
  UnsupportedDayCountError "ICMA reference periods must cover the calculation interval exactly once".

Definition icma_step (period_start period_end : date) (acc : date * decimal) (r : IcmaReferencePeriod) : result (date * decimal) :=
  let '(covered_until, fraction) := acc in
  let overlap_start := Z.max period_start (ir_reference_start r) in
  let overlap_end := Z.min period_end (ir_reference_end r) in
  if overlap_end <=? overlap_start then Ok acc else
  if negb (overlap_start =? covered_until) then Raise ICMA_COVERAGE_ERROR else
  let reference_days := ir_reference_end r - ir_reference_start r in
  let overlap_days := overlap_end - overlap_start in
  quotient ← ddiv day_count_context (dint overlap_days) (dint (reference_days * ir_coupon_frequency_per_year r));
  fraction ← dadd day_count_context fraction quotient;
  Ok (overlap_end, fraction).

Definition actual_actual_icma_fraction (i : DayCountInputs) : result decimal :=
  match di_icma_reference_periods i with
  | [] => Raise (UnsupportedDayCountError "ACT/ACT.ICMA requires authoritative coupon reference periods")
  | _ =>
      '(covered_until, fraction) ← foldM (icma_step (di_period_start i) (di_period_end i)) (di_period_start i, dzero)
                                     (stable_sort reference_leb (di_icma_reference_periods i));
      if negb (covered_until =? di_period_end i) then Raise ICMA_COVERAGE_ERROR
      else dfix day_count_context fraction
  end.

(** ** The year fraction *)

Definition calculate_year_fraction (convention : string) (convention_version : Z) (i : DayCountInputs) : result decimal :=
  definition ← resolve_day_count_convention convention convention_version;
  let s := di_period_start i in
  let e := di_period_end i in
  if s =? e then Ok dzero else
  if decide (dc_convention definition = ACTUAL_ACTUAL_ISDA) then actual_actual_isda_fraction s e else
  if decide (dc_convention definition = ACTUAL_ACTUAL_ICMA) then actual_actual_icma_fraction i else
  numerator ← (if decide (dc_convention definition = THIRTY_360_US) then thirty_360_us_days s e (dc_convention_version definition =? 2)
               else if decide (dc_convention definition = THIRTY_E_360) then Ok (thirty_e_360_days s e)
               else if decide (dc_convention definition = THIRTY_E_360_ISDA) then thirty_e_360_isda_days i
               else if dc_requires_business_day_calendar definition then business_day_count i
               else Ok (e - s));
  match dc_denominator definition with
  | None => Raise (RuntimeError "fixed-denominator convention is missing its denominator")
  | Some d => ratio numerator d
  end.
