(* ===== verification/DayCountFacts.v ===== *)
(** * What the year fractions are

    Every convention computes its defining quotient up to the rounding of 50 digits, the loop over
    calendar years ends within its bound, and the coupon-based convention accepts exactly the
    reference periods that cover each day of the interval once. *)

From Stdlib Require Import ZArith Lia ZifyBool QArith Qabs Lqa String Sorted.
From stdpp Require Import base tactics list numbers strings sets.
From S2P Require Import Prelude PyDecimal DecimalFacts PyTime Calendar Lineage DayCount.

#[local] Open Scope string_scope.
#[local] Open Scope Z_scope.

#[local] Notation ctx := day_count_context.
#[local] Opaque civil_of_days days_of_civil date_year date_month date_day jan1 first_of_month.

(** ** Rounding in the day-count context *)

Definition eps : Q := pow10 (-43).

Lemma day_count_context_wide : wide ctx.
Proof. by apply make_context_wide. Qed.

Lemma ctx_prec : prec ctx = 50.
Proof. reflexivity. Qed.

Lemma fix_near d r : (Qabs (dval d) < pow10 7)%Q -> dfix ctx d = Ok r -> (Qabs (dval r - dval d) <= (1 # 2) * eps)%Q.
Proof. intros Hd Hr. apply (dfix_near ctx 7 d r); [by rewrite ctx_prec|done|by vm_compute|done|done]. Qed.

Lemma add_near acc q : (0 <= dval acc -> 0 <= dval q -> dval acc + dval q < pow10 7 ->
  exists s, dadd ctx acc q = Ok s /\ 0 <= dval s /\ Qabs (dval s - (dval acc + dval q)) <= (1 # 2) * eps)%Q.
Proof.
  intros Ha Hq Hs. unfold dadd. pose proof (add_exact_val acc q) as Hv.
  assert (Hp : (Qabs (dval (add_exact acc q)) < pow10 7)%Q) by (rewrite Hv, Qabs_pos; lra).
  destruct (dfix_Ok ctx (add_exact acc q) day_count_context_wide) as [s Hr].
  { eapply Qlt_trans; [exact Hp|]. by apply pow10_lt_mono. }
  exists s. split; [done|]. split; [eapply dfix_nonneg; [| |exact Hr]; [rewrite ctx_prec; lia|rewrite Hv; lra]|].
  rewrite <- Hv. by apply fix_near.
Qed.

Lemma div_near n m : 0 <= n -> 1 <= m <= 10 ^ 12 -> n <= 10 ^ 6 * m ->
  exists q, ddiv ctx (dint n) (dint m) = Ok q /\ (0 <= dval q)%Q /\ (Qabs (dval q - inject_Z n / inject_Z m) <= eps)%Q.
Proof.
  intros Hn Hm Hnm. pose proof (pow10_pos (-43)) as He. fold eps in He.
  assert (Pm : (0 < inject_Z m)%Q) by (change 0%Q with (inject_Z 0); rewrite <- Zlt_Qlt; lia).
  destruct (Z.eq_dec n 0) as [->|Hz].
  - unfold ddiv. rewrite (proj2 (Z.eqb_neq _ 0)) by (cbn; lia). eexists. split; [reflexivity|].
    assert (E : (dval (Dec 0 (Z.min (Z.max (0 - 0) (Etiny ctx)) (Emax ctx))) == 0)%Q) by (by apply dval_zero_iff).
    rewrite E. change (inject_Z 0) with 0%Q. split; [lra|]. unfold Qdiv. rewrite Qmult_0_l. change (Qabs (0 - 0)) with 0%Q. lra.
  - set (t := (inject_Z n / inject_Z m)%Q).
    assert (Ht : (dval (dint n) / dval (dint m) == t)%Q) by (unfold t; by rewrite !dval_dint).
    assert (Hlo : (pow10 (-12) <= t)%Q).
    { unfold t. apply Qle_shift_div_l; [done|]. change (pow10 (-12)) with (/ inject_Z (10 ^ 12))%Q.
      apply Qle_trans with (inject_Z 1); [|rewrite <- Zle_Qle; lia].
      apply Qmult_le_l with (z := inject_Z (10 ^ 12)); [done|]. rewrite Qmult_assoc, Qmult_inv_r, Qmult_1_l, Qmult_1_r by done.
      rewrite <- Zle_Qle. lia. }
    assert (Hhi : (t <= pow10 6)%Q).
    { unfold t. apply Qle_shift_div_r; [done|]. change (pow10 6) with (inject_Z (10 ^ 6)). rewrite <- inject_Z_mult, <- Zle_Qle. lia. }
    pose proof (pow10_pos (-12)) as H12. assert (Ha : (Qabs t == t)%Q) by (apply Qabs_pos; lra).
    destruct (ddiv_Ok ctx (dint n) (dint m) day_count_context_wide) as [q Hq]; [cbn; lia| |].
    { rewrite Ht, Ha. eapply Qle_lt_trans; [exact Hhi|]. by apply pow10_lt_mono. }
    exists q. split; [done|]. pose proof (ddiv_error ctx (dint n) (dint m) q day_count_context_wide) as Herr. rewrite Ht, Ha in Herr.
    specialize (Herr ltac:(rewrite ctx_prec; lia) eq_refl). specialize (Herr ltac:(eapply Qle_trans; [|exact Hlo]; by apply pow10_mono) Hq).
    change (pow10 (1 - prec ctx)) with (pow10 (-43 + -6)) in Herr. rewrite pow10_add in Herr. fold eps in Herr.
    assert (P5 : (pow10 (-6) * pow10 6 == 1)%Q) by reflexivity. pose proof (pow10_pos (-6)).
    assert (Hb : (pow10 (-6) * t <= 1)%Q) by nra. assert (Hb0 : (0 <= pow10 (-6) * t)%Q) by nra.
    assert (Heps : (eps <= 1 # 2)%Q) by (by vm_compute).
    split; [|nra]. apply Qabs_Qle_condition in Herr as [Herr _].
    assert (eps * pow10 (-6) * t <= t)%Q; [|lra].
    assert (eps * pow10 (-6) <= 1)%Q by (by vm_compute). nra.
Qed.

(** A sum built so far: not negative, and [exact] up to [k] roundings. *)
Definition close_to (k : Z) (exact : Q) (acc : decimal) : Prop := (0 <= dval acc /\ Qabs (dval acc - exact) <= inject_Z k * eps)%Q.

Lemma close_to_weaken k k' x y acc : k <= k' -> (x == y)%Q -> close_to k x acc -> close_to k' y acc.
Proof.
  intros Hk Hx [Ha Hn]. split; [done|]. rewrite <- Hx. eapply Qle_trans; [exact Hn|].
  apply Qmult_le_compat_r; [by rewrite <- Zle_Qle|]. apply Qlt_le_weak, pow10_pos.
Qed.

Lemma share_le_1 n m : n <= m -> 1 <= m -> (inject_Z n / inject_Z m <= 1)%Q.
Proof.
  intros H Hm. apply Qle_shift_div_r; [change 0%Q with (inject_Z 0); rewrite <- Zlt_Qlt; lia|]. by rewrite Qmult_1_l, <- Zle_Qle.
Qed.

(** A quotient is added to a sum within two roundings. *)
Lemma quotient_added acc exact k n m : close_to k exact acc -> (exact <= 4000000)%Q -> 0 <= k <= 10 ^ 7 -> 0 <= n <= m -> 1 <= m <= 10 ^ 12 ->
  exists q acc', ddiv ctx (dint n) (dint m) = Ok q /\ dadd ctx acc q = Ok acc' /\ close_to (k + 2) (exact + inject_Z n / inject_Z m) acc'.
Proof.
  intros [Ha Hk] Hx Bk Hn Hm. destruct (div_near n m) as (q & Hq & Pq & Eq); [lia..|].
  assert (Ht : (inject_Z n / inject_Z m <= 1)%Q) by (apply share_le_1; lia). set (t := (inject_Z n / inject_Z m)%Q) in *.
  assert (He : (eps <= 1 # 100000000)%Q) by (by vm_compute). assert (P : (0 < eps)%Q) by apply pow10_pos.
  assert (Hkk : (inject_Z k <= 10000000)%Q) by (change 10000000%Q with (inject_Z 10000000); rewrite <- Zle_Qle; lia).
  apply Qabs_Qle_condition in Hk as [K1 K2]. apply Qabs_Qle_condition in Eq as [E1 E2].
  destruct (add_near acc q Ha Pq) as (acc' & Hacc & Pa & Er).
  { change (pow10 7) with 10000000%Q. nra. }
  exists q, acc'. split; [done|]. split; [done|]. split; [done|]. apply Qabs_Qle_condition in Er as [R1 R2].
  apply Qabs_Qle_condition. rewrite inject_Z_plus. change (inject_Z 2) with 2%Q. split; nra.
Qed.

(** The unary plus that ends a sum. *)
Lemma sum_rounded acc exact k : close_to k exact acc -> (0 <= exact <= 4000000)%Q -> 0 <= k <= 10 ^ 7 ->
  exists r, dfix ctx acc = Ok r /\ close_to (k + 1) exact r.
Proof.
  intros [Ha Hk] Hx Bk. assert (He : (eps <= 1 # 100000000)%Q) by (by vm_compute). assert (P : (0 < eps)%Q) by apply pow10_pos.
  assert (Hkk : (inject_Z k <= 10000000)%Q) by (change 10000000%Q with (inject_Z 10000000); rewrite <- Zle_Qle; lia).
  apply Qabs_Qle_condition in Hk as [K1 K2].
  assert (Hp : (Qabs (dval acc) < pow10 7)%Q) by (rewrite Qabs_pos by done; change (pow10 7) with 10000000%Q; nra).
  destruct (dfix_Ok ctx acc day_count_context_wide) as [r Hr]; [eapply Qlt_trans; [exact Hp|]; by apply pow10_lt_mono|].
  exists r. split; [done|]. split; [eapply dfix_nonneg; [| |exact Hr]; [rewrite ctx_prec; lia|done]|].
  pose proof (fix_near acc r Hp Hr) as E. apply Qabs_Qle_condition in E as [E1 E2]. apply Qabs_Qle_condition.
  rewrite inject_Z_plus. change (inject_Z 1) with 1%Q. split; nra.
Qed.

(** ** Actual/actual by calendar years *)

Definition qsum (xs : list Q) : Q := foldr Qplus 0%Q xs.

(** The days of the interval in a year, and the exact fraction: days by the length of their year. *)
Definition year_length (y : Z) : Z := jan1 (y + 1) - jan1 y.
Definition overlap (s e : date) (y : Z) : Z := Z.max 0 (Z.min e (jan1 (y + 1)) - Z.max s (jan1 y)).
Definition year_share (s e : date) (y : Z) : Q := inject_Z (overlap s e y) / inject_Z (year_length y).
Definition isda_exact (s e : date) : Q := qsum (map (year_share s e) (seqZ (date_year s) (date_year e - date_year s + 1))).

Lemma year_length_spec y : year_length y = if isleap y then 366 else 365.
Proof. unfold year_length. rewrite jan1_step. destruct (isleap y); lia. Qed.

Lemma year_length_pos y : 365 <= year_length y <= 366.
Proof. rewrite year_length_spec. destruct (isleap y); lia. Qed.

Lemma year_share_bounds s e y : (0 <= year_share s e y <= 1)%Q.
Proof.
  unfold year_share. pose proof (year_length_pos y). assert (P : (0 < inject_Z (year_length y))%Q)
    by (change 0%Q with (inject_Z 0); rewrite <- Zlt_Qlt; lia).
  split; [apply Qle_shift_div_l; [done|]; rewrite Qmult_0_l; change 0%Q with (inject_Z 0)|apply Qle_shift_div_r; [done|]; rewrite Qmult_1_l];
    rewrite <- Zle_Qle; unfold overlap, year_length; pose proof (jan1_mono y (y + 1)); lia.
Qed.

Lemma qsum_nonneg xs : Forall (fun x => 0 <= x)%Q xs -> (0 <= qsum xs)%Q.
Proof. unfold qsum. induction 1; cbn in *; lra. Qed.

Lemma qsum_zero xs : Forall (fun x => x == 0)%Q xs -> (qsum xs == 0)%Q.
Proof. unfold qsum. induction 1; cbn in *; lra. Qed.

Lemma qsum_proper f g (ys : list Z) : (forall y, y ∈ ys -> f y == g y)%Q -> (qsum (map f ys) == qsum (map g ys))%Q.
Proof.
  induction ys as [|y ys IH]; intros H; cbn; [done|]. rewrite (H y) by (by apply elem_of_cons; left).
  rewrite IH; [done|]. intros z Hz. apply H. by apply elem_of_cons; right.
Qed.

Lemma isda_exact_empty e : (isda_exact e e == 0)%Q.
Proof.
  apply qsum_zero, Forall_map, Forall_forall. intros y _. unfold year_share, overlap. pose proof (jan1_mono y (y + 1)).
  replace (Z.max 0 (Z.min e (jan1 (y + 1)) - Z.max e (jan1 y))) with 0 by lia. unfold Qdiv. by rewrite Qmult_0_l.
Qed.

(** The interval within one year. *)
Lemma isda_exact_same s e : s <= e -> date_year s = date_year e ->
  (isda_exact s e == inject_Z (e - s) / inject_Z (year_length (date_year s)))%Q.
Proof.
  intros Hse Hy. unfold isda_exact. rewrite Hy. replace (date_year e - date_year e + 1) with 1 by lia.
  rewrite seqZ_cons, seqZ_nil by lia. cbn. rewrite Qplus_0_r. unfold year_share, overlap.
  pose proof (date_in_year s). pose proof (date_in_year e). rewrite Hy in *.
  replace (Z.max 0 (Z.min e (jan1 (date_year e + 1)) - Z.max s (jan1 (date_year e)))) with (e - s) by lia. reflexivity.
Qed.

(** The first year of the interval and the rest. *)
Lemma isda_exact_step s e : s <= e -> date_year s < date_year e ->
  let next := jan1 (date_year s + 1) in
  date_year next = date_year s + 1 /\ s < next <= e /\
  (isda_exact s e == inject_Z (next - s) / inject_Z (year_length (date_year s)) + isda_exact next e)%Q.
Proof.
  intros Hse Hy next. pose proof (date_in_year s) as Hs. pose proof (date_in_year e) as He.
  pose proof (jan1_mono (date_year s + 1) (date_year e) ltac:(lia)) as Hj. fold next in Hs, Hj.
  pose proof (year_length_pos (date_year s + 1)) as Hl.
  assert (En : date_year next = date_year s + 1) by (apply date_year_unique; unfold next, year_length in *; lia).
  split; [done|]. split; [lia|]. unfold isda_exact at 1. rewrite seqZ_cons by lia. cbn [map qsum foldr].
  fold (qsum (map (year_share s e) (seqZ (Z.succ (date_year s)) (Z.pred (date_year e - date_year s + 1))))).
  apply Qplus_comp.
  - unfold year_share, overlap. fold next. replace (Z.max 0 (Z.min e next - Z.max s (jan1 (date_year s)))) with (next - s) by lia. reflexivity.
  - unfold isda_exact. rewrite En. replace (Z.pred (date_year e - date_year s + 1)) with (date_year e - (date_year s + 1) + 1) by lia.
    apply qsum_proper. intros y Hy'. apply elem_of_seqZ in Hy'. unfold year_share, overlap.
    pose proof (jan1_mono (date_year s + 1) y ltac:(lia)) as Hm. fold next in Hm.
    replace (Z.max s (jan1 y)) with (Z.max next (jan1 y)) by lia. reflexivity.
Qed.

Lemma isda_loop_done fuel e acc : isda_loop fuel e e acc = Ok acc.
Proof. by destruct fuel; cbn; rewrite Z.ltb_irrefl. Qed.

(** One pass of the loop. *)
Lemma isda_loop_pass fuel (s e next : date) (q acc acc' : decimal) : s < e ->
  (if date_year s =? date_year e then Ok e else make_date (date_year s + 1) 1 1) = Ok next ->
  ddiv ctx (dint (next - s)) (dint (if isleap (date_year s) then 366 else 365)) = Ok q -> dadd ctx acc q = Ok acc' ->
  isda_loop (S fuel) s e acc = isda_loop fuel next e acc'.
Proof. intros Hl Hn Hq Ha. cbn [isda_loop]. rewrite (proj2 (Z.ltb_lt s e) Hl). cbn [negb]. by run_ok. Qed.

Lemma isda_loop_near n : forall s e acc exact k,
  s <= e -> in_range s -> in_range e -> n = Z.to_nat (date_year e - date_year s) ->
  close_to k exact acc -> (exact + inject_Z (date_year e - date_year s) <= 10000)%Q ->
  0 <= k -> k + 2 * (date_year e - date_year s) <= 10 ^ 7 ->
  exists r, isda_loop (S n) s e acc = Ok r /\ close_to (k + 2 * (date_year e - date_year s + 1)) (exact + isda_exact s e) r.
Proof.
  induction n as [|n IH]; intros s e acc exact k Hse Rs Re Hn Hk Bx Pk Bk; pose proof (date_year_mono s e Hse) as Hmono;
    (destruct (Z.eq_dec s e) as [<-|Hne];
      [exists acc; split; [apply isda_loop_done|]; eapply close_to_weaken; [| |exact Hk]; [lia|]; by rewrite isda_exact_empty, Qplus_0_r|]).
  - assert (Hy : date_year s = date_year e) by lia.
    pose proof (date_in_year s). pose proof (date_in_year e). rewrite <- Hy in *.
    pose proof (year_length_pos (date_year s)). fold (year_length (date_year s)) in *.
    destruct (quotient_added acc exact k (e - s) (year_length (date_year s)) Hk) as (q & acc' & Hq & Ha & Hc); [|lia|unfold year_length in *; lia|lia|].
    { replace (date_year s - date_year s) with 0 in Bx by lia. change (inject_Z 0) with 0%Q in Bx. lra. }
    rewrite year_length_spec in Hq.
    exists acc'. split; [rewrite (isda_loop_pass _ s e e q acc acc'); [apply isda_loop_done|lia|by rewrite <- Hy, Z.eqb_refl|done|done]|].
    eapply close_to_weaken; [| |exact Hc]; [lia|]. by rewrite isda_exact_same by lia.
  - assert (Hy : date_year s < date_year e) by lia. destruct (isda_exact_step s e Hse Hy) as (En & Hnext & Hx). pose proof (year_in_range s Rs). pose proof (year_in_range e Re).
    pose proof (date_in_year s). pose proof (year_length_pos (date_year s)).
    set (next := jan1 (date_year s + 1)) in *.
    assert (Hlen : next - s <= year_length (date_year s)) by (unfold next, year_length in *; lia).
    replace (date_year e - date_year s) with (1 + (date_year e - date_year next)) in Bx by lia. rewrite inject_Z_plus in Bx.
    assert (0 <= inject_Z (date_year e - date_year next))%Q by (change 0%Q with (inject_Z 0); rewrite <- Zle_Qle; lia).
    change (inject_Z 1) with 1%Q in Bx.
    destruct (quotient_added acc exact k (next - s) (year_length (date_year s)) Hk) as (q & acc' & Hq & Ha & Hc); [lra|lia|lia|lia|].
    rewrite year_length_spec in Hq.
    destruct (IH next e acc' _ (k + 2) ltac:(lia) ltac:(unfold in_range in *; lia) Re ltac:(lia) Hc) as (r & Hr & Hcr); [|lia|lia|].
    { pose proof (share_le_1 _ _ Hlen ltac:(lia)). lra. }
    exists r. split; [rewrite (isda_loop_pass _ s e next q acc acc'); [exact Hr|lia|rewrite (proj2 (Z.eqb_neq _ _)) by lia; apply make_jan1; lia|done|done]|].
    eapply close_to_weaken; [| |exact Hcr]; [lia|]. rewrite Hx. lra.
Qed.

Lemma qsum_le xs : Forall (fun x => x <= 1)%Q xs -> (qsum xs <= inject_Z (Z.of_nat (length xs)))%Q.
Proof.
  unfold qsum. induction 1 as [|x xs H _ IH]; [done|]. cbn [length foldr]. rewrite Nat2Z.inj_succ. unfold Z.succ. rewrite inject_Z_plus.
  change (inject_Z 1) with 1%Q. lra.
Qed.

Lemma isda_exact_bounds s e : in_range s -> in_range e -> s <= e -> (0 <= isda_exact s e <= 4000000)%Q.
Proof.
  intros Rs Re Hse. pose proof (year_in_range s Rs). pose proof (year_in_range e Re). pose proof (date_year_mono s e Hse).
  unfold isda_exact. split.
  - apply qsum_nonneg, Forall_map, Forall_forall. intros y _. apply year_share_bounds.
  - eapply Qle_trans; [apply qsum_le, Forall_map, Forall_forall; intros y _; apply year_share_bounds|].
    rewrite length_map, length_seqZ. change 4000000%Q with (inject_Z 4000000). rewrite <- Zle_Qle. lia.
Qed.

Lemma isda_fraction_near s e : in_range s -> in_range e -> s <= e ->
  exists r, actual_actual_isda_fraction s e = Ok r /\ close_to 20001 (isda_exact s e) r.
Proof.
  intros Rs Re Hse. pose proof (year_in_range s Rs). pose proof (year_in_range e Re). pose proof (date_year_mono s e Hse).
  destruct (isda_loop_near (Z.to_nat (date_year e - date_year s)) s e dzero 0 0) as (acc & Hl & Hc);
    [done..| | |lia|lia|].
  { split; [done|]. by vm_compute. }
  { rewrite Qplus_0_l. change 10000%Q with (inject_Z 10000). rewrite <- Zle_Qle. lia. }
  pose proof (isda_exact_bounds s e Rs Re Hse) as Hb.
  destruct (sum_rounded acc (isda_exact s e) (2 * (date_year e - date_year s + 1))) as (r & Hr & Hcr); [|done|lia|].
  { eapply close_to_weaken; [| |exact Hc]; [lia|]. apply Qplus_0_l. }
  exists r. split; [|eapply close_to_weaken; [| |exact Hcr]; [lia|done]].
  unfold actual_actual_isda_fraction. replace (Z.to_nat _) with (S (Z.to_nat (date_year e - date_year s))) by lia.
  rewrite Hl. exact Hr.
Qed.

(** ** Actual/actual by coupon periods *)

Definition covers (d : date) (r : IcmaReferencePeriod) : bool := (ir_reference_start r <=? d) && (d <? ir_reference_end r).
Definition coverage (refs : list IcmaReferencePeriod) (d : date) : nat := length (List.filter (covers d) refs).

(** Every day of the interval lies in exactly one reference period. *)
Definition covered_once (s e : date) (refs : list IcmaReferencePeriod) : Prop := forall d, s <= d < e -> coverage refs d = 1%nat.

(** The days of the interval in a period, and the exact fraction: days by the length of their coupon year. *)
Definition period_days (s e : date) (r : IcmaReferencePeriod) : Z := Z.max 0 (Z.min e (ir_reference_end r) - Z.max s (ir_reference_start r)).
Definition coupon_year (r : IcmaReferencePeriod) : Z := (ir_reference_end r - ir_reference_start r) * ir_coupon_frequency_per_year r.
Definition period_share (s e : date) (r : IcmaReferencePeriod) : Q := inject_Z (period_days s e r) / inject_Z (coupon_year r).
Definition icma_exact (s e : date) (refs : list IcmaReferencePeriod) : Q := qsum (map (period_share s e) refs).

(** A reference period its constructor accepts, with a coupon frequency of at most daily thousands. *)
Definition period_ok (r : IcmaReferencePeriod) : Prop :=
  make_IcmaReferencePeriod (ir_reference_start r) (ir_reference_end r) (ir_coupon_frequency_per_year r) = Ok r /\
  in_range (ir_reference_start r) /\ in_range (ir_reference_end r) /\ ir_coupon_frequency_per_year r <= 10 ^ 5.

Lemma period_ok_spec r : period_ok r ->
  ir_reference_start r < ir_reference_end r /\ 1 <= ir_coupon_frequency_per_year r /\
  ir_reference_end r - ir_reference_start r <= coupon_year r /\ 1 <= coupon_year r <= 10 ^ 12.
Proof.
  intros (H & [S1 S2] & [E1 E2] & Hf). unfold make_IcmaReferencePeriod in H. inv_ok. apply Z.leb_gt in H0. apply Z.ltb_ge in H1.
  unfold coupon_year. change date_min with (-719162) in *. change date_max with 2932896 in *. split; [done|]. split; [done|]. nia.
Qed.

Lemma coverage_cons r refs d : coverage (r :: refs) d = ((if covers d r then 1 else 0) + coverage refs d)%nat.
Proof. unfold coverage. cbn. by destruct (covers d r). Qed.

Lemma coverage_later refs d : Forall (fun r => d < ir_reference_start r) refs -> coverage refs d = 0%nat.
Proof.
  induction 1 as [|r refs H _ IH]; [done|]. rewrite coverage_cons, IH. unfold covers. by rewrite (proj2 (Z.leb_gt _ _) H).
Qed.

Lemma covers_spec d r : covers d r = true <-> ir_reference_start r <= d < ir_reference_end r.
Proof. unfold covers. rewrite andb_true_iff, Z.leb_le, Z.ltb_lt. done. Qed.

Lemma covers_false d r : covers d r = false <-> d < ir_reference_start r \/ ir_reference_end r <= d.
Proof. unfold covers. rewrite andb_false_iff, Z.leb_gt, Z.ltb_ge. done. Qed.

(** What the walk over the sorted periods has found, from a day [c] up to which the interval is covered. *)
Definition walk_ok (s e c : date) (exact : Q) (refs : list IcmaReferencePeriod) (out : date * decimal) : Prop :=
  c <= fst out <= e /\ close_to (2 * (fst out - s)) (exact + icma_exact s e refs) (snd out) /\
  (forall d, s <= d < e -> coverage refs d = if (c <=? d) && (d <? fst out) then 1%nat else 0%nat) /\
  (exact + icma_exact s e refs <= inject_Z (fst out - s))%Q.

Definition walk_stuck (s e c : date) (refs : list IcmaReferencePeriod) : Prop :=
  exists d, s <= d < e /\ ((c <= d /\ coverage refs d <> 1%nat) \/ (d < c /\ (1 <= coverage refs d)%nat)).

Lemma icma_exact_cons s e r refs : icma_exact s e (r :: refs) = (period_share s e r + icma_exact s e refs)%Q.
Proof. reflexivity. Qed.

Lemma walk_skip s e c exact r refs out : Z.min e (ir_reference_end r) <= Z.max s (ir_reference_start r) ->
  walk_ok s e c exact refs out -> walk_ok s e c exact (r :: refs) out.
Proof.
  intros Hr (H1 & H2 & H3 & H4).
  assert (Hz : (exact + icma_exact s e (r :: refs) == exact + icma_exact s e refs)%Q).
  { rewrite icma_exact_cons. unfold period_share, period_days. rewrite (Z.max_l 0) by lia. unfold Qdiv. rewrite Qmult_0_l. lra. }
  split; [done|]. split; [eapply close_to_weaken; [| |exact H2]; [lia|by rewrite Hz]|]. split; [|by rewrite Hz].
  intros d Hd. rewrite coverage_cons, (H3 d Hd), (proj2 (covers_false d r)); [done|lia].
Qed.

Lemma stuck_skip s e c r refs : Z.min e (ir_reference_end r) <= Z.max s (ir_reference_start r) ->
  walk_stuck s e c refs -> walk_stuck s e c (r :: refs).
Proof.
  intros Hr (d & Hd & H). exists d. split; [done|]. by rewrite coverage_cons, (proj2 (covers_false d r)) by lia.
Qed.

Lemma walk_advance s e c exact r refs out : Z.max s (ir_reference_start r) = c -> c < Z.min e (ir_reference_end r) ->
  walk_ok s e (Z.min e (ir_reference_end r)) (exact + inject_Z (Z.min e (ir_reference_end r) - c) / inject_Z (coupon_year r)) refs out ->
  walk_ok s e c exact (r :: refs) out.
Proof.
  intros Hc Hr (H1 & H2 & H3 & H4).
  assert (Hz : (exact + icma_exact s e (r :: refs) ==
                exact + inject_Z (Z.min e (ir_reference_end r) - c) / inject_Z (coupon_year r) + icma_exact s e refs)%Q).
  { rewrite icma_exact_cons. unfold period_share, period_days. rewrite Hc, (Z.max_r 0) by lia. lra. }
  split; [lia|]. split; [eapply close_to_weaken; [| |exact H2]; [lia|by rewrite Hz]|]. split; [|by rewrite Hz].
  intros d Hd. rewrite coverage_cons, (H3 d Hd).
  destruct (covers d r) eqn:E; [apply covers_spec in E|apply covers_false in E];
    destruct (Z.leb_spec c d), (Z.leb_spec (Z.min e (ir_reference_end r)) d), (Z.ltb_spec d (fst out)); cbn; lia.
Qed.

Lemma stuck_advance s e c r refs : Z.max s (ir_reference_start r) = c -> c < Z.min e (ir_reference_end r) ->
  walk_stuck s e (Z.min e (ir_reference_end r)) refs -> walk_stuck s e c (r :: refs).
Proof.
  intros Hc Hr (d & Hd & H). exists d. split; [done|]. rewrite coverage_cons.
  destruct (covers d r) eqn:E; [apply covers_spec in E|apply covers_false in E]; lia.
Qed.

(** The next period leaves a gap, or covers a day again. *)
Lemma stuck_here s e c r refs : s <= c -> Z.max s (ir_reference_start r) <> c ->
  Z.max s (ir_reference_start r) < Z.min e (ir_reference_end r) -> Forall (fun r' => ir_reference_start r <= ir_reference_start r') refs ->
  walk_stuck s e c (r :: refs).
Proof.
  intros Hs Hc Hr Hf. destruct (Z.lt_ge_cases (Z.max s (ir_reference_start r)) c) as [Hlt|Hge].
  - exists (Z.max s (ir_reference_start r)). split; [lia|]. right. split; [done|]. rewrite coverage_cons, (proj2 (covers_spec _ _)) by lia. lia.
  - exists c. split; [lia|]. left. split; [lia|]. rewrite coverage_later; [done|]. constructor; [lia|].
    eapply Forall_impl; [exact Hf|]. cbn. lia.
Qed.

Lemma icma_walk (s e : date) refs : s <= e -> e - s <= 4000000 -> Forall period_ok refs ->
  StronglySorted (fun r r' => ir_reference_start r <= ir_reference_start r') refs ->
  forall (c : date) acc exact, s <= c <= e -> close_to (2 * (c - s)) exact acc -> (exact <= inject_Z (c - s))%Q ->
  (exists out, foldM (icma_step s e) (c, acc) refs = Ok out /\ walk_ok s e c exact refs out) \/
  (foldM (icma_step s e) (c, acc) refs = Raise ICMA_COVERAGE_ERROR /\ walk_stuck s e c refs).
Proof.
  intros Hse Hlen. induction refs as [|r refs IH]; intros Hok Hsort c acc exact Hc Hacc Hx.
  - left. exists (c, acc). split; [done|]. cbn. split; [cbn; lia|]. unfold icma_exact. cbn [map qsum foldr fst snd].
    split; [eapply close_to_weaken; [| |exact Hacc]; [lia|lra]|]. split; [|lra].
    intros d Hd. cbn. destruct (Z.leb_spec c d), (Z.ltb_spec d c); [lia|done..].
  - apply Forall_cons in Hok as [Hr Hok]. apply StronglySorted_inv in Hsort as [Hsort Hf].
    apply period_ok_spec in Hr as (Hr1 & Hr2 & Hr3 & Hr4). cbn [foldM]. unfold icma_step at 2 4.
    destruct (Z.leb_spec (Z.min e (ir_reference_end r)) (Z.max s (ir_reference_start r))) as [Hemp|Hne].
    { cbn [mbind result_bind]. destruct (IH Hok Hsort c acc exact Hc Hacc Hx) as [(out & Ho & Hw)|[Ho Hw]].
      - left. exists out. split; [exact Ho|]. by apply walk_skip.
      - right. split; [exact Ho|]. by apply stuck_skip. }
    destruct (Z.eqb_spec (Z.max s (ir_reference_start r)) c) as [Ec|Ec]; cbn [negb].
    2: { right. split; [done|]. apply stuck_here; [lia..|done]. }
    rewrite Ec. fold (coupon_year r).
    assert (Hxc : (inject_Z (c - s) <= 4000000)%Q) by (change 4000000%Q with (inject_Z 4000000); rewrite <- Zle_Qle; lia).
    destruct (quotient_added acc exact (2 * (c - s)) (Z.min e (ir_reference_end r) - c) (coupon_year r) Hacc) as (q & acc' & Hq & Ha & Hc');
      [lra|lia..|]. rewrite Hq. cbn [mbind result_bind]. rewrite Ha. cbn [mbind result_bind].
    pose proof (share_le_1 (Z.min e (ir_reference_end r) - c) (coupon_year r) ltac:(lia) ltac:(lia)) as H1.
    assert (Hstep : (inject_Z (c - s) + 1 <= inject_Z (Z.min e (ir_reference_end r) - s))%Q)
      by (change 1%Q with (inject_Z 1); rewrite <- inject_Z_plus, <- Zle_Qle; lia).
    destruct (IH Hok Hsort (Z.min e (ir_reference_end r)) acc' _ ltac:(lia) (close_to_weaken (2 * (c - s) + 2) (2 * (Z.min e (ir_reference_end r) - s)) _ _ _ ltac:(lia) (Qeq_refl _) Hc')) as [(out & Ho & Hw)|[Ho Hw]].
    { lra. }
    + left. exists out. split; [exact Ho|]. apply walk_advance; [done|lia|exact Hw].
    + right. split; [exact Ho|]. apply stuck_advance; [done|lia|exact Hw].
Qed.

Lemma reference_leb_total x y : reference_leb x y = true \/ reference_leb y x = true.
Proof.
  unfold reference_leb. rewrite !orb_true_iff, !andb_true_iff, !Z.ltb_lt, !Z.eqb_eq, !Z.leb_le. lia.
Qed.

Lemma reference_leb_trans x y z : reference_leb x y = true -> reference_leb y z = true -> reference_leb x z = true.
Proof. unfold reference_leb. rewrite !orb_true_iff, !andb_true_iff, !Z.ltb_lt, !Z.eqb_eq, !Z.leb_le. lia. Qed.

Lemma references_sorted refs : StronglySorted (fun r r' => ir_reference_start r <= ir_reference_start r') (stable_sort reference_leb refs).
Proof.
  induction (stable_sort_sorted reference_leb reference_leb_total reference_leb_trans refs) as [|x l _ IH Hx]; constructor; [exact IH|].
  eapply Forall_impl; [exact Hx|]. intros y H. cbn in *. unfold reference_leb in H. rewrite orb_true_iff, andb_true_iff, Z.ltb_lt, Z.eqb_eq in H. lia.
Qed.

Lemma coverage_perm refs refs' d : refs ≡ₚ refs' -> coverage refs d = coverage refs' d.
Proof. induction 1; rewrite ?coverage_cons; lia. Qed.

Lemma icma_exact_perm s e refs refs' : refs ≡ₚ refs' -> (icma_exact s e refs == icma_exact s e refs')%Q.
Proof. induction 1; rewrite ?icma_exact_cons; lra. Qed.

Lemma icma_exact_nonneg s e refs : Forall period_ok refs -> (0 <= icma_exact s e refs)%Q.
Proof.
  intros H. apply qsum_nonneg, Forall_map. eapply Forall_impl; [exact H|]. intros r Hr. apply period_ok_spec in Hr as (_ & _ & _ & Hr). cbn.
  apply Qle_shift_div_l; [|rewrite Qmult_0_l]; change 0%Q with (inject_Z 0); [rewrite <- Zlt_Qlt|rewrite <- Zle_Qle; unfold period_days]; lia.
Qed.

Lemma icma_fraction_walk i : di_icma_reference_periods i <> [] ->
  actual_actual_icma_fraction i =
  ('(covered_until, fraction) ← foldM (icma_step (di_period_start i) (di_period_end i)) (di_period_start i, dzero)
                                  (stable_sort reference_leb (di_icma_reference_periods i));
   if negb (covered_until =? di_period_end i) then Raise ICMA_COVERAGE_ERROR else dfix ctx fraction).
Proof. unfold actual_actual_icma_fraction. by destruct (di_icma_reference_periods i). Qed.

(** The sum over coupon periods exists exactly when they cover each day of the interval once. *)
Lemma icma_fraction_cases i : let s := di_period_start i in let e := di_period_end i in let refs := di_icma_reference_periods i in
  s < e -> e - s <= 4000000 -> Forall period_ok refs ->
  (covered_once s e refs /\ (icma_exact s e refs <= 4000000)%Q /\
     exists r, actual_actual_icma_fraction i = Ok r /\ close_to (2 * (e - s) + 1) (icma_exact s e refs) r) \/
  (~ covered_once s e refs /\ exists t, actual_actual_icma_fraction i = Raise (UnsupportedDayCountError t)).
Proof.
  intros s e refs Hse Hlen Hok. destruct (decide (refs = [])) as [Hn|Hn].
  { right. split; [|unfold actual_actual_icma_fraction; fold refs; rewrite Hn; by eexists]. rewrite Hn. intros H. by specialize (H s ltac:(lia)). }
  rewrite (icma_fraction_walk i Hn). fold s e refs. pose proof (stable_sort_perm reference_leb refs) as Hp.
  destruct (icma_walk s e (stable_sort reference_leb refs) ltac:(lia) Hlen) with (c := s) (acc := dzero) (exact := 0%Q)
    as [(out & Ho & H1 & H2 & H3 & H4)|[Ho (d & Hd & H)]]; [by rewrite Hp|apply references_sorted|lia| | | |].
  { rewrite Z.sub_diag. by split. }
  { by rewrite Z.sub_diag. }
  - rewrite Ho. cbn [mbind result_bind]. destruct out as [c' acc]. cbn [fst snd] in *. destruct (Z.eqb_spec c' e) as [->|Hne]; cbn [negb].
    + left. assert (Hx : (0 + icma_exact s e (stable_sort reference_leb refs) == icma_exact s e refs)%Q)
        by (rewrite (icma_exact_perm s e _ _ Hp); lra).
      split.
      { intros d Hd. rewrite <- (coverage_perm _ _ _ Hp), H3 by done. by rewrite (proj2 (Z.leb_le s d)), (proj2 (Z.ltb_lt d e)) by lia. }
      assert (He : (inject_Z (e - s) <= 4000000)%Q) by (change 4000000%Q with (inject_Z 4000000); rewrite <- Zle_Qle; lia).
      pose proof (icma_exact_nonneg s e refs Hok). rewrite Hx in H4. split; [lra|].
      apply (sum_rounded acc); [|lra|lia]. eapply close_to_weaken; [| |exact H2]; [lia|done].
    + right. split; [|by eexists]. intros H. specialize (H c' ltac:(lia)). rewrite <- (coverage_perm _ _ _ Hp), H3 in H by lia.
      by rewrite Z.ltb_irrefl, andb_false_r in H.
  - right. split; [|rewrite Ho; by eexists]. intros Hc. specialize (Hc d Hd). rewrite <- (coverage_perm _ _ _ Hp) in Hc. lia.
Qed.

(** ** Conventions with a fixed denominator *)

Definition at_month_end (d : date) : bool := date_day d =? days_in_month (date_year d) (date_month d).
Definition at_february_end (d : date) : bool := (date_month d =? 2) && at_month_end d.
Definition month_index (d : date) : Z := 12 * date_year d + date_month d.

(** A count of months of 30 days, between adjusted days of the month. *)
Definition thirty_360 (s e : date) (start_day end_day : Z) : Z := 30 * (month_index e - month_index s) + (end_day - start_day).

Definition us_start_day (s : date) : Z := if at_february_end s || (date_day s =? 31) then 30 else date_day s.
Definition us_end_day (paired : bool) (s e : date) : Z :=
  if paired && at_february_end s && at_february_end e then 30
  else if (us_start_day s =? 30) && (date_day e =? 31) then 30 else date_day e.
Definition isda_day (keep : bool) (d : date) : Z := if at_month_end d && negb keep then 30 else date_day d.

(** The days a convention counts in an interval, when the evidence it needs is there. *)
Definition counted_days (c : DayCountConventionDefinition) (i : DayCountInputs) : option Z :=
  let s := di_period_start i in
  let e := di_period_end i in
  if s =? e then Some 0 else
  match dc_convention c with
  | THIRTY_360_US => Some (thirty_360 s e (us_start_day s) (us_end_day (dc_convention_version c =? 2) s e))
  | THIRTY_E_360 => Some (thirty_360 s e (Z.min (date_day s) 30) (Z.min (date_day e) 30))
  | THIRTY_E_360_ISDA =>
      termination ← di_contractual_termination_date i;
      Some (thirty_360 s e (isda_day false s) (isda_day ((date_month e =? 2) && (e =? termination)) e))
  | BUSINESS_252 =>
      calendar ← di_business_day_calendar i;
      if (bc_valid_from calendar <=? s) && (e <=? bc_valid_to calendar)
      then Some (Z.of_nat (length (List.filter (fun d => (s <=? d) && (d <? e)) (bc_business_dates calendar)))) else None
  | _ => Some (e - s)
  end.

Lemma days_in_month_bounds y m : 28 <= days_in_month y m <= 31.
Proof. unfold days_in_month. repeat destruct (_ : bool); lia. Qed.

Lemma december y : days_in_month y 12 = 31.
Proof. reflexivity. Qed.

(** The day before the next month is the last of this one. *)
Lemma before_next_month y m : 1 <= m <= 11 -> date_day (first_of_month y (m + 1) - 1) = days_in_month y m.
Proof.
  intros Hm. pose proof (month_step y m ltac:(lia)) as Hs. rewrite (proj2 (Z.eqb_neq m 12)) in Hs by lia. pose proof (days_in_month_bounds y m).
  replace (first_of_month y (m + 1) - 1) with (days_of_civil y m (days_in_month y m)) by (rewrite days_of_civil_first; lia).
  apply civil_unique; lia.
Qed.

Lemma next_month_bound d : in_range d -> date_month d <> 12 ->
  d + 1 <= first_of_month (date_year d) (date_month d + 1) <= date_max + 1.
Proof.
  intros R Hne. pose proof (year_in_range d R). destruct (civil_valid d) as (Hm & _ & _). pose proof (date_in_month d).
  pose proof (month_step (date_year d) (date_month d) Hm) as Hs. rewrite (proj2 (Z.eqb_neq _ 12) Hne) in Hs.
  pose proof (month_end (date_year d) (date_month d) Hm). rewrite <- jan1_last. split; [lia|]. rewrite <- Hs.
  etrans; [eassumption|]. apply jan1_mono. lia.
Qed.

Lemma before_next_month_in_range d : in_range d -> date_month d <> 12 ->
  date_sub_days (first_of_month (date_year d) (date_month d + 1)) 1 = Ok (first_of_month (date_year d) (date_month d + 1) - 1).
Proof.
  intros R Hne. pose proof (next_month_bound d R Hne). unfold date_sub_days. by rewrite (proj2 (Z.ltb_ge _ _)), (proj2 (Z.ltb_ge _ _)) by (unfold in_range in R; lia).
Qed.

Lemma is_last_day_of_month_spec d : in_range d -> is_last_day_of_month d = Ok (at_month_end d).
Proof.
  intros R. unfold is_last_day_of_month, at_month_end. pose proof (year_in_range d R) as Hy. destruct (civil_valid d) as (Hm & _ & _).
  destruct (Z.eqb_spec (date_month d) 12) as [->|Hne]; [by rewrite december|].
  rewrite make_first by lia. rewrite bind_ret, before_next_month_in_range by done. rewrite bind_ret.
  by rewrite before_next_month by lia.
Qed.

Lemma is_last_day_of_february_spec d : in_range d -> is_last_day_of_february d = Ok (at_february_end d).
Proof.
  intros R. unfold is_last_day_of_february, at_february_end. destruct (date_month d =? 2); [|done]. by apply is_last_day_of_month_spec.
Qed.

Lemma thirty_360_numerator_spec s e ds de : thirty_360_numerator s e ds de = thirty_360 s e ds de.
Proof. unfold thirty_360_numerator, thirty_360, month_index. lia. Qed.

Lemma thirty_360_us_spec s e paired : in_range s -> in_range e ->
  thirty_360_us_days s e paired = Ok (thirty_360 s e (us_start_day s) (us_end_day paired s e)).
Proof.
  intros Rs Re. unfold thirty_360_us_days, us_end_day, us_start_day. rewrite is_last_day_of_february_spec by done. cbn [mbind result_bind].
  rewrite is_last_day_of_february_spec by done.
  destruct paired, (at_february_end s), (at_february_end e); cbn [andb orb mbind result_bind];
    by rewrite thirty_360_numerator_spec.
Qed.

Lemma thirty_e_360_isda_spec i termination : in_range (di_period_start i) -> in_range (di_period_end i) ->
  di_contractual_termination_date i = Some termination ->
  thirty_e_360_isda_days i = Ok (thirty_360 (di_period_start i) (di_period_end i) (isda_day false (di_period_start i))
    (isda_day ((date_month (di_period_end i) =? 2) && (di_period_end i =? termination)) (di_period_end i))).
Proof.
  intros Rs Re Ht. unfold thirty_e_360_isda_days, isda_day. rewrite Ht, is_last_day_of_month_spec by done. cbn [mbind result_bind].
  rewrite is_last_day_of_month_spec by done. cbn [mbind result_bind]. by rewrite thirty_360_numerator_spec, andb_true_r.
Qed.

(** Intervals run forward: later months, or the same month and a later day. *)
Lemma forward s e : s < e -> month_index s + 1 <= month_index e \/
  (month_index s = month_index e /\ date_year s = date_year e /\ date_month s = date_month e /\ date_day s < date_day e).
Proof.
  intros H. destruct (date_order s e ltac:(lia)) as [Ho Hd]. destruct (civil_valid s) as (Hm & _ & _), (civil_valid e) as (Hm' & _ & _).
  unfold month_index. destruct (Z.eq_dec (12 * date_year s + date_month s) (12 * date_year e + date_month e)); [right|left]; lia.
Qed.

Lemma thirty_360_forward s e ds de : s < e -> 1 <= ds <= 30 -> 1 <= de <= 31 ->
  (date_year s = date_year e -> date_month s = date_month e -> date_day s < date_day e -> ds <= de) ->
  0 <= thirty_360 s e ds de /\ Z.abs (thirty_360 s e ds de - 30 * (month_index e - month_index s)) <= 30.
Proof. intros H Hs He Hsame. unfold thirty_360. destruct (forward s e H) as [Hf|(Hf & Hy & Hm & Hd)]; [|specialize (Hsame Hy Hm Hd)]; lia. Qed.

Lemma date_day_bounds d : 1 <= date_day d <= days_in_month (date_year d) (date_month d) /\ days_in_month (date_year d) (date_month d) <= 31.
Proof. destruct (civil_valid d) as (_ & Hd & _). pose proof (days_in_month_bounds (date_year d) (date_month d)). lia. Qed.

#[local] Ltac forward_days s e :=
  let Bs := fresh "Bs" in let Be := fresh "Be" in
  pose proof (date_day_bounds s) as Bs; pose proof (date_day_bounds e) as Be;
  apply thirty_360_forward;
  [done|repeat case_match; lia|repeat case_match; lia|
   let Hy := fresh "Hy" in let Hm := fresh "Hm" in intros Hy Hm ?; rewrite <- Hy, <- Hm in Be; repeat case_match; lia].

Lemma us_forward s e paired : s < e ->
  let n := thirty_360 s e (us_start_day s) (us_end_day paired s e) in 0 <= n /\ Z.abs (n - 30 * (month_index e - month_index s)) <= 30.
Proof. intros H. unfold us_end_day, us_start_day, at_february_end, at_month_end. forward_days s e. Qed.

Lemma european_forward s e : s < e ->
  let n := thirty_360 s e (Z.min (date_day s) 30) (Z.min (date_day e) 30) in 0 <= n /\ Z.abs (n - 30 * (month_index e - month_index s)) <= 30.
Proof. intros H. forward_days s e. Qed.

Lemma isda_forward s e keep : s < e ->
  let n := thirty_360 s e (isda_day false s) (isda_day keep e) in 0 <= n /\ Z.abs (n - 30 * (month_index e - month_index s)) <= 30.
Proof. intros H. unfold isda_day, at_month_end. forward_days s e. Qed.

Lemma month_index_bounds s e : in_range s -> in_range e -> month_index e - month_index s <= 12 * 9999.
Proof.
  intros Rs Re. pose proof (year_in_range s Rs). pose proof (year_in_range e Re). destruct (civil_valid s) as (Hm & _), (civil_valid e) as (Hm' & _).
  unfold month_index. lia.
Qed.

Lemma business_days_bound (s e : date) (days : list date) : NoDup days ->
  Z.of_nat (length (List.filter (fun d => (s <=? d) && (d <? e)) days)) <= Z.max 0 (e - s).
Proof.
  intros Hn. assert (Hsub : List.filter (fun d => (s <=? d) && (d <? e)) days ⊆+ seqZ s (e - s)).
  { apply NoDup_submseteq; [apply NoDup_ListNoDup, List.NoDup_filter; by apply NoDup_ListNoDup|]. intros d Hd.
    apply list_elem_of_In, filter_In in Hd as [_ Hd]. apply elem_of_seqZ. lia. }
  apply submseteq_length in Hsub. rewrite length_seqZ in Hsub. lia.
Qed.

(** Inputs their constructor accepts, on dates that exist; a calendar is a set of dates. *)
Definition inputs_ok (i : DayCountInputs) : Prop :=
  make_DayCountInputs i = Ok i /\ in_range (di_period_start i) /\ in_range (di_period_end i) /\
  match di_business_day_calendar i with Some c => NoDup (bc_business_dates c) | None => True end.

Lemma inputs_ok_order i : inputs_ok i -> di_period_start i <= di_period_end i /\ di_period_end i - di_period_start i <= 4000000.
Proof.
  intros (H & [S1 S2] & [E1 E2] & _). unfold make_DayCountInputs in H. inv_ok.
  change date_min with (-719162) in *. change date_max with 2932896 in *. lia.
Qed.

(** The catalogue is closed under resolution: each entry is found by its own name and version. *)
Lemma catalogue_resolves : Forall (fun c => resolve_day_count_convention (convention_value (dc_convention c)) (dc_convention_version c) = Ok c) CONVENTIONS.
Proof. repeat constructor. Qed.

(** The numerator chosen by a convention, as [calculate_year_fraction] branches. *)
Definition numerator_of (c : DayCountConventionDefinition) (i : DayCountInputs) : result Z :=
  let s := di_period_start i in
  let e := di_period_end i in
  if decide (dc_convention c = THIRTY_360_US) then thirty_360_us_days s e (dc_convention_version c =? 2)
  else if decide (dc_convention c = THIRTY_E_360) then Ok (thirty_e_360_days s e)
  else if decide (dc_convention c = THIRTY_E_360_ISDA) then thirty_e_360_isda_days i
  else if dc_requires_business_day_calendar c then business_day_count i
  else Ok (e - s).

Lemma numerator_counted c d i : c ∈ CONVENTIONS -> dc_denominator c = Some d -> inputs_ok i -> di_period_start i <> di_period_end i ->
  252 <= d <= 365 /\
  match counted_days c i with
  | Some n => numerator_of c i = Ok n /\ 0 <= n <= 10 ^ 7
  | None => exists t, numerator_of c i = Raise (UnsupportedDayCountError t)
  end.
Proof.
  intros Hc Hd Hi Hne. destruct (inputs_ok_order i Hi) as [Ho Hl]. destruct Hi as (_ & Rs & Re & Hcal).
  pose proof (month_index_bounds _ _ Rs Re) as Hmi. assert (Hlt : di_period_start i < di_period_end i) by lia.
  unfold counted_days. rewrite (proj2 (Z.eqb_neq _ _) Hne).
  unfold CONVENTIONS in Hc. repeat (apply elem_of_cons in Hc as [->|Hc]); [..|by apply elem_of_nil in Hc]; cbn in Hd; simplify_eq/=;
    (split; [done|]); unfold numerator_of; cbn.
  - split; [done|]. lia.
  - split; [done|]. lia.
  - unfold business_day_count. destruct (di_business_day_calendar i) as [cal|]; [|by eexists]. cbn.
    destruct (Z.ltb_spec (di_period_start i) (bc_valid_from cal)), (Z.ltb_spec (bc_valid_to cal) (di_period_end i)),
      (Z.leb_spec (bc_valid_from cal) (di_period_start i)), (Z.leb_spec (di_period_end i) (bc_valid_to cal)); try lia; cbn; try by eexists.
    split; [done|]. pose proof (business_days_bound (di_period_start i) (di_period_end i) _ Hcal). lia.
  - split; [by apply thirty_360_us_spec|]. pose proof (us_forward _ _ false Hlt). cbn in *. lia.
  - split; [by apply thirty_360_us_spec|]. pose proof (us_forward _ _ true Hlt). cbn in *. lia.
  - split; [unfold thirty_e_360_days; by rewrite thirty_360_numerator_spec|]. pose proof (european_forward _ _ Hlt). cbn in *. lia.
  - destruct (di_contractual_termination_date i) as [t|] eqn:Et; cbn; [|unfold thirty_e_360_isda_days; rewrite Et; by eexists].
    split; [by apply thirty_e_360_isda_spec|].
    pose proof (isda_forward _ _ ((date_month (di_period_end i) =? 2) && (di_period_end i =? t)) Hlt). cbn in *. lia.
Qed.

Lemma year_fraction_numerator c d i : c ∈ CONVENTIONS -> dc_denominator c = Some d -> di_period_start i <> di_period_end i ->
  calculate_year_fraction (convention_value (dc_convention c)) (dc_convention_version c) i = (n ← numerator_of c i; ratio n d).
Proof.
  intros Hc Hd Hne. unfold calculate_year_fraction. rewrite (proj1 (Forall_forall _ _) catalogue_resolves c Hc). cbn [mbind result_bind].
  rewrite (proj2 (Z.eqb_neq _ _) Hne), Hd. unfold CONVENTIONS in Hc.
  repeat (apply elem_of_cons in Hc as [->|Hc]); [..|by apply elem_of_nil in Hc]; cbn in Hd; simplify_eq/=; reflexivity.
Qed.

(** ** Claims *)

(** For every convention with a fixed denominator, [calculate_year_fraction] on valid inputs returns
    the days the convention counts over its denominator, not negative and within [10 ^ -43] of the exact
    quotient; it raises [UnsupportedDayCountError] exactly when the business-day calendar is missing or
    does not cover the interval, or the termination date is missing. *)
Theorem fixed_denominator_year_fraction c d i : c ∈ CONVENTIONS -> dc_denominator c = Some d -> inputs_ok i ->
  let result := calculate_year_fraction (convention_value (dc_convention c)) (dc_convention_version c) i in
  match counted_days c i with
  | Some n => 0 <= n /\ exists r, result = Ok r /\ (0 <= dval r)%Q /\ (Qabs (dval r - inject_Z n / inject_Z d) <= eps)%Q
  | None => exists t, result = Raise (UnsupportedDayCountError t)
  end.
Proof.
  intros Hc Hd Hi result. destruct (Z.eq_dec (di_period_start i) (di_period_end i)) as [E|Hne].
  - unfold counted_days. rewrite (proj2 (Z.eqb_eq _ _) E). split; [done|]. exists dzero. split; [|split; [done|]].
    + unfold result, calculate_year_fraction. rewrite (proj1 (Forall_forall _ _) catalogue_resolves c Hc). cbn.
      by rewrite (proj2 (Z.eqb_eq _ _) E).
    + unfold Qdiv. rewrite Qmult_0_l. by vm_compute.
  - destruct (numerator_counted c d i Hc Hd Hi Hne) as [Bd Hn]. unfold result. rewrite (year_fraction_numerator c d i Hc Hd Hne).
    destruct (counted_days c i) as [n|]; [destruct Hn as [Hn Bn]|destruct Hn as [t Hn]]; rewrite Hn; [|by exists t].
    split; [lia|]. apply div_near; lia.
Qed.

Definition wit_calendar : BusinessDayCalendar :=
  {| bc_calendar_id := "XNYS"; bc_calendar_version := "1"; bc_valid_from := 19700; bc_valid_to := 19800; bc_business_dates := [19723; 19724; 19725];
     bc_source_system := "ops"; bc_source_revision := "7"; bc_calendar_content_hash := "h" |}.

Definition wit_day_count (calendar : option BusinessDayCalendar) (refs : list IcmaReferencePeriod) : DayCountInputs :=
  {| di_period_start := 19700; di_period_end := 19800; di_business_day_calendar := calendar; di_contractual_termination_date := None;
     di_icma_reference_periods := refs |}.

Lemma wit_day_count_ok calendar refs : match calendar with Some c => NoDup (bc_business_dates c) | None => True end -> inputs_ok (wit_day_count calendar refs).
Proof. intros H. split; [done|]. split; [by split|]. split; [by split|done]. Qed.

Lemma fixed_denominator_year_fraction_witness :
  exists r, calculate_year_fraction "BUS/252" 1 (wit_day_count (Some wit_calendar) []) = Ok r /\ (0 <= dval r)%Q /\
    (Qabs (dval r - 3 / 252) <= eps)%Q.
Proof.
  apply (fixed_denominator_year_fraction
           {| dc_convention := BUSINESS_252; dc_convention_version := 1; dc_denominator := Some 252; dc_requires_business_day_calendar := true |}
           252 (wit_day_count (Some wit_calendar) [])).
  - unfold CONVENTIONS. set_solver.
  - reflexivity.
  - apply wit_day_count_ok. cbn. repeat (apply NoDup_cons; split; [set_solver|]). apply NoDup_nil_2.
Defined.

(** The loop of ACT/ACT.ISDA ends within the calendar years of the interval on any valid dates: the
    year fraction always exists, is not negative, and is within [10 ^ -38] of the sum over the years of
    the interval's days in the year by the length of the year. *)
Theorem isda_year_fraction i : inputs_ok i ->
  exists r, calculate_year_fraction "ACT/ACT.ISDA" 1 i = Ok r /\ (0 <= dval r)%Q /\
    (Qabs (dval r - isda_exact (di_period_start i) (di_period_end i)) <= pow10 (-38))%Q.
Proof.
  intros Hi. destruct (inputs_ok_order i Hi) as [Ho _]. destruct Hi as (_ & Rs & Re & _). unfold calculate_year_fraction.
  change (resolve_day_count_convention "ACT/ACT.ISDA" 1) with
    (Ok {| dc_convention := ACTUAL_ACTUAL_ISDA; dc_convention_version := 1; dc_denominator := None; dc_requires_business_day_calendar := false |}).
  cbn [mbind result_bind dc_convention]. destruct (Z.eqb_spec (di_period_start i) (di_period_end i)) as [->|Hne].
  - exists dzero. split; [done|]. split; [done|]. rewrite isda_exact_empty. by vm_compute.
  - destruct (isda_fraction_near _ _ Rs Re Ho) as (r & Hr & Pr & Er). exists r. split; [exact Hr|]. split; [done|].
    eapply Qle_trans; [exact Er|]. by vm_compute.
Qed.

Lemma isda_year_fraction_witness : exists r, calculate_year_fraction "ACT/ACT.ISDA" 1 (wit_day_count None []) = Ok r /\ (0 <= dval r)%Q /\
  (Qabs (dval r - isda_exact 19700%Z 19800%Z) <= pow10 (-38))%Q.
Proof. apply (isda_year_fraction (wit_day_count None [])). by apply wit_day_count_ok. Defined.

(** ACT/ACT.ICMA accepts its coupon reference periods, given in any order, exactly when every day of
    the interval lies in one and only one of them; the fraction is then within [10 ^ -36] of the sum over
    the periods of the interval's days in the period by the length of the coupon year. *)
Theorem icma_covers_exactly_once i : inputs_ok i -> di_period_start i < di_period_end i -> Forall period_ok (di_icma_reference_periods i) ->
  let s := di_period_start i in let e := di_period_end i in let refs := di_icma_reference_periods i in
  let result := calculate_year_fraction "ACT/ACT.ICMA" 1 i in
  (covered_once s e refs -> exists r, result = Ok r /\ (0 <= dval r)%Q /\ (Qabs (dval r - icma_exact s e refs) <= pow10 (-36))%Q) /\
  (~ covered_once s e refs -> exists t, result = Raise (UnsupportedDayCountError t)).
Proof.
  intros Hi Hlt Hok s e refs result. destruct (inputs_ok_order i Hi) as [_ Hlen].
  assert (Er : result = actual_actual_icma_fraction i).
  { unfold result, calculate_year_fraction.
    change (resolve_day_count_convention "ACT/ACT.ICMA" 1) with
      (Ok {| dc_convention := ACTUAL_ACTUAL_ICMA; dc_convention_version := 1; dc_denominator := None; dc_requires_business_day_calendar := false |}).
    cbn [mbind result_bind dc_convention]. by rewrite (proj2 (Z.eqb_neq _ _)) by lia. }
  rewrite Er. destruct (icma_fraction_cases i Hlt Hlen Hok) as [(Hc & _ & r & Hr & Pr & Hn)|[Hc Hr]]; [|by split].
  split; [intros _|done]. exists r. split; [exact Hr|]. split; [done|]. eapply Qle_trans; [exact Hn|].
  apply Qle_trans with (inject_Z (10 ^ 7) * eps)%Q; [|by vm_compute]. apply Qmult_le_compat_r; [rewrite <- Zle_Qle; lia|].
  apply Qlt_le_weak, pow10_pos.
Qed.

Definition wit_periods : list IcmaReferencePeriod :=
  [{| ir_reference_start := 19750; ir_reference_end := 19900; ir_coupon_frequency_per_year := 2 |};
   {| ir_reference_start := 19600; ir_reference_end := 19750; ir_coupon_frequency_per_year := 2 |}].

Lemma icma_covers_exactly_once_witness :
  (exists r, calculate_year_fraction "ACT/ACT.ICMA" 1 (wit_day_count None wit_periods) = Ok r /\ (0 <= dval r)%Q /\
     (Qabs (dval r - icma_exact 19700%Z 19800%Z wit_periods) <= pow10 (-36))%Q) /\
  (exists t, calculate_year_fraction "ACT/ACT.ICMA" 1 (wit_day_count None []) = Raise (UnsupportedDayCountError t)).
Proof.
  split.
  - apply (icma_covers_exactly_once (wit_day_count None wit_periods)); [by apply wit_day_count_ok|done| |].
    + repeat constructor; done.
    + intros d Hd. cbn in Hd. unfold coverage, wit_day_count, wit_periods, covers. cbn.
      destruct (Z.leb_spec 19750 d), (Z.ltb_spec d 19900), (Z.leb_spec 19600 d), (Z.ltb_spec d 19750); try lia; reflexivity.
  - apply (icma_covers_exactly_once (wit_day_count None [])); [by apply wit_day_count_ok|done|constructor|].
    intros H. specialize (H 19700 ltac:(cbn; lia)). discriminate H.
Defined.
