(* ===== verification/AccruedIncome.v ===== *)
(** * Accrued income

    [portfolio_common/domain/valuation/accrued_income.py]: contractual income accrued over contiguous
    segments of constant principal, rate and day count, less the full coupon when the right to it has
    passed, with the source references of [calculation_lineage.py] it records. *)

From Stdlib Require Import ZArith Lia String.
From stdpp Require Import base tactics list strings.
From S2P Require Import Prelude PyDecimal DecimalFacts PyTime Precision Lineage DayCount.

#[local] Open Scope string_scope.
#[local] Open Scope Z_scope.

Definition ACCRUED_INCOME_LEDGER_OUTPUT_V1 : CalculatedDecimalPolicy := ledger_policy "accrued-income-ledger-output".

Definition ACCRUED_INCOME_INTERMEDIATE_PRECISION : Z := cp_working_precision ACCRUED_INCOME_LEDGER_OUTPUT_V1.
Definition ACCRUED_INCOME_INTERMEDIATE_ROUNDING : rounding_mode := cp_rounding ACCRUED_INCOME_LEDGER_OUTPUT_V1.
Definition ACCRUED_INCOME_ALGORITHM_ID : string := "SEGMENTED_GROSS_CONTRACTUAL_ACCRUAL".
Definition ACCRUED_INCOME_ALGORITHM_VERSION : Z := 3.

Definition accrual_context : context := make_context ACCRUED_INCOME_INTERMEDIATE_PRECISION ACCRUED_INCOME_INTERMEDIATE_ROUNDING.

(** ** Source references *)

Record FinancialSourceReference := {
  fs_source_system : string; fs_source_record_id : string; fs_source_revision : string;
  fs_source_content_hash : string; fs_observed_at : datetime
}.

Definition make_FinancialSourceReference (source_system source_record_id source_revision source_content_hash : string)
  (observed_at : datetime) : result FinancialSourceReference :=
  system ← require_nonblank source_system "source_system";
  record_id ← require_nonblank source_record_id "source_record_id";
  revision ← require_nonblank source_revision "source_revision";
  _ ← require_sha256_digest source_content_hash "source_content_hash";
  _ ← raise_if (is_naive observed_at) (ValueError "observed_at must be timezone-aware");
  Ok {| fs_source_system := system; fs_source_record_id := record_id; fs_source_revision := revision;
        fs_source_content_hash := source_content_hash; fs_observed_at := observed_at |}.

Definition fs_lineage_payload (r : FinancialSourceReference) : payload :=
  PMap [("observed_at", PDatetime (fs_observed_at r)); ("source_content_hash", PStr (fs_source_content_hash r));
        ("source_record_id", PStr (strip (fs_source_record_id r))); ("source_revision", PStr (strip (fs_source_revision r)));
        ("source_system", PStr (strip (fs_source_system r)))].

(** Equality of references: their timestamps are aware, so they are compared as instants. *)
Definition source_eqb (x y : FinancialSourceReference) : bool :=
  String.eqb (fs_source_system x) (fs_source_system y) && String.eqb (fs_source_record_id x) (fs_source_record_id y) &&
  String.eqb (fs_source_revision x) (fs_source_revision y) && String.eqb (fs_source_content_hash x) (fs_source_content_hash y) &&
  (dt_instant (fs_observed_at x) =? dt_instant (fs_observed_at y)).

(** ** Segments *)

Inductive AccrualRateType := FIXED | FLOATING_SUPPLIED.

#[export] Instance rate_type_eq_dec : EqDecision AccrualRateType.
Proof. solve_decision. Defined.

Definition rate_type_value (r : AccrualRateType) : string := match r with FIXED => "FIXED" | FLOATING_SUPPLIED => "FLOATING_SUPPLIED" end.

Record AccrualSegment := {
  as_accrual_start : date; as_accrual_end : date; as_currency : string; as_signed_accrual_principal : decimal;
  as_annual_effective_rate : decimal; as_rate_type : AccrualRateType; as_day_count_convention : string;
  as_day_count_convention_version : Z; as_rate_source : FinancialSourceReference; as_principal_source : FinancialSourceReference;
  as_schedule_source : FinancialSourceReference; as_business_day_calendar : option BusinessDayCalendar;
  as_contractual_termination_date : option date; as_icma_reference_periods : list IcmaReferencePeriod
}.

Definition make_AccrualSegment (accrual_start accrual_end : date) (currency : string) (signed_accrual_principal annual_effective_rate : number)
  (rate_type : AccrualRateType) (day_count_convention : string) (day_count_convention_version : Z)
  (rate_source principal_source schedule_source : FinancialSourceReference) (business_day_calendar : option BusinessDayCalendar)
  (contractual_termination_date : option date) (icma_reference_periods : list IcmaReferencePeriod) : result AccrualSegment :=
  _ ← raise_if (accrual_end <=? accrual_start) (ValueError "accrual_end must be after accrual_start");
  _ ← raise_if (negb (truthy (strip currency))) (ValueError "currency must be nonblank");
  principal ← (match signed_accrual_principal with Finite d => Ok d | _ => Raise (ValueError "signed_accrual_principal must be finite") end);
  rate ← (match annual_effective_rate with Finite d => Ok d | _ => Raise (ValueError "annual_effective_rate must be finite") end);
  _ ← raise_if (negb (truthy (strip day_count_convention))) (ValueError "day_count_convention must be nonblank");
  _ ← raise_if (day_count_convention_version <? 1) (ValueError "day_count_convention_version must be positive");
  Ok {| as_accrual_start := accrual_start; as_accrual_end := accrual_end; as_currency := currency; as_signed_accrual_principal := principal;
        as_annual_effective_rate := rate; as_rate_type := rate_type; as_day_count_convention := day_count_convention;
        as_day_count_convention_version := day_count_convention_version; as_rate_source := rate_source;
        as_principal_source := principal_source; as_schedule_source := schedule_source; as_business_day_calendar := business_day_calendar;
        as_contractual_termination_date := contractual_termination_date; as_icma_reference_periods := icma_reference_periods |}.

Record ExCouponEntitlement := {
  ec_ex_coupon_date : date; ec_next_coupon_payment_date : date; ec_full_coupon_segments : list AccrualSegment;
  ec_entitlement_source : FinancialSourceReference
}.

Definition make_ExCouponEntitlement (e : ExCouponEntitlement) : result ExCouponEntitlement :=
  _ ← raise_if (ec_next_coupon_payment_date e <=? ec_ex_coupon_date e) (ValueError "next_coupon_payment_date must be after ex_coupon_date");
  _ ← raise_if (match ec_full_coupon_segments e with [] => true | _ => false end) (ValueError "full_coupon_segments must not be empty");
  Ok e.

Record AccrualSegmentResult := {
  sr_accrual_start : date; sr_accrual_end : date; sr_signed_accrual_principal : decimal; sr_annual_effective_rate : decimal;
  sr_year_fraction : decimal; sr_accrued_income : decimal; sr_rate_type : AccrualRateType; sr_rate_source : FinancialSourceReference;
  sr_principal_source : FinancialSourceReference; sr_schedule_source : FinancialSourceReference
}.

Record AccruedIncomeResult := {
  ai_currency : string; ai_gross_accrued_income : decimal; ai_ex_coupon_entitlement_adjustment : decimal;
  ai_settlement_accrued_income : decimal; ai_segments : list AccrualSegmentResult; ai_lineage : CalculationLineage
}.

Definition segment_leb (x y : AccrualSegment) : bool :=
  (as_accrual_start x <? as_accrual_start y) || ((as_accrual_start x =? as_accrual_start y) && (as_accrual_end x <=? as_accrual_end y)).

Definition sorted_segments (segments : list AccrualSegment) : list AccrualSegment := stable_sort segment_leb segments.

Definition segment_currency (s : AccrualSegment) : string := upper (strip (as_currency s)).

(** ** Checks *)

(** The loop over consecutive segments. *)
Fixpoint contiguous_from (previous : AccrualSegment) (segments : list AccrualSegment) : result unit :=
  match segments with
  | [] => Ok tt
  | current :: rest =>
      _ ← raise_if (negb (as_accrual_start current =? as_accrual_end previous))
            (let relation := if as_accrual_start current <? as_accrual_end previous then "overlap" else "gap" in
             UnsupportedAccruedIncomeError ("accrual segments contain a " +:+ relation +:+ " between " +:+
               date_isoformat (as_accrual_end previous) +:+ " and " +:+ date_isoformat (as_accrual_start current)));
      contiguous_from current rest
  end.

Definition validate_contiguous_segments (segments : list AccrualSegment) : result unit :=
  match segments with [] => Raise (IndexError "tuple index out of range") | previous :: rest => contiguous_from previous rest end.

Definition calendar_eqb (x y : BusinessDayCalendar) : bool :=
  String.eqb (bc_calendar_id x) (bc_calendar_id y) && String.eqb (bc_calendar_version x) (bc_calendar_version y) &&
  (bc_valid_from x =? bc_valid_from y) && (bc_valid_to x =? bc_valid_to y) &&
  forallb (fun d => existsb (Z.eqb d) (bc_business_dates y)) (bc_business_dates x) &&
  forallb (fun d => existsb (Z.eqb d) (bc_business_dates x)) (bc_business_dates y) &&
  String.eqb (bc_source_system x) (bc_source_system y) && String.eqb (bc_source_revision x) (bc_source_revision y) &&
  String.eqb (bc_calendar_content_hash x) (bc_calendar_content_hash y).

(** Equality of the term tuples of two segments; decimals are compared by value. *)
Definition segment_terms_eqb (x y : AccrualSegment) : bool :=
  String.eqb (segment_currency x) (segment_currency y) &&
  deqb (as_signed_accrual_principal x) (as_signed_accrual_principal y) &&
  deqb (as_annual_effective_rate x) (as_annual_effective_rate y) &&
  bool_decide (as_rate_type x = as_rate_type y) &&
  String.eqb (upper (strip (as_day_count_convention x))) (upper (strip (as_day_count_convention y))) &&
  (as_day_count_convention_version x =? as_day_count_convention_version y) &&
  source_eqb (as_rate_source x) (as_rate_source y) && source_eqb (as_principal_source x) (as_principal_source y) &&
  source_eqb (as_schedule_source x) (as_schedule_source y) &&
  match as_business_day_calendar x, as_business_day_calendar y with Some c, Some c' => calendar_eqb c c' | None, None => true | _, _ => false end &&
  bool_decide (as_contractual_termination_date x = as_contractual_termination_date y) &&
  bool_decide (as_icma_reference_periods x = as_icma_reference_periods y).

(** [while full_index < len(...) and full_coupon_segments[full_index].accrual_end <= cursor]: the list is
    what remains from [full_index] on. *)
Fixpoint skip_ended (cursor : date) (full : list AccrualSegment) : list AccrualSegment :=
  match full with
  | f :: rest => if as_accrual_end f <=? cursor then skip_ended cursor rest else full
  | [] => []
  end.

(** [while cursor < accrued.accrual_end]; every pass but the last ends a full-coupon segment. *)
Fixpoint prefix_loop (fuel : nat) (accrued : AccrualSegment) (cursor : date) (full : list AccrualSegment) : result (list AccrualSegment) :=
  if negb (cursor <? as_accrual_end accrued) then Ok full else
  match fuel with
  | O => Raise (RuntimeError "unreachable")
  | S fuel' =>
      match skip_ended cursor full with
      | [] => Raise (UnsupportedAccruedIncomeError "accrued segments must be covered by full coupon segments")
      | f :: rest =>
          if (cursor <? as_accrual_start f) || negb (segment_terms_eqb accrued f)
          then Raise (UnsupportedAccruedIncomeError "accrued segments must be an economic prefix of full coupon segments")
          else prefix_loop fuel' accrued (Z.min (as_accrual_end accrued) (as_accrual_end f)) (f :: rest)
      end
  end.

Definition prefix_segment (full : list AccrualSegment) (accrued : AccrualSegment) : result (list AccrualSegment) :=
  prefix_loop (S (length full)) accrued (as_accrual_start accrued) full.

Definition validate_accrued_prefix_matches_full_coupon (accrued_segments full_coupon_segments : list AccrualSegment) : result unit :=
  _ ← foldM prefix_segment full_coupon_segments accrued_segments; Ok tt.

(** [segments[0]] and [segments[-1]]. *)
Definition first_segment (segments : list AccrualSegment) : result AccrualSegment :=
  match segments with s :: _ => Ok s | [] => Raise (IndexError "tuple index out of range") end.
Definition last_segment (segments : list AccrualSegment) : result AccrualSegment :=
  match last segments with Some s => Ok s | None => Raise (IndexError "tuple index out of range") end.

Definition validate_ex_coupon_entitlement (accrued_segments full_coupon_segments : list AccrualSegment) (entitlement : ExCouponEntitlement)
  (currency : string) : result unit :=
  _ ← validate_contiguous_segments full_coupon_segments;
  _ ← raise_if (existsb (fun s => negb (String.eqb (segment_currency s) currency)) full_coupon_segments)
        (UnsupportedAccruedIncomeError "full coupon and accrued segments must use one currency");
  last_accrued ← last_segment accrued_segments;
  let settlement_date := as_accrual_end last_accrued in
  _ ← raise_if (settlement_date <=? ec_ex_coupon_date entitlement)
        (UnsupportedAccruedIncomeError "ex-coupon treatment requires settlement after ex_coupon_date");
  _ ← raise_if (ec_next_coupon_payment_date entitlement <=? settlement_date)
        (UnsupportedAccruedIncomeError "ex-coupon treatment requires settlement before next_coupon_payment_date");
  first_full ← first_segment full_coupon_segments;
  first_accrued ← first_segment accrued_segments;
  _ ← raise_if (negb (as_accrual_start first_full =? as_accrual_start first_accrued))
        (UnsupportedAccruedIncomeError "full coupon and accrued segments must share the coupon-period start");
  last_full ← last_segment full_coupon_segments;
  _ ← raise_if (negb (as_accrual_end last_full =? ec_next_coupon_payment_date entitlement))
        (UnsupportedAccruedIncomeError "full coupon segments must end on next_coupon_payment_date");
  validate_accrued_prefix_matches_full_coupon accrued_segments full_coupon_segments.

(** ** Amounts *)

Definition calculate_segment (acc : list AccrualSegmentResult * decimal) (segment : AccrualSegment) : result (list AccrualSegmentResult * decimal) :=
  let '(results, gross_accrued_income) := acc in
  inputs ← make_DayCountInputs
    {| di_period_start := as_accrual_start segment; di_period_end := as_accrual_end segment;
       di_business_day_calendar := as_business_day_calendar segment;
       di_contractual_termination_date := as_contractual_termination_date segment;
       di_icma_reference_periods := as_icma_reference_periods segment |};
  year_fraction ← calculate_year_fraction (as_day_count_convention segment) (as_day_count_convention_version segment) inputs;
  interest ← dmul accrual_context (as_signed_accrual_principal segment) (as_annual_effective_rate segment);
  accrued_income ← dmul accrual_context interest year_fraction;
  gross_accrued_income ← dadd accrual_context gross_accrued_income accrued_income;
  Ok ((results ++ [{| sr_accrual_start := as_accrual_start segment; sr_accrual_end := as_accrual_end segment;
         sr_signed_accrual_principal := as_signed_accrual_principal segment; sr_annual_effective_rate := as_annual_effective_rate segment;
         sr_year_fraction := year_fraction; sr_accrued_income := accrued_income; sr_rate_type := as_rate_type segment;
         sr_rate_source := as_rate_source segment; sr_principal_source := as_principal_source segment;
         sr_schedule_source := as_schedule_source segment |}])%list, gross_accrued_income).

Definition calculate_segments (segments : list AccrualSegment) : result (list AccrualSegmentResult * decimal) :=
  foldM calculate_segment ([], dzero) segments.

Definition source_payload (source : FinancialSourceReference) : payload := fs_lineage_payload source.

Definition opt_date (d : option date) : payload := match d with Some d => PDate d | None => PNone end.

Definition segment_input_payload (s : AccrualSegment) : payload :=
  PMap [("accrual_end", PDate (as_accrual_end s)); ("accrual_start", PDate (as_accrual_start s));
        ("annual_effective_rate", PDecimal (as_annual_effective_rate s));
        ("business_day_calendar",
         match as_business_day_calendar s with
         | Some c => PMap [("calendar_content_hash", PStr (bc_calendar_content_hash c)); ("calendar_id", PStr (strip (bc_calendar_id c)));
                           ("calendar_version", PStr (strip (bc_calendar_version c))); ("source_revision", PStr (strip (bc_source_revision c)));
                           ("source_system", PStr (strip (bc_source_system c))); ("valid_from", PDate (bc_valid_from c));
                           ("valid_to", PDate (bc_valid_to c))]
         | None => PNone
         end);
        ("contractual_termination_date", opt_date (as_contractual_termination_date s)); ("currency", PStr (segment_currency s));
        ("day_count_convention", PStr (upper (strip (as_day_count_convention s))));
        ("day_count_convention_version", PInt (as_day_count_convention_version s));
        ("icma_reference_periods", PSeq (map (fun r =>
           PMap [("coupon_frequency_per_year", PInt (ir_coupon_frequency_per_year r)); ("reference_end", PDate (ir_reference_end r));
                 ("reference_start", PDate (ir_reference_start r))]) (as_icma_reference_periods s)));
        ("principal_source", source_payload (as_principal_source s)); ("rate_source", source_payload (as_rate_source s));
        ("rate_type", PEnum (PStr (rate_type_value (as_rate_type s)))); ("schedule_source", source_payload (as_schedule_source s));
        ("signed_accrual_principal", PDecimal (as_signed_accrual_principal s))].

Definition segment_output_payload (r : AccrualSegmentResult) : payload :=
  PMap [("accrual_end", PDate (sr_accrual_end r)); ("accrual_start", PDate (sr_accrual_start r)); ("accrued_income", PDecimal (sr_accrued_income r));
        ("annual_effective_rate", PDecimal (sr_annual_effective_rate r)); ("rate_type", PEnum (PStr (rate_type_value (sr_rate_type r))));
        ("signed_accrual_principal", PDecimal (sr_signed_accrual_principal r)); ("year_fraction", PDecimal (sr_year_fraction r))].

(** The full coupon, validated and valued, with its payload. *)
Definition entitlement_adjustment (ordered : list AccrualSegment) (currency : string) (entitlement : option ExCouponEntitlement)
  : result (decimal * payload) :=
  match entitlement with
  | None => Ok (dzero, PNone)
  | Some e =>
      let full_coupon_segments := sorted_segments (ec_full_coupon_segments e) in
      _ ← validate_ex_coupon_entitlement ordered full_coupon_segments e currency;
      '(_, adjustment) ← calculate_segments full_coupon_segments;
      Ok (adjustment, PMap [("entitlement_source", source_payload (ec_entitlement_source e)); ("ex_coupon_date", PDate (ec_ex_coupon_date e));
                            ("full_coupon_segments", PSeq (map segment_input_payload full_coupon_segments));
                            ("next_coupon_payment_date", PDate (ec_next_coupon_payment_date e))])
  end.

Definition accrued_output_payload (currency : string) (gross adjustment settlement : decimal) (segments : list AccrualSegmentResult) : payload :=
  PMap [("currency", PStr currency); ("ex_coupon_entitlement_adjustment", PDecimal adjustment); ("gross_accrued_income", PDecimal gross);
        ("segments", PSeq (map segment_output_payload segments)); ("settlement_accrued_income", PDecimal settlement)].

Definition calculate_segmented_accrued_income `{Hashing} (segments : list AccrualSegment) (ex_coupon_entitlement : option ExCouponEntitlement)
  : result AccruedIncomeResult :=
  if (match segments with [] => true | _ => false end) then Raise (UnsupportedAccruedIncomeError "at least one accrual segment is required") else
  let ordered := sorted_segments segments in
  _ ← validate_contiguous_segments ordered;
  first ← first_segment ordered;
  let currency := segment_currency first in
  _ ← raise_if (existsb (fun s => negb (String.eqb (segment_currency s) currency)) ordered)
        (UnsupportedAccruedIncomeError "accrual segments must use one currency");
  '(result_segments, gross) ← calculate_segments ordered;
  '(adjustment, entitlement_payload) ← entitlement_adjustment ordered currency ex_coupon_entitlement;
  gross_accrued_income ← normalize ACCRUED_INCOME_LEDGER_OUTPUT_V1 (Finite gross) "gross_accrued_income";
  ex_coupon_entitlement_adjustment ← normalize ACCRUED_INCOME_LEDGER_OUTPUT_V1 (Finite adjustment) "ex_coupon_entitlement_adjustment";
  settlement_accrued_income ← p_subtract ACCRUED_INCOME_LEDGER_OUTPUT_V1 gross_accrued_income ex_coupon_entitlement_adjustment
                                "settlement_accrued_income";
  policy ← lineage_identity ACCRUED_INCOME_LEDGER_OUTPUT_V1;
  lineage ← build_calculation_lineage ACCRUED_INCOME_ALGORITHM_ID ACCRUED_INCOME_ALGORITHM_VERSION ACCRUED_INCOME_INTERMEDIATE_PRECISION
    (PMap [("ex_coupon_entitlement", entitlement_payload); ("segments", PSeq (map segment_input_payload ordered))])
    (accrued_output_payload currency gross_accrued_income ex_coupon_entitlement_adjustment settlement_accrued_income result_segments)
    (Some policy);
  Ok {| ai_currency := currency; ai_gross_accrued_income := gross_accrued_income;
        ai_ex_coupon_entitlement_adjustment := ex_coupon_entitlement_adjustment;
        ai_settlement_accrued_income := settlement_accrued_income; ai_segments := result_segments; ai_lineage := lineage |}.
