(* ===== verification/AccruedIncomeFacts.v ===== *)
(** * What accrued income is

    The ex-coupon check accepts exactly the accruals whose every day has the terms of the full coupon;
    an accepted calculation settles gross income less the adjustment exactly, within one storage unit
    of principal times rate times year fraction, summed over the segments. *)

From Stdlib Require Import ZArith Lia ZifyBool QArith Qabs Lqa String Sorted.
From stdpp Require Import base tactics list numbers strings.
From S2P Require Import Prelude PyDecimal DecimalFacts PyTime Calendar Precision Lineage DayCount DayCountFacts AccruedIncome.

#[local] Open Scope string_scope.
#[local] Open Scope Z_scope.

(** ** Contiguous segments *)

(** A segment of at least one day, as its constructor requires. *)
Definition segment_ok (s : AccrualSegment) : Prop := as_accrual_start s < as_accrual_end s.
Definition in_segment (d : date) (s : AccrualSegment) : Prop := as_accrual_start s <= d < as_accrual_end s.

Inductive chained : list AccrualSegment -> Prop :=
| chained_nil : chained []
| chained_one s : chained [s]
| chained_next s t rest : as_accrual_start t = as_accrual_end s -> chained (t :: rest) -> chained (s :: t :: rest).

Lemma contiguous_from_spec rest : forall s,
  (contiguous_from s rest = Ok tt /\ chained (s :: rest)) \/
  ((exists t, contiguous_from s rest = Raise (UnsupportedAccruedIncomeError t)) /\ ~ chained (s :: rest)).
Proof.
  induction rest as [|t rest IH]; intros s; [left; split; [done|constructor]|]. cbn [contiguous_from].
  destruct (Z.eqb_spec (as_accrual_start t) (as_accrual_end s)) as [E|E]; cbn [negb raise_if mbind result_bind].
  - destruct (IH t) as [[Hc Hch]|[Hc Hch]]; [left; split; [done|by constructor]|right; split; [done|]].
    intros H. by inversion H.
  - right. split; [by eexists|]. intros H. by inversion H.
Qed.

Lemma contiguous_chained segments : validate_contiguous_segments segments = Ok tt -> chained segments.
Proof. destruct segments as [|s rest]; [done|]. cbn. destruct (contiguous_from_spec rest s) as [[_ H]|[[t Ht] _]]; [done|]. by rewrite Ht. Qed.

Lemma chained_tail s rest : chained (s :: rest) -> chained rest.
Proof. inversion 1; [constructor|done]. Qed.

Lemma chained_later rest : forall s, chained (s :: rest) -> Forall segment_ok rest -> Forall (fun t => as_accrual_end s <= as_accrual_start t) rest.
Proof.
  induction rest as [|t rest IH]; intros s H Hok; [constructor|]. inversion H; subst. apply Forall_cons in Hok as [Ht Hok].
  constructor; [lia|]. eapply Forall_impl; [by apply IH|]. unfold segment_ok in Ht. cbn. lia.
Qed.

(** ** The prefix check *)

(** Some full-coupon segment of the day has the terms of the accrued one. *)
Definition same_terms_on (d : date) (accrued : AccrualSegment) (full : list AccrualSegment) : Prop :=
  exists f, f ∈ full /\ in_segment d f /\ segment_terms_eqb accrued f = true.

(** Every day accrued is accrued under the terms of the full coupon. *)
Definition economic_prefix (accrued full : list AccrualSegment) : Prop :=
  forall a d, a ∈ accrued -> in_segment d a -> same_terms_on d a full.

Lemma same_terms_app d a dropped rest : Forall (fun f => as_accrual_end f <= d) dropped ->
  same_terms_on d a (dropped ++ rest) <-> same_terms_on d a rest.
Proof.
  intros Hd. split; intros (f & Hf & Hin & Ht); exists f; (split; [|done]).
  - apply elem_of_app in Hf as [Hf|Hf]; [|done]. pose proof (proj1 (Forall_forall _ _) Hd f Hf). unfold in_segment in Hin. cbn in *. lia.
  - apply elem_of_app. by right.
Qed.

Lemma skip_ended_spec cursor full : exists dropped, full = (dropped ++ skip_ended cursor full)%list /\
  Forall (fun f => as_accrual_end f <= cursor) dropped /\
  match skip_ended cursor full with f :: _ => cursor < as_accrual_end f | [] => True end.
Proof.
  induction full as [|f rest (dropped & E & Hd & Hh)]; [by exists []|]. cbn [skip_ended].
  destruct (Z.leb_spec (as_accrual_end f) cursor).
  - exists (f :: dropped). split; [cbn; by f_equal|]. split; [by constructor|done].
  - exists []. done.
Qed.

Lemma chained_app_r l r : chained (l ++ r) -> chained r.
Proof. induction l as [|s l IH]; cbn; [done|]. intros H. apply IH. by eapply chained_tail. Qed.

(** Only the first of contiguous segments, if any, holds a day before its end. *)
Lemma terms_at_head d a f rest : chained (f :: rest) -> Forall segment_ok (f :: rest) -> d < as_accrual_end f ->
  same_terms_on d a (f :: rest) <-> as_accrual_start f <= d /\ segment_terms_eqb a f = true.
Proof.
  intros Hc Hok Hd. apply Forall_cons in Hok as [Hf Hok]. pose proof (chained_later rest f Hc Hok) as Hl. split.
  - intros (g & Hg & Hin & Ht). apply elem_of_cons in Hg as [->|Hg]; [unfold in_segment in Hin; split; [lia|done]|].
    pose proof (proj1 (Forall_forall _ _) Hl g Hg). unfold in_segment in Hin. cbn in *. lia.
  - intros [Hs Ht]. exists f. split; [by apply elem_of_cons; left|]. by split.
Qed.

Lemma skip_ended_length cursor full : (length (skip_ended cursor full) <= length full)%nat.
Proof. destruct (skip_ended_spec cursor full) as (dropped & E & _). rewrite E at 2. rewrite length_app. lia. Qed.

(** The loop for one accrued segment, from a cursor before which nothing is left to check. *)
Lemma prefix_loop_spec fuel : forall a cursor full, chained full -> Forall segment_ok full -> (length (skip_ended cursor full) < fuel)%nat -> cursor <= as_accrual_end a ->
  (exists dropped rest, prefix_loop fuel a cursor full = Ok rest /\ full = (dropped ++ rest)%list /\
     Forall (fun f => as_accrual_end f <= as_accrual_end a) dropped /\ forall d, cursor <= d < as_accrual_end a -> same_terms_on d a full) \/
  ((exists t, prefix_loop fuel a cursor full = Raise (UnsupportedAccruedIncomeError t)) /\
     exists d, cursor <= d < as_accrual_end a /\ ~ same_terms_on d a full).
Proof.
  induction fuel as [|fuel IH]; intros a cursor full Hch Hok Hfuel Hcur; [lia|]. cbn [prefix_loop].
  destruct (Z.ltb_spec cursor (as_accrual_end a)) as [Hlt|Hge]; cbn [negb].
  2: { left. exists [], full. split; [done|]. split; [done|]. split; [constructor|]. intros d Hd. lia. }
  destruct (skip_ended_spec cursor full) as (dropped & E & Hd & Hh). destruct (skip_ended cursor full) as [|f rest] eqn:Es.
  { right. split; [by eexists|]. exists cursor. split; [lia|]. rewrite E. rewrite same_terms_app by done. by intros (f & Hf%elem_of_nil & _). }
  rewrite E in Hch, Hok. apply chained_app_r in Hch. apply Forall_app in Hok as [_ Hok]. cbn in Hfuel.
  pose proof (fun d => terms_at_head d a f rest Hch Hok) as Hhead.
  destruct ((cursor <? as_accrual_start f) || negb (segment_terms_eqb a f)) eqn:Ebad.
  { right. split; [by eexists|]. exists cursor. split; [lia|]. rewrite E, same_terms_app, Hhead by done.
    destruct (segment_terms_eqb a f); [lia|]. intros [_ [=]]. }
  apply orb_false_iff in Ebad as [Es1%Z.ltb_ge Et%negb_false_iff].
  assert (Hnow : forall d, cursor <= d < Z.min (as_accrual_end a) (as_accrual_end f) -> same_terms_on d a full).
  { intros d Hd'. rewrite E, same_terms_app, Hhead; [split; [lia|done]|lia|]. eapply Forall_impl; [exact Hd|]. cbn. lia. }
  destruct (Z.le_gt_cases (as_accrual_end a) (as_accrual_end f)) as [Hle|Hgt].
  - left. rewrite Z.min_l in * by done. exists dropped, (f :: rest). split; [|split; [done|split; [|done]]].
    + destruct fuel; cbn; by rewrite Z.ltb_irrefl.
    + eapply Forall_impl; [exact Hd|]. cbn. lia.
  - rewrite Z.min_r in * by lia.
    assert (Hlift : forall d, as_accrual_end f <= d -> same_terms_on d a full <-> same_terms_on d a (f :: rest)).
    { intros d Hd'. rewrite E. apply same_terms_app. eapply Forall_impl; [exact Hd|]. cbn. lia. }
    destruct (IH a (as_accrual_end f) (f :: rest) Hch Hok) as [(dropped' & rest' & Hr & E' & Hd' & Hall)|[Hr (d & Hd' & Hn)]].
    { cbn. rewrite Z.leb_refl. pose proof (skip_ended_length (as_accrual_end f) rest). lia. }
    { lia. }
    + left. exists (dropped ++ dropped')%list, rest'. split; [exact Hr|]. split; [by rewrite E, E', app_assoc|]. split.
      * apply Forall_app. split; [|done]. eapply Forall_impl; [exact Hd|]. cbn. lia.
      * intros d Hd''. destruct (Z.lt_ge_cases d (as_accrual_end f)); [apply Hnow; lia|]. apply Hlift, Hall; lia.
    + right. split; [exact Hr|]. exists d. split; [lia|]. rewrite Hlift by lia. done.
Qed.

(** The whole walk over the accrued segments. *)
Lemma prefix_walk_spec accrued : forall full, chained accrued -> Forall segment_ok accrued -> chained full -> Forall segment_ok full ->
  ((exists rest, foldM prefix_segment full accrued = Ok rest) /\ economic_prefix accrued full) \/
  ((exists t, foldM prefix_segment full accrued = Raise (UnsupportedAccruedIncomeError t)) /\ ~ economic_prefix accrued full).
Proof.
  induction accrued as [|a accrued IH]; intros full Hca Hoka Hcf Hokf.
  { left. split; [by eexists|]. intros a d Ha. by apply elem_of_nil in Ha. }
  cbn [foldM]. unfold prefix_segment at 2 4. apply Forall_cons in Hoka as [Ha Hoka]. pose proof (chained_later accrued a Hca Hoka) as Hlater.
  destruct (prefix_loop_spec (S (length full)) a (as_accrual_start a) full Hcf Hokf) as [(dropped & rest & Hr & E & Hd & Hall)|[[t Hr] (d & Hd & Hn)]].
  { pose proof (skip_ended_length (as_accrual_start a) full). lia. }
  { unfold segment_ok in Ha. lia. }
  - rewrite Hr. cbn [mbind result_bind].
    assert (Hlift : forall b d, b ∈ accrued -> in_segment d b -> same_terms_on d b full <-> same_terms_on d b rest).
    { intros b d Hb Hin. rewrite E. apply same_terms_app. pose proof (proj1 (Forall_forall _ _) Hlater b Hb) as Hab. unfold in_segment in Hin.
      eapply Forall_impl; [exact Hd|]. cbn in *. lia. }
    rewrite E in Hcf, Hokf. apply chained_app_r in Hcf. apply Forall_app in Hokf as [_ Hokf].
    destruct (IH rest (chained_tail _ _ Hca) Hoka Hcf Hokf) as [[Hok Hp]|[Hbad Hp]]; [left|right]; (split; [done|]).
    + intros b d Hb Hin. apply elem_of_cons in Hb as [->|Hb]; [by apply Hall|]. apply (Hlift b d Hb Hin). by apply Hp.
    + intros H. apply Hp. intros b d Hb Hin. apply (Hlift b d Hb Hin). apply H; [by apply elem_of_cons; right|done].
  - right. rewrite Hr. split; [by eexists|]. intros H. apply Hn. apply H; [by apply elem_of_cons; left|done].
Qed.

(** ** Year fractions are bounded *)

Lemma catalogue_values : map snd CONVENTIONS_BY_KEY = CONVENTIONS.
Proof. reflexivity. Qed.

Lemma resolved_in_catalogue convention version c : resolve_day_count_convention convention version = Ok c -> c ∈ CONVENTIONS.
Proof.
  unfold resolve_day_count_convention. intros H. repeat case_match; simplify_eq.
  rewrite <- catalogue_values. apply list_elem_of_In, in_map_iff. eexists (_, c). split; [done|].
  apply list_elem_of_In. by apply od_get_elem.
Qed.

Lemma close_to_bound k x r : close_to k x r -> 0 <= k <= 10 ^ 7 -> (x <= 4000000)%Q -> (0 <= dval r < pow10 7)%Q.
Proof.
  intros [Pr Hr] Hk Hx. split; [done|]. apply Qabs_Qle_condition in Hr as [_ Hr].
  assert (Hkk : (inject_Z k <= 10000000)%Q) by (change 10000000%Q with (inject_Z 10000000); rewrite <- Zle_Qle; lia).
  assert (He : (0 < eps)%Q) by apply pow10_pos. assert (Hs : (eps <= 1 # 100000000)%Q) by (by vm_compute).
  change (pow10 7) with 10000000%Q. nra.
Qed.

Lemma fixed_fraction_bounded c d i r : c ∈ CONVENTIONS -> dc_denominator c = Some d -> inputs_ok i -> di_period_start i <> di_period_end i ->
  calculate_year_fraction (convention_value (dc_convention c)) (dc_convention_version c) i = Ok r -> (0 <= dval r < pow10 7)%Q.
Proof.
  intros Hc Hd Hi Hne Hr. rewrite (year_fraction_numerator c d i Hc Hd Hne) in Hr. destruct (numerator_counted c d i Hc Hd Hi Hne) as [Bd Hn].
  destruct (counted_days c i) as [n|]; [destruct Hn as [Hn Bn]|destruct Hn as [t Hn]]; rewrite Hn in Hr; [|done]. cbn in Hr. unfold ratio in Hr.
  destruct (div_near n d ltac:(lia) ltac:(lia) ltac:(lia)) as (q & Hq & Pq & Eq). rewrite Hq in Hr. simplify_eq.
  apply (close_to_bound 1 (inject_Z n / inject_Z d)); [split; [done|by rewrite Qmult_1_l]|lia|].
  apply Qle_shift_div_r; [change 0%Q with (inject_Z 0); rewrite <- Zlt_Qlt; lia|]. change 4000000%Q with (inject_Z 4000000).
  rewrite <- inject_Z_mult, <- Zle_Qle. lia.
Qed.

Lemma year_fraction_bounded convention version i r : inputs_ok i -> Forall period_ok (di_icma_reference_periods i) ->
  calculate_year_fraction convention version i = Ok r -> (0 <= dval r < pow10 7)%Q.
Proof.
  intros Hi Hp Hr. destruct (resolve_day_count_convention convention version) as [c|] eqn:Hc; [|by unfold calculate_year_fraction in Hr; rewrite Hc in Hr].
  pose proof (resolved_in_catalogue _ _ _ Hc) as Hin. pose proof (proj1 (Forall_forall _ _) catalogue_resolves c Hin) as Hres. cbn in Hres.
  destruct (inputs_ok_order i Hi) as [Ho Hl].
  assert (Hr' : calculate_year_fraction (convention_value (dc_convention c)) (dc_convention_version c) i = Ok r)
    by (unfold calculate_year_fraction in Hr |- *; by rewrite Hres, <- Hc). clear Hr Hc.
  destruct (Z.eq_dec (di_period_start i) (di_period_end i)) as [E|Hne].
  { unfold calculate_year_fraction in Hr'. rewrite Hres in Hr'. cbn in Hr'. rewrite (proj2 (Z.eqb_eq _ _) E) in Hr'. by simplify_eq. }
  destruct (dc_denominator c) as [d|] eqn:Hd; [by eapply fixed_fraction_bounded|].
  unfold calculate_year_fraction in Hr'. rewrite Hres in Hr'. cbn [mbind result_bind] in Hr'. rewrite (proj2 (Z.eqb_neq _ _) Hne) in Hr'.
  destruct (decide (dc_convention c = ACTUAL_ACTUAL_ISDA)) as [|Hn1].
  { destruct Hi as (_ & Rs & Re & _). destruct (isda_fraction_near _ _ Rs Re Ho) as (r' & Hr & Hn). rewrite Hr in Hr'. simplify_eq.
    eapply close_to_bound; [exact Hn|lia|]. by apply isda_exact_bounds. }
  destruct (decide (dc_convention c = ACTUAL_ACTUAL_ICMA)) as [|Hn2].
  { destruct (icma_fraction_cases i ltac:(lia) Hl Hp) as [(_ & Hx & r' & Hr & Hn)|[_ [t Hr]]]; rewrite Hr in Hr'; simplify_eq.
    eapply close_to_bound; [exact Hn|lia|done]. }
  exfalso. revert Hin Hd Hn1 Hn2. clear. unfold CONVENTIONS. intros Hin. 
  repeat (apply elem_of_cons in Hin as [->|Hin]); [..|by apply elem_of_nil in Hin]; cbn; done.
Qed.

(** ** Amounts *)

Definition segment_inputs (s : AccrualSegment) : DayCountInputs :=
  {| di_period_start := as_accrual_start s; di_period_end := as_accrual_end s; di_business_day_calendar := as_business_day_calendar s;
     di_contractual_termination_date := as_contractual_termination_date s; di_icma_reference_periods := as_icma_reference_periods s |}.

(** A segment with valid day-count evidence, a principal below [10 ^ 18] and a rate below a million. *)
Definition segment_bounded (s : AccrualSegment) : Prop :=
  segment_ok s /\ (Qabs (dval (as_signed_accrual_principal s)) < pow10 18)%Q /\ (Qabs (dval (as_annual_effective_rate s)) < pow10 6)%Q /\
  inputs_ok (segment_inputs s) /\ Forall period_ok (as_icma_reference_periods s).

(** The result reports the segment, with the year fraction of its convention. *)
Definition reports (s : AccrualSegment) (r : AccrualSegmentResult) : Prop :=
  sr_accrual_start r = as_accrual_start s /\ sr_accrual_end r = as_accrual_end s /\
  sr_signed_accrual_principal r = as_signed_accrual_principal s /\ sr_annual_effective_rate r = as_annual_effective_rate s /\
  calculate_year_fraction (as_day_count_convention s) (as_day_count_convention_version s) (segment_inputs s) = Ok (sr_year_fraction r).

Definition contractual (r : AccrualSegmentResult) : Q :=
  (dval (sr_signed_accrual_principal r) * dval (sr_annual_effective_rate r) * dval (sr_year_fraction r))%Q.

Definition contractual_income (rs : list AccrualSegmentResult) : Q := qsum (map contractual rs).

Definition delta : Q := pow10 (-26).

#[local] Notation ctx := accrual_context.

Lemma accrual_near k d r : k <= 60 -> -60 <= k -> (Qabs (dval d) < pow10 k)%Q -> dfix ctx d = Ok r ->
  (Qabs (dval r - dval d) <= (1 # 2) * pow10 (k - 64))%Q.
Proof.
  intros H1 H2 Hd Hr. apply (dfix_near ctx k d r); [done|done| |done|done]. change (Etiny ctx) with (-1000062). change (prec ctx) with 64. lia.
Qed.

Lemma product_below x y j k : (Qabs x < pow10 j -> Qabs y < pow10 k -> Qabs (x * y) < pow10 (j + k))%Q.
Proof.
  intros Hx Hy. rewrite Qabs_Qmult, pow10_add. pose proof (Qabs_nonneg x). pose proof (Qabs_nonneg y). pose proof (pow10_pos j). nra.
Qed.

Lemma product_near p r f m a : (0 <= dval f < pow10 7)%Q ->
  (Qabs (dval p) < pow10 18)%Q -> (Qabs (dval r) < pow10 6)%Q ->
  dmul ctx p r = Ok m -> dmul ctx m f = Ok a ->
  (Qabs (dval p * dval r * dval f) < pow10 31)%Q /\ (Qabs (dval a - dval p * dval r * dval f) <= pow10 (-31))%Q.
Proof.
  intros [Pf Hf] Hp Hr Hm Ha. assert (Af : (Qabs (dval f) < pow10 7)%Q) by (by rewrite Qabs_pos).
  pose proof (product_below _ _ _ _ Hp Hr) as Hpr. split; [by apply (product_below _ _ 24 7)|].
  assert (H1 : (Qabs (dval m - dval p * dval r) <= (1 # 2) * pow10 (24 - 64))%Q).
  { rewrite <- mul_exact_val. apply accrual_near; [lia|lia| |exact Hm]. by rewrite mul_exact_val. }
  apply Qabs_Qle_condition in H1 as [L1 U1]. apply Qabs_Qlt_condition in Hpr as [Lp Up].
  assert (Bm : (Qabs (dval m) < pow10 25)%Q).
  { apply Qabs_Qlt_condition. assert (pow10 (18 + 6) + (1 # 2) * pow10 (24 - 64) < pow10 25)%Q by (by vm_compute). lra. }
  assert (H2 : (Qabs (dval a - dval m * dval f) <= (1 # 2) * pow10 (32 - 64))%Q).
  { rewrite <- mul_exact_val. apply accrual_near; [lia|lia| |exact Ha]. rewrite mul_exact_val. by apply (product_below _ _ 25 7). }
  apply Qabs_Qle_condition in H2 as [L2 U2]. apply Qabs_Qle_condition.
  assert (Hbound : ((1 # 2) * pow10 (24 - 64) * pow10 7 + (1 # 2) * pow10 (32 - 64) <= pow10 (-31))%Q) by (by vm_compute).
  pose proof (pow10_pos (24 - 64)) as P1. set (e1 := pow10 (24 - 64)) in *. set (x := (dval m - dval p * dval r)%Q) in *.
  assert (E : (dval a - dval p * dval r * dval f == (dval a - dval m * dval f) + x * dval f)%Q) by (unfold x; ring).
  rewrite E. assert ((- ((1 # 2) * e1) * pow10 7 <= x * dval f)%Q /\ (x * dval f <= (1 # 2) * e1 * pow10 7)%Q) as [A1 A2] by (split; nra). split; lra.
Qed.

(** A sum of [k] contractual amounts, within [k] roundings. *)
Definition sum_near (k : Z) (exact : Q) (g : decimal) : Prop :=
  (Qabs exact <= inject_Z k * pow10 31 /\ Qabs (dval g - exact) <= inject_Z k * delta)%Q.

Lemma sum_step k exact g x a g' : 0 <= k <= 10 ^ 6 -> sum_near k exact g -> (Qabs x < pow10 31)%Q -> (Qabs (dval a - x) <= pow10 (-31))%Q ->
  dadd ctx g a = Ok g' -> sum_near (k + 1) (exact + x) g'.
Proof.
  intros Hk [Hx Hg] Ha1 Ha2 Hadd.
  assert (K0 : (0 <= inject_Z k)%Q) by (change 0%Q with (inject_Z 0); rewrite <- Zle_Qle; lia).
  assert (K1 : (inject_Z k <= 1000000)%Q) by (change 1000000%Q with (inject_Z 1000000); rewrite <- Zle_Qle; lia).
  pose proof (pow10_pos 31) as P31. pose proof (pow10_pos (-26)) as Pd. fold delta in Pd.
  apply Qabs_Qle_condition in Hx as [X1 X2], Hg as [G1 G2], Ha2 as [A1 A2]. apply Qabs_Qlt_condition in Ha1 as [Y1 Y2].
  assert (Hb : (1000000 * pow10 31 + 1000000 * delta + pow10 31 + pow10 (-31) < pow10 38)%Q) by (by vm_compute).
  assert (Hsum : (Qabs (dval (add_exact g a)) < pow10 38)%Q).
  { rewrite add_exact_val. apply Qabs_Qlt_condition.
    assert (inject_Z k * pow10 31 <= 1000000 * pow10 31)%Q by (by apply Qmult_le_compat_r; [|apply Qlt_le_weak]).
    assert (inject_Z k * delta <= 1000000 * delta)%Q by (by apply Qmult_le_compat_r; [|apply Qlt_le_weak]). split; lra. }
  pose proof (accrual_near 38 _ _ ltac:(lia) ltac:(lia) Hsum Hadd) as Hr. rewrite add_exact_val in Hr. apply Qabs_Qle_condition in Hr as [R1 R2].
  assert (Hd : ((1 # 2) * pow10 (38 - 64) + pow10 (-31) <= delta)%Q) by (by vm_compute).
  split; apply Qabs_Qle_condition; rewrite inject_Z_plus; change (inject_Z 1) with 1%Q; split; lra.
Qed.

Lemma calculate_segment_near acc g s k exact rs' g' : 0 <= k <= 10 ^ 6 -> segment_bounded s -> sum_near k exact g ->
  calculate_segment (acc, g) s = Ok (rs', g') ->
  exists r, rs' = (acc ++ [r])%list /\ reports s r /\ sum_near (k + 1) (exact + contractual r) g'.
Proof.
  intros Hk (_ & Hp & Hr & Hi & Hrefs) Hg H. unfold calculate_segment in H. fold (segment_inputs s) in H.
  rewrite (proj1 Hi) in H. cbn [mbind result_bind] in H.
  apply bind_Ok in H as (f & Hf & H). apply bind_Ok in H as (m & Hm & H). apply bind_Ok in H as (a & Ha & H). apply bind_Ok in H as (g2 & Hg2 & H).
  injection H as <- <-. eexists. split; [reflexivity|]. split; [done|]. pose proof (year_fraction_bounded _ _ _ _ Hi Hrefs Hf) as Bf.
  destruct (product_near _ _ _ _ _ Bf Hp Hr Hm Ha) as [Ba Na]. by eapply sum_step.
Qed.

Lemma contractual_income_snoc rs r : (contractual_income (rs ++ [r]) == contractual_income rs + contractual r)%Q.
Proof.
  unfold contractual_income. induction rs as [|x rs IH]; cbn in *; [lra|]. unfold qsum in *. rewrite IH. lra.
Qed.

Lemma calculate_segments_near segments : forall acc g k rs g', 0 <= k -> k + Z.of_nat (length segments) <= 10 ^ 6 -> Forall segment_bounded segments ->
  sum_near k (contractual_income acc) g -> foldM calculate_segment (acc, g) segments = Ok (rs, g') ->
  exists new, rs = (acc ++ new)%list /\ Forall2 reports segments new /\ sum_near (k + Z.of_nat (length segments)) (contractual_income rs) g'.
Proof.
  induction segments as [|s segments IH]; intros acc g k rs g' Hk Hlen Hb Hg H.
  { cbn in H. simplify_eq. exists []. split; [by rewrite app_nil_r|]. split; [constructor|]. cbn. by rewrite Z.add_0_r. }
  cbn [foldM] in H. apply bind_Ok in H as ([rs1 g1] & H1 & H). apply Forall_cons in Hb as [Hs Hb]. cbn [length] in Hlen.
  destruct (calculate_segment_near acc g s k _ _ _ ltac:(lia) Hs Hg H1) as (r & -> & Hr & Hn).
  destruct (IH (acc ++ [r])%list g1 (k + 1) rs g' ltac:(lia) ltac:(lia) Hb) as (new & -> & Hf & Hn').
  { destruct Hn as [N1 N2]. split; by rewrite contractual_income_snoc. }
  { done. }
  exists (r :: new). split; [by rewrite <- app_assoc|]. split; [by constructor|].
  replace (k + Z.of_nat (length (s :: segments))) with (k + 1 + Z.of_nat (length segments)) by (cbn [length]; lia). done.
Qed.

Lemma calculate_segments_spec segments rs g : Z.of_nat (length segments) <= 10 ^ 6 -> Forall segment_bounded segments ->
  calculate_segments segments = Ok (rs, g) ->
  Forall2 reports segments rs /\ (Qabs (dval g - contractual_income rs) <= pow10 (-20))%Q.
Proof.
  intros Hlen Hb H. destruct (calculate_segments_near segments [] dzero 0 rs g) as (new & -> & Hf & Hn); [lia|lia|done| |exact H|].
  { split; by vm_compute. }
  split; [done|]. destruct Hn as [_ Hn]. eapply Qle_trans; [exact Hn|]. apply Qle_trans with (inject_Z (10 ^ 6) * delta)%Q; [|by vm_compute].
  apply Qmult_le_compat_r; [rewrite <- Zle_Qle; lia|]. apply Qlt_le_weak, pow10_pos.
Qed.

(** ** Outputs *)

#[local] Notation pol := ACCRUED_INCOME_LEDGER_OUTPUT_V1.

Lemma normalized_near x d f r : (Qabs (dval d - x) <= pow10 (-20))%Q -> normalize pol (Finite d) f = Ok r -> (Qabs (dval r - x) <= pow10 (-10))%Q.
Proof.
  intros Hd Hr. apply ledger_of_normalize in Hr as [Hr _]. unfold units in Hr. change (to_units _ d) with (to_units pol d) in Hr.
  pose proof (qround_half_even (dval d * pow10 10)) as Hq. change (qround ROUND_HALF_EVEN (dval d * pow10 10)) with (to_units pol d) in Hq.
  rewrite Hr. set (n := inject_Z (to_units pol d)) in *. apply Qabs_Qle_condition in Hd as [D1 D2], Hq as [Q1 Q2].
  change (pow10 10) with 10000000000%Q in *. change (pow10 (-10)) with (1 # 10000000000)%Q. change (pow10 (-20)) with (1 # 100000000000000000000)%Q in *.
  apply Qabs_Qle_condition. split; lra.
Qed.

(** The entitlement that an adjustment is taken for: the settlement lies between its dates, and every
    accrued day is accrued under the terms of the full coupon. *)
Definition entitlement_applies (ordered : list AccrualSegment) (e : ExCouponEntitlement) : Prop :=
  let full := sorted_segments (ec_full_coupon_segments e) in
  chained full /\ economic_prefix ordered full /\
  (exists a, last ordered = Some a /\ ec_ex_coupon_date e < as_accrual_end a < ec_next_coupon_payment_date e) /\
  (exists a f, head ordered = Some a /\ head full = Some f /\ as_accrual_start a = as_accrual_start f) /\
  (exists f, last full = Some f /\ as_accrual_end f = ec_next_coupon_payment_date e).

Lemma first_segment_Ok l s : first_segment l = Ok s -> head l = Some s.
Proof. destruct l; [done|]. cbn. congruence. Qed.

Lemma last_segment_Ok l s : last_segment l = Ok s -> last l = Some s.
Proof. unfold last_segment. destruct (last l); [congruence|done]. Qed.

Lemma validate_entitlement_Ok ordered e currency u : chained ordered -> Forall segment_ok ordered -> Forall segment_ok (ec_full_coupon_segments e) ->
  validate_ex_coupon_entitlement ordered (sorted_segments (ec_full_coupon_segments e)) e currency = Ok u -> entitlement_applies ordered e.
Proof.
  intros Hc Ho Hf H. unfold validate_ex_coupon_entitlement in H. set (full := sorted_segments (ec_full_coupon_segments e)) in *.
  assert (Hok : Forall segment_ok full) by (unfold full, sorted_segments; by rewrite stable_sort_perm).
  inv_ok. unfold entitlement_applies. fold full.
  match goal with H : validate_contiguous_segments _ = Ok ?x |- _ => destruct x; apply contiguous_chained in H as Hch end.
  split; [done|]. split.
  - destruct (prefix_walk_spec ordered full Hc Ho Hch Hok) as [[_ Hp]|[[t Ht] _]]; [done|].
    unfold validate_accrued_prefix_matches_full_coupon in H. by rewrite Ht in H.
  - split; [exists x1; split; [by apply last_segment_Ok|lia]|].
    split; [exists x5, x4; split; [by apply first_segment_Ok|]; split; [by apply first_segment_Ok|lia]|].
    exists x7. split; [by apply last_segment_Ok|lia].
Qed.

(** What the adjustment is: nothing without an entitlement, otherwise the full coupon. *)
Definition adjustment_is (ordered : list AccrualSegment) (entitlement : option ExCouponEntitlement) (adjustment : decimal) : Prop :=
  match entitlement with
  | None => (dval adjustment == 0)%Q
  | Some e => entitlement_applies ordered e /\ exists full_results, Forall2 reports (sorted_segments (ec_full_coupon_segments e)) full_results /\
                (Qabs (dval adjustment - contractual_income full_results) <= pow10 (-10))%Q
  end.

(** Segments within bounds, and the full coupon of an entitlement too. *)
Definition segments_bounded (segments : list AccrualSegment) : Prop := Z.of_nat (length segments) <= 10 ^ 6 /\ Forall segment_bounded segments.

Lemma sorted_bounded segments : segments_bounded segments -> segments_bounded (sorted_segments segments).
Proof. unfold segments_bounded, sorted_segments. by rewrite stable_sort_perm. Qed.

Lemma bounded_ok segments : segments_bounded segments -> Forall segment_ok segments.
Proof. intros [_ H]. eapply Forall_impl; [exact H|]. intros s Hs. apply Hs. Qed.

Lemma adjustment_spec ordered currency entitlement adjustment p f r : chained ordered -> Forall segment_ok ordered ->
  match entitlement with Some e => segments_bounded (ec_full_coupon_segments e) | None => True end ->
  entitlement_adjustment ordered currency entitlement = Ok (adjustment, p) -> normalize pol (Finite adjustment) f = Ok r ->
  adjustment_is ordered entitlement r.
Proof.
  intros Hc Ho Hb H Hr. destruct entitlement as [e|]; cbn in H.
  - apply bind_Ok in H as (u & Hv & H). apply bind_Ok in H as ([rs g] & Hs & H). injection H as <- <-.
    split; [eapply validate_entitlement_Ok; [done|done|by apply bounded_ok|exact Hv]|].
    destruct (sorted_bounded _ Hb) as [Hl Hb']. destruct (calculate_segments_spec _ _ _ Hl Hb' Hs) as [Hf Hn].
    exists rs. split; [done|]. by eapply normalized_near.
  - injection H as <- <-. cbn. assert (E : normalize pol (Finite dzero) f = Ok dzero) by reflexivity. rewrite E in Hr. by injection Hr as <-.
Qed.

(** ** Claims *)

(** C31: The prefix check of the ex-coupon treatment is exact: on contiguous segments, in any partition
    of the two periods, it accepts if every accrued day falls in a full-coupon segment with the same
    currency, principal, rate, day count and sources, and raises [UnsupportedAccruedIncomeError] otherwise. *)
Theorem ex_coupon_prefix_exact accrued full : chained accrued -> Forall segment_ok accrued -> chained full -> Forall segment_ok full ->
  (economic_prefix accrued full -> validate_accrued_prefix_matches_full_coupon accrued full = Ok tt) /\
  (~ economic_prefix accrued full -> exists t, validate_accrued_prefix_matches_full_coupon accrued full = Raise (UnsupportedAccruedIncomeError t)).
Proof.
  intros Ha Hoa Hf Hof. unfold validate_accrued_prefix_matches_full_coupon.
  destruct (prefix_walk_spec accrued full Ha Hoa Hf Hof) as [[[rest Hr] Hp]|[[t Hr] Hp]]; rewrite Hr; (split; [intros H|intros H]); try done.
  by exists t.
Qed.

(** An accepted accrual, given in any order, covers one unbroken interval in one currency; its gross income
    is within one storage unit of principal times rate times the year fraction of each segment, summed; the
    adjustment is nil, or the full coupon of an entitlement that applies; settlement income is exactly gross
    less adjustment; and the lineage binds the output. *)
Theorem accrued_income_settles `{Hashing} segments entitlement r : segments_bounded segments ->
  match entitlement with Some e => segments_bounded (ec_full_coupon_segments e) | None => True end ->
  calculate_segmented_accrued_income segments entitlement = Ok r ->
  let ordered := sorted_segments segments in
  chained ordered /\ Forall (fun s => segment_currency s = ai_currency r) segments /\ Forall2 reports ordered (ai_segments r) /\
  (Qabs (dval (ai_gross_accrued_income r) - contractual_income (ai_segments r)) <= pow10 (-10))%Q /\
  adjustment_is ordered entitlement (ai_ex_coupon_entitlement_adjustment r) /\
  (dval (ai_settlement_accrued_income r) == dval (ai_gross_accrued_income r) - dval (ai_ex_coupon_entitlement_adjustment r))%Q /\
  calculation_lineage_binds_output (ai_lineage r)
    (accrued_output_payload (ai_currency r) (ai_gross_accrued_income r) (ai_ex_coupon_entitlement_adjustment r)
       (ai_settlement_accrued_income r) (ai_segments r)) = Ok true.
Proof.
  intros Hb Hbe Hr ordered. unfold calculate_segmented_accrued_income in Hr. fold ordered in Hr.
  destruct (match segments with [] => true | _ => false end); [done|].
  apply bind_Ok in Hr as (u & Hcont & Hr). destruct u. apply contiguous_chained in Hcont.
  apply bind_Ok in Hr as (first & Hfirst & Hr). apply bind_Ok in Hr as (u & Hcur%raise_if_Ok & Hr).
  apply bind_Ok in Hr as ([rs g] & Hsegs & Hr). apply bind_Ok in Hr as ([adj ep] & Hadj & Hr).
  apply bind_Ok in Hr as (gross & Hgross & Hr). apply bind_Ok in Hr as (adj' & Hadj' & Hr). apply bind_Ok in Hr as (settle & Hset & Hr).
  apply bind_Ok in Hr as (policy & _ & Hr). apply bind_Ok in Hr as (lineage & Hlin & Hr). injection Hr as <-. cbn.
  pose proof (sorted_bounded _ Hb) as Hbo. destruct (calculate_segments_spec _ _ _ (proj1 Hbo) (proj2 Hbo) Hsegs) as [Hrep Hnear].
  split; [done|]. split.
  { rewrite <- (stable_sort_perm segment_leb segments). fold (sorted_segments segments). fold ordered. apply Forall_forall. intros s Hs.
    destruct (String.eqb_spec (segment_currency s) (segment_currency first)) as [|Hne]; [done|]. exfalso.
    assert (Hx : existsb (fun s => negb (String.eqb (segment_currency s) (segment_currency first))) ordered = true); [|congruence].
    apply existsb_exists. exists s. split; [by apply list_elem_of_In|]. by apply negb_true_iff, String.eqb_neq. }
  split; [done|]. split; [by eapply normalized_near|]. split; [eapply adjustment_spec; [done|by apply bounded_ok|done|exact Hadj|exact Hadj']|].
  split; [|by eapply lineage_binds_own].
  pose proof (ledger_of_normalize _ _ _ _ Hgross) as Lg. pose proof (ledger_of_normalize _ _ _ _ Hadj') as La.
  pose proof (p_subtract_Ok _ _ _ _ _ _ _ Lg La Hset) as [Ls _]. destruct Lg as [Lg _], La as [La _]. unfold units in *.
  rewrite Ls, Lg, La. unfold Z.sub. rewrite inject_Z_plus, inject_Z_opp. ring.
Qed.

(** ** Witnesses *)

Definition wit_source : FinancialSourceReference :=
  {| fs_source_system := "terms"; fs_source_record_id := "B1"; fs_source_revision := "3"; fs_source_content_hash := digest_zero;
     fs_observed_at := {| dt_us := 0; dt_utcoffset := Some 0 |} |}.

(** A million at four per cent, ACT/365. *)
Definition wit_segment (s e : date) : AccrualSegment :=
  {| as_accrual_start := s; as_accrual_end := e; as_currency := " usd"; as_signed_accrual_principal := dint 1000000;
     as_annual_effective_rate := Dec 4 (-2); as_rate_type := FIXED; as_day_count_convention := "act/365.fixed"; as_day_count_convention_version := 1;
     as_rate_source := wit_source; as_principal_source := wit_source; as_schedule_source := wit_source; as_business_day_calendar := None;
     as_contractual_termination_date := None; as_icma_reference_periods := [] |}.

Lemma wit_segment_bounded s e : s < e -> in_range s -> in_range e -> segment_bounded (wit_segment s e).
Proof.
  intros H Rs Re. split; [done|]. split; [by vm_compute|]. split; [by vm_compute|]. split; [|constructor]. split; [|by split].
  unfold make_DayCountInputs. cbn. rewrite (proj2 (Z.ltb_ge e s)) by lia. done.
Qed.

Lemma ex_coupon_prefix_exact_witness :
  validate_accrued_prefix_matches_full_coupon [wit_segment 19700 19800] [wit_segment 19700 19750; wit_segment 19750 19900] = Ok tt /\
  exists t, validate_accrued_prefix_matches_full_coupon [wit_segment 19700 19800] [wit_segment 19700 19750] = Raise (UnsupportedAccruedIncomeError t).
Proof.
  split.
  - apply (ex_coupon_prefix_exact [wit_segment 19700 19800] [wit_segment 19700 19750; wit_segment 19750 19900]).
    + constructor.
    + by repeat constructor.
    + by repeat constructor.
    + by repeat constructor.
    + intros a d Ha Hin. apply list_elem_of_singleton in Ha as ->. unfold in_segment in Hin. cbn in Hin.
      destruct (Z.lt_ge_cases d 19750);
        [exists (wit_segment 19700 19750); split; [apply elem_of_cons; by left|]
        |exists (wit_segment 19750 19900); split; [apply elem_of_cons; right; by apply list_elem_of_singleton|]];
        (split; [unfold in_segment; cbn; lia|by vm_compute]).
  - apply (ex_coupon_prefix_exact [wit_segment 19700 19800] [wit_segment 19700 19750]); [constructor|by repeat constructor..|].
    intros H. destruct (H (wit_segment 19700 19800) 19760) as (f & Hf & Hin & _); [by apply list_elem_of_singleton|by split|].
    apply list_elem_of_singleton in Hf as ->. unfold in_segment in Hin. cbn in Hin. lia.
Defined.

Definition wit_entitlement : ExCouponEntitlement :=
  {| ec_ex_coupon_date := 19790; ec_next_coupon_payment_date := 19900; ec_full_coupon_segments := [wit_segment 19750 19900; wit_segment 19700 19750];
     ec_entitlement_source := wit_source |}.

Definition wit_accrual : result AccruedIncomeResult :=
  @calculate_segmented_accrued_income constant_hashing [wit_segment 19700 19800] (Some wit_entitlement).

Lemma accrued_income_settles_witness : exists r, wit_accrual = Ok r /\
  (dval (ai_settlement_accrued_income r) == dval (ai_gross_accrued_income r) - dval (ai_ex_coupon_entitlement_adjustment r))%Q /\
  adjustment_is [wit_segment 19700 19800] (Some wit_entitlement) (ai_ex_coupon_entitlement_adjustment r).
Proof.
  assert (E : exists r, wit_accrual = Ok r) by (eexists; vm_compute; reflexivity). destruct E as [r E]. exists r. split; [exact E|].
  destruct (@accrued_income_settles constant_hashing [wit_segment 19700 19800] (Some wit_entitlement) r) as (_ & _ & _ & _ & Ha & Hs & _).
  - split; [cbn; lia|]. apply Forall_singleton. apply wit_segment_bounded; [done|by split..].
  - split; [cbn; lia|]. apply Forall_cons; split; [|apply Forall_singleton]; (apply wit_segment_bounded; [done|by split..]).
  - exact E.
  - split; [exact Hs|exact Ha].
Defined.
