(* ===== verification/PositionValuation.v ===== *)
(** * Position valuation

    [portfolio_common/domain/valuation/position_valuation.py] and [policy_registry.py]: policies that say
    how a supplied value is represented, scaled, completed by accrued income and converted; the local
    economics they give, the conversion to the reporting currency, and the versioned catalogue. *)

From Stdlib Require Import ZArith Lia String.
From stdpp Require Import base tactics list strings.
From S2P Require Import Prelude PyDecimal DecimalFacts PyTime Precision Lineage AccruedIncome.

#[local] Open Scope string_scope.
#[local] Open Scope Z_scope.

Definition POSITION_VALUATION_LEDGER_OUTPUT_V1 : CalculatedDecimalPolicy := ledger_policy "position-valuation-ledger-output".

Definition POSITION_VALUATION_ALGORITHM_ID : string := "POSITION_VALUATION_SCALING".
Definition POSITION_VALUATION_ALGORITHM_VERSION : Z := 2.
Definition POSITION_VALUATION_INTERMEDIATE_PRECISION : Z := cp_working_precision POSITION_VALUATION_LEDGER_OUTPUT_V1.
Definition POSITION_VALUATION_INTERMEDIATE_ROUNDING : rounding_mode := cp_rounding POSITION_VALUATION_LEDGER_OUTPUT_V1.
Definition POSITION_VALUATION_LOCAL_ECONOMICS_ALGORITHM_ID : string := "POSITION_VALUATION_LOCAL_ECONOMICS_NORMALIZATION".
Definition POSITION_VALUATION_LOCAL_ECONOMICS_ALGORITHM_VERSION : Z := 1.

Definition valuation_context : context := make_context POSITION_VALUATION_INTERMEDIATE_PRECISION POSITION_VALUATION_INTERMEDIATE_ROUNDING.

(** ** Enumerations *)

Inductive ValuationInputBasis :=
| UNIT_PRICE | NAV_PER_UNIT | PERCENT_OF_PRINCIPAL_CLEAN | PERCENT_OF_PRINCIPAL_DIRTY | SUPPLIED_VALUE_PER_UNDERLYING_UNIT
| SUPPLIED_FAIR_VALUE_PER_CONTRACT | SUPPLIED_FAIR_VALUE_WHOLE_POSITION | SETTLEMENT_VARIATION_WHOLE_POSITION.

Inductive PrincipalBasis := POSITION_UNITS | FACE_AMOUNT | FACTOR_ADJUSTED_CURRENT_PRINCIPAL | SUPPLIED_CURRENT_PRINCIPAL.

Inductive PositionScaling := SCALING_NONE | QUANTITY | PRINCIPAL | CONTRACT_COUNT_AND_MULTIPLIER.

Inductive AccruedIncomeTreatment :=
| NOT_APPLICABLE | NO_PERIODIC_ACCRUAL | INCLUDED_IN_SOURCE_VALUE | CALCULATED_SEPARATELY | CALCULATED_EX_COUPON_SEPARATELY
| SUPPLIED_SEPARATELY.

Inductive FxConversionPolicy := ALREADY_IN_REPORTING_CURRENCY | DIRECT_SOURCE_TO_REPORTING.

Inductive ValuationOutputMeasure := MARKET_VALUE | NOTIONAL_EXPOSURE | SETTLEMENT_VARIATION.

#[export] Instance input_basis_eq_dec : EqDecision ValuationInputBasis.
Proof. solve_decision. Defined.
#[export] Instance principal_basis_eq_dec : EqDecision PrincipalBasis.
Proof. solve_decision. Defined.
#[export] Instance scaling_eq_dec : EqDecision PositionScaling.
Proof. solve_decision. Defined.
#[export] Instance treatment_eq_dec : EqDecision AccruedIncomeTreatment.
Proof. solve_decision. Defined.
#[export] Instance fx_policy_eq_dec : EqDecision FxConversionPolicy.
Proof. solve_decision. Defined.
#[export] Instance measure_eq_dec : EqDecision ValuationOutputMeasure.
Proof. solve_decision. Defined.

Definition input_basis_value (b : ValuationInputBasis) : string :=
  match b with
  | UNIT_PRICE => "UNIT_PRICE" | NAV_PER_UNIT => "NAV_PER_UNIT" | PERCENT_OF_PRINCIPAL_CLEAN => "PERCENT_OF_PRINCIPAL_CLEAN"
  | PERCENT_OF_PRINCIPAL_DIRTY => "PERCENT_OF_PRINCIPAL_DIRTY" | SUPPLIED_VALUE_PER_UNDERLYING_UNIT => "SUPPLIED_VALUE_PER_UNDERLYING_UNIT"
  | SUPPLIED_FAIR_VALUE_PER_CONTRACT => "SUPPLIED_FAIR_VALUE_PER_CONTRACT"
  | SUPPLIED_FAIR_VALUE_WHOLE_POSITION => "SUPPLIED_FAIR_VALUE_WHOLE_POSITION"
  | SETTLEMENT_VARIATION_WHOLE_POSITION => "SETTLEMENT_VARIATION_WHOLE_POSITION"
  end.

Definition principal_basis_value (b : PrincipalBasis) : string :=
  match b with
  | POSITION_UNITS => "POSITION_UNITS" | FACE_AMOUNT => "FACE_AMOUNT"
  | FACTOR_ADJUSTED_CURRENT_PRINCIPAL => "FACTOR_ADJUSTED_CURRENT_PRINCIPAL" | SUPPLIED_CURRENT_PRINCIPAL => "SUPPLIED_CURRENT_PRINCIPAL"
  end.

Definition scaling_value (s : PositionScaling) : string :=
  match s with
  | SCALING_NONE => "NONE" | QUANTITY => "QUANTITY" | PRINCIPAL => "PRINCIPAL"
  | CONTRACT_COUNT_AND_MULTIPLIER => "CONTRACT_COUNT_AND_MULTIPLIER"
  end.

Definition treatment_value (t : AccruedIncomeTreatment) : string :=
  match t with
  | NOT_APPLICABLE => "NOT_APPLICABLE" | NO_PERIODIC_ACCRUAL => "NO_PERIODIC_ACCRUAL" | INCLUDED_IN_SOURCE_VALUE => "INCLUDED_IN_SOURCE_VALUE"
  | CALCULATED_SEPARATELY => "CALCULATED_SEPARATELY" | CALCULATED_EX_COUPON_SEPARATELY => "CALCULATED_EX_COUPON_SEPARATELY"
  | SUPPLIED_SEPARATELY => "SUPPLIED_SEPARATELY"
  end.

Definition fx_policy_value (f : FxConversionPolicy) : string :=
  match f with ALREADY_IN_REPORTING_CURRENCY => "ALREADY_IN_REPORTING_CURRENCY" | DIRECT_SOURCE_TO_REPORTING => "DIRECT_SOURCE_TO_REPORTING" end.

Definition measure_value (m : ValuationOutputMeasure) : string :=
  match m with MARKET_VALUE => "MARKET_VALUE" | NOTIONAL_EXPOSURE => "NOTIONAL_EXPOSURE" | SETTLEMENT_VARIATION => "SETTLEMENT_VARIATION" end.

Definition PERCENT_OF_PRINCIPAL_BASES : list ValuationInputBasis := [PERCENT_OF_PRINCIPAL_CLEAN; PERCENT_OF_PRINCIPAL_DIRTY].
Definition PER_UNIT_BASES : list ValuationInputBasis := [UNIT_PRICE; NAV_PER_UNIT].

(** ** Policies *)

Record PositionValuationPolicy := {
  vp_policy_id : string; vp_policy_version : Z; vp_input_basis : ValuationInputBasis; vp_principal_basis : PrincipalBasis;
  vp_position_scaling : PositionScaling; vp_accrued_income_treatment : AccruedIncomeTreatment; vp_fx_conversion : FxConversionPolicy;
  vp_output_measure : ValuationOutputMeasure; vp_quote_denominator : option number
}.

(** [value <= 0]: an ordering comparison with NaN signals. *)
Definition not_positive (x : number) : result bool :=
  match x with
  | Finite d => Ok (dleb d dzero)
  | Infinity negative => Ok negative
  | NaN => Raise (DecimalSignal InvalidOperation)
  end.

Definition expected_scaling (b : ValuationInputBasis) : result PositionScaling :=
  match b with
  | UNIT_PRICE | NAV_PER_UNIT | SUPPLIED_FAIR_VALUE_PER_CONTRACT => Ok QUANTITY
  | SUPPLIED_VALUE_PER_UNDERLYING_UNIT => Ok CONTRACT_COUNT_AND_MULTIPLIER
  | SUPPLIED_FAIR_VALUE_WHOLE_POSITION | SETTLEMENT_VARIATION_WHOLE_POSITION => Ok SCALING_NONE
  | _ => Raise (KeyError (input_basis_value b))
  end.

Definition validate_representation_scaling (p : PositionValuationPolicy) : result unit :=
  if decide (vp_input_basis p ∈ PERCENT_OF_PRINCIPAL_BASES) then
    _ ← raise_if (bool_decide (vp_position_scaling p <> PRINCIPAL)) (ValueError "percent-of-principal values require PRINCIPAL scaling");
    _ ← raise_if (bool_decide (vp_principal_basis p = POSITION_UNITS))
          (ValueError "percent-of-principal values require an explicit principal basis");
    bad ← (match vp_quote_denominator p with None => Ok true | Some d => not_positive d end);
    raise_if bad (ValueError "percent-of-principal values require a positive quote_denominator")
  else
    _ ← raise_if (bool_decide (vp_principal_basis p <> POSITION_UNITS))
          (ValueError "non-principal scaling requires POSITION_UNITS principal basis");
    _ ← raise_if (match vp_quote_denominator p with Some _ => true | None => false end)
          (ValueError "quote_denominator is valid only for percent-of-principal values");
    expected ← expected_scaling (vp_input_basis p);
    raise_if (bool_decide (vp_position_scaling p <> expected))
      (ValueError (input_basis_value (vp_input_basis p) +:+ " requires " +:+ scaling_value expected +:+ " scaling")).

Definition validate_output_measure (p : PositionValuationPolicy) : result unit :=
  _ ← raise_if (bool_decide (vp_input_basis p = SETTLEMENT_VARIATION_WHOLE_POSITION) && bool_decide (vp_output_measure p <> SETTLEMENT_VARIATION))
        (ValueError "settlement variation input cannot populate market value or notional");
  raise_if (bool_decide (vp_output_measure p = SETTLEMENT_VARIATION) && bool_decide (vp_input_basis p <> SETTLEMENT_VARIATION_WHOLE_POSITION))
    (ValueError "settlement variation output requires a settlement variation input").

Definition validate_accrued_income_treatment (p : PositionValuationPolicy) : result unit :=
  _ ← (if decide (vp_input_basis p = PERCENT_OF_PRINCIPAL_DIRTY)
       then raise_if (bool_decide (vp_accrued_income_treatment p <> INCLUDED_IN_SOURCE_VALUE))
              (ValueError "dirty percent-of-principal value must include accrued income")
       else raise_if (bool_decide (vp_accrued_income_treatment p = INCLUDED_IN_SOURCE_VALUE))
              (ValueError "included accrued income is valid only for a dirty source value"));
  _ ← raise_if (bool_decide (vp_accrued_income_treatment p = CALCULATED_EX_COUPON_SEPARATELY) &&
                bool_decide (vp_input_basis p <> PERCENT_OF_PRINCIPAL_CLEAN))
        (ValueError "calculated ex-coupon accrual requires a clean percent-of-principal input");
  raise_if (bool_decide (vp_output_measure p <> MARKET_VALUE) && bool_decide (vp_accrued_income_treatment p <> NOT_APPLICABLE))
    (ValueError "non-market-value outputs cannot include accrued income").

Definition make_PositionValuationPolicy (p : PositionValuationPolicy) : result PositionValuationPolicy :=
  _ ← raise_if (negb (truthy (strip (vp_policy_id p)))) (ValueError "policy_id must be nonblank");
  _ ← raise_if (vp_policy_version p <? 1) (ValueError "policy_version must be positive");
  _ ← validate_representation_scaling p;
  _ ← validate_output_measure p;
  _ ← validate_accrued_income_treatment p;
  Ok p.

(** ** Inputs and results *)

Record PositionValuationEvidence := {
  ve_policy_assignment : FinancialSourceReference; ve_source_value : FinancialSourceReference; ve_source_currency : FinancialSourceReference;
  ve_reporting_currency : FinancialSourceReference; ve_signed_quantity : option FinancialSourceReference;
  ve_signed_face_amount : option FinancialSourceReference; ve_principal_factor : option FinancialSourceReference;
  ve_signed_current_principal : option FinancialSourceReference; ve_contract_multiplier : option FinancialSourceReference;
  ve_calculated_accrued_income : option CalculationLineage; ve_supplied_accrued_income : option FinancialSourceReference;
  ve_direct_source_to_reporting_fx_rate : option FinancialSourceReference
}.

Record PositionValuationEconomicInputs := {
  ei_source_value : number; ei_signed_quantity : number; ei_signed_face_amount : option number; ei_principal_factor : option number;
  ei_signed_current_principal : option number; ei_contract_multiplier : option number; ei_calculated_accrued_income : option number;
  ei_supplied_accrued_income : option number
}.

(** The numeric facts are grouped as the economic inputs the calculation extracts. *)
Record PositionValuationInputs := {
  vi_economic : PositionValuationEconomicInputs; vi_source_currency : string; vi_reporting_currency : string;
  vi_evidence : PositionValuationEvidence; vi_direct_source_to_reporting_fx_rate : option number
}.

Definition make_PositionValuationInputs (i : PositionValuationInputs) : result PositionValuationInputs :=
  _ ← raise_if (negb (truthy (strip (vi_source_currency i)))) (ValueError "source_currency must be nonblank");
  _ ← raise_if (negb (truthy (strip (vi_reporting_currency i)))) (ValueError "reporting_currency must be nonblank");
  Ok i.

Record PositionValuationLocalEconomics := {
  le_current_principal : option decimal; le_clean_value_local : option decimal; le_accrued_income_local : option decimal;
  le_total_market_value_local : option decimal; le_notional_exposure_local : option decimal; le_settlement_variation_local : option decimal;
  le_lineage : CalculationLineage
}.

Record NormalizedPositionOutputs := {
  no_current_principal : option decimal; no_clean_value_local : option decimal; no_clean_value_reporting : option decimal;
  no_accrued_income_local : option decimal; no_accrued_income_reporting : option decimal; no_total_market_value_local : option decimal;
  no_total_market_value_reporting : option decimal; no_notional_exposure_local : option decimal; no_notional_exposure_reporting : option decimal;
  no_settlement_variation_local : option decimal; no_settlement_variation_reporting : option decimal
}.

Record PositionValuationResult := {
  vr_source_currency : string; vr_reporting_currency : string; vr_source_to_reporting_fx_rate : decimal;
  vr_outputs : NormalizedPositionOutputs; vr_lineage : CalculationLineage
}.

Definition opt_decimal (d : option decimal) : payload := match d with Some d => PDecimal (Finite d) | None => PNone end.
Definition opt_number (d : option number) : payload := match d with Some d => PDecimal d | None => PNone end.

Definition no_lineage_payload (o : NormalizedPositionOutputs) : list (string * payload) :=
  [("accrued_income_local", opt_decimal (no_accrued_income_local o)); ("accrued_income_reporting", opt_decimal (no_accrued_income_reporting o));
   ("clean_value_local", opt_decimal (no_clean_value_local o)); ("clean_value_reporting", opt_decimal (no_clean_value_reporting o));
   ("current_principal", opt_decimal (no_current_principal o)); ("notional_exposure_local", opt_decimal (no_notional_exposure_local o));
   ("notional_exposure_reporting", opt_decimal (no_notional_exposure_reporting o));
   ("settlement_variation_local", opt_decimal (no_settlement_variation_local o));
   ("settlement_variation_reporting", opt_decimal (no_settlement_variation_reporting o));
   ("total_market_value_local", opt_decimal (no_total_market_value_local o));
   ("total_market_value_reporting", opt_decimal (no_total_market_value_reporting o))].

(** ** Local economics *)

Definition required (value : option number) (field_name : string) : result decimal :=
  match value with
  | None => Raise (UnsupportedValuationError (field_name +:+ " is required by the valuation policy"))
  | Some (Finite d) => Ok d
  | Some _ => Raise (UnsupportedValuationError (field_name +:+ " must be finite"))
  end.

Definition normalize_currency (value : string) : string := upper (strip value).

Definition validate_source_value (p : PositionValuationPolicy) (source_value : number) : result decimal :=
  match source_value with
  | Finite d =>
      _ ← raise_if (bool_decide (vp_input_basis p ∈ PER_UNIT_BASES ++ PERCENT_OF_PRINCIPAL_BASES)%list && dleb d dzero)
            (UnsupportedValuationError (input_basis_value (vp_input_basis p) +:+ " requires a positive source_value"));
      _ ← raise_if (bool_decide (vp_output_measure p = NOTIONAL_EXPOSURE) && dleb d dzero)
            (UnsupportedValuationError "notional exposure requires a positive source_value");
      Ok d
  | _ => Raise (UnsupportedValuationError "source_value must be finite")
  end.

Definition resolve_current_principal (p : PositionValuationPolicy) (i : PositionValuationEconomicInputs) : result (option decimal) :=
  if decide (vp_position_scaling p <> PRINCIPAL) then Ok None else
  match vp_principal_basis p with
  | FACE_AMOUNT => d ← required (ei_signed_face_amount i) "signed_face_amount"; Ok (Some d)
  | FACTOR_ADJUSTED_CURRENT_PRINCIPAL =>
      signed_face_amount ← required (ei_signed_face_amount i) "signed_face_amount";
      factor ← required (ei_principal_factor i) "principal_factor";
      _ ← raise_if (dltb factor dzero || dltb d_one factor) (UnsupportedValuationError "principal_factor must be between zero and one");
      d ← dmul valuation_context signed_face_amount factor;
      Ok (Some d)
  | SUPPLIED_CURRENT_PRINCIPAL => d ← required (ei_signed_current_principal i) "signed_current_principal"; Ok (Some d)
  | POSITION_UNITS => Raise (UnsupportedValuationError "POSITION_UNITS cannot supply percent-of-principal valuation")
  end.

(** Multiplication of a possibly non-finite left operand: an infinity times zero signals. *)
Definition nmul (x : number) (y : decimal) : result number :=
  match x with
  | Finite d => r ← dmul valuation_context d y; Ok (Finite r)
  | Infinity negative => if dis_zero y then Raise (DecimalSignal InvalidOperation) else Ok (Infinity (xorb negative (dltb y dzero)))
  | NaN => Ok NaN
  end.

Definition nadd (x : number) (y : decimal) : result number :=
  match x with
  | Finite d => r ← dadd valuation_context d y; Ok (Finite r)
  | _ => Ok x
  end.

Definition scale_source_value (p : PositionValuationPolicy) (i : PositionValuationEconomicInputs) (source_value : decimal)
  (current_principal : option decimal) : result number :=
  match vp_position_scaling p with
  | SCALING_NONE => Ok (Finite source_value)
  | QUANTITY => nmul (ei_signed_quantity i) source_value
  | CONTRACT_COUNT_AND_MULTIPLIER =>
      multiplier ← required (ei_contract_multiplier i) "contract_multiplier";
      _ ← raise_if (dleb multiplier dzero) (UnsupportedValuationError "contract_multiplier must be positive");
      product ← nmul (ei_signed_quantity i) source_value;
      nmul product multiplier
  | PRINCIPAL =>
      principal ← required (Finite <$> current_principal) "current_principal";
      denominator ← required (vp_quote_denominator p) "quote_denominator";
      product ← dmul valuation_context principal source_value;
      r ← ddiv valuation_context product denominator;
      Ok (Finite r)
  end.

Definition resolve_accrued_income (p : PositionValuationPolicy) (i : PositionValuationEconomicInputs) : result (option decimal) :=
  match vp_accrued_income_treatment p with
  | NOT_APPLICABLE | NO_PERIODIC_ACCRUAL | INCLUDED_IN_SOURCE_VALUE => Ok None
  | CALCULATED_SEPARATELY | CALCULATED_EX_COUPON_SEPARATELY =>
      d ← required (ei_calculated_accrued_income i) "calculated_accrued_income"; Ok (Some d)
  | SUPPLIED_SEPARATELY => d ← required (ei_supplied_accrued_income i) "supplied_accrued_income"; Ok (Some d)
  end.

(** [value or Decimal(0)]. *)
Definition or_zero (d : option decimal) : decimal := match d with Some d => if dis_zero d then dzero else d | None => dzero end.

(** [f(value) if value is not None else None]. *)
Definition if_present {A B} (f : A -> result B) (x : option A) : result (option B) :=
  match x with Some a => b ← f a; Ok (Some b) | None => Ok None end.

Definition local_economics_input_payload (p : PositionValuationPolicy) (i : PositionValuationEconomicInputs) : payload :=
  PMap [("calculated_accrued_income", opt_number (ei_calculated_accrued_income i)); ("contract_multiplier", opt_number (ei_contract_multiplier i));
        ("policy", PMap
          [("accrued_income_treatment", PStr (treatment_value (vp_accrued_income_treatment p)));
           ("fx_conversion", PStr (fx_policy_value (vp_fx_conversion p))); ("input_basis", PStr (input_basis_value (vp_input_basis p)));
           ("output_measure", PStr (measure_value (vp_output_measure p))); ("policy_id", PStr (vp_policy_id p));
           ("policy_version", PInt (vp_policy_version p)); ("position_scaling", PStr (scaling_value (vp_position_scaling p)));
           ("principal_basis", PStr (principal_basis_value (vp_principal_basis p))); ("quote_denominator", opt_number (vp_quote_denominator p))]);
        ("principal_factor", opt_number (ei_principal_factor i)); ("signed_current_principal", opt_number (ei_signed_current_principal i));
        ("signed_face_amount", opt_number (ei_signed_face_amount i)); ("signed_quantity", PDecimal (ei_signed_quantity i));
        ("source_value", PDecimal (ei_source_value i)); ("supplied_accrued_income", opt_number (ei_supplied_accrued_income i))].

Definition local_output_payload (accrued clean principal notional settlement total : option decimal) : payload :=
  PMap [("accrued_income_local", opt_decimal accrued); ("clean_value_local", opt_decimal clean); ("current_principal", opt_decimal principal);
        ("notional_exposure_local", opt_decimal notional); ("settlement_variation_local", opt_decimal settlement);
        ("total_market_value_local", opt_decimal total)].

Section WithHashing.
Context `{Hashing}.

Definition normalize_local_economics (p : PositionValuationPolicy) (i : PositionValuationEconomicInputs)
  (current_principal : option decimal) (clean_value : option number) (accrued_income : option decimal)
  (total_market_value notional_exposure settlement_variation : option number) : result PositionValuationLocalEconomics :=
  let policy := POSITION_VALUATION_LEDGER_OUTPUT_V1 in
  principal ← if_present (fun d => normalize policy (Finite d) "current_principal") current_principal;
  clean ← if_present (fun d => normalize policy d "clean_value_local") clean_value;
  accrued ← if_present (fun d => normalize policy (Finite d) "accrued_income_local") accrued_income;
  notional ← if_present (fun d => normalize policy d "notional_exposure_local") notional_exposure;
  settlement ← if_present (fun d => normalize policy d "settlement_variation_local") settlement_variation;
  total ← (match clean with
           | Some c => t ← p_add policy c (or_zero accrued) "total_market_value_local"; Ok (Some t)
           | None => if_present (fun d => normalize policy d "total_market_value_local") total_market_value
           end);
  identity ← lineage_identity policy;
  lineage ← build_calculation_lineage POSITION_VALUATION_LOCAL_ECONOMICS_ALGORITHM_ID POSITION_VALUATION_LOCAL_ECONOMICS_ALGORITHM_VERSION
    POSITION_VALUATION_INTERMEDIATE_PRECISION (local_economics_input_payload p i)
    (local_output_payload accrued clean principal notional settlement total) (Some identity);
  Ok {| le_current_principal := principal; le_clean_value_local := clean; le_accrued_income_local := accrued;
        le_total_market_value_local := total; le_notional_exposure_local := notional; le_settlement_variation_local := settlement;
        le_lineage := lineage |}.

Definition calculate_position_valuation_local_economics (p : PositionValuationPolicy) (i : PositionValuationEconomicInputs)
  : result PositionValuationLocalEconomics :=
  source_value ← validate_source_value p (ei_source_value i);
  current_principal ← resolve_current_principal p i;
  scaled_value ← scale_source_value p i source_value current_principal;
  accrued_income ← resolve_accrued_income p i;
  match vp_output_measure p with
  | MARKET_VALUE =>
      if decide (vp_input_basis p = PERCENT_OF_PRINCIPAL_DIRTY)
      then normalize_local_economics p i current_principal None accrued_income (Some scaled_value) None None else
      total ← nadd scaled_value (or_zero accrued_income);
      let clean_value := if decide (vp_input_basis p = PERCENT_OF_PRINCIPAL_CLEAN) then Some scaled_value else None in
      normalize_local_economics p i current_principal clean_value accrued_income (Some total) None None
  | NOTIONAL_EXPOSURE => normalize_local_economics p i current_principal None accrued_income None (Some scaled_value) None
  | SETTLEMENT_VARIATION => normalize_local_economics p i current_principal None accrued_income None None (Some scaled_value)
  end.

(** ** Reporting currency *)

Definition resolve_fx_rate (p : PositionValuationPolicy) (i : PositionValuationInputs) : result decimal :=
  let source_currency := normalize_currency (vi_source_currency i) in
  let reporting_currency := normalize_currency (vi_reporting_currency i) in
  if decide (vp_fx_conversion p = ALREADY_IN_REPORTING_CURRENCY) then
    _ ← raise_if (negb (String.eqb source_currency reporting_currency))
          (UnsupportedValuationError "ALREADY_IN_REPORTING_CURRENCY requires matching currencies");
    Ok d_one
  else if String.eqb source_currency reporting_currency then Ok d_one else
  fx_rate ← required (vi_direct_source_to_reporting_fx_rate i) "direct_source_to_reporting_fx_rate";
  _ ← raise_if (dleb fx_rate dzero) (UnsupportedValuationError "direct_source_to_reporting_fx_rate must be positive");
  Ok fx_rate.

Definition sourced_fact_payload (value : payload) (source : option FinancialSourceReference) (field_name : string) : result payload :=
  match source with
  | None => Raise (UnsupportedValuationError (field_name +:+ " is required"))
  | Some s => Ok (PMap [("source", fs_lineage_payload s); ("value", value)])
  end.

(** One consumed decimal with its evidence, under its own name. *)
Definition consumed (value : option number) (source : option FinancialSourceReference) (name : string) : result (list (string * payload)) :=
  d ← required value name;
  fact ← sourced_fact_payload (PDecimal (Finite d)) source (name +:+ " evidence");
  Ok [(name, fact)].

Definition position_input_payload (p : PositionValuationPolicy) (i : PositionValuationInputs) : result payload :=
  let e := vi_evidence i in
  let x := vi_economic i in
  let source_currency := normalize_currency (vi_source_currency i) in
  let reporting_currency := normalize_currency (vi_reporting_currency i) in
  reporting ← sourced_fact_payload (PStr reporting_currency) (Some (ve_reporting_currency e)) "reporting_currency evidence";
  source ← sourced_fact_payload (PStr source_currency) (Some (ve_source_currency e)) "source_currency evidence";
  value ← sourced_fact_payload (PDecimal (ei_source_value x)) (Some (ve_source_value e)) "source_value evidence";
  quantity ← (if decide (vp_position_scaling p ∈ [QUANTITY; CONTRACT_COUNT_AND_MULTIPLIER])
              then fact ← sourced_fact_payload (PDecimal (ei_signed_quantity x)) (ve_signed_quantity e) "signed_quantity evidence";
                   Ok [("signed_quantity", fact)]
              else Ok []);
  principal ← (match vp_principal_basis p with
               | FACE_AMOUNT => consumed (ei_signed_face_amount x) (ve_signed_face_amount e) "signed_face_amount"
               | FACTOR_ADJUSTED_CURRENT_PRINCIPAL =>
                   face ← consumed (ei_signed_face_amount x) (ve_signed_face_amount e) "signed_face_amount";
                   factor ← consumed (ei_principal_factor x) (ve_principal_factor e) "principal_factor";
                   Ok (face ++ factor)%list
               | SUPPLIED_CURRENT_PRINCIPAL =>
                   consumed (ei_signed_current_principal x) (ve_signed_current_principal e) "signed_current_principal"
               | POSITION_UNITS => Ok []
               end);
  multiplier ← (if decide (vp_position_scaling p = CONTRACT_COUNT_AND_MULTIPLIER)
                then consumed (ei_contract_multiplier x) (ve_contract_multiplier e) "contract_multiplier" else Ok []);
  accrued ← (match vp_accrued_income_treatment p with
             | CALCULATED_SEPARATELY | CALCULATED_EX_COUPON_SEPARATELY =>
                 match ve_calculated_accrued_income e with
                 | None => Raise (UnsupportedValuationError "calculated_accrued_income lineage is required")
                 | Some l =>
                     d ← required (ei_calculated_accrued_income x) "calculated_accrued_income";
                     Ok [("calculated_accrued_income", PMap [("calculation_lineage", cl_lineage_payload l); ("value", PDecimal (Finite d))])]
                 end
             | SUPPLIED_SEPARATELY => consumed (ei_supplied_accrued_income x) (ve_supplied_accrued_income e) "supplied_accrued_income"
             | _ => Ok []
             end);
  fx ← (if bool_decide (vp_fx_conversion p = DIRECT_SOURCE_TO_REPORTING) && negb (String.eqb source_currency reporting_currency)
        then consumed (vi_direct_source_to_reporting_fx_rate i) (ve_direct_source_to_reporting_fx_rate e) "direct_source_to_reporting_fx_rate"
        else Ok []);
  Ok (PMap
    [("inputs", PMap (([("reporting_currency", reporting); ("source_currency", source); ("source_value", value)] ++ quantity ++ principal ++
                       multiplier ++ accrued ++ fx)%list));
     ("policy", PMap
       [("accrued_income_treatment", PEnum (PStr (treatment_value (vp_accrued_income_treatment p))));
        ("fx_conversion", PEnum (PStr (fx_policy_value (vp_fx_conversion p)))); ("input_basis", PEnum (PStr (input_basis_value (vp_input_basis p))));
        ("output_measure", PEnum (PStr (measure_value (vp_output_measure p)))); ("policy_id", PStr (strip (vp_policy_id p)));
        ("policy_version", PInt (vp_policy_version p)); ("position_scaling", PEnum (PStr (scaling_value (vp_position_scaling p))));
        ("principal_basis", PEnum (PStr (principal_basis_value (vp_principal_basis p)))); ("quote_denominator", opt_number (vp_quote_denominator p))]);
     ("policy_assignment", fs_lineage_payload (ve_policy_assignment e))]).

Definition position_output_payload (o : NormalizedPositionOutputs) (source_currency reporting_currency : string) (fx_rate : decimal) : payload :=
  PMap (no_lineage_payload o ++ [("reporting_currency", PStr reporting_currency); ("source_currency", PStr source_currency);
                                 ("source_to_reporting_fx_rate", PDecimal (Finite fx_rate))])%list.

Definition normalize_outputs (p : PositionValuationPolicy) (i : PositionValuationInputs) (source_currency reporting_currency : string)
  (l : PositionValuationLocalEconomics) (fx_rate : decimal) : result (NormalizedPositionOutputs * CalculationLineage) :=
  let policy := POSITION_VALUATION_LEDGER_OUTPUT_V1 in
  let convert (d : option decimal) (field_name : string) := if_present (fun d : decimal => p_multiply policy d fx_rate field_name) d in
  clean_reporting ← convert (le_clean_value_local l) "clean_value_reporting";
  accrued_reporting ← convert (le_accrued_income_local l) "accrued_income_reporting";
  total_reporting ← (match clean_reporting with
                     | Some c => t ← p_add policy c (or_zero accrued_reporting) "total_market_value_reporting"; Ok (Some t)
                     | None => convert (le_total_market_value_local l) "total_market_value_reporting"
                     end);
  notional_reporting ← convert (le_notional_exposure_local l) "notional_exposure_reporting";
  settlement_reporting ← convert (le_settlement_variation_local l) "settlement_variation_reporting";
  let normalized :=
    {| no_current_principal := le_current_principal l; no_clean_value_local := le_clean_value_local l; no_clean_value_reporting := clean_reporting;
       no_accrued_income_local := le_accrued_income_local l; no_accrued_income_reporting := accrued_reporting;
       no_total_market_value_local := le_total_market_value_local l; no_total_market_value_reporting := total_reporting;
       no_notional_exposure_local := le_notional_exposure_local l; no_notional_exposure_reporting := notional_reporting;
       no_settlement_variation_local := le_settlement_variation_local l; no_settlement_variation_reporting := settlement_reporting |} in
  input_payload ← position_input_payload p i;
  identity ← lineage_identity policy;
  lineage ← build_calculation_lineage POSITION_VALUATION_ALGORITHM_ID POSITION_VALUATION_ALGORITHM_VERSION POSITION_VALUATION_INTERMEDIATE_PRECISION
    input_payload (position_output_payload normalized source_currency reporting_currency fx_rate) (Some identity);
  Ok (normalized, lineage).

Definition calculate_position_valuation (p : PositionValuationPolicy) (i : PositionValuationInputs) : result PositionValuationResult :=
  local_economics ← calculate_position_valuation_local_economics p (vi_economic i);
  fx_rate ← resolve_fx_rate p i;
  let source_currency := normalize_currency (vi_source_currency i) in
  let reporting_currency := normalize_currency (vi_reporting_currency i) in
  '(outputs, lineage) ← normalize_outputs p i source_currency reporting_currency local_economics fx_rate;
  Ok {| vr_source_currency := source_currency; vr_reporting_currency := reporting_currency; vr_source_to_reporting_fx_rate := fx_rate;
        vr_outputs := outputs; vr_lineage := lineage |}.
End WithHashing.

(** ** The catalogue *)

Definition policy (policy_id : string) (input_basis : ValuationInputBasis) (principal_basis : PrincipalBasis) (scaling : PositionScaling)
  (accrued : AccruedIncomeTreatment) (output : ValuationOutputMeasure) (quote_denominator : option number) : result PositionValuationPolicy :=
  make_PositionValuationPolicy
    {| vp_policy_id := policy_id; vp_policy_version := 1; vp_input_basis := input_basis; vp_principal_basis := principal_basis;
       vp_position_scaling := scaling; vp_accrued_income_treatment := accrued; vp_fx_conversion := DIRECT_SOURCE_TO_REPORTING;
       vp_output_measure := output; vp_quote_denominator := quote_denominator |}.

Definition principal_policy (policy_id : string) (input_basis : ValuationInputBasis) (principal_basis : PrincipalBasis)
  (accrued : AccruedIncomeTreatment) : result PositionValuationPolicy :=
  policy policy_id input_basis principal_basis PRINCIPAL accrued MARKET_VALUE (Some (Finite (dint 100))).

(** The declarations, each run through the constructor when the module is loaded. *)
Definition SUPPORTED_POLICIES : result (list PositionValuationPolicy) :=
  mapR (fun p => p)
    [policy "UNIT_PRICE_MARKET_VALUE" UNIT_PRICE POSITION_UNITS QUANTITY NOT_APPLICABLE MARKET_VALUE None;
     policy "NAV_PER_UNIT_MARKET_VALUE" NAV_PER_UNIT POSITION_UNITS QUANTITY NOT_APPLICABLE MARKET_VALUE None;
     principal_policy "CLEAN_PERCENT_FACE_CALCULATED_ACCRUAL" PERCENT_OF_PRINCIPAL_CLEAN FACE_AMOUNT CALCULATED_SEPARATELY;
     principal_policy "CLEAN_PERCENT_FACE_SUPPLIED_ACCRUAL" PERCENT_OF_PRINCIPAL_CLEAN FACE_AMOUNT SUPPLIED_SEPARATELY;
     principal_policy "DIRTY_PERCENT_FACE_MARKET_VALUE" PERCENT_OF_PRINCIPAL_DIRTY FACE_AMOUNT INCLUDED_IN_SOURCE_VALUE;
     principal_policy "CLEAN_PERCENT_FACE_NO_PERIODIC_ACCRUAL" PERCENT_OF_PRINCIPAL_CLEAN FACE_AMOUNT NO_PERIODIC_ACCRUAL;
     principal_policy "CLEAN_PERCENT_FACE_CALCULATED_EX_COUPON_ACCRUAL" PERCENT_OF_PRINCIPAL_CLEAN FACE_AMOUNT CALCULATED_EX_COUPON_SEPARATELY;
     principal_policy "CLEAN_PERCENT_FACTOR_CALCULATED_ACCRUAL" PERCENT_OF_PRINCIPAL_CLEAN FACTOR_ADJUSTED_CURRENT_PRINCIPAL CALCULATED_SEPARATELY;
     principal_policy "CLEAN_PERCENT_FACTOR_SUPPLIED_ACCRUAL" PERCENT_OF_PRINCIPAL_CLEAN FACTOR_ADJUSTED_CURRENT_PRINCIPAL SUPPLIED_SEPARATELY;
     principal_policy "DIRTY_PERCENT_FACTOR_MARKET_VALUE" PERCENT_OF_PRINCIPAL_DIRTY FACTOR_ADJUSTED_CURRENT_PRINCIPAL INCLUDED_IN_SOURCE_VALUE;
     principal_policy "CLEAN_PERCENT_FACTOR_NO_PERIODIC_ACCRUAL" PERCENT_OF_PRINCIPAL_CLEAN FACTOR_ADJUSTED_CURRENT_PRINCIPAL NO_PERIODIC_ACCRUAL;
     principal_policy "CLEAN_PERCENT_FACTOR_CALCULATED_EX_COUPON_ACCRUAL" PERCENT_OF_PRINCIPAL_CLEAN FACTOR_ADJUSTED_CURRENT_PRINCIPAL CALCULATED_EX_COUPON_SEPARATELY;
     principal_policy "CLEAN_PERCENT_CURRENT_PRINCIPAL_CALCULATED_ACCRUAL" PERCENT_OF_PRINCIPAL_CLEAN SUPPLIED_CURRENT_PRINCIPAL CALCULATED_SEPARATELY;
     principal_policy "CLEAN_PERCENT_CURRENT_PRINCIPAL_SUPPLIED_ACCRUAL" PERCENT_OF_PRINCIPAL_CLEAN SUPPLIED_CURRENT_PRINCIPAL SUPPLIED_SEPARATELY;
     principal_policy "DIRTY_PERCENT_CURRENT_PRINCIPAL_MARKET_VALUE" PERCENT_OF_PRINCIPAL_DIRTY SUPPLIED_CURRENT_PRINCIPAL INCLUDED_IN_SOURCE_VALUE;
     principal_policy "CLEAN_PERCENT_CURRENT_PRINCIPAL_NO_PERIODIC_ACCRUAL" PERCENT_OF_PRINCIPAL_CLEAN SUPPLIED_CURRENT_PRINCIPAL NO_PERIODIC_ACCRUAL;
     principal_policy "CLEAN_PERCENT_CURRENT_PRINCIPAL_CALCULATED_EX_COUPON_ACCRUAL" PERCENT_OF_PRINCIPAL_CLEAN SUPPLIED_CURRENT_PRINCIPAL CALCULATED_EX_COUPON_SEPARATELY;
     policy "SUPPLIED_PER_UNDERLYING_UNIT_MARKET_VALUE" SUPPLIED_VALUE_PER_UNDERLYING_UNIT POSITION_UNITS CONTRACT_COUNT_AND_MULTIPLIER NOT_APPLICABLE MARKET_VALUE None;
     policy "SUPPLIED_PER_CONTRACT_MARKET_VALUE" SUPPLIED_FAIR_VALUE_PER_CONTRACT POSITION_UNITS QUANTITY NOT_APPLICABLE MARKET_VALUE None;
     policy "SUPPLIED_WHOLE_POSITION_MARKET_VALUE" SUPPLIED_FAIR_VALUE_WHOLE_POSITION POSITION_UNITS SCALING_NONE NOT_APPLICABLE MARKET_VALUE None;
     policy "FUTURES_NOTIONAL_PER_UNDERLYING_UNIT" SUPPLIED_VALUE_PER_UNDERLYING_UNIT POSITION_UNITS CONTRACT_COUNT_AND_MULTIPLIER NOT_APPLICABLE NOTIONAL_EXPOSURE None;
     policy "SUPPLIED_WHOLE_POSITION_SETTLEMENT_VARIATION" SETTLEMENT_VARIATION_WHOLE_POSITION POSITION_UNITS SCALING_NONE NOT_APPLICABLE SETTLEMENT_VARIATION None].

Definition supported_position_valuation_policies : list PositionValuationPolicy :=
  match SUPPORTED_POLICIES with Ok ps => ps | Raise _ => [] end.

Definition POLICIES_BY_KEY : list (string * Z * PositionValuationPolicy) :=
  fold_left (fun d p => od_set (vp_policy_id p, vp_policy_version p) p d) supported_position_valuation_policies [].

Definition resolve_position_valuation_policy (policy_id : string) (policy_version : Z) : result PositionValuationPolicy :=
  let normalized_policy_id := strip policy_id in
  if negb (truthy normalized_policy_id) then Raise (ValueError "policy_id must be nonblank") else
  if policy_version <? 1 then Raise (ValueError "policy_version must be positive") else
  match od_get (normalized_policy_id, policy_version) POLICIES_BY_KEY with
  | Some p => Ok p
  | None => Raise (UnknownValuationPolicyError ("unsupported valuation policy: " +:+ normalized_policy_id +:+ "@" +:+ string_of_Z policy_version))
  end.
