(* ===== verification/PositionValuationFacts.v ===== *)
(** * What a position valuation is

    Every supported policy computes its value exactly and rounds it once; totals are the sums of their
    parts in both currencies; a policy fills the one measure it declares. *)

From Stdlib Require Import ZArith Lia QArith Qabs Lqa String.
From stdpp Require Import base tactics list strings.
From S2P Require Import Prelude PyDecimal DecimalFacts PyTime Precision Lineage AccruedIncome PositionValuation.

#[local] Open Scope string_scope.
#[local] Open Scope Z_scope.

#[local] Notation pol := POSITION_VALUATION_LEDGER_OUTPUT_V1.
#[local] Notation ctx := valuation_context.

(** ** The exact value of a policy *)

(** A rational rounded half-even to the storage scale, in storage units. *)
Definition rounded (x : Q) : Z := qround ROUND_HALF_EVEN (x * pow10 10).

#[export] Instance rounded_proper : Proper (Qeq ==> eq) rounded.
Proof. intros x y H. unfold rounded. by rewrite H. Qed.

(** A stored amount: finite, of the ledger's precision and scale. *)
Definition stored (x : number) : Prop := exists d n, x = Finite d /\ ledger d n.
Definition stored_if_present (x : option number) : Prop := match x with Some x => stored x | None => True end.

Definition inputs_stored (i : PositionValuationEconomicInputs) : Prop :=
  stored (ei_source_value i) /\ stored (ei_signed_quantity i) /\ stored_if_present (ei_signed_face_amount i) /\
  stored_if_present (ei_principal_factor i) /\ stored_if_present (ei_signed_current_principal i) /\
  stored_if_present (ei_contract_multiplier i) /\ stored_if_present (ei_calculated_accrued_income i) /\
  stored_if_present (ei_supplied_accrued_income i).

Definition nval (x : number) : Q := match x with Finite d => dval d | _ => 0 end.
Definition oval (x : option number) : Q := match x with Some x => nval x | None => 0 end.

Definition exact_principal (p : PositionValuationPolicy) (i : PositionValuationEconomicInputs) : Q :=
  match vp_principal_basis p with
  | FACE_AMOUNT => oval (ei_signed_face_amount i)
  | FACTOR_ADJUSTED_CURRENT_PRINCIPAL => oval (ei_signed_face_amount i) * oval (ei_principal_factor i)
  | SUPPLIED_CURRENT_PRINCIPAL => oval (ei_signed_current_principal i)
  | POSITION_UNITS => 0
  end.

(** The supplied value, scaled as the policy declares. *)
Definition exact_value (p : PositionValuationPolicy) (i : PositionValuationEconomicInputs) : Q :=
  match vp_position_scaling p with
  | SCALING_NONE => nval (ei_source_value i)
  | QUANTITY => nval (ei_signed_quantity i) * nval (ei_source_value i)
  | CONTRACT_COUNT_AND_MULTIPLIER => nval (ei_signed_quantity i) * nval (ei_source_value i) * oval (ei_contract_multiplier i)
  | PRINCIPAL => exact_principal p i * nval (ei_source_value i) / oval (vp_quote_denominator p)
  end.

Definition exact_accrued (p : PositionValuationPolicy) (i : PositionValuationEconomicInputs) : Q :=
  match vp_accrued_income_treatment p with
  | CALCULATED_SEPARATELY | CALCULATED_EX_COUPON_SEPARATELY => oval (ei_calculated_accrued_income i)
  | SUPPLIED_SEPARATELY => oval (ei_supplied_accrued_income i)
  | _ => 0
  end.

(** ** Exact intermediates *)

Lemma required_Ok x name d : required x name = Ok d -> x = Some (Finite d).
Proof. destruct x as [[]|]; cbn; congruence. Qed.

Lemma required_stored x name d : stored_if_present x -> required x name = Ok d -> exists n, x = Some (Finite d) /\ ledger d n.
Proof. intros Hs Hr. apply required_Ok in Hr as ->. destruct Hs as (d' & n & [= <-] & Hn). by exists n. Qed.

Lemma valuation_context_wide : wide ctx.
Proof. by apply make_context_wide. Qed.

Lemma product_exact k l x y m n r : -100 <= k <= 0 -> -100 <= l <= 0 -> units k x m -> units l y n -> Z.abs (m * n) < 10 ^ 64 -> dmul ctx x y = Ok r ->
  units (k + l) r (m * n).
Proof.
  intros Hk Hl Hx Hy Hb Hr. destruct (dfix_units ctx (k + l) (mul_exact x y) (m * n)) as (r' & Hr' & Hu);
    [apply valuation_context_wide|lia|by apply units_mul|done|]. unfold dmul in Hr. rewrite Hr' in Hr. by simplify_eq.
Qed.

Lemma units_val k d n : units k d n -> (dval d == inject_Z n * pow10 k)%Q.
Proof. done. Qed.

(** The principal a policy resolves, exact, at most 36 digits. *)
Lemma principal_exact p i d : inputs_stored i -> resolve_current_principal p i = Ok (Some d) ->
  (dval d == exact_principal p i)%Q /\ exists k n, -20 <= k <= -10 /\ units k d n /\ Z.abs n < 10 ^ 36.
Proof.
  intros (_ & _ & Hface & Hfactor & Hcur & _) H. unfold resolve_current_principal in H. unfold exact_principal.
  destruct (decide _) as [|_]; [done|]. destruct (vp_principal_basis p); inv_ok; simplify_eq.
  - destruct (required_stored _ _ _ Hface H0) as (n & -> & [Hu Hb]). split; [reflexivity|]. exists (-10), n. split; [lia|]. split; [done|lia].
  - destruct (required_stored _ _ _ Hface H0) as (m & -> & [Hm Bm]). destruct (required_stored _ _ _ Hfactor H1) as (n & -> & [Hn Bn]).
    assert (Hb : Z.abs (m * n) < 10 ^ 36) by (change (10 ^ 36) with (10 ^ 18 * 10 ^ 18); rewrite Z.abs_mul; nia).
    match goal with H : dmul _ _ _ = Ok _ |- _ => eapply (product_exact (-10) (-10)) in H as Hu; [|lia|lia|exact Hm|exact Hn|lia] end.
    split; [|exists (-20), (m * n); split; [lia|]; split; [done|lia]]. cbn. rewrite (units_val _ _ _ Hu), (units_val _ _ _ Hm), (units_val _ _ _ Hn).
    rewrite inject_Z_mult. change (-10 + -10) with (-20). change (pow10 (-20)) with (pow10 (-10) * pow10 (-10))%Q. ring.
  - destruct (required_stored _ _ _ Hcur H0) as (n & -> & [Hu Hb]). split; [reflexivity|]. exists (-10), n. split; [lia|]. split; [done|lia].
Qed.

(** Amounts a policy computes with: exact, and small enough that sums of them are exact too. *)
Definition exact_amount (d : decimal) (x : Q) : Prop := (dval d == x)%Q /\ exists k n, -40 <= k <= -10 /\ units k d n /\ Z.abs n < 10 ^ 54.

Lemma ledger_exact_amount d n : ledger d n -> exact_amount d (dval d).
Proof. intros [Hu Hb]. split; [reflexivity|]. exists (-10), n. split; [lia|]. split; [done|lia]. Qed.

Lemma nmul_exact k x y m n r : -30 <= k <= 0 -> units k x m -> ledger y n -> Z.abs m < 10 ^ 36 -> nmul (Finite x) y = Ok r ->
  exists d, r = Finite d /\ (dval d == dval x * dval y)%Q /\ units (k - 10) d (m * n) /\ Z.abs (m * n) < 10 ^ 54.
Proof.
  intros Hk Hx [Hy By] Bm H. cbn in H. apply bind_Ok in H as (d & Hd & [= <-]).
  assert (Hb : Z.abs (m * n) < 10 ^ 54) by (change (10 ^ 54) with (10 ^ 36 * 10 ^ 18); rewrite Z.abs_mul; nia).
  eapply (product_exact k (-10)) in Hd as Hu; [|lia|lia|exact Hx|exact Hy|lia]. exists d. split; [done|].
  split; [|split; [by replace (k - 10) with (k + -10) by lia|done]].
  rewrite (units_val _ _ _ Hu), (units_val _ _ _ Hx), (units_val _ _ _ Hy), inject_Z_mult, pow10_add. ring.
Qed.

(** Quotes per cent: the division by one hundred is exact. *)
Lemma percent_exact p s d k m n product r : -20 <= k <= -10 -> units k p m -> ledger s n -> Z.abs m < 10 ^ 36 -> d = dint 100 ->
  dmul ctx p s = Ok product -> ddiv ctx product d = Ok r -> exact_amount r (dval p * dval s / dval d).
Proof.
  intros Hk Hp [Hs Bs] Bm -> Hmul Hdiv.
  assert (Hb : Z.abs (m * n) < 10 ^ 54) by (change (10 ^ 54) with (10 ^ 36 * 10 ^ 18); rewrite Z.abs_mul; nia).
  eapply (product_exact k (-10)) in Hmul as Hu; [|lia|lia|exact Hp|exact Hs|lia].
  assert (Hq : (dval product / dval (dint 100) == inject_Z (m * n) * pow10 (k - 12))%Q).
  { rewrite (units_val _ _ _ Hu), dval_dint. replace (k + -10) with ((k - 12) + 2) by lia. rewrite pow10_add. change (pow10 2) with 100%Q. field. }
  destruct (ddiv_exact ctx product (dint 100) (m * n) (k - 12)) as (r' & Hr' & Hur); [apply valuation_context_wide|lia|done|done|change (prec ctx) with 64; lia|].
  rewrite Hr' in Hdiv. simplify_eq. split; [|exists (k - 12), (m * n); split; [lia|done]].
  rewrite (units_val _ _ _ Hur), <- Hq, (units_val _ _ _ Hu), (units_val _ _ _ Hp), (units_val _ _ _ Hs), inject_Z_mult, pow10_add.
  rewrite dval_dint. field.
Qed.

(** Policies whose quotes, if per cent, are per hundred, as in the catalogue. *)
Definition quoted_per_hundred (p : PositionValuationPolicy) : Prop :=
  forall d, vp_quote_denominator p = Some (Finite d) -> d = dint 100.

Lemma scaled_exact p i s n principal r : inputs_stored i -> ei_source_value i = Finite s -> ledger s n -> quoted_per_hundred p ->
  resolve_current_principal p i = Ok principal -> scale_source_value p i s principal = Ok r ->
  exists d, r = Finite d /\ exact_amount d (exact_value p i).
Proof.
  intros Hi Hs Ln Hq Hp Hr. unfold scale_source_value in Hr. unfold exact_value. rewrite Hs. cbn [nval].
  destruct (vp_position_scaling p).
  - injection Hr as <-. exists s. split; [done|]. by eapply ledger_exact_amount.
  - destruct Hi as (_ & (q & m & Eq & [Hm Bm]) & _). rewrite Eq in Hr |- *.
    eapply (nmul_exact (-10)) in Hr as (d & -> & Hv & Hu & Hb); [|lia|exact Hm|exact Ln|lia].
    exists d. split; [done|]. split; [exact Hv|]. eexists _, _. split; [|split; [exact Hu|done]]. lia.
  - apply bind_Ok in Hr as (pr & Hpr & Hr). apply bind_Ok in Hr as (den & Hden & Hr). apply bind_Ok in Hr as (product & Hmul & Hr).
    apply bind_Ok in Hr as (d & Hdiv & [= <-]). apply required_Ok in Hpr. destruct principal as [pr'|]; [|done]. injection Hpr as ->.
    apply required_Ok in Hden. rewrite Hden. destruct (principal_exact p i pr Hi Hp) as (Ep & k & m & Hk & Hm & Bm).
    pose proof (percent_exact pr s den k m n product d Hk Hm Ln Bm (Hq den Hden) Hmul Hdiv) as [Ed Hu].
    exists d. split; [done|]. split; [|done]. rewrite Ed, Ep. reflexivity.
  - destruct Hi as (_ & (q & m & Eq & [Hm Bm]) & _ & _ & _ & Hmult & _). rewrite Eq in Hr |- *.
    apply bind_Ok in Hr as (mu & Hmu & Hr). apply bind_Ok in Hr as (_ & _ & Hr). apply bind_Ok in Hr as (product & Hmul & Hr).
    destruct (required_stored _ _ _ Hmult Hmu) as (z & -> & Lz).
    eapply (nmul_exact (-10)) in Hmul as (d1 & -> & Hv1 & Hu1 & _); [|lia|exact Hm|exact Ln|lia].
    eapply (nmul_exact (-20)) in Hr as (d & -> & Hv & Hu & Hb); [|lia|exact Hu1|exact Lz|].
    + exists d. split; [done|]. split; [rewrite Hv, Hv1; reflexivity|]. eexists _, _. split; [|split; [exact Hu|done]]. lia.
    + destruct Ln as [_ Bn]. change (10 ^ 36) with (10 ^ 18 * 10 ^ 18). rewrite Z.abs_mul. nia.
Qed.

(** ** Local economics *)

Lemma accrued_exact p i a : inputs_stored i -> resolve_accrued_income p i = Ok a ->
  match a with
  | Some d => (dval d == exact_accrued p i)%Q /\ exists n, ledger d n
  | None => (exact_accrued p i == 0)%Q
  end.
Proof.
  intros (_ & _ & _ & _ & _ & _ & Hc & Hs) H. unfold resolve_accrued_income, exact_accrued in *.
  destruct (vp_accrued_income_treatment p); [by injection H as <-..| | |]; apply bind_Ok in H as (d & Hd & [= <-]);
    (eapply required_stored in Hd as (n & -> & Hn); [|done]); (split; [reflexivity|by exists n]).
Qed.

Lemma or_zero_val d : (dval (or_zero d) == match d with Some d => dval d | None => 0 end)%Q.
Proof.
  destruct d as [d|]; [|done]. cbn. destruct (dis_zero d) eqn:E; [|done]. apply dis_zero_spec in E. rewrite E. reflexivity.
Qed.

Lemma or_zero_ledger d : match d with Some d => exists n, ledger d n | None => True end ->
  exists n, ledger (or_zero d) n /\ (match d with Some d => dval d | None => 0 end == inject_Z n * pow10 (-10))%Q.
Proof.
  destruct d as [d|]; cbn; [intros [n Hn]|intros _; exists 0; split; [apply ledger_dzero|reflexivity]].
  exists n. split; [|by destruct Hn]. destruct (dis_zero d) eqn:E; [|done]. rewrite (ledger_is_zero d n Hn) in E. apply Z.eqb_eq in E as ->. apply ledger_dzero.
Qed.

Lemma normalize_rounded x d f r : (dval d == x)%Q -> normalize pol (Finite d) f = Ok r -> ledger r (rounded x).
Proof. intros Hx Hr. apply ledger_of_normalize in Hr. unfold rounded. rewrite <- Hx. exact Hr. Qed.

Lemma ledger_rounded d n : ledger d n -> rounded (dval d) = n.
Proof.
  intros [Hu _]. unfold rounded, units in *. rewrite Hu. rewrite <- Qmult_assoc, <- pow10_add. cbn. rewrite Qmult_1_r. apply qround_int.
Qed.

(** A sum of a computed value and an accrued amount is exact. *)
Lemma sum_exact d x a n r : exact_amount d x -> ledger a n -> nadd (Finite d) a = Ok r ->
  exists t, r = Finite t /\ (dval t == x + dval a)%Q.
Proof.
  intros [Hx (k & m & Hk & Hm & Bm)] [Ha Ba] H. cbn in H. apply bind_Ok in H as (t & Ht & [= <-]). exists t. split; [done|].
  assert (Ha' : units k a (n * 10 ^ (-10 - k))).
  { unfold units. rewrite inject_Z_mult, <- (pow10_Z (-10 - k)) by lia. rewrite <- Qmult_assoc, <- pow10_add. replace (-10 - k + k) with (-10) by lia. exact Ha. }
  destruct (dfix_units ctx k (add_exact d a) (m + n * 10 ^ (-10 - k))) as (t' & Ht' & Hu); [apply valuation_context_wide|lia|by apply units_add| |].
  { change (prec ctx) with 64. assert (0 < 10 ^ (-10 - k) <= 10 ^ 30) by (split; [apply Z.pow_pos_nonneg|apply Z.pow_le_mono_r]; lia).
    assert (Z.abs (n * 10 ^ (-10 - k)) <= 10 ^ 18 * 10 ^ 30) by (rewrite Z.abs_mul; nia). lia. }
  unfold dadd in Ht. rewrite Ht' in Ht. simplify_eq. rewrite (units_val _ _ _ Hu), inject_Z_plus, <- Hx, (units_val _ _ _ Hm), (units_val _ _ _ Ha'). ring.
Qed.

(** The measures of a valuation: what a policy fills, and with what. *)
Definition local_measures (p : PositionValuationPolicy) (i : PositionValuationEconomicInputs) (l : PositionValuationLocalEconomics) : Prop :=
  match vp_output_measure p with
  | MARKET_VALUE =>
      le_notional_exposure_local l = None /\ le_settlement_variation_local l = None /\ exists t, le_total_market_value_local l = Some t /\
      if decide (vp_input_basis p = PERCENT_OF_PRINCIPAL_CLEAN)
      then ledger t (rounded (exact_value p i) + rounded (exact_accrued p i)) /\
           exists c, le_clean_value_local l = Some c /\ ledger c (rounded (exact_value p i))
      else le_clean_value_local l = None /\ ledger t (rounded (exact_value p i + exact_accrued p i))
  | NOTIONAL_EXPOSURE =>
      le_clean_value_local l = None /\ le_total_market_value_local l = None /\ le_settlement_variation_local l = None /\
      exists d, le_notional_exposure_local l = Some d /\ ledger d (rounded (exact_value p i))
  | SETTLEMENT_VARIATION =>
      le_clean_value_local l = None /\ le_total_market_value_local l = None /\ le_notional_exposure_local l = None /\
      exists d, le_settlement_variation_local l = Some d /\ ledger d (rounded (exact_value p i))
  end.

(** The accrued income reported is the amount the policy resolves. *)
Definition local_accrued (p : PositionValuationPolicy) (i : PositionValuationEconomicInputs) (l : PositionValuationLocalEconomics) : Prop :=
  match le_accrued_income_local l with
  | Some d => (dval d == exact_accrued p i)%Q /\ exists n, ledger d n
  | None => (exact_accrued p i == 0)%Q
  end.

Section WithHashing.
Context `{Hashing}.

Lemma if_present_Some {A B} (f : A -> result B) a r : if_present f (Some a) = Ok r -> exists b, f a = Ok b /\ r = Some b.
Proof. cbn. intros (b & Hb & [= <-])%bind_Ok. by exists b. Qed.

Lemma if_present_None {A B} (f : A -> result B) r : if_present f None = Ok r -> r = None.
Proof. cbn. congruence. Qed.

(** Inversion of the normalisation: accrued amounts are already stored, so they are unchanged. *)
Lemma normalize_local_inv p i principal clean accrued total notional settlement l :
  match accrued with Some d => exists n, ledger d n | None => True end ->
  normalize_local_economics p i principal clean accrued total notional settlement = Ok l ->
  le_accrued_income_local l = accrued /\
  if_present (fun d => normalize pol d "clean_value_local") clean = Ok (le_clean_value_local l) /\
  if_present (fun d => normalize pol d "notional_exposure_local") notional = Ok (le_notional_exposure_local l) /\
  if_present (fun d => normalize pol d "settlement_variation_local") settlement = Ok (le_settlement_variation_local l) /\
  match le_clean_value_local l with
  | Some c => exists t, p_add pol c (or_zero accrued) "total_market_value_local" = Ok t /\ le_total_market_value_local l = Some t
  | None => if_present (fun d => normalize pol d "total_market_value_local") total = Ok (le_total_market_value_local l)
  end.
Proof.
  intros Ha Hn. unfold normalize_local_economics in Hn.
  apply bind_Ok in Hn as (pr & _ & Hn). apply bind_Ok in Hn as (cl & Hcl & Hn). apply bind_Ok in Hn as (ac & Hac & Hn).
  apply bind_Ok in Hn as (no & Hno & Hn). apply bind_Ok in Hn as (se & Hse & Hn). apply bind_Ok in Hn as (to & Hto & Hn).
  apply bind_Ok in Hn as (id & _ & Hn). apply bind_Ok in Hn as (li & _ & [= <-]). cbn.
  assert (Eac : ac = accrued).
  { destruct accrued as [d|]; [|by apply if_present_None in Hac]. apply if_present_Some in Hac as (b & Hb & ->). destruct Ha as [n Ln].
    assert (E : normalize pol (Finite d) "accrued_income_local" = Ok d) by (by apply (ledger_normalize "position-valuation-ledger-output" d n)).
    rewrite E in Hb. by injection Hb as ->. }
  subst ac. split; [done|]. split; [done|]. split; [done|]. split; [done|].
  destruct cl as [c|]; [|done]. apply bind_Ok in Hto as (t & Ht & [= <-]). by exists t.
Qed.

Lemma accrued_present p i a : match a with Some d => (dval d == exact_accrued p i)%Q /\ (exists n, ledger d n) | None => (exact_accrued p i == 0)%Q end ->
  match a with Some d => exists n, ledger d n | None => True end.
Proof. destruct a; [by intros [_ ?]|done]. Qed.

Lemma validate_source_value_Ok p x s : validate_source_value p x = Ok s -> x = Finite s.
Proof. unfold validate_source_value. intros Hs. destruct x; [|done..]. inv_ok. congruence. Qed.

Lemma dirty_includes_accrued p i : make_PositionValuationPolicy p = Ok p -> vp_input_basis p = PERCENT_OF_PRINCIPAL_DIRTY -> (exact_accrued p i == 0)%Q.
Proof.
  intros Hp Hb. unfold make_PositionValuationPolicy, validate_accrued_income_treatment in Hp. rewrite Hb in Hp.
  rewrite decide_True in Hp by done. inv_ok. unfold exact_accrued.
  repeat match goal with H : bool_decide (vp_accrued_income_treatment p <> _) = false |- _ => apply bool_decide_eq_false, dec_stable in H; rewrite H end.
  reflexivity.
Qed.

Lemma local_economics_measures p i l : inputs_stored i -> quoted_per_hundred p -> make_PositionValuationPolicy p = Ok p ->
  calculate_position_valuation_local_economics p i = Ok l -> local_measures p i l /\ local_accrued p i l.
Proof.
  intros Hi Hq Hp Hl. unfold calculate_position_valuation_local_economics in Hl.
  apply bind_Ok in Hl as (s & Hs & Hl). apply bind_Ok in Hl as (pr & Hpr & Hl). apply bind_Ok in Hl as (v & Hv & Hl). apply bind_Ok in Hl as (a & Ha & Hl).
  apply validate_source_value_Ok in Hs as Es. destruct (proj1 Hi) as (s' & n & Es' & Ln). assert (s' = s) as -> by congruence.
  destruct (scaled_exact p i s n pr v Hi Es Ln Hq Hpr Hv) as (d & -> & Hd). pose proof (accrued_exact p i a Hi Ha) as Hacc.
  pose proof (accrued_present p i a Hacc) as Hap. unfold local_measures, local_accrued.
  destruct (vp_output_measure p).
  - destruct (or_zero_ledger a Hap) as (z & Lz & Ez).
    assert (Ea : (exact_accrued p i == inject_Z z * pow10 (-10))%Q) by (rewrite <- Ez; destruct a; [symmetry; apply Hacc|done]).
    assert (Rz : rounded (exact_accrued p i) = z) by (rewrite Ea, <- (units_val _ _ _ (proj1 Lz)); by apply ledger_rounded).
    destruct (decide (vp_input_basis p = PERCENT_OF_PRINCIPAL_DIRTY)) as [Ed|Ed].
    + apply normalize_local_inv in Hl as (-> & Hc & Hno & Hse & Hto); [|done]. apply if_present_None in Hc, Hno, Hse. rewrite Hc in *.
      apply if_present_Some in Hto as (t & Ht & ->). split; [|done]. split; [done|]. split; [done|]. exists t. split; [done|].
      rewrite decide_False by congruence. split; [done|]. eapply normalize_rounded; [|exact Ht].
      rewrite (dirty_includes_accrued p i Hp Ed), Qplus_0_r. apply Hd.
    + apply bind_Ok in Hl as (tn & Hadd & Hl). destruct (sum_exact d _ _ _ _ Hd Lz Hadd) as (td & -> & Htd).
      apply normalize_local_inv in Hl as (-> & Hc & Hno & Hse & Hto); [|done]. apply if_present_None in Hno, Hse. split; [|done].
      split; [done|]. split; [done|]. destruct (decide (vp_input_basis p = PERCENT_OF_PRINCIPAL_CLEAN)) as [Ec|Ec].
      * apply if_present_Some in Hc as (c & Hc & Ec'). rewrite Ec' in *. destruct Hto as (t & Ht & ->). exists t. split; [done|].
        assert (Lc : ledger c (rounded (exact_value p i))) by (eapply normalize_rounded; [apply Hd|exact Hc]).
        split; [|by exists c]. rewrite Rz. by eapply (p_add_Ok "position-valuation-ledger-output").
      * apply if_present_None in Hc. rewrite Hc in *. apply if_present_Some in Hto as (t & Ht & ->). exists t. split; [done|]. split; [done|].
        eapply normalize_rounded; [|exact Ht]. rewrite Htd, Ea. by rewrite (units_val _ _ _ (proj1 Lz)).
  - apply normalize_local_inv in Hl as (-> & Hc & Hno & Hse & Hto); [|done]. apply if_present_None in Hc, Hse. rewrite Hc in *.
    apply if_present_None in Hto. apply if_present_Some in Hno as (b & Hb & ->). split; [|done]. split; [done|]. split; [done|]. split; [done|].
    exists b. split; [done|]. eapply normalize_rounded; [apply Hd|exact Hb].
  - apply normalize_local_inv in Hl as (-> & Hc & Hno & Hse & Hto); [|done]. apply if_present_None in Hc, Hno. rewrite Hc in *.
    apply if_present_None in Hto. apply if_present_Some in Hse as (b & Hb & ->). split; [|done]. split; [done|]. split; [done|]. split; [done|].
    exists b. split; [done|]. eapply normalize_rounded; [apply Hd|exact Hb].
Qed.

(** ** Reporting currency *)

(** A reported amount is the local one times the rate, rounded once. *)
Definition converted (rate : decimal) (x y : option decimal) : Prop :=
  match x, y with
  | Some a, Some b => ledger b (rounded (dval a * dval rate))
  | None, None => True
  | _, _ => False
  end.

Lemma convert_inv x f rate m y : ledger rate m -> match x with Some a => exists n, ledger a n | None => True end ->
  if_present (fun d : decimal => p_multiply pol d rate f) x = Ok y -> converted rate x y.
Proof.
  intros [Hm Bm] Hx Hy. destruct x as [a|]; [|by apply if_present_None in Hy as ->]. destruct Hx as [n [Hn Bn]].
  apply if_present_Some in Hy as (b & Hb & ->). cbn [converted]. unfold p_multiply, calculate in Hb. apply bind_Ok in Hb as (q & Hq & Hb).
  change (dmul ctx a rate = Ok q) in Hq.
  eapply (product_exact (-10) (-10)) in Hq as Hu; [|lia|lia|exact Hn|exact Hm|].
  - eapply normalize_rounded; [|exact Hb]. rewrite (units_val _ _ _ Hu), (units_val _ _ _ Hn), (units_val _ _ _ Hm), inject_Z_mult, pow10_add. ring.
  - rewrite Z.abs_mul. assert (Z.abs n * Z.abs m <= 10 ^ 18 * 10 ^ 18) by nia. change (10 ^ 64) with (10 ^ 36 * 10 ^ 28). lia.
Qed.

Lemma resolve_fx_rate_inv p i rate : stored_if_present (vi_direct_source_to_reporting_fx_rate i) -> resolve_fx_rate p i = Ok rate ->
  (exists m, ledger rate m) /\ (0 < dval rate)%Q /\
  (normalize_currency (vi_source_currency i) = normalize_currency (vi_reporting_currency i) -> rate = d_one).
Proof.
  intros Hfx Hr. unfold resolve_fx_rate in Hr.
  assert (L1 : ledger d_one (10 ^ 10)) by (split; [reflexivity|done]).
  destruct (decide _); [apply bind_Ok in Hr as (_ & _ & [= <-]); split; [by eexists|done]|].
  destruct (String.eqb_spec (normalize_currency (vi_source_currency i)) (normalize_currency (vi_reporting_currency i))) as [E|E];
    [injection Hr as <-; split; [by eexists|done]|].
  apply bind_Ok in Hr as (x & Hx & Hr). apply bind_Ok in Hr as (u & Hpos%raise_if_Ok & [= <-]).
  destruct (required_stored _ _ _ Hfx Hx) as (m & _ & Lm). split; [by exists m|]. split; [|done].
  rewrite (ledger_le _ _ _ _ Lm ledger_dzero) in Hpos. apply Z.leb_gt in Hpos. destruct Lm as [Hu _]. rewrite (units_val _ _ _ Hu).
  assert (0 < inject_Z m)%Q by (change 0%Q with (inject_Z 0); by rewrite <- Zlt_Qlt). pose proof (pow10_pos (-10)). nra.
Qed.

(** Every local amount a valuation reports is a stored one. *)
Lemma local_stored p i l : local_measures p i l -> local_accrued p i l ->
  Forall (fun x => match x with Some d => exists n, ledger d n | None => True end)
    [le_clean_value_local l; le_accrued_income_local l; le_total_market_value_local l; le_notional_exposure_local l; le_settlement_variation_local l].
Proof.
  intros Hm Ha. unfold local_measures, local_accrued in *.
  assert (Hacc : match le_accrued_income_local l with Some d => exists n, ledger d n | None => True end) by (destruct (le_accrued_income_local l); [apply Ha|done]).
  destruct (vp_output_measure p).
  - destruct Hm as (-> & -> & t & -> & Hm). destruct (decide _); [destruct Hm as (Ht & c & -> & Hc)|destruct Hm as (-> & Ht)];
      repeat constructor; try done; by eexists.
  - destruct Hm as (-> & -> & -> & d & -> & Hd). repeat constructor; try done; by eexists.
  - destruct Hm as (-> & -> & -> & d & -> & Hd). repeat constructor; try done; by eexists.
Qed.

(** The reported total: the sum of its reported parts, or the total converted. *)
Definition total_reported (rate : decimal) (o : NormalizedPositionOutputs) : Prop :=
  match no_clean_value_reporting o with
  | Some c => exists t, no_total_market_value_reporting o = Some t /\
      (dval t == dval c + match no_accrued_income_reporting o with Some a => dval a | None => 0 end)%Q
  | None => converted rate (no_total_market_value_local o) (no_total_market_value_reporting o)
  end.

Lemma normalize_outputs_inv p i sc rc l rate m o lineage : ledger rate m ->
  Forall (fun x => match x with Some d => exists n, ledger d n | None => True end)
    [le_clean_value_local l; le_accrued_income_local l; le_total_market_value_local l; le_notional_exposure_local l; le_settlement_variation_local l] ->
  normalize_outputs p i sc rc l rate = Ok (o, lineage) ->
  (no_clean_value_local o = le_clean_value_local l /\ no_accrued_income_local o = le_accrued_income_local l /\
   no_total_market_value_local o = le_total_market_value_local l /\ no_notional_exposure_local o = le_notional_exposure_local l /\
   no_settlement_variation_local o = le_settlement_variation_local l) /\
  (converted rate (no_clean_value_local o) (no_clean_value_reporting o) /\ converted rate (no_accrued_income_local o) (no_accrued_income_reporting o) /\
   converted rate (no_notional_exposure_local o) (no_notional_exposure_reporting o) /\
   converted rate (no_settlement_variation_local o) (no_settlement_variation_reporting o)) /\
  total_reported rate o /\ calculation_lineage_binds_output lineage (position_output_payload o sc rc rate) = Ok true.
Proof.
  intros Hm Hs Ho. unfold normalize_outputs in Ho. rewrite !Forall_cons in Hs. destruct Hs as (Sc & Sa & St & Sn & Ss & _).
  apply bind_Ok in Ho as (cr & Hcr & Ho). apply bind_Ok in Ho as (ar & Har & Ho). apply bind_Ok in Ho as (tr & Htr & Ho).
  apply bind_Ok in Ho as (nr & Hnr & Ho). apply bind_Ok in Ho as (sr & Hsr & Ho). apply bind_Ok in Ho as (ip & _ & Ho).
  apply bind_Ok in Ho as (id & _ & Ho). apply bind_Ok in Ho as (li & Hli & [= <- <-]). cbn. split; [done|].
  apply (convert_inv _ _ _ _ _ Hm Sc) in Hcr. apply (convert_inv _ _ _ _ _ Hm Sa) in Har. apply (convert_inv _ _ _ _ _ Hm Sn) in Hnr.
  apply (convert_inv _ _ _ _ _ Hm Ss) in Hsr. split; [done|]. split; [|by eapply lineage_binds_own].
  unfold total_reported. cbn. destruct cr as [c|].
  - apply bind_Ok in Htr as (t & Ht & [= <-]). exists t. split; [done|]. unfold converted in Hcr, Har.
    destruct (le_clean_value_local l) as [cl|]; [|done].
    assert (Hz : exists n, ledger (or_zero ar) n /\ (match ar with Some d => dval d | None => 0 end == inject_Z n * pow10 (-10))%Q)
      by (apply or_zero_ledger; destruct ar; [|done]; destruct (le_accrued_income_local l); [by eexists|done]).
    destruct Hz as (z & Lz & Ez). pose proof (p_add_Ok "position-valuation-ledger-output" _ _ _ _ _ _ Hcr Lz Ht) as [Hu _].
    rewrite (units_val _ _ _ Hu), Ez, (units_val _ _ _ (proj1 Hcr)), inject_Z_plus. ring.
  - by apply (convert_inv _ _ _ _ _ Hm St) in Htr.
Qed.
End WithHashing.

(** ** The catalogue *)

Lemma catalogue_policies : Forall (fun p => make_PositionValuationPolicy p = Ok p /\ strip (vp_policy_id p) = vp_policy_id p /\
  resolve_position_valuation_policy (vp_policy_id p) (vp_policy_version p) = Ok p) supported_position_valuation_policies.
Proof. repeat (constructor; [by vm_compute|]). constructor. Qed.

Lemma catalogue_denominators : Forall (fun p => vp_quote_denominator p = None \/ vp_quote_denominator p = Some (Finite (dint 100)))
  supported_position_valuation_policies.
Proof. repeat (constructor; [(left; reflexivity) || (right; reflexivity)|]). constructor. Qed.

Lemma catalogue_keyed : Forall (fun kp => kp.1 = (vp_policy_id kp.2, vp_policy_version kp.2) /\ kp.2 ∈ supported_position_valuation_policies) POLICIES_BY_KEY.
Proof.
  assert (E : forallb (fun kp => bool_decide (kp.1 = (vp_policy_id kp.2, vp_policy_version kp.2))) POLICIES_BY_KEY = true) by reflexivity.
  assert (E2 : map snd POLICIES_BY_KEY = supported_position_valuation_policies) by reflexivity.
  rewrite forallb_forall in E. apply Forall_forall. intros kp Hkp. split.
  - apply list_elem_of_In, E in Hkp. by apply bool_decide_eq_true in Hkp.
  - rewrite <- E2. apply list_elem_of_In, in_map. by apply list_elem_of_In.
Qed.

Lemma resolved_policy id version p : resolve_position_valuation_policy id version = Ok p ->
  p ∈ supported_position_valuation_policies /\ strip id = vp_policy_id p /\ version = vp_policy_version p.
Proof.
  unfold resolve_position_valuation_policy. intros H. repeat case_match; simplify_eq.
  match goal with H : od_get _ _ = Some _ |- _ => apply od_get_elem in H; pose proof (proj1 (Forall_forall _ _) catalogue_keyed _ H) as [Hk Hp] end.
  cbn in *. by injection Hk.
Qed.

Lemma supported_policy_fits p : p ∈ supported_position_valuation_policies -> make_PositionValuationPolicy p = Ok p /\ quoted_per_hundred p.
Proof.
  intros Hp. split; [apply (proj1 (Forall_forall _ _) catalogue_policies p Hp)|]. intros d Hd.
  destruct (proj1 (Forall_forall _ _) catalogue_denominators p Hp) as [E|E]; rewrite E in Hd; [done|]. by injection Hd.
Qed.

(** ** Claims *)

(** A supported policy, under its own id and version. *)
Definition declared (id : string) (version : Z) (p : PositionValuationPolicy) : Prop :=
  p ∈ supported_position_valuation_policies /\ strip id = vp_policy_id p /\ version = vp_policy_version p.

(** The valuation catalogue: its twenty-two declarations all pass the policy constructor, and an id and
    version resolve to exactly the declared policy that carries them, with no alias and no version fallback. *)
Theorem valuation_catalogue_resolves :
  SUPPORTED_POLICIES = Ok supported_position_valuation_policies /\ length supported_position_valuation_policies = 22%nat /\
  forall id version p, resolve_position_valuation_policy id version = Ok p <-> declared id version p.
Proof.
  split; [reflexivity|]. split; [reflexivity|]. intros id version p. split; [apply resolved_policy|]. intros (Hp & Hid & ->).
  destruct (proj1 (Forall_forall _ _) catalogue_policies p Hp) as (_ & Hs & Hr).
  unfold resolve_position_valuation_policy in Hr |- *. rewrite Hs in Hr. rewrite Hid. exact Hr.
Qed.

(** C30: A valuation under a supported policy, of stored inputs, fills exactly the measure the policy declares,
    with the exact scaled value rounded half-even once; totals are exactly clean value plus accrued income in
    both currencies; each reported amount is the local one times a positive rate, rounded once, and the rate is
    one within a currency; the lineage binds the outputs. *)
Theorem position_valuation_rounds_once `{Hashing} id version p i r :
  resolve_position_valuation_policy id version = Ok p -> inputs_stored (vi_economic i) ->
  stored_if_present (vi_direct_source_to_reporting_fx_rate i) -> calculate_position_valuation p i = Ok r ->
  let o := vr_outputs r in let rate := vr_source_to_reporting_fx_rate r in
  (exists l, calculate_position_valuation_local_economics p (vi_economic i) = Ok l /\
     local_measures p (vi_economic i) l /\ local_accrued p (vi_economic i) l /\
     no_clean_value_local o = le_clean_value_local l /\ no_accrued_income_local o = le_accrued_income_local l /\
     no_total_market_value_local o = le_total_market_value_local l /\ no_notional_exposure_local o = le_notional_exposure_local l /\
     no_settlement_variation_local o = le_settlement_variation_local l) /\
  (0 < dval rate)%Q /\ (vr_source_currency r = vr_reporting_currency r -> rate = d_one) /\
  (converted rate (no_clean_value_local o) (no_clean_value_reporting o) /\ converted rate (no_accrued_income_local o) (no_accrued_income_reporting o) /\
   converted rate (no_notional_exposure_local o) (no_notional_exposure_reporting o) /\
   converted rate (no_settlement_variation_local o) (no_settlement_variation_reporting o)) /\
  total_reported rate o /\
  calculation_lineage_binds_output (vr_lineage r) (position_output_payload o (vr_source_currency r) (vr_reporting_currency r) rate) = Ok true.
Proof.
  intros Hres Hi Hfx Hr. apply resolved_policy in Hres as (Hp & _). destruct (supported_policy_fits p Hp) as [Hmk Hq].
  unfold calculate_position_valuation in Hr. apply bind_Ok in Hr as (l & Hl & Hr). apply bind_Ok in Hr as (rate & Hrate & Hr).
  apply bind_Ok in Hr as ([o lineage] & Ho & [= <-]). cbn.
  destruct (local_economics_measures p (vi_economic i) l Hi Hq Hmk Hl) as [Hm Ha].
  destruct (resolve_fx_rate_inv p i rate Hfx Hrate) as ((m & Lm) & Hpos & Hone).
  destruct (normalize_outputs_inv _ _ _ _ _ _ _ _ _ Lm (local_stored _ _ _ Hm Ha) Ho) as (Hloc & Hconv & Htot & Hlin).
  split; [by exists l|]. done.
Qed.

(** ** Witness *)

(** A million face at 99.5 per cent with 1234.56 accrued, in euro, reported in dollars. *)
Definition wit_inputs : PositionValuationInputs :=
  {| vi_economic :=
       {| ei_source_value := Finite (Dec 995 (-1)); ei_signed_quantity := Finite (dint 1000); ei_signed_face_amount := Some (Finite (dint 1000000));
          ei_principal_factor := None; ei_signed_current_principal := None; ei_contract_multiplier := None; ei_calculated_accrued_income := None;
          ei_supplied_accrued_income := Some (Finite (Dec 123456 (-2))) |};
     vi_source_currency := "eur"; vi_reporting_currency := "USD";
     vi_evidence :=
       let source := {| fs_source_system := "prices"; fs_source_record_id := "P1"; fs_source_revision := "1"; fs_source_content_hash := digest_zero;
                        fs_observed_at := {| dt_us := 0; dt_utcoffset := Some 0 |} |} in
       {| ve_policy_assignment := source; ve_source_value := source; ve_source_currency := source; ve_reporting_currency := source;
          ve_signed_quantity := Some source; ve_signed_face_amount := Some source; ve_principal_factor := None; ve_signed_current_principal := None;
          ve_contract_multiplier := None; ve_calculated_accrued_income := None; ve_supplied_accrued_income := Some source;
          ve_direct_source_to_reporting_fx_rate := Some source |};
     vi_direct_source_to_reporting_fx_rate := Some (Finite (Dec 10837 (-4))) |}.

Lemma wit_stored_number c e : -10 <= e <= 0 -> Z.abs c * 10 ^ (e + 10) < 10 ^ 18 -> stored (Finite (Dec c e)).
Proof.
  intros He Hb. exists (Dec c e), (c * 10 ^ (e + 10)). split; [done|]. split.
  - unfold units, dval. cbn [dcoeff dexp]. rewrite inject_Z_mult, <- (pow10_Z (e + 10)) by lia. rewrite <- Qmult_assoc, <- pow10_add.
    by replace (e + 10 + -10) with e by lia.
  - rewrite Z.abs_mul, (Z.abs_eq (10 ^ _)); [done|]. apply Z.pow_nonneg. lia.
Qed.

Definition wit_policy : PositionValuationPolicy :=
  {| vp_policy_id := "CLEAN_PERCENT_FACE_SUPPLIED_ACCRUAL"; vp_policy_version := 1; vp_input_basis := PERCENT_OF_PRINCIPAL_CLEAN;
     vp_principal_basis := FACE_AMOUNT; vp_position_scaling := PRINCIPAL; vp_accrued_income_treatment := SUPPLIED_SEPARATELY;
     vp_fx_conversion := DIRECT_SOURCE_TO_REPORTING; vp_output_measure := MARKET_VALUE; vp_quote_denominator := Some (Finite (dint 100)) |}.

Lemma position_valuation_rounds_once_witness : exists r, @calculate_position_valuation constant_hashing wit_policy wit_inputs = Ok r /\
  (0 < dval (vr_source_to_reporting_fx_rate r))%Q /\ total_reported (vr_source_to_reporting_fx_rate r) (vr_outputs r).
Proof.
  assert (E : exists r, @calculate_position_valuation constant_hashing wit_policy wit_inputs = Ok r) by (eexists; vm_compute; reflexivity).
  destruct E as [r E]. exists r. split; [exact E|].
  destruct (@position_valuation_rounds_once constant_hashing "CLEAN_PERCENT_FACE_SUPPLIED_ACCRUAL" 1 wit_policy wit_inputs r)
    as (_ & Hpos & _ & _ & Ht & _); [reflexivity| | |exact E|split; [exact Hpos|exact Ht]].
  - repeat split; try exact I; apply wit_stored_number; (lia || done).
  - apply wit_stored_number; (lia || done).
Defined.
