(* ===== verification/EventGraph.v ===== *)
(** * Directed event graphs

    [domain/transaction/event_graph.py]: the structural validation of a graph of declared nodes, its
    canonical topological order, and the report of its defects, with the cyclic components of what
    cannot be ordered.  [heapq] is modelled by what it promises, a queue that yields its least entry:
    the entries are kept sorted.  A [set] is a list without duplicates, a [dict] an association list. *)

From Stdlib Require Import ZArith Lia String.
From stdpp Require Import base tactics list strings.
From S2P Require Import Prelude PyDecimal.

#[local] Open Scope string_scope.
#[local] Open Scope Z_scope.

(** ** Declarations *)

Inductive DirectedEventGraphStatus := VALID | INVALID.

Inductive DirectedEventGraphReason :=
| EMPTY_GRAPH | DUPLICATE_NODE_ID | CONFLICTING_NODE_DEFINITION | DUPLICATE_EDGE | SELF_DEPENDENCY | MISSING_DEPENDENCY
| DEPENDENCY_CYCLE | BLOCKED_BY_CYCLE.

#[export] Instance graph_reason_eq_dec : EqDecision DirectedEventGraphReason.
Proof. solve_decision. Defined.

Definition graph_reason_value (r : DirectedEventGraphReason) : string :=
  match r with
  | EMPTY_GRAPH => "EVENT_GRAPH_EMPTY" | DUPLICATE_NODE_ID => "EVENT_GRAPH_DUPLICATE_NODE_ID"
  | CONFLICTING_NODE_DEFINITION => "EVENT_GRAPH_CONFLICTING_NODE_DEFINITION" | DUPLICATE_EDGE => "EVENT_GRAPH_DUPLICATE_EDGE"
  | SELF_DEPENDENCY => "EVENT_GRAPH_SELF_DEPENDENCY" | MISSING_DEPENDENCY => "EVENT_GRAPH_MISSING_DEPENDENCY"
  | DEPENDENCY_CYCLE => "EVENT_GRAPH_DEPENDENCY_CYCLE" | BLOCKED_BY_CYCLE => "EVENT_GRAPH_BLOCKED_BY_CYCLE"
  end.

Record DirectedEventNode := {
  node_id : string; dependency_node_ids : list string; definition_fingerprint : string; order_key : list string
}.

#[export] Instance DirectedEventNode_eq_dec : EqDecision DirectedEventNode.
Proof. solve_decision. Defined.

Definition required_text (value field_name : string) : result string :=
  if truthy (strip value) then Ok (strip value) else Raise (ValueError (field_name +:+ " must be a non-empty string")).

Definition make_DirectedEventNode (n : DirectedEventNode) : result DirectedEventNode :=
  id ← required_text (node_id n) "node_id";
  dependencies ← mapR (fun value => required_text value "dependency_node_ids") (dependency_node_ids n);
  fingerprint ← required_text (definition_fingerprint n) "definition_fingerprint";
  _ ← raise_if (match order_key n with [] => true | _ => false end) (ValueError "order_key must be a non-empty tuple of strings");
  key ← mapR (fun value => required_text value "order_key") (order_key n);
  Ok {| node_id := id; dependency_node_ids := dependencies; definition_fingerprint := fingerprint; order_key := key |}.

Record DirectedEventGraphFinding := {
  gf_reason : DirectedEventGraphReason; gf_node_ids : list string; gf_dependency_node_ids : list string
}.

Record DirectedEventGraphPlan := {
  gp_status : DirectedEventGraphStatus; gp_ordered_nodes : list DirectedEventNode; gp_findings : list DirectedEventGraphFinding;
  gp_declared_node_count : Z; gp_declared_edge_count : Z
}.

Definition ordered_node_ids (p : DirectedEventGraphPlan) : list string := map node_id (gp_ordered_nodes p).

(** ** Sets and tuples of text *)

Definition in_ids (x : string) (xs : list string) : bool := bool_decide (x ∈ xs).

(** [sorted(set(values))]. *)
Definition sorted_set (values : list string) : list string := stable_sort string_leb (remove_dups values).

(** Lexicographic order of tuples of strings. *)
Fixpoint tuple_compare (x y : list string) : comparison :=
  match x, y with
  | [], [] => Eq
  | [], _ :: _ => Lt
  | _ :: _, [] => Gt
  | a :: x', b :: y' => lex (String.compare a b) (tuple_compare x' y')
  end.

Definition lookup_key {V} (k : string) (d : list (string * V)) : result V :=
  match od_get k d with Some v => Ok v | None => Raise (KeyError k) end.

(** ** Findings *)

Definition finding_compare (x y : DirectedEventGraphFinding) : comparison :=
  lex (String.compare (graph_reason_value (gf_reason x)) (graph_reason_value (gf_reason y)))
    (lex (tuple_compare (gf_node_ids x) (gf_node_ids y)) (tuple_compare (gf_dependency_node_ids x) (gf_dependency_node_ids y))).

Definition invalid (findings : list DirectedEventGraphFinding) (node_count edge_count : Z) : DirectedEventGraphPlan :=
  {| gp_status := INVALID; gp_ordered_nodes := []; gp_findings := stable_sort (leb_of finding_compare) findings;
     gp_declared_node_count := node_count; gp_declared_edge_count := edge_count |}.

(** [_duplicates]: the loop keeps what it has seen and what it has seen twice. *)
Definition duplicates (values : list string) : list string :=
  sorted_set (snd (fold_left (fun '(seen, dups) v => (v :: seen, if in_ids v seen then v :: dups else dups)) values ([], []))).

(** ** Declaration of nodes and edges *)

(** One turn of the first loop. *)
Definition declare_node (acc : list (string * DirectedEventNode) * list DirectedEventGraphFinding) (node : DirectedEventNode)
  : list (string * DirectedEventNode) * list DirectedEventGraphFinding :=
  let '(nodes_by_id, findings) := acc in
  match od_get (node_id node) nodes_by_id with
  | None => (od_set (node_id node) node nodes_by_id, findings)
  | Some existing =>
      (nodes_by_id, (findings ++
        [{| gf_reason := if String.eqb (definition_fingerprint existing) (definition_fingerprint node) then DUPLICATE_NODE_ID
                         else CONFLICTING_NODE_DEFINITION;
            gf_node_ids := [node_id node]; gf_dependency_node_ids := [] |}])%list)
  end.

Record Edges := {
  eg_dependants : list (string * list string); eg_dependencies : list (string * list string); eg_indegree : list (string * Z);
  eg_edge_count : Z; eg_findings : list DirectedEventGraphFinding
}.

(** [dependants[dependency_id].append(node_id); indegree[node_id] += 1; edge_count += 1]. *)
Definition add_edge (id : string) (e : Edges) (dependency_id : string) : result Edges :=
  ds ← lookup_key dependency_id (eg_dependants e);
  degree ← lookup_key id (eg_indegree e);
  Ok {| eg_dependants := od_set dependency_id (ds ++ [id])%list (eg_dependants e); eg_dependencies := eg_dependencies e;
        eg_indegree := od_set id (degree + 1) (eg_indegree e); eg_edge_count := eg_edge_count e + 1; eg_findings := eg_findings e |}.

(** The defects of one node's declared dependencies, with its missing and present ones. *)
Definition missing_dependencies (ids : list string) (node : DirectedEventNode) : list string :=
  sorted_set (List.filter (fun d => negb (in_ids d ids)) (dependency_node_ids node)).
Definition present_dependencies (ids : list string) (node : DirectedEventNode) : list string :=
  sorted_set (List.filter (fun d => in_ids d ids && negb (String.eqb d (node_id node))) (dependency_node_ids node)).

Definition node_findings (ids : list string) (node : DirectedEventNode) : list DirectedEventGraphFinding :=
  ((if negb (Nat.eqb (length (remove_dups (dependency_node_ids node))) (length (dependency_node_ids node)))
    then [{| gf_reason := DUPLICATE_EDGE; gf_node_ids := [node_id node]; gf_dependency_node_ids := duplicates (dependency_node_ids node) |}]
    else []) ++
   (if in_ids (node_id node) (dependency_node_ids node)
    then [{| gf_reason := SELF_DEPENDENCY; gf_node_ids := [node_id node]; gf_dependency_node_ids := [node_id node] |}] else []) ++
   (match missing_dependencies ids node with
    | [] => []
    | missing => [{| gf_reason := MISSING_DEPENDENCY; gf_node_ids := [node_id node]; gf_dependency_node_ids := missing |}]
    end))%list.

(** One turn of the second loop. *)
Definition declare_edges (ids : list string) (e : Edges) (node : DirectedEventNode) : result Edges :=
  let present := present_dependencies ids node in
  foldM (add_edge (node_id node))
    {| eg_dependants := eg_dependants e; eg_dependencies := od_set (node_id node) present (eg_dependencies e); eg_indegree := eg_indegree e;
       eg_edge_count := eg_edge_count e; eg_findings := (eg_findings e ++ node_findings ids node)%list |} present.

(** ** The canonical order *)

Definition ready_entry : Type := list string * string.
Definition ready_compare (x y : ready_entry) : comparison := lex (tuple_compare (fst x) (fst y)) (String.compare (snd x) (snd y)).

Definition heappush (x : ready_entry) (heap : list ready_entry) : list ready_entry := insert_sorted (leb_of ready_compare) x heap.

Definition push_if_ready (nodes_by_id : list (string * DirectedEventNode)) (ready : list ready_entry) (id : string) (degree : Z)
  : result (list ready_entry) :=
  if degree =? 0 then n ← lookup_key id nodes_by_id; Ok (heappush (order_key n, id) ready) else Ok ready.

Definition initial_ready (nodes_by_id : list (string * DirectedEventNode)) (indegree : list (string * Z)) : result (list ready_entry) :=
  foldM (fun ready '(id, degree) => push_if_ready nodes_by_id ready id degree) [] indegree.

(** [indegree[dependant_id] -= 1], and a push when nothing is left to wait for. *)
Definition release (nodes_by_id : list (string * DirectedEventNode)) (acc : list (string * Z) * list ready_entry) (dependant_id : string)
  : result (list (string * Z) * list ready_entry) :=
  let '(indegree, ready) := acc in
  degree ← lookup_key dependant_id indegree;
  ready' ← push_if_ready nodes_by_id ready dependant_id (degree - 1);
  Ok (od_set dependant_id (degree - 1) indegree, ready').

(** [while ready]; every turn orders one node. *)
Fixpoint order_loop (fuel : nat) (nodes_by_id : list (string * DirectedEventNode)) (dependants : list (string * list string))
  (indegree : list (string * Z)) (ready : list ready_entry) (ordered : list DirectedEventNode)
  : result (list (string * Z) * list DirectedEventNode) :=
  match ready with
  | [] => Ok (indegree, ordered)
  | (_, id) :: ready' =>
      match fuel with
      | O => Raise (RuntimeError "unreachable")
      | S fuel' =>
          n ← lookup_key id nodes_by_id;
          ds ← lookup_key id dependants;
          '(indegree', ready'') ← foldM (release nodes_by_id) (indegree, ready') ds;
          order_loop fuel' nodes_by_id dependants indegree' ready'' (ordered ++ [n])
      end
  end.

(** ** Cyclic components *)

(** [tuple(sorted(set(dependants[n]).intersection(unresolved)))]. *)
Definition neighbours_of (dependants : list (string * list string)) (unresolved : list string) (n : string) : result (list string) :=
  ds ← lookup_key n dependants;
  Ok (sorted_set (List.filter (fun d => in_ids d unresolved) ds)).

(** The stack of the depth-first walk: a node and the neighbours still to be looked at ([next_index]
    onwards).  Every turn looks at a neighbour or finishes a node. *)
Fixpoint visit_loop (fuel : nat) (dependants : list (string * list string)) (unresolved : list string)
  (stack : list (string * list string)) (visited finish_order : list string) : result (list string * list string) :=
  match stack with
  | [] => Ok (visited, finish_order)
  | (n, remaining) :: below =>
      match fuel with
      | O => Raise (RuntimeError "unreachable")
      | S fuel' =>
          match remaining with
          | [] => visit_loop fuel' dependants unresolved below visited (finish_order ++ [n])
          | neighbour :: remaining' =>
              if in_ids neighbour visited
              then visit_loop fuel' dependants unresolved ((n, remaining') :: below) visited finish_order
              else
                ns ← neighbours_of dependants unresolved neighbour;
                visit_loop fuel' dependants unresolved ((neighbour, ns) :: (n, remaining') :: below) (neighbour :: visited) finish_order
          end
      end
  end.

(** Enough turns for every node and edge of the part walked. *)
Definition walk_fuel (adjacency : list (string * list string)) : nat := S (foldr (fun '(_, ns) k => S (length ns + k)) O adjacency).

Definition visit_from (dependants : list (string * list string)) (unresolved : list string) (acc : list string * list string) (start : string)
  : result (list string * list string) :=
  let '(visited, finish_order) := acc in
  if in_ids start visited then Ok acc else
  ns ← neighbours_of dependants unresolved start;
  visit_loop (walk_fuel dependants) dependants unresolved [(start, ns)] (start :: visited) finish_order.

Definition finish_order_of (dependants : list (string * list string)) (unresolved : list string) : result (list string) :=
  '(_, finish_order) ← foldM (visit_from dependants unresolved) ([], []) (stable_sort string_leb unresolved);
  Ok finish_order.

(** [while component_stack]; the stack's top is its head. *)
Fixpoint component_loop (fuel : nat) (dependencies : list (string * list string)) (unresolved : list string)
  (stack assigned component : list string) : result (list string * list string) :=
  match stack with
  | [] => Ok (assigned, component)
  | n :: stack' =>
      match fuel with
      | O => Raise (RuntimeError "unreachable")
      | S fuel' =>
          if in_ids n assigned then component_loop fuel' dependencies unresolved stack' assigned component
          else
            let assigned' := n :: assigned in
            ps ← lookup_key n dependencies;
            let pushed := List.filter (fun p => in_ids p unresolved && negb (in_ids p assigned')) ps in
            component_loop fuel' dependencies unresolved (rev pushed ++ stack') assigned' (n :: component)
      end
  end.

Definition component_from (dependencies : list (string * list string)) (unresolved : list string) (acc : list string * list (list string))
  (start : string) : result (list string * list (list string)) :=
  let '(assigned, components) := acc in
  if in_ids start assigned then Ok acc else
  '(assigned', component) ← component_loop (walk_fuel dependencies) dependencies unresolved [start] assigned [];
  Ok (assigned', if Nat.ltb 1 (length component) then (components ++ [stable_sort string_leb component])%list else components).

Definition cyclic_components (unresolved : list string) (dependants dependencies : list (string * list string)) : result (list (list string)) :=
  finish_order ← finish_order_of dependants unresolved;
  '(_, components) ← foldM (component_from dependencies unresolved) ([], []) (rev finish_order);
  Ok (stable_sort (leb_of tuple_compare) components).

(** ** Resolution *)

Definition cycle_findings (unresolved : list string) (dependencies : list (string * list string)) (components : list (list string))
  : result (list DirectedEventGraphFinding) :=
  let cycle_nodes := List.concat components in
  blocked ← mapR (fun id =>
      ds ← lookup_key id dependencies;
      Ok {| gf_reason := BLOCKED_BY_CYCLE; gf_node_ids := [id]; gf_dependency_node_ids := List.filter (fun d => in_ids d unresolved) ds |})
    (stable_sort string_leb (List.filter (fun id => negb (in_ids id cycle_nodes)) unresolved));
  Ok (map (fun c => {| gf_reason := DEPENDENCY_CYCLE; gf_node_ids := c; gf_dependency_node_ids := [] |}) components ++ blocked)%list.

(** The part after the declarations: order what can be ordered, report what cannot. *)
Definition order_or_report (nodes_by_id : list (string * DirectedEventNode)) (e : Edges) : result DirectedEventGraphPlan :=
  let node_count := Z.of_nat (length nodes_by_id) in
  ready ← initial_ready nodes_by_id (eg_indegree e);
  '(indegree, ordered) ← order_loop (length nodes_by_id) nodes_by_id (eg_dependants e) (eg_indegree e) ready [];
  if negb (Nat.eqb (length ordered) (length nodes_by_id)) then
    let unresolved := map fst (List.filter (fun '(_, degree) => negb (degree =? 0)) indegree) in
    components ← cyclic_components unresolved (eg_dependants e) (eg_dependencies e);
    findings ← cycle_findings unresolved (eg_dependencies e) components;
    Ok (invalid findings node_count (eg_edge_count e))
  else
    Ok {| gp_status := VALID; gp_ordered_nodes := ordered; gp_findings := []; gp_declared_node_count := node_count;
          gp_declared_edge_count := eg_edge_count e |}.

Definition resolve_directed_event_graph (declared_nodes : list DirectedEventNode) : result DirectedEventGraphPlan :=
  let '(nodes_by_id, findings) := fold_left declare_node declared_nodes ([], []) in
  let findings := (findings ++ match declared_nodes with
                               | [] => [{| gf_reason := EMPTY_GRAPH; gf_node_ids := []; gf_dependency_node_ids := [] |}]
                               | _ => []
                               end)%list in
  let ids := map fst nodes_by_id in
  let node_count := Z.of_nat (length nodes_by_id) in
  match findings with
  | _ :: _ => Ok (invalid findings node_count 0)
  | [] =>
      e ← foldM (declare_edges ids)
            {| eg_dependants := map (fun id => (id, [])) ids; eg_dependencies := []; eg_indegree := map (fun id => (id, 0)) ids;
               eg_edge_count := 0; eg_findings := [] |} (map snd nodes_by_id);
      match eg_findings e with
      | _ :: _ => Ok (invalid (eg_findings e) node_count (eg_edge_count e))
      | [] => order_or_report nodes_by_id e
      end
  end.
