(* ===== verification/EventGraphWalk.v ===== *)
(** * The cyclic components of an event graph

    [EventGraph.cyclic_components] walks the unresolved part of the graph twice: depth first along the
    dependants, then backwards along the dependencies in reverse order of finishing.  The walks end
    within their bounds and return exactly the strongly connected components of more than one node. *)

From Stdlib Require Import ZArith Lia String Sorted.
From stdpp Require Import base tactics list strings sets relations sorting.
From S2P Require Import Prelude EventGraph.

#[local] Open Scope string_scope.

(** ** Sorted sets of text *)

Lemma in_ids_spec x xs : in_ids x xs = true <-> x ∈ xs.
Proof. unfold in_ids. apply bool_decide_eq_true. Qed.

Lemma in_ids_false x xs : in_ids x xs = false <-> x ∉ xs.
Proof. unfold in_ids. apply bool_decide_eq_false. Qed.

Lemma elem_of_sorted_set x xs : x ∈ sorted_set xs <-> x ∈ xs.
Proof. unfold sorted_set. rewrite (stable_sort_perm string_leb). apply elem_of_remove_dups. Qed.

Lemma NoDup_sorted_set xs : NoDup (sorted_set xs).
Proof. unfold sorted_set. rewrite (stable_sort_perm string_leb). apply NoDup_remove_dups. Qed.

Lemma elem_of_filter_bool {A} (f : A -> bool) x xs : x ∈ List.filter f xs <-> f x = true /\ x ∈ xs.
Proof. rewrite !list_elem_of_In, filter_In. tauto. Qed.

Lemma NoDup_filter_bool {A} (f : A -> bool) xs : NoDup xs -> NoDup (List.filter f xs).
Proof. rewrite !NoDup_ListNoDup. apply List.NoDup_filter. Qed.

Lemma length_sorted_set_filter (f : string -> bool) xs : (length (sorted_set (List.filter f xs)) <= length xs)%nat.
Proof.
  unfold sorted_set. rewrite (Permutation_length (stable_sort_perm string_leb _)). etrans; [|apply (filter_length_le f)].
  apply submseteq_length, NoDup_submseteq; [apply NoDup_remove_dups|]. intros x. by rewrite elem_of_remove_dups.
Qed.

(** ** The order of tuples *)

#[export] Instance tuple_comparer : Comparer tuple_compare.
Proof.
  split.
  - induction x as [|a x IH]; intros [|b y]; cbn; try done. rewrite IH, (comparer_sym String.compare a b). by destruct (String.compare a b).
  - induction x as [|a x IH]; intros [|b y] [|c z]; cbn; try done. apply (lex_trans String.compare), IH.
Qed.

Lemma tuple_compare_eq x : forall y, tuple_compare x y = Eq -> x = y.
Proof.
  induction x as [|a x IH]; intros [|b y]; cbn; try done. destruct (String.compare a b) eqn:E; cbn; try done.
  apply String.compare_eq_iff in E as ->. by intros ->%IH.
Qed.

(** A list without duplicates is split at an element in one way. *)
Lemma split_unique {A} (x : A) l1 : forall l2 a1 a2, (l1 ++ x :: l2 = a1 ++ x :: a2)%list -> NoDup (l1 ++ x :: l2) -> l1 = a1 /\ l2 = a2.
Proof.
  induction l1 as [|y l1 IH]; intros l2 [|z a1] a2 E Hn; cbn in *; injection E; clear E.
  - done.
  - intros -> ->. apply NoDup_cons in Hn as [Hn _]. set_solver.
  - intros _ ->. apply NoDup_cons in Hn as [Hn _]. set_solver.
  - intros E ->. apply NoDup_cons in Hn as [_ Hn]. by destruct (IH l2 a1 a2 E Hn) as [-> ->].
Qed.

Lemma split_later {A} (s x : A) l1 l2 a b : (l1 ++ s :: l2 = a ++ x :: b)%list -> NoDup (l1 ++ s :: l2) -> s ∈ a -> x ∈ l2.
Proof.
  intros E Hn (a1 & a2 & ->)%list_elem_of_split. rewrite <- app_assoc in E. cbn in E.
  apply split_unique in E as [_ ->]; [|done]. set_solver.
Qed.

Section Walk.
Context (dependants dependencies : list (string * list string)) (unresolved : list string).

(** An edge runs from a node to one that depends on it, within the unresolved part. *)
Definition edge (u v : string) : Prop := u ∈ unresolved /\ v ∈ unresolved /\ exists ds, od_get u dependants = Some ds /\ v ∈ ds.

Definition reach : string -> string -> Prop := rtc edge.
Definition same_component (u v : string) : Prop := reach u v /\ reach v u.

Record walkable : Prop := {
  wk_nodup : NoDup unresolved;
  wk_dependants_keys : NoDup dependants.*1;
  wk_dependencies_keys : NoDup dependencies.*1;
  wk_dependants : forall u, u ∈ unresolved -> exists ds, od_get u dependants = Some ds;
  wk_dependencies : forall u, u ∈ unresolved -> exists ps, od_get u dependencies = Some ps;
  wk_dual : forall u v ps, u ∈ unresolved -> v ∈ unresolved -> od_get v dependencies = Some ps -> u ∈ ps <-> edge u v;
  wk_irreflexive : forall u, ~ edge u u
}.

Context (Hw : walkable).

Lemma reach_unresolved u v : reach u v -> u <> v -> u ∈ unresolved /\ v ∈ unresolved.
Proof.
  intros H Hne. split; [by destruct H as [|? ? ? [? _] _]|].
  apply rtc_inv_r in H as [->|(w & _ & (_ & ? & _))]; done.
Qed.

Lemma same_component_refl u : same_component u u.
Proof. split; apply rtc_refl. Qed.
Lemma same_component_sym u v : same_component u v -> same_component v u.
Proof. by intros []. Qed.
Lemma same_component_trans u v w : same_component u v -> same_component v w -> same_component u w.
Proof. intros [] []. split; by etrans. Qed.

Lemma same_component_unresolved u v : u ∈ unresolved -> same_component u v -> v ∈ unresolved.
Proof. intros Hu [H _]. destruct (decide (u = v)) as [<-|Hne]; [done|]. by eapply reach_unresolved. Qed.

(** ** The first walk *)

Lemma neighbours_spec u : u ∈ unresolved ->
  exists ns ds, neighbours_of dependants unresolved u = Ok ns /\ od_get u dependants = Some ds /\
    (length ns <= length ds)%nat /\ forall v, v ∈ ns <-> edge u v.
Proof.
  intros Hu. destruct (wk_dependants Hw u Hu) as [ds Hds]. unfold neighbours_of, lookup_key. rewrite Hds. cbn.
  eexists _, ds. split; [done|]. split; [done|]. split; [apply length_sorted_set_filter|]. intros v.
  rewrite elem_of_sorted_set, elem_of_filter_bool, in_ids_spec. unfold edge. rewrite Hds. naive_solver.
Qed.

(** The nodes of the stack, top first, are a path in reverse. *)
Fixpoint stack_path (stack : list (string * list string)) : Prop :=
  match stack with
  | (n, _) :: ((m, _) :: _) as below => edge m n /\ stack_path below
  | _ => True
  end.

Lemma stack_reaches n rem below m : stack_path ((n, rem) :: below) -> m ∈ below.*1 -> reach m n.
Proof.
  revert n rem. induction below as [|[p rem'] below IH]; intros n rem; cbn [fmap list_fmap fst]; [by intros _ ?%elem_of_nil|].
  intros [He Hp] Hm. apply elem_of_cons in Hm as [->|Hm]; [by apply rtc_once|].
  eapply rtc_r; [|exact He]. by eapply IH.
Qed.

(** What is known about a finished node: whatever it reaches finished before it, unless its component is
    finished later. *)
Definition finishes_late (on_stack finish : list string) : Prop :=
  forall l1 u l2 w, finish = (l1 ++ u :: l2)%list -> reach u w -> w ∈ (l1 ++ [u])%list \/ exists g, same_component u g /\ (g ∈ l2 \/ g ∈ on_stack).

Record walk_inv (stack : list (string * list string)) (visited finish : list string) : Prop := {
  wi_visited : visited ≡ₚ (stack.*1 ++ finish)%list;
  wi_nodup : NoDup visited;
  wi_unresolved : visited ⊆ unresolved;
  wi_path : stack_path stack;
  wi_stack : forall n rem, (n, rem) ∈ stack -> forall v, (edge n v -> v ∈ visited \/ v ∈ rem) /\ (v ∈ rem -> edge n v);
  wi_finish : forall u v, u ∈ finish -> edge u v -> v ∈ visited;
  wi_late : finishes_late stack.*1 finish
}.

(** What a node reaches through finished nodes is finished, or there is an unfinished visited node on the way. *)
Lemma reach_split (done visited : list string) u w :
  (forall x y, x ∈ done -> edge x y -> y ∈ visited) -> u ∈ done -> reach u w ->
  w ∈ done \/ exists g, g ∈ visited /\ g ∉ done /\ reach u g /\ reach g w.
Proof.
  intros Hd Hu H. induction H as [u|u y w Hy H IH]; [by left|].
  destruct (decide (y ∈ done)) as [Hin|Hout].
  - destruct (IH Hin) as [?|(g & Hg & Hn & Hr & Hrw)]; [by left|]. right. exists g. split; [done|]. split; [done|]. split; [|done].
    by eapply rtc_l.
  - right. exists y. split; [by eapply Hd|]. split; [done|]. split; [by apply rtc_once|done].
Qed.

Lemma finish_step n below visited finish : walk_inv ((n, []) :: below) visited finish -> walk_inv below visited (finish ++ [n]).
Proof.
  intros [Hv Hn Hu Hp Hs Hf Hl]. split.
  - rewrite Hv. cbn. rewrite app_assoc. by rewrite (Permutation_app_comm _ [n]).
  - done.
  - done.
  - destruct below as [|[m rem] below]; [done|]. apply Hp.
  - intros m rem Hm. apply Hs. by apply elem_of_cons; right.
  - intros u v Hin He. apply elem_of_app in Hin as [Hin| ->%list_elem_of_singleton]; [by eapply Hf|].
    destruct (proj1 (Hs n [] ltac:(by apply elem_of_cons; left) v) He) as [?|?%elem_of_nil]; done.
  - intros l1 u l2 w E Hr. destruct l2 as [|z l2] using rev_ind.
    + apply app_inj_tail in E as [-> ->]. destruct (reach_split (l1 ++ [u]) visited u w) as [?|(g & Hg & Hnd & Hrg & Hgw)].
      * intros x y Hx He. apply elem_of_app in Hx as [Hx| ->%list_elem_of_singleton]; [by eapply Hf|].
        destruct (proj1 (Hs u [] ltac:(by apply elem_of_cons; left) y) He) as [?|?%elem_of_nil]; done.
      * apply elem_of_app. right. by apply list_elem_of_singleton.
      * done.
      * by left.
      * right. exists g. assert (Hb : g ∈ below.*1).
        { rewrite Hv in Hg. cbn in Hg. set_solver. }
        split; [|by right]. split; [done|]. by eapply stack_reaches.
    + clear IHl2. rewrite app_comm_cons, app_assoc in E. apply app_inj_tail in E as [-> ->].
      destruct (Hl l1 u l2 w eq_refl Hr) as [?|(g & Hg & Hin)]; [by left|]. right. exists g. split; [done|]. cbn in Hin. set_solver.
Qed.

Lemma look_step n v rem below visited finish : walk_inv ((n, v :: rem) :: below) visited finish -> v ∈ visited ->
  walk_inv ((n, rem) :: below) visited finish.
Proof.
  intros [Hv Hn Hu Hp Hs Hf Hl] Hin. split; try done.
  intros m rem' Hm w. apply elem_of_cons in Hm as [[= -> ->]|Hm]; [|apply Hs; by apply elem_of_cons; right].
  destruct (Hs n (v :: rem) ltac:(by apply elem_of_cons; left) w) as [H1 H2]. set_solver.
Qed.

Lemma push_step n v rem ns below visited finish : walk_inv ((n, v :: rem) :: below) visited finish -> v ∉ visited ->
  (forall w, w ∈ ns <-> edge v w) -> walk_inv ((v, ns) :: (n, rem) :: below) (v :: visited) finish.
Proof.
  intros [Hv Hn Hu Hp Hs Hf Hl] Hout Hns.
  assert (He : edge n v) by (apply (Hs n (v :: rem)); [by apply elem_of_cons; left|by apply elem_of_cons; left]).
  split.
  - cbn in *. by rewrite Hv.
  - by apply NoDup_cons.
  - destruct He as (_ & Hvu & _). set_solver.
  - by split.
  - intros m rem' Hm w. apply elem_of_cons in Hm as [[= -> ->]|Hm]; [|apply elem_of_cons in Hm as [[= -> ->]|Hm]].
    + specialize (Hns w). set_solver.
    + destruct (Hs n (v :: rem) ltac:(by apply elem_of_cons; left) w) as [H1 H2]. set_solver.
    + destruct (Hs m rem' ltac:(by apply elem_of_cons; right) w) as [H1 H2]. set_solver.
  - intros u w Hin Hw'. apply elem_of_cons. right. by eapply Hf.
  - intros l1 u l2 w E Hr. destruct (Hl l1 u l2 w E Hr) as [?|(g & Hg & Hin)]; [by left|]. right. exists g. split; [done|]. cbn in *. set_solver.
Qed.

(** ** Turns *)

(** The nodes and edges of an adjacency not yet in a set. *)
Fixpoint weight (seen : list string) (adjacency : list (string * list string)) : nat :=
  match adjacency with
  | [] => 0
  | (n, ns) :: rest => (if in_ids n seen then 0 else S (length ns)) + weight seen rest
  end.

Lemma weight_fuel seen adjacency : (S (weight seen adjacency) <= walk_fuel adjacency)%nat.
Proof. unfold walk_fuel. induction adjacency as [|[n ns] rest IH]; cbn; [lia|]. destruct (in_ids n seen); lia. Qed.

Lemma weight_skip n seen adjacency : n ∉ adjacency.*1 -> weight (n :: seen) adjacency = weight seen adjacency.
Proof.
  induction adjacency as [|[m ms] rest IH]; cbn; [done|]. intros Hn. rewrite IH by set_solver. f_equal.
  assert (E : in_ids m (n :: seen) = in_ids m seen); [|by rewrite E]. unfold in_ids. apply bool_decide_ext. set_solver.
Qed.

Lemma weight_cons n ns seen adjacency : NoDup adjacency.*1 -> od_get n adjacency = Some ns -> n ∉ seen ->
  weight seen adjacency = (S (length ns) + weight (n :: seen) adjacency)%nat.
Proof.
  induction adjacency as [|[m ms] rest IH]; [done|]. cbn [fmap list_fmap fst od_get weight]. intros [Hm Hd]%NoDup_cons Hg Hn.
  destruct (decide (n = m)) as [<-|Hne].
  - injection Hg as ->. rewrite (proj2 (in_ids_false n seen) Hn), (proj2 (in_ids_spec n (n :: seen))) by (by apply elem_of_cons; left).
    by rewrite weight_skip.
  - rewrite (IH Hd Hg Hn). assert (E : in_ids m (n :: seen) = in_ids m seen) by (unfold in_ids; apply bool_decide_ext; set_solver).
    rewrite E. lia.
Qed.

Definition stack_weight (stack : list (string * list string)) : nat := foldr (fun '(_, rem) k => S (length rem + k)) 0%nat stack.

Lemma stack_weight_cons n rem below : stack_weight ((n, rem) :: below) = S (length rem + stack_weight below).
Proof. done. Qed.

Lemma visit_loop_spec fuel : forall stack visited finish, walk_inv stack visited finish ->
  (stack_weight stack + weight visited dependants <= fuel)%nat ->
  exists visited' finish', visit_loop fuel dependants unresolved stack visited finish = Ok (visited', finish') /\
    walk_inv [] visited' finish' /\ visited ⊆ visited'.
Proof.
  induction fuel as [|fuel IH]; intros stack visited finish Hi Hf; destruct stack as [|[n rem] below].
  - by exists visited, finish.
  - rewrite stack_weight_cons in Hf. lia.
  - by exists visited, finish.
  - cbn [visit_loop]. destruct rem as [|v rem].
    + apply IH; [by apply finish_step|]. rewrite stack_weight_cons in Hf. lia.
    + destruct (in_ids v visited) eqn:E.
      * apply in_ids_spec in E. apply IH; [by eapply look_step|]. rewrite stack_weight_cons in *. cbn in Hf. lia.
      * apply in_ids_false in E. assert (Hv : edge n v) by (apply (wi_stack _ _ _ Hi n (v :: rem)); by apply elem_of_cons; left).
        destruct Hv as (_ & Hv & _). destruct (neighbours_spec v Hv) as (ns & ds & Hns & Hds & Hlen & Hin). rewrite Hns. cbn [mbind result_bind].
        destruct (IH ((v, ns) :: (n, rem) :: below) (v :: visited) finish) as (visited' & finish' & Hr & Hi' & Hsub).
        { by eapply push_step. }
        { rewrite (weight_cons v ds visited dependants (wk_dependants_keys Hw) Hds E) in Hf. rewrite !stack_weight_cons in *. cbn [length] in Hf. lia. }
        exists visited', finish'. split; [exact Hr|]. split; [done|]. set_solver.
Qed.

Lemma visit_from_spec visited finish start : walk_inv [] visited finish -> start ∈ unresolved ->
  exists visited' finish', visit_from dependants unresolved (visited, finish) start = Ok (visited', finish') /\
    walk_inv [] visited' finish' /\ visited ⊆ visited' /\ start ∈ visited'.
Proof.
  intros Hi Hs. unfold visit_from. destruct (in_ids start visited) eqn:E.
  { apply in_ids_spec in E. by exists visited, finish. }
  apply in_ids_false in E. destruct (neighbours_spec start Hs) as (ns & ds & Hns & Hds & Hlen & Hin). rewrite Hns. cbn [mbind result_bind].
  destruct (visit_loop_spec (walk_fuel dependants) [(start, ns)] (start :: visited) finish) as (visited' & finish' & Hr & Hi' & Hsub).
  - destruct Hi as [Hv Hn Hu Hp Hst Hf Hl]. cbn in Hv. split.
    + cbn. by rewrite Hv.
    + by apply NoDup_cons.
    + set_solver.
    + done.
    + intros n rem Hnr v. apply list_elem_of_singleton in Hnr as [= -> ->]. specialize (Hin v). set_solver.
    + intros u v Hu' He. apply elem_of_cons. right. by eapply Hf.
    + intros l1 u l2 w El Hr. destruct (Hl l1 u l2 w El Hr) as [?|(g & Hg & [?|?%elem_of_nil])]; [by left| |done]. right. exists g. set_solver.
  - pose proof (weight_fuel visited dependants). rewrite (weight_cons start ds visited dependants (wk_dependants_keys Hw) Hds E) in *. cbn. lia.
  - exists visited', finish'. split; [exact Hr|]. split; [done|]. set_solver.
Qed.

Lemma visit_all_spec starts : forall visited finish, walk_inv [] visited finish -> starts ⊆ unresolved ->
  exists visited' finish', foldM (visit_from dependants unresolved) (visited, finish) starts = Ok (visited', finish') /\
    walk_inv [] visited' finish' /\ visited ⊆ visited' /\ starts ⊆ visited'.
Proof.
  induction starts as [|start starts IH]; intros visited finish Hi Hs; [exists visited, finish; split; [done|]; split; [done|]; set_solver|]. cbn [foldM].
  destruct (visit_from_spec visited finish start Hi) as (v1 & f1 & H1 & Hi1 & Hsub1 & Hin1); [set_solver|]. rewrite H1. cbn [mbind result_bind].
  destruct (IH v1 f1 Hi1) as (v2 & f2 & H2 & Hi2 & Hsub2 & Hin2); [set_solver|]. exists v2, f2. split; [exact H2|]. split; [done|]. set_solver.
Qed.

(** Every unresolved node finishes once; what the last of a component reaches has finished before it. *)
Definition good_order (finish : list string) : Prop :=
  finish ≡ₚ unresolved /\
  forall l1 u l2 w, finish = (l1 ++ u :: l2)%list -> reach u w -> w ∈ (l1 ++ [u])%list \/ exists g, same_component u g /\ g ∈ l2.

Lemma finish_order_spec : exists finish, finish_order_of dependants unresolved = Ok finish /\ good_order finish.
Proof.
  unfold finish_order_of. destruct (visit_all_spec (stable_sort string_leb unresolved) [] []) as (visited & finish & Hr & Hi & _ & Hsub).
  - split; try done; [constructor|set_solver|by intros ? ? ?%elem_of_nil|by intros ? ? ?%elem_of_nil|]. intros l1 u l2 w E. by destruct l1.
  - rewrite (stable_sort_perm string_leb). done.
  - rewrite Hr. cbn. exists finish. split; [done|]. destruct Hi as [Hv Hn Hu _ _ _ Hl]. cbn in Hv. split.
    + rewrite <- Hv. apply NoDup_Permutation; [done|apply Hw|]. intros x. split; [apply Hu|]. intros Hx. apply Hsub.
      by rewrite (stable_sort_perm string_leb).
    + intros l1 u l2 w E Hr'. destruct (Hl l1 u l2 w E Hr') as [?|(g & Hg & [?|?%elem_of_nil])]; [by left|right; by exists g|done].
Qed.

(** ** The second walk *)

Record back_inv (start : string) (before stack assigned component : list string) : Prop := {
  bi_assigned : assigned ≡ₚ (component ++ before)%list;
  bi_nodup : NoDup assigned;
  bi_unresolved : assigned ⊆ unresolved /\ stack ⊆ unresolved;
  bi_reach : forall x, x ∈ stack \/ x ∈ component -> reach x start;
  bi_closed : forall c p, c ∈ component -> edge p c -> p ∈ assigned \/ p ∈ stack;
  bi_start : start ∈ stack \/ start ∈ component
}.

Lemma back_skip start before n stack assigned component : back_inv start before (n :: stack) assigned component -> n ∈ assigned ->
  start ∉ before -> back_inv start before stack assigned component.
Proof.
  intros [Ha Hn Hu Hr Hc Hs] Hin Hst. split; try done.
  - set_solver.
  - intros x Hx. apply Hr. set_solver.
  - intros c p Hcc He. specialize (Hc c p Hcc He). set_solver.
  - destruct Hs as [Hs|Hs]; [|by right]. apply elem_of_cons in Hs as [<-|Hs]; [|by left]. right. rewrite Ha in Hin. set_solver.
Qed.

Lemma back_push start before n ps stack assigned component : back_inv start before (n :: stack) assigned component -> n ∉ assigned ->
  od_get n dependencies = Some ps ->
  back_inv start before (rev (List.filter (fun p => in_ids p unresolved && negb (in_ids p (n :: assigned))) ps) ++ stack)
    (n :: assigned) (n :: component).
Proof.
  intros [Ha Hn [Hu Hus] Hr Hc Hs] Hout Hps. set (pushed := List.filter _ ps).
  assert (Hnu : n ∈ unresolved) by set_solver.
  assert (Hpushed : forall p, p ∈ pushed <-> edge p n /\ p ∉ n :: assigned).
  { intros p. unfold pushed. rewrite elem_of_filter_bool, andb_true_iff, negb_true_iff, in_ids_spec, in_ids_false. split.
    - intros [[Hp Hpa] Hin]. split; [|done]. by apply (wk_dual Hw p n ps).
    - intros [He Hpa]. destruct He as (Hp & He). split; [done|]. apply (wk_dual Hw p n ps Hp Hnu Hps). by split. }
  assert (Hrev : forall p, p ∈ rev pushed <-> p ∈ pushed) by (intros p; rewrite !list_elem_of_In; symmetry; apply in_rev).
  assert (Hne : reach n start) by (apply Hr; left; by apply elem_of_cons; left).
  split.
  - cbn. by rewrite Ha.
  - by apply NoDup_cons.
  - split; [set_solver|]. intros p. rewrite elem_of_app, Hrev, Hpushed. intros [[(Hp & _) _]|Hp]; [done|set_solver].
  - intros x. rewrite elem_of_app, Hrev, Hpushed. intros [[[He _]|Hx]|[->|Hx]%elem_of_cons]; [|apply Hr; set_solver|done|apply Hr; by right].
    by eapply rtc_l.
  - intros c p Hcc He. rewrite elem_of_app, Hrev, Hpushed. apply elem_of_cons in Hcc as [->|Hcc].
    + destruct (decide (p ∈ n :: assigned)); [by left|]. right. by left.
    + destruct (Hc c p Hcc He); set_solver.
  - rewrite elem_of_app. destruct Hs as [Hs|Hs]; set_solver.
Qed.

Lemma component_loop_spec start before fuel : start ∉ before -> forall stack assigned component, back_inv start before stack assigned component ->
  (length stack + weight assigned dependencies <= fuel)%nat ->
  exists assigned' component', component_loop fuel dependencies unresolved stack assigned component = Ok (assigned', component') /\
    back_inv start before [] assigned' component'.
Proof.
  intros Hst. induction fuel as [|fuel IH]; intros stack assigned component Hi Hf; destruct stack as [|n stack].
  - by exists assigned, component.
  - cbn in Hf. lia.
  - by exists assigned, component.
  - cbn [component_loop]. destruct (in_ids n assigned) eqn:E.
    + apply in_ids_spec in E. apply IH; [by eapply back_skip|]. cbn in Hf. lia.
    + apply in_ids_false in E. assert (Hnu : n ∈ unresolved) by (destruct (bi_unresolved _ _ _ _ _ Hi); set_solver).
      destruct (wk_dependencies Hw n Hnu) as [ps Hps]. unfold lookup_key. rewrite Hps. cbn [mbind result_bind].
      apply IH; [by apply back_push|]. rewrite (weight_cons n ps assigned dependencies (wk_dependencies_keys Hw) Hps E) in Hf.
      rewrite length_app, List.length_rev. pose proof (filter_length_le (fun p => in_ids p unresolved && negb (in_ids p (n :: assigned))) ps).
      cbn [length] in Hf. lia.
Qed.

(** A set of nodes made of whole components. *)
Definition whole (assigned : list string) : Prop := forall u v, u ∈ assigned -> same_component u v -> v ∈ assigned.

(** Before the walk back from the last node that is not assigned, the nodes that reach it are its component. *)
Lemma reaching_is_component finish l1 start l2 before : good_order finish -> finish = (l1 ++ start :: l2)%list -> whole before -> start ∉ before ->
  l2 ⊆ before -> forall n a x b, (length b <= n)%nat -> finish = (a ++ x :: b)%list -> x ∉ before -> reach x start -> same_component start x.
Proof.
  intros [Hp Hg] E Hwh Hst Hl2. assert (Hnd : NoDup finish) by (rewrite Hp; apply Hw).
  induction n as [|n IH]; intros a x b Hb Ex Hx Hr; (destruct (decide (x = start)) as [->|Hne]; [apply same_component_refl|]);
    (destruct (Hg a x b start Ex Hr) as [Hin|(g & Hsg & Hgb)]).
  2: { destruct b; [by apply elem_of_nil in Hgb|cbn in Hb; lia]. }
  3: { apply list_elem_of_split in Hgb as (b1 & b2 & ->). apply same_component_trans with g; [|by apply same_component_sym].
       apply (IH (a ++ x :: b1)%list g b2).
       - rewrite length_app in Hb. cbn in Hb. lia.
       - by rewrite Ex, <- app_assoc.
       - intros Hgin. apply Hx. by eapply Hwh; [|apply same_component_sym].
       - destruct Hsg. by etrans. }
  all: exfalso; apply Hx, Hl2, (split_later start x l1 l2 a b); [by rewrite <- E|by rewrite <- E|];
    apply elem_of_app in Hin as [?|?%list_elem_of_singleton]; [done|congruence].
Qed.

Lemma component_walk finish l1 start l2 before component : good_order finish -> finish = (l1 ++ start :: l2)%list -> whole before ->
  start ∉ before -> l2 ⊆ before -> forall assigned, back_inv start before [] assigned component ->
  (forall x, x ∈ component <-> same_component start x) /\ whole assigned.
Proof.
  intros Hg E Hwh Hst Hl2 assigned [Ha Hn [Hu _] Hr Hc Hs].
  assert (Hs' : start ∈ component) by (destruct Hs as [?%elem_of_nil|]; done).
  assert (Hcls : forall x, x ∈ component <-> same_component start x).
  { intros x. split.
    - intros Hx. assert (Hxf : x ∈ finish) by (rewrite (proj1 Hg); apply Hu; rewrite Ha; set_solver).
      apply list_elem_of_split in Hxf as (a & b & Ex).
      apply (reaching_is_component finish l1 start l2 before Hg E Hwh Hst Hl2 (length b) a x b); [done|done| |by apply Hr; right].
      rewrite Ha in Hn. apply NoDup_app in Hn as (_ & Hn & _). by apply Hn.
    - intros [H1 H2]. revert H1. induction H2 as [|x y z Hxy Hyz IH]; intros H1; [done|].
      assert (Hy : y ∈ component) by (apply (IH E Hst Hr Hs Hs'); by eapply rtc_r).
      destruct (Hc y x Hy Hxy) as [Hx|?%elem_of_nil]; [|done]. rewrite Ha in Hx. apply elem_of_app in Hx as [?|Hx]; [done|].
      exfalso. apply Hst. eapply Hwh; [exact Hx|]. split; [by eapply rtc_l|done]. }
  split; [done|]. intros u v Hu' Huv. rewrite Ha in Hu' |- *. apply elem_of_app in Hu' as [Hin|Hin].
  - apply elem_of_app. left. apply Hcls. apply Hcls in Hin. by eapply same_component_trans.
  - apply elem_of_app. right. by eapply Hwh.
Qed.

(** The sorted list of a component. *)
Definition component_list (u : string) (c : list string) : Prop :=
  NoDup c /\ StronglySorted (fun x y => string_leb x y = true) c /\ forall v, v ∈ c <-> same_component u v.

Definition on_cycle (u : string) : Prop := u ∈ unresolved /\ exists v, v <> u /\ same_component u v.

Record components_inv (assigned : list string) (components : list (list string)) : Prop := {
  ci_nodup : NoDup assigned;
  ci_unresolved : assigned ⊆ unresolved;
  ci_whole : whole assigned;
  ci_distinct : NoDup components;
  ci_sound : forall c, c ∈ components -> exists u, u ∈ assigned /\ on_cycle u /\ component_list u c;
  ci_complete : forall u, u ∈ assigned -> on_cycle u -> exists c, c ∈ components /\ component_list u c
}.

Lemma sorted_component_list u component : NoDup component -> (forall v, v ∈ component <-> same_component u v) ->
  component_list u (stable_sort string_leb component).
Proof.
  intros Hn Hc. split; [by rewrite (stable_sort_perm string_leb)|]. split.
  - apply (stable_sort_sorted string_leb string_leb_total string_leb_trans).
  - intros v. by rewrite (stable_sort_perm string_leb).
Qed.

Lemma long_component u component : NoDup component -> u ∈ unresolved -> (forall v, v ∈ component <-> same_component u v) ->
  (1 < length component)%nat <-> on_cycle u.
Proof.
  intros Hn Hu Hc. assert (Hin : u ∈ component) by (apply Hc, same_component_refl). split.
  - intros Hl. split; [done|]. destruct component as [|x [|y rest]]; [by apply elem_of_nil in Hin|cbn in Hl; lia|].
    apply NoDup_cons in Hn as [Hxy _]. destruct (decide (x = u)) as [<-|Hne].
    + exists y. split; [set_solver|]. apply Hc. set_solver.
    + exists x. split; [done|]. apply Hc. set_solver.
  - intros (_ & v & Hne & Hv). apply Hc in Hv. destruct component as [|x [|y rest]]; [by apply elem_of_nil in Hin| |cbn; lia].
    apply list_elem_of_singleton in Hin, Hv. congruence.
Qed.

Lemma component_list_same u v c : same_component u v -> component_list u c -> component_list v c.
Proof.
  intros Huv (Hn & Hs & Hc). split; [done|]. split; [done|]. intros w. rewrite Hc. split; intros Hw';
    (eapply same_component_trans; [|exact Hw']); [by apply same_component_sym|done].
Qed.

Lemma component_list_unique u c d : component_list u c -> component_list u d -> c = d.
Proof.
  intros (Hn & Hs & Hc) (Hn' & Hs' & Hd). apply (StronglySorted_unique_strong (fun x y => string_leb x y = true)); [intros; by apply string_leb_antisym|done|done|].
  apply NoDup_Permutation; [done|done|]. intros x. by rewrite Hc, Hd.
Qed.

Lemma on_cycle_same u v : u ∈ unresolved -> same_component u v -> on_cycle v -> on_cycle u.
Proof.
  intros Hu Huv (_ & w & Hne & Hvw). split; [done|]. destruct (decide (w = u)) as [->|Hwu].
  - exists v. by split.
  - exists w. split; [done|]. by eapply same_component_trans.
Qed.

Lemma component_from_spec finish l1 start l2 assigned components : good_order finish -> finish = (l1 ++ start :: l2)%list ->
  l2 ⊆ assigned -> components_inv assigned components ->
  exists assigned' components', component_from dependencies unresolved (assigned, components) start = Ok (assigned', components') /\
    components_inv assigned' components' /\ assigned ⊆ assigned' /\ start ∈ assigned'.
Proof.
  intros Hg E Hl2 Hi. unfold component_from. destruct (in_ids start assigned) eqn:Es.
  { apply in_ids_spec in Es. by exists assigned, components. }
  apply in_ids_false in Es. destruct Hi as [Hn Hu Hwh Hd Hso Hco].
  assert (Hst : start ∈ unresolved) by (rewrite <- (proj1 Hg), E; set_solver).
  destruct (component_loop_spec start assigned (walk_fuel dependencies) Es [start] assigned []) as (assigned' & component & Hr & Hb).
  { split; [done|done|set_solver| |by intros ? ? ?%elem_of_nil|left; by apply list_elem_of_singleton].
    intros x [->%list_elem_of_singleton|?%elem_of_nil]; [apply rtc_refl|done]. }
  { cbn [length]. pose proof (weight_fuel assigned dependencies). lia. }
  rewrite Hr. cbn [mbind result_bind]. destruct (component_walk finish l1 start l2 assigned component Hg E Hwh Es Hl2 assigned' Hb) as [Hcls Hwh'].
  destruct Hb as [Ha Hn' [Hu' _] _ _ _].
  assert (Hnc : NoDup component) by (rewrite Ha in Hn'; by apply NoDup_app in Hn' as (? & _)).
  pose proof (sorted_component_list start component Hnc Hcls) as Hcl. pose proof (long_component start component Hnc Hst Hcls) as Hlong.
  exists assigned'. eexists. split; [done|]. split; [|rewrite Ha; split; [set_solver|apply elem_of_app; left; apply Hcls, same_component_refl]].
  assert (Hold : forall c, c ∈ components -> start ∉ c).
  { intros c Hc Hin. destruct (Hso c Hc) as (u & Hua & _ & _ & _ & Hcu). apply Es. by eapply Hwh; [|apply Hcu]. }
  assert (Hsub : assigned ⊆ assigned') by (rewrite Ha; set_solver).
  assert (Hnew : forall u, u ∈ assigned' -> u ∉ assigned -> same_component start u) by (intros u Hua Hun; apply Hcls; rewrite Ha in Hua; set_solver).
  assert (Hin' : start ∈ assigned') by (rewrite Ha; apply elem_of_app; left; apply Hcls, same_component_refl).
  destruct (Nat.ltb_spec 1 (length component)) as [Hl|Hl].
  - apply Hlong in Hl. split; [done|done|done| | |].
    + apply NoDup_app. split; [done|]. split; [|apply NoDup_singleton]. intros c Hc ->%list_elem_of_singleton.
      apply (Hold _ Hc). rewrite (stable_sort_perm string_leb). apply Hcls, same_component_refl.
    + intros c [Hc| ->%list_elem_of_singleton]%elem_of_app; [|by exists start].
      destruct (Hso c Hc) as (u & Hua & Hcu). exists u. split; [by apply Hsub|done].
    + intros u Hua Hcyc. destruct (decide (u ∈ assigned)) as [Hi|Hi].
      * destruct (Hco u Hi Hcyc) as (c & Hc & Hcu). exists c. split; [set_solver|done].
      * eexists. split; [apply elem_of_app; right; by apply list_elem_of_singleton|].
        eapply component_list_same; [|exact Hcl]. by apply Hnew.
  - split; [done|done|done|done| |].
    + intros c Hc. destruct (Hso c Hc) as (u & Hua & Hcu). exists u. split; [by apply Hsub|done].
    + intros u Hua Hcyc. destruct (decide (u ∈ assigned)) as [Hi|Hi]; [by apply Hco|].
      exfalso. assert (Hlt : on_cycle start) by (eapply on_cycle_same; [exact Hst|apply Hnew; done|exact Hcyc]). apply Hlong in Hlt. lia.
Qed.

Lemma components_spec finish : good_order finish -> forall l1 l2 assigned components, finish = (l1 ++ l2)%list -> l2 ⊆ assigned ->
  components_inv assigned components ->
  exists assigned' components', foldM (component_from dependencies unresolved) (assigned, components) (rev l1) = Ok (assigned', components') /\
    components_inv assigned' components' /\ finish ⊆ assigned'.
Proof.
  intros Hg. induction l1 as [|start l1 IH] using rev_ind; intros l2 assigned components E Hl2 Hi.
  - exists assigned, components. by rewrite E.
  - rewrite rev_app_distr. cbn [rev app foldM]. rewrite <- app_assoc in E. cbn in E.
    destruct (component_from_spec finish l1 start l2 assigned components Hg E Hl2 Hi) as (a1 & c1 & H1 & Hi1 & Hsub & Hin). rewrite H1.
    cbn [mbind result_bind]. apply (IH (start :: l2)); [done| |done]. set_solver.
Qed.

(** The components of more than one node, each sorted, in the order of their lists. *)
Lemma cyclic_components_spec : exists components, cyclic_components unresolved dependants dependencies = Ok components /\
  NoDup components /\ StronglySorted (fun x y => leb_of tuple_compare x y = true) components /\
  (forall c, c ∈ components <-> exists u, on_cycle u /\ component_list u c) /\
  forall u, on_cycle u -> exists c, component_list u c.
Proof.
  destruct finish_order_spec as (finish & Hf & Hg). unfold cyclic_components. rewrite Hf. cbn [mbind result_bind].
  destruct (components_spec finish Hg finish [] [] []) as (assigned & components & Hr & Hi & Hsub).
  - by rewrite app_nil_r.
  - set_solver.
  - split; try by (constructor || set_solver).
    intros u v ?%elem_of_nil. done.
  - rewrite Hr. cbn [mbind result_bind]. destruct Hi as [_ _ _ Hd Hso Hco]. eexists. split; [done|].
    split; [by rewrite (stable_sort_perm (leb_of tuple_compare))|]. split.
    + apply stable_sort_sorted; [apply (leb_of_total tuple_compare)|apply (leb_of_trans tuple_compare)].
    + assert (Hall : forall u, on_cycle u -> u ∈ assigned) by (intros u Hu; apply Hsub; rewrite (proj1 Hg); apply Hu).
      split; [|intros u Hu; destruct (Hco u (Hall u Hu) Hu) as (c & _ & Hc); by exists c].
      intros c. rewrite (stable_sort_perm (leb_of tuple_compare)). split.
      * intros Hc. destruct (Hso c Hc) as (u & _ & Hcu). by exists u.
      * intros (u & Hu & Hcu). destruct (Hco u) as (c' & Hc' & Hcu'); [|done|by rewrite (component_list_unique u c c')].
        by apply Hall.
Qed.
End Walk.
