(* ===== verification/EventGraphFacts.v ===== *)
(** * The canonical order of an event graph

    What the two declaration loops of [EventGraph.resolve_directed_event_graph] build, and what the loop
    that orders the ready nodes computes from it: the least topological order of the graph, as far as its
    nodes do not wait for a cycle. *)

From Stdlib Require Import ZArith Lia String Sorted.
From stdpp Require Import base tactics list strings sets relations sorting.
From S2P Require Import Prelude EventGraph EventGraphWalk.

#[local] Open Scope string_scope.
#[local] Open Scope Z_scope.

(** ** Tables: dictionaries with a known list of keys *)

Definition table {V} (f : string -> V) (ids : list string) : list (string * V) := map (fun k => (k, f k)) ids.

Lemma table_keys {V} (f : string -> V) ids : (table f ids).*1 = ids.
Proof. induction ids as [|k ids IH]; cbn; [done|]. f_equal. apply IH. Qed.

Lemma table_ext {V} (f g : string -> V) ids : (forall k, k ∈ ids -> f k = g k) -> table f ids = table g ids.
Proof. intros H. apply map_ext_in. intros k Hk%list_elem_of_In. by rewrite H. Qed.

Lemma table_get {V} (f : string -> V) ids k : k ∈ ids -> od_get k (table f ids) = Some (f k).
Proof.
  induction ids as [|j ids IH]; cbn [table map od_get]; [by intros ?%elem_of_nil|].
  intros [->|Hk]%elem_of_cons; [by rewrite decide_True|]. case_decide as E; [by rewrite E|by apply IH].
Qed.

Lemma table_set {V} (f : string -> V) ids k v : NoDup ids -> k ∈ ids ->
  od_set k v (table f ids) = table (fun j => if decide (j = k) then v else f j) ids.
Proof.
  induction ids as [|j ids IH]; [by intros _ ?%elem_of_nil|]. cbn [table map od_set]. intros [Hj Hd]%NoDup_cons Hk.
  destruct (decide (k = j)) as [->|Hne].
  - rewrite decide_True by done. f_equal. apply table_ext. intros i Hi. rewrite decide_False; [done|]. set_solver.
  - rewrite decide_False by done. f_equal. apply IH; [done|]. set_solver.
Qed.

Lemma NoDup_map_filter {A B} (f : A -> B) (p : A -> bool) l : NoDup (map f l) -> NoDup (map f (List.filter p l)).
Proof.
  induction l as [|x l IH]; cbn; [done|]. intros [Hx Hl]%NoDup_cons. destruct (p x); [|by apply IH]. cbn. apply NoDup_cons. split; [|by apply IH].
  intros (y & E & Hy)%list_elem_of_In%in_map_iff. apply Hx. rewrite <- E. apply list_elem_of_In, in_map. by apply filter_In in Hy as [? _].
Qed.

(** ** The first loop *)

Definition by_id (nodes : list DirectedEventNode) : list (string * DirectedEventNode) := map (fun n => (node_id n, n)) nodes.

Lemma by_id_keys nodes : (by_id nodes).*1 = map node_id nodes.
Proof. unfold by_id. induction nodes; cbn; [done|]. by f_equal. Qed.

Lemma by_id_get nodes n : NoDup (map node_id nodes) -> n ∈ nodes -> od_get (node_id n) (by_id nodes) = Some n.
Proof.
  intros Hn Hin. apply od_get_of_elem; [by rewrite by_id_keys|]. apply list_elem_of_In, in_map_iff. exists n.
  split; [done|]. by apply list_elem_of_In.
Qed.

(** The loop reports a finding for every node whose identity was declared before. *)
Lemma declare_node_spec nodes : forall seen findings,
  exists nodes' extra, fold_left declare_node nodes (by_id seen, findings) = (nodes', (findings ++ extra)%list) /\
    (extra = [] <-> NoDup (map node_id nodes) /\ forall n, n ∈ nodes -> node_id n ∉ map node_id seen) /\
    (extra = [] -> nodes' = by_id (seen ++ nodes)).
Proof.
  induction nodes as [|n nodes IH]; intros seen findings; cbn [fold_left].
  { exists (by_id seen), []. rewrite !app_nil_r. split; [done|]. split; [|done]. split; [|done]. intros _. split; [constructor|].
    by intros n ?%elem_of_nil. }
  unfold declare_node at 2. destruct (od_get (node_id n) (by_id seen)) as [existing|] eqn:E.
  - destruct (IH seen (findings ++ [{| gf_reason := if String.eqb (definition_fingerprint existing) (definition_fingerprint n)
      then DUPLICATE_NODE_ID else CONFLICTING_NODE_DEFINITION; gf_node_ids := [node_id n]; gf_dependency_node_ids := [] |}])%list)
      as (nodes' & extra & Hr & _ & _).
    rewrite <- app_assoc in Hr. exists nodes'. eexists. split; [exact Hr|]. split; [|done]. split; [done|]. intros [_ H]. exfalso.
    apply (H n); [by apply elem_of_cons; left|]. rewrite <- by_id_keys. apply od_get_elem in E. apply list_elem_of_fmap. by exists (node_id n, existing).
  - apply od_get_None in E. rewrite by_id_keys in E. rewrite od_set_fresh by (by rewrite by_id_keys).
    replace (by_id seen ++ [(node_id n, n)])%list with (by_id (seen ++ [n])) by (unfold by_id; by rewrite map_app).
    destruct (IH (seen ++ [n])%list findings) as (nodes' & extra & Hr & Hx & Hn). exists nodes', extra. split; [exact Hr|].
    split; [|rewrite <- app_assoc in Hn; exact Hn]. rewrite Hx, map_app. cbn [map]. rewrite NoDup_cons. split.
    + intros [Hd Hf]. split; [split; [|done]|].
      * intros (m & Hm & Hin)%list_elem_of_In%in_map_iff. apply (Hf m); [by apply list_elem_of_In|]. set_solver.
      * intros m [->|Hm]%elem_of_cons; [done|]. specialize (Hf m Hm). set_solver.
    + intros [[Hni Hd] Hf]. split; [done|]. intros m Hm. apply not_elem_of_app. split; [apply Hf; set_solver|].
      intros E2%list_elem_of_singleton. apply Hni. rewrite <- E2. apply list_elem_of_In, in_map, list_elem_of_In, Hm.
Qed.

(** ** The second loop *)

(** A declaration that is well formed, and the relation its nodes declare: from a node to what depends on it. *)
Record well_formed (nodes : list DirectedEventNode) : Prop := {
  wf_some : nodes <> [];
  wf_ids : NoDup (map node_id nodes);
  wf_edges : forall n, n ∈ nodes -> NoDup (dependency_node_ids n);
  wf_self : forall n, n ∈ nodes -> node_id n ∉ dependency_node_ids n;
  wf_present : forall n, n ∈ nodes -> dependency_node_ids n ⊆ map node_id nodes
}.

Definition depends (nodes : list DirectedEventNode) (u v : string) : Prop :=
  exists n, n ∈ nodes /\ node_id n = v /\ u ∈ dependency_node_ids n.

Lemma add_edges_spec ids id ps : NoDup ids -> id ∈ ids -> NoDup ps -> ps ⊆ ids -> forall f h dependencies count findings,
  foldM (add_edge id)
    {| eg_dependants := table f ids; eg_dependencies := dependencies; eg_indegree := table h ids; eg_edge_count := count; eg_findings := findings |} ps =
  Ok {| eg_dependants := table (fun d => (f d ++ if in_ids d ps then [id] else [])%list) ids; eg_dependencies := dependencies;
        eg_indegree := table (fun k => if decide (k = id) then h k + Z.of_nat (length ps) else h k) ids;
        eg_edge_count := count + Z.of_nat (length ps); eg_findings := findings |}.
Proof.
  intros Hi Hid. induction ps as [|p ps IH]; intros Hp Hsub f h dependencies count findings; cbn [foldM].
  { rewrite Z.add_0_r. f_equal. f_equal; apply table_ext; intros k _; [by rewrite app_nil_r|]. cbn. case_decide; [by rewrite Z.add_0_r|done]. }
  apply NoDup_cons in Hp as [Hnp Hp]. assert (Hpin : p ∈ ids) by set_solver.
  unfold add_edge at 2. cbn [eg_dependants eg_indegree eg_dependencies eg_edge_count eg_findings]. unfold lookup_key.
  rewrite (table_get f ids p Hpin), (table_get h ids id Hid). cbn [mbind result_bind].
  rewrite (table_set f), (table_set h) by done. rewrite IH by set_solver. f_equal. f_equal; [| |cbn [length]; lia].
  - apply table_ext. intros k Hk. unfold in_ids. destruct (decide (k = p)) as [->|Hne].
    + rewrite (bool_decide_eq_false_2 _ Hnp), bool_decide_eq_true_2 by set_solver. by rewrite app_nil_r.
    + f_equal. assert (E : bool_decide (k ∈ ps) = bool_decide (k ∈ p :: ps)) by (apply bool_decide_ext; set_solver). by rewrite E.
  - apply table_ext. intros k Hk. case_decide; [subst|done]. cbn [length]. lia.
Qed.

Section Declared.
Context (nodes : list DirectedEventNode) (Hids : NoDup (map node_id nodes)).
Let ids := map node_id nodes.

Definition waits_for (k : string) : list string :=
  match od_get k (by_id nodes) with Some n => present_dependencies ids n | None => [] end.
Definition waited_by (among : list DirectedEventNode) (d : string) : list string :=
  map node_id (List.filter (fun n => in_ids d (present_dependencies ids n)) among).

Lemma waits_for_node n : n ∈ nodes -> waits_for (node_id n) = present_dependencies ids n.
Proof. intros Hn. unfold waits_for. by rewrite by_id_get. Qed.

Lemma node_of_id k : k ∈ ids -> exists n, n ∈ nodes /\ node_id n = k.
Proof. intros (n & <- & Hn)%list_elem_of_In%in_map_iff. exists n. split; [by apply list_elem_of_In|done]. Qed.

Lemma id_of_node n : n ∈ nodes -> node_id n ∈ ids.
Proof. intros Hn. by apply list_elem_of_In, in_map, list_elem_of_In. Qed.

Lemma node_unique n m : n ∈ nodes -> m ∈ nodes -> node_id n = node_id m -> n = m.
Proof. intros Hn Hm E. pose proof (by_id_get nodes n Hids Hn) as H1. rewrite E, (by_id_get nodes m Hids Hm) in H1. congruence. Qed.

Lemma elem_of_present d n : d ∈ present_dependencies ids n <-> d ∈ ids /\ d <> node_id n /\ d ∈ dependency_node_ids n.
Proof.
  unfold present_dependencies. rewrite elem_of_sorted_set, elem_of_filter_bool, andb_true_iff, in_ids_spec, negb_true_iff, String.eqb_neq. tauto.
Qed.

Definition edges_after (done : list DirectedEventNode) : Edges :=
  {| eg_dependants := table (waited_by done) ids; eg_dependencies := map (fun n => (node_id n, present_dependencies ids n)) done;
     eg_indegree := table (fun k => if in_ids k (map node_id done) then Z.of_nat (length (waits_for k)) else 0) ids;
     eg_edge_count := foldr (fun n count => Z.of_nat (length (present_dependencies ids n)) + count) 0 done;
     eg_findings := concat (map (node_findings ids) done) |}.

Lemma edge_count_app xs ys :
  foldr (fun n count => Z.of_nat (length (present_dependencies ids n)) + count) 0 (xs ++ ys) =
  foldr (fun n count => Z.of_nat (length (present_dependencies ids n)) + count) 0 xs +
  foldr (fun n count => Z.of_nat (length (present_dependencies ids n)) + count) 0 ys.
Proof. induction xs as [|x xs IH]; cbn; [done|]. rewrite IH. lia. Qed.

Lemma declare_edges_spec done n todo : nodes = (done ++ n :: todo)%list -> declare_edges ids (edges_after done) n = Ok (edges_after (done ++ [n])).
Proof.
  intros E. assert (Hn : n ∈ nodes) by (rewrite E; set_solver).
  assert (Hfresh : node_id n ∉ map node_id done).
  { pose proof Hids as H. rewrite E, map_app in H. apply NoDup_app in H as (_ & H & _). intros Hin. apply (H _ Hin). cbn. set_solver. }
  unfold declare_edges, edges_after. cbn [eg_dependants eg_indegree eg_dependencies eg_edge_count eg_findings].
  rewrite add_edges_spec; [| done | by apply id_of_node | apply NoDup_sorted_set | intros d; rewrite elem_of_present; tauto].
  f_equal. f_equal.
  - apply table_ext. intros d Hd. unfold waited_by. rewrite List.filter_app, map_app. f_equal. cbn. by destruct (in_ids d _).
  - rewrite od_set_fresh, map_app; [done|]. intros H. apply Hfresh. rewrite <- list_fmap_compose in H. exact H.
  - apply table_ext. intros k Hk. rewrite map_app. destruct (decide (k = node_id n)) as [->|Hne].
    + rewrite (proj2 (in_ids_false _ _) Hfresh), (proj2 (in_ids_spec _ _)) by (cbn; set_solver). by rewrite waits_for_node.
    + assert (Ek : in_ids k (map node_id done ++ map node_id [n]) = in_ids k (map node_id done)); [|by rewrite Ek].
      unfold in_ids. apply bool_decide_ext. cbn. set_solver.
  - rewrite edge_count_app. cbn. lia.
  - rewrite map_app, concat_app. cbn. by rewrite app_nil_r.
Qed.

Lemma declare_all_edges todo : forall done, nodes = (done ++ todo)%list -> foldM (declare_edges ids) (edges_after done) todo = Ok (edges_after nodes).
Proof.
  induction todo as [|n todo IH]; intros done E; cbn [foldM]; [by rewrite E, app_nil_r|].
  rewrite (declare_edges_spec done n todo E). cbn [mbind result_bind]. apply IH. by rewrite <- app_assoc.
Qed.

Lemma present_NoDup k : NoDup (waits_for k).
Proof. unfold waits_for. destruct (od_get k _); [apply NoDup_sorted_set|constructor]. Qed.

Lemma elem_of_waited_by d k : k ∈ ids -> k ∈ waited_by nodes d <-> d ∈ waits_for k.
Proof.
  intros (n & Hn & <-)%node_of_id. rewrite waits_for_node by done. unfold waited_by. rewrite list_elem_of_In, in_map_iff. split.
  - intros (m & E & Hm). apply list_elem_of_In, elem_of_filter_bool in Hm as [Hd Hm]. apply in_ids_spec in Hd.
    by rewrite <- (node_unique m n Hm Hn E).
  - intros Hd. exists n. split; [done|]. apply list_elem_of_In, elem_of_filter_bool. split; [by apply in_ids_spec|done].
Qed.

Lemma waited_by_ids d : waited_by nodes d ⊆ ids.
Proof.
  intros k (n & <- & Hn)%list_elem_of_In%in_map_iff. apply list_elem_of_In, elem_of_filter_bool in Hn as [_ Hn]. by apply id_of_node.
Qed.

Lemma waited_by_NoDup d : NoDup (waited_by nodes d).
Proof. by apply NoDup_map_filter. Qed.

(** ** The queue of ready nodes *)

Definition entry (n : DirectedEventNode) : ready_entry := (order_key n, node_id n).

#[local] Instance ready_comparer : Comparer ready_compare.
Proof. apply (lex_comparer (fun x y : ready_entry => tuple_compare x.1 y.1) (fun x y => String.compare x.2 y.2)); apply _. Qed.

Lemma ready_compare_eq x y : ready_compare x y = Eq -> x = y.
Proof.
  destruct x as [k i], y as [l j]. unfold ready_compare. cbn. destruct (tuple_compare k l) eqn:E; cbn; [|done|done].
  apply tuple_compare_eq in E as ->. by intros ->%String.compare_eq_iff.
Qed.

Definition before (x y : ready_entry) : Prop := leb_of ready_compare x y = true.

Lemma before_antisym x y : before x y -> before y x -> x = y.
Proof. intros H1 H2. apply ready_compare_eq. by apply (leb_of_antisym ready_compare). Qed.

Record ready_set (P : DirectedEventNode -> Prop) (ready : list ready_entry) : Prop := {
  rs_sorted : StronglySorted before ready;
  rs_nodup : NoDup ready;
  rs_elem : forall e, e ∈ ready <-> exists n, n ∈ nodes /\ P n /\ e = entry n
}.

Lemma ready_set_ext P Q ready : (forall n, n ∈ nodes -> P n <-> Q n) -> ready_set P ready -> ready_set Q ready.
Proof. intros H [Hs Hn He]. split; [done|done|]. intros e. rewrite He. naive_solver. Qed.

Lemma ready_set_push P ready n : ready_set P ready -> n ∈ nodes -> ~ P n -> ready_set (fun m => P m \/ m = n) (heappush (entry n) ready).
Proof.
  intros [Hs Hd He] Hn Hp. unfold heappush. split.
  - apply insert_sorted_sorted; [apply (leb_of_total ready_compare)|apply (leb_of_trans ready_compare)|done].
  - rewrite insert_sorted_perm. apply NoDup_cons. split; [|done]. intros (m & Hm & Hpm & [= _ E])%He.
    apply Hp. by rewrite (node_unique n m).
  - intros e. rewrite insert_sorted_perm, elem_of_cons, He. naive_solver.
Qed.

Lemma push_if_ready_spec P ready n (degree : Z) : ready_set P ready -> n ∈ nodes -> ~ P n ->
  exists ready', push_if_ready (by_id nodes) ready (node_id n) degree = Ok ready' /\ ready_set (fun m => P m \/ (m = n /\ degree = 0)) ready'.
Proof.
  intros Hr Hn Hp. unfold push_if_ready, lookup_key. destruct (Z.eqb_spec degree 0) as [->|Hne].
  - rewrite by_id_get by done. cbn. eexists. split; [done|]. eapply ready_set_ext; [|by apply ready_set_push]. naive_solver.
  - eexists. split; [done|]. eapply ready_set_ext; [|done]. naive_solver.
Qed.

Lemma initial_ready_spec h todo : forall ready P, NoDup todo -> todo ⊆ ids -> ready_set P ready -> (forall n, node_id n ∈ todo -> ~ P n) ->
  exists ready', foldM (fun ready '(id, degree) => push_if_ready (by_id nodes) ready id degree) ready (table h todo) = Ok ready' /\
    ready_set (fun n => P n \/ (node_id n ∈ todo /\ h (node_id n) = 0)) ready'.
Proof.
  induction todo as [|k todo IH]; intros ready P Hd Hsub Hr Hf; cbn [table map foldM].
  { exists ready. split; [done|]. eapply ready_set_ext; [|done]. set_solver. }
  apply NoDup_cons in Hd as [Hk Hd]. destruct (node_of_id k) as (n & Hn & <-); [set_solver|].
  destruct (push_if_ready_spec P ready n (h (node_id n)) Hr Hn) as (r1 & -> & H1); [apply Hf; set_solver|]. cbn [mbind result_bind].
  edestruct (IH r1) as (r2 & E2 & H2); [done|set_solver|exact H1| |].
  - intros m Hm [Hpm|[-> _]]; [|done]. apply (Hf m); [set_solver|done].
  - exists r2. split; [exact E2|]. eapply ready_set_ext; [|exact H2]. intros m Hm. cbn. rewrite elem_of_cons. split.
    + naive_solver.
    + intros [?|[[Em|?] ?]]; [by left; left| |by right]. left. right. rewrite (node_unique m n Hm Hn Em) in *. done.
Qed.

(** Every node released by the last one ordered waits for one node less. *)
Lemma release_spec todo : forall h ready P, NoDup todo -> todo ⊆ ids -> ready_set P ready -> (forall n, node_id n ∈ todo -> ~ P n) ->
  exists ready', foldM (release (by_id nodes)) (table h ids, ready) todo = Ok (table (fun k => if in_ids k todo then h k - 1 else h k) ids, ready') /\
    ready_set (fun n => P n \/ (node_id n ∈ todo /\ h (node_id n) = 1)) ready'.
Proof.
  induction todo as [|k todo IH]; intros h ready P Hd Hsub Hr Hf; cbn [foldM].
  { exists ready. split; [done|]. eapply ready_set_ext; [|done]. set_solver. }
  apply NoDup_cons in Hd as [Hk Hd]. destruct (node_of_id k) as (n & Hn & <-); [set_solver|].
  unfold release at 2. unfold lookup_key. rewrite table_get by set_solver. cbn [mbind result_bind].
  destruct (push_if_ready_spec P ready n (h (node_id n) - 1) Hr Hn) as (r1 & -> & H1); [apply Hf; set_solver|]. cbn [mbind result_bind].
  rewrite table_set by set_solver.
  edestruct (IH (fun j => if decide (j = node_id n) then h (node_id n) - 1 else h j) r1) as (r2 & E2 & H2); [done|set_solver|exact H1| |].
  - intros m Hm [Hpm|[-> _]]; [|done]. apply (Hf m); [set_solver|done].
  - exists r2. split.
    + rewrite E2. f_equal. f_equal. apply table_ext. intros j Hj. unfold in_ids. destruct (decide (j = node_id n)) as [->|Hne].
      * by rewrite (bool_decide_eq_false_2 _ Hk), bool_decide_eq_true_2 by set_solver.
      * assert (E : bool_decide (j ∈ todo) = bool_decide (j ∈ node_id n :: todo)) by (apply bool_decide_ext; set_solver). by rewrite E.
    + eapply ready_set_ext; [|exact H2]. intros m Hm. cbn. rewrite elem_of_cons. split.
      * intros [[?|[-> ?]]|[Hin E]]; [by left|right; split; [by left|lia]|]. rewrite decide_False in E by (intros E'; rewrite E' in Hin; done). naive_solver.
      * intros [?|[[Em|?] ?]]; [by left; left|left; right; rewrite (node_unique m n Hm Hn Em) in *; split; [done|lia]|].
        right. split; [done|]. rewrite decide_False; [done|]. intros E'. by rewrite E' in *.
Qed.

(** ** The order *)

Definition pending (done : list string) (k : string) : nat := length (List.filter (fun d => negb (in_ids d done)) (waits_for k)).

Lemma pending_zero done k : pending done k = 0%nat <-> waits_for k ⊆ done.
Proof.
  unfold pending. rewrite length_zero_iff_nil. split.
  - intros E d Hd. destruct (in_ids d done) eqn:Ed; [by apply in_ids_spec|]. exfalso. apply (not_elem_of_nil d).
    rewrite <- E. apply elem_of_filter_bool. by rewrite Ed.
  - intros Hsub. destruct (List.filter _ _) as [|d l] eqn:E; [done|]. assert (Hd : d ∈ d :: l) by set_solver. rewrite <- E in Hd.
    apply elem_of_filter_bool in Hd as [Hn Hd]. apply negb_true_iff, in_ids_false in Hn. set_solver.
Qed.

Lemma pending_cons done x k : x ∉ done -> pending done k = (pending (done ++ [x]) k + if in_ids x (waits_for k) then 1 else 0)%nat.
Proof.
  intros Hx. unfold pending. assert (Hd : NoDup (waits_for k)) by apply present_NoDup. revert Hd.
  induction (waits_for k) as [|d l IH]; [done|]. intros [Hdl Hl]%NoDup_cons. specialize (IH Hl). cbn [List.filter].
  destruct (decide (d = x)) as [->|Hne].
  - rewrite (proj2 (in_ids_false x done) Hx), (proj2 (in_ids_spec x (done ++ [x]))), (proj2 (in_ids_spec x (x :: l))) by set_solver.
    rewrite (proj2 (in_ids_false x l) Hdl) in IH. cbn. lia.
  - assert (E1 : in_ids d (done ++ [x]) = in_ids d done) by (apply bool_decide_ext; set_solver).
    assert (E2 : in_ids x (d :: l) = in_ids x l) by (apply bool_decide_ext; set_solver). rewrite E1, E2.
    destruct (in_ids d done); cbn; lia.
Qed.

(** A node may follow the nodes of a list when it waits for none but them. *)
Definition may_follow (done : list DirectedEventNode) (n : DirectedEventNode) : Prop :=
  n ∈ nodes /\ n ∉ done /\ waits_for (node_id n) ⊆ map node_id done.

(** Every node comes after what it waits for, and is the first, by its sort key and then its identity, of
    the nodes that may come at its place. *)
Definition canonical (order : list DirectedEventNode) : Prop :=
  forall l1 n l2, order = (l1 ++ n :: l2)%list -> may_follow l1 n /\ forall m, may_follow l1 m -> before (entry n) (entry m).

Record order_inv (indegree : list (string * Z)) (ready : list ready_entry) (ordered : list DirectedEventNode) : Prop := {
  oi_degree : indegree = table (fun k => Z.of_nat (pending (map node_id ordered) k)) ids;
  oi_ready : ready_set (may_follow ordered) ready;
  oi_canonical : canonical ordered
}.

Lemma canonical_sub order : canonical order -> forall n, n ∈ order -> n ∈ nodes.
Proof. intros Hc n (l1 & l2 & E)%list_elem_of_split. by destruct (Hc l1 n l2 E) as [[? _] _]. Qed.

Lemma canonical_NoDup order : canonical order -> NoDup order.
Proof.
  induction order as [|n l IH] using rev_ind; intros Hc; [constructor|]. apply NoDup_app. split.
  - apply IH. intros l1 m l2 E. apply (Hc l1 m (l2 ++ [n])%list). by rewrite E, <- app_assoc.
  - split; [|apply NoDup_singleton]. destruct (Hc l n [] eq_refl) as [(_ & Hn & _) _]. intros m Hm ->%list_elem_of_singleton. done.
Qed.

Lemma canonical_ids_NoDup order : canonical order -> NoDup (map node_id order).
Proof.
  intros Hc. pose proof (canonical_sub order Hc) as Hs. pose proof (canonical_NoDup order Hc) as Hn. clear Hc.
  induction order as [|n l IH]; [constructor|]. cbn. apply NoDup_cons in Hn as [Hn Hl]. apply NoDup_cons. split; [|apply IH; [set_solver|done]].
  intros (m & E & Hm%list_elem_of_In)%list_elem_of_In%in_map_iff. apply Hn. rewrite (node_unique n m); [done|set_solver|set_solver|done].
Qed.

Lemma canonical_waits order n : canonical order -> n ∈ order -> waits_for (node_id n) ⊆ map node_id order.
Proof.
  intros Hc (l1 & l2 & E)%list_elem_of_split. destruct (Hc l1 n l2 E) as [(_ & _ & Hsub) _]. rewrite E, map_app. set_solver.
Qed.

Lemma canonical_length order : canonical order -> (length order <= length nodes)%nat.
Proof. intros Hc. apply submseteq_length, NoDup_submseteq; [by apply canonical_NoDup|by apply canonical_sub]. Qed.

Lemma canonical_snoc order n : canonical order -> may_follow order n -> (forall m, may_follow order m -> before (entry n) (entry m)) ->
  canonical (order ++ [n]).
Proof.
  intros Hc Hn Hm l1 x l2 E. destruct l2 as [|y l2 _] using rev_ind.
  - apply app_inj_tail in E as [<- <-]. done.
  - rewrite app_comm_cons, app_assoc in E. apply app_inj_tail in E as [-> _]. by apply (Hc l1 x l2).
Qed.

(** Once [n] is ordered, a node may follow when it could before, or when [n] was the last it waited for. *)
Lemma may_follow_snoc ordered n m : canonical ordered -> may_follow ordered n -> node_id n ∉ map node_id ordered -> m ∈ nodes ->
  (may_follow ordered m /\ m <> n) \/ (node_id m ∈ waited_by nodes (node_id n) /\ Z.of_nat (pending (map node_id ordered) (node_id m)) = 1) <->
  may_follow (ordered ++ [n]) m.
Proof.
  intros Hc Hf Hnid Hm. pose proof (pending_cons (map node_id ordered) (node_id n) (node_id m) Hnid) as Hp.
  pose proof (pending_zero (map node_id ordered ++ [node_id n]) (node_id m)) as Hz. unfold may_follow. rewrite map_app. cbn [map].
  pose proof (pending_zero (map node_id ordered) (node_id m)) as Hz0.
  pose proof (elem_of_waited_by (node_id n) (node_id m) (id_of_node m Hm)) as Hdual.
  destruct (in_ids (node_id n) (waits_for (node_id m))) eqn:E.
  - apply in_ids_spec in E. rewrite Nat.add_1_r in Hp. split.
    + intros [[(_ & _ & Hsub) _]|[_ Hone]]; [by apply Hz0 in Hsub; lia|]. split; [done|]. split; [|apply Hz; lia].
      apply not_elem_of_app. split.
      * intros Hmo. pose proof (canonical_waits ordered m Hc Hmo) as Hsub. by apply Hnid, Hsub.
      * intros ->%list_elem_of_singleton. by destruct Hf as (_ & _ & Hsub); apply Hnid, Hsub.
    + intros (_ & _ & Hsub). right. split; [by apply Hdual|]. apply Hz in Hsub. lia.
  - apply in_ids_false in E. rewrite Nat.add_0_r in Hp. split.
    + intros [[(_ & Hmo & Hsub) Hne]|[Hin _]]; [|by apply Hdual in Hin]. split; [done|]. split; [set_solver|]. apply Hz. rewrite <- Hp. by apply Hz0.
    + intros (_ & Hmo & Hsub). left. split; [|set_solver]. split; [done|]. split; [set_solver|]. apply Hz0. rewrite Hp. by apply Hz.
Qed.

Lemma ready_set_pop P n ready : ready_set P (entry n :: ready) -> n ∈ nodes ->
  ready_set (fun m => P m /\ m <> n) ready /\ forall m, m ∈ nodes -> P m -> before (entry n) (entry m).
Proof.
  intros [Hs Hd He] Hn. apply NoDup_cons in Hd as [Hout Hd]. apply StronglySorted_inv in Hs as [Hs Hleast]. split; [split; [done|done|]|].
  - intros e. split.
    + intros Hin. destruct (proj1 (He e)) as (m & Hm & Hfm & ->); [set_solver|]. exists m. split; [done|]. split; [|done]. split; [done|].
      intros ->. done.
    + intros (m & Hm & [Hfm Hne] & ->). assert (Hin : entry m ∈ entry n :: ready) by (apply He; by exists m).
      apply elem_of_cons in Hin as [[= _ E]|?]; [|done]. by destruct Hne; apply node_unique.
  - intros m Hm Hfm. assert (Hin : entry m ∈ entry n :: ready) by (apply He; by exists m).
    apply elem_of_cons in Hin as [->|Hin]; [by destruct (leb_of_total ready_compare (entry n) (entry n))|].
    rewrite Forall_forall in Hleast. by apply Hleast.
Qed.

Lemma may_follow_fresh ordered n : canonical ordered -> may_follow ordered n -> node_id n ∉ map node_id ordered.
Proof.
  intros Hc (Hn & Hf & _) (m & E & Hm%list_elem_of_In)%list_elem_of_In%in_map_iff. apply Hf.
  rewrite (node_unique n m); [done|done|by apply (canonical_sub ordered)|done].
Qed.

Lemma order_step indegree n ready ordered : order_inv indegree (entry n :: ready) ordered -> may_follow ordered n ->
  exists indegree' ready', foldM (release (by_id nodes)) (indegree, ready) (waited_by nodes (node_id n)) = Ok (indegree', ready') /\
    order_inv indegree' ready' (ordered ++ [n]).
Proof.
  intros [-> Hr Hc] Hf. destruct (ready_set_pop _ n ready Hr (proj1 Hf)) as [Hr1 Hleast]. pose proof (may_follow_fresh ordered n Hc Hf) as Hnid.
  destruct (release_spec (waited_by nodes (node_id n)) (fun k => Z.of_nat (pending (map node_id ordered) k)) ready _
    (waited_by_NoDup _) (waited_by_ids _) Hr1) as (ready' & Er & Hr').
  { intros m Hm [(_ & _ & Hsub) _]. apply Hnid, Hsub. apply elem_of_waited_by; [by apply (waited_by_ids (node_id n))|done]. }
  eexists _, ready'. split; [exact Er|]. split.
  - rewrite map_app. apply table_ext. intros k Hk. cbn [map].
    pose proof (pending_cons (map node_id ordered) (node_id n) k Hnid) as Hp.
    assert (E : in_ids k (waited_by nodes (node_id n)) = in_ids (node_id n) (waits_for k)) by (apply bool_decide_ext, elem_of_waited_by, Hk).
    rewrite E. destruct (in_ids (node_id n) (waits_for k)); lia.
  - eapply ready_set_ext; [|exact Hr']. intros m Hm. by apply may_follow_snoc.
  - apply canonical_snoc; [done|done|]. intros m Hfm. apply Hleast; [apply Hfm|done].
Qed.

Lemma order_loop_spec fuel : forall indegree ready ordered, order_inv indegree ready ordered -> (length nodes <= fuel + length ordered)%nat ->
  exists indegree' ordered', order_loop fuel (by_id nodes) (table (waited_by nodes) ids) indegree ready ordered = Ok (indegree', ordered') /\
    order_inv indegree' [] ordered'.
Proof.
  induction fuel as [|fuel IH]; intros indegree [|[key id] ready] ordered Hi Hf; try (by exists indegree, ordered);
    (destruct (proj1 (rs_elem _ _ (oi_ready _ _ _ Hi) (key, id))) as (n & Hn & Hfn & [= -> ->]); [set_solver|]);
    fold (entry n) in Hi; destruct (order_step indegree n ready ordered Hi Hfn) as (indegree' & ready' & Er & Hi').
  - pose proof (canonical_length _ (oi_canonical _ _ _ Hi')) as Hl. rewrite length_app in Hl. cbn in Hl. lia.
  - cbn [order_loop]. unfold lookup_key. rewrite by_id_get by done. cbn [mbind result_bind]. rewrite table_get by (by apply id_of_node).
    cbn [mbind result_bind]. rewrite Er. cbn [mbind result_bind]. apply IH; [done|]. rewrite length_app. cbn. lia.
Qed.

(** The loop started on the declared edges. *)
Lemma ordered_part : exists ready indegree ordered,
  initial_ready (by_id nodes) (eg_indegree (edges_after nodes)) = Ok ready /\
  order_loop (length (by_id nodes)) (by_id nodes) (eg_dependants (edges_after nodes)) (eg_indegree (edges_after nodes)) ready [] =
    Ok (indegree, ordered) /\
  order_inv indegree [] ordered.
Proof.
  assert (Ei : eg_indegree (edges_after nodes) = table (fun k => Z.of_nat (pending [] k)) ids).
  { unfold edges_after. cbn [eg_indegree]. apply table_ext. intros k Hk. fold ids. rewrite (proj2 (in_ids_spec k _) Hk). f_equal. unfold pending.
    induction (waits_for k) as [|d l IHl]; cbn; [done|]. by rewrite IHl. }
  rewrite Ei. unfold initial_ready. destruct (initial_ready_spec (fun k => Z.of_nat (pending [] k)) ids [] (fun _ => False)) as (ready & Er & Hr).
  - done.
  - done.
  - split; [constructor|constructor|]. intros e. split; [by intros ?%elem_of_nil|naive_solver].
  - naive_solver.
  - exists ready. rewrite Er. destruct (order_loop_spec (length (by_id nodes)) (table (fun k => Z.of_nat (pending [] k)) ids) ready [])
      as (indegree & ordered & Eo & Ho).
    + split; [done| |by intros [|? ?] n l2 E]. eapply ready_set_ext; [|exact Hr]. intros n Hn. cbn. unfold may_follow. cbn.
      rewrite <- pending_zero. pose proof (id_of_node n Hn). split; [intros [?|[_ ?]]; [done|]|intros (_ & _ & ?); right].
      * split; [done|]. split; [apply not_elem_of_nil|lia].
      * split; [done|lia].
    + unfold by_id. rewrite length_map. cbn. lia.
    + by exists indegree, ordered.
Qed.
End Declared.
