(* ===== verification/EventGraphResolve.v ===== *)
(** * What the resolution of an event graph promises

    The nodes that cannot be ordered are those that follow a cycle of the declared dependencies; the
    resolution returns the canonical order of a well-formed acyclic graph and the complete report of any
    other, whatever the order of declaration. *)

From Stdlib Require Import ZArith Lia String Sorted.
From stdpp Require Import base tactics list strings sets relations sorting.
From S2P Require Import Prelude EventGraph EventGraphWalk EventGraphFacts.

#[local] Open Scope string_scope.
#[local] Open Scope Z_scope.

(** ** Finite graphs *)

(** A finite set in which every element has a predecessor holds a cycle before each of its elements. *)
Lemma cycle_before {A} `{!EqDecision A} (R : A -> A -> Prop) (U : list A) : (forall v, v ∈ U -> exists u, u ∈ U /\ R u v) ->
  forall v, v ∈ U -> exists u, tc R u u /\ rtc R u v.
Proof.
  intros Hp v Hv.
  assert (H : forall k path y, (length U < k + length path)%nat -> NoDup path -> path ⊆ U -> y ∈ path -> (forall p, p ∈ path -> rtc R y p /\ rtc R p v) ->
    exists u, tc R u u /\ rtc R u v).
  { induction k as [|k IH]; intros path y Hk Hn Hs Hy Hr.
    - assert (length path <= length U)%nat by (apply submseteq_length, NoDup_submseteq; [done|intros x; apply Hs]). lia.
    - destruct (Hp y) as (z & Hz & He); [by apply Hs|]. destruct (decide (z ∈ path)) as [Hin|Hout].
      + exists z. destruct (Hr z Hin) as [H1 H2]. split; [|done]. by eapply tc_rtc_r; [apply tc_once|].
      + apply (IH (z :: path) z).
        * cbn. lia.
        * by apply NoDup_cons.
        * intros p [->|Hin]%elem_of_cons; [done|by apply Hs].
        * by apply elem_of_cons; left.
        * intros p [->|Hin]%elem_of_cons; [split; [apply rtc_refl|]|split; [|by apply Hr]].
          { eapply rtc_l; [exact He|]. by apply Hr. }
          { eapply rtc_l; [exact He|]. by apply Hr. } }
  apply (H (S (length U)) [v] v); [cbn; lia|apply NoDup_singleton| | |].
  - intros x ->%list_elem_of_singleton. done.
  - by apply list_elem_of_singleton.
  - intros p ->%list_elem_of_singleton. split; apply rtc_refl.
Qed.

Lemma tc_first {A} (R : A -> A -> Prop) u v : tc R u v -> exists w, R u w /\ rtc R w v.
Proof. intros [x y H|x w y H Ht]; [exists y|exists w]; (split; [done|]); [apply rtc_refl|by apply tc_rtc]. Qed.

Lemma StronglySorted_filter_bool {A} (R : A -> A -> Prop) (f : A -> bool) l : StronglySorted R l -> StronglySorted R (List.filter f l).
Proof.
  induction 1 as [|x l Hl IH Hx]; cbn; [constructor|]. destruct (f x); [|done]. constructor; [done|].
  rewrite Forall_forall in *. intros y [_ Hy]%elem_of_filter_bool. by apply Hx.
Qed.

Lemma mapR_total {A B} (f : A -> result B) (g : A -> B) l : (forall x, x ∈ l -> f x = Ok (g x)) -> mapR f l = Ok (map g l).
Proof.
  induction l as [|x l IH]; intros H; [done|]. cbn [mapR]. rewrite (H x) by set_solver. cbn. rewrite IH; [done|]. intros y Hy. apply H. set_solver.
Qed.

(** ** Cycles of the declaration *)

Definition acyclic (nodes : list DirectedEventNode) : Prop := forall u, ~ tc (depends nodes) u u.
Definition after_cycle (nodes : list DirectedEventNode) (v : string) : Prop := exists u, tc (depends nodes) u u /\ rtc (depends nodes) u v.

(** The nodes of a cycle and of all cycles that share a node with it, sorted. *)
Definition cycle_list (nodes : list DirectedEventNode) (c : list string) : Prop :=
  NoDup c /\ StronglySorted (fun x y => string_leb x y = true) c /\
  exists u, tc (depends nodes) u u /\ forall v, v ∈ c <-> rtc (depends nodes) u v /\ rtc (depends nodes) v u.

(** The findings a well-formed graph with a cycle must be reported with. *)
Definition expected_finding (nodes : list DirectedEventNode) (f : DirectedEventGraphFinding) : Prop :=
  match gf_reason f with
  | DEPENDENCY_CYCLE => cycle_list nodes (gf_node_ids f) /\ gf_dependency_node_ids f = []
  | BLOCKED_BY_CYCLE =>
      exists v, gf_node_ids f = [v] /\ after_cycle nodes v /\ ~ tc (depends nodes) v v /\
        NoDup (gf_dependency_node_ids f) /\ StronglySorted (fun x y => string_leb x y = true) (gf_dependency_node_ids f) /\
        forall d, d ∈ gf_dependency_node_ids f <-> depends nodes d v /\ after_cycle nodes d
  | _ => False
  end.

Section Resolve.
Context (nodes : list DirectedEventNode) (Hwf : well_formed nodes).
Let ids := map node_id nodes.
Let Hids : NoDup ids := wf_ids nodes Hwf.

Lemma waits_for_depends u v : v ∈ ids -> u ∈ waits_for nodes v <-> depends nodes u v.
Proof.
  intros (n & Hn & <-)%node_of_id. rewrite (waits_for_node nodes Hids) by done. rewrite elem_of_present. unfold depends. split.
  - intros (_ & _ & Hu). by exists n.
  - intros (m & Hm & E & Hu). rewrite (node_unique nodes Hids m n Hm Hn E) in Hu. split; [by apply (wf_present nodes Hwf n Hn)|].
    split; [|done]. intros ->. by apply (wf_self nodes Hwf n Hn).
Qed.

Lemma depends_ids u v : depends nodes u v -> u ∈ ids /\ v ∈ ids.
Proof. intros (n & Hn & <- & Hu). split; [by apply (wf_present nodes Hwf n Hn)|by apply id_of_node]. Qed.

Lemma depends_tc_ids u v : tc (depends nodes) u v -> u ∈ ids /\ v ∈ ids.
Proof. induction 1 as [u v H|u w v H _ [_ IH]]; apply depends_ids in H as []; done. Qed.

Lemma depends_irreflexive u : ~ depends nodes u u.
Proof. intros (n & Hn & <- & Hu). by apply (wf_self nodes Hwf n Hn). Qed.

(** A node is ordered after everything it depends on, directly or not. *)
Lemma canonical_earlier order l1 l2 u v : canonical nodes order -> map node_id order = (l1 ++ v :: l2)%list -> tc (depends nodes) u v -> u ∈ l1.
Proof.
  intros Hc E H. revert l1 l2 E.
  assert (Hone : forall x y l1 l2, map node_id order = (l1 ++ y :: l2)%list -> depends nodes x y -> x ∈ l1).
  { intros x y l1 l2 E Hxy. apply map_eq_app in E as (o1 & o2 & -> & <- & E). apply map_eq_cons in E as (n & o3 & -> & <- & <-).
    destruct (Hc o1 n o3 eq_refl) as [(Hn & _ & Hsub) _]. apply Hsub. apply waits_for_depends; [by apply id_of_node|done]. }
  induction H as [u v Hd|u w v Hd H IH]; intros l1 l2 E; [by eapply Hone|].
  specialize (IH l1 l2 E). apply list_elem_of_split in IH as (a & b & ->). rewrite <- app_assoc in E. cbn in E.
  assert (u ∈ a) by (by eapply Hone). set_solver.
Qed.

Lemma ordered_off_cycle order u v : canonical nodes order -> v ∈ map node_id order -> tc (depends nodes) u u -> ~ rtc (depends nodes) u v.
Proof.
  intros Hc Hv Hu Huv. assert (Hin : u ∈ map node_id order).
  { apply list_elem_of_split in Hv as (l1 & l2 & E). rewrite E. destruct (decide (u = v)) as [->|Hne]; [set_solver|].
    apply rtc_tc in Huv as [?|Huv]; [done|]. pose proof (canonical_earlier order l1 l2 u v Hc E Huv). set_solver. }
  apply list_elem_of_split in Hin as (l1 & l2 & E). pose proof (canonical_earlier order l1 l2 u u Hc E Hu) as Hul.
  pose proof (canonical_ids_NoDup nodes Hids order Hc) as Hn. rewrite E in Hn. apply NoDup_app in Hn as (_ & Hn & _). apply (Hn u Hul). set_solver.
Qed.

(** ** What is left unordered *)

Section Stuck.
Context (indegree : list (string * Z)) (ordered : list DirectedEventNode) (Ho : order_inv nodes indegree [] ordered).
Let unresolved := map fst (List.filter (fun '(_, degree) => negb (degree =? 0)) indegree).

Lemma nothing_follows m : ~ may_follow nodes ordered m.
Proof.
  intros Hm. apply (not_elem_of_nil (entry m)). apply (rs_elem _ _ _ (oi_ready _ _ _ _ Ho)). exists m. split; [apply Hm|done].
Qed.

Lemma filter_table (p : string * Z -> bool) h ks : map fst (List.filter p (table h ks)) = List.filter (fun k => p (k, h k)) ks.
Proof. induction ks as [|k ks IH]; [done|]. cbn [table map List.filter]. destruct (p (k, h k)); cbn [map fst]; f_equal; exact IH. Qed.

Lemma unresolved_pending : unresolved = List.filter (fun k => negb (Z.of_nat (pending nodes (map node_id ordered) k) =? 0)) ids.
Proof. unfold unresolved. rewrite (oi_degree _ _ _ _ Ho). apply filter_table. Qed.

Lemma unresolved_NoDup : NoDup unresolved.
Proof. rewrite unresolved_pending. by apply NoDup_filter_bool. Qed.

Lemma elem_of_unresolved k : k ∈ unresolved <-> k ∈ ids /\ k ∉ map node_id ordered.
Proof.
  rewrite unresolved_pending, elem_of_filter_bool, negb_true_iff, Z.eqb_neq. split.
  - intros [Hp Hk]. split; [done|]. intros (n & E & Hn%list_elem_of_In)%list_elem_of_In%in_map_iff. subst k. apply Hp.
    rewrite (proj2 (pending_zero nodes Hids _ _) (canonical_waits nodes Hids ordered n (oi_canonical _ _ _ _ Ho) Hn)). done.
  - intros [Hk Hno]. split; [|done]. intros Hp. destruct (node_of_id nodes k Hk) as (n & Hn & <-). apply (nothing_follows n).
    split; [done|]. split; [|apply (pending_zero nodes Hids); lia]. intros Hin. apply Hno, list_elem_of_In, in_map, list_elem_of_In, Hin.
Qed.

Lemma unresolved_after_cycle v : v ∈ unresolved <-> after_cycle nodes v.
Proof.
  split.
  - intros Hv. apply (cycle_before (depends nodes) unresolved); [|done]. clear v Hv. intros v Hv.
    pose proof Hv as [Hk Hno]%elem_of_unresolved. rewrite unresolved_pending in Hv. apply elem_of_filter_bool in Hv as [Hp _].
    apply negb_true_iff, Z.eqb_neq in Hp. unfold pending in Hp. destruct (List.filter _ (waits_for nodes v)) as [|d l] eqn:E; [done|].
    assert (Hd : d ∈ d :: l) by set_solver. rewrite <- E in Hd. apply elem_of_filter_bool in Hd as [Hdo Hd]. apply negb_true_iff, in_ids_false in Hdo.
    apply waits_for_depends in Hd; [|done]. exists d. split; [|done]. apply elem_of_unresolved. split; [by apply depends_ids in Hd as [? _]|done].
  - intros (u & Hu & Huv). apply elem_of_unresolved. split.
    + apply rtc_tc in Huv as [<-|Huv].
      * by eapply depends_tc_ids.
      * by eapply depends_tc_ids.
    + intros Hin. by apply (ordered_off_cycle ordered u v (oi_canonical _ _ _ _ Ho)).
Qed.

(** ** The report *)

Let dependants := eg_dependants (edges_after nodes nodes).
Let dependencies := eg_dependencies (edges_after nodes nodes).

Lemma dependencies_table : dependencies = table (waits_for nodes) ids.
Proof.
  unfold dependencies, edges_after, table, ids. cbn [eg_dependencies]. rewrite map_map. apply map_ext_in. intros n Hn%list_elem_of_In.
  by rewrite (waits_for_node nodes Hids).
Qed.

Lemma edge_depends u v : edge dependants unresolved u v <-> u ∈ unresolved /\ v ∈ unresolved /\ depends nodes u v.
Proof.
  unfold edge. split; intros (Hu & Hv & H); (split; [done|]; split; [done|]); apply elem_of_unresolved in Hu as [Hu _], Hv as [Hv _].
  - destruct H as (ds & Hg & Hin). unfold dependants, edges_after in Hg. cbn [eg_dependants] in Hg. rewrite table_get in Hg by done. injection Hg as <-.
    apply waits_for_depends; [done|]. by apply (elem_of_waited_by nodes Hids).
  - exists (waited_by nodes nodes u). split; [by apply table_get|]. apply (elem_of_waited_by nodes Hids); [done|]. by apply waits_for_depends.
Qed.

Lemma unresolved_closed u v : u ∈ unresolved -> rtc (depends nodes) u v -> v ∈ unresolved.
Proof. rewrite !unresolved_after_cycle. intros (w & Hw & Hwu) Huv. exists w. split; [done|]. by etrans. Qed.

Lemma reach_depends u v : u ∈ unresolved -> reach dependants unresolved u v <-> rtc (depends nodes) u v.
Proof.
  intros Hu. split; intros H; [clear Hu|]; induction H as [|u w v Hd H IH]; try apply rtc_refl.
  - eapply rtc_l; [|exact IH]. by apply edge_depends in Hd as (_ & _ & ?).
  - assert (Hw : w ∈ unresolved) by (eapply unresolved_closed; [done|by apply rtc_once]). eapply rtc_l; [|by apply IH]. by apply edge_depends.
Qed.

Lemma same_component_depends u v : u ∈ unresolved ->
  same_component dependants unresolved u v <-> rtc (depends nodes) u v /\ rtc (depends nodes) v u.
Proof.
  intros Hu. unfold same_component. split; intros [H1 H2].
  - apply reach_depends in H1; [|done]. apply reach_depends in H2; [done|]. by eapply unresolved_closed.
  - split; apply reach_depends; [done|done| |done]. by eapply unresolved_closed.
Qed.

Lemma on_cycle_depends u : on_cycle dependants unresolved u <-> tc (depends nodes) u u.
Proof.
  split.
  - intros (Hu & v & Hne & [H1 H2]%same_component_depends); [|done]. apply rtc_tc in H1 as [?|H1]; [congruence|]. by eapply tc_rtc_r.
  - intros H. assert (Hu : u ∈ unresolved) by (apply unresolved_after_cycle; exists u; split; [done|apply rtc_refl]). split; [done|].
    destruct (tc_first _ _ _ H) as (w & Hw & Hr). exists w. split; [|apply same_component_depends; [done|]; split; [by apply rtc_once|done]].
    intros ->. by eapply depends_irreflexive.
Qed.

Lemma stuck_walkable : walkable dependants dependencies unresolved.
Proof.
  split.
  - apply unresolved_NoDup.
  - unfold dependants, edges_after. cbn [eg_dependants]. by rewrite table_keys.
  - rewrite dependencies_table. by rewrite table_keys.
  - intros u [Hu _]%elem_of_unresolved. eexists. by apply table_get.
  - intros u [Hu _]%elem_of_unresolved. eexists. rewrite dependencies_table. by apply table_get.
  - intros u v ps Hu Hv Hps. rewrite edge_depends. pose proof Hv as [Hvi _]%elem_of_unresolved. rewrite dependencies_table, table_get in Hps by done.
    injection Hps as <-. rewrite waits_for_depends by done. tauto.
  - intros u (_ & _ & H)%edge_depends. by eapply depends_irreflexive.
Qed.

Lemma component_cycle_list c :
  (exists u, on_cycle dependants unresolved u /\ component_list dependants unresolved u c) <-> cycle_list nodes c.
Proof.
  split.
  - intros (u & Hu & Hn & Hs & Hc). split; [done|]. split; [done|]. exists u. split; [by apply on_cycle_depends|]. intros v. rewrite Hc.
    apply same_component_depends, Hu.
  - intros (Hn & Hs & u & Hu & Hc). apply on_cycle_depends in Hu. exists u. split; [done|]. split; [done|]. split; [done|]. intros v.
    rewrite Hc. symmetry. apply same_component_depends, Hu.
Qed.

Definition cycle_finding (c : list string) : DirectedEventGraphFinding :=
  {| gf_reason := DEPENDENCY_CYCLE; gf_node_ids := c; gf_dependency_node_ids := [] |}.
Definition blocked_finding (id : string) : DirectedEventGraphFinding :=
  {| gf_reason := BLOCKED_BY_CYCLE; gf_node_ids := [id]; gf_dependency_node_ids := List.filter (fun d => in_ids d unresolved) (waits_for nodes id) |}.

Lemma waits_for_sorted k : StronglySorted (fun x y => string_leb x y = true) (waits_for nodes k).
Proof.
  unfold waits_for. destruct (od_get k _); [|constructor]. apply (stable_sort_sorted string_leb string_leb_total string_leb_trans).
Qed.

Lemma blocked_expected v : v ∈ unresolved -> ~ tc (depends nodes) v v -> expected_finding nodes (blocked_finding v).
Proof.
  intros Hv Hnc. exists v. split; [done|]. split; [by apply unresolved_after_cycle|]. split; [done|]. cbn [gf_dependency_node_ids blocked_finding].
  split; [apply NoDup_filter_bool, (present_NoDup nodes)|]. split; [apply StronglySorted_filter_bool, waits_for_sorted|]. intros d.
  rewrite elem_of_filter_bool, in_ids_spec, unresolved_after_cycle. apply elem_of_unresolved in Hv as [Hv _]. rewrite (waits_for_depends d v Hv). tauto.
Qed.

Lemma expected_blocked f v : expected_finding nodes f -> gf_reason f = BLOCKED_BY_CYCLE -> gf_node_ids f = [v] -> f = blocked_finding v.
Proof.
  destruct f as [r ns ds]. unfold expected_finding. cbn. intros Hf -> ->. destruct Hf as (w & [= <-] & Hv & Hnc & Hd & Hs & He).
  unfold blocked_finding. f_equal. apply (StronglySorted_unique_strong (fun x y => string_leb x y = true)).
  - intros. by apply string_leb_antisym.
  - done.
  - apply StronglySorted_filter_bool, waits_for_sorted.
  - apply NoDup_Permutation; [done|apply NoDup_filter_bool, (present_NoDup nodes)|]. intros d. apply unresolved_after_cycle in Hv.
    rewrite He, elem_of_filter_bool, in_ids_spec, unresolved_after_cycle. apply elem_of_unresolved in Hv as [Hv _].
    rewrite (waits_for_depends d v Hv). tauto.
Qed.

Lemma elem_of_components components :
  (forall c, c ∈ components <-> exists u, on_cycle dependants unresolved u /\ component_list dependants unresolved u c) ->
  (forall u, on_cycle dependants unresolved u -> exists c, component_list dependants unresolved u c) ->
  forall id, id ∈ List.concat components <-> tc (depends nodes) id id.
Proof.
  intros Hc Hall id. rewrite list_elem_of_In, in_concat. split.
  - intros (c & Hin%list_elem_of_In & Hid%list_elem_of_In). apply Hc, component_cycle_list in Hin as (_ & _ & u & Hu & Hm). apply Hm in Hid as [H1 H2].
    eapply tc_rtc_l; [exact H2|]. by eapply tc_rtc_r.
  - intros Hu%on_cycle_depends. destruct (Hall id Hu) as (c & Hcl). exists c. rewrite <- !list_elem_of_In. split; [apply Hc; by exists id|].
    apply Hcl, same_component_refl.
Qed.

Lemma elem_of_report components blocked : (forall c, c ∈ components <-> cycle_list nodes c) ->
  (forall id, id ∈ blocked <-> id ∈ unresolved /\ ~ tc (depends nodes) id id) ->
  forall f, f ∈ (map cycle_finding components ++ map blocked_finding blocked)%list <-> expected_finding nodes f.
Proof.
  intros Hc Hb f. rewrite elem_of_app. split.
  - intros [(c & -> & Hin)%list_elem_of_fmap|(v & -> & Hv)%list_elem_of_fmap].
    + split; [|done]. by apply Hc.
    + apply Hb in Hv as []. by apply blocked_expected.
  - intros Hf. pose proof Hf as Hf'. unfold expected_finding in Hf'. destruct (gf_reason f) eqn:Er; try done.
    + left. apply list_elem_of_fmap. destruct Hf' as [Hcl Hd]. exists (gf_node_ids f). split; [|by apply Hc].
      destruct f as [r ns ds]. cbn in *. by subst.
    + right. destruct Hf' as (v & Hv & Hac & Hnc & _).
      apply list_elem_of_fmap. exists v. split; [by apply expected_blocked|]. apply Hb. split; [by apply unresolved_after_cycle|done].
Qed.

Lemma stuck_report : exists components findings,
  cyclic_components unresolved dependants dependencies = Ok components /\ cycle_findings unresolved dependencies components = Ok findings /\
  NoDup findings /\ (unresolved <> [] -> findings <> []) /\ forall f, f ∈ findings <-> expected_finding nodes f.
Proof.
  destruct (cyclic_components_spec dependants dependencies unresolved stuck_walkable) as (components & Ec & Hn & _ & Hc & Hall).
  set (blocked := stable_sort string_leb (List.filter (fun id => negb (in_ids id (List.concat components))) unresolved)).
  exists components, (map cycle_finding components ++ map blocked_finding blocked)%list. split; [exact Ec|].
  pose proof (elem_of_components components Hc Hall) as Hcyc.
  assert (Hb : forall id, id ∈ blocked <-> id ∈ unresolved /\ ~ tc (depends nodes) id id).
  { intros id. unfold blocked. rewrite (stable_sort_perm string_leb), elem_of_filter_bool, negb_true_iff, in_ids_false, Hcyc. tauto. }
  split.
  - unfold cycle_findings. rewrite (mapR_total _ blocked_finding); [done|]. intros id Hid%Hb. unfold lookup_key. rewrite dependencies_table.
    destruct Hid as [[Hid _]%elem_of_unresolved _]. by rewrite table_get.
  - split.
    + apply NoDup_app. split; [apply NoDup_fmap_2; [|done]; by intros ? ? [= ?]|]. split.
      * intros f (c & -> & _)%list_elem_of_fmap (v & E & _)%list_elem_of_fmap. done.
      * apply NoDup_fmap_2; [by intros ? ? [= ?]|]. unfold blocked. rewrite (stable_sort_perm string_leb). apply NoDup_filter_bool, unresolved_NoDup.
    + split; [|apply elem_of_report; [|exact Hb]; intros c; by rewrite Hc, component_cycle_list].
      intros Hne E. apply app_eq_nil in E as [->%map_eq_nil Eb%map_eq_nil]. destruct unresolved as [|v l] eqn:Eu; [done|].
      apply (not_elem_of_nil v). rewrite <- Eb. apply Hb. split; [set_solver|]. intros H%Hcyc. cbn in H. by apply elem_of_nil in H.
Qed.

Lemma all_ordered : unresolved = [] -> nodes ⊆+ ordered.
Proof.
  intros Eu. apply NoDup_submseteq; [by eapply NoDup_fmap_1|]. intros n Hn. destruct (decide (n ∈ ordered)) as [?|Hno]; [done|].
  exfalso. apply (not_elem_of_nil (node_id n)). rewrite <- Eu. apply elem_of_unresolved. split; [by apply id_of_node|].
  intros (m & Em & Hm%list_elem_of_In)%list_elem_of_In%in_map_iff. apply Hno.
  rewrite (node_unique nodes Hids n m); [done|done|by apply (canonical_sub nodes ordered), Hm; apply Ho|done].
Qed.
End Stuck.

(** ** The plan *)

(** Either every node is ordered and the graph has no cycle, or the report is the expected one. *)
Lemma order_or_report_spec : exists order,
  canonical nodes order /\ (forall m, ~ may_follow nodes order m) /\
  ((acyclic nodes /\ order ≡ₚ nodes /\
    order_or_report (by_id nodes) (edges_after nodes nodes) =
      Ok {| gp_status := VALID; gp_ordered_nodes := order; gp_findings := []; gp_declared_node_count := Z.of_nat (length nodes);
            gp_declared_edge_count := eg_edge_count (edges_after nodes nodes) |}) \/
   (~ acyclic nodes /\ exists findings,
    order_or_report (by_id nodes) (edges_after nodes nodes) =
      Ok (invalid findings (Z.of_nat (length nodes)) (eg_edge_count (edges_after nodes nodes))) /\
    NoDup findings /\ findings <> [] /\ forall f, f ∈ findings <-> expected_finding nodes f)).
Proof.
  destruct (ordered_part nodes Hids) as (ready & indegree & order & Er & Eo & Ho). exists order. pose proof (oi_canonical _ _ _ _ Ho) as Hc.
  split; [done|]. split; [by apply (nothing_follows indegree)|]. unfold order_or_report. rewrite Er. cbn [mbind result_bind]. rewrite Eo.
  cbn [mbind result_bind]. assert (El : length (by_id nodes) = length nodes) by (unfold by_id; apply length_map). rewrite El.
  destruct (Nat.eqb_spec (length order) (length nodes)) as [E|E]; cbn [negb].
  - left. assert (Hp : order ≡ₚ nodes).
    { apply submseteq_length_Permutation; [|lia]. apply NoDup_submseteq; [by apply (canonical_NoDup nodes)|by apply canonical_sub]. }
    split; [|done]. intros u Hu. apply (ordered_off_cycle order u u Hc); [|done|apply rtc_refl].
    apply depends_tc_ids in Hu as [Hu _]. unfold ids in Hu. by rewrite Hp.
  - right. destruct (stuck_report indegree order Ho) as (components & findings & Ec & Ef & Hn & Hne & Hf).
    assert (Hstuck : map fst (List.filter (fun '(_, degree) => negb (degree =? 0)) indegree) <> []).
    { intros Hle%(all_ordered indegree order Ho)%submseteq_length. pose proof (canonical_length nodes order Hc). lia. }
    split; [|by rewrite Ec; cbn [mbind result_bind]; rewrite Ef; exists findings; auto].
    intros Ha. destruct (map fst _) as [|v l] eqn:Eu; [done|]. destruct (proj1 (unresolved_after_cycle indegree order Ho v)) as (u & Hu & _).
    + rewrite Eu. set_solver.
    + by apply (Ha u).
Qed.
End Resolve.

(** ** Declarations and their defects *)

Lemma remove_dups_length (l : list string) : length (remove_dups l) = length l <-> NoDup l.
Proof.
  split.
  - induction l as [|x l IH]; cbn; [constructor|]. assert (Hle : (length (remove_dups l) <= length l)%nat).
    { apply submseteq_length, NoDup_submseteq; [apply NoDup_remove_dups|]. intros y. by rewrite elem_of_remove_dups. }
    case_decide as Hx; cbn; intros E; [lia|]. apply NoDup_cons. split; [done|]. apply IH. lia.
  - intros Hn. apply Permutation_length, NoDup_Permutation; [apply NoDup_remove_dups|done|]. intros y. apply elem_of_remove_dups.
Qed.

Lemma sorted_set_nil l : sorted_set l = [] <-> l = [].
Proof.
  split; [|by intros ->]. intros E. destruct l as [|x l]; [done|]. exfalso. apply (not_elem_of_nil x). rewrite <- E. apply elem_of_sorted_set. set_solver.
Qed.

Lemma node_findings_nil ids n : node_findings ids n = [] <->
  NoDup (dependency_node_ids n) /\ node_id n ∉ dependency_node_ids n /\ dependency_node_ids n ⊆ ids.
Proof.
  assert (Hm : missing_dependencies ids n = [] <-> dependency_node_ids n ⊆ ids).
  { unfold missing_dependencies. rewrite sorted_set_nil. split.
    - intros E d Hd. destruct (in_ids d ids) eqn:Ed; [by apply in_ids_spec|]. exfalso. apply (not_elem_of_nil d). rewrite <- E.
      apply elem_of_filter_bool. by rewrite Ed.
    - intros Hs. destruct (List.filter _ _) as [|d l] eqn:E; [done|]. assert (Hd : d ∈ d :: l) by set_solver. rewrite <- E in Hd.
      apply elem_of_filter_bool in Hd as [Hn Hd]. apply negb_true_iff, in_ids_false in Hn. set_solver. }
  unfold node_findings. rewrite <- Hm, <- remove_dups_length, <- Nat.eqb_eq, <- in_ids_false.
  destruct (_ =? _)%nat, (in_ids _ _), (missing_dependencies ids n); cbn; naive_solver.
Qed.

Lemma concat_nil {A} (l : list (list A)) : List.concat l = [] <-> forall x, x ∈ l -> x = [].
Proof. rewrite concat_nil_Forall, List.Forall_forall. by setoid_rewrite list_elem_of_In. Qed.

Lemma declared_findings_nil nodes : nodes <> [] -> NoDup (map node_id nodes) ->
  eg_findings (edges_after nodes nodes) = [] <-> well_formed nodes.
Proof.
  intros Hne Hn. cbn [eg_findings edges_after]. rewrite concat_nil. split.
  - intros H. assert (Hf : forall n, n ∈ nodes -> node_findings (map node_id nodes) n = []).
    { intros n Hin. apply H. by apply list_elem_of_fmap_2. }
    split; [done|done| | |]; intros n Hin; by apply node_findings_nil, Hf in Hin || apply (proj1 (node_findings_nil _ n) (Hf n Hin)).
  - intros Hw x (n & -> & Hin)%list_elem_of_fmap. apply node_findings_nil. by destruct Hw as [_ _ H1 H2 H3]; auto.
Qed.

Lemma no_edges nodes : edges_after nodes [] =
  {| eg_dependants := map (fun id => (id, [])) (map node_id nodes); eg_dependencies := []; eg_indegree := map (fun id => (id, 0)) (map node_id nodes);
     eg_edge_count := 0; eg_findings := [] |}.
Proof. done. Qed.

Lemma resolve_declared nodes : nodes <> [] -> NoDup (map node_id nodes) ->
  resolve_directed_event_graph nodes =
  match eg_findings (edges_after nodes nodes) with
  | [] => order_or_report (by_id nodes) (edges_after nodes nodes)
  | findings => Ok (invalid findings (Z.of_nat (length nodes)) (eg_edge_count (edges_after nodes nodes)))
  end.
Proof.
  intros Hne Hn. unfold resolve_directed_event_graph. destruct (declare_node_spec nodes [] []) as (nodes' & extra & E0 & Hx & Hb).
  change (by_id []) with (@nil (string * DirectedEventNode)) in E0. rewrite E0.
  assert (E : extra = []). { apply Hx. split; [done|]. intros n _. apply not_elem_of_nil. }
  rewrite E, (Hb E). destruct nodes as [|n ns] eqn:En; [done|]. rewrite <- En in *. cbn [app]. assert (Ek : map fst (by_id nodes) = map node_id nodes) by apply by_id_keys.
  rewrite Ek. assert (El : length (by_id nodes) = length nodes) by (unfold by_id; apply length_map). rewrite El.
  assert (Ev : map snd (by_id nodes) = nodes) by (unfold by_id; rewrite map_map; apply map_id). rewrite Ev.
  pose proof (declare_all_edges nodes Hn nodes [] eq_refl) as H. rewrite no_edges in H. rewrite H. cbn [mbind result_bind]. by destruct (eg_findings (edges_after nodes nodes)).
Qed.

Lemma resolve_undeclared nodes : nodes = [] \/ ~ NoDup (map node_id nodes) ->
  exists findings count, resolve_directed_event_graph nodes = Ok (invalid findings count 0) /\ findings <> [].
Proof.
  intros H. unfold resolve_directed_event_graph. destruct (declare_node_spec nodes [] []) as (nodes' & extra & E0 & Hx & Hb).
  change (by_id []) with (@nil (string * DirectedEventNode)) in E0. rewrite E0.
  cbn [app]. destruct extra as [|f extra].
  - destruct nodes as [|n ns]; [eexists _, _; split; [reflexivity|done]|]. destruct H as [?|H]; [done|]. by destruct H, (proj1 Hx eq_refl).
  - eexists _, _. split; [reflexivity|done].
Qed.

(** ** The order of findings *)

#[local] Instance finding_comparer : Comparer finding_compare.
Proof.
  apply (lex_comparer (fun x y => String.compare (graph_reason_value (gf_reason x)) (graph_reason_value (gf_reason y)))).
  apply (lex_comparer (fun x y => tuple_compare (gf_node_ids x) (gf_node_ids y))). apply _.
Qed.

Lemma finding_compare_eq x y : finding_compare x y = Eq -> x = y.
Proof.
  destruct x as [r ns ds], y as [r' ns' ds']. unfold finding_compare. cbn. destruct (String.compare _ _) eqn:Er; cbn; [|done|done].
  destruct (tuple_compare ns ns') eqn:En; cbn; [|done|done]. intros ->%tuple_compare_eq. apply tuple_compare_eq in En as ->.
  apply String.compare_eq_iff in Er. by destruct r, r'.
Qed.

Lemma sorted_findings_eq fs gs : fs ≡ₚ gs -> stable_sort (leb_of finding_compare) fs = stable_sort (leb_of finding_compare) gs.
Proof.
  intros Hp. apply stable_sort_perm_eq; [apply (leb_of_total finding_compare)|apply (leb_of_trans finding_compare)| |done].
  intros x y _ _ H1 H2. apply finding_compare_eq. by apply (leb_of_antisym finding_compare).
Qed.

Lemma stable_sort_nonempty {A} (leb : A -> A -> bool) l : l <> [] -> stable_sort leb l <> [].
Proof. intros Hl E. apply Hl. apply Permutation_nil_r. by rewrite <- E, (stable_sort_perm leb l). Qed.

Lemma nodup_decide (nodes : list DirectedEventNode) :
  (nodes = [] \/ ~ NoDup (map node_id nodes)) \/ (nodes <> [] /\ NoDup (map node_id nodes)).
Proof. destruct nodes as [|n ns]; [by left; left|]. destruct (decide (NoDup (map node_id (n :: ns)))); [by right|by left; right]. Qed.

(** A declaration is ordered completely, or refused with its findings. *)
Lemma resolve_cases nodes :
  (exists order, well_formed nodes /\ acyclic nodes /\ canonical nodes order /\ order ≡ₚ nodes /\
     resolve_directed_event_graph nodes =
       Ok {| gp_status := VALID; gp_ordered_nodes := order; gp_findings := []; gp_declared_node_count := Z.of_nat (length nodes);
             gp_declared_edge_count := eg_edge_count (edges_after nodes nodes) |}) \/
  (~ (well_formed nodes /\ acyclic nodes) /\
   exists findings node_count edge_count, findings <> [] /\ resolve_directed_event_graph nodes = Ok (invalid findings node_count edge_count)).
Proof.
  destruct (nodup_decide nodes) as [Hd|[Hne Hn]].
  - right. destruct (resolve_undeclared nodes Hd) as (fs & count & -> & Hfs). split; [|eauto]. intros [[H1 H2 _ _ _] _]. by destruct Hd.
  - rewrite (resolve_declared nodes Hne Hn). pose proof (declared_findings_nil nodes Hne Hn) as Hw.
    destruct (eg_findings (edges_after nodes nodes)) as [|f fs].
    + assert (Hwf : well_formed nodes) by (by apply Hw).
      destruct (order_or_report_spec nodes Hwf) as (order & Hc & _ & [(Ha & Hp & ->)|(Ha & fs & -> & _ & Hfs & _)]).
      * left. exists order. auto.
      * right. split; [by intros [_ ?]|eauto].
    + right. split; [intros [Hwf _]; by apply Hw in Hwf|]. eexists (f :: fs), _, _. by split.
Qed.

(** Every declaration is resolved, to a valid plan exactly when it is well formed and acyclic; an invalid plan orders nothing and
    gives at least one reason, a valid one gives none. *)
Theorem resolution_decides_validity nodes : exists plan, resolve_directed_event_graph nodes = Ok plan /\
  (gp_status plan = VALID <-> well_formed nodes /\ acyclic nodes) /\
  (gp_status plan = VALID -> gp_findings plan = []) /\ (gp_status plan = INVALID -> gp_ordered_nodes plan = [] /\ gp_findings plan <> []).
Proof.
  destruct (resolve_cases nodes) as [(order & Hw & Ha & _ & _ & ->)|(Hno & fs & nc & ec & Hfs & ->)]; eexists; (split; [done|]); cbn.
  - done.
  - split; [by split|]. split; [done|]. intros _. split; [done|]. by apply stable_sort_nonempty.
Qed.

(** Every node comes after its dependencies, and is the first by its sort key, and then its identity, of the nodes that could come there. *)
Definition least_order (nodes order : list DirectedEventNode) : Prop :=
  forall l1 n l2, order = (l1 ++ n :: l2)%list ->
    dependency_node_ids n ⊆ map node_id l1 /\
    forall m, m ∈ nodes -> m ∉ l1 -> dependency_node_ids m ⊆ map node_id l1 -> before (entry n) (entry m).

Lemma canonical_least nodes order : well_formed nodes -> canonical nodes order -> least_order nodes order.
Proof.
  intros Hw Hc. assert (E : forall n, n ∈ nodes -> forall d, d ∈ waits_for nodes (node_id n) <-> d ∈ dependency_node_ids n).
  { intros n Hn d. rewrite (waits_for_depends nodes Hw) by (by apply id_of_node). split; [|intros ?; by exists n].
    intros (m & Hm & Em & Hd). by rewrite <- (node_unique nodes (wf_ids nodes Hw) m n Hm Hn Em). }
  intros l1 n l2 El. destruct (Hc l1 n l2 El) as [(Hn & _ & Hs) Hl]. split.
  - intros d Hd. apply Hs. by apply E.
  - intros m Hm Hnm Hsub. apply Hl. split; [done|]. split; [done|]. intros d Hd. apply Hsub. by apply E.
Qed.

(** C28: every node of a well-formed acyclic declaration is eventually ordered, once: the plan is valid and its order is the least
    topological one by sort key and identity. *)
Theorem every_node_is_ordered nodes : well_formed nodes -> acyclic nodes ->
  exists plan, resolve_directed_event_graph nodes = Ok plan /\ gp_status plan = VALID /\
    gp_ordered_nodes plan ≡ₚ nodes /\ least_order nodes (gp_ordered_nodes plan) /\ gp_declared_node_count plan = Z.of_nat (length nodes).
Proof.
  intros Hw Ha. destruct (resolve_cases nodes) as [(order & _ & _ & Hc & Hp & ->)|(Hno & _)]; [|by destruct Hno].
  eexists. split; [done|]. cbn. split; [done|]. split; [done|]. split; [by apply canonical_least|done].
Qed.

(** C29: a well-formed declaration with a cycle is reported completely: one finding for every maximal set of nodes that depend on each
    other, with its sorted nodes, and one for every other node that waits for a cycle, with the dependencies that do; nothing else. *)
Theorem cycles_are_reported_completely nodes : well_formed nodes -> ~ acyclic nodes ->
  exists plan, resolve_directed_event_graph nodes = Ok plan /\ gp_status plan = INVALID /\ gp_ordered_nodes plan = [] /\
    NoDup (gp_findings plan) /\ StronglySorted (fun x y => leb_of finding_compare x y = true) (gp_findings plan) /\
    forall f, f ∈ gp_findings plan <-> expected_finding nodes f.
Proof.
  intros Hw Ha. pose proof (declared_findings_nil nodes (wf_some nodes Hw) (wf_ids nodes Hw)) as Hf.
  rewrite (resolve_declared nodes (wf_some nodes Hw) (wf_ids nodes Hw)), (proj2 Hf Hw).
  destruct (order_or_report_spec nodes Hw) as (order & _ & _ & [(? & _)|(_ & fs & -> & Hn & _ & Hfs)]); [done|].
  eexists. split; [done|]. cbn. split; [done|]. split; [done|]. split; [by rewrite (stable_sort_perm (leb_of finding_compare))|]. split.
  - apply stable_sort_sorted; [apply (leb_of_total finding_compare)|apply (leb_of_trans finding_compare)].
  - intros f. by rewrite (stable_sort_perm (leb_of finding_compare)).
Qed.

(** ** The order of declaration *)

Lemma sum_permutation {A} (f : A -> Z) l l' : l ≡ₚ l' -> foldr (fun x total => f x + total) 0 l = foldr (fun x total => f x + total) 0 l'.
Proof. induction 1 as [|x l l' _ IH|x y l|l1 l2 l3 _ IH1 _ IH2]; cbn [foldr]; [done|by rewrite IH|lia|by rewrite IH1]. Qed.

Section Permuted.
Context (nodes nodes' : list DirectedEventNode) (Hp : nodes ≡ₚ nodes') (Hids : NoDup (map node_id nodes)).

Lemma permuted_ids : map node_id nodes ≡ₚ map node_id nodes'.
Proof. by apply Permutation_map. Qed.

Lemma permuted_NoDup : NoDup (map node_id nodes').
Proof. by rewrite <- permuted_ids. Qed.

Lemma permuted_in_ids x : in_ids x (map node_id nodes) = in_ids x (map node_id nodes').
Proof. apply bool_decide_ext. by rewrite permuted_ids. Qed.

Lemma permuted_present n : present_dependencies (map node_id nodes) n = present_dependencies (map node_id nodes') n.
Proof. unfold present_dependencies. f_equal. apply List.filter_ext. intros d. by rewrite permuted_in_ids. Qed.

Lemma permuted_node_findings n : node_findings (map node_id nodes) n = node_findings (map node_id nodes') n.
Proof.
  unfold node_findings. assert (E : missing_dependencies (map node_id nodes) n = missing_dependencies (map node_id nodes') n); [|by rewrite E].
  unfold missing_dependencies. f_equal. apply List.filter_ext. intros d. by rewrite permuted_in_ids.
Qed.

Lemma permuted_waits_for k : waits_for nodes k = waits_for nodes' k.
Proof.
  destruct (decide (k ∈ map node_id nodes)) as [(n & Hn & <-)%node_of_id|Hk].
  - rewrite (waits_for_node nodes Hids) by done. rewrite (waits_for_node nodes' permuted_NoDup) by (by rewrite <- Hp). apply permuted_present.
  - unfold waits_for. rewrite (proj2 (od_get_None k (by_id nodes))), (proj2 (od_get_None k (by_id nodes'))); [done| |]; rewrite by_id_keys; [|done].
    by rewrite <- permuted_ids.
Qed.

Lemma permuted_may_follow order m : may_follow nodes order m <-> may_follow nodes' order m.
Proof. unfold may_follow. by rewrite permuted_waits_for, Hp. Qed.

Lemma permuted_canonical order : canonical nodes order -> canonical nodes' order.
Proof.
  intros Hc l1 n l2 E. destruct (Hc l1 n l2 E) as [Hn Hl]. split; [by apply permuted_may_follow|]. intros m Hm. by apply Hl, permuted_may_follow.
Qed.

Lemma permuted_findings : eg_findings (edges_after nodes nodes) ≡ₚ eg_findings (edges_after nodes' nodes').
Proof.
  cbn [eg_findings edges_after]. rewrite (map_ext _ _ permuted_node_findings), <- !flat_map_concat_map. by apply Permutation_flat_map.
Qed.

Lemma permuted_edge_count : eg_edge_count (edges_after nodes nodes) = eg_edge_count (edges_after nodes' nodes').
Proof.
  cbn [eg_edge_count edges_after]. transitivity (foldr (fun n count => Z.of_nat (length (present_dependencies (map node_id nodes') n)) + count) 0 nodes).
  - apply foldr_ext; [|done|done]. intros n count. by rewrite permuted_present.
  - apply sum_permutation, Hp.
Qed.

Lemma permuted_depends u v : depends nodes u v <-> depends nodes' u v.
Proof. unfold depends. by setoid_rewrite Hp. Qed.

Lemma permuted_tc u v : tc (depends nodes) u v <-> tc (depends nodes') u v.
Proof. split; apply (tc_congruence (fun x => x)); intros x y; apply permuted_depends. Qed.

Lemma permuted_rtc u v : rtc (depends nodes) u v <-> rtc (depends nodes') u v.
Proof. split; apply (rtc_congruence (fun x => x)); intros x y; apply permuted_depends. Qed.

Lemma permuted_expected f : expected_finding nodes f <-> expected_finding nodes' f.
Proof.
  unfold expected_finding, cycle_list, after_cycle. destruct (gf_reason f); try done.
  - setoid_rewrite permuted_tc. by setoid_rewrite permuted_rtc.
  - setoid_rewrite permuted_tc. setoid_rewrite permuted_rtc. by setoid_rewrite permuted_depends.
Qed.

Lemma permuted_acyclic : acyclic nodes <-> acyclic nodes'.
Proof. unfold acyclic. by setoid_rewrite permuted_tc. Qed.

Lemma permuted_well_formed : well_formed nodes -> well_formed nodes'.
Proof.
  intros [H1 H2 H3 H4 H5]. split.
  - intros ->. by apply Permutation_nil_r in Hp.
  - apply permuted_NoDup.
  - intros n. rewrite <- Hp. apply H3.
  - intros n. rewrite <- Hp. apply H4.
  - intros n Hn d Hd. rewrite <- permuted_ids. rewrite <- Hp in Hn. by apply (H5 n).
Qed.
End Permuted.

(** A canonical order that cannot be continued is the only one. *)
Lemma canonical_unique nodes : NoDup (map node_id nodes) -> forall r r' l, canonical nodes (l ++ r) -> canonical nodes (l ++ r') ->
  (forall m, ~ may_follow nodes (l ++ r) m) -> (forall m, ~ may_follow nodes (l ++ r') m) -> r = r'.
Proof.
  intros Hn. induction r as [|n r IH]; intros [|m r'] l Hc Hc' Hm Hm'; [done| | |].
  - exfalso. apply (Hm m). rewrite app_nil_r. by apply (Hc' l m r').
  - exfalso. apply (Hm' n). rewrite app_nil_r. by apply (Hc l n r).
  - destruct (Hc l n r eq_refl) as [Hfn Hln], (Hc' l m r' eq_refl) as [Hfm Hlm].
    assert (E : n = m). { assert (Ee : entry n = entry m) by (by apply before_antisym; [apply Hln|apply Hlm]). injection Ee as _ Ei.
      by apply (node_unique nodes Hn); [apply Hfn|apply Hfm|]. }
    subst m. f_equal. apply (IH r' (l ++ [n])%list); rewrite <- app_assoc; done.
Qed.

Definition distinct (nodes : list DirectedEventNode) : Prop := NoDup (map node_id nodes).

(** The plan does not depend on the order in which distinct nodes are declared: permuted declarations resolve to the same status,
    order, findings and counts. *)
Theorem declaration_order_irrelevant nodes nodes' : distinct nodes -> nodes ≡ₚ nodes' ->
  resolve_directed_event_graph nodes = resolve_directed_event_graph nodes'.
Proof.
  intros Hn Hp. destruct nodes as [|n ns] eqn:En; [by apply Permutation_nil_l in Hp as ->|]. rewrite <- En in *.
  assert (Hne : nodes <> []) by (by rewrite En). assert (Hne' : nodes' <> []) by (intros ->; by apply Permutation_nil_r in Hp).
  pose proof (permuted_NoDup _ _ Hp Hn) as Hn'. rewrite (resolve_declared nodes Hne Hn), (resolve_declared nodes' Hne' Hn').
  pose proof (permuted_findings _ _ Hp) as Hf. pose proof (permuted_edge_count _ _ Hp) as Hc. pose proof (Permutation_length Hp) as Hl.
  pose proof (declared_findings_nil nodes Hne Hn) as Hw.
  destruct (eg_findings (edges_after nodes nodes)) as [|f fs], (eg_findings (edges_after nodes' nodes')) as [|f' fs'];
    [|by apply Permutation_nil_l in Hf|by apply Permutation_nil_r in Hf|].
  - assert (Hwf : well_formed nodes) by (by apply Hw). pose proof (permuted_well_formed _ _ Hp Hn Hwf) as Hwf'.
    destruct (order_or_report_spec nodes Hwf) as (order & Hca & Hmax & Hres), (order_or_report_spec nodes' Hwf') as (order' & Hca' & Hmax' & Hres').
    pose proof (permuted_acyclic _ _ Hp) as Hac.
    destruct Hres as [(Ha & Ho & ->)|(Ha & gs & -> & Hd & _ & Hg)], Hres' as [(Ha' & Ho' & ->)|(Ha' & gs' & -> & Hd' & _ & Hg')];
      [|by destruct Ha'; apply Hac|by destruct Ha; apply Hac|].
    + f_equal. rewrite Hc, Hl. f_equal. apply (canonical_unique nodes' Hn' order order' []); [by apply (permuted_canonical nodes)|done| |done].
      intros m Hm. by apply (Hmax m), (permuted_may_follow nodes nodes' Hp Hn).
    + unfold invalid. rewrite Hc, Hl, (sorted_findings_eq gs gs'); [done|]. apply NoDup_Permutation; [done|done|]. intros g.
      rewrite Hg, Hg'. by apply permuted_expected.
  - unfold invalid. by rewrite Hc, Hl, (sorted_findings_eq _ _ Hf).
Qed.

(** ** Examples *)

Lemma ranked_acyclic nodes (rank : string -> nat) :
  Forall (fun n => Forall (fun d => (rank d < rank (node_id n))%nat) (dependency_node_ids n)) nodes -> acyclic nodes.
Proof.
  intros Hr u Hu. assert (H : forall x y, tc (depends nodes) x y -> (rank x < rank y)%nat); [|by specialize (H u u Hu); lia].
  rewrite Forall_forall in Hr.
  assert (Hone : forall x y, depends nodes x y -> (rank x < rank y)%nat).
  { intros x y (n & Hn & <- & Hx). specialize (Hr n Hn). cbn in Hr. rewrite Forall_forall in Hr. by apply Hr. }
  induction 1 as [x y H|x w y H _ IH]; [by apply Hone|]. specialize (Hone x w H). lia.
Qed.

Lemma checked_well_formed nodes : bool_decide (nodes <> []) = true -> bool_decide (NoDup (map node_id nodes)) = true ->
  eg_findings (edges_after nodes nodes) = [] -> well_formed nodes.
Proof. intros H1%bool_decide_eq_true H2%bool_decide_eq_true H3. by apply declared_findings_nil. Qed.

Definition example_node (id : string) (dependencies : list string) (key : string) : DirectedEventNode :=
  {| node_id := id; dependency_node_ids := dependencies; definition_fingerprint := id; order_key := [key] |}.

(** A spin-off: the cash leg and the target follow the source, the fee follows both. *)
Definition spin_off : list DirectedEventNode :=
  [example_node "FEE" ["CASH"; "TARGET"] "0001"; example_node "TARGET" ["SOURCE"] "0003"; example_node "CASH" ["SOURCE"] "0002";
   example_node "SOURCE" [] "0009"].

(** Two legs that wait for each other, a leg that waits for them and one that does not. *)
Definition deadlocked : list DirectedEventNode :=
  [example_node "B" ["A"] "0001"; example_node "A" ["B"; "D"] "0001"; example_node "C" ["D"; "B"] "0001"; example_node "D" [] "0001"].

Lemma deadlocked_cyclic : ~ acyclic deadlocked.
Proof.
  intros H. apply (H "A"). apply tc_l with "B"; [|apply tc_once]; [exists (example_node "B" ["A"] "0001")|exists (example_node "A" ["B"; "D"] "0001")];
    (split; [by apply (bool_decide_unpack _)|]; split; [done|]; by apply (bool_decide_unpack _)).
Qed.

Lemma every_node_is_ordered_witness :
  resolve_directed_event_graph spin_off =
    Ok {| gp_status := VALID;
          gp_ordered_nodes := [example_node "SOURCE" [] "0009"; example_node "CASH" ["SOURCE"] "0002"; example_node "TARGET" ["SOURCE"] "0003";
                               example_node "FEE" ["CASH"; "TARGET"] "0001"];
          gp_findings := []; gp_declared_node_count := 4; gp_declared_edge_count := 4 |} /\
  exists plan, resolve_directed_event_graph spin_off = Ok plan /\ gp_status plan = VALID /\
    gp_ordered_nodes plan ≡ₚ spin_off /\ least_order spin_off (gp_ordered_nodes plan) /\ gp_declared_node_count plan = Z.of_nat (length spin_off).
Proof.
  split; [reflexivity|]. apply (every_node_is_ordered spin_off); [by apply checked_well_formed|].
  apply (ranked_acyclic spin_off (fun id => if String.eqb id "SOURCE" then 0 else if String.eqb id "FEE" then 2 else 1)%nat).
  apply (bool_decide_unpack _). exact I.
Defined.

Lemma cycles_are_reported_completely_witness :
  resolve_directed_event_graph deadlocked =
    Ok {| gp_status := INVALID; gp_ordered_nodes := [];
          gp_findings :=
            [{| gf_reason := BLOCKED_BY_CYCLE; gf_node_ids := ["C"]; gf_dependency_node_ids := ["B"] |};
             {| gf_reason := DEPENDENCY_CYCLE; gf_node_ids := ["A"; "B"]; gf_dependency_node_ids := [] |}];
          gp_declared_node_count := 4; gp_declared_edge_count := 5 |} /\
  exists plan, resolve_directed_event_graph deadlocked = Ok plan /\ gp_status plan = INVALID /\ gp_ordered_nodes plan = [] /\
    NoDup (gp_findings plan) /\ StronglySorted (fun x y => leb_of finding_compare x y = true) (gp_findings plan) /\
    forall f, f ∈ gp_findings plan <-> expected_finding deadlocked f.
Proof.
  split; [reflexivity|]. apply (cycles_are_reported_completely deadlocked); [by apply checked_well_formed|exact deadlocked_cyclic].
Defined.
