(* ===== verification/Settlement.v ===== *)
(** * Settlement cash

    [transaction/settlement/]: the signed cash an ordinary transaction settles, with its rejections, the
    cash-entry policy, and the cash leg Core generates; and [transaction/redemption/accrued_interest.py],
    the income component of a redemption. *)

From Stdlib Require Import ZArith Lia String.
From stdpp Require Import base tactics list strings.
From S2P Require Import Prelude PyDecimal DecimalFacts PyTime Precision Lineage Registry Transactions Values Position Lots Redemption.

#[local] Open Scope string_scope.
#[local] Open Scope Z_scope.

(** ** Rejections and movements *)

Inductive SettlementCashRejectionReasonCode :=
| SELL_NON_POSITIVE_NET_SETTLEMENT | DIVIDEND_NON_POSITIVE_NET_SETTLEMENT | DIVIDEND_NEGATIVE_WITHHOLDING_TAX
| DIVIDEND_WITHHOLDING_EXCEEDS_GROSS_AMOUNT | INTEREST_NET_RECONCILIATION_MISMATCH | INTEREST_NON_POSITIVE_NET_SETTLEMENT
| INTEREST_NEGATIVE_PRE_FEE_NET | REDEMPTION_NON_POSITIVE_NET_SETTLEMENT.

Definition rejection_code_value (c : SettlementCashRejectionReasonCode) : string :=
  match c with
  | SELL_NON_POSITIVE_NET_SETTLEMENT => "SELL_010_NON_POSITIVE_NET_SETTLEMENT"
  | DIVIDEND_NON_POSITIVE_NET_SETTLEMENT => "DIVIDEND_013_NON_POSITIVE_NET_SETTLEMENT"
  | DIVIDEND_NEGATIVE_WITHHOLDING_TAX => "DIVIDEND_014_NEGATIVE_WITHHOLDING_TAX"
  | DIVIDEND_WITHHOLDING_EXCEEDS_GROSS_AMOUNT => "DIVIDEND_015_WITHHOLDING_EXCEEDS_GROSS_AMOUNT"
  | INTEREST_NET_RECONCILIATION_MISMATCH => "INTEREST_015_NET_RECONCILIATION_MISMATCH"
  | INTEREST_NON_POSITIVE_NET_SETTLEMENT => "INTEREST_017_NON_POSITIVE_NET_SETTLEMENT"
  | INTEREST_NEGATIVE_PRE_FEE_NET => "INTEREST_018_NEGATIVE_PRE_FEE_NET"
  | REDEMPTION_NON_POSITIVE_NET_SETTLEMENT => "REDEMPTION_017_NON_POSITIVE_NET_SETTLEMENT"
  end.

Definition amount_parts (d : decimal) : Z * Z := (dcoeff d, dexp d).

Definition settlement_rejection (c : SettlementCashRejectionReasonCode) (field message : string) (available fee net : decimal) : exc :=
  SettlementCashValidationError (rejection_code_value c) field message (amount_parts available) (amount_parts fee) (amount_parts net).

Record SettlementCashMovement := { sm_signed_amount : decimal; sm_fee_amount : decimal; sm_adjustment_reason : string }.

(** [copy_abs] works without a context. *)
Definition sm_amount (m : SettlementCashMovement) : decimal := Dec (Z.abs (dcoeff (sm_signed_amount m))) (dexp (sm_signed_amount m)).
Definition sm_movement_direction (m : SettlementCashMovement) : string := if dltb dzero (sm_signed_amount m) then "INFLOW" else "OUTFLOW".

Definition SETTLEMENT_CASH_WORKING_PRECISION : Z := 64.
Definition SETTLEMENT_CASH_QUANTUM : decimal := Dec 1 (-10).
Definition settlement_context : context := make_context SETTLEMENT_CASH_WORKING_PRECISION ROUND_HALF_EVEN.

(** [{field: getattr(transaction, field) for field in TRANSACTION_FEE_COMPONENT_FIELDS}]. *)
Definition fee_components (t : BookedTransaction) : list (string * payload) :=
  [("brokerage", optional_decimal (tx_brokerage t)); ("stamp_duty", optional_decimal (tx_stamp_duty t));
   ("exchange_fee", optional_decimal (tx_exchange_fee t)); ("gst", optional_decimal (tx_gst t));
   ("other_fees", optional_decimal (tx_other_fees t))].

Definition resolve_fee_amount (ctx : context) (t : BookedTransaction) : result decimal :=
  fee ← resolve_transaction_trade_fee_in ctx (optional_decimal (tx_trade_fee t)) (fee_components t);
  Ok (Transactions.decimal_or_zero fee).

(** ** Interest *)

Record InterestSettlementEconomics := {
  ie_expected_net_interest_amount : decimal; ie_net_interest_amount : decimal; ie_transaction_fee_amount : decimal;
  ie_settlement_cash_amount : decimal
}.

(** The direction of an INTEREST, income unless it says otherwise. *)
Definition interest_direction_of (t : BookedTransaction) : string :=
  normalize_transaction_control_code (Some (or_text (tx_interest_direction t) "INCOME")).

Definition calculate_interest_settlement_economics (ctx : context) (t : BookedTransaction) : result InterestSettlementEconomics :=
  expected ← calculate_interest_pre_fee_net (tx_gross_transaction_amount t) (tx_withholding_tax_amount t) (tx_other_interest_deductions_amount t);
  let net := default expected (tx_net_interest_amount t) in
  fee ← resolve_fee_amount ctx t;
  cash ← (if String.eqb (interest_direction_of t) "EXPENSE" then dadd ctx net fee else dsub ctx net fee);
  Ok {| ie_expected_net_interest_amount := expected; ie_net_interest_amount := net; ie_transaction_fee_amount := fee;
        ie_settlement_cash_amount := cash |}.

(** ** The income component of a redemption *)

Definition REDEMPTION_ACCRUED_INTEREST_COMPONENT : string := "REDEMPTION_ACCRUED_INTEREST".

Definition redemption_accrued_interest_transaction_id (redemption_transaction_id : string) : string :=
  strip redemption_transaction_id +:+ "-ACCRUED-INTEREST".

Definition is_generated_redemption_accrued_interest (t : BookedTransaction) : bool :=
  let origin_id := strip (or_text (tx_originating_transaction_id t) "") in
  let expected := redemption_accrued_interest_transaction_id origin_id in
  String.eqb (normalize_transaction_control_code (Some (tx_transaction_type t))) "INTEREST"
  && String.eqb (normalize_transaction_control_code (tx_component_type t)) REDEMPTION_ACCRUED_INTEREST_COMPONENT
  && truthy origin_id && String.eqb (strip (tx_transaction_id t)) expected
  && bool_decide (tx_component_id t = Some (expected +:+ ":v1"))
  && in_set (normalize_transaction_control_code (tx_originating_transaction_type t)) REDEMPTION_TRANSACTION_TYPES.

(** ** Movements per transaction type *)

Definition calculate_positive_proceeds_movement (t : BookedTransaction) (available fee : decimal) (code : SettlementCashRejectionReasonCode)
  (adjustment_reason deduction_description : string) : result SettlementCashMovement :=
  net ← dsub settlement_context available fee;
  if dleb net dzero then
    Raise (settlement_rejection code "trade_fee"
      (normalize_transaction_control_code (Some (tx_transaction_type t)) +:+ " settlement cash must remain greater than zero after " +:+
       deduction_description +:+ ".") available fee net)
  else Ok {| sm_signed_amount := net; sm_fee_amount := fee; sm_adjustment_reason := adjustment_reason |}.

Definition calculate_buy_movement (t : BookedTransaction) (fee : decimal) : result SettlementCashMovement :=
  total ← dadd settlement_context (tx_gross_transaction_amount t) fee;
  signed ← dneg settlement_context total;
  Ok {| sm_signed_amount := signed; sm_fee_amount := fee; sm_adjustment_reason := "BUY_SETTLEMENT" |}.

Definition calculate_sell_movement (t : BookedTransaction) (fee : decimal) : result SettlementCashMovement :=
  calculate_positive_proceeds_movement t (tx_gross_transaction_amount t) fee SELL_NON_POSITIVE_NET_SETTLEMENT "SELL_SETTLEMENT" "transaction fees".

Definition redemption_principal (t : BookedTransaction) : result decimal :=
  match tx_principal_proceeds_local t with
  | Some principal => Ok principal
  | None =>
      raw ← calculate_redemption_principal_proceeds_local (tx_quantity t) (tx_price t);
      quantize settlement_context ROUND_HALF_EVEN raw (dexp SETTLEMENT_CASH_QUANTUM)
  end.

Definition calculate_redemption_movement (t : BookedTransaction) (fee : decimal) : result SettlementCashMovement :=
  principal ← redemption_principal t;
  gross ← dadd settlement_context principal (Transactions.decimal_or_zero (tx_accrued_interest_proceeds_local t));
  after_fees ← dsub settlement_context gross (Transactions.decimal_or_zero (tx_embedded_fee_amount_local t));
  available ← dsub settlement_context after_fees (Transactions.decimal_or_zero (tx_embedded_tax_amount_local t));
  net ← dsub settlement_context available fee;
  if deqb net dzero then Ok {| sm_signed_amount := dzero; sm_fee_amount := fee; sm_adjustment_reason := "REDEMPTION_SETTLEMENT" |}
  else calculate_positive_proceeds_movement t available fee REDEMPTION_NON_POSITIVE_NET_SETTLEMENT "REDEMPTION_SETTLEMENT"
         "embedded fees, embedded taxes, and transaction fees".

Definition calculate_dividend_movement (t : BookedTransaction) (fee : decimal) : result SettlementCashMovement :=
  let gross := tx_gross_transaction_amount t in
  let withholding := Transactions.decimal_or_zero (tx_withholding_tax_amount t) in
  available ← dsub settlement_context gross withholding;
  net ← dsub settlement_context available fee;
  if dltb withholding dzero then
    Raise (settlement_rejection DIVIDEND_NEGATIVE_WITHHOLDING_TAX "withholding_tax_amount"
      "DIVIDEND withholding_tax_amount must be greater than or equal to zero." available fee net)
  else if dltb dzero gross && dltb gross withholding then
    Raise (settlement_rejection DIVIDEND_WITHHOLDING_EXCEEDS_GROSS_AMOUNT "withholding_tax_amount"
      "DIVIDEND withholding_tax_amount must not exceed gross_transaction_amount." available fee net)
  else if deqb available dzero then
    Raise (settlement_rejection DIVIDEND_NON_POSITIVE_NET_SETTLEMENT "withholding_tax_amount"
      "DIVIDEND settlement cash must remain greater than zero after withholding tax and transaction fees." available fee net)
  else calculate_positive_proceeds_movement t available fee DIVIDEND_NON_POSITIVE_NET_SETTLEMENT "DIVIDEND_SETTLEMENT"
         "withholding tax and transaction fees".

Definition calculate_interest_movement (t : BookedTransaction) (fee : decimal) : result SettlementCashMovement :=
  economics ← calculate_interest_settlement_economics settlement_context t;
  let expected := ie_expected_net_interest_amount economics in
  let cash := ie_settlement_cash_amount economics in
  let expense := String.eqb (interest_direction_of t) "EXPENSE" in
  if dltb expected dzero then
    Raise (settlement_rejection INTEREST_NEGATIVE_PRE_FEE_NET "withholding_tax_amount,other_interest_deductions_amount"
      "INTEREST deductions must not exceed gross_transaction_amount before transaction fees." expected fee cash)
  else if match tx_net_interest_amount t with Some net => negb (deqb net expected) | None => false end then
    expected_settlement ← (if expense then dadd settlement_context expected fee else dsub settlement_context expected fee);
    Raise (settlement_rejection INTEREST_NET_RECONCILIATION_MISMATCH "net_interest_amount"
      ("net_interest_amount must equal gross_transaction_amount - withholding_tax_amount - " +:+
       "other_interest_deductions_amount before transaction fees.") expected fee expected_settlement)
  else if deqb cash dzero && is_generated_redemption_accrued_interest t then
    Ok {| sm_signed_amount := dzero; sm_fee_amount := fee; sm_adjustment_reason := "REDEMPTION_ACCRUED_INTEREST" |}
  else if dleb cash dzero then
    Raise (settlement_rejection INTEREST_NON_POSITIVE_NET_SETTLEMENT "trade_fee"
      "INTEREST settlement cash must remain greater than zero after deductions and transaction fees."
      (ie_net_interest_amount economics) fee cash)
  else
    signed ← (if expense then dneg settlement_context cash else Ok cash);
    Ok {| sm_signed_amount := signed; sm_fee_amount := fee;
          sm_adjustment_reason := if expense then "INTEREST_CHARGE_SETTLEMENT" else "INTEREST_SETTLEMENT" |}.

Definition SETTLEMENT_CASH_RESOLVERS : list (string * (BookedTransaction -> decimal -> result SettlementCashMovement)) :=
  [("BUY", calculate_buy_movement); ("SELL", calculate_sell_movement); ("DIVIDEND", calculate_dividend_movement);
   ("INTEREST", calculate_interest_movement); ("MATURITY_REDEMPTION", calculate_redemption_movement);
   ("CALL_REDEMPTION", calculate_redemption_movement); ("PARTIAL_REDEMPTION", calculate_redemption_movement)].

Definition ORDINARY_SETTLEMENT_TRANSACTION_TYPES : list string := map fst SETTLEMENT_CASH_RESOLVERS.

Definition calculate_settlement_cash_movement (t : BookedTransaction) : result SettlementCashMovement :=
  match od_get (normalize_transaction_control_code (Some (tx_transaction_type t))) SETTLEMENT_CASH_RESOLVERS with
  | None => Raise (ValueError (tx_transaction_type t +:+ " has no ordinary settlement cash policy"))
  | Some resolver => fee ← resolve_fee_amount settlement_context t; resolver t fee
  end.

(** ** Cash-entry policy *)

Inductive CashEntryMode := AUTO_GENERATE | UPSTREAM_PROVIDED.

#[export] Instance cash_entry_mode_eq_dec : EqDecision CashEntryMode.
Proof. solve_decision. Defined.

Definition PORTFOLIO_LEVEL_CASH_FLOW_TRANSACTION_TYPES : list string :=
  production_transaction_types_for_lifecycle_families ["cash_movement"; "expense"; "transfer"].

Definition resolve_cash_entry_mode (value : option string) : result CashEntryMode :=
  let normalized := normalize_transaction_control_code (Some (or_text value "AUTO_GENERATE")) in
  if String.eqb normalized "AUTO_GENERATE" then Ok AUTO_GENERATE
  else if String.eqb normalized "UPSTREAM_PROVIDED" then Ok UPSTREAM_PROVIDED
  else Raise (ValueError "Unsupported cash_entry_mode. Expected AUTO_GENERATE or UPSTREAM_PROVIDED.").

Definition is_upstream_provided_cash_entry_mode (value : option string) : result bool :=
  mode ← resolve_cash_entry_mode value; Ok (bool_decide (mode = UPSTREAM_PROVIDED)).

(** [settlement cash is exactly zero], which only a redemption may be. *)
Definition settles_nothing (t : BookedTransaction) : result bool :=
  movement ← calculate_settlement_cash_movement t; Ok (deqb (sm_signed_amount movement) dzero).

Definition is_redemption_definition (d : option TransactionTypeDefinition) : bool :=
  match d with Some d => String.eqb (lifecycle_family d) "redemption" | None => false end.

Definition allows_omitted_upstream_cash_leg (t : BookedTransaction) : result bool :=
  upstream ← is_upstream_provided_cash_entry_mode (tx_cash_entry_mode t);
  if negb upstream then Ok false else
  if is_redemption_definition (get_transaction_type_definition (tx_transaction_type t)) then settles_nothing t else Ok false.

Definition is_portfolio_level_cash_flow (transaction_type : option string) : bool :=
  in_set (normalize_transaction_control_code transaction_type) PORTFOLIO_LEVEL_CASH_FLOW_TRANSACTION_TYPES.

Definition assert_cash_entry_mode_supported (t : BookedTransaction) : result unit :=
  let definition := get_transaction_type_definition (tx_transaction_type t) in
  let default_mode := match definition with Some d => default_cash_entry_mode d | None => None end in
  if match tx_cash_entry_mode t, default_mode with None, None => true | _, _ => false end then Ok tt else
  mode ← resolve_cash_entry_mode (if truthy (or_text (tx_cash_entry_mode t) "") then tx_cash_entry_mode t else default_mode);
  if is_portfolio_level_cash_flow (Some (tx_transaction_type t)) then
    raise_if (bool_decide (mode = AUTO_GENERATE))
      (ValueError ("AUTO_GENERATE cash_entry_mode is not supported for portfolio-level flow transaction types (" +:+
        join ", " (stable_sort string_leb PORTFOLIO_LEVEL_CASH_FLOW_TRANSACTION_TYPES) +:+ ")."))
  else if is_redemption_definition definition && bool_decide (default_mode = Some "AUTO_GENERATE") && bool_decide (mode = AUTO_GENERATE)
          && negb (truthy (strip (or_text (tx_settlement_cash_account_id t) ""))) then
    nothing ← settles_nothing t;
    raise_if (negb nothing) (ValueError ("settlement_cash_account_id is required when cash_entry_mode is AUTO_GENERATE for " +:+
      upper (strip (tx_transaction_type t)) +:+ "."))
  else Ok tt.

(** ** The generated cash leg *)

Definition ADJUSTMENT_TRANSACTION_TYPE : string := "ADJUSTMENT".
Definition GENERATED_CASH_LEG_TRANSACTION_TYPES : list string := production_transaction_types_for_generated_cash_legs.
Definition REDEMPTION_SETTLEMENT_TRANSACTION_TYPES : list string := production_transaction_types_for_lifecycle_families ["redemption"].

Definition should_generate_settlement_cash_leg (t : BookedTransaction) : result bool :=
  match tx_cash_entry_mode t with
  | None => Ok false
  | Some _ =>
      mode ← resolve_cash_entry_mode (tx_cash_entry_mode t);
      let transaction_type := normalize_transaction_control_code (Some (tx_transaction_type t)) in
      if negb (bool_decide (mode = AUTO_GENERATE) && in_set transaction_type GENERATED_CASH_LEG_TRANSACTION_TYPES
               && truthy (strip (or_text (tx_settlement_cash_account_id t) ""))) then Ok false
      else if in_set transaction_type REDEMPTION_SETTLEMENT_TRANSACTION_TYPES then nothing ← settles_nothing t; Ok (negb nothing)
      else Ok true
  end.

Definition require_generated_cash_leg (t : BookedTransaction) : result unit :=
  generate ← should_generate_settlement_cash_leg t;
  raise_if (negb generate) (GeneratedCashLegError "cash_entry_mode" "Event is not configured for AUTO_GENERATE adjustment cash-leg creation.").

(** The guard on an unbounded policy cannot fire: the policy is a constant. *)
Definition generated_cash_persisted_rate (rate : option decimal) : result (option decimal) :=
  match rate with
  | None => Ok None
  | Some r =>
      let policy := TRANSACTION_PERSISTENCE_PRECISION_V1 in
      _ ← require_exact policy (Finite r) "transaction_fx_rate";
      match dp_scale policy, dp_precision policy with
      | Some scale, Some precision =>
          quantized ← quantize (make_context (Z.max precision (cp_working_precision TRANSACTION_COST_LEDGER_OUTPUT_V1)) ROUND_HALF_EVEN)
                        ROUND_HALF_EVEN r (- scale);
          Ok (Some quantized)
      | _, _ => Raise (RuntimeError "Generated cash requires a bounded transaction persistence policy")
      end
  end.

Definition resolve_cash_instrument_id (t : BookedTransaction) : result string :=
  let id := or_text (tx_settlement_cash_instrument_id t) (or_text (tx_settlement_cash_account_id t) "") in
  if truthy id then Ok id
  else Raise (GeneratedCashLegError "settlement_cash_instrument_id" "Unable to resolve settlement cash instrument identifier.").

Definition resolve_generated_linkage (t : BookedTransaction) (transaction_type : string) : string * string :=
  (or_text (tx_economic_event_id t) ("EVT-" +:+ transaction_type +:+ "-" +:+ tx_portfolio_id t +:+ "-" +:+ tx_transaction_id t),
   or_text (tx_linked_transaction_group_id t) ("LTG-" +:+ transaction_type +:+ "-" +:+ tx_portfolio_id t +:+ "-" +:+ tx_transaction_id t)).

Definition optional_isoformat (d : option datetime) : payload := match d with Some d => PStr (datetime_isoformat d) | None => PNone end.

Definition generated_cash_lineage_input (t : BookedTransaction) (transaction_type settlement_at : string) (signed_settlement_amount : decimal)
  : payload :=
  PMap [("source_transaction_id", PStr (tx_transaction_id t)); ("source_transaction_type", PStr transaction_type);
    ("source_transaction_date", PStr (datetime_isoformat (tx_transaction_date t)));
    ("source_settlement_date", optional_isoformat (tx_settlement_date t)); ("effective_settlement_at", PStr settlement_at);
    ("tenant_id", optional_text (tx_tenant_id t)); ("portfolio_id", PStr (tx_portfolio_id t));
    decimal_entry "gross_transaction_amount" (tx_gross_transaction_amount t); decimal_entry "quantity" (tx_quantity t);
    decimal_entry "price" (tx_price t); ("fee_components", PMap (fee_components t));
    ("withholding_tax_amount", optional_decimal (tx_withholding_tax_amount t));
    ("other_interest_deductions_amount", optional_decimal (tx_other_interest_deductions_amount t));
    ("net_interest_amount", optional_decimal (tx_net_interest_amount t)); ("interest_direction", optional_text (tx_interest_direction t));
    ("principal_proceeds_local", optional_decimal (tx_principal_proceeds_local t));
    ("accrued_interest_proceeds_local", optional_decimal (tx_accrued_interest_proceeds_local t));
    ("embedded_fee_amount_local", optional_decimal (tx_embedded_fee_amount_local t));
    ("embedded_tax_amount_local", optional_decimal (tx_embedded_tax_amount_local t));
    ("trade_currency", PStr (tx_trade_currency t)); ("currency", PStr (tx_currency t));
    ("transaction_fx_rate", optional_decimal (tx_transaction_fx_rate t));
    ("transaction_fx_rate_origin", optional_text (tx_transaction_fx_rate_origin t));
    ("settlement_cash_account_id", optional_text (tx_settlement_cash_account_id t));
    ("resolved_settlement_cash_instrument_id", optional_text (tx_settlement_cash_instrument_id t));
    ("economic_event_id", optional_text (tx_economic_event_id t));
    ("linked_transaction_group_id", optional_text (tx_linked_transaction_group_id t));
    ("source_calculation_lineage", optional_lineage (tx_calculation_lineage t));
    decimal_entry "signed_settlement_amount" signed_settlement_amount].

Definition generated_cash_lineage_output (t : BookedTransaction) : payload :=
  PMap [("transaction_id", PStr (tx_transaction_id t)); ("portfolio_id", PStr (tx_portfolio_id t)); ("tenant_id", optional_text (tx_tenant_id t));
    ("security_id", PStr (tx_security_id t)); ("transaction_date", PStr (datetime_isoformat (tx_transaction_date t)));
    ("settlement_date", optional_isoformat (tx_settlement_date t)); decimal_entry "gross_transaction_amount" (tx_gross_transaction_amount t);
    ("gross_cost", optional_decimal (tx_gross_cost t)); ("net_cost", optional_decimal (tx_net_cost t));
    ("net_cost_local", optional_decimal (tx_net_cost_local t)); ("trade_currency", PStr (tx_trade_currency t));
    ("currency", PStr (tx_currency t)); ("transaction_fx_rate", optional_decimal (tx_transaction_fx_rate t));
    ("transaction_fx_rate_origin", optional_text (tx_transaction_fx_rate_origin t));
    ("settlement_cash_account_id", optional_text (tx_settlement_cash_account_id t));
    ("settlement_cash_instrument_id", optional_text (tx_settlement_cash_instrument_id t));
    ("movement_direction", optional_text (tx_movement_direction t)); ("adjustment_reason", optional_text (tx_adjustment_reason t));
    ("economic_event_id", optional_text (tx_economic_event_id t));
    ("linked_transaction_group_id", optional_text (tx_linked_transaction_group_id t));
    ("originating_transaction_id", optional_text (tx_originating_transaction_id t));
    ("originating_transaction_type", optional_text (tx_originating_transaction_type t))].

(** The record of the leg, before its receipt. *)
Definition cash_leg_record (t : BookedTransaction) (cash_instrument_id : string) (settlement_at : datetime) (movement : SettlementCashMovement)
  (persisted_fx_rate net_cost : option decimal) (net_cost_local : decimal) (linkage : string * string) (transaction_type : string)
  : BookedTransaction :=
  {| tx_transaction_id := tx_transaction_id t +:+ "-CASHLEG"; tx_portfolio_id := tx_portfolio_id t; tx_instrument_id := cash_instrument_id;
     tx_security_id := cash_instrument_id; tx_transaction_date := settlement_at; tx_transaction_type := ADJUSTMENT_TRANSACTION_TYPE; tx_quantity := dzero;
     tx_price := dzero; tx_gross_transaction_amount := sm_amount movement; tx_trade_currency := tx_trade_currency t; tx_currency := tx_currency t;
     tx_trade_fee := Some dzero; tx_brokerage := None; tx_stamp_duty := None; tx_exchange_fee := None; tx_gst := None; tx_other_fees := None;
     tx_settlement_date := Some settlement_at; tx_net_cost := net_cost; tx_gross_cost := net_cost; tx_realized_gain_loss := None;
     tx_transaction_fx_rate := persisted_fx_rate; tx_transaction_fx_rate_origin := tx_transaction_fx_rate_origin t;
     tx_net_cost_local := Some net_cost_local; tx_realized_gain_loss_local := None; tx_economic_event_id := Some (fst linkage);
     tx_linked_transaction_group_id := Some (snd linkage); tx_calculation_policy_id := tx_calculation_policy_id t;
     tx_calculation_policy_version := tx_calculation_policy_version t; tx_source_system := tx_source_system t; tx_source_record_id := None;
     tx_source_batch_id := None; tx_observed_at := None; tx_cash_entry_mode := Some "AUTO_GENERATE"; tx_external_cash_transaction_id := None;
     tx_settlement_cash_account_id := tx_settlement_cash_account_id t; tx_settlement_cash_instrument_id := tx_settlement_cash_instrument_id t;
     tx_movement_direction := Some (sm_movement_direction movement); tx_originating_transaction_id := Some (tx_transaction_id t);
     tx_originating_transaction_type := Some transaction_type; tx_adjustment_reason := Some (sm_adjustment_reason movement);
     tx_link_type := Some (transaction_type +:+ "_TO_CASH"); tx_reconciliation_key := tx_reconciliation_key t; tx_interest_direction := None;
     tx_withholding_tax_amount := None; tx_other_interest_deductions_amount := None; tx_net_interest_amount := None; tx_component_type := None;
     tx_component_id := None; tx_linked_component_ids := None; tx_fx_cash_leg_role := None; tx_linked_fx_cash_leg_id := None;
     tx_settlement_status := None; tx_pair_base_currency := None; tx_pair_quote_currency := None; tx_fx_rate_quote_convention := None;
     tx_buy_currency := None; tx_sell_currency := None; tx_buy_amount := None; tx_sell_amount := None; tx_contract_rate := None;
     tx_fx_contract_id := None; tx_fx_contract_open_transaction_id := None; tx_fx_contract_close_transaction_id := None;
     tx_settlement_of_fx_contract_id := None; tx_swap_event_id := None; tx_near_leg_group_id := None; tx_far_leg_group_id := None;
     tx_spot_exposure_model := None; tx_fx_realized_pnl_mode := None; tx_allocated_cost_basis_local := None; tx_allocated_cost_basis_base := None;
     tx_realized_capital_pnl_local := None; tx_realized_fx_pnl_local := None; tx_realized_total_pnl_local := None; tx_realized_capital_pnl_base := None;
     tx_realized_fx_pnl_base := None; tx_realized_total_pnl_base := None; tx_parent_transaction_reference := None; tx_linked_parent_event_id := None;
     tx_parent_event_reference := None; tx_child_role := None; tx_child_sequence_hint := None; tx_dependency_reference_ids := None;
     tx_source_instrument_id := None; tx_target_instrument_id := None; tx_source_transaction_reference := None; tx_target_transaction_reference := None;
     tx_external_destination_reference := None; tx_linked_cash_transaction_id := None; tx_redemption_price_type := None; tx_old_factor := None;
     tx_new_factor := None; tx_principal_proceeds_local := None; tx_accrued_interest_proceeds_local := None; tx_embedded_fee_amount_local := None;
     tx_embedded_tax_amount_local := None; tx_has_synthetic_flow := None; tx_synthetic_flow_effective_date := None;
     tx_synthetic_flow_amount_local := None; tx_synthetic_flow_currency := None; tx_synthetic_flow_amount_base := None;
     tx_synthetic_flow_fx_rate_to_base := None; tx_synthetic_flow_price_used := None; tx_synthetic_flow_quantity_used := None;
     tx_synthetic_flow_valuation_method := None; tx_synthetic_flow_classification := None; tx_synthetic_flow_price_source := None;
     tx_synthetic_flow_fx_source := None; tx_synthetic_flow_source := None; tx_created_at := None; tx_epoch := None; tx_tenant_id := tx_tenant_id t;
     tx_calculation_lineage := None; tx_lot_restatement := None; tx_source_lot_order_quantity := None; tx_source_lot_original_quantity := None |}.

(** [replace(transaction, calculation_lineage=lineage)]. *)
Definition replace_lineage (lineage : CalculationLineage) (t : BookedTransaction) : BookedTransaction :=
  {| tx_transaction_id := tx_transaction_id t; tx_portfolio_id := tx_portfolio_id t; tx_instrument_id := tx_instrument_id t;
     tx_security_id := tx_security_id t; tx_transaction_date := tx_transaction_date t; tx_transaction_type := tx_transaction_type t;
     tx_quantity := tx_quantity t; tx_price := tx_price t; tx_gross_transaction_amount := tx_gross_transaction_amount t;
     tx_trade_currency := tx_trade_currency t; tx_currency := tx_currency t; tx_trade_fee := tx_trade_fee t; tx_brokerage := tx_brokerage t;
     tx_stamp_duty := tx_stamp_duty t; tx_exchange_fee := tx_exchange_fee t; tx_gst := tx_gst t; tx_other_fees := tx_other_fees t;
     tx_settlement_date := tx_settlement_date t; tx_net_cost := tx_net_cost t; tx_gross_cost := tx_gross_cost t;
     tx_realized_gain_loss := tx_realized_gain_loss t; tx_transaction_fx_rate := tx_transaction_fx_rate t;
     tx_transaction_fx_rate_origin := tx_transaction_fx_rate_origin t; tx_net_cost_local := tx_net_cost_local t;
     tx_realized_gain_loss_local := tx_realized_gain_loss_local t; tx_economic_event_id := tx_economic_event_id t;
     tx_linked_transaction_group_id := tx_linked_transaction_group_id t; tx_calculation_policy_id := tx_calculation_policy_id t;
     tx_calculation_policy_version := tx_calculation_policy_version t; tx_source_system := tx_source_system t;
     tx_source_record_id := tx_source_record_id t; tx_source_batch_id := tx_source_batch_id t; tx_observed_at := tx_observed_at t;
     tx_cash_entry_mode := tx_cash_entry_mode t; tx_external_cash_transaction_id := tx_external_cash_transaction_id t;
     tx_settlement_cash_account_id := tx_settlement_cash_account_id t; tx_settlement_cash_instrument_id := tx_settlement_cash_instrument_id t;
     tx_movement_direction := tx_movement_direction t; tx_originating_transaction_id := tx_originating_transaction_id t;
     tx_originating_transaction_type := tx_originating_transaction_type t; tx_adjustment_reason := tx_adjustment_reason t; tx_link_type := tx_link_type t;
     tx_reconciliation_key := tx_reconciliation_key t; tx_interest_direction := tx_interest_direction t;
     tx_withholding_tax_amount := tx_withholding_tax_amount t; tx_other_interest_deductions_amount := tx_other_interest_deductions_amount t;
     tx_net_interest_amount := tx_net_interest_amount t; tx_component_type := tx_component_type t; tx_component_id := tx_component_id t;
     tx_linked_component_ids := tx_linked_component_ids t; tx_fx_cash_leg_role := tx_fx_cash_leg_role t;
     tx_linked_fx_cash_leg_id := tx_linked_fx_cash_leg_id t; tx_settlement_status := tx_settlement_status t;
     tx_pair_base_currency := tx_pair_base_currency t; tx_pair_quote_currency := tx_pair_quote_currency t;
     tx_fx_rate_quote_convention := tx_fx_rate_quote_convention t; tx_buy_currency := tx_buy_currency t; tx_sell_currency := tx_sell_currency t;
     tx_buy_amount := tx_buy_amount t; tx_sell_amount := tx_sell_amount t; tx_contract_rate := tx_contract_rate t;
     tx_fx_contract_id := tx_fx_contract_id t; tx_fx_contract_open_transaction_id := tx_fx_contract_open_transaction_id t;
     tx_fx_contract_close_transaction_id := tx_fx_contract_close_transaction_id t; tx_settlement_of_fx_contract_id := tx_settlement_of_fx_contract_id t;
     tx_swap_event_id := tx_swap_event_id t; tx_near_leg_group_id := tx_near_leg_group_id t; tx_far_leg_group_id := tx_far_leg_group_id t;
     tx_spot_exposure_model := tx_spot_exposure_model t; tx_fx_realized_pnl_mode := tx_fx_realized_pnl_mode t;
     tx_allocated_cost_basis_local := tx_allocated_cost_basis_local t; tx_allocated_cost_basis_base := tx_allocated_cost_basis_base t;
     tx_realized_capital_pnl_local := tx_realized_capital_pnl_local t; tx_realized_fx_pnl_local := tx_realized_fx_pnl_local t;
     tx_realized_total_pnl_local := tx_realized_total_pnl_local t; tx_realized_capital_pnl_base := tx_realized_capital_pnl_base t;
     tx_realized_fx_pnl_base := tx_realized_fx_pnl_base t; tx_realized_total_pnl_base := tx_realized_total_pnl_base t;
     tx_parent_transaction_reference := tx_parent_transaction_reference t; tx_linked_parent_event_id := tx_linked_parent_event_id t;
     tx_parent_event_reference := tx_parent_event_reference t; tx_child_role := tx_child_role t; tx_child_sequence_hint := tx_child_sequence_hint t;
     tx_dependency_reference_ids := tx_dependency_reference_ids t; tx_source_instrument_id := tx_source_instrument_id t;
     tx_target_instrument_id := tx_target_instrument_id t; tx_source_transaction_reference := tx_source_transaction_reference t;
     tx_target_transaction_reference := tx_target_transaction_reference t; tx_external_destination_reference := tx_external_destination_reference t;
     tx_linked_cash_transaction_id := tx_linked_cash_transaction_id t; tx_redemption_price_type := tx_redemption_price_type t;
     tx_old_factor := tx_old_factor t; tx_new_factor := tx_new_factor t; tx_principal_proceeds_local := tx_principal_proceeds_local t;
     tx_accrued_interest_proceeds_local := tx_accrued_interest_proceeds_local t; tx_embedded_fee_amount_local := tx_embedded_fee_amount_local t;
     tx_embedded_tax_amount_local := tx_embedded_tax_amount_local t; tx_has_synthetic_flow := tx_has_synthetic_flow t;
     tx_synthetic_flow_effective_date := tx_synthetic_flow_effective_date t; tx_synthetic_flow_amount_local := tx_synthetic_flow_amount_local t;
     tx_synthetic_flow_currency := tx_synthetic_flow_currency t; tx_synthetic_flow_amount_base := tx_synthetic_flow_amount_base t;
     tx_synthetic_flow_fx_rate_to_base := tx_synthetic_flow_fx_rate_to_base t; tx_synthetic_flow_price_used := tx_synthetic_flow_price_used t;
     tx_synthetic_flow_quantity_used := tx_synthetic_flow_quantity_used t; tx_synthetic_flow_valuation_method := tx_synthetic_flow_valuation_method t;
     tx_synthetic_flow_classification := tx_synthetic_flow_classification t; tx_synthetic_flow_price_source := tx_synthetic_flow_price_source t;
     tx_synthetic_flow_fx_source := tx_synthetic_flow_fx_source t; tx_synthetic_flow_source := tx_synthetic_flow_source t;
     tx_created_at := tx_created_at t; tx_epoch := tx_epoch t; tx_tenant_id := tx_tenant_id t; tx_calculation_lineage := Some lineage;
     tx_lot_restatement := tx_lot_restatement t; tx_source_lot_order_quantity := tx_source_lot_order_quantity t;
     tx_source_lot_original_quantity := tx_source_lot_original_quantity t |}.

(** The record of the income component of a redemption. *)
Definition accrued_interest_record (t : BookedTransaction) (transaction_id component_id transaction_type : string) (accrued_interest : decimal)
  (linked_cash_transaction_id : option string) (lineage : CalculationLineage) : BookedTransaction :=
  {| tx_transaction_id := transaction_id; tx_portfolio_id := tx_portfolio_id t; tx_instrument_id := tx_instrument_id t;
     tx_security_id := tx_security_id t; tx_transaction_date := tx_transaction_date t; tx_transaction_type := "INTEREST"; tx_quantity := dzero;
     tx_price := dzero; tx_gross_transaction_amount := accrued_interest; tx_trade_currency := tx_trade_currency t; tx_currency := tx_currency t;
     tx_trade_fee := Some dzero; tx_brokerage := None; tx_stamp_duty := None; tx_exchange_fee := None; tx_gst := None; tx_other_fees := None;
     tx_settlement_date := tx_settlement_date t; tx_net_cost := None; tx_gross_cost := None; tx_realized_gain_loss := None;
     tx_transaction_fx_rate := None; tx_transaction_fx_rate_origin := None; tx_net_cost_local := None; tx_realized_gain_loss_local := None;
     tx_economic_event_id := tx_economic_event_id t; tx_linked_transaction_group_id := tx_linked_transaction_group_id t;
     tx_calculation_policy_id := tx_calculation_policy_id t; tx_calculation_policy_version := tx_calculation_policy_version t;
     tx_source_system := tx_source_system t; tx_source_record_id := None; tx_source_batch_id := None; tx_observed_at := None; tx_cash_entry_mode := None;
     tx_external_cash_transaction_id := linked_cash_transaction_id; tx_settlement_cash_account_id := None; tx_settlement_cash_instrument_id := None;
     tx_movement_direction := Some "INFLOW"; tx_originating_transaction_id := Some (tx_transaction_id t);
     tx_originating_transaction_type := Some transaction_type; tx_adjustment_reason := Some REDEMPTION_ACCRUED_INTEREST_COMPONENT;
     tx_link_type := Some "REDEMPTION_TO_ACCRUED_INTEREST"; tx_reconciliation_key := None; tx_interest_direction := Some "INCOME";
     tx_withholding_tax_amount := Some dzero; tx_other_interest_deductions_amount := Some dzero; tx_net_interest_amount := Some accrued_interest;
     tx_component_type := Some REDEMPTION_ACCRUED_INTEREST_COMPONENT; tx_component_id := Some component_id;
     tx_linked_component_ids := match linked_cash_transaction_id with Some linked => Some [linked] | None => None end; tx_fx_cash_leg_role := None;
     tx_linked_fx_cash_leg_id := None; tx_settlement_status := None; tx_pair_base_currency := None; tx_pair_quote_currency := None;
     tx_fx_rate_quote_convention := None; tx_buy_currency := None; tx_sell_currency := None; tx_buy_amount := None; tx_sell_amount := None;
     tx_contract_rate := None; tx_fx_contract_id := None; tx_fx_contract_open_transaction_id := None; tx_fx_contract_close_transaction_id := None;
     tx_settlement_of_fx_contract_id := None; tx_swap_event_id := None; tx_near_leg_group_id := None; tx_far_leg_group_id := None;
     tx_spot_exposure_model := None; tx_fx_realized_pnl_mode := None; tx_allocated_cost_basis_local := None; tx_allocated_cost_basis_base := None;
     tx_realized_capital_pnl_local := None; tx_realized_fx_pnl_local := None; tx_realized_total_pnl_local := None; tx_realized_capital_pnl_base := None;
     tx_realized_fx_pnl_base := None; tx_realized_total_pnl_base := None; tx_parent_transaction_reference := Some (tx_transaction_id t);
     tx_linked_parent_event_id := None; tx_parent_event_reference := tx_parent_event_reference t; tx_child_role := None; tx_child_sequence_hint := None;
     tx_dependency_reference_ids := None; tx_source_instrument_id := None; tx_target_instrument_id := None; tx_source_transaction_reference := None;
     tx_target_transaction_reference := None; tx_external_destination_reference := None; tx_linked_cash_transaction_id := None;
     tx_redemption_price_type := None; tx_old_factor := None; tx_new_factor := None; tx_principal_proceeds_local := None;
     tx_accrued_interest_proceeds_local := None; tx_embedded_fee_amount_local := None; tx_embedded_tax_amount_local := None;
     tx_has_synthetic_flow := None; tx_synthetic_flow_effective_date := None; tx_synthetic_flow_amount_local := None; tx_synthetic_flow_currency := None;
     tx_synthetic_flow_amount_base := None; tx_synthetic_flow_fx_rate_to_base := None; tx_synthetic_flow_price_used := None;
     tx_synthetic_flow_quantity_used := None; tx_synthetic_flow_valuation_method := None; tx_synthetic_flow_classification := None;
     tx_synthetic_flow_price_source := None; tx_synthetic_flow_fx_source := None; tx_synthetic_flow_source := None; tx_created_at := None;
     tx_epoch := tx_epoch t; tx_tenant_id := tx_tenant_id t; tx_calculation_lineage := Some lineage; tx_lot_restatement := None;
     tx_source_lot_order_quantity := None; tx_source_lot_original_quantity := None |}.

(** [replace(prior_component, ...)] with what the corrected source says. *)
Definition neutralized_record (source t : BookedTransaction) (lineage : CalculationLineage) : BookedTransaction :=
  {| tx_transaction_id := tx_transaction_id t; tx_portfolio_id := tx_portfolio_id t; tx_instrument_id := tx_instrument_id t;
     tx_security_id := tx_security_id t; tx_transaction_date := tx_transaction_date t; tx_transaction_type := tx_transaction_type t;
     tx_quantity := tx_quantity t; tx_price := tx_price t; tx_gross_transaction_amount := dzero; tx_trade_currency := tx_trade_currency t;
     tx_currency := tx_currency t; tx_trade_fee := tx_trade_fee t; tx_brokerage := tx_brokerage t; tx_stamp_duty := tx_stamp_duty t;
     tx_exchange_fee := tx_exchange_fee t; tx_gst := tx_gst t; tx_other_fees := tx_other_fees t; tx_settlement_date := tx_settlement_date t;
     tx_net_cost := tx_net_cost t; tx_gross_cost := tx_gross_cost t; tx_realized_gain_loss := tx_realized_gain_loss t;
     tx_transaction_fx_rate := tx_transaction_fx_rate t; tx_transaction_fx_rate_origin := tx_transaction_fx_rate_origin t;
     tx_net_cost_local := tx_net_cost_local t; tx_realized_gain_loss_local := tx_realized_gain_loss_local t;
     tx_economic_event_id := tx_economic_event_id source; tx_linked_transaction_group_id := tx_linked_transaction_group_id source;
     tx_calculation_policy_id := tx_calculation_policy_id t; tx_calculation_policy_version := tx_calculation_policy_version t;
     tx_source_system := tx_source_system t; tx_source_record_id := tx_source_record_id t; tx_source_batch_id := tx_source_batch_id t;
     tx_observed_at := tx_observed_at t; tx_cash_entry_mode := tx_cash_entry_mode t; tx_external_cash_transaction_id := None;
     tx_settlement_cash_account_id := tx_settlement_cash_account_id t; tx_settlement_cash_instrument_id := tx_settlement_cash_instrument_id t;
     tx_movement_direction := tx_movement_direction t; tx_originating_transaction_id := tx_originating_transaction_id t;
     tx_originating_transaction_type := tx_originating_transaction_type t; tx_adjustment_reason := tx_adjustment_reason t; tx_link_type := tx_link_type t;
     tx_reconciliation_key := tx_reconciliation_key t; tx_interest_direction := tx_interest_direction t; tx_withholding_tax_amount := Some dzero;
     tx_other_interest_deductions_amount := Some dzero; tx_net_interest_amount := Some dzero; tx_component_type := tx_component_type t;
     tx_component_id := tx_component_id t; tx_linked_component_ids := None; tx_fx_cash_leg_role := tx_fx_cash_leg_role t;
     tx_linked_fx_cash_leg_id := tx_linked_fx_cash_leg_id t; tx_settlement_status := tx_settlement_status t;
     tx_pair_base_currency := tx_pair_base_currency t; tx_pair_quote_currency := tx_pair_quote_currency t;
     tx_fx_rate_quote_convention := tx_fx_rate_quote_convention t; tx_buy_currency := tx_buy_currency t; tx_sell_currency := tx_sell_currency t;
     tx_buy_amount := tx_buy_amount t; tx_sell_amount := tx_sell_amount t; tx_contract_rate := tx_contract_rate t;
     tx_fx_contract_id := tx_fx_contract_id t; tx_fx_contract_open_transaction_id := tx_fx_contract_open_transaction_id t;
     tx_fx_contract_close_transaction_id := tx_fx_contract_close_transaction_id t; tx_settlement_of_fx_contract_id := tx_settlement_of_fx_contract_id t;
     tx_swap_event_id := tx_swap_event_id t; tx_near_leg_group_id := tx_near_leg_group_id t; tx_far_leg_group_id := tx_far_leg_group_id t;
     tx_spot_exposure_model := tx_spot_exposure_model t; tx_fx_realized_pnl_mode := tx_fx_realized_pnl_mode t;
     tx_allocated_cost_basis_local := tx_allocated_cost_basis_local t; tx_allocated_cost_basis_base := tx_allocated_cost_basis_base t;
     tx_realized_capital_pnl_local := tx_realized_capital_pnl_local t; tx_realized_fx_pnl_local := tx_realized_fx_pnl_local t;
     tx_realized_total_pnl_local := tx_realized_total_pnl_local t; tx_realized_capital_pnl_base := tx_realized_capital_pnl_base t;
     tx_realized_fx_pnl_base := tx_realized_fx_pnl_base t; tx_realized_total_pnl_base := tx_realized_total_pnl_base t;
     tx_parent_transaction_reference := tx_parent_transaction_reference t; tx_linked_parent_event_id := tx_linked_parent_event_id t;
     tx_parent_event_reference := tx_parent_event_reference source; tx_child_role := tx_child_role t; tx_child_sequence_hint := tx_child_sequence_hint t;
     tx_dependency_reference_ids := tx_dependency_reference_ids t; tx_source_instrument_id := tx_source_instrument_id t;
     tx_target_instrument_id := tx_target_instrument_id t; tx_source_transaction_reference := tx_source_transaction_reference t;
     tx_target_transaction_reference := tx_target_transaction_reference t; tx_external_destination_reference := tx_external_destination_reference t;
     tx_linked_cash_transaction_id := tx_linked_cash_transaction_id t; tx_redemption_price_type := tx_redemption_price_type t;
     tx_old_factor := tx_old_factor t; tx_new_factor := tx_new_factor t; tx_principal_proceeds_local := tx_principal_proceeds_local t;
     tx_accrued_interest_proceeds_local := tx_accrued_interest_proceeds_local t; tx_embedded_fee_amount_local := tx_embedded_fee_amount_local t;
     tx_embedded_tax_amount_local := tx_embedded_tax_amount_local t; tx_has_synthetic_flow := tx_has_synthetic_flow t;
     tx_synthetic_flow_effective_date := tx_synthetic_flow_effective_date t; tx_synthetic_flow_amount_local := tx_synthetic_flow_amount_local t;
     tx_synthetic_flow_currency := tx_synthetic_flow_currency t; tx_synthetic_flow_amount_base := tx_synthetic_flow_amount_base t;
     tx_synthetic_flow_fx_rate_to_base := tx_synthetic_flow_fx_rate_to_base t; tx_synthetic_flow_price_used := tx_synthetic_flow_price_used t;
     tx_synthetic_flow_quantity_used := tx_synthetic_flow_quantity_used t; tx_synthetic_flow_valuation_method := tx_synthetic_flow_valuation_method t;
     tx_synthetic_flow_classification := tx_synthetic_flow_classification t; tx_synthetic_flow_price_source := tx_synthetic_flow_price_source t;
     tx_synthetic_flow_fx_source := tx_synthetic_flow_fx_source t; tx_synthetic_flow_source := tx_synthetic_flow_source t;
     tx_created_at := tx_created_at t; tx_epoch := tx_epoch source; tx_tenant_id := tx_tenant_id t; tx_calculation_lineage := Some lineage;
     tx_lot_restatement := tx_lot_restatement t; tx_source_lot_order_quantity := tx_source_lot_order_quantity t;
     tx_source_lot_original_quantity := tx_source_lot_original_quantity t |}.

Section Generated.
Context `{hashing : Hashing}.

Definition build_generated_settlement_cash_leg (t : BookedTransaction) : result BookedTransaction :=
  _ ← require_generated_cash_leg t;
  persisted_fx_rate ← generated_cash_persisted_rate (tx_transaction_fx_rate t);
  cash_instrument_id ← resolve_cash_instrument_id t;
  movement ← calculate_settlement_cash_movement t;
  let transaction_type := normalize_transaction_control_code (Some (tx_transaction_type t)) in
  let linkage := resolve_generated_linkage t transaction_type in
  let settlement_at := default (tx_transaction_date t) (tx_settlement_date t) in
  net_cost_local ← normalize TRANSACTION_COST_LEDGER_OUTPUT_V1 (Finite (sm_signed_amount movement)) "generated_cash_net_cost_local";
  net_cost ← match tx_transaction_fx_rate t with
             | Some rate => cost ← p_multiply TRANSACTION_COST_LEDGER_OUTPUT_V1 (Finite net_cost_local) (Finite rate) "generated_cash_net_cost";
                            Ok (Some cost)
             | None => Ok None
             end;
  let leg := cash_leg_record t cash_instrument_id settlement_at movement persisted_fx_rate net_cost net_cost_local linkage transaction_type in
  np ← lineage_identity TRANSACTION_COST_LEDGER_OUTPUT_V1;
  lineage ← build_calculation_lineage "generated-settlement-cash" 2 (cp_working_precision TRANSACTION_COST_LEDGER_OUTPUT_V1)
              (generated_cash_lineage_input t transaction_type (datetime_isoformat settlement_at) (sm_signed_amount movement))
              (generated_cash_lineage_output leg) (Some np);
  Ok (replace_lineage lineage leg).

Definition require_nonnegative_finite_accrued_interest (accrued_interest : decimal) : result unit :=
  raise_if (dltb accrued_interest dzero) (ValueError "accrued_interest_proceeds_local must be a non-negative finite decimal.").

Definition build_redemption_accrued_interest_component (t : BookedTransaction) (include_zero : bool) : result (option BookedTransaction) :=
  let transaction_type := normalize_transaction_control_code (Some (tx_transaction_type t)) in
  if negb (in_set transaction_type REDEMPTION_TRANSACTION_TYPES) then Ok None else
  let accrued_interest := default dzero (tx_accrued_interest_proceeds_local t) in
  _ ← require_nonnegative_finite_accrued_interest accrued_interest;
  if deqb accrued_interest dzero && negb include_zero then Ok None else
  movement ← calculate_settlement_cash_movement t;
  let net := sm_signed_amount movement in
  let linked := strip (or_text (tx_external_cash_transaction_id t) "") in
  let linked_cash_transaction_id := if truthy linked then Some linked else None in
  _ ← raise_if (negb (deqb net dzero) && negb (truthy linked))
        (ValueError "Embedded redemption interest requires a linked settlement cash transaction.");
  let transaction_id := redemption_accrued_interest_transaction_id (tx_transaction_id t) in
  let component_id := transaction_id +:+ ":v1" in
  lineage ← build_calculation_lineage "redemption-accrued-interest-component" 1 64
              (PMap [("source_transaction_id", PStr (tx_transaction_id t)); ("source_transaction_type", PStr transaction_type);
                     ("source_calculation_lineage", optional_lineage (tx_calculation_lineage t));
                     decimal_entry "accrued_interest_proceeds_local" accrued_interest;
                     decimal_entry "canonical_net_settlement_amount" net;
                     ("linked_cash_transaction_id", optional_text linked_cash_transaction_id)])
              (PMap [("transaction_id", PStr transaction_id); ("component_id", PStr component_id);
                     ("component_type", PStr REDEMPTION_ACCRUED_INTEREST_COMPONENT); decimal_entry "amount" accrued_interest;
                     ("currency", PStr (tx_currency t))]) None;
  Ok (Some (accrued_interest_record t transaction_id component_id transaction_type accrued_interest linked_cash_transaction_id lineage)).

Definition neutralize_generated_redemption_accrued_interest (prior source : BookedTransaction) : result BookedTransaction :=
  _ ← raise_if (negb (bool_decide (Some (tx_transaction_id source) = tx_originating_transaction_id prior))
                || negb (is_generated_redemption_accrued_interest prior))
        (ValueError "Prior accrued-interest child is not canonical generated evidence.");
  lineage ← build_calculation_lineage "redemption-accrued-interest-neutralization" 1 64
              (PMap [("source_transaction_id", PStr (tx_transaction_id source));
                     ("corrected_source_transaction_type", PStr (normalize_transaction_control_code (Some (tx_transaction_type source))));
                     ("corrected_source_calculation_lineage", optional_lineage (tx_calculation_lineage source));
                     ("prior_component_calculation_lineage", optional_lineage (tx_calculation_lineage prior))])
              (PMap [("transaction_id", PStr (tx_transaction_id prior)); ("component_id", optional_text (tx_component_id prior));
                     ("component_type", PStr REDEMPTION_ACCRUED_INTEREST_COMPONENT); decimal_entry "amount" dzero;
                     ("currency", PStr (tx_currency prior))]) None;
  Ok (neutralized_record source prior lineage).
End Generated.
