(* ===== verification/SettlementFacts.v ===== *)
(** * What an ordinary transaction settles

    The movements of [Settlement] on stored amounts, against a specification over integers: the units of
    the [NUMERIC(18, 10)] columns.  No step of the calculation rounds, except the one product of a
    redemption that does not carry its principal. *)

From Stdlib Require Import ZArith Lia QArith String.
From stdpp Require Import base tactics list strings.
From S2P Require Import Prelude PyDecimal DecimalFacts PyTime Precision Lineage Registry Transactions Values Position Lots Redemption Settlement.

#[local] Open Scope string_scope.
#[local] Open Scope Z_scope.

(** ** Arithmetic in units *)

(** The contexts of the settlement and of the cashflow: 64 digits. *)
Definition ledger_context (ctx : context) : Prop := wide ctx /\ prec ctx = 64.

Lemma settlement_context_ledger : ledger_context settlement_context.
Proof. split; [by apply make_context_wide|done]. Qed.

#[export] Hint Resolve settlement_context_ledger : lotus.

Section Exact.
Context (ctx : context) (Hctx : ledger_context ctx).

Lemma exact_fix d n : units (-10) d n -> Z.abs n < 10 ^ 64 -> exists r, dfix ctx d = Ok r /\ units (-10) r n.
Proof. destruct Hctx as [Hw Hp]. intros Hd Hn. apply dfix_units; [done|lia|done|by rewrite Hp]. Qed.

Lemma exact_add x y m n : units (-10) x m -> units (-10) y n -> Z.abs (m + n) < 10 ^ 64 -> exists r, dadd ctx x y = Ok r /\ units (-10) r (m + n).
Proof. intros Hx Hy. apply exact_fix. by apply units_add. Qed.

Lemma exact_sub x y m n : units (-10) x m -> units (-10) y n -> Z.abs (m - n) < 10 ^ 64 -> exists r, dsub ctx x y = Ok r /\ units (-10) r (m - n).
Proof. intros Hx Hy. apply exact_fix. by apply units_sub. Qed.

Lemma exact_neg x n : units (-10) x n -> Z.abs n < 10 ^ 64 -> exists r, dneg ctx x = Ok r /\ units (-10) r (- n).
Proof.
  intros Hx Hn. apply exact_fix; [|by rewrite Z.abs_opp]. unfold units in *. rewrite neg_exact_val, Hx, inject_Z_opp. ring.
Qed.
End Exact.

Lemma units_ltb x y m n : units (-10) x m -> units (-10) y n -> dltb x y = (m <? n).
Proof.
  intros Hx Hy. pose proof (units_lt (-10) x y m n Hx Hy) as H. destruct (Z.ltb_spec m n); [by apply dltb_spec, H|].
  apply not_true_iff_false. rewrite dltb_spec, H. lia.
Qed.

Lemma units_leb x y m n : units (-10) x m -> units (-10) y n -> dleb x y = (m <=? n).
Proof.
  intros Hx Hy. pose proof (units_le (-10) x y m n Hx Hy) as H. destruct (Z.leb_spec m n); [by apply dleb_spec, H|].
  apply not_true_iff_false. rewrite dleb_spec, H. lia.
Qed.

Lemma units_eqb x y m n : units (-10) x m -> units (-10) y n -> deqb x y = (m =? n).
Proof.
  intros Hx Hy. pose proof (units_eq (-10) x y m n Hx Hy) as H. destruct (Z.eqb_spec m n); [by apply deqb_spec, H|].
  apply not_true_iff_false. by rewrite deqb_spec, H.
Qed.

(** ** Stored transactions *)

Definition ostored (v : option decimal) : Prop := match v with Some d => stored d | None => True end.
(** An absent amount counts as zero. *)
Definition ou (v : option decimal) : Z := match v with Some d => ul d | None => 0 end.

Lemma ou_units v : ostored v -> units (-10) (Transactions.decimal_or_zero v) (ou v) /\ Z.abs (ou v) < 10 ^ 18.
Proof. intros H. apply (decimal_or_zero_ledger v). destruct v; [exact H|done]. Qed.

(** The amounts of a transaction that its settlement reads fit their columns. *)
Record settlement_stored (t : BookedTransaction) : Prop := {
  ss_gross : stored (tx_gross_transaction_amount t);
  ss_quantity : stored (tx_quantity t);
  ss_price : stored (tx_price t);
  ss_fees : Forall ostored [tx_brokerage t; tx_stamp_duty t; tx_exchange_fee t; tx_gst t; tx_other_fees t];
  ss_trade_fee : ostored (tx_trade_fee t);
  ss_withholding : ostored (tx_withholding_tax_amount t);
  ss_other : ostored (tx_other_interest_deductions_amount t);
  ss_net : ostored (tx_net_interest_amount t);
  ss_principal : ostored (tx_principal_proceeds_local t);
  ss_accrued : ostored (tx_accrued_interest_proceeds_local t);
  ss_embedded_fee : ostored (tx_embedded_fee_amount_local t);
  ss_embedded_tax : ostored (tx_embedded_tax_amount_local t)
}.

(** ** Fees *)

Definition fee_parts (t : BookedTransaction) : list (option decimal) :=
  [tx_brokerage t; tx_stamp_duty t; tx_exchange_fee t; tx_gst t; tx_other_fees t].

(** The fee components replace the aggregate fee when one of them is given; no fee is negative. *)
Definition settlement_fee (t : BookedTransaction) : option Z :=
  if ou (tx_trade_fee t) <? 0 then None
  else if forallb (fun p => match p with None => true | Some _ => false end) (fee_parts t) then Some (ou (tx_trade_fee t))
  else if existsb (fun p => ou p <? 0) (fee_parts t) then None
  else Some (foldr (fun p total => ou p + total) 0 (fee_parts t)).

Lemma fee_components_parts t : fee_components t = zip TRANSACTION_FEE_COMPONENT_FIELDS (map optional_decimal (fee_parts t)).
Proof. done. Qed.

Lemma validated_component p name : ostored p ->
  if ou p <? 0 then exists msg, validated_fee_component_amount (optional_decimal p) name = Raise (ValueError msg)
  else exists d, validated_fee_component_amount (optional_decimal p) name = Ok d /\ units (-10) d (ou p).
Proof.
  intros Hp. destruct p as [d|]; [|by exists dzero]. cbn in *. unfold validated_fee_component_amount, fee_component_amount. cbn.
  unfold ensure_non_negative_fee_amount. rewrite (units_ltb d dzero (ul d) 0 (ledger_units _ _ Hp) (units_dzero _)).
  destruct (ul d <? 0); cbn; [by eexists|]. exists d. split; [done|]. apply Hp.
Qed.

Lemma component_total ctx names parts : ledger_context ctx -> Forall ostored parts -> length names = length parts ->
  forall total n, units (-10) total n -> 0 <= n -> n + 10 ^ 18 * Z.of_nat (length parts) < 10 ^ 20 ->
  if existsb (fun p => ou p <? 0) parts
  then exists msg, foldM (fun total e => amount ← validated_fee_component_amount (snd e) (fst e); dadd ctx total amount) total
                     (zip names (map optional_decimal parts)) = Raise (ValueError msg)
  else exists d, foldM (fun total e => amount ← validated_fee_component_amount (snd e) (fst e); dadd ctx total amount) total
                   (zip names (map optional_decimal parts)) = Ok d /\
         let sum := n + foldr (fun p total => ou p + total) 0 parts in units (-10) d sum /\ 0 <= sum < 10 ^ 20.
Proof.
  intros Hctx HF. revert names. induction HF as [|p parts Hp HF IH]; intros [|name names] Hlen total n Ht Hn Hb; try done.
  - cbn in *. exists total. rewrite Z.add_0_r. split; [done|]. split; [done|lia].
  - cbn [zip map foldM existsb foldr fst snd]. pose proof (validated_component p name Hp) as Hv. destruct (Z.ltb_spec (ou p) 0) as [Hneg|Hpos]; cbn [orb].
    + destruct Hv as [msg Hv]. cbn. rewrite Hv. by eexists.
    + destruct Hv as (d & Hv & Hd). cbn [zip_with fst snd]. rewrite Hv. cbn [mbind result_bind].
      assert (Hou : ou p < 10 ^ 18) by (destruct (ou_units p Hp); lia). cbn [length] in Hb. rewrite Nat2Z.inj_succ in Hb.
      destruct (exact_add ctx Hctx total d n (ou p) Ht Hd) as (r & -> & Hr); [lia|]. cbn [mbind result_bind].
      rewrite Z.add_assoc. apply IH; [by injection Hlen|done|lia|lia].
Qed.

Lemma resolve_fee_spec ctx t : ledger_context ctx -> settlement_stored t ->
  match settlement_fee t with
  | Some fee => exists d, resolve_fee_amount ctx t = Ok d /\ units (-10) d fee /\ 0 <= fee < 10 ^ 20
  | None => exists msg, resolve_fee_amount ctx t = Raise (ValueError msg)
  end.
Proof.
  intros Hctx Hs. unfold resolve_fee_amount, resolve_transaction_trade_fee_in, settlement_fee. fold (fee_parts t).
  assert (Hh : has_fee_components (fee_components t) = negb (forallb (fun p => match p with None => true | Some _ => false end) (fee_parts t))).
  { unfold has_fee_components, fee_components, fee_parts. by destruct (tx_brokerage t), (tx_stamp_duty t), (tx_exchange_fee t), (tx_gst t), (tx_other_fees t). }
  pose proof (ou_units _ (ss_trade_fee t Hs)) as [Hf Hfb]. rewrite Hh.
  assert (Hv : if ou (tx_trade_fee t) <? 0 then exists msg, validated_optional_fee_amount (optional_decimal (tx_trade_fee t)) "trade_fee" = Raise (ValueError msg)
               else validated_optional_fee_amount (optional_decimal (tx_trade_fee t)) "trade_fee" = Ok (tx_trade_fee t)).
  { pose proof (ss_trade_fee t Hs) as Hst. destruct (tx_trade_fee t) as [d|]; [|done]. cbn in Hst |- *.
    unfold validated_optional_fee_amount, ensure_non_negative_fee_amount. cbn.
    rewrite (units_ltb d dzero (ul d) 0 (ledger_units _ _ Hst) (units_dzero _)). destruct (ul d <? 0); cbn; [by eexists|done]. }
  destruct (Z.ltb_spec (ou (tx_trade_fee t)) 0) as [Hneg|Hpos]; [destruct Hv as [msg ->]; by eexists|]. rewrite Hv. cbn [mbind result_bind].
  destruct (forallb _ (fee_parts t)) eqn:En; cbn [negb]; [eexists; split; [done|]; split; [done|lia]|].
  unfold total_fee_component_amount_in. rewrite fee_components_parts.
  pose proof (component_total ctx TRANSACTION_FEE_COMPONENT_FIELDS (fee_parts t) Hctx (ss_fees t Hs) eq_refl dzero 0 (units_dzero _) ltac:(lia) ltac:(done)) as Hc.
  destruct (existsb _ (fee_parts t)); [destruct Hc as [msg ->]; by eexists|]. destruct Hc as (d & -> & Hu & Hb). cbn [mbind result_bind].
  eexists. split; [done|]. split; [|done]. unfold Transactions.decimal_or_zero, dor. destruct (dis_zero d) eqn:Ez; [|exact Hu].
  apply dis_zero_spec in Ez. assert (E : foldr (fun p total => ou p + total) 0 (fee_parts t) = 0); [|rewrite E; apply units_dzero].
  pose proof (units_eq (-10) d dzero _ 0 Hu (units_dzero _)) as Hq. rewrite dval_dzero in Hq. apply Hq in Ez. exact Ez.
Qed.

(** ** The specification *)

Inductive settlement_outcome := Settles (n : Z) | Rejects (c : SettlementCashRejectionReasonCode).

Definition proceeds_spec (available fee : Z) (c : SettlementCashRejectionReasonCode) : settlement_outcome :=
  if available - fee <=? 0 then Rejects c else Settles (available - fee).

Definition dividend_spec (gross withholding fee : Z) : settlement_outcome :=
  if withholding <? 0 then Rejects DIVIDEND_NEGATIVE_WITHHOLDING_TAX
  else if (0 <? gross) && (gross <? withholding) then Rejects DIVIDEND_WITHHOLDING_EXCEEDS_GROSS_AMOUNT
  else proceeds_spec (gross - withholding) fee DIVIDEND_NON_POSITIVE_NET_SETTLEMENT.

Definition interest_spec (expense generated : bool) (expected net fee : Z) : settlement_outcome :=
  let cash := if expense then net + fee else net - fee in
  if expected <? 0 then Rejects INTEREST_NEGATIVE_PRE_FEE_NET
  else if negb (net =? expected) then Rejects INTEREST_NET_RECONCILIATION_MISMATCH
  else if (cash =? 0) && generated then Settles 0
  else if cash <=? 0 then Rejects INTEREST_NON_POSITIVE_NET_SETTLEMENT
  else Settles (if expense then - cash else cash).

Definition redemption_spec (available fee : Z) : settlement_outcome :=
  if available - fee =? 0 then Settles 0 else proceeds_spec available fee REDEMPTION_NON_POSITIVE_NET_SETTLEMENT.

(** The principal a redemption carries, or its quantity times its price rounded half-even to the unit. *)
Definition principal_units (t : BookedTransaction) : Z :=
  match tx_principal_proceeds_local t with
  | Some p => ul p
  | None => round_coeff ROUND_HALF_EVEN (ul (tx_quantity t) * ul (tx_price t)) (10 ^ 10)
  end.

Definition interest_expected (t : BookedTransaction) : Z :=
  ul (tx_gross_transaction_amount t) - ou (tx_withholding_tax_amount t) - ou (tx_other_interest_deductions_amount t).
Definition interest_net (t : BookedTransaction) : Z :=
  match tx_net_interest_amount t with Some n => ul n | None => interest_expected t end.
Definition redemption_available (t : BookedTransaction) : Z :=
  principal_units t + ou (tx_accrued_interest_proceeds_local t) - ou (tx_embedded_fee_amount_local t) - ou (tx_embedded_tax_amount_local t).

Definition settlement_type (t : BookedTransaction) : string := normalize_transaction_control_code (Some (tx_transaction_type t)).

Definition settlement_spec (t : BookedTransaction) (fee : Z) : option settlement_outcome :=
  let gross := ul (tx_gross_transaction_amount t) in
  if String.eqb (settlement_type t) "BUY" then Some (Settles (- (gross + fee)))
  else if String.eqb (settlement_type t) "SELL" then Some (proceeds_spec gross fee SELL_NON_POSITIVE_NET_SETTLEMENT)
  else if String.eqb (settlement_type t) "DIVIDEND" then Some (dividend_spec gross (ou (tx_withholding_tax_amount t)) fee)
  else if String.eqb (settlement_type t) "INTEREST" then
    Some (interest_spec (String.eqb (interest_direction_of t) "EXPENSE") (is_generated_redemption_accrued_interest t)
            (interest_expected t) (interest_net t) fee)
  else if in_set (settlement_type t) REDEMPTION_TRANSACTION_TYPES then Some (redemption_spec (redemption_available t) fee)
  else None.

(** The outcome of a movement: the exact cash, or the rejection with its code. *)
Definition meets (m : result SettlementCashMovement) (fee : Z) (o : settlement_outcome) : Prop :=
  match o with
  | Settles n => exists movement, m = Ok movement /\ units (-10) (sm_signed_amount movement) n /\ units (-10) (sm_fee_amount movement) fee
  | Rejects c => exists field message available fee_amount net,
      m = Raise (SettlementCashValidationError (rejection_code_value c) field message available fee_amount net)
  end.

Lemma rejected c field message available fee net f : meets (Raise (settlement_rejection c field message available fee net)) f (Rejects c).
Proof. by do 5 eexists. Qed.

Lemma positive_proceeds_meets t available fee c reason text m n : units (-10) available m -> units (-10) fee n -> Z.abs m < 10 ^ 50 -> Z.abs n < 10 ^ 50 ->
  meets (calculate_positive_proceeds_movement t available fee c reason text) n (proceeds_spec m n c).
Proof.
  intros Ha Hf Hm Hn. unfold calculate_positive_proceeds_movement, proceeds_spec.
  destruct (exact_sub _ settlement_context_ledger available fee m n Ha Hf) as (net & -> & Hnet); [lia|]. cbn [mbind result_bind].
  rewrite (units_leb net dzero (m - n) 0 Hnet (units_dzero _)). destruct (m - n <=? 0); [apply rejected|]. by eexists.
Qed.

Section Movements.
Context (t : BookedTransaction) (Hs : settlement_stored t) (fee : decimal) (n : Z) (Hfee : units (-10) fee n) (Hn : 0 <= n < 10 ^ 20).

Lemma settlement_gross_units : units (-10) (tx_gross_transaction_amount t) (ul (tx_gross_transaction_amount t)) /\ Z.abs (ul (tx_gross_transaction_amount t)) < 10 ^ 18.
Proof. apply (ss_gross t Hs). Qed.

Lemma buy_meets : meets (calculate_buy_movement t fee) n (Settles (- (ul (tx_gross_transaction_amount t) + n))).
Proof.
  destruct settlement_gross_units as [Hg Hgb]. unfold calculate_buy_movement.
  destruct (exact_add _ settlement_context_ledger _ fee _ n Hg Hfee) as (total & -> & Ht); [lia|]. cbn [mbind result_bind].
  destruct (exact_neg _ settlement_context_ledger total _ Ht) as (r & -> & Hr); [lia|]. by eexists.
Qed.

Lemma dividend_meets :
  meets (calculate_dividend_movement t fee) n (dividend_spec (ul (tx_gross_transaction_amount t)) (ou (tx_withholding_tax_amount t)) n).
Proof.
  destruct settlement_gross_units as [Hg Hgb]. destruct (ou_units _ (ss_withholding t Hs)) as [Hw Hwb]. unfold calculate_dividend_movement, dividend_spec.
  destruct (exact_sub _ settlement_context_ledger _ _ _ _ Hg Hw) as (av & -> & Hav); [lia|]. cbn [mbind result_bind].
  destruct (exact_sub _ settlement_context_ledger av fee _ n Hav Hfee) as (net & -> & Hnet); [lia|]. cbn [mbind result_bind].
  rewrite (units_ltb _ dzero _ 0 Hw (units_dzero _)), (units_ltb dzero _ 0 _ (units_dzero _) Hg), (units_ltb _ _ _ _ Hg Hw), (units_eqb av dzero _ 0 Hav (units_dzero _)).
  destruct (ou (tx_withholding_tax_amount t) <? 0); [apply rejected|]. destruct (_ && _); [apply rejected|].
  destruct (Z.eqb_spec (ul (tx_gross_transaction_amount t) - ou (tx_withholding_tax_amount t)) 0) as [E|E].
  - unfold proceeds_spec. rewrite (proj2 (Z.leb_le _ 0)) by lia. apply rejected.
  - apply positive_proceeds_meets; [done|done|lia|lia].
Qed.

Lemma sell_meets : meets (calculate_sell_movement t fee) n (proceeds_spec (ul (tx_gross_transaction_amount t)) n SELL_NON_POSITIVE_NET_SETTLEMENT).
Proof. destruct settlement_gross_units. apply positive_proceeds_meets; [done|done|lia|lia]. Qed.

(** The principal of a redemption fits 26 digits. *)
Lemma redemption_principal_units : exists p, redemption_principal t = Ok p /\ units (-10) p (principal_units t) /\ Z.abs (principal_units t) < 10 ^ 30.
Proof.
  unfold redemption_principal, principal_units. pose proof (ss_principal t Hs) as Hp. destruct (tx_principal_proceeds_local t) as [p|].
  { exists p. split; [done|]. destruct Hp as [Hu Hb]. split; [done|lia]. }
  destruct (ss_quantity t Hs) as [Hq Hqb], (ss_price t Hs) as [Hr Hrb]. set (q := ul (tx_quantity t)) in *. set (r := ul (tx_price t)) in *.
  assert (Hqr : Z.abs (q * r) < 10 ^ 36) by (rewrite Z.abs_mul; change (10 ^ 36) with (10 ^ 18 * 10 ^ 18); nia).
  unfold calculate_redemption_principal_proceeds_local, dmul.
  destruct (dfix_units (make_context REDEMPTION_WORKING_PRECISION ROUND_HALF_EVEN) (-20) (mul_exact (tx_quantity t) (tx_price t)) (q * r))
    as (raw & -> & Hraw); [by apply make_context_wide|lia|by apply (units_mul (-10) (-10))|change (prec _) with 64; lia|]. cbn [mbind result_bind].
  change (dexp SETTLEMENT_CASH_QUANTUM) with (-10).
  assert (Hval : (dval raw / pow10 (-10) == inject_Z (q * r) / inject_Z (10 ^ 10))%Q).
  { unfold units in Hraw. rewrite Hraw. unfold Qdiv. rewrite <- Qmult_assoc. apply Qmult_comp; reflexivity. }
  destruct (quantize_Ok settlement_context ROUND_HALF_EVEN raw (-10)) as (p & Hp').
  - apply settlement_context_ledger.
  - lia.
  - change (prec settlement_context + -10 - 1) with 53. unfold units in Hraw. rewrite Hraw.
    rewrite Qabs.Qabs_Qmult, (Qabs.Qabs_pos (pow10 (-20))) by (apply Qlt_le_weak, pow10_pos).
    apply Qlt_le_trans with (pow10 36 * pow10 (-20))%Q; [|rewrite <- pow10_add; by apply pow10_mono].
    apply Qmult_lt_r; [apply pow10_pos|]. rewrite pow10_Z by lia. change (Qabs.Qabs (inject_Z (q * r))) with (inject_Z (Z.abs (q * r))).
    by rewrite <- Zlt_Qlt.
  - exists p. split; [exact Hp'|]. apply quantize_spec in Hp'; [|apply settlement_context_ledger|lia].
    rewrite (qround_proper _ _ _ Hval), <- round_coeff_qround in Hp' by done. split; [exact Hp'|].
    pose proof (round_coeff_half_even (q * r) (10 ^ 10) ltac:(done)) as Hr'. lia.
Qed.

Lemma redemption_meets : meets (calculate_redemption_movement t fee) n (redemption_spec (redemption_available t) n).
Proof.
  destruct redemption_principal_units as (p & Ep & Hp & Hpb). destruct (ou_units _ (ss_accrued t Hs)) as [Ha Hab].
  destruct (ou_units _ (ss_embedded_fee t Hs)) as [He Heb]. destruct (ou_units _ (ss_embedded_tax t Hs)) as [Hx Hxb].
  unfold calculate_redemption_movement, redemption_spec. rewrite Ep. cbn [mbind result_bind].
  destruct (exact_add _ settlement_context_ledger p _ _ _ Hp Ha) as (g & -> & Hg); [lia|]. cbn [mbind result_bind].
  destruct (exact_sub _ settlement_context_ledger g _ _ _ Hg He) as (af & -> & Haf); [lia|]. cbn [mbind result_bind].
  destruct (exact_sub _ settlement_context_ledger af _ _ _ Haf Hx) as (av & -> & Hav); [lia|]. cbn [mbind result_bind].
  fold (redemption_available t) in Hav. assert (Hb : Z.abs (redemption_available t) < 10 ^ 40) by (unfold redemption_available; lia).
  destruct (exact_sub _ settlement_context_ledger av fee _ n Hav Hfee) as (net & -> & Hnet); [lia|]. cbn [mbind result_bind].
  rewrite (units_eqb net dzero _ 0 Hnet (units_dzero _)). destruct (_ =? 0); [eexists; split; [done|]; split; [apply units_dzero|done]|].
  apply positive_proceeds_meets; [done|done|lia|lia].
Qed.

Lemma interest_expected_units : exists e,
  calculate_interest_pre_fee_net (tx_gross_transaction_amount t) (tx_withholding_tax_amount t) (tx_other_interest_deductions_amount t) = Ok e /\
  units (-10) e (interest_expected t) /\ Z.abs (interest_expected t) < 10 ^ 20.
Proof.
  destruct settlement_gross_units as [Hg Hgb]. destruct (ou_units _ (ss_withholding t Hs)) as [Hw Hwb]. destruct (ou_units _ (ss_other t Hs)) as [Ho Hob].
  unfold calculate_interest_pre_fee_net.
  destruct (exact_sub _ settlement_context_ledger _ _ _ _ Hg Hw) as (net & Enet & Hnet); [lia|].
  change interest_context with settlement_context. rewrite Enet. cbn [mbind result_bind].
  destruct (exact_sub _ settlement_context_ledger net _ _ _ Hnet Ho) as (e & Ee & He); [lia|]. exists e. unfold interest_expected. split; [done|]. split; [done|lia].
Qed.

Lemma interest_net_units e : units (-10) e (interest_expected t) -> Z.abs (interest_expected t) < 10 ^ 20 ->
  units (-10) (default e (tx_net_interest_amount t)) (interest_net t) /\ Z.abs (interest_net t) < 10 ^ 20.
Proof.
  intros He Hb. unfold interest_net. pose proof (ss_net t Hs) as Hn'. destruct (tx_net_interest_amount t) as [d|]; [|done].
  destruct Hn'. split; [done|lia].
Qed.

Definition interest_cash (expense : bool) : Z := if expense then interest_net t + n else interest_net t - n.

(** The fee is resolved again inside, to the same units. *)
Lemma interest_economics_units ctx : ledger_context ctx -> settlement_fee t = Some n -> exists economics,
  calculate_interest_settlement_economics ctx t = Ok economics /\
  units (-10) (ie_expected_net_interest_amount economics) (interest_expected t) /\
  units (-10) (ie_settlement_cash_amount economics) (interest_cash (String.eqb (interest_direction_of t) "EXPENSE")) /\
  Z.abs (interest_expected t) < 10 ^ 20 /\ Z.abs (interest_net t) < 10 ^ 20.
Proof.
  intros Hctx Ef. destruct interest_expected_units as (e & Ee & He & Heb). destruct (interest_net_units e He Heb) as [Hnet Hnb].
  unfold calculate_interest_settlement_economics. rewrite Ee. cbn [mbind result_bind].
  pose proof (resolve_fee_spec ctx t Hctx Hs) as Hf. rewrite Ef in Hf. destruct Hf as (f & -> & Hf & _). cbn [mbind result_bind].
  unfold interest_cash. destruct (String.eqb (interest_direction_of t) "EXPENSE").
  - destruct (exact_add ctx Hctx _ f _ n Hnet Hf) as (c & -> & Hc); [lia|]. by eexists.
  - destruct (exact_sub ctx Hctx _ f _ n Hnet Hf) as (c & -> & Hc); [lia|]. by eexists.
Qed.

Lemma interest_mismatch e : units (-10) e (interest_expected t) ->
  match tx_net_interest_amount t with Some net => negb (deqb net e) | None => false end = negb (interest_net t =? interest_expected t).
Proof.
  intros He. unfold interest_net. pose proof (ss_net t Hs) as Hn'. destruct (tx_net_interest_amount t) as [d|]; [|by rewrite Z.eqb_refl].
  by rewrite (units_eqb d e _ _ (ledger_units _ _ Hn') He).
Qed.

Lemma interest_meets : settlement_fee t = Some n ->
  meets (calculate_interest_movement t fee) n
    (interest_spec (String.eqb (interest_direction_of t) "EXPENSE") (is_generated_redemption_accrued_interest t) (interest_expected t) (interest_net t) n).
Proof.
  intros Ef. destruct (interest_economics_units _ settlement_context_ledger Ef) as (ec & Ee & Hexp & Hcash & Heb & Hnb).
  unfold calculate_interest_movement, interest_spec. rewrite Ee. cbn [mbind result_bind].
  rewrite (units_ltb _ dzero _ 0 Hexp (units_dzero _)), (interest_mismatch _ Hexp), (units_eqb _ dzero _ 0 Hcash (units_dzero _)),
    (units_leb _ dzero _ 0 Hcash (units_dzero _)).
  set (expense := String.eqb (interest_direction_of t) "EXPENSE") in *. fold (interest_cash expense).
  destruct (interest_expected t <? 0); [apply rejected|]. destruct (negb _).
  { destruct expense.
    - destruct (exact_add _ settlement_context_ledger _ fee _ n Hexp Hfee) as (r & -> & _); [lia|]. apply rejected.
    - destruct (exact_sub _ settlement_context_ledger _ fee _ n Hexp Hfee) as (r & -> & _); [lia|]. apply rejected. }
  destruct (_ && _); [eexists; split; [done|]; split; [apply units_dzero|done]|]. destruct (_ <=? 0); [apply rejected|].
  destruct expense; [|by eexists].
  destruct (exact_neg _ settlement_context_ledger _ _ Hcash) as (r & -> & Hr); [unfold interest_cash; lia|]. by eexists.
Qed.
End Movements.

(** One entry of the table of resolvers. *)
Ltac type_case :=
  match goal with
  | |- context [decide (settlement_type ?t = ?s)] =>
      let H := fresh in destruct (decide (settlement_type t = s)) as [H|H];
      [rewrite (proj2 (String.eqb_eq _ _) H)|rewrite (proj2 (String.eqb_neq _ _) H)]
  end.

Lemma settlement_meets t : settlement_stored t ->
  match settlement_fee t, settlement_spec t (default 0 (settlement_fee t)) with
  | Some fee, Some outcome => meets (calculate_settlement_cash_movement t) fee outcome
  | _, _ => exists message, calculate_settlement_cash_movement t = Raise (ValueError message)
  end.
Proof.
  intros Hs. pose proof (resolve_fee_spec settlement_context t settlement_context_ledger Hs) as Hf.
  unfold calculate_settlement_cash_movement. fold (settlement_type t).
  assert (Hno : settlement_fee t = None -> exists message, match od_get (settlement_type t) SETTLEMENT_CASH_RESOLVERS with
      | None => Raise (ValueError (tx_transaction_type t +:+ " has no ordinary settlement cash policy"))
      | Some resolver => fee ← resolve_fee_amount settlement_context t; resolver t fee end = Raise (ValueError message)).
  { intros E. rewrite E in Hf. destruct Hf as [msg ->]. destruct (od_get _ _); by eexists. }
  destruct (settlement_fee t) as [n|] eqn:Ef; [|by apply Hno]. clear Hno. destruct Hf as (fee & -> & Hfee & Hn). cbn [default].
  unfold settlement_spec. cbn [od_get SETTLEMENT_CASH_RESOLVERS].
  type_case; [by apply buy_meets|]. type_case; [by apply sell_meets|]. type_case; [by apply dividend_meets|]. type_case; [by apply interest_meets|].
  do 3 (destruct (decide (settlement_type t = _)) as [E|?]; [rewrite E; by apply redemption_meets|]).
  assert (Hne : forall s, settlement_type t <> s -> String.eqb (settlement_type t) s = false) by (intros s; apply String.eqb_neq).
  unfold in_set, REDEMPTION_TRANSACTION_TYPES. cbn [existsb]. rewrite !Hne by done. by eexists.
Qed.

(** C20: on stored amounts the settlement cash of an ordinary transaction is the exact integer specification: the signed units, or the
    rejection with its code; a negative fee or an unknown type is refused with [ValueError]. *)
Theorem settlement_cash_refines t : settlement_stored t ->
  match settlement_fee t, settlement_spec t (default 0 (settlement_fee t)) with
  | Some fee, Some outcome => meets (calculate_settlement_cash_movement t) fee outcome
  | _, _ => exists message, calculate_settlement_cash_movement t = Raise (ValueError message)
  end.
Proof. apply settlement_meets. Qed.

(** A movement that is returned is the one specified. *)
Lemma settlement_Ok t m : settlement_stored t -> calculate_settlement_cash_movement t = Ok m ->
  exists fee n, settlement_fee t = Some fee /\ 0 <= fee < 10 ^ 20 /\ settlement_spec t fee = Some (Settles n) /\ units (-10) (sm_signed_amount m) n.
Proof.
  intros Hs Hm. pose proof (settlement_meets t Hs) as H. pose proof (resolve_fee_spec settlement_context t settlement_context_ledger Hs) as Hf.
  destruct (settlement_fee t) as [fee|]; [|destruct H as [? H]; congruence]. change (default 0 (Some fee)) with fee in H. destruct Hf as (_ & _ & _ & Hb).
  destruct (settlement_spec t fee) as [[n|c]|] eqn:E; [|destruct H as (? & ? & ? & ? & ? & H); congruence|destruct H as [? H]; congruence].
  destruct H as (m' & Em & Hu & _). rewrite Hm in Em. injection Em as <-. exists fee, n. done.
Qed.

(** ** The specification per type *)

Lemma spec_buy t fee : settlement_type t = "BUY" -> settlement_spec t fee = Some (Settles (- (ul (tx_gross_transaction_amount t) + fee))).
Proof. intros E. unfold settlement_spec. by rewrite E. Qed.

Lemma spec_sell t fee : settlement_type t = "SELL" ->
  settlement_spec t fee = Some (proceeds_spec (ul (tx_gross_transaction_amount t)) fee SELL_NON_POSITIVE_NET_SETTLEMENT).
Proof. intros E. unfold settlement_spec. by rewrite E. Qed.

Lemma spec_dividend t fee : settlement_type t = "DIVIDEND" ->
  settlement_spec t fee = Some (dividend_spec (ul (tx_gross_transaction_amount t)) (ou (tx_withholding_tax_amount t)) fee).
Proof. intros E. unfold settlement_spec. by rewrite E. Qed.

Lemma spec_interest t fee : settlement_type t = "INTEREST" ->
  settlement_spec t fee = Some (interest_spec (String.eqb (interest_direction_of t) "EXPENSE") (is_generated_redemption_accrued_interest t)
                                  (interest_expected t) (interest_net t) fee).
Proof. intros E. unfold settlement_spec. by rewrite E. Qed.

Lemma spec_redemption t fee : in_set (settlement_type t) REDEMPTION_TRANSACTION_TYPES = true ->
  settlement_spec t fee = Some (redemption_spec (redemption_available t) fee).
Proof.
  intros E. unfold settlement_spec. rewrite E. apply in_set_true in E. by destruct E as [<-|[<-|[<-|[]]]].
Qed.

Lemma redemption_bound t fee n : settlement_stored t -> 0 <= fee < 10 ^ 20 -> in_set (settlement_type t) REDEMPTION_TRANSACTION_TYPES = true ->
  settlement_spec t fee = Some (Settles n) -> Z.abs n < 10 ^ 40.
Proof.
  intros Hs Hf Hr. rewrite (spec_redemption t fee Hr). intros [= Hn]. destruct (redemption_principal_units t Hs) as (_ & _ & _ & Hp).
  destruct (ou_units _ (ss_accrued t Hs)) as [_ Ha], (ou_units _ (ss_embedded_fee t Hs)) as [_ He], (ou_units _ (ss_embedded_tax t Hs)) as [_ Hx].
  unfold redemption_spec, proceeds_spec, redemption_available in Hn. destruct (_ =? 0); [injection Hn as <-; lia|]. destruct (_ <=? 0); [done|].
  injection Hn as <-. lia.
Qed.

Lemma interest_spec_settles expense generated expected net fee n : interest_spec expense generated expected net fee = Settles n ->
  let cash := if expense then net + fee else net - fee in 0 <= cash /\ n = (if expense then - cash else cash).
Proof.
  unfold interest_spec. set (cash := if expense then net + fee else net - fee). destruct (expected <? 0); [done|]. destruct (negb _); [done|].
  destruct (Z.eqb_spec cash 0) as [E|E]; cbn [andb].
  - destruct generated; [intros [= <-]; rewrite E; split; [lia|by destruct expense]|]. rewrite E. done.
  - destruct (Z.leb_spec cash 0); [done|]. intros [= <-]. split; [lia|done].
Qed.

(** ** Example *)

Definition sold_shares : BookedTransaction :=
  booked_transaction "S1" "P1" "ACME" "ACME" {| dt_us := 1700000000000000; dt_utcoffset := Some 0 |} " sell" (Dec 10 0) (Dec 15 0) (Dec 150 0) "USD" "USD".

Lemma sold_shares_stored : settlement_stored sold_shares.
Proof. split; first [exact I|split; vm_compute; reflexivity|repeat (apply Forall_cons_2; [exact I|]); apply Forall_nil_2]. Qed.

Lemma settlement_cash_refines_witness :
  settlement_fee sold_shares = Some 0 /\ settlement_spec sold_shares 0 = Some (Settles 1500000000000) /\
  meets (calculate_settlement_cash_movement sold_shares) 0 (Settles 1500000000000).
Proof.
  split; [vm_compute; reflexivity|]. split; [vm_compute; reflexivity|]. exact (settlement_cash_refines sold_shares sold_shares_stored).
Defined.
