(* ===== verification/Cashflow.v ===== *)
(** * Transaction cashflows

    [cashflow/calculation.py] and [cashflow/types.py]: the cashflow of a booked transaction under the rule
    of its type, with its sign, date, level, classification and receipt. *)

From Stdlib Require Import ZArith Lia String.
From stdpp Require Import base tactics list strings.
From S2P Require Import Prelude PyDecimal PyTime Precision Lineage Registry Transactions Values Position Lots Fx Settlement.

#[local] Open Scope string_scope.
#[local] Open Scope Z_scope.

(** ** Vocabulary *)

Inductive CashflowTiming := BOD | EOD.
Inductive CashflowCalculationType := NET | GROSS | MVT.
Inductive CashflowCalculationContext := CURRENT_BOOKING | HISTORICAL_REBUILD.
Inductive CashflowClassification :=
| FX_BUY | FX_SELL | INVESTMENT_OUTFLOW | INVESTMENT_INFLOW | CORPORATE_ACTION_PROCEEDS | INCOME | EXPENSE | CASHFLOW_IN | CASHFLOW_OUT
| INTERNAL | TRANSFER.

Definition timing_value (t : CashflowTiming) : string := match t with BOD => "BOD" | EOD => "EOD" end.
Definition calculation_type_value (c : CashflowCalculationType) : string := match c with NET => "NET" | GROSS => "GROSS" | MVT => "MVT" end.
Definition context_value (c : CashflowCalculationContext) : string :=
  match c with CURRENT_BOOKING => "CURRENT_BOOKING" | HISTORICAL_REBUILD => "HISTORICAL_REBUILD" end.
Definition classification_value (c : CashflowClassification) : string :=
  match c with
  | FX_BUY => "FX_BUY" | FX_SELL => "FX_SELL" | INVESTMENT_OUTFLOW => "INVESTMENT_OUTFLOW" | INVESTMENT_INFLOW => "INVESTMENT_INFLOW"
  | CORPORATE_ACTION_PROCEEDS => "CORPORATE_ACTION_PROCEEDS" | INCOME => "INCOME" | EXPENSE => "EXPENSE" | CASHFLOW_IN => "CASHFLOW_IN"
  | CASHFLOW_OUT => "CASHFLOW_OUT" | INTERNAL => "INTERNAL" | TRANSFER => "TRANSFER"
  end.

(** [str | Enum]: a rule names a value or gives its text. *)
Inductive named (A : Type) := Named (value : A) | Text (s : string).
Arguments Named {A} value.
Arguments Text {A} s.

Record CashflowRule := {
  cr_classification : named CashflowClassification; cr_timing : named CashflowTiming; cr_is_position_flow : bool; cr_is_portfolio_flow : bool
}.

Record CalculatedCashflow := {
  cf_transaction_id : string; cf_portfolio_id : string; cf_security_id : string; cf_cashflow_date : date; cf_amount : decimal;
  cf_currency : string; cf_classification : string; cf_timing : string; cf_calculation_type : string; cf_is_position_flow : bool;
  cf_is_portfolio_flow : bool; cf_economic_event_id : option string; cf_linked_transaction_group_id : option string; cf_epoch : Z;
  cf_calculation_lineage : CalculationLineage
}.

Record CashflowEconomics := { ce_amount : decimal; ce_currency : string; ce_calculation_type : string }.
Record CashflowLevel := { lv_is_position_flow : bool; lv_is_portfolio_flow : bool }.

(** ** Types and signs *)

Definition TRANSFER_LIFECYCLE_FAMILIES : list string := ["transfer"; "corporate_action"; "rights"].
Definition TRANSFER_INFLOW_CASH_EFFECT_TYPES : list string := ["RIGHTS_REFUND"].
Definition TRANSFER_SIGNING_FALLBACK_TYPES : list string := ["CASH_IN_LIEU"].
Definition SETTLEMENT_DATED_TRANSACTION_TYPES : list string :=
  (["BUY"; "SELL"; "DEPOSIT"; "WITHDRAWAL"; "FX_CASH_SETTLEMENT_BUY"; "FX_CASH_SETTLEMENT_SELL"] ++ REDEMPTION_TRANSACTION_TYPES)%list.
Definition PAYMENT_DATED_TRANSACTION_TYPES : list string := ["DIVIDEND"; "INTEREST"].
Definition CLASSIFICATION_SIGN_FACTORS : list (string * Z) :=
  [("FX_BUY", 1); ("FX_SELL", -1); ("INVESTMENT_INFLOW", 1); ("CORPORATE_ACTION_PROCEEDS", 1); ("INCOME", 1); ("CASHFLOW_IN", 1)].
Definition SYNTHETIC_TRANSFER_CLASSIFICATION_SIGN : list (string * Z) :=
  [("POSITION_TRANSFER_IN", 1); ("POSITION_TRANSFER_OUT", -1); ("POSITION_CASH_IN_LIEU_OUT", -1)].

Definition transfer_transaction_types_for_position_effect (effect : string) : list string :=
  map fst (List.filter (fun '(code, definition) =>
      production_booking_allowed definition && in_set (lifecycle_family definition) TRANSFER_LIFECYCLE_FAMILIES
      && String.eqb (position_effect definition) effect && negb (in_set code TRANSFER_SIGNING_FALLBACK_TYPES)) TRANSACTION_TYPE_REGISTRY).

Definition TRANSFER_INFLOW_TRANSACTION_TYPES : list string :=
  (transfer_transaction_types_for_position_effect "increase" ++ TRANSFER_INFLOW_CASH_EFFECT_TYPES)%list.
Definition TRANSFER_OUTFLOW_TRANSACTION_TYPES : list string := transfer_transaction_types_for_position_effect "decrease".

(** [_normalize_code] of an optional text, and of a value that may be named. *)
Definition cashflow_code (value : option string) (default : string) : string := upper (strip (or_text value default)).
Definition normalize_classification (c : named CashflowClassification) : string :=
  match c with Named v => classification_value v | Text s => cashflow_code (Some s) "" end.
Definition normalize_timing (c : named CashflowTiming) : string :=
  match c with Named v => cashflow_code (Some (timing_value v)) "" | Text s => cashflow_code (Some s) "" end.

Definition cashflow_context : context := arithmetic_context CASHFLOW_LEDGER_OUTPUT_V1.

(** [abs(amount)] and [-abs(amount)] round in the current context. *)
Definition positive (amount : decimal) : result decimal := dabs cashflow_context amount.
Definition negative (amount : decimal) : result decimal := a ← dabs cashflow_context amount; dneg cashflow_context a.
Definition signed (is_positive : bool) (amount : decimal) : result decimal := if is_positive then positive amount else negative amount.

Definition signed_by_classification (c : named CashflowClassification) (amount : decimal) : result decimal :=
  signed (0 <? od_get_default (-1) (normalize_classification c) CLASSIFICATION_SIGN_FACTORS) amount.

Definition signed_adjustment_amount (t : BookedTransaction) (amount : decimal) : result decimal :=
  signed (String.eqb (cashflow_code (tx_movement_direction t) "INFLOW") "INFLOW") amount.

Definition signed_transfer_amount (t : BookedTransaction) (transaction_type : string) (amount : decimal) : result decimal :=
  if in_set transaction_type TRANSFER_INFLOW_TRANSACTION_TYPES then positive amount
  else if in_set transaction_type TRANSFER_OUTFLOW_TRANSACTION_TYPES then negative amount
  else signed (dltb dzero (tx_quantity t)) amount.

Definition signed_cashflow_amount (t : BookedTransaction) (rule : CashflowRule) (transaction_type : string) (amount : decimal) : result decimal :=
  if String.eqb transaction_type "ADJUSTMENT" then signed_adjustment_amount t amount
  else if String.eqb (normalize_classification (cr_classification rule)) "TRANSFER" then signed_transfer_amount t transaction_type amount
  else signed_by_classification (cr_classification rule) amount.

(** ** Economics *)

Definition resolve_cashflow_trade_fee (t : BookedTransaction) : result decimal := resolve_fee_amount cashflow_context t.

Definition issue_parts (i : FxValidationIssue) : string * string * string := (fi_code i, fi_field i, fi_message i).

Definition base_cashflow_amount (t : BookedTransaction) (transaction_type : string) : result decimal :=
  trade_fee ← resolve_cashflow_trade_fee t;
  let issues := (validate_fx_embedded_fee trade_fee ++
                 validate_fx_embedded_tax (Transactions.decimal_or_zero (tx_withholding_tax_amount t)))%list in
  _ ← raise_if (in_set transaction_type ["FX_CASH_SETTLEMENT_BUY"; "FX_CASH_SETTLEMENT_SELL"] && match issues with [] => false | _ => true end)
        (FxValidationError (map issue_parts issues));
  if in_set transaction_type ["BUY"; "FEE"] then dadd cashflow_context (tx_gross_transaction_amount t) trade_fee
  else dsub cashflow_context (tx_gross_transaction_amount t) trade_fee.

Definition synthetic_transfer_economics (t : BookedTransaction) (rule : CashflowRule) : result CashflowEconomics :=
  let sign := od_get (cashflow_code (tx_synthetic_flow_classification t) "") SYNTHETIC_TRANSFER_CLASSIFICATION_SIGN in
  _ ← raise_if (negb (String.eqb (normalize_classification (cr_classification rule)) "TRANSFER"))
        (ValueError "Synthetic position flow requires TRANSFER cashflow classification");
  _ ← raise_if (negb (cr_is_position_flow rule) || cr_is_portfolio_flow rule)
        (ValueError "Synthetic position flow must be position-level and non-portfolio");
  match sign with
  | None => Raise (ValueError "Synthetic position flow classification is missing or unsupported")
  | Some sign =>
      match tx_synthetic_flow_amount_local t with
      | None => Raise (ValueError "Synthetic position flow amount is required")
      | Some amount =>
          let currency := or_text (tx_synthetic_flow_currency t) "" in
          _ ← raise_if (negb (truthy currency)) (ValueError "Synthetic position flow currency is required");
          _ ← raise_if (dis_zero amount || negb (Bool.eqb (dltb dzero amount) (0 <? sign)))
                (ValueError "Synthetic position flow amount sign does not match its classification");
          Ok {| ce_amount := amount; ce_currency := currency; ce_calculation_type := calculation_type_value MVT |}
      end
  end.

(** The principal of a redemption: its settlement less the accrued interest that is reported as income. *)
Definition redemption_product_amount (t : BookedTransaction) : result decimal :=
  movement ← calculate_settlement_cash_movement t;
  dsub cashflow_context (sm_signed_amount movement) (Transactions.decimal_or_zero (tx_accrued_interest_proceeds_local t)).

Definition is_settlement_rejection (e : exc) : bool := match e with SettlementCashValidationError _ _ _ _ _ _ => true | _ => false end.

(** The part after a dividend has been tried against the current settlement policy. *)
Definition historical_signing (t : BookedTransaction) (rule : CashflowRule) (transaction_type : string) : result decimal :=
  if String.eqb transaction_type "INTEREST" then
    economics ← calculate_interest_settlement_economics cashflow_context t;
    signed (negb (String.eqb (cashflow_code (tx_interest_direction t) "INCOME") "EXPENSE")) (ie_settlement_cash_amount economics)
  else base ← base_cashflow_amount t transaction_type; signed_cashflow_amount t rule transaction_type base.

Definition historical_rebuild_cashflow_amount (t : BookedTransaction) (rule : CashflowRule) (transaction_type : string) : result decimal :=
  if in_set transaction_type REDEMPTION_TRANSACTION_TYPES then redemption_product_amount t
  else if String.eqb transaction_type "DIVIDEND" && dltb dzero (Transactions.decimal_or_zero (tx_withholding_tax_amount t)) then
    match calculate_settlement_cash_movement t with
    | Ok movement => Ok (sm_signed_amount movement)
    | Raise e => if is_settlement_rejection e then historical_signing t rule transaction_type else Raise e
    end
  else historical_signing t rule transaction_type.

Definition resolve_cashflow_economics (t : BookedTransaction) (rule : CashflowRule) (transaction_type : string)
  (calculation_context : CashflowCalculationContext) : result CashflowEconomics :=
  if default false (tx_has_synthetic_flow t) then synthetic_transfer_economics t rule else
  amount ← (if in_set transaction_type REDEMPTION_TRANSACTION_TYPES then redemption_product_amount t
            else if in_set transaction_type ORDINARY_SETTLEMENT_TRANSACTION_TYPES then
              match calculation_context with
              | HISTORICAL_REBUILD => historical_rebuild_cashflow_amount t rule transaction_type
              | CURRENT_BOOKING => movement ← calculate_settlement_cash_movement t; Ok (sm_signed_amount movement)
              end
            else base ← base_cashflow_amount t transaction_type; signed_cashflow_amount t rule transaction_type base);
  Ok {| ce_amount := amount; ce_currency := tx_currency t; ce_calculation_type := calculation_type_value NET |}.

(** ** Level, date and classification *)

Definition is_duplicate_corporate_action_cash_settlement (t : BookedTransaction) : bool :=
  String.eqb (cashflow_code (Some (tx_transaction_type t)) "") "ADJUSTMENT"
  && truthy (strip (or_text (tx_originating_transaction_id t) ""))
  && in_set (cashflow_code (tx_originating_transaction_type t) "") ["CASH_CONSIDERATION"; "CASH_IN_LIEU"].

Definition resolve_cashflow_level (t : BookedTransaction) (rule : CashflowRule) : CashflowLevel :=
  if is_duplicate_corporate_action_cash_settlement t then {| lv_is_position_flow := false; lv_is_portfolio_flow := false |}
  else {| lv_is_position_flow := cr_is_position_flow rule; lv_is_portfolio_flow := cr_is_portfolio_flow rule |}.

Definition settlement_date_or_transaction_date (t : BookedTransaction) : date := dt_date (default (tx_transaction_date t) (tx_settlement_date t)).

Definition resolve_cashflow_date (t : BookedTransaction) (rule : CashflowRule) (transaction_type : string) : date :=
  match tx_synthetic_flow_effective_date t with
  | Some d => d
  | None =>
      if in_set transaction_type (SETTLEMENT_DATED_TRANSACTION_TYPES ++ PAYMENT_DATED_TRANSACTION_TYPES) then settlement_date_or_transaction_date t
      else if in_set (normalize_classification (cr_classification rule)) ["FX_BUY"; "FX_SELL"] then settlement_date_or_transaction_date t
      else dt_date (tx_transaction_date t)
  end.

Definition resolve_cashflow_classification (transaction_type : string) (configured : named CashflowClassification) (amount : decimal) : string :=
  if in_set transaction_type REDEMPTION_TRANSACTION_TYPES && dltb amount dzero then classification_value INVESTMENT_OUTFLOW
  else normalize_classification configured.

(** ** Receipts *)

Definition optional_bool (b : option bool) : payload := match b with Some b => PBool b | None => PNone end.
Definition optional_date (d : option date) : payload := match d with Some d => PDate d | None => PNone end.

Definition cashflow_lineage_input (t : BookedTransaction) (rule : CashflowRule) (transaction_type : string)
  (calculation_context : CashflowCalculationContext) (epoch : Z) (resolved_trade_fee : decimal) : payload :=
  PMap [("calculation_context", PEnum (PStr (context_value calculation_context))); ("epoch", PInt epoch);
    ("rule", PMap [("classification", PStr (normalize_classification (cr_classification rule)));
                   ("is_portfolio_flow", PBool (cr_is_portfolio_flow rule)); ("is_position_flow", PBool (cr_is_position_flow rule));
                   ("timing", PStr (normalize_timing (cr_timing rule)))]);
    ("transaction", PMap [("component_type", optional_text (tx_component_type t)); ("currency", PStr (tx_currency t));
      ("economic_event_id", optional_text (tx_economic_event_id t)); ("fee_components", PMap (fee_components t));
      decimal_entry "gross_transaction_amount" (tx_gross_transaction_amount t); ("has_synthetic_flow", optional_bool (tx_has_synthetic_flow t));
      ("interest_direction", optional_text (tx_interest_direction t));
      ("linked_transaction_group_id", optional_text (tx_linked_transaction_group_id t));
      ("movement_direction", optional_text (tx_movement_direction t)); ("net_interest_amount", optional_decimal (tx_net_interest_amount t));
      ("other_interest_deductions_amount", optional_decimal (tx_other_interest_deductions_amount t)); decimal_entry "price" (tx_price t);
      ("principal_proceeds_local", optional_decimal (tx_principal_proceeds_local t));
      ("accrued_interest_proceeds_local", optional_decimal (tx_accrued_interest_proceeds_local t));
      ("embedded_fee_amount_local", optional_decimal (tx_embedded_fee_amount_local t));
      ("embedded_tax_amount_local", optional_decimal (tx_embedded_tax_amount_local t));
      ("originating_transaction_id", optional_text (tx_originating_transaction_id t));
      ("originating_transaction_type", optional_text (tx_originating_transaction_type t)); ("portfolio_id", PStr (tx_portfolio_id t));
      decimal_entry "quantity" (tx_quantity t); ("security_id", PStr (tx_security_id t));
      ("settlement_date", optional_isoformat (tx_settlement_date t));
      ("synthetic_flow_amount_local", optional_decimal (tx_synthetic_flow_amount_local t));
      ("synthetic_flow_classification", optional_text (tx_synthetic_flow_classification t));
      ("synthetic_flow_currency", optional_text (tx_synthetic_flow_currency t));
      ("synthetic_flow_effective_date", optional_date (tx_synthetic_flow_effective_date t));
      ("booked_transaction_type", PStr (tx_transaction_type t)); decimal_entry "resolved_trade_fee" resolved_trade_fee;
      ("transaction_date", PStr (datetime_isoformat (tx_transaction_date t))); ("transaction_id", PStr (tx_transaction_id t));
      ("effective_processing_transaction_type", PStr transaction_type);
      ("withholding_tax_amount", optional_decimal (tx_withholding_tax_amount t))])].

Definition cashflow_lineage_output (t : BookedTransaction) (amount : decimal) (economics : CashflowEconomics) (cashflow_date : date)
  (classification timing : string) (level : CashflowLevel) (epoch : Z) : payload :=
  PMap [decimal_entry "amount" amount; ("calculation_type", PStr (ce_calculation_type economics)); ("cashflow_date", PDate cashflow_date);
    ("classification", PStr classification); ("currency", PStr (ce_currency economics));
    ("economic_event_id", optional_text (tx_economic_event_id t)); ("epoch", PInt epoch);
    ("is_portfolio_flow", PBool (lv_is_portfolio_flow level)); ("is_position_flow", PBool (lv_is_position_flow level));
    ("linked_transaction_group_id", optional_text (tx_linked_transaction_group_id t)); ("portfolio_id", PStr (tx_portfolio_id t));
    ("security_id", PStr (tx_security_id t)); ("timing", PStr timing); ("transaction_id", PStr (tx_transaction_id t))].

Section Calculation.
Context `{hashing : Hashing}.

Definition calculate_transaction_cashflow (t : BookedTransaction) (rule : CashflowRule) (epoch : option Z)
  (calculation_context : CashflowCalculationContext) : result CalculatedCashflow :=
  let transaction_type := resolve_effective_processing_transaction_type t in
  economics ← resolve_cashflow_economics t rule transaction_type calculation_context;
  resolved_trade_fee ← resolve_cashflow_trade_fee t;
  let level := resolve_cashflow_level t rule in
  let cashflow_date := resolve_cashflow_date t rule transaction_type in
  amount ← normalize CASHFLOW_LEDGER_OUTPUT_V1 (Finite (ce_amount economics)) "cashflows.amount";
  let classification := resolve_cashflow_classification transaction_type (cr_classification rule) amount in
  let timing := normalize_timing (cr_timing rule) in
  let normalized_epoch := default 0 epoch in
  np ← lineage_identity CASHFLOW_LEDGER_OUTPUT_V1;
  lineage ← build_calculation_lineage "transaction-cashflow" 1 (cp_working_precision CASHFLOW_LEDGER_OUTPUT_V1)
              (cashflow_lineage_input t rule transaction_type calculation_context normalized_epoch resolved_trade_fee)
              (cashflow_lineage_output t amount economics cashflow_date classification timing level normalized_epoch) (Some np);
  Ok {| cf_transaction_id := tx_transaction_id t; cf_portfolio_id := tx_portfolio_id t; cf_security_id := tx_security_id t;
        cf_cashflow_date := cashflow_date; cf_amount := amount; cf_currency := ce_currency economics; cf_classification := classification;
        cf_timing := timing; cf_calculation_type := ce_calculation_type economics; cf_is_position_flow := lv_is_position_flow level;
        cf_is_portfolio_flow := lv_is_portfolio_flow level; cf_economic_event_id := tx_economic_event_id t;
        cf_linked_transaction_group_id := tx_linked_transaction_group_id t; cf_epoch := normalized_epoch; cf_calculation_lineage := lineage |}.
End Calculation.
