(* ===== verification/CashflowFacts.v ===== *)
(** * What a cashflow moves

    The cashflows of a product transaction, of the cash leg generated for it and of the income component
    of a redemption carry the settlement cash between them, exactly. *)

From Stdlib Require Import ZArith Lia QArith String.
From stdpp Require Import base tactics list strings.
From S2P Require Import Prelude PyDecimal DecimalFacts PyTime Precision Lineage Registry Transactions Values Position Lots Redemption Settlement SettlementFacts Cashflow.

#[local] Open Scope string_scope.
#[local] Open Scope Z_scope.

Lemma cashflow_context_ledger : ledger_context cashflow_context.
Proof. split; [apply ledger_context_wide|done]. Qed.

(** ** Signs *)

Lemma cashflow_units_abs x n : units (-10) x n -> units (-10) (Dec (Z.abs (dcoeff x)) (dexp x)) (Z.abs n).
Proof.
  unfold units. intros Hx. rewrite dval_Dec, <- dval_abs, Hx, Qabs.Qabs_Qmult, (Qabs.Qabs_pos (pow10 (-10))) by (apply Qlt_le_weak, pow10_pos).
  reflexivity.
Qed.

Lemma exact_abs ctx x n : ledger_context ctx -> units (-10) x n -> Z.abs n < 10 ^ 64 -> exists r, dabs ctx x = Ok r /\ units (-10) r (Z.abs n).
Proof. intros Hctx Hx Hn. apply exact_fix; [done|by apply cashflow_units_abs|lia]. Qed.

Lemma signed_units b x n : units (-10) x n -> Z.abs n < 10 ^ 64 -> exists r, signed b x = Ok r /\ units (-10) r (if b then Z.abs n else - Z.abs n).
Proof.
  intros Hx Hn. destruct (exact_abs _ x n cashflow_context_ledger Hx Hn) as (a & Ea & Ha). destruct b; cbn [signed]; unfold positive, negative; rewrite Ea;
    [by exists a|]. cbn [mbind result_bind]. apply exact_neg; [apply cashflow_context_ledger|done|lia].
Qed.

(** ** The receipt can always be written *)

Section Receipts.
Context `{hashing : Hashing} {hashing_ok : HashingOk}.

Lemma text_ok v : is_ok (normalize_lineage_value (optional_text v)) = true.
Proof. by destruct v. Qed.
Lemma decimal_ok v : is_ok (normalize_lineage_value (optional_decimal v)) = true.
Proof. by destruct v. Qed.
Lemma isoformat_ok v : is_ok (normalize_lineage_value (optional_isoformat v)) = true.
Proof. by destruct v. Qed.
Lemma bool_ok v : is_ok (normalize_lineage_value (optional_bool v)) = true.
Proof. by destruct v. Qed.
Lemma date_ok v : is_ok (normalize_lineage_value (optional_date v)) = true.
Proof. by destruct v. Qed.

#[local] Hint Resolve text_ok decimal_ok isoformat_ok bool_ok date_ok : receipts.

Ltac payload_ok :=
  repeat first
    [ apply Forall_nil_2
    | apply Forall_cons_2; [split; [reflexivity|cbn [snd]; first [reflexivity|solve [auto with receipts]|apply normalize_map_ok]]|] ].

Lemma cashflow_input_ok t rule ty c epoch fee : is_ok (normalize_lineage_value (cashflow_lineage_input t rule ty c epoch fee)) = true.
Proof.
  apply normalize_map_ok. payload_ok.
Qed.

Lemma cashflow_output_ok t a e d c tm lv ep : is_ok (normalize_lineage_value (cashflow_lineage_output t a e d c tm lv ep)) = true.
Proof. apply normalize_map_ok. payload_ok. Qed.

(** ** A cashflow from its economics *)

Lemma cashflow_total t rule epoch c e fee n :
  let ty := resolve_effective_processing_transaction_type t in
  resolve_cashflow_economics t rule ty c = Ok e -> resolve_cashflow_trade_fee t = Ok fee -> units (-10) (ce_amount e) n -> Z.abs n < 10 ^ 18 ->
  exists cf, calculate_transaction_cashflow t rule epoch c = Ok cf /\ cf_amount cf = ce_amount e /\ cf_currency cf = ce_currency e /\
    cf_cashflow_date cf = resolve_cashflow_date t rule ty.
Proof.
  intros ty He Hfee Hn Hb. unfold calculate_transaction_cashflow. fold ty. rewrite He. cbn [mbind result_bind]. rewrite Hfee. cbn [mbind result_bind].
  rewrite (ledger_normalize "cashflow-ledger-output" (ce_amount e) n "cashflows.amount" (conj Hn Hb) : normalize CASHFLOW_LEDGER_OUTPUT_V1 _ _ = _).
  cbn [mbind result_bind]. destruct (lineage_identity CASHFLOW_LEDGER_OUTPUT_V1) as [np|] eqn:Enp; [|by vm_compute in Enp].
  cbn [mbind result_bind]. edestruct build_calculation_lineage_total as [l ->]; [reflexivity|lia|done|apply cashflow_input_ok|apply cashflow_output_ok|].
  cbn [mbind result_bind]. eexists. split; [done|]. done.
Qed.

Lemma cashflow_inv t rule epoch c cf : calculate_transaction_cashflow t rule epoch c = Ok cf ->
  let ty := resolve_effective_processing_transaction_type t in
  exists e, resolve_cashflow_economics t rule ty c = Ok e /\ normalize CASHFLOW_LEDGER_OUTPUT_V1 (Finite (ce_amount e)) "cashflows.amount" = Ok (cf_amount cf) /\
    cf_classification cf = resolve_cashflow_classification ty (cr_classification rule) (cf_amount cf).
Proof.
  unfold calculate_transaction_cashflow. intros H. apply bind_Ok in H as (e & He & H). apply bind_Ok in H as (fee & _ & H). apply bind_Ok in H as (a & Ha & H).
  apply bind_Ok in H as (np & _ & H). apply bind_Ok in H as (l & _ & H). injection H as <-. exists e. done.
Qed.

(** Units of a cashflow are the units of its economics. *)
Lemma cashflow_units t rule epoch c cf : calculate_transaction_cashflow t rule epoch c = Ok cf ->
  exists e, resolve_cashflow_economics t rule (resolve_effective_processing_transaction_type t) c = Ok e /\
    forall n, units (-10) (ce_amount e) n -> units (-10) (cf_amount cf) n /\ Z.abs n < 10 ^ 18.
Proof.
  intros (e & He & Ha & _)%cashflow_inv. exists e. split; [done|]. intros n Hn. apply ledger_of_normalize in Ha.
  rewrite (to_units_exact (ledger_policy "cashflow-ledger-output") (ce_amount e) n Hn) in Ha. exact Ha.
Qed.
End Receipts.

(** ** The generated cash leg *)

Section Leg.
Context `{hashing : Hashing} {hashing_ok : HashingOk}.

(** The fee of a transaction without fee components and with a zero fee. *)
Lemma zero_fee ctx t : fee_parts t = [None; None; None; None; None] -> tx_trade_fee t = Some dzero -> resolve_fee_amount ctx t = Ok dzero.
Proof.
  unfold fee_parts, resolve_fee_amount, fee_components. intros [= -> -> -> -> ->] ->. done.
Qed.

(** A cash leg without fees: its cashflow is its gross amount, signed by its direction. *)
Record plain_cash_leg (leg : BookedTransaction) (gross : Z) : Prop := {
  pl_type : resolve_effective_processing_transaction_type leg = "ADJUSTMENT";
  pl_flow : default false (tx_has_synthetic_flow leg) = false;
  pl_parts : fee_parts leg = [None; None; None; None; None];
  pl_fee : tx_trade_fee leg = Some dzero;
  pl_gross : units (-10) (tx_gross_transaction_amount leg) gross;
  pl_bounds : 0 <= gross < 10 ^ 18
}.

Definition moves_in (leg : BookedTransaction) : bool := String.eqb (cashflow_code (tx_movement_direction leg) "INFLOW") "INFLOW".

Lemma adjustment_economics leg gross rule c : plain_cash_leg leg gross ->
  exists e, resolve_cashflow_economics leg rule (resolve_effective_processing_transaction_type leg) c = Ok e /\
    units (-10) (ce_amount e) (if moves_in leg then gross else - gross) /\ ce_currency e = tx_currency leg.
Proof.
  intros [Ht Hf Hp Htf Hg Hb]. rewrite Ht. unfold resolve_cashflow_economics. rewrite Hf.
  change (in_set "ADJUSTMENT" REDEMPTION_TRANSACTION_TYPES) with false. change (in_set "ADJUSTMENT" ORDINARY_SETTLEMENT_TRANSACTION_TYPES) with false.
  cbv match. unfold base_cashflow_amount, resolve_cashflow_trade_fee. rewrite (zero_fee cashflow_context leg) by done. cbn [mbind result_bind].
  change (in_set "ADJUSTMENT" ["FX_CASH_SETTLEMENT_BUY"; "FX_CASH_SETTLEMENT_SELL"]) with false. cbn [andb raise_if mbind result_bind].
  change (in_set "ADJUSTMENT" ["BUY"; "FEE"]) with false. cbv match.
  destruct (exact_sub _ cashflow_context_ledger _ dzero gross 0 Hg (units_dzero _)) as (g & -> & Hg'); [lia|].
  cbn [mbind result_bind]. unfold signed_cashflow_amount. change (String.eqb "ADJUSTMENT" "ADJUSTMENT") with true. cbv match.
  unfold signed_adjustment_amount. fold (moves_in leg). rewrite Z.sub_0_r in Hg'. destruct (signed_units (moves_in leg) g gross Hg') as (a & -> & Ha); [lia|].
  cbn [mbind result_bind]. eexists. split; [done|]. cbn. split; [|done]. by rewrite Z.abs_eq in Ha by lia.
Qed.

Lemma leg_economics t i at_ m r nc ncl lk ty l rule c n :
  units (-10) (sm_signed_amount m) n -> Z.abs n < 10 ^ 18 ->
  let leg := replace_lineage l (cash_leg_record t i at_ m r nc ncl lk ty) in
  exists e, resolve_cashflow_economics leg rule (resolve_effective_processing_transaction_type leg) c = Ok e /\
    units (-10) (ce_amount e) n /\ ce_currency e = tx_currency t.
Proof.
  intros Hn Hb leg. assert (Hleg : plain_cash_leg leg (Z.abs n)) by (constructor; [done|done|done|done|exact (cashflow_units_abs _ n Hn)|lia]).
  destruct (adjustment_economics leg (Z.abs n) rule c Hleg) as (e & He & Hu & Hc). exists e. split; [done|]. split; [|exact Hc].
  assert (Hd : moves_in leg = (0 <? n)).
  { unfold moves_in. change (tx_movement_direction leg) with (Some (sm_movement_direction m)). unfold sm_movement_direction.
    rewrite (units_ltb dzero _ 0 n (units_dzero _) Hn). by destruct (0 <? n). }
  rewrite Hd in Hu. destruct (Z.ltb_spec 0 n); [by rewrite Z.abs_eq in Hu by lia|]. rewrite Z.abs_neq in Hu by lia. by rewrite Z.opp_involutive in Hu.
Qed.

Lemma build_leg_inv t leg : build_generated_settlement_cash_leg t = Ok leg ->
  exists m i r nc ncl l, calculate_settlement_cash_movement t = Ok m /\
    normalize TRANSACTION_COST_LEDGER_OUTPUT_V1 (Finite (sm_signed_amount m)) "generated_cash_net_cost_local" = Ok ncl /\
    leg = replace_lineage l (cash_leg_record t i (default (tx_transaction_date t) (tx_settlement_date t)) m r nc ncl
                               (resolve_generated_linkage t (settlement_type t)) (settlement_type t)) /\
    calculation_lineage_binds_output l (generated_cash_lineage_output leg) = Ok true.
Proof.
  unfold build_generated_settlement_cash_leg. intros H. apply bind_Ok in H as (_ & _ & H). apply bind_Ok in H as (r & _ & H). apply bind_Ok in H as (i & _ & H).
  apply bind_Ok in H as (m & Hm & H). apply bind_Ok in H as (ncl & Hncl & H). apply bind_Ok in H as (nc & _ & H). apply bind_Ok in H as (np & _ & H).
  apply bind_Ok in H as (l & Hl & H). injection H as <-. exists m, i, r, nc, ncl, l. split; [done|]. split; [done|]. split; [done|].
  by eapply lineage_binds_own.
Qed.

(** The leg that is built moves the settlement cash of its transaction. *)
Lemma leg_cashflow t leg rule epoch c : settlement_stored t -> build_generated_settlement_cash_leg t = Ok leg ->
  exists m n cf, calculate_settlement_cash_movement t = Ok m /\ units (-10) (sm_signed_amount m) n /\
    calculate_transaction_cashflow leg rule epoch c = Ok cf /\ units (-10) (cf_amount cf) n /\ Z.abs n < 10 ^ 18 /\
    cf_currency cf = tx_currency t /\ cf_cashflow_date cf = resolve_cashflow_date leg rule "ADJUSTMENT" /\
    tx_net_cost_local leg = Some (sm_signed_amount m) /\ tx_transaction_date leg = default (tx_transaction_date t) (tx_settlement_date t) /\
    tx_settlement_date leg = Some (default (tx_transaction_date t) (tx_settlement_date t)) /\ tx_synthetic_flow_effective_date leg = None /\
    tx_originating_transaction_id leg = Some (tx_transaction_id t) /\
    exists l, tx_calculation_lineage leg = Some l /\ calculation_lineage_binds_output l (generated_cash_lineage_output leg) = Ok true.
Proof.
  intros Hs (m & i & r & nc & ncl & l & Hm & Hncl & Hleg & Hb)%build_leg_inv. destruct (settlement_Ok t m Hs Hm) as (fee & n & _ & _ & _ & Hn).
  assert (Hbn : Z.abs n < 10 ^ 18 /\ ncl = sm_signed_amount m).
  { pose proof (ledger_normalize_units "transaction-cost-ledger-output" (sm_signed_amount m) n "generated_cash_net_cost_local" Hn) as E.
    unfold TRANSACTION_COST_LEDGER_OUTPUT_V1 in Hncl. rewrite Hncl in E. destruct (Z.ltb_spec (Z.abs n) (10 ^ 18)); [|done]. by injection E. }
  destruct Hbn as [Hbn ->]. subst leg.
  destruct (leg_economics t i (default (tx_transaction_date t) (tx_settlement_date t)) m r nc (sm_signed_amount m) (resolve_generated_linkage t (settlement_type t))
    (settlement_type t) l rule c n Hn Hbn) as (e & He & Hu & Hc).
  edestruct (cashflow_total _ rule epoch c e dzero n He) as (cf & Hcf & Ha & Hcur & Hd); [by apply zero_fee|done|done|].
  exists m, n, cf. rewrite Ha, Hcur. split; [done|]. split; [done|]. split; [done|]. split; [done|]. split; [done|]. split; [done|]. split; [done|].
  do 5 (split; [done|]). by exists l.
Qed.

(** The leg names the transaction it settles and carries a receipt that binds it. *)
Definition linked_and_sealed (t leg : BookedTransaction) : Prop :=
  tx_originating_transaction_id leg = Some (tx_transaction_id t) /\
  exists l, tx_calculation_lineage leg = Some l /\ calculation_lineage_binds_output l (generated_cash_lineage_output leg) = Ok true.

(** C22: the cash leg generated for a stored transaction moves exactly its settlement cash, in its currency, on its settlement date, is
    linked to it, books the same amount as its cost and carries a receipt that binds it. *)
Theorem generated_leg_moves_settlement_cash t leg rule epoch c : settlement_stored t -> build_generated_settlement_cash_leg t = Ok leg ->
  exists m n cf, calculate_settlement_cash_movement t = Ok m /\ units (-10) (sm_signed_amount m) n /\
    calculate_transaction_cashflow leg rule epoch c = Ok cf /\ units (-10) (cf_amount cf) n /\ tx_net_cost_local leg = Some (sm_signed_amount m) /\
    cf_currency cf = tx_currency t /\ cf_cashflow_date cf = settlement_date_or_transaction_date t /\
    linked_and_sealed t leg.
Proof.
  intros Hs Hb. destruct (leg_cashflow t leg rule epoch c Hs Hb) as (m & n & cf & Hm & Hn & Hcf & Ha & _ & Hcur & Hd & Hncl & Ht & Hst & Hsy & Ho & Hl).
  exists m, n, cf. do 6 (split; [done|]). split; [|done]. rewrite Hd. unfold resolve_cashflow_date, settlement_date_or_transaction_date.
  rewrite Hsy, Ht, Hst. by repeat case_match.
Qed.

(** ** Redemptions *)

Lemma effective_redemption t : in_set (resolve_effective_processing_transaction_type t) REDEMPTION_TRANSACTION_TYPES = true ->
  resolve_effective_processing_transaction_type t = settlement_type t.
Proof.
  unfold resolve_effective_processing_transaction_type. destruct (in_set (normalize_processing_type _) FX_COMPONENT_PROCESSING_TYPES) eqn:E; [|done].
  revert E. generalize (normalize_processing_type (pt_component_type t)). intros ty E H. exfalso. apply in_set_true in E.
  destruct E as [<-|[<-|[<-|[<-|[]]]]]; done.
Qed.

(** The product cashflow of a redemption is its settlement less the accrued interest. *)
Lemma redemption_product_units t m n rule c : settlement_stored t -> default false (tx_has_synthetic_flow t) = false ->
  in_set (settlement_type t) REDEMPTION_TRANSACTION_TYPES = true ->
  calculate_settlement_cash_movement t = Ok m -> units (-10) (sm_signed_amount m) n -> Z.abs n < 10 ^ 40 ->
  exists e, resolve_cashflow_economics t rule (settlement_type t) c = Ok e /\ units (-10) (ce_amount e) (n - ou (tx_accrued_interest_proceeds_local t)).
Proof.
  intros Hs Hsy Hr Hm Hn Hb. unfold resolve_cashflow_economics. rewrite Hsy, Hr. unfold redemption_product_amount. rewrite Hm. cbn [mbind result_bind].
  destruct (ou_units _ (ss_accrued t Hs)) as [Ha Hab].
  destruct (exact_sub _ cashflow_context_ledger _ _ _ _ Hn Ha) as (d & -> & Hd); [lia|]. by eexists.
Qed.

(** The income component of a redemption settles the accrued interest. *)
Section Component.
Context (t : BookedTransaction) (id component_id ty : string) (a : decimal) (linked : option string) (l : CalculationLineage)
  (Ha : stored a) (Hpos : 0 < ul a).
Let component := accrued_interest_record t id component_id ty a linked l.

Lemma component_stored : settlement_stored component.
Proof. split; try exact Ha; try exact stored_dzero; try exact I. repeat apply Forall_cons_2; done || apply Forall_nil_2. Qed.

Lemma component_settles : exists m, calculate_settlement_cash_movement component = Ok m /\ units (-10) (sm_signed_amount m) (ul a).
Proof.
  pose proof (settlement_meets component component_stored) as Hmt. change (settlement_fee component) with (Some 0) in Hmt. change (default 0 (Some 0)) with 0 in Hmt.
  assert (Es : settlement_spec component 0 = Some (Settles (ul a))); [|rewrite Es in Hmt; destruct Hmt as (mv & ? & ? & _); by exists mv].
  change (settlement_spec component 0) with
    (Some (interest_spec false (is_generated_redemption_accrued_interest component) (ul a - ul dzero - ul dzero) (ul a) 0)).
  rewrite ul_dzero. unfold interest_spec. replace (ul a - 0 - 0) with (ul a) by lia. rewrite (proj2 (Z.ltb_ge _ 0)), Z.eqb_refl, Z.sub_0_r by lia. cbn [negb].
  rewrite (proj2 (Z.eqb_neq _ 0)), (proj2 (Z.leb_gt _ 0)) by lia. done.
Qed.

Lemma component_economics rule c : exists e,
  resolve_cashflow_economics component rule (resolve_effective_processing_transaction_type component) c = Ok e /\ units (-10) (ce_amount e) (ul a).
Proof.
  change (resolve_effective_processing_transaction_type component) with "INTEREST". unfold resolve_cashflow_economics.
  change (default false (tx_has_synthetic_flow component)) with false. change (in_set "INTEREST" REDEMPTION_TRANSACTION_TYPES) with false.
  change (in_set "INTEREST" ORDINARY_SETTLEMENT_TRANSACTION_TYPES) with true. destruct c; cbv match.
  - destruct component_settles as (m & -> & Hm). by eexists.
  - unfold historical_rebuild_cashflow_amount. change (in_set "INTEREST" REDEMPTION_TRANSACTION_TYPES) with false.
    change (String.eqb "INTEREST" "DIVIDEND") with false. cbn [andb]. unfold historical_signing. change (String.eqb "INTEREST" "INTEREST") with true. cbv match.
    destruct (interest_economics_units component component_stored 0 ltac:(lia) cashflow_context cashflow_context_ledger eq_refl)
      as (ec & -> & _ & Hcash & _). cbn [mbind result_bind].
    change (interest_cash component 0 (String.eqb (interest_direction_of component) "EXPENSE")) with (ul a - 0) in Hcash. rewrite Z.sub_0_r in Hcash.
    change (negb (String.eqb (cashflow_code (tx_interest_direction component) "INCOME") "EXPENSE")) with true.
    destruct (signed_units true _ _ Hcash) as (r & -> & Hr); [destruct Ha; lia|]. rewrite Z.abs_eq in Hr by lia. by eexists.
Qed.
End Component.

Lemma component_cashflow t component rule epoch c : settlement_stored t -> build_redemption_accrued_interest_component t false = Ok (Some component) ->
  exists cf, calculate_transaction_cashflow component rule epoch c = Ok cf /\ units (-10) (cf_amount cf) (ou (tx_accrued_interest_proceeds_local t)).
Proof.
  unfold build_redemption_accrued_interest_component. intros Hs H. destruct (negb _); [done|]. apply bind_Ok in H as (u & Hu & H).
  pose proof (ss_accrued t Hs) as Hst. set (a := default dzero (tx_accrued_interest_proceeds_local t)) in *.
  assert (Ha : stored a /\ ul a = ou (tx_accrued_interest_proceeds_local t)).
  { unfold a. destruct (tx_accrued_interest_proceeds_local t); [done|]. split; [apply stored_dzero|apply ul_dzero]. }
  destruct Ha as [Ha <-]. apply raise_if_Ok in Hu. rewrite (stored_dltb a dzero Ha stored_dzero), ul_dzero in Hu. apply Z.ltb_ge in Hu.
  rewrite (stored_deqb a dzero Ha stored_dzero), ul_dzero in H. cbn [negb] in H. rewrite andb_true_r in H.
  destruct (Z.eqb_spec (ul a) 0) as [|Hne]; [done|]. apply bind_Ok in H as (m & _ & H). apply bind_Ok in H as (? & _ & H). apply bind_Ok in H as (l & _ & H).
  injection H as <-. set (comp := accrued_interest_record _ _ _ _ _ _ _).
  edestruct component_economics as (e & He & Heu); [exact Ha|lia|].
  destruct (cashflow_total comp rule epoch c e dzero (ul a) He) as (cf & Hcf & Hca & _); [by apply zero_fee|done|apply Ha|]. exists cf. by rewrite Hca.
Qed.

(** C21: the cash a stored redemption settles is split without loss: the cashflow of the product and that of its accrued-interest component
    sum to the cashflow of the generated cash leg, and a negative product amount is classified as an outflow. *)
Theorem redemption_cashflows_reconcile t leg component rule rule_leg rule_component epoch c cf :
  settlement_stored t -> default false (tx_has_synthetic_flow t) = false ->
  in_set (resolve_effective_processing_transaction_type t) REDEMPTION_TRANSACTION_TYPES = true ->
  build_generated_settlement_cash_leg t = Ok leg -> build_redemption_accrued_interest_component t false = Ok (Some component) ->
  calculate_transaction_cashflow t rule epoch c = Ok cf ->
  exists cf_leg cf_component p a, calculate_transaction_cashflow leg rule_leg epoch c = Ok cf_leg /\
    calculate_transaction_cashflow component rule_component epoch c = Ok cf_component /\
    units (-10) (cf_amount cf) p /\ units (-10) (cf_amount cf_component) a /\ units (-10) (cf_amount cf_leg) (p + a) /\
    (p < 0 -> cf_classification cf = "INVESTMENT_OUTFLOW").
Proof.
  intros Hs Hsy Hr Hleg Hcomp Hcf. destruct (leg_cashflow t leg rule_leg epoch c Hs Hleg) as (m & n & cfl & Hm & Hn & Hcfl & Ha & Hb & _).
  destruct (component_cashflow t component rule_component epoch c Hs Hcomp) as (cfc & Hcfc & Hcu). pose proof (effective_redemption t Hr) as Hty.
  destruct (redemption_product_units t m n rule c Hs Hsy) as (e & He & Heu); [by rewrite <- Hty|done|done|lia|].
  destruct (cashflow_units t rule epoch c cf Hcf) as (e' & He' & Hu). rewrite Hty, He in He'. injection He' as <-. destruct (Hu _ Heu) as [Hp _].
  exists cfl, cfc, (n - ou (tx_accrued_interest_proceeds_local t)), (ou (tx_accrued_interest_proceeds_local t)). do 4 (split; [done|]).
  replace (n - ou _ + ou _) with n by lia. split; [done|]. intros Hneg. apply cashflow_inv in Hcf as (_ & _ & _ & ->).
  unfold resolve_cashflow_classification. rewrite Hr, (units_ltb _ dzero _ 0 Hp (units_dzero _)), (proj2 (Z.ltb_lt _ 0) Hneg). done.
Qed.

(** ** Rebuilding history *)

(** The rule gives its type the sign of what it settles: purchases out, sales and dividends in. *)
Definition rule_fits (t : BookedTransaction) (rule : CashflowRule) : Prop :=
  let positive_class := 0 <? od_get_default (-1) (normalize_classification (cr_classification rule)) CLASSIFICATION_SIGN_FACTORS in
  let plain := normalize_classification (cr_classification rule) <> "TRANSFER" in
  if String.eqb (settlement_type t) "BUY" then plain /\ positive_class = false /\ 0 <= ul (tx_gross_transaction_amount t)
  else if in_set (settlement_type t) ["SELL"; "DIVIDEND"] then plain /\ positive_class = true
  else True.

Section Rebuild.
Context (t : BookedTransaction) (rule : CashflowRule) (Hs : settlement_stored t) (fee : Z) (Hf : settlement_fee t = Some fee).

Lemma base_units ty : in_set ty ["FX_CASH_SETTLEMENT_BUY"; "FX_CASH_SETTLEMENT_SELL"] = false ->
  exists b, base_cashflow_amount t ty = Ok b /\
    units (-10) b (if in_set ty ["BUY"; "FEE"] then ul (tx_gross_transaction_amount t) + fee else ul (tx_gross_transaction_amount t) - fee) /\
    0 <= fee < 10 ^ 20 /\ Z.abs (ul (tx_gross_transaction_amount t)) < 10 ^ 18.
Proof.
  intros Hty. unfold base_cashflow_amount, resolve_cashflow_trade_fee. pose proof (resolve_fee_spec _ t cashflow_context_ledger Hs) as Hr. rewrite Hf in Hr.
  destruct Hr as (d & -> & Hd & Hb). cbn [mbind result_bind]. rewrite Hty. cbn [andb raise_if mbind result_bind]. destruct (ss_gross t Hs) as [Hg Hgb].
  destruct (in_set ty ["BUY"; "FEE"]).
  - destruct (exact_add _ cashflow_context_ledger _ d _ fee Hg Hd) as (b & -> & Hbu); [lia|]. by exists b.
  - destruct (exact_sub _ cashflow_context_ledger _ d _ fee Hg Hd) as (b & -> & Hbu); [lia|]. by exists b.
Qed.

(** Signing by the rule where the type is neither an adjustment nor a transfer. *)
Lemma rule_signed ty b n : ty <> "ADJUSTMENT" -> normalize_classification (cr_classification rule) <> "TRANSFER" -> units (-10) b n -> Z.abs n < 10 ^ 64 ->
  exists r, signed_cashflow_amount t rule ty b = Ok r /\
    units (-10) r (if 0 <? od_get_default (-1) (normalize_classification (cr_classification rule)) CLASSIFICATION_SIGN_FACTORS then Z.abs n else - Z.abs n).
Proof.
  intros Hty Hc Hb Hn. unfold signed_cashflow_amount. rewrite (proj2 (String.eqb_neq _ _) Hty), (proj2 (String.eqb_neq _ _) Hc).
  by apply signed_units.
Qed.

Lemma interest_rebuilt n : settlement_type t = "INTEREST" -> settlement_spec t fee = Some (Settles n) ->
  exists r, historical_signing t rule "INTEREST" = Ok r /\ units (-10) r n.
Proof.
  intros Hty Hsp. rewrite (spec_interest t fee Hty) in Hsp. injection Hsp as Hsp. pose proof (resolve_fee_spec _ t cashflow_context_ledger Hs) as Hr. rewrite Hf in Hr. destruct Hr as (_ & _ & _ & Hb).
  unfold historical_signing. change (String.eqb "INTEREST" "INTEREST") with true. cbv match.
  destruct (interest_economics_units t Hs fee Hb _ cashflow_context_ledger Hf) as (ec & -> & _ & Hcash & Heb & Hnb). cbn [mbind result_bind].
  assert (Hd : cashflow_code (tx_interest_direction t) "INCOME" = interest_direction_of t).
  { unfold cashflow_code, interest_direction_of, normalize_transaction_control_code, normalize_code. by destruct (tx_interest_direction t) as [[|? ?]|]. }
  rewrite Hd. apply interest_spec_settles in Hsp as [Hpos ->]. unfold interest_cash in Hcash. destruct (String.eqb (interest_direction_of t) "EXPENSE"); cbn [negb].
  - destruct (signed_units false _ _ Hcash) as (r & -> & Hru); [lia|]. exists r. split; [done|]. by rewrite Z.abs_eq in Hru.
  - destruct (signed_units true _ _ Hcash) as (r & -> & Hru); [lia|]. exists r. split; [done|]. by rewrite Z.abs_eq in Hru.
Qed.

Lemma ordinary_rebuilt m n : in_set (settlement_type t) ORDINARY_SETTLEMENT_TRANSACTION_TYPES = true -> rule_fits t rule ->
  calculate_settlement_cash_movement t = Ok m -> units (-10) (sm_signed_amount m) n -> settlement_spec t fee = Some (Settles n) ->
  in_set (settlement_type t) REDEMPTION_TRANSACTION_TYPES = false ->
  exists r, historical_rebuild_cashflow_amount t rule (settlement_type t) = Ok r /\ units (-10) r n.
Proof.
  intros Ho Hfit Hm Hn Hsp Hr. unfold historical_rebuild_cashflow_amount. rewrite Hr. unfold rule_fits in Hfit.
  destruct (base_units (settlement_type t)) as (b & Eb & Hb & Hfb & Hgb); [by apply in_set_true in Ho; destruct Ho as [<-|[<-|[<-|[<-|[<-|[<-|[<-|[]]]]]]]]|].
  destruct (decide (settlement_type t = "INTEREST")) as [Ei|Hi].
  { rewrite Ei. change (String.eqb "INTEREST" "DIVIDEND") with false. cbn [andb]. by apply interest_rebuilt. }
  assert (Hsign : forall k, units (-10) b k -> Z.abs k < 10 ^ 64 -> normalize_classification (cr_classification rule) <> "TRANSFER" ->
    settlement_type t <> "ADJUSTMENT" -> (if 0 <? od_get_default (-1) (normalize_classification (cr_classification rule)) CLASSIFICATION_SIGN_FACTORS then Z.abs k else - Z.abs k) = n ->
    exists r, historical_signing t rule (settlement_type t) = Ok r /\ units (-10) r n).
  { intros k Hk Hkb Hc Ha <-. unfold historical_signing. rewrite (proj2 (String.eqb_neq _ _) Hi), Eb. cbn [mbind result_bind]. by apply rule_signed. }
  destruct (decide (settlement_type t = "BUY")) as [E|N1]; [|destruct (decide (settlement_type t = "SELL")) as [E|N2];
    [|destruct (decide (settlement_type t = "DIVIDEND")) as [E|N3]]].
  - rewrite (spec_buy t fee E) in Hsp. rewrite E in *. cbn -[od_get_default normalize_classification] in Hfit. cbn in Hb. destruct Hfit as (Hc & Hps & Hg). injection Hsp as <-. change (String.eqb "BUY" "DIVIDEND") with false. cbn [andb].
    apply (Hsign _ Hb); [lia|done|done|]. rewrite Hps. lia.
  - rewrite (spec_sell t fee E) in Hsp. rewrite E in *. cbn -[od_get_default normalize_classification] in Hfit. cbn in Hb. destruct Hfit as (Hc & Hps). unfold proceeds_spec in Hsp. destruct (Z.leb_spec (ul (tx_gross_transaction_amount t) - fee) 0); [done|].
    injection Hsp as <-. change (String.eqb "SELL" "DIVIDEND") with false. cbn [andb]. apply (Hsign _ Hb); [lia|done|done|]. rewrite Hps. lia.
  - rewrite (spec_dividend t fee E) in Hsp. rewrite E in *. cbn -[od_get_default normalize_classification] in Hfit. cbn in Hb. destruct Hfit as (Hc & Hps). change (String.eqb "DIVIDEND" "DIVIDEND") with true. cbn [andb].
    destruct (ou_units _ (ss_withholding t Hs)) as [Hw Hwb]. rewrite (units_ltb dzero _ 0 _ (units_dzero _) Hw).
    destruct (Z.ltb_spec 0 (ou (tx_withholding_tax_amount t))) as [Hpos|Hneg]; [rewrite Hm; by eexists|].
    injection Hsp as Hsp. unfold dividend_spec, proceeds_spec in Hsp. destruct (Z.ltb_spec (ou (tx_withholding_tax_amount t)) 0); [done|].
    assert (Ew : ou (tx_withholding_tax_amount t) = 0) by lia. rewrite Ew in Hsp. destruct (_ && _); [done|]. destruct (Z.leb_spec (ul (tx_gross_transaction_amount t) - 0 - fee) 0); [done|].
    injection Hsp as <-. apply (Hsign _ Hb); [lia|done|done|]. rewrite Hps. lia.
  - exfalso. apply in_set_true in Ho. destruct Ho as [E|[E|[E|[E|[E|[E|[E|[]]]]]]]]; try congruence; by rewrite <- E in Hr.
Qed.
End Rebuild.

(** Rebuilding history changes no cashflow the current settlement policy accepts: under a rule that signs its type as it settles, the
    historical calculation of an ordinary stored transaction succeeds with the amount of the current one. *)
Theorem historical_rebuild_agrees t rule epoch cf : settlement_stored t -> default false (tx_has_synthetic_flow t) = false ->
  resolve_effective_processing_transaction_type t = settlement_type t -> in_set (settlement_type t) ORDINARY_SETTLEMENT_TRANSACTION_TYPES = true ->
  rule_fits t rule -> calculate_transaction_cashflow t rule epoch CURRENT_BOOKING = Ok cf ->
  exists cf' n, calculate_transaction_cashflow t rule epoch HISTORICAL_REBUILD = Ok cf' /\ units (-10) (cf_amount cf) n /\ units (-10) (cf_amount cf') n.
Proof.
  intros Hs Hsy Hty Ho Hfit Hcf. destruct (cashflow_units t rule epoch _ cf Hcf) as (e & He & Hu). rewrite Hty in He. unfold resolve_cashflow_economics in He.
  rewrite Hsy in He. assert (Hfee : exists fd, resolve_cashflow_trade_fee t = Ok fd).
  { unfold calculate_transaction_cashflow in Hcf. apply bind_Ok in Hcf as (? & _ & Hcf). apply bind_Ok in Hcf as (fd & Hfd & _). by exists fd. }
  destruct Hfee as (fd & Hfd). destruct (in_set (settlement_type t) REDEMPTION_TRANSACTION_TYPES) eqn:Er.
  - apply bind_Ok in He as (a & Ha & [= <-]). assert (Hm : exists m, calculate_settlement_cash_movement t = Ok m).
    { unfold redemption_product_amount in Ha. apply bind_Ok in Ha as (m & Hm & _). by exists m. }
    destruct Hm as (m & Hm). destruct (settlement_Ok t m Hs Hm) as (fee & n & Hf & Hfb & Hsp & Hn).
    assert (Hb : Z.abs n < 10 ^ 40) by (by eapply redemption_bound).
    destruct (redemption_product_units t m n rule HISTORICAL_REBUILD Hs Hsy Er Hm Hn Hb) as (e' & He' & Heu).
    assert (Ea : ce_amount e' = a). { unfold resolve_cashflow_economics in He'. rewrite Hsy, Er, Ha in He'. cbn in He'. by injection He' as <-. }
    cbn in Hu. rewrite Ea in Heu. destruct (Hu _ Heu) as [Hcu Hcb]. rewrite <- Hty in He'. rewrite <- Ea in Heu.
    destruct (cashflow_total t rule epoch HISTORICAL_REBUILD e' fd _ He' Hfd Heu Hcb) as (cf' & Hcf' & Hca & _). exists cf', (n - ou (tx_accrued_interest_proceeds_local t)). split; [done|]. split; [exact Hcu|]. by rewrite Hca.
  - rewrite Ho in He. apply bind_Ok in He as (a & Ha & [= <-]). apply bind_Ok in Ha as (m & Hm & [= <-]). destruct (settlement_Ok t m Hs Hm) as (fee & n & Hf & Hfb & Hsp & Hn).
    destruct (Hu n Hn) as [Hcu Hcb]. destruct (ordinary_rebuilt t rule Hs fee Hf m n Ho Hfit Hm Hn Hsp Er) as (r & Hr & Hru).
    destruct (cashflow_total t rule epoch HISTORICAL_REBUILD {| ce_amount := r; ce_currency := tx_currency t; ce_calculation_type := calculation_type_value NET |} fd n)
      as (cf' & Hcf' & Hca & _); [|done|done|done|].
    + rewrite Hty. unfold resolve_cashflow_economics. by rewrite Hsy, Er, Ho, Hr.
    + exists cf', n. split; [done|]. split; [done|]. by rewrite Hca.
Qed.
End Leg.

(** ** Examples *)

(** A bond redeemed at 99.5 with 5 of accrued interest, 2 of embedded fees and a fee of 0.25: it settles 102.25. *)
Definition redeemed_bond : BookedTransaction :=
  {| tx_transaction_id := "R1"; tx_portfolio_id := "P1"; tx_instrument_id := "BOND"; tx_security_id := "BOND";
     tx_transaction_date := {| dt_us := 1700000000000000; dt_utcoffset := Some 0 |}; tx_transaction_type := "maturity_redemption";
     tx_quantity := Dec 100 0; tx_price := Dec 995 (-3); tx_gross_transaction_amount := Dec 995 (-1); tx_trade_currency := "USD"; tx_currency := "USD";
     tx_trade_fee := Some (Dec 25 (-2)); tx_brokerage := None; tx_stamp_duty := None; tx_exchange_fee := None; tx_gst := None; tx_other_fees := None;
     tx_settlement_date := None; tx_net_cost := None; tx_gross_cost := None; tx_realized_gain_loss := None; tx_transaction_fx_rate := Some (Dec 13 (-1));
     tx_transaction_fx_rate_origin := None; tx_net_cost_local := None; tx_realized_gain_loss_local := None; tx_economic_event_id := None;
     tx_linked_transaction_group_id := None; tx_calculation_policy_id := None; tx_calculation_policy_version := None; tx_source_system := None;
     tx_source_record_id := None; tx_source_batch_id := None; tx_observed_at := None; tx_cash_entry_mode := Some "auto_generate";
     tx_external_cash_transaction_id := Some "R1-CASHLEG"; tx_settlement_cash_account_id := Some "ACC"; tx_settlement_cash_instrument_id := None;
     tx_movement_direction := None; tx_originating_transaction_id := None; tx_originating_transaction_type := None; tx_adjustment_reason := None;
     tx_link_type := None; tx_reconciliation_key := None; tx_interest_direction := None; tx_withholding_tax_amount := None;
     tx_other_interest_deductions_amount := None; tx_net_interest_amount := None; tx_component_type := None; tx_component_id := None;
     tx_linked_component_ids := None; tx_fx_cash_leg_role := None; tx_linked_fx_cash_leg_id := None; tx_settlement_status := None;
     tx_pair_base_currency := None; tx_pair_quote_currency := None; tx_fx_rate_quote_convention := None; tx_buy_currency := None;
     tx_sell_currency := None; tx_buy_amount := None; tx_sell_amount := None; tx_contract_rate := None; tx_fx_contract_id := None;
     tx_fx_contract_open_transaction_id := None; tx_fx_contract_close_transaction_id := None; tx_settlement_of_fx_contract_id := None;
     tx_swap_event_id := None; tx_near_leg_group_id := None; tx_far_leg_group_id := None; tx_spot_exposure_model := None; tx_fx_realized_pnl_mode := None;
     tx_allocated_cost_basis_local := None; tx_allocated_cost_basis_base := None; tx_realized_capital_pnl_local := None; tx_realized_fx_pnl_local := None;
     tx_realized_total_pnl_local := None; tx_realized_capital_pnl_base := None; tx_realized_fx_pnl_base := None; tx_realized_total_pnl_base := None;
     tx_parent_transaction_reference := None; tx_linked_parent_event_id := None; tx_parent_event_reference := None; tx_child_role := None;
     tx_child_sequence_hint := None; tx_dependency_reference_ids := None; tx_source_instrument_id := None; tx_target_instrument_id := None;
     tx_source_transaction_reference := None; tx_target_transaction_reference := None; tx_external_destination_reference := None;
     tx_linked_cash_transaction_id := None; tx_redemption_price_type := None; tx_old_factor := None; tx_new_factor := None;
     tx_principal_proceeds_local := None; tx_accrued_interest_proceeds_local := Some (Dec 5 0); tx_embedded_fee_amount_local := Some (Dec 2 0);
     tx_embedded_tax_amount_local := None; tx_has_synthetic_flow := None; tx_synthetic_flow_effective_date := None;
     tx_synthetic_flow_amount_local := None; tx_synthetic_flow_currency := None; tx_synthetic_flow_amount_base := None;
     tx_synthetic_flow_fx_rate_to_base := None; tx_synthetic_flow_price_used := None; tx_synthetic_flow_quantity_used := None;
     tx_synthetic_flow_valuation_method := None; tx_synthetic_flow_classification := None; tx_synthetic_flow_price_source := None;
     tx_synthetic_flow_fx_source := None; tx_synthetic_flow_source := None; tx_created_at := None; tx_epoch := None; tx_tenant_id := None;
     tx_calculation_lineage := None; tx_lot_restatement := None; tx_source_lot_order_quantity := None; tx_source_lot_original_quantity := None |}.

Lemma redeemed_bond_stored : settlement_stored redeemed_bond.
Proof.
  split; first [exact I|split; vm_compute; reflexivity|repeat (apply Forall_cons_2; [exact I|]); apply Forall_nil_2].
Qed.

Definition or_else {A} (m : result A) (d : A) : A := match m with Ok a => a | Raise _ => d end.

Definition bond_leg : BookedTransaction := or_else (@build_generated_settlement_cash_leg constant_hashing redeemed_bond) redeemed_bond.
Definition bond_interest : BookedTransaction :=
  default redeemed_bond (or_else (@build_redemption_accrued_interest_component constant_hashing redeemed_bond false) None).
Definition principal_rule : CashflowRule :=
  {| cr_classification := Named INVESTMENT_INFLOW; cr_timing := Named EOD; cr_is_position_flow := true; cr_is_portfolio_flow := false |}.
Definition bond_cashflow : result CalculatedCashflow := @calculate_transaction_cashflow constant_hashing redeemed_bond principal_rule None CURRENT_BOOKING.

Lemma generated_leg_moves_settlement_cash_witness :
  exists m n cf, calculate_settlement_cash_movement redeemed_bond = Ok m /\ units (-10) (sm_signed_amount m) n /\
    @calculate_transaction_cashflow constant_hashing bond_leg principal_rule None CURRENT_BOOKING = Ok cf /\ units (-10) (cf_amount cf) n /\
    tx_net_cost_local bond_leg = Some (sm_signed_amount m) /\
    cf_currency cf = tx_currency redeemed_bond /\ cf_cashflow_date cf = settlement_date_or_transaction_date redeemed_bond /\
    @linked_and_sealed constant_hashing redeemed_bond bond_leg.
Proof.
  apply (@generated_leg_moves_settlement_cash constant_hashing constant_hashing_ok redeemed_bond bond_leg principal_rule None CURRENT_BOOKING).
  - exact redeemed_bond_stored.
  - vm_compute. reflexivity.
Defined.

Lemma redemption_cashflows_reconcile_witness : exists cf, bond_cashflow = Ok cf /\ (dval (cf_amount cf) == 9725 # 100)%Q /\
  exists cf_leg cf_component p a, @calculate_transaction_cashflow constant_hashing bond_leg principal_rule None CURRENT_BOOKING = Ok cf_leg /\
    @calculate_transaction_cashflow constant_hashing bond_interest principal_rule None CURRENT_BOOKING = Ok cf_component /\
    units (-10) (cf_amount cf) p /\ units (-10) (cf_amount cf_component) a /\ units (-10) (cf_amount cf_leg) (p + a) /\
    (p < 0 -> cf_classification cf = "INVESTMENT_OUTFLOW").
Proof.
  destruct bond_cashflow as [cf|] eqn:E; [|by vm_compute in E]. exists cf. split; [done|]. split.
  - vm_compute in E. injection E as <-. reflexivity.
  - apply (@redemption_cashflows_reconcile constant_hashing constant_hashing_ok redeemed_bond bond_leg bond_interest principal_rule principal_rule
      principal_rule None CURRENT_BOOKING cf); [exact redeemed_bond_stored|reflexivity|reflexivity| | |exact E]; vm_compute; reflexivity.
Defined.

Lemma historical_rebuild_agrees_witness : exists cf, bond_cashflow = Ok cf /\
  exists cf' n, @calculate_transaction_cashflow constant_hashing redeemed_bond principal_rule None HISTORICAL_REBUILD = Ok cf' /\
    units (-10) (cf_amount cf) n /\ units (-10) (cf_amount cf') n.
Proof.
  destruct bond_cashflow as [cf|] eqn:E; [|by vm_compute in E]. exists cf. split; [done|].
  apply (@historical_rebuild_agrees constant_hashing constant_hashing_ok redeemed_bond principal_rule None cf);
    [exact redeemed_bond_stored|reflexivity|reflexivity|reflexivity|exact I|exact E].
Defined.
