(* ===== verification/CorporateAction.v ===== *)
(** * Corporate-action events

    [domain/transaction/corporate_action]: the children of a corporate-action event
    ([event_graph.py]), which of them a booked transaction declares ([arrival.py]), the closed cohorts
    of each event family ([cohort_policy.py]), and the readiness of a source-owned parent manifest
    ([manifest.py]).  The structural part is the directed graph of EventGraph; a [dict] built by a
    comprehension keeps the last entry of a repeated key. *)

From Stdlib Require Import ZArith Lia String.
From stdpp Require Import base tactics list strings.
From S2P Require Import Prelude PyDecimal PyTime Precision Lineage Transactions AccruedIncome EventGraph.

#[local] Open Scope string_scope.
#[local] Open Scope Z_scope.

(** ** Children *)

Inductive CorporateActionEventStructuralStatus := STRUCTURALLY_VALID | STRUCTURALLY_INVALID.

Inductive CorporateActionEventGraphReason :=
| CA_EMPTY_EVENT | CA_DUPLICATE_CHILD_ID | CA_CONFLICTING_CHILD_DEFINITION | CA_DUPLICATE_DEPENDENCY_REFERENCE | CA_SELF_DEPENDENCY
| CA_MISSING_DEPENDENCY | CA_DEPENDENCY_CYCLE | CA_BLOCKED_BY_CYCLE.

#[export] Instance ca_reason_eq_dec : EqDecision CorporateActionEventGraphReason.
Proof. solve_decision. Defined.

Definition ca_reason_value (r : CorporateActionEventGraphReason) : string :=
  match r with
  | CA_EMPTY_EVENT => "CA_EVENT_EMPTY" | CA_DUPLICATE_CHILD_ID => "CA_EVENT_DUPLICATE_CHILD_ID"
  | CA_CONFLICTING_CHILD_DEFINITION => "CA_EVENT_CONFLICTING_CHILD_DEFINITION"
  | CA_DUPLICATE_DEPENDENCY_REFERENCE => "CA_EVENT_DUPLICATE_DEPENDENCY_REFERENCE" | CA_SELF_DEPENDENCY => "CA_EVENT_SELF_DEPENDENCY"
  | CA_MISSING_DEPENDENCY => "CA_EVENT_MISSING_DEPENDENCY" | CA_DEPENDENCY_CYCLE => "CA_EVENT_DEPENDENCY_CYCLE"
  | CA_BLOCKED_BY_CYCLE => "CA_EVENT_BLOCKED_BY_CYCLE"
  end.

Record CorporateActionEventChild := {
  ch_transaction_id : string; ch_transaction_type : string; ch_child_role : string; ch_dependency_transaction_ids : list string;
  ch_child_sequence_hint : option Z; ch_instrument_id : option string; ch_source_instrument_id : option string;
  ch_target_instrument_id : option string
}.

#[export] Instance child_eq_dec : EqDecision CorporateActionEventChild.
Proof. solve_decision. Defined.

#[export] Instance child_orderable : CorporateActionOrderable CorporateActionEventChild :=
  {| ca_transaction_id := ch_transaction_id; ca_transaction_type := ch_transaction_type;
     ca_child_sequence_hint := ch_child_sequence_hint; ca_target_instrument_id := ch_target_instrument_id |}.

Definition optional_required_text (value : option string) (field_name : string) : result (option string) :=
  match value with None => Ok None | Some v => t ← required_text v field_name; Ok (Some t) end.

Definition make_CorporateActionEventChild (c : CorporateActionEventChild) : result CorporateActionEventChild :=
  id ← required_text (ch_transaction_id c) "transaction_id";
  kind ← required_text (ch_transaction_type c) "transaction_type";
  role ← required_text (ch_child_role c) "child_role";
  dependencies ← mapR (fun value => required_text value "dependency_transaction_ids") (ch_dependency_transaction_ids c);
  _ ← raise_if (match ch_child_sequence_hint c with Some hint => hint <? 0 | None => false end)
        (ValueError "child_sequence_hint must be non-negative when provided");
  instrument ← optional_required_text (ch_instrument_id c) "instrument_id";
  source ← optional_required_text (ch_source_instrument_id c) "source_instrument_id";
  target ← optional_required_text (ch_target_instrument_id c) "target_instrument_id";
  Ok {| ch_transaction_id := id; ch_transaction_type := upper kind; ch_child_role := upper role;
        ch_dependency_transaction_ids := dependencies; ch_child_sequence_hint := ch_child_sequence_hint c;
        ch_instrument_id := instrument; ch_source_instrument_id := source; ch_target_instrument_id := target |}.

Definition PText (v : option string) : payload := match v with Some s => PStr s | None => PNone end.
Definition JText (v : option string) : json := match v with Some s => JStr s | None => JNull end.

Definition ch_lineage_payload (c : CorporateActionEventChild) : payload :=
  PMap [("canonical_payload_version", PInt 1); ("child_role", PStr (ch_child_role c));
        ("child_sequence_hint", match ch_child_sequence_hint c with Some n => PInt n | None => PNone end);
        ("dependency_transaction_ids", PSeq (map PStr (stable_sort string_leb (ch_dependency_transaction_ids c))));
        ("instrument_id", PText (ch_instrument_id c)); ("source_instrument_id", PText (ch_source_instrument_id c));
        ("target_instrument_id", PText (ch_target_instrument_id c)); ("transaction_id", PStr (ch_transaction_id c));
        ("transaction_type", PStr (ch_transaction_type c))].

(** [_child_payload(x) == _child_payload(y)]: the two dictionaries have the same keys, so they are equal when their values are. *)
Definition child_payload_eqb (x y : CorporateActionEventChild) : bool :=
  String.eqb (ch_child_role x) (ch_child_role y) && bool_decide (ch_child_sequence_hint x = ch_child_sequence_hint y) &&
  bool_decide (stable_sort string_leb (ch_dependency_transaction_ids x) = stable_sort string_leb (ch_dependency_transaction_ids y)) &&
  bool_decide (ch_instrument_id x = ch_instrument_id y) && bool_decide (ch_source_instrument_id x = ch_source_instrument_id y) &&
  bool_decide (ch_target_instrument_id x = ch_target_instrument_id y) && String.eqb (ch_transaction_id x) (ch_transaction_id y) &&
  String.eqb (ch_transaction_type x) (ch_transaction_type y).

(** ** The children a booked transaction declares *)

Definition present (value : option string) : bool := match value with Some s => truthy (strip s) | None => false end.

Definition corporate_action_manifest_child (t : BookedTransaction) : result (option CorporateActionEventChild) :=
  if negb (is_manifest_governed_corporate_action (Some (tx_transaction_type t))) then Ok None else
  let manifest_identity_values := [tx_parent_event_reference t; tx_child_role t] in
  if negb (existsb present manifest_identity_values) then Ok None else
  let identity_values := tx_economic_event_id t :: tx_linked_transaction_group_id t :: manifest_identity_values in
  let populated_identity_count := length (List.filter present identity_values) in
  if Nat.eqb populated_identity_count 0 then Ok None else
  _ ← raise_if (negb (Nat.eqb populated_identity_count (length identity_values)))
        (IncompleteCorporateActionManifestIdentityError "manifest-governed corporate-action identity must be fully populated");
  child ← make_CorporateActionEventChild
    {| ch_transaction_id := tx_transaction_id t; ch_transaction_type := tx_transaction_type t;
       ch_child_role := match tx_child_role t with Some role => role | None => "None" end;
       ch_dependency_transaction_ids := match tx_dependency_reference_ids t with Some ids => ids | None => [] end;
       ch_child_sequence_hint := tx_child_sequence_hint t; ch_instrument_id := Some (tx_instrument_id t);
       ch_source_instrument_id := tx_source_instrument_id t; ch_target_instrument_id := tx_target_instrument_id t |};
  Ok (Some child).

(** ** The structural plan *)

Record CorporateActionEventGraph := {
  cg_corporate_action_event_id : string; cg_linked_transaction_group_id : string; cg_parent_event_reference : string;
  cg_version : Z; cg_children : list CorporateActionEventChild
}.

Definition make_CorporateActionEventGraph (g : CorporateActionEventGraph) : result CorporateActionEventGraph :=
  event ← required_text (cg_corporate_action_event_id g) "corporate_action_event_id";
  group ← required_text (cg_linked_transaction_group_id g) "linked_transaction_group_id";
  parent ← required_text (cg_parent_event_reference g) "parent_event_reference";
  _ ← raise_if (cg_version g <? 1) (ValueError "version must be greater than zero");
  Ok {| cg_corporate_action_event_id := event; cg_linked_transaction_group_id := group; cg_parent_event_reference := parent;
        cg_version := cg_version g; cg_children := cg_children g |}.

Record CorporateActionEventGraphFinding := {
  cf_reason : CorporateActionEventGraphReason; cf_transaction_ids : list string; cf_dependency_transaction_ids : list string
}.

Record CorporateActionEventStructuralPlan := {
  sp_status : CorporateActionEventStructuralStatus; sp_ordered_children : list CorporateActionEventChild;
  sp_findings : list CorporateActionEventGraphFinding; sp_declared_node_count : Z; sp_declared_edge_count : Z
}.

Definition ordered_transaction_ids (p : CorporateActionEventStructuralPlan) : list string := map ch_transaction_id (sp_ordered_children p).

Definition CORPORATE_ACTION_REASON_BY_GRAPH_REASON (r : DirectedEventGraphReason) : CorporateActionEventGraphReason :=
  match r with
  | EMPTY_GRAPH => CA_EMPTY_EVENT | DUPLICATE_NODE_ID => CA_DUPLICATE_CHILD_ID
  | CONFLICTING_NODE_DEFINITION => CA_CONFLICTING_CHILD_DEFINITION | DUPLICATE_EDGE => CA_DUPLICATE_DEPENDENCY_REFERENCE
  | SELF_DEPENDENCY => CA_SELF_DEPENDENCY | MISSING_DEPENDENCY => CA_MISSING_DEPENDENCY | DEPENDENCY_CYCLE => CA_DEPENDENCY_CYCLE
  | BLOCKED_BY_CYCLE => CA_BLOCKED_BY_CYCLE
  end.

Definition children_by_transaction_id (children : list CorporateActionEventChild) : list (string * CorporateActionEventChild) :=
  fold_left (fun d c => od_set (ch_transaction_id c) c d) children [].

Section Hashed.
Context `{Hashing}.

Definition ch_content_hash (c : CorporateActionEventChild) : result string := canonical_content_hash (ch_lineage_payload c).

(** The payload is already JSON: it holds text, an integer, a list of texts and nulls. *)
Definition child_fingerprint (c : CorporateActionEventChild) : string :=
  "sha256:" +:+ sha256_hexdigest (json_dumps (JObj
    [("child_role", JStr (ch_child_role c));
     ("child_sequence_hint", match ch_child_sequence_hint c with Some n => JInt n | None => JNull end);
     ("dependency_transaction_ids", JArr (map JStr (stable_sort string_leb (ch_dependency_transaction_ids c))));
     ("instrument_id", JText (ch_instrument_id c)); ("source_instrument_id", JText (ch_source_instrument_id c));
     ("target_instrument_id", JText (ch_target_instrument_id c)); ("transaction_id", JStr (ch_transaction_id c));
     ("transaction_type", JStr (ch_transaction_type c))])).

Definition child_order_key (c : CorporateActionEventChild) : list string :=
  let sequence := match ch_child_sequence_hint c with Some hint => hint | None => 2147483647 end in
  [pad_left 4 (string_of_nonneg (corporate_action_dependency_rank c)); pad_left 10 (string_of_nonneg sequence);
   or_text (ch_target_instrument_id c) "-"; ch_child_role c; ch_transaction_id c].

Definition directed_node (c : CorporateActionEventChild) : result DirectedEventNode :=
  make_DirectedEventNode
    {| node_id := ch_transaction_id c; dependency_node_ids := ch_dependency_transaction_ids c;
       definition_fingerprint := child_fingerprint c; order_key := child_order_key c |}.

Definition resolve_corporate_action_event_graph (g : CorporateActionEventGraph) : result CorporateActionEventStructuralPlan :=
  nodes ← mapR directed_node (cg_children g);
  let children := children_by_transaction_id (cg_children g) in
  plan ← resolve_directed_event_graph nodes;
  let findings := map (fun f => {| cf_reason := CORPORATE_ACTION_REASON_BY_GRAPH_REASON (gf_reason f);
                                   cf_transaction_ids := gf_node_ids f;
                                   cf_dependency_transaction_ids := gf_dependency_node_ids f |}) (gp_findings plan) in
  ordered ← mapR (fun n => lookup_key (node_id n) children) (gp_ordered_nodes plan);
  Ok {| sp_status := match gp_status plan with VALID => STRUCTURALLY_VALID | INVALID => STRUCTURALLY_INVALID end;
        sp_ordered_children := ordered; sp_findings := findings; sp_declared_node_count := gp_declared_node_count plan;
        sp_declared_edge_count := gp_declared_edge_count plan |}.
End Hashed.
