(* ===== verification/CorporateActionManifest.v ===== *)
(** * Parent manifests of corporate actions

    [domain/transaction/corporate_action]: the closed cohorts of each event family
    ([cohort_policy.py]) and the readiness of a source-owned parent manifest against the children
    observed so far ([manifest.py]). *)

From Stdlib Require Import ZArith Lia String.
From stdpp Require Import base tactics list strings.
From S2P Require Import Prelude PyDecimal PyTime Precision Lineage Transactions AccruedIncome EventGraph CorporateAction.

#[local] Open Scope string_scope.
#[local] Open Scope Z_scope.

(** ** Cohort policies *)

Definition CORPORATE_ACTION_OVERLAY_TRANSACTION_TYPES : list string := ["CASH_CONSIDERATION"; "CASH_IN_LIEU"; "ADJUSTMENT"; "FEE"; "TAX"].

Record CorporateActionCohortPolicy := {
  cp_corporate_action_type : string; cp_source_transaction_type : string; cp_source_role : string; cp_target_transaction_type : string
}.

Definition allowed_transaction_types (p : CorporateActionCohortPolicy) : list string :=
  cp_source_transaction_type p :: cp_target_transaction_type p :: CORPORATE_ACTION_OVERLAY_TRANSACTION_TYPES.

Definition CORPORATE_ACTION_COHORT_POLICIES : list CorporateActionCohortPolicy :=
  [Build_CorporateActionCohortPolicy "SPIN_OFF" "SPIN_OFF" "SOURCE_POSITION_REDUCE" "SPIN_IN";
   Build_CorporateActionCohortPolicy "DEMERGER" "DEMERGER_OUT" "SOURCE_POSITION_REDUCE" "DEMERGER_IN";
   Build_CorporateActionCohortPolicy "MERGER" "MERGER_OUT" "SOURCE_POSITION_CLOSE" "MERGER_IN";
   Build_CorporateActionCohortPolicy "MANDATORY_EXCHANGE" "EXCHANGE_OUT" "SOURCE_POSITION_CLOSE" "EXCHANGE_IN";
   Build_CorporateActionCohortPolicy "SECURITY_REPLACEMENT" "REPLACEMENT_OUT" "SOURCE_POSITION_CLOSE" "REPLACEMENT_IN"].

Definition POLICY_BY_EVENT_TYPE : list (string * CorporateActionCohortPolicy) :=
  map (fun p => (cp_corporate_action_type p, p)) CORPORATE_ACTION_COHORT_POLICIES.

Definition corporate_action_cohort_policy (corporate_action_type : string) : option CorporateActionCohortPolicy :=
  od_get (upper (strip corporate_action_type)) POLICY_BY_EVENT_TYPE.

(** ** Manifests, findings and readiness *)

Inductive CorporateActionManifestReadinessStatus := AWAITING_MANIFEST | AWAITING_COMPLETION | AWAITING_CHILDREN | MANIFEST_INVALID | READY.

Inductive CorporateActionManifestReason :=
| MANIFEST_REQUIRED | COMPLETION_NOT_DECLARED | INVALID_GRAPH | INVALID_ROLE_FOR_TRANSACTION_TYPE | UNSUPPORTED_CORPORATE_ACTION_TYPE
| CHILD_TYPE_NOT_ALLOWED | SOURCE_CHILD_REQUIRED | SOURCE_CHILD_CARDINALITY | TARGET_CHILD_REQUIRED | SOURCE_INSTRUMENT_REQUIRED
| SOURCE_CHILD_INSTRUMENT_MISMATCH | TARGET_INSTRUMENT_REQUIRED | TARGET_CHILD_INSTRUMENT_MISMATCH | TARGET_INSTRUMENT_EQUALS_SOURCE
| TARGET_SOURCE_DEPENDENCY_REQUIRED | TARGET_SOURCE_INSTRUMENT_MISMATCH | NON_POSITION_DEPENDENCY_REQUIRED | MISSING_EXPECTED_CHILD
| UNEXPECTED_CHILD | OBSERVED_CHILD_MISMATCH.

Record CorporateActionParentManifest := {
  pm_corporate_action_event_id : string; pm_tenant_id : string; pm_legal_book_id : string; pm_portfolio_id : string;
  pm_linked_transaction_group_id : string; pm_parent_event_reference : string; pm_corporate_action_type : string; pm_version : Z;
  pm_completion_declared : bool; pm_expected_children : list CorporateActionEventChild; pm_source_reference : FinancialSourceReference
}.

Definition make_CorporateActionParentManifest (m : CorporateActionParentManifest) : result CorporateActionParentManifest :=
  event ← required_text (pm_corporate_action_event_id m) "corporate_action_event_id";
  tenant ← required_text (pm_tenant_id m) "tenant_id";
  book ← required_text (pm_legal_book_id m) "legal_book_id";
  portfolio ← required_text (pm_portfolio_id m) "portfolio_id";
  group ← required_text (pm_linked_transaction_group_id m) "linked_transaction_group_id";
  parent ← required_text (pm_parent_event_reference m) "parent_event_reference";
  kind ← required_text (pm_corporate_action_type m) "corporate_action_type";
  _ ← raise_if (pm_version m <? 1) (ValueError "version must be a positive integer");
  Ok {| pm_corporate_action_event_id := event; pm_tenant_id := tenant; pm_legal_book_id := book; pm_portfolio_id := portfolio;
        pm_linked_transaction_group_id := group; pm_parent_event_reference := parent; pm_corporate_action_type := upper kind;
        pm_version := pm_version m; pm_completion_declared := pm_completion_declared m; pm_expected_children := pm_expected_children m;
        pm_source_reference := pm_source_reference m |}.

Definition child_id_leb (x y : CorporateActionEventChild) : bool := string_leb (ch_transaction_id x) (ch_transaction_id y).

Definition pm_lineage_payload (m : CorporateActionParentManifest) : payload :=
  PMap [("canonical_payload_version", PInt 1); ("completion_declared", PBool (pm_completion_declared m));
        ("corporate_action_event_id", PStr (pm_corporate_action_event_id m)); ("corporate_action_type", PStr (pm_corporate_action_type m));
        ("expected_children", PSeq (map ch_lineage_payload (stable_sort child_id_leb (pm_expected_children m))));
        ("legal_book_id", PStr (pm_legal_book_id m)); ("linked_transaction_group_id", PStr (pm_linked_transaction_group_id m));
        ("parent_event_reference", PStr (pm_parent_event_reference m)); ("portfolio_id", PStr (pm_portfolio_id m));
        ("source_reference", fs_lineage_payload (pm_source_reference m)); ("tenant_id", PStr (pm_tenant_id m)); ("version", PInt (pm_version m))].

Record CorporateActionManifestFinding := {
  mf_reason : CorporateActionManifestReason; mf_transaction_ids : list string; mf_graph_findings : list CorporateActionEventGraphFinding
}.

Record CorporateActionManifestReadiness := {
  mr_status : CorporateActionManifestReadinessStatus; mr_ordered_children : list CorporateActionEventChild;
  mr_findings : list CorporateActionManifestFinding; mr_manifest_content_hash : option string
}.

Definition reason_only (reason : CorporateActionManifestReason) : CorporateActionManifestFinding :=
  {| mf_reason := reason; mf_transaction_ids := []; mf_graph_findings := [] |}.

Definition about (reason : CorporateActionManifestReason) (ids : list string) : CorporateActionManifestFinding :=
  {| mf_reason := reason; mf_transaction_ids := ids; mf_graph_findings := [] |}.

Definition finding (reason : CorporateActionManifestReason) (c : CorporateActionEventChild) : CorporateActionManifestFinding :=
  about reason [ch_transaction_id c].

(** ** Semantics of the expected children *)

(** Only the keys of this table are read. *)
Definition SOURCE_ROLE_BY_TYPE : list (string * list string) :=
  (("SPIN_OFF", ["SOURCE_POSITION_REDUCE"]) :: ("DEMERGER_OUT", ["SOURCE_POSITION_REDUCE"]) ::
   map (fun '(source, _) => (source, ["SOURCE_POSITION_CLOSE"; "SOURCE_POSITION_REDUCE"])) QUANTITY_TRANSFER_CORPORATE_ACTION_PAIRS)%list.
Definition TARGET_SOURCE_TYPE : list (string * string) :=
  (("SPIN_IN", "SPIN_OFF") :: ("DEMERGER_IN", "DEMERGER_OUT") ::
   map (fun '(source, target) => (target, source)) QUANTITY_TRANSFER_CORPORATE_ACTION_PAIRS)%list.
Definition ROLE_BY_NON_POSITION_TYPE : list (string * string) :=
  [("CASH_CONSIDERATION", "CASH_CONSIDERATION"); ("CASH_IN_LIEU", "CASH_IN_LIEU"); ("ADJUSTMENT", "CASH_SETTLEMENT"); ("FEE", "CHARGE");
   ("TAX", "TAX")].

Definition of_type (kind : string) (c : CorporateActionEventChild) : bool := String.eqb (ch_transaction_type c) kind.

(** [findings.append] under a condition. *)
Definition when (b : bool) (f : CorporateActionManifestFinding) : list CorporateActionManifestFinding := if b then [f] else [].

Definition cohort_shape_findings (children : list CorporateActionEventChild) (policy : CorporateActionCohortPolicy)
  : list CorporateActionManifestFinding * list CorporateActionEventChild :=
  let disallowed_children := stable_sort string_leb (map ch_transaction_id
        (List.filter (fun c => negb (in_set (ch_transaction_type c) (allowed_transaction_types policy))) children)) in
  let source_children := List.filter (of_type (cp_source_transaction_type policy)) children in
  let target_children := List.filter (of_type (cp_target_transaction_type policy)) children in
  ((match disallowed_children with [] => [] | ids => [about CHILD_TYPE_NOT_ALLOWED ids] end ++
    match source_children with
    | [] => [reason_only SOURCE_CHILD_REQUIRED]
    | [_] => []
    | _ => [about SOURCE_CHILD_CARDINALITY (stable_sort string_leb (map ch_transaction_id source_children))]
    end ++
    match target_children with [] => [reason_only TARGET_CHILD_REQUIRED] | _ => [] end)%list, target_children).

Definition is_none {A} (v : option A) : bool := match v with None => true | Some _ => false end.
Definition text_eqb (x y : option string) : bool := bool_decide (x = y).

Definition source_child_findings (c : CorporateActionEventChild) (policy : CorporateActionCohortPolicy) : list CorporateActionManifestFinding :=
  (when (negb (String.eqb (ch_child_role c) (cp_source_role policy))) (finding INVALID_ROLE_FOR_TRANSACTION_TYPE c) ++
   when (is_none (ch_source_instrument_id c)) (finding SOURCE_INSTRUMENT_REQUIRED c) ++
   (if is_none (ch_instrument_id c) then [finding SOURCE_INSTRUMENT_REQUIRED c]
    else when (negb (is_none (ch_source_instrument_id c)) && negb (text_eqb (ch_instrument_id c) (ch_source_instrument_id c)))
           (finding SOURCE_CHILD_INSTRUMENT_MISMATCH c)))%list.

Definition compatible_sources (c : CorporateActionEventChild) (expected_source_type : string)
  (children_by_id : list (string * CorporateActionEventChild)) : list CorporateActionEventChild :=
  omap (fun dependency_id =>
    match od_get dependency_id children_by_id with
    | Some d => if of_type expected_source_type d then Some d else None
    | None => None
    end) (ch_dependency_transaction_ids c).

Definition target_child_findings (c : CorporateActionEventChild) (expected_source_type : string)
  (children_by_id : list (string * CorporateActionEventChild)) : list CorporateActionManifestFinding :=
  (when (negb (String.eqb (ch_child_role c) "TARGET_POSITION_ADD")) (finding INVALID_ROLE_FOR_TRANSACTION_TYPE c) ++
   when (is_none (ch_source_instrument_id c)) (finding SOURCE_INSTRUMENT_REQUIRED c) ++
   (if is_none (ch_target_instrument_id c) then [finding TARGET_INSTRUMENT_REQUIRED c]
    else when (text_eqb (ch_target_instrument_id c) (ch_source_instrument_id c)) (finding TARGET_INSTRUMENT_EQUALS_SOURCE c)) ++
   (if is_none (ch_instrument_id c) then [finding TARGET_INSTRUMENT_REQUIRED c]
    else when (negb (is_none (ch_target_instrument_id c)) && negb (text_eqb (ch_instrument_id c) (ch_target_instrument_id c)))
           (finding TARGET_CHILD_INSTRUMENT_MISMATCH c)) ++
   match compatible_sources c expected_source_type children_by_id with
   | [source] => when (negb (text_eqb (ch_source_instrument_id c) (ch_instrument_id source))) (finding TARGET_SOURCE_INSTRUMENT_MISMATCH c)
   | _ => [finding TARGET_SOURCE_DEPENDENCY_REQUIRED c]
   end)%list.

Definition subset (xs ys : list string) : bool := forallb (fun x => in_ids x ys) xs.
Definition meets (xs ys : list string) : bool := existsb (fun x => in_ids x ys) xs.

Definition has_governed_non_position_dependencies (c : CorporateActionEventChild) (target_children : list CorporateActionEventChild)
  (target_ids consideration_ids : list string) : bool :=
  let dependencies := ch_dependency_transaction_ids c in
  if of_type "CASH_CONSIDERATION" c then subset target_ids dependencies
  else if of_type "CASH_IN_LIEU" c then
    meets (map ch_transaction_id (List.filter (fun t => text_eqb (ch_instrument_id t) (ch_instrument_id c)) target_children)) dependencies
  else if of_type "ADJUSTMENT" c then
    Nat.eqb (length (remove_dups dependencies)) 1 && subset dependencies consideration_ids
  else
    let terminal_ids := (target_ids ++ consideration_ids)%list in
    negb (Nat.eqb (length terminal_ids) 0) && subset terminal_ids dependencies.

Definition non_position_child_findings (c : CorporateActionEventChild) (target_children : list CorporateActionEventChild)
  (target_ids consideration_ids : list string) : list CorporateActionManifestFinding :=
  match od_get (ch_transaction_type c) ROLE_BY_NON_POSITION_TYPE with
  | Some expected_role =>
      if negb (String.eqb (ch_child_role c) expected_role) then [finding INVALID_ROLE_FOR_TRANSACTION_TYPE c]
      else if has_governed_non_position_dependencies c target_children target_ids consideration_ids then []
      else [finding NON_POSITION_DEPENDENCY_REQUIRED c]
  | None => [finding INVALID_ROLE_FOR_TRANSACTION_TYPE c]
  end.

Definition child_semantic_findings (policy : CorporateActionCohortPolicy) (children_by_id : list (string * CorporateActionEventChild))
  (target_children : list CorporateActionEventChild) (target_ids consideration_ids : list string) (c : CorporateActionEventChild)
  : list CorporateActionManifestFinding :=
  match od_get (ch_transaction_type c) SOURCE_ROLE_BY_TYPE with
  | Some _ => source_child_findings c policy
  | None =>
      match od_get (ch_transaction_type c) TARGET_SOURCE_TYPE with
      | Some expected_source_type => target_child_findings c expected_source_type children_by_id
      | None => non_position_child_findings c target_children target_ids consideration_ids
      end
  end.

Definition is_consideration (c : CorporateActionEventChild) : bool := in_set (ch_transaction_type c) ["CASH_CONSIDERATION"; "CASH_IN_LIEU"].

Definition semantic_findings (m : CorporateActionParentManifest) : list CorporateActionManifestFinding :=
  let children := pm_expected_children m in
  match corporate_action_cohort_policy (pm_corporate_action_type m) with
  | None => [reason_only UNSUPPORTED_CORPORATE_ACTION_TYPE]
  | Some policy =>
      let '(findings, target_children) := cohort_shape_findings children policy in
      let children_by_id := children_by_transaction_id children in
      let target_ids := map ch_transaction_id target_children in
      let consideration_ids := map ch_transaction_id (List.filter is_consideration children) in
      (findings ++ flat_map (child_semantic_findings policy children_by_id target_children target_ids consideration_ids)
                     (stable_sort child_id_leb children))%list
  end.

(** ** Observed children *)

(** One turn of the loop of [_observed_identity_findings]. *)
Definition observe (acc : list (string * CorporateActionEventChild) * list CorporateActionEventGraphFinding) (c : CorporateActionEventChild)
  : list (string * CorporateActionEventChild) * list CorporateActionEventGraphFinding :=
  let '(first_by_id, graph_findings) := acc in
  match od_get (ch_transaction_id c) first_by_id with
  | None => (od_set (ch_transaction_id c) c first_by_id, graph_findings)
  | Some existing =>
      (first_by_id, (graph_findings ++
        [{| cf_reason := if child_payload_eqb existing c then CA_DUPLICATE_CHILD_ID else CA_CONFLICTING_CHILD_DEFINITION;
            cf_transaction_ids := [ch_transaction_id c]; cf_dependency_transaction_ids := [] |}])%list)
  end.

Definition graph_finding_compare (x y : CorporateActionEventGraphFinding) : comparison :=
  lex (String.compare (ca_reason_value (cf_reason x)) (ca_reason_value (cf_reason y)))
    (lex (tuple_compare (cf_transaction_ids x) (cf_transaction_ids y))
         (tuple_compare (cf_dependency_transaction_ids x) (cf_dependency_transaction_ids y))).

Definition observed_identity_findings (children : list CorporateActionEventChild) : list CorporateActionManifestFinding :=
  match snd (fold_left observe children ([], [])) with
  | [] => []
  | graph_findings =>
      let canonical_findings := stable_sort (leb_of graph_finding_compare) graph_findings in
      [{| mf_reason := INVALID_GRAPH; mf_transaction_ids := stable_sort string_leb (flat_map cf_transaction_ids canonical_findings);
          mf_graph_findings := canonical_findings |}]
  end.

(** [x for x in xs if f(x)], where [f] may raise. *)
Fixpoint filterR {A} (f : A -> result bool) (xs : list A) : result (list A) :=
  match xs with [] => Ok [] | x :: xs' => b ← f x; ys ← filterR f xs'; Ok (if (b : bool) then x :: ys else ys) end.

(** ** Readiness *)

Section Hashed.
Context `{Hashing}.

Definition pm_content_hash (m : CorporateActionParentManifest) : result string := canonical_content_hash (pm_lineage_payload m).

Definition readiness (status : CorporateActionManifestReadinessStatus) (findings : list CorporateActionManifestFinding)
  (manifest : option CorporateActionParentManifest) : result CorporateActionManifestReadiness :=
  hash ← match manifest with Some m => h ← pm_content_hash m; Ok (Some h) | None => Ok None end;
  Ok {| mr_status := status; mr_ordered_children := []; mr_findings := findings; mr_manifest_content_hash := hash |}.

(** The comparison of the expected with the observed children. *)
Definition compare_children (m : CorporateActionParentManifest) (ordered_children observed_children : list CorporateActionEventChild)
  : result CorporateActionManifestReadiness :=
  let expected_by_id := children_by_transaction_id (pm_expected_children m) in
  let observed_by_id := children_by_transaction_id observed_children in
  let keys (d : list (string * CorporateActionEventChild)) := map fst d in
  let missing := stable_sort string_leb (List.filter (fun k => negb (in_ids k (keys observed_by_id))) (keys expected_by_id)) in
  let unexpected := stable_sort string_leb (List.filter (fun k => negb (in_ids k (keys expected_by_id))) (keys observed_by_id)) in
  let common := List.filter (fun k => in_ids k (keys observed_by_id)) (keys expected_by_id) in
  mismatched ← filterR (fun k =>
      expected ← lookup_key k expected_by_id; observed ← lookup_key k observed_by_id; Ok (negb (child_payload_eqb expected observed))) common;
  let mismatched := stable_sort string_leb mismatched in
  let findings := (match unexpected with [] => [] | ids => [about UNEXPECTED_CHILD ids] end ++
                   match mismatched with [] => [] | ids => [about OBSERVED_CHILD_MISMATCH ids] end)%list in
  match findings with
  | _ :: _ => readiness MANIFEST_INVALID findings (Some m)
  | [] =>
      match missing with
      | _ :: _ => readiness AWAITING_CHILDREN [about MISSING_EXPECTED_CHILD missing] (Some m)
      | [] =>
          hash ← pm_content_hash m;
          Ok {| mr_status := READY; mr_ordered_children := ordered_children; mr_findings := []; mr_manifest_content_hash := Some hash |}
      end
  end.

Definition evaluate_corporate_action_manifest_readiness (manifest : option CorporateActionParentManifest)
  (observed_children : list CorporateActionEventChild) : result CorporateActionManifestReadiness :=
  match manifest with
  | None => readiness AWAITING_MANIFEST [reason_only MANIFEST_REQUIRED] None
  | Some m =>
      if negb (pm_completion_declared m) then readiness AWAITING_COMPLETION [reason_only COMPLETION_NOT_DECLARED] (Some m) else
      graph ← make_CorporateActionEventGraph
        {| cg_corporate_action_event_id := pm_corporate_action_event_id m; cg_linked_transaction_group_id := pm_linked_transaction_group_id m;
           cg_parent_event_reference := pm_parent_event_reference m; cg_version := pm_version m; cg_children := pm_expected_children m |};
      structural_plan ← resolve_corporate_action_event_graph graph;
      let findings := (match sp_status structural_plan with
                       | STRUCTURALLY_VALID => []
                       | STRUCTURALLY_INVALID => [{| mf_reason := INVALID_GRAPH; mf_transaction_ids := [];
                                                     mf_graph_findings := sp_findings structural_plan |}]
                       end ++ semantic_findings m)%list in
      match findings with
      | _ :: _ => readiness MANIFEST_INVALID findings (Some m)
      | [] =>
          match observed_identity_findings observed_children with
          | (_ :: _) as observed_findings => readiness MANIFEST_INVALID observed_findings (Some m)
          | [] => compare_children m (sp_ordered_children structural_plan) observed_children
          end
      end
  end.
End Hashed.
