(* ===== verification/CorporateActionFacts.v ===== *)
(** * Corporate-action events: facts

    The structural plan of an event is the canonical order of its children (CorporateAction over
    EventGraphResolve); the semantic checks of a manifest decide the cohort its event family promises;
    a manifest is ready exactly when its declared cohort has arrived, whatever the order of arrival,
    and then executes the source leg first. *)

From Stdlib Require Import ZArith Lia String Ascii.
From stdpp Require Import base tactics list strings relations.
From S2P Require Import Prelude PyDecimal PyTime Precision Lineage Transactions AccruedIncome EventGraph EventGraphFacts EventGraphResolve CorporateAction CorporateActionManifest.

#[local] Open Scope string_scope.
#[local] Open Scope Z_scope.

(** ** Text without blanks *)

Definition no_space (s : string) : bool := string_forallb (fun c => negb (is_space c)) s.

Lemma no_space_rstrip s : no_space s = true -> rstrip s = s.
Proof.
  unfold no_space. induction s as [|c s IH]; [done|]. cbn [string_forallb rstrip]. intros [Hc Hs]%andb_prop. rewrite (IH Hs).
  apply negb_true_iff in Hc. rewrite Hc. by destruct s.
Qed.

Lemma no_space_strip s : no_space s = true -> strip s = s.
Proof.
  intros Hs. unfold strip. assert (E : lstrip s = s); [|by rewrite E, no_space_rstrip].
  unfold no_space in Hs. destruct s as [|c s]; [done|]. cbn in *. apply andb_prop in Hs as [Hc _]. apply negb_true_iff in Hc. by rewrite Hc.
Qed.

Lemma no_space_app s t : no_space (s +:+ t) = no_space s && no_space t.
Proof.
  induction s as [|c s IH]; [done|]. change (String c s +:+ t) with (String c (s +:+ t)). unfold no_space in *. cbn [string_forallb].
  by rewrite IH, andb_assoc.
Qed.

Lemma digit_no_space (d : Z) : 0 <= d < 10 -> is_space (ascii_of_N (48 + Z.to_N d)) = false.
Proof.
  intros H. assert (E : d = 0 \/ d = 1 \/ d = 2 \/ d = 3 \/ d = 4 \/ d = 5 \/ d = 6 \/ d = 7 \/ d = 8 \/ d = 9) by lia.
  by repeat (destruct E as [->|E]); [..|subst].
Qed.

Lemma digits_no_space fuel : forall n acc, no_space acc = true -> no_space (digits_of fuel n acc) = true /\ truthy (digits_of fuel n acc) = true.
Proof.
  induction fuel as [|fuel IH]; intros n acc Ha; cbn [digits_of].
  - split; [|done]. unfold no_space. cbn [string_forallb]. rewrite digit_no_space by (apply Z.mod_pos_bound; lia). done.
  - assert (Hd : no_space (String (ascii_of_N (48 + Z.to_N (n mod 10))) acc) = true).
    { unfold no_space. cbn [string_forallb]. rewrite digit_no_space by (apply Z.mod_pos_bound; lia). done. }
    destruct (n <? 10); [done|]. by apply IH.
Qed.

Lemma zeros_no_space n : no_space (zeros n) = true.
Proof. by induction n. Qed.

Lemma truthy_app s t : truthy t = true -> truthy (s +:+ t) = true.
Proof. by destruct s. Qed.

Lemma padded_text n z : truthy (pad_left n (string_of_nonneg z)) = true /\ no_space (pad_left n (string_of_nonneg z)) = true.
Proof.
  destruct (digits_no_space (Z.to_nat (Z.log2 z)) z "" eq_refl) as [Hs Ht]. unfold pad_left, string_of_nonneg.
  split; [by apply truthy_app|]. change String.append with String.app. rewrite no_space_app, zeros_no_space. exact Hs.
Qed.

(** A text a constructor has already normalised. *)
Definition normal_text (s : string) : Prop := strip s = s /\ truthy s = true.

Lemma required_text_normal s f : normal_text s -> required_text s f = Ok s.
Proof. intros [E H]. unfold required_text. by rewrite E, H. Qed.

Lemma required_text_Ok s f t : required_text s f = Ok t -> normal_text t.
Proof.
  unfold required_text. destruct (truthy (strip s)) eqn:E; [|done]. intros [= <-]. split; [apply strip_idem|done].
Qed.

Lemma no_space_normal s : no_space s = true -> truthy s = true -> normal_text s.
Proof. intros Hs Ht. split; [by apply no_space_strip|done]. Qed.

Lemma upper_truthy s : truthy (upper s) = truthy s.
Proof. by destruct s. Qed.

Lemma normal_upper s : normal_text s -> normal_text (upper s).
Proof. intros [E H]. split; [by rewrite strip_upper, E|by rewrite upper_truthy]. Qed.

(** ** Children as the constructor leaves them *)

Definition normal_option (v : option string) : Prop := match v with Some s => normal_text s | None => True end.

Record normal_child (c : CorporateActionEventChild) : Prop := {
  nc_id : normal_text (ch_transaction_id c);
  nc_role : normal_text (ch_child_role c);
  nc_dependencies : Forall normal_text (ch_dependency_transaction_ids c);
  nc_hint : match ch_child_sequence_hint c with Some hint => 0 <= hint | None => True end;
  nc_target : normal_option (ch_target_instrument_id c)
}.

Lemma optional_required_text_Ok v f t : optional_required_text v f = Ok t -> normal_option t.
Proof.
  destruct v as [s|]; cbn; [|by intros [= <-]]. destruct (required_text s f) as [u|] eqn:E; [|done]. cbn. intros [= <-].
  by apply required_text_Ok in E.
Qed.

(** What the constructor builds is normal. *)
Lemma made_child_normal c c' : make_CorporateActionEventChild c = Ok c' -> normal_child c'.
Proof.
  unfold make_CorporateActionEventChild. intros H.
  apply bind_Ok in H as (id & Hid%required_text_Ok & H). apply bind_Ok in H as (kind & _ & H).
  apply bind_Ok in H as (role & Hrole%required_text_Ok & H). apply bind_Ok in H as (deps & Hdeps & H).
  apply bind_Ok in H as (u & Hhint%raise_if_Ok & H). apply bind_Ok in H as (i & _ & H). apply bind_Ok in H as (s & _ & H).
  apply bind_Ok in H as (t & Ht%optional_required_text_Ok & H). injection H as <-. split; cbn; [done|by apply normal_upper| | |done].
  - apply mapR_Forall2 in Hdeps. apply Forall_forall. intros d Hd. apply list_elem_of_lookup in Hd as (k & Hk).
    destruct (Forall2_lookup_r _ _ _ _ _ Hdeps Hk) as (x & _ & Hx). by apply required_text_Ok in Hx.
  - destruct (ch_child_sequence_hint c); [|done]. by apply Z.ltb_ge.
Qed.

(** ** Children by identity *)

Lemma by_transaction_id_spec cs : forall d, NoDup (map fst d ++ map ch_transaction_id cs) ->
  fold_left (fun d c => od_set (ch_transaction_id c) c d) cs d = (d ++ map (fun c => (ch_transaction_id c, c)) cs)%list.
Proof.
  induction cs as [|c cs IH]; intros d Hd; cbn [fold_left map]; [by rewrite app_nil_r|].
  apply NoDup_app in Hd as (Hd & Hdis & [Hc Hcs]%NoDup_cons). rewrite od_set_fresh by (intros ?; apply (Hdis (ch_transaction_id c)); set_solver).
  rewrite IH; [by rewrite <- app_assoc|]. rewrite map_app. apply NoDup_app. split; [|split; [|done]].
  - apply NoDup_app. split; [done|]. split; [|apply NoDup_singleton]. intros x Hx Hx'. apply (Hdis x Hx). cbn in Hx'. set_solver.
  - intros x [Hx|Hx]%elem_of_app Hx'; [apply (Hdis x Hx); set_solver|]. cbn in Hx. set_solver.
Qed.

Lemma children_by_id_distinct cs : NoDup (map ch_transaction_id cs) ->
  children_by_transaction_id cs = map (fun c => (ch_transaction_id c, c)) cs.
Proof. intros Hn. by apply (by_transaction_id_spec cs []). Qed.

Lemma by_id_lookup cs c : NoDup (map ch_transaction_id cs) -> c ∈ cs -> od_get (ch_transaction_id c) (children_by_transaction_id cs) = Some c.
Proof.
  intros Hn Hc. rewrite children_by_id_distinct by done. apply od_get_of_elem.
  - by rewrite <- list_fmap_compose.
  - apply list_elem_of_fmap. by exists c.
Qed.

Lemma child_unique cs c d : NoDup (map ch_transaction_id cs) -> c ∈ cs -> d ∈ cs -> ch_transaction_id c = ch_transaction_id d -> c = d.
Proof. intros Hn Hc Hd E. pose proof (by_id_lookup cs c Hn Hc) as Hl. rewrite E, (by_id_lookup cs d Hn Hd) in Hl. by injection Hl. Qed.

(** ** The structural plan *)

Section Hashed.
Context `{HashingOk}.

(** The node of a normal child. *)
Definition node_of (c : CorporateActionEventChild) : DirectedEventNode :=
  {| node_id := ch_transaction_id c; dependency_node_ids := ch_dependency_transaction_ids c;
     definition_fingerprint := child_fingerprint c; order_key := child_order_key c |}.

Lemma digest_no_space s : no_space (sha256_hexdigest s) = true.
Proof.
  pose proof (digest_shape s) as Hd. unfold is_sha256_digest in Hd. apply andb_prop in Hd as [_ Hd].
  unfold no_space. induction (sha256_hexdigest s) as [|c t IH]; [done|]. cbn in *. apply andb_prop in Hd as [Hc Ht]. rewrite (IH Ht), andb_true_r.
  destruct c as [[] [] [] [] [] [] [] []]; vm_compute in Hc |- *; done.
Qed.

Lemma fingerprint_normal c : normal_text (child_fingerprint c).
Proof. apply no_space_normal; [|done]. unfold child_fingerprint. rewrite no_space_app, digest_no_space. done. Qed.

Lemma order_key_normal c : normal_child c -> Forall normal_text (child_order_key c).
Proof.
  intros Hc. unfold child_order_key. repeat constructor.
  1-4: destruct (padded_text 4 (corporate_action_dependency_rank c)) as [H1 H2];
       destruct (padded_text 10 (match ch_child_sequence_hint c with Some hint => hint | None => 2147483647 end)) as [H3 H4];
       first [by apply no_space_strip|done].
  1-2: pose proof (nc_target c Hc) as Ht; destruct (ch_target_instrument_id c) as [t|]; cbn in *; [|done]; destruct Ht as [Ht Ht']; by rewrite Ht'.
  all: first [apply (nc_role c Hc)|apply (nc_id c Hc)].
Qed.

Lemma mapR_required xs f : Forall normal_text xs -> mapR (fun v => required_text v f) xs = Ok xs.
Proof. induction 1 as [|x xs Hx _ IH]; [done|]. cbn [mapR]. rewrite (required_text_normal _ _ Hx). cbn. by rewrite IH. Qed.

Lemma directed_node_normal c : normal_child c -> directed_node c = Ok (node_of c).
Proof.
  intros Hc. unfold directed_node, make_DirectedEventNode. cbn [node_id dependency_node_ids definition_fingerprint order_key].
  rewrite (required_text_normal _ _ (nc_id c Hc)), bind_ret, (mapR_required _ _ (nc_dependencies c Hc)), bind_ret.
  rewrite (required_text_normal _ _ (fingerprint_normal c)), bind_ret.
  change (raise_if _ _) with (@Ok unit tt). rewrite bind_ret, (mapR_required _ _ (order_key_normal c Hc)). done.
Qed.

Lemma node_ids_of cs : map node_id (map node_of cs) = map ch_transaction_id cs.
Proof. by rewrite map_map. Qed.

Lemma lookup_child cs c : NoDup (map ch_transaction_id cs) -> c ∈ cs -> lookup_key (node_id (node_of c)) (children_by_transaction_id cs) = Ok c.
Proof. intros Hn Hc. unfold lookup_key. change (node_id (node_of c)) with (ch_transaction_id c). by rewrite by_id_lookup. Qed.

(** The children are ordered completely in canonical order, or nothing is ordered and a reason given. *)
Lemma structural_cases g : Forall normal_child (cg_children g) ->
  let nodes := map node_of (cg_children g) in
  (exists order node_count edge_count, well_formed nodes /\ acyclic nodes /\ order ≡ₚ cg_children g /\ canonical nodes (map node_of order) /\
     resolve_corporate_action_event_graph g =
       Ok {| sp_status := STRUCTURALLY_VALID; sp_ordered_children := order; sp_findings := []; sp_declared_node_count := node_count;
             sp_declared_edge_count := edge_count |}) \/
  (~ (well_formed nodes /\ acyclic nodes) /\
   exists plan, resolve_corporate_action_event_graph g = Ok plan /\ sp_status plan = STRUCTURALLY_INVALID /\ sp_ordered_children plan = [] /\
     sp_findings plan <> []).
Proof.
  intros Hg nodes. unfold resolve_corporate_action_event_graph.
  rewrite (mapR_total directed_node node_of) by (intros c Hc; apply directed_node_normal; by rewrite Forall_forall in Hg; apply Hg).
  rewrite bind_ret. fold nodes. destruct (resolve_cases nodes) as [(order & Hw & Ha & Hc & Hp & ->)|(Hno & fs & nc & ec & Hfs & ->)]; rewrite bind_ret.
  - left. cbn [gp_status gp_ordered_nodes gp_findings gp_declared_node_count gp_declared_edge_count map].
    pose proof (wf_ids _ Hw) as Hids. unfold nodes in Hids. rewrite node_ids_of in Hids.
    apply Permutation_map_inv in Hp as (cs & -> & Hcs). exists cs, (Z.of_nat (length nodes)), (eg_edge_count (edges_after nodes nodes)).
    do 4 (split; [done|]). assert (E : mapR (fun n => lookup_key (node_id n) (children_by_transaction_id (cg_children g))) (map node_of cs) = Ok cs).
    { clear Hc. assert (Hsub : forall c, c ∈ cs -> c ∈ cg_children g) by (intros c; by rewrite <- Hcs). clear Hcs.
      induction cs as [|c cs IH]; [done|]. cbn [map mapR].
      rewrite lookup_child; [|done|apply Hsub; set_solver]. rewrite bind_ret, IH; [done|]. intros x Hx. apply Hsub. set_solver. }
    by rewrite E.
  - right. split; [done|]. eexists. split; [reflexivity|]. cbn. split; [done|]. split; [done|].
    intros E%map_eq_nil. by apply (stable_sort_nonempty (leb_of finding_compare) fs Hfs).
Qed.
End Hashed.
