(* ===== verification/CorporateActionReadiness.v ===== *)
(** * Readiness of corporate-action manifests: facts

    The semantic checks of [manifest.py] decide the cohort its event family promises; a manifest is ready
    exactly when its declared cohort has arrived, whatever the order of declaration and arrival, and then
    executes the source leg first, every target after it, and the cash legs after what they settle. *)

From Stdlib Require Import ZArith Lia String Ascii.
From stdpp Require Import base tactics list strings relations.
From S2P Require Import Prelude PyDecimal PyTime Precision Lineage Transactions AccruedIncome EventGraph EventGraphWalk EventGraphFacts EventGraphResolve CorporateAction CorporateActionManifest CorporateActionFacts.

#[local] Open Scope string_scope.
#[local] Open Scope Z_scope.

(** ** The cohort of an event family *)

Section Cohort.
Context (policy : CorporateActionCohortPolicy) (children : list CorporateActionEventChild).

Definition is_source (c : CorporateActionEventChild) : Prop := ch_transaction_type c = cp_source_transaction_type policy.
Definition is_target (c : CorporateActionEventChild) : Prop := ch_transaction_type c = cp_target_transaction_type policy.
Definition is_cash (c : CorporateActionEventChild) : Prop := In (ch_transaction_type c) ["CASH_CONSIDERATION"; "CASH_IN_LIEU"].

Definition waits (c d : CorporateActionEventChild) : Prop := ch_transaction_id d ∈ ch_dependency_transaction_ids c.
Definition waits_for_all (P : CorporateActionEventChild -> Prop) (c : CorporateActionEventChild) : Prop := forall d, d ∈ children -> P d -> waits c d.

(** What the source leg, a target leg and the cash, charge and tax legs of the family must declare. *)
Definition governed_source (c : CorporateActionEventChild) : Prop :=
  ch_child_role c = cp_source_role policy /\ exists i, ch_instrument_id c = Some i /\ ch_source_instrument_id c = Some i.

Definition governed_target (source c : CorporateActionEventChild) : Prop :=
  ch_child_role c = "TARGET_POSITION_ADD" /\ waits c source /\
  exists s t, ch_source_instrument_id c = Some s /\ ch_instrument_id source = Some s /\ ch_target_instrument_id c = Some t /\
    ch_instrument_id c = Some t /\ s <> t.

Definition governed_overlay (c : CorporateActionEventChild) : Prop :=
  (ch_transaction_type c = "CASH_CONSIDERATION" -> ch_child_role c = "CASH_CONSIDERATION" /\ waits_for_all is_target c) /\
  (ch_transaction_type c = "CASH_IN_LIEU" -> ch_child_role c = "CASH_IN_LIEU" /\
     exists t, t ∈ children /\ is_target t /\ ch_instrument_id t = ch_instrument_id c /\ waits c t) /\
  (ch_transaction_type c = "ADJUSTMENT" -> ch_child_role c = "CASH_SETTLEMENT" /\
     exists d, d ∈ children /\ is_cash d /\ ch_dependency_transaction_ids c = [ch_transaction_id d]) /\
  (ch_transaction_type c = "FEE" -> ch_child_role c = "CHARGE" /\ waits_for_all is_target c /\ waits_for_all is_cash c) /\
  (ch_transaction_type c = "TAX" -> ch_child_role c = "TAX" /\ waits_for_all is_target c /\ waits_for_all is_cash c).

Definition governed (source c : CorporateActionEventChild) : Prop :=
  In (ch_transaction_type c) (allowed_transaction_types policy) /\ (is_source c -> c = source /\ governed_source c) /\
  (is_target c -> governed_target source c) /\ governed_overlay c.

(** One source, at least one target, and every child governed. *)
Record cohort (source : CorporateActionEventChild) : Prop := {
  co_source : source ∈ children /\ is_source source;
  co_target : exists c, c ∈ children /\ is_target c;
  co_governed : forall c, c ∈ children -> governed source c
}.
End Cohort.

(** The five policies of the table. *)
Record policy_ok (p : CorporateActionCohortPolicy) : Prop := {
  po_source : is_Some (od_get (cp_source_transaction_type p) SOURCE_ROLE_BY_TYPE);
  po_target_not_source : od_get (cp_target_transaction_type p) SOURCE_ROLE_BY_TYPE = None;
  po_target : od_get (cp_target_transaction_type p) TARGET_SOURCE_TYPE = Some (cp_source_transaction_type p);
  po_distinct : cp_source_transaction_type p <> cp_target_transaction_type p;
  po_source_overlay : ~ In (cp_source_transaction_type p) CORPORATE_ACTION_OVERLAY_TRANSACTION_TYPES;
  po_target_overlay : ~ In (cp_target_transaction_type p) CORPORATE_ACTION_OVERLAY_TRANSACTION_TYPES
}.

Lemma cohort_policy_ok kind p : corporate_action_cohort_policy kind = Some p -> policy_ok p.
Proof.
  unfold corporate_action_cohort_policy. intros Hp%od_get_elem. cbn in Hp. rewrite !elem_of_cons, elem_of_nil in Hp.
  destruct Hp as [[= _ ->]|[[= _ ->]|[[= _ ->]|[[= _ ->]|[[= _ ->]|[]]]]]]; split; first [by eexists|done|idtac]; cbn; naive_solver.
Qed.

(** ** The checks decide the cohort *)

Lemma when_nil b f : when b f = [] <-> b = false.
Proof. by destruct b. Qed.

Lemma in_ids_true x xs : in_ids x xs = true <-> x ∈ xs.
Proof. apply bool_decide_eq_true. Qed.

Lemma subset_true xs ys : subset xs ys = true <-> xs ⊆ ys.
Proof.
  unfold subset. rewrite forallb_forall. split; intros Hx x.
  - intros Hin%list_elem_of_In. by apply in_ids_true, Hx.
  - intros Hin%list_elem_of_In. by apply in_ids_true, Hx.
Qed.

Lemma meets_true xs ys : meets xs ys = true <-> exists x, x ∈ xs /\ x ∈ ys.
Proof.
  unfold meets. rewrite existsb_exists. split; intros (x & H1 & H2); exists x.
  - by rewrite list_elem_of_In, <- in_ids_true.
  - by rewrite <- list_elem_of_In, in_ids_true.
Qed.

Lemma elem_of_filter_ids (f : CorporateActionEventChild -> bool) cs x :
  x ∈ map ch_transaction_id (List.filter f cs) <-> exists c, c ∈ cs /\ f c = true /\ ch_transaction_id c = x.
Proof.
  rewrite list_elem_of_In, in_map_iff. split.
  - intros (c & <- & [Hc Hf]%filter_In). exists c. by rewrite list_elem_of_In.
  - intros (c & Hc & Hf & <-). exists c. split; [done|]. apply filter_In. by rewrite <- list_elem_of_In.
Qed.

Lemma of_type_true kind c : of_type kind c = true <-> ch_transaction_type c = kind.
Proof. apply String.eqb_eq. Qed.

Lemma is_consideration_true c : is_consideration c = true <-> is_cash c.
Proof. apply in_set_true. Qed.

Lemma subset_waits (f : CorporateActionEventChild -> bool) P children c : (forall d, f d = true <-> P d) ->
  map ch_transaction_id (List.filter f children) ⊆ ch_dependency_transaction_ids c <-> waits_for_all children P c.
Proof.
  intros HP. unfold waits_for_all, waits. split.
  - intros Hs d Hd HPd. apply Hs, elem_of_filter_ids. exists d. by rewrite HP.
  - intros Hw x (d & Hd & Hf & <-)%elem_of_filter_ids. apply Hw; [done|]. by apply HP.
Qed.

Lemma source_findings_nil policy c : source_child_findings c policy = [] <-> governed_source policy c.
Proof.
  unfold source_child_findings, governed_source. rewrite !app_nil, !when_nil, negb_false_iff, String.eqb_eq. unfold text_eqb.
  destruct (ch_source_instrument_id c) as [s|], (ch_instrument_id c) as [i|]; cbn; rewrite ?when_nil, ?negb_false_iff, ?bool_decide_eq_true; naive_solver.
Qed.

Section Checks.
Context (policy : CorporateActionCohortPolicy) (Hpolicy : policy_ok policy) (children : list CorporateActionEventChild).
Context (Hids : NoDup (map ch_transaction_id children)).
Context (Hedges : forall c, c ∈ children -> NoDup (ch_dependency_transaction_ids c)).
Context (source : CorporateActionEventChild) (Hsource : source ∈ children) (Hkind : is_source policy source).
Context (Hsingle : forall c, c ∈ children -> is_source policy c -> c = source).

Let by_id := children_by_transaction_id children.
Let target_children := List.filter (of_type (cp_target_transaction_type policy)) children.
Let target_ids := map ch_transaction_id target_children.
Let consideration_ids := map ch_transaction_id (List.filter is_consideration children).

Lemma by_id_source x c : od_get x by_id = Some c -> c ∈ children /\ ch_transaction_id c = x.
Proof.
  unfold by_id. rewrite children_by_id_distinct by done. intros Hx%od_get_elem. apply list_elem_of_fmap in Hx as (d & [= -> ->] & Hd). done.
Qed.

(** The only compatible source is the source of the cohort. *)
Lemma compatible_sources_spec c : c ∈ children ->
  compatible_sources c (cp_source_transaction_type policy) by_id = if in_ids (ch_transaction_id source) (ch_dependency_transaction_ids c) then [source] else [].
Proof.
  intros Hc. unfold compatible_sources. pose proof (Hedges c Hc) as Hn.
  assert (Hother : forall x, x <> ch_transaction_id source ->
    match od_get x by_id with Some d => if of_type (cp_source_transaction_type policy) d then Some d else None | None => None end = None).
  { intros x Hx. destruct (od_get x by_id) as [d|] eqn:E; [|done]. apply by_id_source in E as [Hd E].
    destruct (of_type _ d) eqn:Ed; [|done]. apply of_type_true in Ed. rewrite (Hsingle d Hd Ed) in E. done. }
  assert (Hself : match od_get (ch_transaction_id source) by_id with
                  | Some d => if of_type (cp_source_transaction_type policy) d then Some d else None | None => None end = Some source).
  { unfold by_id. rewrite by_id_lookup by done. by rewrite (proj2 (of_type_true _ _) Hkind). }
  induction (ch_dependency_transaction_ids c) as [|x xs IH]; [done|]. apply NoDup_cons in Hn as [Hx Hn]. specialize (IH Hn).
  cbn [omap list_omap]. destruct (decide (x = ch_transaction_id source)) as [->|Hne].
  - rewrite Hself, IH. unfold in_ids. rewrite bool_decide_eq_false_2 by done. rewrite bool_decide_eq_true_2 by set_solver. done.
  - rewrite Hother, IH by done. unfold in_ids. by rewrite (bool_decide_ext (ch_transaction_id source ∈ xs) (ch_transaction_id source ∈ x :: xs)) by set_solver.
Qed.

Lemma target_findings_nil c : c ∈ children -> target_child_findings c (cp_source_transaction_type policy) by_id = [] <-> governed_target source c.
Proof.
  intros Hc. unfold target_child_findings, governed_target. rewrite compatible_sources_spec by done.
  rewrite !app_nil, !when_nil, negb_false_iff, String.eqb_eq. unfold text_eqb, waits.
  destruct (in_ids _ _) eqn:E; [apply in_ids_true in E|apply not_true_iff_false in E; rewrite in_ids_true in E; naive_solver].
  destruct (ch_source_instrument_id c) as [s|], (ch_target_instrument_id c) as [t|], (ch_instrument_id c) as [i|]; cbn;
    rewrite ?when_nil, ?negb_false_iff, ?bool_decide_eq_true, ?bool_decide_eq_false; naive_solver.
Qed.

Lemma single_dependency c : c ∈ children ->
  Nat.eqb (length (remove_dups (ch_dependency_transaction_ids c))) 1 && subset (ch_dependency_transaction_ids c) consideration_ids = true <->
  exists d, d ∈ children /\ is_cash d /\ ch_dependency_transaction_ids c = [ch_transaction_id d].
Proof.
  intros Hc. rewrite andb_true_iff, Nat.eqb_eq, subset_true. rewrite (proj2 (remove_dups_length _) (Hedges c Hc)). split.
  - intros [Hl Hs]. destruct (ch_dependency_transaction_ids c) as [|x [|y xs]]; [done| |done].
    destruct (proj1 (elem_of_filter_ids is_consideration children x) (Hs x ltac:(set_solver))) as (d & Hd & Hf & <-).
    exists d. by rewrite <- is_consideration_true.
  - intros (d & Hd & Hcash & ->). split; [done|]. intros x ->%list_elem_of_singleton. apply elem_of_filter_ids. exists d. by rewrite is_consideration_true.
Qed.

Lemma terminal_dependencies c (Htarget : target_ids <> []) :
  negb (Nat.eqb (length (target_ids ++ consideration_ids)) 0) && subset (target_ids ++ consideration_ids) (ch_dependency_transaction_ids c) = true <->
  waits_for_all children (is_target policy) c /\ waits_for_all children is_cash c.
Proof.
  rewrite <- (subset_waits (of_type (cp_target_transaction_type policy)) (is_target policy)) by (intros; apply of_type_true).
  rewrite <- (subset_waits is_consideration is_cash) by (intros; apply is_consideration_true).
  rewrite andb_true_iff, subset_true. unfold target_ids, consideration_ids, target_children in *.
  destruct (map ch_transaction_id (List.filter (of_type _) children)) as [|x xs]; [done|]. cbn [app length]. cbn [Nat.eqb negb]. set_solver.
Qed.

Lemma cash_in_lieu_dependencies c :
  meets (map ch_transaction_id (List.filter (fun t => text_eqb (ch_instrument_id t) (ch_instrument_id c)) target_children))
    (ch_dependency_transaction_ids c) = true <->
  exists t, t ∈ children /\ is_target policy t /\ ch_instrument_id t = ch_instrument_id c /\ waits c t.
Proof.
  rewrite meets_true. unfold target_children, waits, is_target. split.
  - intros (x & (t & Ht & E & <-)%elem_of_filter_ids & Hx). apply elem_of_filter_bool in Ht as [Ht'%of_type_true Ht].
    exists t. apply bool_decide_eq_true in E. done.
  - intros (t & Ht & Hk & E & Hx). exists (ch_transaction_id t). split; [|done]. apply elem_of_filter_ids. exists t. split.
    + apply elem_of_filter_bool. by rewrite of_type_true.
    + split; [by apply bool_decide_eq_true|done].
Qed.

Let findings_of := child_semantic_findings policy by_id target_children target_ids consideration_ids.

Lemma overlay_findings c : In (ch_transaction_type c) CORPORATE_ACTION_OVERLAY_TRANSACTION_TYPES ->
  findings_of c = non_position_child_findings c target_children target_ids consideration_ids.
Proof. intros Hc. unfold findings_of, child_semantic_findings. cbn in Hc. by repeat (destruct Hc as [<-|Hc]). Qed.

Lemma non_position_nil c role : od_get (ch_transaction_type c) ROLE_BY_NON_POSITION_TYPE = Some role ->
  non_position_child_findings c target_children target_ids consideration_ids = [] <->
  ch_child_role c = role /\ has_governed_non_position_dependencies c target_children target_ids consideration_ids = true.
Proof.
  intros E. unfold non_position_child_findings. rewrite E. destruct (String.eqb_spec (ch_child_role c) role) as [->|Hne]; cbn [negb].
  - destruct (has_governed_non_position_dependencies _ _ _ _); naive_solver.
  - split; [done|by intros [? _]].
Qed.

Lemma overlay_nil c : c ∈ children -> target_ids <> [] -> In (ch_transaction_type c) CORPORATE_ACTION_OVERLAY_TRANSACTION_TYPES ->
  non_position_child_findings c target_children target_ids consideration_ids = [] <-> governed_overlay policy children c.
Proof.
  intros Hc Ht Ho. assert (E : exists role, od_get (ch_transaction_type c) ROLE_BY_NON_POSITION_TYPE = Some role).
  { cbn in Ho. destruct Ho as [<-|[<-|[<-|[<-|[<-|[]]]]]]; eexists; vm_compute; reflexivity. }
  destruct E as (role & E). rewrite (non_position_nil c role E). unfold has_governed_non_position_dependencies, governed_overlay, of_type.
  cbn in Ho. destruct Ho as [Ek|[Ek|[Ek|[Ek|[Ek|[]]]]]]; rewrite <- Ek in *; injection E as <-; cbn [String.eqb Ascii.eqb Bool.eqb].
  - rewrite subset_true. unfold target_ids, target_children.
    rewrite (subset_waits (of_type (cp_target_transaction_type policy)) (is_target policy)) by (intros; apply of_type_true). naive_solver.
  - rewrite cash_in_lieu_dependencies. naive_solver.
  - rewrite single_dependency by done. naive_solver.
  - rewrite terminal_dependencies by done. naive_solver.
  - rewrite terminal_dependencies by done. naive_solver.
Qed.

Lemma child_findings_nil c : c ∈ children -> target_ids <> [] -> In (ch_transaction_type c) (allowed_transaction_types policy) ->
  findings_of c = [] <-> governed policy children source c.
Proof.
  intros Hc Ht Ha. pose proof Ha as Hcase. unfold allowed_transaction_types in Hcase. unfold governed, is_source, is_target.
  pose proof (po_distinct _ Hpolicy) as Hd. pose proof (po_source_overlay _ Hpolicy) as Hso. pose proof (po_target_overlay _ Hpolicy) as Hto.
  assert (Hno : forall k, ~ In k CORPORATE_ACTION_OVERLAY_TRANSACTION_TYPES -> ch_transaction_type c = k -> governed_overlay policy children c).
  { intros k Hk E. unfold governed_overlay. rewrite E. cbn in Hk. naive_solver. }
  cbn [In] in Hcase. destruct Hcase as [E|[E|E]].
  - unfold findings_of, child_semantic_findings. rewrite <- E. destruct (po_source _ Hpolicy) as [? ->]. rewrite source_findings_nil.
    specialize (Hno _ Hso (eq_sym E)). specialize (Hsingle c Hc (eq_sym E)). naive_solver.
  - unfold findings_of, child_semantic_findings. rewrite <- E, (po_target_not_source _ Hpolicy), (po_target _ Hpolicy), target_findings_nil by done.
    specialize (Hno _ Hto (eq_sym E)). naive_solver.
  - rewrite overlay_findings by done. rewrite overlay_nil by done. split; [|by intros (_ & _ & _ & ?)].
    intros Hg. split; [done|]. split; [intros Ek; by rewrite Ek in E|]. split; [intros Ek; by rewrite Ek in E|done].
Qed.
End Checks.

Lemma sorted_nil l : stable_sort string_leb l = [] <-> l = [].
Proof. split; [|by intros ->]. intros E. apply Permutation_nil_r. by rewrite <- E, (stable_sort_perm string_leb). Qed.

Lemma sorted_ids_nil (f : CorporateActionEventChild -> bool) cs :
  stable_sort string_leb (map ch_transaction_id (List.filter f cs)) = [] <-> forall c, c ∈ cs -> f c = false.
Proof. rewrite sorted_nil, <- filter_nil. split; [apply map_eq_nil|by intros ->]. Qed.

Lemma shape_nil children policy : fst (cohort_shape_findings children policy) = [] <->
  (forall c, c ∈ children -> In (ch_transaction_type c) (allowed_transaction_types policy)) /\
  (exists source, List.filter (of_type (cp_source_transaction_type policy)) children = [source]) /\
  List.filter (of_type (cp_target_transaction_type policy)) children <> [].
Proof.
  unfold cohort_shape_findings. cbn [fst]. rewrite !app_nil.
  assert (E1 : forall ids, match ids with [] => [] | _ => [about CHILD_TYPE_NOT_ALLOWED ids] end = [] <-> ids = []) by (by intros []).
  rewrite E1, sorted_ids_nil. split.
  - intros (Ha & Hs & Ht). split; [|split].
    + intros c Hc. apply in_set_true. by apply negb_false_iff, Ha.
    + destruct (List.filter (of_type (cp_source_transaction_type policy)) children) as [|s [|? ?]]; [done|by exists s|done].
    + by destruct (List.filter (of_type (cp_target_transaction_type policy)) children).
  - intros (Ha & (s & ->) & Ht). split; [|split; [done|]].
    + intros c Hc. apply negb_false_iff, in_set_true. by apply Ha.
    + by destruct (List.filter (of_type (cp_target_transaction_type policy)) children).
Qed.

Lemma filter_single (f : CorporateActionEventChild -> bool) cs s : NoDup cs ->
  List.filter f cs = [s] <-> (s ∈ cs /\ f s = true) /\ forall c, c ∈ cs -> f c = true -> c = s.
Proof.
  intros Hn. split.
  - intros E. assert (Hs : s ∈ List.filter f cs) by (rewrite E; set_solver). apply elem_of_filter_bool in Hs as [? ?]. split; [done|].
    intros c Hc Hf. assert (Hin : c ∈ List.filter f cs) by (by apply elem_of_filter_bool). rewrite E in Hin. set_solver.
  - intros [[Hs Hf] Hu]. apply Permutation_singleton_r, NoDup_Permutation; [by apply NoDup_filter_bool|apply NoDup_singleton|].
    intros c. rewrite elem_of_filter_bool, list_elem_of_singleton. split; [intros []; by apply Hu|by intros ->].
Qed.

(** Distinct children that name what they wait for once. *)
Record well_linked (children : list CorporateActionEventChild) : Prop := {
  wl_ids : NoDup (map ch_transaction_id children);
  wl_edges : forall c, c ∈ children -> NoDup (ch_dependency_transaction_ids c)
}.

(** The semantic checks of a manifest pass exactly when its children are the cohort of its family. *)
Lemma semantic_findings_nil m : well_linked (pm_expected_children m) ->
  semantic_findings m = [] <->
  exists policy source, corporate_action_cohort_policy (pm_corporate_action_type m) = Some policy /\ cohort policy (pm_expected_children m) source.
Proof.
  intros [Hids Hedges]. unfold semantic_findings. destruct (corporate_action_cohort_policy _) as [policy|] eqn:Ep; [|naive_solver].
  pose proof (cohort_policy_ok _ _ Ep) as Hp. set (children := pm_expected_children m) in *. assert (Hn : NoDup children) by (by eapply NoDup_fmap_1).
  pose proof (shape_nil children policy) as Hshape. destruct (cohort_shape_findings children policy) as [findings targets] eqn:Es.
  assert (Et : targets = List.filter (of_type (cp_target_transaction_type policy)) children) by (unfold cohort_shape_findings in Es; by injection Es as _ <-).
  cbn [fst] in Hshape. subst targets. rewrite app_nil, Hshape, flat_map_nil. setoid_rewrite (stable_sort_perm child_id_leb). split.
  - intros [(Ha & (source & Hs) & Ht) Hc]. apply filter_single in Hs as [[Hin Hk%of_type_true] Hsingle]; [|done]. exists policy, source. split; [done|].
    assert (Hsingle' : forall c, c ∈ children -> is_source policy c -> c = source) by (intros c Hc' Hk'; apply Hsingle; [done|by apply of_type_true]).
    split; [done| |].
    + destruct (List.filter (of_type (cp_target_transaction_type policy)) children) as [|t l] eqn:E; [done|]. exists t.
      assert (H : t ∈ List.filter (of_type (cp_target_transaction_type policy)) children) by (rewrite E; set_solver).
      by apply elem_of_filter_bool in H as [?%of_type_true ?].
    + intros c Hin'. apply (child_findings_nil policy Hp children Hids Hedges source Hin Hk Hsingle' c Hin'); [|by apply Ha|by apply Hc].
      intros E%map_eq_nil. by apply Ht.
  - intros (policy' & source & [= <-] & [[Hin Hk] (t & Htin & Htk) Hg]).
    assert (Hsingle : forall c, c ∈ children -> is_source policy c -> c = source) by (intros c Hc Hk'; by apply (Hg c Hc)).
    assert (Ht : List.filter (of_type (cp_target_transaction_type policy)) children <> []).
    { intros E. apply (not_elem_of_nil t). rewrite <- E. apply elem_of_filter_bool. by rewrite of_type_true. }
    split; [split; [|split; [|done]]|].
    + intros c Hc. by apply (Hg c Hc).
    + exists source. apply filter_single; [done|]. split; [by rewrite of_type_true|]. intros c Hc Hk'%of_type_true. by apply Hsingle.
    + intros c Hc. apply (child_findings_nil policy Hp children Hids Hedges source Hin Hk Hsingle c Hc); [|by apply (Hg c Hc)|by apply Hg].
      intros E%map_eq_nil. by apply Ht.
Qed.

(** ** Observed children *)

(** The same declaration, up to the order in which it names its dependencies. *)
Definition same_definition (x y : CorporateActionEventChild) : Prop :=
  ch_transaction_id x = ch_transaction_id y /\ ch_transaction_type x = ch_transaction_type y /\ ch_child_role x = ch_child_role y /\
  ch_dependency_transaction_ids x ≡ₚ ch_dependency_transaction_ids y /\ ch_child_sequence_hint x = ch_child_sequence_hint y /\
  ch_instrument_id x = ch_instrument_id y /\ ch_source_instrument_id x = ch_source_instrument_id y /\
  ch_target_instrument_id x = ch_target_instrument_id y.

Lemma sorted_ids_perm xs ys : stable_sort string_leb xs = stable_sort string_leb ys <-> xs ≡ₚ ys.
Proof.
  split.
  - intros E. by rewrite <- (stable_sort_perm string_leb xs), E, (stable_sort_perm string_leb ys).
  - intros Hp. apply stable_sort_perm_eq; [apply string_leb_total|apply string_leb_trans| |done]. intros x y _ _. apply string_leb_antisym.
Qed.

Lemma child_payload_eqb_true x y : child_payload_eqb x y = true <-> same_definition x y.
Proof.
  unfold child_payload_eqb, same_definition. rewrite !andb_true_iff, !String.eqb_eq, !bool_decide_eq_true, sorted_ids_perm. naive_solver.
Qed.

(** What has arrived is part of what the manifest expects, each child once; and nothing is missing. *)
Definition consistent (expected observed : list CorporateActionEventChild) : Prop :=
  NoDup (map ch_transaction_id observed) /\ forall o, o ∈ observed -> exists e, e ∈ expected /\ same_definition e o.
Definition complete (expected observed : list CorporateActionEventChild) : Prop :=
  map ch_transaction_id expected ⊆ map ch_transaction_id observed.

Lemma observe_nil obs : forall d fs, snd (fold_left observe obs (d, fs)) = [] <->
  fs = [] /\ NoDup (map ch_transaction_id obs) /\ forall c, c ∈ obs -> ch_transaction_id c ∉ map fst d.
Proof.
  induction obs as [|c obs IH]; intros d fs; cbn [fold_left map].
  - cbn. split; [intros ->; split; [done|]; split; [constructor|]; intros c Hc; by apply elem_of_nil in Hc|by intros [-> _]].
  - rewrite NoDup_cons. cbn [observe]. destruct (od_get (ch_transaction_id c) d) as [e|] eqn:E.
    + rewrite IH. split.
      * intros [Hfs _]. by apply app_eq_nil in Hfs as [_ ?].
      * intros (-> & _ & Hd). exfalso. apply (Hd c); [set_solver|]. apply od_get_elem in E. by apply (list_elem_of_fmap_2 fst) in E.
    + apply od_get_None in E. rewrite IH, od_set_fresh by done. rewrite map_app. cbn [map fst].
      assert (Hk : (ch_transaction_id c ∉ map ch_transaction_id obs) <-> forall x, x ∈ obs -> ch_transaction_id x <> ch_transaction_id c).
      { split; [intros Hn x Hx Ex; apply Hn; rewrite <- Ex; by apply list_elem_of_fmap_2|].
        intros Hn (x & Ex & Hx)%list_elem_of_fmap. by apply (Hn x Hx). }
      rewrite Hk. setoid_rewrite elem_of_cons. setoid_rewrite not_elem_of_app. setoid_rewrite not_elem_of_cons. split.
      * intros (-> & Hn & Hd). split; [done|]. split; [split; [|done]; intros x Hx; by apply (Hd x Hx)|]. intros x [->|Hx]; [done|by apply (Hd x Hx)].
      * intros (-> & [Hn1 Hn2] & Hd). split; [done|]. split; [done|]. intros x Hx. split; [by apply Hd; right|]. split; [by apply Hn1|apply not_elem_of_nil].
Qed.

Lemma observed_identity_nil obs : observed_identity_findings obs = [] <-> NoDup (map ch_transaction_id obs).
Proof.
  unfold observed_identity_findings. pose proof (observe_nil obs [] []) as Ho. destruct (snd _) as [|f fs] eqn:E; split; try done.
  - intros _. by destruct (proj1 Ho eq_refl) as (_ & ? & _).
  - intros Hn. by assert (f :: fs = []) by (apply Ho; split; [done|]; split; [done|]; intros; apply not_elem_of_nil).
Qed.

Lemma filterR_total {A} (f : A -> result bool) g l : (forall x, x ∈ l -> f x = Ok (g x)) -> filterR f l = Ok (List.filter g l).
Proof.
  induction l as [|x l IH]; intros Hf; [done|]. cbn [filterR List.filter]. rewrite Hf by set_solver. rewrite bind_ret, IH; [done|]. set_solver.
Qed.

Lemma sorted_filter_nil (f : string -> bool) l : stable_sort string_leb (List.filter f l) = [] <-> forall x, x ∈ l -> f x = false.
Proof. by rewrite sorted_nil, filter_nil. Qed.

Lemma absent_nil xs ys : (forall x, x ∈ xs -> negb (in_ids x ys) = false) <-> xs ⊆ ys.
Proof. setoid_rewrite negb_false_iff. setoid_rewrite in_ids_true. done. Qed.

(** The children both sides name and define differently. *)
Definition differs (expected observed : list CorporateActionEventChild) (k : string) : bool :=
  match od_get k (children_by_transaction_id expected), od_get k (children_by_transaction_id observed) with
  | Some e, Some o => negb (child_payload_eqb e o)
  | _, _ => false
  end.

Lemma by_id_keys_of cs : NoDup (map ch_transaction_id cs) -> map fst (children_by_transaction_id cs) = map ch_transaction_id cs.
Proof. intros Hn. rewrite children_by_id_distinct by done. by rewrite map_map. Qed.

Lemma by_id_key cs k : NoDup (map ch_transaction_id cs) -> k ∈ map ch_transaction_id cs ->
  exists c, c ∈ cs /\ ch_transaction_id c = k /\ od_get k (children_by_transaction_id cs) = Some c.
Proof. intros Hn (c & -> & Hc)%list_elem_of_fmap. exists c. by rewrite by_id_lookup. Qed.

Section Compared.
Context (expected observed : list CorporateActionEventChild).
Context (He : NoDup (map ch_transaction_id expected)) (Ho : NoDup (map ch_transaction_id observed)).

Lemma no_difference : (forall k, k ∈ List.filter (fun k => in_ids k (map ch_transaction_id observed)) (map ch_transaction_id expected) ->
    differs expected observed k = false) <->
  forall e o, e ∈ expected -> o ∈ observed -> ch_transaction_id e = ch_transaction_id o -> same_definition e o.
Proof.
  unfold differs. split.
  - intros Hd e o Hin Hio E. specialize (Hd (ch_transaction_id e)). rewrite by_id_lookup in Hd by done.
    rewrite E, by_id_lookup in Hd by done. apply child_payload_eqb_true, negb_false_iff, Hd. apply elem_of_filter_bool. rewrite in_ids_true.
    split; [by apply list_elem_of_fmap_2|]. rewrite <- E. by apply list_elem_of_fmap_2.
  - intros Hs k [Hk He']%elem_of_filter_bool. apply in_ids_true in Hk.
    destruct (by_id_key expected k He He') as (e & Hin & Ee & ->). destruct (by_id_key observed k Ho Hk) as (o & Hio & Eo & ->).
    apply negb_false_iff, child_payload_eqb_true. apply Hs; [done|done|]. by rewrite Ee.
Qed.

Lemma consistent_cases : consistent expected observed <->
  map ch_transaction_id observed ⊆ map ch_transaction_id expected /\
  forall e o, e ∈ expected -> o ∈ observed -> ch_transaction_id e = ch_transaction_id o -> same_definition e o.
Proof.
  unfold consistent. split.
  - intros [_ Hc]. split.
    + intros k (o & -> & Hio)%list_elem_of_fmap. destruct (Hc o Hio) as (e & Hin & [<- _]). by apply list_elem_of_fmap_2.
    + intros e o Hin Hio E. destruct (Hc o Hio) as (e' & Hin' & Hs). rewrite (child_unique expected e e' He Hin Hin'); [done|].
      by rewrite E, (proj1 Hs).
  - intros [Hsub Hs]. split; [done|]. intros o Hio. assert (Hk : ch_transaction_id o ∈ map ch_transaction_id expected) by (by apply Hsub, list_elem_of_fmap_2).
    apply list_elem_of_fmap in Hk as (e & E & Hin). exists e. split; [done|]. by apply Hs.
Qed.

(** The lists [compare_children] builds are empty exactly when the observation is consistent and complete. *)
Lemma consistent_filters : consistent expected observed <->
  stable_sort string_leb (List.filter (fun k => negb (in_ids k (map ch_transaction_id expected))) (map ch_transaction_id observed)) = [] /\
  stable_sort string_leb (List.filter (differs expected observed)
    (List.filter (fun k => in_ids k (map ch_transaction_id observed)) (map ch_transaction_id expected))) = [].
Proof.
  rewrite !sorted_filter_nil. pose proof no_difference as Hd. pose proof consistent_cases as Hc.
  pose proof (absent_nil (map ch_transaction_id observed) (map ch_transaction_id expected)). tauto.
Qed.

Lemma complete_filter : complete expected observed <->
  stable_sort string_leb (List.filter (fun k => negb (in_ids k (map ch_transaction_id observed))) (map ch_transaction_id expected)) = [].
Proof. rewrite sorted_filter_nil. symmetry. apply absent_nil. Qed.

Lemma mismatched_total :
  filterR (fun k => expected' ← lookup_key k (children_by_transaction_id expected); observed' ← lookup_key k (children_by_transaction_id observed);
                    Ok (negb (child_payload_eqb expected' observed')))
    (List.filter (fun k => in_ids k (map ch_transaction_id observed)) (map ch_transaction_id expected)) =
  Ok (List.filter (differs expected observed)
        (List.filter (fun k => in_ids k (map ch_transaction_id observed)) (map ch_transaction_id expected))).
Proof.
  apply filterR_total. intros k [Hk He']%elem_of_filter_bool. apply in_ids_true in Hk. unfold differs, lookup_key.
  destruct (by_id_key expected k He He') as (e & _ & _ & ->). by destruct (by_id_key observed k Ho Hk) as (o & _ & _ & ->).
Qed.
End Compared.

(** ** Execution order of a cohort *)

Section Hashed.
Context `{HashingOk}.

Section Executed.
Context (children : list CorporateActionEventChild).
Let nodes := map node_of children.
Context (Hwf : well_formed nodes).

Lemma executed_ids : NoDup (map ch_transaction_id children).
Proof. pose proof (wf_ids _ Hwf) as Hn. unfold nodes in Hn. by rewrite node_ids_of in Hn. Qed.

Lemma waits_depends c d : c ∈ children -> waits c d -> depends nodes (ch_transaction_id d) (ch_transaction_id c).
Proof. intros Hc Hw. exists (node_of c). split; [by apply list_elem_of_fmap_2|done]. Qed.

Section Ordered.
Context (order : list CorporateActionEventChild) (Hperm : order ≡ₚ children) (Hcanonical : canonical nodes (map node_of order)).

Lemma executed_after l1 c l2 d : order = (l1 ++ c :: l2)%list -> d ∈ children ->
  tc (depends nodes) (ch_transaction_id d) (ch_transaction_id c) -> d ∈ l1.
Proof.
  intros E Hd Htc. assert (Hin : ch_transaction_id d ∈ map ch_transaction_id l1).
  { apply (canonical_earlier nodes Hwf (map node_of order) (map ch_transaction_id l1) (map ch_transaction_id l2) _ (ch_transaction_id c) Hcanonical); [|exact Htc].
    rewrite node_ids_of, E, map_app. done. }
  apply list_elem_of_fmap in Hin as (d' & Ed & Hd'). assert (Hc' : d' ∈ children).
  { rewrite <- Hperm, E. set_solver. }
  by rewrite (child_unique children d d' executed_ids Hd Hc' Ed).
Qed.

Lemma executed_dependencies l1 c l2 : order = (l1 ++ c :: l2)%list -> ch_dependency_transaction_ids c ⊆ map ch_transaction_id l1.
Proof.
  intros E x Hx. assert (Hc : c ∈ children) by (rewrite <- Hperm, E; set_solver).
  rewrite <- (node_ids_of l1). apply (canonical_earlier nodes Hwf (map node_of order) _ (map ch_transaction_id l2) x (ch_transaction_id c) Hcanonical).
  - rewrite !node_ids_of, E, map_app. done.
  - apply tc_once. exists (node_of c). split; [by apply list_elem_of_fmap_2|done].
Qed.
End Ordered.

Context (policy : CorporateActionCohortPolicy) (source : CorporateActionEventChild) (Hcohort : cohort policy children source).

Lemma target_after_source c : c ∈ children -> is_target policy c -> tc (depends nodes) (ch_transaction_id source) (ch_transaction_id c).
Proof.
  intros Hc Hk. apply tc_once, waits_depends; [done|]. destruct (co_governed _ _ _ Hcohort c Hc) as (_ & _ & Ht & _). by destruct (Ht Hk) as (_ & Hw & _).
Qed.

Lemma waiting_after_source c d : c ∈ children -> waits c d ->
  tc (depends nodes) (ch_transaction_id source) (ch_transaction_id d) -> tc (depends nodes) (ch_transaction_id source) (ch_transaction_id c).
Proof. intros Hc Hw Hd. eapply tc_r; [exact Hd|]. by apply waits_depends. Qed.

Lemma cash_after_source c : c ∈ children -> is_cash c -> tc (depends nodes) (ch_transaction_id source) (ch_transaction_id c).
Proof.
  intros Hc Hk. destruct (co_governed _ _ _ Hcohort c Hc) as (_ & _ & _ & Hcc & Hcil & _). destruct (co_target _ _ _ Hcohort) as (t & Ht & Htk).
  destruct Hk as [E|[E|[]]]; symmetry in E.
  - apply (waiting_after_source c t Hc); [destruct (Hcc E) as [_ Hw]; by apply Hw|by apply target_after_source].
  - destruct (Hcil E) as (_ & t' & Ht' & Hk' & _ & Hw). apply (waiting_after_source c t' Hc Hw). by apply target_after_source.
Qed.

(** Every other child waits for the source, directly or not. *)
Lemma source_before_all c : c ∈ children -> c <> source -> tc (depends nodes) (ch_transaction_id source) (ch_transaction_id c).
Proof.
  intros Hc Hne. destruct (co_governed _ _ _ Hcohort c Hc) as (Ha & Hs & _ & _ & _ & Hadj & Hfee & Htax).
  destruct (co_target _ _ _ Hcohort) as (t & Ht & Htk).
  destruct Ha as [E|[E|[E|[E|[E|[E|[E|[]]]]]]]]; symmetry in E.
  - by destruct (Hs E).
  - by apply target_after_source.
  - apply cash_after_source; [done|]. unfold is_cash. rewrite E. by left.
  - apply cash_after_source; [done|]. unfold is_cash. rewrite E. by right; left.
  - destruct (Hadj E) as (_ & d & Hd & Hcash & Edeps). apply (waiting_after_source c d Hc); [unfold waits; rewrite Edeps; set_solver|].
    by apply cash_after_source.
  - destruct (Hfee E) as (_ & Hw & _). apply (waiting_after_source c t Hc); [by apply Hw|by apply target_after_source].
  - destruct (Htax E) as (_ & Hw & _). apply (waiting_after_source c t Hc); [by apply Hw|by apply target_after_source].
Qed.

Lemma executes_source_first order : order ≡ₚ children -> canonical nodes (map node_of order) -> exists rest, order = source :: rest.
Proof.
  intros Hperm Hcanonical. assert (Hin : source ∈ order) by (rewrite Hperm; apply (co_source _ _ _ Hcohort)).
  apply list_elem_of_split in Hin as (l1 & l2 & E). destruct l1 as [|h l1]; [by exists l2|]. exfalso.
  assert (Hn : NoDup order) by (rewrite Hperm; apply (NoDup_fmap_1 ch_transaction_id), executed_ids). rewrite E in Hn. apply NoDup_cons in Hn as [Hh _].
  apply (not_elem_of_nil source). apply (executed_after order Hperm Hcanonical [] h (l1 ++ source :: l2) source E); [apply (co_source _ _ _ Hcohort)|].
  apply source_before_all; [rewrite <- Hperm, E; set_solver|]. intros ->. set_solver.
Qed.
End Executed.

(** ** Readiness *)

(** A manifest as its constructors leave it. *)
Record normal_manifest (m : CorporateActionParentManifest) : Prop := {
  nm_event : normal_text (pm_corporate_action_event_id m);
  nm_group : normal_text (pm_linked_transaction_group_id m);
  nm_parent : normal_text (pm_parent_event_reference m);
  nm_version : 1 <= pm_version m;
  nm_aware : is_naive (fs_observed_at (pm_source_reference m)) = false;
  nm_children : Forall normal_child (pm_expected_children m)
}.

Lemma made_manifest_normal m m' : make_CorporateActionParentManifest m = Ok m' ->
  is_naive (fs_observed_at (pm_source_reference m)) = false -> Forall normal_child (pm_expected_children m) -> normal_manifest m'.
Proof.
  unfold make_CorporateActionParentManifest. intros Hm Ha Hc. apply bind_Ok in Hm as (event & He%required_text_Ok & Hm).
  apply bind_Ok in Hm as (tenant & _ & Hm). apply bind_Ok in Hm as (book & _ & Hm). apply bind_Ok in Hm as (portfolio & _ & Hm).
  apply bind_Ok in Hm as (group & Hg%required_text_Ok & Hm). apply bind_Ok in Hm as (parent & Hp%required_text_Ok & Hm).
  apply bind_Ok in Hm as (kind & _ & Hm). apply bind_Ok in Hm as (u & Hv%raise_if_Ok & Hm). injection Hm as <-. split; cbn; try done.
  by apply Z.ltb_ge.
Qed.

Lemma child_payload_ok c : is_ok (normalize_lineage_value (ch_lineage_payload c)) = true.
Proof.
  apply normalize_map_ok. assert (Htext : forall v, is_ok (normalize_lineage_value (PText v)) = true) by (by intros []).
  repeat (apply Forall_cons_2; [split; [reflexivity|cbn [snd]; first [reflexivity|apply Htext|idtac]]|]); [| |apply Forall_nil_2].
  - by destruct (ch_child_sequence_hint c).
  - apply normalize_seq_ok, Forall_forall. by intros x (y & -> & _)%list_elem_of_fmap.
Qed.

Lemma content_hash_ok m : normal_manifest m -> exists hash, pm_content_hash m = Ok hash.
Proof.
  intros Hm. assert (Hok : is_ok (normalize_lineage_value (pm_lineage_payload m)) = true).
  { apply normalize_map_ok.
    repeat (apply Forall_cons_2; [split; [reflexivity|cbn [snd]; first [reflexivity|idtac]]|]); [| |apply Forall_nil_2].
    - apply normalize_seq_ok, Forall_forall. intros x (c & -> & _)%list_elem_of_fmap. apply child_payload_ok.
    - apply normalize_map_ok. repeat (apply Forall_cons_2; [split; [reflexivity|cbn [snd]; first [reflexivity|idtac]]|]); [|apply Forall_nil_2].
      unfold normalize_lineage_value. by rewrite (nm_aware m Hm). }
  unfold pm_content_hash, canonical_content_hash. destruct (normalize_lineage_value _); [|done]. by eexists.
Qed.

(** The graph a manifest declares is accepted by its constructor. *)
Definition graph_of (m : CorporateActionParentManifest) : CorporateActionEventGraph :=
  {| cg_corporate_action_event_id := pm_corporate_action_event_id m; cg_linked_transaction_group_id := pm_linked_transaction_group_id m;
     cg_parent_event_reference := pm_parent_event_reference m; cg_version := pm_version m; cg_children := pm_expected_children m |}.

Lemma graph_of_made m : normal_manifest m -> make_CorporateActionEventGraph (graph_of m) = Ok (graph_of m).
Proof.
  intros Hm. unfold make_CorporateActionEventGraph, graph_of.
  cbn [cg_corporate_action_event_id cg_linked_transaction_group_id cg_parent_event_reference cg_version cg_children].
  rewrite (required_text_normal _ _ (nm_event m Hm)), bind_ret, (required_text_normal _ _ (nm_group m Hm)), bind_ret.
  rewrite (required_text_normal _ _ (nm_parent m Hm)), bind_ret, (proj2 (Z.ltb_ge _ _) (nm_version m Hm)). done.
Qed.

(** A refusal orders nothing and gives a reason. *)
Definition refusal (status : CorporateActionManifestReadinessStatus) (r : CorporateActionManifestReadiness) : Prop :=
  mr_status r = status /\ mr_ordered_children r = [] /\ mr_findings r <> [].

Lemma readiness_refusal m status findings : normal_manifest m -> findings <> [] ->
  exists r, readiness status findings (Some m) = Ok r /\ refusal status r.
Proof. intros Hm Hf. unfold readiness. destruct (content_hash_ok m Hm) as (hash & ->). eexists. by repeat split. Qed.

Lemma compare_cases m ordered observed : normal_manifest m -> NoDup (map ch_transaction_id (pm_expected_children m)) ->
  NoDup (map ch_transaction_id observed) ->
  exists r, compare_children m ordered observed = Ok r /\
  ((consistent (pm_expected_children m) observed /\ complete (pm_expected_children m) observed /\
    mr_status r = READY /\ mr_ordered_children r = ordered /\ mr_findings r = []) \/
   (consistent (pm_expected_children m) observed /\ ~ complete (pm_expected_children m) observed /\ refusal AWAITING_CHILDREN r) \/
   (~ consistent (pm_expected_children m) observed /\ refusal MANIFEST_INVALID r)).
Proof.
  intros Hm He Ho. unfold compare_children. rewrite !by_id_keys_of by done. rewrite mismatched_total by done. rewrite bind_ret.
  setoid_rewrite (consistent_filters _ _ He Ho). setoid_rewrite complete_filter.
  destruct (stable_sort string_leb (List.filter _ (map ch_transaction_id observed))) as [|u us].
  - destruct (stable_sort string_leb (List.filter (differs _ _) _)) as [|x xs]; cbn [app].
    + destruct (stable_sort string_leb (List.filter _ (map ch_transaction_id (pm_expected_children m)))) as [|y ys].
      * destruct (content_hash_ok m Hm) as (hash & ->). eexists. split; [reflexivity|]. left. done.
      * destruct (readiness_refusal m AWAITING_CHILDREN [about MISSING_EXPECTED_CHILD (y :: ys)] Hm) as (r & -> & Hr); [done|]. exists r.
        split; [done|]. right. left. done.
    + destruct (readiness_refusal m MANIFEST_INVALID [about OBSERVED_CHILD_MISMATCH (x :: xs)] Hm) as (r & -> & Hr); [done|]. exists r.
      split; [done|]. right. right. split; [by intros []|done].
  - cbn [app]. match goal with |- context [readiness MANIFEST_INVALID ?fs _] =>
      destruct (readiness_refusal m MANIFEST_INVALID fs Hm) as (r & -> & Hr); [done|] end.
    exists r. split; [done|]. right. right. split; [by intros []|done].
Qed.

(** A declaration that can be executed: a well-formed acyclic graph that is the cohort of its family. *)
Definition executable (m : CorporateActionParentManifest) : Prop :=
  let nodes := map node_of (pm_expected_children m) in
  well_formed nodes /\ acyclic nodes /\
  exists policy source, corporate_action_cohort_policy (pm_corporate_action_type m) = Some policy /\ cohort policy (pm_expected_children m) source.

Lemma well_formed_linked cs : well_formed (map node_of cs) -> well_linked cs.
Proof.
  intros [_ Hids Hedges _ _]. split; [by rewrite node_ids_of in Hids|]. intros c Hc. apply (Hedges (node_of c)). by apply list_elem_of_fmap_2.
Qed.

Lemma evaluation_cases m observed : normal_manifest m -> pm_completion_declared m = true ->
  exists r, evaluate_corporate_action_manifest_readiness (Some m) observed = Ok r /\
  ((executable m /\ consistent (pm_expected_children m) observed /\ complete (pm_expected_children m) observed /\
    mr_status r = READY /\ mr_findings r = [] /\ mr_ordered_children r ≡ₚ pm_expected_children m /\
    canonical (map node_of (pm_expected_children m)) (map node_of (mr_ordered_children r))) \/
   (executable m /\ consistent (pm_expected_children m) observed /\ ~ complete (pm_expected_children m) observed /\ refusal AWAITING_CHILDREN r) \/
   (~ (executable m /\ consistent (pm_expected_children m) observed) /\ refusal MANIFEST_INVALID r)).
Proof.
  intros Hm Hd. unfold evaluate_corporate_action_manifest_readiness. rewrite Hd. cbn [negb]. fold (graph_of m). rewrite (graph_of_made m Hm), bind_ret.
  match goal with |- context [resolve_corporate_action_event_graph ?g] =>
    destruct (structural_cases g (nm_children m Hm)) as [(order & nc & ec & Hw & Ha & Hp & Hc & ->)|(Hno & plan & -> & Hs & _ & Hf)] end; rewrite bind_ret.
  - cbn [sp_status sp_ordered_children sp_findings app cg_children] in *. pose proof (semantic_findings_nil m (well_formed_linked _ Hw)) as Hsem.
    destruct (semantic_findings m) as [|f fs].
    + assert (Hex : executable m) by (split; [done|]; split; [done|]; by apply Hsem).
      pose proof (observed_identity_nil observed) as Hobs. destruct (observed_identity_findings observed) as [|f fs].
      * destruct (compare_cases m order observed Hm (wl_ids _ (well_formed_linked _ Hw)) (proj1 Hobs eq_refl)) as (r & -> & Hr). exists r.
        split; [done|]. destruct Hr as [(H1 & H2 & H3 & H4 & H5)|[(H1 & H2 & H3)|(H1 & H2)]]; [left|right; left|right; right]; [|done|].
        -- by rewrite H4.
        -- split; [by intros []|done].
      * destruct (readiness_refusal m MANIFEST_INVALID (f :: fs) Hm) as (r & -> & Hr); [done|]. exists r. split; [done|]. right. right.
        split; [|done]. intros (_ & Hn & _). by apply Hobs in Hn.
    + destruct (readiness_refusal m MANIFEST_INVALID (f :: fs) Hm) as (r & -> & Hr); [done|]. exists r. split; [done|]. right. right.
      split; [|done]. intros ((_ & _ & Hco) & _). by apply Hsem in Hco.
  - rewrite Hs. cbn [app]. match goal with |- context [readiness MANIFEST_INVALID ?fs _] =>
      destruct (readiness_refusal m MANIFEST_INVALID fs Hm) as (r & -> & Hr); [done|] end.
    exists r. split; [done|]. right. right. split; [|done]. intros ((H1 & H2 & _) & _). by apply Hno.
Qed.

(** C23: the readiness of a declared manifest is decided: it is ready exactly when its children form an executable cohort and exactly
    they have arrived, awaits children while part of them has, and is otherwise invalid; what is not ready orders nothing and says why. *)
Theorem readiness_decided m observed : normal_manifest m ->
  exists r, evaluate_corporate_action_manifest_readiness (Some m) observed = Ok r /\
    (mr_status r = READY <-> pm_completion_declared m = true /\ executable m /\ consistent (pm_expected_children m) observed /\
                             complete (pm_expected_children m) observed) /\
    (mr_status r = AWAITING_CHILDREN <-> pm_completion_declared m = true /\ executable m /\ consistent (pm_expected_children m) observed /\
                             ~ complete (pm_expected_children m) observed) /\
    (mr_status r = MANIFEST_INVALID <-> pm_completion_declared m = true /\ ~ (executable m /\ consistent (pm_expected_children m) observed)) /\
    (mr_status r = AWAITING_COMPLETION <-> pm_completion_declared m = false) /\
    (mr_status r <> READY -> mr_ordered_children r = [] /\ mr_findings r <> []) /\ (mr_status r = READY -> mr_findings r = []).
Proof.
  intros Hm. destruct (pm_completion_declared m) eqn:Hd.
  - destruct (evaluation_cases m observed Hm Hd) as (r & Er & Hr). exists r. split; [done|]. unfold refusal in Hr.
    destruct Hr as [(H1 & H2 & H3 & -> & -> & _)|[(H1 & H2 & H3 & -> & Ho & Hf)|(H1 & -> & Ho & Hf)]]; naive_solver.
  - unfold evaluate_corporate_action_manifest_readiness. rewrite Hd. cbn [negb].
    destruct (readiness_refusal m AWAITING_COMPLETION [reason_only COMPLETION_NOT_DECLARED] Hm) as (r & -> & Es & Ho & Hf); [done|].
    exists r. split; [done|]. rewrite Es. naive_solver.
Qed.

(** What the execution order of a family promises at every place. *)
Definition settles_in_order (policy : CorporateActionCohortPolicy) (order : list CorporateActionEventChild) : Prop :=
  forall l1 c l2, order = (l1 ++ c :: l2)%list ->
    ch_dependency_transaction_ids c ⊆ map ch_transaction_id l1 /\
    (In (ch_transaction_type c) ["CASH_CONSIDERATION"; "FEE"; "TAX"] -> forall t, t ∈ order -> is_target policy t -> t ∈ l1) /\
    (In (ch_transaction_type c) ["FEE"; "TAX"] -> forall d, d ∈ order -> is_cash d -> d ∈ l1).

Lemma cohort_settles_in_order policy children source order : well_formed (map node_of children) -> cohort policy children source ->
  order ≡ₚ children -> canonical (map node_of children) (map node_of order) -> settles_in_order policy order.
Proof.
  intros Hw Hco Hp Hc l1 c l2 E. assert (Hin : c ∈ children) by (rewrite <- Hp, E; set_solver).
  destruct (co_governed _ _ _ Hco c Hin) as (_ & _ & _ & Hcc & _ & _ & Hfee & Htax).
  assert (Hall : forall P, waits_for_all children P c -> forall d, d ∈ order -> P d -> d ∈ l1).
  { intros P HP d Hd HPd. rewrite Hp in Hd. apply (executed_after children Hw order Hp Hc l1 c l2 d E Hd).
    apply tc_once, (waits_depends children); [done|]. by apply HP. }
  split; [by eapply (executed_dependencies children Hw order Hp Hc)|]. split.
  - intros Hk. apply Hall. destruct Hk as [Ek|[Ek|[Ek|[]]]]; symmetry in Ek; naive_solver.
  - intros Hk. apply Hall. destruct Hk as [Ek|[Ek|[]]]; symmetry in Ek; naive_solver.
Qed.

(** C24: a ready event executes exactly its declared children: the source leg first, waiting for nothing, every child after what it
    waits for, cash consideration, fees and taxes after every target, and fees and taxes after every cash leg. *)
Theorem ready_event_executes_source_first m observed r : normal_manifest m ->
  evaluate_corporate_action_manifest_readiness (Some m) observed = Ok r -> mr_status r = READY ->
  exists policy source rest, corporate_action_cohort_policy (pm_corporate_action_type m) = Some policy /\
    mr_ordered_children r = source :: rest /\ is_source policy source /\ ch_dependency_transaction_ids source = [] /\
    mr_ordered_children r ≡ₚ pm_expected_children m /\ settles_in_order policy (mr_ordered_children r).
Proof.
  intros Hm Er Hr. destruct (pm_completion_declared m) eqn:Hd.
  2:{ unfold evaluate_corporate_action_manifest_readiness in Er. rewrite Hd in Er. cbn [negb] in Er.
      destruct (readiness_refusal m AWAITING_COMPLETION [reason_only COMPLETION_NOT_DECLARED] Hm) as (r' & E & Es & _); [done|]. congruence. }
  destruct (evaluation_cases m observed Hm Hd) as (r' & E & Hcase). rewrite E in Er. injection Er as ->. unfold refusal in Hcase.
  destruct Hcase as [((Hw & Ha & policy & source & Ep & Hco) & _ & _ & _ & _ & Hp & Hc)|[(_ & _ & _ & Es & _)|(_ & Es & _)]]; [|congruence..].
  pose proof (cohort_policy_ok _ _ Ep) as Hpo.
  destruct (executes_source_first _ Hw policy source Hco _ Hp Hc) as (rest & Eo). exists policy, source, rest. split; [done|]. split; [done|].
  split; [apply (co_source _ _ _ Hco)|]. split; [|split; [done|by eapply cohort_settles_in_order]].
  pose proof (executed_dependencies _ Hw _ Hp Hc [] source rest Eo) as Hdeps. destruct (ch_dependency_transaction_ids source); [done|set_solver].
Qed.
End Hashed.
