(* ===== verification/CorporateActionArrival.v ===== *)
(** * Readiness of corporate-action manifests: order of arrival

    Neither the order in which a manifest declares its children nor the order in which they arrive changes
    the outcome of the evaluation; and the evaluation of a spin-off, as it arrives. *)

From Stdlib Require Import ZArith Lia String Ascii.
From stdpp Require Import base tactics list strings relations.
From S2P Require Import Prelude PyDecimal PyTime Precision Lineage Transactions AccruedIncome EventGraph EventGraphWalk EventGraphFacts EventGraphResolve CorporateAction CorporateActionManifest CorporateActionFacts CorporateActionReadiness.

#[local] Open Scope string_scope.
#[local] Open Scope Z_scope.

(** The same manifest with its children declared in another order. *)
Definition with_children (m : CorporateActionParentManifest) (children : list CorporateActionEventChild) : CorporateActionParentManifest :=
  {| pm_corporate_action_event_id := pm_corporate_action_event_id m; pm_tenant_id := pm_tenant_id m; pm_legal_book_id := pm_legal_book_id m;
     pm_portfolio_id := pm_portfolio_id m; pm_linked_transaction_group_id := pm_linked_transaction_group_id m;
     pm_parent_event_reference := pm_parent_event_reference m; pm_corporate_action_type := pm_corporate_action_type m; pm_version := pm_version m;
     pm_completion_declared := pm_completion_declared m; pm_expected_children := children; pm_source_reference := pm_source_reference m |}.

Lemma filterR_ext {A} (f g : A -> result bool) l : (forall x, f x = g x) -> filterR f l = filterR g l.
Proof. intros E. induction l as [|x l IH]; [done|]. cbn [filterR]. by rewrite E, IH. Qed.

Lemma sorted_perm_eq xs ys : xs ≡ₚ ys -> stable_sort string_leb xs = stable_sort string_leb ys.
Proof. apply sorted_ids_perm. Qed.

(** ** Sets of identities do not depend on the order of their elements *)

Section Children.
Context (cs cs' : list CorporateActionEventChild) (Hp : cs ≡ₚ cs') (Hn : NoDup (map ch_transaction_id cs)).

Lemma permuted_children_ids : map ch_transaction_id cs ≡ₚ map ch_transaction_id cs'.
Proof. by rewrite Hp. Qed.

Lemma permuted_children_NoDup : NoDup (map ch_transaction_id cs').
Proof. by rewrite <- permuted_children_ids. Qed.

Lemma permuted_by_id k : od_get k (children_by_transaction_id cs) = od_get k (children_by_transaction_id cs').
Proof.
  destruct (od_get k (children_by_transaction_id cs)) as [c|] eqn:E.
  - apply (by_id_source cs Hn) in E as [Hc <-]. by rewrite by_id_lookup by (first [apply permuted_children_NoDup|by rewrite <- Hp]).
  - symmetry. apply od_get_None in E. apply od_get_None. pose proof (by_id_keys_of cs Hn) as E1.
    pose proof (by_id_keys_of cs' permuted_children_NoDup) as E2. unfold fmap in *. change (list_fmap _ _ fst) with (@map (string * CorporateActionEventChild) string fst) in *.
    rewrite E2. rewrite E1 in E. by rewrite <- permuted_children_ids.
Qed.

Lemma permuted_sorted : stable_sort child_id_leb cs = stable_sort child_id_leb cs'.
Proof.
  apply stable_sort_perm_eq; [intros; apply string_leb_total|intros x y z; apply string_leb_trans| |done].
  intros x y Hx Hy H1 H2. apply (child_unique cs); [done|done|done|]. by apply string_leb_antisym.
Qed.

Lemma permuted_sorted_ids (f : CorporateActionEventChild -> bool) :
  stable_sort string_leb (map ch_transaction_id (List.filter f cs)) = stable_sort string_leb (map ch_transaction_id (List.filter f cs')).
Proof. apply sorted_perm_eq. by rewrite (filter_perm f cs cs' Hp). Qed.
End Children.

Lemma subset_perm xs xs' ys : xs ≡ₚ xs' -> subset xs ys = subset xs' ys.
Proof. intros Hx. apply eq_true_iff_eq. rewrite !subset_true. by rewrite Hx. Qed.

Lemma subset_perm_r xs ys ys' : ys ≡ₚ ys' -> subset xs ys = subset xs ys'.
Proof. intros Hy. apply eq_true_iff_eq. rewrite !subset_true. by rewrite Hy. Qed.

Lemma meets_perm xs xs' ys : xs ≡ₚ xs' -> meets xs ys = meets xs' ys.
Proof. intros Hx. apply eq_true_iff_eq. rewrite !meets_true. by setoid_rewrite Hx. Qed.

Lemma in_ids_perm k xs ys : xs ≡ₚ ys -> in_ids k xs = in_ids k ys.
Proof. intros Hx. apply bool_decide_ext. by rewrite Hx. Qed.

(** ** The checks *)

Lemma permuted_dependencies c ts ts' tids tids' cids cids' : ts ≡ₚ ts' -> tids ≡ₚ tids' -> cids ≡ₚ cids' ->
  has_governed_non_position_dependencies c ts tids cids = has_governed_non_position_dependencies c ts' tids' cids'.
Proof.
  intros Ht Hi Hc. unfold has_governed_non_position_dependencies. rewrite (subset_perm _ _ _ Hi), (subset_perm_r _ _ _ Hc).
  assert (Happ : (tids ++ cids)%list ≡ₚ (tids' ++ cids')%list) by (by rewrite Hi, Hc). rewrite (subset_perm _ _ _ Happ), (Permutation_length Happ).
  erewrite meets_perm; [reflexivity|]. by rewrite (filter_perm _ _ _ Ht).
Qed.

Lemma permuted_child_findings policy d d' ts ts' tids tids' cids cids' c : (forall k, od_get k d = od_get k d') ->
  ts ≡ₚ ts' -> tids ≡ₚ tids' -> cids ≡ₚ cids' ->
  child_semantic_findings policy d ts tids cids c = child_semantic_findings policy d' ts' tids' cids' c.
Proof.
  intros Hd Ht Hi Hc. unfold child_semantic_findings, target_child_findings, non_position_child_findings.
  rewrite (permuted_dependencies c _ _ _ _ _ _ Ht Hi Hc).
  assert (E : forall k, compatible_sources c k d = compatible_sources c k d').
  { intros k. unfold compatible_sources. apply list_omap_ext, Forall_Forall2_diag, Forall_forall. intros x _. by rewrite Hd. }
  destruct (od_get _ SOURCE_ROLE_BY_TYPE); [done|]. destruct (od_get _ TARGET_SOURCE_TYPE) as [k|]; [by rewrite (E k)|done].
Qed.

Lemma permuted_shape policy cs cs' : cs ≡ₚ cs' -> fst (cohort_shape_findings cs policy) = fst (cohort_shape_findings cs' policy).
Proof.
  intros Hp. unfold cohort_shape_findings. cbn [fst]. rewrite (permuted_sorted_ids cs cs' Hp). f_equal. f_equal.
  - pose proof (filter_perm (of_type (cp_source_transaction_type policy)) _ _ Hp) as Hf. pose proof (permuted_sorted_ids cs cs' Hp (of_type (cp_source_transaction_type policy))) as Hs.
    pose proof (Permutation_length Hf) as Hl.
    destruct (List.filter _ cs) as [|x [|y l]], (List.filter _ cs') as [|x' [|y' l']]; try done. by rewrite Hs.
  - pose proof (Permutation_length (filter_perm (of_type (cp_target_transaction_type policy)) _ _ Hp)) as Hl.
    by destruct (List.filter _ cs), (List.filter _ cs').
Qed.

Lemma permuted_semantics m cs : cs ≡ₚ pm_expected_children m -> NoDup (map ch_transaction_id cs) ->
  semantic_findings (with_children m cs) = semantic_findings m.
Proof.
  intros Hp Hn. unfold semantic_findings. cbn [pm_corporate_action_type pm_expected_children with_children].
  destruct (corporate_action_cohort_policy _) as [policy|]; [|done]. pose proof (permuted_shape policy _ _ Hp) as Hs.
  destruct (cohort_shape_findings cs policy) as [fs ts] eqn:E, (cohort_shape_findings (pm_expected_children m) policy) as [fs' ts'] eqn:E'.
  cbn [fst] in Hs. subst fs'. assert (Ht : ts ≡ₚ ts').
  { unfold cohort_shape_findings in E, E'. injection E as _ <-. injection E' as _ <-. by apply filter_perm. }
  f_equal. rewrite (permuted_sorted _ _ Hp Hn). apply flat_map_ext_all. intros c. apply permuted_child_findings; [|done|by rewrite Ht|].
  - by apply permuted_by_id.
  - by rewrite (filter_perm is_consideration _ _ Hp).
Qed.

Lemma sorted_filter_perm (f g : string -> bool) xs ys : xs ≡ₚ ys -> (forall x, f x = g x) ->
  stable_sort string_leb (List.filter f xs) = stable_sort string_leb (List.filter g ys).
Proof. intros Hx E. apply sorted_perm_eq. rewrite (filter_perm f xs ys Hx). by rewrite (List.filter_ext f g E). Qed.

(** ** The evaluation *)

Section Hashed.
Context `{HashingOk}.

Lemma permuted_structure g g' : Forall normal_child (cg_children g) -> NoDup (map ch_transaction_id (cg_children g)) ->
  cg_children g ≡ₚ cg_children g' -> resolve_corporate_action_event_graph g = resolve_corporate_action_event_graph g'.
Proof.
  intros Hg Hn Hp. assert (Hg' : Forall normal_child (cg_children g')) by (by rewrite <- Hp). unfold resolve_corporate_action_event_graph.
  rewrite (mapR_total directed_node node_of (cg_children g)) by (intros c Hc; apply directed_node_normal; by rewrite Forall_forall in Hg; apply Hg).
  rewrite (mapR_total directed_node node_of (cg_children g')) by (intros c Hc; apply directed_node_normal; by rewrite Forall_forall in Hg'; apply Hg').
  rewrite !bind_ret. rewrite (declaration_order_irrelevant (map node_of (cg_children g)) (map node_of (cg_children g'))).
  - destruct (resolve_directed_event_graph _) as [plan|]; [|done]. rewrite !bind_ret. f_equal. apply mapR_ext. intros n _. unfold lookup_key.
    by rewrite (permuted_by_id _ _ Hp Hn).
  - unfold distinct. by rewrite node_ids_of.
  - by rewrite Hp.
Qed.

Lemma permuted_hash m cs : cs ≡ₚ pm_expected_children m -> NoDup (map ch_transaction_id cs) -> pm_content_hash (with_children m cs) = pm_content_hash m.
Proof.
  intros Hp Hn. unfold pm_content_hash, pm_lineage_payload. cbn [pm_expected_children with_children]. by rewrite (permuted_sorted _ _ Hp Hn).
Qed.

Lemma permuted_readiness m cs status findings : cs ≡ₚ pm_expected_children m -> NoDup (map ch_transaction_id cs) ->
  readiness status findings (Some (with_children m cs)) = readiness status findings (Some m).
Proof. intros Hp Hn. unfold readiness. by rewrite permuted_hash. Qed.

Lemma permuted_differs es es' os os' k : es ≡ₚ es' -> os ≡ₚ os' -> NoDup (map ch_transaction_id es) -> NoDup (map ch_transaction_id os) ->
  differs es os k = differs es' os' k.
Proof. intros He Ho Hne Hno. unfold differs. by rewrite (permuted_by_id _ _ He Hne), (permuted_by_id _ _ Ho Hno). Qed.

Lemma permuted_comparison m cs ordered observed observed' : cs ≡ₚ pm_expected_children m -> NoDup (map ch_transaction_id cs) ->
  observed ≡ₚ observed' -> NoDup (map ch_transaction_id observed) ->
  compare_children (with_children m cs) ordered observed = compare_children m ordered observed'.
Proof.
  intros Hp Hn Hpo Hno. pose proof (permuted_children_NoDup _ _ Hp Hn) as Hn'. pose proof (permuted_children_NoDup _ _ Hpo Hno) as Hno'.
  pose proof (permuted_children_ids _ _ Hp) as Hids. pose proof (permuted_children_ids _ _ Hpo) as Hoids.
  unfold compare_children. cbn [pm_expected_children with_children]. rewrite !by_id_keys_of by done. rewrite !mismatched_total by done. rewrite !bind_ret.
  rewrite (permuted_hash m cs Hp Hn).
  rewrite (sorted_filter_perm (fun k => negb (in_ids k (map ch_transaction_id cs))) (fun k => negb (in_ids k (map ch_transaction_id (pm_expected_children m))))
             _ _ Hoids) by (intros x; by rewrite (in_ids_perm _ _ _ Hids)).
  rewrite (sorted_filter_perm (fun k => negb (in_ids k (map ch_transaction_id observed))) (fun k => negb (in_ids k (map ch_transaction_id observed')))
             _ _ Hids) by (intros x; by rewrite (in_ids_perm _ _ _ Hoids)).
  rewrite (sorted_filter_perm (differs cs observed) (differs (pm_expected_children m) observed') _
             (List.filter (fun k => in_ids k (map ch_transaction_id observed')) (map ch_transaction_id (pm_expected_children m)))).
  - destruct (stable_sort _ _), (stable_sort _ _), (stable_sort _ _); cbn [app]; rewrite ?permuted_readiness by done; done.
  - rewrite (filter_perm _ _ _ Hids). by erewrite List.filter_ext; [|intros x; apply (in_ids_perm x _ _ Hoids)].
  - intros k. by apply permuted_differs.
Qed.

(** C25: the order in which a manifest declares its children and the order in which they arrive do not change anything of the evaluation:
    neither its status, nor the findings, nor the execution order, nor the content hash. *)
Theorem arrival_order_irrelevant m cs observed observed' : normal_manifest m -> cs ≡ₚ pm_expected_children m -> observed ≡ₚ observed' ->
  NoDup (map ch_transaction_id cs) -> NoDup (map ch_transaction_id observed) ->
  evaluate_corporate_action_manifest_readiness (Some (with_children m cs)) observed =
  evaluate_corporate_action_manifest_readiness (Some m) observed'.
Proof.
  intros Hm Hp Hpo Hn Hno. unfold evaluate_corporate_action_manifest_readiness. rewrite (permuted_semantics m cs Hp Hn).
  change (pm_completion_declared (with_children m cs)) with (pm_completion_declared m).
  destruct (negb _); [by rewrite permuted_readiness|]. fold (graph_of m) (graph_of (with_children m cs)).
  assert (Hm' : normal_manifest (with_children m cs)) by (destruct Hm; split; cbn; by rewrite ?Hp).
  rewrite (graph_of_made m Hm), (graph_of_made _ Hm'), !bind_ret. rewrite (permuted_structure (graph_of (with_children m cs)) (graph_of m) (nm_children _ Hm') Hn Hp).
  destruct (resolve_corporate_action_event_graph _) as [plan|]; [|done]. rewrite !bind_ret.
  destruct (_ ++ semantic_findings m)%list; [|by rewrite permuted_readiness].
  rewrite (proj2 (observed_identity_nil observed) Hno), (proj2 (observed_identity_nil observed') (permuted_children_NoDup _ _ Hpo Hno)).
  by apply permuted_comparison.
Qed.
End Hashed.

(** ** A spin-off as it arrives *)

Definition example_child (id kind role : string) (dependencies : list string) (instrument source target : option string) : CorporateActionEventChild :=
  {| ch_transaction_id := id; ch_transaction_type := kind; ch_child_role := role; ch_dependency_transaction_ids := dependencies;
     ch_child_sequence_hint := None; ch_instrument_id := instrument; ch_source_instrument_id := source; ch_target_instrument_id := target |}.

Definition spin_source := example_child "OUT" "SPIN_OFF" "SOURCE_POSITION_REDUCE" [] (Some "OLD") (Some "OLD") None.
Definition spin_target := example_child "IN" "SPIN_IN" "TARGET_POSITION_ADD" ["OUT"] (Some "NEW") (Some "OLD") (Some "NEW").
Definition spin_cash := example_child "CASH" "CASH_CONSIDERATION" "CASH_CONSIDERATION" ["OUT"; "IN"] None None None.
Definition spin_tax := example_child "A-TAX" "TAX" "TAX" ["IN"; "CASH"] None None None.

Definition spin_manifest : CorporateActionParentManifest :=
  {| pm_corporate_action_event_id := "E"; pm_tenant_id := "T"; pm_legal_book_id := "B"; pm_portfolio_id := "P";
     pm_linked_transaction_group_id := "G"; pm_parent_event_reference := "R"; pm_corporate_action_type := "SPIN_OFF"; pm_version := 1;
     pm_completion_declared := true; pm_expected_children := [spin_tax; spin_cash; spin_target; spin_source];
     pm_source_reference := {| fs_source_system := "S"; fs_source_record_id := "R"; fs_source_revision := "1"; fs_source_content_hash := "";
                               fs_observed_at := {| dt_us := 0; dt_utcoffset := Some 0 |} |} |}.

Lemma spin_manifest_normal : normal_manifest spin_manifest.
Proof.
  split; [by split|by split|by split|done|done|]. repeat (apply Forall_cons_2; [split; repeat first [done|split|constructor]|]). apply Forall_nil_2.
Qed.

Lemma readiness_decided_witness :
  exists r, @evaluate_corporate_action_manifest_readiness constant_hashing (Some spin_manifest) [spin_source] = Ok r /\
    (mr_status r <> READY -> mr_ordered_children r = [] /\ mr_findings r <> []).
Proof.
  destruct (@readiness_decided constant_hashing constant_hashing_ok spin_manifest [spin_source] spin_manifest_normal) as (r & E & _ & _ & _ & _ & Hr & _).
  exists r. split; [exact E|exact Hr].
Defined.

Lemma ready_event_executes_source_first_witness :
  exists r rest, @evaluate_corporate_action_manifest_readiness constant_hashing (Some spin_manifest)
                   [spin_target; spin_source; spin_tax; spin_cash] = Ok r /\
    mr_ordered_children r = spin_source :: rest.
Proof.
  assert (E : exists r, @evaluate_corporate_action_manifest_readiness constant_hashing (Some spin_manifest)
      [spin_target; spin_source; spin_tax; spin_cash] = Ok r /\ mr_status r = READY /\
      mr_ordered_children r = [spin_source; spin_target; spin_cash; spin_tax]) by (eexists; split; [vm_compute; reflexivity|split; reflexivity]).
  destruct E as (r & E & Hr & Eo).
  destruct (@ready_event_executes_source_first constant_hashing constant_hashing_ok _ _ r spin_manifest_normal E Hr)
    as (policy & source & rest & _ & Es & _). exists r, rest. split; [exact E|]. rewrite Es. rewrite Eo in Es. by injection Es as <- <-.
Defined.

Lemma arrival_order_irrelevant_witness :
  @evaluate_corporate_action_manifest_readiness constant_hashing (Some (with_children spin_manifest [spin_source; spin_target; spin_cash; spin_tax]))
    [spin_tax; spin_source] =
  @evaluate_corporate_action_manifest_readiness constant_hashing (Some spin_manifest) [spin_source; spin_tax].
Proof.
  apply (@arrival_order_irrelevant constant_hashing constant_hashing_ok); [exact spin_manifest_normal| | | |].
  - apply (Permutation_rev [spin_source; spin_target; spin_cash; spin_tax]).
  - constructor.
  - apply (bool_decide_unpack _). by vm_compute.
  - apply (bool_decide_unpack _). by vm_compute.
Defined.
