(* ===== verification/AmortizedCost.v ===== *)
(** * Amortized book cost of fixed income

    [domain/fixed_income_book_cost]: the accounting policies ([policy.py]) and the deterministic schedule
    of a lot from its opening clean cost to its redemption value ([calculation.py]).  [Decimal.__pow__] with
    a fractional exponent is computed by the C library of the [decimal] module: it is the parameter
    [decimal_power], of which nothing is assumed. *)

From Stdlib Require Import ZArith Lia String.
From stdpp Require Import base tactics list strings.
From S2P Require Import Prelude PyDecimal PyTime Precision Lineage Lots.

#[local] Open Scope string_scope.
#[local] Open Scope Z_scope.

(** ** Policies *)

Inductive AmortizedCostMethod := EFFECTIVE_YIELD | STRAIGHT_LINE.
Inductive YieldApplicationConvention := ANNUAL_EFFECTIVE | ANNUAL_NOMINAL_SIMPLE | PER_PERIOD_EFFECTIVE.
Inductive AmortizedCostProfileStatus := ACTIVE | PARKED | INELIGIBLE | TERMINATED | SUPERSEDED.
Inductive AmortizedCostDirection := PREMIUM_AMORTIZATION | DISCOUNT_ACCRETION | AT_PAR.

#[export] Instance method_eq_dec : EqDecision AmortizedCostMethod.
Proof. solve_decision. Defined.
#[export] Instance convention_eq_dec : EqDecision YieldApplicationConvention.
Proof. solve_decision. Defined.
#[export] Instance profile_status_eq_dec : EqDecision AmortizedCostProfileStatus.
Proof. solve_decision. Defined.

Definition method_value (x : AmortizedCostMethod) : string := match x with EFFECTIVE_YIELD => "EFFECTIVE_YIELD" | STRAIGHT_LINE => "STRAIGHT_LINE" end.
Definition convention_value (x : YieldApplicationConvention) : string :=
  match x with ANNUAL_EFFECTIVE => "ANNUAL_EFFECTIVE" | ANNUAL_NOMINAL_SIMPLE => "ANNUAL_NOMINAL_SIMPLE" | PER_PERIOD_EFFECTIVE => "PER_PERIOD_EFFECTIVE" end.
Definition direction_value (x : AmortizedCostDirection) : string :=
  match x with PREMIUM_AMORTIZATION => "PREMIUM_AMORTIZATION" | DISCOUNT_ACCRETION => "DISCOUNT_ACCRETION" | AT_PAR => "AT_PAR" end.

Record AmortizedCostPolicy := {
  am_policy_id : string; am_policy_version : Z; am_method : AmortizedCostMethod;
  am_yield_application_convention : option YieldApplicationConvention; am_include_fees_in_amortized_cost : bool;
  am_residual_tolerance_local : decimal
}.

Definition finite (value : number) (field_name : string) : result decimal :=
  match value with Finite d => Ok d | _ => Raise (ValueError (field_name +:+ " must be finite")) end.

Definition make_AmortizedCostPolicy (policy_id : string) (policy_version : Z) (method : AmortizedCostMethod)
  (yield_application_convention : option YieldApplicationConvention) (include_fees : bool) (residual_tolerance_local : number)
  : result AmortizedCostPolicy :=
  _ ← raise_if (negb (truthy (strip policy_id))) (ValueError "policy_id must be nonblank");
  _ ← raise_if (policy_version <? 1) (ValueError "policy_version must be positive");
  _ ← match method, yield_application_convention with
      | EFFECTIVE_YIELD, None => Raise (ValueError "effective-yield policy requires a yield convention")
      | STRAIGHT_LINE, Some _ => Raise (ValueError "straight-line policy must not declare a yield convention")
      | _, _ => Ok tt
      end;
  tolerance ← finite residual_tolerance_local "residual_tolerance_local";
  _ ← raise_if (dltb tolerance dzero) (ValueError "residual_tolerance_local must be nonnegative");
  Ok {| am_policy_id := strip policy_id; am_policy_version := policy_version; am_method := method;
        am_yield_application_convention := yield_application_convention; am_include_fees_in_amortized_cost := include_fees;
        am_residual_tolerance_local := tolerance |}.

Definition require_nonnegative_finite (value : number) (field_name : string) : result decimal :=
  d ← finite value field_name;
  _ ← raise_if (dltb d dzero) (ValueError (field_name +:+ " must be nonnegative"));
  Ok d.

Definition classify_amortized_cost_direction (opening redemption : decimal) : result AmortizedCostDirection :=
  _ ← require_nonnegative_finite opening "opening_amortized_cost_local";
  _ ← require_nonnegative_finite redemption "redemption_value_local";
  Ok (if dltb redemption opening then PREMIUM_AMORTIZATION else if dltb opening redemption then DISCOUNT_ACCRETION else AT_PAR).

(** ** Schedule inputs and results *)

Definition AMORTIZED_COST_SCHEDULE_ALGORITHM_ID : string := "fixed-income-amortized-cost-schedule".
Definition AMORTIZED_COST_SCHEDULE_ALGORITHM_VERSION : Z := 1.

Record AmortizationPeriodInput := {
  pi_period_start_date : date; pi_period_end_date : date; pi_year_fraction : decimal; pi_cash_coupon_local : decimal;
  pi_supplied_period_rate : option decimal
}.

Definition minus_one : decimal := Dec (-1) 0.
Definition one : decimal := Dec 1 0.

Definition require_valid_rate (value : number) (field_name : string) : result decimal :=
  d ← finite value field_name;
  _ ← raise_if (dleb d minus_one) (ValueError (field_name +:+ " must be greater than negative one"));
  Ok d.

Definition optional_rate (value : option number) (field_name : string) : result (option decimal) :=
  match value with Some v => d ← require_valid_rate v field_name; Ok (Some d) | None => Ok None end.

Definition make_AmortizationPeriodInput (period_start_date period_end_date : date) (year_fraction cash_coupon_local : number)
  (supplied_period_rate : option number) : result AmortizationPeriodInput :=
  _ ← raise_if (period_end_date <=? period_start_date) (ValueError "period_end_date must be after period_start_date");
  fraction ← finite year_fraction "year_fraction";
  _ ← raise_if (dleb fraction dzero) (ValueError "year_fraction must be positive");
  coupon ← require_nonnegative_finite cash_coupon_local "cash_coupon_local";
  rate ← optional_rate supplied_period_rate "supplied_period_rate";
  Ok {| pi_period_start_date := period_start_date; pi_period_end_date := period_end_date; pi_year_fraction := fraction;
        pi_cash_coupon_local := coupon; pi_supplied_period_rate := rate |}.

Record AmortizedCostScheduleInput := {
  si_initial_clean_cost_local : decimal; si_fees_in_basis_local : decimal; si_redemption_value_local : decimal;
  si_periods : list AmortizationPeriodInput; si_annual_yield : option decimal
}.

Fixpoint contiguous (periods : list AmortizationPeriodInput) : bool :=
  match periods with
  | p :: (q :: _) as rest => (pi_period_end_date p =? pi_period_start_date q) && contiguous rest
  | _ => true
  end.

Definition make_AmortizedCostScheduleInput (initial_clean_cost_local fees_in_basis_local redemption_value_local : number)
  (periods : list AmortizationPeriodInput) (annual_yield : option number) : result AmortizedCostScheduleInput :=
  initial ← require_nonnegative_finite initial_clean_cost_local "initial_clean_cost_local";
  fees ← require_nonnegative_finite fees_in_basis_local "fees_in_basis_local";
  redemption ← require_nonnegative_finite redemption_value_local "redemption_value_local";
  _ ← raise_if (match periods with [] => true | _ => false end) (ValueError "periods must not be empty");
  _ ← raise_if (negb (contiguous periods)) (ValueError "periods must be contiguous and ordered");
  rate ← optional_rate annual_yield "annual_yield";
  Ok {| si_initial_clean_cost_local := initial; si_fees_in_basis_local := fees; si_redemption_value_local := redemption; si_periods := periods;
        si_annual_yield := rate |}.

Record AmortizationPeriodResult := {
  pr_period_start_date : date; pr_period_end_date : date; pr_year_fraction : decimal; pr_period_rate : option decimal;
  pr_begin_amortized_cost_local : decimal; pr_interest_income_local : decimal; pr_cash_coupon_local : decimal;
  pr_amortization_amount_local : decimal; pr_end_amortized_cost_local : decimal; pr_rounding_adjustment_local : decimal
}.

Record AmortizedCostScheduleResult := {
  ar_direction : AmortizedCostDirection; ar_initial_amortized_cost_local : decimal; ar_redemption_value_local : decimal;
  ar_final_amortized_cost_local : decimal; ar_residual_local : decimal; ar_periods : list AmortizationPeriodResult;
  ar_lineage : CalculationLineage
}.

(** ** Lineage payloads *)

Definition PDec (d : decimal) : payload := PDecimal (Finite d).
Definition PDecOpt (d : option decimal) : payload := match d with Some d => PDec d | None => PNone end.

Definition input_payload (policy : AmortizedCostPolicy) (inputs : AmortizedCostScheduleInput) : payload :=
  PMap [("annual_yield", PDecOpt (si_annual_yield inputs)); ("fees_in_basis_local", PDec (si_fees_in_basis_local inputs));
        ("initial_clean_cost_local", PDec (si_initial_clean_cost_local inputs));
        ("periods", PSeq (map (fun p => PMap
           [("cash_coupon_local", PDec (pi_cash_coupon_local p)); ("period_end_date", PDate (pi_period_end_date p));
            ("period_start_date", PDate (pi_period_start_date p)); ("supplied_period_rate", PDecOpt (pi_supplied_period_rate p));
            ("year_fraction", PDec (pi_year_fraction p))]) (si_periods inputs)));
        ("policy", PMap
           [("include_fees_in_amortized_cost", PBool (am_include_fees_in_amortized_cost policy)); ("method", PStr (method_value (am_method policy)));
            ("policy_id", PStr (am_policy_id policy)); ("policy_version", PInt (am_policy_version policy));
            ("residual_tolerance_local", PDec (am_residual_tolerance_local policy));
            ("yield_application_convention",
              match am_yield_application_convention policy with Some c => PStr (convention_value c) | None => PNone end)]);
        ("redemption_value_local", PDec (si_redemption_value_local inputs))].

Definition amortized_cost_schedule_output_payload (direction : AmortizedCostDirection) (initial redemption final residual : decimal)
  (periods : list AmortizationPeriodResult) : payload :=
  PMap [("direction", PStr (direction_value direction)); ("final_amortized_cost_local", PDec final);
        ("initial_amortized_cost_local", PDec initial);
        ("periods", PSeq (map (fun p => PMap
           [("amortization_amount_local", PDec (pr_amortization_amount_local p));
            ("begin_amortized_cost_local", PDec (pr_begin_amortized_cost_local p)); ("cash_coupon_local", PDec (pr_cash_coupon_local p));
            ("end_amortized_cost_local", PDec (pr_end_amortized_cost_local p)); ("interest_income_local", PDec (pr_interest_income_local p));
            ("period_end_date", PDate (pr_period_end_date p)); ("period_rate", PDecOpt (pr_period_rate p));
            ("period_start_date", PDate (pr_period_start_date p));
            ("rounding_adjustment_local", PDec (pr_rounding_adjustment_local p)); ("year_fraction", PDec (pr_year_fraction p))]) periods));
        ("redemption_value_local", PDec redemption); ("residual_local", PDec residual)].

(** ** The schedule *)

#[local] Notation policy_ := COST_BASIS_STATE_LEDGER_OUTPUT_V1.

(** The context [with numeric_policy.arithmetic_context()] sets around the schedule. *)
Definition schedule_context : context := arithmetic_context policy_.

Definition canonical_ledger_decimal (value : decimal) : result decimal := canonical_decimal (Finite value) "value".

(** [_canonical_ledger_decimal(numeric_policy.normalize(value, field_name=...))]. *)
Definition governed (value : decimal) (field_name : string) : result decimal :=
  n ← normalize policy_ (Finite value) field_name; canonical_ledger_decimal n.

Definition has_rate (p : AmortizationPeriodInput) : bool := match pi_supplied_period_rate p with Some _ => true | None => false end.

Definition validate_rate_authority (policy : AmortizedCostPolicy) (inputs : AmortizedCostScheduleInput) : result unit :=
  match am_method policy with
  | STRAIGHT_LINE =>
      raise_if (match si_annual_yield inputs with Some _ => true | None => existsb has_rate (si_periods inputs) end)
        (AmortizedCostCalculationError "straight-line schedules must not declare yield inputs")
  | EFFECTIVE_YIELD =>
      match am_yield_application_convention policy with
      | Some PER_PERIOD_EFFECTIVE =>
          _ ← raise_if (match si_annual_yield inputs with Some _ => true | None => false end)
                (AmortizedCostCalculationError "per-period-effective schedules must not declare annual_yield");
          raise_if (existsb (fun p => negb (has_rate p)) (si_periods inputs))
            (AmortizedCostCalculationError "each per-period-effective period requires supplied_period_rate")
      | _ =>
          _ ← raise_if (match si_annual_yield inputs with Some _ => false | None => true end)
                (AmortizedCostCalculationError "annual-yield schedules require annual_yield");
          raise_if (existsb has_rate (si_periods inputs))
            (AmortizedCostCalculationError "annual-yield schedules must not declare supplied_period_rate")
      end
  end.

Section Schedule.
Context `{Hashing} (decimal_power : context -> decimal -> decimal -> result decimal).

(** [try: ... except DecimalException]. *)
Definition catch_decimal {A} (m : result A) (e : exc) : result A :=
  match m with Raise (DecimalSignal _) => Raise e | _ => m end.

Definition resolve_period_rate (policy : AmortizedCostPolicy) (period : AmortizationPeriodInput) (annual_yield : option decimal) : result decimal :=
  match am_yield_application_convention policy with
  | Some PER_PERIOD_EFFECTIVE =>
      match pi_supplied_period_rate period with
      | Some rate => Ok rate
      | None => Raise (AmortizedCostCalculationError "per-period-effective period requires supplied_period_rate")
      end
  | convention =>
      match annual_yield with
      | None => Raise (AmortizedCostCalculationError "annual-yield period requires annual_yield")
      | Some y =>
          match convention with
          | Some ANNUAL_NOMINAL_SIMPLE => dmul schedule_context y (pi_year_fraction period)
          | Some ANNUAL_EFFECTIVE =>
              if dleb y minus_one then Raise (AmortizedCostCalculationError "annual effective yield must be greater than negative one") else
              catch_decimal
                (base ← dadd schedule_context one y;
                 power ← decimal_power schedule_context base (pi_year_fraction period);
                 dsub schedule_context power one)
                (AmortizedCostCalculationError "annual effective yield cannot be applied to the governed year fraction")
          | _ => Raise (AmortizedCostCalculationError "unsupported yield application convention")
          end
      end
  end.

(** The rate, the unrounded movement and the unrounded interest of a period. *)
Definition period_economics (policy : AmortizedCostPolicy) (period : AmortizationPeriodInput) (begin redemption_value : decimal)
  (annual_yield : option decimal) (remaining_weight : decimal) (is_final : bool) : result (option decimal * decimal * decimal) :=
  match am_method policy with
  | STRAIGHT_LINE =>
      difference ← dsub schedule_context redemption_value begin;
      raw_movement ← (if is_final then Ok difference else
        weighted ← dmul schedule_context difference (pi_year_fraction period); ddiv schedule_context weighted remaining_weight);
      interest ← dadd schedule_context (pi_cash_coupon_local period) raw_movement;
      Ok (None, raw_movement, interest)
  | EFFECTIVE_YIELD =>
      period_rate ← resolve_period_rate policy period annual_yield;
      interest ← dmul schedule_context begin period_rate;
      raw_movement ← dsub schedule_context interest (pi_cash_coupon_local period);
      Ok (Some period_rate, raw_movement, interest)
  end.

Definition calculate_period (policy : AmortizedCostPolicy) (period : AmortizationPeriodInput) (begin redemption_value : decimal)
  (annual_yield : option decimal) (remaining_weight : decimal) (is_final : bool) : result AmortizationPeriodResult :=
  '(period_rate, raw_movement, interest) ← period_economics policy period begin redemption_value annual_yield remaining_weight is_final;
  movement ← governed raw_movement "amortization_amount_local";
  normalized_interest ← governed interest "interest_income_local";
  normalized_coupon ← governed (pi_cash_coupon_local period) "cash_coupon_local";
  sum ← p_add policy_ begin movement "end_amortized_cost_local";
  end_ ← canonical_ledger_decimal sum;
  _ ← raise_if (dltb end_ dzero) (AmortizedCostCalculationError "end amortized cost must be nonnegative");
  earned ← dsub schedule_context normalized_interest normalized_coupon;
  difference ← dsub schedule_context movement earned;
  rounding_adjustment ← governed difference "rounding_adjustment_local";
  Ok {| pr_period_start_date := pi_period_start_date period; pr_period_end_date := pi_period_end_date period;
        pr_year_fraction := pi_year_fraction period; pr_period_rate := period_rate; pr_begin_amortized_cost_local := begin;
        pr_interest_income_local := normalized_interest; pr_cash_coupon_local := normalized_coupon; pr_amortization_amount_local := movement;
        pr_end_amortized_cost_local := end_; pr_rounding_adjustment_local := rounding_adjustment |}.

(** The loop over the periods: the rows, and the cost after the last one. *)
Fixpoint schedule_loop (policy : AmortizedCostPolicy) (redemption : decimal) (annual_yield : option decimal) (begin remaining_weight : decimal)
  (periods : list AmortizationPeriodInput) : result (list AmortizationPeriodResult * decimal) :=
  match periods with
  | [] => Ok ([], begin)
  | period :: rest =>
      row ← calculate_period policy period begin redemption annual_yield remaining_weight (match rest with [] => true | _ => false end);
      remaining_weight' ← dsub schedule_context remaining_weight (pi_year_fraction period);
      '(rows, final) ← schedule_loop policy redemption annual_yield (pr_end_amortized_cost_local row) remaining_weight' rest;
      Ok (row :: rows, final)
  end.

Definition calculate_amortized_cost_schedule (policy : AmortizedCostPolicy) (inputs : AmortizedCostScheduleInput)
  : result AmortizedCostScheduleResult :=
  _ ← validate_rate_authority policy inputs;
  let fee_basis := if am_include_fees_in_amortized_cost policy then si_fees_in_basis_local inputs else dzero in
  opening ← p_add policy_ (si_initial_clean_cost_local inputs) fee_basis "initial_amortized_cost_local";
  initial ← canonical_ledger_decimal opening;
  redemption ← governed (si_redemption_value_local inputs) "redemption_value_local";
  direction ← classify_amortized_cost_direction initial redemption;
  remaining_weight ← dsum schedule_context (map pi_year_fraction (si_periods inputs));
  '(rows, final) ← schedule_loop policy redemption (si_annual_yield inputs) initial remaining_weight (si_periods inputs);
  difference ← p_subtract policy_ redemption final "residual_local";
  residual ← canonical_ledger_decimal difference;
  magnitude ← dabs default_context residual;
  _ ← raise_if (dltb (am_residual_tolerance_local policy) magnitude)
        (AmortizedCostReconciliationError "final amortized cost does not reconcile to redemption value within tolerance");
  np ← lineage_identity policy_;
  lineage ← build_calculation_lineage AMORTIZED_COST_SCHEDULE_ALGORITHM_ID AMORTIZED_COST_SCHEDULE_ALGORITHM_VERSION
    (cp_working_precision policy_) (input_payload policy inputs)
    (amortized_cost_schedule_output_payload direction initial redemption final residual rows) (Some np);
  Ok {| ar_direction := direction; ar_initial_amortized_cost_local := initial; ar_redemption_value_local := redemption;
        ar_final_amortized_cost_local := final; ar_residual_local := residual; ar_periods := rows; ar_lineage := lineage |}.
End Schedule.
