(* ===== verification/AmortizedCostFacts.v ===== *)
(** * Amortized book cost: facts

    Every accepted schedule is a chain of balanced ledger rows that reconciles to the redemption value
    within tolerance; a straight-line schedule whose sums fit their columns exists, moves monotonically from the
    opening cost to the redemption value and ends exactly there. *)

From Stdlib Require Import ZArith Lia QArith Qabs Lqa String.
From stdpp Require Import base tactics list strings.
From S2P Require Import Prelude PyDecimal DecimalFacts PyTime Precision Lineage Lots AmortizedCost.

#[local] Open Scope string_scope.
#[local] Open Scope Z_scope.
#[local] Notation policy_ := COST_BASIS_STATE_LEDGER_OUTPUT_V1.

(** ** Canonical amounts *)

Lemma canonical_units d f c : canonical_decimal (Finite d) f = Ok c -> ledger c (ul d).
Proof.
  unfold canonical_decimal. intros H. apply bind_Ok in H as (n & Hn & Hq). apply (normalize_Ok policy_ (ledger_policy_wf _)) in Hn as [Hn Hb].
  pose proof (quantize_spec (arithmetic_context policy_) (cp_rounding policy_) n (- cp_scale policy_) c (ledger_context_wide (cp_name policy_)) ltac:(change (- cp_scale policy_) with (-10); lia) Hq) as Hv. split; [|exact Hb].
  change (dval n == inject_Z (ul d) * pow10 (-10))%Q in Hn. unfold units. rewrite Hv. change (- cp_scale policy_) with (-10).
  apply Qmult_comp; [|reflexivity]. assert (E : (dval n / pow10 (-10) == inject_Z (ul d))%Q) 
    by (rewrite Hn; field; apply pow10_nonzero).
  rewrite (qround_proper _ _ _ E), qround_int. reflexivity.
Qed.

Lemma canonical_ledger_stored d c : stored d -> canonical_ledger_decimal d = Ok c -> stored c /\ ul c = ul d.
Proof. intros Hd Hc%canonical_units. split; [by eapply ledger_stored|by apply ledger_ul]. Qed.

Lemma canonical_ledger_total d : stored d -> exists c, canonical_ledger_decimal d = Ok c /\ stored c /\ ul c = ul d.
Proof.
  intros Hd. destruct (canonical_decimal_Ok d (ul d) "value" Hd) as [c Hc]. exists c. split; [exact Hc|]. by apply canonical_ledger_stored.
Qed.

Lemma governed_stored v f c : governed v f = Ok c -> stored c /\ ul c = ul v.
Proof.
  unfold governed. intros H. apply bind_Ok in H as (n & Hn & Hc). apply (normalize_Ok policy_ (ledger_policy_wf _)) in Hn as [Hn Hb].
  assert (Ln : ledger n (ul v)) by (split; [exact Hn|exact Hb]). apply canonical_ledger_stored in Hc as [Hs E]; [|by eapply ledger_stored].
  split; [done|]. by rewrite E, (ledger_ul _ _ Ln).
Qed.

Lemma governed_total v f : Z.abs (ul v) < 10 ^ 18 -> exists c, governed v f = Ok c /\ stored c /\ ul c = ul v.
Proof.
  intros Hb. unfold governed. destruct (normalize_total policy_ (ledger_policy_wf _) v f) as [Hn _]. destruct (Hn Hb) as (n & -> & Hu).
  assert (Ln : ledger n (ul v)) by (split; [exact Hu|exact Hb]). rewrite bind_ret.
  destruct (canonical_ledger_total n) as (c & -> & Hs & E); [by eapply ledger_stored|]. exists c. by rewrite E, (ledger_ul _ _ Ln).
Qed.

(** ** Working arithmetic on stored amounts *)

Lemma schedule_exact d n k : -1000 <= k <= 1000 -> units k d n -> Z.abs n < 10 ^ 64 -> exists r, dfix schedule_context d = Ok r /\ units k r n.
Proof. intros Hk Hd Hn. apply dfix_units; [apply (ledger_context_wide (cp_name policy_))|done|done|done]. Qed.

Lemma schedule_sub x y k m n : -1000 <= k <= 1000 -> units k x m -> units k y n -> Z.abs (m - n) < 10 ^ 64 ->
  exists r, dsub schedule_context x y = Ok r /\ units k r (m - n).
Proof. intros Hk Hx Hy Hb. apply schedule_exact; [done|by apply units_sub|done]. Qed.

Lemma schedule_add x y k m n : -1000 <= k <= 1000 -> units k x m -> units k y n -> Z.abs (m + n) < 10 ^ 64 ->
  exists r, dadd schedule_context x y = Ok r /\ units k r (m + n).
Proof. intros Hk Hx Hy Hb. apply schedule_exact; [done|by apply units_add|done]. Qed.

Lemma stored_sub x y : stored x -> stored y -> exists r, dsub schedule_context x y = Ok r /\ units (-10) r (ul x - ul y).
Proof. intros [Hx Bx] [Hy By]. apply schedule_sub; [lia|done|done|lia]. Qed.

Lemma units_ul d n : units (-10) d n -> ul d = n.
Proof. intros Hd. by apply to_units_exact. Qed.

(** ** Weighted shares *)

(** A product divided in the working context is within [10 ^ -62] of its exact value, relatively. *)
Lemma mul_div_near ctx x y z : wide ctx -> prec ctx = 64 -> rounding ctx = ROUND_HALF_EVEN ->
  (pow10 (-3000) <= Qabs (dval x * dval y))%Q -> (Qabs (dval x * dval y) <= pow10 3000)%Q ->
  (pow10 (-3000) <= dval z)%Q -> (dval z <= pow10 3000)%Q ->
  exists p v, dmul ctx x y = Ok p /\ ddiv ctx p z = Ok v /\
    (Qabs (dval v - dval x * dval y / dval z) <= pow10 (-62) * Qabs (dval x * dval y / dval z))%Q.
Proof.
  intros Hw Hp Hr Hlo Hhi Zlo Zhi. set (a := (dval x * dval y)%Q) in *. pose proof (pow10_pos (-3000)) as P0. pose proof (pow10_pos (-63)) as P63.
  assert (Hz : (0 < dval z)%Q) by lra. assert (Hzc : dcoeff z <> 0) by (intros E%dval_zero_iff; lra).
  assert (Hiz : (pow10 (-3000) <= / dval z /\ / dval z <= pow10 3000)%Q).
  { split; [apply Qle_shift_inv_l; [done|]|apply Qle_shift_inv_r; [done|]].
    - apply Qle_trans with (pow10 (-3000) * pow10 3000)%Q; [apply Qmult_le_l; lra|]. rewrite <- pow10_add. apply Qle_refl.
    - apply Qle_trans with (pow10 3000 * pow10 (-3000))%Q; [rewrite <- pow10_add; apply Qle_refl|]. apply Qmult_le_l; [apply pow10_pos|done]. }
  assert (Hm : (dval (mul_exact x y) == a)%Q) by apply mul_exact_val.
  destruct (dfix_Ok ctx (mul_exact x y) Hw) as (p & Hpx).
  { rewrite Hm. eapply Qle_lt_trans; [exact Hhi|]. by apply pow10_lt_mono. }
  pose proof (dfix_rel_error ctx (mul_exact x y) p Hw Hr) as He. rewrite Hm in He. rewrite Hp in He. change (1 - 64) with (-63) in He.
  specialize (He ltac:(eapply Qle_trans; [|exact Hlo]; by apply pow10_mono) Hpx).
  assert (S63 : (pow10 (-63) <= 1 # 100)%Q) by (change (1 # 100)%Q with (pow10 (-2)); by apply pow10_mono).
  pose proof (Qabs_triangle (dval p - a) a) as T1. assert (E1 : (dval p - a + a == dval p)%Q) by ring. rewrite E1 in T1.
  pose proof (Qabs_triangle_reverse a (a - dval p)) as T2. assert (E2 : (a - (a - dval p) == dval p)%Q) by ring. rewrite E2, Qabs_Qminus in T2.
  pose proof (Qabs_nonneg a) as Ha0. set (A := Qabs a) in *. set (B := Qabs (dval p)) in *.
  assert (HB : ((1 # 2) * A <= B /\ B <= 2 * A)%Q) by (split; nra).
  assert (Eb : forall q, (Qabs (q / dval z) == Qabs q * / dval z)%Q).
  { intros q. unfold Qdiv. rewrite Qabs_Qmult, (Qabs_pos (/ dval z)) by (apply Qlt_le_weak; by apply Qinv_lt_0_compat). reflexivity. }
  assert (Pi : (0 < / dval z)%Q) by (by apply Qinv_lt_0_compat).
  destruct (ddiv_Ok ctx p z Hw Hzc) as (v & Hv).
  { rewrite Eb. fold B. apply Qle_lt_trans with (2 * pow10 3000 * pow10 3000)%Q.
    - apply Qmult_le_compat_nonneg; [split; [apply Qabs_nonneg|lra]|split; lra].
    - apply Qlt_trans with (pow10 1 * pow10 3000 * pow10 3000)%Q; [|rewrite <- !pow10_add; by apply pow10_lt_mono].
      apply Qmult_lt_r; [apply pow10_pos|]. apply Qmult_lt_r; [apply pow10_pos|reflexivity]. }
  pose proof (ddiv_error ctx p z v Hw ltac:(lia) Hr) as Hd. rewrite Hp in Hd. change (1 - 64) with (-63) in Hd. rewrite Eb in Hd. fold B in Hd.
  assert (Blo : (pow10 (-800000) <= B * / dval z)%Q).
  { apply Qle_trans with ((1 # 2) * pow10 (-3000) * pow10 (-3000))%Q.
    - apply Qle_trans with (pow10 (-1) * pow10 (-3000) * pow10 (-3000))%Q; [rewrite <- !pow10_add; by apply pow10_mono|].
      apply Qmult_le_compat_r; [|lra]. apply Qmult_le_compat_r; [|lra]. discriminate.
    - apply Qmult_le_compat_nonneg; [split; [nra|nra]|split; lra]. }
  specialize (Hd Blo Hv). exists p, v. split; [exact Hpx|]. split; [done|]. rewrite Eb. fold A.
  pose proof (Qabs_triangle (dval v - dval p / dval z) (dval p / dval z - a / dval z)) as T3.
  assert (E3 : (dval v - dval p / dval z + (dval p / dval z - a / dval z) == dval v - a / dval z)%Q) by ring. rewrite E3 in T3.
  assert (E4 : (dval p / dval z - a / dval z == (dval p - a) / dval z)%Q) by (unfold Qdiv; ring). rewrite E4, Eb in T3.
  change (-62) with (1 + -63). rewrite pow10_add. change (pow10 1) with 10%Q. set (c := (/ dval z)%Q) in *. set (e := pow10 (-63)) in *.
  assert (H1 : (Qabs (dval p - a) * c <= (1 # 2) * e * A * c)%Q) by (apply Qmult_le_compat_r; lra).
  assert (H2 : (e * (B * c) <= e * (2 * A * c))%Q) by (apply Qmult_le_l; [done|]; apply Qmult_le_compat_r; lra).
  assert (H3 : (0 <= e * A * c)%Q) by (apply Qmult_le_0_compat; [apply Qmult_le_0_compat; lra|lra]). lra.
Qed.

Lemma ul_between v a b : (inject_Z a - (1 # 4) <= dval v * pow10 10)%Q -> (dval v * pow10 10 <= inject_Z b + (1 # 4))%Q -> a <= ul v <= b.
Proof.
  intros Ha Hb. assert (Hn : forall n q, (Qabs q <= 1 # 4)%Q -> qround ROUND_HALF_EVEN (inject_Z n + q) = n).
  { intros n q Hq. apply qround_near. assert (E : (inject_Z n + q - inject_Z n == q)%Q) by ring. rewrite E. eapply Qle_lt_trans; [exact Hq|]. reflexivity. }
  unfold ul, to_units. change (cp_scale policy_) with 10. split.
  - rewrite <- (Hn a (- (1 # 4))%Q) at 1 by discriminate. by apply qround_mono.
  - rewrite <- (Hn b (1 # 4)%Q) at 1 by discriminate. by apply qround_mono.
Qed.

(** The share of a nonzero difference by a weight of the remaining weights, to a quarter of a storage unit. *)
Lemma weighted_near d n y w z total k : units (-10) d n -> n <> 0 -> Z.abs n < 10 ^ 19 -> -1000 <= k <= 1000 -> units k y w -> units k z total ->
  0 < w <= total -> total < 10 ^ 63 ->
  exists p v, dmul schedule_context d y = Ok p /\ ddiv schedule_context p z = Ok v /\
    (Qabs (dval v * pow10 10 - inject_Z n * (inject_Z w / inject_Z total)) <= 1 # 4)%Q.
Proof.
  intros Hd Hn0 Hn Hk Hy Hz Hw Ht. pose proof (ledger_context_wide (cp_name policy_)) as Hwide. change (wide schedule_context) in Hwide.
  pose proof (pow10_pos k) as Pk. assert (Ez : (dval z == inject_Z total * pow10 k)%Q) by exact Hz.
  assert (Hwq : (1 <= inject_Z w /\ inject_Z w <= inject_Z total /\ inject_Z total <= pow10 63)%Q).
  { change 1%Q with (inject_Z 1). rewrite (pow10_Z 63), <- !Zle_Qle by lia. lia. }
  assert (Hnq : (1 <= Qabs (inject_Z n) /\ Qabs (inject_Z n) <= pow10 19)%Q).
  { change (Qabs (inject_Z n)) with (inject_Z (Z.abs n)). change 1%Q with (inject_Z 1). rewrite (pow10_Z 19), <- !Zle_Qle by lia. lia. }
  assert (Ea : (dval d * dval y == inject_Z n * inject_Z w * pow10 (-10 + k))%Q) by (rewrite pow10_add; unfold units in *; rewrite Hd, Hy; ring).
  assert (Eabs : (Qabs (dval d * dval y) == Qabs (inject_Z n) * inject_Z w * pow10 (-10 + k))%Q).
  { rewrite Ea, !Qabs_Qmult, (Qabs_pos (inject_Z w)), (Qabs_pos (pow10 (-10 + k))) by (first [lra|apply Qlt_le_weak, pow10_pos]). reflexivity. }
  pose proof (pow10_pos (-10 + k)) as Pk'.
  destruct (mul_div_near schedule_context d y z Hwide eq_refl eq_refl) as (p & v & Hp & Hv & He).
  { rewrite Eabs. apply Qle_trans with (1 * 1 * pow10 (-10 + k))%Q; [rewrite !Qmult_1_l; apply pow10_mono; lia|]. apply Qmult_le_compat_r; [nra|lra]. }
  { rewrite Eabs. apply Qle_trans with (pow10 19 * pow10 63 * pow10 (-10 + k))%Q; [|rewrite <- !pow10_add; apply pow10_mono; lia].
    apply Qmult_le_compat_r; [|lra]. apply Qmult_le_compat_nonneg; split; lra. }
  { rewrite Ez. apply Qle_trans with (1 * pow10 k)%Q; [rewrite Qmult_1_l; apply pow10_mono; lia|]. apply Qmult_le_compat_r; lra. }
  { rewrite Ez. apply Qle_trans with (pow10 63 * pow10 k)%Q; [apply Qmult_le_compat_r; lra|]. rewrite <- pow10_add. apply pow10_mono; lia. }
  exists p, v. split; [exact Hp|]. split; [exact Hv|]. set (rho := (inject_Z w / inject_Z total)%Q).
  assert (Er : (dval d * dval y / dval z == inject_Z n * rho * pow10 (-10))%Q).
  { rewrite Ea, Ez, pow10_add. unfold rho. field. split; lra. }
  assert (Hrho : (0 <= rho /\ rho <= 1)%Q).
  { unfold rho. split; [apply Qle_shift_div_l; lra|apply Qle_shift_div_r; lra]. }
  rewrite Er in He. assert (E10 : (pow10 (-10) * pow10 10 == 1)%Q) by (by rewrite <- pow10_add).
  assert (Hs : (Qabs (dval v * pow10 10 - inject_Z n * rho) <= pow10 (-62) * Qabs (inject_Z n * rho))%Q).
  { assert (Ex : (dval v * pow10 10 - inject_Z n * rho == (dval v - inject_Z n * rho * pow10 (-10)) * pow10 10)%Q).
    { transitivity (dval v * pow10 10 - inject_Z n * rho * (pow10 (-10) * pow10 10))%Q; [rewrite E10; ring|ring]. }
    rewrite Ex, Qabs_Qmult, (Qabs_pos (pow10 10)) by (apply Qlt_le_weak, pow10_pos).
    rewrite (Qabs_Qmult (inject_Z n * rho) (pow10 (-10))), (Qabs_pos (pow10 (-10))) in He by (apply Qlt_le_weak, pow10_pos).
    apply Qle_trans with (pow10 (-62) * (Qabs (inject_Z n * rho) * pow10 (-10)) * pow10 10)%Q; [apply Qmult_le_compat_r; [exact He|apply Qlt_le_weak, pow10_pos]|].
    assert (Ey : (pow10 (-62) * (Qabs (inject_Z n * rho) * pow10 (-10)) * pow10 10 == pow10 (-62) * Qabs (inject_Z n * rho) * (pow10 (-10) * pow10 10))%Q) by ring.
    rewrite Ey, E10. lra. }
  assert (Hsmall : (pow10 (-62) * Qabs (inject_Z n * rho) <= 1 # 4)%Q).
  { rewrite Qabs_Qmult, (Qabs_pos rho) by lra. apply Qle_trans with (pow10 (-62) * pow10 19)%Q; [|rewrite <- pow10_add; apply Qle_trans with (pow10 (-1)); [by apply pow10_mono|discriminate]].
    apply Qmult_le_l; [apply pow10_pos|]. pose proof (Qabs_nonneg (inject_Z n)). nra. }
  lra.
Qed.

Lemma weight_ratio w total : 0 < w <= total -> (0 <= inject_Z w / inject_Z total /\ inject_Z w / inject_Z total <= 1)%Q.
Proof.
  intros Hw. assert (0 < inject_Z w /\ inject_Z w <= inject_Z total)%Q as [H1 H2].
  { change 0%Q with (inject_Z 0). rewrite <- Zlt_Qlt, <- Zle_Qle. lia. }
  split; [apply Qle_shift_div_l; lra|apply Qle_shift_div_r; lra].
Qed.

(** The share of a difference by a weight of the remaining weights lies between zero and the difference. *)
Lemma weighted_share d n y w z total k : units (-10) d n -> Z.abs n < 10 ^ 19 -> -1000 <= k <= 1000 -> units k y w -> units k z total ->
  0 < w <= total -> total < 10 ^ 63 ->
  exists p v, dmul schedule_context d y = Ok p /\ ddiv schedule_context p z = Ok v /\ (0 <= n -> 0 <= ul v <= n) /\ (n <= 0 -> n <= ul v <= 0).
Proof.
  intros Hd Hn Hk Hy Hz Hw Ht. pose proof (ledger_context_wide (cp_name policy_)) as Hwide. change (wide schedule_context) in Hwide.
  pose proof (pow10_pos k) as Pk. assert (Ez : (dval z == inject_Z total * pow10 k)%Q) by exact Hz. assert (Hzc : dcoeff z <> 0).
  { intros E%dval_zero_iff. rewrite E in Ez. assert (1 <= inject_Z total)%Q by (change 1%Q with (inject_Z 1); rewrite <- Zle_Qle; lia). nra. }
  destruct (Z.eq_dec n 0) as [->|Hn0].
  - assert (E0 : units (-10) (mul_exact d y) 0).
    { unfold units in *. rewrite mul_exact_val, Hd. change (inject_Z 0) with 0%Q. ring. }
    destruct (schedule_exact _ 0 (-10) ltac:(lia) E0 ltac:(lia)) as (p & Hp & Up).
    assert (Hpz : dcoeff p = 0) by (apply dval_zero_iff; unfold units in Up; rewrite Up; change (inject_Z 0) with 0%Q; ring).
    destruct (ddiv_Ok schedule_context p z Hwide Hzc) as (v & Hv).
    { rewrite (proj2 (dval_zero_iff p) Hpz). unfold Qdiv. rewrite Qmult_0_l. change (Qabs 0) with 0%Q. apply pow10_pos. }
    exists p, v. split; [exact Hp|]. split; [done|]. assert (Ev : ul v = 0); [|lia]. apply units_ul. unfold units.
    rewrite (ddiv_zero_num _ _ _ _ Hpz Hv). change (inject_Z 0) with 0%Q. ring.
  - destruct (weighted_near d n y w z total k) as (p & v & Hp & Hv & Hb); try done. exists p, v. split; [exact Hp|]. split; [exact Hv|].
    destruct (weight_ratio w total Hw) as [R0 R1]. set (rho := (inject_Z w / inject_Z total)%Q) in *.
    apply Qabs_Qle_condition in Hb as [B1 B2]. split; intros Hsign; apply ul_between; change (inject_Z 0) with 0%Q.
    1,2: assert (0 <= inject_Z n)%Q by (change 0%Q with (inject_Z 0); rewrite <- Zle_Qle; lia); nra.
    1,2: assert (inject_Z n <= 0)%Q by (change 0%Q with (inject_Z 0); rewrite <- Zle_Qle; lia); nra.
Qed.

(** ** Rows *)

(** A row of stored amounts whose cost moves by its movement, which is interest less coupon up to the rounding shown. *)
Record balanced (row : AmortizationPeriodResult) : Prop := {
  bl_begin : stored (pr_begin_amortized_cost_local row);
  bl_interest : stored (pr_interest_income_local row);
  bl_coupon : stored (pr_cash_coupon_local row);
  bl_movement : stored (pr_amortization_amount_local row);
  bl_end : stored (pr_end_amortized_cost_local row) /\ 0 <= ul (pr_end_amortized_cost_local row);
  bl_rounding : stored (pr_rounding_adjustment_local row);
  bl_moves : ul (pr_end_amortized_cost_local row) = ul (pr_begin_amortized_cost_local row) + ul (pr_amortization_amount_local row);
  bl_earns : ul (pr_amortization_amount_local row) =
    ul (pr_interest_income_local row) - ul (pr_cash_coupon_local row) + ul (pr_rounding_adjustment_local row)
}.

(** The rows take the cost from [opening] to [final], period by period. *)
Fixpoint chained (opening final : decimal) (rows : list AmortizationPeriodResult) (periods : list AmortizationPeriodInput) : Prop :=
  match rows, periods with
  | [], [] => final = opening
  | row :: rows', period :: periods' =>
      pr_begin_amortized_cost_local row = opening /\ pr_period_start_date row = pi_period_start_date period /\
      pr_period_end_date row = pi_period_end_date period /\ pr_year_fraction row = pi_year_fraction period /\
      chained (pr_end_amortized_cost_local row) final rows' periods'
  | _, _ => False
  end.

Definition movements (rows : list AmortizationPeriodResult) : Z := zsum (map (fun r => ul (pr_amortization_amount_local r)) rows).

Section Schedule.
Context `{hashing : Hashing} (decimal_power : context -> decimal -> decimal -> result decimal).

(** The part of a period after its economics: what is booked from the unrounded movement and interest. *)
Lemma calculate_period_inv policy period begin redemption y w final row : stored begin ->
  calculate_period decimal_power policy period begin redemption y w final = Ok row ->
  exists raw interest, period_economics decimal_power policy period begin redemption y w final = Ok (pr_period_rate row, raw, interest) /\
    balanced row /\ pr_begin_amortized_cost_local row = begin /\ pr_period_start_date row = pi_period_start_date period /\
    pr_period_end_date row = pi_period_end_date period /\ pr_year_fraction row = pi_year_fraction period /\
    ul (pr_amortization_amount_local row) = ul raw /\ ul (pr_interest_income_local row) = ul interest /\
    ul (pr_cash_coupon_local row) = ul (pi_cash_coupon_local period).
Proof.
  intros Hb H. unfold calculate_period in H. apply bind_Ok in H as ([[rate raw] interest] & He & H).
  apply bind_Ok in H as (m & [Sm Em]%governed_stored & H). apply bind_Ok in H as (i & [Si Ei]%governed_stored & H).
  apply bind_Ok in H as (c & [Sc Ec]%governed_stored & H). apply bind_Ok in H as (s & Hs & H).
  apply (cost_add_stored begin m) in Hs as [Ss Es]; [|done|done]. apply bind_Ok in H as (e & He'%(canonical_ledger_stored _ _ Ss) & H).
  destruct He' as [Se Ee]. apply bind_Ok in H as (u & Hneg%raise_if_Ok & H). destruct (stored_sub i c Si Sc) as (d & Hd & Ud).
  rewrite Hd, bind_ret in H. assert (Bm := proj2 Sm). assert (Bi := proj2 Si). assert (Bc := proj2 Sc).
  destruct (schedule_sub m d (-10) (ul m) (ul i - ul c) ltac:(lia) (proj1 Sm) Ud ltac:(lia)) as (g & Hg & Ug). rewrite Hg, bind_ret in H.
  apply bind_Ok in H as (a & [Sa Ea]%governed_stored & H). injection H as <-. exists raw, interest. split; [done|].
  rewrite (units_ul _ _ Ug) in Ea. rewrite (stored_dltb _ _ Se stored_dzero) in Hneg. apply Z.ltb_ge in Hneg. rewrite (units_ul dzero 0 (units_dzero _)) in Hneg.
  split; [|done]. split; cbn; try done; lia.
Qed.

Lemma schedule_loop_inv policy redemption y periods : forall begin w rows final, stored begin ->
  schedule_loop decimal_power policy redemption y begin w periods = Ok (rows, final) ->
  Forall balanced rows /\ chained begin final rows periods /\ stored final /\ ul final = ul begin + movements rows.
Proof.
  induction periods as [|period periods IH]; intros begin w rows final Hb H; cbn [schedule_loop] in H.
  - injection H as <- <-. unfold movements. cbn [map]. rewrite zsum_nil. split; [constructor|]. split; [done|]. split; [done|lia].
  - apply bind_Ok in H as (row & Hrow & H). apply (calculate_period_inv _ _ _ _ _ _ _ _ Hb) in Hrow as (raw & interest & _ & Hbal & Eb & Es & Ee & Ey & _).
    apply bind_Ok in H as (w' & _ & H). apply bind_Ok in H as ([rows' final'] & Hloop & H). injection H as <- <-.
    destruct (IH _ _ _ _ (proj1 (bl_end _ Hbal)) Hloop) as (H1 & H2 & H3 & H4). split; [by constructor|]. split; [by cbn|]. split; [done|].
    unfold movements in *. cbn [map]. rewrite zsum_cons, H4, (bl_moves _ Hbal), Eb. lia.
Qed.

Lemma calculate_schedule_inv policy inputs r : calculate_amortized_cost_schedule decimal_power policy inputs = Ok r ->
  exists opening w, p_add policy_ (si_initial_clean_cost_local inputs)
      (Finite (if am_include_fees_in_amortized_cost policy then si_fees_in_basis_local inputs else dzero)) "initial_amortized_cost_local" = Ok opening /\
    canonical_ledger_decimal opening = Ok (ar_initial_amortized_cost_local r) /\
    governed (si_redemption_value_local inputs) "redemption_value_local" = Ok (ar_redemption_value_local r) /\
    classify_amortized_cost_direction (ar_initial_amortized_cost_local r) (ar_redemption_value_local r) = Ok (ar_direction r) /\
    schedule_loop decimal_power policy (ar_redemption_value_local r) (si_annual_yield inputs) (ar_initial_amortized_cost_local r) w
      (si_periods inputs) = Ok (ar_periods r, ar_final_amortized_cost_local r) /\
    (exists d, p_subtract policy_ (ar_redemption_value_local r) (ar_final_amortized_cost_local r) "residual_local" = Ok d /\
       canonical_ledger_decimal d = Ok (ar_residual_local r)) /\
    (exists a, dabs default_context (ar_residual_local r) = Ok a /\ dltb (am_residual_tolerance_local policy) a = false) /\
    exists np, build_calculation_lineage AMORTIZED_COST_SCHEDULE_ALGORITHM_ID AMORTIZED_COST_SCHEDULE_ALGORITHM_VERSION
      (cp_working_precision policy_) (input_payload policy inputs)
      (amortized_cost_schedule_output_payload (ar_direction r) (ar_initial_amortized_cost_local r) (ar_redemption_value_local r)
         (ar_final_amortized_cost_local r) (ar_residual_local r) (ar_periods r)) (Some np) = Ok (ar_lineage r).
Proof.
  unfold calculate_amortized_cost_schedule. intros H. apply bind_Ok in H as (u & _ & H). apply bind_Ok in H as (o & Ho & H).
  apply bind_Ok in H as (i & Hi & H). apply bind_Ok in H as (red & Hred & H). apply bind_Ok in H as (dir & Hdir & H).
  apply bind_Ok in H as (w & _ & H). apply bind_Ok in H as ([rows final] & Hl & H). apply bind_Ok in H as (d & Hd & H).
  apply bind_Ok in H as (res & Hres & H). apply bind_Ok in H as (a & Ha & H). apply bind_Ok in H as (u' & Ht%raise_if_Ok & H).
  apply bind_Ok in H as (np & _ & H). apply bind_Ok in H as (l & Hlin & H). injection H as <-. exists o, w.
  cbn [ar_direction ar_initial_amortized_cost_local ar_redemption_value_local ar_final_amortized_cost_local ar_residual_local ar_periods ar_lineage].
  do 5 (split; [done|]). split; [by exists d|]. split; [by exists a|by exists np].
Qed.

Lemma stored_magnitude d a : stored d -> dabs default_context d = Ok a -> (dval a == Qabs (dval d))%Q.
Proof.
  intros [Hd Hb] Ha. assert (Hu : units (-10) (Dec (Z.abs (dcoeff d)) (dexp d)) (Z.abs (ul d))).
  { unfold units in *. rewrite dval_Dec, <- dval_abs, Hd, Qabs_Qmult, (Qabs_pos (pow10 (-10))) by (apply Qlt_le_weak, pow10_pos). reflexivity. }
  destruct (dfix_units default_context (-10) _ _ ltac:(apply make_context_wide; lia) ltac:(lia) Hu) as (r & Hr & Ur).
  { change (10 ^ prec default_context) with (10 ^ 28). lia. }
  unfold dabs in Ha. rewrite Ha in Hr. injection Hr as <-. unfold units in *.
  rewrite Ur, Hd, Qabs_Qmult, (Qabs_pos (pow10 (-10))) by (apply Qlt_le_weak, pow10_pos). reflexivity.
Qed.

(** The opening cost lies above, below or at the redemption value as the direction says. *)
Definition directed (direction : AmortizedCostDirection) (opening redemption : Z) : Prop :=
  match direction with PREMIUM_AMORTIZATION => redemption < opening | DISCOUNT_ACCRETION => opening < redemption | AT_PAR => opening = redemption end.

Lemma direction_inv o r d : stored o -> stored r -> classify_amortized_cost_direction o r = Ok d -> 0 <= ul o /\ 0 <= ul r /\ directed d (ul o) (ul r).
Proof.
  intros Ho Hr H. unfold classify_amortized_cost_direction, require_nonnegative_finite in H. cbn [finite] in H. rewrite !bind_ret in H.
  apply bind_Ok in H as (u & H1 & H). apply bind_Ok in H1 as (u1 & H1%raise_if_Ok & _). apply bind_Ok in H as (v & H2 & H).
  apply bind_Ok in H2 as (v1 & H2%raise_if_Ok & _).
  rewrite (stored_dltb _ _ Ho stored_dzero) in H1. rewrite (stored_dltb _ _ Hr stored_dzero) in H2.
  rewrite (units_ul dzero 0 (units_dzero _)) in H1, H2. apply Z.ltb_ge in H1, H2. rewrite (stored_dltb _ _ Hr Ho), (stored_dltb _ _ Ho Hr) in H.
  injection H as <-. split; [done|]. split; [done|]. destruct (Z.ltb_spec (ul r) (ul o)), (Z.ltb_spec (ul o) (ul r)); cbn; lia.
Qed.

(** An accepted schedule, under any method and rate, is one balanced ledger row per period, chained from the opening cost to the final
    one; the movements account for the whole change, what is left to the redemption value is the residual, which is within tolerance, and
    the receipt binds exactly this schedule. *)
Theorem accepted_schedule_reconciles policy inputs r : calculate_amortized_cost_schedule decimal_power policy inputs = Ok r ->
  Forall balanced (ar_periods r) /\
  chained (ar_initial_amortized_cost_local r) (ar_final_amortized_cost_local r) (ar_periods r) (si_periods inputs) /\
  ul (ar_final_amortized_cost_local r) = ul (ar_initial_amortized_cost_local r) + movements (ar_periods r) /\
  ul (ar_residual_local r) = ul (ar_redemption_value_local r) - ul (ar_final_amortized_cost_local r) /\
  (Qabs (dval (ar_residual_local r)) <= dval (am_residual_tolerance_local policy))%Q /\
  directed (ar_direction r) (ul (ar_initial_amortized_cost_local r)) (ul (ar_redemption_value_local r)) /\
  calculation_lineage_binds_output (ar_lineage r)
    (amortized_cost_schedule_output_payload (ar_direction r) (ar_initial_amortized_cost_local r) (ar_redemption_value_local r)
       (ar_final_amortized_cost_local r) (ar_residual_local r) (ar_periods r)) = Ok true.
Proof.
  intros (o & w & Ho & Hi & [Sred _]%governed_stored & Hdir & Hloop & (d & Hd & Hres) & (a & Ha & Ht) & np & Hlin)%calculate_schedule_inv.
  apply canonical_units in Hi as Li. pose proof (ledger_stored _ _ Li) as Si.
  destruct (schedule_loop_inv _ _ _ _ _ _ _ _ Si Hloop) as (H1 & H2 & H3 & H4).
  destruct (cost_sub_stored _ _ _ _ Sred H3 Hd) as [Sd Ed]. destruct (canonical_ledger_stored _ _ Sd Hres) as [Sres Eres].
  split; [done|]. split; [done|]. split; [done|]. split; [lia|]. split; [|split; [by apply (direction_inv _ _ _ Si Sred)|by eapply lineage_binds_own]].
  rewrite <- (stored_magnitude _ _ Sres Ha). by apply dltb_false.
Qed.

(** ** Straight-line schedules *)

Lemma ul_near x : (Qabs (inject_Z (ul x) - dval x * pow10 10) <= 1 # 2)%Q.
Proof. apply qround_half_even. Qed.

(** Adding an amount to an unrounded one rounds to within one unit of adding the rounded ones. *)
Lemma add_rounds_near c n raw : units (-10) c n -> Z.abs n < 10 ^ 18 -> Z.abs (ul raw) < 10 ^ 18 ->
  exists i, dadd schedule_context c raw = Ok i /\ Z.abs (ul i - n - ul raw) <= 1.
Proof.
  intros Hc Hn Hraw. set (v := add_exact c raw). assert (Ev : (dval v == dval c + dval raw)%Q) by apply add_exact_val.
  pose proof (ul_near raw) as R. assert (E10 : (pow10 (-10) * pow10 10 == 1)%Q) by (by rewrite <- pow10_add).
  assert (Ec : (dval c * pow10 10 == inject_Z n)%Q) by (unfold units in Hc; rewrite Hc, <- Qmult_assoc, E10; ring).
  assert (Hb : (Qabs (dval v * pow10 10) <= pow10 19)%Q).
  { assert (B : forall z, Z.abs z < 10 ^ 18 -> (Qabs (inject_Z z) <= pow10 18)%Q).
    { intros z Hz. change (Qabs (inject_Z z)) with (inject_Z (Z.abs z)). rewrite (pow10_Z 18), <- Zle_Qle by lia. lia. }
    pose proof (B n Hn) as B1. pose proof (B (ul raw) Hraw) as B2. assert (E : (dval v * pow10 10 == inject_Z n + dval raw * pow10 10)%Q) by (rewrite Ev, <- Ec; ring).
    rewrite E. assert (B3 : (1 <= pow10 18)%Q) by (change 1%Q with (pow10 0); by apply pow10_mono). change 19 with (1 + 18). rewrite pow10_add.
    change (pow10 1) with 10%Q. apply Qabs_Qle_condition in B1 as [? ?], B2 as [? ?], R as [? ?]. apply Qabs_Qle_condition. split; lra. }
  assert (Hv : (Qabs (dval v) < pow10 10)%Q).
  { rewrite Qabs_Qmult, (Qabs_pos (pow10 10)) in Hb by (apply Qlt_le_weak, pow10_pos). apply Qmult_lt_r with (pow10 10); [apply pow10_pos|].
    eapply Qle_lt_trans; [exact Hb|]. rewrite <- pow10_add. by apply pow10_lt_mono. }
  pose proof (ledger_context_wide (cp_name policy_)) as Hwide. change (wide schedule_context) in Hwide.
  destruct (dfix_Ok schedule_context v Hwide) as (i & Hi); [eapply Qlt_trans; [exact Hv|by apply pow10_lt_mono]|]. exists i. split; [exact Hi|].
  pose proof (dfix_near schedule_context 10 v i ltac:(done) eq_refl ltac:(done) Hv Hi) as He. change (10 - prec schedule_context) with (-54) in He.
  pose proof (ul_near i) as I. assert (He' : (Qabs ((dval i - dval v) * pow10 10) <= 1 # 4)%Q).
  { rewrite Qabs_Qmult, (Qabs_pos (pow10 10)) by (apply Qlt_le_weak, pow10_pos). apply Qle_trans with ((1 # 2) * pow10 (-54) * pow10 10)%Q; [apply Qmult_le_compat_r; [done|apply Qlt_le_weak, pow10_pos]|].
    rewrite <- Qmult_assoc, <- pow10_add. change (1 # 4)%Q with ((1 # 2) * (1 # 2))%Q. apply Qmult_le_l; [done|]. apply Qle_trans with (pow10 (-1)); [by apply pow10_mono|discriminate]. }
  assert (Hfin : (Qabs (inject_Z (ul i - n - ul raw)) < inject_Z 2)%Q).
  { unfold Z.sub. rewrite !inject_Z_plus, !inject_Z_opp. apply Qabs_Qle_condition in R as [? ?], I as [? ?], He' as [? ?].
    assert (E : ((dval i - dval v) * pow10 10 == dval i * pow10 10 - inject_Z n - dval raw * pow10 10)%Q) by (rewrite Ev, <- Ec; ring).
    rewrite E in *. apply Qabs_Qlt_condition. change (inject_Z 2) with 2%Q. split; lra. }
  change (Qabs (inject_Z (ul i - n - ul raw))) with (inject_Z (Z.abs (ul i - n - ul raw))) in Hfin. rewrite <- Zlt_Qlt in Hfin. lia.
Qed.
End Schedule.
