(* ===== verification/AmortizedStraightLine.v ===== *)
(** * Straight-line amortized cost

    A straight-line schedule of stored amounts exists where its sums fit their columns: its cost moves
    monotonically from the opening cost towards the redemption value and ends exactly there. *)

From Stdlib Require Import ZArith Lia QArith Qabs Lqa String.
From stdpp Require Import base tactics list strings.
From S2P Require Import Prelude PyDecimal DecimalFacts PyTime Precision Lineage Lots AmortizedCost AmortizedCostFacts.

#[local] Open Scope string_scope.
#[local] Open Scope Z_scope.
#[local] Notation policy_ := COST_BASIS_STATE_LEDGER_OUTPUT_V1.

(** The cost of a row moves towards [goal], and not past it; interest is coupon plus movement to one unit. *)
Definition towards (goal : Z) (row : AmortizationPeriodResult) : Prop :=
  (ul (pr_begin_amortized_cost_local row) <= goal -> ul (pr_begin_amortized_cost_local row) <= ul (pr_end_amortized_cost_local row) <= goal) /\
  (goal <= ul (pr_begin_amortized_cost_local row) -> goal <= ul (pr_end_amortized_cost_local row) <= ul (pr_begin_amortized_cost_local row)) /\
  Z.abs (ul (pr_rounding_adjustment_local row)) <= 1.

(** A period with a stored coupon, no rate, and a year fraction of [w] units of [10 ^ k]; the coupon and a movement of [span] fit one column. *)
Definition weighed (k span : Z) (p : AmortizationPeriodInput) (w : Z) : Prop :=
  units k (pi_year_fraction p) w /\ 0 < w /\ stored (pi_cash_coupon_local p) /\ 0 <= ul (pi_cash_coupon_local p) /\
  ul (pi_cash_coupon_local p) + span + 1 < 10 ^ 18 /\ pi_supplied_period_rate p = None.

Section StraightLine.
Context (decimal_power : context -> decimal -> decimal -> result decimal).
Context (policy : AmortizedCostPolicy) (Hmethod : am_method policy = STRAIGHT_LINE).
Context (redemption : decimal) (Sred : stored redemption) (Bred : 0 <= ul redemption) (span : Z).
#[local] Notation goal := (ul redemption).

(** The movement of a period, before it is rounded: a share of what is left, all of it at the end. *)
Lemma straight_economics k p w begin remaining total final y : -1000 <= k <= 1000 -> weighed k span p w ->
  stored begin -> 0 <= ul begin -> Z.abs (goal - ul begin) <= span -> units k remaining total -> w <= total -> total < 10 ^ 63 ->
  exists raw interest, period_economics decimal_power policy p begin redemption y remaining final = Ok (None, raw, interest) /\
    (0 <= goal - ul begin -> 0 <= ul raw <= goal - ul begin) /\ (goal - ul begin <= 0 -> goal - ul begin <= ul raw <= 0) /\
    (final = true -> ul raw = goal - ul begin) /\ Z.abs (ul interest - ul (pi_cash_coupon_local p) - ul raw) <= 1.
Proof.
  intros Hk (Hw & Pw & Sc & Bc & Bs & _) Sb Bb Hspan Hrem Hle Ht. unfold period_economics. rewrite Hmethod.
  destruct (stored_sub redemption begin Sred Sb) as (d & -> & Ud). rewrite bind_ret.
  assert (Hraw : exists raw, (if final then Ok d else weighted ← dmul schedule_context d (pi_year_fraction p); ddiv schedule_context weighted remaining) = Ok raw /\
    (0 <= goal - ul begin -> 0 <= ul raw <= goal - ul begin) /\ (goal - ul begin <= 0 -> goal - ul begin <= ul raw <= 0) /\
    (final = true -> ul raw = goal - ul begin)).
  { destruct final.
    - exists d. rewrite (units_ul _ _ Ud). split; [done|]. lia.
    - destruct (weighted_share d _ (pi_year_fraction p) w remaining total k Ud ltac:(lia) Hk Hw Hrem ltac:(lia) Ht) as (q & v & Hq & Hv & H1 & H2).
      exists v. rewrite Hq, bind_ret. split; [done|]. split; [done|]. split; [done|done]. }
  destruct Hraw as (raw & -> & H1 & H2 & H3). rewrite bind_ret.
  destruct (add_rounds_near (pi_cash_coupon_local p) (ul (pi_cash_coupon_local p)) raw (proj1 Sc) (proj2 Sc)) as (i & -> & Hi); [lia|].
  rewrite bind_ret. exists raw, i. done.
Qed.

(** Booking a period from amounts that fit their columns succeeds. *)
Lemma book_period p begin y remaining final rate raw interest : stored begin -> stored (pi_cash_coupon_local p) ->
  period_economics decimal_power policy p begin redemption y remaining final = Ok (rate, raw, interest) ->
  Z.abs (ul raw) < 10 ^ 18 -> Z.abs (ul interest) < 10 ^ 18 -> 0 <= ul begin + ul raw < 10 ^ 18 ->
  Z.abs (ul raw - (ul interest - ul (pi_cash_coupon_local p))) < 10 ^ 18 ->
  exists row, calculate_period decimal_power policy p begin redemption y remaining final = Ok row.
Proof.
  intros Sb Sc He Hm Hi Hend Hadj. unfold calculate_period. rewrite He, bind_ret.
  destruct (governed_total raw "amortization_amount_local" Hm) as (m & -> & Sm & Em). rewrite bind_ret.
  destruct (governed_total interest "interest_income_local" Hi) as (i & -> & Si & Ei). rewrite bind_ret.
  destruct (governed_total (pi_cash_coupon_local p) "cash_coupon_local" (proj2 Sc)) as (c & -> & Sc' & Ec). rewrite bind_ret.
  destruct (cost_add_total begin m "end_amortized_cost_local" Sb Sm ltac:(lia)) as (s & -> & Ss & Es). rewrite bind_ret.
  destruct (canonical_ledger_total s Ss) as (e & -> & Se & Ee). rewrite bind_ret.
  rewrite (stored_dltb _ _ Se stored_dzero), (units_ul dzero 0 (units_dzero _)), (proj2 (Z.ltb_ge _ _)) by lia. cbn [raise_if]. rewrite bind_ret.
  destruct (stored_sub i c Si Sc') as (d & -> & Ud). rewrite bind_ret. assert (Bm := proj2 Sm). assert (Bi := proj2 Si). assert (Bc := proj2 Sc').
  destruct (schedule_sub m d (-10) (ul m) (ul i - ul c) ltac:(lia) (proj1 Sm) Ud ltac:(lia)) as (g & -> & Ug). rewrite bind_ret.
  destruct (governed_total g "rounding_adjustment_local") as (a & -> & _); [rewrite (units_ul _ _ Ug); lia|]. by eexists.
Qed.

Lemma straight_period k p w begin remaining total final y : -1000 <= k <= 1000 -> weighed k span p w ->
  stored begin -> 0 <= ul begin -> Z.abs (goal - ul begin) <= span -> units k remaining total -> w <= total -> total < 10 ^ 63 ->
  exists row, calculate_period decimal_power policy p begin redemption y remaining final = Ok row /\ towards goal row /\
    stored (pr_end_amortized_cost_local row) /\ 0 <= ul (pr_end_amortized_cost_local row) /\ Z.abs (goal - ul (pr_end_amortized_cost_local row)) <= span /\
    (final = true -> ul (pr_end_amortized_cost_local row) = goal).
Proof.
  intros Hk Hp Sb Bb Hspan Hrem Hle Ht.
  destruct (straight_economics k p w begin remaining total final y Hk Hp Sb Bb Hspan Hrem Hle Ht) as (raw & interest & He & H1 & H2 & H3 & H4).
  destruct Hp as (_ & _ & Sc & Bc & Bs & _). pose proof (proj2 Sred) as Br. pose proof (proj2 Sb) as Bb'.
  destruct (book_period p begin y remaining final None raw interest Sb Sc He) as (row & Hrow); [lia..|]. exists row. split; [done|].
  destruct (calculate_period_inv _ _ _ _ _ _ _ _ _ Sb Hrow) as (raw' & interest' & He' & Hbal & Eb & _ & _ & _ & Em & Ei & Ec).
  rewrite He in He'. injection He' as _ <- <-. pose proof (bl_moves _ Hbal) as Hmv. pose proof (bl_earns _ Hbal) as Hea. unfold towards. rewrite Eb in *.
  split; [lia|]. split; [apply (bl_end _ Hbal)|]. split; [lia|]. split; [lia|]. intros E. specialize (H3 E). lia.
Qed.

Lemma straight_loop k ps ws : Forall2 (weighed k span) ps ws -> -1000 <= k <= 1000 -> zsum ws < 10 ^ 63 -> forall begin remaining y,
  stored begin -> 0 <= ul begin -> Z.abs (goal - ul begin) <= span -> units k remaining (zsum ws) ->
  exists rows final, schedule_loop decimal_power policy redemption y begin remaining ps = Ok (rows, final) /\
    Forall (towards goal) rows /\ stored final /\ (ps <> [] -> ul final = goal).
Proof.
  induction 1 as [|p w ps ws Hp Hps IH]; intros Hk Ht begin remaining y Sb Bb Hspan Hrem; cbn [schedule_loop].
  - exists [], begin. split; [done|]. split; [constructor|]. done.
  - rewrite zsum_cons in *. assert (Hpos : 0 <= zsum ws).
    { apply zsum_nonneg. clear -Hps. induction Hps as [|? ? ? ? (_ & ? & _)]; constructor; [lia|done]. }
    pose proof Hp as (Hw & Pw & _).
    destruct (straight_period k p w begin remaining (w + zsum ws) (match ps with [] => true | _ => false end) y Hk Hp Sb Bb Hspan Hrem ltac:(lia) Ht)
      as (row & -> & Htow & Send & Bend & Bspan & Hfin). rewrite bind_ret.
    destruct (schedule_sub remaining (pi_year_fraction p) k (w + zsum ws) w Hk Hrem Hw ltac:(lia)) as (remaining' & -> & Hrem'). rewrite bind_ret.
    replace (w + zsum ws - w) with (zsum ws) in Hrem' by lia.
    destruct (IH Hk ltac:(lia) _ _ y Send Bend Bspan Hrem') as (rows & final & E & HF & Sf & Hf). rewrite E, bind_ret. exists (row :: rows), final.
    split; [done|]. split; [by constructor|]. split; [done|]. intros _. destruct ps as [|p' ps]; [|by apply Hf].
    cbn in E. injection E as <- <-. by apply Hfin.
Qed.
End StraightLine.

(** ** The whole schedule *)

Lemma dsum_units k xs ws : Forall2 (fun x w => units k x w /\ 0 < w) xs ws -> -1000 <= k <= 1000 -> forall acc n, units k acc n -> 0 <= n ->
  n + zsum ws < 10 ^ 63 -> exists r, foldM (dadd schedule_context) acc xs = Ok r /\ units k r (n + zsum ws).
Proof.
  intros H Hk. induction H as [|x w xs ws [Hx Pw] Hxs IH]; intros acc n Ha Hn Ht; cbn [foldM].
  - exists acc. rewrite zsum_nil, Z.add_0_r. done.
  - rewrite zsum_cons in *. assert (0 <= zsum ws).
    { apply zsum_nonneg. clear -Hxs. induction Hxs as [|? ? ? ? [_ ?]]; constructor; [lia|done]. }
    destruct (schedule_add acc x k n w Hk Ha Hx ltac:(lia)) as (acc' & -> & Ha'). rewrite bind_ret.
    destruct (IH acc' (n + w) Ha' ltac:(lia) ltac:(lia)) as (r & -> & Hr). exists r. split; [done|]. by replace (n + (w + zsum ws)) with (n + w + zsum ws) by lia.
Qed.

(** Where the schedule starts: the clean cost, with the fees if the policy includes them. *)
Definition opening_cost (policy : AmortizedCostPolicy) (inputs : AmortizedCostScheduleInput) : Z :=
  ul (si_initial_clean_cost_local inputs) + (if am_include_fees_in_amortized_cost policy then ul (si_fees_in_basis_local inputs) else 0).

(** Inputs of stored amounts that fit their columns also where they are added: the opening cost, and each coupon with the whole movement from
    the opening cost to the redemption value.  The year fractions are multiples of one power of ten and add up exactly in the working precision. *)
Record straight_line_inputs (policy : AmortizedCostPolicy) (inputs : AmortizedCostScheduleInput) (k : Z) (ws : list Z) : Prop := {
  sl_clean : stored (si_initial_clean_cost_local inputs) /\ 0 <= ul (si_initial_clean_cost_local inputs);
  sl_fees : stored (si_fees_in_basis_local inputs) /\ 0 <= ul (si_fees_in_basis_local inputs);
  sl_opening : opening_cost policy inputs < 10 ^ 18;
  sl_redemption : stored (si_redemption_value_local inputs) /\ 0 <= ul (si_redemption_value_local inputs);
  sl_no_yield : si_annual_yield inputs = None;
  sl_scale : -1000 <= k <= 1000;
  sl_some : si_periods inputs <> [];
  sl_periods : Forall2 (weighed k (Z.abs (ul (si_redemption_value_local inputs) - opening_cost policy inputs))) (si_periods inputs) ws;
  sl_total : zsum ws < 10 ^ 63
}.

Lemma no_rates k span ps ws : Forall2 (weighed k span) ps ws -> existsb has_rate ps = false.
Proof. induction 1 as [|p w ps ws (_ & _ & _ & _ & _ & E) _ IH]; [done|]. cbn. unfold has_rate at 1. by rewrite E, IH. Qed.

Lemma direction_total o r : stored o -> stored r -> 0 <= ul o -> 0 <= ul r -> exists d, classify_amortized_cost_direction o r = Ok d.
Proof.
  intros So Sr Bo Br. unfold classify_amortized_cost_direction, require_nonnegative_finite. cbn [finite]. rewrite !bind_ret.
  rewrite (stored_dltb _ _ So stored_dzero), (stored_dltb _ _ Sr stored_dzero), (units_ul dzero 0 (units_dzero _)), !(proj2 (Z.ltb_ge _ _)) by lia.
  cbn [raise_if]. rewrite !bind_ret. by eexists.
Qed.

Lemma optional_decimal_ok d : is_ok (normalize_lineage_value (PDecOpt d)) = true.
Proof. by destruct d. Qed.

(** Payloads of dates, texts and finite decimals can always be written. *)
Ltac write_payload :=
  first [ reflexivity | assumption | apply optional_decimal_ok | apply normalize_map_ok; write_entries
        | apply normalize_seq_ok, Forall_forall; intros ? (? & -> & _)%list_elem_of_fmap; write_payload ]
with write_entries := repeat (apply Forall_cons_2; [split; [reflexivity|cbn [snd]; write_payload]|]); apply Forall_nil_2.

Lemma input_payload_ok policy inputs : is_ok (normalize_lineage_value (input_payload policy inputs)) = true.
Proof. unfold input_payload. destruct (am_yield_application_convention policy); write_payload. Qed.

Lemma output_payload_ok d i r f s rows : is_ok (normalize_lineage_value (amortized_cost_schedule_output_payload d i r f s rows)) = true.
Proof. unfold amortized_cost_schedule_output_payload. write_payload. Qed.

(** A cost that has reached the redemption value leaves no residual. *)
Lemma schedule_residual_total tolerance red final : stored red -> stored final -> ul final = ul red -> (0 <= dval tolerance)%Q ->
  exists d res a, p_subtract policy_ red final "residual_local" = Ok d /\ canonical_ledger_decimal d = Ok res /\ ul res = 0 /\
    dabs default_context res = Ok a /\ dltb tolerance a = false.
Proof.
  intros Sred Sfin E Htol. destruct (cost_sub_total red final "residual_local" Sred Sfin ltac:(lia)) as (d & Hd & Sd & Ed).
  destruct (canonical_ledger_total d Sd) as (res & Hres & Sres & Eres).
  destruct (dfix_Ok default_context (Dec (Z.abs (dcoeff res)) (dexp res)) ltac:(apply make_context_wide; lia)) as (a & Ha).
  { rewrite dval_Dec, <- dval_abs, (Qabs_pos (Qabs (dval res))) by apply Qabs_nonneg.
    eapply Qlt_trans; [apply (ledger_val_bound res _ Sres)|by apply pow10_lt_mono]. }
  change (dabs default_context res = Ok a) in Ha. exists d, res, a. do 2 (split; [done|]). split; [lia|]. split; [done|].
  apply dltb_false. rewrite (stored_magnitude _ _ Sres Ha). assert (E0 : (dval res == 0)%Q); [|by rewrite E0].
  destruct Sres as [Ures _]. unfold units in Ures. rewrite Ures. replace (ul res) with 0 by lia. change (inject_Z 0) with 0%Q. ring.
Qed.

Section Whole.
Context `{hashing : Hashing} {hashing_ok : HashingOk} (decimal_power : context -> decimal -> decimal -> result decimal).

(** C40: a straight-line schedule of stored amounts is always computed where its amounts fit the columns they are written to, that is when the
    opening cost does and every coupon does together with the whole movement from the opening cost to the redemption value, and when the year
    fractions add up exactly in the working precision.  It starts at the clean cost, with the fees if the policy includes them, moves in every
    period towards the redemption value and not past it, and ends exactly there, with no residual. *)
Theorem straight_line_reaches_redemption policy inputs k ws : am_method policy = STRAIGHT_LINE ->
  (0 <= dval (am_residual_tolerance_local policy))%Q -> straight_line_inputs policy inputs k ws ->
  exists r, calculate_amortized_cost_schedule decimal_power policy inputs = Ok r /\
    ul (ar_initial_amortized_cost_local r) = opening_cost policy inputs /\
    Forall (towards (ul (si_redemption_value_local inputs))) (ar_periods r) /\
    ul (ar_final_amortized_cost_local r) = ul (si_redemption_value_local inputs) /\ ul (ar_residual_local r) = 0.
Proof.
  intros Hm Htol [[Scl Bcl] [Sf Bf] Bo [Sr Br] Hy Hk Hne Hps Htot]. unfold calculate_amortized_cost_schedule, validate_rate_authority.
  rewrite Hm, Hy, (no_rates _ _ _ _ Hps). unfold opening_cost in *. cbn [raise_if]. rewrite bind_ret.
  set (fee := if am_include_fees_in_amortized_cost policy then si_fees_in_basis_local inputs else dzero).
  assert (Hfee : stored fee /\ ul fee = (if am_include_fees_in_amortized_cost policy then ul (si_fees_in_basis_local inputs) else 0)).
  { unfold fee. destruct (am_include_fees_in_amortized_cost policy); [done|]. split; [apply stored_dzero|]. apply (units_ul dzero 0 (units_dzero _)). }
  destruct Hfee as [Sfee Efee]. rewrite <- Efee in *. assert (Bfee : 0 <= ul fee) by (rewrite Efee; destruct (am_include_fees_in_amortized_cost policy); lia).
  destruct (cost_add_total (si_initial_clean_cost_local inputs) fee "initial_amortized_cost_local" Scl Sfee ltac:(lia)) as (o & -> & So & Eo). rewrite bind_ret.
  destruct (canonical_ledger_total o So) as (i & -> & Si & Ei). rewrite bind_ret.
  destruct (governed_total (si_redemption_value_local inputs) "redemption_value_local" (proj2 Sr)) as (red & -> & Sred & Ered). rewrite bind_ret.
  destruct (direction_total i red Si Sred ltac:(lia) ltac:(lia)) as (dir & ->). rewrite bind_ret.
  destruct (dsum_units k (map pi_year_fraction (si_periods inputs)) ws) with (acc := dzero) (n := 0) as (total & Hsum & Utot); [|done|apply units_dzero|lia|lia|].
  { clear -Hps. induction Hps as [|p w ps ws' (H1 & H2 & _) _ IH]; constructor; done. }
  unfold dsum. rewrite Hsum, bind_ret.
  destruct (straight_loop decimal_power policy Hm red Sred ltac:(lia) _ k _ ws Hps Hk Htot i total None Si ltac:(lia) ltac:(lia) Utot) as (rows & final & -> & Hrows & Sfin & Hfin).
  rewrite bind_ret. specialize (Hfin Hne). destruct (schedule_residual_total (am_residual_tolerance_local policy) red final Sred Sfin Hfin Htol) as (d & res & a & -> & Hres & Eres & Ha & Hle).
  rewrite bind_ret, Hres, bind_ret, Ha, bind_ret.
  rewrite Hle. cbn [raise_if]. rewrite bind_ret. destruct cost_policy_identity as (np & ->). rewrite bind_ret.
  destruct (build_calculation_lineage_total AMORTIZED_COST_SCHEDULE_ALGORITHM_ID AMORTIZED_COST_SCHEDULE_ALGORITHM_VERSION (cp_working_precision policy_)
    (input_payload policy inputs) (amortized_cost_schedule_output_payload dir i red final res rows) (Some np)) as (l & ->);
    [done|done|done|apply input_payload_ok|apply output_payload_ok|].
  rewrite bind_ret. eexists. split; [reflexivity|]. cbn [ar_initial_amortized_cost_local ar_periods ar_final_amortized_cost_local ar_residual_local].
  rewrite <- Ered. split; [lia|]. split; [done|]. lia.
Qed.
End Whole.

(** ** A discount bond *)

Definition no_power : context -> decimal -> decimal -> result decimal := fun _ _ _ => Raise (DecimalSignal InvalidOperation).

Definition bond_policy : AmortizedCostPolicy :=
  {| am_policy_id := "STRAIGHT"; am_policy_version := 1; am_method := STRAIGHT_LINE; am_yield_application_convention := None;
     am_include_fees_in_amortized_cost := true; am_residual_tolerance_local := dzero |}.

Definition bond_period (start end_ : date) : AmortizationPeriodInput :=
  {| pi_period_start_date := start; pi_period_end_date := end_; pi_year_fraction := Dec 5 (-1); pi_cash_coupon_local := dint 2;
     pi_supplied_period_rate := None |}.

Definition bond_inputs : AmortizedCostScheduleInput :=
  {| si_initial_clean_cost_local := dint 95; si_fees_in_basis_local := dint 1; si_redemption_value_local := dint 100;
     si_periods := [bond_period 19700 19882; bond_period 19882 20065]; si_annual_yield := None |}.

Lemma straight_line_reaches_redemption_witness :
  exists r, @calculate_amortized_cost_schedule constant_hashing no_power bond_policy bond_inputs = Ok r /\
    ul (ar_final_amortized_cost_local r) = 100 * 10 ^ 10 /\ ul (ar_residual_local r) = 0.
Proof.
  assert (Hp : forall s e, weighed (-1) (4 * 10 ^ 10) (bond_period s e) 5).
  { intros s e. split; [reflexivity|]. split; [lia|]. split; [apply stored_dint; lia|]. split; [vm_compute; congruence|]. split; [vm_compute|]; reflexivity. }
  destruct (@straight_line_reaches_redemption constant_hashing constant_hashing_ok no_power bond_policy bond_inputs (-1) [5; 5]) as (r & Er & _ & _ & Ef & Es).
  - reflexivity.
  - discriminate.
  - split; try (split; [apply stored_dint; lia|vm_compute; congruence]); try reflexivity; try lia; try discriminate.
    constructor; [apply Hp|]. constructor; [apply Hp|constructor].
  - exists r. split; [exact Er|]. split; [rewrite Ef; reflexivity|exact Es].
Defined.

(** The bounds are those of the code: a coupon and a movement that fit their columns can have a sum that does not. *)
Example interest_beyond_its_column :
  @calculate_amortized_cost_schedule constant_hashing no_power bond_policy
    {| si_initial_clean_cost_local := dint 10000000; si_fees_in_basis_local := dzero; si_redemption_value_local := dint 60000000;
       si_periods := [{| pi_period_start_date := 100; pi_period_end_date := 465; pi_year_fraction := dint 1; pi_cash_coupon_local := dint 60000000;
                         pi_supplied_period_rate := None |}]; si_annual_yield := None |} =
  Raise (DecimalPrecisionError "interest_income_local" MAGNITUDE_OVERFLOW (policy_id policy_)).
Proof. vm_compute. reflexivity. Qed.

Lemma accepted_schedule_reconciles_witness :
  exists r, @calculate_amortized_cost_schedule constant_hashing no_power bond_policy bond_inputs = Ok r /\
    movements (ar_periods r) = 4 * 10 ^ 10 /\ Forall balanced (ar_periods r).
Proof.
  assert (E : exists r, @calculate_amortized_cost_schedule constant_hashing no_power bond_policy bond_inputs = Ok r) by (eexists; vm_compute; reflexivity).
  destruct E as (r & Er). exists r. destruct (@accepted_schedule_reconciles constant_hashing no_power bond_policy bond_inputs r Er) as (Hb & _ & Hm & _).
  split; [exact Er|]. split; [|exact Hb]. vm_compute in Er. injection Er as <-. reflexivity.
Defined.
