(* ===== verification/SourceVersions.v ===== *)
(** * Versioned source records

    [domain/source_versions.py]: the latest correction of each source record, and what every authority built
    on it shares.  An assignment, a fact or a price comes from a source record that may be corrected; of the
    corrections the one with the highest version counts.  [SourceRecord] is the interface of such records; the
    facts of this file are proved against it and used by each authority. *)

From Stdlib Require Import ZArith Lia String.
From stdpp Require Import base tactics list sorting sets strings.
From S2P Require Import Prelude PyTime.

#[local] Open Scope string_scope.
#[local] Open Scope Z_scope.

(** ** The ranking *)

Section Ranking.
Context {A K : Type} `{EqDecision K}.
Context (source_record_key : A -> K) (source_version : A -> Z) (record_eqb : A -> A -> bool) (conflicting_version_error : exc).

Definition rank_record (versions_by_source : list (K * list (Z * A))) (record : A) : result (list (K * list (Z * A))) :=
  let key := source_record_key record in
  let version := source_version record in
  let versions := od_get_default [] key versions_by_source in
  _ ← raise_if (match od_get version versions with Some existing => negb (record_eqb record existing) | None => false end)
        conflicting_version_error;
  Ok (od_set key (od_set version record versions) versions_by_source).

Definition max_version (versions : list Z) : option Z := match versions with [] => None | v :: vs => Some (foldl Z.max v vs) end.

(** [versions[max(versions)]]. *)
Definition latest_version (versions : list (Z * A)) : result A :=
  match max_version (map fst versions) with
  | None => Raise (ValueError "max() iterable argument is empty")
  | Some v => match od_get v versions with Some record => Ok record | None => Raise (KeyError "version") end
  end.

Definition latest_source_versions (records : list A) : result (list A) :=
  versions_by_source ← foldM rank_record [] records;
  mapR (fun e => latest_version (snd e)) versions_by_source.
End Ranking.

(** ** The interface of versioned, dated records

    The identity of a record is the scope it speaks about, the system it comes from and its identifier there.
    [record_eqb] is Python's [==] of two records. *)
Class SourceRecord (A S : Type) := {
  record_scope : A -> S; record_system : A -> string; record_id : A -> string; record_version : A -> Z;
  record_from : A -> date; record_to : A -> option date; record_active : A -> bool; record_eqb : A -> A -> bool
}.

(** [valid_from <= date and (valid_to is None or valid_to >= date)]. *)
Definition within_window (valid_from : date) (valid_to : option date) (effective_date : date) : bool :=
  (valid_from <=? effective_date) && match valid_to with None => true | Some t => effective_date <=? t end.

Section Records.
Context {A S : Type} `{EqDecision S} `{SourceRecord A S}.

Definition record_key (a : A) : S * string * string := (record_scope a, record_system a, record_id a).
Definition in_scope (scope : S) (a : A) : bool := bool_decide (record_scope a = scope).
Definition effective_on (d : date) (a : A) : bool := record_active a && within_window (record_from a) (record_to a) d.

Definition latest_records (conflict : exc) : list A -> result (list A) :=
  latest_source_versions record_key record_version record_eqb conflict.

(** The records of a scope that are latest, active and effective on a date. *)
Definition effective_records (conflict : exc) (records : list A) (scope : S) (d : date) : result (list A) :=
  latest ← latest_records conflict (List.filter (in_scope scope) records);
  Ok (List.filter (effective_on d) latest).

(** [active_by_scope.setdefault(scope, []).append(record)]. *)
Definition group_active (by_scope : list (S * list A)) (a : A) : list (S * list A) :=
  if record_active a then od_set (record_scope a) (od_get_default [] (record_scope a) by_scope ++ [a])%list by_scope else by_scope.

Definition window_compare (tie : A -> A -> comparison) (a b : A) : comparison :=
  lex (Z.compare (record_from a) (record_from b))
    (lex (Z.compare (default date_max (record_to a)) (default date_max (record_to b))) (tie a b)).

(** [for previous, current in zip(ordered, ordered[1:])]. *)
Fixpoint adjacent_overlap (ordered : list A) : bool :=
  match ordered with
  | previous :: ((current :: _) as rest) =>
      match record_to previous with None => true | Some t => record_from current <=? t end || adjacent_overlap rest
  | _ => false
  end.

Definition validate_windows (tie : A -> A -> comparison) (overlapping : S -> exc) (latest : list A) : result unit :=
  _ ← mapR (fun e => raise_if (adjacent_overlap (stable_sort (leb_of (window_compare tie)) (snd e))) (overlapping (fst e)))
        (foldl group_active [] latest);
  Ok tt.
End Records.

(** ** Facts of the ranking *)

Lemma foldM_app {A B} (f : A -> B -> result A) a xs ys : foldM f a (xs ++ ys)%list = (b ← foldM f a xs; foldM f b ys).
Proof. revert a. induction xs as [|x xs IH]; intros a; [done|]. cbn [app foldM]. destruct (f a x); [apply IH|done]. Qed.

Lemma max_version_spec vs v : max_version vs = Some v -> v ∈ vs /\ forall w, w ∈ vs -> w <= v.
Proof.
  assert (G : forall vs a, (foldl Z.max a vs = a \/ foldl Z.max a vs ∈ vs) /\ a <= foldl Z.max a vs /\ forall w, w ∈ vs -> w <= foldl Z.max a vs).
  { clear. intros vs. induction vs as [|w vs IH]; intros a; cbn [foldl]; [split; [by left|]; split; [lia|by intros w ?%elem_of_nil]|].
    destruct (IH (Z.max a w)) as (H1 & H2 & H3). split.
    - destruct H1 as [->|H1]; [|right; by right]. destruct (Z.max_spec a w) as [[_ ->]|[_ ->]]; [right; by left|by left].
    - split; [lia|]. intros u [->|Hu]%elem_of_cons; [lia|]. by apply H3. }
  destruct vs as [|a vs]; [done|]. intros [= <-]. destruct (G vs a) as (H1 & H2 & H3). split.
  - destruct H1 as [->|H1]; [by left|by right].
  - intros w [->|Hw]%elem_of_cons; [done|by apply H3].
Qed.

Section RankingFacts.
Context {A K : Type} `{EqDecision K} (key : A -> K) (version : A -> Z) (eqb : A -> A -> bool) (e : exc).
#[local] Notation rank := (rank_record key version eqb e).
#[local] Notation latest := (latest_source_versions key version eqb e).

(** The versions kept for one key: no version twice, and the entries come from the records. *)
Definition kept (rs : list A) (entry : K * list (Z * A)) : Prop :=
  snd entry <> [] /\ NoDup (snd entry).*1 /\ forall v r, (v, r) ∈ snd entry -> r ∈ rs /\ key r = fst entry /\ version r = v.

Record ranked (rs : list A) (d : list (K * list (Z * A))) : Prop := {
  rd_keys : NoDup d.*1;
  rd_kept : Forall (kept rs) d;
  rd_all : forall r, r ∈ rs -> exists vs, od_get (key r) d = Some vs /\ version r ∈ vs.*1
}.

Lemma elem_of_od_set {V L} `{EqDecision L} k v (d : list (L * V)) x : x ∈ od_set k v d -> x = (k, v) \/ x ∈ d.
Proof.
  induction d as [|[k' v'] d IH]; cbn [od_set]; [intros ->%list_elem_of_singleton; by left|]. case_decide as E.
  - subst. intros [->|Hx]%elem_of_cons; [by left|]. right. by right.
  - intros [->|Hx]%elem_of_cons; [right; by left|]. destruct (IH Hx); [by left|]. right. by right.
Qed.

Lemma od_set_nonempty {V L} `{EqDecision L} k v (d : list (L * V)) : od_set k v d <> [].
Proof. destruct d as [|[k' v'] d]; cbn [od_set]; [done|]. by case_decide. Qed.

Lemma kept_mono rs rs' x : (forall r, r ∈ rs -> r ∈ rs') -> kept rs x -> kept rs' x.
Proof. intros Hs (H1 & H2 & H3). split; [done|]. split; [done|]. intros v r Hr. destruct (H3 v r Hr) as (? & ? & ?). auto. Qed.

Lemma od_default_kept rs d k : ranked rs d -> od_get_default [] k d = [] \/ kept rs (k, od_get_default [] k d).
Proof.
  intros [_ Hk _]. unfold od_get_default. destruct (od_get k d) as [vs|] eqn:E; [|by left]. right. cbn.
  apply od_get_elem in E. exact (proj1 (Forall_forall _ _) Hk _ E).
Qed.

Lemma rank_Ok d r d' : rank d r = Ok d' -> d' = od_set (key r) (od_set (version r) r (od_get_default [] (key r) d)) d.
Proof. unfold rank_record. intros (u & _ & [= <-])%bind_Ok. reflexivity. Qed.

Lemma rank_ranked rs d r d' : ranked rs d -> rank d r = Ok d' -> ranked (rs ++ [r]) d'.
Proof.
  intros Hr ->%rank_Ok. pose proof (od_default_kept rs d (key r) Hr) as Hd. set (vs := od_get_default [] (key r) d) in *.
  assert (Hvs : NoDup vs.*1 /\ forall v x, (v, x) ∈ vs -> x ∈ rs /\ key x = key r /\ version x = v).
  { destruct Hd as [->|(_ & H1 & H2)]; [|done]. split; [constructor|]. by intros v x ?%elem_of_nil. }
  destruct Hvs as [Hnd Hin]. destruct Hr as [K1 K2 K3]. split.
  - by apply od_set_NoDup.
  - apply Forall_forall. intros x [->|Hx]%elem_of_od_set.
    + split; [apply od_set_nonempty|]. split; [by apply od_set_NoDup|]. cbn [fst snd]. intros v y [[= -> ->]|Hy]%elem_of_od_set; [split; [set_solver|done]|].
      destruct (Hin v y Hy) as (? & ? & ?). split; [set_solver|done].
    + eapply kept_mono; [|exact (proj1 (Forall_forall _ _) K2 x Hx)]. set_solver.
  - intros x [Hx|Hx]%elem_of_app.
    + destruct (K3 x Hx) as (ws & Hw & Hv). destruct (decide (key x = key r)) as [E|E].
      * rewrite E, od_get_set. eexists. split; [done|]. rewrite od_set_keys. unfold vs, od_get_default. rewrite <- E, Hw. cbn [default from_option id].
        case_decide; [done|]. set_solver.
      * rewrite od_get_set_ne by done. eauto.
    + apply list_elem_of_singleton in Hx as ->. rewrite od_get_set. eexists. split; [done|]. rewrite od_set_keys. case_decide; set_solver.
Qed.

Lemma fold_ranked rs1 rs d d' : ranked rs1 d -> foldM rank d rs = Ok d' -> ranked (rs1 ++ rs) d'.
Proof.
  revert rs1 d. induction rs as [|r rs IH]; intros rs1 d Hd; cbn [foldM]; [intros [= <-]; by rewrite app_nil_r|].
  intros (d1 & H1 & H2)%bind_Ok. replace (rs1 ++ r :: rs)%list with ((rs1 ++ [r]) ++ rs)%list by (by rewrite <- app_assoc).
  eapply IH; [|exact H2]. by eapply rank_ranked.
Qed.

Lemma ranked_nil : ranked [] [].
Proof. split; [constructor|constructor|by intros r ?%elem_of_nil]. Qed.

Lemma latest_version_spec rs x : kept rs x -> exists r, latest_version (snd x) = Ok r /\ r ∈ rs /\ key r = fst x /\ forall v, v ∈ (snd x).*1 -> v <= version r.
Proof.
  intros (Hne & Hnd & Hin). unfold latest_version. destruct (max_version (map fst (snd x))) as [v|] eqn:Ev.
  - apply max_version_spec in Ev as [Hv Hmax]. change (map fst (snd x)) with (snd x).*1 in Hv, Hmax. apply list_elem_of_fmap in Hv as ([v' r] & E & Hr). cbn in E. subst v'.
    rewrite (od_get_of_elem _ _ _ Hnd Hr). exists r. destruct (Hin v r Hr) as (H1 & H2 & H3). rewrite H3. done.
  - destruct (snd x); done.
Qed.

Lemma latest_all d rs : Forall (kept rs) d -> exists l, mapR (fun x => latest_version (snd x)) d = Ok l /\ map key l = d.*1.
Proof.
  induction 1 as [|x d Hx _ (l & Hl & Hk)]; [by exists []|]. destruct (latest_version_spec rs x Hx) as (r & Hr & _ & Hrk & _).
  exists (r :: l). cbn [mapR]. rewrite Hr, bind_ret, Hl, bind_ret. split; [done|]. cbn. by rewrite Hrk, Hk.
Qed.

(** Ranking fails only on a conflict. *)
Lemma latest_cases rs : (exists d l, foldM rank [] rs = Ok d /\ ranked rs d /\ mapR (fun x => latest_version (snd x)) d = Ok l /\ latest rs = Ok l /\ map key l = d.*1) \/
  foldM rank [] rs = Raise e /\ latest rs = Raise e.
Proof.
  unfold latest_source_versions. destruct (foldM rank [] rs) as [d|e'] eqn:Ef.
  - left. pose proof (fold_ranked [] rs [] d ranked_nil Ef) as Hd. destruct (latest_all d rs (rd_kept _ _ Hd)) as (l & Hl & Hk).
    exists d, l. rewrite bind_ret. done.
  - right. assert (e' = e); [|by subst]. clear -Ef. revert Ef. generalize ([] : list (K * list (Z * A))). induction rs as [|r rs IH]; intros d; cbn [foldM]; [done|].
    destruct (rank d r) as [d'|e1] eqn:Er; [apply IH|]. cbn. intros [= <-]. revert Er. unfold rank_record, raise_if.
    destruct (match od_get _ _ with Some _ => _ | None => _ end); cbn; [by intros [= <-]|done].
Qed.

(** The latest records: one per key, and none has a later version. *)
Lemma latest_spec rs l : latest rs = Ok l ->
  NoDup (map key l) /\ (forall x, x ∈ l -> x ∈ rs /\ forall r, r ∈ rs -> key r = key x -> version r <= version x) /\
  (forall r, r ∈ rs -> key r ∈ map key l).
Proof.
  intros Hl. destruct (latest_cases rs) as [(d & l' & Hf & Hd & Hm & Hl' & Hk)|[_ E]]; [|congruence]. assert (l' = l) by congruence. subst l'. clear Hl'.
  destruct Hd as [K1 K2 K3]. rewrite Hk. split; [done|]. split.
  - intros x Hx. apply mapR_Forall2 in Hm. destruct (Forall2_elem_of_r _ _ _ _ Hm Hx) as (y & Hy & Ey).
    pose proof (proj1 (Forall_forall _ _) K2 y Hy) as Ky. destruct (latest_version_spec rs y Ky) as (r & Er & Hr & Hrk & Hmax).
    assert (r = x) by congruence. subst r. split; [done|]. intros s Hs Es. destruct (K3 s Hs) as (vs & Hg & Hv). apply Hmax.
    rewrite Es, Hrk in Hg. destruct y as [k ws]. cbn [fst snd] in *. rewrite (od_get_of_elem _ _ _ K1 Hy) in Hg. congruence.
  - intros r Hr. destruct (K3 r Hr) as (vs & Hg & _). apply od_get_elem in Hg. apply list_elem_of_fmap. by exists (key r, vs).
Qed.

(** ** Selecting keys *)

Section Selection.
Context (Q : K -> bool).

Definition select {V} (d : list (K * V)) : list (K * V) := List.filter (fun x => Q (fst x)) d.
Definition selected (r : A) : bool := Q (key r).

Lemma od_get_select {V} k (d : list (K * V)) : Q k = true -> od_get k (select d) = od_get k d.
Proof.
  intros Hk. induction d as [|[k' v] d IH]; [done|]. unfold select in *. cbn [List.filter fst od_get]. destruct (Q k') eqn:E; cbn [od_get].
  - by rewrite IH.
  - rewrite IH. case_decide; [subst; congruence|done].
Qed.

Lemma select_od_set {V} k v (d : list (K * V)) : select (od_set k v d) = if Q k then od_set k v (select d) else select d.
Proof.
  induction d as [|[k' v'] d IH]; unfold select in *; cbn [od_set List.filter fst]; [by destruct (Q k)|]. case_decide as E.
  - subst k'. cbn [List.filter fst]. destruct (Q k) eqn:Ek; [|done]. cbn [od_set]. by rewrite decide_True.
  - cbn [List.filter fst]. rewrite IH. destruct (Q k) eqn:Ek, (Q k') eqn:Ek'; try done. cbn [od_set]. by rewrite decide_False.
Qed.

Lemma rank_select d r : selected r = true ->
  rank (select d) r = match rank d r with Ok d' => Ok (select d') | Raise x => Raise x end.
Proof.
  unfold selected. intros Hr. unfold rank_record, od_get_default. rewrite (od_get_select _ d Hr). destruct (raise_if _ e) as [[]|x]; [|done].
  cbn. by rewrite select_od_set, Hr.
Qed.

Lemma fold_select rs d : foldM rank d rs <> Raise e ->
  foldM rank (select d) (List.filter selected rs) = match foldM rank d rs with Ok d' => Ok (select d') | Raise x => Raise x end.
Proof.
  revert d. induction rs as [|r rs IH]; intros d; cbn [foldM List.filter]; [done|]. destruct (rank d r) as [d'|x] eqn:Er; cbn.
  - intros Hne. destruct (selected r) eqn:Es.
    + cbn [foldM]. rewrite (rank_select d r Es), Er. cbn. by apply IH.
    + rewrite <- IH by done. f_equal. apply rank_Ok in Er as ->. rewrite select_od_set. unfold selected in Es. by rewrite Es.
  - intros Hne. exfalso. apply Hne. f_equal. revert Er. unfold rank_record, raise_if.
    destruct (match od_get _ _ with Some _ => _ | None => _ end); cbn; [by intros [= <-]|done].
Qed.

Lemma mapR_select d rs l : Forall (kept rs) d -> mapR (fun x => latest_version (snd x)) d = Ok l ->
  mapR (fun x => latest_version (snd x)) (select d) = Ok (List.filter selected l).
Proof.
  intros Hk. revert l. induction Hk as [|x d Hx _ IH]; intros l; cbn [mapR]; [by intros [= <-]|].
  intros (r & Hr & (l' & Hl & [= <-])%bind_Ok)%bind_Ok. destruct (latest_version_spec rs x Hx) as (r' & Er & _ & Ek & _).
  assert (r' = r) by congruence. subst r'. cbn [List.filter]. unfold select, selected in *. cbn [List.filter]. rewrite Ek.
  destruct (Q (fst x)); [|by apply IH]. cbn [mapR]. rewrite Hr, bind_ret, (IH l' Hl), bind_ret. reflexivity.
Qed.

(** Choosing records by their key commutes with the ranking. *)
Lemma latest_select rs l : latest rs = Ok l -> latest (List.filter selected rs) = Ok (List.filter selected l).
Proof.
  intros Hl. destruct (latest_cases rs) as [(d & l' & Hf & Hd & Hm & Hl' & _)|[_ E]]; [|congruence]. assert (l' = l) by congruence. subst l'.
  unfold latest_source_versions. change (@nil (K * list (Z * A))) with (select (@nil (K * list (Z * A)))). rewrite fold_select by congruence.
  rewrite Hf. change (select (@nil (K * list (Z * A)))) with (@nil (K * list (Z * A))). rewrite bind_ret. by eapply mapR_select, Hm; apply Hd.
Qed.
End Selection.

(** A conflict is found among the records of its own key. *)
Lemma conflict_select rs : latest rs = Raise e -> exists r, r ∈ rs /\ forall Q, Q (key r) = true -> latest (List.filter (selected Q) rs) = Raise e.
Proof.
  intros Hl. destruct (latest_cases rs) as [(d & l' & _ & _ & _ & Hl' & _)|[Hf _]]; [congruence|]. clear Hl.
  assert (G : forall d, foldM rank d rs = Raise e -> exists r, r ∈ rs /\ forall Q, Q (key r) = true -> foldM rank (select Q d) (List.filter (selected Q) rs) = Raise e).
  { clear. induction rs as [|r rs IH]; intros d; cbn [foldM]; [done|]. destruct (rank d r) as [d'|x] eqn:Er; cbn.
    - intros Hf. destruct (IH d' Hf) as (r' & Hr & HQ). exists r'. split; [by right|]. intros Q Hq. specialize (HQ Q Hq). cbn [List.filter].
      destruct (selected Q r) eqn:Es.
      + cbn [foldM]. by rewrite (rank_select Q d r Es), Er.
      + rewrite <- HQ. f_equal. apply rank_Ok in Er as ->. rewrite select_od_set. unfold selected in Es. by rewrite Es.
    - intros [= ->]. exists r. split; [by left|]. intros Q Hq. cbn [List.filter]. unfold selected at 1. rewrite Hq. cbn [foldM].
      rewrite (rank_select Q d r Hq), Er. done. }
  destruct (G [] Hf) as (r & Hr & HQ). exists r. split; [done|]. intros Q Hq. unfold latest_source_versions. specialize (HQ Q Hq).
  change (select Q []) with (@nil (K * list (Z * A))) in HQ. by rewrite HQ.
Qed.

(** ** A correction *)

(** The record of the corrected key gives way to the correction, in its place. *)
Definition corrected_by (c x : A) : A := if decide (key x = key c) then c else x.

Lemma corrected_fresh c l : key c ∉ map key l -> map (corrected_by c) l = l.
Proof.
  induction l as [|x l IH]; [done|]. cbn [map]. intros Hc. unfold corrected_by at 1. rewrite decide_False by set_solver. f_equal. apply IH. set_solver.
Qed.

Lemma latest_app_raise rs rs' : latest rs = Raise e -> latest (rs ++ rs') = Raise e.
Proof.
  intros Hl. destruct (latest_cases rs) as [(d & l' & _ & _ & _ & Hl' & _)|[Hf _]]; [congruence|]. unfold latest_source_versions. by rewrite foldM_app, Hf.
Qed.

Lemma mapR_corrected c vs rs d l : NoDup d.*1 -> Forall (kept rs) d -> key c ∈ d.*1 -> latest_version vs = Ok c ->
  mapR (fun x => latest_version (snd x)) d = Ok l -> mapR (fun x => latest_version (snd x)) (od_set (key c) vs d) = Ok (map (corrected_by c) l).
Proof.
  intros Hnd Hk Hin Hv. revert l. induction Hk as [|[k ws] d Hx Hd IH]; intros l; [by apply elem_of_nil in Hin|]. apply NoDup_cons in Hnd as [Hk1 Hnd].
  cbn [mapR snd]. intros (r & Hr & (l' & Hl & [= <-])%bind_Ok)%bind_Ok. destruct (latest_version_spec rs _ Hx) as (r' & Er & _ & Ek & _). cbn [fst snd] in *.
  assert (r' = r) by congruence. subst r'. cbn [od_set map]. case_decide as E.
  - cbn [mapR snd]. rewrite Hv, bind_ret, Hl, bind_ret. unfold corrected_by at 1. rewrite decide_True by congruence. do 2 f_equal.
    symmetry. apply corrected_fresh. destruct (latest_all d rs Hd) as (l2 & Hl2 & Hk2). assert (l2 = l') by congruence. subst l2. rewrite Hk2. by rewrite E.
  - cbn [mapR snd]. rewrite Hr, bind_ret, (IH Hnd ltac:(set_solver) l' Hl), bind_ret. do 2 f_equal. unfold corrected_by. by rewrite decide_False by congruence.
Qed.

Lemma latest_correction rs l p c : latest rs = Ok l -> p ∈ rs -> key p = key c -> (forall r, r ∈ rs -> key r = key c -> version r < version c) ->
  latest (rs ++ [c]) = Ok (map (corrected_by c) l).
Proof.
  intros Hl Hp Ep Hlt. destruct (latest_cases rs) as [(d & l' & Hf & Hd & Hm & Hl' & _)|[_ E]]; [|congruence]. assert (l' = l) by congruence. subst l'.
  assert (Hrank : rank d c = Ok (od_set (key c) (od_set (version c) c (od_get_default [] (key c) d)) d)).
  { unfold rank_record. destruct (od_get (version c) _) as [x|] eqn:E; [|done]. exfalso. apply od_get_elem in E.
    destruct (od_default_kept rs d (key c) Hd) as [E0|(_ & _ & Hin)]; [by rewrite E0 in E; apply elem_of_nil in E|].
    destruct (Hin _ _ E) as (H1 & H2 & H3). cbn in H2. specialize (Hlt x H1 H2). lia. }
  pose proof (rank_ranked rs d c _ Hd Hrank) as Hd'. unfold latest_source_versions. rewrite foldM_app, Hf. cbn [foldM mbind result_bind]. rewrite Hrank. cbn [foldM mbind result_bind].
  destruct (rd_all _ _ Hd p Hp) as (vs & Hg & _). rewrite Ep in Hg. pose proof (od_get_elem _ _ _ Hg) as Hgin.
  set (ws := od_set (version c) c (od_get_default [] (key c) d)) in *. eapply mapR_corrected; [apply Hd|apply Hd|apply list_elem_of_fmap; by exists (key c, vs)| |exact Hm].
  assert (Hkept : kept (rs ++ [c]) (key c, ws)).
  { apply (proj1 (Forall_forall _ _) (rd_kept _ _ Hd')). apply od_get_elem. apply od_get_set. }
  destruct (latest_version_spec _ _ Hkept) as (r & Er & Hr & Ek & Hmax). cbn [fst snd] in *. rewrite Er. f_equal.
  assert (Hv : version c <= version r) by (apply Hmax; unfold ws; rewrite od_set_keys; case_decide; set_solver).
  apply elem_of_app in Hr as [Hr|Hr]; [specialize (Hlt r Hr Ek); lia|]. by apply list_elem_of_singleton in Hr.
Qed.
End RankingFacts.

(** ** Dated windows *)

Lemma list_filter_app {A} (f : A -> bool) xs ys : List.filter f (xs ++ ys)%list = (List.filter f xs ++ List.filter f ys)%list.
Proof. apply List.filter_app. Qed.

Lemma sorted_weaken {A} (R R' : A -> A -> Prop) l : (forall a b, R a b -> R' a b) -> StronglySorted R l -> StronglySorted R' l.
Proof. intros Hi. induction 1 as [|x l _ IH Hx]; constructor; [done|]. eapply Forall_impl; [exact Hx|]. intros b. apply Hi. Qed.

Lemma filter_filter {B} (f g : B -> bool) (l : list B) : List.filter f (List.filter g l) = List.filter (fun x => g x && f x) l.
Proof. induction l as [|x l IH]; [done|]. cbn [List.filter]. destruct (g x); cbn [List.filter andb]; by rewrite IH. Qed.

Lemma filter_agree {B} (f g : B -> bool) (l : list B) : (forall x, x ∈ l -> f x = g x) -> List.filter f l = List.filter g l.
Proof.
  intros Hfg. induction l as [|x l IH]; [done|]. cbn [List.filter]. rewrite (Hfg x) by left. rewrite IH; [done|]. intros y Hy. apply Hfg. by right.
Qed.

Lemma mapR_units {B} (f : B -> bool) (g : B -> exc) (l : list B) : (exists us, mapR (fun x => raise_if (f x) (g x)) l = Ok us) <-> forall x, x ∈ l -> f x = false.
Proof.
  induction l as [|x l IH]; [split; [by intros _ x ?%elem_of_nil|by exists []]|]. cbn [mapR]. split.
  - intros (us & (u & Hu%raise_if_Ok & (us' & Hus & _)%bind_Ok)%bind_Ok). intros y [->|Hy]%elem_of_cons; [done|]. apply (proj1 IH); [by exists us'|done].
  - intros Hall. destruct (proj2 IH) as (us & Hus); [intros y Hy; apply Hall; by right|]. exists (tt :: us). rewrite (Hall x ltac:(left)), Hus. done.
Qed.

Section Windows.
Context {A S : Type} `{EqDecision S} `{SourceRecord A S}.
Implicit Types (a b : A) (l rs : list A).

(** What a constructor guarantees of the window of a record. *)
Definition window_ok a : Prop := forall t, record_to a = Some t -> record_from a <= t.

Lemma effective_spec d a : effective_on d a = true <-> record_active a = true /\ record_from a <= d /\ forall t, record_to a = Some t -> d <= t.
Proof.
  unfold effective_on, within_window. rewrite !andb_true_iff, Z.leb_le. destruct (record_to a) as [t|]; [rewrite Z.leb_le|]; naive_solver.
Qed.

Definition effective_at_most_once l : Prop := forall d, (length (List.filter (effective_on d) l) <= 1)%nat.

Lemma adjacent_disjoint l : StronglySorted (fun a b => record_from a <= record_from b) l -> Forall window_ok l -> Forall (fun a => record_active a = true) l ->
  adjacent_overlap l = false <-> effective_at_most_once l.
Proof.
  intros Hs. induction Hs as [|x l Hs IH Hx]; [intros _ _; split; [intros _ d; cbn; lia|done]|]. intros Hw Ha.
  pose proof (Forall_inv Hw) as Wx. pose proof (Forall_inv Ha) as Ax. specialize (IH (Forall_inv_tail Hw) (Forall_inv_tail Ha)).
  assert (Hmono : effective_at_most_once (x :: l) -> effective_at_most_once l).
  { intros Hall d. specialize (Hall d). cbn [List.filter] in Hall. destruct (effective_on d x); cbn [length] in Hall; lia. }
  destruct l as [|y l]; [split; [|done]; intros _ d; cbn; by destruct (effective_on d x); cbn; lia|].
  change (adjacent_overlap (x :: y :: l)) with (match record_to x with None => true | Some t => record_from y <=? t end || adjacent_overlap (y :: l)).
  rewrite orb_false_iff, IH. split.
  - intros [Hov Hl] d. destruct (record_to x) as [t|] eqn:Et; [|done]. apply Z.leb_gt in Hov. cbn [List.filter] in *. specialize (Hl d). cbn [List.filter] in Hl.
    destruct (effective_on d x) eqn:Ed; [|done]. apply effective_spec in Ed as (_ & _ & Ht). specialize (Ht t Et).
    assert (Hnone : forall z, z ∈ y :: l -> effective_on d z = false).
    { intros z Hz. destruct (effective_on d z) eqn:Ez; [|done]. apply effective_spec in Ez as (_ & Hz1 & _). apply StronglySorted_inv in Hs as [_ Hy].
      apply elem_of_cons in Hz as [->|Hz]; [lia|]. pose proof (proj1 (Forall_forall _ _) Hy z Hz). cbn in *. lia. }
    pose proof (proj2 (filter_nil _ _) Hnone) as Hn. cbn [List.filter] in Hn. rewrite Hn. done.
  - intros Hall. split; [|by apply Hmono]. specialize (Hall (record_from y)). pose proof (Forall_inv (Forall_inv_tail Hw)) as Wy.
    pose proof (Forall_inv (Forall_inv_tail Ha)) as Ay. pose proof (Forall_inv Hx) as Hxy.
    assert (Ey : effective_on (record_from y) y = true) by (apply effective_spec; split; [done|]; split; [lia|exact Wy]).
    cbn [List.filter] in Hall. rewrite Ey in Hall. destruct (effective_on (record_from y) x) eqn:Ex; [cbn [length] in Hall; lia|].
    destruct (record_to x) as [t|] eqn:Et.
    + apply Z.leb_gt. destruct (Z.le_gt_cases (record_from y) t) as [Hle|]; [|lia]. exfalso. cut (effective_on (record_from y) x = true); [congruence|].
      apply effective_spec. split; [done|]. split; [done|]. intros t' Et'. assert (t' = t) by congruence. by subst.
    + exfalso. cut (effective_on (record_from y) x = true); [congruence|]. apply effective_spec. split; [done|]. split; [done|]. congruence.
Qed.

Lemma once_perm l l' : l ≡ₚ l' -> effective_at_most_once l <-> effective_at_most_once l'.
Proof. intros Hp. unfold effective_at_most_once. by setoid_rewrite (Permutation_length (filter_perm (effective_on _) _ _ Hp)). Qed.

Lemma sorted_windows tie l : Comparer tie -> Forall window_ok l -> Forall (fun a => record_active a = true) l ->
  adjacent_overlap (stable_sort (leb_of (window_compare tie)) l) = false <-> effective_at_most_once l.
Proof.
  intros Ht Hw Ha. set (c := window_compare tie). assert (Hc : Comparer c) by (unfold c, window_compare; typeclasses eauto).
  pose proof (stable_sort_perm (leb_of c) l) as Hp. rewrite <- (once_perm _ _ Hp). apply adjacent_disjoint.
  - pose proof (stable_sort_sorted (leb_of c) (leb_of_total c) (leb_of_trans c) l) as Hs. eapply sorted_weaken; [|exact Hs]. clear. intros a b Hab. unfold leb_of, c, window_compare, lex in Hab.
    destruct (Z.compare_spec (record_from a) (record_from b)); [lia|lia|done].
  - by rewrite Hp.
  - by rewrite Hp.
Qed.

Definition active_in (s : S) a : bool := in_scope s a && record_active a.

Lemma group_spec l : NoDup (foldl group_active [] l).*1 /\ forall s, od_get_default [] s (foldl group_active [] l) = List.filter (active_in s) l.
Proof.
  assert (G : forall l l0 d, NoDup d.*1 -> (forall s, od_get_default [] s d = List.filter (active_in s) l0) ->
    NoDup (foldl group_active d l).*1 /\ forall s, od_get_default [] s (foldl group_active d l) = List.filter (active_in s) (l0 ++ l)).
  { clear l. intros l. induction l as [|a l IH]; intros l0 d Hd Hs; cbn [foldl]; [by rewrite app_nil_r|].
    replace (l0 ++ a :: l)%list with ((l0 ++ [a]) ++ l)%list by (by rewrite <- app_assoc). apply IH; unfold group_active.
    - destruct (record_active a); [by apply od_set_NoDup|done].
    - intros s. rewrite list_filter_app, <- Hs. cbn [List.filter]. unfold active_in, in_scope. destruct (record_active a); [|by rewrite andb_false_r, app_nil_r].
      rewrite andb_true_r. unfold od_get_default at 1. destruct (decide (s = record_scope a)) as [->|Hne].
      + rewrite od_get_set, bool_decide_eq_true_2 by done. done.
      + rewrite od_get_set_ne by done. rewrite bool_decide_eq_false_2 by done. by rewrite app_nil_r. }
  destruct (G l [] [] ltac:(constructor) ltac:(done)) as [H1 H2]. done.
Qed.

(** The windows are accepted exactly when no scope has two effective records on one day. *)
Lemma validate_windows_spec tie overlapping l : Comparer tie -> Forall window_ok l ->
  validate_windows tie overlapping l = Ok tt <-> forall s, effective_at_most_once (List.filter (in_scope s) l).
Proof.
  intros Ht Hw. unfold validate_windows. destruct (group_spec l) as [Hnd Hg]. set (d := foldl group_active [] l) in *.
  transitivity (forall x, x ∈ d -> adjacent_overlap (stable_sort (leb_of (window_compare tie)) (snd x)) = false).
  { rewrite <- (mapR_units _ (fun e => overlapping (fst e))). destruct (mapR _ d) as [us|x]; cbn; [split; [by exists us|done]|]. split; [done|by intros [us Hus]]. }
  assert (Hact : forall s, effective_at_most_once (List.filter (active_in s) l) <-> effective_at_most_once (List.filter (in_scope s) l)).
  { intros s. unfold effective_at_most_once. setoid_rewrite filter_filter. split; intros Ha dd; specialize (Ha dd);
      (erewrite filter_agree; [exact Ha|]); intros x _; unfold active_in, effective_on; destruct (in_scope s x), (record_active x); done. }
  assert (Hkey : forall s, adjacent_overlap (stable_sort (leb_of (window_compare tie)) (List.filter (active_in s) l)) = false <-> effective_at_most_once (List.filter (in_scope s) l)).
  { intros s. rewrite (sorted_windows tie _ Ht), Hact; [done| |].
    - apply Forall_forall. intros x Hx%list_elem_of_In%List.filter_In. destruct Hx as [Hx _]. apply (proj1 (Forall_forall _ _) Hw). by apply list_elem_of_In.
    - apply Forall_forall. intros x Hx%list_elem_of_In%List.filter_In. destruct Hx as [_ Hx]. unfold active_in in Hx. by apply andb_true_iff in Hx as [_ Hx]. }
  split.
  - intros Hall s. apply Hkey. rewrite <- Hg. unfold od_get_default. destruct (od_get s d) as [xs|] eqn:E; [|done]. exact (Hall (s, xs) (od_get_elem _ _ _ E)).
  - intros Hall [s xs] Hx. cbn [snd]. assert (xs = List.filter (active_in s) l) as ->; [|by apply Hkey].
    rewrite <- Hg. unfold od_get_default. by rewrite (od_get_of_elem _ _ _ Hnd Hx).
Qed.

(** ** Resolution and corrections *)

Lemma scope_select s rs : List.filter (in_scope s) rs = List.filter (selected record_key (fun k => bool_decide (k.1.1 = s))) rs.
Proof. apply filter_agree. done. Qed.

Lemma latest_in_scope conflict s rs l : latest_records conflict rs = Ok l ->
  latest_records conflict (List.filter (in_scope s) rs) = Ok (List.filter (in_scope s) l).
Proof. rewrite !scope_select. apply latest_select. Qed.

Lemma effective_records_Ok conflict rs l s d : latest_records conflict rs = Ok l ->
  effective_records conflict rs s d = Ok (List.filter (effective_on d) (List.filter (in_scope s) l)).
Proof. intros Hl. unfold effective_records. rewrite (latest_in_scope conflict s rs l Hl). done. Qed.

Lemma effective_records_cases conflict rs s d :
  (exists xs, effective_records conflict rs s d = Ok xs /\ forall x, x ∈ xs -> x ∈ rs /\ record_scope x = s /\ effective_on d x = true) \/
  effective_records conflict rs s d = Raise conflict.
Proof.
  unfold effective_records. destruct (latest_cases record_key record_version record_eqb conflict (List.filter (in_scope s) rs)) as [(_ & l & _ & _ & _ & Hl & _)|[_ Hl]];
    change (latest_source_versions _ _ _ conflict _) with (latest_records conflict (List.filter (in_scope s) rs)) in Hl; rewrite Hl; [left|by right].
  eexists. split; [done|]. intros x Hx%list_elem_of_In%List.filter_In. destruct Hx as [Hx%list_elem_of_In He]. apply latest_spec in Hl as (_ & Hin & _).
  destruct (Hin x Hx) as [Hr%list_elem_of_In%List.filter_In _]. destruct Hr as [Hr%list_elem_of_In Hs%bool_decide_eq_true]. done.
Qed.

(** A record of the scope, active and effective on the date, of which the records know no later version. *)
Definition record_in_force (rs : list A) (s : S) (d : date) (x : A) : Prop :=
  x ∈ rs /\ record_scope x = s /\ effective_on d x = true /\ forall r, r ∈ rs -> record_key r = record_key x -> record_version r <= record_version x.

Lemma effective_records_in_force conflict rs s d xs : effective_records conflict rs s d = Ok xs -> forall x, x ∈ xs -> record_in_force rs s d x.
Proof.
  unfold effective_records. intros (l & Hl & [= <-])%bind_Ok x Hx%list_elem_of_In%List.filter_In. destruct Hx as [Hx%list_elem_of_In He]. apply latest_spec in Hl as (_ & Hin & _).
  destruct (Hin x Hx) as [Hr%list_elem_of_In%List.filter_In Hmax]. destruct Hr as [Hr%list_elem_of_In Hs%bool_decide_eq_true]. split_and!; [done..|].
  intros r Hrs Hk. apply Hmax; [|done]. apply list_elem_of_In, List.filter_In. split; [by apply list_elem_of_In|]. apply bool_decide_eq_true. unfold record_key in Hk. congruence.
Qed.

Lemma latest_windows_ok conflict rs l : latest_records conflict rs = Ok l -> Forall window_ok rs -> Forall window_ok l.
Proof.
  intros Hl Hw. apply latest_spec in Hl as (_ & Hin & _). apply Forall_forall. intros x Hx. apply (proj1 (Forall_forall _ _) Hw). by apply Hin.
Qed.

(** The check of the windows decides whether any lookup can meet competing or conflicting records. *)
Lemma overlap_decided conflict tie overlapping rs : Comparer tie -> Forall window_ok rs ->
  (l ← latest_records conflict rs; validate_windows tie overlapping l) = Ok tt <->
  forall s d, exists xs, effective_records conflict rs s d = Ok xs /\ (length xs <= 1)%nat.
Proof.
  intros Ht Hw. destruct (latest_cases record_key record_version record_eqb conflict rs) as [(_ & l & _ & _ & _ & Hl & _)|[_ Hl]]; change (latest_source_versions _ _ _ conflict rs) with (latest_records conflict rs) in Hl; rewrite Hl.
  - rewrite bind_ret, (validate_windows_spec tie overlapping l Ht (latest_windows_ok conflict rs l Hl Hw)). split.
    + intros Hall s d. rewrite (effective_records_Ok conflict rs l s d Hl). eexists. split; [done|]. apply Hall.
    + intros Hall s d. destruct (Hall s d) as (xs & Hxs & Hlen). rewrite (effective_records_Ok conflict rs l s d Hl) in Hxs. by injection Hxs as <-.
  - split; [done|]. intros Hall. exfalso. destruct (conflict_select _ _ _ _ rs Hl) as (r & _ & HQ). destruct (Hall (record_scope r) 0) as (xs & Hxs & _).
    revert Hxs. unfold effective_records. rewrite scope_select. unfold latest_records. rewrite HQ; [done|]. by apply bool_decide_eq_true_2.
Qed.

(** [current] corrects [previous], the latest version of its source record. *)
Record corrects (conflict : exc) rs (previous current : A) : Prop := {
  co_key : record_key previous = record_key current;
  co_version : record_version previous < record_version current;
  co_latest : exists l, latest_records conflict rs = Ok l /\ previous ∈ l
}.

Lemma correction_effective conflict rs previous current l s d : corrects conflict rs previous current -> latest_records conflict rs = Ok l ->
  effective_records conflict (rs ++ [current]) s d =
    Ok (List.filter (effective_on d) (List.filter (in_scope s) (map (corrected_by record_key current) l))).
Proof.
  intros [Hk Hv (l' & Hl' & Hp)] Hl. assert (l' = l) by congruence. subst l'. pose proof (latest_spec _ _ _ _ _ _ Hl) as (Hnd & Hin & _).
  destruct (Hin previous Hp) as [Hpr Hmax]. apply effective_records_Ok. apply (latest_correction _ _ _ _ rs l previous current Hl Hpr Hk).
  intros r Hr Er. specialize (Hmax r Hr ltac:(congruence)). lia.
Qed.

Lemma corrected_one rs conflict l previous current x : latest_records conflict rs = Ok l -> previous ∈ l -> record_key previous = record_key current -> x ∈ l ->
  corrected_by record_key current x = x \/ x = previous /\ corrected_by record_key current x = current.
Proof.
  intros Hl Hp Hk Hx. unfold corrected_by. destruct (decide (record_key x = record_key current)) as [E|]; [|by left]. right. split; [|done].
  apply latest_spec in Hl as (Hnd & _ & _). change (map record_key l) with (record_key <$> l) in Hnd. apply list_elem_of_lookup in Hx as [i Hi]. apply list_elem_of_lookup in Hp as [j Hj].
  assert (i = j); [|by simplify_eq]. eapply (NoDup_lookup _ _ _ (record_key current)); [exact Hnd| |]; rewrite list_lookup_fmap; [rewrite Hi|rewrite Hj]; cbn; by f_equal.
Qed.

Lemma filter_map_agree {B} (f : B -> bool) (g : B -> B) (l : list B) : (forall x, x ∈ l -> g x = x \/ f x = false /\ f (g x) = false) ->
  List.filter f (map g l) = List.filter f l.
Proof.
  intros Hg. induction l as [|x l IH]; [done|]. cbn [map List.filter]. rewrite IH by (intros y Hy; apply Hg; by right).
  destruct (Hg x ltac:(left)) as [->|[-> ->]]; done.
Qed.

(** On days before both versions of a corrected record the lookup is what it was. *)
Lemma correction_before conflict rs previous current s d : corrects conflict rs previous current ->
  d < Z.min (record_from previous) (record_from current) ->
  effective_records conflict (rs ++ [current]) s d = effective_records conflict rs s d.
Proof.
  intros Hc Hd. pose proof Hc as [Hk Hv (l & Hl & Hp)]. rewrite (correction_effective conflict rs previous current l s d Hc Hl), (effective_records_Ok conflict rs l s d Hl).
  f_equal. rewrite !filter_filter. apply filter_map_agree. intros x Hx. destruct (corrected_one rs conflict l previous current x Hl Hp Hk Hx) as [E|[-> E]]; [by left|].
  right. rewrite E. unfold effective_on, within_window. assert (record_from previous <=? d = false) as -> by lia. assert (record_from current <=? d = false) as -> by lia.
  cbn [andb]. by rewrite !andb_false_r.
Qed.

(** A correction that keeps status and window takes the place of the record it corrects. *)
Lemma correction_same_window conflict rs previous current s d : corrects conflict rs previous current ->
  record_active current = record_active previous -> record_from current = record_from previous -> record_to current = record_to previous ->
  exists xs, effective_records conflict rs s d = Ok xs /\
    effective_records conflict (rs ++ [current]) s d = Ok (map (corrected_by record_key current) xs) /\
    forall x, x ∈ xs -> x ∈ rs /\ (corrected_by record_key current x = x \/ x = previous /\ corrected_by record_key current x = current).
Proof.
  intros Hc Ha Hf Ht. pose proof Hc as [Hk Hv (l & Hl & Hp)]. rewrite (effective_records_Ok conflict rs l s d Hl), (correction_effective conflict rs previous current l s d Hc Hl).
  assert (Hone : forall x, x ∈ l -> corrected_by record_key current x = x \/ x = previous /\ corrected_by record_key current x = current)
    by (intros x Hx; exact (corrected_one rs conflict l previous current x Hl Hp Hk Hx)).
  eexists. split; [done|]. split.
  - f_equal. rewrite !filter_filter. assert (G : forall x, x ∈ l -> (in_scope s x && effective_on d x) = (in_scope s (corrected_by record_key current x) && effective_on d (corrected_by record_key current x))).
    { intros x Hx. destruct (Hone x Hx) as [->|[-> ->]]; [done|]. unfold effective_on, in_scope. rewrite Ha, Hf, Ht.
      assert (record_scope previous = record_scope current) as -> by (by injection Hk). done. }
    revert G. clear. induction l as [|x l IH]; intros G; [done|]. cbn [map List.filter]. rewrite <- (G x) by left. rewrite IH by (intros y Hy; apply G; by right).
    by destruct (in_scope s x && effective_on d x).
  - intros x Hx%list_elem_of_In%List.filter_In. destruct Hx as [Hx%List.filter_In _]. destruct Hx as [Hx%list_elem_of_In _]. split; [|by apply Hone].
    apply latest_spec in Hl as (_ & Hin & _). by apply Hin.
Qed.
End Windows.
