(* ===== verification/BookCostAuthority.v ===== *)
(** * Authority of amortized book cost

    [fixed_income_book_cost/authority.py]: which accounting policy a source assigns to a lot, from when to when;
    [policy_registry.py] and [policy_catalog.py]: the policies that exist. *)

From Stdlib Require Import ZArith Lia String.
From stdpp Require Import base tactics list sorting strings.
From S2P Require Import Prelude PyDecimal PyTime Precision Lineage AccruedIncome AmortizedCost SourceVersions.

#[local] Open Scope string_scope.
#[local] Open Scope Z_scope.

Definition require_positive_integer (value : Z) (field_name : string) : result unit :=
  raise_if (value <? 1) (ValueError (field_name +:+ " must be positive")).

(** [valid_to is not None and valid_to < valid_from]. *)
Definition require_window (valid_from : date) (valid_to : option date) : result unit :=
  raise_if (match valid_to with Some t => t <? valid_from | None => false end) (ValueError "valid_to must be on or after valid_from").

(** [==] of aware datetimes. *)
Definition datetime_eqb (a b : datetime) : bool := dt_instant a =? dt_instant b.

Definition source_name (system record : string) : string := system +:+ ":" +:+ record.

(** ** Scopes and assignments *)

Inductive AmortizedCostAssignmentStatus := ASSIGNMENT_ACTIVE | ASSIGNMENT_SUSPENDED | ASSIGNMENT_RETIRED.

#[export] Instance assignment_status_eq_dec : EqDecision AmortizedCostAssignmentStatus.
Proof. solve_decision. Defined.

Definition assignment_status_value (x : AmortizedCostAssignmentStatus) : string :=
  match x with ASSIGNMENT_ACTIVE => "ACTIVE" | ASSIGNMENT_SUSPENDED => "SUSPENDED" | ASSIGNMENT_RETIRED => "RETIRED" end.

Record LotBookCostAuthorityScope := {
  ls_tenant_id : string; ls_legal_book_id : string; ls_portfolio_id : string; ls_security_id : string; ls_lot_id : string
}.

#[export] Instance lot_scope_eq_dec : EqDecision LotBookCostAuthorityScope.
Proof. solve_decision. Defined.

Definition make_LotBookCostAuthorityScope (tenant_id legal_book_id portfolio_id security_id lot_id : string) : result LotBookCostAuthorityScope :=
  tenant ← require_nonblank tenant_id "tenant_id";
  book ← require_nonblank legal_book_id "legal_book_id";
  portfolio ← require_nonblank portfolio_id "portfolio_id";
  security ← require_nonblank security_id "security_id";
  lot ← require_nonblank lot_id "lot_id";
  Ok {| ls_tenant_id := tenant; ls_legal_book_id := book; ls_portfolio_id := portfolio; ls_security_id := security; ls_lot_id := lot |}.

Definition scope_key (s : LotBookCostAuthorityScope) : list string :=
  [ls_tenant_id s; ls_legal_book_id s; ls_portfolio_id s; ls_security_id s; ls_lot_id s].

Definition scope_payload (s : LotBookCostAuthorityScope) : payload :=
  PMap [("legal_book_id", PStr (ls_legal_book_id s)); ("lot_id", PStr (ls_lot_id s)); ("portfolio_id", PStr (ls_portfolio_id s));
        ("security_id", PStr (ls_security_id s)); ("tenant_id", PStr (ls_tenant_id s))].

Record LotAmortizedCostPolicyAssignment := {
  pa_scope : LotBookCostAuthorityScope; pa_policy_id : string; pa_policy_version : Z; pa_valid_from : date; pa_valid_to : option date;
  pa_assignment_status : AmortizedCostAssignmentStatus; pa_assignment_version : Z; pa_source_system : string; pa_source_record_id : string;
  pa_source_revision : string; pa_observed_at : datetime; pa_assignment_reason : string
}.

Definition make_LotAmortizedCostPolicyAssignment (a : LotAmortizedCostPolicyAssignment) : result LotAmortizedCostPolicyAssignment :=
  policy_id ← require_nonblank (pa_policy_id a) "policy_id";
  source_system ← require_nonblank (pa_source_system a) "source_system";
  source_record_id ← require_nonblank (pa_source_record_id a) "source_record_id";
  source_revision ← require_nonblank (pa_source_revision a) "source_revision";
  assignment_reason ← require_nonblank (pa_assignment_reason a) "assignment_reason";
  _ ← require_positive_integer (pa_policy_version a) "policy_version";
  _ ← require_positive_integer (pa_assignment_version a) "assignment_version";
  _ ← require_window (pa_valid_from a) (pa_valid_to a);
  _ ← raise_if (is_naive (pa_observed_at a)) (ValueError "observed_at must be timezone-aware");
  Ok {| pa_scope := pa_scope a; pa_policy_id := policy_id; pa_policy_version := pa_policy_version a; pa_valid_from := pa_valid_from a;
        pa_valid_to := pa_valid_to a; pa_assignment_status := pa_assignment_status a; pa_assignment_version := pa_assignment_version a;
        pa_source_system := source_system; pa_source_record_id := source_record_id; pa_source_revision := source_revision;
        pa_observed_at := pa_observed_at a; pa_assignment_reason := assignment_reason |}.

(** [==] of two assignments, field by field. *)
Definition assignment_eqb (a b : LotAmortizedCostPolicyAssignment) : bool :=
  bool_decide (pa_scope a = pa_scope b) && String.eqb (pa_policy_id a) (pa_policy_id b) && (pa_policy_version a =? pa_policy_version b) &&
  (pa_valid_from a =? pa_valid_from b) && bool_decide (pa_valid_to a = pa_valid_to b) &&
  bool_decide (pa_assignment_status a = pa_assignment_status b) && (pa_assignment_version a =? pa_assignment_version b) &&
  String.eqb (pa_source_system a) (pa_source_system b) && String.eqb (pa_source_record_id a) (pa_source_record_id b) &&
  String.eqb (pa_source_revision a) (pa_source_revision b) && datetime_eqb (pa_observed_at a) (pa_observed_at b) &&
  String.eqb (pa_assignment_reason a) (pa_assignment_reason b).

(** [source_record_key] is the [record_key] of this instance. *)
#[export] Instance assignment_record : SourceRecord LotAmortizedCostPolicyAssignment LotBookCostAuthorityScope := {
  record_scope := pa_scope; record_system := pa_source_system; record_id := pa_source_record_id; record_version := pa_assignment_version;
  record_from := pa_valid_from; record_to := pa_valid_to; record_eqb := assignment_eqb;
  record_active := fun a => bool_decide (pa_assignment_status a = ASSIGNMENT_ACTIVE)
}.

Definition assignment_payload (a : LotAmortizedCostPolicyAssignment) : payload :=
  PMap [("assignment_reason", PStr (pa_assignment_reason a)); ("assignment_status", PEnum (PStr (assignment_status_value (pa_assignment_status a))));
        ("assignment_version", PInt (pa_assignment_version a)); ("observed_at", PDatetime (pa_observed_at a)); ("policy_id", PStr (pa_policy_id a));
        ("policy_version", PInt (pa_policy_version a)); ("scope", scope_payload (pa_scope a)); ("source_record_id", PStr (pa_source_record_id a));
        ("source_revision", PStr (pa_source_revision a)); ("source_system", PStr (pa_source_system a)); ("valid_from", PDate (pa_valid_from a));
        ("valid_to", match pa_valid_to a with Some t => PDate t | None => PNone end)].

Record AmortizedCostAssignmentCacheKey := {
  ak_scope : LotBookCostAuthorityScope; ak_effective_date : date; ak_policy_id : string; ak_policy_version : Z; ak_assignment_version : Z;
  ak_source_revision : string; ak_assignment_content_hash : string
}.

Record ResolvedAmortizedCostAssignment := { ra_assignment : LotAmortizedCostPolicyAssignment; ra_cache_key : AmortizedCostAssignmentCacheKey }.

Definition ASSIGNMENT_CONFLICT : exc := AmortizedCostAuthorityError "conflicting payloads share one source record and assignment_version".

Definition latest_assignments : list LotAmortizedCostPolicyAssignment -> result (list LotAmortizedCostPolicyAssignment) :=
  latest_records ASSIGNMENT_CONFLICT.

(** The sorted names of the sources of competing records. *)
Definition listed_sources {A S} `{SourceRecord A S} (records : list A) : list string :=
  stable_sort string_leb (map (fun a => source_name (record_system a) (record_id a)) records).

Section Hashed.
Context `{Hashing}.

Definition pa_content_hash (a : LotAmortizedCostPolicyAssignment) : result string := canonical_content_hash (assignment_payload a).

Definition pa_source_reference (a : LotAmortizedCostPolicyAssignment) : result FinancialSourceReference :=
  hash ← pa_content_hash a;
  make_FinancialSourceReference (pa_source_system a) (pa_source_record_id a) (pa_source_revision a) hash (pa_observed_at a).

Definition resolve_amortized_cost_assignment (assignments : list LotAmortizedCostPolicyAssignment) (scope : LotBookCostAuthorityScope)
  (effective_date : date) : result ResolvedAmortizedCostAssignment :=
  effective ← effective_records ASSIGNMENT_CONFLICT assignments scope effective_date;
  match effective with
  | [] => Raise (MissingAmortizedCostAssignmentError
            "no active amortized-cost assignment for exact tenant, legal book, portfolio, security, source lot, and date")
  | [a] =>
      hash ← pa_content_hash a;
      Ok {| ra_assignment := a;
            ra_cache_key := {| ak_scope := pa_scope a; ak_effective_date := effective_date; ak_policy_id := pa_policy_id a;
                               ak_policy_version := pa_policy_version a; ak_assignment_version := pa_assignment_version a;
                               ak_source_revision := pa_source_revision a; ak_assignment_content_hash := hash |} |}
  | _ => Raise (OverlappingAmortizedCostAssignmentError "overlapping active amortized-cost assignments: " (listed_sources effective))
  end.
End Hashed.

Definition assignment_tie (a b : LotAmortizedCostPolicyAssignment) : comparison :=
  lex (String.compare (pa_source_system a) (pa_source_system b)) (String.compare (pa_source_record_id a) (pa_source_record_id b)).

Definition validate_no_overlapping_active_amortized_cost_assignments (assignments : list LotAmortizedCostPolicyAssignment) : result unit :=
  latest ← latest_assignments assignments;
  validate_windows assignment_tie
    (fun s => OverlappingAmortizedCostAssignmentError "active amortized-cost assignment windows overlap for scope=" (scope_key s)) latest.

Definition assignment_semantics (a : LotAmortizedCostPolicyAssignment) :=
  (pa_policy_id a, pa_policy_version a, pa_valid_from a, pa_valid_to a, pa_assignment_status a).

Definition amortization_replay_start_for_assignment_correction (previous current : LotAmortizedCostPolicyAssignment) : result (option date) :=
  _ ← raise_if (bool_decide (record_key previous <> record_key current))
        (ValueError "assignment correction must preserve exact scope and source record identity");
  _ ← raise_if (pa_assignment_version current <=? pa_assignment_version previous) (ValueError "assignment correction version must increase");
  Ok (if bool_decide (assignment_semantics current = assignment_semantics previous) then None
      else Some (Z.min (pa_valid_from previous) (pa_valid_from current))).

(** ** Policies in force *)

Record AmortizedCostPolicyIdentity := { pi_policy_id : string; pi_policy_version : Z }.

#[export] Instance policy_identity_eq_dec : EqDecision AmortizedCostPolicyIdentity.
Proof. solve_decision. Defined.

Definition make_AmortizedCostPolicyIdentity (policy_id : string) (policy_version : Z) : result AmortizedCostPolicyIdentity :=
  id ← require_nonblank policy_id "policy_id";
  _ ← require_positive_integer policy_version "policy_version";
  Ok {| pi_policy_id := id; pi_policy_version := policy_version |}.

Definition identity_text (i : AmortizedCostPolicyIdentity) : string := pi_policy_id i +:+ "@" +:+ string_of_Z (pi_policy_version i).

Definition AmortizedCostPolicyRegistry : Type := list (AmortizedCostPolicyIdentity * AmortizedCostPolicy).

Definition register_policy (registered : AmortizedCostPolicyRegistry) (policy : AmortizedCostPolicy) : result AmortizedCostPolicyRegistry :=
  identity ← make_AmortizedCostPolicyIdentity (am_policy_id policy) (am_policy_version policy);
  _ ← raise_if (match od_get identity registered with Some _ => true | None => false end)
        (DuplicateAmortizedCostPolicyError ("amortized-cost policy identity is registered more than once: " +:+ identity_text identity));
  Ok (od_set identity policy registered).

Definition make_AmortizedCostPolicyRegistry (policies : list AmortizedCostPolicy) : result AmortizedCostPolicyRegistry := foldM register_policy [] policies.

Definition registry_resolve (registry : AmortizedCostPolicyRegistry) (policy_id : string) (policy_version : Z) : result AmortizedCostPolicy :=
  identity ← make_AmortizedCostPolicyIdentity policy_id policy_version;
  match od_get identity registry with
  | Some policy => Ok policy
  | None => Raise (UnsupportedAmortizedCostPolicyError ("amortized-cost policy is not registered: " +:+ identity_text identity))
  end.

Definition identity_compare (a b : AmortizedCostPolicyIdentity) : comparison :=
  lex (String.compare (pi_policy_id a) (pi_policy_id b)) (Z.compare (pi_policy_version a) (pi_policy_version b)).

Definition registry_identities (registry : AmortizedCostPolicyRegistry) : list AmortizedCostPolicyIdentity :=
  stable_sort (leb_of identity_compare) (map fst registry).

Definition IFRS9_EIR_LOCAL_POLICY_ID : string := "IFRS9_EIR_LOCAL".
Definition STRAIGHT_LINE_LOCAL_POLICY_ID : string := "STRAIGHT_LINE_LOCAL".

Definition governed_amortized_cost_policy_catalog : result (list AmortizedCostPolicy) :=
  effective_yield ← make_AmortizedCostPolicy IFRS9_EIR_LOCAL_POLICY_ID 1 EFFECTIVE_YIELD (Some ANNUAL_NOMINAL_SIMPLE) true (Finite (Dec 1 (-10)));
  straight_line ← make_AmortizedCostPolicy STRAIGHT_LINE_LOCAL_POLICY_ID 1 STRAIGHT_LINE None true (Finite (Dec 1 (-10)));
  Ok [effective_yield; straight_line].
