(* ===== verification/BookCostAuthorityFacts.v ===== *)
(** * Authority of amortized book cost: facts

    The check of the assignment windows decides exactly whether lookups can be ambiguous, and the replay date of a
    correction bounds what the correction changes. *)

From Stdlib Require Import ZArith Lia String.
From stdpp Require Import base tactics list sorting sets strings.
From S2P Require Import Prelude PyDecimal PyTime Precision Lineage AccruedIncome AmortizedCost AmortizedStraightLine SourceVersions BookCostAuthority.

#[local] Open Scope string_scope.
#[local] Open Scope Z_scope.

(** What the constructor guarantees of an assignment. *)
Definition assignment_ok (a : LotAmortizedCostPolicyAssignment) : Prop := window_ok a /\ is_naive (pa_observed_at a) = false.

Lemma require_window_Ok valid_from valid_to u : require_window valid_from valid_to = Ok u -> forall t, valid_to = Some t -> valid_from <= t.
Proof. unfold require_window. intros Hw%raise_if_Ok t ->. apply Z.ltb_ge in Hw. lia. Qed.

Lemma make_assignment_ok a a' : make_LotAmortizedCostPolicyAssignment a = Ok a' -> assignment_ok a'.
Proof.
  unfold make_LotAmortizedCostPolicyAssignment. intros Hm. do 7 apply bind_Ok in Hm as (? & _ & Hm). apply bind_Ok in Hm as (u & Hw & Hm).
  apply bind_Ok in Hm as (v & Hn%raise_if_Ok & [= <-]). split; [|done]. intros t. cbn. by apply (require_window_Ok _ _ _ Hw).
Qed.

Section Facts.
Context `{hashing : Hashing}.

Lemma content_hash_total p : is_ok (normalize_lineage_value p) = true -> exists h, canonical_content_hash p = Ok h.
Proof. unfold canonical_content_hash. destruct (normalize_lineage_value p); [by eexists|done]. Qed.

Lemma datetime_payload_ok d : is_naive d = false -> is_ok (normalize_lineage_value (PDatetime d)) = true.
Proof. intros Hn. unfold normalize_lineage_value. by rewrite Hn. Qed.

Lemma assignment_hash a : assignment_ok a -> exists h, pa_content_hash a = Ok h.
Proof.
  intros [_ Hn%datetime_payload_ok]. apply content_hash_total. unfold assignment_payload, scope_payload. destruct (pa_valid_to a); write_payload.
Qed.

(** A lookup that finds one assignment or finds that there is none. *)
Definition settled {A} (r : result A) : Prop := match r with Ok _ | Raise (MissingAmortizedCostAssignmentError _) => True | _ => False end.

(** The check of the assignment windows accepts a set of assignments exactly when no lookup is ambiguous: on every day and for every
    lot there is one authoritative assignment, after corrections, or none, and no two records contradict each other. *)
Theorem window_check_decides_resolution assignments : Forall assignment_ok assignments ->
  validate_no_overlapping_active_amortized_cost_assignments assignments = Ok tt <->
  forall scope effective_date, settled (resolve_amortized_cost_assignment assignments scope effective_date).
Proof.
  intros Hok. assert (Ht : Comparer assignment_tie) by (unfold assignment_tie; typeclasses eauto).
  assert (Hw : Forall window_ok assignments) by (eapply Forall_impl; [exact Hok|]; by intros a [Ha _]).
  unfold validate_no_overlapping_active_amortized_cost_assignments, latest_assignments. rewrite (overlap_decided ASSIGNMENT_CONFLICT _ _ _ Ht Hw).
  apply forall_proper. intros scope. apply forall_proper. intros d. unfold resolve_amortized_cost_assignment.
  destruct (effective_records_cases ASSIGNMENT_CONFLICT assignments scope d) as [(xs & -> & Hin)| ->]; cbn [mbind result_bind]; [|split; [by intros (? & ? & _)|done]].
  destruct xs as [|a [|b xs]]; [split; [done|]; intros _; exists []; split; [done|cbn; lia]| |split; [|done]; intros (ys & [= <-] & Hlen); cbn in Hlen; lia].
  destruct (Hin a ltac:(left)) as [Ha _]. destruct (assignment_hash a (proj1 (Forall_forall _ _) Hok a Ha)) as (h & ->). split; [done|]. intros _. exists [a]. split; [done|cbn; lia].
Qed.

(** The policy a lookup gives, or the reason it gives none. *)
Definition resolved_policy (r : result ResolvedAmortizedCostAssignment) : result (string * Z) :=
  x ← r; Ok (pa_policy_id (ra_assignment x), pa_policy_version (ra_assignment x)).

Lemma corrected_sources {A S} `{EqDecision S} `{SourceRecord A S} (c : A) xs : listed_sources (map (corrected_by record_key c) xs) = listed_sources xs.
Proof.
  unfold listed_sources. f_equal. rewrite map_map. apply map_ext. intros x. unfold corrected_by. destruct (decide (record_key x = record_key c)) as [E|]; [|done].
  injection E as _ -> ->. done.
Qed.

(** The replay date of a correction is sound: on every earlier day each lookup returns what it returned before the correction, and when
    no replay is asked for, every lookup on every day still gives the same policy or fails in the same way. *)
Theorem assignment_replay_is_bounded assignments previous current start : Forall assignment_ok (assignments ++ [current]) ->
  corrects ASSIGNMENT_CONFLICT assignments previous current ->
  amortization_replay_start_for_assignment_correction previous current = Ok start ->
  forall scope d,
    match start with
    | Some first => d < first -> resolve_amortized_cost_assignment (assignments ++ [current]) scope d = resolve_amortized_cost_assignment assignments scope d
    | None => resolved_policy (resolve_amortized_cost_assignment (assignments ++ [current]) scope d) =
              resolved_policy (resolve_amortized_cost_assignment assignments scope d)
    end.
Proof.
  intros Hok Hc Hstart scope d. unfold amortization_replay_start_for_assignment_correction in Hstart. apply bind_Ok in Hstart as (? & _ & Hstart).
  apply bind_Ok in Hstart as (? & _ & Hstart). injection Hstart as <-. case_bool_decide as Es.
  - unfold assignment_semantics in Es. injection Es as Ei Ev Ef Et Est. unfold resolve_amortized_cost_assignment.
    destruct (correction_same_window ASSIGNMENT_CONFLICT assignments previous current scope d Hc) as (xs & -> & -> & Hin); [cbn; by rewrite Est|done|done|].
    cbn [mbind result_bind]. destruct xs as [|a [|b xs]]; [done| |].
    + cbn [map]. destruct (Hin a ltac:(left)) as [Ha [->|[-> ->]]]; [done|]. rewrite Forall_app in Hok. destruct Hok as [Hok Hcur].
      destruct (assignment_hash current (Forall_inv Hcur)) as (h & ->). destruct (assignment_hash previous (proj1 (Forall_forall _ _) Hok _ Ha)) as (h' & ->).
      unfold resolved_policy. cbn. by rewrite Ei, Ev.
    + cbn [map]. unfold resolved_policy. cbn [mbind result_bind]. do 2 f_equal. exact (corrected_sources current (a :: b :: xs)).
  - intros Hd. unfold resolve_amortized_cost_assignment. by rewrite (correction_before ASSIGNMENT_CONFLICT assignments previous current scope d Hc Hd).
Qed.
End Facts.

(** ** A corrected assignment *)

Definition example_scope : LotBookCostAuthorityScope :=
  {| ls_tenant_id := "T"; ls_legal_book_id := "B"; ls_portfolio_id := "P"; ls_security_id := "S"; ls_lot_id := "L" |}.

Definition example_instant : datetime := {| dt_us := 0; dt_utcoffset := Some 0 |}.

Definition example_assignment (version : Z) (policy : string) (valid_from : date) (valid_to : option date) (record : string) : LotAmortizedCostPolicyAssignment :=
  {| pa_scope := example_scope; pa_policy_id := policy; pa_policy_version := 1; pa_valid_from := valid_from; pa_valid_to := valid_to;
     pa_assignment_status := ASSIGNMENT_ACTIVE; pa_assignment_version := version; pa_source_system := "SRC"; pa_source_record_id := record;
     pa_source_revision := "r"; pa_observed_at := example_instant; pa_assignment_reason := "policy" |}.

Definition example_assignments : list LotAmortizedCostPolicyAssignment :=
  [example_assignment 1 STRAIGHT_LINE_LOCAL_POLICY_ID 100 (Some 200) "1"; example_assignment 1 IFRS9_EIR_LOCAL_POLICY_ID 201 None "2"].

Lemma example_assignment_ok v p f t r : (forall e, t = Some e -> f <= e) -> assignment_ok (example_assignment v p f t r).
Proof. intros Hw. split; [exact Hw|reflexivity]. Qed.

Lemma example_assignments_ok : Forall assignment_ok example_assignments.
Proof.
  constructor; [apply example_assignment_ok; intros e [= <-]; lia|]. constructor; [apply example_assignment_ok; discriminate|constructor].
Qed.

Lemma example_corrects : corrects ASSIGNMENT_CONFLICT example_assignments (example_assignment 1 IFRS9_EIR_LOCAL_POLICY_ID 201 None "2")
  (example_assignment 2 STRAIGHT_LINE_LOCAL_POLICY_ID 250 None "2").
Proof. split; [reflexivity|cbn; lia|]. exists example_assignments. split; [reflexivity|]. right. left. Qed.

Lemma window_check_decides_resolution_witness :
  Forall assignment_ok example_assignments /\
  forall scope d, settled (@resolve_amortized_cost_assignment constant_hashing example_assignments scope d).
Proof.
  split; [exact example_assignments_ok|]. apply (proj1 (@window_check_decides_resolution constant_hashing example_assignments example_assignments_ok)). reflexivity.
Defined.

Lemma assignment_replay_is_bounded_witness : forall d, d < 201 ->
  @resolve_amortized_cost_assignment constant_hashing (example_assignments ++ [example_assignment 2 STRAIGHT_LINE_LOCAL_POLICY_ID 250 None "2"]) example_scope d =
  @resolve_amortized_cost_assignment constant_hashing example_assignments example_scope d.
Proof.
  intros d. assert (Hok : Forall assignment_ok (example_assignments ++ [example_assignment 2 STRAIGHT_LINE_LOCAL_POLICY_ID 250 None "2"])).
  { apply Forall_app. split; [exact example_assignments_ok|]. constructor; [|constructor]. apply example_assignment_ok. discriminate. }
  exact (@assignment_replay_is_bounded constant_hashing _ _ _ (Some 201) Hok example_corrects eq_refl example_scope d).
Defined.
