(* ===== verification/BookCostSources.v ===== *)
(** * Source facts of amortized book cost

    [fixed_income_book_cost/source_facts.py]: the clean-cost basis, the yield and the schedule a source states for a
    lot; [resolution.py]: the one complete bundle of facts that supports a calculation, or the reason there is none;
    [correction_replay.py]: from when a corrected fact is to be replayed, and the intent to replay. *)

From Stdlib Require Import ZArith Lia String.
From stdpp Require Import base tactics list sorting strings.
From S2P Require Import Prelude PyDecimal PyTime Precision Lineage Values AccruedIncome AmortizedCost SourceVersions BookCostAuthority.

#[local] Open Scope string_scope.
#[local] Open Scope Z_scope.

(** ** Facts *)

Inductive AmortizedCostSourceFactStatus := FACT_ACTIVE | FACT_SUSPENDED | FACT_RETIRED.
Inductive DiscountOriginClassification := ORIGIN_AT_PAR | PURCHASE_PREMIUM | MARKET_DISCOUNT | ORIGINAL_ISSUE_DISCOUNT.

#[export] Instance fact_status_eq_dec : EqDecision AmortizedCostSourceFactStatus.
Proof. solve_decision. Defined.
#[export] Instance discount_origin_eq_dec : EqDecision DiscountOriginClassification.
Proof. solve_decision. Defined.

Definition fact_status_value (x : AmortizedCostSourceFactStatus) : string :=
  match x with FACT_ACTIVE => "ACTIVE" | FACT_SUSPENDED => "SUSPENDED" | FACT_RETIRED => "RETIRED" end.
Definition discount_origin_value (x : DiscountOriginClassification) : string :=
  match x with
  | ORIGIN_AT_PAR => "AT_PAR" | PURCHASE_PREMIUM => "PURCHASE_PREMIUM" | MARKET_DISCOUNT => "MARKET_DISCOUNT"
  | ORIGINAL_ISSUE_DISCOUNT => "ORIGINAL_ISSUE_DISCOUNT"
  end.

Record AmortizedCostSourceMetadata := {
  md_source_system : string; md_source_record_id : string; md_source_revision : string; md_fact_version : Z; md_observed_at : datetime
}.

Definition make_AmortizedCostSourceMetadata (source_system source_record_id source_revision : string) (fact_version : Z) (observed_at : datetime)
  : result AmortizedCostSourceMetadata :=
  system ← require_nonblank source_system "source_system";
  record ← require_nonblank source_record_id "source_record_id";
  revision ← require_nonblank source_revision "source_revision";
  _ ← require_positive_integer fact_version "fact_version";
  _ ← raise_if (is_naive observed_at) (ValueError "observed_at must be timezone-aware");
  Ok {| md_source_system := system; md_source_record_id := record; md_source_revision := revision; md_fact_version := fact_version;
        md_observed_at := observed_at |}.

Definition metadata_eqb (a b : AmortizedCostSourceMetadata) : bool :=
  String.eqb (md_source_system a) (md_source_system b) && String.eqb (md_source_record_id a) (md_source_record_id b) &&
  String.eqb (md_source_revision a) (md_source_revision b) && (md_fact_version a =? md_fact_version b) &&
  datetime_eqb (md_observed_at a) (md_observed_at b).

Definition md_lineage_payload (m : AmortizedCostSourceMetadata) : payload :=
  PMap [("fact_version", PInt (md_fact_version m)); ("observed_at", PDatetime (md_observed_at m)); ("source_record_id", PStr (md_source_record_id m));
        ("source_revision", PStr (md_source_revision m)); ("source_system", PStr (md_source_system m))].

(** What the three kinds of facts share. *)
Record FactWindow := { fw_scope : LotBookCostAuthorityScope; fw_valid_from : date; fw_valid_to : option date; fw_fact_status : AmortizedCostSourceFactStatus;
                       fw_source : AmortizedCostSourceMetadata }.

Definition window_eqb (a b : FactWindow) : bool :=
  bool_decide (fw_scope a = fw_scope b) && (fw_valid_from a =? fw_valid_from b) && bool_decide (fw_valid_to a = fw_valid_to b) &&
  bool_decide (fw_fact_status a = fw_fact_status b) && metadata_eqb (fw_source a) (fw_source b).

Record LotAmortizedCostBasisFact := {
  bf_window : FactWindow; bf_currency : string; bf_initial_clean_cost_local : decimal; bf_fees_in_basis_local : decimal;
  bf_redemption_value_local : decimal; bf_discount_origin : DiscountOriginClassification
}.

Definition validate_discount_origin (f : LotAmortizedCostBasisFact) : result unit :=
  let opening := bf_initial_clean_cost_local f in
  if dltb (bf_redemption_value_local f) opening then
    raise_if (bool_decide (bf_discount_origin f <> PURCHASE_PREMIUM)) (ValueError "premium basis requires PURCHASE_PREMIUM classification")
  else if deqb opening (bf_redemption_value_local f) then
    raise_if (bool_decide (bf_discount_origin f <> ORIGIN_AT_PAR)) (ValueError "par basis requires AT_PAR classification")
  else
    raise_if (negb (bool_decide (bf_discount_origin f ∈ [MARKET_DISCOUNT; ORIGINAL_ISSUE_DISCOUNT])))
      (ValueError "discount basis requires MARKET_DISCOUNT or ORIGINAL_ISSUE_DISCOUNT").

Definition make_LotAmortizedCostBasisFact (w : FactWindow) (currency : string) (initial_clean_cost_local fees_in_basis_local redemption_value_local : number)
  (discount_origin : DiscountOriginClassification) : result LotAmortizedCostBasisFact :=
  code ← normalize_currency_code (PStr currency);
  initial ← require_nonnegative_finite initial_clean_cost_local "initial_clean_cost_local";
  fees ← require_nonnegative_finite fees_in_basis_local "fees_in_basis_local";
  redemption ← require_nonnegative_finite redemption_value_local "redemption_value_local";
  _ ← require_window (fw_valid_from w) (fw_valid_to w);
  let fact := {| bf_window := w; bf_currency := code; bf_initial_clean_cost_local := initial; bf_fees_in_basis_local := fees;
                 bf_redemption_value_local := redemption; bf_discount_origin := discount_origin |} in
  _ ← validate_discount_origin fact;
  Ok fact.

Record LotEffectiveYieldFact := { yf_window : FactWindow; yf_annual_yield : decimal; yf_yield_application_convention : YieldApplicationConvention }.

Definition make_LotEffectiveYieldFact (w : FactWindow) (annual_yield : number) (convention : YieldApplicationConvention) : result LotEffectiveYieldFact :=
  y ← finite annual_yield "annual_yield";
  _ ← raise_if (bool_decide (convention = PER_PERIOD_EFFECTIVE)) (ValueError "per-period rates belong to the authoritative schedule fact");
  _ ← raise_if (bool_decide (convention = ANNUAL_EFFECTIVE) && dleb y minus_one)
        (ValueError "annual effective yield must be greater than negative one");
  _ ← require_window (fw_valid_from w) (fw_valid_to w);
  Ok {| yf_window := w; yf_annual_yield := y; yf_yield_application_convention := convention |}.

Record LotAmortizationScheduleFact := {
  sf_window : FactWindow; sf_schedule_version : Z; sf_year_fraction_method_id : string; sf_year_fraction_method_version : Z;
  sf_periods : list AmortizationPeriodInput
}.

Definition make_LotAmortizationScheduleFact (w : FactWindow) (schedule_version : Z) (year_fraction_method_id : string)
  (year_fraction_method_version : Z) (periods : list AmortizationPeriodInput) : result LotAmortizationScheduleFact :=
  _ ← require_positive_integer schedule_version "schedule_version";
  method_id ← require_nonblank year_fraction_method_id "year_fraction_method_id";
  _ ← require_positive_integer year_fraction_method_version "year_fraction_method_version";
  _ ← raise_if (match periods with [] => true | _ => false end) (ValueError "periods must not be empty");
  _ ← raise_if (negb (contiguous periods)) (ValueError "periods must be contiguous and ordered");
  _ ← require_window (fw_valid_from w) (fw_valid_to w);
  Ok {| sf_window := w; sf_schedule_version := schedule_version; sf_year_fraction_method_id := method_id;
        sf_year_fraction_method_version := year_fraction_method_version; sf_periods := periods |}.

(** [==] of facts: decimals by value, datetimes by instant. *)
Definition option_deqb (a b : option decimal) : bool := match a, b with Some x, Some y => deqb x y | None, None => true | _, _ => false end.

Definition period_eqb (a b : AmortizationPeriodInput) : bool :=
  (pi_period_start_date a =? pi_period_start_date b) && (pi_period_end_date a =? pi_period_end_date b) && deqb (pi_year_fraction a) (pi_year_fraction b) &&
  deqb (pi_cash_coupon_local a) (pi_cash_coupon_local b) && option_deqb (pi_supplied_period_rate a) (pi_supplied_period_rate b).

Fixpoint periods_eqb (xs ys : list AmortizationPeriodInput) : bool :=
  match xs, ys with [], [] => true | x :: xs, y :: ys => period_eqb x y && periods_eqb xs ys | _, _ => false end.

Definition basis_terms_eqb (a b : LotAmortizedCostBasisFact) : bool :=
  String.eqb (bf_currency a) (bf_currency b) && deqb (bf_initial_clean_cost_local a) (bf_initial_clean_cost_local b) &&
  deqb (bf_fees_in_basis_local a) (bf_fees_in_basis_local b) && deqb (bf_redemption_value_local a) (bf_redemption_value_local b) &&
  bool_decide (bf_discount_origin a = bf_discount_origin b).

Definition schedule_terms_eqb (a b : LotAmortizationScheduleFact) : bool :=
  (sf_schedule_version a =? sf_schedule_version b) && String.eqb (sf_year_fraction_method_id a) (sf_year_fraction_method_id b) &&
  (sf_year_fraction_method_version a =? sf_year_fraction_method_version b) && periods_eqb (sf_periods a) (sf_periods b).

Definition yield_terms_eqb (a b : LotEffectiveYieldFact) : bool :=
  deqb (yf_annual_yield a) (yf_annual_yield b) && bool_decide (yf_yield_application_convention a = yf_yield_application_convention b).

(** A kind of fact: its window, the comparison of its terms and how it is written. *)
Class SourceFact (A : Type) := { fact_window : A -> FactWindow; fact_terms_eqb : A -> A -> bool; fact_type : string; fact_economics : A -> payload }.

#[export] Instance basis_fact : SourceFact LotAmortizedCostBasisFact := {
  fact_window := bf_window; fact_terms_eqb := basis_terms_eqb; fact_type := "LOT_AMORTIZED_COST_BASIS";
  fact_economics := fun f => PMap
    [("currency", PStr (bf_currency f)); ("discount_origin", PEnum (PStr (discount_origin_value (bf_discount_origin f))));
     ("fees_in_basis_local", PDec (bf_fees_in_basis_local f)); ("initial_clean_cost_local", PDec (bf_initial_clean_cost_local f));
     ("redemption_value_local", PDec (bf_redemption_value_local f))]
}.

#[export] Instance yield_fact : SourceFact LotEffectiveYieldFact := {
  fact_window := yf_window; fact_terms_eqb := yield_terms_eqb; fact_type := "LOT_EFFECTIVE_YIELD";
  fact_economics := fun f => PMap
    [("annual_yield", PDec (yf_annual_yield f)); ("yield_application_convention", PEnum (PStr (convention_value (yf_yield_application_convention f))))]
}.

#[export] Instance schedule_fact : SourceFact LotAmortizationScheduleFact := {
  fact_window := sf_window; fact_terms_eqb := schedule_terms_eqb; fact_type := "LOT_AMORTIZATION_SCHEDULE";
  fact_economics := fun f => PMap
    [("periods", PSeq (map (fun p => PMap
       [("cash_coupon_local", PDec (pi_cash_coupon_local p)); ("period_end_date", PDate (pi_period_end_date p));
        ("period_start_date", PDate (pi_period_start_date p)); ("supplied_period_rate", PDecOpt (pi_supplied_period_rate p));
        ("year_fraction", PDec (pi_year_fraction p))]) (sf_periods f)));
     ("schedule_version", PInt (sf_schedule_version f)); ("year_fraction_method_id", PStr (sf_year_fraction_method_id f));
     ("year_fraction_method_version", PInt (sf_year_fraction_method_version f))]
}.

#[export] Instance fact_record {A} `{SourceFact A} : SourceRecord A LotBookCostAuthorityScope := {
  record_scope := fun f => fw_scope (fact_window f); record_system := fun f => md_source_system (fw_source (fact_window f));
  record_id := fun f => md_source_record_id (fw_source (fact_window f)); record_version := fun f => md_fact_version (fw_source (fact_window f));
  record_from := fun f => fw_valid_from (fact_window f); record_to := fun f => fw_valid_to (fact_window f);
  record_active := fun f => bool_decide (fw_fact_status (fact_window f) = FACT_ACTIVE);
  record_eqb := fun f g => window_eqb (fact_window f) (fact_window g) && fact_terms_eqb f g
}.

Definition fact_payload {A} `{SourceFact A} (f : A) : payload :=
  let w := fact_window f in
  PMap [("economics", fact_economics f); ("fact_status", PEnum (PStr (fact_status_value (fw_fact_status w)))); ("fact_type", PStr (fact_type (A := A)));
        ("scope", scope_payload (fw_scope w)); ("source", md_lineage_payload (fw_source w)); ("valid_from", PDate (fw_valid_from w));
        ("valid_to", match fw_valid_to w with Some t => PDate t | None => PNone end)].

(** ** Resolution *)

Record LotAmortizedCostAuthorityCacheKey := {
  ck_scope : LotBookCostAuthorityScope; ck_effective_date : date; ck_policy_id : string; ck_policy_version : Z; ck_assignment_content_hash : string;
  ck_basis_content_hash : string; ck_schedule_content_hash : string; ck_yield_content_hash : option string; ck_authority_content_hash : string
}.

Record ResolvedLotAmortizedCostInputs := {
  ri_assignment : LotAmortizedCostPolicyAssignment; ri_policy : AmortizedCostPolicy; ri_basis_fact : LotAmortizedCostBasisFact;
  ri_schedule_fact : LotAmortizationScheduleFact; ri_yield_fact : option LotEffectiveYieldFact; ri_calculation_inputs : AmortizedCostScheduleInput;
  ri_source_references : list FinancialSourceReference; ri_cache_key : LotAmortizedCostAuthorityCacheKey
}.

#[local] Notation refuse r m := (AmortizedCostInputResolutionError r m []).

Definition fact_conflict (fact_name : string) : exc :=
  refuse SOURCE_FACT_CONFLICTING ("conflicting " +:+ fact_name +:+ " payloads share one source version").

Definition active_effective_facts {A} `{SourceFact A} (fact_name : string) (facts : list A) (scope : LotBookCostAuthorityScope) (effective_date : date)
  : result (list A) := effective_records (fact_conflict fact_name) facts scope effective_date.

Definition resolve_fact {A} `{SourceFact A} (missing_reason : AmortizedCostEligibilityReason) (fact_name : string) (facts : list A)
  (scope : LotBookCostAuthorityScope) (effective_date : date) : result A :=
  effective ← active_effective_facts fact_name facts scope effective_date;
  match effective with
  | [] => Raise (refuse missing_reason ("no active " +:+ fact_name +:+ " fact for exact source-lot scope and date"))
  | [fact] => Ok fact
  | _ => Raise (AmortizedCostInputResolutionError SOURCE_FACT_OVERLAPPING ("overlapping active " +:+ fact_name +:+ " facts: ") (listed_sources effective))
  end.

Definition validate_policy_identity (a : ResolvedAmortizedCostAssignment) (policy : AmortizedCostPolicy) : result unit :=
  raise_if (negb (String.eqb (pa_policy_id (ra_assignment a)) (am_policy_id policy)) ||
            negb (pa_policy_version (ra_assignment a) =? am_policy_version policy))
    (refuse POLICY_IDENTITY_MISMATCH "resolved policy does not match the exact source-lot assignment").

Definition validate_schedule_rate_authority (policy : AmortizedCostPolicy) (schedule : LotAmortizationScheduleFact) : result unit :=
  match am_method policy with
  | STRAIGHT_LINE =>
      raise_if (existsb has_rate (sf_periods schedule))
        (refuse YIELD_CONVENTION_MISMATCH "straight-line authority must not include supplied period rates")
  | EFFECTIVE_YIELD =>
      match am_yield_application_convention policy with
      | Some PER_PERIOD_EFFECTIVE =>
          raise_if (existsb (fun p => negb (has_rate p)) (sf_periods schedule))
            (refuse PERIOD_RATE_MISSING "each per-period-effective schedule period requires a supplied rate")
      | _ =>
          raise_if (existsb has_rate (sf_periods schedule))
            (refuse YIELD_CONVENTION_MISMATCH "annual-yield authority must not include supplied period rates")
      end
  end.

(** When a record was observed, and the name of its source. *)
Definition assignment_observation (a : LotAmortizedCostPolicyAssignment) : datetime * string :=
  (pa_observed_at a, source_name (pa_source_system a) (pa_source_record_id a)).
Definition fact_observation {A} `{SourceFact A} (f : A) : datetime * string :=
  let source := fw_source (fact_window f) in (md_observed_at source, source_name (md_source_system source) (md_source_record_id source)).

Definition validate_freshness (records : list (datetime * string)) (freshness_cutoff : option datetime) : result unit :=
  match freshness_cutoff with
  | None => Ok tt
  | Some cutoff =>
      let stale_sources := map snd (List.filter (fun r => dt_instant (fst r) <? dt_instant cutoff) records) in
      raise_if (match stale_sources with [] => false | _ => true end)
        (AmortizedCostInputResolutionError AUTHORITY_STALE "amortized-cost authority is stale: " (stable_sort string_leb stale_sources))
  end.

Definition resolve_yield_fact (yield_facts : list LotEffectiveYieldFact) (scope : LotBookCostAuthorityScope) (effective_date : date)
  (policy : AmortizedCostPolicy) : result (option LotEffectiveYieldFact) :=
  effective_candidates ← active_effective_facts "effective-yield" yield_facts scope effective_date;
  let some_candidate := match effective_candidates with [] => false | _ => true end in
  match am_method policy, am_yield_application_convention policy with
  | STRAIGHT_LINE, _ =>
      _ ← raise_if some_candidate (refuse YIELD_CONVENTION_MISMATCH "straight-line authority must not include a yield fact"); Ok None
  | EFFECTIVE_YIELD, Some PER_PERIOD_EFFECTIVE =>
      _ ← raise_if some_candidate (refuse YIELD_CONVENTION_MISMATCH "per-period-effective authority must not include an annual yield fact"); Ok None
  | EFFECTIVE_YIELD, convention =>
      fact ← resolve_fact EFFECTIVE_YIELD_MISSING "effective-yield" yield_facts scope effective_date;
      _ ← raise_if (bool_decide (Some (yf_yield_application_convention fact) <> convention))
            (refuse YIELD_CONVENTION_MISMATCH "yield fact convention does not match the assigned amortized-cost policy");
      Ok (Some fact)
  end.

Definition policy_payload (policy : AmortizedCostPolicy) : payload :=
  PMap [("include_fees_in_amortized_cost", PBool (am_include_fees_in_amortized_cost policy)); ("method", PEnum (PStr (method_value (am_method policy))));
        ("policy_id", PStr (am_policy_id policy)); ("policy_version", PInt (am_policy_version policy));
        ("residual_tolerance_local", PDec (am_residual_tolerance_local policy));
        ("yield_application_convention",
          match am_yield_application_convention policy with Some c => PEnum (PStr (convention_value c)) | None => PNone end)].

Definition authority_payload (assignment_hash basis_hash schedule_hash : string) (yield_hash : option string) (scope : LotBookCostAuthorityScope)
  (effective_date : date) (policy : AmortizedCostPolicy) : payload :=
  PMap [("assignment_content_hash", PStr assignment_hash); ("basis_content_hash", PStr basis_hash); ("effective_date", PDate effective_date);
        ("policy", policy_payload policy); ("schedule_content_hash", PStr schedule_hash); ("scope", PSeq (map PStr (scope_key scope)));
        ("yield_content_hash", match yield_hash with Some h => PStr h | None => PNone end)].

Section Resolution.
Context `{Hashing}.

Definition fact_content_hash {A} `{SourceFact A} (f : A) : result string := canonical_content_hash (fact_payload f).

Definition fact_source_reference {A} `{SourceFact A} (f : A) : result FinancialSourceReference :=
  let source := fw_source (fact_window f) in
  hash ← fact_content_hash f;
  make_FinancialSourceReference (md_source_system source) (md_source_record_id source) (md_source_revision source) hash (md_observed_at source).

Definition resolve_assignment (assignments : list LotAmortizedCostPolicyAssignment) (scope : LotBookCostAuthorityScope) (effective_date : date)
  : result ResolvedAmortizedCostAssignment :=
  match resolve_amortized_cost_assignment assignments scope effective_date with
  | Raise (MissingAmortizedCostAssignmentError m) => Raise (refuse ASSIGNMENT_MISSING m)
  | Raise (OverlappingAmortizedCostAssignmentError m listed) => Raise (AmortizedCostInputResolutionError ASSIGNMENT_OVERLAPPING m listed)
  | Raise (AmortizedCostAuthorityError m) => Raise (refuse ASSIGNMENT_CONFLICTING m)
  | r => r
  end.

Definition optional_hash (f : option LotEffectiveYieldFact) : result (option string) :=
  match f with Some y => h ← fact_content_hash y; Ok (Some h) | None => Ok None end.

Definition authority_cache_key (scope : LotBookCostAuthorityScope) (effective_date : date) (a : ResolvedAmortizedCostAssignment)
  (basis : LotAmortizedCostBasisFact) (schedule : LotAmortizationScheduleFact) (yield : option LotEffectiveYieldFact) (policy : AmortizedCostPolicy)
  : result LotAmortizedCostAuthorityCacheKey :=
  yield_hash ← optional_hash yield;
  basis_hash ← fact_content_hash basis;
  schedule_hash ← fact_content_hash schedule;
  let assignment_hash := ak_assignment_content_hash (ra_cache_key a) in
  authority_hash ← canonical_content_hash (authority_payload assignment_hash basis_hash schedule_hash yield_hash scope effective_date policy);
  Ok {| ck_scope := scope; ck_effective_date := effective_date; ck_policy_id := am_policy_id policy; ck_policy_version := am_policy_version policy;
        ck_assignment_content_hash := assignment_hash; ck_basis_content_hash := basis_hash; ck_schedule_content_hash := schedule_hash;
        ck_yield_content_hash := yield_hash; ck_authority_content_hash := authority_hash |}.

Definition resolve_lot_amortized_cost_inputs (assignments : list LotAmortizedCostPolicyAssignment) (basis_facts : list LotAmortizedCostBasisFact)
  (schedule_facts : list LotAmortizationScheduleFact) (yield_facts : list LotEffectiveYieldFact) (scope : LotBookCostAuthorityScope)
  (effective_date : date) (policy : AmortizedCostPolicy) (freshness_cutoff : option datetime) : result ResolvedLotAmortizedCostInputs :=
  _ ← raise_if (match freshness_cutoff with Some c => is_naive c | None => false end) (ValueError "freshness_cutoff must be timezone-aware");
  assignment ← resolve_assignment assignments scope effective_date;
  _ ← validate_policy_identity assignment policy;
  basis ← resolve_fact CLEAN_COST_EVIDENCE_MISSING "clean-cost basis" basis_facts scope effective_date;
  schedule ← resolve_fact CASHFLOW_SCHEDULE_MISSING "amortization schedule" schedule_facts scope effective_date;
  _ ← validate_schedule_rate_authority policy schedule;
  _ ← validate_freshness [assignment_observation (ra_assignment assignment); fact_observation basis; fact_observation schedule] freshness_cutoff;
  yield ← resolve_yield_fact yield_facts scope effective_date policy;
  _ ← match yield with Some f => validate_freshness [fact_observation f] freshness_cutoff | None => Ok tt end;
  inputs ← make_AmortizedCostScheduleInput (Finite (bf_initial_clean_cost_local basis)) (Finite (bf_fees_in_basis_local basis))
             (Finite (bf_redemption_value_local basis)) (sf_periods schedule) (option_map (fun f => Finite (yf_annual_yield f)) yield);
  assignment_reference ← pa_source_reference (ra_assignment assignment);
  basis_reference ← fact_source_reference basis;
  schedule_reference ← fact_source_reference schedule;
  yield_reference ← match yield with Some f => r ← fact_source_reference f; Ok [r] | None => Ok [] end;
  cache_key ← authority_cache_key scope effective_date assignment basis schedule yield policy;
  Ok {| ri_assignment := ra_assignment assignment; ri_policy := policy; ri_basis_fact := basis; ri_schedule_fact := schedule; ri_yield_fact := yield;
        ri_calculation_inputs := inputs;
        ri_source_references := assignment_reference :: basis_reference :: schedule_reference :: yield_reference; ri_cache_key := cache_key |}.
End Resolution.

(** ** Corrections *)

(** [_source_fact_semantics(previous) == _source_fact_semantics(current)]. *)
Definition fact_semantics_eqb {A} `{SourceFact A} (f g : A) : bool :=
  let v := fact_window f in let w := fact_window g in
  (fw_valid_from v =? fw_valid_from w) && bool_decide (fw_valid_to v = fw_valid_to w) && bool_decide (fw_fact_status v = fw_fact_status w) && fact_terms_eqb f g.

Definition fact_replay_start {A} `{SourceFact A} (previous current : A) : result (option date) :=
  _ ← raise_if (bool_decide (record_key previous <> record_key current)) (ValueError "authority correction versions must share one source record");
  _ ← raise_if (record_version current <=? record_version previous) (ValueError "authority correction version must increase");
  Ok (if fact_semantics_eqb previous current then None else Some (Z.min (record_from previous) (record_from current))).

(** The correction of an authority, by its kind. *)
Inductive FixedIncomeBookCostAuthority :=
| AuthorityAssignment (a : LotAmortizedCostPolicyAssignment)
| AuthorityBasis (f : LotAmortizedCostBasisFact)
| AuthoritySchedule (f : LotAmortizationScheduleFact)
| AuthorityYield (f : LotEffectiveYieldFact).

Definition amortized_cost_authority_replay_start (previous current : FixedIncomeBookCostAuthority) : result (option date) :=
  match previous, current with
  | AuthorityAssignment p, AuthorityAssignment c =>
      _ ← raise_if (bool_decide (record_key p <> record_key c)) (ValueError "authority correction versions must share one source record");
      amortization_replay_start_for_assignment_correction p c
  | AuthorityBasis p, AuthorityBasis c => fact_replay_start p c
  | AuthoritySchedule p, AuthoritySchedule c => fact_replay_start p c
  | AuthorityYield p, AuthorityYield c => fact_replay_start p c
  | _, _ => Raise (TypeError "authority correction versions must have the same type")
  end.

(** ** The intent to replay *)

Definition FIXED_INCOME_BOOK_COST_CORRECTION_REPLAY_ID_VERSION : Z := 1.

Definition eligibility_reason_value (r : AmortizedCostEligibilityReason) : string :=
  match r with
  | ASSIGNMENT_MISSING => "ASSIGNMENT_MISSING" | ASSIGNMENT_OVERLAPPING => "ASSIGNMENT_OVERLAPPING" | ASSIGNMENT_CONFLICTING => "ASSIGNMENT_CONFLICTING"
  | SOURCE_FACT_OVERLAPPING => "SOURCE_FACT_OVERLAPPING" | SOURCE_FACT_CONFLICTING => "SOURCE_FACT_CONFLICTING" | AUTHORITY_STALE => "AUTHORITY_STALE"
  | CLEAN_COST_EVIDENCE_MISSING => "CLEAN_COST_EVIDENCE_MISSING" | REDEMPTION_VALUE_MISSING => "REDEMPTION_VALUE_MISSING"
  | CASHFLOW_SCHEDULE_MISSING => "CASHFLOW_SCHEDULE_MISSING" | EFFECTIVE_YIELD_MISSING => "EFFECTIVE_YIELD_MISSING"
  | YIELD_CONVENTION_MISSING => "YIELD_CONVENTION_MISSING" | YIELD_CONVENTION_MISMATCH => "YIELD_CONVENTION_MISMATCH"
  | PERIOD_RATE_MISSING => "PERIOD_RATE_MISSING" | POLICY_IDENTITY_MISMATCH => "POLICY_IDENTITY_MISMATCH" | POLICY_UNSUPPORTED => "POLICY_UNSUPPORTED"
  | CALCULATION_FAILED => "CALCULATION_FAILED" | RESIDUAL_OUTSIDE_TOLERANCE => "RESIDUAL_OUTSIDE_TOLERANCE"
  end.

Record AffectedLotDisposalReplayAnchor := { an_transaction_id : string; an_transaction_timestamp : datetime }.

Definition make_AffectedLotDisposalReplayAnchor (transaction_id : string) (transaction_timestamp : datetime) : result AffectedLotDisposalReplayAnchor :=
  id ← require_nonblank transaction_id "transaction_id";
  _ ← raise_if (is_naive transaction_timestamp) (ValueError "transaction_timestamp must be timezone-aware");
  Ok {| an_transaction_id := id; an_transaction_timestamp := astimezone_utc transaction_timestamp |}.

Record FixedIncomeBookCostProfileDecisionEvidence := {
  de_effective_date : date; de_profile_id : string; de_profile_version : Z; de_authority_content_hash : string;
  de_eligibility_reason : option AmortizedCostEligibilityReason
}.

Definition make_FixedIncomeBookCostProfileDecisionEvidence (effective_date : date) (profile_id : string) (profile_version : Z)
  (authority_content_hash : string) (reason : option AmortizedCostEligibilityReason) : result FixedIncomeBookCostProfileDecisionEvidence :=
  id ← require_nonblank profile_id "profile_id";
  _ ← require_positive_integer profile_version "profile_version";
  hash ← require_sha256_digest authority_content_hash "authority_content_hash";
  Ok {| de_effective_date := effective_date; de_profile_id := id; de_profile_version := profile_version; de_authority_content_hash := hash;
        de_eligibility_reason := reason |}.

Record FixedIncomeBookCostCorrectionReplayIntent := {
  in_scope_of : LotBookCostAuthorityScope; in_earliest_affected_date : date; in_anchor : AffectedLotDisposalReplayAnchor;
  in_source_authority_event_content_hash : string; in_profile_decisions : list FixedIncomeBookCostProfileDecisionEvidence
}.

Definition decision_compare (a b : FixedIncomeBookCostProfileDecisionEvidence) : comparison :=
  lex (Z.compare (de_effective_date a) (de_effective_date b))
    (lex (Z.compare (de_profile_version a) (de_profile_version b)) (String.compare (de_profile_id a) (de_profile_id b))).

Definition make_FixedIncomeBookCostCorrectionReplayIntent (scope : LotBookCostAuthorityScope) (earliest_affected_date : date)
  (anchor : AffectedLotDisposalReplayAnchor) (source_authority_event_content_hash : string)
  (profile_decisions : list FixedIncomeBookCostProfileDecisionEvidence) : result FixedIncomeBookCostCorrectionReplayIntent :=
  _ ← raise_if (dt_date (an_transaction_timestamp anchor) <? earliest_affected_date) (ValueError "anchor cannot precede earliest_affected_date");
  hash ← require_sha256_digest source_authority_event_content_hash "source_authority_event_content_hash";
  _ ← raise_if (match profile_decisions with [] => true | _ => false end) (ValueError "profile_decisions must not be empty");
  let ordered := stable_sort (leb_of decision_compare) profile_decisions in
  let effective_dates := map de_effective_date ordered in
  _ ← raise_if (negb (Nat.eqb (length effective_dates) (length (remove_dups effective_dates))))
        (ValueError "profile_decisions must have unique effective dates");
  Ok {| in_scope_of := scope; in_earliest_affected_date := earliest_affected_date; in_anchor := anchor; in_source_authority_event_content_hash := hash;
        in_profile_decisions := ordered |}.

Definition decision_payload (d : FixedIncomeBookCostProfileDecisionEvidence) : payload :=
  PMap [("authority_content_hash", PStr (de_authority_content_hash d)); ("effective_date", PDate (de_effective_date d));
        ("eligibility_reason", match de_eligibility_reason d with Some r => PStr (eligibility_reason_value r) | None => PNone end);
        ("profile_id", PStr (de_profile_id d)); ("profile_version", PInt (de_profile_version d))].

Definition command_id `{Hashing} (i : FixedIncomeBookCostCorrectionReplayIntent) : result string :=
  canonical_content_hash (PMap
    [("anchor", PMap [("transaction_id", PStr (an_transaction_id (in_anchor i))); ("transaction_timestamp", PDatetime (an_transaction_timestamp (in_anchor i)))]);
     ("earliest_affected_date", PDate (in_earliest_affected_date i)); ("identity_version", PInt FIXED_INCOME_BOOK_COST_CORRECTION_REPLAY_ID_VERSION);
     ("profile_decisions", PSeq (map decision_payload (in_profile_decisions i))); ("scope", scope_payload (in_scope_of i));
     ("source_authority_event_content_hash", PStr (in_source_authority_event_content_hash i))]).
