(* ===== verification/BookCostSourcesFacts.v ===== *)
(** * Source facts of amortized book cost: facts

    Resolution is fail closed up to one defect: what it returns supports the calculation, and it fails with a stable
    reason except for one yield it admits as a fact and then rejects.  A correction changes nothing before the date
    from which it is replayed, whichever kind of authority it corrects. *)

From Stdlib Require Import ZArith Lia String.
From stdpp Require Import base tactics list sorting sets strings.
From S2P Require Import Prelude PyDecimal PyTime Precision Lineage Values AccruedIncome AmortizedCost AmortizedStraightLine SourceVersions BookCostAuthority BookCostAuthorityFacts BookCostSources.

#[local] Open Scope string_scope.
#[local] Open Scope Z_scope.

(** The authority of the lots of a book, as the resolution reads it. *)
Record authority := {
  au_assignments : list LotAmortizedCostPolicyAssignment; au_basis_facts : list LotAmortizedCostBasisFact;
  au_schedule_facts : list LotAmortizationScheduleFact; au_yield_facts : list LotEffectiveYieldFact
}.

(** [au] with the correction [c] recorded. *)
Definition record_correction (au : authority) (c : FixedIncomeBookCostAuthority) : authority :=
  match c with
  | AuthorityAssignment a => {| au_assignments := au_assignments au ++ [a]; au_basis_facts := au_basis_facts au;
                                au_schedule_facts := au_schedule_facts au; au_yield_facts := au_yield_facts au |}
  | AuthorityBasis f => {| au_assignments := au_assignments au; au_basis_facts := au_basis_facts au ++ [f];
                           au_schedule_facts := au_schedule_facts au; au_yield_facts := au_yield_facts au |}
  | AuthoritySchedule f => {| au_assignments := au_assignments au; au_basis_facts := au_basis_facts au;
                              au_schedule_facts := au_schedule_facts au ++ [f]; au_yield_facts := au_yield_facts au |}
  | AuthorityYield f => {| au_assignments := au_assignments au; au_basis_facts := au_basis_facts au;
                           au_schedule_facts := au_schedule_facts au; au_yield_facts := au_yield_facts au ++ [f] |}
  end.

(** [previous] is the version of its source record in force, and [current] a later one. *)
Definition corrects_authority (au : authority) (previous current : FixedIncomeBookCostAuthority) : Prop :=
  match previous, current with
  | AuthorityAssignment p, AuthorityAssignment c => corrects ASSIGNMENT_CONFLICT (au_assignments au) p c
  | AuthorityBasis p, AuthorityBasis c => corrects (fact_conflict "clean-cost basis") (au_basis_facts au) p c
  | AuthoritySchedule p, AuthoritySchedule c => corrects (fact_conflict "amortization schedule") (au_schedule_facts au) p c
  | AuthorityYield p, AuthorityYield c => corrects (fact_conflict "effective-yield") (au_yield_facts au) p c
  | _, _ => False
  end.

Definition resolve_authority `{Hashing} (au : authority) :=
  resolve_lot_amortized_cost_inputs (au_assignments au) (au_basis_facts au) (au_schedule_facts au) (au_yield_facts au).

Section Corrections.
Context `{hashing : Hashing}.

Lemma fact_replay_inv {A} `{SourceFact A} (p c : A) first : fact_replay_start p c = Ok (Some first) -> first = Z.min (record_from p) (record_from c).
Proof. unfold fact_replay_start. intros (? & _ & (? & _ & E)%bind_Ok)%bind_Ok. destruct (fact_semantics_eqb p c); [done|]. by injection E as <-. Qed.

Lemma assignment_replay_inv p c first : amortization_replay_start_for_assignment_correction p c = Ok (Some first) ->
  first = Z.min (record_from p) (record_from c).
Proof. unfold amortization_replay_start_for_assignment_correction. intros (? & _ & (? & _ & E)%bind_Ok)%bind_Ok. case_bool_decide; [done|]. by injection E as <-. Qed.

Lemma resolve_fact_before {A} `{SourceFact A} name reason (facts : list A) p c scope d : corrects (fact_conflict name) facts p c ->
  d < Z.min (record_from p) (record_from c) -> resolve_fact reason name (facts ++ [c]) scope d = resolve_fact reason name facts scope d.
Proof. intros Hc Hd. unfold resolve_fact, active_effective_facts. by rewrite (correction_before _ facts p c scope d Hc Hd). Qed.

(** C36: correcting an assignment, a clean-cost basis, a schedule or a yield changes nothing before the replay date of the correction: for
    every lot, policy and freshness requirement the resolution on an earlier day gives the same bundle or the same failure as before. *)
Theorem correction_replay_is_sufficient au previous current first scope d policy freshness_cutoff :
  corrects_authority au previous current -> amortized_cost_authority_replay_start previous current = Ok (Some first) -> d < first ->
  resolve_authority (record_correction au current) scope d policy freshness_cutoff = resolve_authority au scope d policy freshness_cutoff.
Proof.
  intros Hc Hs Hd. destruct previous as [p|p|p|p], current as [c|c|c|c]; try done; cbn [corrects_authority amortized_cost_authority_replay_start] in Hc, Hs.
  - apply bind_Ok in Hs as (? & _ & ->%assignment_replay_inv). unfold resolve_authority, resolve_lot_amortized_cost_inputs, resolve_assignment, resolve_amortized_cost_assignment.
    cbn [record_correction au_assignments]. by rewrite (correction_before _ _ p c scope d Hc Hd).
  - apply fact_replay_inv in Hs as ->. unfold resolve_authority, resolve_lot_amortized_cost_inputs. cbn [record_correction au_basis_facts].
    by rewrite (resolve_fact_before _ _ _ p c scope d Hc Hd).
  - apply fact_replay_inv in Hs as ->. unfold resolve_authority, resolve_lot_amortized_cost_inputs. cbn [record_correction au_schedule_facts].
    by rewrite (resolve_fact_before _ _ _ p c scope d Hc Hd).
  - apply fact_replay_inv in Hs as ->. unfold resolve_authority, resolve_lot_amortized_cost_inputs, resolve_yield_fact, active_effective_facts. cbn [record_correction au_yield_facts].
    rewrite (correction_before _ _ p c scope d Hc Hd), (resolve_fact_before _ _ _ p c scope d Hc Hd). done.
Qed.
End Corrections.

(** ** Fail-closed resolution *)

(** What the constructors guarantee. *)
Record metadata_ok (m : AmortizedCostSourceMetadata) : Prop := {
  mo_system : truthy (strip (md_source_system m)) = true; mo_record : truthy (strip (md_source_record_id m)) = true;
  mo_revision : truthy (strip (md_source_revision m)) = true; mo_aware : is_naive (md_observed_at m) = false
}.

Record basis_ok (f : LotAmortizedCostBasisFact) : Prop := {
  bo_source : metadata_ok (fw_source (bf_window f)); bo_initial : dltb (bf_initial_clean_cost_local f) dzero = false;
  bo_fees : dltb (bf_fees_in_basis_local f) dzero = false; bo_redemption : dltb (bf_redemption_value_local f) dzero = false
}.

Record schedule_ok (f : LotAmortizationScheduleFact) : Prop := {
  so_source : metadata_ok (fw_source (sf_window f)); so_nonempty : sf_periods f <> []; so_contiguous : contiguous (sf_periods f) = true
}.

Record yield_ok (f : LotEffectiveYieldFact) : Prop := {
  yo_source : metadata_ok (fw_source (yf_window f)); yo_convention : yf_yield_application_convention f <> PER_PERIOD_EFFECTIVE;
  yo_effective : yf_yield_application_convention f = ANNUAL_EFFECTIVE -> dleb (yf_annual_yield f) minus_one = false
}.

Record named_assignment (a : LotAmortizedCostPolicyAssignment) : Prop := {
  na_system : truthy (strip (pa_source_system a)) = true; na_record : truthy (strip (pa_source_record_id a)) = true;
  na_revision : truthy (strip (pa_source_revision a)) = true; na_aware : is_naive (pa_observed_at a) = false
}.

Record authority_ok (au : authority) : Prop := {
  ao_assignments : Forall named_assignment (au_assignments au); ao_basis : Forall basis_ok (au_basis_facts au);
  ao_schedule : Forall schedule_ok (au_schedule_facts au); ao_yield : Forall yield_ok (au_yield_facts au)
}.

Definition policy_ok (p : AmortizedCostPolicy) : Prop := am_yield_application_convention p = None <-> am_method p = STRAIGHT_LINE.

Lemma nonblank_Ok s f : truthy (strip s) = true -> require_nonblank s f = Ok (strip s).
Proof. intros E. unfold require_nonblank. by rewrite E. Qed.

Lemma require_nonblank_inv s f v : require_nonblank s f = Ok v -> truthy (strip v) = true.
Proof. intros [-> Ht]%require_nonblank_Ok. by rewrite strip_idem. Qed.

Lemma make_metadata_ok a b c v o m : make_AmortizedCostSourceMetadata a b c v o = Ok m -> metadata_ok m.
Proof.
  unfold make_AmortizedCostSourceMetadata. intros (x & Hx%require_nonblank_inv & (y & Hy%require_nonblank_inv & (z & Hz%require_nonblank_inv & H)%bind_Ok)%bind_Ok)%bind_Ok.
  apply bind_Ok in H as (? & _ & H). apply bind_Ok in H as (? & Hn%raise_if_Ok & [= <-]). done.
Qed.

Lemma make_basis_ok w cur i fe r o f : metadata_ok (fw_source w) -> make_LotAmortizedCostBasisFact w cur i fe r o = Ok f -> basis_ok f.
Proof.
  assert (Hnn : forall n s d, require_nonnegative_finite n s = Ok d -> dltb d dzero = false).
  { unfold require_nonnegative_finite. intros n s d (e & _ & (? & He%raise_if_Ok & [= <-])%bind_Ok)%bind_Ok. done. }
  intros Hw. unfold make_LotAmortizedCostBasisFact. intros (? & _ & (i' & Hi%Hnn & (f' & Hf%Hnn & (r' & Hr%Hnn & H)%bind_Ok)%bind_Ok)%bind_Ok)%bind_Ok.
  apply bind_Ok in H as (? & _ & H). apply bind_Ok in H as (? & _ & [= <-]). done.
Qed.

Lemma make_schedule_ok w v m mv ps f : metadata_ok (fw_source w) -> make_LotAmortizationScheduleFact w v m mv ps = Ok f -> schedule_ok f.
Proof.
  intros Hw. unfold make_LotAmortizationScheduleFact. intros (? & _ & (? & _ & (? & _ & (? & Hne%raise_if_Ok & (? & Hc%raise_if_Ok & (? & _ & [= <-])%bind_Ok)%bind_Ok)%bind_Ok)%bind_Ok)%bind_Ok)%bind_Ok.
  split; cbn; [done|by destruct ps|by destruct (contiguous ps)].
Qed.

Lemma make_yield_ok w y c f : metadata_ok (fw_source w) -> make_LotEffectiveYieldFact w y c = Ok f -> yield_ok f.
Proof.
  intros Hw. unfold make_LotEffectiveYieldFact. intros (? & _ & (? & Hp%raise_if_Ok & (? & He%raise_if_Ok & (? & _ & [= <-])%bind_Ok)%bind_Ok)%bind_Ok)%bind_Ok.
  split; cbn; [done|by apply bool_decide_eq_false in Hp|]. intros ->. by rewrite bool_decide_eq_true_2 in He.
Qed.

Lemma make_policy_ok id v m c fees tol p : make_AmortizedCostPolicy id v m c fees tol = Ok p -> policy_ok p.
Proof.
  unfold make_AmortizedCostPolicy. intros (? & _ & (? & _ & (? & Hm & (? & _ & (? & _ & [= <-])%bind_Ok)%bind_Ok)%bind_Ok)%bind_Ok)%bind_Ok.
  unfold policy_ok. cbn. by destruct m, c.
Qed.

(** A result is one described by [Q], a refusal with a stable reason, or an error described by [E]. *)
Definition outcome {A} (Q : A -> Prop) (E : exc -> Prop) (r : result A) : Prop :=
  match r with Ok a => Q a | Raise (AmortizedCostInputResolutionError _ _ _) => True | Raise e => E e end.

Lemma resolution_bind {A B} (Q1 : A -> Prop) (Q2 : B -> Prop) E (m : result A) f :
  outcome Q1 E m -> (forall a, Q1 a -> outcome Q2 E (f a)) -> outcome Q2 E (m ≫= f).
Proof. destruct m as [a|[]]; cbn; auto. Qed.

Lemma resolution_raise_if (b : bool) E r m l : outcome (fun _ => b = false) E (raise_if b (AmortizedCostInputResolutionError r m l)).
Proof. by destruct b. Qed.

Section FailClosed.
Context `{hashing : Hashing} {hashing_ok : HashingOk}.

Lemma fact_outcome {A} `{SourceFact A} (P : A -> Prop) E reason name (facts : list A) scope d : Forall P facts ->
  outcome (fun f => P f /\ record_in_force facts scope d f) E (resolve_fact reason name facts scope d).
Proof.
  intros HP. unfold resolve_fact, active_effective_facts. destruct (effective_records_cases (fact_conflict name) facts scope d) as [(xs & Hxs & _)| ->]; [rewrite Hxs|done].
  cbn [mbind result_bind]. destruct xs as [|f [|g xs]]; [done| |done]. pose proof (effective_records_in_force _ _ _ _ _ Hxs f ltac:(left)) as Hf. cbn. split; [|done].
  exact (proj1 (Forall_forall _ _) HP f (proj1 Hf)).
Qed.

Lemma named_hash a : is_naive (pa_observed_at a) = false -> exists h, pa_content_hash a = Ok h.
Proof.
  intros Hn%datetime_payload_ok. apply content_hash_total. unfold assignment_payload, scope_payload. destruct (pa_valid_to a); write_payload.
Qed.

Lemma assignment_outcome E assignments scope d : Forall named_assignment assignments ->
  outcome (fun a => named_assignment (ra_assignment a) /\ record_in_force assignments scope d (ra_assignment a) /\
                    pa_content_hash (ra_assignment a) = Ok (ak_assignment_content_hash (ra_cache_key a))) E (resolve_assignment assignments scope d).
Proof.
  intros HP. unfold resolve_assignment, resolve_amortized_cost_assignment.
  destruct (effective_records_cases ASSIGNMENT_CONFLICT assignments scope d) as [(xs & Hxs & _)| ->]; [rewrite Hxs|done]. cbn [mbind result_bind].
  destruct xs as [|a [|b xs]]; [done| |done]. pose proof (effective_records_in_force _ _ _ _ _ Hxs a ltac:(left)) as Ha. pose proof (proj1 (Forall_forall _ _) HP a (proj1 Ha)) as Hn.
  destruct (named_hash a (na_aware a Hn)) as (h & Hh). rewrite Hh. cbn. done.
Qed.

Lemma reference_total s r v h o : truthy (strip s) = true -> truthy (strip r) = true -> truthy (strip v) = true -> is_sha256_digest h = true -> is_naive o = false ->
  exists x, make_FinancialSourceReference s r v h o = Ok x.
Proof.
  intros Hs Hr Hv Hh Ho. unfold make_FinancialSourceReference. rewrite !nonblank_Ok by done. rewrite !bind_ret. unfold require_sha256_digest. rewrite Hh, bind_ret, Ho.
  cbn [raise_if]. rewrite bind_ret. by eexists.
Qed.

Lemma assignment_reference a : named_assignment a -> exists x, pa_source_reference a = Ok x.
Proof.
  intros [H1 H2 H3 H4]. unfold pa_source_reference. destruct (named_hash a H4) as (h & Hh). rewrite Hh, bind_ret.
  apply canonical_content_hash_digest in Hh. by apply reference_total.
Qed.

Lemma economics_ok_basis f : is_ok (normalize_lineage_value (fact_economics (f : LotAmortizedCostBasisFact))) = true.
Proof. cbn [fact_economics basis_fact]. write_payload. Qed.
Lemma economics_ok_schedule f : is_ok (normalize_lineage_value (fact_economics (f : LotAmortizationScheduleFact))) = true.
Proof. cbn [fact_economics schedule_fact]. write_payload. Qed.
Lemma economics_ok_yield f : is_ok (normalize_lineage_value (fact_economics (f : LotEffectiveYieldFact))) = true.
Proof. cbn [fact_economics yield_fact]. write_payload. Qed.

Lemma fact_hash {A} `{SourceFact A} (f : A) : is_naive (md_observed_at (fw_source (fact_window f))) = false -> is_ok (normalize_lineage_value (fact_economics f)) = true ->
  exists h, fact_content_hash f = Ok h /\ is_sha256_digest h = true.
Proof.
  intros Hn%datetime_payload_ok He. destruct (content_hash_total (fact_payload f)) as (h & Hh).
  { unfold fact_payload, scope_payload, md_lineage_payload. destruct (fw_valid_to (fact_window f)); write_payload. }
  exists h. split; [exact Hh|]. by apply canonical_content_hash_digest in Hh.
Qed.

Lemma fact_reference {A} `{SourceFact A} (f : A) : metadata_ok (fw_source (fact_window f)) -> is_ok (normalize_lineage_value (fact_economics f)) = true ->
  exists x, fact_source_reference f = Ok x.
Proof.
  intros [H1 H2 H3 H4] He. unfold fact_source_reference. destruct (fact_hash f H4 He) as (h & -> & Hd). rewrite bind_ret. by apply reference_total.
Qed.

(** The yield the policy calls for: none, or one of its own convention. *)
Definition yield_called_for (policy : AmortizedCostPolicy) (au : authority) (scope : LotBookCostAuthorityScope) (d : date) (y : option LotEffectiveYieldFact) : Prop :=
  match y with
  | None => am_method policy = STRAIGHT_LINE \/ am_yield_application_convention policy = Some PER_PERIOD_EFFECTIVE
  | Some f => am_method policy = EFFECTIVE_YIELD /\ am_yield_application_convention policy = Some (yf_yield_application_convention f) /\
              yield_ok f /\ record_in_force (au_yield_facts au) scope d f
  end.

Lemma yield_outcome E au scope d policy : policy_ok policy -> Forall yield_ok (au_yield_facts au) ->
  outcome (yield_called_for policy au scope d) E (resolve_yield_fact (au_yield_facts au) scope d policy).
Proof.
  intros Hp HY. unfold resolve_yield_fact. destruct (effective_records_cases (fact_conflict "effective-yield") (au_yield_facts au) scope d) as [(xs & Hxs & Hin)|Hx];
    unfold active_effective_facts; [rewrite Hxs|by rewrite Hx]. rewrite bind_ret. unfold policy_ok in Hp.
  destruct (am_method policy) eqn:Em.
  - assert (G : outcome (yield_called_for policy au scope d) E
      (fact ← resolve_fact EFFECTIVE_YIELD_MISSING "effective-yield" (au_yield_facts au) scope d;
       _ ← raise_if (bool_decide (Some (yf_yield_application_convention fact) <> am_yield_application_convention policy))
             (AmortizedCostInputResolutionError YIELD_CONVENTION_MISMATCH "yield fact convention does not match the assigned amortized-cost policy" []);
       Ok (Some fact))).
    { eapply resolution_bind; [by apply (fact_outcome yield_ok)|]. intros f (Hf & Hf1). eapply resolution_bind; [apply resolution_raise_if|].
      intros ? Hc. apply bool_decide_eq_false in Hc. apply dec_stable in Hc. cbn. rewrite Em. done. }
    destruct (am_yield_application_convention policy) as [[]|] eqn:Ec; try exact G. eapply resolution_bind; [apply resolution_raise_if|]. intros _ _. cbn. by right.
  - eapply resolution_bind; [apply resolution_raise_if|]. intros _ _. cbn. by left.
Qed.

(** When a record that the resolution used was observed: each of them, against a cutoff. *)
Definition observed_since (freshness_cutoff : option datetime) (observed_at : datetime) : Prop :=
  forall cutoff, freshness_cutoff = Some cutoff -> dt_instant cutoff <= dt_instant observed_at.

Definition observations (r : ResolvedLotAmortizedCostInputs) : list datetime :=
  [pa_observed_at (ri_assignment r); md_observed_at (fw_source (bf_window (ri_basis_fact r))); md_observed_at (fw_source (sf_window (ri_schedule_fact r)))] ++
  match ri_yield_fact r with Some f => [md_observed_at (fw_source (yf_window f))] | None => [] end.

(** The cache key names the request and the content of every record that answered it. *)
Record identifies (policy : AmortizedCostPolicy) (scope : LotBookCostAuthorityScope) (d : date) (r : ResolvedLotAmortizedCostInputs)
  (k : LotAmortizedCostAuthorityCacheKey) : Prop := {
  id_request : ck_scope k = scope /\ ck_effective_date k = d;
  id_policy : ck_policy_id k = am_policy_id policy /\ ck_policy_version k = am_policy_version policy;
  id_assignment : pa_content_hash (ri_assignment r) = Ok (ck_assignment_content_hash k);
  id_basis : fact_content_hash (ri_basis_fact r) = Ok (ck_basis_content_hash k);
  id_schedule : fact_content_hash (ri_schedule_fact r) = Ok (ck_schedule_content_hash k);
  id_yield : match ri_yield_fact r with
             | Some f => exists h, fact_content_hash f = Ok h /\ ck_yield_content_hash k = Some h
             | None => ck_yield_content_hash k = None
             end;
  id_authority : canonical_content_hash (authority_payload (ck_assignment_content_hash k) (ck_basis_content_hash k) (ck_schedule_content_hash k)
                   (ck_yield_content_hash k) scope d policy) = Ok (ck_authority_content_hash k)
}.

(** A bundle that supports the calculation: assignment and facts of the lot that are in force and fresh, the facts taken over unchanged, with the
    rates the method asks for, the references of the records in their order, and a key that identifies them. *)
Record supported (policy : AmortizedCostPolicy) (au : authority) (scope : LotBookCostAuthorityScope) (d : date) (freshness_cutoff : option datetime)
  (r : ResolvedLotAmortizedCostInputs) : Prop := {
  su_policy : ri_policy r = policy /\ pa_policy_id (ri_assignment r) = am_policy_id policy /\ pa_policy_version (ri_assignment r) = am_policy_version policy;
  su_assignment : record_in_force (au_assignments au) scope d (ri_assignment r);
  su_basis : record_in_force (au_basis_facts au) scope d (ri_basis_fact r);
  su_schedule : record_in_force (au_schedule_facts au) scope d (ri_schedule_fact r);
  su_yield : yield_called_for policy au scope d (ri_yield_fact r);
  su_fresh : Forall (observed_since freshness_cutoff) (observations r);
  su_inputs : ri_calculation_inputs r =
    {| si_initial_clean_cost_local := bf_initial_clean_cost_local (ri_basis_fact r); si_fees_in_basis_local := bf_fees_in_basis_local (ri_basis_fact r);
       si_redemption_value_local := bf_redemption_value_local (ri_basis_fact r); si_periods := sf_periods (ri_schedule_fact r);
       si_annual_yield := option_map yf_annual_yield (ri_yield_fact r) |};
  su_rates : validate_rate_authority policy (ri_calculation_inputs r) = Ok tt;
  su_references : exists ra rb rs ry, ri_source_references r = ra :: rb :: rs :: ry /\ pa_source_reference (ri_assignment r) = Ok ra /\
    fact_source_reference (ri_basis_fact r) = Ok rb /\ fact_source_reference (ri_schedule_fact r) = Ok rs /\
    match ri_yield_fact r with Some f => exists y, ry = [y] /\ fact_source_reference f = Ok y | None => ry = [] end;
  su_key : identifies policy scope d r (ri_cache_key r)
}.

(** The one error without a reason: a simple annual yield of minus one or less. *)
Definition unreasonable_yield (au : authority) (scope : LotBookCostAuthorityScope) (d : date) (e : exc) : Prop :=
  e = ValueError "annual_yield must be greater than negative one" /\
  exists f, f ∈ au_yield_facts au /\ record_scope f = scope /\ effective_on d f = true /\
    yf_yield_application_convention f = ANNUAL_NOMINAL_SIMPLE /\ dleb (yf_annual_yield f) minus_one = true.

Lemma inputs_outcome policy au scope d b s y : basis_ok b -> schedule_ok s -> yield_called_for policy au scope d y ->
  outcome (fun i => i = {| si_initial_clean_cost_local := bf_initial_clean_cost_local b; si_fees_in_basis_local := bf_fees_in_basis_local b;
                           si_redemption_value_local := bf_redemption_value_local b; si_periods := sf_periods s; si_annual_yield := option_map yf_annual_yield y |})
    (unreasonable_yield au scope d)
    (make_AmortizedCostScheduleInput (Finite (bf_initial_clean_cost_local b)) (Finite (bf_fees_in_basis_local b)) (Finite (bf_redemption_value_local b))
       (sf_periods s) (option_map (fun f => Finite (yf_annual_yield f)) y)).
Proof.
  intros [_ H1 H2 H3] [_ Hne Hc] Hy. unfold make_AmortizedCostScheduleInput, require_nonnegative_finite. cbn [finite]. rewrite !bind_ret, H1, H2, H3. cbn [raise_if]. rewrite !bind_ret, Hc.
  destruct (sf_periods s) as [|p ps]; [done|]. cbn [raise_if negb]. rewrite !bind_ret. destruct y as [f|]; cbn [option_map optional_rate]; [|done].
  unfold require_valid_rate. cbn [finite]. rewrite bind_ret. destruct (dleb (yf_annual_yield f) minus_one) eqn:El; cbn [raise_if]; [|done].
  destruct Hy as (_ & _ & [_ Hnp Heff] & Hin & Hsc & Hef & _). cbn. split; [done|]. exists f. repeat split; try done. destruct (yf_yield_application_convention f); [|done|done]. rewrite Heff in El; done.
Qed.

Lemma rates_ok policy s y i : policy_ok policy -> validate_schedule_rate_authority policy s = Ok tt -> 
  (forall au scope d, yield_called_for policy au scope d y -> si_annual_yield i = option_map yf_annual_yield y -> si_periods i = sf_periods s -> validate_rate_authority policy i = Ok tt).
Proof.
  intros Hp Hs au scope d Hy Ey Es. unfold validate_schedule_rate_authority in Hs. unfold validate_rate_authority. rewrite Ey, Es. unfold policy_ok in Hp.
  destruct (am_method policy) eqn:Em.
  - destruct y as [f|]; cbn [yield_called_for option_map] in *.
    + destruct Hy as (_ & Hc & [_ Hnp _] & _). rewrite Hc in *. destruct (yf_yield_application_convention f); [| |done]; apply raise_if_Ok in Hs; cbn; by rewrite Hs.
    + destruct Hy as [Hy|Hy]; [congruence|]. rewrite Hy in *. apply raise_if_Ok in Hs. cbn. by rewrite Hs.
  - destruct y as [f|]; [destruct Hy as (Hy & _); congruence|]. apply raise_if_Ok in Hs. cbn. by rewrite Hs.
Qed.

Lemma cache_key_total scope d a b s y policy inputs references : metadata_ok (fw_source (bf_window b)) -> metadata_ok (fw_source (sf_window s)) ->
  (forall f, y = Some f -> metadata_ok (fw_source (yf_window f))) -> pa_content_hash (ra_assignment a) = Ok (ak_assignment_content_hash (ra_cache_key a)) ->
  exists k, authority_cache_key scope d a b s y policy = Ok k /\
    identifies policy scope d {| ri_assignment := ra_assignment a; ri_policy := policy; ri_basis_fact := b; ri_schedule_fact := s; ri_yield_fact := y;
      ri_calculation_inputs := inputs; ri_source_references := references; ri_cache_key := k |} k.
Proof.
  intros Hb Hs Hy Ha. unfold authority_cache_key.
  assert (Hyh : exists h, optional_hash y = Ok h /\ match y with Some f => exists x, fact_content_hash f = Ok x /\ h = Some x | None => h = None end).
  { destruct y as [f|]; [|by eexists]. cbn. destruct (fact_hash f) as (h & -> & _); [apply (Hy f eq_refl)|apply economics_ok_yield|]. exists (Some h). split; [done|]. by exists h. }
  destruct Hyh as (yh & -> & Hyh). rewrite bind_ret. destruct (fact_hash b) as (bh & Eb & _); [apply Hb|apply economics_ok_basis|]. rewrite Eb, bind_ret.
  destruct (fact_hash s) as (sh & Es & _); [apply Hs|apply economics_ok_schedule|]. rewrite Es, bind_ret.
  destruct (content_hash_total (authority_payload (ak_assignment_content_hash (ra_cache_key a)) bh sh yh scope d policy)) as (h & Eh);
    [|rewrite Eh; eexists; split; [done|]; split; cbn; done].
  unfold authority_payload, policy_payload, scope_key. destruct yh, (am_yield_application_convention policy); write_payload.
Qed.

Lemma freshness_outcome E records cutoff : outcome (fun _ => Forall (fun x => observed_since cutoff (fst x)) records) E (validate_freshness records cutoff).
Proof.
  unfold validate_freshness, observed_since. destruct cutoff as [c|]; [|apply Forall_forall; naive_solver]. destruct (List.filter _ records) as [|x xs] eqn:Ef; [|done].
  cbn. apply Forall_forall. intros x Hx ? [= <-]. destruct (Z.ltb_spec (dt_instant (fst x)) (dt_instant c)) as [L|]; [|done].
  assert (Hin : In x []); [|done]. rewrite <- Ef. apply List.filter_In. split; [by apply list_elem_of_In|]. by apply Z.ltb_lt.
Qed.

Lemma yield_reference_total y : (forall f, y = Some f -> metadata_ok (fw_source (yf_window f))) ->
  exists rs, (match y with Some f => r ← fact_source_reference f; Ok [r] | None => Ok [] end) = Ok rs /\
    match y with Some f => exists r, rs = [r] /\ fact_source_reference f = Ok r | None => rs = [] end.
Proof.
  intros Hy. destruct y as [f|]; [|by eexists]. destruct (fact_reference f) as (r & Hr); [apply (Hy f eq_refl)|apply economics_ok_yield|]. exists [r]. rewrite Hr. split; [done|]. by exists r.
Qed.

(** C37: resolution fails closed.  On authority built by its constructors it returns a complete bundle of exactly this lot and day, or refuses with a
    stable reason.  The assignment, basis, schedule and yield of a bundle are records of the lot, in their latest version, active and effective on
    the day, and observed no earlier than the cutoff; the assignment names the policy; the calculation accepts the facts as they are; and the
    references and the cache key are those of exactly these records.  The one exception is an effective simple annual yield of minus one or
    less, which is a valid fact and raises a plain ValueError. *)
Theorem resolution_fails_closed au scope d policy freshness_cutoff : authority_ok au -> policy_ok policy ->
  (forall c, freshness_cutoff = Some c -> is_naive c = false) ->
  outcome (supported policy au scope d freshness_cutoff) (unreasonable_yield au scope d) (resolve_authority au scope d policy freshness_cutoff).
Proof.
  intros [HA HB HS HY] Hp Hcut. unfold resolve_authority, resolve_lot_amortized_cost_inputs.
  assert ((match freshness_cutoff with Some c => is_naive c | None => false end) = false) as -> by (destruct freshness_cutoff; [by apply Hcut|done]).
  cbn [raise_if]. rewrite bind_ret. eapply resolution_bind; [by apply assignment_outcome|]. intros a (Ha & Hain & Hah). eapply resolution_bind; [apply resolution_raise_if|]. intros ? Hid.
  apply orb_false_iff in Hid as [Hid%negb_false_iff%String.eqb_eq Hver%negb_false_iff%Z.eqb_eq].
  eapply resolution_bind; [by apply (fact_outcome basis_ok)|]. intros b (Hb & Hb1). eapply resolution_bind; [by apply (fact_outcome schedule_ok)|]. intros s (Hs & Hs1).
  eapply (resolution_bind (fun _ => validate_schedule_rate_authority policy s = Ok tt)).
  { unfold validate_schedule_rate_authority. destruct (am_method policy), (am_yield_application_convention policy) as [[]|]; (destruct (existsb _ _); done). }
  intros ? Hrates. eapply resolution_bind; [apply freshness_outcome|]. intros ? Hfresh. eapply resolution_bind; [by apply yield_outcome|]. intros y Hy.
  eapply (resolution_bind (fun _ => forall f, y = Some f -> observed_since freshness_cutoff (md_observed_at (fw_source (yf_window f))))).
  { destruct y as [f|]; [|done]. pose proof (freshness_outcome (unreasonable_yield au scope d) [fact_observation f] freshness_cutoff) as Hf.
    destruct (validate_freshness _ _) as [?|e]; [|exact Hf]. intros g [= <-]. by apply Forall_cons in Hf as [Hf _]. }
  intros ? Hyfresh. eapply resolution_bind; [by apply (inputs_outcome policy au scope d)|]. intros i Hi.
  destruct (assignment_reference (ra_assignment a) Ha) as (r1 & E1). rewrite E1, bind_ret.
  destruct (fact_reference b) as (r2 & E2); [apply (bo_source b Hb)|apply economics_ok_basis|]. rewrite E2, bind_ret.
  destruct (fact_reference s) as (r3 & E3); [apply (so_source s Hs)|apply economics_ok_schedule|]. rewrite E3, bind_ret.
  assert (Hym : forall f, y = Some f -> metadata_ok (fw_source (yf_window f))) by (intros f ->; destruct Hy as (_ & _ & [Hm _ _] & _); exact Hm).
  destruct (yield_reference_total y Hym) as (r4 & -> & E4). rewrite bind_ret.
  destruct (cache_key_total scope d a b s y policy i (r1 :: r2 :: r3 :: r4) (bo_source b Hb) (so_source s Hs) Hym Hah) as (k & -> & Hk). rewrite bind_ret.
  split; cbn; [done|exact Hain|exact Hb1|exact Hs1|exact Hy| |exact Hi| |by exists r1, r2, r3, r4|exact Hk].
  - unfold observations. cbn. cbv beta in Hfresh. rewrite !Forall_cons in Hfresh. destruct Hfresh as (F1 & F2 & F3 & _). repeat (constructor; [done|]). destruct y as [f|]; [|constructor].
    constructor; [by apply Hyfresh|constructor].
  - rewrite Hi. by apply (rates_ok policy s y _ Hp Hrates au scope d).
Qed.
End FailClosed.

(** ** A lot with its authority *)

Definition example_window (version : Z) (valid_from : date) : FactWindow :=
  {| fw_scope := example_scope; fw_valid_from := valid_from; fw_valid_to := None; fw_fact_status := FACT_ACTIVE;
     fw_source := {| md_source_system := "SRC"; md_source_record_id := "1"; md_source_revision := "r"; md_fact_version := version; md_observed_at := example_instant |} |}.

Definition example_basis (version : Z) (valid_from : date) (initial : Z) : LotAmortizedCostBasisFact :=
  {| bf_window := example_window version valid_from; bf_currency := "EUR"; bf_initial_clean_cost_local := dint initial; bf_fees_in_basis_local := dzero;
     bf_redemption_value_local := dint 100; bf_discount_origin := MARKET_DISCOUNT |}.

Definition example_schedule : LotAmortizationScheduleFact :=
  {| sf_window := example_window 1 100; sf_schedule_version := 1; sf_year_fraction_method_id := "ACT/365"; sf_year_fraction_method_version := 1;
     sf_periods := [{| pi_period_start_date := 100; pi_period_end_date := 465; pi_year_fraction := dint 1; pi_cash_coupon_local := dint 2;
                       pi_supplied_period_rate := None |}] |}.

Definition example_policy (m : AmortizedCostMethod) (c : option YieldApplicationConvention) (id : string) : AmortizedCostPolicy :=
  {| am_policy_id := id; am_policy_version := 1; am_method := m; am_yield_application_convention := c; am_include_fees_in_amortized_cost := true;
     am_residual_tolerance_local := Dec 1 (-10) |}.

Definition example_authority (policy : string) (yields : list LotEffectiveYieldFact) : authority :=
  {| au_assignments := [example_assignment 1 policy 100 None "1"]; au_basis_facts := [example_basis 1 100 95]; au_schedule_facts := [example_schedule];
     au_yield_facts := yields |}.

Lemma example_authority_ok : authority_ok (example_authority STRAIGHT_LINE_LOCAL_POLICY_ID []).
Proof. split; cbn; try (constructor; [|constructor]); try constructor; try done; repeat split; try done. Qed.

Lemma example_basis_corrects : corrects_authority (example_authority STRAIGHT_LINE_LOCAL_POLICY_ID [])
  (AuthorityBasis (example_basis 1 100 95)) (AuthorityBasis (example_basis 2 150 96)).
Proof. split; [reflexivity|cbn; lia|]. exists [example_basis 1 100 95]. split; [reflexivity|left]. Qed.

Lemma correction_replay_is_sufficient_witness :
  @resolve_authority constant_hashing (record_correction (example_authority STRAIGHT_LINE_LOCAL_POLICY_ID []) (AuthorityBasis (example_basis 2 150 96)))
    example_scope 99 (example_policy STRAIGHT_LINE None STRAIGHT_LINE_LOCAL_POLICY_ID) None =
  @resolve_authority constant_hashing (example_authority STRAIGHT_LINE_LOCAL_POLICY_ID []) example_scope 99
    (example_policy STRAIGHT_LINE None STRAIGHT_LINE_LOCAL_POLICY_ID) None.
Proof.
  exact (@correction_replay_is_sufficient constant_hashing _ _ _ 100 example_scope 99 _ None example_basis_corrects eq_refl ltac:(lia)).
Defined.

Lemma resolution_fails_closed_witness :
  exists r, @resolve_authority constant_hashing (example_authority STRAIGHT_LINE_LOCAL_POLICY_ID []) example_scope 120
              (example_policy STRAIGHT_LINE None STRAIGHT_LINE_LOCAL_POLICY_ID) (Some example_instant) = Ok r /\
    @supported constant_hashing (example_policy STRAIGHT_LINE None STRAIGHT_LINE_LOCAL_POLICY_ID) (example_authority STRAIGHT_LINE_LOCAL_POLICY_ID []) example_scope 120 (Some example_instant) r.
Proof.
  assert (Hp : policy_ok (example_policy STRAIGHT_LINE None STRAIGHT_LINE_LOCAL_POLICY_ID)) by done.
  pose proof (@resolution_fails_closed constant_hashing constant_hashing_ok (example_authority STRAIGHT_LINE_LOCAL_POLICY_ID []) example_scope 120
    (example_policy STRAIGHT_LINE None STRAIGHT_LINE_LOCAL_POLICY_ID) (Some example_instant) example_authority_ok Hp ltac:(intros c [= <-]; reflexivity)) as Ho.
  remember (@resolve_authority constant_hashing (example_authority STRAIGHT_LINE_LOCAL_POLICY_ID []) example_scope 120
    (example_policy STRAIGHT_LINE None STRAIGHT_LINE_LOCAL_POLICY_ID) (Some example_instant)) as r eqn:Er. destruct r as [r|e]; [by exists r|]. exfalso. vm_compute in Er. discriminate Er.
Defined.

(** A simple annual yield of minus one passes the constructor of its fact, the governed policy asks for it, and the resolution raises an
    error that is not a resolution error. *)
Example admitted_yield_raises :
  exists f, make_LotEffectiveYieldFact (example_window 1 100) (Finite minus_one) ANNUAL_NOMINAL_SIMPLE = Ok f /\
    @resolve_authority constant_hashing (example_authority IFRS9_EIR_LOCAL_POLICY_ID [f]) example_scope 120
      (example_policy EFFECTIVE_YIELD (Some ANNUAL_NOMINAL_SIMPLE) IFRS9_EIR_LOCAL_POLICY_ID) None =
    Raise (ValueError "annual_yield must be greater than negative one").
Proof. eexists. split; [reflexivity|]. vm_compute. reflexivity. Qed.
