(* ===== verification/BookCostProfile.v ===== *)
(** * Profiles and disposals of amortized book cost

    [fixed_income_book_cost/profile.py]: the append-only profile of a lot, with one ledger row per period of its
    schedule, and the profile parked for a stated reason; [disposal_basis.py]: the carrying amount a profile recognises
    on a day, and its allocation to what a disposal consumes. *)

From Stdlib Require Import ZArith Lia String.
From stdpp Require Import base tactics list sorting strings.
From S2P Require Import Prelude PyDecimal PyTime Precision Lineage Lots AccruedIncome AmortizedCost SourceVersions BookCostAuthority BookCostSources.

#[local] Open Scope string_scope.
#[local] Open Scope Z_scope.
#[local] Notation policy_ := COST_BASIS_STATE_LEDGER_OUTPUT_V1.

(** ** The ledger of a profile *)

Definition LOT_AMORTIZED_COST_PROFILE_ID_VERSION : Z := 1.

Record LotAmortizedCostPeriodLedgerEntry := {
  le_profile_id : string; le_profile_version : Z; le_period_ordinal : Z; le_period_start_date : date; le_period_end_date : date;
  le_year_fraction : decimal; le_period_rate : option decimal; le_begin_amortized_cost_local : decimal; le_interest_income_local : decimal;
  le_cash_coupon_local : decimal; le_amortization_amount_local : decimal; le_end_amortized_cost_local : decimal;
  le_rounding_adjustment_local : decimal; le_calculation_output_hash : string
}.

(** [_require_nonblank]: the text is checked and kept as it is. *)
Definition check_nonblank (value field_name : string) : result unit :=
  raise_if (negb (truthy (strip value))) (ValueError (field_name +:+ " must be nonblank")).

Definition nonnegative (d : decimal) (field_name : string) : result unit := raise_if (dltb d dzero) (ValueError (field_name +:+ " must be nonnegative")).

Definition make_LotAmortizedCostPeriodLedgerEntry (e : LotAmortizedCostPeriodLedgerEntry) : result LotAmortizedCostPeriodLedgerEntry :=
  _ ← check_nonblank (le_profile_id e) "profile_id";
  _ ← require_positive_integer (le_profile_version e) "profile_version";
  _ ← require_positive_integer (le_period_ordinal e) "period_ordinal";
  _ ← raise_if (le_period_end_date e <=? le_period_start_date e) (ValueError "period_end_date must be after period_start_date");
  _ ← raise_if (dleb (le_year_fraction e) dzero) (ValueError "year_fraction must be positive");
  _ ← nonnegative (le_begin_amortized_cost_local e) "begin_amortized_cost_local";
  _ ← nonnegative (le_cash_coupon_local e) "cash_coupon_local";
  _ ← nonnegative (le_end_amortized_cost_local e) "end_amortized_cost_local";
  _ ← require_sha256_digest (le_calculation_output_hash e) "calculation_output_hash";
  Ok e.

Definition entry_payload (e : LotAmortizedCostPeriodLedgerEntry) : payload :=
  PMap [("amortization_amount_local", PDec (le_amortization_amount_local e)); ("begin_amortized_cost_local", PDec (le_begin_amortized_cost_local e));
        ("calculation_output_hash", PStr (le_calculation_output_hash e)); ("cash_coupon_local", PDec (le_cash_coupon_local e));
        ("end_amortized_cost_local", PDec (le_end_amortized_cost_local e)); ("interest_income_local", PDec (le_interest_income_local e));
        ("period_end_date", PDate (le_period_end_date e)); ("period_ordinal", PInt (le_period_ordinal e)); ("period_rate", PDecOpt (le_period_rate e));
        ("period_start_date", PDate (le_period_start_date e)); ("profile_id", PStr (le_profile_id e)); ("profile_version", PInt (le_profile_version e));
        ("rounding_adjustment_local", PDec (le_rounding_adjustment_local e)); ("year_fraction", PDec (le_year_fraction e))].

Definition period_result_from_ledger_entry (e : LotAmortizedCostPeriodLedgerEntry) : AmortizationPeriodResult :=
  {| pr_period_start_date := le_period_start_date e; pr_period_end_date := le_period_end_date e; pr_year_fraction := le_year_fraction e;
     pr_period_rate := le_period_rate e; pr_begin_amortized_cost_local := le_begin_amortized_cost_local e;
     pr_interest_income_local := le_interest_income_local e; pr_cash_coupon_local := le_cash_coupon_local e;
     pr_amortization_amount_local := le_amortization_amount_local e; pr_end_amortized_cost_local := le_end_amortized_cost_local e;
     pr_rounding_adjustment_local := le_rounding_adjustment_local e |}.

Definition materialize_period (profile_id : string) (profile_version period_ordinal : Z) (result_ : AmortizationPeriodResult)
  (calculation_output_hash : string) : result LotAmortizedCostPeriodLedgerEntry :=
  make_LotAmortizedCostPeriodLedgerEntry
    {| le_profile_id := profile_id; le_profile_version := profile_version; le_period_ordinal := period_ordinal;
       le_period_start_date := pr_period_start_date result_; le_period_end_date := pr_period_end_date result_; le_year_fraction := pr_year_fraction result_;
       le_period_rate := pr_period_rate result_; le_begin_amortized_cost_local := pr_begin_amortized_cost_local result_;
       le_interest_income_local := pr_interest_income_local result_; le_cash_coupon_local := pr_cash_coupon_local result_;
       le_amortization_amount_local := pr_amortization_amount_local result_; le_end_amortized_cost_local := pr_end_amortized_cost_local result_;
       le_rounding_adjustment_local := pr_rounding_adjustment_local result_; le_calculation_output_hash := calculation_output_hash |}.

(** ** Profiles *)

Record LotAmortizedCostProfileVersion := {
  lp_profile_id : string; lp_profile_version : Z; lp_scope : LotBookCostAuthorityScope; lp_effective_date : date; lp_status : AmortizedCostProfileStatus;
  lp_eligibility_reason : option AmortizedCostEligibilityReason; lp_policy_id : option string; lp_policy_version : option Z;
  lp_schedule_version : option Z; lp_currency : option string; lp_direction : option AmortizedCostDirection;
  lp_initial_amortized_cost_local : option decimal; lp_redemption_value_local : option decimal; lp_final_amortized_cost_local : option decimal;
  lp_residual_local : option decimal; lp_authority_content_hash : option string; lp_source_references : list FinancialSourceReference;
  lp_calculation_lineage : option CalculationLineage; lp_periods : list LotAmortizedCostPeriodLedgerEntry
}.

Definition profile_status_value (x : AmortizedCostProfileStatus) : string :=
  match x with
  | ACTIVE => "ACTIVE" | PARKED => "PARKED" | INELIGIBLE => "INELIGIBLE" | TERMINATED => "TERMINATED" | SUPERSEDED => "SUPERSEDED"
  end.

Definition PStrOpt (s : option string) : payload := match s with Some s => PStr s | None => PNone end.
Definition PIntOpt (n : option Z) : payload := match n with Some n => PInt n | None => PNone end.

(** A value an active profile requires. *)
Definition active_requires {A} (value : option A) (field_name : string) : result A :=
  match value with Some v => Ok v | None => Raise (ValueError ("active profile requires " +:+ field_name)) end.

Definition active_text (value : option string) (field_name : string) : result string :=
  match value with
  | Some v => if truthy (strip v) then Ok v else Raise (ValueError ("active profile requires " +:+ field_name))
  | None => Raise (ValueError ("active profile requires " +:+ field_name))
  end.

Definition active_version (value : option Z) (field_name : string) : result unit := v ← active_requires value field_name; require_positive_integer v field_name.

Definition active_amount (value : option decimal) (field_name : string) : result decimal := v ← active_requires value field_name; _ ← nonnegative v field_name; Ok v.

(** [for ordinal, period in enumerate(self.periods, start=1)], after the period [previous]. *)
Fixpoint validate_rows (p : LotAmortizedCostProfileVersion) (output_hash : string) (ordinal : Z) (previous : option LotAmortizedCostPeriodLedgerEntry)
  (rows : list LotAmortizedCostPeriodLedgerEntry) : result unit :=
  match rows with
  | [] => Ok tt
  | row :: rows' =>
      _ ← raise_if (negb (String.eqb (le_profile_id row) (lp_profile_id p)) || negb (le_profile_version row =? lp_profile_version p) ||
                    negb (le_period_ordinal row =? ordinal)) (ValueError "period rows must match profile identity and contiguous ordinal");
      _ ← raise_if (negb (String.eqb (le_calculation_output_hash row) output_hash)) (ValueError "period row must bind the profile calculation output hash");
      _ ← raise_if (match previous with Some q => negb (le_period_end_date q =? le_period_start_date row) | None => false end)
            (ValueError "period rows must be contiguous and ordered");
      validate_rows p output_hash (ordinal + 1) (Some row) rows'
  end.

Definition validate_nonactive (p : LotAmortizedCostProfileVersion) : result unit :=
  let absent {A} (v : option A) (f : string) := raise_if (match v with Some _ => true | None => false end) (ValueError ("non-active profile must not contain " +:+ f)) in
  _ ← raise_if (match lp_eligibility_reason p with Some _ => false | None => true end) (ValueError "non-active profile requires an eligibility reason");
  _ ← raise_if (match lp_periods p with [] => false | _ => true end) (ValueError "non-active profile must not contain calculated period rows");
  _ ← raise_if (match lp_calculation_lineage p with Some _ => true | None => false end) (ValueError "non-active profile must not contain calculation lineage");
  _ ← absent (lp_direction p) "direction";
  _ ← absent (lp_initial_amortized_cost_local p) "initial_amortized_cost_local";
  _ ← absent (lp_redemption_value_local p) "redemption_value_local";
  _ ← absent (lp_final_amortized_cost_local p) "final_amortized_cost_local";
  _ ← absent (lp_residual_local p) "residual_local";
  match lp_authority_content_hash p with Some h => _ ← require_sha256_digest h "authority_content_hash"; Ok tt | None => Ok tt end.

Section Profiles.
Context `{Hashing}.

Definition validate_active (p : LotAmortizedCostProfileVersion) : result unit :=
  _ ← raise_if (match lp_eligibility_reason p with Some _ => true | None => false end) (ValueError "active profile must not declare an eligibility reason");
  _ ← active_text (lp_policy_id p) "policy_id";
  _ ← active_text (lp_currency p) "currency";
  authority ← active_text (lp_authority_content_hash p) "authority_content_hash";
  _ ← active_version (lp_policy_version p) "policy_version";
  _ ← active_version (lp_schedule_version p) "schedule_version";
  direction ← active_requires (lp_direction p) "direction";
  initial ← active_amount (lp_initial_amortized_cost_local p) "initial_amortized_cost_local";
  redemption ← active_amount (lp_redemption_value_local p) "redemption_value_local";
  final ← active_amount (lp_final_amortized_cost_local p) "final_amortized_cost_local";
  residual ← active_requires (lp_residual_local p) "residual_local";
  _ ← raise_if (match lp_source_references p with [] => true | _ => false end) (ValueError "active profile requires source references");
  lineage ← active_requires (lp_calculation_lineage p) "calculation lineage";
  match lp_periods p, last (lp_periods p) with
  | first :: _, Some last_ =>
      _ ← require_sha256_digest authority "authority_content_hash";
      _ ← validate_rows p (cl_output_content_hash lineage) 1 None (lp_periods p);
      _ ← raise_if (negb (deqb (le_begin_amortized_cost_local first) initial)) (ValueError "first period must begin at the profile initial amortized cost");
      _ ← raise_if (negb (deqb (le_end_amortized_cost_local last_) final)) (ValueError "last period must end at the profile final amortized cost");
      binds ← calculation_lineage_binds_output lineage
                (amortized_cost_schedule_output_payload direction initial redemption final residual (map period_result_from_ledger_entry (lp_periods p)));
      raise_if (negb binds) (ValueError "profile economics do not match calculation lineage")
  | _, _ => Raise (ValueError "active profile requires period rows")
  end.

Definition make_LotAmortizedCostProfileVersion (p : LotAmortizedCostProfileVersion) : result LotAmortizedCostProfileVersion :=
  _ ← check_nonblank (lp_profile_id p) "profile_id";
  _ ← require_positive_integer (lp_profile_version p) "profile_version";
  _ ← match lp_status p with
      | ACTIVE => validate_active p
      | PARKED | INELIGIBLE => validate_nonactive p
      | _ => Raise (ValueError "new profile materialization must be ACTIVE, PARKED, or INELIGIBLE")
      end;
  Ok p.

Definition lot_amortized_cost_profile_id (scope : LotBookCostAuthorityScope) : result string :=
  identity_hash ← canonical_content_hash (PMap
    [("identity_version", PInt LOT_AMORTIZED_COST_PROFILE_ID_VERSION); ("profile_type", PStr "LOT_AMORTIZED_COST"); ("scope", PSeq (map PStr (scope_key scope)))]);
  Ok ("lot-amortized-cost:" +:+ identity_hash).

Definition le_content_hash (e : LotAmortizedCostPeriodLedgerEntry) : result string := canonical_content_hash (entry_payload e).

Definition lp_content_hash (p : LotAmortizedCostProfileVersion) : result string :=
  period_content_hashes ← mapR le_content_hash (lp_periods p);
  canonical_content_hash (PMap
    [("authority_content_hash", PStrOpt (lp_authority_content_hash p));
     ("calculation_lineage", match lp_calculation_lineage p with Some l => cl_lineage_payload l | None => PNone end); ("currency", PStrOpt (lp_currency p));
     ("direction", match lp_direction p with Some d => PEnum (PStr (direction_value d)) | None => PNone end); ("effective_date", PDate (lp_effective_date p));
     ("eligibility_reason", match lp_eligibility_reason p with Some r => PEnum (PStr (eligibility_reason_value r)) | None => PNone end);
     ("final_amortized_cost_local", PDecOpt (lp_final_amortized_cost_local p)); ("initial_amortized_cost_local", PDecOpt (lp_initial_amortized_cost_local p));
     ("period_content_hashes", PSeq (map PStr period_content_hashes)); ("policy_id", PStrOpt (lp_policy_id p)); ("policy_version", PIntOpt (lp_policy_version p));
     ("profile_id", PStr (lp_profile_id p)); ("profile_version", PInt (lp_profile_version p)); ("redemption_value_local", PDecOpt (lp_redemption_value_local p));
     ("residual_local", PDecOpt (lp_residual_local p)); ("schedule_version", PIntOpt (lp_schedule_version p)); ("scope", PSeq (map PStr (scope_key (lp_scope p))));
     ("source_references", PSeq (map fs_lineage_payload (lp_source_references p))); ("status", PEnum (PStr (profile_status_value (lp_status p))))]).

(** [_materialize_period(...) for ordinal, period in enumerate(result.periods, start=1)]. *)
Fixpoint materialize_periods (profile_id : string) (profile_version ordinal : Z) (hash : string) (rows : list AmortizationPeriodResult)
  : result (list LotAmortizedCostPeriodLedgerEntry) :=
  match rows with
  | [] => Ok []
  | row :: rows' =>
      entry ← materialize_period profile_id profile_version ordinal row hash;
      entries ← materialize_periods profile_id profile_version (ordinal + 1) hash rows';
      Ok (entry :: entries)
  end.

Definition materialize_active_lot_amortized_cost_profile (decimal_power : context -> decimal -> decimal -> result decimal)
  (resolved : ResolvedLotAmortizedCostInputs) (profile_version : Z) (authority_content_hash : option string) : result LotAmortizedCostProfileVersion :=
  _ ← require_positive_integer profile_version "profile_version";
  r ← calculate_amortized_cost_schedule decimal_power (ri_policy resolved) (ri_calculation_inputs resolved);
  profile_id ← lot_amortized_cost_profile_id (pa_scope (ri_assignment resolved));
  periods ← materialize_periods profile_id profile_version 1 (cl_output_content_hash (ar_lineage r)) (ar_periods r);
  make_LotAmortizedCostProfileVersion
    {| lp_profile_id := profile_id; lp_profile_version := profile_version; lp_scope := pa_scope (ri_assignment resolved);
       lp_effective_date := ck_effective_date (ri_cache_key resolved); lp_status := ACTIVE; lp_eligibility_reason := None;
       lp_policy_id := Some (am_policy_id (ri_policy resolved)); lp_policy_version := Some (am_policy_version (ri_policy resolved));
       lp_schedule_version := Some (sf_schedule_version (ri_schedule_fact resolved)); lp_currency := Some (bf_currency (ri_basis_fact resolved));
       lp_direction := Some (ar_direction r); lp_initial_amortized_cost_local := Some (ar_initial_amortized_cost_local r);
       lp_redemption_value_local := Some (ar_redemption_value_local r); lp_final_amortized_cost_local := Some (ar_final_amortized_cost_local r);
       lp_residual_local := Some (ar_residual_local r);
       lp_authority_content_hash := Some (default (ck_authority_content_hash (ri_cache_key resolved)) authority_content_hash);
       lp_source_references := ri_source_references resolved; lp_calculation_lineage := Some (ar_lineage r); lp_periods := periods |}.

Definition materialize_parked_lot_amortized_cost_profile (scope : LotBookCostAuthorityScope) (effective_date : date) (profile_version : Z)
  (reason : AmortizedCostEligibilityReason) (authority_content_hash : option string) (source_references : list FinancialSourceReference)
  : result LotAmortizedCostProfileVersion :=
  _ ← require_positive_integer profile_version "profile_version";
  profile_id ← lot_amortized_cost_profile_id scope;
  make_LotAmortizedCostProfileVersion
    {| lp_profile_id := profile_id; lp_profile_version := profile_version; lp_scope := scope; lp_effective_date := effective_date; lp_status := PARKED;
       lp_eligibility_reason := Some reason; lp_policy_id := None; lp_policy_version := None; lp_schedule_version := None; lp_currency := None;
       lp_direction := None; lp_initial_amortized_cost_local := None; lp_redemption_value_local := None; lp_final_amortized_cost_local := None;
       lp_residual_local := None; lp_authority_content_hash := authority_content_hash; lp_source_references := source_references;
       lp_calculation_lineage := None; lp_periods := [] |}.
End Profiles.

(** ** Disposals *)

Definition AMORTIZED_COST_DISPOSAL_ALGORITHM_ID : string := "fixed-income-amortized-cost-disposal".
Definition AMORTIZED_COST_DISPOSAL_ALGORITHM_VERSION : Z := 2.

Record CarriedLotBookCost := { cb_scheduled_cost_local : decimal; cb_residual_cost_local : decimal; cb_residual_cost_base : decimal }.

Definition require_non_negative_cost (value : decimal) (field_name : string) : result unit :=
  raise_if (dltb value dzero) (ValueError (field_name +:+ " must be non-negative")).

Definition make_CarriedLotBookCost (scheduled_cost_local residual_cost_local residual_cost_base : decimal) : result CarriedLotBookCost :=
  _ ← require_non_negative_cost scheduled_cost_local "scheduled_cost_local";
  _ ← require_non_negative_cost residual_cost_local "residual_cost_local";
  _ ← require_non_negative_cost residual_cost_base "residual_cost_base";
  Ok {| cb_scheduled_cost_local := scheduled_cost_local; cb_residual_cost_local := residual_cost_local; cb_residual_cost_base := residual_cost_base |}.

Record RecognizedLotBookCost := {
  rb_profile_id : string; rb_profile_version : Z; rb_profile_content_hash : string; rb_currency : string; rb_disposal_date : date;
  rb_recognized_through_date : date; rb_original_quantity : decimal; rb_open_quantity_before : decimal; rb_consumed_quantity : decimal;
  rb_residual_quantity : decimal; rb_scheduled_cost_local : decimal; rb_current_cost_local : decimal; rb_current_cost_base : decimal;
  rb_consumed_cost_local : decimal; rb_residual_cost_local : decimal; rb_book_cost_fx_rate_to_base : decimal; rb_consumed_cost_base : decimal;
  rb_residual_cost_base : decimal; rb_retained_rounding_residual_local : decimal; rb_retained_rounding_residual_base : decimal;
  rb_calculation_lineage : CalculationLineage
}.

Definition carry_forward (r : RecognizedLotBookCost) : result (option CarriedLotBookCost) :=
  if deqb (rb_residual_quantity r) dzero then Ok None
  else c ← make_CarriedLotBookCost (rb_scheduled_cost_local r) (rb_residual_cost_local r) (rb_residual_cost_base r); Ok (Some c).

Definition require_positive_amount (value : decimal) (field_name : string) : result unit :=
  raise_if (dleb value dzero) (ValueError (field_name +:+ " must be positive")).

(** The cost recognised on a day: of the last period that has ended, or the initial one. *)
Fixpoint recognized_loop (disposal_date : date) (periods : list LotAmortizedCostPeriodLedgerEntry) (cost : decimal) (through : date) : decimal * date :=
  match periods with
  | [] => (cost, through)
  | period :: periods' =>
      if disposal_date <? le_period_end_date period then (cost, through)
      else recognized_loop disposal_date periods' (le_end_amortized_cost_local period) (le_period_end_date period)
  end.

Definition recognized_cost_local (profile : LotAmortizedCostProfileVersion) (disposal_date : date) : result (decimal * date) :=
  match lp_initial_amortized_cost_local profile with
  | None => Raise (AmortizedCostDisposalError "active profile is missing initial amortized cost")
  | Some initial => Ok (recognized_loop disposal_date (lp_periods profile) initial (lp_effective_date profile))
  end.

Definition proportional_local_cost (scheduled_cost_local quantity original_quantity : decimal) (field_name : string) : result decimal :=
  weighted ← dmul (arithmetic_context policy_) scheduled_cost_local quantity;
  raw_cost ← ddiv (arithmetic_context policy_) weighted original_quantity;
  normalize policy_ (Finite raw_cost) field_name.

Definition current_carried_cost (scheduled_cost_local original_quantity open_quantity_before book_cost_fx_rate_to_base : decimal)
  (carried_book_cost : option CarriedLotBookCost) : result (decimal * decimal) :=
  match carried_book_cost with
  | None =>
      current_local ← proportional_local_cost scheduled_cost_local open_quantity_before original_quantity "amortized_open_cost_local";
      current_base ← p_multiply policy_ (Finite current_local) (Finite book_cost_fx_rate_to_base) "amortized_open_cost_base";
      Ok (current_local, current_base)
  | Some carried =>
      schedule_movement_local ← p_subtract policy_ (Finite scheduled_cost_local) (Finite (cb_scheduled_cost_local carried)) "amortized_schedule_movement_local";
      recognized_movement_local ← proportional_local_cost schedule_movement_local open_quantity_before original_quantity "amortized_open_schedule_movement_local";
      recognized_movement_base ← p_multiply policy_ (Finite recognized_movement_local) (Finite book_cost_fx_rate_to_base) "amortized_open_schedule_movement_base";
      current_local ← p_add policy_ (Finite (cb_residual_cost_local carried)) (Finite recognized_movement_local) "amortized_open_cost_local";
      current_base ← p_add policy_ (Finite (cb_residual_cost_base carried)) (Finite recognized_movement_base) "amortized_open_cost_base";
      _ ← raise_if (dltb current_local dzero || dltb current_base dzero)
            (AmortizedCostDisposalError "recognized schedule movement must not reduce the open carrying amount below zero");
      Ok (current_local, current_base)
  end.

(** What a disposal consumes of the current cost, in both currencies. *)
Definition consumed_cost (scheduled_cost_local original_quantity open_quantity_before consumed_quantity book_cost_fx_rate_to_base current_cost_local
  current_cost_base : decimal) : result (decimal * decimal) :=
  if deqb consumed_quantity open_quantity_before then Ok (current_cost_local, current_cost_base)
  else
    consumed_cost_local ← proportional_local_cost scheduled_cost_local consumed_quantity original_quantity "amortized_disposal_cost_local";
    consumed_cost_base ← p_multiply policy_ (Finite consumed_cost_local) (Finite book_cost_fx_rate_to_base) "amortized_disposal_cost_base";
    Ok (consumed_cost_local, consumed_cost_base).

Definition carried_payload (c : option CarriedLotBookCost) : payload :=
  match c with
  | Some c => PMap [decimal_entry "residual_cost_base" (cb_residual_cost_base c); decimal_entry "residual_cost_local" (cb_residual_cost_local c);
                    decimal_entry "scheduled_cost_local" (cb_scheduled_cost_local c)]
  | None => PNone
  end.

Section Disposal.
Context `{Hashing}.

Definition allocate_recognized_lot_book_cost (profile : LotAmortizedCostProfileVersion) (disposal_date : date)
  (original_quantity open_quantity_before consumed_quantity book_cost_fx_rate_to_base : decimal) (carried_book_cost : option CarriedLotBookCost)
  : result RecognizedLotBookCost :=
  _ ← raise_if (bool_decide (lp_status profile <> ACTIVE)) (AmortizedCostDisposalError "amortized-cost disposal requires an ACTIVE profile");
  _ ← raise_if (disposal_date <? lp_effective_date profile)
        (AmortizedCostDisposalError "disposal_date must not precede the effective amortized-cost profile");
  _ ← require_positive_amount original_quantity "original_quantity";
  _ ← require_positive_amount open_quantity_before "open_quantity_before";
  _ ← require_positive_amount consumed_quantity "consumed_quantity";
  _ ← require_positive_amount book_cost_fx_rate_to_base "book_cost_fx_rate_to_base";
  _ ← raise_if (dltb original_quantity open_quantity_before) (AmortizedCostDisposalError "open_quantity_before must not exceed original_quantity");
  _ ← raise_if (dltb open_quantity_before consumed_quantity) (AmortizedCostDisposalError "consumed_quantity must not exceed open_quantity_before");
  '(scheduled_cost_local, recognized_through_date) ← recognized_cost_local profile disposal_date;
  '(current_cost_local, current_cost_base) ←
    current_carried_cost scheduled_cost_local original_quantity open_quantity_before book_cost_fx_rate_to_base carried_book_cost;
  '(consumed_cost_local, consumed_cost_base) ←
    consumed_cost scheduled_cost_local original_quantity open_quantity_before consumed_quantity book_cost_fx_rate_to_base current_cost_local current_cost_base;
  residual_cost_local ← p_subtract policy_ (Finite current_cost_local) (Finite consumed_cost_local) "amortized_residual_cost_local";
  residual_quantity ← p_subtract policy_ (Finite open_quantity_before) (Finite consumed_quantity) "amortized_residual_quantity";
  residual_cost_base ← p_subtract policy_ (Finite current_cost_base) (Finite consumed_cost_base) "amortized_residual_cost_base";
  scheduled_residual_cost_local ← proportional_local_cost scheduled_cost_local residual_quantity original_quantity "amortized_scheduled_residual_cost_local";
  scheduled_residual_cost_base ← p_multiply policy_ (Finite scheduled_residual_cost_local) (Finite book_cost_fx_rate_to_base) "amortized_scheduled_residual_cost_base";
  retained_rounding_residual_local ← p_subtract policy_ (Finite residual_cost_local) (Finite scheduled_residual_cost_local) "amortized_retained_rounding_residual_local";
  retained_rounding_residual_base ← p_subtract policy_ (Finite residual_cost_base) (Finite scheduled_residual_cost_base) "amortized_retained_rounding_residual_base";
  profile_content_hash ← lp_content_hash profile;
  output_payload ← canonical_cost_basis_output_payload
    [decimal_entry "consumed_cost_base" consumed_cost_base; decimal_entry "consumed_cost_local" consumed_cost_local;
     decimal_entry "consumed_quantity" consumed_quantity; decimal_entry "current_cost_base" current_cost_base;
     decimal_entry "current_cost_local" current_cost_local; decimal_entry "open_quantity_before" open_quantity_before;
     ("recognized_through_date", PDate recognized_through_date); decimal_entry "residual_cost_base" residual_cost_base;
     decimal_entry "residual_cost_local" residual_cost_local; decimal_entry "residual_quantity" residual_quantity;
     decimal_entry "retained_rounding_residual_base" retained_rounding_residual_base;
     decimal_entry "retained_rounding_residual_local" retained_rounding_residual_local; decimal_entry "scheduled_cost_local" scheduled_cost_local];
  input_payload ← canonical_cost_basis_output_payload
    [decimal_entry "consumed_quantity" consumed_quantity; ("disposal_date", PDate disposal_date);
     decimal_entry "book_cost_fx_rate_to_base" book_cost_fx_rate_to_base; ("carried_book_cost", carried_payload carried_book_cost);
     decimal_entry "original_quantity" original_quantity; decimal_entry "open_quantity_before" open_quantity_before;
     ("profile_content_hash", PStr profile_content_hash); ("profile_id", PStr (lp_profile_id profile)); ("profile_version", PInt (lp_profile_version profile));
     ("schedule_calculation_output_hash", PStrOpt (option_map cl_output_content_hash (lp_calculation_lineage profile)))];
  np ← lineage_identity policy_;
  lineage ← build_calculation_lineage AMORTIZED_COST_DISPOSAL_ALGORITHM_ID AMORTIZED_COST_DISPOSAL_ALGORITHM_VERSION (cp_working_precision policy_)
    input_payload output_payload (Some np);
  Ok {| rb_profile_id := lp_profile_id profile; rb_profile_version := lp_profile_version profile; rb_profile_content_hash := profile_content_hash;
        rb_currency := default "" (lp_currency profile); rb_disposal_date := disposal_date; rb_recognized_through_date := recognized_through_date;
        rb_original_quantity := original_quantity; rb_open_quantity_before := open_quantity_before; rb_consumed_quantity := consumed_quantity;
        rb_residual_quantity := residual_quantity; rb_scheduled_cost_local := scheduled_cost_local; rb_current_cost_local := current_cost_local;
        rb_current_cost_base := current_cost_base; rb_consumed_cost_local := consumed_cost_local; rb_residual_cost_local := residual_cost_local;
        rb_book_cost_fx_rate_to_base := book_cost_fx_rate_to_base; rb_consumed_cost_base := consumed_cost_base; rb_residual_cost_base := residual_cost_base;
        rb_retained_rounding_residual_local := retained_rounding_residual_local; rb_retained_rounding_residual_base := retained_rounding_residual_base;
        rb_calculation_lineage := lineage |}.
End Disposal.
