(* ===== verification/BookCostProfileFacts.v ===== *)
(** * Profiles and disposals of amortized book cost: facts

    Every accepted schedule becomes a profile that its constructor accepts; disposals of a lot conserve its quantity and
    its carrying amount, in both currencies and along every sequence of disposals, and give evidence that the disposal
    receipt accepts. *)

From Stdlib Require Import ZArith Lia QArith Qabs Lqa String.
From stdpp Require Import base tactics list sorting sets strings.
From S2P Require Import Prelude PyDecimal DecimalFacts PyTime Precision Lineage Lots CostBasis AccruedIncome AmortizedCost AmortizedCostFacts AmortizedStraightLine SourceVersions BookCostAuthority BookCostAuthorityFacts BookCostSources BookCostSourcesFacts BookCostProfile.

#[local] Open Scope string_scope.
#[local] Open Scope Z_scope.
#[local] Notation policy_ := COST_BASIS_STATE_LEDGER_OUTPUT_V1.

(** ** Proportional shares *)

(** [c] is [s * q / o] to within a storage unit. *)
Definition share_of (s q o c : Z) : Prop := Z.abs (c * o - s * q) < o.

Lemma near_share n w total v : 0 < total -> (Qabs (dval v * pow10 10 - inject_Z n * (inject_Z w / inject_Z total)) <= 1 # 4)%Q -> share_of n w total (ul v).
Proof.
  intros Ht Hn. pose proof (ul_near v) as Hu. unfold share_of. assert (Pt : (0 < inject_Z total)%Q) by (change 0%Q with (inject_Z 0); by rewrite <- Zlt_Qlt).
  rewrite Zlt_Qlt. change (inject_Z (Z.abs (ul v * total - n * w))) with (Qabs (inject_Z (ul v * total - n * w))).
  assert (E : (inject_Z (ul v * total - n * w) == (inject_Z (ul v) - inject_Z n * (inject_Z w / inject_Z total)) * inject_Z total)%Q).
  { unfold Z.sub. rewrite inject_Z_plus, inject_Z_opp, !inject_Z_mult. field. lra. }
  rewrite E, Qabs_Qmult, (Qabs_pos (inject_Z total)) by lra.
  pose proof (Qabs_triangle (inject_Z (ul v) - dval v * pow10 10) (dval v * pow10 10 - inject_Z n * (inject_Z w / inject_Z total))) as T.
  assert (E2 : (inject_Z (ul v) - dval v * pow10 10 + (dval v * pow10 10 - inject_Z n * (inject_Z w / inject_Z total)) == inject_Z (ul v) - inject_Z n * (inject_Z w / inject_Z total))%Q) by ring.
  rewrite E2 in T. set (x := Qabs (inject_Z (ul v) - inject_Z n * (inject_Z w / inject_Z total))) in *. assert (x <= 3 # 4)%Q by lra. nra.
Qed.

Lemma proportional_stored s q o f c : proportional_local_cost s q o f = Ok c -> stored c.
Proof. unfold proportional_local_cost. intros (p & _ & (v & _ & [Hs _]%book_normalize)%bind_Ok)%bind_Ok. exact Hs. Qed.

Lemma proportional_share_of s q o f c : stored s -> stored q -> stored o -> 0 < ul q <= ul o -> proportional_local_cost s q o f = Ok c ->
  stored c /\ share_of (ul s) (ul q) (ul o) (ul c).
Proof.
  intros Ss Sq So Hq H. pose proof (proportional_stored _ _ _ _ _ H) as Sc. split; [done|]. unfold proportional_local_cost in H.
  apply bind_Ok in H as (p & Hp & (v & Hv & [_ E]%book_normalize)%bind_Ok). destruct Ss as [Us Bs], Sq as [Uq Bq], So as [Uo Bo]. rewrite E.
  destruct (Z.eq_dec (ul s) 0) as [E0|E0].
  - destruct (weighted_share s (ul s) q (ul q) o (ul o) (-10)) as (p' & v' & Hp' & Hv' & H1 & _); try done; try lia. unfold schedule_context in *.
    assert (p' = p) by congruence. subst p'. assert (v' = v) by congruence. subst v'. assert (ul v = 0) as -> by lia. unfold share_of. rewrite E0. lia.
  - destruct (weighted_near s (ul s) q (ul q) o (ul o) (-10)) as (p' & v' & Hp' & Hv' & Hn); try done; try lia. unfold schedule_context in *.
    assert (p' = p) by congruence. subst p'. assert (v' = v) by congruence. subst v'. apply near_share; [lia|exact Hn].
Qed.

(** ** One disposal *)

(** A profile whose costs are stored amounts that are not negative. *)
Record profile_stored (p : LotAmortizedCostProfileVersion) : Prop := {
  ps_initial : forall c, lp_initial_amortized_cost_local p = Some c -> stored c /\ 0 <= ul c;
  ps_rows : Forall (fun e => stored (le_end_amortized_cost_local e) /\ 0 <= ul (le_end_amortized_cost_local e)) (lp_periods p)
}.

Definition carried_stored (c : option CarriedLotBookCost) : Prop :=
  forall x, c = Some x -> (stored (cb_scheduled_cost_local x) /\ stored (cb_residual_cost_local x) /\ stored (cb_residual_cost_base x)) /\
    0 <= ul (cb_residual_cost_local x) /\ 0 <= ul (cb_residual_cost_base x).

(** What is booked of a lot before a disposal. *)
Definition booked_local (c : option CarriedLotBookCost) : Z := match c with Some x => ul (cb_residual_cost_local x) | None => 0 end.
Definition booked_base (c : option CarriedLotBookCost) : Z := match c with Some x => ul (cb_residual_cost_base x) | None => 0 end.
Definition scheduled_before (c : option CarriedLotBookCost) : Z := match c with Some x => ul (cb_scheduled_cost_local x) | None => 0 end.

(** [base] is [local] at the rate [fx], rounded. *)
Definition converted (fx local base : Z) : Prop := base = round_coeff ROUND_HALF_EVEN (local * fx) (10 ^ 10).

(** A disposal conserves the lot: it splits quantity and carrying amount into what is consumed and what is left, after recognising the
    share of the scheduled movement that belongs to the open quantity. *)
Record conserves (carried : option CarriedLotBookCost) (r : RecognizedLotBookCost) : Prop := {
  dc_stored : stored (rb_consumed_cost_local r) /\ stored (rb_residual_cost_local r) /\ stored (rb_consumed_cost_base r) /\ stored (rb_residual_cost_base r) /\
              stored (rb_residual_quantity r) /\ stored (rb_scheduled_cost_local r) /\ stored (rb_current_cost_local r) /\ stored (rb_current_cost_base r);
  dc_current : 0 <= ul (rb_current_cost_local r) /\ 0 <= ul (rb_current_cost_base r);
  dc_range : 0 < ul (rb_consumed_quantity r) <= ul (rb_open_quantity_before r) /\ ul (rb_open_quantity_before r) <= ul (rb_original_quantity r);
  dc_quantity : ul (rb_consumed_quantity r) + ul (rb_residual_quantity r) = ul (rb_open_quantity_before r);
  dc_local : ul (rb_consumed_cost_local r) + ul (rb_residual_cost_local r) = ul (rb_current_cost_local r);
  dc_base : ul (rb_consumed_cost_base r) + ul (rb_residual_cost_base r) = ul (rb_current_cost_base r);
  dc_movement : exists local base, ul (rb_current_cost_local r) = booked_local carried + local /\ ul (rb_current_cost_base r) = booked_base carried + base /\
    share_of (ul (rb_scheduled_cost_local r) - scheduled_before carried) (ul (rb_open_quantity_before r)) (ul (rb_original_quantity r)) local /\
    converted (ul (rb_book_cost_fx_rate_to_base r)) local base;
  dc_consumed : ul (rb_residual_quantity r) = 0 /\ ul (rb_residual_cost_local r) = 0 /\ ul (rb_residual_cost_base r) = 0 \/
    0 < ul (rb_residual_quantity r) /\ share_of (ul (rb_scheduled_cost_local r)) (ul (rb_consumed_quantity r)) (ul (rb_original_quantity r)) (ul (rb_consumed_cost_local r)) /\
    converted (ul (rb_book_cost_fx_rate_to_base r)) (ul (rb_consumed_cost_local r)) (ul (rb_consumed_cost_base r))
}.

Lemma recognized_stored d through periods : forall cost, stored cost /\ 0 <= ul cost ->
  Forall (fun e => stored (le_end_amortized_cost_local e) /\ 0 <= ul (le_end_amortized_cost_local e)) periods -> through <= d ->
  let r := recognized_loop d periods cost through in (stored (fst r) /\ 0 <= ul (fst r)) /\ snd r <= d.
Proof.
  revert through. induction periods as [|e periods IH]; intros through cost Hc Hp Ht; cbn [recognized_loop]; [done|].
  destruct (Z.ltb_spec d (le_period_end_date e)) as [|Hle]; [done|]. apply Forall_cons in Hp as [He Hp]. by apply IH.
Qed.

Lemma multiply_converted x y f r : stored x -> stored y -> p_multiply policy_ (Finite x) (Finite y) f = Ok r -> stored r /\ converted (ul y) (ul x) (ul r).
Proof. intros Hx Hy Hm. by apply (book_multiply (cp_name policy_) x y f r Hx Hy Hm). Qed.

Lemma share_nonneg s q o c : 0 <= s * q -> share_of s q o c -> 0 < o -> 0 <= c.
Proof. unfold share_of. nia. Qed.

Lemma converted_nonneg fx local base : converted fx local base -> 0 <= local -> 0 <= fx -> 0 <= base.
Proof. unfold converted. intros ->. intros. apply round_coeff_nonneg; lia. Qed.

Lemma current_cost_inv s o q fx carried l b : stored s -> 0 <= ul s -> stored o -> stored q -> stored fx -> 0 <= ul fx -> 0 < ul q <= ul o -> carried_stored carried ->
  current_carried_cost s o q fx carried = Ok (l, b) ->
  (stored l /\ 0 <= ul l) /\ (stored b /\ 0 <= ul b) /\ exists ml mb, ul l = booked_local carried + ml /\ ul b = booked_base carried + mb /\
    share_of (ul s - scheduled_before carried) (ul q) (ul o) ml /\ converted (ul fx) ml mb.
Proof.
  intros Ss Ps So Sq Sfx Pfx Hq Hc H. unfold current_carried_cost in H. destruct carried as [c|].
  - destruct (Hc c eq_refl) as ((Sc1 & Sc2 & Sc3) & _ & _). apply bind_Ok in H as (m & Hm & H). destruct (cost_sub_stored _ _ _ _ Ss Sc1 Hm) as [Sm Em].
    apply bind_Ok in H as (ml & Hml & H). destruct (proportional_share_of _ _ _ _ _ Sm Sq So Hq Hml) as [Sml Eml].
    apply bind_Ok in H as (mb & Hmb & H). destruct (multiply_converted _ _ _ _ Sml Sfx Hmb) as [Smb Emb].
    apply bind_Ok in H as (l' & Hl & H). destruct (cost_add_stored _ _ _ _ Sc2 Sml Hl) as [Sl El].
    apply bind_Ok in H as (b' & Hb & H). destruct (cost_add_stored _ _ _ _ Sc3 Smb Hb) as [Sb Eb]. apply bind_Ok in H as (? & Hneg%raise_if_Ok & [= <- <-]).
    apply orb_false_iff in Hneg as [Hn1 Hn2]. rewrite (stored_dltb _ _ Sl stored_dzero), ul_dzero in Hn1. rewrite (stored_dltb _ _ Sb stored_dzero), ul_dzero in Hn2.
    split; [split; [done|lia]|]. split; [split; [done|lia]|]. exists (ul ml), (ul mb). cbn. by rewrite <- Em.
  - apply bind_Ok in H as (l' & Hl & H). destruct (proportional_share_of _ _ _ _ _ Ss Sq So Hq Hl) as [Sl El].
    apply bind_Ok in H as (b' & Hb & [= <- <-]). destruct (multiply_converted _ _ _ _ Sl Sfx Hb) as [Sb Eb].
    assert (Pl : 0 <= ul l') by (eapply share_nonneg; [|exact El|]; lia). split; [done|]. split; [split; [done|by eapply converted_nonneg; [exact Eb|..]]|].
    exists (ul l'), (ul b'). cbn. rewrite Z.sub_0_r. done.
Qed.

Lemma consumed_cost_inv s o q c fx l b cl cb : stored s -> stored o -> stored q -> stored c -> stored fx -> 0 < ul c <= ul o -> stored l -> stored b ->
  consumed_cost s o q c fx l b = Ok (cl, cb) ->
  stored cl /\ stored cb /\ (ul c = ul q /\ cl = l /\ cb = b \/ ul c <> ul q /\ share_of (ul s) (ul c) (ul o) (ul cl) /\ converted (ul fx) (ul cl) (ul cb)).
Proof.
  intros Ss So Sq Sc Sfx Hc Sl Sb H. unfold consumed_cost in H. rewrite (stored_deqb _ _ Sc Sq) in H. destruct (Z.eqb_spec (ul c) (ul q)) as [E|E].
  - injection H as <- <-. split; [done|]. split; [done|]. by left.
  - apply bind_Ok in H as (cl' & Hcl & H). destruct (proportional_share_of _ _ _ _ _ Ss Sc So Hc Hcl) as [Scl Ecl].
    apply bind_Ok in H as (cb' & Hcb & [= <- <-]). destruct (multiply_converted _ _ _ _ Scl Sfx Hcb) as [Scb Ecb]. split; [done|]. split; [done|]. by right.
Qed.

(** The evidence a disposal leaves on its allocation. *)
Definition evidence_of (r : RecognizedLotBookCost) : AmortizedCostAllocationEvidence :=
  {| ae_profile_id := rb_profile_id r; ae_profile_version := rb_profile_version r; ae_profile_content_hash := rb_profile_content_hash r;
     ae_currency := rb_currency r; ae_disposal_date := rb_disposal_date r; ae_recognized_through_date := rb_recognized_through_date r;
     ae_original_quantity := rb_original_quantity r; ae_open_quantity_before := rb_open_quantity_before r; ae_consumed_quantity := rb_consumed_quantity r;
     ae_residual_quantity := rb_residual_quantity r; ae_scheduled_cost_local := rb_scheduled_cost_local r; ae_current_cost_local := rb_current_cost_local r;
     ae_current_cost_base := rb_current_cost_base r; ae_consumed_cost_local := rb_consumed_cost_local r; ae_residual_cost_local := rb_residual_cost_local r;
     ae_book_cost_fx_rate_to_base := rb_book_cost_fx_rate_to_base r; ae_consumed_cost_base := rb_consumed_cost_base r;
     ae_residual_cost_base := rb_residual_cost_base r; ae_retained_rounding_residual_local := rb_retained_rounding_residual_local r;
     ae_retained_rounding_residual_base := rb_retained_rounding_residual_base r; ae_calculation_lineage := rb_calculation_lineage r |}.

Section Disposal.
Context `{hashing : Hashing}.

Lemma positive_stored d f u : stored d -> require_positive_amount d f = Ok u -> 0 < ul d.
Proof. intros Hd. unfold require_positive_amount. rewrite raise_if_Ok, (stored_dleb _ _ Hd stored_dzero), Z.leb_gt, ul_dzero. done. Qed.

Lemma allocate_inv profile d o q c fx carried r : profile_stored profile -> stored o -> stored q -> stored c -> stored fx -> carried_stored carried ->
  allocate_recognized_lot_book_cost profile d o q c fx carried = Ok r ->
  conserves carried r /\ (rb_original_quantity r = o /\ rb_open_quantity_before r = q /\ rb_consumed_quantity r = c /\ rb_book_cost_fx_rate_to_base r = fx) /\
  0 <= ul (rb_scheduled_cost_local r) /\ rb_recognized_through_date r <= rb_disposal_date r /\ 0 < ul fx /\
  (rb_profile_id r = lp_profile_id profile /\ rb_profile_version r = lp_profile_version profile /\ rb_currency r = default "" (lp_currency profile)) /\
  lp_content_hash profile = Ok (rb_profile_content_hash r) /\
  exists out, ae_output_payload (evidence_of r) = Ok out /\ calculation_lineage_binds_output (rb_calculation_lineage r) out = Ok true.
Proof.
  intros [Hi Hrows] So Sq Sc Sfx Hcar H. unfold allocate_recognized_lot_book_cost in H. apply bind_Ok in H as (? & _ & H).
  apply bind_Ok in H as (? & Hd%raise_if_Ok%Z.ltb_ge & H). apply bind_Ok in H as (? & Po%(positive_stored _ _ _ So) & H).
  apply bind_Ok in H as (? & Pq%(positive_stored _ _ _ Sq) & H). apply bind_Ok in H as (? & Pc%(positive_stored _ _ _ Sc) & H).
  apply bind_Ok in H as (? & Pfx%(positive_stored _ _ _ Sfx) & H). apply bind_Ok in H as (? & Hoq%raise_if_Ok & H). apply bind_Ok in H as (? & Hqc%raise_if_Ok & H).
  rewrite (stored_dltb _ _ So Sq) in Hoq. rewrite (stored_dltb _ _ Sq Sc) in Hqc. apply Z.ltb_ge in Hoq, Hqc.
  apply bind_Ok in H as ([s through] & Hs & H). unfold recognized_cost_local in Hs. destruct (lp_initial_amortized_cost_local profile) as [i|] eqn:Ei; [|done].
  injection Hs as Hs. pose proof (recognized_stored d (lp_effective_date profile) (lp_periods profile) i (Hi i eq_refl) Hrows Hd) as Hrec. rewrite Hs in Hrec. destruct Hrec as [[Ss Ps] Ht].
  cbn [fst snd] in Ss, Ps, Ht. clear Hs. apply bind_Ok in H as ([l b] & Hcur & H).
  apply (current_cost_inv s o q fx carried l b) in Hcur as ([Sl Pl] & [Sb Pb] & Hmov); [|done|done|done|done|done|lia|lia|done].
  apply bind_Ok in H as ([cl cb] & Hcon & H). apply (consumed_cost_inv s o q c fx l b cl cb) in Hcon as (Scl & Scb & Hcon); [|done|done|done|done|done|lia|done|done].
  apply bind_Ok in H as (rl & Hrl & H). destruct (cost_sub_stored _ _ _ _ Sl Scl Hrl) as [Srl Erl].
  apply bind_Ok in H as (rq & Hrq & H). destruct (cost_sub_stored _ _ _ _ Sq Sc Hrq) as [Srq Erq].
  apply bind_Ok in H as (rb & Hrb & H). destruct (cost_sub_stored _ _ _ _ Sb Scb Hrb) as [Srb Erb].
  apply bind_Ok in H as (srl & _ & H). apply bind_Ok in H as (srb & _ & H). apply bind_Ok in H as (rrl & _ & H). apply bind_Ok in H as (rrb & _ & H).
  apply bind_Ok in H as (h & Hh & H). apply bind_Ok in H as (out & Hout & H). apply bind_Ok in H as (inp & _ & H). apply bind_Ok in H as (np & _ & H).
  apply bind_Ok in H as (lin & Hlin & [= <-]). split.
  - split; cbn; [done|lia|lia|lia|lia|lia|exact Hmov|]. destruct Hcon as [(E & -> & ->)|[E Hcon]]; [left; lia|right; split; [lia|exact Hcon]].
  - split; [done|]. split; [done|]. split; [done|]. split; [lia|]. split; [done|]. split; [done|]. exists out. split; [exact Hout|]. by eapply lineage_binds_own.
Qed.

Lemma nonneg_decimal d f b : stored d -> 0 <= ul d -> (b = true -> 0 < ul d) -> require_decimal d f b false = Ok tt.
Proof.
  intros Sd Pd Hb. unfold require_decimal. rewrite (stored_dltb _ _ Sd stored_dzero), (stored_deqb _ _ Sd stored_dzero), ul_dzero.
  destruct (Z.ltb_spec (ul d) 0); [lia|]. destruct b; cbn [negb andb orb]; [|done]. specialize (Hb eq_refl). by destruct (Z.eqb_spec (ul d) 0); [lia|].
Qed.

Lemma consumed_nonneg carried r : conserves carried r -> 0 <= ul (rb_scheduled_cost_local r) -> 0 < ul (rb_book_cost_fx_rate_to_base r) ->
  0 <= ul (rb_consumed_cost_local r) /\ 0 <= ul (rb_consumed_cost_base r).
Proof.
  intros [_ Hcur Hr Hq Hl Hb _ Hc] Hs Hfx. destruct Hc as [(_ & E1 & E2)|(_ & Hsh & Hcv)]; [lia|].
  assert (H1 : 0 <= ul (rb_consumed_cost_local r)) by (eapply share_nonneg; [|exact Hsh|]; nia). split; [done|]. eapply converted_nonneg; [exact Hcv|done|lia].
Qed.
End Disposal.

Lemma bind_step {A B} (m : result A) (f : A -> result B) a : m = Ok a -> (exists b, f a = Ok b) -> exists b, (m ≫= f) = Ok b.
Proof. intros ->. done. Qed.

Section Evidence.
Context `{hashing : Hashing} {hashing_ok : HashingOk}.

(** A disposal of a lot that carries amortised cost conserves quantity and carrying amount in both currencies after recognising the share
    of the scheduled movement that belongs to the open quantity; and whenever it leaves no negative residual, its evidence passes every
    check of the disposal receipt, the binding of its calculation included. *)
Theorem disposal_conserves_book_cost profile d original open_ consumed fx carried r : profile_stored profile -> truthy (strip (lp_profile_id profile)) = true ->
  1 <= lp_profile_version profile -> truthy (strip (default "" (lp_currency profile))) = true ->
  stored original -> stored open_ -> stored consumed -> stored fx -> carried_stored carried ->
  allocate_recognized_lot_book_cost profile d original open_ consumed fx carried = Ok r ->
  conserves carried r /\
  (0 <= ul (rb_residual_cost_local r) -> 0 <= ul (rb_residual_cost_base r) -> exists e, make_AmortizedCostAllocationEvidence (evidence_of r) = Ok e).
Proof.
  intros Hp Hid Hver Hcur So Sq Sc Sfx Hcar H. apply allocate_inv in H as (Hc & (Eo & Eq & Ec & Ef) & Ps & Ht & Pfx & (Ei & Ev & Eu) & Hh & out & Hout & Hbind); try done.
  split; [done|]. intros Prl Prb. rewrite <- Ef in Pfx. pose proof (consumed_nonneg carried r Hc Ps Pfx) as [Pcl Pcb]. pose proof Hc as [(S1 & S2 & S3 & S4 & S5 & S6 & S7 & S8) [P1 P2] Hr Hqu Hlo Hba _ _].
  rewrite <- Eo in So. rewrite <- Eq in Sq. rewrite <- Ec in Sc. rewrite <- Ef in Sfx.
  assert (Hdig : is_sha256_digest (rb_profile_content_hash r) = true) by (apply bind_Ok in Hh as (hs & _ & Hh); by apply canonical_content_hash_digest in Hh).
  unfold make_AmortizedCostAllocationEvidence, evidence_of.
  cbn [ae_profile_id ae_currency ae_profile_version ae_profile_content_hash ae_disposal_date ae_recognized_through_date ae_original_quantity ae_open_quantity_before
    ae_consumed_quantity ae_residual_quantity ae_scheduled_cost_local ae_current_cost_local ae_current_cost_base ae_consumed_cost_local ae_residual_cost_local
    ae_book_cost_fx_rate_to_base ae_consumed_cost_base ae_residual_cost_base ae_retained_rounding_residual_local ae_retained_rounding_residual_base ae_calculation_lineage].
  eapply bind_step; [apply nonblank_Ok; rewrite Ei; exact Hid|]. eapply bind_step; [apply nonblank_Ok; rewrite Eu; exact Hcur|].
  apply (bind_step _ _ tt); [rewrite Ev; apply raise_if_Ok; apply Z.ltb_ge; lia|]. eapply bind_step; [unfold require_sha256_digest; by rewrite Hdig|].
  apply (bind_step _ _ tt); [apply raise_if_Ok, Z.ltb_ge; lia|]. do 12 (eapply bind_step; [apply nonneg_decimal; [done|lia|first [discriminate|intros _; lia]]|]).
  do 2 (eapply bind_step; [reflexivity|]). apply (bind_step _ _ tt); [apply raise_if_Ok; rewrite (stored_dltb _ _ So Sq); apply Z.ltb_ge; lia|].
  do 3 (eapply bind_step; [apply sum_differs_Ok; done|]). eapply bind_step; [exact Hout|]. eapply bind_step; [exact Hbind|]. eapply bind_step; [reflexivity|]. by eexists.
Qed.
End Evidence.

(** ** Sequences of disposals *)

Section Run.
Context `{hashing : Hashing} (profile : LotAmortizedCostProfileVersion) (original fx : decimal).

(** Disposals of one lot, each starting from what the one before it carries forward. *)
Inductive disposal_run : option CarriedLotBookCost -> decimal -> list RecognizedLotBookCost -> option CarriedLotBookCost -> decimal -> Prop :=
| run_done carried open_ : disposal_run carried open_ [] carried open_
| run_dispose carried open_ d consumed r carried' rs final left_ :
    allocate_recognized_lot_book_cost profile d original open_ consumed fx carried = Ok r -> stored consumed -> carry_forward r = Ok carried' ->
    disposal_run carried' (rb_residual_quantity r) rs final left_ -> disposal_run carried open_ (r :: rs) final left_.

(** What the disposals recognise: the change of the carrying amount since the residual of the disposal before. *)
Fixpoint recognised_local (before : Z) (rs : list RecognizedLotBookCost) : Z :=
  match rs with [] => 0 | r :: rs' => ul (rb_current_cost_local r) - before + recognised_local (ul (rb_residual_cost_local r)) rs' end.
Fixpoint recognised_base (before : Z) (rs : list RecognizedLotBookCost) : Z :=
  match rs with [] => 0 | r :: rs' => ul (rb_current_cost_base r) - before + recognised_base (ul (rb_residual_cost_base r)) rs' end.

(** Each is the share of the scheduled movement that belongs to the open quantity. *)
Fixpoint recognised_shares (scheduled before : Z) (rs : list RecognizedLotBookCost) : Prop :=
  match rs with
  | [] => True
  | r :: rs' => share_of (ul (rb_scheduled_cost_local r) - scheduled) (ul (rb_open_quantity_before r)) (ul original) (ul (rb_current_cost_local r) - before) /\
                recognised_shares (ul (rb_scheduled_cost_local r)) (ul (rb_residual_cost_local r)) rs'
  end.

Lemma carry_inv carried r c' : conserves carried r -> 0 <= ul (rb_scheduled_cost_local r) -> carry_forward r = Ok c' ->
  carried_stored c' /\ booked_local c' = ul (rb_residual_cost_local r) /\ booked_base c' = ul (rb_residual_cost_base r) /\
  (ul (rb_residual_quantity r) = 0 /\ c' = None \/ 0 < ul (rb_residual_quantity r) /\ scheduled_before c' = ul (rb_scheduled_cost_local r)).
Proof.
  intros [(S1 & S2 & S3 & S4 & S5 & S6 & S7 & S8) _ [Hr _] Hq Hl Hb _ Hc] Hs H. unfold carry_forward in H. rewrite (stored_deqb _ _ S5 stored_dzero), ul_dzero in H.
  destruct (Z.eqb_spec (ul (rb_residual_quantity r)) 0) as [E|E].
  - injection H as <-. split; [done|]. assert (ul (rb_residual_cost_local r) = 0 /\ ul (rb_residual_cost_base r) = 0) as [E1 E2].
    { destruct Hc as [(_ & H1 & H2)|[? _]]; [done|lia]. }
    rewrite E1, E2. split; [done|]. split; [done|]. by left.
  - apply bind_Ok in H as (c & Hc' & [= <-]). unfold make_CarriedLotBookCost, require_non_negative_cost in Hc'.
    apply bind_Ok in Hc' as (? & _ & Hc'). apply bind_Ok in Hc' as (? & H1%raise_if_Ok & Hc'). apply bind_Ok in Hc' as (? & H2%raise_if_Ok & [= <-]).
    rewrite (stored_dltb _ _ S2 stored_dzero), ul_dzero in H1. rewrite (stored_dltb _ _ S4 stored_dzero), ul_dzero in H2. apply Z.ltb_ge in H1, H2.
    split; [|split; [done|]; split; [done|]; right; split; [lia|done]]. intros c [= <-]. cbn. done.
Qed.

Lemma exhausted_run carried open_ rs final left_ : stored open_ -> ul open_ = 0 -> disposal_run carried open_ rs final left_ -> rs = [] /\ final = carried /\ left_ = open_.
Proof.
  intros So E Hr. destruct Hr as [|carried open_ d consumed r carried' rs final left_ Ha _ _ _]; [done|]. exfalso.
  unfold allocate_recognized_lot_book_cost in Ha. do 3 apply bind_Ok in Ha as (? & _ & Ha). apply bind_Ok in Ha as (? & Hp%(positive_stored _ _ _ So) & _). lia.
Qed.

Definition consumed_quantities (rs : list RecognizedLotBookCost) : Z := zsum (map (fun r => ul (rb_consumed_quantity r)) rs).
Definition consumed_local (rs : list RecognizedLotBookCost) : Z := zsum (map (fun r => ul (rb_consumed_cost_local r)) rs).
Definition consumed_base (rs : list RecognizedLotBookCost) : Z := zsum (map (fun r => ul (rb_consumed_cost_base r)) rs).

(** C39: along every sequence of disposals of a lot nothing is lost or invented: the consumed quantities and what is left make the opening
    quantity; the consumed costs and the cost carried at the end make the opening cost and the movements recognised on the way, each the
    share of the schedule that belongs to the quantity then open; no carried cost is negative and an exhausted lot carries none. *)
Theorem disposal_run_accounts carried open_ rs final left_ : profile_stored profile -> stored original -> stored fx -> stored open_ -> carried_stored carried ->
  disposal_run carried open_ rs final left_ ->
  consumed_quantities rs + ul left_ = ul open_ /\
  consumed_local rs + booked_local final = booked_local carried + recognised_local (booked_local carried) rs /\
  consumed_base rs + booked_base final = booked_base carried + recognised_base (booked_base carried) rs /\
  recognised_shares (scheduled_before carried) (booked_local carried) rs /\
  (rs <> [] -> 0 <= booked_local final /\ 0 <= booked_base final /\ (ul left_ = 0 -> final = None)).
Proof.
  intros Hp So Sfx Sq Hcar Hrun. unfold consumed_quantities, consumed_local, consumed_base.
  induction Hrun as [carried open_|carried open_ d consumed r carried' rs final left_ Ha Sc Hcf Hrun IH].
  - cbn [map recognised_local recognised_base recognised_shares]. rewrite zsum_nil. split; [lia|]. split; [lia|]. split; [lia|]. done.
  - apply (allocate_inv profile d original open_ consumed fx carried r) in Ha as (Hc & (Eo & Eq & Ec & _) & Ps & _); try done.
    destruct (carry_inv carried r carried' Hc Ps Hcf) as (Hcar' & Hbl & Hbb & Hnext). pose proof Hc as [(_ & _ & _ & _ & S5 & _) _ [Hr _] Hqu Hlo Hba (ml & mb & Eml & Emb & Hsh & _) _].
    destruct (IH S5 Hcar') as (I1 & I2 & I3 & I4 & I5). cbn [map recognised_local recognised_base recognised_shares]. rewrite !zsum_cons, <- Hbl, <- Hbb.
    rewrite Eq in Hqu. split; [lia|]. split; [lia|]. split; [lia|]. split.
    + rewrite Eo in Hsh. replace (ul (rb_current_cost_local r) - booked_local carried) with ml by lia. split; [done|]. destruct Hnext as [[E ->]|[_ <-]]; [|exact I4].
      by destruct (exhausted_run _ _ _ _ _ S5 E Hrun) as (-> & _).
    + intros _. destruct rs as [|r' rs]; [|by apply I5]. inversion Hrun; subst. split; [|split].
      * destruct final as [x|]; [|done]. by destruct (Hcar' x eq_refl) as (_ & ? & _).
      * destruct final as [x|]; [|done]. by destruct (Hcar' x eq_refl) as (_ & _ & ?).
      * intros E. destruct Hnext as [[_ ->]|[? _]]; [done|lia].
Qed.
End Run.
