(* ===== verification/BookCostMaterialization.v ===== *)
(** * Materialised profiles of amortized book cost

    The constructor of a profile checks its rows, its ends and its receipt again; every accepted schedule passes.  The
    file ends with a concrete lot: its schedule, its profile and its disposals, one of which shows a defect. *)

From Stdlib Require Import ZArith Lia QArith Qabs Lqa String.
From stdpp Require Import base tactics list sorting sets strings.
From S2P Require Import Prelude PyDecimal DecimalFacts PyTime Precision Lineage Lots AccruedIncome AmortizedCost AmortizedCostFacts AmortizedStraightLine SourceVersions BookCostAuthority BookCostAuthorityFacts BookCostSources BookCostSourcesFacts BookCostProfile BookCostProfileFacts.

#[local] Open Scope string_scope.
#[local] Open Scope Z_scope.
#[local] Notation policy_ := COST_BASIS_STATE_LEDGER_OUTPUT_V1.

(** What the constructor of a period guarantees. *)
Definition period_input_ok (p : AmortizationPeriodInput) : Prop :=
  pi_period_start_date p < pi_period_end_date p /\ dleb (pi_year_fraction p) dzero = false /\ dltb (pi_cash_coupon_local p) dzero = false.

Lemma make_period_ok s e y c r p : make_AmortizationPeriodInput s e y c r = Ok p -> period_input_ok p.
Proof.
  unfold make_AmortizationPeriodInput. intros (? & Hd%raise_if_Ok & (f & _ & (? & Hf%raise_if_Ok & (k & Hk & (? & _ & [= <-])%bind_Ok)%bind_Ok)%bind_Ok)%bind_Ok)%bind_Ok.
  unfold require_nonnegative_finite in Hk. apply bind_Ok in Hk as (k' & _ & (? & Hk%raise_if_Ok & [= <-])%bind_Ok). split; [cbn; lia|done].
Qed.

(** A row the ledger accepts. *)
Record row_ok (r : AmortizationPeriodResult) : Prop := {
  ro_dates : pr_period_start_date r < pr_period_end_date r; ro_year : dleb (pr_year_fraction r) dzero = false;
  ro_begin : stored (pr_begin_amortized_cost_local r) /\ 0 <= ul (pr_begin_amortized_cost_local r);
  ro_coupon : stored (pr_cash_coupon_local r) /\ 0 <= ul (pr_cash_coupon_local r);
  ro_end : stored (pr_end_amortized_cost_local r) /\ 0 <= ul (pr_end_amortized_cost_local r)
}.

Fixpoint linked (previous : option date) (rows : list AmortizationPeriodResult) : Prop :=
  match rows with [] => True | r :: rs => (forall e, previous = Some e -> e = pr_period_start_date r) /\ linked (Some (pr_period_end_date r)) rs end.

Lemma rounds_nonneg d : dltb d dzero = false -> 0 <= ul d.
Proof.
  intros H%dltb_false. unfold ul, to_units. rewrite <- (qround_int ROUND_HALF_EVEN 0) at 1. apply qround_mono. change (inject_Z 0) with 0%Q.
  change (dval dzero) with 0%Q in H || (assert (E : (dval dzero == 0)%Q) by reflexivity; rewrite E in H). pose proof (pow10_pos (cp_scale policy_)). nra.
Qed.

Lemma nonnegative_stored d f : stored d -> 0 <= ul d -> nonnegative d f = Ok tt.
Proof. intros Sd Pd. unfold nonnegative. rewrite (stored_dltb _ _ Sd stored_dzero), ul_dzero. by destruct (Z.ltb_spec (ul d) 0); [lia|]. Qed.

Section Rows.
Context `{hashing : Hashing} (decimal_power : context -> decimal -> decimal -> result decimal).

Lemma loop_rows policy redemption y periods : Forall period_input_ok periods -> contiguous periods = true -> forall begin w rows final previous,
  stored begin -> 0 <= ul begin -> (forall e p ps, previous = Some e -> periods = p :: ps -> e = pi_period_start_date p) ->
  schedule_loop decimal_power policy redemption y begin w periods = Ok (rows, final) -> Forall row_ok rows /\ linked previous rows.
Proof.
  induction 1 as [|p ps (Hd & Hy & Hc) Hps IH]; intros Hcon begin w rows final previous Sb Pb Hprev H; cbn [schedule_loop] in H; [by injection H as <- <-|].
  apply bind_Ok in H as (row & Hrow & H). apply (calculate_period_inv _ _ _ _ _ _ _ _ _ Sb) in Hrow as (raw & interest & _ & Hbal & Eb & Es & Ee & Ey & _ & _ & Ec).
  apply bind_Ok in H as (w' & _ & H). apply bind_Ok in H as ([rows' final'] & Hloop & [= <- <-]). pose proof Hbal as [? ? ? ? [Se Pe] ? ? ?].
  assert (Hcon' : contiguous ps = true) by (destruct ps; [done|]; by apply andb_true_iff in Hcon as [_ ?]).
  destruct (IH Hcon' (pr_end_amortized_cost_local row) w' rows' final' (Some (pr_period_end_date row)) Se Pe) as [H1 H2]; [|exact Hloop|].
  { intros e q qs [= <-] ->. apply andb_true_iff in Hcon as [Hq _]. apply Z.eqb_eq in Hq. congruence. }
  split.
  - constructor; [|done]. split; [lia|by rewrite Ey|by rewrite Eb| |done]. split; [apply Hbal|]. rewrite Ec. by apply rounds_nonneg.
  - split; [|done]. intros e E. rewrite Es. by apply (Hprev e p ps).
Qed.

Lemma chained_last opening final rows periods : chained opening final rows periods -> rows <> [] ->
  (exists r rs, rows = r :: rs /\ pr_begin_amortized_cost_local r = opening) /\ exists r, last rows = Some r /\ pr_end_amortized_cost_local r = final.
Proof.
  revert opening periods. induction rows as [|r rows IH]; intros opening periods Hc Hne; [done|]. destruct periods as [|p ps]; [done|]. destruct Hc as (Hb & _ & _ & _ & Hc).
  split; [by exists r, rows|]. destruct rows as [|r' rows].
  - destruct ps; [|done]. exists r. split; [done|]. cbn in Hc. congruence.
  - destruct (IH _ _ Hc) as (_ & x & Hx & Ex); [done|]. exists x. split; [|done]. exact Hx.
Qed.

Lemma materialize_rows id v hash rows : truthy (strip id) = true -> 1 <= v -> is_sha256_digest hash = true -> Forall row_ok rows ->
  forall ordinal previous, 1 <= ordinal -> linked (option_map le_period_end_date previous) rows ->
  exists entries, materialize_periods id v ordinal hash rows = Ok entries /\ map period_result_from_ledger_entry entries = rows /\
    forall p, lp_profile_id p = id -> lp_profile_version p = v -> validate_rows p hash ordinal previous entries = Ok tt.
Proof.
  intros Hid Hv Hh Hrows. induction Hrows as [|r rows [Hd Hy [Sb Pb] [Sc Pc] [Se Pe]] _ IH]; intros ordinal previous Ho Hl; [by exists []|]. destruct Hl as [Hl1 Hl2].
  cbn [materialize_periods].
  assert (Hm : exists e, materialize_period id v ordinal r hash = Ok e /\ period_result_from_ledger_entry e = r /\ le_profile_id e = id /\ le_profile_version e = v /\
    le_period_ordinal e = ordinal /\ le_calculation_output_hash e = hash /\ le_period_start_date e = pr_period_start_date r /\ le_period_end_date e = pr_period_end_date r).
  { unfold materialize_period, make_LotAmortizedCostPeriodLedgerEntry, check_nonblank, require_positive_integer.
    cbn [le_profile_id le_profile_version le_period_ordinal le_period_start_date le_period_end_date le_year_fraction le_begin_amortized_cost_local le_cash_coupon_local
      le_end_amortized_cost_local le_calculation_output_hash]. rewrite Hid, Hy, !nonnegative_stored by done. unfold require_sha256_digest. rewrite Hh.
    destruct (Z.ltb_spec v 1); [lia|]. destruct (Z.ltb_spec ordinal 1); [lia|]. destruct (Z.leb_spec (pr_period_end_date r) (pr_period_start_date r)); [lia|].
    eexists. split; [reflexivity|]. by destruct r. }
  destruct Hm as (e & -> & Er & E1 & E2 & E3 & E4 & E5 & E6). rewrite bind_ret. destruct (IH (ordinal + 1) (Some e)) as (es & -> & Es & Hval); [lia|cbn; by rewrite E6|].
  rewrite bind_ret. exists (e :: es). split; [done|]. split; [cbn; by rewrite Er, Es|]. intros p Hp1 Hp2. cbn [validate_rows].
  rewrite E1, E2, E3, E4, Hp1, Hp2, !String.eqb_refl, !Z.eqb_refl. cbn [negb orb raise_if]. rewrite !bind_ret.
  assert ((match previous with Some q => negb (le_period_end_date q =? le_period_start_date e) | None => false end) = false) as ->.
  { destruct previous as [q|]; [|done]. apply negb_false_iff, Z.eqb_eq. rewrite E5. by apply Hl1. }
  cbn [raise_if]. rewrite bind_ret. by apply Hval.
Qed.
End Rows.

(** ** Materialisation *)

(** What the constructors of the resolved facts guarantee. *)
Record materializable (resolved : ResolvedLotAmortizedCostInputs) : Prop := {
  mt_policy : truthy (strip (am_policy_id (ri_policy resolved))) = true /\ 1 <= am_policy_version (ri_policy resolved);
  mt_schedule : 1 <= sf_schedule_version (ri_schedule_fact resolved);
  mt_currency : truthy (strip (bf_currency (ri_basis_fact resolved))) = true;
  mt_references : ri_source_references resolved <> [];
  mt_periods : Forall period_input_ok (si_periods (ri_calculation_inputs resolved)) /\ si_periods (ri_calculation_inputs resolved) <> [] /\
               contiguous (si_periods (ri_calculation_inputs resolved)) = true
}.

Section Materialisation.
Context `{hashing : Hashing} {hashing_ok : HashingOk} (decimal_power : context -> decimal -> decimal -> result decimal).

Lemma profile_id_total scope : exists id, lot_amortized_cost_profile_id scope = Ok id /\ truthy (strip id) = true.
Proof.
  unfold lot_amortized_cost_profile_id. destruct (content_hash_total (PMap [("identity_version", PInt LOT_AMORTIZED_COST_PROFILE_ID_VERSION);
    ("profile_type", PStr "LOT_AMORTIZED_COST"); ("scope", PSeq (map PStr (scope_key scope)))])) as (h & Hh); [unfold scope_key; write_payload|].
  rewrite Hh, bind_ret. eexists. split; [reflexivity|]. by apply strip_truthy.
Qed.

Lemma lineage_output_digest a v p i o np l : build_calculation_lineage a v p i o np = Ok l -> is_sha256_digest (cl_output_content_hash l) = true.
Proof. intros (ih & ch & oh & _ & _ & Ho & ->)%build_calculation_lineage_inv. by apply canonical_content_hash_digest in Ho. Qed.

Lemma digest_text h : is_sha256_digest h = true -> truthy (strip h) = true.
Proof.
  unfold is_sha256_digest. intros [Hl Hx]%andb_true_iff. destruct h as [|c h]; [done|]. cbn [string_forallb] in Hx. apply andb_true_iff in Hx as [Hc _].
  apply strip_truthy. clear -Hc. destruct c as [[] [] [] [] [] [] [] []]; vm_compute in Hc |- *; done.
Qed.

Lemma active_amount_Ok d f : stored d -> 0 <= ul d -> active_amount (Some d) f = Ok d.
Proof. intros Sd Pd. unfold active_amount. cbn [active_requires]. by rewrite bind_ret, nonnegative_stored. Qed.

Lemma active_version_Ok n f : 1 <= n -> active_version (Some n) f = Ok tt.
Proof. intros Hn. unfold active_version, require_positive_integer. cbn. by destruct (Z.ltb_spec n 1); [lia|]. Qed.

Lemma make_active_Ok p direction initial redemption final residual lineage :
  lp_status p = ACTIVE -> truthy (strip (lp_profile_id p)) = true -> 1 <= lp_profile_version p -> lp_eligibility_reason p = None ->
  truthy (strip (default "" (lp_policy_id p))) = true -> truthy (strip (default "" (lp_currency p))) = true ->
  truthy (strip (default "" (lp_authority_content_hash p))) = true -> is_sha256_digest (default "" (lp_authority_content_hash p)) = true ->
  1 <= default 0 (lp_policy_version p) -> 1 <= default 0 (lp_schedule_version p) -> lp_direction p = Some direction ->
  lp_initial_amortized_cost_local p = Some initial -> stored initial -> 0 <= ul initial ->
  lp_redemption_value_local p = Some redemption -> stored redemption -> 0 <= ul redemption ->
  lp_final_amortized_cost_local p = Some final -> stored final -> 0 <= ul final -> lp_residual_local p = Some residual ->
  lp_source_references p <> [] -> lp_calculation_lineage p = Some lineage ->
  validate_rows p (cl_output_content_hash lineage) 1 None (lp_periods p) = Ok tt ->
  (exists e, head (lp_periods p) = Some e /\ le_begin_amortized_cost_local e = initial) ->
  (exists e, last (lp_periods p) = Some e /\ le_end_amortized_cost_local e = final) ->
  calculation_lineage_binds_output lineage
    (amortized_cost_schedule_output_payload direction initial redemption final residual (map period_result_from_ledger_entry (lp_periods p))) = Ok true ->
  make_LotAmortizedCostProfileVersion p = Ok p.
Proof.
  intros Hst Hid Hv He Hpol Hcur Hau Hdig Hpv Hsv Hd Hi Si Pi Hr Sr Pr Hf Sf Pf Hres Href Hl Hval (e1 & E1 & B1) (e2 & E2 & B2) Hb.
  unfold make_LotAmortizedCostProfileVersion, check_nonblank, require_positive_integer. rewrite Hid, (proj2 (Z.ltb_ge _ 1)), Hst by lia. cbn [negb raise_if].
  rewrite !bind_ret. unfold validate_active. rewrite He, Hd, Hi, Hr, Hf, Hres, Hl, !active_amount_Ok by done. cbn [raise_if]. rewrite bind_ret.
  destruct (lp_policy_id p) as [pid|]; [|done]. destruct (lp_currency p) as [cur|]; [|done]. destruct (lp_authority_content_hash p) as [h|]; [|done].
  cbn [default from_option id] in Hpol, Hcur, Hau, Hdig. unfold active_text. rewrite Hpol, Hcur, Hau, !bind_ret.
  destruct (lp_policy_version p) as [pv|]; [|by cbn in Hpv; lia]. destruct (lp_schedule_version p) as [sv|]; [|by cbn in Hsv; lia].
  rewrite !active_version_Ok by done. cbn [active_requires]. rewrite !bind_ret. destruct (lp_source_references p); [done|]. cbn [raise_if]. rewrite !bind_ret.
  rewrite E2. destruct (lp_periods p) as [|e es] eqn:Ep; [done|]. injection E1 as ->. unfold require_sha256_digest. rewrite Hdig, bind_ret, Hval, bind_ret, B1, B2, !(proj2 (deqb_spec _ _)) by reflexivity.
  cbn [negb raise_if]. rewrite !bind_ret, Hb, bind_ret. done.
Qed.

(** C38: every schedule that the calculation accepts becomes an active profile: the constructor, which checks identities, ordinals, the chain
    of periods, both ends and the receipt again, rejects none; the profile states the schedule row by row. *)
Theorem accepted_schedule_is_materialized resolved profile_version authority r : materializable resolved -> 1 <= profile_version ->
  is_sha256_digest (default (ck_authority_content_hash (ri_cache_key resolved)) authority) = true ->
  calculate_amortized_cost_schedule decimal_power (ri_policy resolved) (ri_calculation_inputs resolved) = Ok r ->
  exists p, materialize_active_lot_amortized_cost_profile decimal_power resolved profile_version authority = Ok p /\
    lp_status p = ACTIVE /\ lp_scope p = pa_scope (ri_assignment resolved) /\ map period_result_from_ledger_entry (lp_periods p) = ar_periods r /\
    lp_initial_amortized_cost_local p = Some (ar_initial_amortized_cost_local r) /\ lp_final_amortized_cost_local p = Some (ar_final_amortized_cost_local r) /\
    profile_stored p.
Proof.
  intros [[Hpid Hpv] Hsv Hcur Href (Hpok & Hpne & Hcon)] Hv Hauth Hr. pose proof Hr as (o & w & Ho & Hi & [Sred _]%governed_stored & Hdir & Hloop & _ & _ & np & Hlin)%calculate_schedule_inv.
  pose proof (ledger_stored _ _ (canonical_units _ _ _ Hi)) as Si. destruct (direction_inv _ _ _ Si Sred Hdir) as (Pi & Pred & _).
  destruct (schedule_loop_inv _ _ _ _ _ _ _ _ _ Si Hloop) as (Hbal & Hchain & Sfin & _).
  destruct (loop_rows decimal_power _ _ _ _ Hpok Hcon _ _ _ _ None Si Pi ltac:(done) Hloop) as [Hrows Hlinked].
  assert (Hne : ar_periods r <> []) by (intros E; rewrite E in Hchain; by destruct (si_periods (ri_calculation_inputs resolved))).
  destruct (chained_last _ _ _ _ Hchain Hne) as ((r1 & rs & Er1 & Eb) & r2 & Er2 & Ee). pose proof (lineage_output_digest _ _ _ _ _ _ _ Hlin) as Hdig.
  destruct (profile_id_total (pa_scope (ri_assignment resolved))) as (id & Hid & Tid).
  destruct (materialize_rows id profile_version _ _ Tid Hv Hdig Hrows 1 None ltac:(lia) Hlinked) as (es & Hes & Emap & Hval).
  unfold materialize_active_lot_amortized_cost_profile. unfold require_positive_integer at 1. rewrite (proj2 (Z.ltb_ge profile_version 1)) by lia. cbn [raise_if].
  rewrite bind_ret, Hr, bind_ret, Hid, bind_ret, Hes, bind_ret.
  match goal with |- exists q, make_LotAmortizedCostProfileVersion ?x = Ok q /\ _ => set (p := x); exists p end. split.
  - apply (make_active_Ok p (ar_direction r) (ar_initial_amortized_cost_local r) (ar_redemption_value_local r) (ar_final_amortized_cost_local r) (ar_residual_local r) (ar_lineage r)); try done.
    + by apply digest_text.
    + rewrite Forall_forall in Hbal. destruct (Hbal r2) as [? ? ? ? [_ Pe] ? ? ?]; [by apply last_Some_elem_of|]. congruence.
    + by apply Hval.
    + rewrite Er1 in Emap. destruct es as [|e es]; [done|]. injection Emap as E1 _. exists e. split; [done|]. by rewrite <- Eb, <- E1.
    + rewrite <- Emap in Er2. change (map period_result_from_ledger_entry es) with (period_result_from_ledger_entry <$> es) in Er2. rewrite fmap_last in Er2.
      destruct (last es) as [e|] eqn:El; [|done]. injection Er2 as <-. exists e. split; [exact El|exact Ee].
    + change (lp_periods p) with es. rewrite Emap. by eapply lineage_binds_own.
  - do 5 (split; [done|]). split; cbn; [intros c [= <-]; done|]. apply Forall_forall. intros e He. rewrite <- Emap in Hrows.
    exact (ro_end _ (proj1 (Forall_forall _ _) Hrows _ (list_elem_of_fmap_2 period_result_from_ledger_entry _ _ He))).
Qed.
End Materialisation.

(** ** A lot, its profile and its disposals *)

Definition example_reference : FinancialSourceReference :=
  {| fs_source_system := "SRC"; fs_source_record_id := "1"; fs_source_revision := "r"; fs_source_content_hash := @sha256_hexdigest constant_hashing "";
     fs_observed_at := example_instant |}.

Definition example_resolved : ResolvedLotAmortizedCostInputs :=
  {| ri_assignment := example_assignment 1 STRAIGHT_LINE_LOCAL_POLICY_ID 100 None "1"; ri_policy := bond_policy; ri_basis_fact := example_basis 1 100 95;
     ri_schedule_fact := example_schedule; ri_yield_fact := None; ri_calculation_inputs := bond_inputs; ri_source_references := [example_reference];
     ri_cache_key := {| ck_scope := example_scope; ck_effective_date := 19700; ck_policy_id := "STRAIGHT"; ck_policy_version := 1; ck_assignment_content_hash := "";
                        ck_basis_content_hash := ""; ck_schedule_content_hash := ""; ck_yield_content_hash := None;
                        ck_authority_content_hash := @sha256_hexdigest constant_hashing "" |} |}.

Lemma accepted_schedule_is_materialized_witness :
  exists p, @materialize_active_lot_amortized_cost_profile constant_hashing no_power example_resolved 1 None = Ok p /\ lp_status p = ACTIVE /\ length (lp_periods p) = 2%nat.
Proof.
  assert (Hm : materializable example_resolved).
  { split; [split; [reflexivity|cbn; lia]|cbn; lia|reflexivity|discriminate|]. split; [|split; [discriminate|reflexivity]].
    assert (Hp : forall s e, s < e -> period_input_ok (bond_period s e)) by (intros s e Hse; split; [exact Hse|split; reflexivity]).
    constructor; [apply Hp; lia|]. constructor; [apply Hp; lia|constructor]. }
  assert (E : exists r, @calculate_amortized_cost_schedule constant_hashing no_power bond_policy bond_inputs = Ok r /\ length (ar_periods r) = 2%nat)
    by (eexists; split; vm_compute; reflexivity).
  destruct E as (r & Er & El).
  destruct (@accepted_schedule_is_materialized constant_hashing constant_hashing_ok no_power example_resolved 1 None r Hm ltac:(lia) eq_refl Er) as (p & Hp & Hs & _ & Hrows & _).
  exists p. split; [exact Hp|]. split; [exact Hs|]. rewrite <- El, <- Hrows. symmetry. apply length_map.
Defined.

Definition example_profile (initial : decimal) : LotAmortizedCostProfileVersion :=
  {| lp_profile_id := "P"; lp_profile_version := 1; lp_scope := example_scope; lp_effective_date := 100; lp_status := ACTIVE; lp_eligibility_reason := None;
     lp_policy_id := Some "STRAIGHT"; lp_policy_version := Some 1; lp_schedule_version := Some 1; lp_currency := Some "EUR";
     lp_direction := Some DISCOUNT_ACCRETION; lp_initial_amortized_cost_local := Some initial; lp_redemption_value_local := None;
     lp_final_amortized_cost_local := None; lp_residual_local := None; lp_authority_content_hash := None; lp_source_references := [];
     lp_calculation_lineage := None;
     lp_periods := [{| le_profile_id := "P"; le_profile_version := 1; le_period_ordinal := 1; le_period_start_date := 100; le_period_end_date := 300;
                       le_year_fraction := dint 1; le_period_rate := None; le_begin_amortized_cost_local := initial; le_interest_income_local := dint 2;
                       le_cash_coupon_local := dzero; le_amortization_amount_local := dint 2; le_end_amortized_cost_local := dint 100;
                       le_rounding_adjustment_local := dzero; le_calculation_output_hash := "" |}] |}.

Lemma example_profile_stored : profile_stored (example_profile (dint 96)).
Proof.
  split; [intros c [= <-]; split; [apply stored_dint; lia|vm_compute; congruence]|]. constructor; [|constructor]. split; [apply stored_dint; lia|vm_compute; congruence].
Qed.

Lemma nothing_carried : carried_stored None.
Proof. intros x. discriminate. Qed.

(** Ten units bought for 96: three are sold before the schedule recognises 100, the other seven after it. *)
Definition first_sale := @allocate_recognized_lot_book_cost constant_hashing (example_profile (dint 96)) 200 (dint 10) (dint 10) (dint 3) (dint 2) None.
Definition carried_after_first : CarriedLotBookCost :=
  Eval vm_compute in match first_sale with
    | Ok r => match carry_forward r with Ok (Some c) => c | _ => {| cb_scheduled_cost_local := dzero; cb_residual_cost_local := dzero; cb_residual_cost_base := dzero |} end
    | _ => {| cb_scheduled_cost_local := dzero; cb_residual_cost_local := dzero; cb_residual_cost_base := dzero |} end.

Lemma disposal_conserves_book_cost_witness :
  exists r, first_sale = Ok r /\ conserves None r /\ exists e, @make_AmortizedCostAllocationEvidence constant_hashing (evidence_of r) = Ok e.
Proof.
  assert (E : exists r, first_sale = Ok r /\ 0 <= ul (rb_residual_cost_local r) /\ 0 <= ul (rb_residual_cost_base r))
    by (eexists; split; [vm_compute; reflexivity|split; vm_compute; congruence]).
  destruct E as (r & Er & Hl & Hb). exists r. split; [exact Er|].
  destruct (@disposal_conserves_book_cost constant_hashing constant_hashing_ok (example_profile (dint 96)) 200 (dint 10) (dint 10) (dint 3) (dint 2) None r
    example_profile_stored eq_refl ltac:(cbn; lia) eq_refl ltac:(apply stored_dint; lia) ltac:(apply stored_dint; lia) ltac:(apply stored_dint; lia)
    ltac:(apply stored_dint; lia) nothing_carried Er) as [Hc He]. split; [exact Hc|]. exact (He Hl Hb).
Defined.

Lemma disposal_run_accounts_witness :
  exists rs final left_, @disposal_run constant_hashing (example_profile (dint 96)) (dint 10) (dint 2) None (dint 10) rs final left_ /\
    length rs = 2%nat /\ ul left_ = 0 /\ final = None /\ consumed_local rs = recognised_local 0 rs.
Proof.
  assert (E1 : exists r, first_sale = Ok r /\ carry_forward r = Ok (Some carried_after_first) /\ rb_residual_quantity r = dint 7)
    by (eexists; split; [vm_compute; reflexivity|split; vm_compute; reflexivity]).
  destruct E1 as (r1 & Er1 & Ec1 & Eq1).
  assert (E2 : exists r, @allocate_recognized_lot_book_cost constant_hashing (example_profile (dint 96)) 300 (dint 10) (dint 7) (dint 7) (dint 2) (Some carried_after_first) = Ok r /\
    carry_forward r = Ok None /\ ul (rb_residual_quantity r) = 0) by (eexists; split; [vm_compute; reflexivity|split; vm_compute; reflexivity]).
  destruct E2 as (r2 & Er2 & Ec2 & Eq2).
  assert (Hrun : @disposal_run constant_hashing (example_profile (dint 96)) (dint 10) (dint 2) None (dint 10) [r1; r2] None (rb_residual_quantity r2)).
  { eapply run_dispose; [exact Er1|apply stored_dint; lia|exact Ec1|]. rewrite Eq1. eapply run_dispose; [exact Er2|apply stored_dint; lia|exact Ec2|constructor]. }
  exists [r1; r2], None, (rb_residual_quantity r2). split; [exact Hrun|]. split; [reflexivity|]. split; [exact Eq2|]. split; [reflexivity|].
  destruct (@disposal_run_accounts constant_hashing (example_profile (dint 96)) (dint 10) (dint 2) None (dint 10) [r1; r2] None (rb_residual_quantity r2)
    example_profile_stored ltac:(apply stored_dint; lia) ltac:(apply stored_dint; lia) ltac:(apply stored_dint; lia) nothing_carried Hrun) as (_ & Hl & _).
  cbn [booked_local] in Hl. lia.
Defined.

(** A lot of ten units that carries two storage units: after two disposals of three units nothing is left of the cost, and the residual of
    a third one is negative although quantity remains; what it should carry forward cannot be built. *)
Example tiny_carry_raises :
  exists r, @allocate_recognized_lot_book_cost constant_hashing (example_profile (Dec 2 (-10))) 200 (dint 10) (dint 4) (dint 3) (dint 1)
      (Some {| cb_scheduled_cost_local := Dec 2 (-10); cb_residual_cost_local := dzero; cb_residual_cost_base := dzero |}) = Ok r /\
    ul (rb_residual_quantity r) = 10 ^ 10 /\ ul (rb_residual_cost_local r) = -1 /\
    carry_forward r = Raise (ValueError "residual_cost_local must be non-negative").
Proof. eexists. split; [vm_compute; reflexivity|]. split_and!; vm_compute; reflexivity. Qed.
