(* ===== verification/Timeline.v ===== *)
(** * Cost-basis timelines

    [cost_basis/calculation/transaction_ordering.py], [transaction_parser.py],
    [cost_basis/processing_checkpoint.py], [portfolio_common/domain/cost_basis_method.py] and
    [application/cost_basis_processing/timeline.py]: the order in which transactions are costed, the
    checkpoint that decides whether one may be appended, and the processor that parses, orders and
    calculates a whole history or an increment on restored lots.

    A raw record is given by its fields at their declared types, as everywhere in this library; the
    processor is written against the strategy interface. *)

From Stdlib Require Import ZArith Lia QArith String Ascii.
From stdpp Require Import base tactics list strings.
From S2P Require Import Prelude PyDecimal DecimalFacts PyTime Precision Lineage Registry Transactions Values Lots CostBasis Fifo Avco CostFields Disposition Calculator.

#[local] Open Scope string_scope.
#[local] Open Scope Z_scope.

(** ** The order of transactions *)

Definition DEFAULT_CASH_DEPENDENCY_RANK : Z := 1.
Definition CASH_INFLOW_COMPONENT_TYPES : list string := ["FX_CASH_SETTLEMENT_BUY"].
Definition CASH_INFLOW_TRANSACTION_TYPES : list string := ["DEPOSIT"; "TRANSFER_IN"; "MERGER_IN"; "EXCHANGE_IN"; "REPLACEMENT_IN"; "BUY"].
Definition CASH_OUTFLOW_COMPONENT_TYPES : list string := ["FX_CASH_SETTLEMENT_SELL"].
Definition CASH_OUTFLOW_TRANSACTION_TYPES : list string := ["SELL"; "WITHDRAWAL"; "FEE"; "TAX"; "TRANSFER_OUT"].

Definition is_cash_inflow (component_type transaction_type : string) : bool :=
  in_set component_type CASH_INFLOW_COMPONENT_TYPES || in_set transaction_type CASH_INFLOW_TRANSACTION_TYPES.
Definition is_cash_outflow (component_type transaction_type : string) : bool :=
  in_set component_type CASH_OUTFLOW_COMPONENT_TYPES || in_set transaction_type CASH_OUTFLOW_TRANSACTION_TYPES.
Definition is_cash_transaction (t : CostBasisTransaction) : bool := is_cash_instrument (attr_text t "product_type") (attr_text t "asset_class").

Definition cash_dependency_rank (t : CostBasisTransaction) : Z :=
  let component_type := normalize_code (attr_text t "component_type") in
  let transaction_type := normalize_code (Some (ct_transaction_type t)) in
  if negb (is_cash_transaction t) then DEFAULT_CASH_DEPENDENCY_RANK
  else if is_cash_inflow component_type transaction_type then 0
  else if is_cash_outflow component_type transaction_type then 2
  else DEFAULT_CASH_DEPENDENCY_RANK.

Record TransactionOrderKey := {
  tk_date : datetime; tk_rank : Z; tk_cash_rank : Z; tk_sequence : Z; tk_target : string; tk_quantity : decimal; tk_transaction_id : string
}.

Definition transaction_order_key (t : CostBasisTransaction) : result TransactionOrderKey :=
  let '(target_sequence, target_instrument_id) := corporate_action_target_order_key t in
  let order_quantity := default (ct_quantity t) (ct_source_lot_order_quantity t) in
  restatement_order ← same_time_restatement_order_key t order_quantity;
  '(quantity_order, transaction_id) ← match (restatement_order : option (decimal * string)) with
    | Some order => Ok order
    | None => negative ← dneg default_context order_quantity; Ok (negative, ct_transaction_id t)
    end;
  Ok {| tk_date := ct_transaction_date t; tk_rank := corporate_action_dependency_rank t; tk_cash_rank := cash_dependency_rank t;
        tk_sequence := target_sequence; tk_target := target_instrument_id; tk_quantity := quantity_order; tk_transaction_id := transaction_id |}.

(** Tuple comparison.  The dates of constructed transactions are aware and compare by instant, decimals compare by value. *)
Definition timeline_compare (x y : TransactionOrderKey) : comparison :=
  lex (Z.compare (dt_instant (tk_date x)) (dt_instant (tk_date y)))
 (lex (Z.compare (tk_rank x) (tk_rank y))
 (lex (Z.compare (tk_cash_rank x) (tk_cash_rank y))
 (lex (Z.compare (tk_sequence x) (tk_sequence y))
 (lex (String.compare (tk_target x) (tk_target y))
 (lex (dcompare (tk_quantity x) (tk_quantity y))
      (String.compare (tk_transaction_id x) (tk_transaction_id y))))))).

Definition with_order_key (t : CostBasisTransaction) : result (TransactionOrderKey * CostBasisTransaction) := k ← transaction_order_key t; Ok (k, t).

(** [CostTransactionSorter.sort_transactions]: the keys are computed first, in input order. *)
Definition sort_transactions (existing_transactions new_transactions : list CostBasisTransaction) : result (list CostBasisTransaction) :=
  keyed ← mapR with_order_key (existing_transactions ++ new_transactions)%list;
  Ok (map snd (stable_sort (fun x y => leb_of timeline_compare (fst x) (fst y)) keyed)).

(** ** The cost-basis method *)

Inductive CostBasisMethod := FIFO | AVCO.

#[export] Instance cost_basis_method_eq_dec : EqDecision CostBasisMethod.
Proof. solve_decision. Defined.

Definition method_value (m : CostBasisMethod) : string := match m with FIFO => "FIFO" | AVCO => "AVCO" end.

(** A method as callers pass it: a member of the enumeration, a text, or nothing. *)
Inductive MethodArgument := MethodMember (m : CostBasisMethod) | MethodText (s : string) | MethodNone.

Fixpoint dashes_to_underscores (s : string) : string :=
  match s with
  | EmptyString => EmptyString
  | String c s' => String (if Ascii.eqb c "-" then "_"%char else c) (dashes_to_underscores s')
  end.

Definition normalize_cost_basis_method (value : MethodArgument) : result CostBasisMethod :=
  match value with
  | MethodMember m => Ok m
  | MethodNone => Ok FIFO
  | MethodText s =>
      let normalized := dashes_to_underscores (upper (strip s)) in
      if String.eqb normalized "FIFO" then Ok FIFO
      else if String.eqb normalized "AVCO" then Ok AVCO
      else Raise (ValueError ("Unsupported cost basis method: " +:+ s))
  end.

(** ** The processing checkpoint *)

Definition COST_BASIS_STATE_VERSION : string := "open-lot-v1".

Record CostBasisProcessingCheckpoint := {
  cp_portfolio_id : string; cp_security_id : string; cp_cost_basis_method : string; cp_latest_transaction_date : datetime;
  cp_latest_dependency_rank : Z; cp_latest_cash_dependency_rank : Z; cp_latest_child_sequence : Z; cp_latest_target_instrument_id : string;
  cp_latest_quantity : decimal; cp_latest_transaction_id : string; cp_calculation_state_version : string
}.

Definition make_CostBasisProcessingCheckpoint (c : CostBasisProcessingCheckpoint) : result CostBasisProcessingCheckpoint :=
  _ ← raise_if (dltb (cp_latest_quantity c) dzero) (ValueError "Latest cost-basis quantity must be nonnegative");
  Ok c.

Definition from_transaction (t : CostBasisTransaction) (cost_basis_method : MethodArgument) : result CostBasisProcessingCheckpoint :=
  key ← transaction_order_key t;
  method ← normalize_cost_basis_method cost_basis_method;
  make_CostBasisProcessingCheckpoint
    {| cp_portfolio_id := ct_portfolio_id t; cp_security_id := ct_security_id t; cp_cost_basis_method := method_value method;
       cp_latest_transaction_date := tk_date key; cp_latest_dependency_rank := tk_rank key; cp_latest_cash_dependency_rank := tk_cash_rank key;
       cp_latest_child_sequence := tk_sequence key; cp_latest_target_instrument_id := tk_target key;
       cp_latest_quantity := ct_quantity t; cp_latest_transaction_id := tk_transaction_id key;
       cp_calculation_state_version := COST_BASIS_STATE_VERSION |}.

Definition checkpoint_order_key (c : CostBasisProcessingCheckpoint) : result TransactionOrderKey :=
  negative ← dneg default_context (cp_latest_quantity c);
  Ok {| tk_date := cp_latest_transaction_date c; tk_rank := cp_latest_dependency_rank c; tk_cash_rank := cp_latest_cash_dependency_rank c;
        tk_sequence := cp_latest_child_sequence c; tk_target := cp_latest_target_instrument_id c; tk_quantity := negative;
        tk_transaction_id := cp_latest_transaction_id c |}.

(** The conjunction is evaluated from the left and stops at the first part that fails. *)
Definition permits_append (c : CostBasisProcessingCheckpoint) (t : CostBasisTransaction) (cost_basis_method : MethodArgument) : result bool :=
  if negb (String.eqb (cp_calculation_state_version c) COST_BASIS_STATE_VERSION) then Ok false else
  method ← normalize_cost_basis_method cost_basis_method;
  if negb (String.eqb (cp_cost_basis_method c) (method_value method)) then Ok false else
  if negb (String.eqb (ct_portfolio_id t) (cp_portfolio_id c)) then Ok false else
  if negb (String.eqb (ct_security_id t) (cp_security_id c)) then Ok false else
  key ← transaction_order_key t;
  latest ← checkpoint_order_key c;
  Ok (match timeline_compare key latest with Gt => true | _ => false end).

(** ** Parsing *)

Definition stub_transaction (raw : CostBasisTransaction) (error_reason : string) : CostBasisTransaction :=
  {| ct_transaction_id := ct_transaction_id raw; ct_portfolio_id := ct_portfolio_id raw; ct_instrument_id := ct_instrument_id raw;
     ct_security_id := ct_security_id raw; ct_transaction_type := ct_transaction_type raw; ct_transaction_date := ct_transaction_date raw;
     ct_settlement_date := ct_settlement_date raw; ct_child_sequence_hint := None; ct_target_instrument_id := None;
     ct_quantity := ct_quantity raw; ct_gross_transaction_amount := ct_gross_transaction_amount raw; ct_net_transaction_amount := None;
     ct_fees := None; ct_accrued_interest := Some dzero; ct_average_price := None; ct_trade_currency := ct_trade_currency raw;
     ct_portfolio_base_currency := ct_portfolio_base_currency raw; ct_transaction_fx_rate := None; ct_net_cost := None; ct_gross_cost := None;
     ct_realized_gain_loss := None; ct_net_cost_local := None; ct_realized_gain_loss_local := None; ct_source_lot_order_quantity := None;
     ct_source_lot_original_quantity := None; ct_lot_restatement := None; ct_error_reason := Some error_reason; ct_extra_fields := [] |}.

Definition create_stub_transaction (raw : CostBasisTransaction) (error_reason : string) : result CostBasisTransaction :=
  make_CostBasisTransaction (stub_transaction raw error_reason).

(** The constructor raises nothing but [ValueError], so the handler of other exceptions is not reached
    ([TimelineFacts.construction_raises_value_errors]). *)
Definition parse_transaction (raw : CostBasisTransaction) : st Errors CostBasisTransaction := fun errors =>
  match make_CostBasisTransaction raw with
  | Ok t => (Ok t, errors)
  | Raise e =>
      let error_reason := "Validation error: " +:+ exc_text e in
      (create_stub_transaction raw error_reason, add_error (ct_transaction_id raw) error_reason errors)
  end.

Definition parse_transactions : list CostBasisTransaction -> st Errors (list CostBasisTransaction) := st_map parse_transaction.

(** ** Restored lots

    [CostBasisCalculationCoordinator._load_open_lot_checkpoint_transactions]: the record of an open lot is its source transaction with
    the quantity and the costs that are left; the original quantity keeps its place in the order, and the
    amortised cost, where the lot has one, is an extension field.  The portfolio currency of the lot is that of its source. *)
Definition carry_state_value (c : AmortizedCostCarryState) : payload :=
  PMap [("profile_id", PStr (ac_profile_id c)); ("profile_version", PInt (ac_profile_version c)); ("profile_content_hash", PStr (ac_profile_content_hash c));
        ("recognized_through_date", PDate (ac_recognized_through_date c)); ("scheduled_cost_local", PDecimal (ac_scheduled_cost_local c));
        ("carrying_amount_local", PDecimal (ac_carrying_amount_local c)); ("carrying_amount_base", PDecimal (ac_carrying_amount_base c));
        ("book_cost_fx_rate_to_base", PDecimal (ac_book_cost_fx_rate_to_base c))].

Definition checkpoint_transaction (source : CostBasisTransaction) (state : OpenLotState) : CostBasisTransaction :=
  {| ct_transaction_id := ct_transaction_id source; ct_portfolio_id := ct_portfolio_id source; ct_instrument_id := ct_instrument_id source;
     ct_security_id := ct_security_id source; ct_transaction_type := ct_transaction_type source; ct_transaction_date := ct_transaction_date source;
     ct_settlement_date := ct_settlement_date source; ct_child_sequence_hint := ct_child_sequence_hint source;
     ct_target_instrument_id := ct_target_instrument_id source; ct_quantity := ol_quantity state;
     ct_gross_transaction_amount := ct_gross_transaction_amount source; ct_net_transaction_amount := ct_net_transaction_amount source;
     ct_fees := ct_fees source; ct_accrued_interest := ct_accrued_interest source; ct_average_price := ct_average_price source;
     ct_trade_currency := ct_trade_currency source; ct_portfolio_base_currency := ct_portfolio_base_currency source;
     ct_transaction_fx_rate := ct_transaction_fx_rate source; ct_net_cost := Some (ol_cost_base state); ct_gross_cost := ct_gross_cost source;
     ct_realized_gain_loss := ct_realized_gain_loss source; ct_net_cost_local := Some (ol_cost_local state);
     ct_realized_gain_loss_local := ct_realized_gain_loss_local source; ct_source_lot_order_quantity := Some (ct_quantity source);
     ct_source_lot_original_quantity := Some (ol_original_quantity state); ct_lot_restatement := ct_lot_restatement source;
     ct_error_reason := ct_error_reason source;
     ct_extra_fields := match ol_amortized_cost state with
                        | Some carry => od_set "amortized_cost_carry_state" (carry_state_value carry) (ct_extra_fields source)
                        | None => ct_extra_fields source
                        end |}.

(** ** The processor *)

Record CostBasisTimelineProcessor (St : Type) := { tp_engine : LotDispositionEngine St; tp_errors : Errors }.
Arguments tp_engine {St}.
Arguments tp_errors {St}.
Arguments Build_CostBasisTimelineProcessor {St}.

Record CostBasisTimelineResult := {
  tr_processed : list CostBasisTransaction; tr_errored : list (string * string); tr_open_lot_states : list (string * OpenLotState);
  tr_disposals : list TransactionLotDisposal; tr_basis_transfers : list TransactionLotBasisTransfer;
  tr_source_transactions : list (string * CostBasisTransaction)
}.

(** [not txn.error_reason]. *)
Definition is_valid (t : CostBasisTransaction) : bool := negb (truthy (or_text (ct_error_reason t) "")).
Definition valid_transaction_ids (ts : list CostBasisTransaction) : list string := map ct_transaction_id (List.filter is_valid ts).
Definition valid_transactions (parsed_existing parsed_new : list CostBasisTransaction) : list CostBasisTransaction :=
  List.filter is_valid (parsed_existing ++ parsed_new)%list.
Definition filter_processed_new_transactions (processed_timeline : list CostBasisTransaction) (new_transaction_ids : list string)
  : list CostBasisTransaction := List.filter (fun t => in_set (ct_transaction_id t) new_transaction_ids) processed_timeline.

(** [{transaction.transaction_id: transaction for transaction in ts}]. *)
Definition transactions_by_id (ts : list CostBasisTransaction) : list (string * CostBasisTransaction) :=
  foldl (fun d t => od_set (ct_transaction_id t) t d) [] ts.

Section Processor.
Context {hashing : Hashing} {St : Type} `{!CostBasisStrategy St}.
#[local] Notation Processor := (CostBasisTimelineProcessor St).
#[local] Notation P := (st Processor).

Definition on_errors {A} (m : st Errors A) : P A := fun p =>
  let '(r, errors) := m (tp_errors p) in (r, Build_CostBasisTimelineProcessor (tp_engine p) errors).
Definition on_timeline_engine {A} (m : st (LotDispositionEngine St) A) : P A := fun p =>
  let '(r, e) := m (tp_engine p) in (r, Build_CostBasisTimelineProcessor e (tp_errors p)).

(** [_calculate_transaction_costs]: the transaction as the calculation left it, and whether it was accepted. *)
Definition timeline_calculate (t : CostBasisTransaction) (p : Processor) : bool * CostBasisTransaction * Processor :=
  let '(r, s) := calculate_transaction_costs {| cs_transaction := t; cs_engine := tp_engine p; cs_errors := tp_errors p |} in
  let id := ct_transaction_id (cs_transaction s) in
  match r with
  | Raise e => (false, cs_transaction s, Build_CostBasisTimelineProcessor (cs_engine s) (add_error id ("Unexpected error: " +:+ exc_text e) (cs_errors s)))
  | Ok _ => (negb (has_errors_for id (cs_errors s)), cs_transaction s, Build_CostBasisTimelineProcessor (cs_engine s) (cs_errors s))
  end.

Fixpoint process_sorted_timeline (sorted_timeline : list CostBasisTransaction) (p : Processor) : list CostBasisTransaction * Processor :=
  match sorted_timeline with
  | [] => ([], p)
  | t :: ts =>
      let '(accepted, t', p') := timeline_calculate t p in
      let '(processed, p'') := process_sorted_timeline ts p' in
      ((if accepted then t' :: processed else processed), p'')
  end.

Definition process_timeline (sorted_timeline : list CostBasisTransaction) : P (list CostBasisTransaction) := fun p =>
  let '(processed, p') := process_sorted_timeline sorted_timeline p in (Ok processed, p').

Definition clear : P unit := st_modify (fun p => Build_CostBasisTimelineProcessor (clear_disposal_records (tp_engine p)) (clear_errors (tp_errors p))).

(** The result is assembled from the errors and from the engine, which may refuse to report. *)
Definition timeline_result (processed sources : list CostBasisTransaction) : P CostBasisTimelineResult :=
  p ← st_get;
  let accepted_transaction_ids := Some (map ct_transaction_id processed) in
  open_lot_states ← st_lift (engine_get_open_lot_states (tp_engine p));
  disposals ← st_lift (disposal_records accepted_transaction_ids (tp_engine p));
  basis_transfers ← st_lift (basis_transfer_records accepted_transaction_ids (tp_engine p));
  mret {| tr_processed := processed; tr_errored := get_errors (tp_errors p); tr_open_lot_states := open_lot_states; tr_disposals := disposals;
          tr_basis_transfers := basis_transfers; tr_source_transactions := transactions_by_id sources |}.

Definition process_transactions (existing_transactions_raw new_transactions_raw : list CostBasisTransaction) : P CostBasisTimelineResult :=
  _ ← clear;
  parsed_existing ← on_errors (parse_transactions existing_transactions_raw);
  parsed_new ← on_errors (parse_transactions new_transactions_raw);
  let new_transaction_ids := valid_transaction_ids parsed_new in
  sorted_timeline ← st_lift (sort_transactions [] (valid_transactions parsed_existing parsed_new));
  processed_timeline ← process_timeline sorted_timeline;
  timeline_result (filter_processed_new_transactions processed_timeline new_transaction_ids) processed_timeline.

Definition process_increment (initial_open_lots_raw new_transactions_raw : list CostBasisTransaction) : P CostBasisTimelineResult :=
  _ ← clear;
  parsed_initial_lots ← on_errors (parse_transactions initial_open_lots_raw);
  parsed_new ← on_errors (parse_transactions new_transactions_raw);
  let valid_initial_lots := List.filter is_valid parsed_initial_lots in
  let valid_new := List.filter is_valid parsed_new in
  sorted_initial_lots ← st_lift (sort_transactions [] valid_initial_lots);
  _ ← on_timeline_engine (engine_restore_open_lots sorted_initial_lots);
  sorted_new ← st_lift (sort_transactions [] valid_new);
  processed_new ← process_timeline sorted_new;
  timeline_result processed_new (valid_initial_lots ++ processed_new)%list.
End Processor.

(** The processor over a strategy that has just been created. *)
Definition new_processor {hashing : Hashing} {St : Type} `{!CostBasisStrategy St} : CostBasisTimelineProcessor St :=
  Build_CostBasisTimelineProcessor (engine_init strategy_init) [].

(** The strategy follows the method: the two processors have states of different types. *)
Definition build_cost_basis_timeline_processor {hashing : Hashing} (cost_basis_method : MethodArgument)
  : result (CostBasisTimelineProcessor FifoState + CostBasisTimelineProcessor AvcoState) :=
  resolved_method ← normalize_cost_basis_method cost_basis_method;
  Ok (match resolved_method with AVCO => inr new_processor | FIFO => inl new_processor end).
