(* ===== verification/TimelineFacts.v ===== *)
(** * Properties of cost-basis timelines

    The order of processing does not depend on arrival, a checkpoint admits exactly the transactions
    that sort last, and a rebuild accounts for every transaction: it is accepted and sealed, or it is
    reported and publishes no evidence. *)

From Stdlib Require Import ZArith Lia QArith String.
From stdpp Require Import base tactics list sets strings.
From S2P Require Import Prelude PyDecimal DecimalFacts PyTime Precision Lineage Registry Transactions Values Lots CostBasis Fifo CostFields Disposition Calculator CalculatorFacts CalculatorTrades Timeline.

#[local] Open Scope string_scope.
#[local] Open Scope Z_scope.

(** ** Sorting *)

#[export] Instance timeline_comparer : Comparer timeline_compare.
Proof.
  unfold timeline_compare.
  repeat (apply lex_comparer;
    [first [apply (on_comparer (fun k => dt_instant (tk_date k)) Z.compare) | apply (on_comparer tk_rank Z.compare) | apply (on_comparer tk_cash_rank Z.compare)
     | apply (on_comparer tk_sequence Z.compare) | apply (on_comparer tk_target String.compare) | apply (on_comparer tk_quantity dcompare)]; typeclasses eauto|]).
  apply (on_comparer tk_transaction_id String.compare); typeclasses eauto.
Qed.

Lemma timeline_eq_id x y : timeline_compare x y = Eq -> tk_transaction_id x = tk_transaction_id y.
Proof. unfold timeline_compare, lex. intros H. repeat (case_match; try discriminate). by apply String.compare_eq_iff. Qed.

Lemma order_key_id t k : transaction_order_key t = Ok k -> tk_transaction_id k = ct_transaction_id t.
Proof.
  unfold transaction_order_key, same_time_restatement_order_key. destruct (corporate_action_target_order_key t). intros H. inv_ok.
  destruct (in_set _ _); inv_ok; done.
Qed.

Lemma order_key_quantity t k : transaction_order_key t = Ok k ->
  dneg default_context (default (ct_quantity t) (ct_source_lot_order_quantity t)) = Ok (tk_quantity k).
Proof.
  unfold transaction_order_key, same_time_restatement_order_key. destruct (corporate_action_target_order_key t). intros H. inv_ok.
  destruct (in_set _ _); inv_ok; done.
Qed.

Lemma with_order_key_inv t k t' : with_order_key t = Ok (k, t') -> t' = t /\ transaction_order_key t = Ok k.
Proof. unfold with_order_key. intros H. inv_ok. done. Qed.

#[local] Notation timeline_leb := (fun x y : TransactionOrderKey * CostBasisTransaction => leb_of timeline_compare (fst x) (fst y)).

Lemma keyed_inv ts ks k t : mapR with_order_key ts = Ok ks -> (k, t) ∈ ks -> t ∈ ts /\ transaction_order_key t = Ok k.
Proof.
  intros HF%mapR_Forall2. revert k t. induction HF as [|t0 [k0 t0'] ts ks Ht HF IH]; intros k t Hin; [by apply elem_of_nil in Hin|].
  apply with_order_key_inv in Ht as [-> Hk]. apply elem_of_cons in Hin as [[= -> ->]|Hin]; [split; [by left|done]|].
  destruct (IH _ _ Hin). split; [by right|done].
Qed.

Lemma keyed_all ts ks : mapR with_order_key ts = Ok ks -> map snd ks = ts.
Proof. intros HF%mapR_Forall2. induction HF as [|t [k t'] ts ks Ht HF IH]; [done|]. apply with_order_key_inv in Ht as [-> _]. cbn. by rewrite IH. Qed.

Lemma distinct_ids ts t t' : NoDup (map ct_transaction_id ts) -> t ∈ ts -> t' ∈ ts -> ct_transaction_id t = ct_transaction_id t' -> t = t'.
Proof.
  induction ts as [|t0 ts IH]; simpl; [by intros _ ?%elem_of_nil|]. rewrite NoDup_cons, !elem_of_cons.
  intros [Hn Hd] [->|H1] [->|H2] E; try done; [| |by apply IH]; destruct Hn; [rewrite E|rewrite <- E]; by apply (list_elem_of_fmap_2 ct_transaction_id).
Qed.

Lemma sort_perm ts ts' o : NoDup (map ct_transaction_id ts) -> ts ≡ₚ ts' -> sort_transactions [] ts = Ok o -> sort_transactions [] ts' = Ok o.
Proof.
  intros Hd Hp (ks & Hks & [= <-])%bind_Ok. unfold sort_transactions. cbn [app] in *.
  destruct (mapR_perm _ _ _ _ Hp Hks) as (ks' & -> & Hpk). cbn. do 2 f_equal. symmetry.
  apply stable_sort_perm_eq; [intros; apply leb_of_total, _|intros; by eapply (leb_of_trans timeline_compare)| |done].
  intros [k1 t1] [k2 t2] H1 H2 L1 L2. destruct (keyed_inv _ _ _ _ Hks H1) as [I1 K1], (keyed_inv _ _ _ _ Hks H2) as [I2 K2].
  pose proof (timeline_eq_id _ _ (leb_of_antisym timeline_compare k1 k2 L1 L2)) as E. rewrite (order_key_id _ _ K1), (order_key_id _ _ K2) in E.
  pose proof (distinct_ids _ _ _ Hd I1 I2 E) as ->. congruence.
Qed.

Lemma sort_elem ts o : sort_transactions [] ts = Ok o -> o ≡ₚ ts.
Proof. intros (ks & Hk & [= <-])%bind_Ok. cbn [app] in Hk. rewrite <- (keyed_all _ _ Hk). apply Permutation_map, stable_sort_perm. Qed.

(** Sorting one more transaction puts it last exactly when its key is not below any other. *)
Lemma sort_last ts o t k : sort_transactions [] ts = Ok o -> transaction_order_key t = Ok k -> NoDup (map ct_transaction_id (ts ++ [t])) ->
  sort_transactions ts [t] = Ok (o ++ [t])%list <->
  (forall u ku, u ∈ ts -> transaction_order_key u = Ok ku -> timeline_compare ku k = Lt).
Proof.
  intros (ks & Hk & [= <-])%bind_Ok Ht Hd. cbn [app] in Hk. unfold sort_transactions.
  rewrite (mapR_app with_order_key ts [t] ks [(k, t)] Hk) by (cbn [mapR]; unfold with_order_key; by rewrite Ht). rewrite bind_ret.
  assert (Hkey : forall u ku, u ∈ ts -> transaction_order_key u = Ok ku -> (ku, u) ∈ ks).
  { apply mapR_Forall2 in Hk. clear Hd. intros u ku Hu Hku. induction Hk as [|u0 [k0 u0'] ts ks H0 _ IH]; [by apply elem_of_nil in Hu|].
    apply with_order_key_inv in H0 as [-> H0]. apply elem_of_cons in Hu as [->|Hu]; [rewrite H0 in Hku; injection Hku as ->; left|right; by apply IH]. }
  split.
  - intros [= E] u ku Hu Hku. pose proof (stable_sort_sorted timeline_leb (fun x y => leb_of_total timeline_compare (fst x) (fst y))
      (fun x y z => leb_of_trans timeline_compare (fst x) (fst y) (fst z)) (ks ++ [(k, t)])) as Hs.
    assert (Hin : (k, t) ∈ stable_sort timeline_leb (ks ++ [(k, t)])) by (rewrite stable_sort_perm; set_solver).
    assert (Hiu : (ku, u) ∈ stable_sort timeline_leb (ks ++ [(k, t)])) by (rewrite stable_sort_perm; set_solver).
    assert (Hall : forall x, x ∈ stable_sort timeline_leb (ks ++ [(k, t)]) -> snd x = t -> x = (k, t)).
    { intros [k' t'] Hx Et. cbn in Et. subst t'. rewrite stable_sort_perm in Hx. apply elem_of_app in Hx as [Hx|Hx%list_elem_of_singleton]; [|done].
      destruct (keyed_inv _ _ _ _ Hk Hx) as [_ Hkx]. congruence. }
    destruct (stable_sort timeline_leb (ks ++ [(k, t)])) as [|x xs _] using rev_ind; [by apply elem_of_nil in Hin|].
    rewrite map_app in E. apply app_inj_tail in E as [_ E]. cbn in E. pose proof (Hall x ltac:(set_solver) E) as ->.
    apply elem_of_app in Hiu as [Hiu|Hiu%list_elem_of_singleton].
    + assert (leb_of timeline_compare ku k = true) as Hle.
      { clear -Hs Hiu. induction xs as [|y xs IH]; [by apply elem_of_nil in Hiu|]. inversion Hs as [|? ? Hs1 Hy]; subst.
        apply elem_of_cons in Hiu as [<-|Hiu]; [|by apply IH]. rewrite Forall_forall in Hy. apply (Hy (k, t)). set_solver. }
      unfold leb_of in Hle. destruct (timeline_compare ku k) eqn:C; [|done|done]. exfalso. apply timeline_eq_id in C.
      rewrite (order_key_id _ _ Hku), (order_key_id _ _ Ht) in C. rewrite map_app in Hd. apply NoDup_app in Hd as (_ & Hd & _).
      apply (Hd (ct_transaction_id u)); [by apply (list_elem_of_fmap_2 ct_transaction_id)|]. rewrite C. cbn. by left.
    + injection Hiu as -> ->. exfalso. rewrite map_app in Hd. apply NoDup_app in Hd as (_ & Hd & _).
      apply (Hd (ct_transaction_id t)); [by apply (list_elem_of_fmap_2 ct_transaction_id)|]. cbn. by left.
  - intros Hlt. rewrite stable_sort_app; [by rewrite map_app|].
    apply Forall_forall. intros [ku u] Hu. apply Forall_singleton. destruct (keyed_inv _ _ _ _ Hk Hu) as [Hu' Hku]. unfold leb_of. cbn. by rewrite (Hlt u ku).
Qed.

(** ** The checkpoint *)

(** A checkpoint keeps the order key of a transaction that is not a restored lot. *)
Lemma checkpoint_keeps_key t m c k : ct_source_lot_order_quantity t = None -> from_transaction t m = Ok c -> transaction_order_key t = Ok k ->
  checkpoint_order_key c = Ok k /\ cp_portfolio_id c = ct_portfolio_id t /\ cp_security_id c = ct_security_id t /\
  cp_calculation_state_version c = COST_BASIS_STATE_VERSION /\ exists method, normalize_cost_basis_method m = Ok method /\ cp_cost_basis_method c = method_value method.
Proof.
  intros Hq Hc Hk. unfold from_transaction in Hc. rewrite Hk, bind_ret in Hc. inv_ok. unfold make_CostBasisProcessingCheckpoint in *. inv_ok. unfold raise_if in *.
  split; [|by eauto 10]. apply order_key_quantity in Hk. rewrite Hq in Hk. cbn [default from_option id] in Hk. unfold checkpoint_order_key.
  cbn [cp_latest_quantity]. change (default (ct_quantity t) None) with (ct_quantity t) in Hk. rewrite Hk. by destruct k.
Qed.

Section Append.
Context {hashing : Hashing} {St : Type} `{!CostBasisStrategy St}.
#[local] Notation Processor := (CostBasisTimelineProcessor St).

Lemma process_app xs ys (p : Processor) :
  process_sorted_timeline (xs ++ ys) p =
  let '(done, p1) := process_sorted_timeline xs p in let '(rest, p2) := process_sorted_timeline ys p1 in ((done ++ rest)%list, p2).
Proof.
  revert p. induction xs as [|x xs IH]; intros p; cbn [app process_sorted_timeline]; [by destruct (process_sorted_timeline ys p)|].
  destruct (timeline_calculate x p) as [[a t'] p1]. rewrite IH. destruct (process_sorted_timeline xs p1) as [done p2].
  destruct (process_sorted_timeline ys p2) as [rest p3]. by destruct a.
Qed.

(** C6: a checkpoint of the latest costed transaction permits an append exactly when the new transaction belongs to the same book and
    sorts after the whole history; the rebuild of the longer history then calculates the old one as before and the new transaction
    last, on the state the old one leaves. *)
Theorem append_permitted_iff_sorted_last existing latest new sorted m c k :
  NoDup (map ct_transaction_id (existing ++ [new])) -> sort_transactions [] existing = Ok sorted ->
  latest ∈ existing -> ct_source_lot_order_quantity latest = None ->
  (forall t kt kl, t ∈ existing -> transaction_order_key t = Ok kt -> transaction_order_key latest = Ok kl -> timeline_compare kt kl <> Gt) ->
  from_transaction latest m = Ok c -> transaction_order_key new = Ok k ->
  (permits_append c new m = Ok true <->
   ct_portfolio_id new = ct_portfolio_id latest /\ ct_security_id new = ct_security_id latest /\
   sort_transactions existing [new] = Ok (sorted ++ [new])%list) /\
  forall p : Processor, process_sorted_timeline (sorted ++ [new]) p =
    let '(done, p1) := process_sorted_timeline sorted p in
    let '(accepted, t, p2) := timeline_calculate new p1 in ((done ++ if accepted then [t] else [])%list, p2).
Proof.
  intros Hd Hs Hin Hq Hmax Hc Hk. split.
  - assert (exists kl, transaction_order_key latest = Ok kl) as (kl & Hkl).
    { unfold from_transaction in Hc. destruct (transaction_order_key latest); [by eexists|done]. }
    destruct (checkpoint_keeps_key latest m c kl Hq Hc Hkl) as (Hkey & Ep & Es & Ev & method & Em & Emc).
    rewrite (sort_last existing sorted new k Hs Hk Hd). unfold permits_append. rewrite Ev, String.eqb_refl. cbn [negb]. rewrite Em, bind_ret, Emc, String.eqb_refl. cbn [negb].
    rewrite Ep, Es, Hk, Hkey, !bind_ret.
    destruct (String.eqb_spec (ct_portfolio_id new) (ct_portfolio_id latest)); cbn [negb]; [|by split; [|intros (? & _)]].
    destruct (String.eqb_spec (ct_security_id new) (ct_security_id latest)); cbn [negb]; [|by split; [|intros (_ & ? & _)]].
    assert (timeline_compare k kl = Gt <-> timeline_compare kl k = Lt) as Hsym by (rewrite (comparer_sym timeline_compare kl k); by destruct (timeline_compare kl k)).
    split.
    + intros [= Hgt]. split_and!; [done..|]. intros u ku Hu Hku. specialize (Hmax u ku kl Hu Hku Hkl).
      assert (timeline_compare k kl = Gt) as Hgt' by (by destruct (timeline_compare k kl)). rewrite Hsym in Hgt'.
      pose proof (comparer_trans timeline_compare ku kl k Hmax ltac:(congruence)) as Hle.
      destruct (timeline_compare ku k) eqn:C; [|done|done]. exfalso.
      assert (timeline_compare k ku <> Gt) as Hle2 by (rewrite (comparer_sym timeline_compare ku k), C; done).
      pose proof (comparer_trans timeline_compare k ku kl Hle2 Hmax) as Hle3. apply Hle3. by apply Hsym.
    + intros (_ & _ & Hlt). rewrite (proj2 Hsym (Hlt latest kl Hin Hkl)). done.
  - intros p. rewrite process_app. destruct (process_sorted_timeline sorted p) as [done p1]. cbn [process_sorted_timeline].
    destruct (timeline_calculate new p1) as [[a t] p2]. by destruct a.
Qed.
End Append.

(** ** Parsing *)

Definition value_errors {A} (m : result A) : Prop := forall e, m = Raise e -> exists msg, e = ValueError msg.

Lemma value_errors_bind {A B} (m : result A) (f : A -> result B) : value_errors m -> (forall a, value_errors (f a)) -> value_errors (m ≫= f).
Proof. intros Hm Hf e. destruct m as [a|e']; [by apply Hf|]. cbn. intros [= <-]. by apply Hm. Qed.

Lemma value_errors_check {A} b msg (a : A) : value_errors (raise_if b (ValueError msg) ≫= fun _ => Ok a).
Proof. intros e. destruct b; cbn; [intros [= <-]; by eexists|done]. Qed.

Lemma value_errors_non_negative d f : value_errors (non_negative d f).
Proof. apply value_errors_check. Qed.

Lemma value_errors_fees a b c d e : value_errors (make_Fees a b c d e).
Proof. unfold make_Fees. repeat (apply value_errors_bind; [apply value_errors_non_negative|intros ?]). by intros ?. Qed.

Lemma construction_raises_value_errors t e : make_CostBasisTransaction t = Raise e -> exists msg, e = ValueError msg.
Proof.
  revert e. change (value_errors (make_CostBasisTransaction t)). unfold make_CostBasisTransaction.
  repeat (apply value_errors_bind; [first [apply value_errors_non_negative | unfold optional_non_negative, optional_positive; case_match;
    first [apply value_errors_check | apply value_errors_fees | by intros ?]]|intros ?]).
  by intros ?.
Qed.

Lemma construction_keeps t t' : make_CostBasisTransaction t = Ok t' ->
  ct_transaction_id t' = ct_transaction_id t /\ ct_error_reason t' = ct_error_reason t.
Proof. unfold make_CostBasisTransaction. intros H. inv_ok. done. Qed.

Lemma parsed_keeps raws ts : mapR make_CostBasisTransaction raws = Ok ts ->
  map ct_transaction_id ts = map ct_transaction_id raws /\ map ct_error_reason ts = map ct_error_reason raws.
Proof. intros HF%mapR_Forall2. induction HF as [|? ? ? ? [K1 K2]%construction_keeps _ [I1 I2]]; [done|]. cbn. by rewrite K1, K2, I1, I2. Qed.

(** Records without an error of their own are all valid. *)
Lemma parsed_valid raws ts : mapR make_CostBasisTransaction raws = Ok ts -> Forall (fun t => ct_error_reason t = None) raws -> List.filter is_valid ts = ts.
Proof.
  intros HF%mapR_Forall2 Hv. induction HF as [|raw t raws ts [_ E]%construction_keeps _ IH]; [done|]. inversion Hv as [|? ? Hn Hv']; subst.
  cbn [List.filter]. unfold is_valid at 1. rewrite E, Hn. cbn. by rewrite (IH Hv').
Qed.

(** A record that the constructor accepts and whose order key exists. *)
Definition admitted (raw : CostBasisTransaction) : Prop := exists t k, make_CostBasisTransaction raw = Ok t /\ transaction_order_key t = Ok k.

Lemma parse_admitted raws errors : Forall admitted raws -> exists ts, mapR make_CostBasisTransaction raws = Ok ts /\
  parse_transactions raws errors = (Ok ts, errors) /\ Forall (fun t => exists k, transaction_order_key t = Ok k) ts /\
  map ct_transaction_id ts = map ct_transaction_id raws /\ map ct_error_reason ts = map ct_error_reason raws.
Proof.
  induction 1 as [|raw raws (t & k & Hm & Hk) _ (ts & Hts & Hp & Hks & Hid & Her)]; [by exists []|]. exists (t :: ts). unfold parse_transactions in *. cbn [mapR st_map].
  rewrite Hm, bind_ret, Hts. destruct (construction_keeps _ _ Hm) as [E1 E2]. split_and!; [done| |by constructor; [exists k|]|cbn; congruence|cbn; congruence].
  assert (parse_transaction raw errors = (Ok t, errors)) as Hr by (unfold parse_transaction; by rewrite Hm).
  unfold mbind, st_bind. rewrite Hr, Hp. done.
Qed.

(** ** Rebuilds *)

Lemma mapR_defined {A B} (f : A -> result B) xs : Forall (fun x => exists y, f x = Ok y) xs -> exists ys, mapR f xs = Ok ys.
Proof. induction 1 as [|x xs (y & Hy) _ (ys & Hys)]; [by exists []|]. exists (y :: ys). cbn [mapR]. by rewrite Hy, bind_ret, Hys. Qed.

Section Rebuild.
Context {hashing : Hashing} {St : Type} `{!CostBasisStrategy St}.
#[local] Notation Processor := (CostBasisTimelineProcessor St).

(** The processor after its errors and records are cleared. *)
Definition cleared (p : Processor) : Processor := Build_CostBasisTimelineProcessor (clear_disposal_records (tp_engine p)) [].

(** On admitted records a rebuild orders the valid transactions and calculates them on the cleared processor. *)
Lemma process_run existing new (p : Processor) : Forall admitted (existing ++ new) -> exists es ns sorted,
  mapR make_CostBasisTransaction existing = Ok es /\ mapR make_CostBasisTransaction new = Ok ns /\
  sort_transactions [] (valid_transactions es ns) = Ok sorted /\
  process_transactions existing new p =
    (let '(processed, p') := process_sorted_timeline sorted (cleared p) in
     timeline_result (filter_processed_new_transactions processed (valid_transaction_ids ns)) processed p').
Proof.
  intros [He Hn]%Forall_app. destruct (parse_admitted existing [] He) as (es & He1 & He2 & He3 & _), (parse_admitted new [] Hn) as (ns & Hn1 & Hn2 & Hn3 & _).
  assert (exists ks, mapR with_order_key (valid_transactions es ns) = Ok ks) as (ks & Hks).
  { apply mapR_defined. unfold valid_transactions. apply Forall_forall. intros t Ht%list_elem_of_In%List.filter_In. destruct Ht as [Ht _].
    apply list_elem_of_In, elem_of_app in Ht. rewrite Forall_forall in He3, Hn3. unfold with_order_key.
    destruct Ht as [Ht|Ht]; [destruct (He3 t Ht) as (k & ->)|destruct (Hn3 t Ht) as (k & ->)]; by eexists. }
  assert (Hsort : sort_transactions [] (valid_transactions es ns) = Ok (map snd (stable_sort timeline_leb ks))) by (unfold sort_transactions; cbn [app]; by rewrite Hks).
  eexists es, ns, _. split_and!; [done|done|exact Hsort|].
  unfold process_transactions, clear, clear_errors, on_errors, process_timeline, st_modify, mbind, st_bind, st_lift. cbn [tp_errors tp_engine].
  rewrite He2. cbn [tp_errors tp_engine]. rewrite Hn2. cbn [tp_errors tp_engine]. rewrite Hsort. unfold cleared. by destruct (process_sorted_timeline _ _).
Qed.

Lemma filter_map_NoDup {A B} (g : A -> B) (f : A -> bool) xs : NoDup (map g xs) -> NoDup (map g (List.filter f xs)).
Proof.
  induction xs as [|x xs IH]; cbn; [done|]. intros [Hx Hd]%NoDup_cons. destruct (f x); [|by apply IH]. constructor; [|by apply IH].
  intros Hin. apply Hx. apply list_elem_of_fmap in Hin as (y & -> & Hy%list_elem_of_In%List.filter_In). apply list_elem_of_fmap. exists y. split; [done|]. apply list_elem_of_In, Hy.
Qed.

Lemma in_set_perm x xs ys : xs ≡ₚ ys -> in_set x xs = in_set x ys.
Proof. intros Hp. apply eq_true_iff_eq. rewrite !in_set_true, <- !list_elem_of_In. by rewrite Hp. Qed.

(** C4: a rebuild depends on the set of transactions alone.  Whatever the order in which the stored history and the new records are
    read, the outcome is the same: the accepted transactions and their order, the errors, the open lots, the evidence, and the
    state of the processor afterwards. *)
Theorem rebuild_ignores_arrival_order existing new existing' new' (p : Processor) :
  Forall admitted (existing ++ new) -> NoDup (map ct_transaction_id (existing ++ new)) -> existing ≡ₚ existing' -> new ≡ₚ new' ->
  process_transactions existing new p = process_transactions existing' new' p.
Proof.
  intros Ha Hd He Hn. assert (Ha' : Forall admitted (existing' ++ new')) by (by rewrite <- He, <- Hn).
  destruct (process_run existing new p Ha) as (es & ns & o & E1 & N1 & S1 & ->), (process_run existing' new' p Ha') as (es' & ns' & o' & E2 & N2 & S2 & ->).
  destruct (mapR_perm _ _ _ _ He E1) as (es2 & E2' & Pe), (mapR_perm _ _ _ _ Hn N1) as (ns2 & N2' & Pn). rewrite E2 in E2'. rewrite N2 in N2'.
  injection E2' as <-. injection N2' as <-.
  assert (Hids : map ct_transaction_id (es ++ ns) = map ct_transaction_id (existing ++ new)).
  { rewrite !map_app. by rewrite (proj1 (parsed_keeps _ _ E1)), (proj1 (parsed_keeps _ _ N1)). }
  assert (Hv : valid_transactions es ns ≡ₚ valid_transactions es' ns') by (apply filter_perm; by rewrite Pe, Pn).
  rewrite (sort_perm _ _ _ ltac:(apply filter_map_NoDup; by rewrite Hids) Hv S1) in S2. injection S2 as <-.
  destruct (process_sorted_timeline o (cleared p)) as [processed p']. unfold filter_processed_new_transactions.
  erewrite List.filter_ext; [done|]. intros t. cbn. apply in_set_perm. unfold valid_transaction_ids. by apply Permutation_map, filter_perm.
Qed.
End Rebuild.

(** ** Every transaction is accounted for *)

Section Accounts.
Context {hashing : Hashing} {St : Type} `{!CostBasisStrategy St}.
#[local] Notation Processor := (CostBasisTimelineProcessor St).
#[local] Notation stripped := (fun t => strip (ct_transaction_id t)).

Definition errored (k : string) (p : Processor) : bool := has_errors_for k (tp_errors p).

(** A calculation within the timeline: it concerns its own transaction only; accepted means calculated without error and sealed,
    refused means reported and nothing published. *)
Lemma calculate_step t (p : Processor) accepted t' p' : engine_ok (tp_engine p) -> errored (ct_transaction_id t) p = false ->
  timeline_calculate t p = (accepted, t', p') ->
  ct_transaction_id t' = ct_transaction_id t /\ engine_ok (tp_engine p') /\ errored (ct_transaction_id t) p' = negb accepted /\
  (forall k, k <> ct_transaction_id t -> errored k p' = errored k p) /\
  (forall k, k <> stripped t -> published_unchanged k (tp_engine p) (tp_engine p')) /\
  (accepted = true -> exists input, ct_transaction_id input = ct_transaction_id t /\ sealed (transaction_cost_input input) t') /\
  (accepted = false -> published_unchanged (stripped t) (tp_engine p) (tp_engine p')).
Proof.
  intros He Hno. unfold timeline_calculate. destruct (calculate_transaction_costs _) as [r s] eqn:Hr.
  destruct (calculate_outcome (ct_transaction_id t)
    {| cs_transaction := t; cs_engine := tp_engine p; cs_errors := tp_errors p |} r s eq_refl He Hr) as ([Hid Hok Ho Her Hoth] & _ & Hcase). unfold calc_id in Hid. cbn [cs_errors cs_engine] in *. rewrite Hid.
  assert (Hpub : forall k, k <> strip (ct_transaction_id t) -> published_unchanged k (tp_engine p) (cs_engine s)) by (intros k Hk; split; apply (Ho k Hk)).
  unfold errored. destruct r as [[]|e]; intros [= <- <- <-]; cbn [tp_errors tp_engine].
  - split_and!; [done|done|by rewrite negb_involutive|done|done| |].
    + intros Hacc%negb_true_iff. destruct Hcase as [[_ Hrep]|(_ & _ & Hs)]; [by rewrite Hrep in Hacc|]. destruct Hs as (input & Hin & Hs). by exists input.
    + intros Hrej%negb_false_iff. destruct Hcase as [[Hp _]|(_ & Hno' & _)]; [done|by rewrite Hno' in Hrej].
  - split_and!; [done|done|apply add_error_reports| |done|done|].
    + intros k Hk. rewrite add_error_other by done. by apply Hoth.
    + intros _. destruct Hcase as [[Hp _]|(? & _)]; done.
Qed.

Record accounts (ts : list CostBasisTransaction) (p : Processor) (processed : list CostBasisTransaction) (p' : Processor) : Prop := {
  ac_engine : engine_ok (tp_engine p');
  ac_processed : map ct_transaction_id processed = map ct_transaction_id (List.filter (fun t => negb (errored (ct_transaction_id t) p')) ts);
  ac_sealed : Forall (fun t => exists input, ct_transaction_id input = ct_transaction_id t /\ sealed (transaction_cost_input input) t) processed;
  ac_refused : forall t, t ∈ ts -> errored (ct_transaction_id t) p' = true -> published_unchanged (stripped t) (tp_engine p) (tp_engine p');
  ac_other_errors : forall k, k ∉ map ct_transaction_id ts -> errored k p' = errored k p;
  ac_other_evidence : forall k, k ∉ map stripped ts -> published_unchanged k (tp_engine p) (tp_engine p')
}.

Lemma published_trans k (e1 e2 e3 : LotDispositionEngine St) : published_unchanged k e1 e2 -> published_unchanged k e2 e3 -> published_unchanged k e1 e3.
Proof. intros [] []. split; congruence. Qed.

Lemma process_accounts ts : forall (p : Processor) processed p', engine_ok (tp_engine p) -> NoDup (map stripped ts) ->
  (forall t, t ∈ ts -> errored (ct_transaction_id t) p = false) -> process_sorted_timeline ts p = (processed, p') -> accounts ts p processed p'.
Proof.
  induction ts as [|t ts IH]; intros p processed p' He Hd Hno; cbn [process_sorted_timeline]; [by intros [= <- <-]; constructor|].
  destruct (timeline_calculate t p) as [[accepted t1] p1] eqn:Hc. destruct (process_sorted_timeline ts p1) as [rest p2] eqn:Hp. intros [= <- <-].
  cbn [map] in Hd. apply NoDup_cons in Hd as [Hnot Hd].
  destruct (calculate_step t p accepted t1 p1 He (Hno t ltac:(left)) Hc) as (Hid & He1 & Hacc & Hoth & Hpub & Hseal & Href).
  assert (Hne : forall u, u ∈ ts -> ct_transaction_id u <> ct_transaction_id t).
  { intros u Hu E. apply Hnot. rewrite <- E. by apply (list_elem_of_fmap_2 stripped). }
  assert (Hne' : forall u, u ∈ ts -> strip (ct_transaction_id u) <> strip (ct_transaction_id t)).
  { intros u Hu E. apply Hnot. rewrite <- E. by apply (list_elem_of_fmap_2 stripped). }
  destruct (IH p1 rest p2 He1 Hd) as [A1 A2 A3 A4 A5 A6]; [|done|].
  { intros u Hu. rewrite Hoth by (by apply Hne). apply Hno. by right. }
  assert (Hself : errored (ct_transaction_id t) p2 = negb accepted).
  { rewrite A5, Hacc; [done|]. intros (u & Eu & Hu)%list_elem_of_fmap. by apply (Hne u Hu). }
  constructor; [done| | | | |].
  - cbn [List.filter]. rewrite Hself, negb_involutive. destruct accepted; cbn [map]; by rewrite ?Hid, A2.
  - destruct accepted; [|done]. constructor; [|done]. rewrite Hid. by apply Hseal.
  - intros u [->|Hu]%elem_of_cons Herr.
    + rewrite Hself in Herr. apply negb_true_iff in Herr. eapply published_trans; [by apply Href|]. by apply A6.
    + eapply published_trans; [by apply Hpub, Hne'|]. by apply A4.
  - intros k Hk. cbn [map] in Hk. apply not_elem_of_cons in Hk as [Hk1 Hk2]. by rewrite A5, Hoth.
  - intros k Hk. cbn [map] in Hk. apply not_elem_of_cons in Hk as [Hk1 Hk2]. eapply published_trans; [by apply Hpub|by apply A6].
Qed.

Lemma by_id_other k ts d : k ∉ map ct_transaction_id ts -> od_get k (foldl (fun d t => od_set (ct_transaction_id t) t d) d ts) = od_get k d.
Proof.
  revert d. induction ts as [|t ts IH]; intros d Hk; [done|]. cbn [map] in Hk. apply not_elem_of_cons in Hk as [Hk1 Hk2]. cbn [foldl]. by rewrite IH, od_get_set_ne.
Qed.

Lemma by_id_elem t ts : NoDup (map ct_transaction_id ts) -> t ∈ ts -> od_get (ct_transaction_id t) (transactions_by_id ts) = Some t.
Proof.
  unfold transactions_by_id. generalize (@nil (string * CostBasisTransaction)) as d. induction ts as [|u ts IH]; intros d Hd Hin; [by apply elem_of_nil in Hin|].
  cbn [map foldl] in *. apply NoDup_cons in Hd as [Hn Hd]. apply elem_of_cons in Hin as [->|Hin]; [|by apply IH]. by rewrite by_id_other, od_get_set.
Qed.

(** What a rebuild says about one transaction: accepted, sealed and reported among the sources, among the processed ones if it is new,
    and without error; or reported with a reason, not among the sources, and without any evidence. *)
Definition accounted (r : CostBasisTimelineResult) (e : LotDispositionEngine St) (is_new : Prop) (id : string) : Prop :=
  (exists t input, od_get id (tr_source_transactions r) = Some t /\ ct_transaction_id input = id /\ sealed (transaction_cost_input input) t /\
     od_get id (tr_errored r) = None /\ (is_new -> t ∈ tr_processed r)) \/
  (exists reason, od_get id (tr_errored r) = Some reason /\ od_get id (tr_source_transactions r) = None /\
     (forall t, t ∈ tr_processed r -> ct_transaction_id t <> id) /\
     od_get (strip id) (le_disposals e) = None /\ od_get (strip id) (le_transfers e) = None).

Lemma result_inv processed sources (p : Processor) r p' : timeline_result processed sources p = (Ok r, p') ->
  p' = p /\ tr_processed r = processed /\ tr_errored r = tp_errors p /\ tr_source_transactions r = transactions_by_id sources.
Proof.
  unfold timeline_result, st_get, st_lift, mbind, st_bind. destruct (engine_get_open_lot_states _); [|done]. destruct (disposal_records _ _); [|done].
  destruct (basis_transfer_records _ _); [|done]. by intros [= <- <-].
Qed.

(** From a run over the sorted timeline to the statement about each of its transactions. *)
Lemma accounts_accounted o (p : Processor) processed p1 new_ids r t0 : accounts o p processed p1 -> NoDup (map ct_transaction_id o) ->
  od_get (strip (ct_transaction_id t0)) (le_disposals (tp_engine p)) = None -> od_get (strip (ct_transaction_id t0)) (le_transfers (tp_engine p)) = None ->
  tr_processed r = filter_processed_new_transactions processed new_ids -> tr_errored r = tp_errors p1 -> tr_source_transactions r = transactions_by_id processed ->
  t0 ∈ o -> accounted r (tp_engine p1) (ct_transaction_id t0 ∈ new_ids) (ct_transaction_id t0).
Proof.
  intros [_ A2 A3 A4 _ _] Hndo D1 D2 R1 R2 R3 Ht0. destruct (errored (ct_transaction_id t0) p1) eqn:Herr.
  - right. assert (Hnp : ct_transaction_id t0 ∉ map ct_transaction_id processed).
    { rewrite A2. intros (u & Eu & [_ Hu]%list_elem_of_In%List.filter_In)%list_elem_of_fmap. rewrite <- Eu, Herr in Hu. done. }
    destruct (A4 t0 Ht0 Herr) as [U1 U2]. unfold errored, has_errors_for in Herr. destruct (od_get _ (tp_errors p1)) as [reason|] eqn:Ho; [|done]. exists reason. rewrite R2, R3.
    split_and!; [done| | |congruence|congruence].
    + unfold transactions_by_id. by rewrite by_id_other.
    + intros t Ht E. rewrite R1 in Ht. unfold filter_processed_new_transactions in Ht. apply list_elem_of_In, List.filter_In in Ht as [Ht _].
      apply Hnp. rewrite <- E. apply (list_elem_of_fmap_2 ct_transaction_id), list_elem_of_In, Ht.
  - left. assert (Hip : ct_transaction_id t0 ∈ map ct_transaction_id processed).
    { rewrite A2. apply (list_elem_of_fmap_2 ct_transaction_id), list_elem_of_In, List.filter_In. rewrite Herr. split; [by apply list_elem_of_In|done]. }
    assert (Hndp : NoDup (map ct_transaction_id processed)) by (rewrite A2; by apply filter_map_NoDup).
    apply list_elem_of_fmap in Hip as (t & Et & Ht). rewrite Forall_forall in A3. destruct (A3 t Ht) as (input & Ei & Hs). exists t, input.
    rewrite R1, R2, R3, Et. split_and!; [by apply by_id_elem|done|done| |].
    + unfold errored, has_errors_for in Herr. rewrite Et in Herr. by destruct (od_get (ct_transaction_id t) (tp_errors p1)).
    + intros Hnew. unfold filter_processed_new_transactions. apply list_elem_of_In, List.filter_In. split; [by apply list_elem_of_In|].
      by apply in_set_true, list_elem_of_In.
Qed.

(** C5: a rebuild accounts for every transaction it was given, exactly once: accepted and sealed, or reported with a reason and without
    disposal or transfer evidence. *)
Theorem rebuild_accounts_for_every_transaction existing new (p : Processor) r p' raw :
  Forall admitted (existing ++ new) -> NoDup (map stripped (existing ++ new)) -> Forall (fun t => ct_error_reason t = None) (existing ++ new) ->
  process_transactions existing new p = (Ok r, p') -> raw ∈ (existing ++ new)%list ->
  accounted r (tp_engine p') (raw ∈ new) (ct_transaction_id raw).
Proof.
  intros Ha Hd Hv Hr Hraw. destruct (process_run existing new p Ha) as (es & ns & o & E1 & N1 & S1 & Hrun). rewrite Hrun in Hr. clear Hrun.
  destruct (parsed_keeps _ _ E1) as [Ie _], (parsed_keeps _ _ N1) as [In_ _]. apply Forall_app in Hv as [Hve Hvn].
  assert (Hids : map ct_transaction_id (es ++ ns) = map ct_transaction_id (existing ++ new)) by (by rewrite !map_app, Ie, In_).
  assert (Hall : valid_transactions es ns = (es ++ ns)%list) by (unfold valid_transactions; by rewrite List.filter_app, (parsed_valid _ _ E1 Hve), (parsed_valid _ _ N1 Hvn)).
  rewrite Hall in S1. pose proof (sort_elem _ _ S1) as Hperm.
  assert (Hdo : NoDup (map stripped o)).
  { rewrite Hperm. change stripped with (fun t => strip (ct_transaction_id t)) in *. rewrite <- (map_map ct_transaction_id strip) in Hd |- *. by rewrite Hids. }
  destruct (process_sorted_timeline o (cleared p)) as [processed p1] eqn:Hp. apply result_inv in Hr as (-> & R1 & R2 & R3).
  assert (Hrun : accounts o (cleared p) processed p1) by (apply process_accounts; [by repeat split; try apply NoDup_nil_2|done|done|exact Hp]).
  assert (Hin : ct_transaction_id raw ∈ map ct_transaction_id o) by (rewrite Hperm, Hids; by apply (list_elem_of_fmap_2 ct_transaction_id)).
  apply list_elem_of_fmap in Hin as (t0 & Et0 & Ht0). rewrite Et0.
  destruct (accounts_accounted o (cleared p) processed p1 (valid_transaction_ids ns) r t0 Hrun) as [(t & input & H1 & H2 & H3 & H4 & H5)|Hright]; try done.
  - apply (NoDup_fmap_1 strip). change (NoDup (map strip (map ct_transaction_id o))). by rewrite map_map.
  - left. exists t, input. split_and!; [done..|]. intros Hnew. apply H5. unfold valid_transaction_ids. rewrite (parsed_valid _ _ N1 Hvn), In_, <- Et0.
    by apply (list_elem_of_fmap_2 ct_transaction_id).
  - by right.
Qed.
End Accounts.
