(* ===== verification/OrderedAppend.v ===== *)
(** * Ordered append

    [CostBasisCalculationCoordinator] (application/cost_basis_processing/calculation.py) costs a
    transaction that sorts last on lots restored from the persisted open-lot states instead of
    replaying the history.  This file relates the two paths for FIFO books: the restored book holds
    the same lots with the same quantities and costs, a sale takes the same quantities from the same
    lots, and its cost agrees up to one storage unit in each currency, which is the best possible: the
    unit costs of a restored lot come from its rounded open cost. *)

From Stdlib Require Import ZArith Lia QArith Qabs Lqa String.
From stdpp Require Import base tactics list sorting sets strings.
From S2P Require Import Prelude PyDecimal DecimalFacts PyTime Precision Lineage Registry Transactions Values Lots CostBasis Fifo CostFields Disposition Calculator CalculatorFacts CalculatorTrades Timeline TimelineFacts.

#[local] Open Scope string_scope.
#[local] Open Scope Z_scope.

#[local] Notation policy := COST_BASIS_STATE_LEDGER_OUTPUT_V1.
#[local] Notation ctx := (arithmetic_context policy).

(** ** The error of a cost *)

(** A product that ends up within the ledger column was not rounded visibly by the working precision. *)
Lemma working_product q c w : stored q -> 0 <= ul q -> unit_cost c -> dmul ctx q c = Ok w -> to_units policy w < 10 ^ 18 ->
  (Qabs (dval w - dval q * dval c) <= (1 # 10) * pow10 (-10))%Q.
Proof.
  intros Sq Pq [Hc0 Hc1] Hw Hn. rewrite <- mul_exact_val. set (P := mul_exact q c).
  assert (HP0 : (0 <= dval P)%Q).
  { unfold P. rewrite mul_exact_val. apply Qmult_le_0_compat; [|done]. by apply (ledger_nonneg q (ul q)). }
  destruct (decide (dcoeff P = 0)) as [Hz|Hz].
  { rewrite (dfix_zero _ _ _ Hz Hw). apply dval_zero_iff in Hz. rewrite Hz. change (Qabs (0 - 0)) with 0%Q. pose proof (pow10_pos (-10)). lra. }
  assert (HPb : (Qabs (dval P) < pow10 9)%Q).
  { rewrite Qabs_pos by done. apply Qnot_le_lt. intros Hle.
    assert (dfix ctx (Dec 1 9) = Ok (Dec 1 9)) as Hone by reflexivity.
    assert (H09 : (0 <= dval (Dec 1 9))%Q) by discriminate.
    assert (Hle' : (dval (Dec 1 9) <= dval P)%Q) by (eapply Qle_trans; [|exact Hle]; done).
    pose proof (dfix_mono ctx (Dec 1 9) P _ w ltac:(done) H09 Hle' Hone Hw) as Hm.
    pose proof (to_units_mono policy _ _ Hm) as Hu. vm_compute (to_units policy (Dec 1 9)) in Hu. lia. }
  pose proof (dfix_error ctx P w ltac:(done) eq_refl Hw) as Hf. pose proof (ndigits_exp_bound P 9 Hz HPb) as Hb.
  eapply Qle_trans; [exact Hf|]. apply Qle_trans with ((1 # 2) * pow10 (-55))%Q; [|by vm_compute].
  rewrite !(Qmult_comm (1 # 2)). apply Qmult_le_compat_r; [|discriminate]. apply pow10_mono. unfold fix_exponent, Etiny.
  change (prec ctx) with 64. change (Emin ctx) with (-999999). lia.
Qed.

(** The cost of a quantity is its product with the unit cost up to three fifths of a storage unit. *)
Lemma cost_near q c : stored q -> 0 <= ul q -> costed q c ->
  (Qabs (inject_Z (product_units q c) * pow10 (-10) - dval q * dval c) <= (6 # 10) * pow10 (-10))%Q.
Proof.
  intros Sq Pq [Hc Hok]. unfold product_units. destruct (p_multiply policy q c "") as [r|] eqn:E; [|done]. unfold p_multiply, calculate in E.
  apply bind_Ok in E as (w & Hw & Hr). pose proof (ledger_of_normalize (cp_name policy) w _ r Hr) as Hl.
  change (Precision.ledger r (to_units policy w)) in Hl. rewrite (ledger_ul _ _ Hl). pose proof (proj2 Hl) as Hb.
  pose proof (working_product q c w Sq Pq Hc Hw ltac:(lia)) as He. unfold to_units in *.
  pose proof (qround_half_even (dval w * pow10 (cp_scale policy))) as Hh. change (cp_scale policy) with 10 in *. set (n := qround _ _) in *.
  assert (Hs : (inject_Z n * pow10 (-10) - dval w == (inject_Z n - dval w * pow10 10) * pow10 (-10))%Q).
  { assert (pow10 10 * pow10 (-10) == 1)%Q as Hp by reflexivity. transitivity (inject_Z n * pow10 (-10) - dval w * (pow10 10 * pow10 (-10)))%Q; [rewrite Hp|]; ring. }
  assert (Hw2 : (Qabs (inject_Z n * pow10 (-10) - dval w) <= (1 # 2) * pow10 (-10))%Q).
  { rewrite Hs, Qabs_Qmult, (Qabs_pos (pow10 (-10))) by discriminate. apply Qmult_le_compat_r; [done|discriminate]. }
  pose proof (Qabs_triangle (inject_Z n * pow10 (-10) - dval w) (dval w - dval q * dval c)) as Ht.
  assert (Hsum : (inject_Z n * pow10 (-10) - dval w + (dval w - dval q * dval c) == inject_Z n * pow10 (-10) - dval q * dval c)%Q) by ring.
  rewrite Hsum in Ht. pose proof (pow10_pos (-10)). lra.
Qed.

(** ** Lots priced again *)

(** A lot of quantity [q] at the unit cost [u] holds [c]; priced again at [c / q], what is left of it later costs the same up to one unit. *)
Lemma repriced q q' u v c : stored q -> 0 < ul q -> stored q' -> 0 <= ul q' <= ul q -> costed q u -> stored c -> 0 <= ul c ->
  product_units q u = ul c -> ddiv ctx c q = Ok v -> Z.abs (product_units q' u - product_units q' v) <= 1.
Proof.
  intros Sq Pq Sq' Hq' Hu Sc Pc Ec Hv. destruct (priced c q v Sc Pc Sq Pq Hv) as [Hcv _].
  pose proof (cost_near q u Sq ltac:(lia) Hu) as H1. rewrite Ec in H1.
  pose proof (cost_near q' u Sq' ltac:(lia) (proj1 (costed_smaller q q' u Sq Sq' Hq' Hu))) as H2.
  pose proof (cost_near q' v Sq' ltac:(lia) (proj1 (costed_smaller q q' v Sq Sq' Hq' Hcv))) as H3.
  destruct (ledger_unit_cost (cp_name policy) c _ q _ Sc Pc Sq Pq) as (v' & Hv' & _ & H4).
  assert (v' = v) as -> by (change (ddiv ctx c q = Ok v') in Hv'; congruence). clear Hv Hv' Hcv Hu.
  pose proof (proj1 Sc) as Uc. unfold units in Uc. rewrite <- Uc in H1.
  pose proof (ledger_val_lower q (ul q) Sq Pq) as Lq. pose proof (ledger_nonneg q' (ul q') Sq' (proj1 Hq')) as Lq'.
  pose proof (units_le (-10) q' q (ul q') (ul q) (proj1 Sq') (proj1 Sq)) as Hle. apply proj2 in Hle. specialize (Hle (proj2 Hq')).
  pose proof (ledger_val_bound c (ul c) Sc) as Bc. pose proof (ledger_nonneg c (ul c) Sc Pc) as Lc. rewrite Qabs_pos in Bc by done.
  set (n := product_units q' u) in *. set (m := product_units q' v) in *. set (a := dval q) in *. set (b := dval q') in *.
  set (U := dval u) in *. set (V := dval v) in *. set (C := dval c) in *. pose proof (pow10_pos (-10)) as He. set (e := pow10 (-10)) in *.
  assert (Hav : (Qabs (C - a * V) <= (1 # 10) * e)%Q).
  { assert (Hx : (C - a * V == - ((V - C / a) * a))%Q) by (field; lra). rewrite Hx, Qabs_opp, Qabs_Qmult, (Qabs_pos a) by lra.
    apply Qle_trans with (pow10 (-63) * (C / a) * a)%Q; [apply Qmult_le_compat_r; lra|].
    assert (Hy : (pow10 (-63) * (C / a) * a == pow10 (-63) * C)%Q) by (field; lra). rewrite Hy.
    apply Qle_trans with (pow10 (-63) * pow10 8)%Q; [rewrite !(Qmult_comm (pow10 (-63))); apply Qmult_le_compat_r; [lra|discriminate]|by vm_compute]. }
  apply Qabs_Qle_condition in H1 as [A1 A2], H2 as [B1 B2], H3 as [D1 D2], Hav as [E1 E2].
  assert (F1 : (b * U - b * V <= (7 # 10) * e)%Q).
  { apply (Qmult_le_l _ _ a); [lra|]. assert (Hx : (a * (b * U - b * V) == b * (a * U - C) + b * (C - a * V))%Q) by ring. rewrite Hx. nra. }
  assert (F2 : (- ((7 # 10) * e) <= b * U - b * V)%Q).
  { apply (Qmult_le_l _ _ a); [lra|]. assert (Hx : (a * (b * U - b * V) == b * (a * U - C) + b * (C - a * V))%Q) by ring. rewrite Hx. nra. }
  assert (G1 : (inject_Z (n - m) * e < 2 * e)%Q) by (unfold Z.sub; rewrite inject_Z_plus, inject_Z_opp; lra).
  assert (G2 : (-(2) * e < inject_Z (n - m) * e)%Q) by (unfold Z.sub; rewrite inject_Z_plus, inject_Z_opp; lra).
  apply Qmult_lt_r in G1; [|done]. apply Qmult_lt_r in G2; [|done]. change 2%Q with (inject_Z 2) in G1. change (-(2))%Q with (inject_Z (-2)) in G2.
  rewrite <- Zlt_Qlt in G1, G2. lia.
Qed.

(** ** Restoring a book *)

(** The transaction that opened a lot of the book [key]. *)
Record lot_source (key : BookKey) (l : CostLot) (source : CostBasisTransaction) : Prop := {
  lsrc_key : (ct_portfolio_id source, ct_instrument_id source) = key;
  lsrc_transaction : ct_transaction_id source = lot_transaction_id l;
  lsrc_lot : lot_lot_id l = "LOT-" +:+ lot_transaction_id l;
  lsrc_date : utc_transaction_date source = lot_acquisition_date l
}.

(** [t] is the record of the open lot [l]. *)
Definition restores (key : BookKey) (l : CostLot) (t : CostBasisTransaction) : Prop :=
  exists source o, lot_source key l source /\ open_state l = Ok o /\ t = checkpoint_transaction source o.

(** [l'] is [l] after restoration: the same lot with the same quantities and costs, at a unit cost computed from its open cost. *)
Record reopened (l l' : CostLot) : Prop := {
  ro_lot : lot_lot_id l' = lot_lot_id l;
  ro_transaction : lot_transaction_id l' = lot_transaction_id l;
  ro_date : lot_acquisition_date l' = lot_acquisition_date l;
  ro_original : lot_original_quantity l' = lot_original_quantity l;
  ro_quantity : lot_remaining_quantity l' = lot_remaining_quantity l;
  ro_local : lot_local l' = lot_local l;
  ro_base : lot_base l' = lot_base l;
  ro_price_local : exists c, stored c /\ ul c = lot_local l /\ ddiv ctx c (lot_remaining_quantity l) = Ok (lot_cost_per_share_local l');
  ro_price_base : exists c, stored c /\ ul c = lot_base l /\ ddiv ctx c (lot_remaining_quantity l) = Ok (lot_cost_per_share_base l')
}.

Lemma record_input key l source o : open_lot l -> lot_source key l source -> open_state l = Ok o ->
  lot_input (checkpoint_transaction source o) (ol_cost_base o) (ol_cost_local o) (lot_original_quantity l) /\
  stored (ol_cost_local o) /\ ul (ol_cost_local o) = lot_local l /\ stored (ol_cost_base o) /\ ul (ol_cost_base o) = lot_base l /\ ol_quantity o = lot_remaining_quantity l.
Proof.
  intros [Hv Hpos _ Hid] [_ Et _ _] Ho. destruct (open_state_valid l Hv) as (o' & Ho' & Eo & Eq & Sl & El & Pl & Sb & Eb & Pb). rewrite Ho in Ho'. injection Ho' as <-.
  pose proof (lv_range l Hv). pose proof (lv_remaining l Hv). pose proof (lv_original l Hv). split; [|done]. unfold lot_qty in *.
  constructor; cbn [ct_net_cost ct_net_cost_local ct_quantity ct_transaction_id checkpoint_transaction]; rewrite ?Eq; try done; try lia.
  - unfold source_lot_original_quantity, resolve_source_lot_original_quantity. cbn. by rewrite Eo.
  - by rewrite Et.
Qed.

(** Adding a lot puts the lot that [new_lot] prices at the end of the heap. *)
Lemma added_is_new t nc ncl original l total s key id : lot_input t nc ncl original -> fifo_add_buy_lot t s = (Ok tt, added key id l total s) ->
  new_lot t (ct_quantity t) nc ncl = Ok l.
Proof.
  intros Hi. unfold fifo_add_buy_lot. rewrite (st_lift_run _ _ _ _ (validated_lot_input _ _ _ _ Hi)).
  destruct (new_lot_spec t nc ncl original Hi) as (local & base & Hl & _). rewrite (st_lift_run _ _ _ _ Hl). rewrite st_get_run, !st_modify_run, st_get_run.
  destruct (p_add _ _ _ _) as [x|e]; unfold st_lift, mbind, st_bind, st_modify; [|done].
  intros Hs. rewrite Hl. f_equal. apply (f_equal (fun r => fs_heap (snd r))) in Hs. cbn in Hs. by apply app_inj_tail in Hs as [_ ->].
Qed.

Lemma restore_lot key l t s acc : open_lot l -> restores key l t -> book_ok key s acc ->
  strip (lot_lot_id l) ∉ map (fun l => strip (lot_lot_id l)) acc -> zsum (map lot_qty acc) + lot_qty l < 10 ^ 18 ->
  zsum (map lot_local acc) + lot_local l < 10 ^ 18 -> zsum (map lot_base acc) + lot_base l < 10 ^ 18 ->
  exists l' s', fifo_add_buy_lot t s = (Ok tt, s') /\ book_ok key s' (acc ++ [l'])%list /\ reopened l l'.
Proof.
  intros Ho (source & o & Hs & Eo & ->) Hb Hd Bq Bl Bb. destruct (record_input key l source o Ho Hs Eo) as (Hi & Sl & El & Sb & Eb & Eq).
  destruct Hs as [<- Et Elot Ed]. set (t := checkpoint_transaction source o) in *. change (ol_quantity o) with (ct_quantity t) in Eq.
  destruct (add_run t _ _ _ s acc Hi Hb ltac:(rewrite Eq; exact Bq)) as (local & base & total & Hrun & Hol & E1 & E2 & St & E3).
  pose proof (added_is_new _ _ _ _ _ _ _ _ _ Hi Hrun) as Hnew. set (l' := lot_of t (lot_original_quantity l) local base) in *.
  assert (Eid : lot_lot_id l' = lot_lot_id l) by (unfold l', lot_of, t; cbn; by rewrite Et, Elot).
  exists l', (added (ct_portfolio_id t, ct_instrument_id t) (ct_transaction_id t) l' total s). split; [exact Hrun|].
  unfold new_lot in Hnew. apply bind_Ok in Hnew as (ul_ & Hul & Hnew). apply bind_Ok in Hnew as (ub_ & Hub & Hnew).
  assert (local = ul_ /\ base = ub_) as [-> ->].
  { apply bind_Ok in Hnew as (og & _ & Hnew). unfold make_CostLot in Hnew. inv_ok. done. }
  split.
  - apply added_same_book; try done; rewrite ?Eid, ?E1, ?E2, ?El, ?Eb; try done; try lia.
  - constructor; try done; try (unfold l', lot_of, t; cbn; by rewrite ?Et, ?Ed).
    + by rewrite E1.
    + by rewrite E2.
    + exists (ol_cost_local o). rewrite <- Eq. split_and!; done.
    + exists (ol_cost_base o). rewrite <- Eq. split_and!; done.
Qed.

(** Restoring the records of the open lots of a book, in the order of its queue, gives a book of the same lots. *)
Lemma restore_run `{hashing : Hashing} key ls ts : forall s acc, book_ok key s acc -> Forall open_lot ls -> Forall2 (restores key) ls ts ->
  NoDup (map (fun l => strip (lot_lot_id l)) (acc ++ ls)) -> zsum (map lot_qty (acc ++ ls)) < 10 ^ 18 ->
  zsum (map lot_local (acc ++ ls)) < 10 ^ 18 -> zsum (map lot_base (acc ++ ls)) < 10 ^ 18 ->
  exists ls' s', restore_open_lots ts s = (Ok tt, s') /\ book_ok key s' (acc ++ ls')%list /\ Forall2 reopened ls ls'.
Proof.
  intros s acc Hb Ho HF. revert s acc Hb Ho. induction HF as [|l t ls ts Hl HF IH]; intros s acc Hb Ho Hd Bq Bl Bb.
  { exists [], s. by rewrite app_nil_r. }
  apply Forall_cons in Ho as [Hol Ho]. pose proof (lots_qty_nonneg ls Ho) as Nq. destruct (lots_cost_nonneg ls Ho) as [Nl Nb].
  rewrite !map_app in *. cbn [map] in *. rewrite !zsum_app, !zsum_cons in *.
  apply NoDup_app in Hd as (D1 & D2 & D3). apply NoDup_cons in D3 as [D3 D4].
  destruct (restore_lot key l t s acc Hol Hl Hb) as (l' & s1 & Hrun & Hb1 & Hr); try lia; [intros Hin; by apply (D2 _ Hin); left|].
  assert (Eq : lot_qty l' = lot_qty l) by (unfold lot_qty; by rewrite (ro_quantity _ _ Hr)).
  destruct (IH s1 (acc ++ [l'])%list Hb1 Ho) as (ls' & s' & Hrest & Hb' & HF');
    rewrite ?map_app, ?zsum_app; cbn [map]; rewrite ?zsum_cons, ?zsum_nil, ?Eq, ?(ro_local _ _ Hr), ?(ro_base _ _ Hr), ?(ro_lot _ _ Hr); try lia.
  - rewrite <- app_assoc. apply NoDup_app. split; [done|]. split; [exact D2|]. by constructor.
  - exists (l' :: ls'), s'. split; [|split; [by rewrite <- app_assoc in Hb'|by constructor]].
    unfold restore_open_lots in *. cbn [st_iter]. unfold mbind, st_bind. change (add_buy_lot t s) with (fifo_add_buy_lot t s). by rewrite Hrun.
Qed.

(** ** The sale *)

Lemma same_value_cost q q' c : stored q -> stored q' -> 0 <= ul q -> ul q = ul q' -> costed q c -> product_units q c = product_units q' c.
Proof.
  intros Sq Sq' P E Hc. destruct (costed_smaller q q' c Sq Sq' ltac:(lia) Hc) as [Hc' H1]. destruct (costed_smaller q' q c Sq' Sq ltac:(lia) Hc') as [_ H2]. lia.
Qed.

(** What is left of a lot and of its restored copy. *)
Lemma left_near l l' rem rem' : open_lot l -> open_lot l' -> reopened l l' -> stored rem -> stored rem' -> ul rem = ul rem' -> 0 <= ul rem <= lot_qty l ->
  Z.abs (lot_local (with_remaining rem l) - lot_local (with_remaining rem' l')) <= 1 /\
  Z.abs (lot_base (with_remaining rem l) - lot_base (with_remaining rem' l')) <= 1.
Proof.
  intros [Hv Hpos _ _] [Hv' Hpos' _ _] Hr Sr Sr' Er Hle. destruct Hr as [_ _ _ _ Eq El Eb (cl & Scl & Ecl & Hcl) (cb & Scb & Ecb & Hcb)].
  destruct (open_state_valid l Hv) as (o & _ & _ & _ & _ & _ & Pl & _ & _ & Pb). destruct Hv as [Sq _ _ Kl Kb], Hv' as [Sq' _ _ Kl' Kb'].
  unfold lot_local, lot_base, lot_qty in *. cbn [with_remaining lot_remaining_quantity lot_cost_per_share_local lot_cost_per_share_base]. rewrite Eq in *.
  rewrite <- (same_value_cost rem rem' (lot_cost_per_share_local l')), <- (same_value_cost rem rem' (lot_cost_per_share_base l')); try done; try lia.
  - split; [apply (repriced (lot_remaining_quantity l) rem _ _ cl)|apply (repriced (lot_remaining_quantity l) rem _ _ cb)]; try done; lia.
  - by apply (costed_smaller (lot_remaining_quantity l) rem).
  - by apply (costed_smaller (lot_remaining_quantity l) rem).
Qed.

Lemma reopened_costs ls ls' : Forall2 reopened ls ls' -> map lot_qty ls' = map lot_qty ls /\ zsum (map lot_local ls') = zsum (map lot_local ls) /\
  zsum (map lot_base ls') = zsum (map lot_base ls) /\ map lot_lot_id ls' = map lot_lot_id ls.
Proof.
  induction 1 as [|l l' ls ls' Hr _ (I1 & I2 & I3 & I4)]; [done|]. cbn [map]. rewrite !zsum_cons, I1, I2, I3, I4, (ro_lot _ _ Hr), (ro_local _ _ Hr), (ro_base _ _ Hr).
  unfold lot_qty. by rewrite (ro_quantity _ _ Hr).
Qed.

Lemma leaves_near q ls ls' rest : leaves q ls rest -> forall rest', Forall open_lot ls -> Forall open_lot ls' -> Forall2 reopened ls ls' -> leaves q ls' rest' ->
  Z.abs (zsum (map lot_local rest) - zsum (map lot_local rest')) <= 1 /\ Z.abs (zsum (map lot_base rest) - zsum (map lot_base rest')) <= 1.
Proof.
  intros Hl. revert ls'. induction Hl as [ls|l q rem ls Hq Sr Er|l q ls rest Hq _ IH]; intros ls' rest' Ho Ho' HF Hl'.
  - destruct (reopened_costs _ _ HF) as (_ & E1 & E2 & _). inversion Hl' as [xs| |x y xs xs' Hx _]; subst; [lia|lia|].
    apply Forall_cons in Ho' as [[_ ? _ _] _]. lia.
  - apply Forall2_cons_inv_l in HF as (l' & ls2 & Hr & HF & ->). apply Forall_cons in Ho as [Hol _], Ho' as [Hol' _].
    destruct (reopened_costs _ _ HF) as (_ & E1 & E2 & _). assert (Eq : lot_qty l' = lot_qty l) by (unfold lot_qty; by rewrite (ro_quantity _ _ Hr)).
    inversion Hl' as [|? ? rem' ? Hq' Sr' Er'|? ? ? ? Hge _]; subst; [lia| |lia].
    destruct (left_near l l' rem rem') as [N1 N2]; try done; try lia. cbn [map]. rewrite !zsum_cons. lia.
  - apply Forall2_cons_inv_l in HF as (l' & ls2 & Hr & HF & ->). apply Forall_cons in Ho as [Hol Ho], Ho' as [Hol' Ho'].
    assert (Eq : lot_qty l' = lot_qty l) by (unfold lot_qty; by rewrite (ro_quantity _ _ Hr)). pose proof (op_positive _ Hol).
    inversion Hl' as [| |? ? ? ? Hge Hrest]; subst; [lia|lia|]. rewrite Eq in Hrest. by apply (IH ls2).
Qed.

(** A sale that ends on a lot boundary leaves whole lots. *)
Lemma leaves_boundary q ls ls' rest rest' : Forall open_lot ls -> Forall2 reopened ls ls' -> leaves q ls rest -> leaves q ls' rest' ->
  (exists k, q = zsum (map lot_qty (take k ls))) -> Forall2 reopened rest rest'.
Proof.
  intros Ho HF Hl. revert ls' rest' Ho HF. induction Hl as [ls|l q rem ls Hq Sr Er|l q ls rest Hq _ IH]; intros ls' rest' Ho HF Hl' (k & Ek).
  - inversion Hl' as [xs| |x y xs xs' Hx _]; subst; [done|lia|]. apply Forall2_cons_inv_r in HF as (l0 & ls0 & Hr & _ & ->).
    apply Forall_cons in Ho as [[_ Hp _ _] _]. unfold lot_qty in *. rewrite (ro_quantity _ _ Hr) in Hx. lia.
  - exfalso. apply Forall_cons in Ho as [_ Ho]. destruct k; cbn [take map] in Ek; [rewrite zsum_nil in Ek; lia|]. rewrite zsum_cons in Ek.
    pose proof (lots_qty_nonneg (take k ls) (Forall_take _ _ _ Ho)). lia.
  - apply Forall2_cons_inv_l in HF as (l' & ls2 & Hr & HF & ->). apply Forall_cons in Ho as [Hol Ho].
    assert (Eq : lot_qty l' = lot_qty l) by (unfold lot_qty; by rewrite (ro_quantity _ _ Hr)). pose proof (op_positive _ Hol).
    assert (Hk : exists k, q - lot_qty l = zsum (map lot_qty (take k ls))).
    { destruct k; cbn [take map] in Ek; [rewrite zsum_nil in Ek; lia|]. rewrite zsum_cons in Ek. exists k. lia. }
    clear k Ek. inversion Hl' as [| |? ? ? ? Hge Hrest]; subst; [lia|lia|]. rewrite Eq in Hrest. by apply (IH ls2).
Qed.

(** ** Both paths *)

Section Sale.
Context `{hashing : Hashing} {hashing_ok : HashingOk}.

(** C7: a sale costed by ordered append agrees with the rebuild.  The records of the open lots of a FIFO book restore to a book on which
    the sale succeeds too, takes the same quantities from the same lots, and costs the same up to one storage unit in each
    currency; when the sale ends on a lot boundary the costs are equal. *)
Theorem append_agrees_with_rebuild p i s ls ts q : book_ok (p, i) s ls -> Forall2 (restores (p, i)) ls ts ->
  stored q -> 0 < ul q <= zsum (map lot_qty ls) ->
  exists restored r s' r' s'', restore_open_lots ts fifo_init = (Ok tt, restored) /\
    fifo_consume_sell_quantity_with_allocations p i q s = (Ok r, s') /\ dr_error_reason r = None /\
    fifo_consume_sell_quantity_with_allocations p i q restored = (Ok r', s'') /\ dr_error_reason r' = None /\
    ul (dr_consumed_quantity r') = ul (dr_consumed_quantity r) /\
    map (fun a => (da_source_lot_id a, ul (da_consumed_quantity a))) (dr_allocations r') = map (fun a => (da_source_lot_id a, ul (da_consumed_quantity a))) (dr_allocations r) /\
    Z.abs (ul (dr_cost_local r') - ul (dr_cost_local r)) <= 1 /\ Z.abs (ul (dr_cost_base r') - ul (dr_cost_base r)) <= 1 /\
    ((exists k, ul q = zsum (map lot_qty (take k ls))) -> ul (dr_cost_local r') = ul (dr_cost_local r) /\ ul (dr_cost_base r') = ul (dr_cost_base r)).
Proof.
  intros Hb HF Sq Hq. pose proof (qv_open _ _ _ _ (bk_view _ _ _ Hb)) as Ho. destruct (fo_books _ fifo_init_ok (p, i)) as (none & Hnone).
  assert (none = []) as -> by (destruct Hnone as [[_ _ F _] _ _ _ _ _]; by inversion F).
  assert (Bq : zsum (map lot_qty ls) < 10 ^ 18) by (rewrite <- (bk_agrees _ _ _ Hb); destruct (bk_available _ _ _ Hb) as [_ B]; lia).
  destruct (restore_run (p, i) ls ts fifo_init [] Hnone Ho HF) as (ls' & restored & Hrun & Hb' & HR); cbn [app]; try apply Hb; try done.
  cbn [app] in Hb'. pose proof (qv_open _ _ _ _ (bk_view _ _ _ Hb')) as Ho'. destruct (reopened_costs _ _ HR) as (Eq & El & Eb & Ei).
  destruct (consume_success p i q s ls Hb Sq Hq) as (r & ? & s' & rest & H1 & _ & _ & _ & _ & [A1 A2 A3 A4 _ A6 A7 _ _ _ _ A11]).
  destruct (consume_success p i q restored ls' Hb' Sq ltac:(by rewrite Eq)) as (r' & ? & s'' & rest' & H2 & _ & _ & _ & _ & [B1 B2 B3 B4 _ B6 B7 _ _ _ _ B11]).
  exists restored, r, s', r', s''. destruct (leaves_near _ _ ls' _ A11 rest' Ho Ho' HR B11) as [N1 N2].
  assert (Hal : map (fun a => ul (da_consumed_quantity a)) (dr_allocations r') = map (fun a => ul (da_consumed_quantity a)) (dr_allocations r)) by (by rewrite A3, B3, Eq).
  assert (Hlen : length (dr_allocations r') = length (dr_allocations r)) by (apply (f_equal length) in Hal; by rewrite !length_map in Hal).
  assert (Hsrc : map da_source_lot_id (dr_allocations r') = map da_source_lot_id (dr_allocations r)).
  { rewrite A4, B4, Hlen, <- !(map_map lot_lot_id strip), <- !firstn_map. by rewrite Ei. }
  split_and!; try done; rewrite ?A2, ?B2, ?A6, ?A7, ?B6, ?B7, ?El, ?Eb; try lia.
  - clear -Hal Hsrc. revert Hal Hsrc. generalize (dr_allocations r) as ys. induction (dr_allocations r') as [|x xs IH]; intros [|y ys]; try done.
    cbn. intros [= E1 E2] [= E3 E4]. f_equal; [congruence|by apply IH].
  - intros Hk. destruct (reopened_costs _ _ (leaves_boundary _ _ _ _ _ Ho HR A11 B11 Hk)) as (_ & E1 & E2 & _). lia.
Qed.
End Sale.

(** ** The order of restored lots *)

Lemma record_text source o name : name <> "amortized_cost_carry_state" -> od_get name (declared_fields source) = None -> od_get name (declared_fields (checkpoint_transaction source o)) = None ->
  attr_text (checkpoint_transaction source o) name = attr_text source name.
Proof.
  intros Hn H1 H2. unfold attr_text, attr, attribute. rewrite H1, H2. cbn [checkpoint_transaction ct_extra_fields].
  destruct (ol_amortized_cost o); [|done]. by rewrite od_get_set_ne.
Qed.

Lemma record_cash_rank source o : cash_dependency_rank (checkpoint_transaction source o) = cash_dependency_rank source.
Proof.
  unfold cash_dependency_rank, is_cash_transaction. rewrite !record_text by (reflexivity || discriminate). reflexivity.
Qed.

Lemma record_key source o : ct_source_lot_order_quantity source = None -> transaction_order_key (checkpoint_transaction source o) = transaction_order_key source.
Proof. intros Hq. unfold transaction_order_key. rewrite Hq, record_cash_rank. reflexivity. Qed.

Lemma stable_sort_id {A} (leb : A -> A -> bool) l : StronglySorted (fun x y => leb x y = true) l -> stable_sort leb l = l.
Proof.
  unfold stable_sort. induction 1 as [|x l _ IH Hx]; [done|]. cbn. rewrite IH. destruct Hx as [|y l Hxy _]; cbn; [done|]. by rewrite Hxy.
Qed.

(** Each transaction comes before the ones after it. *)
Definition in_order : list CostBasisTransaction -> Prop :=
  StronglySorted (fun x y => forall kx ky, transaction_order_key x = Ok kx -> transaction_order_key y = Ok ky -> leb_of timeline_compare kx ky = true).

Lemma sort_in_order ts : in_order ts -> Forall (fun t => exists k, transaction_order_key t = Ok k) ts -> sort_transactions [] ts = Ok ts.
Proof.
  intros Hs Hk. assert (exists ks, mapR with_order_key ts = Ok ks) as (ks & Hks).
  { apply mapR_defined. eapply Forall_impl; [exact Hk|]. intros t (k & Ek). unfold with_order_key. rewrite Ek. by eexists. }
  unfold sort_transactions. cbn [app]. rewrite Hks, bind_ret, stable_sort_id; [by rewrite (keyed_all _ _ Hks)|].
  clear Hk. revert ks Hks. induction Hs as [|t ts _ IH Ht]; intros ks Hks; [injection Hks as <-; constructor|].
  cbn [mapR] in Hks. apply bind_Ok in Hks as ([k t'] & [-> Ek]%with_order_key_inv & Hks). apply bind_Ok in Hks as (rest & Hrest & [= <-]).
  constructor; [by apply IH|]. apply Forall_forall. intros [k2 t2] H2. destruct (keyed_inv _ _ _ _ Hrest H2) as [Hin E2]. rewrite Forall_forall in Ht. by apply (Ht t2 Hin).
Qed.

(** The records of lots whose sources are in order sort back into the order of the queue, however they are read. *)
Lemma restored_lots_keep_their_order sources states records : length states = length sources -> in_order sources ->
  Forall (fun t => ct_source_lot_order_quantity t = None /\ exists k, transaction_order_key t = Ok k) sources -> NoDup (map ct_transaction_id sources) ->
  zip_with checkpoint_transaction sources states ≡ₚ records -> sort_transactions [] records = Ok (zip_with checkpoint_transaction sources states).
Proof.
  intros Hl Hs Hk Hd Hp. assert (Hids : map ct_transaction_id (zip_with checkpoint_transaction sources states) = map ct_transaction_id sources).
  { clear -Hl. revert states Hl. induction sources as [|x xs IH]; intros [|y ys] Hl; cbn in *; try done. f_equal. apply IH. lia. }
  apply (sort_perm (zip_with checkpoint_transaction sources states)); [by rewrite Hids|done|]. apply sort_in_order; clear Hp Hids Hd; revert states Hl.
  - induction Hs as [|t ts Hs IH Ht]; intros [|o os] Hl; cbn [zip_with length] in *; try by constructor. apply Forall_cons in Hk as [[Hq _] Hk].
    constructor; [apply IH; [done|lia]|]. clear IH Hs. apply Forall_forall. intros x Hx kx ky. rewrite record_key by done.
    apply elem_of_lookup_zip_with in Hx as (n & t2 & o2 & -> & H2 & _). apply list_elem_of_lookup_2 in H2. rewrite Forall_forall in Ht, Hk.
    rewrite record_key by (apply Hk; done). by apply (Ht t2 H2).
  - clear Hs. induction Hk as [|t ts (Hq & k & Ek) _ IH]; intros [|o os] Hl; cbn [zip_with length] in *; try by constructor. constructor; [|apply IH; lia].
    exists k. by rewrite record_key.
Qed.

(** ** Examples

    Three units are bought for 100, one is sold, and then another: *)
Definition fresh : CostBasisTimelineProcessor FifoState := @new_processor constant_hashing FifoState _.
Definition purchase : CostBasisTransaction := wit_buy "A" 3 100.
Definition sale (id : string) : CostBasisTransaction := set_transaction_type "SELL" (wit_buy id 1 40).

Definition booked_cost (id : string) (r : result CostBasisTimelineResult) : option Z :=
  match r with
  | Ok r => match od_get id (tr_source_transactions r) with Some t => option_map ul (ct_net_cost_local t) | None => None end
  | Raise _ => None
  end.

Definition open_lot_of (id : string) (r : result CostBasisTimelineResult) : option OpenLotState :=
  match r with Ok r => od_get id (tr_open_lot_states r) | Raise _ => None end.

(** What the first sale leaves of the lot. *)
Definition after_first : OpenLotState :=
  {| ol_original_quantity := dint 3; ol_quantity := dint 2; ol_cost_local := Dec 666666666667 (-10); ol_cost_base := Dec 666666666667 (-10); ol_amortized_cost := None |}.

(** The second sale sorts last and the checkpoint of the first permits its append, but the cost it books is one storage unit below the
    one a rebuild books. *)
Example append_differs_from_rebuild :
  open_lot_of "A" (fst (@process_transactions constant_hashing FifoState _ [] [purchase; sale "S1"] fresh)) = Some after_first /\
  (checkpoint ← from_transaction (sale "S1") (MethodMember FIFO); permits_append checkpoint (sale "S2") (MethodMember FIFO)) = Ok true /\
  booked_cost "S2" (fst (@process_transactions constant_hashing FifoState _ [] [purchase; sale "S1"; sale "S2"] fresh)) = Some (-333333333334) /\
  booked_cost "S2" (fst (@process_increment constant_hashing FifoState _ [checkpoint_transaction purchase after_first] [sale "S2"] fresh)) = Some (-333333333333).
Proof. split; [vm_compute; reflexivity|]. split; [vm_compute; reflexivity|]. split; vm_compute; reflexivity. Qed.

(** A record with a negative quantity is invalid; so is the stub that should carry its error, and parsing raises. *)
Example invalid_quantity_aborts_parsing :
  fst (parse_transactions [sale "S1"; set_quantity (dint (-1)) (sale "S2")] []) = Raise (ValueError "quantity must be greater than or equal to 0").
Proof. vm_compute. reflexivity. Qed.

(** *** The book after the first sale *)

Definition bought_state : FifoState := snd (fifo_add_buy_lot purchase fifo_init).
Definition sold_state : FifoState := snd (@fifo_consume_sell_quantity_with_allocations constant_hashing "P" "I" (dint 1) bought_state).

Lemma sold_book : exists l, book_ok ("P", "I") sold_state [l] /\ restores ("P", "I") l (checkpoint_transaction purchase after_first) /\ lot_qty l = 2 * 10 ^ 10.
Proof.
  pose proof (wit_buy_input "A" 3 100 ltac:(lia) ltac:(lia) eq_refl) as Hi. destruct (fo_books _ fifo_init_ok ("P", "I")) as (none & Hnone).
  assert (none = []) as -> by (destruct Hnone as [[_ _ F _] _ _ _ _ _]; by inversion F).
  assert (Hf : lot_fits purchase (dint 100) (dint 100) fifo_init).
  { exists []. split; [done|]. cbn. rewrite zsum_nil. split; [by intros ?%elem_of_nil|]. unfold purchase. cbn. rewrite !ul_dint by lia. lia. }
  assert (E : fifo_add_buy_lot purchase fifo_init = (Ok tt, bought_state)) by (vm_compute; reflexivity).
  destruct (buy_step purchase _ _ _ _ bought_state fifo_init_ok Hi Hf E) as (ls & l & _ & Hb0 & Hb1 & Q & _).
  rewrite (book_ok_functional _ _ _ _ Hb0 Hnone) in Hb1. cbn in Q. rewrite ul_dint in Q by lia.
  destruct (@consume_success constant_hashing constant_hashing_ok "P" "I" (dint 1) bought_state [l] Hb1 (stored_dint 1 ltac:(lia))) as (r & s1 & s' & ls' & Hrun & _ & _ & _ & Hb & _).
  { cbn. rewrite zsum_cons, zsum_nil, Q, ul_dint by lia. lia. }
  assert (s' = sold_state) as -> by (unfold sold_state; by rewrite Hrun). clear Hrun.
  pose proof (qv_heap _ _ _ _ (bk_view _ _ _ Hb)) as F. vm_compute (book _ _) in F. vm_compute (fs_heap _) in F.
  apply Forall2_cons_inv_l in F as (l' & rest & Hl & F & ->). inversion F; subst. cbn in Hl. injection Hl as <-.
  eexists. split; [exact Hb|]. split; [|vm_compute; reflexivity]. exists purchase, after_first. split; [by constructor|]. split; [vm_compute; reflexivity|done].
Qed.

Lemma append_agrees_with_rebuild_witness :
  exists restored r r', @restore_open_lots constant_hashing FifoState _ [checkpoint_transaction purchase after_first] fifo_init = (Ok tt, restored) /\
    fst (@fifo_consume_sell_quantity_with_allocations constant_hashing "P" "I" (dint 1) sold_state) = Ok r /\
    fst (@fifo_consume_sell_quantity_with_allocations constant_hashing "P" "I" (dint 1) restored) = Ok r' /\
    Z.abs (ul (dr_cost_local r') - ul (dr_cost_local r)) <= 1.
Proof.
  destruct sold_book as (l & Hb & Hr & Q).
  destruct (@append_agrees_with_rebuild constant_hashing constant_hashing_ok "P" "I" sold_state [l] [checkpoint_transaction purchase after_first] (dint 1) Hb
    (List.Forall2_cons _ _ Hr (List.Forall2_nil _)) (stored_dint 1 ltac:(lia))) as (restored & r & s' & r' & s'' & H1 & H2 & _ & H3 & _ & _ & _ & H4 & _).
  - cbn. rewrite zsum_cons, zsum_nil, Q, ul_dint by lia. lia.
  - exists restored, r, r'. rewrite H2, H3. by split_and!.
Defined.

(** *** The timeline *)

Lemma admitted_by raw : match make_CostBasisTransaction raw with Ok t => is_ok (transaction_order_key t) | Raise _ => false end = true -> admitted raw.
Proof. destruct (make_CostBasisTransaction raw) as [t|] eqn:Et; [|done]. destruct (transaction_order_key t) as [k|] eqn:Ek; [|done]. intros _. by exists t, k. Qed.

Lemma distinct3 : NoDup (map ct_transaction_id ([purchase; sale "S1"] ++ [sale "S2"])).
Proof. apply (bool_decide_unpack _). vm_compute. exact I. Qed.

Lemma append_permitted_iff_sorted_last_witness :
  sort_transactions [purchase; sale "S1"] [sale "S2"] = Ok [purchase; sale "S1"; sale "S2"].
Proof.
  destruct (from_transaction (sale "S1") (MethodMember FIFO)) as [c|] eqn:Hc; [|vm_compute in Hc; discriminate Hc].
  destruct (transaction_order_key (sale "S2")) as [k|] eqn:Hk; [|vm_compute in Hk; discriminate Hk].
  destruct (@append_permitted_iff_sorted_last constant_hashing FifoState _ [purchase; sale "S1"] (sale "S1") (sale "S2") [purchase; sale "S1"] (MethodMember FIFO) c k
    distinct3) as [[Happ _] _].
  - vm_compute. reflexivity.
  - set_solver.
  - reflexivity.
  - intros t kt kl Ht Hkt Hkl. vm_compute in Hkl. injection Hkl as <-.
    apply elem_of_cons in Ht as [->|[->|Ht%elem_of_nil]%elem_of_cons]; [| |done]; vm_compute in Hkt; injection Hkt as <-; vm_compute; discriminate.
  - exact Hc.
  - exact Hk.
  - apply Happ. vm_compute in Hc. injection Hc as <-. vm_compute. reflexivity.
Defined.

Lemma rebuild_ignores_arrival_order_witness :
  @process_transactions constant_hashing FifoState _ [] [sale "S1"; purchase] fresh = @process_transactions constant_hashing FifoState _ [] [purchase; sale "S1"] fresh.
Proof.
  apply (@rebuild_ignores_arrival_order constant_hashing FifoState _ [] [sale "S1"; purchase] [] [purchase; sale "S1"] fresh).
  - apply Forall_cons; split; [|apply Forall_cons; split; [|apply Forall_nil; exact I]]; apply admitted_by; vm_compute; reflexivity.
  - apply (bool_decide_unpack _). vm_compute. exact I.
  - constructor.
  - apply perm_swap.
Defined.

Lemma rebuild_accounts_for_every_transaction_witness :
  exists r p, @process_transactions constant_hashing FifoState _ [] [purchase; sale "S1"] fresh = (Ok r, p) /\
    @accounted constant_hashing FifoState r (tp_engine p) (sale "S1" ∈ [purchase; sale "S1"]) "S1".
Proof.
  destruct (@process_transactions constant_hashing FifoState _ [] [purchase; sale "S1"] fresh) as [[r|e] p] eqn:Hr.
  2: { exfalso. apply (f_equal (fun x => match fst x with Ok _ => true | Raise _ => false end)) in Hr. vm_compute in Hr. discriminate Hr. }
  exists r, p. split; [reflexivity|]. apply (@rebuild_accounts_for_every_transaction constant_hashing FifoState _ [] [purchase; sale "S1"] fresh r p (sale "S1")).
  - apply Forall_cons; split; [|apply Forall_cons; split; [|apply Forall_nil; exact I]]; apply admitted_by; vm_compute; reflexivity.
  - apply (bool_decide_unpack _). vm_compute. exact I.
  - repeat constructor.
  - exact Hr.
  - right. left.
Defined.
