(* ===== verification/Timeseries.v ===== *)
(** * Position and portfolio timeseries

    [portfolio_derived_state_service]: domain/position_timeseries (models.py, numeric_policy.py,
    calculator.py), domain/portfolio_timeseries (models.py, errors.py, numeric_policy.py, calculator.py)
    and application/portfolio_timeseries/calculation.py, with the shared
    [domain/analytics/cashflow_semantics.py] and [domain/market_data/timeseries.py]: the record of one
    position day, and the portfolio day that aggregates them in the reporting currency.

    Market data come from a repository, a port of the application: its two queries are the class
    [TimeseriesMarketDataPort]. *)

From Stdlib Require Import ZArith Lia QArith String.
From stdpp Require Import base tactics list strings.
From S2P Require Import Prelude PyDecimal DecimalFacts PyTime Precision Lineage Registry Transactions Values Position.

#[local] Open Scope string_scope.
#[local] Open Scope Z_scope.

(** ** Cashflow semantics *)

Definition STATIC_CASH_FLOW_SEMANTICS : list (string * (string * string)) :=
  [("CASHFLOW_IN", ("external_flow", "external")); ("CASHFLOW_OUT", ("external_flow", "external"));
   ("INVESTMENT_OUTFLOW", ("internal_trade_flow", "internal")); ("INVESTMENT_INFLOW", ("internal_trade_flow", "internal"));
   ("FX_BUY", ("internal_trade_flow", "internal")); ("FX_SELL", ("internal_trade_flow", "internal"));
   ("INTERNAL", ("internal_trade_flow", "internal")); ("CORPORATE_ACTION_PROCEEDS", ("corporate_action_proceeds", "operational"));
   ("INCOME", ("income", "operational")); ("EXPENSE", ("fee", "operational"))].

Definition normalize_cashflow_timing (timing : option string) : string := normalize_code timing.

Definition REVERSED_CLASSIFICATIONS : list string := ["INVESTMENT_OUTFLOW"; "INVESTMENT_INFLOW"; "CORPORATE_ACTION_PROCEEDS"; "INCOME"].

(** The negation runs in the ambient context. *)
Definition normalize_position_flow_amount (amount : decimal) (classification : string) : result decimal :=
  if in_set (normalize_code (Some classification)) REVERSED_CLASSIFICATIONS then dneg default_context amount else Ok amount.

Definition classify_transfer_cash_flow (is_position_flow is_portfolio_flow : bool) : string * string :=
  if is_position_flow && negb is_portfolio_flow then ("internal_trade_flow", "internal")
  else ("transfer", if is_portfolio_flow then "external" else "internal").

Definition classify_analytics_cash_flow (classification : string) (is_position_flow is_portfolio_flow : bool) : string * string :=
  let classification := normalize_code (Some classification) in
  if String.eqb classification "TRANSFER" then classify_transfer_cash_flow is_position_flow is_portfolio_flow
  else od_get_default ("other", "operational") classification STATIC_CASH_FLOW_SEMANTICS.

(** ** Position days *)

Definition POSITION_TIMESERIES_LEDGER_OUTPUT_V1 : CalculatedDecimalPolicy := ledger_policy "position-timeseries-ledger-output".

Record PositionSnapshotRecord := {
  sn_portfolio_id : string; sn_security_id : string; sn_date : date; sn_epoch : Z; sn_quantity : decimal;
  sn_cost_basis_local : option decimal; sn_market_value_local : option decimal; sn_valuation_status : string;
  sn_source_updated_at : option datetime; sn_calculation_lineage : option CalculationLineage
}.

Record PositionCashflowRecord := {
  pf_transaction_id : string; pf_cashflow_date : date; pf_epoch : Z; pf_amount : decimal; pf_classification : string; pf_timing : string;
  pf_is_position_flow : bool; pf_is_portfolio_flow : bool; pf_calculation_lineage : option CalculationLineage
}.

Record PositionTimeseriesRecord := {
  pt_portfolio_id : string; pt_security_id : string; pt_date : date; pt_epoch : Z; pt_bod_market_value : decimal;
  pt_bod_cashflow_position : decimal; pt_eod_cashflow_position : decimal; pt_bod_cashflow_portfolio : decimal;
  pt_eod_cashflow_portfolio : decimal; pt_eod_market_value : decimal; pt_fees : decimal; pt_quantity : decimal; pt_cost : decimal;
  pt_calculation_lineage : option CalculationLineage; pt_materialized_at : option datetime
}.

(** [_decimal_or_zero] of a stored amount that may be absent. *)
Definition amount_or_zero (value : option decimal) : decimal := default dzero (decimal_or_none (optional_decimal value)).

Definition required_market_value (snapshot : PositionSnapshotRecord) (boundary : string) : result decimal :=
  match sn_market_value_local snapshot with
  | None => Raise (PositionSnapshotNotValuedError (boundary +:+ " position snapshot has no authoritative local market value"))
  | Some value => Ok (amount_or_zero (Some value))
  end.

Definition beginning_market_value (previous_snapshot : option PositionSnapshotRecord) : result decimal :=
  match previous_snapshot with None => Ok dzero | Some snapshot => required_market_value snapshot "beginning" end.

Definition average_cost (cost_basis quantity : decimal) : result decimal :=
  if dis_zero quantity then Ok dzero else p_divide POSITION_TIMESERIES_LEDGER_OUTPUT_V1 cost_basis quantity "cost".

Definition is_expense_cashflow (cashflow : PositionCashflowRecord) : bool := String.eqb (normalize_code (Some (pf_classification cashflow))) "EXPENSE".

Record CashflowBuckets := { bk_bod_position : decimal; bk_eod_position : decimal; bk_bod_portfolio : decimal; bk_eod_portfolio : decimal; bk_fees : decimal }.

Definition empty_buckets : CashflowBuckets :=
  {| bk_bod_position := dzero; bk_eod_position := dzero; bk_bod_portfolio := dzero; bk_eod_portfolio := dzero; bk_fees := dzero |}.

Definition add_position_flow (b : CashflowBuckets) (cashflow : PositionCashflowRecord) (amount : decimal) (timing : string) : result CashflowBuckets :=
  normalized_position_amount ← normalize_position_flow_amount amount (pf_classification cashflow);
  if String.eqb timing "BOD" then
    bod ← p_add POSITION_TIMESERIES_LEDGER_OUTPUT_V1 (bk_bod_position b) (normalized_position_amount : decimal) "bod_cashflow_position";
    Ok {| bk_bod_position := bod; bk_eod_position := bk_eod_position b; bk_bod_portfolio := bk_bod_portfolio b;
          bk_eod_portfolio := bk_eod_portfolio b; bk_fees := bk_fees b |}
  else
    eod ← p_add POSITION_TIMESERIES_LEDGER_OUTPUT_V1 (bk_eod_position b) (normalized_position_amount : decimal) "eod_cashflow_position";
    Ok {| bk_bod_position := bk_bod_position b; bk_eod_position := eod; bk_bod_portfolio := bk_bod_portfolio b;
          bk_eod_portfolio := bk_eod_portfolio b; bk_fees := bk_fees b |}.

Definition add_portfolio_flow (b : CashflowBuckets) (amount : decimal) (timing : string) : result CashflowBuckets :=
  if String.eqb timing "BOD" then
    bod ← p_add POSITION_TIMESERIES_LEDGER_OUTPUT_V1 (bk_bod_portfolio b) amount "bod_cashflow_portfolio";
    Ok {| bk_bod_position := bk_bod_position b; bk_eod_position := bk_eod_position b; bk_bod_portfolio := bod;
          bk_eod_portfolio := bk_eod_portfolio b; bk_fees := bk_fees b |}
  else
    eod ← p_add POSITION_TIMESERIES_LEDGER_OUTPUT_V1 (bk_eod_portfolio b) amount "eod_cashflow_portfolio";
    Ok {| bk_bod_position := bk_bod_position b; bk_eod_position := bk_eod_position b; bk_bod_portfolio := bk_bod_portfolio b;
          bk_eod_portfolio := eod; bk_fees := bk_fees b |}.

Definition add_fees (b : CashflowBuckets) (amount : decimal) : result CashflowBuckets :=
  magnitude ← dabs default_context amount;
  fees ← p_add POSITION_TIMESERIES_LEDGER_OUTPUT_V1 (bk_fees b) (magnitude : decimal) "fees";
  Ok {| bk_bod_position := bk_bod_position b; bk_eod_position := bk_eod_position b; bk_bod_portfolio := bk_bod_portfolio b;
        bk_eod_portfolio := bk_eod_portfolio b; bk_fees := fees |}.

(** [_CashflowBuckets.add]. *)
Definition add_cashflow (b : CashflowBuckets) (cashflow : PositionCashflowRecord) : result CashflowBuckets :=
  let cashflow_amount := amount_or_zero (Some (pf_amount cashflow)) in
  let timing := normalize_cashflow_timing (Some (pf_timing cashflow)) in
  b ← (if pf_is_position_flow cashflow then add_position_flow b cashflow cashflow_amount timing else Ok b);
  b ← (if pf_is_portfolio_flow cashflow then add_portfolio_flow b cashflow_amount timing else Ok b);
  if is_expense_cashflow cashflow then add_fees b cashflow_amount else Ok b.

Definition cashflow_buckets (cashflows : list PositionCashflowRecord) : result CashflowBuckets := foldM add_cashflow empty_buckets cashflows.

Definition snapshot_payload (s : PositionSnapshotRecord) : payload :=
  PMap [("cost_basis_local", optional_decimal (sn_cost_basis_local s)); ("calculation_lineage", optional_lineage (sn_calculation_lineage s));
        ("date", PDate (sn_date s)); ("epoch", PInt (sn_epoch s)); ("market_value_local", optional_decimal (sn_market_value_local s));
        ("portfolio_id", PStr (sn_portfolio_id s)); ("quantity", PDecimal (sn_quantity s)); ("security_id", PStr (sn_security_id s));
        ("valuation_status", PStr (sn_valuation_status s))].

Definition cashflow_payload (c : PositionCashflowRecord) : payload :=
  PMap [("amount", PDecimal (pf_amount c)); ("cashflow_date", PDate (pf_cashflow_date c));
        ("calculation_lineage", optional_lineage (pf_calculation_lineage c)); ("classification", PStr (pf_classification c));
        ("epoch", PInt (pf_epoch c)); ("is_portfolio_flow", PBool (pf_is_portfolio_flow c)); ("is_position_flow", PBool (pf_is_position_flow c));
        ("timing", PStr (pf_timing c)); ("transaction_id", PStr (pf_transaction_id c))].

Definition position_timeseries_input (current_snapshot : PositionSnapshotRecord) (previous_snapshot : option PositionSnapshotRecord)
  (cashflows : list PositionCashflowRecord) (epoch : Z) : payload :=
  PMap [("cashflows", PSeq (map cashflow_payload cashflows)); ("current_snapshot", snapshot_payload current_snapshot); ("epoch", PInt epoch);
        ("previous_snapshot", match previous_snapshot with Some s => snapshot_payload s | None => PNone end)].

Definition position_timeseries_output (r : PositionTimeseriesRecord) : payload :=
  PMap [("bod_cashflow_portfolio", PDecimal (pt_bod_cashflow_portfolio r)); ("bod_cashflow_position", PDecimal (pt_bod_cashflow_position r));
        ("bod_market_value", PDecimal (pt_bod_market_value r)); ("cost", PDecimal (pt_cost r)); ("date", PDate (pt_date r));
        ("eod_cashflow_portfolio", PDecimal (pt_eod_cashflow_portfolio r)); ("eod_cashflow_position", PDecimal (pt_eod_cashflow_position r));
        ("eod_market_value", PDecimal (pt_eod_market_value r)); ("epoch", PInt (pt_epoch r)); ("fees", PDecimal (pt_fees r));
        ("portfolio_id", PStr (pt_portfolio_id r)); ("quantity", PDecimal (pt_quantity r)); ("security_id", PStr (pt_security_id r))].

Section Days.
Context `{hashing : Hashing}.

Definition calculate_position_timeseries (current_snapshot : PositionSnapshotRecord) (previous_snapshot : option PositionSnapshotRecord)
  (cashflows : list PositionCashflowRecord) (epoch : Z) : result PositionTimeseriesRecord :=
  eod_market_value ← required_market_value current_snapshot "end-of-day";
  let eod_quantity := amount_or_zero (Some (sn_quantity current_snapshot)) in
  let eod_cost_basis := amount_or_zero (sn_cost_basis_local current_snapshot) in
  buckets ← cashflow_buckets cashflows;
  bod_market_value ← beginning_market_value previous_snapshot;
  cost ← average_cost eod_cost_basis eod_quantity;
  let with_lineage l :=
    {| pt_portfolio_id := sn_portfolio_id current_snapshot; pt_security_id := sn_security_id current_snapshot; pt_date := sn_date current_snapshot;
       pt_epoch := epoch; pt_bod_market_value := bod_market_value; pt_bod_cashflow_position := bk_bod_position buckets;
       pt_eod_cashflow_position := bk_eod_position buckets; pt_bod_cashflow_portfolio := bk_bod_portfolio buckets;
       pt_eod_cashflow_portfolio := bk_eod_portfolio buckets; pt_eod_market_value := eod_market_value; pt_fees := bk_fees buckets;
       pt_quantity := eod_quantity; pt_cost := cost; pt_calculation_lineage := l; pt_materialized_at := None |} in
  np ← lineage_identity POSITION_TIMESERIES_LEDGER_OUTPUT_V1;
  l ← build_calculation_lineage "position-timeseries-materialization" 1 (cp_working_precision POSITION_TIMESERIES_LEDGER_OUTPUT_V1)
        (position_timeseries_input current_snapshot previous_snapshot cashflows epoch) (position_timeseries_output (with_lineage None)) (Some np);
  Ok (with_lineage (Some l)).

(** ** Portfolio days *)

Record TimeseriesInstrument := { ti_security_id : string; ti_currency : string }.

Record TimeseriesFxRate := {
  fx_rate : decimal; fx_from_currency : string; fx_to_currency : string; fx_rate_date : date; fx_source_record_id : option Z;
  fx_source_updated_at : option datetime
}.

Definition PORTFOLIO_TIMESERIES_LEDGER_OUTPUT_V1 : CalculatedDecimalPolicy := ledger_policy "portfolio-timeseries-ledger-output".

Record PortfolioAggregationScope := { sc_tenant_id : string; sc_portfolio_id : string; sc_base_currency : string }.

Record PortfolioTimeseriesRecord := {
  pr_portfolio_id : string; pr_date : date; pr_epoch : Z; pr_bod_market_value : decimal; pr_bod_cashflow : decimal; pr_eod_cashflow : decimal;
  pr_eod_market_value : decimal; pr_fees : decimal; pr_calculation_lineage : option CalculationLineage
}.

Record PortfolioPositionContribution := { pc_position_timeseries : PositionTimeseriesRecord; pc_fx_rate : TimeseriesFxRate }.

Definition make_PortfolioPositionContribution (c : PortfolioPositionContribution) : result PortfolioPositionContribution :=
  let r := pc_fx_rate c in
  let invalid m := InvalidPortfolioPositionContribution ("Portfolio position contribution requires " +:+ m) in
  _ ← raise_if (negb (truthy (strip (pt_security_id (pc_position_timeseries c))))) (invalid "a security identity.");
  _ ← raise_if (dleb (fx_rate r) dzero) (invalid "a positive FX rate.");
  _ ← raise_if (negb (truthy (strip (fx_from_currency r))) || negb (truthy (strip (fx_to_currency r)))) (invalid "an FX currency pair.");
  if String.eqb (upper (strip (fx_from_currency r))) (upper (strip (fx_to_currency r))) then
    _ ← raise_if (negb (deqb (fx_rate r) d_one))
          (InvalidPortfolioPositionContribution "Same-currency portfolio contributions require an identity FX rate.");
    _ ← raise_if (bool_decide (fx_source_record_id r <> None) || bool_decide (fx_source_updated_at r <> None))
          (InvalidPortfolioPositionContribution "Same-currency portfolio contributions cannot cite a persisted FX fact.");
    Ok c
  else
    _ ← raise_if (match fx_source_record_id r with None => true | Some n => n <? 1 end)
          (InvalidPortfolioPositionContribution "Cross-currency portfolio contributions require a persisted FX record identity.");
    _ ← raise_if (match fx_source_updated_at r with None => true | Some d => is_naive d end)
          (InvalidPortfolioPositionContribution "Cross-currency portfolio contributions require an aware FX source revision.");
    Ok c.

Record PortfolioAggregationCompletion := {
  ac_tenant_id : string; ac_portfolio_id : string; ac_aggregation_date : date; ac_epoch : Z; ac_aggregation_revision : Z
}.

Definition make_PortfolioAggregationCompletion (c : PortfolioAggregationCompletion) : result PortfolioAggregationCompletion :=
  _ ← raise_if (ac_aggregation_revision c <? 1) (ValueError "Portfolio aggregation completion revision must be positive.");
  Ok c.

Definition contribution_security (c : PortfolioPositionContribution) : string := strip (pt_security_id (pc_position_timeseries c)).

(** [sorted(contributions, key=...)]. *)
Definition order_contributions (contributions : list PortfolioPositionContribution) : list PortfolioPositionContribution :=
  stable_sort (fun x y => string_leb (contribution_security x) (contribution_security y)) contributions.

(** The five running totals and the securities that have been seen. *)
Record PortfolioTotals := {
  to_bod_market_value : decimal; to_bod_cashflow : decimal; to_eod_cashflow : decimal; to_eod_market_value : decimal; to_fees : decimal;
  to_seen_security_ids : list string
}.

(** [total += decimal_or_zero(amount) * fx_rate]. *)
Definition accumulate (ctx : context) (total amount rate : decimal) : result decimal :=
  product ← dmul ctx (decimal_or_zero (PDecimal (Finite amount))) rate;
  dadd ctx total product.

(** The body of the loop over the ordered contributions. *)
Definition add_contribution (portfolio_id : string) (aggregation_date : date) (epoch : Z) (t : PortfolioTotals) (c : PortfolioPositionContribution)
  : result PortfolioTotals :=
  let position := pc_position_timeseries c in
  let security_id := contribution_security c in
  let ctx := arithmetic_context PORTFOLIO_TIMESERIES_LEDGER_OUTPUT_V1 in
  let rate := fx_rate (pc_fx_rate c) in
  _ ← raise_if (negb (String.eqb (strip (pt_portfolio_id position)) portfolio_id))
        (PortfolioContributionScopeMismatch "Position contribution belongs to a different portfolio scope.");
  _ ← raise_if ((aggregation_date <? pt_date position) || (epoch <? pt_epoch position))
        (PortfolioContributionWindowMismatch "Position contribution is later than the target business date or epoch.");
  _ ← raise_if (in_set security_id (to_seen_security_ids t))
        (DuplicatePortfolioPositionContribution "Portfolio aggregation received a duplicate security contribution.");
  bod_market_value ← accumulate ctx (to_bod_market_value t) (pt_bod_market_value position) rate;
  bod_cashflow ← accumulate ctx (to_bod_cashflow t) (pt_bod_cashflow_portfolio position) rate;
  eod_cashflow ← accumulate ctx (to_eod_cashflow t) (pt_eod_cashflow_portfolio position) rate;
  eod_market_value ← accumulate ctx (to_eod_market_value t) (pt_eod_market_value position) rate;
  fees ← accumulate ctx (to_fees t) (pt_fees position) rate;
  Ok {| to_bod_market_value := bod_market_value; to_bod_cashflow := bod_cashflow; to_eod_cashflow := eod_cashflow;
        to_eod_market_value := eod_market_value; to_fees := fees; to_seen_security_ids := security_id :: to_seen_security_ids t |}.

Definition empty_totals : PortfolioTotals :=
  {| to_bod_market_value := dzero; to_bod_cashflow := dzero; to_eod_cashflow := dzero; to_eod_market_value := dzero; to_fees := dzero;
     to_seen_security_ids := [] |}.

Definition optional_int (v : option Z) : payload := match v with Some n => PInt n | None => PNone end.
Definition optional_datetime (v : option datetime) : payload := match v with Some d => PDatetime d | None => PNone end.

Definition contribution_payload (c : PortfolioPositionContribution) : payload :=
  let r := pc_fx_rate c in
  let p := pc_position_timeseries c in
  PMap [("fx_rate", PMap [("from_currency", PStr (fx_from_currency r)); ("rate", PDecimal (fx_rate r)); ("rate_date", PDate (fx_rate_date r));
                          ("source_record_id", optional_int (fx_source_record_id r)); ("source_updated_at", optional_datetime (fx_source_updated_at r));
                          ("to_currency", PStr (fx_to_currency r))]);
        ("position", PMap [("bod_cashflow_portfolio", PDecimal (pt_bod_cashflow_portfolio p)); ("bod_market_value", PDecimal (pt_bod_market_value p));
                           ("calculation_lineage", optional_lineage (pt_calculation_lineage p)); ("date", PDate (pt_date p));
                           ("eod_cashflow_portfolio", PDecimal (pt_eod_cashflow_portfolio p)); ("eod_market_value", PDecimal (pt_eod_market_value p));
                           ("epoch", PInt (pt_epoch p)); ("fees", PDecimal (pt_fees p)); ("portfolio_id", PStr (pt_portfolio_id p));
                           ("security_id", PStr (pt_security_id p))])].

Definition portfolio_timeseries_input (portfolio : PortfolioAggregationScope) (aggregation_date : date) (epoch : Z)
  (contributions : list PortfolioPositionContribution) : payload :=
  PMap [("aggregation_date", PDate aggregation_date); ("contributions", PSeq (map contribution_payload contributions)); ("epoch", PInt epoch);
        ("portfolio", PMap [("base_currency", PStr (sc_base_currency portfolio)); ("portfolio_id", PStr (sc_portfolio_id portfolio))])].

Definition portfolio_timeseries_output (r : PortfolioTimeseriesRecord) : payload :=
  PMap [("bod_cashflow", PDecimal (pr_bod_cashflow r)); ("bod_market_value", PDecimal (pr_bod_market_value r)); ("date", PDate (pr_date r));
        ("eod_cashflow", PDecimal (pr_eod_cashflow r)); ("eod_market_value", PDecimal (pr_eod_market_value r)); ("epoch", PInt (pr_epoch r));
        ("fees", PDecimal (pr_fees r)); ("portfolio_id", PStr (pr_portfolio_id r))].

Definition calculate_portfolio_timeseries (portfolio : PortfolioAggregationScope) (aggregation_date : date) (epoch : Z)
  (contributions : list PortfolioPositionContribution) : result PortfolioTimeseriesRecord :=
  let policy := PORTFOLIO_TIMESERIES_LEDGER_OUTPUT_V1 in
  let portfolio_id := strip (sc_portfolio_id portfolio) in
  _ ← raise_if (negb (truthy portfolio_id))
        (InvalidPortfolioAggregationScope "Portfolio aggregation requires an authoritative portfolio identity.");
  let ordered_contributions := order_contributions contributions in
  t ← foldM (add_contribution portfolio_id aggregation_date epoch) empty_totals ordered_contributions;
  bod_market_value ← normalize policy (Finite (to_bod_market_value t)) "bod_market_value";
  bod_cashflow ← normalize policy (Finite (to_bod_cashflow t)) "bod_cashflow";
  eod_cashflow ← normalize policy (Finite (to_eod_cashflow t)) "eod_cashflow";
  eod_market_value ← normalize policy (Finite (to_eod_market_value t)) "eod_market_value";
  fees ← normalize policy (Finite (to_fees t)) "fees";
  let with_lineage l :=
    {| pr_portfolio_id := sc_portfolio_id portfolio; pr_date := aggregation_date; pr_epoch := epoch; pr_bod_market_value := bod_market_value;
       pr_bod_cashflow := bod_cashflow; pr_eod_cashflow := eod_cashflow; pr_eod_market_value := eod_market_value; pr_fees := fees;
       pr_calculation_lineage := l |} in
  np ← lineage_identity policy;
  l ← build_calculation_lineage "portfolio-timeseries-aggregation" 1 (cp_working_precision policy)
        (portfolio_timeseries_input portfolio aggregation_date epoch ordered_contributions) (portfolio_timeseries_output (with_lineage None)) (Some np);
  Ok (with_lineage (Some l)).
End Days.

(** ** Resolving market data *)

(** [coerce_positive_fx_rate_or_none] of a decimal. *)
Definition coerce_positive_fx_rate_or_none (rate : payload) : option decimal :=
  match decimal_or_none rate with
  | None => None
  | Some r => if dleb r dzero then None else Some r
  end.

Class TimeseriesMarketDataPort := {
  get_instruments_by_ids : list string -> list TimeseriesInstrument;
  get_fx_rate : string -> string -> date -> option TimeseriesFxRate
}.

Definition normalize_currency (currency : string) : string := upper (strip currency).
Definition normalize_security_id (security_id : string) : string := strip security_id.

Definition FxCache : Type := list (string * string * date * TimeseriesFxRate).

Section Calculation.
Context `{hashing : Hashing} `{market : TimeseriesMarketDataPort}.

Definition resolve_fx_rate (instrument_currency portfolio_currency : string) (valuation_date : date) (cache : FxCache)
  : result (TimeseriesFxRate * FxCache) :=
  if String.eqb instrument_currency portfolio_currency then
    Ok ({| fx_rate := d_one; fx_from_currency := instrument_currency; fx_to_currency := portfolio_currency; fx_rate_date := valuation_date;
           fx_source_record_id := None; fx_source_updated_at := None |}, cache)
  else
    let cache_key := (instrument_currency, portfolio_currency, valuation_date) in
    match od_get cache_key cache with
    | Some cached_rate => Ok (cached_rate, cache)
    | None =>
        let pair := instrument_currency +:+ " to " +:+ portfolio_currency in
        match get_fx_rate instrument_currency portfolio_currency valuation_date with
        | None => Raise (FxRateNotFoundError ("Missing FX rate from " +:+ pair +:+ " for date " +:+ date_isoformat valuation_date +:+ "."))
        | Some found =>
            match coerce_positive_fx_rate_or_none (PDecimal (Finite (fx_rate found))) with
            | None => Raise (FxRateNotFoundError ("Non-positive FX rate from " +:+ pair +:+ " for date " +:+ date_isoformat valuation_date +:+ "."))
            | Some normalized_rate =>
                if negb (String.eqb (normalize_currency (fx_from_currency found)) instrument_currency)
                   || negb (String.eqb (normalize_currency (fx_to_currency found)) portfolio_currency)
                then Raise (FxRateNotFoundError ("FX rate source identity does not match requested pair " +:+ pair +:+ "."))
                else
                  let selected_rate :=
                    {| fx_rate := normalized_rate; fx_from_currency := instrument_currency; fx_to_currency := portfolio_currency;
                       fx_rate_date := fx_rate_date found; fx_source_record_id := fx_source_record_id found;
                       fx_source_updated_at := fx_source_updated_at found |} in
                  Ok (selected_rate, od_set cache_key selected_rate cache)
            end
        end
    end.

(** [{_normalize_security_id(instrument.security_id): instrument for instrument in ...}]. *)
Definition instruments_by_id (instruments : list TimeseriesInstrument) : list (string * TimeseriesInstrument) :=
  foldl (fun d i => od_set (normalize_security_id (ti_security_id i)) i d) [] instruments.

(** [list(dict.fromkeys(...))]. *)
Definition distinct_security_ids (position_timeseries : list PositionTimeseriesRecord) : list string :=
  foldl (fun d s => if in_set s d then d else (d ++ [s])%list) [] (map (fun p => normalize_security_id (pt_security_id p)) position_timeseries).

(** The body of the loop over the positions. *)
Definition add_position (portfolio_currency : string) (instruments : list (string * TimeseriesInstrument))
  (acc : FxCache * list PortfolioPositionContribution) (position : PositionTimeseriesRecord) : result (FxCache * list PortfolioPositionContribution) :=
  let '(cache, contributions) := acc in
  let security_id := normalize_security_id (pt_security_id position) in
  match od_get security_id instruments with
  | None => Raise (InstrumentReferenceNotFoundError ("Missing instrument reference data for " +:+ security_id +:+ "."))
  | Some instrument =>
      let instrument_currency := normalize_currency (ti_currency instrument) in
      _ ← raise_if (negb (truthy instrument_currency))
            (CurrencyReferenceNotFoundError ("Instrument reference data for " +:+ security_id +:+ " has no currency."));
      '(rate, cache) ← resolve_fx_rate instrument_currency portfolio_currency (pt_date position) cache;
      contribution ← make_PortfolioPositionContribution {| pc_position_timeseries := position; pc_fx_rate := rate |};
      Ok (cache, (contributions ++ [contribution])%list)
  end.

Definition calculate_daily_record (portfolio : PortfolioAggregationScope) (aggregation_date : date) (epoch : Z)
  (position_timeseries : list PositionTimeseriesRecord) : result PortfolioTimeseriesRecord :=
  let portfolio_currency := normalize_currency (sc_base_currency portfolio) in
  _ ← raise_if (negb (truthy portfolio_currency))
        (CurrencyReferenceNotFoundError "Portfolio aggregation requires a portfolio reporting currency.");
  let instruments := instruments_by_id (get_instruments_by_ids (distinct_security_ids position_timeseries)) in
  '(_, contributions) ← foldM (add_position portfolio_currency instruments) ([], []) position_timeseries;
  calculate_portfolio_timeseries portfolio aggregation_date epoch contributions.
End Calculation.
