(* ===== verification/TimeseriesFacts.v ===== *)
(** * Properties of position and portfolio timeseries

    A position day sums its cashflows exactly, whatever their order; a portfolio day is accepted
    exactly for one contribution per security of its own scope and window, each of its totals is the
    exact sum of amounts times rates rounded once, and the record does not depend on the order in which
    the contributions arrive. *)

From Stdlib Require Import ZArith Lia QArith Qabs Lqa String.
From stdpp Require Import base tactics list sets strings.
From S2P Require Import Prelude PyDecimal DecimalFacts PyTime Precision Lineage Registry Transactions Values Position Lots Timeseries.

#[local] Open Scope string_scope.
#[local] Open Scope Z_scope.

(** ** Totals of a portfolio day *)

(** An amount of a position times its rate, in units of [10 ^ -20]. *)
Definition weight (f : PositionTimeseriesRecord -> decimal) (c : PortfolioPositionContribution) : Z :=
  ul (f (pc_position_timeseries c)) * ul (fx_rate (pc_fx_rate c)).

Definition weights (f : PositionTimeseriesRecord -> decimal) (cs : list PortfolioPositionContribution) : Z := zsum (map (weight f) cs).

(** The exact total rounded half-even to storage units. *)
Definition rounded_total (f : PositionTimeseriesRecord -> decimal) (cs : list PortfolioPositionContribution) : Z :=
  qround ROUND_HALF_EVEN (inject_Z (weights f cs) * pow10 (-10)).

(** The five amounts of a position that a portfolio day aggregates. *)
Definition aggregated_amounts : list (PositionTimeseriesRecord -> decimal) :=
  [pt_bod_market_value; pt_bod_cashflow_portfolio; pt_eod_cashflow_portfolio; pt_eod_market_value; pt_fees].

Ltac normal_payload :=
  repeat (first [assumption | apply normalize_map_ok | apply Forall_nil_2 | apply Forall_cons_2; [split; [reflexivity|]|]]; cbn [snd]); auto.

Ltac aggregated := apply list_elem_of_In; cbn; auto 10.

Definition stored_contribution (c : PortfolioPositionContribution) : Prop :=
  Forall (fun f => stored (f (pc_position_timeseries c))) aggregated_amounts /\ stored (fx_rate (pc_fx_rate c)).

Lemma units_dor k d n : units k d n -> units k (dor d dzero) n.
Proof.
  intros Hd. unfold dor. destruct (dis_zero d) eqn:Hz; [|done]. apply dis_zero_spec in Hz. unfold units in *. rewrite <- Hd, Hz. apply dval_dzero.
Qed.

Lemma weight_bound f c : stored (f (pc_position_timeseries c)) -> stored (fx_rate (pc_fx_rate c)) -> Z.abs (weight f c) < 10 ^ 36.
Proof. intros [_ Hf] [_ Hr]. unfold weight. rewrite Z.abs_mul. change (10 ^ 36) with (10 ^ 18 * 10 ^ 18). apply Z.mul_lt_mono_nonneg; lia. Qed.

Lemma weights_bound f cs : f ∈ aggregated_amounts -> Forall stored_contribution cs -> Z.abs (weights f cs) <= Z.of_nat (length cs) * 10 ^ 36.
Proof.
  intros Hf. induction 1 as [|c cs [Hs Hr] _ IH]; [done|]. unfold weights in *. cbn [map length]. rewrite zsum_cons.
  rewrite Forall_forall in Hs. pose proof (weight_bound f c (Hs f Hf) Hr). lia.
Qed.

#[local] Notation portfolio_context := (arithmetic_context PORTFOLIO_TIMESERIES_LEDGER_OUTPUT_V1).

(** One accumulation of the loop is exact in the working precision. *)
Lemma accumulate_exact total s a r : units (-20) total s -> stored a -> stored r -> Z.abs s + Z.abs (ul a * ul r) < 10 ^ 64 ->
  exists t, accumulate portfolio_context total a r = Ok t /\ units (-20) t (s + ul a * ul r).
Proof.
  intros Hs [Ha _] [Hr _] B. unfold accumulate, dmul, dadd, decimal_or_zero. cbn [decimal_or_none finite_or_none].
  pose proof (units_mul (-10) (-10) _ _ _ _ (units_dor _ _ _ Ha) Hr) as Hp. change (-10 + -10) with (-20) in Hp.
  destruct (dfix_units portfolio_context (-20) _ _ ltac:(by apply make_context_wide) ltac:(lia) Hp) as (p & -> & Hp');
    [change (10 ^ prec portfolio_context) with (10 ^ 64); lia|]. cbn [mbind result_bind].
  apply dfix_units; [by apply make_context_wide|lia|by apply units_add|]. change (10 ^ prec portfolio_context) with (10 ^ 64). lia.
Qed.

(** The running totals after some contributions. *)
Record totals (t : PortfolioTotals) (cs : list PortfolioPositionContribution) : Prop := {
  tt_bod_market_value : units (-20) (to_bod_market_value t) (weights pt_bod_market_value cs);
  tt_bod_cashflow : units (-20) (to_bod_cashflow t) (weights pt_bod_cashflow_portfolio cs);
  tt_eod_cashflow : units (-20) (to_eod_cashflow t) (weights pt_eod_cashflow_portfolio cs);
  tt_eod_market_value : units (-20) (to_eod_market_value t) (weights pt_eod_market_value cs);
  tt_fees : units (-20) (to_fees t) (weights pt_fees cs);
  tt_seen : forall s, in_set s (to_seen_security_ids t) = in_set s (map contribution_security cs)
}.

(** What the loop requires of one contribution. *)
Definition in_window (portfolio_id : string) (aggregation_date : date) (epoch : Z) (c : PortfolioPositionContribution) : Prop :=
  strip (pt_portfolio_id (pc_position_timeseries c)) = portfolio_id /\ pt_date (pc_position_timeseries c) <= aggregation_date /\
  pt_epoch (pc_position_timeseries c) <= epoch.

Lemma weights_snoc f cs c : weights f (cs ++ [c])%list = weights f cs + weight f c.
Proof. unfold weights. rewrite map_app, zsum_app. cbn [map]. rewrite zsum_cons, zsum_nil. lia. Qed.

Lemma in_set_app s xs ys : in_set s (xs ++ ys)%list = in_set s xs || in_set s ys.
Proof. unfold in_set. apply existsb_app. Qed.

Section Step.
Context (portfolio_id : string) (aggregation_date : date) (epoch : Z).
#[local] Notation step := (add_contribution portfolio_id aggregation_date epoch).
#[local] Notation window := (in_window portfolio_id aggregation_date epoch).

Lemma step_requires t c t' : step t c = Ok t' -> window c /\ in_set (contribution_security c) (to_seen_security_ids t) = false.
Proof.
  unfold add_contribution. intros (? & Hp%raise_if_Ok & (? & Hw%raise_if_Ok & (? & Hs%raise_if_Ok & _)%bind_Ok)%bind_Ok)%bind_Ok.
  apply negb_false_iff, String.eqb_eq in Hp. apply orb_false_iff in Hw as [Hd He]. apply Z.ltb_ge in Hd, He. done.
Qed.

Lemma step_total t done c : totals t done -> Forall stored_contribution done -> stored_contribution c -> Z.of_nat (length done) < 10 ^ 20 ->
  window c -> in_set (contribution_security c) (map contribution_security done) = false ->
  exists t', step t c = Ok t' /\ totals t' (done ++ [c])%list.
Proof.
  intros [T1 T2 T3 T4 T5 T6] Hd [Hc Hr] Hn (W1 & W2 & W3) Hseen. unfold add_contribution.
  rewrite W1, String.eqb_refl. cbn [negb raise_if mbind result_bind].
  rewrite (proj2 (orb_false_iff _ _) (conj (proj2 (Z.ltb_ge _ _) W2) (proj2 (Z.ltb_ge _ _) W3))). cbn [raise_if mbind result_bind].
  rewrite T6, Hseen. cbn [raise_if mbind result_bind]. rewrite Forall_forall in Hc.
  assert (Hacc : forall f total, f ∈ aggregated_amounts -> units (-20) total (weights f done) ->
    exists t, accumulate portfolio_context total (f (pc_position_timeseries c)) (fx_rate (pc_fx_rate c)) = Ok t /\ units (-20) t (weights f (done ++ [c])%list)).
  { intros f total Hf Ht. rewrite weights_snoc. apply (accumulate_exact total _ _ _ Ht (Hc f Hf) Hr).
    pose proof (weights_bound f done Hf Hd). pose proof (weight_bound f c (Hc f Hf) Hr) as Hw. unfold weight in Hw. lia. }
  destruct (Hacc pt_bod_market_value _ ltac:(aggregated) T1) as (u1 & -> & U1). cbn [mbind result_bind].
  destruct (Hacc pt_bod_cashflow_portfolio _ ltac:(aggregated) T2) as (u2 & -> & U2). cbn [mbind result_bind].
  destruct (Hacc pt_eod_cashflow_portfolio _ ltac:(aggregated) T3) as (u3 & -> & U3). cbn [mbind result_bind].
  destruct (Hacc pt_eod_market_value _ ltac:(aggregated) T4) as (u4 & -> & U4). cbn [mbind result_bind].
  destruct (Hacc pt_fees _ ltac:(aggregated) T5) as (u5 & -> & U5). cbn [mbind result_bind].
  eexists. split; [done|]. constructor; try done. intros s. cbn [to_seen_security_ids]. rewrite map_app, in_set_app. cbn [in_set existsb map].
  change (existsb (String.eqb s) (to_seen_security_ids t)) with (in_set s (to_seen_security_ids t)). rewrite T6, orb_false_r. apply orb_comm.
Qed.

Definition admissible (cs : list PortfolioPositionContribution) : Prop := Forall window cs /\ NoDup (map contribution_security cs).

Lemma in_set_not_elem s xs : in_set s xs = false <-> s ∉ xs.
Proof. rewrite list_elem_of_In, <- in_set_true. by destruct (in_set s xs). Qed.

Lemma fold_total cs : forall t done, totals t done -> Forall stored_contribution (done ++ cs) -> Z.of_nat (length (done ++ cs)) < 10 ^ 20 ->
  Forall window cs -> NoDup (map contribution_security (done ++ cs)) -> exists t', foldM step t cs = Ok t' /\ totals t' (done ++ cs)%list.
Proof.
  induction cs as [|c cs IH]; intros t done Ht Hs Hn Hw Hd; [exists t; by rewrite app_nil_r|].
  inversion Hw as [|? ? Hwc Hws]; subst. pose proof (proj1 (Forall_app _ _ _) Hs) as [Hsd [Hsc _]%Forall_cons].
  destruct (step_total t done c Ht Hsd Hsc) as (t1 & H1 & T1); [rewrite length_app in Hn; lia|done| |].
  { rewrite map_app in Hd. apply NoDup_app in Hd as (_ & Hd & _). apply in_set_not_elem. intros Hin. apply (Hd _ Hin). cbn. by left. }
  destruct (IH t1 (done ++ [c])%list T1) as (t' & Ht' & T'); rewrite <- ?app_assoc; [done..|]. exists t'. cbn [foldM]. rewrite H1. cbn. by rewrite <- app_assoc in T'.
Qed.

Lemma fold_requires cs : forall t t', foldM step t cs = Ok t' ->
  Forall window cs /\ NoDup (map contribution_security cs) /\ forall s, s ∈ map contribution_security cs -> in_set s (to_seen_security_ids t) = false.
Proof.
  induction cs as [|c cs IH]; intros t t' H; cbn [foldM] in H; [split_and!; [done|apply NoDup_nil_2|by intros s ?%elem_of_nil]|].
  apply bind_Ok in H as (t1 & H1 & H2). destruct (step_requires _ _ _ H1) as [Hw Hs]. destruct (IH _ _ H2) as (Hws & Hd & Hn).
  assert (Hseen : to_seen_security_ids t1 = contribution_security c :: to_seen_security_ids t) by (unfold add_contribution in H1; by inv_ok).
  rewrite Hseen in Hn. cbn [map]. split_and!; [by constructor| |].
  - constructor; [|done]. intros Hin. specialize (Hn _ Hin). cbn in Hn. by rewrite String.eqb_refl in Hn.
  - intros s [->|Hin]%elem_of_cons; [done|]. specialize (Hn _ Hin). cbn in Hn. by apply orb_false_iff in Hn as [_ Hn].
Qed.
End Step.

(** ** Order *)

Lemma order_perm cs : order_contributions cs ≡ₚ cs.
Proof. apply stable_sort_perm. Qed.

Lemma order_unique cs cs' : NoDup (map contribution_security cs) -> cs ≡ₚ cs' -> order_contributions cs = order_contributions cs'.
Proof.
  intros Hd. apply stable_sort_perm_eq; [intros; apply string_leb_total|intros; by eapply string_leb_trans|].
  intros x y Hx Hy L1 L2. pose proof (string_leb_antisym _ _ L1 L2) as E. clear L1 L2.
  induction cs as [|c cs IH]; [by apply elem_of_nil in Hx|]. cbn in Hd. apply NoDup_cons in Hd as [Hn Hd].
  apply elem_of_cons in Hx as [->|Hx], Hy as [->|Hy]; [done| | |by apply IH]; destruct Hn; [rewrite E|rewrite <- E]; by apply (list_elem_of_fmap_2 contribution_security).
Qed.

Section Day.
Context `{hashing : Hashing}.

(** The portfolio day depends on the set of contributions alone: whatever the order in which they arrive, the record, with the hash
    of its inputs, is the same. *)
Theorem portfolio_day_ignores_order portfolio aggregation_date epoch cs cs' r :
  cs ≡ₚ cs' -> calculate_portfolio_timeseries portfolio aggregation_date epoch cs = Ok r ->
  calculate_portfolio_timeseries portfolio aggregation_date epoch cs' = Ok r.
Proof.
  intros Hp H. assert (Hd : NoDup (map contribution_security cs)).
  { unfold calculate_portfolio_timeseries in H. apply bind_Ok in H as (? & _ & (t & Ht & _)%bind_Ok). apply fold_requires in Ht as (_ & Hd & _).
    by rewrite order_perm in Hd. }
  unfold calculate_portfolio_timeseries in *. by rewrite <- (order_unique cs cs' Hd Hp).
Qed.

(** ** What a portfolio day publishes *)

Definition constructed (c : PortfolioPositionContribution) : Prop := make_PortfolioPositionContribution c = Ok c.

Record published_day (portfolio : PortfolioAggregationScope) (aggregation_date : date) (epoch : Z) (cs : list PortfolioPositionContribution)
  (r : PortfolioTimeseriesRecord) : Prop := {
  pd_portfolio : pr_portfolio_id r = sc_portfolio_id portfolio;
  pd_date : pr_date r = aggregation_date;
  pd_epoch : pr_epoch r = epoch;
  pd_bod_market_value : Precision.ledger (pr_bod_market_value r) (rounded_total pt_bod_market_value cs);
  pd_bod_cashflow : Precision.ledger (pr_bod_cashflow r) (rounded_total pt_bod_cashflow_portfolio cs);
  pd_eod_cashflow : Precision.ledger (pr_eod_cashflow r) (rounded_total pt_eod_cashflow_portfolio cs);
  pd_eod_market_value : Precision.ledger (pr_eod_market_value r) (rounded_total pt_eod_market_value cs);
  pd_fees : Precision.ledger (pr_fees r) (rounded_total pt_fees cs);
  pd_lineage : exists l, pr_calculation_lineage r = Some l /\ calculation_lineage_binds_output l (portfolio_timeseries_output r) = Ok true
}.

Lemma contribution_normal c : constructed c -> is_ok (normalize_lineage_value (contribution_payload c)) = true.
Proof.
  unfold constructed, make_PortfolioPositionContribution. intros H.
  assert (is_ok (normalize_lineage_value (optional_datetime (fx_source_updated_at (pc_fx_rate c)))) = true) as Hd.
  { inv_ok. destruct (fx_source_updated_at (pc_fx_rate c)) as [d|] eqn:Ed; [|done]. apply datetime_normal.
    destruct (String.eqb _ _); inv_ok; [|done]. by destruct (fx_source_record_id (pc_fx_rate c)). }
  assert (is_ok (normalize_lineage_value (optional_int (fx_source_record_id (pc_fx_rate c)))) = true) by (by destruct (fx_source_record_id (pc_fx_rate c))).
  pose proof (optional_lineage_normal (pt_calculation_lineage (pc_position_timeseries c))).
  unfold contribution_payload.
  normal_payload.
Qed.

Lemma input_normal portfolio aggregation_date epoch cs : Forall constructed cs ->
  is_ok (normalize_lineage_value (portfolio_timeseries_input portfolio aggregation_date epoch cs)) = true.
Proof.
  intros Hc. unfold portfolio_timeseries_input.
  assert (is_ok (normalize_lineage_value (PSeq (map contribution_payload cs))) = true).
  { apply normalize_seq_ok. rewrite Forall_map. eapply Forall_impl; [exact Hc|]. intros c H. by apply contribution_normal. }
  normal_payload.
Qed.

Lemma total_units f t cs : units (-20) t (weights f cs) -> ul t = rounded_total f cs.
Proof.
  intros Hu. unfold ul, to_units, rounded_total. apply qround_proper. unfold units in Hu. rewrite Hu, <- Qmult_assoc.
  change (cp_scale _) with 10. rewrite <- pow10_add. reflexivity.
Qed.

Lemma normalize_weighted name t f cs field : units (-20) t (weights f cs) ->
  (Z.abs (rounded_total f cs) < 10 ^ 18 -> exists r, normalize (ledger_policy name) (Finite t) field = Ok r) /\
  (forall r, normalize (ledger_policy name) (Finite t) field = Ok r -> Precision.ledger r (rounded_total f cs)).
Proof.
  intros Hu%total_units. destruct (normalize_total (ledger_policy name) (ledger_policy_wf name) t field) as [H1 _]. split.
  - intros B. destruct H1 as (r & Hr & _); [|by exists r]. change (to_units (ledger_policy name) t) with (ul t). by rewrite Hu.
  - intros r Hr%ledger_of_normalize. change (to_units (ledger_policy name) t) with (ul t) in Hr. by rewrite Hu in Hr.
Qed.

Lemma weights_perm f cs cs' : cs ≡ₚ cs' -> weights f cs = weights f cs'.
Proof. intros Hp. apply zsum_perm. by rewrite Hp. Qed.

Lemma rounded_perm f cs cs' : cs ≡ₚ cs' -> rounded_total f cs = rounded_total f cs'.
Proof. intros Hp. unfold rounded_total. by rewrite (weights_perm f cs cs' Hp). Qed.

Lemma empty_totals_ok : totals empty_totals [].
Proof. constructor; try done; apply units_dzero. Qed.

(** The totals of the ordered contributions are those of the contributions. *)
Lemma fold_ordered portfolio_id aggregation_date epoch cs t : Forall stored_contribution cs -> Z.of_nat (length cs) < 10 ^ 20 ->
  foldM (add_contribution portfolio_id aggregation_date epoch) empty_totals (order_contributions cs) = Ok t -> totals t (order_contributions cs).
Proof.
  intros Hs Hn Ht. destruct (fold_requires _ _ _ _ _ _ Ht) as (Hw & Hd & _).
  destruct (fold_total portfolio_id aggregation_date epoch (order_contributions cs) empty_totals [] empty_totals_ok) as (t' & Ht' & T); cbn [app];
    [by rewrite order_perm|by rewrite order_perm|done|done|]. rewrite Ht in Ht'. by injection Ht' as ->.
Qed.

Lemma rounded_ordered cs f : rounded_total f (order_contributions cs) = rounded_total f cs.
Proof. apply rounded_perm, order_perm. Qed.

Lemma day_published portfolio aggregation_date epoch cs r : Forall stored_contribution cs -> Z.of_nat (length cs) < 10 ^ 20 ->
  calculate_portfolio_timeseries portfolio aggregation_date epoch cs = Ok r -> published_day portfolio aggregation_date epoch cs r.
Proof.
  unfold calculate_portfolio_timeseries. intros Hs Hn (? & _ & (t & Ht & H)%bind_Ok)%bind_Ok. apply fold_ordered in Ht as [T1 T2 T3 T4 T5 _]; [|done..].
  apply bind_Ok in H as (v1 & V1 & (v2 & V2 & (v3 & V3 & (v4 & V4 & (v5 & V5 & (np & _ & (l & Hl & [= <-])%bind_Ok)%bind_Ok)%bind_Ok)%bind_Ok)%bind_Ok)%bind_Ok).
  apply (normalize_weighted _ _ _ _ _ T1) in V1. apply (normalize_weighted _ _ _ _ _ T2) in V2. apply (normalize_weighted _ _ _ _ _ T3) in V3.
  apply (normalize_weighted _ _ _ _ _ T4) in V4. apply (normalize_weighted _ _ _ _ _ T5) in V5.
  rewrite rounded_ordered in V1. rewrite rounded_ordered in V2. rewrite rounded_ordered in V3. rewrite rounded_ordered in V4. rewrite rounded_ordered in V5.
  constructor; try done. exists l. split; [done|]. by eapply lineage_binds_own.
Qed.

Lemma day_requires portfolio aggregation_date epoch cs r : calculate_portfolio_timeseries portfolio aggregation_date epoch cs = Ok r ->
  strip (sc_portfolio_id portfolio) <> "" /\ admissible (strip (sc_portfolio_id portfolio)) aggregation_date epoch cs.
Proof.
  unfold calculate_portfolio_timeseries. intros (? & Hid%raise_if_Ok & (t & Ht & _)%bind_Ok)%bind_Ok. apply fold_requires in Ht as (Hw & Hd & _).
  split; [intros E; by rewrite E in Hid|split; by rewrite <- order_perm].
Qed.

Lemma day_accepted {hashing_ok : HashingOk} portfolio aggregation_date epoch cs : Forall stored_contribution cs -> Forall constructed cs ->
  Z.of_nat (length cs) < 10 ^ 20 -> strip (sc_portfolio_id portfolio) <> "" -> admissible (strip (sc_portfolio_id portfolio)) aggregation_date epoch cs ->
  Forall (fun f => Z.abs (rounded_total f cs) < 10 ^ 18) aggregated_amounts ->
  exists r, calculate_portfolio_timeseries portfolio aggregation_date epoch cs = Ok r.
Proof.
  intros Hs Hc Hn Hid [Hw Hd] HB. unfold calculate_portfolio_timeseries.
  assert (truthy (strip (sc_portfolio_id portfolio)) = true) as -> by (by destruct (strip (sc_portfolio_id portfolio))). cbn [negb raise_if mbind result_bind].
  destruct (fold_total (strip (sc_portfolio_id portfolio)) aggregation_date epoch (order_contributions cs) empty_totals [] empty_totals_ok)
    as (t & Ht & [T1 T2 T3 T4 T5 _]); cbn [app]; [by rewrite order_perm|by rewrite order_perm|by rewrite order_perm|by rewrite order_perm|].
  rewrite Ht. cbn [mbind result_bind].
  assert (HN : forall f total field, f ∈ aggregated_amounts -> units (-20) total (weights f (order_contributions cs)) ->
    exists v, normalize PORTFOLIO_TIMESERIES_LEDGER_OUTPUT_V1 (Finite total) field = Ok v).
  { intros f total field Hf Hu. rewrite Forall_forall in HB. apply (normalize_weighted _ _ f (order_contributions cs)); [done|]. rewrite rounded_ordered. by apply HB. }
  destruct (HN pt_bod_market_value _ "bod_market_value" ltac:(aggregated) T1) as (v1 & ->). cbn [mbind result_bind].
  destruct (HN pt_bod_cashflow_portfolio _ "bod_cashflow" ltac:(aggregated) T2) as (v2 & ->). cbn [mbind result_bind].
  destruct (HN pt_eod_cashflow_portfolio _ "eod_cashflow" ltac:(aggregated) T3) as (v3 & ->). cbn [mbind result_bind].
  destruct (HN pt_eod_market_value _ "eod_market_value" ltac:(aggregated) T4) as (v4 & ->). cbn [mbind result_bind].
  destruct (HN pt_fees _ "fees" ltac:(aggregated) T5) as (v5 & ->). cbn [mbind result_bind].
  assert (exists np, lineage_identity PORTFOLIO_TIMESERIES_LEDGER_OUTPUT_V1 = Ok np) as (np & ->) by (eexists; vm_compute; reflexivity). cbn [mbind result_bind].
  edestruct build_calculation_lineage_total as [l ->]; [reflexivity|lia|reflexivity|apply input_normal; by rewrite order_perm|reflexivity|by eexists].
Qed.

(** C9: a portfolio day of constructed contributions with stored amounts and rates is accepted exactly when the scope names a portfolio,
    every contribution belongs to it and is not later than the day or the epoch, no security comes twice and every rounded total can
    be stored; each published total is then the exact sum of amounts times rates, rounded half-even once, under a lineage that binds
    the record. *)
Theorem portfolio_day_refines {hashing_ok : HashingOk} portfolio aggregation_date epoch cs :
  Forall stored_contribution cs -> Forall constructed cs -> Z.of_nat (length cs) < 10 ^ 20 ->
  ((exists r, calculate_portfolio_timeseries portfolio aggregation_date epoch cs = Ok r) <->
   strip (sc_portfolio_id portfolio) <> "" /\ admissible (strip (sc_portfolio_id portfolio)) aggregation_date epoch cs /\
   Forall (fun f => Z.abs (rounded_total f cs) < 10 ^ 18) aggregated_amounts) /\
  (forall r, calculate_portfolio_timeseries portfolio aggregation_date epoch cs = Ok r -> published_day portfolio aggregation_date epoch cs r).
Proof.
  intros Hs Hc Hn. assert (Hpub := fun r => day_published portfolio aggregation_date epoch cs r Hs Hn). split; [split|exact Hpub].
  - intros (r & Hr). destruct (day_requires _ _ _ _ _ Hr) as [Hid Ha]. destruct (Hpub r Hr) as [_ _ _ [_ B1] [_ B2] [_ B3] [_ B4] [_ B5] _].
    split_and!; [done|done|by repeat constructor].
  - intros (Hid & Ha & HB). by apply day_accepted.
Qed.
End Day.

(** ** Cashflows of a position day *)

Definition is_bod (c : PositionCashflowRecord) : bool := String.eqb (normalize_cashflow_timing (Some (pf_timing c))) "BOD".

(** The amount of a cashflow as the position sees it. *)
Definition position_amount (c : PositionCashflowRecord) : Z :=
  if in_set (normalize_code (Some (pf_classification c))) REVERSED_CLASSIFICATIONS then - ul (pf_amount c) else ul (pf_amount c).

Definition bod_position_flow (c : PositionCashflowRecord) : Z := if pf_is_position_flow c && is_bod c then position_amount c else 0.
Definition eod_position_flow (c : PositionCashflowRecord) : Z := if pf_is_position_flow c && negb (is_bod c) then position_amount c else 0.
Definition bod_portfolio_flow (c : PositionCashflowRecord) : Z := if pf_is_portfolio_flow c && is_bod c then ul (pf_amount c) else 0.
Definition eod_portfolio_flow (c : PositionCashflowRecord) : Z := if pf_is_portfolio_flow c && negb (is_bod c) then ul (pf_amount c) else 0.
Definition fee_amount (c : PositionCashflowRecord) : Z := if is_expense_cashflow c then Z.abs (ul (pf_amount c)) else 0.

(** The buckets hold the sums over the cashflows seen so far. *)
Record buckets_hold (b : CashflowBuckets) (cs : list PositionCashflowRecord) : Prop := {
  bh_bod_position : Precision.ledger (bk_bod_position b) (zsum (map bod_position_flow cs));
  bh_eod_position : Precision.ledger (bk_eod_position b) (zsum (map eod_position_flow cs));
  bh_bod_portfolio : Precision.ledger (bk_bod_portfolio b) (zsum (map bod_portfolio_flow cs));
  bh_eod_portfolio : Precision.ledger (bk_eod_portfolio b) (zsum (map eod_portfolio_flow cs));
  bh_fees : Precision.ledger (bk_fees b) (zsum (map fee_amount cs))
}.

Definition magnitude (cs : list PositionCashflowRecord) : Z := zsum (map (fun c => Z.abs (ul (pf_amount c))) cs).

Lemma magnitude_snoc cs c : magnitude (cs ++ [c])%list = magnitude cs + Z.abs (ul (pf_amount c)).
Proof. unfold magnitude. rewrite map_app, zsum_app. cbn [map]. rewrite zsum_cons, zsum_nil. lia. Qed.

Lemma flow_bounded (f : PositionCashflowRecord -> Z) cs : (forall c, Z.abs (f c) <= Z.abs (ul (pf_amount c))) -> Z.abs (zsum (map f cs)) <= magnitude cs.
Proof. intros Hf. unfold magnitude. induction cs as [|c cs IH]; cbn [map]; rewrite ?zsum_cons, ?zsum_nil; [lia|]. specialize (Hf c). lia. Qed.

Lemma flow_snoc (f : PositionCashflowRecord -> Z) cs c : zsum (map f (cs ++ [c])) = zsum (map f cs) + f c.
Proof. rewrite map_app, zsum_app. cbn [map]. rewrite zsum_cons, zsum_nil. lia. Qed.

Lemma position_flow_amount c : stored (pf_amount c) ->
  exists d, normalize_position_flow_amount (pf_amount c) (pf_classification c) = Ok d /\ Precision.ledger d (position_amount c).
Proof.
  intros Hs. unfold normalize_position_flow_amount, position_amount. destruct (in_set _ _); [|by eexists]. destruct Hs as [Hu B].
  destruct (ambient_exact (neg_exact (pf_amount c)) (- ul (pf_amount c))) as (d & Hd & Hn);
    [unfold units in *; rewrite neg_exact_val, Hu, inject_Z_opp; ring|change (10 ^ 28) with (10 ^ 18 * 10 ^ 10); lia|].
  exists d. split; [done|]. split; [done|lia].
Qed.

Lemma fee_magnitude d : stored d -> exists a, dabs default_context d = Ok a /\ Precision.ledger a (Z.abs (ul d)).
Proof.
  intros [Hu B]. unfold dabs. destruct (ambient_exact (Dec (Z.abs (dcoeff d)) (dexp d)) (Z.abs (ul d))) as (a & Ha & Hn); [|change (10 ^ 28) with (10 ^ 18 * 10 ^ 10); lia|].
  - unfold units in *. rewrite dval_Dec. transitivity (Qabs (dval d)); [symmetry; apply dval_abs|].
    rewrite Hu, Qabs_Qmult, (Qabs_pos (pow10 (-10))) by (apply Qlt_le_weak, pow10_pos). reflexivity.
  - exists a. split; [done|]. split; [done|lia].
Qed.

Ltac bounded_flow :=
  intros x; unfold bod_position_flow, eod_position_flow, bod_portfolio_flow, eod_portfolio_flow, fee_amount, position_amount; repeat case_match; lia.

Lemma bucket_add x y m n field : Precision.ledger x m -> Precision.ledger y n -> Z.abs m + Z.abs n < 10 ^ 18 ->
  exists r, p_add POSITION_TIMESERIES_LEDGER_OUTPUT_V1 (Finite x) (Finite y) field = Ok r /\ Precision.ledger r (m + n).
Proof. intros Hx Hy B. apply (p_add_spec "position-timeseries-ledger-output" x y m n field Hx Hy). lia. Qed.

Lemma bucket_more d (f : PositionCashflowRecord -> Z) done c n : Precision.ledger d (zsum (map f done) + n) -> f c = n ->
  Precision.ledger d (zsum (map f (done ++ [c]))).
Proof. intros Hd E. by rewrite flow_snoc, E. Qed.

Lemma bucket_same d (f : PositionCashflowRecord -> Z) done c : Precision.ledger d (zsum (map f done)) -> f c = 0 ->
  Precision.ledger d (zsum (map f (done ++ [c]))).
Proof. intros Hd E. eapply bucket_more; [|exact E]. by rewrite Z.add_0_r. Qed.

Lemma position_step b done c : buckets_hold b done -> stored (pf_amount c) -> magnitude (done ++ [c]) < 10 ^ 18 ->
  exists b', add_cashflow b c = Ok b' /\ buckets_hold b' (done ++ [c])%list.
Proof.
  intros [B1 B2 B3 B4 B5] Hs Hm. rewrite magnitude_snoc in Hm. destruct (position_flow_amount c Hs) as (pa & Hpa & Lpa), (fee_magnitude _ Hs) as (fa & Hfa & Lfa).
  assert (Hbound : forall f n, (forall x, Z.abs (f x) <= Z.abs (ul (pf_amount x))) -> Z.abs n = Z.abs (ul (pf_amount c)) -> Z.abs (zsum (map f done)) + Z.abs n < 10 ^ 18)
    by (intros f n Hf ->; pose proof (flow_bounded f done Hf); lia).
  assert (Hpos : Z.abs (position_amount c) = Z.abs (ul (pf_amount c))) by (unfold position_amount; case_match; lia).
  destruct (bucket_add _ _ _ _ "bod_cashflow_position" B1 Lpa) as (r1 & R1 & L1); [apply Hbound; [bounded_flow|done]|].
  destruct (bucket_add _ _ _ _ "eod_cashflow_position" B2 Lpa) as (r2 & R2 & L2); [apply Hbound; [bounded_flow|done]|].
  destruct (bucket_add _ _ _ _ "bod_cashflow_portfolio" B3 Hs) as (r3 & R3 & L3); [apply Hbound; [bounded_flow|done]|].
  destruct (bucket_add _ _ _ _ "eod_cashflow_portfolio" B4 Hs) as (r4 & R4 & L4); [apply Hbound; [bounded_flow|done]|].
  destruct (bucket_add _ _ _ _ "fees" B5 Lfa) as (r5 & R5 & L5); [apply Hbound; [bounded_flow|lia]|].
  unfold add_cashflow, add_position_flow, add_portfolio_flow, add_fees. change (amount_or_zero (Some (pf_amount c))) with (pf_amount c). fold (is_bod c).
  rewrite Hpa. cbn [mbind result_bind].
  destruct (pf_is_position_flow c) eqn:F1, (pf_is_portfolio_flow c) eqn:F2, (is_bod c) eqn:F3, (is_expense_cashflow c) eqn:F4;
    rewrite ?R1, ?R2; cbn [mbind result_bind bk_bod_position bk_eod_position bk_bod_portfolio bk_eod_portfolio bk_fees];
    rewrite ?R3, ?R4; cbn [mbind result_bind bk_bod_position bk_eod_position bk_bod_portfolio bk_eod_portfolio bk_fees];
    rewrite ?Hfa; cbn [mbind result_bind]; rewrite ?R5; cbn [mbind result_bind]; (eexists; split; [reflexivity|]);
    constructor; cbn [bk_bod_position bk_eod_position bk_bod_portfolio bk_eod_portfolio bk_fees];
    (first [apply bucket_same; [done|] | eapply bucket_more; [done|]]);
    unfold bod_position_flow, eod_position_flow, bod_portfolio_flow, eod_portfolio_flow, fee_amount; by rewrite ?F1, ?F2, ?F3, ?F4.
Qed.

Lemma fold_cashflows cs : forall b done, buckets_hold b done -> Forall (fun c => stored (pf_amount c)) cs -> magnitude (done ++ cs) < 10 ^ 18 ->
  exists b', foldM add_cashflow b cs = Ok b' /\ buckets_hold b' (done ++ cs)%list.
Proof.
  induction cs as [|c cs IH]; intros b done Hb Hs Hm; [exists b; by rewrite app_nil_r|]. inversion Hs as [|? ? Hc Hs']; subst.
  assert (magnitude (done ++ [c]) <= magnitude (done ++ c :: cs)).
  { unfold magnitude. rewrite !map_app, !zsum_app. cbn [map]. rewrite !zsum_cons, zsum_nil.
    pose proof (zsum_map_nonneg (fun x => Z.abs (ul (pf_amount x))) cs ltac:(apply Forall_forall; intros; lia)). lia. }
  destruct (position_step b done c Hb Hc ltac:(lia)) as (b1 & H1 & Hb1). destruct (IH b1 (done ++ [c])%list Hb1 Hs') as (b' & Hb' & HB); [by rewrite <- app_assoc|].
  exists b'. cbn [foldM]. rewrite H1. cbn [mbind result_bind]. by rewrite <- app_assoc in HB.
Qed.

Lemma buckets_total cs : Forall (fun c => stored (pf_amount c)) cs -> magnitude cs < 10 ^ 18 -> exists b, cashflow_buckets cs = Ok b /\ buckets_hold b cs.
Proof. intros Hs Hm. apply (fold_cashflows cs empty_buckets []); [constructor; apply ledger_dzero|done|done]. Qed.

Section PositionDay.
Context `{hashing : Hashing}.

(** What a position day reports. *)
Record position_day (current : PositionSnapshotRecord) (bod_market_value eod_market_value : decimal) (cs : list PositionCashflowRecord) (epoch : Z)
  (r : PositionTimeseriesRecord) : Prop := {
  dy_key : (pt_portfolio_id r, pt_security_id r, pt_date r, pt_epoch r) = (sn_portfolio_id current, sn_security_id current, sn_date current, epoch);
  dy_bod_market_value : pt_bod_market_value r = bod_market_value;
  dy_eod_market_value : pt_eod_market_value r = eod_market_value;
  dy_bod_position : Precision.ledger (pt_bod_cashflow_position r) (zsum (map bod_position_flow cs));
  dy_eod_position : Precision.ledger (pt_eod_cashflow_position r) (zsum (map eod_position_flow cs));
  dy_bod_portfolio : Precision.ledger (pt_bod_cashflow_portfolio r) (zsum (map bod_portfolio_flow cs));
  dy_eod_portfolio : Precision.ledger (pt_eod_cashflow_portfolio r) (zsum (map eod_portfolio_flow cs));
  dy_fees : Precision.ledger (pt_fees r) (zsum (map fee_amount cs));
  dy_quantity : pt_quantity r = sn_quantity current;
  dy_cost : average_cost (default dzero (sn_cost_basis_local current)) (sn_quantity current) = Ok (pt_cost r);
  dy_lineage : exists l, pt_calculation_lineage r = Some l /\ calculation_lineage_binds_output l (position_timeseries_output r) = Ok true
}.

Definition valued_at (snapshot : option PositionSnapshotRecord) (v : decimal) : Prop :=
  match snapshot with None => v = dzero | Some s => sn_market_value_local s = Some v end.

Lemma snapshot_normal s : is_ok (normalize_lineage_value (snapshot_payload s)) = true.
Proof.
  pose proof (optional_decimal_normal (sn_cost_basis_local s)). pose proof (optional_decimal_normal (sn_market_value_local s)).
  pose proof (optional_lineage_normal (sn_calculation_lineage s)). unfold snapshot_payload.
  normal_payload.
Qed.

Lemma cashflow_normal c : is_ok (normalize_lineage_value (cashflow_payload c)) = true.
Proof.
  pose proof (optional_lineage_normal (pf_calculation_lineage c)). unfold cashflow_payload.
  normal_payload.
Qed.

Lemma position_input_normal current previous cs epoch : is_ok (normalize_lineage_value (position_timeseries_input current previous cs epoch)) = true.
Proof.
  assert (is_ok (normalize_lineage_value (PSeq (map cashflow_payload cs))) = true).
  { apply normalize_seq_ok. rewrite Forall_map. apply Forall_forall. intros c _. apply cashflow_normal. }
  assert (is_ok (normalize_lineage_value (match previous with Some s => snapshot_payload s | None => PNone end)) = true) by (destruct previous; [apply snapshot_normal|done]).
  pose proof (snapshot_normal current). unfold position_timeseries_input.
  normal_payload.
Qed.

(** C10: with stored cashflows whose magnitudes sum to a storable amount, a position day is calculated exactly when its boundary snapshots
    are valued and its average cost can be stored; each cashflow bucket is the exact sum of the cashflows it selects, so that none of
    the amounts depends on their order.  A missing market value is reported for the boundary it is missing at. *)
Theorem position_day_refines {hashing_ok : HashingOk} current previous cs epoch :
  Forall (fun c => stored (pf_amount c)) cs -> magnitude cs < 10 ^ 18 ->
  (sn_market_value_local current = None ->
   calculate_position_timeseries current previous cs epoch =
   Raise (PositionSnapshotNotValuedError "end-of-day position snapshot has no authoritative local market value")) /\
  (forall eod s, sn_market_value_local current = Some eod -> previous = Some s -> sn_market_value_local s = None ->
   calculate_position_timeseries current previous cs epoch =
   Raise (PositionSnapshotNotValuedError "beginning position snapshot has no authoritative local market value")) /\
  (forall eod bod, sn_market_value_local current = Some eod -> valued_at previous bod ->
   ((exists r, calculate_position_timeseries current previous cs epoch = Ok r) <->
    is_ok (average_cost (default dzero (sn_cost_basis_local current)) (sn_quantity current)) = true) /\
   (forall r, calculate_position_timeseries current previous cs epoch = Ok r -> position_day current bod eod cs epoch r)).
Proof.
  intros Hs Hm. destruct (buckets_total cs Hs Hm) as (b & Hb & [B1 B2 B3 B4 B5]). unfold calculate_position_timeseries, required_market_value.
  split_and!; [by intros ->| |].
  - intros eod s -> -> Hn. cbn [mbind result_bind]. rewrite Hb. cbn [mbind result_bind beginning_market_value]. unfold required_market_value. by rewrite Hn.
  - intros eod bod -> Hbod. cbn [mbind result_bind]. rewrite Hb. cbn [mbind result_bind].
    assert (beginning_market_value previous = Ok bod) as -> by (destruct previous as [s|]; cbn in *; [unfold required_market_value; by rewrite Hbod|by subst]).
    cbn [mbind result_bind]. change (amount_or_zero (Some (sn_quantity current))) with (sn_quantity current).
    assert (amount_or_zero (sn_cost_basis_local current) = default dzero (sn_cost_basis_local current)) as -> by (by destruct (sn_cost_basis_local current)).
    destruct (average_cost (default dzero (sn_cost_basis_local current)) (sn_quantity current)) as [cost|e] eqn:Hc; cbn [mbind result_bind is_ok].
    + assert (exists np, lineage_identity POSITION_TIMESERIES_LEDGER_OUTPUT_V1 = Ok np) as (np & ->) by (eexists; vm_compute; reflexivity). cbn [mbind result_bind].
      match goal with |- context [build_calculation_lineage ?a ?v ?p ?i ?o ?n] =>
        destruct (build_calculation_lineage_total a v p i o n) as [l Hl]; [reflexivity|lia|reflexivity|apply position_input_normal|reflexivity|] end.
      rewrite Hl. cbn [mbind result_bind]. split; [split; [done|by eexists]|]. intros r [= <-]. constructor; try done. exists l. split; [done|]. by eapply lineage_binds_own.
    + split; [split; [intros (r & ?); done|done]|done].
Qed.
End PositionDay.
