(* ===== verification/Reconciliation.v ===== *)
(** * Financial reconciliation

    [financial_reconciliation_service]: domain/reconciliation_policies.py,
    domain/reconciliation_run_lifecycle_policy.py and the decisions of services/reconciliation_service.py
    (the position-valuation, transaction-cashflow and timeseries-integrity controls), with
    [domain/valuation/quote_authority.py] and [domain/market_data/market_price.py]: the independent check
    of what the other services have published.

    Evidence rows come from a repository; what the controls read of it is the class
    [ReconciliationEvidence], and the amounts of a row are the values of numeric columns, absent when the
    column is null.  A finding is given as the domain record; its persisted form adds identifiers. *)

From Stdlib Require Import ZArith Lia QArith String.
From stdpp Require Import base tactics list strings.
From S2P Require Import Prelude PyDecimal DecimalFacts PyTime Precision Lineage Registry Transactions Values Position PositionValuation Cashflow Timeseries.

#[local] Open Scope string_scope.
#[local] Open Scope Z_scope.

(** ** Findings *)

Definition DEFAULT_VALUE_TOLERANCE : decimal := Dec 1 (-4).
Definition RECONCILIATION_TOLERANCE_PRECISION_V1 : DecimalPrecisionPolicy :=
  {| dp_name := "reconciliation-tolerance-v1"; dp_precision := Some 18; dp_scale := Some 10 |}.

Definition DEFAULT_RECONCILIATION_FINDING_OWNER : string := "FINANCIAL_CONTROL_OPERATIONS".
Definition FINDING_OWNER_BY_RECONCILIATION_TYPE : list (string * string) :=
  [("position_valuation", "VALUATION_OPERATIONS"); ("timeseries_integrity", "PORTFOLIO_CONTROL_OPERATIONS"); ("transaction_cashflow", "TRANSACTION_OPERATIONS")].
Definition REPAIR_RECOMMENDATION_BY_FINDING_TYPE : list (string * string) :=
  [("cashflow_rule_mismatch", "REBUILD_CASHFLOW_FROM_GOVERNED_RULE"); ("fx_rate_not_on_valuation_date", "REVALUE_POSITION_WITH_EXACT_DATE_FX");
   ("invalid_market_price", "CORRECT_MARKET_PRICE_SOURCE"); ("market_value_local_mismatch", "REVALUE_POSITION");
   ("missing_bond_quote_authority", "ASSIGN_VALUATION_QUOTE_POLICY"); ("missing_cashflow", "REGENERATE_CASHFLOW");
   ("missing_portfolio_timeseries", "REBUILD_DERIVED_TIMESERIES"); ("missing_position_timeseries", "REBUILD_DERIVED_TIMESERIES");
   ("portfolio_timeseries_aggregate_mismatch", "REBUILD_PORTFOLIO_TIMESERIES"); ("position_timeseries_completeness_gap", "REBUILD_DERIVED_TIMESERIES");
   ("unrealized_gain_loss_local_mismatch", "REVALUE_POSITION");
   ("unsupported_authoritative_valuation_receipt", "REBUILD_VALUATION_WITH_SUPPORTED_POLICY")].
Definition DEFAULT_REPAIR_RECOMMENDATION : string := "REVIEW_RECONCILIATION_BREAK".

Definition resolve_value_tolerance (override : option number) : result decimal :=
  match override with
  | None => Ok DEFAULT_VALUE_TOLERANCE
  | Some tolerance => require_exact RECONCILIATION_TOLERANCE_PRECISION_V1 tolerance "tolerance"
  end.

Record ReconciliationFinding := {
  rf_reconciliation_type : string; rf_finding_type : string; rf_severity : string; rf_portfolio_id : option string; rf_security_id : option string;
  rf_transaction_id : option string; rf_business_date : option date; rf_epoch : option Z; rf_expected_value : option payload;
  rf_observed_value : option payload; rf_detail : option payload; rf_tolerance : option decimal; rf_observed_delta : option decimal
}.

Definition reconciliation_finding_owner (reconciliation_type : string) : string :=
  od_get_default DEFAULT_RECONCILIATION_FINDING_OWNER (lower (strip reconciliation_type)) FINDING_OWNER_BY_RECONCILIATION_TYPE.
Definition reconciliation_repair_recommendation (finding_type : string) : string :=
  od_get_default DEFAULT_REPAIR_RECOMMENDATION (lower (strip finding_type)) REPAIR_RECOMMENDATION_BY_FINDING_TYPE.

Record ReconciliationSummary := { su_examined_count : Z; su_finding_count : Z; su_error_count : Z; su_warning_count : Z; su_passed : bool }.

Definition count_severity (severity : string) (findings : list ReconciliationFinding) : Z :=
  Z.of_nat (length (List.filter (fun f => String.eqb (rf_severity f) severity) findings)).

Definition build_reconciliation_summary (examined : Z) (findings : list ReconciliationFinding) : ReconciliationSummary :=
  let error_count := count_severity "ERROR" findings in
  {| su_examined_count := examined; su_finding_count := Z.of_nat (length findings); su_error_count := error_count;
     su_warning_count := count_severity "WARNING" findings; su_passed := error_count =? 0 |}.

(** ** Position valuation *)

Record PositionValuationReceiptEvidence := {
  re_supportability : string; re_policy_id : option string; re_policy_version : option Z; re_quote_basis : option string; re_receipt_hash : string
}.

Record PositionValuationEvidence := {
  ev_portfolio_id : string; ev_security_id : string; ev_business_date : date; ev_epoch : Z; ev_quantity : option decimal;
  ev_market_price : option decimal; ev_market_value_local : option decimal; ev_cost_basis_reporting : option decimal;
  ev_cost_basis_local : option decimal; ev_unrealized_gain_loss_local : option decimal; ev_product_type : option string;
  ev_valuation_fx_rate_date : option date; ev_valuation_receipt : option PositionValuationReceiptEvidence
}.

(** [str(value)] of a column value. *)
Definition column_text (value : option decimal) : string := match value with Some d => string_of_decimal d | None => "None" end.

Definition required_column (value : option decimal) (field_name : string) : result decimal := required_decimal (optional_decimal value) field_name.

Definition coerce_positive_market_price_or_none (price : payload) : option decimal :=
  match decimal_or_none price with
  | None => None
  | Some p => if dleb p dzero then None else Some p
  end.

Definition BOND_QUOTE_AUTHORITY_REQUIRED_REASON : string := "bond valuation requires explicit quote-convention authority".

Definition is_quote_independent_flat_position (quantity cost_basis_reporting cost_basis_local : payload) : bool :=
  forallb (fun amount => match decimal_or_none amount with Some d => deqb d dzero | None => false end)
    [quantity; cost_basis_reporting; cost_basis_local].

Definition normalized_product_type (product_type : option string) : string := normalize_code product_type.

Definition requires_bond_quote_authority (product_type : option string) (quantity cost_basis_reporting cost_basis_local : payload) : result bool :=
  if negb (String.eqb (normalized_product_type product_type) "BOND") then Ok false else
  quantity ← required_decimal quantity "quantity";
  cost_basis_reporting ← required_decimal cost_basis_reporting "cost_basis_reporting";
  cost_basis_local ← required_decimal cost_basis_local "cost_basis_local";
  Ok (negb (is_quote_independent_flat_position (PDecimal (Finite quantity)) (PDecimal (Finite cost_basis_reporting)) (PDecimal (Finite cost_basis_local)))).

Definition valuation_finding (evidence : PositionValuationEvidence) (finding_type : string) (expected observed detail : payload)
  (tolerance observed_delta : option decimal) : ReconciliationFinding :=
  {| rf_reconciliation_type := "position_valuation"; rf_finding_type := finding_type; rf_severity := "ERROR";
     rf_portfolio_id := Some (ev_portfolio_id evidence); rf_security_id := Some (ev_security_id evidence); rf_transaction_id := None;
     rf_business_date := Some (ev_business_date evidence); rf_epoch := Some (ev_epoch evidence); rf_expected_value := Some expected;
     rf_observed_value := Some observed; rf_detail := Some detail; rf_tolerance := tolerance; rf_observed_delta := observed_delta |}.

Definition unsupported_authoritative_receipt_finding (evidence : PositionValuationEvidence) (receipt : PositionValuationReceiptEvidence)
  : ReconciliationFinding :=
  valuation_finding evidence "unsupported_authoritative_valuation_receipt" (PMap [("supportability", PStr "SUPPORTED_UNIT_PRICE_QUANTITY")])
    (PMap [("policy_id", optional_text (re_policy_id receipt)); ("policy_version", optional_int (re_policy_version receipt));
           ("quote_basis", optional_text (re_quote_basis receipt)); ("supportability", PStr (re_supportability receipt))])
    (PMap [("receipt_hash", PStr (re_receipt_hash receipt))]) None None.

Definition missing_bond_quote_authority_finding (evidence : PositionValuationEvidence) : ReconciliationFinding :=
  valuation_finding evidence "missing_bond_quote_authority" (PMap [("valuation_receipt_supportability", PStr "SUPPORTED")])
    (PMap [("valuation_receipt_supportability",
            match ev_valuation_receipt evidence with Some r => PStr (re_supportability r) | None => PNone end)])
    (PMap [("reason", PStr BOND_QUOTE_AUTHORITY_REQUIRED_REASON)]) None None.

Definition requires_authoritative_fx_rate (from_currency to_currency : string) : bool :=
  truthy from_currency && truthy to_currency && negb (String.eqb from_currency to_currency).

Definition fx_rate_date_finding (evidence : PositionValuationEvidence) : option ReconciliationFinding :=
  match ev_valuation_fx_rate_date evidence with
  | None => None
  | Some fx_rate_date =>
      if fx_rate_date =? ev_business_date evidence then None else
      Some (valuation_finding evidence "fx_rate_not_on_valuation_date"
              (PMap [("valuation_fx_rate_date", PStr (date_isoformat (ev_business_date evidence)))])
              (PMap [("valuation_fx_rate_date", PStr (date_isoformat fx_rate_date))])
              (PMap [("reason", PStr "recorded FX authority is not owned by the valuation date")]) None None)
  end.

Section Valuation.
Context `{hashing : Hashing}.

(** The handlers catch what an unknown policy and an unsupported valuation raise. *)
Definition authoritative_market_value_local (quantity market_price : decimal) (receipt : PositionValuationReceiptEvidence) : result (option decimal) :=
  match re_policy_id receipt, re_policy_version receipt, re_quote_basis receipt with
  | Some policy_id, Some policy_version, Some quote_basis =>
      match resolve_position_valuation_policy policy_id policy_version with
      | Raise (UnknownValuationPolicyError _) | Raise (TypeError _) => Ok None
      | Raise e => if is_value_error e then Ok None else Raise e
      | Ok policy =>
          if negb (String.eqb (input_basis_value (vp_input_basis policy)) quote_basis) || bool_decide (vp_position_scaling policy <> QUANTITY)
             || bool_decide (vp_principal_basis policy <> POSITION_UNITS) || bool_decide (vp_input_basis policy <> UNIT_PRICE)
          then Ok None else
          if bool_decide (vp_output_measure policy <> MARKET_VALUE) then Ok None else
          match calculate_position_valuation_local_economics policy
                  {| ei_source_value := Finite market_price; ei_signed_quantity := Finite quantity; ei_signed_face_amount := None;
                     ei_principal_factor := None; ei_signed_current_principal := None; ei_contract_multiplier := None;
                     ei_calculated_accrued_income := None; ei_supplied_accrued_income := None |} with
          | Ok economics => Ok (le_total_market_value_local economics)
          | Raise (UnsupportedValuationError _) => Ok None
          | Raise e => Raise e
          end
      end
  | _, _, _ => Ok None
  end.

(** What the observed values are compared with, or the findings that are returned instead. *)
Definition expected_market_value (evidence : PositionValuationEvidence) (findings : list ReconciliationFinding)
  (quantity cost_basis_local cost_basis_reporting market_price : decimal) : result (decimal + list ReconciliationFinding) :=
  match ev_valuation_receipt evidence with
  | Some receipt =>
      if String.eqb (re_supportability receipt) "LEGACY_UNSCOPED" then
        bond ← requires_bond_quote_authority (ev_product_type evidence) (PDecimal quantity) (PDecimal cost_basis_reporting) (PDecimal cost_basis_local);
        if bond : bool then Ok (inr [missing_bond_quote_authority_finding evidence])
        else value ← dmul default_context quantity market_price; Ok (inl value)
      else if String.eqb (re_supportability receipt) "SUPPORTED" then
        authoritative ← authoritative_market_value_local quantity market_price receipt;
        match (authoritative : option decimal) with
        | None => Ok (inr (findings ++ [unsupported_authoritative_receipt_finding evidence receipt])%list)
        | Some value => Ok (inl value)
        end
      else Ok (inr (findings ++ [unsupported_authoritative_receipt_finding evidence receipt])%list)
  | None =>
      bond ← requires_bond_quote_authority (ev_product_type evidence) (PDecimal quantity) (PDecimal cost_basis_reporting) (PDecimal cost_basis_local);
      if bond : bool then Ok (inr [missing_bond_quote_authority_finding evidence])
      else value ← dmul default_context quantity market_price; Ok (inl value)
  end.

(** [delta = observed - expected; if abs(delta) > tolerance: ...]. *)
Definition beyond_tolerance (observed expected tolerance : decimal) : result (option decimal) :=
  delta ← dsub default_context observed expected;
  magnitude ← dabs default_context delta;
  Ok (if dltb tolerance magnitude then Some delta else None).

Definition position_valuation_reconciliation_findings (evidence : PositionValuationEvidence) (tolerance : decimal) : result (list ReconciliationFinding) :=
  let findings := match fx_rate_date_finding evidence with Some f => [f] | None => [] end in
  quantity ← required_column (ev_quantity evidence) "snapshot.quantity";
  cost_basis_local ← required_column (ev_cost_basis_local evidence) "snapshot.cost_basis_local";
  cost_basis_reporting ← required_column (ev_cost_basis_reporting evidence) "snapshot.cost_basis_reporting";
  match coerce_positive_market_price_or_none (optional_decimal (ev_market_price evidence)) with
  | None =>
      Ok (findings ++ [valuation_finding evidence "invalid_market_price" (PMap [("market_price", PStr ">0")])
                         (PMap [("market_price", PStr (column_text (ev_market_price evidence)))])
                         (PMap [("quantity", PStr (column_text (ev_quantity evidence))); ("product_type", optional_text (ev_product_type evidence))]) None None])%list
  | Some market_price =>
      expected ← expected_market_value evidence findings quantity cost_basis_local cost_basis_reporting market_price;
      match (expected : decimal + list ReconciliationFinding) with
      | inr reported => Ok reported
      | inl expected_market_value =>
          expected_unrealized ← dsub default_context expected_market_value cost_basis_local;
          observed_market_value ← required_column (ev_market_value_local evidence) "snapshot.market_value_local";
          observed_unrealized ← required_column (ev_unrealized_gain_loss_local evidence) "snapshot.unrealized_gain_loss_local";
          market_delta ← beyond_tolerance observed_market_value expected_market_value tolerance;
          unrealized_delta ← beyond_tolerance observed_unrealized expected_unrealized tolerance;
          Ok (findings ++
              match (market_delta : option decimal) with
              | None => []
              | Some delta =>
                  [valuation_finding evidence "market_value_local_mismatch" (PMap [("market_value_local", PStr (string_of_decimal expected_market_value))])
                     (PMap [("market_value_local", PStr (string_of_decimal observed_market_value)); ("delta", PStr (string_of_decimal delta))])
                     (PMap [("quantity", PStr (column_text (ev_quantity evidence))); ("market_price", PStr (column_text (ev_market_price evidence)));
                            ("product_type", optional_text (ev_product_type evidence))]) (Some tolerance) (Some delta)]
              end ++
              match (unrealized_delta : option decimal) with
              | None => []
              | Some delta =>
                  [valuation_finding evidence "unrealized_gain_loss_local_mismatch"
                     (PMap [("unrealized_gain_loss_local", PStr (string_of_decimal expected_unrealized))])
                     (PMap [("unrealized_gain_loss_local", PStr (string_of_decimal observed_unrealized)); ("delta", PStr (string_of_decimal delta))])
                     (PMap [("market_value_local", PStr (string_of_decimal observed_market_value)); ("cost_basis_local", PStr (column_text (ev_cost_basis_local evidence)));
                            ("product_type", optional_text (ev_product_type evidence))]) (Some tolerance) (Some delta)]
              end)%list
      end
  end.
End Valuation.

(** ** Transaction cashflows *)

(** The text a stored rule has for a value. *)
Definition named_text {A} (value_of : A -> string) (n : named A) : string := match n with Named v => value_of v | Text s => s end.

(** The compared fields, with what the rule expects and what the cashflow has, where they differ. *)
Definition cashflow_rule_mismatches (rule : CashflowRule) (cashflow : CalculatedCashflow) : list (string * (payload * payload)) :=
  let text name expected observed := if String.eqb expected observed then [] else [(name, (PStr expected, PStr observed))] in
  let flag name expected observed := if Bool.eqb expected observed then [] else [(name, (PBool expected, PBool observed))] in
  (text "classification" (named_text classification_value (cr_classification rule)) (cf_classification cashflow) ++
   text "timing" (named_text timing_value (cr_timing rule)) (cf_timing cashflow) ++
   flag "is_position_flow" (cr_is_position_flow rule) (cf_is_position_flow cashflow) ++
   flag "is_portfolio_flow" (cr_is_portfolio_flow rule) (cf_is_portfolio_flow cashflow))%list.

Definition cashflow_finding (t : BookedTransaction) (finding_type : string) (business_date : date) (epoch : option Z) (expected : payload)
  (observed : option payload) (detail : payload) : ReconciliationFinding :=
  {| rf_reconciliation_type := "transaction_cashflow"; rf_finding_type := finding_type; rf_severity := "ERROR"; rf_portfolio_id := Some (tx_portfolio_id t);
     rf_security_id := Some (tx_security_id t); rf_transaction_id := Some (tx_transaction_id t); rf_business_date := Some business_date;
     rf_epoch := epoch; rf_expected_value := Some expected; rf_observed_value := observed; rf_detail := Some detail; rf_tolerance := None;
     rf_observed_delta := None |}.

Definition transaction_cashflow_finding (request_epoch : option Z) (t : BookedTransaction) (rule : CashflowRule) (cashflow : option CalculatedCashflow)
  : option ReconciliationFinding :=
  match cashflow with
  | None =>
      Some (cashflow_finding t "missing_cashflow" (dt_date (tx_transaction_date t)) request_epoch
              (PMap [("classification", PStr (named_text classification_value (cr_classification rule))); ("timing", PStr (named_text timing_value (cr_timing rule)));
                     ("is_position_flow", PBool (cr_is_position_flow rule)); ("is_portfolio_flow", PBool (cr_is_portfolio_flow rule))]) None
              (PMap [("transaction_type", PStr (tx_transaction_type t)); ("cash_entry_mode", optional_text (tx_cash_entry_mode t))]))
  | Some cf =>
      match cashflow_rule_mismatches rule cf with
      | [] => None
      | mismatches =>
          Some (cashflow_finding t "cashflow_rule_mismatch" (cf_cashflow_date cf) (Some (cf_epoch cf))
                  (PMap (map (fun '(key, (expected, _)) => (key, expected)) mismatches))
                  (Some (PMap (map (fun '(key, (_, observed)) => (key, observed)) mismatches))) (PMap [("transaction_type", PStr (tx_transaction_type t))]))
      end
  end.

Definition transaction_cashflow_findings (request_epoch : option Z) (rows : list (BookedTransaction * CashflowRule * option CalculatedCashflow))
  : list ReconciliationFinding :=
  flat_map (fun '(t, rule, cashflow) => match transaction_cashflow_finding request_epoch t rule cashflow with Some f => [f] | None => [] end) rows.

(** ** Timeseries integrity *)

Record FxRateLookupKey := { lk_from_currency : string; lk_to_currency : string; lk_business_date : date }.

#[export] Instance lookup_key_eq_dec : EqDecision FxRateLookupKey.
Proof. solve_decision. Defined.

(** A row of the authoritative position timeseries, with the currencies of its instrument and of its portfolio. *)
Record AuthoritativeRow := { ar_position : PositionTimeseriesRecord; ar_instrument_currency : option string; ar_base_currency : option string }.

Record AuthoritativeMetrics := { am_bod_market_value : decimal; am_bod_cashflow : decimal; am_eod_cashflow : decimal; am_eod_market_value : decimal; am_fees : decimal }.

Definition empty_authoritative_portfolio_metrics : AuthoritativeMetrics :=
  {| am_bod_market_value := dzero; am_bod_cashflow := dzero; am_eod_cashflow := dzero; am_eod_market_value := dzero; am_fees := dzero |}.

Definition authoritative_metric_currencies (row : AuthoritativeRow) : string * string :=
  (strip (or_text (ar_instrument_currency row) ""), strip (or_text (ar_base_currency row) "")).

Definition authoritative_fx_lookup_key (row : AuthoritativeRow) : result (option FxRateLookupKey) :=
  let '(from_currency, to_currency) := authoritative_metric_currencies row in
  if negb (requires_authoritative_fx_rate from_currency to_currency) then Ok None else
  from ← normalize_currency_code (PStr from_currency);
  to ← normalize_currency_code (PStr to_currency);
  Ok (Some {| lk_from_currency := from; lk_to_currency := to; lk_business_date := pt_date (ar_position row) |}).

(** [metrics[name] += _decimal_or_zero(amount) * rate], in the ambient context. *)
Definition add_metric (total amount rate : decimal) : result decimal :=
  product ← dmul default_context (amount_or_zero (Some amount)) rate;
  dadd default_context total product.

Definition add_authoritative_position_metrics (m : AuthoritativeMetrics) (position_row : PositionTimeseriesRecord) (rate : decimal) : result AuthoritativeMetrics :=
  bod_market_value ← add_metric (am_bod_market_value m) (pt_bod_market_value position_row) rate;
  bod_cashflow ← add_metric (am_bod_cashflow m) (pt_bod_cashflow_portfolio position_row) rate;
  eod_cashflow ← add_metric (am_eod_cashflow m) (pt_eod_cashflow_portfolio position_row) rate;
  eod_market_value ← add_metric (am_eod_market_value m) (pt_eod_market_value position_row) rate;
  fees ← add_metric (am_fees m) (pt_fees position_row) rate;
  Ok {| am_bod_market_value := bod_market_value; am_bod_cashflow := bod_cashflow; am_eod_cashflow := eod_cashflow; am_eod_market_value := eod_market_value;
        am_fees := fees |}.

Record ScopeKey := { sk_portfolio_id : string; sk_business_date : date; sk_epoch : Z }.

#[export] Instance scope_key_eq_dec : EqDecision ScopeKey.
Proof. solve_decision. Defined.

Class ReconciliationEvidence := {
  fetch_authoritative_position_timeseries_rows : ScopeKey -> list AuthoritativeRow;
  fetch_authoritative_snapshot_count : ScopeKey -> Z;
  fetch_latest_fx_rates : list FxRateLookupKey -> list (FxRateLookupKey * payload)
}.

Definition lookup_key_compare (x y : FxRateLookupKey) : comparison :=
  lex (String.compare (lk_from_currency x) (lk_from_currency y))
 (lex (String.compare (lk_to_currency x) (lk_to_currency y)) (Z.compare (lk_business_date x) (lk_business_date y))).

(** [sorted({key ... if key is not None})]. *)
Definition lookup_keys (keys : list (option FxRateLookupKey)) : list FxRateLookupKey :=
  stable_sort (leb_of lookup_key_compare) (remove_dups (omap id keys)).

(** [{key: coerce_positive_fx_rate_or_none(rate) or ZERO for ...}]. *)
Definition coerced_rates (raw : list (FxRateLookupKey * payload)) : list (FxRateLookupKey * decimal) :=
  map (fun '(key, rate) => (key, match coerce_positive_fx_rate_or_none rate with Some r => dor r dzero | None => dzero end)) raw.

(** The rate of a row; a row whose rate is missing is left out of the aggregate. *)
Definition row_rate (fx_rates : list (FxRateLookupKey * decimal)) (fx_key : option FxRateLookupKey) : decimal :=
  match fx_key with None => d_one | Some key => od_get_default dzero key fx_rates end.

Definition add_row (fx_rates : list (FxRateLookupKey * decimal)) (m : AuthoritativeMetrics) (row : AuthoritativeRow * option FxRateLookupKey)
  : result AuthoritativeMetrics :=
  let rate := row_rate fx_rates (snd row) in
  if deqb rate dzero then Ok m else add_authoritative_position_metrics m (ar_position (fst row)) rate.

Definition with_lookup_key (row : AuthoritativeRow) : result (AuthoritativeRow * option FxRateLookupKey) :=
  key ← authoritative_fx_lookup_key row; Ok (row, key).

(** The comparisons of [_timeseries_metric_mismatches] that exceed the tolerance. *)
Definition metric_mismatch (name : string) (portfolio_value aggregate_value tolerance : decimal) : result (list (string * (decimal * decimal * decimal))) :=
  beyond ← beyond_tolerance portfolio_value aggregate_value tolerance;
  Ok (match (beyond : option decimal) with None => [] | Some delta => [(name, (portfolio_value, aggregate_value, delta))] end).

Definition timeseries_metric_mismatches (r : PortfolioTimeseriesRecord) (m : AuthoritativeMetrics) (tolerance : decimal)
  : result (list (string * (decimal * decimal * decimal))) :=
  bod_market_value ← metric_mismatch "bod_market_value" (pr_bod_market_value r) (am_bod_market_value m) tolerance;
  bod_cashflow ← metric_mismatch "bod_cashflow" (pr_bod_cashflow r) (am_bod_cashflow m) tolerance;
  eod_cashflow ← metric_mismatch "eod_cashflow" (pr_eod_cashflow r) (am_eod_cashflow m) tolerance;
  eod_market_value ← metric_mismatch "eod_market_value" (pr_eod_market_value r) (am_eod_market_value m) tolerance;
  fees ← metric_mismatch "fees" (pr_fees r) (am_fees m) tolerance;
  Ok (bod_market_value ++ bod_cashflow ++ eod_cashflow ++ eod_market_value ++ fees)%list.

Definition integrity_finding (key : ScopeKey) (finding_type : string) (expected observed : payload) (detail : option payload) (tolerance : option decimal)
  : ReconciliationFinding :=
  {| rf_reconciliation_type := "timeseries_integrity"; rf_finding_type := finding_type; rf_severity := "ERROR"; rf_portfolio_id := Some (sk_portfolio_id key);
     rf_security_id := None; rf_transaction_id := None; rf_business_date := Some (sk_business_date key); rf_epoch := Some (sk_epoch key);
     rf_expected_value := Some expected; rf_observed_value := Some observed; rf_detail := detail; rf_tolerance := tolerance; rf_observed_delta := None |}.

Definition missing_portfolio_timeseries_finding (key : ScopeKey) (position_row_count : Z) : ReconciliationFinding :=
  integrity_finding key "missing_portfolio_timeseries" (PMap [("portfolio_timeseries", PStr "present")]) (PMap [("portfolio_timeseries", PStr "missing")])
    (Some (PMap [("position_timeseries_rows", PInt position_row_count)])) None.

Definition missing_position_timeseries_finding (key : ScopeKey) : ReconciliationFinding :=
  integrity_finding key "missing_position_timeseries" (PMap [("position_timeseries_rows", PStr ">=1")]) (PMap [("position_timeseries_rows", PInt 0)]) None None.

Definition timeseries_completeness_findings (key : ScopeKey) (authoritative_position_count authoritative_snapshot_count : Z) : list ReconciliationFinding :=
  if authoritative_position_count =? authoritative_snapshot_count then [] else
  [integrity_finding key "position_timeseries_completeness_gap" (PMap [("snapshot_count", PInt authoritative_snapshot_count)])
     (PMap [("position_timeseries_count", PInt authoritative_position_count)]) None None].

Definition portfolio_timeseries_aggregate_mismatch_finding (key : ScopeKey) (portfolio_row : PortfolioTimeseriesRecord) (m : AuthoritativeMetrics)
  (tolerance : decimal) : result (option ReconciliationFinding) :=
  mismatches ← timeseries_metric_mismatches portfolio_row m tolerance;
  Ok (match (mismatches : list (string * (decimal * decimal * decimal))) with
      | [] => None
      | _ =>
          Some (integrity_finding key "portfolio_timeseries_aggregate_mismatch"
                  (PMap (map (fun '(name, (_, aggregate, _)) => (name, PStr (string_of_decimal aggregate))) mismatches))
                  (PMap (map (fun '(name, (value, _, _)) => (name, PStr (string_of_decimal value))) mismatches))
                  (Some (PMap (map (fun '(name, (value, aggregate, delta)) =>
                     (name, PMap [("portfolio_timeseries", PStr (string_of_decimal value)); ("position_aggregate", PStr (string_of_decimal aggregate));
                                  ("delta", PStr (string_of_decimal delta))])) mismatches))) (Some tolerance))
      end).

(** The day of a scope key. *)
Definition portfolio_day (key : ScopeKey) : string * date := (sk_portfolio_id key, sk_business_date key).

Definition scope_key_compare (x y : ScopeKey) : comparison :=
  lex (String.compare (sk_portfolio_id x) (sk_portfolio_id y)) (lex (Z.compare (sk_business_date x) (sk_business_date y)) (Z.compare (sk_epoch x) (sk_epoch y))).

Definition timeseries_integrity_scope_keys (portfolio_keys aggregate_keys snapshot_keys : list ScopeKey) : list ScopeKey :=
  let portfolio_days := map portfolio_day portfolio_keys in
  let missing_portfolio_keys := List.filter (fun key => negb (bool_decide (portfolio_day key ∈ portfolio_days))) (aggregate_keys ++ snapshot_keys) in
  stable_sort (leb_of scope_key_compare) (remove_dups (portfolio_keys ++ missing_portfolio_keys)%list).

Section Integrity.
Context `{evidence : ReconciliationEvidence}.

Definition aggregate_authoritative_portfolio_metrics (key : ScopeKey) : result (AuthoritativeMetrics * Z) :=
  let authoritative_rows := fetch_authoritative_position_timeseries_rows key in
  rows_with_fx_keys ← mapR with_lookup_key authoritative_rows;
  let keys := lookup_keys (map snd rows_with_fx_keys) in
  let raw_fx_rates := match keys with [] => [] | _ => fetch_latest_fx_rates keys end in
  metrics ← foldM (add_row (coerced_rates raw_fx_rates)) empty_authoritative_portfolio_metrics rows_with_fx_keys;
  Ok (metrics, Z.of_nat (length authoritative_rows)).

Definition timeseries_integrity_findings_for_key (key : ScopeKey) (portfolio_by_key : list (ScopeKey * PortfolioTimeseriesRecord))
  (aggregate_by_key : list (ScopeKey * Z)) (tolerance : decimal) : result (list ReconciliationFinding) :=
  match od_get key portfolio_by_key with
  | None => Ok (match od_get key aggregate_by_key with None => [] | Some position_row_count => [missing_portfolio_timeseries_finding key position_row_count] end)
  | Some portfolio_row =>
      '(authoritative_metrics, authoritative_position_count) ← aggregate_authoritative_portfolio_metrics key;
      if authoritative_position_count =? 0 then Ok [missing_position_timeseries_finding key] else
      let findings := timeseries_completeness_findings key authoritative_position_count (fetch_authoritative_snapshot_count key) in
      mismatch ← portfolio_timeseries_aggregate_mismatch_finding key portfolio_row authoritative_metrics tolerance;
      Ok (findings ++ match (mismatch : option ReconciliationFinding) with None => [] | Some f => [f] end)%list
  end.

(** The rows are keyed by portfolio, day and epoch; of the aggregates only the number of rows is read. *)
Definition timeseries_integrity_findings (portfolio_rows : list (ScopeKey * PortfolioTimeseriesRecord)) (aggregate_rows snapshot_counts : list (ScopeKey * Z))
  (tolerance : decimal) : result (list ReconciliationFinding * Z) :=
  let by_key {V} (rows : list (ScopeKey * V)) := foldl (fun d '(k, v) => od_set k v d) [] rows in
  let portfolio_by_key := by_key portfolio_rows in
  let aggregate_by_key := by_key aggregate_rows in
  let snapshot_count_by_key := by_key snapshot_counts in
  let scope_keys := timeseries_integrity_scope_keys (map fst portfolio_by_key) (map fst aggregate_by_key) (map fst snapshot_count_by_key) in
  findings ← mapR (fun key => timeseries_integrity_findings_for_key key portfolio_by_key aggregate_by_key tolerance) scope_keys;
  Ok (List.concat findings, Z.of_nat (length scope_keys)).
End Integrity.

(** ** The lifecycle of a run *)

Inductive ReconciliationRunStatus := RUNNING | COMPLETED | REQUIRES_REPLAY | FAILED.

#[export] Instance run_status_eq_dec : EqDecision ReconciliationRunStatus.
Proof. solve_decision. Defined.

Definition run_status_value (s : ReconciliationRunStatus) : string :=
  match s with RUNNING => "RUNNING" | COMPLETED => "COMPLETED" | REQUIRES_REPLAY => "REQUIRES_REPLAY" | FAILED => "FAILED" end.

Definition normalize_run_status (value : payload) : option ReconciliationRunStatus :=
  match value with
  | PStr s => find (fun status => String.eqb (run_status_value status) (upper (strip s))) [RUNNING; COMPLETED; REQUIRES_REPLAY; FAILED]
  | _ => None
  end.

Record ReconciliationRunTransition := {
  rt_name : string; rt_source_statuses : list ReconciliationRunStatus; rt_target_status : ReconciliationRunStatus; rt_requires_summary : bool;
  rt_requires_findings_persisted : bool
}.

Record ReconciliationRunLifecycleSnapshot := {
  ls_run_id : string; ls_status : option ReconciliationRunStatus; ls_error_count : Z; ls_warning_count : Z
}.

Record AutomaticBundleOutcome := {
  ao_outcome_status : string; ao_blocking_reconciliation_types : list string; ao_run_ids : list (string * string); ao_error_count : Z; ao_warning_count : Z
}.

Definition COMPLETE_RECONCILIATION_RUN : ReconciliationRunTransition :=
  {| rt_name := "complete_reconciliation_run"; rt_source_statuses := [RUNNING]; rt_target_status := COMPLETED; rt_requires_summary := true;
     rt_requires_findings_persisted := true |}.
Definition TERMINAL_RECONCILIATION_RUN_STATUSES : list ReconciliationRunStatus := [COMPLETED; REQUIRES_REPLAY; FAILED].
Definition RETRYABLE_RECONCILIATION_RUN_STATUSES : list ReconciliationRunStatus := [REQUIRES_REPLAY; FAILED].

Definition initial_reconciliation_run_status : string := run_status_value RUNNING.
Definition completed_reconciliation_run_status : string := run_status_value (rt_target_status COMPLETE_RECONCILIATION_RUN).

Definition status_in (status : payload) (statuses : list ReconciliationRunStatus) : bool :=
  match normalize_run_status status with Some s => bool_decide (s ∈ statuses) | None => false end.
Definition is_terminal_reconciliation_run_status (status : payload) : bool := status_in status TERMINAL_RECONCILIATION_RUN_STATUSES.
Definition is_retryable_reconciliation_run_status (status : payload) : bool := status_in status RETRYABLE_RECONCILIATION_RUN_STATUSES.

(** The accumulators of the loop: blocking types, run identities, error and warning counts, and whether a run failed. *)
Record BundleTotals := { bt_blocking_types : list string; bt_run_ids : list (string * string); bt_error_count : Z; bt_warning_count : Z; bt_has_failed_run : bool }.

Definition add_run (b : BundleTotals) (entry : string * ReconciliationRunLifecycleSnapshot) : BundleTotals :=
  let '(reconciliation_type, run) := entry in
  let failed := bool_decide (ls_status run = Some FAILED) in
  {| bt_blocking_types := if failed || (0 <? ls_error_count run) then (bt_blocking_types b ++ [reconciliation_type])%list else bt_blocking_types b;
     bt_run_ids := od_set reconciliation_type (ls_run_id run) (bt_run_ids b); bt_error_count := bt_error_count b + ls_error_count run;
     bt_warning_count := bt_warning_count b + ls_warning_count run; bt_has_failed_run := bt_has_failed_run b || failed |}.

Definition determine_automatic_bundle_outcome (runs : list (string * ReconciliationRunLifecycleSnapshot)) : AutomaticBundleOutcome :=
  let b := foldl add_run {| bt_blocking_types := []; bt_run_ids := []; bt_error_count := 0; bt_warning_count := 0; bt_has_failed_run := false |} runs in
  let outcome_status :=
    if bt_has_failed_run b then run_status_value FAILED
    else match bt_blocking_types b with [] => run_status_value COMPLETED | _ => run_status_value REQUIRES_REPLAY end in
  {| ao_outcome_status := outcome_status; ao_blocking_reconciliation_types := stable_sort string_leb (remove_dups (bt_blocking_types b));
     ao_run_ids := bt_run_ids b; ao_error_count := bt_error_count b; ao_warning_count := bt_warning_count b |}.
