(* ===== verification/ReconciliationFacts.v ===== *)
(** * Properties of the reconciliation controls

    A portfolio day that the derived-state service publishes passes the timeseries control that
    recomputes it in another precision; a calculated cashflow passes the cashflow control unless one of
    two documented exceptions of the calculation applies, which the control does not know; the outcome of
    a bundle of runs is decided by its failed and its failing runs. *)

From Stdlib Require Import ZArith Lia QArith Qabs Lqa String Sorted.
From stdpp Require Import base tactics list sets strings.
From S2P Require Import Prelude PyDecimal DecimalFacts PyTime Precision Lineage Registry Transactions Values Position Lots PositionValuation Cashflow Timeseries TimeseriesFacts Reconciliation.

#[local] Open Scope string_scope.
#[local] Open Scope Z_scope.

(** ** Sums in the ambient precision *)

(** A value within [k] units of [10 ^ -12] of an exact sum in units of [10 ^ -20]. *)
Definition near (d : decimal) (s : Z) (k : Z) : Prop := (Qabs (dval d - inject_Z s * pow10 (-20)) <= inject_Z k * pow10 (-12))%Q.

Lemma ambient_near d r : (Qabs (dval d) < pow10 16)%Q -> dfix default_context d = Ok r -> (Qabs (dval r - dval d) <= (1 # 2) * pow10 (-12))%Q.
Proof. intros Hd Hr. exact (dfix_near default_context 16 d r ltac:(done) eq_refl ltac:(done) Hd Hr). Qed.

Lemma ambient_defined d : (Qabs (dval d) < pow10 16)%Q -> exists r, dfix default_context d = Ok r.
Proof. intros Hd. apply dfix_Ok; [by apply make_context_wide|]. eapply Qlt_trans; [exact Hd|]. by apply pow10_lt_mono. Qed.

Lemma scaled_abs n k : (Qabs (inject_Z n * pow10 k) == inject_Z (Z.abs n) * pow10 k)%Q.
Proof. rewrite Qabs_Qmult, (Qabs_pos (pow10 k)) by (apply Qlt_le_weak, pow10_pos). reflexivity. Qed.

Lemma pow10_16_20 : (pow10 16 == inject_Z (10 ^ 36) * pow10 (-20))%Q.
Proof. rewrite <- pow10_Z, <- pow10_add by lia. reflexivity. Qed.

Lemma pow10_12_20 k : (inject_Z k * pow10 (-12) == inject_Z (k * 10 ^ 8) * pow10 (-20))%Q.
Proof. rewrite inject_Z_mult, <- pow10_Z, <- Qmult_assoc, <- pow10_add by lia. reflexivity. Qed.

Lemma scaled_lt a b k : a < b -> (inject_Z a * pow10 k < inject_Z b * pow10 k)%Q.
Proof. intros H. apply Qmult_lt_compat_r; [apply pow10_pos|by rewrite <- Zlt_Qlt]. Qed.

(** One step of the control's aggregation stays near the exact sum. *)
Lemma add_metric_near total s a r k : near total s k -> stored a -> stored r -> 0 <= k <= 10 ^ 12 -> Z.abs s + Z.abs (ul a * ul r) <= 10 ^ 35 ->
  exists t, add_metric total a r = Ok t /\ near t (s + ul a * ul r) (k + 1).
Proof.
  intros Hn [Ha _] [Hr _] Hk B. unfold add_metric. change (amount_or_zero (Some a)) with a. set (w := ul a * ul r) in *.
  pose proof (units_mul (-10) (-10) _ _ _ _ Ha Hr) as Hp. change (-10 + -10) with (-20) in Hp. fold w in Hp. unfold units in Hp.
  pose proof (pow10_pos (-12)) as P12. pose proof (pow10_pos (-20)) as P20.
  assert (Bw : (Qabs (dval (mul_exact a r)) < pow10 16)%Q) by (rewrite Hp, scaled_abs, pow10_16_20; apply scaled_lt; lia).
  destruct (ambient_defined _ Bw) as (p & Hdp). unfold dmul. rewrite Hdp. cbn [mbind result_bind]. pose proof (ambient_near _ _ Bw Hdp) as Np. rewrite Hp in Np.
  unfold near in Hn. apply Qabs_Qle_condition in Hn, Np.
  assert (Bk : (inject_Z k * pow10 (-12) <= inject_Z (10 ^ 20) * pow10 (-20))%Q) by (rewrite pow10_12_20; apply scaled_le; lia).
  assert (B1 : (pow10 (-12) <= inject_Z (10 ^ 8) * pow10 (-20))%Q) by (pose proof (pow10_12_20 1) as E1; change (inject_Z 1) with 1%Q in E1; change (1 * 10 ^ 8) with (10 ^ 8) in E1; lra).
  assert (Bsw : (Qabs (inject_Z s * pow10 (-20)) + Qabs (inject_Z w * pow10 (-20)) <= inject_Z (10 ^ 35) * pow10 (-20))%Q).
  { rewrite !scaled_abs, <- Qmult_plus_distr_l, <- inject_Z_plus. apply scaled_le. lia. }
  pose proof (Qle_Qabs (inject_Z s * pow10 (-20))) as S1. pose proof (Qle_Qabs (- (inject_Z s * pow10 (-20)))) as S2. rewrite Qabs_opp in S2.
  pose proof (Qle_Qabs (inject_Z w * pow10 (-20))) as W1. pose proof (Qle_Qabs (- (inject_Z w * pow10 (-20)))) as W2. rewrite Qabs_opp in W2.
  assert (Hbig : (inject_Z (10 ^ 35) * pow10 (-20) + inject_Z (10 ^ 20) * pow10 (-20) + inject_Z (10 ^ 8) * pow10 (-20) < pow10 16)%Q).
  { rewrite pow10_16_20, <- !Qmult_plus_distr_l, <- !inject_Z_plus. apply scaled_lt. lia. }
  assert (Bx : (Qabs (dval (add_exact total p)) < pow10 16)%Q) by (rewrite add_exact_val; apply Qabs_case; intros _; lra).
  destruct (ambient_defined _ Bx) as (t & Ht). exists t. split; [exact Ht|]. pose proof (ambient_near _ _ Bx Ht) as Nt. rewrite add_exact_val in Nt.
  apply Qabs_Qle_condition in Nt. unfold near. rewrite !inject_Z_plus, !Qmult_plus_distr_l. change (inject_Z 1) with 1%Q.
  apply Qabs_Qle_condition. split; lra.
Qed.

(** ** The aggregate of the control *)

Definition gross (f : PositionTimeseriesRecord -> decimal) (cs : list PortfolioPositionContribution) : Z := zsum (map (fun c => Z.abs (weight f c)) cs).

Lemma weights_gross f cs : Z.abs (weights f cs) <= gross f cs.
Proof. unfold weights, gross. induction cs as [|c cs IH]; cbn [map]; rewrite ?zsum_cons, ?zsum_nil; lia. Qed.

Lemma gross_app f xs ys : gross f (xs ++ ys)%list = gross f xs + gross f ys.
Proof. unfold gross. by rewrite map_app, zsum_app. Qed.

Lemma gross_nonneg f cs : 0 <= gross f cs.
Proof. apply zsum_map_nonneg, Forall_forall. intros. lia. Qed.

Record metrics_near (m : AuthoritativeMetrics) (cs : list PortfolioPositionContribution) (k : Z) : Prop := {
  mn_bod_market_value : near (am_bod_market_value m) (weights pt_bod_market_value cs) k;
  mn_bod_cashflow : near (am_bod_cashflow m) (weights pt_bod_cashflow_portfolio cs) k;
  mn_eod_cashflow : near (am_eod_cashflow m) (weights pt_eod_cashflow_portfolio cs) k;
  mn_eod_market_value : near (am_eod_market_value m) (weights pt_eod_market_value cs) k;
  mn_fees : near (am_fees m) (weights pt_fees cs) k
}.

(** A row of the control stands for a contribution of the published day. *)
Definition same_fact (rates : list (FxRateLookupKey * decimal)) (row : AuthoritativeRow * option FxRateLookupKey) (c : PortfolioPositionContribution) : Prop :=
  ar_position (fst row) = pc_position_timeseries c /\ row_rate rates (snd row) = fx_rate (pc_fx_rate c) /\ ul (fx_rate (pc_fx_rate c)) <> 0.

Definition bounded_gross (cs : list PortfolioPositionContribution) : Prop := Forall (fun f => gross f cs <= 10 ^ 35) aggregated_amounts.

Lemma row_step rates m done k row c : metrics_near m done k -> same_fact rates row c -> stored_contribution c -> 0 <= k <= 10 ^ 12 -> bounded_gross (done ++ [c]) ->
  exists m', add_row rates m row = Ok m' /\ metrics_near m' (done ++ [c])%list (k + 1).
Proof.
  intros [N1 N2 N3 N4 N5] (Hp & Hr & Hz) [Hs Sr] Hk Hg. unfold add_row. rewrite Hr, (stored_deqb _ _ Sr stored_dzero), ul_dzero, (proj2 (Z.eqb_neq _ _) Hz).
  unfold add_authoritative_position_metrics. rewrite Hp. unfold bounded_gross in Hg. rewrite Forall_forall in Hs, Hg.
  assert (Hadd : forall f total, f ∈ aggregated_amounts -> near total (weights f done) k ->
    exists t, add_metric total (f (pc_position_timeseries c)) (fx_rate (pc_fx_rate c)) = Ok t /\ near t (weights f (done ++ [c])%list) (k + 1)).
  { intros f total Hf Hn. rewrite weights_snoc. apply add_metric_near; [done|by apply Hs|done|done|].
    specialize (Hg f Hf). rewrite gross_app in Hg. pose proof (weights_gross f done). unfold gross in Hg at 2. cbn [map] in Hg. rewrite zsum_cons, zsum_nil in Hg.
    unfold weight in Hg. lia. }
  destruct (Hadd pt_bod_market_value _ ltac:(aggregated) N1) as (u1 & -> & U1). cbn [mbind result_bind].
  destruct (Hadd pt_bod_cashflow_portfolio _ ltac:(aggregated) N2) as (u2 & -> & U2). cbn [mbind result_bind].
  destruct (Hadd pt_eod_cashflow_portfolio _ ltac:(aggregated) N3) as (u3 & -> & U3). cbn [mbind result_bind].
  destruct (Hadd pt_eod_market_value _ ltac:(aggregated) N4) as (u4 & -> & U4). cbn [mbind result_bind].
  destruct (Hadd pt_fees _ ltac:(aggregated) N5) as (u5 & -> & U5). cbn [mbind result_bind]. eexists. split; [reflexivity|]. constructor; cbn [am_bod_market_value am_bod_cashflow am_eod_cashflow am_eod_market_value am_fees]; [exact U1|exact U2|exact U3|exact U4|exact U5].
Qed.

Lemma bounded_gross_app xs ys : bounded_gross (xs ++ ys) -> bounded_gross xs.
Proof.
  unfold bounded_gross. rewrite !Forall_forall. intros H f Hf. specialize (H f Hf). rewrite gross_app in H. pose proof (gross_nonneg f ys). lia.
Qed.

Lemma bounded_gross_perm xs ys : xs ≡ₚ ys -> bounded_gross xs -> bounded_gross ys.
Proof.
  intros Hp. unfold bounded_gross. rewrite !Forall_forall. intros H f Hf. unfold gross in *. erewrite zsum_perm; [by apply H|]. by rewrite Hp.
Qed.

Lemma rows_near rates rows cs : Forall2 (same_fact rates) rows cs -> forall m done k, metrics_near m done k -> Forall stored_contribution cs ->
  0 <= k -> k + Z.of_nat (length cs) <= 10 ^ 12 -> bounded_gross (done ++ cs) ->
  exists m', foldM (add_row rates) m rows = Ok m' /\ metrics_near m' (done ++ cs)%list (k + Z.of_nat (length cs)).
Proof.
  induction 1 as [|row c rows cs Hf _ IH]; intros m done k Hm Hs Hk Hn Hg.
  - exists m. rewrite app_nil_r, Z.add_0_r. done.
  - inversion Hs as [|? ? Hc Hs']; subst. cbn [length] in Hn. assert (Hg' : bounded_gross ((done ++ [c]) ++ cs)) by (by rewrite <- app_assoc).
    destruct (row_step rates m done k row c Hm Hf Hc ltac:(lia) (bounded_gross_app _ _ Hg')) as (m1 & H1 & N1).
    destruct (IH m1 (done ++ [c])%list (k + 1) N1 Hs' ltac:(lia) ltac:(lia) Hg') as (m' & Hm' & N'). exists m'. cbn [foldM]. rewrite H1. cbn [mbind result_bind].
    split; [done|]. rewrite <- app_assoc in N'. cbn [app length] in *. by replace (k + Z.of_nat (S (length cs))) with (k + 1 + Z.of_nat (length cs)) by lia.
Qed.

(** ** The comparison *)

(** A published total is within half a storage unit of the exact sum. *)
Lemma published_near portfolio_value f cs : Precision.ledger portfolio_value (rounded_total f cs) ->
  (Qabs (dval portfolio_value - inject_Z (weights f cs) * pow10 (-20)) <= inject_Z 50 * pow10 (-12))%Q.
Proof.
  intros [Hu _]. pose proof (pow10_pos (-12)) as P12.
  unfold units in Hu. unfold rounded_total in *. set (x := (inject_Z (weights f cs) * pow10 (-10))%Q) in *. pose proof (qround_half_even x) as Hq.
  assert (E : (inject_Z (weights f cs) * pow10 (-20) == x * pow10 (-10))%Q) by (unfold x; rewrite <- Qmult_assoc, <- pow10_add; reflexivity).
  assert (E' : (inject_Z (qround ROUND_HALF_EVEN x) * pow10 (-10) - x * pow10 (-10) == (inject_Z (qround ROUND_HALF_EVEN x) - x) * pow10 (-10))%Q) by ring.
  rewrite Hu, E, E', Qabs_Qmult, (Qabs_pos (pow10 (-10))) by (apply Qlt_le_weak, pow10_pos). eapply Qle_trans; [apply Qmult_le_compat_r; [exact Hq|apply Qlt_le_weak, pow10_pos]|].
  change (-10) with (2 + -12). rewrite pow10_add. change (pow10 2) with 100%Q. change (inject_Z 50) with 50%Q. lra.
Qed.

(** The control's aggregate is within its rounding of the same sum, and the comparison passes. *)
Lemma comparison_passes portfolio_value aggregate tolerance f cs k : Precision.ledger portfolio_value (rounded_total f cs) -> near aggregate (weights f cs) k ->
  0 <= k -> (inject_Z (k + 51) * pow10 (-12) <= dval tolerance)%Q -> (inject_Z k * pow10 (-12) <= 1)%Q ->
  beyond_tolerance portfolio_value aggregate tolerance = Ok None.
Proof.
  intros Hround%published_near Hn Hk Ht Hk1. unfold near in Hn. pose proof (pow10_pos (-12)) as P12.
  apply Qabs_Qle_condition in Hn, Hround. rewrite inject_Z_plus, Qmult_plus_distr_l in Ht. change (inject_Z 51) with 51%Q in Ht. change (inject_Z 50) with 50%Q in Hround.
  assert (S12 : (pow10 (-12) <= 1 # 1000)%Q) by (vm_compute; discriminate).
  assert (S16 : (1000 < pow10 16)%Q) by (vm_compute; reflexivity).
  unfold beyond_tolerance, dsub. assert (Bx : (Qabs (dval (add_exact portfolio_value (neg_exact aggregate))) < pow10 16)%Q).
  { rewrite add_exact_val, neg_exact_val. apply Qabs_case; intros _; lra. }
  destruct (ambient_defined _ Bx) as (delta & Hd). rewrite Hd. cbn [mbind result_bind]. pose proof (ambient_near _ _ Bx Hd) as Nd. rewrite add_exact_val, neg_exact_val in Nd.
  apply Qabs_Qle_condition in Nd. unfold dabs. set (magnitude := Dec (Z.abs (dcoeff delta)) (dexp delta)).
  assert (Em : (dval magnitude == Qabs (dval delta))%Q) by (unfold magnitude; rewrite dval_Dec; symmetry; apply dval_abs).
  assert (Bm : (Qabs (dval magnitude) < pow10 16)%Q) by (rewrite Em, (Qabs_pos (Qabs (dval delta))) by apply Qabs_nonneg; apply Qabs_case; intros _; lra).
  destruct (ambient_defined _ Bm) as (a & Ha). rewrite Ha. cbn [mbind result_bind]. pose proof (ambient_near _ _ Bm Ha) as Na. rewrite Em in Na.
  apply Qabs_Qle_condition in Na. assert (dltb tolerance a = false) as ->; [|done]. apply dltb_false.
  assert (Qabs (dval delta) <= (inject_Z k + 50 + (1 # 2)) * pow10 (-12))%Q by (apply Qabs_case; intros _; lra). lra.
Qed.

(** ** The rates of both services *)

Section Control.
Context `{hashing : Hashing} `{market : TimeseriesMarketDataPort} `{evidence : ReconciliationEvidence}.

(** A cross-currency rate that the repository gives and the calculation accepts. *)
Definition sourced_rate (from to : string) (d : date) (rate : decimal) : Prop :=
  exists found, get_fx_rate from to d = Some found /\ fx_rate found = rate /\ dleb rate dzero = false.

Definition cache_ok (cache : FxCache) : Prop := forall from to d r, od_get (from, to, d) cache = Some r -> sourced_rate from to d (fx_rate r).

Lemma resolve_rate from to d cache r cache' : cache_ok cache -> Timeseries.resolve_fx_rate from to d cache = Ok (r, cache') ->
  cache_ok cache' /\ (if String.eqb from to then fx_rate r = d_one else sourced_rate from to d (fx_rate r)).
Proof.
  intros Hc. unfold Timeseries.resolve_fx_rate. destruct (String.eqb from to) eqn:E; [by intros [= <- <-]|].
  destruct (od_get (from, to, d) cache) as [cached|] eqn:Hg; [intros [= <- <-]; split; [done|by apply Hc]|].
  destruct (get_fx_rate from to d) as [found|] eqn:Hf; [|done]. unfold coerce_positive_fx_rate_or_none. cbn [decimal_or_none finite_or_none].
  destruct (dleb (fx_rate found) dzero) eqn:Hz; [done|]. destruct (_ || _); [done|]. intros [= <- <-].
  assert (Hs : sourced_rate from to d (fx_rate found)) by (by exists found). split; [|done]. intros f' t' d' r'.
  destruct (decide ((f', t', d') = (from, to, d))) as [[= -> -> ->]|Hne]; [rewrite od_get_set; by intros [= <-]|rewrite od_get_set_ne by done; apply Hc].
Qed.

(** The contribution that the calculation builds for a position. *)
Definition contributes (portfolio_currency : string) (instruments : list (string * TimeseriesInstrument)) (p : PositionTimeseriesRecord)
  (c : PortfolioPositionContribution) : Prop :=
  pc_position_timeseries c = p /\ exists i, od_get (normalize_security_id (pt_security_id p)) instruments = Some i /\
    truthy (Timeseries.normalize_currency (ti_currency i)) = true /\
    if String.eqb (Timeseries.normalize_currency (ti_currency i)) portfolio_currency then fx_rate (pc_fx_rate c) = d_one
    else sourced_rate (Timeseries.normalize_currency (ti_currency i)) portfolio_currency (pt_date p) (fx_rate (pc_fx_rate c)).

Lemma make_contribution_id c c' : make_PortfolioPositionContribution c = Ok c' -> c' = c.
Proof. unfold make_PortfolioPositionContribution. intros H. inv_ok. destruct (String.eqb _ _); by inv_ok. Qed.

Lemma contributions_built portfolio_currency instruments positions : forall cache done cache' cs, cache_ok cache ->
  foldM (add_position portfolio_currency instruments) (cache, done) positions = Ok (cache', cs) ->
  exists new, cs = (done ++ new)%list /\ Forall2 (contributes portfolio_currency instruments) positions new.
Proof.
  induction positions as [|p positions IH]; intros cache done cache' cs Hc H; cbn [foldM] in H.
  - injection H as <- <-. exists []. by rewrite app_nil_r.
  - apply bind_Ok in H as ([cache1 cs1] & H1 & H2). unfold add_position in H1. destruct (od_get _ instruments) as [i|] eqn:Hi; [|done].
    apply bind_Ok in H1 as (? & Ht%raise_if_Ok & ([r cache2] & Hr & (c & Hm%make_contribution_id & [= <- <-])%bind_Ok)%bind_Ok).
    destruct (resolve_rate _ _ _ _ _ _ Hc Hr) as [Hc1 Hrate]. destruct (IH _ _ _ _ Hc1 H2) as (new & -> & HF). exists (c :: new).
    rewrite <- app_assoc. split; [done|]. constructor; [|done]. subst c. split; [done|]. exists i. by apply negb_false_iff in Ht.
Qed.

(** The control reads the facts that the calculation used: the same rows, in any order, the currencies of their instruments and of the
    portfolio as three-letter codes, and the rate of every pair and day it asks for. *)
Record same_evidence (portfolio : PortfolioAggregationScope) (positions : list PositionTimeseriesRecord) (key : ScopeKey) : Prop := {
  se_rows : map ar_position (fetch_authoritative_position_timeseries_rows key) ≡ₚ positions;
  se_instrument : forall row i, row ∈ fetch_authoritative_position_timeseries_rows key ->
    od_get (normalize_security_id (pt_security_id (ar_position row))) (instruments_by_id (get_instruments_by_ids (distinct_security_ids positions))) = Some i ->
    ar_instrument_currency row = Some (ti_currency i) /\ normalize_currency_code (PStr (ti_currency i)) = Ok (ti_currency i);
  se_base : forall row, row ∈ fetch_authoritative_position_timeseries_rows key -> ar_base_currency row = Some (sc_base_currency portfolio);
  se_base_code : normalize_currency_code (PStr (sc_base_currency portfolio)) = Ok (sc_base_currency portfolio);
  se_rates : forall keys k found, k ∈ keys -> get_fx_rate (lk_from_currency k) (lk_to_currency k) (lk_business_date k) = Some found ->
    od_get k (fetch_latest_fx_rates keys) = Some (PDecimal (Finite (fx_rate found)))
}.

Lemma canonical_code c : normalize_currency_code (PStr c) = Ok c -> strip c = c /\ upper (strip c) = c /\ truthy c = true.
Proof.
  cbn. destruct (_ || _) eqn:E; [done|]. intros [= Hc]. apply orb_false_iff in E as [E _].
  assert (strip c = c) as Hs by (rewrite <- Hc at 1; rewrite strip_upper, strip_idem; done). split_and!; [done|done|].
  rewrite Hc in E. by destruct c.
Qed.

(** The lookup key of a row whose currencies are codes. *)
Lemma row_key row from to : ar_instrument_currency row = Some from -> ar_base_currency row = Some to -> normalize_currency_code (PStr from) = Ok from ->
  normalize_currency_code (PStr to) = Ok to ->
  with_lookup_key row = Ok (row, if String.eqb from to then None
                                 else Some {| lk_from_currency := from; lk_to_currency := to; lk_business_date := pt_date (ar_position row) |}).
Proof.
  intros H1 H2 Hf Ht. destruct (canonical_code from Hf) as (Sf & _ & Tf), (canonical_code to Ht) as (St & _ & Tt). unfold with_lookup_key, authoritative_fx_lookup_key, authoritative_metric_currencies.
  rewrite H1, H2. assert (forall s, truthy s = true -> or_text (Some s) "" = s) as Ho by (by intros []). rewrite !Ho, Sf, St by done.
  unfold requires_authoritative_fx_rate. rewrite Tf, Tt. cbn [andb]. destruct (String.eqb from to); cbn [negb]; [done|]. by rewrite Hf, Ht.
Qed.

Lemma keys_elem k keys : Some k ∈ keys -> k ∈ lookup_keys keys.
Proof.
  intros Hk. unfold lookup_keys. rewrite stable_sort_perm. apply elem_of_remove_dups, list_elem_of_omap. by exists (Some k).
Qed.

Lemma coerced_get raw k rate : od_get k raw = Some (PDecimal (Finite rate)) -> dleb rate dzero = false -> od_get_default dzero k (coerced_rates raw) = rate.
Proof.
  intros Hg Hz. unfold od_get_default. assert (od_get k (coerced_rates raw) = Some rate) as ->; [|done].
  induction raw as [|[k' v] raw IH]; [done|]. cbn [coerced_rates map od_get] in *. case_decide; [|by apply IH]. injection Hg as ->.
  unfold coerce_positive_fx_rate_or_none. cbn [decimal_or_none finite_or_none]. rewrite Hz. unfold dor. destruct (dis_zero rate) eqn:E; [|done].
  apply dis_zero_spec in E. apply dleb_false in Hz. rewrite E, dval_dzero in Hz. by apply Qlt_irrefl in Hz.
Qed.

Section Facts.
Context (portfolio : PortfolioAggregationScope) (positions : list PositionTimeseriesRecord) (key : ScopeKey) (same : same_evidence portfolio positions key).
#[local] Notation instruments := (instruments_by_id (get_instruments_by_ids (distinct_security_ids positions))).
#[local] Notation base := (sc_base_currency portfolio).

(** The row of a contribution and its lookup key. *)
Definition keyed_row (row : AuthoritativeRow) (k : option FxRateLookupKey) (c : PortfolioPositionContribution) : Prop :=
  with_lookup_key row = Ok (row, k) /\ ar_position row = pc_position_timeseries c /\
  match k with
  | None => fx_rate (pc_fx_rate c) = d_one
  | Some k => sourced_rate (lk_from_currency k) (lk_to_currency k) (lk_business_date k) (fx_rate (pc_fx_rate c))
  end.

Lemma row_keyed row c : row ∈ fetch_authoritative_position_timeseries_rows key -> contributes base instruments (ar_position row) c -> exists k, keyed_row row k c.
Proof.
  intros Hrow [Hp (i & Hi & _ & Hrate)]. destruct (se_instrument _ _ _ same row i Hrow Hi) as [Hcur Hcode].
  destruct (canonical_code _ Hcode) as (_ & Hn & _). unfold Timeseries.normalize_currency in Hrate. rewrite Hn in Hrate.
  pose proof (row_key row _ _ Hcur (se_base _ _ _ same row Hrow) Hcode (se_base_code _ _ _ same)) as Hk.
  destruct (String.eqb (ti_currency i) base); eexists; (split; [exact Hk|]); done.
Qed.

Lemma rows_keyed rows cs : rows ⊆ fetch_authoritative_position_timeseries_rows key -> Forall2 (contributes base instruments) (map ar_position rows) cs ->
  exists ks, length ks = length rows /\ mapR with_lookup_key rows = Ok (zip rows ks) /\ Forall2 (fun rk c => keyed_row (fst rk) (snd rk) c) (zip rows ks) cs.
Proof.
  intros Hsub HF. revert cs HF. induction rows as [|row rows IH]; intros cs HF; inversion HF as [|? c ? cs' Hc HF']; subst; [by exists []|].
  destruct (row_keyed row c ltac:(set_solver) Hc) as (k & Hk). destruct (IH ltac:(set_solver) cs' HF') as (ks & Hl & Hm & HK). exists (k :: ks).
  split_and!; [cbn; by rewrite Hl| |by constructor]. cbn [mapR zip zip_with]. destruct Hk as [-> _]. cbn [mbind result_bind]. by rewrite Hm.
Qed.

Lemma rate_matches keys row k c : (forall k', k = Some k' -> k' ∈ keys) -> keyed_row row k c -> stored (fx_rate (pc_fx_rate c)) ->
  same_fact (coerced_rates (match keys with [] => [] | _ => fetch_latest_fx_rates keys end)) (row, k) c.
Proof.
  intros Hin (_ & Hp & Hk) Hs. split; [done|]. cbn [fst snd]. destruct k as [k|]; cbn [row_rate].
  - specialize (Hin k eq_refl). destruct keys as [|k0 keys]; [by apply elem_of_nil in Hin|]. destruct Hk as (found & Hf & Hr & Hz). split.
    + apply coerced_get; [|done]. rewrite <- Hr. by apply (se_rates _ _ _ same).
    + rewrite (stored_dleb _ _ Hs stored_dzero), ul_dzero in Hz. apply Z.leb_gt in Hz. lia.
  - rewrite Hk. split; [done|]. change d_one with (dint 1). rewrite ul_dint; lia.
Qed.

(** The control aggregates the contributions of the published day, near their exact totals. *)
Lemma aggregate_near cs : Forall2 (contributes base instruments) positions cs -> Forall stored_contribution cs -> Z.of_nat (length cs) <= 10 ^ 12 -> bounded_gross cs ->
  exists m cs', aggregate_authoritative_portfolio_metrics key = Ok (m, Z.of_nat (length cs)) /\ cs' ≡ₚ cs /\ metrics_near m cs' (Z.of_nat (length cs)).
Proof.
  intros HF Hs Hn Hg. destruct (Permutation_Forall2 (Permutation_sym (se_rows _ _ _ same)) HF) as (cs' & Hp & HF').
  destruct (rows_keyed _ cs' ltac:(done) HF') as (ks & Hl & Hm & HK). set (rows := fetch_authoritative_position_timeseries_rows key) in *.
  set (keys := lookup_keys (map snd (zip rows ks))).
  assert (HS : Forall2 (same_fact (coerced_rates (match keys with [] => [] | _ => fetch_latest_fx_rates keys end))) (zip rows ks) cs').
  { rewrite Hp in Hs. apply Forall2_same_length_lookup_2; [by apply Forall2_length in HK|]. intros j [row k] c Hj Hc.
    pose proof (Forall2_lookup_lr _ _ _ _ _ _ HK Hj Hc) as Hk. apply rate_matches; [|exact Hk|].
    - intros k' ->. apply keys_elem, list_elem_of_fmap. exists (row, Some k'). split; [done|]. by eapply list_elem_of_lookup_2.
    - rewrite Forall_forall in Hs. apply (Hs c). by eapply list_elem_of_lookup_2. }
  assert (Hlen : length cs' = length cs) by (by rewrite Hp).
  destruct (rows_near _ _ _ HS empty_authoritative_portfolio_metrics [] 0) as (m & Hf & N).
  { constructor; vm_compute; discriminate. } { by rewrite <- Hp. } { done. } { rewrite Hlen. lia. }
  { by apply (bounded_gross_perm cs). }
  cbn [app] in N. rewrite Hlen in N. exists m, cs'. split_and!; [|done|exact N]. unfold aggregate_authoritative_portfolio_metrics. fold rows. rewrite Hm. cbn [mbind result_bind].
  fold keys. rewrite Hf. cbn [mbind result_bind]. do 3 f_equal. apply Forall2_length in HF'. rewrite length_map in HF'. congruence.
Qed.
End Facts.

(** ** The published day *)

Definition stored_position (p : PositionTimeseriesRecord) : Prop := Forall (fun f => stored (f p)) aggregated_amounts.

(** Rates are numeric columns too. *)
Definition stored_rates : Prop := forall from to d found, get_fx_rate from to d = Some found -> stored (fx_rate found).

(** The converted amounts of the day have magnitudes that sum to at most [10 ^ 15]. *)
Definition bounded_day (portfolio : PortfolioAggregationScope) (positions : list PositionTimeseriesRecord) : Prop :=
  forall cs, Forall2 (contributes (Timeseries.normalize_currency (sc_base_currency portfolio))
                        (instruments_by_id (get_instruments_by_ids (distinct_security_ids positions)))) positions cs -> bounded_gross cs.

Lemma contributions_stored portfolio_currency instruments positions cs : stored_rates -> Forall stored_position positions ->
  Forall2 (contributes portfolio_currency instruments) positions cs -> Forall stored_contribution cs.
Proof.
  intros Hr Hs HF. induction HF as [|p c positions cs [Hp (i & _ & _ & Hrate)] _ IH]; [done|]. apply Forall_cons in Hs as [Hsp Hs]. constructor; [|by apply IH].
  split; [by rewrite Hp|]. destruct (String.eqb _ _).
  - rewrite Hrate. change d_one with (dint 1). by apply stored_dint.
  - destruct Hrate as (found & Hf & <- & _). by eapply Hr.
Qed.

Lemma daily_record_inv portfolio aggregation_date epoch positions r : calculate_daily_record portfolio aggregation_date epoch positions = Ok r ->
  exists cs, calculate_portfolio_timeseries portfolio aggregation_date epoch cs = Ok r /\
    Forall2 (contributes (Timeseries.normalize_currency (sc_base_currency portfolio))
               (instruments_by_id (get_instruments_by_ids (distinct_security_ids positions)))) positions cs.
Proof.
  unfold calculate_daily_record. intros (? & _ & ([cache cs] & Hf & Hr)%bind_Ok)%bind_Ok. exists cs. split; [done|].
  apply contributions_built in Hf as (new & -> & HF); [done|]. by intros ? ? ? ? ?.
Qed.

(** C8: a portfolio day that the derived-state service publishes passes the timeseries-integrity control.  The control reads the same
    rows, currencies and rates, in any order, and recomputes the totals in the ambient 28 digits; for stored amounts whose converted
    magnitudes sum to at most [10 ^ 15] the comparison stays within a tolerance of fifty-one plus the number of rows, in units of
    [10 ^ -12], and no finding is reported. *)
Theorem published_day_reconciles portfolio aggregation_date epoch positions r key portfolio_by_key aggregate_by_key tolerance :
  calculate_daily_record portfolio aggregation_date epoch positions = Ok r -> same_evidence portfolio positions key -> stored_rates ->
  Forall stored_position positions -> bounded_day portfolio positions -> Z.of_nat (length positions) <= 10 ^ 12 ->
  (inject_Z (Z.of_nat (length positions) + 51) * pow10 (-12) <= dval tolerance)%Q -> positions <> [] ->
  fetch_authoritative_snapshot_count key = Z.of_nat (length positions) -> od_get key portfolio_by_key = Some r ->
  timeseries_integrity_findings_for_key key portfolio_by_key aggregate_by_key tolerance = Ok [].
Proof.
  intros Hr Hsame Hrates Hs Hb Hn Ht Hne Hsnap Hget. destruct (daily_record_inv _ _ _ _ _ Hr) as (cs & Hday & HF). specialize (Hb cs HF).
  pose proof (contributions_stored _ _ _ _ Hrates Hs HF) as Hcs. pose proof (Forall2_length _ _ _ HF) as Hlen.
  assert (Hbase : Timeseries.normalize_currency (sc_base_currency portfolio) = sc_base_currency portfolio)
    by (destruct (canonical_code _ (se_base_code _ _ _ Hsame)) as (_ & Hu & _); exact Hu).
  rewrite Hbase in HF. destruct (aggregate_near portfolio positions key Hsame cs HF Hcs ltac:(lia) Hb) as (m & cs' & Hm & Hp & [N1 N2 N3 N4 N5]).
  destruct (day_published _ _ _ _ _ Hcs ltac:(lia) Hday) as [_ _ _ L1 L2 L3 L4 L5 _]. rewrite Hlen in Hn, Ht, Hsnap.
  unfold timeseries_integrity_findings_for_key. rewrite Hget, Hm. cbn [mbind result_bind].
  assert (Z.of_nat (length cs) =? 0 = false) as -> by (apply Z.eqb_neq; destruct positions; [done|]; rewrite <- Hlen; cbn; lia).
  unfold timeseries_completeness_findings. rewrite Hsnap, Z.eqb_refl. unfold portfolio_timeseries_aggregate_mismatch_finding, timeseries_metric_mismatches, metric_mismatch.
  assert (Hk : (inject_Z (Z.of_nat (length cs)) * pow10 (-12) <= 1)%Q).
  { apply Qle_trans with (inject_Z (10 ^ 12) * pow10 (-12))%Q; [by apply scaled_le|vm_compute; discriminate]. }
  assert (Hpass : forall f v a, Precision.ledger v (rounded_total f cs) -> near a (weights f cs') (Z.of_nat (length cs)) -> beyond_tolerance v a tolerance = Ok None).
  { intros f v a Hv Ha. rewrite (weights_perm f cs' cs Hp) in Ha. by apply (comparison_passes v a tolerance f cs (Z.of_nat (length cs)) Hv Ha ltac:(lia) Ht Hk). }
  rewrite (Hpass _ _ _ L1 N1), (Hpass _ _ _ L2 N2), (Hpass _ _ _ L3 N3), (Hpass _ _ _ L4 N4), (Hpass _ _ _ L5 N5). done.
Qed.
End Control.

(** ** The cashflow control *)

Section Cashflows.
Context `{hashing : Hashing}.

(** A rule whose texts are the codes themselves. *)
Definition canonical_rule (rule : CashflowRule) : Prop :=
  named_text classification_value (cr_classification rule) = normalize_classification (cr_classification rule) /\
  named_text timing_value (cr_timing rule) = normalize_timing (cr_timing rule).

Lemma cashflow_reported t rule epoch c cf : calculate_transaction_cashflow t rule epoch c = Ok cf ->
  cf_classification cf = resolve_cashflow_classification (resolve_effective_processing_transaction_type t) (cr_classification rule) (cf_amount cf) /\
  cf_timing cf = normalize_timing (cr_timing rule) /\ cf_is_position_flow cf = lv_is_position_flow (resolve_cashflow_level t rule) /\
  cf_is_portfolio_flow cf = lv_is_portfolio_flow (resolve_cashflow_level t rule).
Proof.
  unfold calculate_transaction_cashflow. intros H. apply bind_Ok in H as (e & _ & H). apply bind_Ok in H as (fee & _ & H). apply bind_Ok in H as (a & _ & H).
  apply bind_Ok in H as (np & _ & H). apply bind_Ok in H as (l & _ & H). injection H as <-. done.
Qed.

Lemma mismatches_none rule cf : cashflow_rule_mismatches rule cf = [] <->
  named_text classification_value (cr_classification rule) = cf_classification cf /\ named_text timing_value (cr_timing rule) = cf_timing cf /\
  cr_is_position_flow rule = cf_is_position_flow cf /\ cr_is_portfolio_flow rule = cf_is_portfolio_flow cf.
Proof.
  unfold cashflow_rule_mismatches. cbn zeta.
  destruct (String.eqb_spec (named_text classification_value (cr_classification rule)) (cf_classification cf)) as [E1|E1],
    (String.eqb_spec (named_text timing_value (cr_timing rule)) (cf_timing cf)) as [E2|E2],
    (cr_is_position_flow rule), (cf_is_position_flow cf), (cr_is_portfolio_flow rule), (cf_is_portfolio_flow cf); cbn [app Bool.eqb];
    (split; [intros H; first [discriminate H|by split_and!] | intros (H1 & H2 & H3 & H4); by try congruence]).
Qed.

Lemma finding_none request_epoch t rule cf : transaction_cashflow_finding request_epoch t rule (Some cf) = None <-> cashflow_rule_mismatches rule cf = [].
Proof. unfold transaction_cashflow_finding. by destruct (cashflow_rule_mismatches rule cf). Qed.

(** C14: the cashflow control accepts a cashflow calculated under its rule exactly when the calculation did not apply one of its two
    exceptions against the rule: the cash settlement of a corporate action, which belongs to no flow, and the negative principal of a
    redemption, which is an investment outflow. *)
Theorem cashflow_control_decides request_epoch t rule epoch c cf : calculate_transaction_cashflow t rule epoch c = Ok cf -> canonical_rule rule ->
  transaction_cashflow_finding request_epoch t rule (Some cf) = None <->
  (is_duplicate_corporate_action_cash_settlement t = true -> cr_is_position_flow rule = false /\ cr_is_portfolio_flow rule = false) /\
  (in_set (resolve_effective_processing_transaction_type t) REDEMPTION_TRANSACTION_TYPES = true -> dltb (cf_amount cf) dzero = true ->
   normalize_classification (cr_classification rule) = classification_value INVESTMENT_OUTFLOW).
Proof.
  intros (E1 & E2 & E3 & E4)%cashflow_reported [C1 C2]. rewrite finding_none, mismatches_none, E1, E2, E3, E4, C1, C2.
  unfold resolve_cashflow_level, resolve_cashflow_classification.
  destruct (is_duplicate_corporate_action_cash_settlement t), (in_set _ REDEMPTION_TRANSACTION_TYPES), (dltb _ dzero); cbn [andb lv_is_position_flow lv_is_portfolio_flow];
    naive_solver.
Qed.

(** The rule that the schema seeds for adjustments. *)
Definition adjustment_rule : CashflowRule :=
  {| cr_classification := Named TRANSFER; cr_timing := Named EOD; cr_is_position_flow := true; cr_is_portfolio_flow := false |}.

(** Under it every cash settlement of a corporate action is reported as a mismatch, although the calculation is right. *)
Lemma settlement_adjustment_is_reported request_epoch t epoch c cf : is_duplicate_corporate_action_cash_settlement t = true ->
  calculate_transaction_cashflow t adjustment_rule epoch c = Ok cf ->
  exists f, transaction_cashflow_finding request_epoch t adjustment_rule (Some cf) = Some f /\ rf_finding_type f = "cashflow_rule_mismatch" /\ rf_severity f = "ERROR".
Proof.
  intros Hd (_ & _ & E3 & _)%cashflow_reported. unfold transaction_cashflow_finding. destruct (cashflow_rule_mismatches adjustment_rule cf) as [|x xs] eqn:E; [|by eexists].
  apply mismatches_none in E as (_ & _ & Ef & _). unfold resolve_cashflow_level in E3. rewrite Hd in E3. by rewrite E3 in Ef.
Qed.
End Cashflows.

(** ** Bundles of runs *)

Definition blocks (run : ReconciliationRunLifecycleSnapshot) : bool := bool_decide (ls_status run = Some FAILED) || (0 <? ls_error_count run).

Lemma bundle_fold runs b : let b' := foldl add_run b runs in
  bt_blocking_types b' = (bt_blocking_types b ++ map fst (List.filter (fun e => blocks (snd e)) runs))%list /\
  bt_has_failed_run b' = bt_has_failed_run b || existsb (fun e => bool_decide (ls_status (snd e) = Some FAILED)) runs /\
  bt_error_count b' = bt_error_count b + zsum (map (fun e => ls_error_count (snd e)) runs) /\
  bt_warning_count b' = bt_warning_count b + zsum (map (fun e => ls_warning_count (snd e)) runs).
Proof.
  revert b. induction runs as [|[ty run] runs IH]; intros b; cbn zeta in *.
  - cbn [foldl List.filter map existsb]. rewrite app_nil_r, orb_false_r, !zsum_nil. split_and!; [done|done|lia|lia].
  - cbn [foldl List.filter map existsb snd]. destruct (IH (add_run b (ty, run))) as (-> & -> & -> & ->). rewrite !zsum_cons. unfold blocks at 2.
    cbn [add_run bt_blocking_types bt_has_failed_run bt_error_count bt_warning_count snd]. split_and!; [|by rewrite orb_assoc|lia|lia].
    destruct (_ || _); cbn [map fst]; [by rewrite <- app_assoc|done].
Qed.

Lemma bundle_blocking (runs : list (string * ReconciliationRunLifecycleSnapshot)) ty :
  ty ∈ map fst (List.filter (fun e => blocks (snd e)) runs) <-> exists run, (ty, run) ∈ runs /\ (ls_status run = Some FAILED \/ 0 < ls_error_count run).
Proof.
  split.
  - intros ([ty' run] & -> & [Hin Hb]%list_elem_of_In%List.filter_In)%list_elem_of_fmap. exists run. split; [by apply list_elem_of_In|].
    cbn in Hb. apply orb_true_iff in Hb as [Hb%bool_decide_eq_true_1|Hb%Z.ltb_lt]; auto.
  - intros (run & Hin & Hb). apply list_elem_of_fmap. exists (ty, run). split; [done|]. apply list_elem_of_In, List.filter_In. split; [by apply list_elem_of_In|].
    cbn. apply orb_true_iff. destruct Hb as [Hb|Hb]; [left; by apply bool_decide_eq_true_2|right; by apply Z.ltb_lt].
Qed.

Lemma bundle_failed (runs : list (string * ReconciliationRunLifecycleSnapshot)) :
  existsb (fun e => bool_decide (ls_status (snd e) = Some FAILED)) runs = true <-> exists ty run, (ty, run) ∈ runs /\ ls_status run = Some FAILED.
Proof.
  rewrite existsb_exists. split; [intros ([ty run] & Hin & Hb%bool_decide_eq_true_1)|intros (ty & run & Hin & Hb)].
  - exists ty, run. split; [by apply list_elem_of_In|done].
  - exists (ty, run). split; [by apply list_elem_of_In|by apply bool_decide_eq_true_2].
Qed.

(** A bundle of runs fails exactly when one of its runs failed, asks for a replay exactly when none failed and some run found errors,
    and completes otherwise; the blocking types are listed once each in order, and errors and warnings are added up. *)
Theorem bundle_outcome_decided runs : let o := determine_automatic_bundle_outcome runs in
  (ao_outcome_status o = "FAILED" <-> exists ty run, (ty, run) ∈ runs /\ ls_status run = Some FAILED) /\
  (ao_outcome_status o = "REQUIRES_REPLAY" <->
   (forall ty run, (ty, run) ∈ runs -> ls_status run <> Some FAILED) /\ exists ty run, (ty, run) ∈ runs /\ 0 < ls_error_count run) /\
  (ao_outcome_status o = "COMPLETED" <-> forall ty run, (ty, run) ∈ runs -> ls_status run <> Some FAILED /\ ls_error_count run <= 0) /\
  (forall ty, ty ∈ ao_blocking_reconciliation_types o <-> exists run, (ty, run) ∈ runs /\ (ls_status run = Some FAILED \/ 0 < ls_error_count run)) /\
  NoDup (ao_blocking_reconciliation_types o) /\ StronglySorted (fun x y => string_leb x y = true) (ao_blocking_reconciliation_types o) /\
  ao_error_count o = zsum (map (fun e => ls_error_count (snd e)) runs) /\ ao_warning_count o = zsum (map (fun e => ls_warning_count (snd e)) runs).
Proof.
  cbn zeta. unfold determine_automatic_bundle_outcome.
  pose proof (bundle_fold runs {| bt_blocking_types := []; bt_run_ids := []; bt_error_count := 0; bt_warning_count := 0; bt_has_failed_run := false |}) as (H1 & H2 & H3 & H4).
  cbn zeta in *. set (b := foldl add_run _ runs) in *. clearbody b. cbn [bt_blocking_types bt_has_failed_run bt_error_count bt_warning_count app orb] in *.
  assert (Hblk := bundle_blocking runs). assert (Hfail := bundle_failed runs). rewrite <- H1 in Hblk. rewrite <- H2 in Hfail.
  assert (Hnil : bt_blocking_types b = [] <-> forall ty, ty ∉ bt_blocking_types b) by (split; [intros -> ty; apply not_elem_of_nil|apply elem_of_nil_inv]).
  cbn [ao_outcome_status ao_blocking_reconciliation_types ao_error_count ao_warning_count].
  split_and!; [| | |intros ty; by rewrite stable_sort_perm, elem_of_remove_dups| |apply stable_sort_sorted; [apply string_leb_total|intros ? ? ?; apply string_leb_trans]|done|done].
  - destruct (bt_has_failed_run b); [naive_solver|]. destruct (bt_blocking_types b); naive_solver.
  - destruct (bt_has_failed_run b) eqn:Ef.
    + split; [done|]. intros [Hn _]. destruct (proj1 Hfail eq_refl) as (ty & run & Hin & Hf). by destruct (Hn ty run Hin).
    + assert (Hn : forall ty run, (ty, run) ∈ runs -> ls_status run <> Some FAILED) by (intros ty run Hin Hf; naive_solver).
      destruct (bt_blocking_types b) as [|ty0 tys] eqn:Eb.
      * split; [done|]. intros [_ (ty & run & Hin & He)]. destruct (proj1 Hnil eq_refl ty). apply Hblk. eauto.
      * split; [intros _|done]. split; [done|]. destruct (proj1 (Hblk ty0) ltac:(left)) as (run & Hin & [Hf|He]); [by destruct (Hn _ _ Hin)|eauto].
  - destruct (bt_has_failed_run b) eqn:Ef.
    + split; [done|]. intros Hn. destruct (proj1 Hfail eq_refl) as (ty & run & Hin & Hf). by destruct (Hn ty run Hin).
    + destruct (bt_blocking_types b) as [|ty0 tys] eqn:Eb; (split; [|done]) || (split; [done|]).
      * intros _ ty run Hin. split; [intros Hf; naive_solver|]. apply Z.nlt_ge. intros He. destruct (proj1 Hnil eq_refl ty). apply Hblk. eauto.
      * intros Hn. destruct (proj1 (Hblk ty0) ltac:(left)) as (run & Hin & [Hf|He]); destruct (Hn _ _ Hin); [done|lia].
  - rewrite stable_sort_perm. apply NoDup_remove_dups.
Qed.

(** ** The valuation control *)

Lemma beyond_units observed expected tolerance m n : units (-10) observed m -> units (-10) expected n -> Z.abs m <= 10 ^ 19 -> Z.abs n <= 10 ^ 19 -> stored tolerance ->
  exists delta, beyond_tolerance observed expected tolerance = Ok (if ul tolerance <? Z.abs (m - n) then Some delta else None).
Proof.
  intros Hm Hn Bm Bn [Ht _]. unfold beyond_tolerance, dsub, dabs.
  destruct (ambient_exact (add_exact observed (neg_exact expected)) (m - n)) as (delta & -> & Hd); [by apply units_sub|lia|]. cbn [mbind result_bind].
  destruct (ambient_exact (Dec (Z.abs (dcoeff delta)) (dexp delta)) (Z.abs (m - n))) as (a & -> & Ha); [|lia|].
  { unfold units in *. rewrite dval_Dec. transitivity (Qabs (dval delta)); [symmetry; apply dval_abs|]. by rewrite Hd, scaled_abs. }
  cbn [mbind result_bind]. exists delta. assert (dltb tolerance a = (ul tolerance <? Z.abs (m - n))) as ->; [|done].
  apply eq_true_iff_eq. rewrite dltb_spec, Z.ltb_lt. by apply (units_lt (-10)).
Qed.

Section Valued.
Context `{hashing : Hashing}.

Lemma economics_stored p i e v : calculate_position_valuation_local_economics p i = Ok e -> le_total_market_value_local e = Some v -> stored v.
Proof.
  assert (Hnorm : forall cp cl ac tm ne sv, normalize_local_economics p i cp cl ac tm ne sv = Ok e -> le_total_market_value_local e = Some v -> stored v).
  { intros cp cl ac tm ne sv H Hv. unfold normalize_local_economics in H. do 5 (apply bind_Ok in H as (? & _ & H)). apply bind_Ok in H as (total & Ht & H).
    apply bind_Ok in H as (? & _ & H). apply bind_Ok in H as (? & _ & H). injection H as <-. cbn in Hv. subst total.
    case_match; [|destruct tm as [n|]; [|done]].
    - apply bind_Ok in Ht as (t & Ha & [= ->]). unfold p_add, calculate in Ha. repeat case_match; try done. by apply bind_Ok in Ha as (? & _ & [? _]%book_normalize).
    - cbn in Ht. apply bind_Ok in Ht as (t & Ha & [= ->]). destruct n as [d| |]; [by apply book_normalize in Ha as [? _]|done|done]. }
  intros H Hv. unfold calculate_position_valuation_local_economics in H. do 4 (apply bind_Ok in H as (? & _ & H)). destruct (vp_output_measure p).
  - destruct (decide _); [by eapply Hnorm|]. apply bind_Ok in H as (? & _ & H). by eapply Hnorm.
  - by eapply Hnorm.
  - by eapply Hnorm.
Qed.

Lemma authoritative_stored quantity price receipt v : authoritative_market_value_local quantity price receipt = Ok (Some v) -> stored v.
Proof.
  unfold authoritative_market_value_local. intros H. repeat (case_match; try done). injection H as H. by eapply economics_stored.
Qed.

(** A snapshot whose columns are filled with stored amounts, under a supported receipt. *)
Record supported_evidence (e : PositionValuationEvidence) (quantity cost cost_reporting price observed observed_unrealized : decimal)
  (receipt : PositionValuationReceiptEvidence) : Prop := {
  sv_quantity : ev_quantity e = Some quantity;
  sv_cost : ev_cost_basis_local e = Some cost;
  sv_cost_reporting : ev_cost_basis_reporting e = Some cost_reporting;
  sv_price : ev_market_price e = Some price;
  sv_observed : ev_market_value_local e = Some observed;
  sv_unrealized : ev_unrealized_gain_loss_local e = Some observed_unrealized;
  sv_receipt : ev_valuation_receipt e = Some receipt;
  sv_supported : re_supportability receipt = "SUPPORTED";
  sv_positive : dleb price dzero = false;
  sv_stored : Forall stored [cost; observed; observed_unrealized]
}.

(** What the control returns for such a snapshot: at most one finding per comparison. *)
Lemma supported_findings e quantity cost cost_reporting price observed observed_unrealized receipt expected tolerance :
  supported_evidence e quantity cost cost_reporting price observed observed_unrealized receipt ->
  authoritative_market_value_local quantity price receipt = Ok (Some expected) -> stored tolerance ->
  exists by_value by_result : ReconciliationFinding, position_valuation_reconciliation_findings e tolerance =
    Ok (match fx_rate_date_finding e with Some f => [f] | None => [] end ++
        (if ul tolerance <? Z.abs (ul observed - ul expected) then [by_value] else []) ++
        (if ul tolerance <? Z.abs (ul observed_unrealized - (ul expected - ul cost)) then [by_result] else []))%list.
Proof.
  intros [Q C CR P O U R S Pos HS] Ha Ht. apply Forall_cons in HS as [[Uc Bc] [[Uo Bo] [[Uu Bu] _]%Forall_cons]%Forall_cons].
  destruct (authoritative_stored _ _ _ _ Ha) as [Ux Bx]. unfold position_valuation_reconciliation_findings, required_column.
  rewrite Q, C, CR, P, O, U. cbn [optional_decimal required_decimal decimal_or_none finite_or_none coerce_positive_market_price_or_none mbind result_bind].
  rewrite Pos. unfold expected_market_value. rewrite R, S. cbn [String.eqb Ascii.eqb Bool.eqb]. rewrite Ha. cbn [mbind result_bind].
  unfold dsub at 1. destruct (ambient_exact (add_exact expected (neg_exact cost)) (ul expected - ul cost)) as (un & -> & Hun); [by apply units_sub|lia|]. cbn [mbind result_bind].
  destruct (beyond_units observed expected tolerance _ _ Uo Ux ltac:(lia) ltac:(lia) Ht) as (d1 & ->). cbn [mbind result_bind].
  destruct (beyond_units observed_unrealized un tolerance _ _ Uu Hun ltac:(lia) ltac:(lia) Ht) as (d2 & ->). cbn [mbind result_bind].
  do 2 eexists. f_equal. f_equal. f_equal; by destruct (_ <? _).
Qed.

Lemma no_fx_finding e : fx_rate_date_finding e = None <-> forall d, ev_valuation_fx_rate_date e = Some d -> d = ev_business_date e.
Proof.
  unfold fx_rate_date_finding. destruct (ev_valuation_fx_rate_date e) as [d|]; [|naive_solver]. destruct (Z.eqb_spec d (ev_business_date e)); naive_solver.
Qed.

(** C13: for a snapshot under a supported receipt, the valuation control reports nothing exactly when the rate is of the valuation date and
    both the market value and the unrealised result are within the tolerance of what the policy of the receipt gives. *)
Theorem valuation_control_decides e quantity cost cost_reporting price observed observed_unrealized receipt expected tolerance :
  supported_evidence e quantity cost cost_reporting price observed observed_unrealized receipt ->
  authoritative_market_value_local quantity price receipt = Ok (Some expected) -> stored tolerance ->
  exists findings, position_valuation_reconciliation_findings e tolerance = Ok findings /\
    (findings = [] <-> (forall d, ev_valuation_fx_rate_date e = Some d -> d = ev_business_date e) /\
                       Z.abs (ul observed - ul expected) <= ul tolerance /\ Z.abs (ul observed_unrealized - (ul expected - ul cost)) <= ul tolerance).
Proof.
  intros He Ha Ht. destruct (supported_findings _ _ _ _ _ _ _ _ _ _ He Ha Ht) as (f & g & ->). eexists. split; [reflexivity|]. rewrite <- no_fx_finding.
  destruct (fx_rate_date_finding e), (Z.ltb_spec (ul tolerance) (Z.abs (ul observed - ul expected))),
    (Z.ltb_spec (ul tolerance) (Z.abs (ul observed_unrealized - (ul expected - ul cost)))); cbn [app]; naive_solver lia.
Qed.

(** An unscoped bond is reported for its missing quote authority alone: the rate date is not checked for it. *)
Lemma bond_hides_fx_date e quantity cost cost_reporting price tolerance :
  ev_quantity e = Some quantity -> ev_cost_basis_local e = Some cost -> ev_cost_basis_reporting e = Some cost_reporting -> ev_market_price e = Some price ->
  dleb price dzero = false -> ev_valuation_receipt e = None -> normalize_code (ev_product_type e) = "BOND" -> dis_zero quantity = false ->
  position_valuation_reconciliation_findings e tolerance = Ok [missing_bond_quote_authority_finding e].
Proof.
  intros Q C CR P Pos R B Hz. unfold position_valuation_reconciliation_findings, required_column.
  rewrite Q, C, CR, P. cbn [optional_decimal required_decimal decimal_or_none finite_or_none coerce_positive_market_price_or_none mbind result_bind].
  rewrite Pos. unfold expected_market_value. rewrite R. unfold requires_bond_quote_authority, normalized_product_type. rewrite B.
  cbn [String.eqb Ascii.eqb Bool.eqb negb required_decimal decimal_or_none finite_or_none mbind result_bind].
  unfold is_quote_independent_flat_position. cbn [forallb decimal_or_none finite_or_none]. assert (deqb quantity dzero = false) as ->; [|done].
  apply deqb_false. apply dis_zero_false in Hz. by rewrite dval_dzero.
Qed.
End Valued.
