(* ===== verification/DerivedStateExamples.v ===== *)
(** * Two position days, published and reconciled

    A portfolio in dollars holds one security in dollars and one in euros: its day is published, and
    the control that reads the same facts reports nothing. *)

From Stdlib Require Import ZArith Lia QArith Qabs String.
From stdpp Require Import base tactics list strings.
From S2P Require Import Prelude PyDecimal DecimalFacts PyTime Precision Lineage Registry Transactions Values Position Lots PositionValuation Cashflow CashflowFacts Timeseries TimeseriesFacts Reconciliation ReconciliationFacts.

#[local] Open Scope string_scope.
#[local] Open Scope Z_scope.

Ltac stored_value := split; vm_compute; reflexivity.

(** ** Data *)

Definition day : date := 19675.
Definition morning : datetime := {| dt_us := 1700000000000000; dt_utcoffset := Some 0 |}.

Definition position_record (security : string) (bod eod flow : decimal) : PositionTimeseriesRecord :=
  {| pt_portfolio_id := "P1"; pt_security_id := security; pt_date := day; pt_epoch := 0; pt_bod_market_value := bod; pt_bod_cashflow_position := dzero;
     pt_eod_cashflow_position := dzero; pt_bod_cashflow_portfolio := flow; pt_eod_cashflow_portfolio := dzero; pt_eod_market_value := eod;
     pt_fees := Dec 5 (-1); pt_quantity := Dec 10 0; pt_cost := Dec 9 0; pt_calculation_lineage := None; pt_materialized_at := None |}.

Definition us_position : PositionTimeseriesRecord := position_record "US-EQ" (Dec 1005 (-1)) (Dec 10275 (-2)) dzero.
Definition eu_position : PositionTimeseriesRecord := position_record "EU-EQ" (Dec 3333333333 (-10)) (Dec 34 (-2)) (Dec 1 (-1)).

Definition euro_rate : TimeseriesFxRate :=
  {| fx_rate := Dec 10833333333 (-10); fx_from_currency := "EUR"; fx_to_currency := "USD"; fx_rate_date := day; fx_source_record_id := Some 7;
     fx_source_updated_at := Some morning |}.
Definition dollar_rate : TimeseriesFxRate :=
  {| fx_rate := d_one; fx_from_currency := "USD"; fx_to_currency := "USD"; fx_rate_date := day; fx_source_record_id := None; fx_source_updated_at := None |}.

Definition scope : PortfolioAggregationScope := {| sc_tenant_id := "T1"; sc_portfolio_id := "P1"; sc_base_currency := "USD" |}.
Definition us_contribution : PortfolioPositionContribution := {| pc_position_timeseries := us_position; pc_fx_rate := dollar_rate |}.
Definition eu_contribution : PortfolioPositionContribution := {| pc_position_timeseries := eu_position; pc_fx_rate := euro_rate |}.
Definition contributions : list PortfolioPositionContribution := [us_contribution; eu_contribution].

Definition day_record : result PortfolioTimeseriesRecord := @calculate_portfolio_timeseries constant_hashing scope day 0 contributions.

Lemma contributions_are_stored : Forall stored_contribution contributions.
Proof. repeat constructor; vm_compute; reflexivity. Qed.

(** ** Portfolio days *)

Lemma portfolio_day_ignores_order_witness : exists r, day_record = Ok r /\
  @calculate_portfolio_timeseries constant_hashing scope day 0 [eu_contribution; us_contribution] = Ok r.
Proof.
  destruct day_record as [r|e] eqn:E; [|by vm_compute in E]. exists r. split; [done|].
  apply (@portfolio_day_ignores_order constant_hashing scope day 0 contributions [eu_contribution; us_contribution] r); [apply perm_swap|exact E].
Defined.

Lemma portfolio_day_refines_witness : exists r, day_record = Ok r /\ @published_day constant_hashing scope day 0 contributions r.
Proof.
  destruct day_record as [r|e] eqn:E; [|by vm_compute in E]. exists r. split; [done|].
  apply (@portfolio_day_refines constant_hashing constant_hashing_ok scope day 0 contributions);
    [exact contributions_are_stored|repeat constructor|vm_compute; reflexivity|exact E].
Defined.

(** ** Position days *)

Definition snapshot (d : date) (value : decimal) : PositionSnapshotRecord :=
  {| sn_portfolio_id := "P1"; sn_security_id := "US-EQ"; sn_date := d; sn_epoch := 0; sn_quantity := Dec 10 0; sn_cost_basis_local := Some (Dec 90 0);
     sn_market_value_local := Some value; sn_valuation_status := "VALUED_CURRENT"; sn_source_updated_at := None; sn_calculation_lineage := None |}.

Definition purchase_flow : PositionCashflowRecord :=
  {| pf_transaction_id := "B1"; pf_cashflow_date := day; pf_epoch := 0; pf_amount := Dec (-25) 0; pf_classification := "INVESTMENT_OUTFLOW"; pf_timing := "eod";
     pf_is_position_flow := true; pf_is_portfolio_flow := false; pf_calculation_lineage := None |}.
Definition fee_flow : PositionCashflowRecord :=
  {| pf_transaction_id := "F1"; pf_cashflow_date := day; pf_epoch := 0; pf_amount := Dec (-5) (-1); pf_classification := "EXPENSE"; pf_timing := "BOD";
     pf_is_position_flow := false; pf_is_portfolio_flow := true; pf_calculation_lineage := None |}.

Lemma position_day_refines_witness : exists r,
  @calculate_position_timeseries constant_hashing (snapshot day (Dec 10275 (-2))) (Some (snapshot (day - 1) (Dec 1005 (-1)))) [purchase_flow; fee_flow] 0 = Ok r /\
  @position_day constant_hashing (snapshot day (Dec 10275 (-2))) (Dec 1005 (-1)) (Dec 10275 (-2)) [purchase_flow; fee_flow] 0 r.
Proof.
  destruct (@calculate_position_timeseries constant_hashing (snapshot day (Dec 10275 (-2))) (Some (snapshot (day - 1) (Dec 1005 (-1)))) [purchase_flow; fee_flow] 0)
    as [r|e] eqn:E; [|by vm_compute in E]. exists r. split; [done|].
  apply (@position_day_refines constant_hashing constant_hashing_ok (snapshot day (Dec 10275 (-2))) (Some (snapshot (day - 1) (Dec 1005 (-1)))) [purchase_flow; fee_flow] 0);
    [repeat constructor; stored_value|vm_compute; reflexivity|reflexivity|reflexivity|exact E].
Defined.

(** ** The control *)

#[local] Instance market : TimeseriesMarketDataPort := {
  get_instruments_by_ids := fun _ => [{| ti_security_id := "US-EQ"; ti_currency := "USD" |}; {| ti_security_id := "EU-EQ"; ti_currency := "EUR" |}];
  get_fx_rate := fun from to d => if String.eqb from "EUR" && String.eqb to "USD" then Some euro_rate else None
}.

Definition authoritative_row (p : PositionTimeseriesRecord) (currency : string) : AuthoritativeRow :=
  {| ar_position := p; ar_instrument_currency := Some currency; ar_base_currency := Some "USD" |}.

#[local] Instance control : ReconciliationEvidence := {
  fetch_authoritative_position_timeseries_rows := fun _ => [authoritative_row eu_position "EUR"; authoritative_row us_position "USD"];
  fetch_authoritative_snapshot_count := fun _ => 2;
  fetch_latest_fx_rates := fun keys => map (fun k => (k, match get_fx_rate (lk_from_currency k) (lk_to_currency k) (lk_business_date k) with
                                                         | Some r => PDecimal (Finite (fx_rate r)) | None => PNone end)) keys
}.

Definition scope_key : ScopeKey := {| sk_portfolio_id := "P1"; sk_business_date := day; sk_epoch := 0 |}.

Lemma rates_given keys k v : k ∈ keys -> match get_fx_rate (lk_from_currency k) (lk_to_currency k) (lk_business_date k) with Some r => PDecimal (Finite (fx_rate r)) | None => PNone end = v ->
  od_get k (fetch_latest_fx_rates keys) = Some v.
Proof.
  intros Hk Hv. unfold fetch_latest_fx_rates, control. induction keys as [|k' keys IH]; [by apply elem_of_nil in Hk|]. cbn [map od_get]. case_decide; [subst k'; by rewrite Hv|].
  apply IH. by apply elem_of_cons in Hk as [->|].
Qed.

Lemma evidence_is_same : same_evidence scope [us_position; eu_position] scope_key.
Proof.
  constructor; [apply perm_swap| | |reflexivity|].
  - intros row i Hrow. apply elem_of_cons in Hrow as [->|Hrow]; [|apply list_elem_of_singleton in Hrow as ->]; vm_compute; intros [= <-]; done.
  - intros row Hrow. apply elem_of_cons in Hrow as [->|Hrow]; [|apply list_elem_of_singleton in Hrow as ->]; done.
  - intros keys k found Hk Hf. by apply rates_given; [|rewrite Hf].
Qed.

Lemma day_is_bounded : bounded_day scope [us_position; eu_position].
Proof.
  intros cs HF. inversion HF as [|? c1 ? ? (P1 & i1 & I1 & _ & R1) HF1]; subst. inversion HF1 as [|? c2 ? ? (P2 & i2 & I2 & _ & R2) HF2]; subst. inversion HF2; subst.
  vm_compute in I1, I2. injection I1 as <-. injection I2 as <-. change (String.eqb _ _) with true in R1. change (String.eqb _ _) with false in R2. cbv beta iota in R1, R2.
  destruct R2 as (found & Hf & R2 & _). vm_compute in Hf. injection Hf as <-. cbn [fx_rate] in R2. unfold bounded_gross, aggregated_amounts, gross, weight. cbn [map].
  rewrite P1, P2, R1, <- R2. repeat (apply Forall_cons_2; [vm_compute; discriminate|]). apply Forall_nil_2.
Qed.

Lemma published_day_reconciles_witness : exists r, @calculate_daily_record constant_hashing market scope day 0 [us_position; eu_position] = Ok r /\
  timeseries_integrity_findings_for_key scope_key [(scope_key, r)] [] DEFAULT_VALUE_TOLERANCE = Ok [].
Proof.
  destruct (@calculate_daily_record constant_hashing market scope day 0 [us_position; eu_position]) as [r|e] eqn:E; [|by vm_compute in E]. exists r. split; [done|].
  apply (@published_day_reconciles constant_hashing market control scope day 0 [us_position; eu_position] r scope_key [(scope_key, r)] [] DEFAULT_VALUE_TOLERANCE);
    [exact E|exact evidence_is_same| |repeat constructor; stored_value|exact day_is_bounded|vm_compute; discriminate|vm_compute; discriminate|discriminate|reflexivity|reflexivity].
  intros from to d found. cbn [get_fx_rate market]. destruct (_ && _); [|discriminate]. intros [= <-]. stored_value.
Defined.

(** ** Cashflows and valuations *)

Lemma cashflow_control_decides_witness : exists cf, bond_cashflow = Ok cf /\ transaction_cashflow_finding None redeemed_bond principal_rule (Some cf) = None.
Proof.
  destruct bond_cashflow as [cf|] eqn:E; [|by vm_compute in E]. exists cf. split; [done|].
  apply (@cashflow_control_decides constant_hashing None redeemed_bond principal_rule None CURRENT_BOOKING cf E); [split; reflexivity|].
  split; [discriminate|]. vm_compute in E. injection E as <-. intros _ H. by vm_compute in H.
Defined.

Definition unit_receipt : PositionValuationReceiptEvidence :=
  {| re_supportability := "SUPPORTED"; re_policy_id := Some "UNIT_PRICE_MARKET_VALUE"; re_policy_version := Some 1; re_quote_basis := Some "UNIT_PRICE";
     re_receipt_hash := digest_zero |}.

Definition valued_snapshot : PositionValuationEvidence :=
  {| ev_portfolio_id := "P1"; ev_security_id := "US-EQ"; ev_business_date := day; ev_epoch := 0; ev_quantity := Some (Dec 10 0);
     ev_market_price := Some (Dec 10275 (-3)); ev_market_value_local := Some (Dec 10275 (-2)); ev_cost_basis_reporting := Some (Dec 90 0);
     ev_cost_basis_local := Some (Dec 90 0); ev_unrealized_gain_loss_local := Some (Dec 1275 (-2)); ev_product_type := Some "EQUITY";
     ev_valuation_fx_rate_date := Some day; ev_valuation_receipt := Some unit_receipt |}.

Lemma valuation_control_decides_witness : exists expected, @authoritative_market_value_local constant_hashing (Dec 10 0) (Dec 10275 (-3)) unit_receipt = Ok (Some expected) /\
  exists findings, @position_valuation_reconciliation_findings constant_hashing valued_snapshot DEFAULT_VALUE_TOLERANCE = Ok findings /\ findings = [].
Proof.
  destruct (@authoritative_market_value_local constant_hashing (Dec 10 0) (Dec 10275 (-3)) unit_receipt) as [[expected|]|] eqn:E; [|by vm_compute in E..].
  exists expected. split; [done|].
  destruct (@valuation_control_decides constant_hashing valued_snapshot (Dec 10 0) (Dec 90 0) (Dec 90 0) (Dec 10275 (-3)) (Dec 10275 (-2)) (Dec 1275 (-2)) unit_receipt
    expected DEFAULT_VALUE_TOLERANCE) as (findings & H & Hf); [constructor; try reflexivity; repeat constructor; stored_value|exact E|stored_value|].
  exists findings. split; [exact H|]. apply Hf. vm_compute in E. injection E as <-.
  split_and!; [by intros d [= <-]|vm_compute; discriminate|vm_compute; discriminate].
Defined.
