(* ===== verification/LinkedLegs.v ===== *)
(** * Linked settlement and corporate-action legs

    [transaction/settlement/upstream_pairing.py]: the checks of a product leg against the cash leg that
    an upstream system supplies for it; [cost_basis/corporate_action_reconciliation.py]: conservation of
    basis over a linked corporate-action group and the reciprocity of its quantity-transfer legs; and the
    findings and the summary that [application/corporate_action_reconciliation.py] derives from both.

    An iterable of transactions is a list; the sums are taken in the ambient decimal context, as the code
    takes them.  The identity of a run is a digest of its evidence and an argument here. *)

From Stdlib Require Import ZArith Lia QArith String.
From stdpp Require Import base tactics list strings.
From S2P Require Import Prelude PyDecimal DecimalFacts PyTime Precision Lineage Registry Transactions Values Settlement.

#[local] Open Scope string_scope.
#[local] Open Scope Z_scope.

(** ** Upstream pairs *)

(** A violated invariant: the field and the message. *)
Definition UpstreamCashLegPairingIssue : Type := string * string.

Definition validate_shared_identifier (field : string) (product_value cash_value : option string) : list UpstreamCashLegPairingIssue :=
  let normalized_product_value := strip (or_text product_value "") in
  let normalized_cash_value := strip (or_text cash_value "") in
  if truthy normalized_product_value && String.eqb normalized_product_value normalized_cash_value then []
  else [(field, "product and cash legs must carry the same non-empty " +:+ field +:+ ".")].

(** The check of the amount, for product legs with an ordinary settlement. *)
Definition settlement_amount_issues (product_leg cash_leg : BookedTransaction) : result (list UpstreamCashLegPairingIssue) :=
  if in_set (normalize_transaction_control_code (Some (tx_transaction_type product_leg))) ORDINARY_SETTLEMENT_TRANSACTION_TYPES then
    movement ← calculate_settlement_cash_movement product_leg;
    let expected_amount := sm_amount movement in
    Ok (if deqb (tx_gross_transaction_amount cash_leg) expected_amount then []
        else [("gross_transaction_amount", "cash leg gross_transaction_amount must equal the canonical net settlement amount " +:+
                                           string_of_decimal expected_amount +:+ ".")])
  else Ok [].

Definition validate_upstream_cash_leg_pairing (product_leg cash_leg : BookedTransaction) : result (list UpstreamCashLegPairingIssue) :=
  let issue_if (b : bool) field message : list UpstreamCashLegPairingIssue := if b then [(field, message)] else [] in
  upstream ← is_upstream_provided_cash_entry_mode (tx_cash_entry_mode product_leg);
  amount_issues ← settlement_amount_issues product_leg cash_leg;
  Ok (issue_if (negb upstream) "cash_entry_mode" "product leg cash_entry_mode must be UPSTREAM_PROVIDED." ++
      issue_if (negb (String.eqb (tx_portfolio_id product_leg) (tx_portfolio_id cash_leg))) "portfolio_id"
        "product and cash legs must belong to the same portfolio_id." ++
      issue_if (bool_decide (tx_external_cash_transaction_id product_leg <> Some (tx_transaction_id cash_leg))) "external_cash_transaction_id"
        "product leg external_cash_transaction_id must match cash leg transaction_id." ++
      issue_if (negb (String.eqb (normalize_transaction_control_code (Some (tx_transaction_type cash_leg))) "ADJUSTMENT")) "transaction_type"
        "cash leg transaction_type must be ADJUSTMENT." ++
      issue_if (dleb (tx_gross_transaction_amount cash_leg) dzero) "gross_transaction_amount"
        "cash leg gross_transaction_amount must be greater than zero." ++
      amount_issues ++
      validate_shared_identifier "economic_event_id" (tx_economic_event_id product_leg) (tx_economic_event_id cash_leg) ++
      validate_shared_identifier "linked_transaction_group_id" (tx_linked_transaction_group_id product_leg) (tx_linked_transaction_group_id cash_leg))%list.

Definition assert_upstream_cash_leg_pairing (product_leg cash_leg : BookedTransaction) : result unit :=
  issues ← validate_upstream_cash_leg_pairing product_leg cash_leg;
  match (issues : list UpstreamCashLegPairingIssue) with [] => Ok tt | _ => Raise (UpstreamCashLegPairingError issues) end.

(** ** Conservation of basis *)

Definition DEFAULT_CORPORATE_ACTION_BASIS_TOLERANCE : decimal := Dec 1 (-2).

Inductive CorporateActionBasisReconciliationStatus :=
  BALANCED | BASIS_MISMATCH | INSUFFICIENT_CASH_BASIS | INSUFFICIENT_LEGS | INVALID_BASIS_ALLOCATION | UNSUPPORTED_ADJUSTMENT.

#[export] Instance basis_status_eq_dec : EqDecision CorporateActionBasisReconciliationStatus.
Proof. solve_decision. Defined.

Definition basis_status_value (s : CorporateActionBasisReconciliationStatus) : string :=
  match s with
  | BALANCED => "balanced" | BASIS_MISMATCH => "basis_mismatch" | INSUFFICIENT_CASH_BASIS => "insufficient_cash_basis"
  | INSUFFICIENT_LEGS => "insufficient_legs" | INVALID_BASIS_ALLOCATION => "invalid_basis_allocation" | UNSUPPORTED_ADJUSTMENT => "unsupported_adjustment"
  end.

(** [_BasisTotals]: the counts, the sums and the sums by instrument. *)
Record BasisTotals := {
  bs_source_leg_count : Z; bs_target_leg_count : Z; bs_cash_consideration_count : Z; bs_fractional_cash_leg_count : Z;
  bs_source_basis_out_local : decimal; bs_target_basis_in_local : decimal; bs_cash_basis_local : decimal;
  bs_cash_consideration_basis_local : decimal; bs_fractional_basis_local : decimal; bs_missing_cash_basis_count : Z;
  bs_excluded_cash_settlement_adjustment_count : Z; bs_unsupported_adjustment_count : Z;
  bs_target_basis_by_instrument : list (string * decimal); bs_fractional_basis_by_instrument : list (string * decimal)
}.

Definition empty_basis_totals : BasisTotals :=
  {| bs_source_leg_count := 0; bs_target_leg_count := 0; bs_cash_consideration_count := 0; bs_fractional_cash_leg_count := 0;
     bs_source_basis_out_local := dzero; bs_target_basis_in_local := dzero; bs_cash_basis_local := dzero; bs_cash_consideration_basis_local := dzero;
     bs_fractional_basis_local := dzero; bs_missing_cash_basis_count := 0; bs_excluded_cash_settlement_adjustment_count := 0;
     bs_unsupported_adjustment_count := 0; bs_target_basis_by_instrument := []; bs_fractional_basis_by_instrument := [] |}.

Record CorporateActionBasisReconciliation := {
  br_status : CorporateActionBasisReconciliationStatus; br_source_leg_count : Z; br_target_leg_count : Z; br_cash_consideration_count : Z;
  br_fractional_cash_leg_count : Z; br_source_basis_out_local : decimal; br_target_basis_in_local : decimal; br_target_basis_retained_local : decimal;
  br_cash_basis_local : decimal; br_cash_consideration_basis_local : decimal; br_fractional_basis_local : decimal; br_missing_cash_basis_count : Z;
  br_excluded_cash_settlement_adjustment_count : Z; br_unsupported_adjustment_count : Z; br_net_basis_delta_local : decimal; br_basis_tolerance : decimal
}.

(** [_normalized_reference]. *)
Definition normalized_reference (value : option string) : option string :=
  let normalized := strip (or_text value "") in if truthy normalized then Some normalized else None.

Definition transaction_key (t : BookedTransaction) : string := strip (tx_transaction_id t).

(** The body of the loop of [_index_unambiguous_transactions]: a second transaction of an identity makes it ambiguous. *)
Definition index_transaction (transaction_by_id : list (string * option BookedTransaction)) (t : BookedTransaction) : list (string * option BookedTransaction) :=
  let transaction_id := transaction_key t in
  if negb (truthy transaction_id) then transaction_by_id else
  match od_get transaction_id transaction_by_id with
  | Some _ => od_set transaction_id None transaction_by_id
  | None => od_set transaction_id (Some t) transaction_by_id
  end.

Definition index_unambiguous_transactions (transactions : list BookedTransaction) : list (string * option BookedTransaction) :=
  foldl index_transaction [] transactions.

Definition GOVERNED_CASH_SETTLEMENTS : list (string * string) :=
  [("CASH_IN_LIEU", "CASH_IN_LIEU_SETTLEMENT"); ("CASH_CONSIDERATION", "CASH_CONSIDERATION_SETTLEMENT")].

Definition is_governed_cash_settlement_adjustment (t : BookedTransaction) (transaction_by_id : list (string * option BookedTransaction)) : result bool :=
  let originating_type := normalize_corporate_action_transaction_type (tx_originating_transaction_type t) in
  let adjustment_reason := normalize_code (tx_adjustment_reason t) in
  if negb (bool_decide ((originating_type, adjustment_reason) ∈ GOVERNED_CASH_SETTLEMENTS)) then Ok false else
  match normalized_reference (tx_originating_transaction_id t) with
  | None => Ok false
  | Some originating_transaction_id =>
      match od_get originating_transaction_id transaction_by_id with
      | None | Some None => Ok false
      | Some (Some originating_transaction) =>
          if negb (String.eqb (normalize_corporate_action_transaction_type (Some (tx_transaction_type originating_transaction))) originating_type) then Ok false
          else if negb (String.eqb (normalize_code (tx_link_type t)) (originating_type +:+ "_TO_CASH")) then Ok false
          else issues ← validate_upstream_cash_leg_pairing originating_transaction t;
               Ok (match (issues : list UpstreamCashLegPairingIssue) with [] => true | _ => false end)
      end
  end.

Definition add_instrument_basis (basis_by_instrument : list (string * decimal)) (instrument_id : string) (basis : decimal) : result (list (string * decimal)) :=
  let normalized_instrument_id := strip instrument_id in
  total ← dadd default_context (od_get_default dzero normalized_instrument_id basis_by_instrument) basis;
  Ok (od_set normalized_instrument_id total basis_by_instrument).

(** [abs(net_cost_local if net_cost_local is not None else gross_transaction_amount)]. *)
Definition leg_basis (t : BookedTransaction) : result decimal :=
  dabs default_context (default (tx_gross_transaction_amount t) (tx_net_cost_local t)).

(** The allocated basis of a cash leg; absent and negative ones count as missing. *)
Definition allocated_basis (t : BookedTransaction) : option decimal :=
  match tx_allocated_cost_basis_local t with
  | Some basis => if dltb basis dzero then None else Some basis
  | None => None
  end.

Definition is_source_leg (transaction_type : string) : bool :=
  in_set transaction_type (SOURCE_BASIS_TRANSFER_TRANSACTION_TYPES ++ SOURCE_QUANTITY_TRANSFER_TRANSACTION_TYPES)%list.
Definition is_target_leg (transaction_type : string) : bool :=
  in_set transaction_type (TARGET_BASIS_TRANSFER_TRANSACTION_TYPES ++ TARGET_QUANTITY_TRANSFER_TRANSACTION_TYPES)%list.

Definition add_source_leg (b : BasisTotals) (t : BookedTransaction) : result BasisTotals :=
  basis ← leg_basis t;
  total ← dadd default_context (bs_source_basis_out_local b) basis;
  Ok {| bs_source_leg_count := bs_source_leg_count b + 1; bs_target_leg_count := bs_target_leg_count b;
        bs_cash_consideration_count := bs_cash_consideration_count b; bs_fractional_cash_leg_count := bs_fractional_cash_leg_count b;
        bs_source_basis_out_local := total; bs_target_basis_in_local := bs_target_basis_in_local b; bs_cash_basis_local := bs_cash_basis_local b;
        bs_cash_consideration_basis_local := bs_cash_consideration_basis_local b; bs_fractional_basis_local := bs_fractional_basis_local b;
        bs_missing_cash_basis_count := bs_missing_cash_basis_count b;
        bs_excluded_cash_settlement_adjustment_count := bs_excluded_cash_settlement_adjustment_count b;
        bs_unsupported_adjustment_count := bs_unsupported_adjustment_count b; bs_target_basis_by_instrument := bs_target_basis_by_instrument b;
        bs_fractional_basis_by_instrument := bs_fractional_basis_by_instrument b |}.

Definition add_target_leg (b : BasisTotals) (t : BookedTransaction) : result BasisTotals :=
  target_basis ← leg_basis t;
  total ← dadd default_context (bs_target_basis_in_local b) target_basis;
  by_instrument ← add_instrument_basis (bs_target_basis_by_instrument b) (tx_instrument_id t) target_basis;
  Ok {| bs_source_leg_count := bs_source_leg_count b; bs_target_leg_count := bs_target_leg_count b + 1;
        bs_cash_consideration_count := bs_cash_consideration_count b; bs_fractional_cash_leg_count := bs_fractional_cash_leg_count b;
        bs_source_basis_out_local := bs_source_basis_out_local b; bs_target_basis_in_local := total; bs_cash_basis_local := bs_cash_basis_local b;
        bs_cash_consideration_basis_local := bs_cash_consideration_basis_local b; bs_fractional_basis_local := bs_fractional_basis_local b;
        bs_missing_cash_basis_count := bs_missing_cash_basis_count b;
        bs_excluded_cash_settlement_adjustment_count := bs_excluded_cash_settlement_adjustment_count b;
        bs_unsupported_adjustment_count := bs_unsupported_adjustment_count b; bs_target_basis_by_instrument := by_instrument;
        bs_fractional_basis_by_instrument := bs_fractional_basis_by_instrument b |}.

(** A cash leg; a fractional one also takes its basis from the target of its instrument. *)
Definition add_cash_leg (b : BasisTotals) (t : BookedTransaction) (fractional : bool) : result BasisTotals :=
  let counted b :=
    {| bs_source_leg_count := bs_source_leg_count b; bs_target_leg_count := bs_target_leg_count b;
       bs_cash_consideration_count := bs_cash_consideration_count b + (if fractional then 0 else 1);
       bs_fractional_cash_leg_count := bs_fractional_cash_leg_count b + (if fractional then 1 else 0);
       bs_source_basis_out_local := bs_source_basis_out_local b; bs_target_basis_in_local := bs_target_basis_in_local b;
       bs_cash_basis_local := bs_cash_basis_local b; bs_cash_consideration_basis_local := bs_cash_consideration_basis_local b;
       bs_fractional_basis_local := bs_fractional_basis_local b;
       bs_missing_cash_basis_count := bs_missing_cash_basis_count b + (match allocated_basis t with None => 1 | Some _ => 0 end);
       bs_excluded_cash_settlement_adjustment_count := bs_excluded_cash_settlement_adjustment_count b;
       bs_unsupported_adjustment_count := bs_unsupported_adjustment_count b; bs_target_basis_by_instrument := bs_target_basis_by_instrument b;
       bs_fractional_basis_by_instrument := bs_fractional_basis_by_instrument b |} in
  match allocated_basis t with
  | None => Ok (counted b)
  | Some basis =>
      consideration ← (if fractional then Ok (bs_cash_consideration_basis_local b) else dadd default_context (bs_cash_consideration_basis_local b) basis);
      fractional_basis ← (if fractional then dadd default_context (bs_fractional_basis_local b) basis else Ok (bs_fractional_basis_local b));
      cash_basis ← dadd default_context (bs_cash_basis_local b) basis;
      by_instrument ← (if fractional then add_instrument_basis (bs_fractional_basis_by_instrument b) (tx_instrument_id t) basis
                       else Ok (bs_fractional_basis_by_instrument b));
      let c := counted b in
      Ok {| bs_source_leg_count := bs_source_leg_count c; bs_target_leg_count := bs_target_leg_count c;
            bs_cash_consideration_count := bs_cash_consideration_count c; bs_fractional_cash_leg_count := bs_fractional_cash_leg_count c;
            bs_source_basis_out_local := bs_source_basis_out_local c; bs_target_basis_in_local := bs_target_basis_in_local c;
            bs_cash_basis_local := cash_basis; bs_cash_consideration_basis_local := consideration; bs_fractional_basis_local := fractional_basis;
            bs_missing_cash_basis_count := bs_missing_cash_basis_count c;
            bs_excluded_cash_settlement_adjustment_count := bs_excluded_cash_settlement_adjustment_count c;
            bs_unsupported_adjustment_count := bs_unsupported_adjustment_count c; bs_target_basis_by_instrument := bs_target_basis_by_instrument c;
            bs_fractional_basis_by_instrument := by_instrument |}
  end.

Definition add_adjustment (b : BasisTotals) (governed : bool) : BasisTotals :=
  {| bs_source_leg_count := bs_source_leg_count b; bs_target_leg_count := bs_target_leg_count b;
     bs_cash_consideration_count := bs_cash_consideration_count b; bs_fractional_cash_leg_count := bs_fractional_cash_leg_count b;
     bs_source_basis_out_local := bs_source_basis_out_local b; bs_target_basis_in_local := bs_target_basis_in_local b;
     bs_cash_basis_local := bs_cash_basis_local b; bs_cash_consideration_basis_local := bs_cash_consideration_basis_local b;
     bs_fractional_basis_local := bs_fractional_basis_local b; bs_missing_cash_basis_count := bs_missing_cash_basis_count b;
     bs_excluded_cash_settlement_adjustment_count := bs_excluded_cash_settlement_adjustment_count b + (if governed then 1 else 0);
     bs_unsupported_adjustment_count := bs_unsupported_adjustment_count b + (if governed then 0 else 1);
     bs_target_basis_by_instrument := bs_target_basis_by_instrument b; bs_fractional_basis_by_instrument := bs_fractional_basis_by_instrument b |}.

(** [_accumulate]. *)
Definition accumulate_basis (transaction_by_id : list (string * option BookedTransaction)) (b : BasisTotals) (t : BookedTransaction) : result BasisTotals :=
  let transaction_type := normalize_corporate_action_transaction_type (Some (tx_transaction_type t)) in
  if is_source_leg transaction_type then add_source_leg b t
  else if is_target_leg transaction_type then add_target_leg b t
  else if String.eqb transaction_type CASH_CONSIDERATION_TRANSACTION_TYPE then add_cash_leg b t false
  else if in_set transaction_type FRACTIONAL_CASH_BASIS_TRANSACTION_TYPES then add_cash_leg b t true
  else if String.eqb transaction_type "ADJUSTMENT" then
    governed ← is_governed_cash_settlement_adjustment t transaction_by_id; Ok (add_adjustment b governed)
  else Ok b.

Definition has_negative_target_basis_allocation (b : BasisTotals) : bool :=
  existsb (fun '(instrument_id, fractional_basis) => dltb (od_get_default dzero instrument_id (bs_target_basis_by_instrument b)) fractional_basis)
    (bs_fractional_basis_by_instrument b).

Definition basis_status (b : BasisTotals) (target_basis_retained_local net_delta tolerance : decimal) : result CorporateActionBasisReconciliationStatus :=
  if (bs_source_leg_count b =? 0) || (bs_target_leg_count b =? 0) then Ok INSUFFICIENT_LEGS
  else if 0 <? bs_missing_cash_basis_count b then Ok INSUFFICIENT_CASH_BASIS
  else if dltb target_basis_retained_local dzero || has_negative_target_basis_allocation b then Ok INVALID_BASIS_ALLOCATION
  else if 0 <? bs_unsupported_adjustment_count b then Ok UNSUPPORTED_ADJUSTMENT
  else magnitude ← dabs default_context net_delta; Ok (if dleb magnitude tolerance then BALANCED else BASIS_MISMATCH).

Definition reconcile_corporate_action_basis (transactions : list BookedTransaction) (basis_tolerance : decimal) : result CorporateActionBasisReconciliation :=
  let transaction_by_id := index_unambiguous_transactions transactions in
  b ← foldM (accumulate_basis transaction_by_id) empty_basis_totals transactions;
  retained ← dsub default_context (bs_target_basis_in_local b) (bs_fractional_basis_local b);
  with_fractional ← dadd default_context retained (bs_fractional_basis_local b);
  with_cash ← dadd default_context with_fractional (bs_cash_consideration_basis_local b);
  net_delta ← dsub default_context with_cash (bs_source_basis_out_local b);
  status ← basis_status b retained net_delta basis_tolerance;
  Ok {| br_status := status; br_source_leg_count := bs_source_leg_count b; br_target_leg_count := bs_target_leg_count b;
        br_cash_consideration_count := bs_cash_consideration_count b; br_fractional_cash_leg_count := bs_fractional_cash_leg_count b;
        br_source_basis_out_local := bs_source_basis_out_local b; br_target_basis_in_local := bs_target_basis_in_local b;
        br_target_basis_retained_local := retained; br_cash_basis_local := bs_cash_basis_local b;
        br_cash_consideration_basis_local := bs_cash_consideration_basis_local b; br_fractional_basis_local := bs_fractional_basis_local b;
        br_missing_cash_basis_count := bs_missing_cash_basis_count b;
        br_excluded_cash_settlement_adjustment_count := bs_excluded_cash_settlement_adjustment_count b;
        br_unsupported_adjustment_count := bs_unsupported_adjustment_count b; br_net_basis_delta_local := net_delta; br_basis_tolerance := basis_tolerance |}.

(** The references of a child that the group does not have, in source order. *)
Definition missing_corporate_action_dependencies (t : BookedTransaction) (available_transaction_ids : list string) : list string :=
  if negb (is_reconcilable_corporate_action (Some (tx_transaction_type t))) then [] else
  List.filter (fun reference => negb (in_set reference available_transaction_ids)) (default [] (tx_dependency_reference_ids t)).

(** ** Reciprocal legs *)

Inductive CorporateActionLegLinkageFindingType :=
  MISSING_RECIPROCAL_LEG | TRANSACTION_REFERENCE_MISMATCH | INSTRUMENT_REFERENCE_MISMATCH | UNEXPECTED_RECIPROCAL_TYPE.

Definition linkage_finding_type_value (f : CorporateActionLegLinkageFindingType) : string :=
  match f with
  | MISSING_RECIPROCAL_LEG => "missing_reciprocal_leg" | TRANSACTION_REFERENCE_MISMATCH => "transaction_reference_mismatch"
  | INSTRUMENT_REFERENCE_MISMATCH => "instrument_reference_mismatch" | UNEXPECTED_RECIPROCAL_TYPE => "unexpected_reciprocal_type"
  end.

Record CorporateActionLegLinkageFinding := {
  lf_finding_type : CorporateActionLegLinkageFindingType; lf_source_transaction_id : string; lf_target_transaction_id : string; lf_field : string;
  lf_expected_value : string; lf_observed_value : option string
}.

Definition linkage_finding (finding_type : CorporateActionLegLinkageFindingType) (source : BookedTransaction) (target_transaction_id field expected_value : string)
  (observed_value : option string) : CorporateActionLegLinkageFinding :=
  {| lf_finding_type := finding_type; lf_source_transaction_id := transaction_key source; lf_target_transaction_id := target_transaction_id; lf_field := field;
     lf_expected_value := expected_value; lf_observed_value := observed_value |}.

Definition compare_linkage_field (finding_type : CorporateActionLegLinkageFindingType) (source : BookedTransaction)
  (target_transaction_id field expected_value : string) (observed_value : option string) : list CorporateActionLegLinkageFinding :=
  if bool_decide (observed_value = Some expected_value) then []
  else [linkage_finding finding_type source target_transaction_id field expected_value observed_value].

Definition leg_type (t : BookedTransaction) : string := normalize_corporate_action_transaction_type (Some (tx_transaction_type t)).

(** The comparisons of a source with the target that it refers to. *)
Definition reciprocal_findings (source target : BookedTransaction) (target_id expected_target_type : string) : list CorporateActionLegLinkageFinding :=
  ((if String.eqb (leg_type target) expected_target_type then []
    else [linkage_finding UNEXPECTED_RECIPROCAL_TYPE source target_id "transaction_type" expected_target_type (Some (leg_type target))]) ++
   compare_linkage_field TRANSACTION_REFERENCE_MISMATCH source target_id "source_transaction_reference" (transaction_key source)
     (normalized_reference (tx_source_transaction_reference target)) ++
   compare_linkage_field INSTRUMENT_REFERENCE_MISMATCH source target_id "source_instrument_id" (strip (tx_instrument_id source))
     (normalized_reference (tx_source_instrument_id source)) ++
   compare_linkage_field INSTRUMENT_REFERENCE_MISMATCH source target_id "source_instrument_id" (strip (tx_instrument_id source))
     (normalized_reference (tx_source_instrument_id target)) ++
   compare_linkage_field INSTRUMENT_REFERENCE_MISMATCH source target_id "target_instrument_id" (strip (tx_instrument_id target))
     (normalized_reference (tx_target_instrument_id source)) ++
   compare_linkage_field INSTRUMENT_REFERENCE_MISMATCH source target_id "target_instrument_id" (strip (tx_instrument_id target))
     (normalized_reference (tx_target_instrument_id target)))%list.

(** One turn of the first loop: the findings of a source leg, and whether its reference was resolved. *)
Definition source_leg_findings (transaction_by_id : list (string * BookedTransaction)) (source : BookedTransaction)
  : list CorporateActionLegLinkageFinding * bool :=
  match od_get (leg_type source) QUANTITY_TRANSFER_CORPORATE_ACTION_PAIRS with
  | None => ([], false)
  | Some expected_target_type =>
      match normalized_reference (tx_target_transaction_reference source) with
      | None =>
          ([linkage_finding MISSING_RECIPROCAL_LEG source "" "target_transaction_reference" "persisted target transaction reference" None], false)
      | Some target_id =>
          match od_get target_id transaction_by_id with
          | None => ([linkage_finding MISSING_RECIPROCAL_LEG source target_id "target_transaction_reference" target_id None], false)
          | Some target => (reciprocal_findings source target target_id expected_target_type, true)
          end
      end
  end.

(** One turn of the second loop. *)
Definition target_leg_findings (transaction_by_id : list (string * BookedTransaction)) (referenced_source_ids : list string) (target : BookedTransaction)
  : list CorporateActionLegLinkageFinding :=
  if negb (in_set (leg_type target) TARGET_QUANTITY_TRANSFER_TRANSACTION_TYPES) then [] else
  match normalized_reference (tx_source_transaction_reference target) with
  | None => []
  | Some source_id =>
      if in_set source_id referenced_source_ids then [] else
      let reciprocal_source := od_get source_id transaction_by_id in
      [{| lf_finding_type := match reciprocal_source with None => MISSING_RECIPROCAL_LEG | Some _ => TRANSACTION_REFERENCE_MISMATCH end;
          lf_source_transaction_id := source_id; lf_target_transaction_id := transaction_key target; lf_field := "target_transaction_reference";
          lf_expected_value := transaction_key target;
          lf_observed_value := match reciprocal_source with None => None | Some s => normalized_reference (tx_target_transaction_reference s) end |}]
  end.

Definition order_by_key (transactions : list BookedTransaction) : list BookedTransaction :=
  stable_sort (fun x y => string_leb (transaction_key x) (transaction_key y)) transactions.

(** [{id: transaction for id, transaction in ... if transaction is not None}]. *)
Definition unambiguous (index : list (string * option BookedTransaction)) : list (string * BookedTransaction) :=
  omap (fun '(id, t) => match t with Some t => Some (id, t) | None => None end) index.

Definition reconcile_corporate_action_leg_linkage (transactions : list BookedTransaction) : list CorporateActionLegLinkageFinding :=
  let transaction_by_id := unambiguous (index_unambiguous_transactions (order_by_key transactions)) in
  let legs := map snd transaction_by_id in
  let referenced_source_ids := map transaction_key (List.filter (fun t => snd (source_leg_findings transaction_by_id t)) legs) in
  (flat_map (fun t => fst (source_leg_findings transaction_by_id t)) legs ++
   flat_map (target_leg_findings transaction_by_id referenced_source_ids) legs)%list.

(** ** Evidence of a group *)

Definition CORPORATE_ACTION_BUNDLE_A_RECONCILIATION_TYPE : string := "corporate_action_bundle_a".
Definition CORPORATE_ACTION_QUANTITY_TRANSFER_RECONCILIATION_TYPE : string := "corporate_action_quantity_transfer".
Definition CORPORATE_ACTION_FINDING_OWNER : string := "CORPORATE_ACTION_OPERATIONS".

Inductive CorporateActionReconciliationFindingType :=
  F_BASIS_MISMATCH | F_INSUFFICIENT_CASH_BASIS | F_INSUFFICIENT_LEGS | F_INVALID_BASIS_ALLOCATION | F_MISSING_DEPENDENCY | F_LEG_LINKAGE_MISMATCH
| F_UNSUPPORTED_ADJUSTMENT.

#[export] Instance finding_type_eq_dec : EqDecision CorporateActionReconciliationFindingType.
Proof. solve_decision. Defined.

Definition finding_type_value (f : CorporateActionReconciliationFindingType) : string :=
  match f with
  | F_BASIS_MISMATCH => "ca_bundle_a_basis_mismatch" | F_INSUFFICIENT_CASH_BASIS => "ca_bundle_a_insufficient_cash_basis"
  | F_INSUFFICIENT_LEGS => "ca_bundle_a_insufficient_legs" | F_INVALID_BASIS_ALLOCATION => "ca_bundle_a_invalid_basis_allocation"
  | F_MISSING_DEPENDENCY => "ca_bundle_a_missing_dependency" | F_LEG_LINKAGE_MISMATCH => "ca_linked_leg_mismatch"
  | F_UNSUPPORTED_ADJUSTMENT => "ca_bundle_a_unsupported_adjustment"
  end.

(** [CorporateActionReconciliationReasonCode], which has a code for every finding type. *)
Definition reason_code_value (f : CorporateActionReconciliationFindingType) : string :=
  match f with
  | F_BASIS_MISMATCH => "CA_BUNDLE_A_BASIS_MISMATCH" | F_INSUFFICIENT_CASH_BASIS => "CA_BUNDLE_A_INSUFFICIENT_CASH_BASIS"
  | F_INSUFFICIENT_LEGS => "CA_BUNDLE_A_INSUFFICIENT_LEGS" | F_INVALID_BASIS_ALLOCATION => "CA_BUNDLE_A_INVALID_BASIS_ALLOCATION"
  | F_MISSING_DEPENDENCY => "CA_BUNDLE_A_MISSING_DEPENDENCY" | F_LEG_LINKAGE_MISMATCH => "CA_LINKED_LEG_MISMATCH"
  | F_UNSUPPORTED_ADJUSTMENT => "CA_BUNDLE_A_UNSUPPORTED_BASIS_ADJUSTMENT"
  end.

Definition REPAIR_RECOMMENDATIONS (f : CorporateActionReconciliationFindingType) : string :=
  match f with
  | F_BASIS_MISMATCH => "REVIEW_CORPORATE_ACTION_BASIS_ALLOCATION" | F_INSUFFICIENT_CASH_BASIS => "COMPLETE_CASH_CONSIDERATION_BASIS"
  | F_INSUFFICIENT_LEGS => "COMPLETE_CORPORATE_ACTION_LEG_LINKAGE" | F_INVALID_BASIS_ALLOCATION => "REPAIR_FRACTIONAL_BASIS_ALLOCATION"
  | F_MISSING_DEPENDENCY => "RESTORE_CORPORATE_ACTION_DEPENDENCY" | F_LEG_LINKAGE_MISMATCH => "REPAIR_CORPORATE_ACTION_LEG_LINKAGE"
  | F_UNSUPPORTED_ADJUSTMENT => "REBOOK_WITH_SUPPORTED_CORPORATE_ACTION_BASIS_LEGS"
  end.

Record CorporateActionReconciliationKey := {
  rk_tenant_id : string; rk_portfolio_id : string; rk_linked_transaction_group_id : string; rk_parent_event_reference : string
}.

Definition reconciliation_key (t : BookedTransaction) (tenant_id : string) : option CorporateActionReconciliationKey :=
  if negb (is_reconcilable_corporate_action (Some (tx_transaction_type t))) then None else
  let linked_group := strip (or_text (tx_linked_transaction_group_id t) "") in
  let parent_reference := strip (or_text (tx_parent_event_reference t) "") in
  if negb (truthy linked_group) || negb (truthy parent_reference) then None else
  Some {| rk_tenant_id := tenant_id; rk_portfolio_id := tx_portfolio_id t; rk_linked_transaction_group_id := linked_group;
          rk_parent_event_reference := parent_reference |}.

Definition reconciliation_type (transactions : list BookedTransaction) : string :=
  if existsb (fun t => in_set (leg_type t) (SOURCE_QUANTITY_TRANSFER_TRANSACTION_TYPES ++ TARGET_QUANTITY_TRANSFER_TRANSACTION_TYPES)%list) transactions
  then CORPORATE_ACTION_QUANTITY_TRANSFER_RECONCILIATION_TYPE else CORPORATE_ACTION_BUNDLE_A_RECONCILIATION_TYPE.

(** [tuple(sorted({reference ...}))] over the group. *)
Definition missing_dependencies (transactions : list BookedTransaction) : list string :=
  let available_transaction_ids := map tx_transaction_id transactions in
  stable_sort string_leb (remove_dups (flat_map (fun t => missing_corporate_action_dependencies t available_transaction_ids) transactions)).

Record CorporateActionReconciliationFindingEvidence := {
  fe_finding_id : string; fe_run_id : string; fe_reconciliation_type : string; fe_finding_type : CorporateActionReconciliationFindingType;
  fe_severity : string; fe_portfolio_id : string; fe_security_id : string; fe_transaction_id : string; fe_business_date : date; fe_epoch : option Z;
  fe_expected_value : payload; fe_observed_value : payload; fe_detail : payload; fe_owner : string; fe_resolution_state : string;
  fe_tolerance : option decimal; fe_observed_delta : option decimal; fe_repair_recommendation : string
}.

(** What every finding of a run shares. *)
Record RunScope := {
  rs_run_id : string; rs_evidence_signature : string; rs_transaction : BookedTransaction; rs_linked_transaction_group_id : string;
  rs_parent_event_reference : string; rs_reconciliation_type : string
}.

Definition decimal_text (d : decimal) : payload := PStr (string_of_decimal d).

Definition group_finding (scope : RunScope) (r : CorporateActionBasisReconciliation) (finding_type : CorporateActionReconciliationFindingType)
  (expected_value observed_value : payload) (extra_detail : list (string * payload)) (finding_discriminator : string)
  : CorporateActionReconciliationFindingEvidence :=
  let t := rs_transaction scope in
  {| fe_finding_id := "finding-" +:+ finding_type_value finding_type +:+ "-" +:+ rs_evidence_signature scope +:+
                      (if truthy finding_discriminator then "-" +:+ finding_discriminator else "");
     fe_run_id := rs_run_id scope; fe_reconciliation_type := rs_reconciliation_type scope; fe_finding_type := finding_type; fe_severity := "ERROR";
     fe_portfolio_id := tx_portfolio_id t; fe_security_id := tx_security_id t; fe_transaction_id := tx_transaction_id t;
     fe_business_date := dt_date (tx_transaction_date t); fe_epoch := tx_epoch t; fe_expected_value := expected_value; fe_observed_value := observed_value;
     fe_detail := PMap ([("reason_code", PStr (reason_code_value finding_type)); ("linked_transaction_group_id", PStr (rs_linked_transaction_group_id scope));
                         ("parent_event_reference", PStr (rs_parent_event_reference scope)); ("reconciliation_status", PStr (basis_status_value (br_status r)));
                         ("source_leg_count", PInt (br_source_leg_count r)); ("target_leg_count", PInt (br_target_leg_count r));
                         ("target_basis_retained_local", decimal_text (br_target_basis_retained_local r));
                         ("cash_consideration_count", PInt (br_cash_consideration_count r)); ("fractional_cash_leg_count", PInt (br_fractional_cash_leg_count r));
                         ("cash_basis_local", decimal_text (br_cash_basis_local r));
                         ("cash_consideration_basis_local", decimal_text (br_cash_consideration_basis_local r));
                         ("fractional_basis_local", decimal_text (br_fractional_basis_local r)); ("missing_cash_basis_count", PInt (br_missing_cash_basis_count r));
                         ("excluded_cash_settlement_adjustment_count", PInt (br_excluded_cash_settlement_adjustment_count r));
                         ("unsupported_adjustment_count", PInt (br_unsupported_adjustment_count r)); ("basis_tolerance", decimal_text (br_basis_tolerance r))]
                        ++ extra_detail)%list;
     fe_owner := CORPORATE_ACTION_FINDING_OWNER; fe_resolution_state := "OPEN"; fe_tolerance := Some (br_basis_tolerance r);
     fe_observed_delta := if bool_decide (finding_type = F_BASIS_MISMATCH) then Some (br_net_basis_delta_local r) else None;
     fe_repair_recommendation := REPAIR_RECOMMENDATIONS finding_type |}.

(** The finding of the status, if it has one of its own. *)
Definition status_findings (scope : RunScope) (r : CorporateActionBasisReconciliation) : list CorporateActionReconciliationFindingEvidence :=
  match br_status r with
  | BASIS_MISMATCH =>
      [group_finding scope r F_BASIS_MISMATCH (PMap [("net_basis_delta_local_abs", PStr ("<= " +:+ string_of_decimal (br_basis_tolerance r)))])
         (PMap [("source_basis_out_local", decimal_text (br_source_basis_out_local r)); ("target_basis_in_local", decimal_text (br_target_basis_in_local r));
                ("target_basis_retained_local", decimal_text (br_target_basis_retained_local r)); ("cash_basis_local", decimal_text (br_cash_basis_local r));
                ("net_basis_delta_local", decimal_text (br_net_basis_delta_local r))]) [] ""]
  | INSUFFICIENT_LEGS =>
      [group_finding scope r F_INSUFFICIENT_LEGS (PMap [("source_leg_count", PStr ">=1"); ("target_leg_count", PStr ">=1")])
         (PMap [("source_leg_count", PInt (br_source_leg_count r)); ("target_leg_count", PInt (br_target_leg_count r))]) [] ""]
  | INVALID_BASIS_ALLOCATION =>
      [group_finding scope r F_INVALID_BASIS_ALLOCATION (PMap [("target_basis_retained_local", PStr ">= 0")])
         (PMap [("target_basis_in_local", decimal_text (br_target_basis_in_local r)); ("fractional_basis_local", decimal_text (br_fractional_basis_local r));
                ("target_basis_retained_local", decimal_text (br_target_basis_retained_local r))]) [] ""]
  | _ => []
  end.

Definition text_payload (v : option string) : payload := match v with Some s => PStr s | None => PNone end.

Definition leg_linkage_finding (scope : RunScope) (r : CorporateActionBasisReconciliation) (ordinal : nat) (f : CorporateActionLegLinkageFinding)
  : CorporateActionReconciliationFindingEvidence :=
  group_finding scope r F_LEG_LINKAGE_MISMATCH (PMap [("field", PStr (lf_field f)); ("value", PStr (lf_expected_value f))])
    (PMap [("field", PStr (lf_field f)); ("value", text_payload (lf_observed_value f))])
    [("linkage_finding_type", PStr (linkage_finding_type_value (lf_finding_type f))); ("source_transaction_id", PStr (lf_source_transaction_id f));
     ("target_transaction_id", PStr (lf_target_transaction_id f))] ("linkage-" +:+ string_of_Z (Z.of_nat ordinal)).

(** [_findings]. *)
Definition group_findings (scope : RunScope) (r : CorporateActionBasisReconciliation) (missing : list string)
  (linkage_findings : list CorporateActionLegLinkageFinding) : list CorporateActionReconciliationFindingEvidence :=
  (status_findings scope r ++
   (if 0 <? br_missing_cash_basis_count r then
      [group_finding scope r F_INSUFFICIENT_CASH_BASIS (PMap [("missing_cash_basis_count", PInt 0)])
         (PMap [("cash_consideration_count", PInt (br_cash_consideration_count r)); ("missing_cash_basis_count", PInt (br_missing_cash_basis_count r));
                ("cash_basis_local", decimal_text (br_cash_basis_local r))]) [] ""]
    else []) ++
   (if 0 <? br_unsupported_adjustment_count r then
      [group_finding scope r F_UNSUPPORTED_ADJUSTMENT (PMap [("unsupported_adjustment_count", PInt 0)])
         (PMap [("unsupported_adjustment_count", PInt (br_unsupported_adjustment_count r))]) [] ""]
    else []) ++
   match missing with
   | [] => []
   | _ =>
       [group_finding scope r F_MISSING_DEPENDENCY (PMap [("dependency_reference_ids", PStr "present in linked action group")])
          (PMap [("missing_dependency_reference_ids", PSeq (map PStr missing))]) [("missing_dependency_reference_ids", PSeq (map PStr missing))] ""]
   end ++
   imap (leg_linkage_finding scope r) linkage_findings)%list.

(** [_summary]: whether the run passed, with the counts that say so. *)
Record GroupSummary := { gs_examined_count : Z; gs_finding_count : Z; gs_error_count : Z; gs_warning_count : Z; gs_passed : bool }.

Definition group_summary (r : CorporateActionBasisReconciliation) (findings : list CorporateActionReconciliationFindingEvidence) : GroupSummary :=
  let finding_count := Z.of_nat (length findings) in
  {| gs_examined_count := br_source_leg_count r + br_target_leg_count r + br_cash_consideration_count r + br_fractional_cash_leg_count r;
     gs_finding_count := finding_count; gs_error_count := finding_count; gs_warning_count := 0; gs_passed := finding_count =? 0 |}.

Definition linkage_finding_compare (x y : CorporateActionLegLinkageFinding) : comparison :=
  lex (String.compare (lf_source_transaction_id x) (lf_source_transaction_id y))
 (lex (String.compare (lf_target_transaction_id x) (lf_target_transaction_id y))
 (lex (String.compare (linkage_finding_type_value (lf_finding_type x)) (linkage_finding_type_value (lf_finding_type y)))
 (lex (String.compare (lf_field x) (lf_field y))
 (lex (String.compare (lf_expected_value x) (lf_expected_value y))
      (String.compare (or_text (lf_observed_value x) "") (or_text (lf_observed_value y) "")))))).

(** The findings and the summary of [build_corporate_action_reconciliation_evidence] for a loaded group, as [reconcile] calls it. *)
Definition assess_group (scope : RunScope) (transactions : list BookedTransaction) (basis_tolerance : decimal)
  : result (list CorporateActionReconciliationFindingEvidence * GroupSummary) :=
  r ← reconcile_corporate_action_basis transactions basis_tolerance;
  _ ← raise_if (match transactions with [] => true | _ => false end) (ValueError "Corporate-action reconciliation requires input transactions");
  let canonical_linkage_findings := stable_sort (leb_of linkage_finding_compare) (reconcile_corporate_action_leg_linkage transactions) in
  let findings := group_findings scope r (missing_dependencies transactions) canonical_linkage_findings in
  Ok (findings, group_summary r findings).
