(* ===== verification/LinkedLegsFacts.v ===== *)
(** * Properties of linked legs

    A linked corporate-action group passes its reconciliation exactly when its basis is conserved within
    the tolerance, every instrument can bear its fractional basis, every cash leg has a basis, every
    adjustment settles one of them, and legs and dependencies are complete; the findings on reciprocal legs
    do not depend on arrival order; and the cash leg that the system generates satisfies the checks of a
    pair supplied from upstream. *)

From Stdlib Require Import ZArith Lia QArith Qabs String Sorted.
From stdpp Require Import base tactics list sets sorting strings.
From S2P Require Import Prelude PyDecimal DecimalFacts PyTime Precision Lineage Registry Transactions Values Lots Settlement LinkedLegs.

#[local] Open Scope string_scope.
#[local] Open Scope Z_scope.

(** ** Integer amounts of a leg *)

Inductive leg_class := SourceLeg | TargetLeg | ConsiderationLeg | FractionalLeg | AdjustmentLeg | OtherLeg.

#[export] Instance leg_class_eq_dec : EqDecision leg_class.
Proof. solve_decision. Defined.

Definition class_of (t : BookedTransaction) : leg_class :=
  if is_source_leg (leg_type t) then SourceLeg else if is_target_leg (leg_type t) then TargetLeg
  else if String.eqb (leg_type t) CASH_CONSIDERATION_TRANSACTION_TYPE then ConsiderationLeg
  else if in_set (leg_type t) FRACTIONAL_CASH_BASIS_TRANSACTION_TYPES then FractionalLeg
  else if String.eqb (leg_type t) "ADJUSTMENT" then AdjustmentLeg else OtherLeg.

Definition is_class (c : leg_class) (t : BookedTransaction) : bool := bool_decide (class_of t = c).

(** The magnitude of the booked local cost, or of the gross amount where there is none. *)
Definition basis_units (t : BookedTransaction) : Z := Z.abs (ul (default (tx_gross_transaction_amount t) (tx_net_cost_local t))).
Definition allocated_units (t : BookedTransaction) : Z := match allocated_basis t with Some basis => ul basis | None => 0 end.

Definition amount_of (c : leg_class) (t : BookedTransaction) : Z :=
  if is_class c t then match c with SourceLeg | TargetLeg => basis_units t | ConsiderationLeg | FractionalLeg => allocated_units t | _ => 0 end else 0.
Definition total (c : leg_class) (ts : list BookedTransaction) : Z := zsum (map (amount_of c) ts).

Definition of_instrument (i : string) (ts : list BookedTransaction) : list BookedTransaction :=
  List.filter (fun t => String.eqb (strip (tx_instrument_id t)) i) ts.

Definition count (p : BookedTransaction -> bool) (ts : list BookedTransaction) : Z := Z.of_nat (length (List.filter p ts)).

Definition lacks_basis (t : BookedTransaction) : bool :=
  (is_class ConsiderationLeg t || is_class FractionalLeg t) && match allocated_basis t with None => true | Some _ => false end.

(** Amounts as the ledger stores them. *)
Definition stored_leg (t : BookedTransaction) : Prop :=
  stored (default (tx_gross_transaction_amount t) (tx_net_cost_local t)) /\ (forall basis, tx_allocated_cost_basis_local t = Some basis -> stored basis).

Lemma count_snoc p ts t : count p (ts ++ [t])%list = count p ts + (if p t then 1 else 0).
Proof. unfold count. rewrite List.filter_app, length_app. cbn [List.filter]. destruct (p t); cbn [length]; lia. Qed.

Lemma total_snoc c ts t : total c (ts ++ [t])%list = total c ts + amount_of c t.
Proof. unfold total. rewrite map_app, zsum_app. cbn [map]. rewrite zsum_cons, zsum_nil. lia. Qed.

Lemma of_instrument_snoc i ts t : of_instrument i (ts ++ [t])%list =
  (of_instrument i ts ++ if String.eqb (strip (tx_instrument_id t)) i then [t] else [])%list.
Proof. unfold of_instrument. rewrite List.filter_app. cbn [List.filter]. by destruct (String.eqb _ i). Qed.

Lemma allocated_nonneg t basis : stored_leg t -> allocated_basis t = Some basis -> stored basis /\ 0 <= ul basis.
Proof.
  intros [_ Hs]. unfold allocated_basis. destruct (tx_allocated_cost_basis_local t) as [b|]; [|done]. specialize (Hs b eq_refl).
  rewrite (stored_dltb _ _ Hs stored_dzero), ul_dzero. destruct (Z.ltb_spec (ul b) 0); [done|]. intros [= <-]. done.
Qed.

Lemma amount_bounds c t : stored_leg t -> 0 <= amount_of c t < 10 ^ 18.
Proof.
  intros Hs. unfold amount_of. destruct (is_class c t); [|lia].
  assert (H1 : 0 <= basis_units t < 10 ^ 18) by (destruct Hs as [[_ B] _]; unfold basis_units; lia).
  assert (H2 : 0 <= allocated_units t < 10 ^ 18).
  { unfold allocated_units. destruct (allocated_basis t) as [b|] eqn:E; [|lia]. destruct (allocated_nonneg t b Hs E) as [[_ B] H]. lia. }
  destruct c; lia.
Qed.

Lemma total_bounds c ts : Forall stored_leg ts -> 0 <= total c ts <= Z.of_nat (length ts) * 10 ^ 18.
Proof.
  unfold total. induction 1 as [|t ts Ht _ IH]; [done|]. cbn [map length]. rewrite zsum_cons. pose proof (amount_bounds c t Ht). lia.
Qed.

Lemma of_instrument_length i ts : (length (of_instrument i ts) <= length ts)%nat.
Proof. apply filter_length_le. Qed.

Lemma of_instrument_stored i ts : Forall stored_leg ts -> Forall stored_leg (of_instrument i ts).
Proof. rewrite !Forall_forall. intros H t Ht. apply H. unfold of_instrument in Ht. apply list_elem_of_In, filter_In in Ht as [Ht _]. by apply list_elem_of_In. Qed.

(** ** The totals *)

Record totals_of (index : list (string * option BookedTransaction)) (b : BasisTotals) (ts : list BookedTransaction) : Prop := {
  to_sources : bs_source_leg_count b = count (is_class SourceLeg) ts;
  to_targets : bs_target_leg_count b = count (is_class TargetLeg) ts;
  to_considerations : bs_cash_consideration_count b = count (is_class ConsiderationLeg) ts;
  to_fractionals : bs_fractional_cash_leg_count b = count (is_class FractionalLeg) ts;
  to_missing : bs_missing_cash_basis_count b = count lacks_basis ts;
  to_unsupported : bs_unsupported_adjustment_count b =
    count (fun t => is_class AdjustmentLeg t && negb (bool_decide (is_governed_cash_settlement_adjustment t index = Ok true))) ts;
  to_source_basis : units (-10) (bs_source_basis_out_local b) (total SourceLeg ts);
  to_target_basis : units (-10) (bs_target_basis_in_local b) (total TargetLeg ts);
  to_cash_basis : units (-10) (bs_cash_basis_local b) (total ConsiderationLeg ts + total FractionalLeg ts);
  to_consideration_basis : units (-10) (bs_cash_consideration_basis_local b) (total ConsiderationLeg ts);
  to_fractional_basis : units (-10) (bs_fractional_basis_local b) (total FractionalLeg ts);
  to_target_by : forall i, units (-10) (od_get_default dzero i (bs_target_basis_by_instrument b)) (total TargetLeg (of_instrument i ts));
  to_fractional_by : forall i, units (-10) (od_get_default dzero i (bs_fractional_basis_by_instrument b)) (total FractionalLeg (of_instrument i ts));
  to_fractional_keys : NoDup (bs_fractional_basis_by_instrument b).*1
}.

Lemma totals_empty index : totals_of index empty_basis_totals [].
Proof.
  constructor; cbn [empty_basis_totals bs_source_leg_count bs_target_leg_count bs_cash_consideration_count bs_fractional_cash_leg_count
    bs_missing_cash_basis_count bs_unsupported_adjustment_count bs_source_basis_out_local bs_target_basis_in_local bs_cash_basis_local
    bs_cash_consideration_basis_local bs_fractional_basis_local bs_target_basis_by_instrument bs_fractional_basis_by_instrument];
    try reflexivity; try (intros i; reflexivity). apply NoDup_nil_2.
Qed.

(** Additions of amounts that fit the ambient precision are exact. *)
Lemma add_units x y m n : units (-10) x m -> units (-10) y n -> 0 <= m <= 10 ^ 27 -> 0 <= n < 10 ^ 18 ->
  exists r, dadd default_context x y = Ok r /\ units (-10) r (m + n).
Proof. intros Hx Hy Hm Hn. unfold dadd. apply ambient_exact; [by apply units_add|lia]. Qed.

Lemma dabs_units d n : units (-10) d n -> Z.abs n < 10 ^ 28 -> exists r, dabs default_context d = Ok r /\ units (-10) r (Z.abs n).
Proof.
  intros Hd Hn. unfold dabs. apply ambient_exact; [|lia]. unfold units in *. rewrite dval_Dec. transitivity (Qabs (dval d)); [symmetry; apply dval_abs|].
  rewrite Hd, Qabs_Qmult, (Qabs_pos (pow10 (-10))) by (apply Qlt_le_weak, pow10_pos). reflexivity.
Qed.

Lemma leg_basis_units t : stored_leg t -> exists basis, leg_basis t = Ok basis /\ units (-10) basis (basis_units t).
Proof. intros [[Hu Hb] _]. apply dabs_units; [done|lia]. Qed.

Lemma add_instrument_units (by_instrument : list (string * decimal)) instrument basis (f : string -> Z) n :
  (forall i, units (-10) (od_get_default dzero i by_instrument) (f i)) -> units (-10) basis n -> (forall i, 0 <= f i <= 10 ^ 27) -> 0 <= n < 10 ^ 18 ->
  exists by_instrument', add_instrument_basis by_instrument instrument basis = Ok by_instrument' /\
    (forall i, units (-10) (od_get_default dzero i by_instrument') (f i + if String.eqb (strip instrument) i then n else 0)) /\
    (NoDup by_instrument.*1 -> NoDup by_instrument'.*1).
Proof.
  intros Hd Hb Hf Hn. unfold add_instrument_basis. destruct (add_units _ _ _ _ (Hd (strip instrument)) Hb (Hf _) Hn) as (r & -> & Hr). cbn [mbind result_bind].
  eexists. split; [reflexivity|]. split; [|apply od_set_NoDup]. intros i. unfold od_get_default. destruct (String.eqb_spec (strip instrument) i) as [<-|Hne].
  - by rewrite od_get_set.
  - rewrite od_get_set_ne by done. rewrite Z.add_0_r. apply Hd.
Qed.

Lemma is_class_eq c c' t : class_of t = c -> is_class c' t = bool_decide (c = c').
Proof. unfold is_class. by intros ->. Qed.

Lemma amount_class c c' t : class_of t = c -> c <> c' -> amount_of c' t = 0.
Proof. intros H Hne. unfold amount_of. rewrite (is_class_eq _ _ _ H), bool_decide_eq_false_2 by done. done. Qed.

Lemma total_instrument c i ts t : total c (of_instrument i (ts ++ [t])%list) =
  total c (of_instrument i ts) + if String.eqb (strip (tx_instrument_id t)) i then amount_of c t else 0.
Proof. rewrite of_instrument_snoc. destruct (String.eqb _ i); [apply total_snoc|rewrite app_nil_r; lia]. Qed.

Lemma if_zero (b : bool) : (if b then 0 else 0) = 0.
Proof. by destruct b. Qed.

Lemma lacks_class c t : class_of t = c ->
  lacks_basis t = (bool_decide (c = ConsiderationLeg) || bool_decide (c = FractionalLeg)) && match allocated_basis t with None => true | Some _ => false end.
Proof. intros H. unfold lacks_basis. by rewrite !(is_class_eq _ _ _ H). Qed.

(** The new totals, when the new leg is of class [c]. *)
Ltac new_totals H :=
  constructor; cbn [bs_source_leg_count bs_target_leg_count bs_cash_consideration_count bs_fractional_cash_leg_count
    bs_missing_cash_basis_count bs_unsupported_adjustment_count bs_source_basis_out_local bs_target_basis_in_local bs_cash_basis_local
    bs_cash_consideration_basis_local bs_fractional_basis_local bs_target_basis_by_instrument bs_fractional_basis_by_instrument];
  try (intros ?i); rewrite ?count_snoc, ?total_snoc, ?total_instrument; cbv beta; rewrite ?(lacks_class _ _ H), ?(is_class_eq _ _ _ H);
  repeat match goal with |- context [amount_of ?c ?t] => rewrite (amount_class _ c t H) by discriminate end; rewrite ?if_zero, ?Z.add_0_r;
  repeat match goal with |- context [bool_decide (?a = ?b)] => first [rewrite (bool_decide_eq_false_2 (a = b)) by discriminate|rewrite (bool_decide_eq_true_2 (a = b)) by reflexivity] end;
  cbn [orb andb]; rewrite ?Z.add_0_r.

Lemma small_totals c ts : Forall stored_leg ts -> Z.of_nat (length ts) <= 10 ^ 9 -> 0 <= total c ts <= 10 ^ 27.
Proof. intros Hs Hl. pose proof (total_bounds c ts Hs). lia. Qed.

Lemma small_instrument c i ts : Forall stored_leg ts -> Z.of_nat (length ts) <= 10 ^ 9 -> 0 <= total c (of_instrument i ts) <= 10 ^ 27.
Proof. intros Hs Hl. apply small_totals; [by apply of_instrument_stored|]. pose proof (of_instrument_length i ts). lia. Qed.

Lemma basis_amount c t : class_of t = c -> c = SourceLeg \/ c = TargetLeg -> amount_of c t = basis_units t.
Proof. intros H Hc. unfold amount_of. rewrite (is_class_eq _ _ _ H), bool_decide_eq_true_2 by done. by destruct Hc as [->| ->]. Qed.

Lemma cash_amount c t : class_of t = c -> c = ConsiderationLeg \/ c = FractionalLeg -> amount_of c t = allocated_units t.
Proof. intros H Hc. unfold amount_of. rewrite (is_class_eq _ _ _ H), bool_decide_eq_true_2 by done. by destruct Hc as [->| ->]. Qed.

Section Steps.
Context (index : list (string * option BookedTransaction)) (b : BasisTotals) (ts : list BookedTransaction) (t : BookedTransaction).
Context (Hb : totals_of index b ts) (Hs : Forall stored_leg ts) (Hl : Z.of_nat (length ts) <= 10 ^ 9) (Ht : stored_leg t).

Lemma source_step : class_of t = SourceLeg -> exists b', add_source_leg b t = Ok b' /\ totals_of index b' (ts ++ [t])%list.
Proof.
  intros Hc. destruct Hb. unfold add_source_leg. destruct (leg_basis_units t Ht) as (basis & -> & Hu). cbn [mbind result_bind].
  pose proof (amount_bounds SourceLeg t Ht) as Hn. rewrite (basis_amount _ _ Hc (or_introl eq_refl)) in Hn.
  destruct (add_units _ _ _ _ to_source_basis0 Hu (small_totals SourceLeg ts Hs Hl) Hn) as (r & -> & Hr). cbn [mbind result_bind].
  eexists. split; [reflexivity|]. new_totals Hc; rewrite ?(basis_amount _ _ Hc (or_introl eq_refl)); auto; lia.
Qed.

Lemma target_step : class_of t = TargetLeg -> exists b', add_target_leg b t = Ok b' /\ totals_of index b' (ts ++ [t])%list.
Proof.
  intros Hc. destruct Hb. unfold add_target_leg. destruct (leg_basis_units t Ht) as (basis & -> & Hu). cbn [mbind result_bind].
  pose proof (amount_bounds TargetLeg t Ht) as Hn. rewrite (basis_amount _ _ Hc (or_intror eq_refl)) in Hn.
  destruct (add_units _ _ _ _ to_target_basis0 Hu (small_totals TargetLeg ts Hs Hl) Hn) as (r & -> & Hr). cbn [mbind result_bind].
  destruct (add_instrument_units _ (tx_instrument_id t) _ _ _ to_target_by0 Hu (fun i => small_instrument TargetLeg i ts Hs Hl) Hn) as (d & -> & Hd & _).
  cbn [mbind result_bind]. eexists. split; [reflexivity|]. new_totals Hc; rewrite ?(basis_amount _ _ Hc (or_intror eq_refl)); auto; lia.
Qed.

Lemma missing_step fractional : class_of t = (if fractional : bool then FractionalLeg else ConsiderationLeg) -> allocated_basis t = None ->
  exists b', add_cash_leg b t fractional = Ok b' /\ totals_of index b' (ts ++ [t])%list.
Proof.
  intros Hc Ha. destruct Hb. unfold add_cash_leg. rewrite Ha. eexists. split; [reflexivity|].
  assert (Hz : forall c, amount_of c t = 0).
  { intros c. unfold amount_of, allocated_units. rewrite (is_class_eq _ _ _ Hc), Ha. destruct fractional, c; done. }
  destruct fractional; new_totals Hc; rewrite ?Hz, ?if_zero, ?Z.add_0_r, ?Ha; auto; lia.
Qed.

Lemma consideration_step basis : class_of t = ConsiderationLeg -> allocated_basis t = Some basis ->
  exists b', add_cash_leg b t false = Ok b' /\ totals_of index b' (ts ++ [t])%list.
Proof.
  intros Hc Ha. destruct Hb. unfold add_cash_leg. rewrite Ha. destruct (allocated_nonneg t basis Ht Ha) as [[Hu Hbd] Hn]. cbn [mbind result_bind].
  pose proof (small_totals ConsiderationLeg ts Hs Hl) as S1. pose proof (total_bounds ConsiderationLeg ts Hs). pose proof (total_bounds FractionalLeg ts Hs).
  destruct (add_units _ _ _ _ to_consideration_basis0 Hu S1 ltac:(lia)) as (r1 & -> & H1). cbn [mbind result_bind].
  unfold dadd. destruct (ambient_exact (add_exact (bs_cash_basis_local b) basis) (total ConsiderationLeg ts + total FractionalLeg ts + ul basis)) as (r2 & -> & H2);
    [by apply units_add|lia|]. cbn [mbind result_bind].
  assert (Ea : amount_of ConsiderationLeg t = ul basis) by (rewrite (cash_amount _ _ Hc (or_introl eq_refl)); unfold allocated_units; by rewrite Ha).
  eexists. split; [reflexivity|]. new_totals Hc; rewrite ?Ea, ?Ha; auto; try lia.
  by replace (total ConsiderationLeg ts + ul basis + total FractionalLeg ts) with (total ConsiderationLeg ts + total FractionalLeg ts + ul basis) by lia.
Qed.

Lemma fractional_step basis : class_of t = FractionalLeg -> allocated_basis t = Some basis ->
  exists b', add_cash_leg b t true = Ok b' /\ totals_of index b' (ts ++ [t])%list.
Proof.
  intros Hc Ha. destruct Hb. unfold add_cash_leg. rewrite Ha. destruct (allocated_nonneg t basis Ht Ha) as [[Hu Hbd] Hn]. cbn [mbind result_bind].
  pose proof (small_totals FractionalLeg ts Hs Hl) as S1. pose proof (total_bounds ConsiderationLeg ts Hs). pose proof (total_bounds FractionalLeg ts Hs).
  destruct (add_units _ _ _ _ to_fractional_basis0 Hu S1 ltac:(lia)) as (r1 & -> & H1). cbn [mbind result_bind].
  unfold dadd. destruct (ambient_exact (add_exact (bs_cash_basis_local b) basis) (total ConsiderationLeg ts + total FractionalLeg ts + ul basis)) as (r2 & -> & H2);
    [by apply units_add|lia|]. cbn [mbind result_bind].
  destruct (add_instrument_units _ (tx_instrument_id t) _ _ _ to_fractional_by0 Hu (fun i => small_instrument FractionalLeg i ts Hs Hl) ltac:(lia)) as (d & -> & Hd & Hk).
  cbn [mbind result_bind].
  assert (Ea : amount_of FractionalLeg t = ul basis) by (rewrite (cash_amount _ _ Hc (or_intror eq_refl)); unfold allocated_units; by rewrite Ha).
  eexists. split; [reflexivity|]. new_totals Hc; rewrite ?Ea, ?Ha; auto; try lia.
  by replace (total ConsiderationLeg ts + (total FractionalLeg ts + ul basis)) with (total ConsiderationLeg ts + total FractionalLeg ts + ul basis) by lia.
Qed.

Lemma adjustment_step governed : class_of t = AdjustmentLeg -> is_governed_cash_settlement_adjustment t index = Ok governed ->
  totals_of index (add_adjustment b governed) (ts ++ [t])%list.
Proof.
  intros Hc Hg. destruct Hb. unfold add_adjustment. new_totals Hc; rewrite ?Hg; auto; try lia.
  destruct governed; [rewrite bool_decide_eq_true_2 by done|rewrite bool_decide_eq_false_2 by done]; cbn [negb]; lia.
Qed.

Lemma other_step : class_of t = OtherLeg -> totals_of index b (ts ++ [t])%list.
Proof. intros Hc. destruct Hb. new_totals Hc; auto; lia. Qed.

(** Adjustments whose pair can be checked. *)
Lemma leg_step : (class_of t = AdjustmentLeg -> exists governed, is_governed_cash_settlement_adjustment t index = Ok governed) ->
  exists b', accumulate_basis index b t = Ok b' /\ totals_of index b' (ts ++ [t])%list.
Proof.
  intros Hadj. unfold accumulate_basis. fold (leg_type t). pose proof (eq_refl : class_of t = class_of t) as Hc. revert Hc. unfold class_of at 2.
  destruct (is_source_leg (leg_type t)); [apply source_step|]. destruct (is_target_leg (leg_type t)); [apply target_step|].
  destruct (String.eqb (leg_type t) CASH_CONSIDERATION_TRANSACTION_TYPE);
    [intros Hc; destruct (allocated_basis t) eqn:Ha; [by eapply consideration_step|by apply (missing_step false)]|].
  destruct (in_set (leg_type t) FRACTIONAL_CASH_BASIS_TRANSACTION_TYPES);
    [intros Hc; destruct (allocated_basis t) eqn:Ha; [by eapply fractional_step|by apply (missing_step true)]|].
  destruct (String.eqb (leg_type t) "ADJUSTMENT"); intros Hc; [|exists b; split; [done|by apply other_step]].
  destruct (Hadj Hc) as (governed & Hg). rewrite Hg. eexists. split; [reflexivity|]. by apply adjustment_step.
Qed.
End Steps.

Definition checkable (index : list (string * option BookedTransaction)) (ts : list BookedTransaction) : Prop :=
  forall t, t ∈ ts -> class_of t = AdjustmentLeg -> exists governed, is_governed_cash_settlement_adjustment t index = Ok governed.

Lemma totals_fold index rest b ts : totals_of index b ts -> Forall stored_leg (ts ++ rest) -> Z.of_nat (length (ts ++ rest)) <= 10 ^ 9 -> checkable index rest ->
  exists b', foldM (accumulate_basis index) b rest = Ok b' /\ totals_of index b' (ts ++ rest)%list.
Proof.
  revert b ts. induction rest as [|t rest IH]; intros b ts Hb Hs Hl Hadj; [exists b; by rewrite app_nil_r|].
  pose proof (proj1 (Forall_app _ _ _) Hs) as [Hts Hrest]. inversion Hrest as [|? ? Ht _]; subst. rewrite length_app in Hl. cbn [length] in Hl.
  destruct (leg_step index b ts t Hb Hts ltac:(lia) Ht) as (b1 & E & H1); [intros Hc; apply Hadj; [left|done]|].
  destruct (IH b1 (ts ++ [t])%list H1) as (b' & E' & H'); rewrite <- ?app_assoc; cbn [app]; [done|rewrite length_app; cbn [length]; lia|intros t' Hin; apply Hadj; by right|].
  exists b'. cbn [foldM]. rewrite E. cbn [mbind result_bind]. split; [done|]. by rewrite <- app_assoc in H'.
Qed.

Lemma count_zero p ts : count p ts = 0 <-> forall t, t ∈ ts -> p t = false.
Proof.
  unfold count. split.
  - intros H t Hin%list_elem_of_In. destruct (p t) eqn:E; [|done]. assert (Hf : In t (List.filter p ts)) by (by apply filter_In). destruct (List.filter p ts); [done|]. cbn in H. lia.
  - intros H. destruct (List.filter p ts) as [|t l] eqn:E; [done|]. assert (Hin : In t (List.filter p ts)) by (rewrite E; by left).
    apply filter_In in Hin as [Hin Hp]. by rewrite H in Hp by (by apply list_elem_of_In).
Qed.

Lemma count_pos p ts : 0 <= count p ts.
Proof. unfold count. lia. Qed.

Lemma class_present c ts : count (is_class c) ts <> 0 <-> exists t, t ∈ ts /\ class_of t = c.
Proof.
  split.
  - intros H. destruct (decide (Exists (fun t => class_of t = c) ts)) as [(t & Hin & Hc)%Exists_exists|Hno]; [eauto|]. destruct H. apply count_zero. intros t Hin.
    apply bool_decide_eq_false_2. intros Hc. apply Hno, Exists_exists. eauto.
  - intros (t & Hin & Hc) H. rewrite count_zero in H. specialize (H t Hin). unfold is_class in H. by apply bool_decide_eq_false_1 in H.
Qed.

(** The sum over the instruments of the sums by instrument. *)
Lemma zsum_point (f : string -> Z) i a keys : NoDup keys -> i ∈ keys -> zsum (map (fun k => f k + if String.eqb i k then a else 0) keys) = zsum (map f keys) + a.
Proof.
  induction 1 as [|k keys Hk _ IH]; [by intros ?%elem_of_nil|]. intros Hi. cbn [map]. rewrite !zsum_cons. destruct (String.eqb_spec i k) as [<-|Hne].
  - assert (zsum (map (fun k => f k + if String.eqb i k then a else 0) keys) = zsum (map f keys)) as ->; [|lia]. f_equal. apply map_ext_in. intros k' Hk'.
    destruct (String.eqb_spec i k') as [<-|]; [|lia]. destruct Hk. by apply list_elem_of_In.
  - rewrite IH by (by apply elem_of_cons in Hi as [|]). lia.
Qed.

Lemma total_by_instrument c ts keys : NoDup keys -> (forall t, t ∈ ts -> strip (tx_instrument_id t) ∈ keys) ->
  total c ts = zsum (map (fun i => total c (of_instrument i ts)) keys).
Proof.
  intros Hnd. induction ts as [|t ts IH] using rev_ind; intros Hk.
  - clear Hnd Hk. change (total c []) with 0. induction keys as [|k keys IH]; [done|]. cbn [map]. rewrite zsum_cons, <- IH. reflexivity.
  - rewrite (map_ext _ (fun i => total c (of_instrument i ts) + if String.eqb (strip (tx_instrument_id t)) i then amount_of c t else 0))
      by (intros; apply total_instrument).
    rewrite zsum_point, total_snoc, IH; [done|intros t' Hin; apply Hk, elem_of_app; by left|done|]. apply Hk, elem_of_app. right. by apply list_elem_of_singleton.
Qed.

Lemma borne_in_total ts : (forall i, total FractionalLeg (of_instrument i ts) <= total TargetLeg (of_instrument i ts)) -> total FractionalLeg ts <= total TargetLeg ts.
Proof.
  intros H. set (keys := remove_dups (map (fun t => strip (tx_instrument_id t)) ts)).
  assert (Hk : forall t, t ∈ ts -> strip (tx_instrument_id t) ∈ keys) by (intros t Hin; apply elem_of_remove_dups, list_elem_of_fmap; eauto).
  rewrite !(total_by_instrument _ ts keys) by (done || apply NoDup_remove_dups). clear Hk. induction keys as [|k keys IH]; [done|]. cbn [map]. rewrite !zsum_cons. specialize (H k). lia.
Qed.

(** ** The verdict *)

Record conserved (ts : list BookedTransaction) (tolerance : decimal) : Prop := {
  cv_source : exists t, t ∈ ts /\ class_of t = SourceLeg;
  cv_target : exists t, t ∈ ts /\ class_of t = TargetLeg;
  cv_cash : forall t, t ∈ ts -> class_of t = ConsiderationLeg \/ class_of t = FractionalLeg -> allocated_basis t <> None;
  cv_borne : forall i, total FractionalLeg (of_instrument i ts) <= total TargetLeg (of_instrument i ts);
  cv_adjustments : forall t, t ∈ ts -> class_of t = AdjustmentLeg ->
    is_governed_cash_settlement_adjustment t (index_unambiguous_transactions ts) = Ok true;
  cv_balance : Z.abs (total TargetLeg ts + total ConsiderationLeg ts - total SourceLeg ts) <= ul tolerance
}.

Lemma allocation_negative index b ts : totals_of index b ts -> Forall stored_leg ts ->
  has_negative_target_basis_allocation b = false <-> forall i, total FractionalLeg (of_instrument i ts) <= total TargetLeg (of_instrument i ts).
Proof.
  intros Hb Hs. unfold has_negative_target_basis_allocation. split.
  - intros H i. apply Z.nlt_ge. intros Hlt. pose proof (total_bounds TargetLeg _ (of_instrument_stored i ts Hs)) as Bt.
    pose proof (to_fractional_by _ _ _ Hb i) as Hf. unfold od_get_default in Hf. destruct (od_get i (bs_fractional_basis_by_instrument b)) as [v|] eqn:E; cbn [default] in Hf.
    + assert (existsb (fun '(instrument_id, fractional_basis) => dltb (od_get_default dzero instrument_id (bs_target_basis_by_instrument b)) fractional_basis)
        (bs_fractional_basis_by_instrument b) = true) as Ht; [|by rewrite Ht in H]. apply existsb_exists. exists (i, v). split; [by apply list_elem_of_In, od_get_elem|].
      apply dltb_spec. by apply (units_lt (-10) _ _ _ _ (to_target_by _ _ _ Hb i) Hf).
    + assert (0 = total FractionalLeg (of_instrument i ts)); [|lia]. apply (units_inj (-10) dzero); [|exact Hf]. reflexivity.
  - intros H. apply not_true_iff_false. intros ([i v] & Hin%list_elem_of_In & Hlt)%existsb_exists. apply dltb_spec in Hlt.
    pose proof (od_get_of_elem _ _ _ (to_fractional_keys _ _ _ Hb) Hin) as E. pose proof (to_fractional_by _ _ _ Hb i) as Hf. unfold od_get_default in Hf. rewrite E in Hf.
    apply (units_lt (-10) _ _ _ _ (to_target_by _ _ _ Hb i) Hf) in Hlt. specialize (H i). lia.
Qed.

Lemma lacking_cash ts : count lacks_basis ts = 0 <->
  forall t, t ∈ ts -> class_of t = ConsiderationLeg \/ class_of t = FractionalLeg -> allocated_basis t <> None.
Proof.
  rewrite count_zero. split; intros H t Hin; specialize (H t Hin); unfold lacks_basis, is_class in *.
  - intros [Hc|Hc]; rewrite Hc in H; by destruct (allocated_basis t).
  - destruct (class_of t); destruct (allocated_basis t); naive_solver.
Qed.

Lemma unsupported_adjustments index ts :
  count (fun t => is_class AdjustmentLeg t && negb (bool_decide (is_governed_cash_settlement_adjustment t index = Ok true))) ts = 0 <->
  forall t, t ∈ ts -> class_of t = AdjustmentLeg -> is_governed_cash_settlement_adjustment t index = Ok true.
Proof.
  rewrite count_zero. split; intros H t Hin.
  - intros Hc. specialize (H t Hin). unfold is_class in H. rewrite Hc in H. rewrite bool_decide_eq_true_2 in H by done. cbn [andb] in H.
    by apply negb_false_iff, bool_decide_eq_true_1 in H.
  - unfold is_class. case_bool_decide as Hc; [|done]. cbn [andb]. rewrite bool_decide_eq_true_2; [done|by apply H].
Qed.

Lemma status_spec ts b retained net tolerance : let index := index_unambiguous_transactions ts in
  totals_of index b ts -> Forall stored_leg ts -> stored tolerance ->
  units (-10) retained (total TargetLeg ts - total FractionalLeg ts) ->
  units (-10) net (total TargetLeg ts + total ConsiderationLeg ts - total SourceLeg ts) ->
  Z.abs (total TargetLeg ts + total ConsiderationLeg ts - total SourceLeg ts) < 10 ^ 28 ->
  exists s, basis_status b retained net tolerance = Ok s /\ (s = BALANCED <-> conserved ts tolerance) /\
    (s = INSUFFICIENT_CASH_BASIS -> 0 < bs_missing_cash_basis_count b) /\ (s = UNSUPPORTED_ADJUSTMENT -> 0 < bs_unsupported_adjustment_count b).
Proof.
  cbn zeta. intros Hb Hs [Ut _] Hr Hn Bn. unfold basis_status. rewrite (to_sources _ _ _ Hb), (to_targets _ _ _ Hb), (to_missing _ _ _ Hb), (to_unsupported _ _ _ Hb).
  pose proof (class_present SourceLeg ts) as C1. pose proof (class_present TargetLeg ts) as C2.
  destruct (Z.eqb_spec (count (is_class SourceLeg) ts) 0) as [E1|E1]; [eexists; split; [reflexivity|]; split_and!; [split; [done|intros []; naive_solver]|done|done]|].
  destruct (Z.eqb_spec (count (is_class TargetLeg) ts) 0) as [E2|E2]; [eexists; split; [reflexivity|]; split_and!; [split; [done|intros []; naive_solver]|done|done]|].
  cbn [orb]. pose proof (lacking_cash ts) as C3. pose proof (count_pos lacks_basis ts).
  destruct (Z.ltb_spec 0 (count lacks_basis ts)) as [E3|E3]; [eexists; split; [reflexivity|]; split_and!; [split; [done|intros []]|done|done]; specialize (proj2 C3 cv_cash0); lia|].
  pose proof (allocation_negative _ _ _ Hb Hs) as C4. assert (Hret : has_negative_target_basis_allocation b = false -> dltb retained dzero = false).
  { intros Hneg. pose proof (borne_in_total ts (proj1 C4 Hneg)). apply dltb_false. apply (units_le (-10) dzero retained 0 (total TargetLeg ts - total FractionalLeg ts)); [reflexivity|done|lia]. }
  destruct (has_negative_target_basis_allocation b) eqn:E4.
  { rewrite orb_true_r. eexists; split; [reflexivity|]; split_and!; [split; [done|intros []]|done|done]. by specialize (proj2 C4 cv_borne0). }
  rewrite (Hret eq_refl). cbn [orb].
  match goal with |- context [0 <? ?n] => pose proof (unsupported_adjustments (index_unambiguous_transactions ts) ts) as C5; destruct (Z.ltb_spec 0 n) as [E5|E5] end.
  { eexists; split; [reflexivity|]; split_and!; [split; [done|intros []]|done|done]. specialize (proj2 C5 cv_adjustments0). lia. }
  destruct (dabs_units net _ Hn Bn) as (magnitude & -> & Hm). cbn [mbind result_bind]. eexists; split; [reflexivity|].
  assert (Hle : dleb magnitude tolerance = true <-> Z.abs (total TargetLeg ts + total ConsiderationLeg ts - total SourceLeg ts) <= ul tolerance)
    by (rewrite dleb_spec; by apply (units_le (-10))).
  match type of E5 with count ?p ts <= 0 => pose proof (count_pos p ts) end.
  split; [|by destruct (dleb magnitude tolerance)]. split.
  - destruct (dleb magnitude tolerance); [intros _|done]. constructor; [by apply C1|by apply C2|apply C3; lia|exact (proj1 C4 eq_refl)|apply C5; lia|by apply Hle].
  - intros []. by rewrite (proj2 Hle cv_balance0).
Qed.

Lemma reconcile_spec ts tolerance : Forall stored_leg ts -> Z.of_nat (length ts) <= 10 ^ 9 -> checkable (index_unambiguous_transactions ts) ts -> stored tolerance ->
  exists r, reconcile_corporate_action_basis ts tolerance = Ok r /\
    units (-10) (br_net_basis_delta_local r) (total TargetLeg ts + total ConsiderationLeg ts - total SourceLeg ts) /\
    (br_status r = BALANCED <-> conserved ts tolerance) /\
    br_missing_cash_basis_count r = count lacks_basis ts /\
    br_unsupported_adjustment_count r = count (fun t => is_class AdjustmentLeg t &&
      negb (bool_decide (is_governed_cash_settlement_adjustment t (index_unambiguous_transactions ts) = Ok true))) ts /\
    (br_status r = INSUFFICIENT_CASH_BASIS -> 0 < br_missing_cash_basis_count r) /\ (br_status r = UNSUPPORTED_ADJUSTMENT -> 0 < br_unsupported_adjustment_count r).
Proof.
  intros Hs Hl Hc Ht. unfold reconcile_corporate_action_basis. set (index := index_unambiguous_transactions ts) in *.
  destruct (totals_fold index ts _ [] (totals_empty index) Hs Hl Hc) as (b & -> & Hb). cbn [app] in Hb. cbn [mbind result_bind].
  pose proof (fun c => small_totals c ts Hs Hl) as S. pose proof (S TargetLeg). pose proof (S FractionalLeg). pose proof (S ConsiderationLeg). pose proof (S SourceLeg). clear S.
  unfold dsub, dadd. destruct (ambient_exact _ _ (units_sub _ _ _ _ _ (to_target_basis _ _ _ Hb) (to_fractional_basis _ _ _ Hb)) ltac:(lia)) as (retained & -> & Hr).
  cbn [mbind result_bind]. destruct (ambient_exact _ _ (units_add _ _ _ _ _ Hr (to_fractional_basis _ _ _ Hb)) ltac:(lia)) as (wf & -> & Hwf). cbn [mbind result_bind].
  destruct (ambient_exact _ _ (units_add _ _ _ _ _ Hwf (to_consideration_basis _ _ _ Hb)) ltac:(lia)) as (wc & -> & Hwc). cbn [mbind result_bind].
  destruct (ambient_exact _ _ (units_sub _ _ _ _ _ Hwc (to_source_basis _ _ _ Hb)) ltac:(lia)) as (net & -> & Hnet). cbn [mbind result_bind].
  replace (total TargetLeg ts - total FractionalLeg ts + total FractionalLeg ts + total ConsiderationLeg ts - total SourceLeg ts)
    with (total TargetLeg ts + total ConsiderationLeg ts - total SourceLeg ts) in Hnet by lia.
  destruct (status_spec ts b retained net tolerance Hb Hs Ht Hr Hnet ltac:(lia)) as (s & -> & Hbal & Hmiss & Huns). cbn [mbind result_bind].
  eexists. split; [reflexivity|].
  cbn [br_net_basis_delta_local br_status br_missing_cash_basis_count br_unsupported_adjustment_count].
  split_and!; [exact Hnet|exact Hbal|exact (to_missing _ _ _ Hb)|exact (to_unsupported _ _ _ Hb)|exact Hmiss|exact Huns].
Qed.

(** ** The index *)

Definition of_key (k : string) (ts : list BookedTransaction) : list BookedTransaction := List.filter (fun t => String.eqb (transaction_key t) k) ts.

(** What the index says of an identity: absent, one transaction, or ambiguous. *)
Definition indexed (ts : list BookedTransaction) : option (option BookedTransaction) :=
  match ts with [] => None | [t] => Some (Some t) | _ => Some None end.

Lemma index_get ts k : truthy k = true -> od_get k (index_unambiguous_transactions ts) = indexed (of_key k ts).
Proof.
  intros Hk. unfold index_unambiguous_transactions. induction ts as [|t ts IH] using rev_ind; [done|].
  rewrite foldl_app. cbn [foldl]. unfold of_key. rewrite List.filter_app. fold (of_key k ts). cbn [List.filter]. set (d := foldl index_transaction [] ts) in *.
  unfold index_transaction. destruct (String.eqb_spec (transaction_key t) k) as [E|Hne].
  - rewrite E, Hk, IH. cbn [negb]. destruct (of_key k ts) as [|x [|y l]]; cbn [indexed app]; by rewrite od_get_set.
  - rewrite app_nil_r, <- IH. destruct (truthy (transaction_key t)); [|done]. cbn [negb].
    destruct (od_get (transaction_key t) d); by rewrite od_get_set_ne.
Qed.

Lemma index_NoDup ts : NoDup (index_unambiguous_transactions ts).*1.
Proof.
  unfold index_unambiguous_transactions. induction ts as [|t ts IH] using rev_ind; [apply NoDup_nil_2|]. rewrite foldl_app. cbn [foldl]. unfold index_transaction at 1.
  destruct (negb _); [done|]. destruct (od_get _ _); by apply od_set_NoDup.
Qed.

(** The identities, in the order in which they first occur. *)
Definition add_key (ks : list string) (k : string) : list string := if truthy k then if decide (k ∈ ks) then ks else (ks ++ [k])%list else ks.

Lemma index_keys ts : (index_unambiguous_transactions ts).*1 = foldl add_key [] (map transaction_key ts).
Proof.
  unfold index_unambiguous_transactions. induction ts as [|t ts IH] using rev_ind; [done|]. rewrite map_app, !foldl_app. cbn [foldl map]. rewrite <- IH.
  unfold index_transaction at 1, add_key. destruct (truthy (transaction_key t)); [|done]. cbn [negb]. by destruct (od_get _ _); rewrite od_set_keys.
Qed.

Lemma od_ext {V} (d d' : list (string * V)) : NoDup d.*1 -> d.*1 = d'.*1 -> (forall k, k ∈ d.*1 -> od_get k d = od_get k d') -> d = d'.
Proof.
  revert d'. induction d as [|[k v] d IH]; intros [|[k' v'] d'] Hnd Hk Hg; try done. cbn [fmap list_fmap fst] in *. injection Hk as <- Hk.
  apply NoDup_cons in Hnd as [Hn Hnd]. pose proof (Hg k (list_elem_of_here _ _)) as Hv. cbn [od_get] in Hv. rewrite !decide_True in Hv by done. injection Hv as <-. f_equal.
  apply IH; [done|done|]. intros j Hj. specialize (Hg j (list_elem_of_further _ _ _ Hj)). cbn [od_get] in Hg. rewrite !decide_False in Hg by (intros ->; done). exact Hg.
Qed.

Lemma indexed_perm ts ts' : ts ≡ₚ ts' -> indexed ts = indexed ts'.
Proof.
  intros Hp. pose proof (Permutation_length Hp) as Hl. destruct ts as [|x [|y l]], ts' as [|x' [|y' l']]; try done. by apply Permutation_singleton_r in Hp as [= ->].
Qed.

Lemma keys_truthy ks k : k ∈ foldl add_key [] ks -> truthy k = true.
Proof.
  induction ks as [|j ks IH] using rev_ind; [by intros ?%elem_of_nil|]. rewrite foldl_app. cbn [foldl]. unfold add_key at 1. destruct (truthy j) eqn:E; [|done].
  case_decide; [done|]. intros [?| ->%list_elem_of_singleton]%elem_of_app; auto.
Qed.

Lemma index_perm ts ts' : ts ≡ₚ ts' -> map transaction_key ts = map transaction_key ts' -> index_unambiguous_transactions ts = index_unambiguous_transactions ts'.
Proof.
  intros Hp Hm. apply od_ext; [apply index_NoDup|by rewrite !index_keys, Hm|]. intros k Hk. rewrite index_keys in Hk. apply keys_truthy in Hk.
  rewrite !index_get by done. by apply indexed_perm, filter_perm.
Qed.

Lemma ordered_keys ts ts' : ts ≡ₚ ts' -> map transaction_key (order_by_key ts) = map transaction_key (order_by_key ts').
Proof.
  intros Hp. assert (Hs : forall ts, StronglySorted (fun x y => string_leb x y = true) (map transaction_key (order_by_key ts))).
  { intros us. unfold order_by_key. pose proof (stable_sort_sorted (fun x y => string_leb (transaction_key x) (transaction_key y)) ltac:(intros; apply string_leb_total)
      ltac:(intros ? ? ?; apply string_leb_trans) us) as H. induction H as [|x l _ IH HF]; cbn [map]; [constructor|]. constructor; [done|]. by apply Forall_map. }
  apply (StronglySorted_unique_strong (fun x y => string_leb x y = true)); [intros x y _ _; apply string_leb_antisym|done|done|].
  apply Permutation_map. unfold order_by_key. by rewrite !stable_sort_perm.
Qed.

(** What the linkage control reports of a group does not depend on the order in which its legs arrive: ambiguous identities drop out
    whatever their order, and the findings follow the order of the identities. *)
Theorem leg_linkage_ignores_order ts ts' : ts ≡ₚ ts' -> reconcile_corporate_action_leg_linkage ts = reconcile_corporate_action_leg_linkage ts'.
Proof.
  intros Hp. unfold reconcile_corporate_action_leg_linkage.
  by rewrite (index_perm (order_by_key ts) (order_by_key ts')) by (apply ordered_keys || (unfold order_by_key; rewrite !stable_sort_perm); done).
Qed.

(** ** Reciprocity *)

(** A leg whose identity is not blank and is no other leg's. *)
Definition identified (ts : list BookedTransaction) (t : BookedTransaction) : Prop := truthy (transaction_key t) = true /\ of_key (transaction_key t) ts = [t].

(** The target of a source: each refers to the other, and both name both instruments. *)
Record reciprocates (source target : BookedTransaction) : Prop := {
  rc_type : od_get (leg_type source) QUANTITY_TRANSFER_CORPORATE_ACTION_PAIRS = Some (leg_type target);
  rc_target : normalized_reference (tx_target_transaction_reference source) = Some (transaction_key target);
  rc_source : normalized_reference (tx_source_transaction_reference target) = Some (transaction_key source);
  rc_source_instrument : normalized_reference (tx_source_instrument_id source) = Some (strip (tx_instrument_id source));
  rc_source_instrument' : normalized_reference (tx_source_instrument_id target) = Some (strip (tx_instrument_id source));
  rc_target_instrument : normalized_reference (tx_target_instrument_id source) = Some (strip (tx_instrument_id target));
  rc_target_instrument' : normalized_reference (tx_target_instrument_id target) = Some (strip (tx_instrument_id target))
}.

Definition is_quantity_source (t : BookedTransaction) : Prop := od_get (leg_type t) QUANTITY_TRANSFER_CORPORATE_ACTION_PAIRS <> None.
Definition is_quantity_target (t : BookedTransaction) : Prop := in_set (leg_type t) TARGET_QUANTITY_TRANSFER_TRANSACTION_TYPES = true.

(** Every source has its target, and a target that names a source names a source of the group. *)
Record legs_reciprocate (ts : list BookedTransaction) : Prop := {
  lr_sources : forall s, identified ts s -> is_quantity_source s -> exists t, identified ts t /\ reciprocates s t;
  lr_targets : forall t source_id, identified ts t -> is_quantity_target t -> normalized_reference (tx_source_transaction_reference t) = Some source_id ->
    exists s, identified ts s /\ transaction_key s = source_id /\ is_quantity_source s
}.

Definition legs_by_id (ts : list BookedTransaction) : list (string * BookedTransaction) := unambiguous (index_unambiguous_transactions (order_by_key ts)).

Lemma unambiguous_get d k : NoDup d.*1 -> od_get k (unambiguous d) = match od_get k d with Some (Some t) => Some t | _ => None end.
Proof.
  unfold unambiguous. induction d as [|[j o] d IH]; [done|]. cbn [fmap list_fmap fst]. intros [Hj Hd]%NoDup_cons. cbn [omap list_omap od_get]. destruct o as [t|].
  - cbn [od_get]. case_decide; [done|]. by apply IH.
  - rewrite IH by done. case_decide; [subst j|done]. assert (od_get k d = None) as -> by (by apply od_get_None). done.
Qed.

Lemma unambiguous_NoDup d : NoDup d.*1 -> NoDup (unambiguous d).*1.
Proof.
  unfold unambiguous. induction d as [|[j o] d IH]; [done|]. cbn [fmap list_fmap fst]. intros [Hj Hd]%NoDup_cons. cbn [omap list_omap]. destruct o as [t|]; [|by apply IH].
  cbn [fmap list_fmap fst]. apply NoDup_cons. split; [|by apply IH]. intros ([k t'] & -> & ([k' o'] & Hin & E)%list_elem_of_omap)%list_elem_of_fmap. cbn in Hj.
  destruct o'; [|done]. injection E as -> ->. apply Hj. exact (list_elem_of_fmap_2 fst _ _ Hin).
Qed.

Lemma legs_get ts k t : od_get k (legs_by_id ts) = Some t <-> identified ts t /\ transaction_key t = k.
Proof.
  unfold legs_by_id. rewrite unambiguous_get by apply index_NoDup. unfold identified.
  assert (Hof : forall k', indexed (of_key k' (order_by_key ts)) = indexed (of_key k' ts)) by (intros; apply indexed_perm, filter_perm, stable_sort_perm).
  split.
  - destruct (truthy k) eqn:Hk; [rewrite index_get, Hof by done|].
    + destruct (of_key k ts) as [|x [|y l]] eqn:E; cbn [indexed]; try done. intros [= ->]. assert (Hin : In t (of_key k ts)) by (rewrite E; by left).
      apply filter_In in Hin as [_ Hkt%String.eqb_eq]. by rewrite Hkt.
    + destruct (od_get k _) as [[x|]|] eqn:E; [|done|done]. apply od_get_elem, (list_elem_of_fmap_2 fst) in E. cbn [fst] in E. rewrite index_keys in E. apply keys_truthy in E. by rewrite E in Hk.
  - intros [[Hk Hf] <-]. rewrite index_get, Hof, Hf by done. done.
Qed.

Lemma legs_elem ts t : t ∈ map snd (legs_by_id ts) <-> identified ts t.
Proof.
  assert (Hnd : NoDup (legs_by_id ts).*1) by (apply unambiguous_NoDup, index_NoDup). split.
  - intros ([k t'] & -> & Hin)%list_elem_of_fmap. apply (od_get_of_elem _ _ _ Hnd) in Hin. by apply legs_get in Hin as [? _].
  - intros Hi. assert (E : od_get (transaction_key t) (legs_by_id ts) = Some t) by (by apply legs_get). apply od_get_elem in E. apply list_elem_of_fmap. by exists (transaction_key t, t).
Qed.

Lemma in_set_elem x xs : in_set x xs = true <-> x ∈ xs.
Proof. by rewrite in_set_true, list_elem_of_In. Qed.

Lemma compare_nil ft s id field expected observed : compare_linkage_field ft s id field expected observed = [] <-> observed = Some expected.
Proof. unfold compare_linkage_field. case_bool_decide; naive_solver. Qed.

Lemma source_clear ts s : fst (source_leg_findings (legs_by_id ts) s) = [] <-> (is_quantity_source s -> exists t, identified ts t /\ reciprocates s t).
Proof.
  unfold source_leg_findings, is_quantity_source. destruct (od_get (leg_type s) QUANTITY_TRANSFER_CORPORATE_ACTION_PAIRS) as [expected|] eqn:Ht; [|by split].
  destruct (normalized_reference (tx_target_transaction_reference s)) as [target_id|] eqn:Hr.
  2:{ split; [done|]. intros H. destruct (H ltac:(done)) as (t & _ & []). congruence. }
  destruct (od_get target_id (legs_by_id ts)) as [t|] eqn:Hg.
  2:{ split; [done|]. intros H. destruct (H ltac:(done)) as (t & Hi & []). rewrite Hr in rc_target0. injection rc_target0 as ->.
      assert (od_get (transaction_key t) (legs_by_id ts) = Some t) by (by apply legs_get). congruence. }
  apply legs_get in Hg as [Hi <-]. cbn [fst]. unfold reciprocal_findings. rewrite !app_nil, !compare_nil. split.
  - intros (E1 & E2 & E3 & E4 & E5 & E6) _. exists t. split; [done|]. constructor; try done. destruct (String.eqb_spec (leg_type t) expected) as [<-|]; [done|discriminate E1].
  - intros H. destruct (H ltac:(done)) as (t' & Hi' & []). rewrite Hr in rc_target0. injection rc_target0 as Hkey.
    assert (t' = t) as -> by (destruct Hi as [_ Hi], Hi' as [_ Hi']; rewrite Hkey, Hi' in Hi; by injection Hi).
    rewrite Ht in rc_type0. injection rc_type0 as ->. rewrite String.eqb_refl. done.
Qed.

(** A source whose target is present counts as referenced. *)
Lemma source_referenced ts s t : identified ts t -> reciprocates s t -> snd (source_leg_findings (legs_by_id ts) s) = true.
Proof.
  intros Hi []. unfold source_leg_findings. rewrite rc_type0, rc_target0. assert (od_get (transaction_key t) (legs_by_id ts) = Some t) as -> by (by apply legs_get). done.
Qed.

Lemma referenced_is_source ts s : snd (source_leg_findings (legs_by_id ts) s) = true -> is_quantity_source s.
Proof. unfold source_leg_findings, is_quantity_source. by destruct (od_get (leg_type s) QUANTITY_TRANSFER_CORPORATE_ACTION_PAIRS). Qed.

Definition referenced_ids (ts : list BookedTransaction) : list string :=
  map transaction_key (List.filter (fun t => snd (source_leg_findings (legs_by_id ts) t)) (map snd (legs_by_id ts))).

Lemma target_clear ts t : target_leg_findings (legs_by_id ts) (referenced_ids ts) t = [] <->
  (is_quantity_target t -> forall source_id, normalized_reference (tx_source_transaction_reference t) = Some source_id ->
   exists s, identified ts s /\ transaction_key s = source_id /\ snd (source_leg_findings (legs_by_id ts) s) = true).
Proof.
  unfold target_leg_findings, is_quantity_target. destruct (in_set (leg_type t) TARGET_QUANTITY_TRANSFER_TRANSACTION_TYPES); [cbn [negb]|by split].
  destruct (normalized_reference (tx_source_transaction_reference t)) as [source_id|]; [|by split].
  assert (Hin : in_set source_id (referenced_ids ts) = true <-> exists s, identified ts s /\ transaction_key s = source_id /\ snd (source_leg_findings (legs_by_id ts) s) = true).
  { rewrite in_set_elem. unfold referenced_ids. split.
    - intros (s & -> & [Hs Hr]%list_elem_of_In%List.filter_In)%list_elem_of_fmap. exists s. split; [by apply legs_elem, list_elem_of_In|done].
    - intros (s & Hs & <- & Hr). apply list_elem_of_fmap. exists s. split; [done|]. apply list_elem_of_In, List.filter_In. split; [by apply list_elem_of_In, legs_elem|done]. }
  destruct (in_set source_id (referenced_ids ts)).
  - split; [|done]. intros _ _ ? [= <-]. by apply Hin.
  - split; [done|]. intros H. specialize (H eq_refl source_id eq_refl). by apply Hin in H.
Qed.

(** The linkage control reports nothing exactly when the identified legs reciprocate. *)
Lemma linkage_decided ts : reconcile_corporate_action_leg_linkage ts = [] <-> legs_reciprocate ts.
Proof.
  unfold reconcile_corporate_action_leg_linkage. fold (legs_by_id ts). fold (referenced_ids ts). rewrite app_nil, !flat_map_nil. split.
  - intros [H1 H2]. assert (Hs : forall s, identified ts s -> is_quantity_source s -> exists t, identified ts t /\ reciprocates s t)
      by (intros s Hi; apply source_clear, H1, legs_elem, Hi).
    constructor; [done|]. intros t source_id Hi Ht Hr. destruct (proj1 (target_clear ts t) (H2 t (proj2 (legs_elem ts t) Hi)) Ht source_id Hr) as (s & Hs' & <- & Href).
    exists s. split_and!; [done|done|by apply referenced_is_source in Href].
  - intros [H1 H2]. split; intros t Hi%legs_elem; [by apply source_clear, H1|]. apply target_clear. intros Ht source_id Hr.
    destruct (H2 t source_id Hi Ht Hr) as (s & Hs & Hk & Hq). exists s. split_and!; [done|done|]. destruct (H1 s Hs Hq) as (t' & Hi' & Hrec). by eapply source_referenced.
Qed.

(** ** The whole group *)

Definition dependencies_present (ts : list BookedTransaction) : Prop :=
  forall t reference, t ∈ ts -> is_reconcilable_corporate_action (Some (tx_transaction_type t)) = true -> reference ∈ default [] (tx_dependency_reference_ids t) ->
    reference ∈ map tx_transaction_id ts.

Lemma missing_decided ts : missing_dependencies ts = [] <-> dependencies_present ts.
Proof.
  unfold missing_dependencies, dependencies_present.
  assert (Hs : forall l : list string, stable_sort string_leb (remove_dups l) = [] <-> l = []).
  { intros l. split; [|by intros ->]. intros E. apply elem_of_nil_inv. intros x Hx. apply (not_elem_of_nil x). rewrite <- E, stable_sort_perm. by apply elem_of_remove_dups. }
  rewrite Hs, flat_map_nil. unfold missing_corporate_action_dependencies. split.
  - intros H t reference Hin Hrec Hd. specialize (H t Hin). rewrite Hrec in H. cbn [negb] in H. apply in_set_elem. destruct (in_set reference _) eqn:E; [done|].
    assert (Hf : In reference (List.filter (fun r => negb (in_set r (map tx_transaction_id ts))) (default [] (tx_dependency_reference_ids t))))
      by (apply filter_In; rewrite E; split; [by apply list_elem_of_In|done]). by rewrite H in Hf.
  - intros H t Hin. destruct (is_reconcilable_corporate_action _) eqn:Hrec; [|done]. cbn [negb]. apply elem_of_nil_inv. intros reference [Hd Hn]%list_elem_of_In%filter_In.
    assert (Hr : in_set reference (map tx_transaction_id ts) = true) by (apply in_set_elem; apply (H t); [done|done|by apply list_elem_of_In]). by rewrite Hr in Hn.
Qed.

Lemma findings_empty scope r missing linkage :
  (br_status r = INSUFFICIENT_CASH_BASIS -> 0 < br_missing_cash_basis_count r) -> (br_status r = UNSUPPORTED_ADJUSTMENT -> 0 < br_unsupported_adjustment_count r) ->
  (br_status r = BALANCED -> br_missing_cash_basis_count r <= 0 /\ br_unsupported_adjustment_count r <= 0) ->
  group_findings scope r missing linkage = [] <-> br_status r = BALANCED /\ missing = [] /\ linkage = [].
Proof.
  intros H1 H2 H3. unfold group_findings. rewrite !app_nil. split.
  - intros (Es & Ec & Ea & Em & El). split_and!; [|by destruct missing|by destruct linkage].
    unfold status_findings in Es. destruct (br_status r); try done.
    + specialize (H1 eq_refl). apply Z.ltb_lt in H1. by rewrite H1 in Ec.
    + specialize (H2 eq_refl). apply Z.ltb_lt in H2. by rewrite H2 in Ea.
  - intros (Es & -> & ->). destruct (H3 Es) as [Hm Hu]. unfold status_findings. rewrite Es, (proj2 (Z.ltb_ge _ _) Hm), (proj2 (Z.ltb_ge _ _) Hu). done.
Qed.

(** C26: a linked corporate-action group of stored amounts passes its reconciliation exactly when its basis is conserved: it has a source and
    a target leg, every cash leg carries a basis, no instrument gives up more fractional basis than its targets received, every
    adjustment settles a cash leg of the group, targets plus cash consideration equal the sources within the tolerance, the identified
    quantity-transfer legs reciprocate and every declared dependency is in the group. *)
Theorem group_passes_iff_conserved scope ts tolerance :
  ts <> [] -> Forall stored_leg ts -> Z.of_nat (length ts) <= 10 ^ 9 -> checkable (index_unambiguous_transactions ts) ts -> stored tolerance ->
  exists findings summary, assess_group scope ts tolerance = Ok (findings, summary) /\
    (gs_passed summary = true <-> conserved ts tolerance /\ legs_reciprocate ts /\ dependencies_present ts) /\
    (gs_passed summary = true <-> findings = []).
Proof.
  intros Hne Hs Hl Hc Ht. unfold assess_group. destruct (reconcile_spec ts tolerance Hs Hl Hc Ht) as (r & -> & _ & Hbal & Hm & Hu & H1 & H2). cbn [mbind result_bind].
  destruct ts as [|t0 rest] eqn:Ets; [done|]. rewrite <- Ets in *. cbn [raise_if mbind result_bind]. do 2 eexists. split; [reflexivity|].
  assert (Hp : forall fs, gs_passed (group_summary r fs) = true <-> fs = []) by (intros [|f fs]; cbn [group_summary gs_passed length]; [done|]; rewrite Z.eqb_eq; split; [lia|done]).
  split; [|apply Hp]. rewrite Hp, findings_empty; [|done|done|].
  - rewrite Hbal, missing_decided, <- linkage_decided.
    assert (Hsort : stable_sort (leb_of linkage_finding_compare) (reconcile_corporate_action_leg_linkage ts) = [] <-> reconcile_corporate_action_leg_linkage ts = []).
    { split; [|by intros ->]. intros E. apply Permutation_nil_r. by rewrite <- E, stable_sort_perm. }
    rewrite Hsort. tauto.
  - intros Hb%Hbal. destruct Hb. rewrite Hm, Hu. split; [by rewrite (proj2 (lacking_cash ts) cv_cash0)|by rewrite (proj2 (unsupported_adjustments _ ts) cv_adjustments0)].
Qed.
