(* ===== verification/UpstreamPairs.v ===== *)
(** * Cash legs supplied from upstream

    An accepted upstream cash leg moves the settlement amount of its product leg, in the direction that it
    declares itself; the pairing does not compare that direction with the product's.  Concrete groups and
    pairs close the file. *)

From Stdlib Require Import ZArith Lia QArith String.
From stdpp Require Import base tactics list sets strings.
From S2P Require Import Prelude PyDecimal DecimalFacts PyTime Precision Lineage Registry Transactions Values Position Lots Settlement SettlementFacts Cashflow CashflowFacts LinkedLegs LinkedLegsFacts.

#[local] Open Scope string_scope.
#[local] Open Scope Z_scope.

(** ** What an accepted pair agrees on *)

Lemma paired_inv p leg : validate_upstream_cash_leg_pairing p leg = Ok [] ->
  is_upstream_provided_cash_entry_mode (tx_cash_entry_mode p) = Ok true /\ tx_portfolio_id p = tx_portfolio_id leg /\
  tx_external_cash_transaction_id p = Some (tx_transaction_id leg) /\ settlement_type leg = "ADJUSTMENT" /\ dleb (tx_gross_transaction_amount leg) dzero = false /\
  settlement_amount_issues p leg = Ok [].
Proof.
  unfold validate_upstream_cash_leg_pairing. intros (upstream & Hu & H)%bind_Ok. apply bind_Ok in H as (issues & Hi & H). injection H as H. rewrite !app_nil in H.
  destruct H as (H1 & H2 & H3 & H4 & H5 & -> & _). split_and!.
  - by destruct upstream.
  - destruct (String.eqb_spec (tx_portfolio_id p) (tx_portfolio_id leg)); [done|discriminate H2].
  - case_bool_decide as Hx; [discriminate H3|done].
  - fold (settlement_type leg) in H4. destruct (String.eqb_spec (settlement_type leg) "ADJUSTMENT"); [done|discriminate H4].
  - by destruct (dleb _ dzero).
  - done.
Qed.

(** The amount of an accepted leg is the settlement amount, for a product with an ordinary settlement. *)
Lemma paired_amount p leg n : in_set (settlement_type p) ORDINARY_SETTLEMENT_TRANSACTION_TYPES = true -> settlement_amount_issues p leg = Ok [] ->
  units (-10) (tx_gross_transaction_amount leg) n -> settlement_stored p ->
  exists m k, calculate_settlement_cash_movement p = Ok m /\ units (-10) (sm_signed_amount m) k /\ Z.abs k = n.
Proof.
  unfold settlement_amount_issues. fold (settlement_type p). intros -> (m & Hm & H)%bind_Ok Hn Hs. destruct (settlement_Ok p m Hs Hm) as (fee & k & _ & _ & _ & Hk).
  exists m, k. split; [done|]. split; [done|]. injection H as H. destruct (deqb _ _) eqn:E; [|discriminate H]. apply deqb_spec in E.
  symmetry. apply (units_inj (-10) (tx_gross_transaction_amount leg)); [done|]. unfold units. rewrite E. exact (cashflow_units_abs _ k Hk).
Qed.

Section Pairs.
Context `{hashing : Hashing} {hashing_ok : HashingOk}.

(** A cash leg of stored amounts that is processed as the adjustment it is: it carries no component of a foreign-exchange event and no
    synthetic flow, and its charges, [fee] in all, are valid. *)
Record ordinary_cash_leg (leg : BookedTransaction) (fee : Z) : Prop := {
  ol_stored : settlement_stored leg;
  ol_component : in_set (normalize_processing_type (tx_component_type leg)) FX_COMPONENT_PROCESSING_TYPES = false;
  ol_flow : default false (tx_has_synthetic_flow leg) = false;
  ol_fee : settlement_fee leg = Some fee;
  ol_amount : Z.abs (ul (tx_gross_transaction_amount leg) - fee) < 10 ^ 18
}.

(** Its cashflow is its gross amount less its charges, signed by its direction. *)
Lemma cash_leg_cashflow leg fee rule epoch c : ordinary_cash_leg leg fee -> settlement_type leg = "ADJUSTMENT" ->
  let net := Z.abs (ul (tx_gross_transaction_amount leg) - fee) in
  exists cf, calculate_transaction_cashflow leg rule epoch c = Ok cf /\ units (-10) (cf_amount cf) (if moves_in leg then net else - net).
Proof.
  intros [Hs Hcomp Hf Hfee Hb] Hty net. assert (Ht : resolve_effective_processing_transaction_type leg = "ADJUSTMENT").
  { unfold resolve_effective_processing_transaction_type. cbn [pt_component_type pt_transaction_type booked_processing_source]. rewrite Hcomp. exact Hty. }
  destruct (base_units leg Hs fee Hfee "ADJUSTMENT" eq_refl) as (b & Hbase & Ub & Fb & Gb). change (in_set "ADJUSTMENT" ["BUY"; "FEE"]) with false in Ub. cbv match in Ub.
  destruct (signed_units (moves_in leg) b _ Ub ltac:(lia)) as (r & Hr & Ur). fold net in Ur.
  pose proof (resolve_fee_spec _ leg cashflow_context_ledger Hs) as Hd. rewrite Hfee in Hd. destruct Hd as (d & Hd & _).
  assert (He : exists e, resolve_cashflow_economics leg rule (resolve_effective_processing_transaction_type leg) c = Ok e /\ ce_amount e = r).
  { rewrite Ht. unfold resolve_cashflow_economics. rewrite Hf. change (in_set "ADJUSTMENT" REDEMPTION_TRANSACTION_TYPES) with false.
    change (in_set "ADJUSTMENT" ORDINARY_SETTLEMENT_TRANSACTION_TYPES) with false. cbv match. rewrite Hbase. cbn [mbind result_bind]. unfold signed_cashflow_amount.
    change (String.eqb "ADJUSTMENT" "ADJUSTMENT") with true. cbv match. unfold signed_adjustment_amount. fold (moves_in leg). rewrite Hr. cbn [mbind result_bind]. by eexists. }
  destruct He as (e & He & Er). rewrite <- Er in Ur.
  destruct (cashflow_total leg rule epoch c e d _ He Hd Ur) as (cf & Hcf & Ha & _); [unfold net; destruct (moves_in leg); lia|]. exists cf. by rewrite Ha.
Qed.

(** C27: a cash leg of stored amounts that the pairing accepts for an ordinary settlement, and that carries neither a foreign-exchange
    component nor a synthetic flow and whose charges are valid and leave an amount that fits its column, always has a cashflow.  It moves the settlement amount of the product less the charges of the leg
    itself, in the direction that the leg declares: the pairing compares the gross amounts alone.  So the leg is the settlement cash of the
    product exactly when the direction is the product's and the leg bears no charge, or one of twice the amount. *)
Theorem accepted_pair_moves_settlement_amount p leg fee rule epoch c :
  settlement_stored p -> in_set (settlement_type p) ORDINARY_SETTLEMENT_TRANSACTION_TYPES = true -> ordinary_cash_leg leg fee ->
  validate_upstream_cash_leg_pairing p leg = Ok [] ->
  exists m n cf a, calculate_settlement_cash_movement p = Ok m /\ units (-10) (sm_signed_amount m) n /\ n <> 0 /\
    calculate_transaction_cashflow leg rule epoch c = Ok cf /\ units (-10) (cf_amount cf) a /\
    a = (if moves_in leg then 1 else -1) * Z.abs (Z.abs n - fee) /\
    (a = n <-> moves_in leg = (0 <? n) /\ (fee = 0 \/ fee = 2 * Z.abs n)).
Proof.
  intros Hs Ho Hl (_ & _ & _ & Hty & Hpos & Hi)%paired_inv. pose proof (ss_gross _ (ol_stored _ _ Hl)) as [Hgross Hgb].
  set (gross := ul (tx_gross_transaction_amount leg)) in *. destruct (paired_amount p leg gross Ho Hi Hgross Hs) as (m & n & Hm & Hn & Ha).
  assert (Hg : 0 < gross).
  { destruct (Z.le_gt_cases gross 0) as [L|]; [|lia]. assert (dleb (tx_gross_transaction_amount leg) dzero = true); [|congruence]. apply dleb_spec.
    by apply (units_le (-10) _ _ gross 0 Hgross); [apply units_dzero|]. }
  destruct (cash_leg_cashflow leg fee rule epoch c Hl Hty) as (cf & Hcf & Hamt). fold gross in Hamt. rewrite <- Ha in Hamt.
  exists m, n, cf, (if moves_in leg then Z.abs (Z.abs n - fee) else - Z.abs (Z.abs n - fee)).
  split_and!; [done|done|lia|done|done|destruct (moves_in leg); lia|]. destruct (moves_in leg), (Z.ltb_spec 0 n); (split; [intros E; split; [done || lia|lia]|intros [E1 [E2|E2]]; try discriminate E1; lia]).
Qed.
End Pairs.

(** ** A merger with cash *)

(** The fields in which the example legs differ. *)
Record LegData := {
  ld_id : string; ld_type : string; ld_instrument : string; ld_gross : decimal; ld_net_cost_local : option decimal; ld_allocated : option decimal;
  ld_mode : option string; ld_external : option string; ld_direction : option string; ld_originating : option (string * string * string * string);
  ld_references : option string * option string; ld_instruments : option string * option string; ld_dependencies : option (list string)
}.

Definition booked (d : LegData) : BookedTransaction :=
  {| tx_transaction_id := ld_id d; tx_portfolio_id := "P1"; tx_instrument_id := ld_instrument d; tx_security_id := ld_instrument d;
     tx_transaction_date := {| dt_us := 1700000000000000; dt_utcoffset := Some 0 |}; tx_transaction_type := ld_type d;
     tx_quantity := dzero; tx_price := dzero; tx_gross_transaction_amount := ld_gross d; tx_trade_currency := "USD"; tx_currency := "USD";
     tx_trade_fee := Some dzero; tx_brokerage := None; tx_stamp_duty := None; tx_exchange_fee := None; tx_gst := None; tx_other_fees := None;
     tx_settlement_date := None; tx_net_cost := None; tx_gross_cost := None; tx_realized_gain_loss := None; tx_transaction_fx_rate := None;
     tx_transaction_fx_rate_origin := None; tx_net_cost_local := ld_net_cost_local d; tx_realized_gain_loss_local := None; tx_economic_event_id := Some "EVT";
     tx_linked_transaction_group_id := Some "LTG"; tx_calculation_policy_id := None; tx_calculation_policy_version := None; tx_source_system := None;
     tx_source_record_id := None; tx_source_batch_id := None; tx_observed_at := None; tx_cash_entry_mode := ld_mode d;
     tx_external_cash_transaction_id := ld_external d; tx_settlement_cash_account_id := None; tx_settlement_cash_instrument_id := None;
     tx_movement_direction := ld_direction d; tx_originating_transaction_id := option_map (fun o => fst (fst (fst o))) (ld_originating d); tx_originating_transaction_type := option_map (fun o => snd (fst (fst o))) (ld_originating d); tx_adjustment_reason := option_map (fun o => snd (fst o)) (ld_originating d);
     tx_link_type := option_map snd (ld_originating d); tx_reconciliation_key := None; tx_interest_direction := None; tx_withholding_tax_amount := None;
     tx_other_interest_deductions_amount := None; tx_net_interest_amount := None; tx_component_type := None; tx_component_id := None;
     tx_linked_component_ids := None; tx_fx_cash_leg_role := None; tx_linked_fx_cash_leg_id := None; tx_settlement_status := None;
     tx_pair_base_currency := None; tx_pair_quote_currency := None; tx_fx_rate_quote_convention := None; tx_buy_currency := None;
     tx_sell_currency := None; tx_buy_amount := None; tx_sell_amount := None; tx_contract_rate := None; tx_fx_contract_id := None;
     tx_fx_contract_open_transaction_id := None; tx_fx_contract_close_transaction_id := None; tx_settlement_of_fx_contract_id := None;
     tx_swap_event_id := None; tx_near_leg_group_id := None; tx_far_leg_group_id := None; tx_spot_exposure_model := None; tx_fx_realized_pnl_mode := None;
     tx_allocated_cost_basis_local := ld_allocated d; tx_allocated_cost_basis_base := None; tx_realized_capital_pnl_local := None; tx_realized_fx_pnl_local := None;
     tx_realized_total_pnl_local := None; tx_realized_capital_pnl_base := None; tx_realized_fx_pnl_base := None; tx_realized_total_pnl_base := None;
     tx_parent_transaction_reference := None; tx_linked_parent_event_id := None; tx_parent_event_reference := Some "CA-1"; tx_child_role := None;
     tx_child_sequence_hint := None; tx_dependency_reference_ids := ld_dependencies d; tx_source_instrument_id := fst (ld_instruments d); tx_target_instrument_id := snd (ld_instruments d);
     tx_source_transaction_reference := fst (ld_references d); tx_target_transaction_reference := snd (ld_references d); tx_external_destination_reference := None;
     tx_linked_cash_transaction_id := None; tx_redemption_price_type := None; tx_old_factor := None; tx_new_factor := None;
     tx_principal_proceeds_local := None; tx_accrued_interest_proceeds_local := None; tx_embedded_fee_amount_local := None;
     tx_embedded_tax_amount_local := None; tx_has_synthetic_flow := None; tx_synthetic_flow_effective_date := None;
     tx_synthetic_flow_amount_local := None; tx_synthetic_flow_currency := None; tx_synthetic_flow_amount_base := None;
     tx_synthetic_flow_fx_rate_to_base := None; tx_synthetic_flow_price_used := None; tx_synthetic_flow_quantity_used := None;
     tx_synthetic_flow_valuation_method := None; tx_synthetic_flow_classification := None; tx_synthetic_flow_price_source := None;
     tx_synthetic_flow_fx_source := None; tx_synthetic_flow_source := None; tx_created_at := None; tx_epoch := None; tx_tenant_id := None;
     tx_calculation_lineage := None; tx_lot_restatement := None; tx_source_lot_order_quantity := None; tx_source_lot_original_quantity := None |}.

(** 100 of cost leave the old instrument: 95 arrive at the new one, of which 2 are cashed in lieu, and 5 are paid for in cash. *)
Definition merger_out : BookedTransaction :=
  booked {| ld_id := "S1"; ld_type := "MERGER_OUT"; ld_instrument := "OLD"; ld_gross := Dec 100 0; ld_net_cost_local := Some (Dec (-100) 0); ld_allocated := None;
            ld_mode := None; ld_external := None; ld_direction := None; ld_originating := None; ld_references := (None, Some "T1");
            ld_instruments := (Some "OLD", Some "NEW"); ld_dependencies := None |}.
Definition merger_in : BookedTransaction :=
  booked {| ld_id := " T1"; ld_type := "merger_in"; ld_instrument := "NEW"; ld_gross := Dec 120 0; ld_net_cost_local := Some (Dec 95 0); ld_allocated := None;
            ld_mode := None; ld_external := None; ld_direction := None; ld_originating := None; ld_references := (Some "S1", None);
            ld_instruments := (Some "OLD", Some "NEW"); ld_dependencies := Some ["S1"] |}.
Definition cash_consideration : BookedTransaction :=
  booked {| ld_id := "C1"; ld_type := "CASH_CONSIDERATION"; ld_instrument := "OLD"; ld_gross := Dec 6 0; ld_net_cost_local := None; ld_allocated := Some (Dec 5 0);
            ld_mode := Some "UPSTREAM_PROVIDED"; ld_external := Some "A1"; ld_direction := None; ld_originating := None; ld_references := (None, None);
            ld_instruments := (None, None); ld_dependencies := Some ["S1"] |}.
Definition cash_in_lieu : BookedTransaction :=
  booked {| ld_id := "L1"; ld_type := "CASH_IN_LIEU"; ld_instrument := "NEW"; ld_gross := Dec 3 0; ld_net_cost_local := None; ld_allocated := Some (Dec 2 0);
            ld_mode := None; ld_external := None; ld_direction := None; ld_originating := None; ld_references := (None, None);
            ld_instruments := (None, None); ld_dependencies := None |}.
Definition cash_settlement (direction : string) : BookedTransaction :=
  booked {| ld_id := "A1"; ld_type := "ADJUSTMENT"; ld_instrument := "CASH"; ld_gross := Dec 6 0; ld_net_cost_local := None; ld_allocated := None;
            ld_mode := None; ld_external := None; ld_direction := Some direction;
            ld_originating := Some ("C1", "CASH_CONSIDERATION", "CASH_CONSIDERATION_SETTLEMENT", "CASH_CONSIDERATION_TO_CASH"); ld_references := (None, None);
            ld_instruments := (None, None); ld_dependencies := None |}.

Definition merger : list BookedTransaction := [cash_settlement "INFLOW"; merger_in; cash_consideration; merger_out; cash_in_lieu].

(** ** The claims at the example *)

Definition run_scope : RunScope :=
  {| rs_run_id := "recon-1"; rs_evidence_signature := "1"; rs_transaction := merger_out; rs_linked_transaction_group_id := "LTG"; rs_parent_event_reference := "CA-1";
     rs_reconciliation_type := reconciliation_type merger |}.

Ltac stored_amount := split; vm_compute; reflexivity.

Lemma merger_is_stored : Forall stored_leg merger.
Proof.
  repeat (apply Forall_cons_2; [split; [stored_amount|intros basis E; first [discriminate E|injection E as <-; stored_amount]]|]). apply Forall_nil_2.
Qed.

Lemma merger_is_checkable : checkable (index_unambiguous_transactions merger) merger.
Proof.
  assert (H : Forall (fun t => is_ok (is_governed_cash_settlement_adjustment t (index_unambiguous_transactions merger)) = true) merger)
    by (repeat (apply Forall_cons_2; [vm_compute; reflexivity|]); apply Forall_nil_2).
  intros t Hin _. rewrite Forall_forall in H. specialize (H t Hin). destruct (is_governed_cash_settlement_adjustment t _) as [g|]; [by exists g|discriminate H].
Qed.

Lemma group_passes_iff_conserved_witness : exists findings summary, assess_group run_scope merger DEFAULT_CORPORATE_ACTION_BASIS_TOLERANCE = Ok (findings, summary) /\
  gs_passed summary = true /\ conserved merger DEFAULT_CORPORATE_ACTION_BASIS_TOLERANCE.
Proof.
  destruct (group_passes_iff_conserved run_scope merger DEFAULT_CORPORATE_ACTION_BASIS_TOLERANCE) as (findings & summary & E & H & _);
    [discriminate|exact merger_is_stored|vm_compute; discriminate|exact merger_is_checkable|stored_amount|].
  exists findings, summary. split; [exact E|]. assert (Hp : gs_passed summary = true) by (vm_compute in E; injection E as <- <-; reflexivity).
  split; [exact Hp|]. apply H, Hp.
Defined.

Lemma leg_linkage_ignores_order_witness : reconcile_corporate_action_leg_linkage [merger_out; merger_in] = reconcile_corporate_action_leg_linkage [merger_in; merger_out].
Proof. apply (leg_linkage_ignores_order [merger_out; merger_in] [merger_in; merger_out]), perm_swap. Defined.

Definition transfer_rule : CashflowRule :=
  {| cr_classification := Named TRANSFER; cr_timing := Named EOD; cr_is_position_flow := true; cr_is_portfolio_flow := false |}.

(** A sale for 6 whose proceeds an upstream system books. *)
Definition sale : BookedTransaction :=
  booked {| ld_id := "B1"; ld_type := "SELL"; ld_instrument := "OLD"; ld_gross := Dec 6 0; ld_net_cost_local := None; ld_allocated := None;
            ld_mode := Some "UPSTREAM_PROVIDED"; ld_external := Some "A1"; ld_direction := None; ld_originating := None; ld_references := (None, None);
            ld_instruments := (None, None); ld_dependencies := None |}.

Lemma sale_stored : settlement_stored sale.
Proof. split; first [exact I|stored_amount|repeat (apply Forall_cons_2; [exact I|]); apply Forall_nil_2]. Qed.

Lemma settlement_is_ordinary direction : ordinary_cash_leg (cash_settlement direction) 0.
Proof.
  split; [|reflexivity..]. split; first [exact I|stored_amount|repeat (apply Forall_cons_2; [exact I|]); apply Forall_nil_2].
Qed.

Lemma accepted_pair_moves_settlement_amount_witness : exists m n cf, calculate_settlement_cash_movement sale = Ok m /\
  units (-10) (sm_signed_amount m) n /\
  @calculate_transaction_cashflow constant_hashing (cash_settlement "INFLOW") transfer_rule None CURRENT_BOOKING = Ok cf /\ units (-10) (cf_amount cf) (Z.abs n).
Proof.
  destruct (@accepted_pair_moves_settlement_amount constant_hashing constant_hashing_ok sale (cash_settlement "INFLOW") 0 transfer_rule None
    CURRENT_BOOKING sale_stored eq_refl (settlement_is_ordinary "INFLOW")) as (m & n & cf & a & Hm & Hn & _ & Hcf & Ha & E & _); [vm_compute; reflexivity|].
  change (moves_in (cash_settlement "INFLOW")) with true in E. cbv match in E. replace a with (Z.abs n) in Ha by lia.
  exists m, n, cf. split_and!; [exact Hm|exact Hn|exact Hcf|exact Ha].
Defined.

(** A leg that pays the proceeds out instead of in is accepted, and its cashflow is the negated settlement. *)
Lemma wrong_direction_is_accepted : validate_upstream_cash_leg_pairing sale (cash_settlement "OUTFLOW") = Ok [] /\
  exists m cf, calculate_settlement_cash_movement sale = Ok m /\
    @calculate_transaction_cashflow constant_hashing (cash_settlement "OUTFLOW") transfer_rule None CURRENT_BOOKING = Ok cf /\
    dltb dzero (sm_signed_amount m) = true /\ dltb (cf_amount cf) dzero = true.
Proof.
  split; [vm_compute; reflexivity|].
  destruct (calculate_settlement_cash_movement sale) as [m|] eqn:Em; [|by vm_compute in Em].
  destruct (@calculate_transaction_cashflow constant_hashing (cash_settlement "OUTFLOW") transfer_rule None CURRENT_BOOKING) as [cf|] eqn:Ec; [|by vm_compute in Ec].
  exists m, cf. vm_compute in Em. vm_compute in Ec. injection Em as <-. injection Ec as <-. split_and!; reflexivity.
Qed.
