(* ===== verification/SourceAppend.v ===== *)
(** * Appending source versions

    [services/ingestion_service/app/services/valuation_policy_assignment_writer.py] and
    [market_price_source_fact_writer.py]: what the two append-only writers of versioned records share.  A batch is
    compared with the stored history, known versions are skipped, new ones are put in order and each is recorded
    with the version it follows.  A stored history never holds a source version twice; then the latest versions are
    [authoritative] records, and the facts below describe an append by them. *)

From Stdlib Require Import ZArith Lia String.
From stdpp Require Import base tactics list sorting sets strings.
From S2P Require Import Prelude PyTime SourceVersions.

#[local] Open Scope Z_scope.

(** [[values[offset : offset + size] for offset in range(0, len(values), size)]]. *)
Definition chunks {A} (values : list A) (size : nat) : list (list A) :=
  map (fun i => take size (drop (i * size) values)) (seq 0 ((length values + size - 1) / size)).

Record change (A : Type) := { previous : option A; accepted : A }.
Arguments previous {A} _.
Arguments accepted {A} _.

Section Append.
Context {A K : Type} `{EqDecision K} (key : A -> K) (version : A -> Z) (eqb : A -> A -> bool) (key_compare : K -> K -> comparison).

Definition source_version_key (a : A) : K * Z := (key a, version a).

(** [len(identities) != len(set(identities))]. *)
Definition duplicate_versions (batch : list A) : bool := negb (bool_decide (NoDup (map source_version_key batch))).

Definition by_version (history : list A) : list (K * Z * A) := foldl (fun d a => od_set (source_version_key a) a d) [] history.

Definition pend (conflict : exc) (persisted : list (K * Z * A)) (pending : list A) (a : A) : result (list A) :=
  match od_get (source_version_key a) persisted with
  | Some p => _ ← raise_if (negb (eqb p a)) conflict; Ok pending
  | None => Ok (pending ++ [a])%list
  end.

Definition pending_versions (conflict : exc) (history batch : list A) : result (list A) := foldM (pend conflict (by_version history)) [] batch.

Definition version_compare (a b : A) : comparison := lex (key_compare (key a) (key b)) (Z.compare (version a) (version b)).

Definition sort_pending : list A -> list A := stable_sort (leb_of version_compare).

Definition by_source (latest : list A) : list (K * A) := foldl (fun d a => od_set (key a) a d) [] latest.

Definition record_change (stale : exc) (acc : list (K * A) * list (change A)) (a : A) : result (list (K * A) * list (change A)) :=
  let '(latest, changes) := acc in
  let prior := od_get (key a) latest in
  _ ← raise_if (match prior with Some p => version a <=? version p | None => false end) stale;
  Ok (od_set (key a) a latest, changes ++ [{| previous := prior; accepted := a |}])%list.

Definition record_changes (stale : exc) (latest : list (K * A)) (pending : list A) : result (list (change A)) :=
  acc ← foldM (record_change stale) (latest, []) pending; Ok (snd acc).
End Append.

(** ** Chunks *)

Lemma chunks_take {A} (l : list A) k n : concat (map (fun i => take k (drop (i * k) l)) (seq 0 n)) = take (n * k) l.
Proof.
  induction n as [|n IH]; [done|]. rewrite seq_S, map_app, concat_app, IH. cbn [map concat Nat.add]. rewrite app_nil_r.
  rewrite take_take_drop. f_equal. lia.
Qed.

Lemma concat_chunks {A} (l : list A) k : (0 < k)%nat -> concat (chunks l k) = l.
Proof.
  intros Hk. unfold chunks. rewrite chunks_take. apply take_ge. pose proof (Nat.div_mod_eq (length l + k - 1) k) as Hd.
  pose proof (Nat.mod_upper_bound (length l + k - 1) k). nia.
Qed.

(** Rows loaded chunk by chunk: those of one key keep their order. *)
Definition load_chunks {A K} `{EqDecision K} (row_key : A -> K) (table : list A) (cs : list (list K)) : list A :=
  flat_map (fun c => List.filter (fun a => bool_decide (row_key a ∈ c)) table) cs.

Lemma elem_of_load {A K} `{EqDecision K} (row_key : A -> K) table cs a : a ∈ load_chunks row_key table cs <-> a ∈ table /\ row_key a ∈ concat cs.
Proof.
  unfold load_chunks. rewrite list_elem_of_In, in_flat_map. split.
  - intros (c & Hc%list_elem_of_In & Ha%List.filter_In). destruct Ha as [Ha%list_elem_of_In Hk%bool_decide_eq_true]. split; [done|]. apply list_elem_of_In, in_concat.
    exists c. split; [by apply list_elem_of_In|by apply list_elem_of_In].
  - intros [Ha Hk]. apply list_elem_of_In, in_concat in Hk as (c & Hc & Hk). exists c. split; [done|]. apply List.filter_In. split; [by apply list_elem_of_In|].
    by apply bool_decide_eq_true, list_elem_of_In.
Qed.

Lemma load_one {A K} `{EqDecision K} (row_key : A -> K) table cs (f : A -> bool) s : NoDup (concat cs) -> (forall a, a ∈ table -> f a = true -> row_key a = s) ->
  List.filter f (load_chunks row_key table cs) = if decide (s ∈ concat cs) then List.filter f table else [].
Proof.
  intros Hnd Hf. induction cs as [|c cs IH]; [done|]. cbn [load_chunks flat_map concat] in *. change (flat_map _ cs) with (load_chunks row_key table cs).
  apply NoDup_app in Hnd as (_ & Hdis & Hnd). rewrite list_filter_app, (IH Hnd), filter_filter.
  assert (E : List.filter (fun a => bool_decide (row_key a ∈ c) && f a) table = if decide (s ∈ c) then List.filter f table else []).
  { destruct (decide (s ∈ c)) as [Hc|Hc].
    - apply filter_agree. intros a Ha. destruct (f a) eqn:Ef; [|by rewrite andb_false_r]. rewrite (Hf a Ha Ef). by rewrite bool_decide_eq_true_2.
    - apply filter_nil. intros a Ha. destruct (f a) eqn:Ef; [|by rewrite andb_false_r]. rewrite (Hf a Ha Ef). by rewrite bool_decide_eq_false_2. }
  rewrite E. destruct (decide (s ∈ c)) as [Hc|Hc].
  - rewrite (decide_False (P := s ∈ concat cs)) by (by apply Hdis). rewrite decide_True by (apply elem_of_app; by left). by rewrite app_nil_r.
  - cbn [app]. destruct (decide (s ∈ concat cs)) as [H1|H1]; [rewrite decide_True|rewrite decide_False]; set_solver.
Qed.

(** ** Authoritative records *)

Lemma NoDup_map_eq {A B} (f : A -> B) (l : list A) x y : NoDup (map f l) -> x ∈ l -> y ∈ l -> f x = f y -> x = y.
Proof.
  intros Hnd [i Hi]%list_elem_of_lookup [j Hj]%list_elem_of_lookup E. assert (i = j); [|by simplify_eq].
  change (map f l) with (f <$> l) in Hnd. eapply (NoDup_lookup _ _ _ (f x)); [exact Hnd| |]; rewrite list_lookup_fmap; [by rewrite Hi|rewrite Hj; cbn; by f_equal].
Qed.

Lemma fold_od_set {A L} `{EqDecision L} (f : A -> L) (l : list A) : NoDup (map f l) -> foldl (fun d a => od_set (f a) a d) [] l = map (fun a => (f a, a)) l.
Proof.
  assert (G : forall l0, NoDup (map f (l0 ++ l)) -> foldl (fun d a => od_set (f a) a d) (map (fun a => (f a, a)) l0) l = map (fun a => (f a, a)) (l0 ++ l)).
  { induction l as [|a l IH]; intros l0 Hnd; cbn [foldl]; [by rewrite app_nil_r|]. rewrite od_set_fresh.
    - replace (map (fun a => (f a, a)) l0 ++ [(f a, a)])%list with (map (fun a => (f a, a)) (l0 ++ [a])) by (by rewrite map_app).
      rewrite IH by (by rewrite <- app_assoc). by rewrite <- app_assoc.
    - rewrite map_app in Hnd. cbn [map] in Hnd. apply NoDup_app in Hnd as (_ & Hd & _). intros Hin. apply list_elem_of_fmap in Hin as ([k x] & E & Hx).
      apply list_elem_of_In, in_map_iff in Hx as (y & [= <- <-] & Hy). cbn in E. apply (Hd (f a)); [|left]. rewrite E. by apply list_elem_of_In, in_map. }
  exact (G []).
Qed.

Lemma od_get_table {A L} `{EqDecision L} (f : A -> L) (l : list A) k x : NoDup (map f l) -> od_get k (map (fun a => (f a, a)) l) = Some x <-> x ∈ l /\ f x = k.
Proof.
  intros Hnd. assert (Hk : (map (fun a => (f a, a)) l).*1 = map f l) by (unfold fmap; rewrite <- list_fmap_compose; done). split.
  - intros Hg%od_get_elem%list_elem_of_In%in_map_iff. destruct Hg as (y & [= <- <-] & Hy). split; [by apply list_elem_of_In|done].
  - intros [Hx <-]. apply od_get_of_elem; [by rewrite Hk|]. apply list_elem_of_In, in_map_iff. exists x. split; [done|by apply list_elem_of_In].
Qed.

Section Authoritative.
Context {A K : Type} `{EqDecision K} (key : A -> K) (version : A -> Z) (eqb : A -> A -> bool) (e : exc).
#[local] Notation version_key := (source_version_key key version).
#[local] Notation latest := (latest_source_versions key version eqb e).

(** The latest version of its source record. *)
Definition authoritative (rs : list A) (x : A) : Prop := x ∈ rs /\ forall r, r ∈ rs -> key r = key x -> version r <= version x.

Definition distinct_versions (rs : list A) : Prop := NoDup (map version_key rs).

Lemma authoritative_unique rs x y : distinct_versions rs -> authoritative rs x -> authoritative rs y -> key x = key y -> x = y.
Proof.
  intros Hd [Hx Mx] [Hy My] E. apply (NoDup_map_eq version_key rs); [done..|]. unfold source_version_key. f_equal; [done|].
  specialize (Mx y Hy (eq_sym E)). specialize (My x Hx E). lia.
Qed.

Lemma distinct_latest rs : distinct_versions rs -> exists l, latest rs = Ok l.
Proof.
  intros Hd. destruct (latest_cases key version eqb e rs) as [(_ & l & _ & _ & _ & Hl & _)|[Hf _]]; [by exists l|]. exfalso.
  assert (G : forall rs2 rs1 d, rs = (rs1 ++ rs2)%list -> ranked key version rs1 d -> foldM (rank_record key version eqb e) d rs2 <> Raise e).
  { clear Hf. induction rs2 as [|r rs2 IH]; intros rs1 d E Hr; [done|]. cbn [foldM]. destruct (rank_record key version eqb e d r) as [d'|x] eqn:Er; cbn.
    - apply (IH (rs1 ++ [r])%list); [by rewrite <- app_assoc|]. by eapply rank_ranked.
    - exfalso. revert Er. unfold rank_record. destruct (od_get (version r) _) as [y|] eqn:Eg; [|done]. intros _. apply od_get_elem in Eg.
      destruct (od_default_kept key version rs1 d (key r) Hr) as [E0|(_ & _ & Hin)]; [by rewrite E0 in Eg; apply elem_of_nil in Eg|]. destruct (Hin _ _ Eg) as (H1 & H2 & H3). cbn in H2.
      unfold distinct_versions in Hd. rewrite E, map_app in Hd. apply NoDup_app in Hd as (_ & Hdis & _). apply (Hdis (version_key r)); [|left].
      apply list_elem_of_In, in_map_iff. exists y. split; [unfold source_version_key; by f_equal|by apply list_elem_of_In]. }
  exact (G rs [] [] eq_refl (ranked_nil key version) Hf).
Qed.

Lemma latest_authoritative rs l : distinct_versions rs -> latest rs = Ok l -> NoDup (map key l) /\ forall x, x ∈ l <-> authoritative rs x.
Proof.
  intros Hd Hl. destruct (latest_spec _ _ _ _ _ _ Hl) as (Hnd & Hin & Hall). split; [done|]. intros x. split; [apply Hin|]. intros Hx.
  pose proof (Hall x (proj1 Hx)) as H0. apply list_elem_of_In, in_map_iff in H0 as (y & E & Hy%list_elem_of_In).
  by rewrite (authoritative_unique rs x y Hd Hx (Hin y Hy) (eq_sym E)).
Qed.

Lemma authoritative_exists rs r : distinct_versions rs -> r ∈ rs -> exists x, authoritative rs x /\ key x = key r.
Proof.
  intros Hd Hr. destruct (distinct_latest rs Hd) as (l & Hl). destruct (latest_authoritative rs l Hd Hl) as [_ Hx]. destruct (latest_spec _ _ _ _ _ _ Hl) as (_ & _ & Hall).
  specialize (Hall r Hr). apply list_elem_of_In, in_map_iff in Hall as (x & E & Hin%list_elem_of_In). exists x. split; [by apply Hx|done].
Qed.

(** ** Pending versions *)

Lemma by_version_spec history k x : distinct_versions history -> od_get k (by_version key version history) = Some x <-> x ∈ history /\ version_key x = k.
Proof. intros Hd. unfold by_version. rewrite (fold_od_set version_key history Hd). by apply od_get_table. Qed.

Definition stored_already (history : list A) (a : A) : Prop := exists p, p ∈ history /\ version_key p = version_key a /\ eqb p a = true.

Lemma pending_spec history batch pending : distinct_versions history -> pending_versions key version eqb e history batch = Ok pending ->
  pending = List.filter (fun a => bool_decide (version_key a ∉ map version_key history)) batch /\ forall a, a ∈ batch -> a ∈ pending \/ stored_already history a.
Proof.
  intros Hd. unfold pending_versions. set (fresh := fun a => bool_decide (version_key a ∉ map version_key history)).
  assert (G : forall acc, foldM (pend key version eqb e (by_version key version history)) acc batch = Ok pending ->
    pending = (acc ++ List.filter fresh batch)%list /\ forall a, a ∈ batch -> fresh a = true \/ stored_already history a).
  { induction batch as [|a batch IH]; intros acc; cbn [foldM List.filter]; [intros [= <-]; split; [by rewrite app_nil_r|by intros a ?%elem_of_nil]|].
    intros (acc' & Hp & Hf)%bind_Ok. destruct (IH acc' Hf) as [-> Hall]. unfold pend in Hp. destruct (od_get (version_key a) _) as [p|] eqn:Eg.
    - apply bind_Ok in Hp as (u & Hq%raise_if_Ok%negb_false_iff & [= <-]). apply (by_version_spec history _ _ Hd) in Eg as [Hin Hk].
      assert (Ea : fresh a = false). { apply bool_decide_eq_false. intros Hn. apply Hn. rewrite <- Hk. by apply list_elem_of_In, in_map, list_elem_of_In. }
      rewrite Ea. split; [done|]. intros b [->|Hb]%elem_of_cons; [right; by exists p|by apply Hall].
    - injection Hp as <-. assert (Ea : fresh a = true).
      { apply bool_decide_eq_true. intros Hn. apply list_elem_of_In, in_map_iff in Hn as (p & Hk & Hin%list_elem_of_In).
        pose proof (proj2 (by_version_spec history _ p Hd) (conj Hin Hk)). congruence. }
      rewrite Ea. split; [by rewrite <- app_assoc|]. intros b [->|Hb]%elem_of_cons; [by left|by apply Hall]. }
  intros Hf. destruct (G [] Hf) as [-> Hall]. split; [done|]. intros a Ha. destruct (Hall a Ha) as [Hfr|Hst]; [left|by right].
  apply list_elem_of_In, List.filter_In. split; [by apply list_elem_of_In|done].
Qed.

(** A batch whose versions are all stored is skipped. *)
Lemma pending_stored history batch : distinct_versions history -> (forall a, a ∈ batch -> stored_already history a) ->
  pending_versions key version eqb e history batch = Ok [].
Proof.
  intros Hd. unfold pending_versions. induction batch as [|a batch IH]; intros Hall; [done|]. cbn [foldM]. destruct (Hall a ltac:(left)) as (p & Hp & Hk & Hq).
  assert (E : pend key version eqb e (by_version key version history) [] a = Ok [])
    by (unfold pend; by rewrite (proj2 (by_version_spec history (version_key a) p Hd) (conj Hp Hk)), Hq).
  rewrite E, bind_ret. apply IH. intros b Hb. apply Hall. by right.
Qed.

(** ** Recorded changes *)

(** A change names the version it follows: the authoritative one of its source record, or none where the record is new. *)
Definition follows (rs : list A) (c : change A) : Prop :=
  match previous c with
  | None => key (accepted c) ∉ map key rs
  | Some p => authoritative rs p /\ key p = key (accepted c) /\ version p < version (accepted c)
  end.

Inductive recorded : list A -> list (change A) -> Prop :=
| recorded_nil rs : recorded rs []
| recorded_cons rs c cs : follows rs c -> recorded (rs ++ [accepted c]) cs -> recorded rs (c :: cs).

Lemma follows_newer rs c r : follows rs c -> r ∈ rs -> key r = key (accepted c) -> version r < version (accepted c).
Proof.
  unfold follows. destruct (previous c) as [p|].
  - intros ([_ Hm] & Ek & Hv) Hr Er. specialize (Hm r Hr ltac:(congruence)). lia.
  - intros Hn Hr Er. exfalso. apply Hn. rewrite <- Er. by apply list_elem_of_In, in_map, list_elem_of_In.
Qed.

Lemma authoritative_step rs c x : follows rs c ->
  authoritative (rs ++ [accepted c]) x <-> x = accepted c \/ key x <> key (accepted c) /\ authoritative rs x.
Proof.
  intros Hf. unfold authoritative. split.
  - intros [[Hx| ->%list_elem_of_singleton]%elem_of_app Hm]; [|by left]. right. assert (Hne : key x <> key (accepted c)).
    { intros E. specialize (Hm (accepted c) ltac:(apply elem_of_app; right; by left) (eq_sym E)). pose proof (follows_newer rs c x Hf Hx E). lia. }
    split; [done|]. split; [done|]. intros r Hr. apply Hm. apply elem_of_app. by left.
  - intros [->|(Hne & Hx & Hm)].
    + split; [apply elem_of_app; right; by left|]. intros r [Hr| ->%list_elem_of_singleton]%elem_of_app Er; [|lia]. pose proof (follows_newer rs c r Hf Hr Er). lia.
    + split; [apply elem_of_app; by left|]. intros r [Hr| ->%list_elem_of_singleton]%elem_of_app Er; [by apply Hm|congruence].
Qed.

Lemma distinct_step rs c : distinct_versions rs -> follows rs c -> distinct_versions (rs ++ [accepted c]).
Proof.
  intros Hd Hf. unfold distinct_versions. rewrite map_app. apply NoDup_app. split; [done|]. split; [|apply NoDup_singleton].
  intros k Hk ->%list_elem_of_singleton. apply list_elem_of_In, in_map_iff in Hk as (r & Er & Hr%list_elem_of_In). injection Er as Ek Ev.
  pose proof (follows_newer rs c r Hf Hr Ek). lia.
Qed.

Lemma app_snoc (rs : list A) x xs : (rs ++ x :: xs = (rs ++ [x]) ++ xs)%list.
Proof. by rewrite <- app_assoc. Qed.

Lemma recorded_distinct rs cs : recorded rs cs -> distinct_versions rs -> distinct_versions (rs ++ map accepted cs).
Proof. induction 1 as [rs|rs c cs Hf _ IH]; intros Hd; cbn [map]; [by rewrite app_nil_r|]. rewrite app_snoc. by apply IH, distinct_step. Qed.

(** What is authoritative after an append was so before or is new. *)
Lemma recorded_authoritative rs cs x : recorded rs cs -> authoritative (rs ++ map accepted cs) x -> x ∈ map accepted cs \/ authoritative rs x.
Proof.
  induction 1 as [rs|rs c cs Hf _ IH]; cbn [map]; [rewrite app_nil_r; by right|]. rewrite app_snoc. intros [Hx|Hx]%IH; [left; by right|].
  apply (authoritative_step rs c x Hf) in Hx as [->|[_ Hx]]; [left; by left|by right].
Qed.

(** What was authoritative before an append still is, or is named by a change. *)
Lemma recorded_superseded rs cs x : recorded rs cs -> distinct_versions rs -> authoritative rs x -> authoritative (rs ++ map accepted cs) x \/ exists c, c ∈ cs /\ previous c = Some x /\ key (accepted c) = key x.
Proof.
  induction 1 as [rs|rs c cs Hf _ IH]; intros Hd Hx; cbn [map]; [rewrite app_nil_r; by left|]. rewrite app_snoc.
  destruct (decide (key x = key (accepted c))) as [E|E].
  - right. exists c. split; [left|]. unfold follows in Hf. destruct (previous c) as [p|] eqn:Ep.
    + destruct Hf as (Hp & Ek & _). split; [|done]. f_equal. apply (authoritative_unique rs); [done..|congruence].
    + exfalso. apply Hf. rewrite <- E. apply list_elem_of_In, in_map, list_elem_of_In. apply Hx.
  - destruct (IH (distinct_step rs c Hd Hf) (proj2 (authoritative_step rs c x Hf) (or_intror (conj E Hx)))) as [H1|(c' & Hc & Hp)]; [by left|]. right. exists c'. split; [by right|done].
Qed.

(** The chain of changes that a writer records, where it has loaded every stored version of the sources of the batch. *)
Lemma recorded_changes stale dict rs pending cs : distinct_versions rs ->
  (forall a x, a ∈ pending -> od_get (key a) dict = Some x <-> authoritative rs x /\ key x = key a) ->
  record_changes key version stale dict pending = Ok cs -> recorded rs cs /\ map accepted cs = pending.
Proof.
  unfold record_changes. intros Hd Hg (acc & Hf & [= <-])%bind_Ok.
  assert (G : forall done, foldM (record_change key version stale) (dict, done) pending = Ok acc -> exists cs, snd acc = (done ++ cs)%list /\ recorded rs cs /\ map accepted cs = pending).
  { clear Hf. revert rs dict Hd Hg. induction pending as [|a pending IH]; intros rs dict Hd Hg done0; cbn [foldM].
    - intros [= <-]. exists []. split; [by rewrite app_nil_r|]. split; [constructor|done].
    - intros ([dict' done'] & Hs & Hf)%bind_Ok. cbn [record_change] in Hs. apply bind_Ok in Hs as (u & Hv%raise_if_Ok & [= <- <-]).
      set (c := {| previous := od_get (key a) dict; accepted := a |}) in *.
      assert (Hfo : follows rs c).
      { unfold follows, c. cbn [previous accepted]. destruct (od_get (key a) dict) as [p|] eqn:Eg.
        - apply (Hg a p ltac:(left)) in Eg as [Hp Ek]. apply Z.leb_gt in Hv. done.
        - intros Hin. apply list_elem_of_In, in_map_iff in Hin as (r & Er & Hr%list_elem_of_In). destruct (authoritative_exists rs r Hd Hr) as (x & Hx & Ex).
          assert (Exa : key x = key a) by congruence. pose proof (proj2 (Hg a x ltac:(left)) (conj Hx Exa)). congruence. }
      destruct (IH (rs ++ [a])%list (od_set (key a) a dict) (distinct_step rs c Hd Hfo)) with (done := (done0 ++ [c])%list) as (cs & E & Hr & Em); [|exact Hf|].
      + intros b x Hb. rewrite (authoritative_step rs c x Hfo : authoritative (rs ++ [a]) x <-> x = a \/ key x <> key a /\ authoritative rs x). destruct (decide (key b = key a)) as [E|E].
        * rewrite E, od_get_set. split; [intros [= <-]; split; [by left|done]|]. intros [[->|[Hne _]] Ex]; [done|congruence].
        * rewrite od_get_set_ne by done. rewrite (Hg b x ltac:(by right)). split; [intros [Hx Ex]; split; [right; split; [congruence|done]|done]|].
          intros [[->|[_ Hx]] Ex]; [congruence|done].
      + exists (c :: cs). split; [by rewrite E, <- app_assoc|]. split; [by constructor|]. cbn [map]. by rewrite Em. }
  destruct (G [] Hf) as (cs & -> & Hr). done.
Qed.

Lemma authoritative_loaded rs history x : (forall r, r ∈ history -> r ∈ rs) -> (forall r, r ∈ rs -> key r = key x -> r ∈ history) ->
  authoritative history x <-> authoritative rs x.
Proof.
  intros H1 H2. unfold authoritative. split; intros [Hx Hm]; (split; [auto|]); intros r Hr E; [apply Hm; [by apply H2|done]|apply Hm; [by apply H1|done]].
Qed.

Lemma distinct_sub rs history : distinct_versions rs -> NoDup history -> (forall r, r ∈ history -> r ∈ rs) -> distinct_versions history.
Proof.
  intros Hd Hn Hs. induction Hn as [|a h Ha Hn IH]; [constructor|]. cbn [map]. unfold distinct_versions. cbn [map]. apply NoDup_cons. split.
  - intros Hin. apply list_elem_of_In, in_map_iff in Hin as (r & Er & Hr%list_elem_of_In). apply Ha.
    rewrite <- (NoDup_map_eq version_key rs r a Hd); [done|apply Hs; by right|apply Hs; left|done].
  - apply IH. intros r Hr. apply Hs. by right.
Qed.

(** An append: the changes are recorded on the whole table. *)
Lemma append_recorded stale rs history l pending cs : distinct_versions rs -> distinct_versions history -> (forall r, r ∈ history -> r ∈ rs) ->
  (forall a r, a ∈ pending -> r ∈ rs -> key r = key a -> r ∈ history) ->
  latest history = Ok l -> record_changes key version stale (by_source key l) pending = Ok cs ->
  recorded rs cs /\ map accepted cs = pending /\ distinct_versions (rs ++ pending).
Proof.
  intros Hd Hh Hs Hc Hl Hr. destruct (latest_authoritative history l Hh Hl) as [Hnd Hx].
  destruct (recorded_changes stale (by_source key l) rs pending cs Hd) as [Hrec Em]; [|done|].
  - intros a x Ha. unfold by_source. rewrite (fold_od_set key l Hnd), (od_get_table key l _ _ Hnd), Hx. split; intros [H1 E]; (split; [|done]).
    + apply (authoritative_loaded rs history x Hs); [|done]. intros r Hr0 Er. apply (Hc a r); [done..|congruence].
    + apply (authoritative_loaded rs history x Hs); [|done]. intros r Hr0 Er. apply (Hc a r); [done..|congruence].
  - split; [done|]. split; [done|]. rewrite <- Em. by apply recorded_distinct.
Qed.
End Authoritative.

(** ** Loaded histories and lookups *)

Lemma NoDup_load {A K} `{EqDecision K} (row_key : A -> K) table cs : NoDup table -> NoDup (concat cs) -> NoDup (load_chunks row_key table cs).
Proof.
  intros Ht. induction cs as [|c cs IH]; [constructor|]. cbn [load_chunks flat_map concat]. intros (_ & Hdis & Hnd)%NoDup_app. apply NoDup_app.
  split; [|split; [|by apply IH]].
  - apply NoDup_ListNoDup, List.NoDup_filter. by apply NoDup_ListNoDup.
  - intros a Ha%list_elem_of_In%List.filter_In Hb. destruct Ha as [_ Ha%bool_decide_eq_true]. change (flat_map _ cs) with (load_chunks row_key table cs) in Hb.
    apply elem_of_load in Hb as [_ Hb]. by apply (Hdis _ Ha).
Qed.

Lemma distinct_NoDup {A K} (key : A -> K) (version : A -> Z) rs : distinct_versions key version rs -> NoDup rs.
Proof. apply NoDup_fmap_1. Qed.

Lemma distinct_load {A K L} `{EqDecision K} (row_key : A -> K) (key : A -> L) (version : A -> Z) table cs :
  distinct_versions key version table -> NoDup (concat cs) -> distinct_versions key version (load_chunks row_key table cs).
Proof.
  intros Hd Hn. apply (distinct_sub key version table); [done|apply NoDup_load; [by eapply distinct_NoDup|done]|]. intros r [Hr _]%elem_of_load. done.
Qed.

Section Lookup.
Context {A S : Type} `{EqDecision S} `{SourceRecord A S}.
#[local] Notation current := (authoritative record_key record_version).

Lemma distinct_filter (f : A -> bool) rs : distinct_versions record_key record_version rs -> distinct_versions record_key record_version (List.filter f rs).
Proof.
  intros Hd. apply (distinct_sub _ _ rs); [done| |].
  - apply NoDup_ListNoDup, List.NoDup_filter, NoDup_ListNoDup. by eapply distinct_NoDup.
  - intros r Hr%list_elem_of_In%List.filter_In. apply list_elem_of_In, Hr.
Qed.

(** The lookup of a scope and day, by authoritative records. *)
Lemma effective_authoritative conflict rs s d : distinct_versions record_key record_version rs ->
  exists xs, effective_records conflict rs s d = Ok xs /\ NoDup xs /\ forall x, x ∈ xs <-> current rs x /\ record_scope x = s /\ effective_on d x = true.
Proof.
  intros Hd. pose proof (distinct_filter (in_scope s) rs Hd) as Hds. unfold effective_records.
  destruct (distinct_latest record_key record_version record_eqb conflict _ Hds) as (l & Hl). pose proof Hl as Hl'. fold (latest_records conflict) in Hl'. rewrite Hl', bind_ret.
  destruct (latest_authoritative _ _ _ _ _ l Hds Hl) as [Hnd Hx]. eexists. split; [done|]. split.
  - apply NoDup_ListNoDup, List.NoDup_filter, NoDup_ListNoDup. by eapply NoDup_fmap_1.
  - intros x. rewrite list_elem_of_In, List.filter_In, <- list_elem_of_In, Hx.
    assert (Hs : forall r, r ∈ List.filter (in_scope s) rs <-> r ∈ rs /\ record_scope r = s).
    { intros r. rewrite list_elem_of_In, List.filter_In, <- list_elem_of_In. unfold in_scope. by rewrite bool_decide_eq_true. }
    unfold authoritative. setoid_rewrite Hs. split.
    + intros [[[Hr Es] Hm] He]. split; [|done]. split; [done|]. intros r Hrr Ek. apply Hm; [|done]. split; [done|]. injection Ek as E _ _. congruence.
    + intros [[Hr Hm] [Es He]]. split; [|done]. split; [done|]. intros r [Hrr _]. by apply Hm.
Qed.

(** On every day every scope has at most one record in force. *)
Definition unambiguous (rs : list A) : Prop := forall s d x y, current rs x -> current rs y -> record_scope x = s -> record_scope y = s ->
  effective_on d x = true -> effective_on d y = true -> x = y.

Lemma unambiguous_lookup conflict rs s d : distinct_versions record_key record_version rs -> unambiguous rs ->
  (exists x, effective_records conflict rs s d = Ok [x] /\ current rs x /\ record_scope x = s /\ effective_on d x = true) \/
  effective_records conflict rs s d = Ok [] /\ forall x, current rs x -> record_scope x = s -> effective_on d x = false.
Proof.
  intros Hd Hu. destruct (effective_authoritative conflict rs s d Hd) as (xs & Hxs & Hnd & Hx). destruct xs as [|x [|y xs]].
  - right. split; [done|]. intros x Hc Hs. destruct (effective_on d x) eqn:E; [|done]. exfalso. apply (not_elem_of_nil x). by apply Hx.
  - left. exists x. split; [done|]. apply Hx. left.
  - exfalso. apply NoDup_cons in Hnd as [Hn _]. apply Hn. destruct (proj1 (Hx x) ltac:(left)) as (C1 & S1 & E1). destruct (proj1 (Hx y) ltac:(right; left)) as (C2 & S2 & E2).
    rewrite (Hu s d x y); [left|done..].
Qed.
End Lookup.
