(* ===== verification/ValuationAuthority.v ===== *)
(** * Valuation authority

    [domain/valuation/source_facts.py] and [assignments.py]: which price and which valuation policy a source states
    for an instrument of a legal book, and the lookups that return the one record in authority or fail.
    [services/ingestion_service/app/DTOs/reference_data_valuation_policy_dto.py],
    [app/services/valuation_policy_assignment_writer.py] and [market_price_source_fact_writer.py]: how such records are
    admitted to the two append-only tables.  A table is the list of its rows in the order of insertion. *)

From Stdlib Require Import ZArith Lia String.
From stdpp Require Import base tactics list sorting strings.
From S2P Require Import Prelude PyDecimal PyTime Precision Lineage Values AccruedIncome PositionValuation SourceVersions BookCostAuthority SourceAppend.

#[local] Open Scope string_scope.
#[local] Open Scope Z_scope.

(** ** Scopes *)

Record ValuationBookScope := { vb_tenant_id : string; vb_legal_book_id : string }.

Definition make_ValuationBookScope (tenant_id legal_book_id : string) : result ValuationBookScope :=
  tenant ← require_nonblank tenant_id "tenant_id";
  book ← require_nonblank legal_book_id "legal_book_id";
  Ok {| vb_tenant_id := tenant; vb_legal_book_id := book |}.

Definition vb_key (s : ValuationBookScope) : string * string := (vb_tenant_id s, vb_legal_book_id s).

Record ValuationAuthorityScope := { vs_tenant_id : string; vs_legal_book_id : string; vs_security_id : string }.

#[export] Instance valuation_scope_eq_dec : EqDecision ValuationAuthorityScope.
Proof. solve_decision. Defined.

Definition make_ValuationAuthorityScope (tenant_id legal_book_id security_id : string) : result ValuationAuthorityScope :=
  tenant ← require_nonblank tenant_id "tenant_id";
  book ← require_nonblank legal_book_id "legal_book_id";
  security ← require_nonblank security_id "security_id";
  Ok {| vs_tenant_id := tenant; vs_legal_book_id := book; vs_security_id := security |}.

Definition scope_triple : Type := string * string * string.

Definition vs_key (s : ValuationAuthorityScope) : scope_triple := (vs_tenant_id s, vs_legal_book_id s, vs_security_id s).

Definition vs_book_scope (s : ValuationAuthorityScope) : result ValuationBookScope := make_ValuationBookScope (vs_tenant_id s) (vs_legal_book_id s).

Definition resolve_optional_valuation_book_scope (tenant_id legal_book_id : option string) : result (option ValuationBookScope) :=
  match tenant_id with
  | None => Raise (ValueError "tenant_id is required for valuation authority")
  | Some tenant =>
      match legal_book_id with
      | None => Ok None
      | Some book => scope ← make_ValuationBookScope tenant book; Ok (Some scope)
      end
  end.

(** ** Market-price facts *)

Inductive MarketPriceQuoteBasis := QUOTE_UNIT_PRICE | QUOTE_PERCENT_OF_PRINCIPAL_CLEAN | QUOTE_PERCENT_OF_PRINCIPAL_DIRTY.

Definition quote_basis_value (x : MarketPriceQuoteBasis) : string :=
  match x with
  | QUOTE_UNIT_PRICE => "UNIT_PRICE" | QUOTE_PERCENT_OF_PRINCIPAL_CLEAN => "PERCENT_OF_PRINCIPAL_CLEAN"
  | QUOTE_PERCENT_OF_PRINCIPAL_DIRTY => "PERCENT_OF_PRINCIPAL_DIRTY"
  end.

Inductive MarketPriceSourceFactStatus := FACT_ACTIVE | FACT_SUSPENDED | FACT_RETIRED.

Definition price_status_value (x : MarketPriceSourceFactStatus) : string :=
  match x with FACT_ACTIVE => "ACTIVE" | FACT_SUSPENDED => "SUSPENDED" | FACT_RETIRED => "RETIRED" end.

#[export] Instance quote_basis_eq_dec : EqDecision MarketPriceQuoteBasis.
Proof. solve_decision. Defined.
#[export] Instance price_status_eq_dec : EqDecision MarketPriceSourceFactStatus.
Proof. solve_decision. Defined.

Record MarketPriceSourceFact := {
  pf_scope : ValuationAuthorityScope; pf_price_date : date; pf_price : decimal; pf_currency : string; pf_quote_basis : MarketPriceQuoteBasis;
  pf_source_reference : FinancialSourceReference; pf_fact_status : MarketPriceSourceFactStatus; pf_fact_version : Z
}.

Definition make_MarketPriceSourceFact (scope : ValuationAuthorityScope) (price_date : date) (price : number) (currency : string)
  (quote_basis : MarketPriceQuoteBasis) (source_reference : FinancialSourceReference) (fact_status : MarketPriceSourceFactStatus) (fact_version : Z)
  : result MarketPriceSourceFact :=
  match price with
  | Finite p =>
      _ ← raise_if (dleb p dzero) (ValueError "price must be a positive finite Decimal");
      code ← normalize_currency_code (PStr currency);
      _ ← raise_if (fact_version <? 1) (ValueError "fact_version must be positive");
      Ok {| pf_scope := scope; pf_price_date := price_date; pf_price := p; pf_currency := code; pf_quote_basis := quote_basis;
            pf_source_reference := source_reference; pf_fact_status := fact_status; pf_fact_version := fact_version |}
  | _ => Raise (ValueError "price must be a positive finite Decimal")
  end.

Definition source_key : Type := string * string.

Definition pf_source_record_key (f : MarketPriceSourceFact) : source_key :=
  (fs_source_system (pf_source_reference f), fs_source_record_id (pf_source_reference f)).

Definition price_payload (f : MarketPriceSourceFact) : payload :=
  PMap [("currency", PStr (pf_currency f)); ("fact_status", PEnum (PStr (price_status_value (pf_fact_status f))));
        ("fact_version", PInt (pf_fact_version f)); ("legal_book_id", PStr (vs_legal_book_id (pf_scope f))); ("price", PDecimal (pf_price f));
        ("price_date", PDate (pf_price_date f)); ("quote_basis", PEnum (PStr (quote_basis_value (pf_quote_basis f))));
        ("security_id", PStr (vs_security_id (pf_scope f))); ("source_reference", fs_lineage_payload (pf_source_reference f));
        ("tenant_id", PStr (vs_tenant_id (pf_scope f)))].

(** [==] of two facts, field by field. *)
Definition price_eqb (a b : MarketPriceSourceFact) : bool :=
  bool_decide (pf_scope a = pf_scope b) && (pf_price_date a =? pf_price_date b) && deqb (pf_price a) (pf_price b) && String.eqb (pf_currency a) (pf_currency b) &&
  bool_decide (pf_quote_basis a = pf_quote_basis b) && source_eqb (pf_source_reference a) (pf_source_reference b) &&
  bool_decide (pf_fact_status a = pf_fact_status b) && (pf_fact_version a =? pf_fact_version b).

Definition PRICE_CONFLICT : exc := MarketPriceSourceFactError "conflicting payloads share one source record and fact_version".

Definition latest_prices : list MarketPriceSourceFact -> result (list MarketPriceSourceFact) :=
  latest_source_versions pf_source_record_key pf_fact_version price_eqb PRICE_CONFLICT.

(** [f"{system.strip()}:{record.strip()}"], in order. *)
Definition price_sources (facts : list MarketPriceSourceFact) : list string :=
  stable_sort string_leb (map (fun f => source_name (strip (fs_source_system (pf_source_reference f))) (strip (fs_source_record_id (pf_source_reference f)))) facts).

Definition authority_key : Type := scope_triple * date.

Definition price_authority (f : MarketPriceSourceFact) : authority_key := (vs_key (pf_scope f), pf_price_date f).

Definition price_active (f : MarketPriceSourceFact) : bool := bool_decide (pf_fact_status f = FACT_ACTIVE).

Definition MISSING_PRICE : exc :=
  MissingMarketPriceSourceFactError "no active market-price source fact for exact tenant, legal book, instrument, and price date".

Definition resolve_market_price_source_fact (facts : list MarketPriceSourceFact) (tenant_id legal_book_id security_id : string) (price_date : date)
  : result MarketPriceSourceFact :=
  requested ← make_ValuationAuthorityScope tenant_id legal_book_id security_id;
  latest ← latest_prices facts;
  let active := List.filter (fun f => bool_decide (vs_key (pf_scope f) = vs_key requested) && (pf_price_date f =? price_date) && price_active f) latest in
  match active with
  | [] => Raise MISSING_PRICE
  | [f] => Ok f
  | _ => Raise (OverlappingMarketPriceSourceFactError "overlapping active market-price source facts: " (price_sources active))
  end.

Definition validate_market_price_policy_compatibility (fact : MarketPriceSourceFact) (policy : PositionValuationPolicy) : result unit :=
  raise_if (negb (String.eqb (input_basis_value (vp_input_basis policy)) (quote_basis_value (pf_quote_basis fact))))
    (MarketPriceSourceFactError ("market-price quote basis does not match valuation policy input basis: quote_basis=" +:+
       quote_basis_value (pf_quote_basis fact) +:+ ", input_basis=" +:+ input_basis_value (vp_input_basis policy))).

(** ** Policy assignments *)

Inductive ValuationPolicyAssignmentStatus := POLICY_ACTIVE | POLICY_SUSPENDED | POLICY_RETIRED.

#[export] Instance policy_status_eq_dec : EqDecision ValuationPolicyAssignmentStatus.
Proof. solve_decision. Defined.

Definition policy_status_value (x : ValuationPolicyAssignmentStatus) : string :=
  match x with POLICY_ACTIVE => "ACTIVE" | POLICY_SUSPENDED => "SUSPENDED" | POLICY_RETIRED => "RETIRED" end.

Record InstrumentValuationPolicyAssignment := {
  va_tenant_id : string; va_legal_book_id : string; va_security_id : string; va_policy_id : string; va_policy_version : Z;
  va_valid_from : date; va_valid_to : option date; va_assignment_status : ValuationPolicyAssignmentStatus; va_assignment_version : Z;
  va_source_system : string; va_source_record_id : string; va_source_revision : string; va_observed_at : datetime; va_assignment_reason : string
}.

Definition blank_text (s : string) : bool := negb (truthy (strip s)).

Definition nonblank_fields (a : InstrumentValuationPolicyAssignment) : list (string * string) :=
  [("tenant_id", va_tenant_id a); ("legal_book_id", va_legal_book_id a); ("security_id", va_security_id a); ("policy_id", va_policy_id a);
   ("source_system", va_source_system a); ("source_record_id", va_source_record_id a); ("source_revision", va_source_revision a);
   ("assignment_reason", va_assignment_reason a)].

(** The constructor checks its fields and keeps them as they are. *)
Definition make_InstrumentValuationPolicyAssignment (a : InstrumentValuationPolicyAssignment) : result InstrumentValuationPolicyAssignment :=
  _ ← mapR (fun '(field_name, value) => raise_if (blank_text value) (ValueError (field_name +:+ " must be nonblank"))) (nonblank_fields a);
  _ ← raise_if (va_policy_version a <? 1) (ValueError "policy_version must be positive");
  _ ← raise_if (va_assignment_version a <? 1) (ValueError "assignment_version must be positive");
  _ ← require_window (va_valid_from a) (va_valid_to a);
  _ ← raise_if (is_naive (va_observed_at a)) (ValueError "observed_at must be timezone-aware");
  Ok a.

Definition va_authority_scope (a : InstrumentValuationPolicyAssignment) : result ValuationAuthorityScope :=
  make_ValuationAuthorityScope (va_tenant_id a) (va_legal_book_id a) (va_security_id a).

(** The key of the scope; the scope of a constructed assignment exists ([va_scope_exists]). *)
Definition va_scope_key (a : InstrumentValuationPolicyAssignment) : scope_triple :=
  (strip (va_tenant_id a), strip (va_legal_book_id a), strip (va_security_id a)).

Definition policy_assignment_eqb (a b : InstrumentValuationPolicyAssignment) : bool :=
  String.eqb (va_tenant_id a) (va_tenant_id b) && String.eqb (va_legal_book_id a) (va_legal_book_id b) && String.eqb (va_security_id a) (va_security_id b) &&
  String.eqb (va_policy_id a) (va_policy_id b) && (va_policy_version a =? va_policy_version b) && (va_valid_from a =? va_valid_from b) &&
  bool_decide (va_valid_to a = va_valid_to b) && bool_decide (va_assignment_status a = va_assignment_status b) &&
  (va_assignment_version a =? va_assignment_version b) && String.eqb (va_source_system a) (va_source_system b) &&
  String.eqb (va_source_record_id a) (va_source_record_id b) && String.eqb (va_source_revision a) (va_source_revision b) &&
  datetime_eqb (va_observed_at a) (va_observed_at b) && String.eqb (va_assignment_reason a) (va_assignment_reason b).

(** [source_record_key] is the [record_key] of this instance, [is_effective_on] with the status is [effective_on]. *)
#[export] Instance policy_assignment_record : SourceRecord InstrumentValuationPolicyAssignment scope_triple := {
  record_scope := va_scope_key; record_system := fun a => strip (va_source_system a); record_id := fun a => strip (va_source_record_id a);
  record_version := va_assignment_version; record_from := va_valid_from; record_to := va_valid_to; record_eqb := policy_assignment_eqb;
  record_active := fun a => bool_decide (va_assignment_status a = POLICY_ACTIVE)
}.

Definition policy_assignment_payload (a : InstrumentValuationPolicyAssignment) : payload :=
  PMap [("assignment_reason", PStr (strip (va_assignment_reason a))); ("assignment_status", PEnum (PStr (policy_status_value (va_assignment_status a))));
        ("assignment_version", PInt (va_assignment_version a)); ("legal_book_id", PStr (strip (va_legal_book_id a))); ("observed_at", PDatetime (va_observed_at a));
        ("policy_id", PStr (strip (va_policy_id a))); ("policy_version", PInt (va_policy_version a)); ("security_id", PStr (strip (va_security_id a)));
        ("source_record_id", PStr (strip (va_source_record_id a))); ("source_revision", PStr (strip (va_source_revision a)));
        ("source_system", PStr (strip (va_source_system a))); ("tenant_id", PStr (strip (va_tenant_id a))); ("valid_from", PDate (va_valid_from a));
        ("valid_to", opt_date (va_valid_to a))].

Record ValuationPolicyAssignmentCacheKey := {
  vk_tenant_id : string; vk_legal_book_id : string; vk_security_id : string; vk_valuation_date : date; vk_policy_id : string; vk_policy_version : Z;
  vk_assignment_version : Z; vk_source_revision : string; vk_assignment_content_hash : string
}.

Record ResolvedValuationPolicyAssignment := { rv_assignment : InstrumentValuationPolicyAssignment; rv_cache_key : ValuationPolicyAssignmentCacheKey }.

Definition POLICY_CONFLICT : exc := ValuationPolicyAssignmentError "conflicting payloads share one source record and assignment_version".

Section Hashed.
Context `{Hashing}.

Definition pf_content_hash (f : MarketPriceSourceFact) : result string := canonical_content_hash (price_payload f).

Definition va_content_hash (a : InstrumentValuationPolicyAssignment) : result string := canonical_content_hash (policy_assignment_payload a).

Definition va_source_reference (a : InstrumentValuationPolicyAssignment) : result FinancialSourceReference :=
  hash ← va_content_hash a;
  make_FinancialSourceReference (va_source_system a) (va_source_record_id a) (va_source_revision a) hash (va_observed_at a).

Definition resolve_valuation_policy_assignment (assignments : list InstrumentValuationPolicyAssignment) (tenant_id legal_book_id security_id : string)
  (valuation_date : date) : result ResolvedValuationPolicyAssignment :=
  requested ← make_ValuationAuthorityScope tenant_id legal_book_id security_id;
  effective ← effective_records POLICY_CONFLICT assignments (vs_key requested) valuation_date;
  match effective with
  | [] => Raise (MissingValuationPolicyAssignmentError "no active valuation-policy assignment for exact tenant, legal book, instrument, and date")
  | [a] =>
      hash ← va_content_hash a;
      Ok {| rv_assignment := a;
            rv_cache_key := {| vk_tenant_id := strip (va_tenant_id a); vk_legal_book_id := strip (va_legal_book_id a); vk_security_id := strip (va_security_id a);
                               vk_valuation_date := valuation_date; vk_policy_id := strip (va_policy_id a); vk_policy_version := va_policy_version a;
                               vk_assignment_version := va_assignment_version a; vk_source_revision := strip (va_source_revision a);
                               vk_assignment_content_hash := hash |} |}
  | _ => Raise (OverlappingValuationPolicyAssignmentError "overlapping active valuation-policy assignments: " (listed_sources effective))
  end.
End Hashed.

Definition policy_tie (a b : InstrumentValuationPolicyAssignment) : comparison :=
  lex (String.compare (va_source_system a) (va_source_system b)) (String.compare (va_source_record_id a) (va_source_record_id b)).

Definition policy_windows_overlap (s : scope_triple) : exc :=
  let '(tenant, book, security) := s in
  OverlappingValuationPolicyAssignmentError ("active valuation-policy assignment windows overlap for tenant=" +:+ tenant +:+ ", legal_book=" +:+ book +:+
    ", security=" +:+ security) [].

Definition validate_no_overlapping_active_assignments (assignments : list InstrumentValuationPolicyAssignment) : result unit :=
  latest ← latest_records POLICY_CONFLICT assignments;
  validate_windows policy_tie policy_windows_overlap latest.

Definition policy_semantics (a : InstrumentValuationPolicyAssignment) :=
  (strip (va_policy_id a), va_policy_version a, va_valid_from a, va_valid_to a, va_assignment_status a).

Definition revaluation_start_for_assignment_correction (previous current : InstrumentValuationPolicyAssignment) : result (option date) :=
  _ ← raise_if (bool_decide (record_key previous <> record_key current))
        (ValueError "assignment correction must preserve exact scope and source record identity");
  _ ← raise_if (va_assignment_version current <=? va_assignment_version previous) (ValueError "assignment correction version must increase");
  Ok (if bool_decide (policy_semantics current = policy_semantics previous) then None else Some (Z.min (va_valid_from previous) (va_valid_from current))).

(** ** Admission of assignments *)

Definition normalize_nonblank_text (value : string) : result string :=
  if truthy (strip value) then Ok (strip value) else Raise (ValueError "identifier and rationale fields must not be blank").

Definition at_least_one (value : Z) : result unit := raise_if (value <? 1) (ValueError "Input should be greater than or equal to 1").

(** [resolve_position_valuation_policy], with [UnknownValuationPolicyError] turned into an error of the caller. *)
Definition require_supported_policy (wrap : string -> exc) (a : InstrumentValuationPolicyAssignment) : result unit :=
  match resolve_position_valuation_policy (va_policy_id a) (va_policy_version a) with
  | Ok _ => Ok tt
  | Raise (UnknownValuationPolicyError m) => Raise (wrap m)
  | Raise e => Raise e
  end.

(** [InstrumentValuationPolicyAssignmentRecord.model_validate(record).to_domain()]: the field validators, then the model validator. *)
Definition admit_assignment (raw : InstrumentValuationPolicyAssignment) : result InstrumentValuationPolicyAssignment :=
  tenant_id ← normalize_nonblank_text (va_tenant_id raw);
  legal_book_id ← normalize_nonblank_text (va_legal_book_id raw);
  security_id ← normalize_nonblank_text (va_security_id raw);
  policy_id ← normalize_nonblank_text (va_policy_id raw);
  _ ← at_least_one (va_policy_version raw);
  _ ← at_least_one (va_assignment_version raw);
  source_system ← normalize_nonblank_text (va_source_system raw);
  source_record_id ← normalize_nonblank_text (va_source_record_id raw);
  source_revision ← normalize_nonblank_text (va_source_revision raw);
  _ ← raise_if (is_naive (va_observed_at raw)) (ValueError "observed_at must include a timezone offset");
  assignment_reason ← normalize_nonblank_text (va_assignment_reason raw);
  assignment ← make_InstrumentValuationPolicyAssignment
    {| va_tenant_id := tenant_id; va_legal_book_id := legal_book_id; va_security_id := security_id; va_policy_id := policy_id;
       va_policy_version := va_policy_version raw; va_valid_from := va_valid_from raw; va_valid_to := va_valid_to raw;
       va_assignment_status := va_assignment_status raw; va_assignment_version := va_assignment_version raw; va_source_system := source_system;
       va_source_record_id := source_record_id; va_source_revision := source_revision; va_observed_at := va_observed_at raw;
       va_assignment_reason := assignment_reason |};
  _ ← require_supported_policy ValueError assignment;
  Ok assignment.

(** [validate_batch_authority] of an ingestion request. *)
Definition validate_batch_authority (assignments : list InstrumentValuationPolicyAssignment) : result unit :=
  _ ← raise_if (duplicate_versions record_key va_assignment_version assignments)
        (ValueError "valuation_policy_assignments contains duplicate source-version identities");
  validate_no_overlapping_active_assignments assignments.

(** ** The assignment writer *)

Definition MAX_VALUATION_POLICY_ASSIGNMENT_WRITE_BATCH : nat := 1000.
Definition VALUATION_POLICY_ASSIGNMENT_QUERY_CHUNK_SIZE : nat := 100.

Definition AuthorityChange : Type := change InstrumentValuationPolicyAssignment.

(** The earliest date whose valuation may have changed. *)
Definition affected_from (c : AuthorityChange) : result (option date) :=
  match previous c with
  | None => Ok (if bool_decide (va_assignment_status (accepted c) = POLICY_ACTIVE) then Some (va_valid_from (accepted c)) else None)
  | Some p => revaluation_start_for_assignment_correction p (accepted c)
  end.

Definition scope_compare (a b : scope_triple) : comparison :=
  lex (String.compare a.1.1 b.1.1) (lex (String.compare a.1.2 b.1.2) (String.compare a.2 b.2)).

Definition record_key_compare (a b : scope_triple * string * string) : comparison :=
  lex (scope_compare a.1.1 b.1.1) (lex (String.compare a.1.2 b.1.2) (String.compare a.2 b.2)).

(** [sorted({assignment.scope_key for assignment in assignments})]. *)
Definition batch_scopes (assignments : list InstrumentValuationPolicyAssignment) : list scope_triple :=
  stable_sort (leb_of scope_compare) (remove_dups (map va_scope_key assignments)).

(** The scope columns of a row, as they are stored. *)
Definition va_row_scope (a : InstrumentValuationPolicyAssignment) : scope_triple := (va_tenant_id a, va_legal_book_id a, va_security_id a).

Definition load_assignment_histories (table : list InstrumentValuationPolicyAssignment) (scopes : list scope_triple) : list InstrumentValuationPolicyAssignment :=
  load_chunks va_row_scope table (chunks scopes VALUATION_POLICY_ASSIGNMENT_QUERY_CHUNK_SIZE).

Definition DUPLICATE_ASSIGNMENT : exc := ValuationPolicyAssignmentError "valuation-policy assignment batch contains duplicate source versions".
Definition STALE_ASSIGNMENT : exc :=
  ValuationPolicyAssignmentError "valuation-policy assignment correction version must be newer than existing source history".

(** [append_many]: the table with the accepted rows, and the changes of authority. *)
Definition append_assignments (table assignments : list InstrumentValuationPolicyAssignment)
  : result (list InstrumentValuationPolicyAssignment * list AuthorityChange) :=
  match assignments with
  | [] => Ok (table, [])
  | _ =>
      _ ← raise_if (MAX_VALUATION_POLICY_ASSIGNMENT_WRITE_BATCH <? length assignments)%nat
            (ValuationPolicyAssignmentError "valuation-policy assignment write batch exceeds 1000");
      _ ← raise_if (duplicate_versions record_key va_assignment_version assignments) DUPLICATE_ASSIGNMENT;
      _ ← mapR (require_supported_policy ValuationPolicyAssignmentError) assignments;
      let durable_history := load_assignment_histories table (batch_scopes assignments) in
      pending ← pending_versions record_key va_assignment_version policy_assignment_eqb POLICY_CONFLICT durable_history assignments;
      match pending with
      | [] => Ok (table, [])
      | _ =>
          latest ← latest_records POLICY_CONFLICT durable_history;
          let pending := sort_pending record_key va_assignment_version record_key_compare pending in
          changes ← record_changes record_key va_assignment_version STALE_ASSIGNMENT (by_source record_key latest) pending;
          _ ← validate_no_overlapping_active_assignments (durable_history ++ pending)%list;
          Ok (table ++ pending, changes)%list
      end
  end.

(** [append_instrument_valuation_policy_assignments]: the batch is admitted and appended as a whole; a failure is rolled back. *)
Definition append_instrument_valuation_policy_assignments (table records : list InstrumentValuationPolicyAssignment)
  : result (list InstrumentValuationPolicyAssignment * list AuthorityChange) :=
  assignments ← mapR admit_assignment records;
  append_assignments table assignments.

(** ** The price writer *)

Definition MAX_MARKET_PRICE_SOURCE_FACT_WRITE_BATCH : nat := 500.
Definition MARKET_PRICE_SOURCE_FACT_QUERY_CHUNK_SIZE : nat := 100.

Definition PriceChange : Type := change MarketPriceSourceFact.

Definition affected_authorities (c : PriceChange) : list authority_key :=
  price_authority (accepted c) :: match previous c with Some p => [price_authority p] | None => [] end.

Definition source_key_compare (a b : source_key) : comparison := lex (String.compare a.1 b.1) (String.compare a.2 b.2).
Definition authority_compare (a b : authority_key) : comparison := lex (scope_compare a.1 b.1) (Z.compare a.2 b.2).

Definition sorted_sources (keys : list source_key) : list source_key := stable_sort (leb_of source_key_compare) (remove_dups keys).
Definition sorted_authorities (keys : list authority_key) : list authority_key := stable_sort (leb_of authority_compare) (remove_dups keys).

Definition load_price_histories (table : list MarketPriceSourceFact) (sources : list source_key) : list MarketPriceSourceFact :=
  load_chunks pf_source_record_key table (chunks sources MARKET_PRICE_SOURCE_FACT_QUERY_CHUNK_SIZE).

(** The sources of the rows, of any version, that speak about one of the authorities. *)
Definition candidate_sources (table : list MarketPriceSourceFact) (authorities : list authority_key) : list source_key :=
  sorted_sources (map pf_source_record_key (load_chunks price_authority table (chunks authorities MARKET_PRICE_SOURCE_FACT_QUERY_CHUNK_SIZE))).

Definition group_active_price (active_by_authority : list (authority_key * list MarketPriceSourceFact)) (f : MarketPriceSourceFact)
  : list (authority_key * list MarketPriceSourceFact) :=
  if price_active f then od_set (price_authority f) (od_get_default [] (price_authority f) active_by_authority ++ [f])%list active_by_authority
  else active_by_authority.

Definition validate_no_active_authority_overlap (facts : list MarketPriceSourceFact) : result unit :=
  latest ← latest_prices facts;
  let overlaps := List.filter (fun e => (1 <? length (snd e))%nat) (foldl group_active_price [] latest) in
  raise_if (match overlaps with [] => false | _ => true end)
    (OverlappingMarketPriceSourceFactError "multiple active market-price source records claim one exact authority" []).

Definition DUPLICATE_PRICE : exc := MarketPriceSourceFactError "market-price source-fact batch contains duplicate source versions".
Definition STALE_PRICE : exc := MarketPriceSourceFactError "market-price correction version must be newer than existing source history".

(** The pending facts and the latest stored ones of their sources. *)
Definition affected_facts (previous_by_source : list (source_key * MarketPriceSourceFact)) (pending : list MarketPriceSourceFact) : list MarketPriceSourceFact :=
  pending ++ flat_map (fun f => match od_get (pf_source_record_key f) previous_by_source with Some p => [p] | None => [] end) pending.

(** [append_many]. *)
Definition append_prices (table facts : list MarketPriceSourceFact) : result (list MarketPriceSourceFact * list PriceChange) :=
  match facts with
  | [] => Ok (table, [])
  | _ =>
      _ ← raise_if (MAX_MARKET_PRICE_SOURCE_FACT_WRITE_BATCH <? length facts)%nat
            (MarketPriceSourceFactError "market-price source-fact write batch exceeds 500");
      _ ← raise_if (duplicate_versions pf_source_record_key pf_fact_version facts) DUPLICATE_PRICE;
      let incoming_sources := sorted_sources (map pf_source_record_key facts) in
      let incoming_history := load_price_histories table incoming_sources in
      pending ← pending_versions pf_source_record_key pf_fact_version price_eqb PRICE_CONFLICT incoming_history facts;
      match pending with
      | [] => Ok (table, [])
      | _ =>
          latest ← latest_prices incoming_history;
          let previous_by_source := by_source pf_source_record_key latest in
          let pending := sort_pending pf_source_record_key pf_fact_version source_key_compare pending in
          changes ← record_changes pf_source_record_key pf_fact_version STALE_PRICE previous_by_source pending;
          let authorities := sorted_authorities (map price_authority (affected_facts previous_by_source pending)) in
          let all_candidate_sources := sorted_sources (candidate_sources table authorities ++ incoming_sources)%list in
          let durable_candidates := load_price_histories table all_candidate_sources in
          _ ← validate_no_active_authority_overlap (durable_candidates ++ pending)%list;
          Ok (table ++ pending, changes)%list
      end
  end.
