(* ===== verification/ValuationAuthorityFacts.v ===== *)
(** * Valuation authority: facts

    Both tables only grow, by batches that keep every lookup unambiguous, and the changes a batch reports are all that
    an evaluation has to be repeated for. *)

From Stdlib Require Import ZArith Lia String.
From stdpp Require Import base tactics list sorting sets strings.
From S2P Require Import Prelude PyDecimal PyTime Precision Lineage Values AccruedIncome PositionValuation AmortizedStraightLine SourceVersions BookCostAuthority BookCostAuthorityFacts SourceAppend ValuationAuthority.

#[local] Open Scope string_scope.
#[local] Open Scope Z_scope.

Lemma sorted_set_elem {A} `{EqDecision A} (leb : A -> A -> bool) (l : list A) x : x ∈ stable_sort leb (remove_dups l) <-> x ∈ l.
Proof. rewrite stable_sort_perm. apply elem_of_remove_dups. Qed.

Lemma sorted_set_NoDup {A} `{EqDecision A} (leb : A -> A -> bool) (l : list A) : NoDup (stable_sort leb (remove_dups l)).
Proof. rewrite stable_sort_perm. apply NoDup_remove_dups. Qed.

(** ** Admitted assignments *)

(** What admission guarantees: a window, an aware timestamp, identifiers without surrounding blanks, a policy of the catalogue. *)
Record admitted (a : InstrumentValuationPolicyAssignment) : Prop := {
  ad_window : window_ok a;
  ad_aware : is_naive (va_observed_at a) = false;
  ad_scope : va_row_scope a = va_scope_key a;
  ad_policy : is_ok (resolve_position_valuation_policy (va_policy_id a) (va_policy_version a)) = true
}.

Lemma normalize_nonblank_Ok s t : normalize_nonblank_text s = Ok t -> strip t = t.
Proof. unfold normalize_nonblank_text. destruct (truthy (strip s)); [|done]. intros [= <-]. apply strip_idem. Qed.

Lemma supported_policy_Ok wrap a u : require_supported_policy wrap a = Ok u -> is_ok (resolve_position_valuation_policy (va_policy_id a) (va_policy_version a)) = true.
Proof. unfold require_supported_policy. by destruct (resolve_position_valuation_policy _ _) as [|[]]. Qed.

Lemma admit_admitted raw a : admit_assignment raw = Ok a -> admitted a.
Proof.
  unfold admit_assignment. intros Hm. apply bind_Ok in Hm as (tn & Ht%normalize_nonblank_Ok & Hm). apply bind_Ok in Hm as (bk & Hb%normalize_nonblank_Ok & Hm).
  apply bind_Ok in Hm as (se & Hs%normalize_nonblank_Ok & Hm). do 8 apply bind_Ok in Hm as (? & _ & Hm). apply bind_Ok in Hm as (a' & Hmk & Hm).
  apply bind_Ok in Hm as (u & Hp%supported_policy_Ok & [= ->]). unfold make_InstrumentValuationPolicyAssignment in Hmk. do 3 apply bind_Ok in Hmk as (? & _ & Hmk).
  apply bind_Ok in Hmk as (w & Hw & Hmk). apply bind_Ok in Hmk as (v & Hn%raise_if_Ok & [= <-]). split; [|done| |done].
  - intros t. by apply (require_window_Ok _ _ _ Hw).
  - unfold va_row_scope, va_scope_key. cbn [va_tenant_id va_legal_book_id va_security_id]. by rewrite Ht, Hb, Hs.
Qed.

Lemma assignment_hash_total `{Hashing} a : admitted a -> exists h, va_content_hash a = Ok h.
Proof.
  intros Ha. pose proof (datetime_payload_ok _ (ad_aware a Ha)) as Hn. apply content_hash_total. unfold policy_assignment_payload, opt_date. destruct (va_valid_to a); write_payload.
Qed.

Lemma policy_assignment_eqb_refl a : policy_assignment_eqb a a = true.
Proof. unfold policy_assignment_eqb, datetime_eqb. rewrite !String.eqb_refl, !Z.eqb_refl, !bool_decide_eq_true_2 by done. done. Qed.

#[local] Notation current := (authoritative (A := InstrumentValuationPolicyAssignment) record_key record_version).
#[local] Notation distinct := (distinct_versions (A := InstrumentValuationPolicyAssignment) record_key record_version).

Lemma key_scope (r a : InstrumentValuationPolicyAssignment) : record_key r = record_key a -> va_scope_key r = va_scope_key a.
Proof. intros E. exact (f_equal (fun k => k.1.1) E). Qed.

(** ** The assignment table *)

Record assignment_table_ok (table : list InstrumentValuationPolicyAssignment) : Prop := {
  at_distinct : distinct table;
  at_admitted : Forall admitted table;
  at_unambiguous : unambiguous table
}.

Lemma load_assignments table scopes a : Forall admitted table -> a ∈ load_assignment_histories table scopes <-> a ∈ table /\ va_scope_key a ∈ scopes.
Proof.
  intros Ha. unfold load_assignment_histories. rewrite elem_of_load, concat_chunks by (unfold VALUATION_POLICY_ASSIGNMENT_QUERY_CHUNK_SIZE; lia).
  split; intros [H1 H2]; (split; [done|]); pose proof (ad_scope a (proj1 (Forall_forall _ _) Ha a H1)); congruence.
Qed.

Lemma load_assignments_distinct table scopes : distinct table -> NoDup scopes -> distinct (load_assignment_histories table scopes).
Proof. intros Hd Hn. apply distinct_load; [done|]. by rewrite concat_chunks by (unfold VALUATION_POLICY_ASSIGNMENT_QUERY_CHUNK_SIZE; lia). Qed.

(** What an accepted append did. *)
Record appended (table batch pending : list InstrumentValuationPolicyAssignment) (changes : list AuthorityChange) : Prop := {
  ap_recorded : recorded record_key record_version table changes;
  ap_accepted : map accepted changes = pending;
  ap_batch : forall a, a ∈ pending -> a ∈ batch;
  ap_stored : forall a, a ∈ batch -> a ∈ pending \/ stored_already record_key record_version policy_assignment_eqb table a;
  ap_checked : pending = [] \/ validate_no_overlapping_active_assignments (load_assignment_histories table (batch_scopes batch) ++ pending) = Ok tt
}.

Lemma append_assignments_Ok table batch table' changes : distinct table -> Forall admitted table -> Forall admitted batch ->
  append_assignments table batch = Ok (table', changes) -> exists pending, table' = (table ++ pending)%list /\ appended table batch pending changes.
Proof.
  intros Hd Hat Hab. assert (Hnone : forall changes, Ok (table, []) = Ok (table', changes) -> (forall a, a ∈ batch -> stored_already record_key record_version policy_assignment_eqb table a) ->
    exists pending, table' = (table ++ pending)%list /\ appended table batch pending changes).
  { intros cs [= <- <-] Hst. exists []. split; [by rewrite app_nil_r|]. split; [constructor|done|by intros a ?%elem_of_nil|intros a Ha; right; by apply Hst|by left]. }
  unfold append_assignments. destruct batch as [|b batch']; [intros E; apply (Hnone _ E); by intros a ?%elem_of_nil|]. set (batch := b :: batch') in *.
  set (history := load_assignment_histories table (batch_scopes batch)). assert (Hh : distinct history) by (apply load_assignments_distinct; [done|apply sorted_set_NoDup]).
  assert (Hin : forall r, r ∈ history <-> r ∈ table /\ va_scope_key r ∈ batch_scopes batch) by (intros r; by apply load_assignments).
  intros Hm. do 3 apply bind_Ok in Hm as (? & _ & Hm). apply bind_Ok in Hm as (pending & Hp & Hm).
  destruct (pending_spec _ _ _ _ history batch pending Hh Hp) as [Epend Hst].
  assert (Hsub : forall a, a ∈ pending -> a ∈ batch) by (intros a; rewrite Epend; intros Ha%list_elem_of_In%List.filter_In; apply list_elem_of_In, Ha).
  assert (Hst' : forall a, a ∈ batch -> a ∈ pending \/ stored_already record_key record_version policy_assignment_eqb table a).
  { intros a Ha. destruct (Hst a Ha) as [H1|(p & H1 & H2)]; [by left|]. right. exists p. split; [by apply Hin|done]. }
  destruct pending as [|p0 pending0]; [apply (Hnone _ Hm); intros a Ha; destruct (Hst' a Ha) as [H1|H1]; [by apply elem_of_nil in H1|done]|]. set (pend := p0 :: pending0) in *.
  apply bind_Ok in Hm as (l & Hl & Hm). apply bind_Ok in Hm as (cs & Hc & Hm). apply bind_Ok in Hm as ([] & Hv & [= <- <-]).
  set (sorted := sort_pending record_key va_assignment_version record_key_compare pend) in *. assert (Hperm : sorted ≡ₚ pend) by apply stable_sort_perm.
  exists sorted. split; [done|]. destruct (append_recorded record_key record_version record_eqb POLICY_CONFLICT STALE_ASSIGNMENT table history l sorted cs Hd Hh) as (Hr & Em & _);
    [intros r Hr; by apply Hin| |exact Hl|exact Hc|].
  - intros a r Ha Hr Ek. apply Hin. split; [done|]. rewrite (key_scope r a Ek). apply sorted_set_elem. apply list_elem_of_In, in_map, list_elem_of_In, Hsub. by rewrite <- Hperm.
  - split; [done|done|intros a Ha; apply Hsub; by rewrite <- Hperm| |right; done]. intros a Ha. destruct (Hst' a Ha) as [H1|H1]; [left; by rewrite Hperm|by right].
Qed.

Lemma validated_unambiguous rs : distinct rs -> Forall admitted rs -> validate_no_overlapping_active_assignments rs = Ok tt -> unambiguous rs.
Proof.
  intros Hd Ha. assert (Ht : Comparer policy_tie) by (unfold policy_tie; typeclasses eauto). assert (Hw : Forall window_ok rs) by (eapply Forall_impl; [exact Ha|]; apply ad_window).
  unfold validate_no_overlapping_active_assignments. rewrite (overlap_decided POLICY_CONFLICT _ _ _ Ht Hw). intros Hv s d x y Hx Hy Sx Sy Ex Ey.
  destruct (Hv s d) as (xs & Hxs & Hlen). destruct (effective_authoritative POLICY_CONFLICT rs s d Hd) as (xs' & Hxs' & _ & Hin). assert (xs' = xs) by congruence. subst xs'.
  pose proof (proj2 (Hin x) (conj Hx (conj Sx Ex))) as Ix. pose proof (proj2 (Hin y) (conj Hy (conj Sy Ey))) as Iy. destruct xs as [|z [|]]; [by apply elem_of_nil in Ix| |cbn in Hlen; lia].
  apply list_elem_of_singleton in Ix, Iy. congruence.
Qed.

(** An append keeps the table unambiguous. *)
Lemma append_keeps_ok table batch pending changes : assignment_table_ok table -> Forall admitted batch -> appended table batch pending changes ->
  assignment_table_ok (table ++ pending).
Proof.
  intros [Hd Ha Hu] Hb [Hr Em Hsub Hst Hv]. subst pending. assert (Hd' : distinct (table ++ map accepted changes)) by (by apply recorded_distinct).
  assert (Ha' : Forall admitted (table ++ map accepted changes)).
  { apply Forall_app. split; [done|]. apply Forall_forall. intros a Hin. by apply (proj1 (Forall_forall _ _) Hb), Hsub. }
  split; [done..|]. destruct Hv as [En|Hv]; [by rewrite En, app_nil_r|]. set (history := load_assignment_histories table (batch_scopes batch)) in *.
  assert (Hin : forall r, r ∈ history <-> r ∈ table /\ va_scope_key r ∈ batch_scopes batch) by (intros r; by apply load_assignments).
  assert (Hps : forall r, r ∈ map accepted changes -> va_scope_key r ∈ batch_scopes batch).
  { intros r Hrr. apply sorted_set_elem, list_elem_of_In, in_map, list_elem_of_In. by apply Hsub. }
  assert (Hhd : distinct (history ++ map accepted changes)).
  { apply (distinct_sub _ _ (table ++ map accepted changes)); [done| |].
    - apply NoDup_app. assert (Hn : NoDup (table ++ map accepted changes)) by (by eapply distinct_NoDup). apply NoDup_app in Hn as (_ & Hdis & Hn2). split; [|split; [|done]].
      + eapply distinct_NoDup. by apply load_assignments_distinct; [|apply sorted_set_NoDup].
      + intros x Hx%Hin. apply Hdis, Hx.
    - intros r [Hrr|Hrr]%elem_of_app; apply elem_of_app; [left; by apply Hin|by right]. }
  assert (Hha : Forall admitted (history ++ map accepted changes)).
  { apply Forall_forall. intros r [Hrr|Hrr]%elem_of_app; apply (proj1 (Forall_forall _ _) Ha'), elem_of_app; [left; by apply Hin|by right]. }
  pose proof (validated_unambiguous _ Hhd Hha Hv) as Huh. intros s d x y Hx Hy Sx Sy Ex Ey. destruct (decide (s ∈ batch_scopes batch)) as [Hs|Hs].
  - assert (G : forall z, current (table ++ map accepted changes) z -> record_scope z = s -> current (history ++ map accepted changes) z).
    { intros z Hz Sz. apply (authoritative_loaded _ _ (table ++ map accepted changes)); [| |done].
      - intros r [Hrr|Hrr]%elem_of_app; apply elem_of_app; [left; by apply Hin|by right].
      - intros r [Hrr|Hrr]%elem_of_app Ek; apply elem_of_app; [left; apply Hin; split; [done|]|by right]. rewrite (key_scope r z Ek). by rewrite <- Sz in Hs. }
    by apply (Huh s d); [apply G|apply G|..].
  - assert (G : forall z, current (table ++ map accepted changes) z -> record_scope z = s -> current table z).
    { intros z Hz Sz. destruct (recorded_authoritative _ _ table changes z Hr Hz) as [Hp|Hp]; [|done]. exfalso. apply Hs. rewrite <- Sz. by apply Hps. }
    by apply (Hu s d); [apply G|apply G|..].
Qed.

(** The tables that the ingestion service can produce. *)
Inductive assignment_table : list InstrumentValuationPolicyAssignment -> Prop :=
| empty_assignment_table : assignment_table []
| appended_assignment_table table records table' changes : assignment_table table ->
    append_instrument_valuation_policy_assignments table records = Ok (table', changes) -> assignment_table table'.

Lemma admitted_batch records batch : mapR admit_assignment records = Ok batch -> Forall admitted batch.
Proof.
  intros Hm%mapR_Forall2. apply Forall_forall. intros a Ha. destruct (Forall2_elem_of_r _ _ _ _ Hm Ha) as (raw & _ & Hr). by eapply admit_admitted.
Qed.

Lemma assignment_table_inv table : assignment_table table -> assignment_table_ok table.
Proof.
  induction 1 as [|table records table' changes _ IH Hap].
  - split; [constructor|constructor|]. intros s d x y [Hx _]. by apply elem_of_nil in Hx.
  - unfold append_instrument_valuation_policy_assignments in Hap. apply bind_Ok in Hap as (batch & Hb%admitted_batch & Hap).
    destruct (append_assignments_Ok table batch table' changes (at_distinct _ IH) (at_admitted _ IH) Hb Hap) as (pending & -> & Hp). by eapply append_keeps_ok.
Qed.

Section Lookups.
Context `{hashing : Hashing}.

(** The policy that a lookup of an unambiguous table gives. *)
Lemma lookup_cases table tenant_id legal_book_id security_id scope d : assignment_table_ok table ->
  make_ValuationAuthorityScope tenant_id legal_book_id security_id = Ok scope ->
  (exists a r, resolve_valuation_policy_assignment table tenant_id legal_book_id security_id d = Ok r /\ rv_assignment r = a /\
     vk_policy_id (rv_cache_key r) = strip (va_policy_id a) /\ vk_policy_version (rv_cache_key r) = va_policy_version a /\
     current table a /\ va_scope_key a = vs_key scope /\ effective_on d a = true) \/
  (exists m, resolve_valuation_policy_assignment table tenant_id legal_book_id security_id d = Raise (MissingValuationPolicyAssignmentError m)) /\
     forall a, current table a -> va_scope_key a = vs_key scope -> effective_on d a = false.
Proof.
  intros [Hd Ha Hu] Hs. unfold resolve_valuation_policy_assignment. rewrite Hs, bind_ret.
  destruct (unambiguous_lookup POLICY_CONFLICT table (vs_key scope) d Hd Hu) as [(a & -> & Hc & Hsc & He)|[-> Hnone]]; rewrite bind_ret; [left|right; split; [by eexists|exact Hnone]].
  destruct (assignment_hash_total a (proj1 (Forall_forall _ _) Ha a (proj1 Hc))) as (h & ->). rewrite bind_ret. eexists a, _. split; [done|]. cbn [rv_assignment rv_cache_key vk_policy_id vk_policy_version]. done.
Qed.

(** C32: in every table that the ingestion service can produce, whatever batches were sent, each lookup of a scope and day is decided: it returns
    the one assignment that is in force, of the latest version of its source record and of a policy of the catalogue, or reports that there is
    none; it never meets competing or contradictory assignments. *)
Theorem assignment_lookups_are_decided table tenant_id legal_book_id security_id scope d : assignment_table table ->
  make_ValuationAuthorityScope tenant_id legal_book_id security_id = Ok scope ->
  match resolve_valuation_policy_assignment table tenant_id legal_book_id security_id d with
  | Ok r => let a := rv_assignment r in
      (authoritative record_key va_assignment_version table a /\ va_scope_key a = vs_key scope /\ effective_on d a = true) /\
      (forall b, authoritative record_key va_assignment_version table b -> va_scope_key b = vs_key scope -> effective_on d b = true -> b = a) /\
      exists p, resolve_position_valuation_policy (va_policy_id a) (va_policy_version a) = Ok p
  | Raise (MissingValuationPolicyAssignmentError _) =>
      forall a, authoritative record_key va_assignment_version table a -> va_scope_key a = vs_key scope -> effective_on d a = false
  | Raise _ => False
  end.
Proof.
  intros Ht%assignment_table_inv Hs. destruct (lookup_cases table _ _ _ scope d Ht Hs) as [(a & r & -> & <- & _ & _ & Hc & Hsc & He)|[(m & ->) Hnone]]; [|exact Hnone].
  split; [done|]. split; [|pose proof (ad_policy _ (proj1 (Forall_forall _ _) (at_admitted _ Ht) _ (proj1 Hc))) as Hp; destruct (resolve_position_valuation_policy _ _) as [p|]; [by exists p|done]].
  intros b Hb Sb Eb. by apply (at_unambiguous _ Ht (vs_key scope) d).
Qed.

(** ** Revaluation *)

(** The policy that the source record [k] puts in force on a day. *)
Definition source_policy (table : list InstrumentValuationPolicyAssignment) k (d : date) (policy : string * Z) : Prop :=
  exists a, current table a /\ record_key a = k /\ effective_on d a = true /\ (strip (va_policy_id a), va_policy_version a) = policy.

Lemma revaluation_start_Ok previous current : record_key previous = record_key current -> va_assignment_version previous < va_assignment_version current ->
  revaluation_start_for_assignment_correction previous current =
    Ok (if bool_decide (policy_semantics current = policy_semantics previous) then None else Some (Z.min (va_valid_from previous) (va_valid_from current))).
Proof.
  intros Ek Hv. unfold revaluation_start_for_assignment_correction. rewrite (bool_decide_eq_false_2 (record_key previous <> record_key current)) by (intros Hn; by apply Hn).
  apply Z.leb_gt in Hv. by rewrite Hv.
Qed.

(** A change that does not reach back to a day leaves the policies of the day. *)
Lemma change_before table (c : AuthorityChange) d k policy : distinct table -> follows record_key record_version table c ->
  (forall first, affected_from c = Ok (Some first) -> d < first) ->
  source_policy (table ++ [accepted c]) k d policy <-> source_policy table k d policy.
Proof.
  intros Hd Hf Hlt. unfold source_policy. destruct (decide (k = record_key (accepted c))) as [->|Hk].
  2: { split; intros (a & Hc & Ek & He & Hp); exists a; (split; [|done]).
       - apply (authoritative_step _ _ table c a Hf) in Hc as [->|[_ Hc]]; [congruence|done].
       - apply (authoritative_step _ _ table c a Hf). right. split; [congruence|done]. }
  assert (Hnew : forall a, current (table ++ [accepted c]) a -> record_key a = record_key (accepted c) -> a = accepted c).
  { intros a Hc Ek. apply (authoritative_step _ _ table c a Hf) in Hc as [->|[Hn _]]; [done|by destruct (Hn Ek)]. }
  assert (Hacc : current (table ++ [accepted c]) (accepted c)) by (apply (authoritative_step _ _ table c _ Hf); by left).
  pose proof Hf as Hf'. unfold follows in Hf'. unfold affected_from in Hlt. destruct (previous c) as [p|] eqn:Ep.
  - destruct Hf' as (Hp & Ek & Hv). rewrite (revaluation_start_Ok p (accepted c) Ek Hv) in Hlt. case_bool_decide as Es.
    + unfold policy_semantics in Es. injection Es as E1 E2 E3 E4 E5. assert (Ee : effective_on d (accepted c) = effective_on d p).
      { unfold effective_on. cbn. by rewrite E3, E4, E5. }
      split; intros (a & Hc & Eka & He & Hpol).
      * rewrite (Hnew a Hc Eka) in *. exists p. split; [done|]. split; [done|]. rewrite <- Ee, <- E1, <- E2. done.
      * assert (a = p) as -> by (apply (authoritative_unique record_key record_version table); [done..|congruence]). exists (accepted c). split; [done|]. split; [done|]. rewrite Ee, E1, E2. done.
    + specialize (Hlt _ eq_refl). assert (Hno : forall a, a = p \/ a = accepted c -> effective_on d a = false).
      { intros a Hor. destruct (effective_on d a) eqn:E; [|done]. apply effective_spec in E as (_ & E & _). cbn in E. destruct Hor as [->| ->]; lia. }
      split; intros (a & Hc & Eka & He & _); exfalso.
      * rewrite (Hnew a Hc Eka), Hno in He; [done|by right].
      * assert (a = p) as -> by (apply (authoritative_unique record_key record_version table); [done..|congruence]). rewrite Hno in He; [done|by left].
  - split; intros (a & Hc & Eka & He & _); exfalso.
    + rewrite (Hnew a Hc Eka) in He. apply effective_spec in He as (Hact & Hfrom & _). cbn in Hact, Hfrom. rewrite Hact in Hlt. specialize (Hlt _ eq_refl). lia.
    + apply Hf'. rewrite <- Eka. apply list_elem_of_In, in_map, list_elem_of_In, Hc.
Qed.

Lemma changes_before table (changes : list AuthorityChange) d scope k policy : distinct table -> recorded record_key record_version table changes ->
  (forall c first, c ∈ changes -> va_scope_key (accepted c) = scope -> affected_from c = Ok (Some first) -> d < first) -> k.1.1 = scope ->
  source_policy (table ++ map accepted changes) k d policy <-> source_policy table k d policy.
Proof.
  intros Hd Hr Hlt Hk. induction Hr as [table|table c cs Hf Hr IH]; cbn [map]; [by rewrite app_nil_r|]. rewrite app_snoc.
  rewrite (IH (distinct_step _ _ table c Hd Hf)) by (intros c' first Hc; apply Hlt; by right). destruct (decide (va_scope_key (accepted c) = scope)) as [Es|Es].
  - apply change_before; [done..|]. intros first. by apply Hlt; [left|].
  - unfold source_policy. split; intros (a & Hc & Ek & He); exists a; (split; [|done]).
    + apply (authoritative_step _ _ table c a Hf) in Hc as [->|[_ Hc]]; [|done]. exfalso. apply Es. by rewrite <- Hk, <- Ek.
    + apply (authoritative_step _ _ table c a Hf). right. split; [|done]. intros E. apply Es. rewrite <- Hk, <- Ek. symmetry. by apply key_scope.
Qed.

(** The policy of a lookup: identifier and version, or nothing. *)
Definition looked_up (r : result ResolvedValuationPolicyAssignment) : option (string * Z) :=
  match r with Ok x => Some (vk_policy_id (rv_cache_key x), vk_policy_version (rv_cache_key x)) | Raise _ => None end.

Lemma looked_up_spec table tenant_id legal_book_id security_id scope d policy : assignment_table_ok table ->
  make_ValuationAuthorityScope tenant_id legal_book_id security_id = Ok scope ->
  looked_up (resolve_valuation_policy_assignment table tenant_id legal_book_id security_id d) = Some policy <->
  exists k, k.1.1 = vs_key scope /\ source_policy table k d policy.
Proof.
  intros Ht Hs. destruct (lookup_cases table _ _ _ scope d Ht Hs) as [(a & r & -> & _ & Ei & Ev & Hc & Hsc & He)|[(m & ->) Hnone]]; cbn [looked_up].
  - rewrite Ei, Ev. split.
    + intros [= <-]. exists (record_key a). split; [done|]. by exists a.
    + intros (k & Hk & b & Hb & Ek & Eb & <-). assert (a = b) as ->; [|done]. apply (at_unambiguous _ Ht (vs_key scope) d); try done. by rewrite <- Hk, <- Ek.
  - split; [done|]. intros (k & Hk & b & Hb & Ek & Eb & _). rewrite Hnone in Eb; [done|done|]. rewrite <- Hk, <- Ek. done.
Qed.

(** C33: the changes that an accepted batch reports are all that has to be valued again: each has a date from which it matters, or none, and where no
    change of a scope reaches back to a day, every lookup of the scope on that day gives the policy it gave before the batch. *)
Theorem changes_bound_revaluation table records table' changes tenant_id legal_book_id security_id scope d : assignment_table table ->
  append_instrument_valuation_policy_assignments table records = Ok (table', changes) ->
  make_ValuationAuthorityScope tenant_id legal_book_id security_id = Ok scope ->
  (forall c, c ∈ changes -> is_ok (affected_from c) = true) /\
  ((forall c first, c ∈ changes -> va_scope_key (accepted c) = vs_key scope -> affected_from c = Ok (Some first) -> d < first) ->
   looked_up (resolve_valuation_policy_assignment table' tenant_id legal_book_id security_id d) =
   looked_up (resolve_valuation_policy_assignment table tenant_id legal_book_id security_id d)).
Proof.
  intros Ht Hap Hs. pose proof (assignment_table_inv _ Ht) as Hok. pose proof (assignment_table_inv _ (appended_assignment_table _ _ _ _ Ht Hap)) as Hok'.
  unfold append_instrument_valuation_policy_assignments in Hap. apply bind_Ok in Hap as (batch & Hb%admitted_batch & Hap).
  destruct (append_assignments_Ok table batch table' changes (at_distinct _ Hok) (at_admitted _ Hok) Hb Hap) as (pending & -> & [Hr Em _ _ _]). subst pending. split.
  - clear -Hr. induction Hr as [|table c cs Hf Hr IH]; [by intros c ?%elem_of_nil|]. intros c' [->|Hc]%elem_of_cons; [|by apply IH].
    unfold follows in Hf. unfold affected_from. destruct (previous c) as [p|]; [|done]. destruct Hf as (_ & Ek & Hv). by rewrite (revaluation_start_Ok p (accepted c) Ek Hv).
  - intros Hlt. apply option_eq. intros policy. rewrite !(looked_up_spec _ _ _ _ scope d policy) by done. apply exist_proper. intros k. split; intros [Hk Hp]; (split; [done|]).
    + by apply (changes_before table changes d (vs_key scope) k policy (at_distinct _ Hok) Hr Hlt Hk).
    + by apply (changes_before table changes d (vs_key scope) k policy (at_distinct _ Hok) Hr Hlt Hk).
Qed.

(** Sending an accepted batch again changes nothing and reports nothing. *)
Theorem replayed_batch_is_noop table records table' changes : assignment_table table ->
  append_instrument_valuation_policy_assignments table records = Ok (table', changes) ->
  append_instrument_valuation_policy_assignments table' records = Ok (table', []).
Proof.
  intros Ht Hap. pose proof (assignment_table_inv _ Ht) as Hok. pose proof (assignment_table_inv _ (appended_assignment_table _ _ _ _ Ht Hap)) as Hok'.
  unfold append_instrument_valuation_policy_assignments in *. apply bind_Ok in Hap as (batch & Hbm & Hap). rewrite Hbm, bind_ret. pose proof (admitted_batch _ _ Hbm) as Hb.
  destruct (append_assignments_Ok table batch table' changes (at_distinct _ Hok) (at_admitted _ Hok) Hb Hap) as (pending & -> & [Hr Em _ Hst _]).
  unfold append_assignments in *. destruct batch as [|b batch']; [done|]. set (batch := b :: batch') in *.
  do 3 (apply bind_Ok in Hap as (? & E & Hap); rewrite E, bind_ret; clear E). rewrite (pending_stored record_key va_assignment_version).
  - done.
  - apply load_assignments_distinct; [apply (at_distinct _ Hok')|apply sorted_set_NoDup].
  - intros a Ha. assert (Hsc : forall p, record_key p = record_key a -> va_scope_key p ∈ batch_scopes batch).
    { intros p Ek. rewrite (key_scope p a Ek). apply sorted_set_elem. by apply list_elem_of_In, in_map, list_elem_of_In. }
    destruct (Hst a Ha) as [Hp|(p & Hp & Ek & Eq)].
    + exists a. split; [|split; [done|apply policy_assignment_eqb_refl]]. apply (load_assignments _ _ _ (at_admitted _ Hok')). split; [apply elem_of_app; by right|by apply Hsc].
    + exists p. split; [|done]. apply (load_assignments _ _ _ (at_admitted _ Hok')). split; [apply elem_of_app; by left|]. apply Hsc. exact (f_equal fst Ek).
Qed.
End Lookups.
