(* ===== verification/PriceAuthorityFacts.v ===== *)
(** * Price authority: facts

    The table of market-price facts holds at most one price in force for an instrument of a legal book and a day.  Unlike an
    assignment, a price may be corrected into another scope or day: the identity of its source record does not include them. *)

From Stdlib Require Import ZArith Lia String.
From stdpp Require Import base tactics list sorting sets strings.
From S2P Require Import Prelude PyDecimal DecimalFacts PyTime Precision Lineage Values AccruedIncome PositionValuation SourceVersions BookCostAuthority BookCostAuthorityFacts SourceAppend ValuationAuthority ValuationAuthorityFacts.

#[local] Open Scope string_scope.
#[local] Open Scope Z_scope.
#[local] Open Scope list_scope.

#[local] Notation current := (authoritative pf_source_record_key pf_fact_version).
#[local] Notation distinct := (distinct_versions pf_source_record_key pf_fact_version).

(** Prices in force for one authority, as records of that scope. *)
#[local] Instance price_record : SourceRecord MarketPriceSourceFact authority_key := {
  record_scope := price_authority; record_system := fun f => (pf_source_record_key f).1; record_id := fun f => (pf_source_record_key f).2;
  record_version := pf_fact_version; record_from := pf_price_date; record_to := fun f => Some (pf_price_date f); record_eqb := price_eqb;
  record_active := price_active
}.

(** At most one price is in force for an authority. *)
Definition one_price (table : list MarketPriceSourceFact) : Prop := forall x y, current table x -> current table y ->
  price_active x = true -> price_active y = true -> price_authority x = price_authority y -> x = y.

Record price_table_ok (table : list MarketPriceSourceFact) : Prop := { pt_distinct : distinct table; pt_one : one_price table }.

Lemma validated_one_price rs : distinct rs -> validate_no_active_authority_overlap rs = Ok tt -> one_price rs.
Proof.
  intros Hd Hv x y Hx Hy Ax Ay E. unfold validate_no_active_authority_overlap in Hv. apply bind_Ok in Hv as (l & Hl & Hv%raise_if_Ok).
  destruct (latest_authoritative _ _ _ _ rs l Hd Hl) as [Hnd Hin]. destruct (group_spec l) as [Hk Hg].
  change (foldl group_active_price [] l) with (foldl group_active [] l) in Hv. set (groups := foldl group_active [] l) in *. set (k := price_authority y) in *.
  set (xs := List.filter (active_in k) l) in *. assert (Hmem : forall z, current rs z -> price_active z = true -> price_authority z = k -> z ∈ xs).
  { intros z Hz Az Ez. apply list_elem_of_In, List.filter_In. split; [by apply list_elem_of_In, Hin|]. unfold active_in, in_scope. cbn. rewrite Az, bool_decide_eq_true_2 by done. done. }
  pose proof (Hmem x Hx Ax E) as Ix. pose proof (Hmem y Hy Ay eq_refl) as Iy. assert (Hlen : (length xs <= 1)%nat).
  { specialize (Hg k). unfold od_get_default in Hg. destruct (od_get k groups) as [ys|] eqn:Eg; cbn [default from_option id] in Hg; fold xs in Hg; [|by rewrite <- Hg in Ix; apply elem_of_nil in Ix].
    apply od_get_elem in Eg. destruct (List.filter _ groups) as [|z zs] eqn:Ef; [|done]. apply filter_nil with (x := (k, ys)) in Ef; [|done]. apply Nat.ltb_ge in Ef. cbn in Ef. by rewrite <- Hg. }
  destruct xs as [|z [|]]; [by apply elem_of_nil in Ix| |cbn in Hlen; lia]. apply list_elem_of_singleton in Ix, Iy. congruence.
Qed.

Lemma chunked {A} (l : list A) : concat (chunks l MARKET_PRICE_SOURCE_FACT_QUERY_CHUNK_SIZE) = l.
Proof. apply concat_chunks. unfold MARKET_PRICE_SOURCE_FACT_QUERY_CHUNK_SIZE. lia. Qed.

Lemma load_prices table sources f : f ∈ load_price_histories table sources <-> f ∈ table /\ pf_source_record_key f ∈ sources.
Proof. unfold load_price_histories. by rewrite elem_of_load, chunked. Qed.

Lemma load_prices_distinct table sources : distinct table -> NoDup sources -> distinct (load_price_histories table sources).
Proof. intros Hd Hn. apply distinct_load; [done|]. by rewrite chunked. Qed.

Lemma elem_of_candidates table authorities f : f ∈ table -> price_authority f ∈ authorities -> pf_source_record_key f ∈ candidate_sources table authorities.
Proof.
  intros Hf Ha. unfold candidate_sources, sorted_sources. apply sorted_set_elem. apply list_elem_of_In, in_map, list_elem_of_In. apply elem_of_load. by rewrite chunked.
Qed.

(** What an accepted append did. *)
Record priced (table batch pending : list MarketPriceSourceFact) (changes : list PriceChange) : Prop := {
  pr_recorded : recorded pf_source_record_key pf_fact_version table changes;
  pr_accepted : map accepted changes = pending;
  pr_stored : forall a, a ∈ batch -> a ∈ pending \/ stored_already pf_source_record_key pf_fact_version price_eqb table a;
  pr_checked : pending = [] \/ exists sources, NoDup sources /\
    (forall f, f ∈ table -> price_authority f ∈ map price_authority pending -> pf_source_record_key f ∈ sources) /\
    (forall f, f ∈ pending -> pf_source_record_key f ∈ sources) /\ validate_no_active_authority_overlap (load_price_histories table sources ++ pending) = Ok tt
}.

Lemma append_prices_Ok table batch table' changes : distinct table ->
  append_prices table batch = Ok (table', changes) -> exists pending, table' = (table ++ pending)%list /\ priced table batch pending changes.
Proof.
  intros Hd. assert (Hnone : forall changes, Ok (table, []) = Ok (table', changes) -> (forall a, a ∈ batch -> stored_already pf_source_record_key pf_fact_version price_eqb table a) ->
    exists pending, table' = (table ++ pending)%list /\ priced table batch pending changes).
  { intros cs [= <- <-] Hst. exists []. split; [by rewrite app_nil_r|]. split; [constructor|done|intros a Ha; right; by apply Hst|by left]. }
  unfold append_prices. destruct batch as [|b batch']; [intros E; apply (Hnone _ E); by intros a ?%elem_of_nil|]. set (batch := b :: batch') in *.
  set (incoming := sorted_sources (map pf_source_record_key batch)). set (history := load_price_histories table incoming).
  assert (Hh : distinct history) by (apply load_prices_distinct; [done|apply sorted_set_NoDup]).
  assert (Hin : forall r, r ∈ history <-> r ∈ table /\ pf_source_record_key r ∈ incoming) by (intros r; apply load_prices).
  intros Hm. do 2 apply bind_Ok in Hm as (? & _ & Hm). apply bind_Ok in Hm as (pending & Hp & Hm).
  destruct (pending_spec _ _ _ _ history batch pending Hh Hp) as [Epend Hst].
  assert (Hsub : forall a, a ∈ pending -> a ∈ batch) by (intros a; rewrite Epend; intros Ha%list_elem_of_In%List.filter_In; apply list_elem_of_In, Ha).
  assert (Hst' : forall a, a ∈ batch -> a ∈ pending \/ stored_already pf_source_record_key pf_fact_version price_eqb table a).
  { intros a Ha. destruct (Hst a Ha) as [H1|(p & H1 & H2)]; [by left|]. right. exists p. split; [by apply Hin|done]. }
  destruct pending as [|p0 pending0]; [apply (Hnone _ Hm); intros a Ha; destruct (Hst' a Ha) as [H1|H1]; [by apply elem_of_nil in H1|done]|]. set (pend := p0 :: pending0) in *.
  apply bind_Ok in Hm as (l & Hl & Hm). apply bind_Ok in Hm as (cs & Hc & Hm). apply bind_Ok in Hm as ([] & Hv & [= <- <-]).
  set (sorted := sort_pending pf_source_record_key pf_fact_version source_key_compare pend) in *. assert (Hperm : sorted ≡ₚ pend) by apply stable_sort_perm.
  exists sorted. split; [done|]. destruct (append_recorded pf_source_record_key pf_fact_version price_eqb PRICE_CONFLICT STALE_PRICE table history l sorted cs Hd Hh) as (Hr & Em & _);
    [intros r Hr; by apply Hin| |exact Hl|exact Hc|].
  - intros a r Ha Hr Ek. apply Hin. split; [done|]. rewrite Ek. apply sorted_set_elem. apply list_elem_of_In, in_map, list_elem_of_In, Hsub. by rewrite <- Hperm.
  - split; [done|done| |].
    + intros a Ha. destruct (Hst' a Ha) as [H1|H1]; [left; by rewrite Hperm|by right].
    + right. eexists. split; [apply sorted_set_NoDup|]. split; [|split; [|exact Hv]].
      * intros f Hf Hauth. apply sorted_set_elem, elem_of_app. left. apply elem_of_candidates; [done|]. apply sorted_set_elem. unfold affected_facts. rewrite map_app. apply elem_of_app. by left.
      * intros f Hf. apply sorted_set_elem, elem_of_app. right. apply sorted_set_elem, list_elem_of_In, in_map, list_elem_of_In, Hsub. by rewrite <- Hperm.
Qed.

(** An append keeps at most one price in force. *)
Lemma append_keeps_one table batch pending changes : price_table_ok table -> priced table batch pending changes -> price_table_ok (table ++ pending).
Proof.
  intros [Hd Hu] [Hr Em _ Hv]. subst pending. assert (Hd' : distinct (table ++ map accepted changes)) by (by apply recorded_distinct). split; [done|].
  destruct Hv as [En|(sources & Hns & Hcand & Hinc & Hv)]; [by rewrite En, app_nil_r|]. set (history := load_price_histories table sources) in *.
  assert (Hin : forall r, r ∈ history <-> r ∈ table /\ pf_source_record_key r ∈ sources) by (intros r; apply load_prices).
  assert (Hsub : forall r, r ∈ (history ++ map accepted changes)%list -> r ∈ (table ++ map accepted changes)%list)
    by (intros r [Hrr|Hrr]%elem_of_app; apply elem_of_app; [left; by apply Hin|by right]).
  assert (Hhd : distinct (history ++ map accepted changes)).
  { apply (distinct_sub _ _ (table ++ map accepted changes)); [done| |done].
    apply NoDup_app. assert (Hn : NoDup (table ++ map accepted changes)) by (by eapply distinct_NoDup). apply NoDup_app in Hn as (_ & Hdis & Hn2). split; [|split; [|done]].
    - eapply distinct_NoDup. by apply load_prices_distinct.
    - intros x Hx%Hin. apply Hdis, Hx. }
  pose proof (validated_one_price _ Hhd Hv) as Huh. intros x y Hx Hy Ax Ay E.
  assert (G : price_authority y ∈ map price_authority (map accepted changes) -> x = y).
  { intros Hk. assert (G : forall z, current (table ++ map accepted changes) z -> price_authority z = price_authority y -> current (history ++ map accepted changes) z).
    { intros z Hz Ez. apply (authoritative_loaded _ _ (table ++ map accepted changes)); [done| |done].
      intros r [Hrr|Hrr]%elem_of_app Ek; apply elem_of_app; [|by right]. left. apply Hin. split; [done|]. rewrite Ek.
      destruct Hz as [[Hz|Hz]%elem_of_app _]; [apply Hcand; [done|by rewrite Ez]|by apply Hinc]. }
    by apply Huh; [apply G|apply G|..]. }
  destruct (recorded_authoritative _ _ table changes x Hr Hx) as [Hp|Hp]; [apply G; rewrite <- E; by apply list_elem_of_In, in_map, list_elem_of_In|].
  destruct (recorded_authoritative _ _ table changes y Hr Hy) as [Hq|Hq]; [apply G; by apply list_elem_of_In, in_map, list_elem_of_In|]. by apply Hu.
Qed.

(** The tables that the price writer can produce. *)
Inductive price_table : list MarketPriceSourceFact -> Prop :=
| empty_price_table : price_table []
| appended_price_table table facts table' changes : price_table table -> append_prices table facts = Ok (table', changes) -> price_table table'.

Lemma price_table_inv table : price_table table -> price_table_ok table.
Proof.
  induction 1 as [|table facts table' changes _ IH Hap].
  - split; [constructor|]. intros x y [Hx _]. by apply elem_of_nil in Hx.
  - destruct (append_prices_Ok table facts table' changes (pt_distinct _ IH) Hap) as (pending & -> & Hp). by eapply append_keeps_one.
Qed.

(** A price in force for an authority. *)
Definition in_force (table : list MarketPriceSourceFact) (k : authority_key) (f : MarketPriceSourceFact) : Prop :=
  authoritative pf_source_record_key pf_fact_version table f /\ price_authority f = k /\ price_active f = true.

Lemma price_lookup table tenant_id legal_book_id security_id scope d : price_table_ok table ->
  make_ValuationAuthorityScope tenant_id legal_book_id security_id = Ok scope ->
  (exists f, resolve_market_price_source_fact table tenant_id legal_book_id security_id d = Ok f /\ in_force table (vs_key scope, d) f) \/
  resolve_market_price_source_fact table tenant_id legal_book_id security_id d = Raise MISSING_PRICE /\ forall f, ~ in_force table (vs_key scope, d) f.
Proof.
  intros [Hd Hu] Hs. unfold resolve_market_price_source_fact. rewrite Hs, bind_ret. destruct (distinct_latest _ _ price_eqb PRICE_CONFLICT table Hd) as (l & Hl).
  pose proof Hl as Hl'. fold latest_prices in Hl'. rewrite Hl', bind_ret. destruct (latest_authoritative _ _ _ _ table l Hd Hl) as [Hnd Hin].
  set (active := List.filter _ l). assert (Ha : forall f, f ∈ active <-> in_force table (vs_key scope, d) f).
  { intros f. unfold active, in_force, price_authority. rewrite list_elem_of_In, List.filter_In, <- list_elem_of_In, Hin, !andb_true_iff, bool_decide_eq_true, Z.eqb_eq.
    split; [intros (H1 & (H2 & H3) & H4); split; [done|]; split; [by f_equal|done]|]. intros (H1 & [= H2 H2' H2'' H3] & H4). split; [done|]. split; [|done]. split; [|done].
    unfold vs_key. by rewrite H2, H2', H2''. }
  assert (Hn : NoDup active) by (apply NoDup_ListNoDup, List.NoDup_filter, NoDup_ListNoDup; by eapply NoDup_fmap_1). clearbody active.
  destruct active as [|f [|g active]].
  - right. split; [done|]. intros f Hf%Ha. by apply elem_of_nil in Hf.
  - left. exists f. split; [done|]. apply Ha. left.
  - exfalso. destruct (proj1 (Ha f) ltac:(left)) as (F1 & F2 & F3). destruct (proj1 (Ha g) ltac:(right; left)) as (G1 & G2 & G3). apply NoDup_cons in Hn as [Hn _]. apply Hn.
    rewrite (Hu f g); [left|done..|congruence].
Qed.

(** C34: in every table that the price writer can produce, each lookup of an instrument of a legal book on a day is decided: it returns the one
    price in force, or reports that there is none, also where corrections have moved prices between instruments, books or days. *)
Theorem price_lookups_are_decided table tenant_id legal_book_id security_id scope d : price_table table ->
  make_ValuationAuthorityScope tenant_id legal_book_id security_id = Ok scope ->
  (exists f, resolve_market_price_source_fact table tenant_id legal_book_id security_id d = Ok f /\
     forall g, in_force table (vs_key scope, d) g <-> g = f) \/
  resolve_market_price_source_fact table tenant_id legal_book_id security_id d = Raise MISSING_PRICE /\ forall g, ~ in_force table (vs_key scope, d) g.
Proof.
  intros Ht%price_table_inv Hs. destruct (price_lookup table _ _ _ scope d Ht Hs) as [(f & Hf & Hi)|H]; [left|by right].
  exists f. split; [done|]. intros g. split; [|by intros ->]. intros (G1 & G2 & G3). destruct Hi as (F1 & F2 & F3). apply (pt_one _ Ht); [done..|congruence].
Qed.

Lemma in_force_unaffected table (changes : list PriceChange) k f : distinct table -> recorded pf_source_record_key pf_fact_version table changes ->
  (forall c, c ∈ changes -> k ∉ affected_authorities c) -> in_force (table ++ map accepted changes) k f <-> in_force table k f.
Proof.
  intros Hd Hr Hk. unfold in_force. split; intros (Hc & Ek & Ha); (split; [|done]).
  - destruct (recorded_authoritative _ _ table changes f Hr Hc) as [Hp|]; [|done]. exfalso. apply list_elem_of_In, in_map_iff in Hp as (c & <- & Hc'%list_elem_of_In).
    apply (Hk c Hc'). rewrite <- Ek. left.
  - destruct (recorded_superseded _ _ table changes f Hr Hd Hc) as [|(c & Hc' & Hp & _)]; [done|]. exfalso. apply (Hk c Hc'). unfold affected_authorities. rewrite Hp, Ek. right. left.
Qed.

(** C35: the changes that an accepted batch of prices reports name every authority whose price may differ: for any other instrument, book and
    day the lookup returns exactly what it returned before the batch. *)
Theorem changes_name_affected_authorities table facts table' changes tenant_id legal_book_id security_id scope d : price_table table ->
  append_prices table facts = Ok (table', changes) -> make_ValuationAuthorityScope tenant_id legal_book_id security_id = Ok scope ->
  (forall c, c ∈ changes -> (vs_key scope, d) ∉ affected_authorities c) ->
  resolve_market_price_source_fact table' tenant_id legal_book_id security_id d = resolve_market_price_source_fact table tenant_id legal_book_id security_id d.
Proof.
  intros Ht Hap Hs Hk. pose proof (price_table_inv _ Ht) as Hok. pose proof (price_table_inv _ (appended_price_table _ _ _ _ Ht Hap)) as Hok'.
  destruct (append_prices_Ok table facts table' changes (pt_distinct _ Hok) Hap) as (pending & -> & [Hr Em _ _]). subst pending.
  pose proof (fun f => in_force_unaffected table changes (vs_key scope, d) f (pt_distinct _ Hok) Hr Hk) as Hf.
  destruct (price_lookup _ _ _ _ scope d Hok' Hs) as [(f & -> & Hi)|[-> Hnone]], (price_lookup _ _ _ _ scope d Hok Hs) as [(g & -> & Hj)|[-> Hnone']].
  - f_equal. destruct (proj1 (Hf f) Hi) as (F1 & F2 & F3), Hj as (G1 & G2 & G3). apply (pt_one _ Hok); [done..|congruence].
  - exfalso. by apply (Hnone' f), Hf.
  - exfalso. by apply (Hnone g), Hf.
  - done.
Qed.

Lemma price_eqb_refl f : price_eqb f f = true.
Proof.
  unfold price_eqb, source_eqb. rewrite !String.eqb_refl, !Z.eqb_refl, !bool_decide_eq_true_2 by done. assert (deqb (pf_price f) (pf_price f) = true) as -> by (by apply deqb_spec). done.
Qed.

(** A batch of prices that was accepted may be sent again. *)
Theorem replayed_prices_are_noop table facts table' changes : price_table table -> append_prices table facts = Ok (table', changes) ->
  append_prices table' facts = Ok (table', []).
Proof.
  intros Ht Hap. pose proof (price_table_inv _ Ht) as Hok. pose proof (price_table_inv _ (appended_price_table _ _ _ _ Ht Hap)) as Hok'.
  destruct (append_prices_Ok table facts table' changes (pt_distinct _ Hok) Hap) as (pending & -> & [Hr Em Hst _]).
  unfold append_prices in *. destruct facts as [|b batch']; [done|]. set (batch := b :: batch') in *.
  do 2 (apply bind_Ok in Hap as (? & E & Hap); rewrite E, bind_ret; clear E). rewrite (pending_stored pf_source_record_key pf_fact_version); [done| |].
  - apply load_prices_distinct; [apply (pt_distinct _ Hok')|apply sorted_set_NoDup].
  - intros a Ha. assert (Hsc : pf_source_record_key a ∈ sorted_sources (map pf_source_record_key batch)) by (apply sorted_set_elem; by apply list_elem_of_In, in_map, list_elem_of_In).
    destruct (Hst a Ha) as [Hp|(p & Hp & Ek & Eq)].
    + exists a. split; [|split; [done|apply price_eqb_refl]]. apply load_prices. split; [apply elem_of_app; by right|done].
    + exists p. split; [|done]. apply load_prices. split; [apply elem_of_app; by left|]. by rewrite (f_equal fst Ek : pf_source_record_key p = pf_source_record_key a).
Qed.
