(* ===== verification/ValuationAuthorityExamples.v ===== *)
(** * Valuation authority: examples

    A table of assignments in which a policy is corrected, and a table of prices in which a price is corrected to another day. *)

From Stdlib Require Import ZArith Lia String.
From stdpp Require Import base tactics list sorting sets strings.
From S2P Require Import Prelude PyDecimal PyTime Precision Lineage Values AccruedIncome PositionValuation SourceVersions BookCostAuthority BookCostAuthorityFacts SourceAppend ValuationAuthority ValuationAuthorityFacts PriceAuthorityFacts.

#[local] Open Scope string_scope.
#[local] Open Scope Z_scope.

Definition raw_assignment (version : Z) (policy : string) (valid_from : date) (valid_to : option date) (record : string) : InstrumentValuationPolicyAssignment :=
  {| va_tenant_id := " T"; va_legal_book_id := "B "; va_security_id := "S"; va_policy_id := policy; va_policy_version := 1; va_valid_from := valid_from;
     va_valid_to := valid_to; va_assignment_status := POLICY_ACTIVE; va_assignment_version := version; va_source_system := "SRC";
     va_source_record_id := record; va_source_revision := "r"; va_observed_at := example_instant; va_assignment_reason := "quoted per unit" |}.

Definition stored_assignment (version : Z) (policy : string) (valid_from : date) (valid_to : option date) (record : string) : InstrumentValuationPolicyAssignment :=
  {| va_tenant_id := "T"; va_legal_book_id := "B"; va_security_id := "S"; va_policy_id := policy; va_policy_version := 1; va_valid_from := valid_from;
     va_valid_to := valid_to; va_assignment_status := POLICY_ACTIVE; va_assignment_version := version; va_source_system := "SRC";
     va_source_record_id := record; va_source_revision := "r"; va_observed_at := example_instant; va_assignment_reason := "quoted per unit" |}.

Definition first_batch : list InstrumentValuationPolicyAssignment := [raw_assignment 1 "UNIT_PRICE_MARKET_VALUE" 100 (Some 200) "1"].
Definition second_batch : list InstrumentValuationPolicyAssignment := [raw_assignment 1 "NAV_PER_UNIT_MARKET_VALUE" 201 None "2"].
Definition first_table : list InstrumentValuationPolicyAssignment := [stored_assignment 1 "UNIT_PRICE_MARKET_VALUE" 100 (Some 200) "1"].
Definition second_table : list InstrumentValuationPolicyAssignment := (first_table ++ [stored_assignment 1 "NAV_PER_UNIT_MARKET_VALUE" 201 None "2"])%list.
Definition second_changes : list AuthorityChange := [{| previous := None; accepted := stored_assignment 1 "NAV_PER_UNIT_MARKET_VALUE" 201 None "2" |}].

Definition example_valuation_scope : ValuationAuthorityScope := {| vs_tenant_id := "T"; vs_legal_book_id := "B"; vs_security_id := "S" |}.

Lemma first_append : append_instrument_valuation_policy_assignments [] first_batch = Ok (first_table, [{| previous := None; accepted := stored_assignment 1 "UNIT_PRICE_MARKET_VALUE" 100 (Some 200) "1" |}]).
Proof. vm_compute. reflexivity. Qed.

Lemma second_append : append_instrument_valuation_policy_assignments first_table second_batch = Ok (second_table, second_changes).
Proof. vm_compute. reflexivity. Qed.

Lemma first_table_reached : assignment_table first_table.
Proof. exact (appended_assignment_table _ _ _ _ empty_assignment_table first_append). Qed.

Lemma second_table_reached : assignment_table second_table.
Proof. exact (appended_assignment_table _ _ _ _ first_table_reached second_append). Qed.

(** An assignment whose window overlaps a stored one is refused, and so is another payload under a stored version. *)
Example overlapping_assignment_refused : is_ok (append_instrument_valuation_policy_assignments second_table [raw_assignment 1 "NAV_PER_UNIT_MARKET_VALUE" 150 None "3"]) = false.
Proof. vm_compute. reflexivity. Qed.

Example contradicting_version_refused :
  append_instrument_valuation_policy_assignments second_table [raw_assignment 1 "NAV_PER_UNIT_MARKET_VALUE" 100 (Some 200) "1"] = Raise POLICY_CONFLICT.
Proof. vm_compute. reflexivity. Qed.

Lemma assignment_lookups_are_decided_witness :
  exists r, @resolve_valuation_policy_assignment constant_hashing second_table "T" "B" " S" 250 = Ok r /\ va_policy_id (rv_assignment r) = "NAV_PER_UNIT_MARKET_VALUE" /\
    forall b, authoritative record_key va_assignment_version second_table b -> va_scope_key b = ("T", "B", "S") -> effective_on 250 b = true -> b = rv_assignment r.
Proof.
  pose proof (@assignment_lookups_are_decided constant_hashing second_table "T" "B" " S" example_valuation_scope 250 second_table_reached eq_refl) as H.
  eexists. split; [reflexivity|]. split; [reflexivity|]. exact (proj1 (proj2 H)).
Defined.

Lemma changes_bound_revaluation_witness :
  looked_up (@resolve_valuation_policy_assignment constant_hashing second_table "T" "B" "S" 150) = Some ("UNIT_PRICE_MARKET_VALUE", 1) /\
  looked_up (@resolve_valuation_policy_assignment constant_hashing second_table "T" "B" "S" 150) =
  looked_up (@resolve_valuation_policy_assignment constant_hashing first_table "T" "B" "S" 150).
Proof.
  split; [reflexivity|].
  apply (proj2 (@changes_bound_revaluation constant_hashing first_table second_batch second_table second_changes "T" "B" "S" example_valuation_scope 150 first_table_reached second_append eq_refl)).
  intros c first ->%list_elem_of_singleton _ [= <-]. lia.
Defined.

(** ** Prices *)

Definition example_reference (record : string) : FinancialSourceReference :=
  {| fs_source_system := "MD"; fs_source_record_id := record; fs_source_revision := "r"; fs_source_content_hash := digest_zero; fs_observed_at := example_instant |}.

Definition example_price (version : Z) (day : date) (record : string) : MarketPriceSourceFact :=
  {| pf_scope := example_valuation_scope; pf_price_date := day; pf_price := dint 99; pf_currency := "USD"; pf_quote_basis := QUOTE_UNIT_PRICE;
     pf_source_reference := example_reference record; pf_fact_status := FACT_ACTIVE; pf_fact_version := version |}.

Definition first_prices : list MarketPriceSourceFact := [example_price 1 100 "1"; example_price 1 102 "2"].
Definition corrected_prices : list MarketPriceSourceFact := (first_prices ++ [example_price 2 101 "1"])%list.
Definition price_changes : list PriceChange := [{| previous := Some (example_price 1 100 "1"); accepted := example_price 2 101 "1" |}].

Lemma first_prices_reached : price_table first_prices.
Proof. refine (appended_price_table [] first_prices first_prices _ empty_price_table _). vm_compute. reflexivity. Qed.

Lemma correction_accepted : append_prices first_prices [example_price 2 101 "1"] = Ok (corrected_prices, price_changes).
Proof. vm_compute. reflexivity. Qed.

(** A second source for the day of a stored price is refused. *)
Example competing_price_refused : is_ok (append_prices corrected_prices [example_price 1 101 "3"]) = false.
Proof. vm_compute. reflexivity. Qed.

Lemma price_lookups_are_decided_witness :
  resolve_market_price_source_fact corrected_prices "T" "B" "S" 101 = Ok (example_price 2 101 "1") /\
  resolve_market_price_source_fact corrected_prices "T" "B" "S" 100 = Raise MISSING_PRICE /\
  forall g, ~ in_force corrected_prices (("T", "B", "S"), 100) g.
Proof.
  split; [reflexivity|]. split; [reflexivity|].
  destruct (price_lookups_are_decided corrected_prices "T" "B" "S" example_valuation_scope 100 (appended_price_table _ _ _ _ first_prices_reached correction_accepted) eq_refl)
    as [(f & Hf & _)|[_ H]]; [discriminate Hf|exact H].
Defined.

Lemma changes_name_affected_authorities_witness :
  resolve_market_price_source_fact corrected_prices "T" "B" "S" 102 = resolve_market_price_source_fact first_prices "T" "B" "S" 102 /\
  resolve_market_price_source_fact first_prices "T" "B" "S" 102 = Ok (example_price 1 102 "2").
Proof.
  split; [|reflexivity].
  apply (changes_name_affected_authorities first_prices [example_price 2 101 "1"] corrected_prices price_changes "T" "B" "S" example_valuation_scope 102 first_prices_reached correction_accepted eq_refl).
  intros c ->%list_elem_of_singleton. cbn. intros [E|[E|E%elem_of_nil]%elem_of_cons]%elem_of_cons; [discriminate E|discriminate E|done].
Defined.
