(* ===== verification/SnapshotValuation.v ===== *)
(** * Valued position snapshots

    [services/calculators/position_valuation_calculator/app]: [logic/valuation_logic.py] values a position by a plain
    price, [logic/authoritative_valuation.py] by an assigned policy and an authoritative price, and the snapshot workflow
    of [valuation_processor.py] chooses between them and writes the columns of the snapshot.
    [domain/valuation/receipts.py]: the receipt of a published valuation.  The rows that the queries of the workflow read
    (assignments, prices, rate) and the builder of source evidence are arguments, and the position it values has all its
    amounts; job bookkeeping, counters and logs are left out. *)

From Stdlib Require Import ZArith Lia String.
From stdpp Require Import base tactics list sorting strings.
From S2P Require Import Prelude PyDecimal PyTime Precision Lineage Values Position AccruedIncome PositionValuation Timeseries Reconciliation ValuationAuthority.

#[local] Open Scope string_scope.
#[local] Open Scope Z_scope.

(** ** Receipts *)

Inductive ValuationReceiptSupportability := RECEIPT_SUPPORTED | RECEIPT_LEGACY_UNSCOPED.

#[export] Instance supportability_eq_dec : EqDecision ValuationReceiptSupportability.
Proof. solve_decision. Defined.

Definition supportability_value (x : ValuationReceiptSupportability) : string :=
  match x with RECEIPT_SUPPORTED => "SUPPORTED" | RECEIPT_LEGACY_UNSCOPED => "LEGACY_UNSCOPED" end.

Record ValuationSnapshotIdentity := { si_portfolio_id : string; si_security_id : string; si_valuation_date : date; si_epoch : Z }.

Definition make_ValuationSnapshotIdentity (portfolio_id security_id : string) (valuation_date : date) (epoch : Z) : result ValuationSnapshotIdentity :=
  portfolio ← require_nonblank portfolio_id "portfolio_id";
  security ← require_nonblank security_id "security_id";
  _ ← raise_if (epoch <? 0) (ValueError "epoch must be non-negative");
  Ok {| si_portfolio_id := portfolio; si_security_id := security; si_valuation_date := valuation_date; si_epoch := epoch |}.

Definition si_lineage_payload (i : ValuationSnapshotIdentity) : payload :=
  PMap [("epoch", PInt (si_epoch i)); ("portfolio_id", PStr (si_portfolio_id i)); ("security_id", PStr (si_security_id i));
        ("valuation_date", PDate (si_valuation_date i))].

Record ValuationCalculationReceipt := {
  vc_snapshot_identity : ValuationSnapshotIdentity; vc_supportability : ValuationReceiptSupportability; vc_supportability_reasons : list string;
  vc_policy_id : option string; vc_policy_version : option Z; vc_assignment_version : option Z; vc_assignment_content_hash : option string;
  vc_policy_assignment_source : option FinancialSourceReference; vc_quote_basis : option MarketPriceQuoteBasis; vc_price_fact_version : option Z;
  vc_price_fact_content_hash : option string; vc_market_price_source : option FinancialSourceReference;
  vc_calculation_lineage : option CalculationLineage; vc_receipt_hash : string
}.

Definition vc_content_payload (r : ValuationCalculationReceipt) : payload :=
  let source (s : option FinancialSourceReference) := match s with Some s => fs_lineage_payload s | None => PNone end in
  PMap [("assignment_content_hash", optional_text (vc_assignment_content_hash r)); ("assignment_version", optional_int (vc_assignment_version r));
        ("calculation_lineage", match vc_calculation_lineage r with Some l => cl_lineage_payload l | None => PNone end);
        ("market_price_source", source (vc_market_price_source r)); ("policy_assignment_source", source (vc_policy_assignment_source r));
        ("policy_id", optional_text (vc_policy_id r)); ("policy_version", optional_int (vc_policy_version r));
        ("price_fact_content_hash", optional_text (vc_price_fact_content_hash r)); ("price_fact_version", optional_int (vc_price_fact_version r));
        ("quote_basis", match vc_quote_basis r with Some b => PEnum (PStr (quote_basis_value b)) | None => PNone end);
        ("snapshot_identity", si_lineage_payload (vc_snapshot_identity r)); ("supportability", PEnum (PStr (supportability_value (vc_supportability r))));
        ("supportability_reasons", PSeq (map PStr (vc_supportability_reasons r)))].

(** The names of the fields that a supported receipt lacks. *)
Definition missing_receipt_fields (r : ValuationCalculationReceipt) : list string :=
  let need {A} (name : string) (value : option A) := match value with Some _ => [] | None => [name] end in
  (need "assignment_content_hash" (vc_assignment_content_hash r) ++ need "assignment_version" (vc_assignment_version r) ++
  need "calculation_lineage" (vc_calculation_lineage r) ++ need "market_price_source" (vc_market_price_source r) ++
  need "policy_assignment_source" (vc_policy_assignment_source r) ++ need "policy_id" (vc_policy_id r) ++ need "policy_version" (vc_policy_version r) ++
  need "price_fact_content_hash" (vc_price_fact_content_hash r) ++ need "price_fact_version" (vc_price_fact_version r) ++ need "quote_basis" (vc_quote_basis r))%list.

Definition validate_authoritative_fields (r : ValuationCalculationReceipt) : result unit :=
  _ ← raise_if (match missing_receipt_fields r with [] => false | _ => true end)
        (ValueError ("supported valuation receipt is missing fields: [" +:+
           join ", " (map (fun name => "'" +:+ name +:+ "'") (stable_sort string_leb (missing_receipt_fields r))) +:+ "]"));
  _ ← raise_if (negb (truthy (strip (default "" (vc_policy_id r))))) (ValueError "policy_id must be nonblank");
  _ ← raise_if (Z.min (Z.min (default 0 (vc_policy_version r)) (default 0 (vc_assignment_version r))) (default 0 (vc_price_fact_version r)) <? 1)
        (ValueError "policy and source versions must be positive");
  _ ← require_sha256_digest (default "" (vc_assignment_content_hash r)) "assignment_content_hash";
  _ ← require_sha256_digest (default "" (vc_price_fact_content_hash r)) "price_fact_content_hash";
  Ok tt.

Definition validate_legacy_fields (r : ValuationCalculationReceipt) : result unit :=
  _ ← raise_if (negb (bool_decide (vc_policy_id r = None) && bool_decide (vc_policy_version r = None) && bool_decide (vc_assignment_version r = None) &&
                      bool_decide (vc_assignment_content_hash r = None) && match vc_policy_assignment_source r with None => true | _ => false end &&
                      bool_decide (vc_quote_basis r = None) && bool_decide (vc_price_fact_version r = None) && bool_decide (vc_price_fact_content_hash r = None) &&
                      match vc_market_price_source r with None => true | _ => false end))
        (ValueError "legacy valuation receipt cannot claim authoritative evidence");
  raise_if (match vc_calculation_lineage r with Some l => match cl_numeric_output_policy l with None => true | _ => false end | None => false end)
    (ValueError "legacy valuation calculation lineage must identify its numeric output policy").

Definition with_reasons (r : ValuationCalculationReceipt) (reasons : list string) : ValuationCalculationReceipt :=
  {| vc_snapshot_identity := vc_snapshot_identity r; vc_supportability := vc_supportability r; vc_supportability_reasons := reasons;
     vc_policy_id := vc_policy_id r; vc_policy_version := vc_policy_version r; vc_assignment_version := vc_assignment_version r;
     vc_assignment_content_hash := vc_assignment_content_hash r; vc_policy_assignment_source := vc_policy_assignment_source r;
     vc_quote_basis := vc_quote_basis r; vc_price_fact_version := vc_price_fact_version r; vc_price_fact_content_hash := vc_price_fact_content_hash r;
     vc_market_price_source := vc_market_price_source r; vc_calculation_lineage := vc_calculation_lineage r; vc_receipt_hash := vc_receipt_hash r |}.

(** [sorted({reason.strip() for reason in reasons if reason.strip()})]. *)
Definition normalized_reasons (reasons : list string) : list string :=
  stable_sort string_leb (remove_dups (List.filter truthy (map strip reasons))).

Definition with_receipt_hash (r : ValuationCalculationReceipt) (hash : string) : ValuationCalculationReceipt :=
  {| vc_snapshot_identity := vc_snapshot_identity r; vc_supportability := vc_supportability r; vc_supportability_reasons := vc_supportability_reasons r;
     vc_policy_id := vc_policy_id r; vc_policy_version := vc_policy_version r; vc_assignment_version := vc_assignment_version r;
     vc_assignment_content_hash := vc_assignment_content_hash r; vc_policy_assignment_source := vc_policy_assignment_source r;
     vc_quote_basis := vc_quote_basis r; vc_price_fact_version := vc_price_fact_version r; vc_price_fact_content_hash := vc_price_fact_content_hash r;
     vc_market_price_source := vc_market_price_source r; vc_calculation_lineage := vc_calculation_lineage r; vc_receipt_hash := hash |}.

Section Hashed.
Context `{hashing : Hashing}.

Definition make_ValuationCalculationReceipt (raw : ValuationCalculationReceipt) : result ValuationCalculationReceipt :=
  let reasons := normalized_reasons (vc_supportability_reasons raw) in
  _ ← raise_if (negb (Nat.eqb (length reasons) (length (vc_supportability_reasons raw)))) (ValueError "supportability_reasons must be unique nonblank strings");
  let r := with_reasons raw reasons in
  _ ← raise_if (match reasons with [] => true | _ => false end) (ValueError "supportability_reasons must not be empty");
  _ ← (match vc_supportability r with RECEIPT_SUPPORTED => validate_authoritative_fields r | RECEIPT_LEGACY_UNSCOPED => validate_legacy_fields r end);
  _ ← require_sha256_digest (vc_receipt_hash r) "receipt_hash";
  expected_hash ← canonical_content_hash (vc_content_payload r);
  _ ← raise_if (negb (String.eqb (vc_receipt_hash r) expected_hash)) (ValueError "receipt_hash does not match receipt content");
  Ok r.

(** Both builders hash the content, then construct the receipt with that hash. *)
Definition seal_receipt (content : ValuationCalculationReceipt) : result ValuationCalculationReceipt :=
  receipt_hash ← canonical_content_hash (vc_content_payload content);
  make_ValuationCalculationReceipt (with_receipt_hash content receipt_hash).

Definition build_authoritative_valuation_receipt (snapshot_identity : ValuationSnapshotIdentity) (policy_id : string) (policy_version assignment_version : Z)
  (assignment_content_hash : string) (policy_assignment_source : FinancialSourceReference) (price_fact : MarketPriceSourceFact)
  (calculation_lineage : CalculationLineage) : result ValuationCalculationReceipt :=
  price_fact_content_hash ← pf_content_hash price_fact;
  seal_receipt
    {| vc_snapshot_identity := snapshot_identity; vc_supportability := RECEIPT_SUPPORTED; vc_supportability_reasons := ["EXACT_POLICY_AND_PRICE_AUTHORITY"];
       vc_policy_id := Some (strip policy_id); vc_policy_version := Some policy_version; vc_assignment_version := Some assignment_version;
       vc_assignment_content_hash := Some assignment_content_hash; vc_policy_assignment_source := Some policy_assignment_source;
       vc_quote_basis := Some (pf_quote_basis price_fact); vc_price_fact_version := Some (pf_fact_version price_fact);
       vc_price_fact_content_hash := Some price_fact_content_hash; vc_market_price_source := Some (pf_source_reference price_fact);
       vc_calculation_lineage := Some calculation_lineage; vc_receipt_hash := "" |}.

Definition build_legacy_valuation_receipt (snapshot_identity : ValuationSnapshotIdentity) (calculation_lineage : option CalculationLineage)
  : result ValuationCalculationReceipt :=
  seal_receipt
    {| vc_snapshot_identity := snapshot_identity; vc_supportability := RECEIPT_LEGACY_UNSCOPED;
       vc_supportability_reasons := ["PORTFOLIO_VALUATION_SCOPE_UNASSIGNED"]; vc_policy_id := None; vc_policy_version := None; vc_assignment_version := None;
       vc_assignment_content_hash := None; vc_policy_assignment_source := None; vc_quote_basis := None; vc_price_fact_version := None;
       vc_price_fact_content_hash := None; vc_market_price_source := None; vc_calculation_lineage := calculation_lineage; vc_receipt_hash := "" |}.
End Hashed.

(** ** Valuation by a plain price *)

Definition LEGACY_VALUATION_ALGORITHM_ID : string := "legacy-unscoped-position-valuation".
Definition LEGACY_VALUATION_ALGORITHM_VERSION : Z := 1.

Record ValuationComponents := {
  co_market_value_base : decimal; co_market_value_local : decimal; co_unrealized_total_base : decimal; co_unrealized_total_local : decimal;
  co_unrealized_price_base : decimal; co_unrealized_price_local : decimal; co_unrealized_fx_base : decimal; co_calculation_lineage : CalculationLineage
}.

Definition as_legacy_tuple (c : ValuationComponents) : decimal * decimal * decimal * decimal :=
  (co_market_value_base c, co_market_value_local c, co_unrealized_total_base c, co_unrealized_total_local c).

Definition positive_fx_rate_or_none (fx_rate : option decimal) : option decimal :=
  match fx_rate with None => None | Some r => coerce_positive_fx_rate_or_none (PDecimal r) end.

Definition valuation_output_payload (market_value_base market_value_local unrealized_total_base unrealized_total_local unrealized_price_base
  unrealized_price_local unrealized_fx_base : decimal) : payload :=
  PMap [("market_value_base", PDecimal market_value_base); ("market_value_local", PDecimal market_value_local);
        ("unrealized_fx_base", PDecimal unrealized_fx_base); ("unrealized_price_base", PDecimal unrealized_price_base);
        ("unrealized_price_local", PDecimal unrealized_price_local); ("unrealized_total_base", PDecimal unrealized_total_base);
        ("unrealized_total_local", PDecimal unrealized_total_local)].

Section Legacy.
Context `{hashing : Hashing}.

Definition legacy_lineage (input output : payload) : result CalculationLineage :=
  np ← lineage_identity POSITION_VALUATION_LEDGER_OUTPUT_V1;
  build_calculation_lineage LEGACY_VALUATION_ALGORITHM_ID LEGACY_VALUATION_ALGORITHM_VERSION (cp_working_precision POSITION_VALUATION_LEDGER_OUTPUT_V1)
    input output (Some np).

(** The price in the currency of the instrument, and the rate it was converted by. *)
Definition price_in_instrument_currency (price : decimal) (price_currency instrument_currency : string) (rate : option decimal)
  : result (option (decimal * option decimal)) :=
  if String.eqb price_currency instrument_currency then Ok (Some (price, None)) else
  match positive_fx_rate_or_none rate with
  | None => Ok None
  | Some r => local ← dmul (arithmetic_context POSITION_VALUATION_LEDGER_OUTPUT_V1) price r; Ok (Some (local, Some r))
  end.

(** The raw value in the currency of the portfolio, and the rate. *)
Definition value_in_portfolio_currency (raw_local : decimal) (instrument_currency portfolio_currency : string) (rate : option decimal)
  : result (option (decimal * decimal)) :=
  if String.eqb instrument_currency portfolio_currency then Ok (Some (raw_local, d_one)) else
  match positive_fx_rate_or_none rate with
  | None => Ok None
  | Some r => base ← dmul (arithmetic_context POSITION_VALUATION_LEDGER_OUTPUT_V1) raw_local r; Ok (Some (base, r))
  end.

(** What is rounded to the ledger once the raw values are known. *)
Definition legacy_components (raw_local raw_base raw_fx cost_basis_base cost_basis_local : decimal) (input : payload) : result ValuationComponents :=
  let policy := POSITION_VALUATION_LEDGER_OUTPUT_V1 in
  market_value_local ← normalize policy raw_local "market_value_local";
  market_value_base ← normalize policy raw_base "market_value";
  unrealized_pnl_local ← p_subtract policy market_value_local cost_basis_local "unrealized_gain_loss_local";
  unrealized_pnl_base ← p_subtract policy market_value_base cost_basis_base "unrealized_gain_loss";
  unrealized_fx_pnl_base ← normalize policy raw_fx "unrealized_fx_gain_loss";
  unrealized_price_pnl_base ← p_subtract policy unrealized_pnl_base unrealized_fx_pnl_base "unrealized_price_gain_loss";
  lineage ← legacy_lineage input (valuation_output_payload market_value_base market_value_local unrealized_pnl_base unrealized_pnl_local
                                    unrealized_price_pnl_base unrealized_pnl_local unrealized_fx_pnl_base);
  Ok {| co_market_value_base := market_value_base; co_market_value_local := market_value_local; co_unrealized_total_base := unrealized_pnl_base;
        co_unrealized_total_local := unrealized_pnl_local; co_unrealized_price_base := unrealized_price_pnl_base;
        co_unrealized_price_local := unrealized_pnl_local; co_unrealized_fx_base := unrealized_fx_pnl_base; co_calculation_lineage := lineage |}.

Definition zero_components (input : payload) : result ValuationComponents :=
  lineage ← legacy_lineage input (valuation_output_payload dzero dzero dzero dzero dzero dzero dzero);
  Ok {| co_market_value_base := dzero; co_market_value_local := dzero; co_unrealized_total_base := dzero; co_unrealized_total_local := dzero;
        co_unrealized_price_base := dzero; co_unrealized_price_local := dzero; co_unrealized_fx_base := dzero; co_calculation_lineage := lineage |}.

(** The amounts come from columns and are decimals. *)
Definition calculate_valuation_components (quantity market_price cost_basis_base cost_basis_local : decimal)
  (price_currency instrument_currency portfolio_currency : string) (product_type : option string)
  (price_to_instrument_fx_rate instrument_to_portfolio_fx_rate : option decimal) : result (option ValuationComponents) :=
  match coerce_positive_market_price_or_none (PDecimal market_price) with
  | None => Ok None
  | Some price =>
      let price_currency := PositionValuation.normalize_currency price_currency in
      let instrument_currency := PositionValuation.normalize_currency instrument_currency in
      let portfolio_currency := PositionValuation.normalize_currency portfolio_currency in
      bond ← requires_bond_quote_authority product_type (PDecimal quantity) (PDecimal cost_basis_base) (PDecimal cost_basis_local);
      _ ← raise_if bond (UnsupportedValuationError BOND_QUOTE_AUTHORITY_REQUIRED_REASON);
      if dis_zero quantity then
        components ← zero_components
          (PMap [("cost_basis_base", PDecimal cost_basis_base); ("cost_basis_local", PDecimal cost_basis_local); ("instrument_currency", PStr instrument_currency);
                 ("market_price", PDecimal price); ("portfolio_currency", PStr portfolio_currency); ("price_currency", PStr price_currency);
                 ("product_type", optional_text product_type); ("quantity", PDecimal quantity); ("zero_position_short_circuit", PBool true)]);
        Ok (Some components)
      else
        local_price ← price_in_instrument_currency price price_currency instrument_currency price_to_instrument_fx_rate;
        match (local_price : option (decimal * option decimal)) with
        | None => Ok None
        | Some (valuation_price_local, price_alignment_fx_rate) =>
            let context := arithmetic_context POSITION_VALUATION_LEDGER_OUTPUT_V1 in
            raw_local ← dmul context quantity valuation_price_local;
            converted ← value_in_portfolio_currency raw_local instrument_currency portfolio_currency instrument_to_portfolio_fx_rate;
            match (converted : option (decimal * decimal)) with
            | None => Ok None
            | Some (raw_base, portfolio_fx_rate) =>
                current_cost ← dmul context cost_basis_local portfolio_fx_rate;
                raw_fx ← dsub context current_cost cost_basis_base;
                components ← legacy_components raw_local raw_base raw_fx cost_basis_base cost_basis_local
                  (PMap [("cost_basis_base", PDecimal cost_basis_base); ("cost_basis_local", PDecimal cost_basis_local);
                         ("instrument_currency", PStr instrument_currency); ("instrument_to_portfolio_fx_rate", PDecimal portfolio_fx_rate);
                         ("market_price", PDecimal price); ("portfolio_currency", PStr portfolio_currency); ("price_currency", PStr price_currency);
                         ("price_to_instrument_fx_rate", optional_decimal price_alignment_fx_rate); ("product_type", optional_text product_type);
                         ("quantity", PDecimal quantity); ("resolved_valuation_unit_price", PDecimal valuation_price_local);
                         ("zero_position_short_circuit", PBool false)]);
                Ok (Some components)
            end
        end
  end.

Definition calculate_valuation (quantity market_price cost_basis_base cost_basis_local : decimal)
  (price_currency instrument_currency portfolio_currency : string) (product_type : option string)
  (price_to_instrument_fx_rate instrument_to_portfolio_fx_rate : option decimal) : result (option (decimal * decimal * decimal * decimal)) :=
  components ← calculate_valuation_components quantity market_price cost_basis_base cost_basis_local price_currency instrument_currency portfolio_currency
    product_type price_to_instrument_fx_rate instrument_to_portfolio_fx_rate;
  Ok (match (components : option ValuationComponents) with Some c => Some (as_legacy_tuple c) | None => None end).
End Legacy.

(** ** Valuation by an assigned policy *)

Record AuthoritativeValuationRequest := {
  ar_policy : PositionValuationPolicy; ar_price_fact : MarketPriceSourceFact; ar_signed_quantity : decimal; ar_cost_basis_reporting : decimal;
  ar_cost_basis_local : decimal; ar_reporting_currency : string; ar_evidence : PositionValuation.PositionValuationEvidence;
  ar_direct_source_to_reporting_fx_rate : option decimal; ar_signed_face_amount : option decimal; ar_principal_factor : option decimal;
  ar_signed_current_principal : option decimal; ar_calculated_accrued_income : option decimal; ar_supplied_accrued_income : option decimal
}.

Record AuthoritativeValuationResult := {
  au_market_value_reporting : decimal; au_market_value_local : decimal; au_unrealized_total_reporting : decimal; au_unrealized_total_local : decimal;
  au_unrealized_price_reporting : decimal; au_unrealized_fx_reporting : decimal; au_calculation_lineage : CalculationLineage
}.

Definition required_market_value (value : option decimal) (field_name : string) : result decimal :=
  match value with Some d => Ok d | None => Raise (UnsupportedValuationError (field_name +:+ " was not produced by the valuation policy")) end.

Definition finite_if_present (d : option decimal) : option number := match d with Some d => Some (Finite d) | None => None end.

Definition valuation_inputs (request : AuthoritativeValuationRequest) : PositionValuationInputs :=
  {| vi_economic :=
       {| ei_source_value := Finite (pf_price (ar_price_fact request)); ei_signed_quantity := Finite (ar_signed_quantity request);
          ei_signed_face_amount := finite_if_present (ar_signed_face_amount request); ei_principal_factor := finite_if_present (ar_principal_factor request);
          ei_signed_current_principal := finite_if_present (ar_signed_current_principal request); ei_contract_multiplier := None;
          ei_calculated_accrued_income := finite_if_present (ar_calculated_accrued_income request);
          ei_supplied_accrued_income := finite_if_present (ar_supplied_accrued_income request) |};
     vi_source_currency := pf_currency (ar_price_fact request); vi_reporting_currency := ar_reporting_currency request; vi_evidence := ar_evidence request;
     vi_direct_source_to_reporting_fx_rate := finite_if_present (ar_direct_source_to_reporting_fx_rate request) |}.

Section Authoritative.
Context `{hashing : Hashing}.

Definition calculate_authoritative_valuation (request : AuthoritativeValuationRequest) : result AuthoritativeValuationResult :=
  _ ← validate_market_price_policy_compatibility (ar_price_fact request) (ar_policy request);
  _ ← raise_if (bool_decide (vp_output_measure (ar_policy request) <> MARKET_VALUE))
        (UnsupportedValuationError "position snapshot publication requires a MARKET_VALUE policy");
  inputs ← make_PositionValuationInputs (valuation_inputs request);
  result ← calculate_position_valuation (ar_policy request) inputs;
  market_value_local ← required_market_value (no_total_market_value_local (vr_outputs result)) "total_market_value_local";
  market_value_reporting ← required_market_value (no_total_market_value_reporting (vr_outputs result)) "total_market_value_reporting";
  let output_policy := POSITION_VALUATION_LEDGER_OUTPUT_V1 in
  unrealized_total_local ← p_subtract output_policy market_value_local (ar_cost_basis_local request) "unrealized_gain_loss_local";
  unrealized_total_reporting ← p_subtract output_policy market_value_reporting (ar_cost_basis_reporting request) "unrealized_gain_loss";
  current_cost ← p_multiply output_policy (ar_cost_basis_local request) (vr_source_to_reporting_fx_rate result) "current_cost_basis_reporting";
  unrealized_fx_reporting ← p_subtract output_policy (current_cost : decimal) (ar_cost_basis_reporting request) "unrealized_fx_gain_loss";
  unrealized_price_reporting ← p_subtract output_policy unrealized_total_reporting unrealized_fx_reporting "unrealized_price_gain_loss";
  np ← lineage_identity output_policy;
  lineage ← build_calculation_lineage "authoritative-position-snapshot-valuation" 1 (cp_working_precision output_policy)
    (PMap [("cost_basis_local", PDecimal (ar_cost_basis_local request)); ("cost_basis_reporting", PDecimal (ar_cost_basis_reporting request));
           ("position_valuation", cl_lineage_payload (vr_lineage result))])
    (PMap [("market_value_local", PDecimal market_value_local); ("market_value_reporting", PDecimal market_value_reporting);
           ("unrealized_fx_reporting", PDecimal unrealized_fx_reporting); ("unrealized_price_reporting", PDecimal unrealized_price_reporting);
           ("unrealized_total_local", PDecimal unrealized_total_local); ("unrealized_total_reporting", PDecimal unrealized_total_reporting)]) (Some np);
  Ok {| au_market_value_reporting := market_value_reporting; au_market_value_local := market_value_local;
        au_unrealized_total_reporting := unrealized_total_reporting; au_unrealized_total_local := unrealized_total_local;
        au_unrealized_price_reporting := unrealized_price_reporting; au_unrealized_fx_reporting := unrealized_fx_reporting;
        au_calculation_lineage := lineage |}.
End Authoritative.

(** ** The snapshot workflow *)

Definition VALUATION_FAILED : string := "FAILED".
Definition VALUATION_UNVALUED : string := "UNVALUED".
Definition VALUATION_VALUED_CURRENT : string := "VALUED_CURRENT".
Definition VALUATION_VALUED_STALE : string := "VALUED_STALE".

(** The columns that valuation reads and writes. *)
Record DailyPositionSnapshot := {
  ds_portfolio_id : string; ds_security_id : string; ds_date : date; ds_epoch : Z; ds_quantity : decimal; ds_cost_basis : decimal;
  ds_cost_basis_local : decimal; ds_market_price : option decimal; ds_market_value : option decimal; ds_market_value_local : option decimal;
  ds_unrealized_gain_loss : option decimal; ds_unrealized_gain_loss_local : option decimal; ds_unrealized_price_gain_loss : option decimal;
  ds_unrealized_fx_gain_loss : option decimal; ds_valuation_status : option string; ds_valuation_fx_rate_date : option date;
  ds_valuation_fx_rate : option decimal; ds_valuation_source_currency : option string; ds_valuation_reporting_currency : option string
}.

Record FxRate := { fr_rate : decimal; fr_rate_date : date }.
Record MarketPrice := { mk_price : decimal; mk_currency : string; mk_price_date : date }.
Record Instrument := { in_currency : string; in_product_type : option string }.
Record Portfolio := { po_base_currency : string; po_tenant_id : option string; po_legal_book_id : option string }.

Record ValuationSnapshotResult := {
  sr_snapshot : DailyPositionSnapshot; sr_job_failure_reason : option string; sr_receipt : option ValuationCalculationReceipt
}.

(** [DailyPositionSnapshot(...)] of the processor, before it is valued. *)
Definition new_snapshot (portfolio_id security_id : string) (valuation_date : date) (epoch : Z) (quantity cost_basis cost_basis_local : decimal)
  : DailyPositionSnapshot :=
  {| ds_portfolio_id := portfolio_id; ds_security_id := security_id; ds_date := valuation_date; ds_epoch := epoch; ds_quantity := quantity;
     ds_cost_basis := cost_basis; ds_cost_basis_local := cost_basis_local; ds_market_price := None; ds_market_value := None;
     ds_market_value_local := None; ds_unrealized_gain_loss := None; ds_unrealized_gain_loss_local := None; ds_unrealized_price_gain_loss := None;
     ds_unrealized_fx_gain_loss := None; ds_valuation_status := None; ds_valuation_fx_rate_date := None; ds_valuation_fx_rate := None;
     ds_valuation_source_currency := None; ds_valuation_reporting_currency := None |}.

Definition with_status (status : string) (s : DailyPositionSnapshot) : DailyPositionSnapshot :=
  {| ds_portfolio_id := ds_portfolio_id s; ds_security_id := ds_security_id s; ds_date := ds_date s; ds_epoch := ds_epoch s; ds_quantity := ds_quantity s;
     ds_cost_basis := ds_cost_basis s; ds_cost_basis_local := ds_cost_basis_local s; ds_market_price := ds_market_price s; ds_market_value := ds_market_value s;
     ds_market_value_local := ds_market_value_local s; ds_unrealized_gain_loss := ds_unrealized_gain_loss s;
     ds_unrealized_gain_loss_local := ds_unrealized_gain_loss_local s; ds_unrealized_price_gain_loss := ds_unrealized_price_gain_loss s;
     ds_unrealized_fx_gain_loss := ds_unrealized_fx_gain_loss s; ds_valuation_status := Some status;
     ds_valuation_fx_rate_date := ds_valuation_fx_rate_date s; ds_valuation_fx_rate := ds_valuation_fx_rate s;
     ds_valuation_source_currency := ds_valuation_source_currency s; ds_valuation_reporting_currency := ds_valuation_reporting_currency s |}.

(** The columns written by a valuation, with the currency pair. *)
Definition with_valuation (price : option decimal) (market_value market_value_local total total_local price_pnl fx_pnl : decimal) (status : string)
  (rate_date : option date) (rate : option decimal) (source_currency reporting_currency : string) (s : DailyPositionSnapshot) : DailyPositionSnapshot :=
  {| ds_portfolio_id := ds_portfolio_id s; ds_security_id := ds_security_id s; ds_date := ds_date s; ds_epoch := ds_epoch s; ds_quantity := ds_quantity s;
     ds_cost_basis := ds_cost_basis s; ds_cost_basis_local := ds_cost_basis_local s; ds_market_price := price; ds_market_value := Some market_value;
     ds_market_value_local := Some market_value_local; ds_unrealized_gain_loss := Some total; ds_unrealized_gain_loss_local := Some total_local;
     ds_unrealized_price_gain_loss := Some price_pnl; ds_unrealized_fx_gain_loss := Some fx_pnl; ds_valuation_status := Some status;
     ds_valuation_fx_rate_date := rate_date; ds_valuation_fx_rate := rate;
     ds_valuation_source_currency := Some (PositionValuation.normalize_currency source_currency);
     ds_valuation_reporting_currency := Some (PositionValuation.normalize_currency reporting_currency) |}.

Definition apply_flat_position_valuation (source_currency reporting_currency : string) (s : DailyPositionSnapshot) : DailyPositionSnapshot :=
  with_valuation (ds_market_price s) dzero dzero dzero dzero dzero dzero VALUATION_VALUED_CURRENT (ds_valuation_fx_rate_date s) (ds_valuation_fx_rate s)
    source_currency reporting_currency s.

Definition apply_authoritative_valuation_result (price_fact : MarketPriceSourceFact) (r : AuthoritativeValuationResult) (rate : option FxRate)
  (source_currency reporting_currency : string) (s : DailyPositionSnapshot) : DailyPositionSnapshot :=
  with_valuation (Some (pf_price price_fact)) (au_market_value_reporting r) (au_market_value_local r) (au_unrealized_total_reporting r)
    (au_unrealized_total_local r) (au_unrealized_price_reporting r) (au_unrealized_fx_reporting r) VALUATION_VALUED_CURRENT
    (fr_rate_date <$> rate) (fr_rate <$> rate) source_currency reporting_currency s.

Definition apply_valuation_result (price : MarketPrice) (valuation_date : date) (r : ValuationComponents) (rate : option FxRate)
  (source_currency reporting_currency : string) (s : DailyPositionSnapshot) : DailyPositionSnapshot :=
  with_valuation (Some (mk_price price)) (co_market_value_base r) (co_market_value_local r) (co_unrealized_total_base r) (co_unrealized_total_local r)
    (co_unrealized_price_base r) (co_unrealized_fx_base r)
    (if mk_price_date price =? valuation_date then VALUATION_VALUED_CURRENT else VALUATION_VALUED_STALE)
    (fr_rate_date <$> rate) (fr_rate <$> rate) source_currency reporting_currency s.

Definition snapshot_identity (s : DailyPositionSnapshot) : result ValuationSnapshotIdentity :=
  make_ValuationSnapshotIdentity (ds_portfolio_id s) (ds_security_id s) (ds_date s) (ds_epoch s).

Definition is_flat_position (s : DailyPositionSnapshot) : bool :=
  is_quote_independent_flat_position (PDecimal (ds_quantity s)) (PDecimal (ds_cost_basis s)) (PDecimal (ds_cost_basis_local s)).

Definition failed_missing_fx_snapshot (s : DailyPositionSnapshot) (valuation_date : date) (instrument_currency portfolio_currency : string) : ValuationSnapshotResult :=
  {| sr_snapshot := with_status VALUATION_FAILED s;
     sr_job_failure_reason := Some ("Missing exact-date FX rate for " +:+ instrument_currency +:+ "->" +:+ portfolio_currency +:+ " on " +:+ date_isoformat valuation_date);
     sr_receipt := None |}.

(** [except (MarketPriceSourceFactError, UnknownValuationPolicyError, UnsupportedValuationError, ValuationPolicyAssignmentError)]. *)
Definition fails_closed (e : exc) : bool :=
  match e with
  | MarketPriceSourceFactError _ | MissingMarketPriceSourceFactError _ | OverlappingMarketPriceSourceFactError _ _ | UnknownValuationPolicyError _
  | UnsupportedValuationError _ | ValuationPolicyAssignmentError _ | MissingValuationPolicyAssignmentError _
  | OverlappingValuationPolicyAssignmentError _ _ => true
  | _ => false
  end.

Section Workflow.
Context `{hashing : Hashing}.
Context (assignments : list InstrumentValuationPolicyAssignment) (prices : list MarketPriceSourceFact).
Context (get_exact_fx_rate : string -> string -> date -> option FxRate).
Context (source_evidence_builder : ResolvedValuationPolicyAssignment -> MarketPriceSourceFact -> option FxRate -> PositionValuation.PositionValuationEvidence).

(** The policy resolver for one request: the lookup in the table, then the registered policy. *)
Definition resolve_runtime_policy (scope : ValuationAuthorityScope) (valuation_date : date) : result (ResolvedValuationPolicyAssignment * PositionValuationPolicy) :=
  assignment ← resolve_valuation_policy_assignment assignments (vs_tenant_id scope) (vs_legal_book_id scope) (vs_security_id scope) valuation_date;
  policy ← resolve_position_valuation_policy (va_policy_id (rv_assignment assignment)) (va_policy_version (rv_assignment assignment));
  Ok (assignment, policy).

Definition resolve_runtime_price (scope : ValuationAuthorityScope) (price_date : date) : result MarketPriceSourceFact :=
  resolve_market_price_source_fact prices (vs_tenant_id scope) (vs_legal_book_id scope) (vs_security_id scope) price_date.

Definition exact_instrument_to_portfolio_fx_rate (valuation_date : date) (instrument_currency portfolio_currency : string) : option FxRate :=
  if String.eqb instrument_currency portfolio_currency then None else
  match get_exact_fx_rate instrument_currency portfolio_currency valuation_date with
  | None => None
  | Some r => if fr_rate_date r =? valuation_date then Some r else None
  end.

Definition value_authoritative_snapshot (valuation_date : date) (s : DailyPositionSnapshot) (instrument : Instrument) (portfolio : Portfolio)
  (book_scope : ValuationBookScope) : result ValuationSnapshotResult :=
  scope ← make_ValuationAuthorityScope (vb_tenant_id book_scope) (vb_legal_book_id book_scope) (ds_security_id s);
  resolution ← resolve_runtime_policy scope valuation_date;
  price_fact ← resolve_runtime_price scope valuation_date;
  let '(assignment, policy) := (resolution : ResolvedValuationPolicyAssignment * PositionValuationPolicy) in
  let instrument_currency := PositionValuation.normalize_currency (in_currency instrument) in
  _ ← raise_if (negb (String.eqb (pf_currency price_fact) instrument_currency))
        (UnsupportedValuationError "authoritative market-price currency must match instrument currency");
  let portfolio_currency := PositionValuation.normalize_currency (po_base_currency portfolio) in
  let rate := exact_instrument_to_portfolio_fx_rate valuation_date instrument_currency portfolio_currency in
  if negb (String.eqb instrument_currency portfolio_currency) && match rate with None => true | _ => false end
  then Ok (failed_missing_fx_snapshot s valuation_date instrument_currency portfolio_currency) else
  result ← calculate_authoritative_valuation
    {| ar_policy := policy; ar_price_fact := price_fact; ar_signed_quantity := ds_quantity s; ar_cost_basis_reporting := ds_cost_basis s;
       ar_cost_basis_local := ds_cost_basis_local s; ar_reporting_currency := portfolio_currency;
       ar_evidence := source_evidence_builder assignment price_fact rate; ar_direct_source_to_reporting_fx_rate := fr_rate <$> rate;
       ar_signed_face_amount := None; ar_principal_factor := None; ar_signed_current_principal := None; ar_calculated_accrued_income := None;
       ar_supplied_accrued_income := None |};
  let valued := apply_authoritative_valuation_result price_fact result rate (pf_currency price_fact) portfolio_currency s in
  identity ← snapshot_identity valued;
  source ← va_source_reference (rv_assignment assignment);
  receipt ← build_authoritative_valuation_receipt identity (vp_policy_id policy) (vp_policy_version policy) (va_assignment_version (rv_assignment assignment))
    (vk_assignment_content_hash (rv_cache_key assignment)) source price_fact (au_calculation_lineage result);
  Ok {| sr_snapshot := valued; sr_job_failure_reason := None; sr_receipt := Some receipt |}.

Definition value_legacy_snapshot (valuation_date : date) (s : DailyPositionSnapshot) (instrument : Instrument) (portfolio : Portfolio) (price : option MarketPrice)
  : result ValuationSnapshotResult :=
  let instrument_currency := PositionValuation.normalize_currency (in_currency instrument) in
  let portfolio_currency := PositionValuation.normalize_currency (po_base_currency portfolio) in
  if is_flat_position s then
    let valued := apply_flat_position_valuation instrument_currency portfolio_currency s in
    identity ← snapshot_identity valued;
    receipt ← build_legacy_valuation_receipt identity None;
    Ok {| sr_snapshot := valued; sr_job_failure_reason := None; sr_receipt := Some receipt |}
  else
  match price with
  | None => Ok {| sr_snapshot := with_status VALUATION_UNVALUED s; sr_job_failure_reason := None; sr_receipt := None |}
  | Some price =>
      bond ← requires_bond_quote_authority (in_product_type instrument) (PDecimal (ds_quantity s)) (PDecimal (ds_cost_basis s)) (PDecimal (ds_cost_basis_local s));
      if bond : bool then
        Ok {| sr_snapshot := with_status VALUATION_FAILED s; sr_job_failure_reason := Some BOND_QUOTE_AUTHORITY_REQUIRED_REASON; sr_receipt := None |}
      else
      let price_currency := PositionValuation.normalize_currency (mk_currency price) in
      let rate := exact_instrument_to_portfolio_fx_rate valuation_date instrument_currency portfolio_currency in
      if negb (String.eqb instrument_currency portfolio_currency) && match rate with None => true | _ => false end
      then Ok (failed_missing_fx_snapshot s valuation_date instrument_currency portfolio_currency) else
      components ← calculate_valuation_components (ds_quantity s) (mk_price price) (ds_cost_basis s) (ds_cost_basis_local s) price_currency
        instrument_currency portfolio_currency (in_product_type instrument) None (fr_rate <$> rate);
      match (components : option ValuationComponents) with
      | Some c =>
          let valued := apply_valuation_result price valuation_date c rate price_currency portfolio_currency s in
          identity ← snapshot_identity valued;
          receipt ← build_legacy_valuation_receipt identity (Some (co_calculation_lineage c));
          Ok {| sr_snapshot := valued; sr_job_failure_reason := None; sr_receipt := Some receipt |}
      | None =>
          Ok {| sr_snapshot := with_status VALUATION_FAILED s;
                sr_job_failure_reason := Some ("Valuation logic returned no result for " +:+ ds_security_id s +:+ " on " +:+ date_isoformat valuation_date);
                sr_receipt := None |}
      end
  end.

(** A snapshot is valued under the authority of its legal book, or by a plain price where the portfolio has none; [s] is a new snapshot. *)
Definition value_snapshot (valuation_date : date) (s : DailyPositionSnapshot) (instrument : Instrument) (portfolio : Portfolio) (price : option MarketPrice)
  : result ValuationSnapshotResult :=
  book_scope ← resolve_optional_valuation_book_scope (po_tenant_id portfolio) (po_legal_book_id portfolio);
  match (book_scope : option ValuationBookScope) with
  | Some book_scope =>
      match value_authoritative_snapshot valuation_date s instrument portfolio book_scope with
      | Raise e =>
          if fails_closed e then Ok {| sr_snapshot := with_status VALUATION_FAILED s; sr_job_failure_reason := Some (exc_text e); sr_receipt := None |} else Raise e
      | r => r
      end
  | None => value_legacy_snapshot valuation_date s instrument portfolio price
  end.

(** [_build_snapshot_for_event] for a position that has reference data. *)
Definition build_snapshot (portfolio_id security_id : string) (valuation_date : date) (epoch : Z) (quantity cost_basis cost_basis_local : decimal)
  (instrument : Instrument) (portfolio : Portfolio) (price : option MarketPrice) : result ValuationSnapshotResult :=
  value_snapshot valuation_date (new_snapshot portfolio_id security_id valuation_date epoch quantity cost_basis cost_basis_local) instrument portfolio price.
End Workflow.

(** What the reconciliation service reads of a snapshot and its receipt. *)
Definition receipt_evidence (r : ValuationCalculationReceipt) : PositionValuationReceiptEvidence :=
  {| re_supportability := supportability_value (vc_supportability r); re_policy_id := vc_policy_id r; re_policy_version := vc_policy_version r;
     re_quote_basis := quote_basis_value <$> vc_quote_basis r; re_receipt_hash := vc_receipt_hash r |}.

Definition snapshot_evidence (s : DailyPositionSnapshot) (instrument : Instrument) (receipt : option ValuationCalculationReceipt)
  : Reconciliation.PositionValuationEvidence :=
  {| ev_portfolio_id := ds_portfolio_id s; ev_security_id := ds_security_id s; ev_business_date := ds_date s; ev_epoch := ds_epoch s;
     ev_quantity := Some (ds_quantity s); ev_market_price := ds_market_price s; ev_market_value_local := ds_market_value_local s;
     ev_cost_basis_reporting := Some (ds_cost_basis s); ev_cost_basis_local := Some (ds_cost_basis_local s);
     ev_unrealized_gain_loss_local := ds_unrealized_gain_loss_local s; ev_product_type := in_product_type instrument;
     ev_valuation_fx_rate_date := ds_valuation_fx_rate_date s; ev_valuation_receipt := receipt_evidence <$> receipt |}.
