(* ===== verification/SnapshotValuationFacts.v ===== *)
(** * Valued position snapshots: facts

    The unrealised result of a published snapshot splits exactly into price and currency, and a snapshot published with a price passes
    the valuation control, which recomputes it in the ambient precision; the exception is a position without quantity that still carries
    a cost. *)

From Stdlib Require Import ZArith Lia QArith Qabs Lqa String.
From stdpp Require Import base tactics list sorting sets strings.
From S2P Require Import PositionValuationFacts Prelude PyDecimal DecimalFacts PyTime Precision Lineage Values Position Lots AccruedIncome PositionValuation Timeseries Reconciliation ReconciliationFacts SourceVersions ValuationAuthority SnapshotValuation.

#[local] Open Scope string_scope.
#[local] Open Scope Z_scope.

(** ** Amounts written by the calculations *)

#[local] Notation policy := POSITION_VALUATION_LEDGER_OUTPUT_V1.

Lemma calculated_stored x y f op r : calculate policy x y f op = Ok r -> stored r.
Proof. unfold calculate. destruct x, y; try done. by intros (v & _ & [Hs _]%book_normalize)%bind_Ok. Qed.

Lemma subtracted x y f r : stored x -> stored y -> p_subtract policy x y f = Ok r -> stored r /\ ul r = ul x - ul y.
Proof. intros Hx Hy Hr. pose proof (p_subtract_Ok _ _ _ _ _ _ _ Hx Hy Hr) as L. split; [by eapply ledger_stored|by apply ledger_ul]. Qed.

(** What a published valuation records: the result in both currencies, split exactly in the currency of the portfolio. *)
Record decomposed (market_value market_value_local total total_local price_pnl fx_pnl cost_basis cost_basis_local : decimal) : Prop := {
  de_stored : Forall stored [market_value; market_value_local; total; total_local; price_pnl; fx_pnl];
  de_total : ul total = ul market_value - ul cost_basis;
  de_local : ul total_local = ul market_value_local - ul cost_basis_local;
  de_split : ul price_pnl + ul fx_pnl = ul total
}.

(** ** Comparisons in the ambient precision *)

Lemma stored_bound d : stored d -> (Qabs (dval d) < pow10 8)%Q.
Proof. apply ledger_val_bound. Qed.

Lemma bounds_used : (pow10 (-12) <= 1 # 1000)%Q /\ (0 < pow10 (-12))%Q /\ (10 * pow10 8 < pow10 16)%Q /\ (1 < pow10 8)%Q /\ (pow10 (-10) == 100 * pow10 (-12))%Q.
Proof. repeat split; vm_compute; congruence || reflexivity. Qed.

(** Amounts that differ by less than a storage unit pass any tolerance of a unit. *)
Lemma close_passes observed expected tolerance : (Qabs (dval observed - dval expected) <= 52 * pow10 (-12))%Q -> (pow10 (-10) <= dval tolerance)%Q ->
  beyond_tolerance observed expected tolerance = Ok None.
Proof.
  intros Hc Ht. destruct bounds_used as (S12 & P12 & S16 & S8 & E10). rewrite E10 in Ht. apply Qabs_Qle_condition in Hc.
  unfold beyond_tolerance, dsub. assert (Bx : (Qabs (dval (add_exact observed (neg_exact expected))) < pow10 16)%Q) by (rewrite add_exact_val, neg_exact_val; apply Qabs_case; intros _; lra).
  destruct (ambient_defined _ Bx) as (delta & Hd). rewrite Hd. cbn [mbind result_bind]. pose proof (ambient_near _ _ Bx Hd) as Nd. rewrite add_exact_val, neg_exact_val in Nd.
  apply Qabs_Qle_condition in Nd. unfold dabs. set (magnitude := Dec (Z.abs (dcoeff delta)) (dexp delta)).
  assert (Em : (dval magnitude == Qabs (dval delta))%Q) by (unfold magnitude; rewrite dval_Dec; symmetry; apply dval_abs).
  assert (Hm : (Qabs (dval delta) <= 53 * pow10 (-12))%Q) by (apply Qabs_case; intros _; lra). pose proof (Qabs_nonneg (dval delta)) as Hm0.
  assert (Bm : (Qabs (dval magnitude) < pow10 16)%Q) by (rewrite Em; apply Qabs_case; intros _; lra).
  destruct (ambient_defined _ Bm) as (a & Ha). rewrite Ha. cbn [mbind result_bind]. pose proof (ambient_near _ _ Bm Ha) as Na. rewrite Em in Na.
  apply Qabs_Qle_condition in Na. assert (dltb tolerance a = false) as ->; [|done]. apply dltb_false. lra.
Qed.

Lemma rounded_units_near n x u v r : (0 < u)%Q -> (v == n * (100 * u))%Q -> (r == x * (100 * u))%Q -> (-(1 # 2) <= n - x /\ n - x <= 1 # 2)%Q ->
  (Qabs (v - r) <= 50 * u)%Q.
Proof.
  intros Hu Hv Hr [H1 H2]. assert (L : (0 <= (n - x + (1 # 2)) * u)%Q) by (apply Qmult_le_0_compat; lra).
  assert (R : (0 <= ((1 # 2) - (n - x)) * u)%Q) by (apply Qmult_le_0_compat; lra). apply Qabs_Qle_condition. split; lra.
Qed.

(** The product that the calculation rounds to the ledger and the control to the ambient precision. *)
Lemma ambient_product_near quantity price raw f value : stored quantity -> stored price -> dmul (arithmetic_context policy) quantity price = Ok raw ->
  normalize policy raw f = Ok value ->
  exists product, dmul default_context quantity price = Ok product /\ (Qabs (dval product) < 2 * pow10 8)%Q /\ (Qabs (dval value - dval product) <= 51 * pow10 (-12))%Q.
Proof.
  intros Sq Sp Hraw Hn. destruct bounds_used as (S12 & P12 & S16 & S8 & E10).
  assert (Er : (dval raw == dval quantity * dval price)%Q).
  { destruct Sq as [Uq Bq], Sp as [Up Bp]. unfold dmul in Hraw. destruct (dfix_units (arithmetic_context policy) (-20) (mul_exact quantity price) (ul quantity * ul price)) as (r & Hr & Ur);
      [apply ledger_context_wide|lia|by apply (units_mul (-10) (-10))| |].
    - change (10 ^ prec (arithmetic_context policy)) with (10 ^ 64). change (10 ^ 18) with 1000000000000000000 in *. rewrite Z.abs_mul. nia.
    - assert (r = raw) as -> by congruence. pose proof (units_mul (-10) (-10) _ _ _ _ Uq Up) as Um. rewrite <- mul_exact_val.
      transitivity (inject_Z (ul quantity * ul price) * pow10 (-20))%Q; [exact Ur|symmetry; exact Um]. }
  pose proof (ledger_of_normalize _ _ _ _ Hn) as [Uv Bv]. unfold units in Uv. set (k := to_units policy raw) in *.
  assert (Hk : (Qabs (dval value - dval raw) <= 50 * pow10 (-12))%Q).
  { unfold k, to_units in Uv. set (x := (dval raw * pow10 (cp_scale policy))%Q) in *. pose proof (qround_half_even x) as Hq. apply Qabs_Qle_condition in Hq.
    assert (Ex : (dval raw == x * pow10 (-10))%Q) by (unfold x; rewrite <- Qmult_assoc, <- pow10_add; change (pow10 (cp_scale policy + -10)) with 1%Q; ring).
    rewrite E10 in Uv, Ex. by apply (rounded_units_near (inject_Z (qround ROUND_HALF_EVEN x)) x). }
  pose proof (ledger_val_bound value k (conj Uv Bv)) as Hv. apply Qabs_Qlt_condition in Hv. apply Qabs_Qle_condition in Hk.
  assert (Bx : (Qabs (dval (mul_exact quantity price)) < pow10 16)%Q) by (rewrite mul_exact_val, <- Er; apply Qabs_case; intros _; lra).
  unfold dmul. destruct (ambient_defined _ Bx) as (product & Hp). rewrite Hp. exists product. split; [done|]. pose proof (ambient_near _ _ Bx Hp) as Np.
  rewrite mul_exact_val, <- Er in Np. apply Qabs_Qle_condition in Np. split; [apply Qabs_case; intros _; lra|]. apply Qabs_Qle_condition. split; lra.
Qed.

Section Facts.
Context `{hashing : Hashing}.

Lemma legacy_components_inv raw_local raw_base raw_fx cost cost_local input c : stored cost -> stored cost_local ->
  legacy_components raw_local raw_base raw_fx cost cost_local input = Ok c ->
  decomposed (co_market_value_base c) (co_market_value_local c) (co_unrealized_total_base c) (co_unrealized_total_local c) (co_unrealized_price_base c)
    (co_unrealized_fx_base c) cost cost_local /\ normalize policy raw_local "market_value_local" = Ok (co_market_value_local c).
Proof.
  intros Sc Sl H. unfold legacy_components in H. apply bind_Ok in H as (ml & Hml & H). apply bind_Ok in H as (mb & Hmb & H). apply bind_Ok in H as (tl & Htl & H).
  apply bind_Ok in H as (tb & Htb & H). apply bind_Ok in H as (fx & Hfx & H). apply bind_Ok in H as (pr & Hpr & H). apply bind_Ok in H as (l & _ & [= <-]). cbn.
  destruct (book_normalize _ _ _ _ Hml) as [Sml _]. destruct (book_normalize _ _ _ _ Hmb) as [Smb _]. destruct (book_normalize _ _ _ _ Hfx) as [Sfx _].
  destruct (subtracted _ _ _ _ Sml Sl Htl) as [Stl El]. destruct (subtracted _ _ _ _ Smb Sc Htb) as [Stb Eb]. destruct (subtracted _ _ _ _ Stb Sfx Hpr) as [Spr Ep].
  split; [|done]. split; [repeat (constructor; [done|]); constructor|done|done|lia].
Qed.

Lemma required_value v f d : required_market_value v f = Ok d -> v = Some d.
Proof. destruct v; [|done]. by intros [= ->]. Qed.

Lemma reported_stored p i sc rc l rate o lin d : normalize_outputs p i sc rc l rate = Ok (o, lin) -> no_total_market_value_reporting o = Some d -> stored d.
Proof.
  intros H Hd. unfold normalize_outputs in H. apply bind_Ok in H as (cr & _ & H). apply bind_Ok in H as (ar & _ & H). apply bind_Ok in H as (tr & Ht & H).
  do 5 apply bind_Ok in H as (? & _ & H). injection H as <- <-. cbn in Hd. subst tr. destruct cr as [c|].
  - apply bind_Ok in Ht as (t & Ht & [= ->]). exact (calculated_stored _ _ _ _ _ Ht).
  - destruct (le_total_market_value_local l); [|done]. cbn in Ht. apply bind_Ok in Ht as (t & Ht & [= ->]). exact (calculated_stored _ _ _ _ _ Ht).
Qed.

Lemma authoritative_inv request r : stored (ar_cost_basis_reporting request) -> stored (ar_cost_basis_local request) -> calculate_authoritative_valuation request = Ok r ->
  decomposed (au_market_value_reporting r) (au_market_value_local r) (au_unrealized_total_reporting r) (au_unrealized_total_local r)
    (au_unrealized_price_reporting r) (au_unrealized_fx_reporting r) (ar_cost_basis_reporting request) (ar_cost_basis_local request) /\
  String.eqb (input_basis_value (vp_input_basis (ar_policy request))) (quote_basis_value (pf_quote_basis (ar_price_fact request))) = true /\
  vp_output_measure (ar_policy request) = MARKET_VALUE /\
  exists l, calculate_position_valuation_local_economics (ar_policy request) (vi_economic (valuation_inputs request)) = Ok l /\
    le_total_market_value_local l = Some (au_market_value_local r).
Proof.
  intros Sc Sl H. unfold calculate_authoritative_valuation in H. apply bind_Ok in H as (u1 & Hb%raise_if_Ok%negb_false_iff & H). apply bind_Ok in H as (u2 & Hm%raise_if_Ok & H).
  apply bind_Ok in H as (i & Hi & H). apply bind_Ok in H as (v & Hv & H). apply bind_Ok in H as (ml & Hml%required_value & H). apply bind_Ok in H as (mb & Hmb%required_value & H).
  apply bind_Ok in H as (tl & Htl & H). apply bind_Ok in H as (tb & Htb & H). apply bind_Ok in H as (cc & Hcc & H). apply bind_Ok in H as (fx & Hfx & H).
  apply bind_Ok in H as (pr & Hpr & H). do 2 apply bind_Ok in H as (? & _ & H). injection H as <-. cbn [au_market_value_reporting au_market_value_local au_unrealized_total_reporting
    au_unrealized_total_local au_unrealized_price_reporting au_unrealized_fx_reporting].
  assert (i = valuation_inputs request) as ->. { unfold make_PositionValuationInputs in Hi. by repeat (apply bind_Ok in Hi as (? & _ & Hi)); injection Hi. }
  unfold calculate_position_valuation in Hv. apply bind_Ok in Hv as (l & Hl & Hv). apply bind_Ok in Hv as (rate & _ & Hv). apply bind_Ok in Hv as ([o lin] & Ho & [= <-]).
  cbn [vr_outputs] in *. assert (El : le_total_market_value_local l = Some ml).
  { unfold normalize_outputs in Ho. repeat (apply bind_Ok in Ho as (? & _ & Ho)). injection Ho as <- _. exact Hml. }
  pose proof (economics_stored _ _ _ _ Hl El) as Sml. pose proof (reported_stored _ _ _ _ _ _ _ _ _ Ho Hmb) as Smb. pose proof (calculated_stored _ _ _ _ _ Hcc) as Scc.
  destruct (subtracted _ _ _ _ Sml Sl Htl) as [Stl El']. destruct (subtracted _ _ _ _ Smb Sc Htb) as [Stb Eb]. destruct (subtracted _ _ _ _ Scc Sc Hfx) as [Sfx Ef].
  destruct (subtracted _ _ _ _ Stb Sfx Hpr) as [Spr Ep]. split_and!.
  - split; [repeat (constructor; [done|]); constructor|done|done|lia].
  - done.
  - apply bool_decide_eq_false in Hm. by apply dec_stable.
  - by exists l.
Qed.

(** A position valued by a plain price in the currency of its instrument. *)
Lemma legacy_inv quantity price cost cost_local pc ic bc product_type rate c : stored cost -> stored cost_local ->
  calculate_valuation_components quantity price cost cost_local pc ic bc product_type None rate = Ok (Some c) ->
  dleb price dzero = false /\ requires_bond_quote_authority product_type (PDecimal quantity) (PDecimal cost) (PDecimal cost_local) = Ok false /\
  if dis_zero quantity then (co_market_value_base c, co_market_value_local c, co_unrealized_total_base c, co_unrealized_total_local c,
                             co_unrealized_price_base c, co_unrealized_fx_base c) = (dzero, dzero, dzero, dzero, dzero, dzero)
  else decomposed (co_market_value_base c) (co_market_value_local c) (co_unrealized_total_base c) (co_unrealized_total_local c) (co_unrealized_price_base c)
         (co_unrealized_fx_base c) cost cost_local /\
       exists raw, dmul (arithmetic_context policy) quantity price = Ok raw /\ normalize policy raw "market_value_local" = Ok (co_market_value_local c).
Proof.
  intros Sc Sl H. unfold calculate_valuation_components, coerce_positive_market_price_or_none in H. cbn [decimal_or_none finite_or_none] in H.
  destruct (dleb price dzero) eqn:Ep; [done|]. apply bind_Ok in H as (bond & Hb & H). apply bind_Ok in H as (u & Hn%raise_if_Ok & H). rewrite Hb, Hn. split; [done|]. split; [done|].
  destruct (dis_zero quantity) eqn:Ez.
  - apply bind_Ok in H as (z & Hz & [= ->]). unfold zero_components in Hz. apply bind_Ok in Hz as (l & _ & [= <-]). reflexivity.
  - apply bind_Ok in H as (lp & Hlp & H). unfold price_in_instrument_currency in Hlp. destruct (String.eqb _ _); [|by injection Hlp as <-]. injection Hlp as <-.
    apply bind_Ok in H as (raw & Hraw & H). apply bind_Ok in H as (conv & Hconv & H). destruct conv as [[rb pr]|]; [|done]. apply bind_Ok in H as (cc & _ & H).
    apply bind_Ok in H as (rf & _ & H). apply bind_Ok in H as (c' & Hc & [= ->]). destruct (legacy_components_inv _ _ _ _ _ _ _ Sc Sl Hc) as [Hd Hm].
    split; [exact Hd|]. by exists raw.
Qed.

(** ** Policies that publish a position *)

(** The catalogue by quoted basis: unit prices scale quantities, percentages scale a principal. *)
Lemma catalogue_by_basis : Forall (fun p =>
    match vp_input_basis p with
    | UNIT_PRICE => vp_position_scaling p = QUANTITY /\ vp_principal_basis p = POSITION_UNITS
    | PERCENT_OF_PRINCIPAL_CLEAN | PERCENT_OF_PRINCIPAL_DIRTY => vp_position_scaling p = PRINCIPAL
    | _ => True
    end) supported_position_valuation_policies.
Proof. repeat (constructor; [vm_compute; repeat split|]). constructor. Qed.

Lemma principal_missing p source quantity : vp_position_scaling p = PRINCIPAL -> forall l,
  calculate_position_valuation_local_economics p
    {| ei_source_value := source; ei_signed_quantity := quantity; ei_signed_face_amount := None; ei_principal_factor := None; ei_signed_current_principal := None;
       ei_contract_multiplier := None; ei_calculated_accrued_income := None; ei_supplied_accrued_income := None |} <> Ok l.
Proof.
  intros Hs l H. unfold calculate_position_valuation_local_economics in H. apply bind_Ok in H as (d & _ & H). apply bind_Ok in H as (pr & Hp & _).
  unfold resolve_current_principal in Hp. rewrite decide_False in Hp by (rewrite Hs; auto). by destruct (vp_principal_basis p).
Qed.

Lemma published_basis p basis source quantity l : p ∈ supported_position_valuation_policies ->
  String.eqb (input_basis_value (vp_input_basis p)) (quote_basis_value basis) = true ->
  calculate_position_valuation_local_economics p
    {| ei_source_value := Finite source; ei_signed_quantity := quantity; ei_signed_face_amount := None; ei_principal_factor := None; ei_signed_current_principal := None;
       ei_contract_multiplier := None; ei_calculated_accrued_income := None; ei_supplied_accrued_income := None |} = Ok l ->
  vp_input_basis p = UNIT_PRICE /\ vp_position_scaling p = QUANTITY /\ vp_principal_basis p = POSITION_UNITS /\ dleb source dzero = false.
Proof.
  intros Hp Hb Hl. pose proof (proj1 (Forall_forall _ _) catalogue_by_basis p Hp) as Hc. cbv beta in Hc.
  destruct (vp_input_basis p) eqn:Ei, basis; try done; try (exfalso; by eapply principal_missing).
  destruct Hc as [Hs Hu]. split_and!; [done..|]. unfold calculate_position_valuation_local_economics in Hl. apply bind_Ok in Hl as (d & Hd & _).
  cbn [ei_source_value validate_source_value] in Hd. apply bind_Ok in Hd as (u & Hd%raise_if_Ok & _). rewrite Ei in Hd. by destruct (dleb source dzero).
Qed.

(** The control recomputes exactly what the policy published. *)
Lemma control_recomputes p id version basis source quantity l receipt : resolve_position_valuation_policy id version = Ok p ->
  String.eqb (input_basis_value (vp_input_basis p)) (quote_basis_value basis) = true -> vp_output_measure p = MARKET_VALUE ->
  calculate_position_valuation_local_economics p
    {| ei_source_value := Finite source; ei_signed_quantity := Finite quantity; ei_signed_face_amount := None; ei_principal_factor := None;
       ei_signed_current_principal := None; ei_contract_multiplier := None; ei_calculated_accrued_income := None; ei_supplied_accrued_income := None |} = Ok l ->
  re_policy_id receipt = Some (strip (vp_policy_id p)) -> re_policy_version receipt = Some (vp_policy_version p) -> re_quote_basis receipt = Some (quote_basis_value basis) ->
  authoritative_market_value_local quantity source receipt = Ok (le_total_market_value_local l).
Proof.
  intros (Hp & _ & _)%resolved_policy Hb Hm Hl E1 E2 E3. destruct (published_basis _ _ _ _ _ Hp Hb Hl) as (Ei & Es & Eu & _).
  destruct (proj1 (Forall_forall _ _) catalogue_policies p Hp) as (_ & Est & Hr). unfold authoritative_market_value_local.
  rewrite E1, E2, E3, Est, Hr, Hb, !bool_decide_eq_false_2 by auto. cbn [negb orb]. by rewrite Hl.
Qed.

(** ** Receipts *)

Lemma sealed_receipt content r : seal_receipt content = Ok r ->
  vc_supportability r = vc_supportability content /\ vc_policy_id r = vc_policy_id content /\ vc_policy_version r = vc_policy_version content /\ vc_quote_basis r = vc_quote_basis content.
Proof.
  unfold seal_receipt. intros (h & _ & H)%bind_Ok. unfold make_ValuationCalculationReceipt in H. repeat (apply bind_Ok in H as (? & _ & H)). injection H as <-. done.
Qed.

(** ** Published snapshots *)

Section Published.
Context (assignments : list InstrumentValuationPolicyAssignment) (prices : list MarketPriceSourceFact).
Context (get_exact_fx_rate : string -> string -> date -> option FxRate).
Context (builder : ResolvedValuationPolicyAssignment -> MarketPriceSourceFact -> option FxRate -> PositionValuation.PositionValuationEvidence).

Lemma exact_rate_date d a b r : exact_instrument_to_portfolio_fx_rate get_exact_fx_rate d a b = Some r -> fr_rate_date r = d.
Proof.
  unfold exact_instrument_to_portfolio_fx_rate. destruct (String.eqb a b); [done|]. destruct (get_exact_fx_rate a b d) as [x|]; [|done].
  destruct (Z.eqb_spec (fr_rate_date x) d) as [E|]; [|done]. by intros [= <-].
Qed.

(** How a snapshot can be published: under an assigned policy, flat, or by a plain price. *)
Inductive publication (valuation_date : date) (s : DailyPositionSnapshot) (instrument : Instrument) (given : option MarketPrice) (r : ValuationSnapshotResult)
  (receipt : ValuationCalculationReceipt) : Prop :=
| by_policy request result rate sc rc id version :
    resolve_position_valuation_policy id version = Ok (ar_policy request) -> ar_signed_quantity request = ds_quantity s ->
    ar_cost_basis_reporting request = ds_cost_basis s -> ar_cost_basis_local request = ds_cost_basis_local s ->
    vi_economic (valuation_inputs request) =
      {| ei_source_value := Finite (pf_price (ar_price_fact request)); ei_signed_quantity := Finite (ds_quantity s); ei_signed_face_amount := None;
         ei_principal_factor := None; ei_signed_current_principal := None; ei_contract_multiplier := None; ei_calculated_accrued_income := None;
         ei_supplied_accrued_income := None |} ->
    calculate_authoritative_valuation request = Ok result -> (forall x, rate = Some x -> fr_rate_date x = valuation_date) ->
    sr_snapshot r = apply_authoritative_valuation_result (ar_price_fact request) result rate sc rc s ->
    vc_supportability receipt = RECEIPT_SUPPORTED -> vc_policy_id receipt = Some (strip (vp_policy_id (ar_policy request))) ->
    vc_policy_version receipt = Some (vp_policy_version (ar_policy request)) -> vc_quote_basis receipt = Some (pf_quote_basis (ar_price_fact request)) ->
    publication valuation_date s instrument given r receipt
| flat sc rc : is_flat_position s = true -> sr_snapshot r = apply_flat_position_valuation sc rc s -> vc_supportability receipt = RECEIPT_LEGACY_UNSCOPED ->
    publication valuation_date s instrument given r receipt
| by_price price pc ic bc rate components :
    given = Some price ->
    calculate_valuation_components (ds_quantity s) (mk_price price) (ds_cost_basis s) (ds_cost_basis_local s) pc ic bc (in_product_type instrument) None
      (fr_rate <$> rate) = Ok (Some components) -> (forall x, rate = Some x -> fr_rate_date x = valuation_date) ->
    sr_snapshot r = apply_valuation_result price valuation_date components rate pc bc s -> vc_supportability receipt = RECEIPT_LEGACY_UNSCOPED ->
    publication valuation_date s instrument given r receipt.

Lemma published_legacy valuation_date s instrument portfolio price r receipt :
  value_legacy_snapshot get_exact_fx_rate valuation_date s instrument portfolio price = Ok r -> sr_receipt r = Some receipt -> publication valuation_date s instrument price r receipt.
Proof.
  unfold value_legacy_snapshot. intros H Hr. destruct (is_flat_position s) eqn:Ef.
  - apply bind_Ok in H as (i & _ & H). apply bind_Ok in H as (rc & Hrc%sealed_receipt & [= <-]). injection Hr as <-. eapply flat; [done|reflexivity|apply Hrc].
  - destruct price as [price|]; [|by injection H as <-]. apply bind_Ok in H as (bond & _ & H). destruct bond; [by injection H as <-|].
    set (rate := exact_instrument_to_portfolio_fx_rate _ _ _ _) in *. destruct (negb _ && _); [by injection H as <-|]. apply bind_Ok in H as (c & Hc & H).
    destruct c as [c|]; [|by injection H as <-]. apply bind_Ok in H as (identity & _ & H). apply bind_Ok in H as (rc & Hrc%sealed_receipt & [= <-]). injection Hr as <-.
    eapply by_price; [reflexivity|exact Hc| |reflexivity|apply Hrc]. intros x. apply exact_rate_date.
Qed.

Lemma published_authoritative valuation_date s instrument portfolio book price r receipt :
  value_authoritative_snapshot assignments prices get_exact_fx_rate builder valuation_date s instrument portfolio book = Ok r -> sr_receipt r = Some receipt ->
  publication valuation_date s instrument price r receipt.
Proof.
  unfold value_authoritative_snapshot. intros H Hr. apply bind_Ok in H as (scope & _ & H). apply bind_Ok in H as ([a p] & Hres & H). apply bind_Ok in H as (f & _ & H).
  apply bind_Ok in H as (u & _ & H). set (rate := exact_instrument_to_portfolio_fx_rate _ _ _ _) in *. destruct (negb _ && _); [by injection H as <-|].
  apply bind_Ok in H as (res & Hc & H). apply bind_Ok in H as (identity & _ & H). apply bind_Ok in H as (src & _ & H). apply bind_Ok in H as (rc & Hrc & [= <-]). injection Hr as <-.
  unfold build_authoritative_valuation_receipt in Hrc. apply bind_Ok in Hrc as (h & _ & (E1 & E2 & E3 & E4)%sealed_receipt).
  unfold resolve_runtime_policy in Hres. apply bind_Ok in Hres as (a' & _ & Hres). apply bind_Ok in Hres as (p' & Hp & [= -> ->]).
  match type of Hc with calculate_authoritative_valuation ?q = _ => eapply (by_policy _ _ _ _ _ _ q res rate) end;
    [exact Hp|reflexivity|reflexivity|reflexivity|reflexivity|exact Hc| |reflexivity|exact E1|exact E2|exact E3|exact E4]. intros x. apply exact_rate_date.
Qed.

Lemma published_cases valuation_date s instrument portfolio price r receipt :
  value_snapshot assignments prices get_exact_fx_rate builder valuation_date s instrument portfolio price = Ok r -> sr_receipt r = Some receipt ->
  publication valuation_date s instrument price r receipt.
Proof.
  unfold value_snapshot. intros H Hr. apply bind_Ok in H as ([book|] & _ & H); [|by eapply published_legacy].
  destruct (value_authoritative_snapshot _ _ _ _ _ _ _ _ _) as [r'|e] eqn:Ea; [injection H as ->; by eapply published_authoritative|].
  destruct (fails_closed e); [|done]. by injection H as <-.
Qed.

(** A snapshot without quantity that a plain price values, or none: its amounts are zero, whatever cost it carries. *)
Definition zero_valued (quantity : decimal) (receipt : ValuationCalculationReceipt) : Prop :=
  vc_supportability receipt = RECEIPT_LEGACY_UNSCOPED /\ dis_zero quantity = true.

Lemma flat_quantity s : is_flat_position s = true -> dis_zero (ds_quantity s) = true.
Proof.
  unfold is_flat_position, is_quote_independent_flat_position. cbn [forallb decimal_or_none finite_or_none]. intros [H _]%andb_true_iff.
  apply deqb_spec in H. apply dis_zero_spec. by rewrite H, dval_dzero.
Qed.

(** C12: every snapshot that is published with a receipt, under an assigned policy or by a plain price, records amounts that account for each
    other exactly: stored amounts, of which the unrealised result is market value less cost in both currencies and the price and currency parts
    sum to the result.  The one exception is a position without quantity outside any policy: all its amounts are zero, also where it
    still carries a cost. *)
Theorem published_snapshot_decomposes portfolio_id security_id valuation_date epoch quantity cost_basis cost_basis_local instrument portfolio price r receipt :
  stored cost_basis -> stored cost_basis_local ->
  build_snapshot assignments prices get_exact_fx_rate builder portfolio_id security_id valuation_date epoch quantity cost_basis cost_basis_local instrument portfolio price = Ok r ->
  sr_receipt r = Some receipt ->
  let s := sr_snapshot r in
  exists market_value market_value_local total total_local price_pnl fx_pnl,
    (ds_market_value s, ds_market_value_local s, ds_unrealized_gain_loss s, ds_unrealized_gain_loss_local s, ds_unrealized_price_gain_loss s, ds_unrealized_fx_gain_loss s) =
      (Some market_value, Some market_value_local, Some total, Some total_local, Some price_pnl, Some fx_pnl) /\
    (zero_valued quantity receipt /\ (market_value, market_value_local, total, total_local, price_pnl, fx_pnl) = (dzero, dzero, dzero, dzero, dzero, dzero) \/
     ~ zero_valued quantity receipt /\ decomposed market_value market_value_local total total_local price_pnl fx_pnl cost_basis cost_basis_local).
Proof.
  intros Sc Sl H Hr. apply published_cases with (receipt := receipt) in H; [|done].
  destruct H as [request result rate sc rc id version _ Eq Ec El _ Hc _ -> R _ _ _|sc rc Hf -> R|p pc ic bc rate c _ Hc _ -> R]; do 6 eexists; (split; [reflexivity|]).
  - right. split; [intros [E _]; congruence|]. cbn in Eq, Ec, El. rewrite <- Ec, <- El. by apply authoritative_inv; [rewrite Ec|rewrite El|].
  - left. split; [|reflexivity]. split; [done|]. exact (flat_quantity _ Hf).
  - cbn in Hc. destruct (legacy_inv _ _ _ _ _ _ _ _ _ _ Sc Sl Hc) as (_ & _ & Hd). unfold zero_valued. destruct (dis_zero quantity) eqn:Ez.
    + left. done.
    + right. split; [by intros []|]. apply Hd.
Qed.

(** The control accepts what a policy published: it recomputes the same amount. *)
Lemma policy_passes s request result rate sc rc id version instrument receipt tolerance : stored (ds_cost_basis s) -> stored (ds_cost_basis_local s) ->
  resolve_position_valuation_policy id version = Ok (ar_policy request) -> ar_signed_quantity request = ds_quantity s ->
  ar_cost_basis_reporting request = ds_cost_basis s -> ar_cost_basis_local request = ds_cost_basis_local s ->
  vi_economic (valuation_inputs request) =
    {| ei_source_value := Finite (pf_price (ar_price_fact request)); ei_signed_quantity := Finite (ds_quantity s); ei_signed_face_amount := None;
       ei_principal_factor := None; ei_signed_current_principal := None; ei_contract_multiplier := None; ei_calculated_accrued_income := None;
       ei_supplied_accrued_income := None |} ->
  calculate_authoritative_valuation request = Ok result -> (forall x, rate = Some x -> fr_rate_date x = ds_date s) ->
  vc_supportability receipt = RECEIPT_SUPPORTED -> vc_policy_id receipt = Some (strip (vp_policy_id (ar_policy request))) ->
  vc_policy_version receipt = Some (vp_policy_version (ar_policy request)) -> vc_quote_basis receipt = Some (pf_quote_basis (ar_price_fact request)) ->
  stored tolerance -> 0 <= ul tolerance ->
  position_valuation_reconciliation_findings
    (snapshot_evidence (apply_authoritative_valuation_result (ar_price_fact request) result rate sc rc s) instrument (Some receipt)) tolerance = Ok [].
Proof.
  intros Sc Sl Hp Eq Ec El Ei Hc Hrate R1 R2 R3 R4 St Ht. destruct (authoritative_inv request result ltac:(by rewrite Ec) ltac:(by rewrite El) Hc) as ([Sd _ Hl _] & Hb & Hm & l & Hecon & Etot).
  rewrite Ei in Hecon. set (e := snapshot_evidence _ _ _). assert (Hpos : dleb (pf_price (ar_price_fact request)) dzero = false).
  { apply resolved_policy in Hp as (Hp & _). eapply published_basis; [exact Hp|exact Hb|exact Hecon]. }
  assert (Ha : authoritative_market_value_local (ds_quantity s) (pf_price (ar_price_fact request)) (receipt_evidence receipt) = Ok (Some (au_market_value_local result))).
  { rewrite <- Etot. eapply control_recomputes; [exact Hp|exact Hb|exact Hm|exact Hecon|exact R2|exact R3|]. unfold receipt_evidence. cbn [re_quote_basis]. by rewrite R4. }
  rewrite !Forall_cons in Sd. destruct Sd as (_ & Sml & _ & Stl & _).
  assert (He : supported_evidence e (ds_quantity s) (ds_cost_basis_local s) (ds_cost_basis s) (pf_price (ar_price_fact request)) (au_market_value_local result)
                 (au_unrealized_total_local result) (receipt_evidence receipt)).
  { split; try reflexivity; [by cbn; rewrite R1|done|]. repeat (constructor; [done|]). constructor. }
  destruct (supported_findings _ _ _ _ _ _ _ _ _ _ He Ha St) as (f & g & ->). rewrite (proj2 (no_fx_finding e)).
  - rewrite El in Hl. rewrite Hl. by rewrite !(proj2 (Z.ltb_ge _ _)) by lia.
  - intros d Hd. cbn in Hd. destruct rate as [x|]; [|done]. injection Hd as <-. by apply Hrate.
Qed.

(** The control of a snapshot that a plain price published, step by step. *)
Lemma priced_control s price pc ic bc rate c instrument receipt tolerance product unrealized by_value by_result :
  stored (ds_cost_basis s) -> stored (ds_cost_basis_local s) ->
  calculate_valuation_components (ds_quantity s) (mk_price price) (ds_cost_basis s) (ds_cost_basis_local s) pc ic bc (in_product_type instrument) None
    (fr_rate <$> rate) = Ok (Some c) ->
  (forall x, rate = Some x -> fr_rate_date x = ds_date s) -> vc_supportability receipt = RECEIPT_LEGACY_UNSCOPED ->
  dmul default_context (ds_quantity s) (mk_price price) = Ok product -> dsub default_context product (ds_cost_basis_local s) = Ok unrealized ->
  beyond_tolerance (co_market_value_local c) product tolerance = Ok by_value -> beyond_tolerance (co_unrealized_total_local c) unrealized tolerance = Ok by_result ->
  exists findings, position_valuation_reconciliation_findings
      (snapshot_evidence (apply_valuation_result price (ds_date s) c rate pc bc s) instrument (Some receipt)) tolerance = Ok findings /\
    (findings = [] <-> by_value = None /\ by_result = None).
Proof.
  intros Sc Sl Hc Hrate R Hprod Hun B1 B2. destruct (legacy_inv _ _ _ _ _ _ _ _ _ _ Sc Sl Hc) as (Hpos & Hbond & _).
  set (e := snapshot_evidence _ _ _). unfold position_valuation_reconciliation_findings. rewrite (proj2 (no_fx_finding e)).
  2:{ intros d Hd. cbn in Hd. destruct rate as [x|]; [|done]. injection Hd as <-. by apply Hrate. }
  unfold e, snapshot_evidence, apply_valuation_result, with_valuation, required_column, expected_market_value.
  cbn [ev_quantity ev_cost_basis_local ev_cost_basis_reporting ev_market_price ev_valuation_receipt ev_product_type ev_market_value_local ev_unrealized_gain_loss_local
       ds_quantity ds_cost_basis_local ds_cost_basis ds_market_price ds_market_value_local ds_unrealized_gain_loss_local
       optional_decimal required_decimal decimal_or_none finite_or_none coerce_positive_market_price_or_none mbind result_bind fmap option_fmap option_map receipt_evidence re_supportability].
  rewrite Hpos, R. cbn [supportability_value String.eqb Ascii.eqb Bool.eqb]. rewrite Hbond. cbn [mbind result_bind]. rewrite Hprod. cbn [mbind result_bind].
  rewrite Hun. cbn [mbind result_bind]. rewrite B1. cbn [mbind result_bind]. rewrite B2. cbn [mbind result_bind].
  eexists. split; [reflexivity|]. destruct by_value, by_result; cbn [app]; naive_solver.
Qed.

(** A position with quantity: the control rounds the same product in the ambient precision. *)
Lemma quantity_passes s price pc ic bc rate c instrument receipt tolerance :
  stored (ds_quantity s) -> stored (mk_price price) -> stored (ds_cost_basis s) -> stored (ds_cost_basis_local s) -> dis_zero (ds_quantity s) = false ->
  calculate_valuation_components (ds_quantity s) (mk_price price) (ds_cost_basis s) (ds_cost_basis_local s) pc ic bc (in_product_type instrument) None
    (fr_rate <$> rate) = Ok (Some c) ->
  (forall x, rate = Some x -> fr_rate_date x = ds_date s) -> vc_supportability receipt = RECEIPT_LEGACY_UNSCOPED -> stored tolerance -> 1 <= ul tolerance ->
  position_valuation_reconciliation_findings (snapshot_evidence (apply_valuation_result price (ds_date s) c rate pc bc s) instrument (Some receipt)) tolerance = Ok [].
Proof.
  intros Sq Sp Sc Sl Ez Hc Hrate R [Ut _] Ht. destruct (legacy_inv _ _ _ _ _ _ _ _ _ _ Sc Sl Hc) as (_ & _ & Hd). rewrite Ez in Hd.
  destruct Hd as ([Sd _ El _] & raw & Hraw & Hn). rewrite !Forall_cons in Sd. destruct Sd as (_ & [Um _] & _ & [Un _] & _). pose proof (proj1 Sl) as Ul.
  destruct (ambient_product_near _ _ _ _ _ Sq Sp Hraw Hn) as (product & Hprod & Bp & Np). destruct bounds_used as (S12 & P12 & S16 & S8 & E10).
  assert (Et : (dval (co_unrealized_total_local c) == dval (co_market_value_local c) - dval (ds_cost_basis_local s))%Q).
  { unfold units in Um, Un, Ul. rewrite Um, Un, Ul, El. unfold Z.sub. rewrite inject_Z_plus, inject_Z_opp. ring. }
  assert (Tol : (pow10 (-10) <= dval tolerance)%Q). { unfold units in Ut. rewrite Ut, <- (Qmult_1_l (pow10 (-10))) at 1. apply Qmult_le_compat_r; [|rewrite E10; lra]. by rewrite (Zle_Qle 1) in Ht. }
  pose proof (stored_bound _ Sl) as Bl. apply Qabs_Qlt_condition in Bl, Bp. apply Qabs_Qle_condition in Np.
  assert (Bu : (Qabs (dval (add_exact product (neg_exact (ds_cost_basis_local s)))) < pow10 16)%Q) by (rewrite add_exact_val, neg_exact_val; apply Qabs_case; intros _; lra).
  destruct (ambient_defined _ Bu) as (un & Hun). pose proof (ambient_near _ _ Bu Hun) as Nu. rewrite add_exact_val, neg_exact_val in Nu. apply Qabs_Qle_condition in Nu.
  destruct (priced_control s price pc ic bc rate c instrument receipt tolerance product un None None Sc Sl Hc Hrate R Hprod Hun) as (findings & -> & Hf).
  - apply close_passes; [apply Qabs_Qle_condition; split; lra|done].
  - apply close_passes; [apply Qabs_Qle_condition; rewrite Et; split; lra|done].
  - f_equal. by apply Hf.
Qed.

(** A position without quantity: the control compares the cost that it still carries with the tolerance. *)
Lemma zero_decided s price pc ic bc rate c instrument receipt tolerance :
  stored (ds_cost_basis s) -> stored (ds_cost_basis_local s) -> dis_zero (ds_quantity s) = true ->
  calculate_valuation_components (ds_quantity s) (mk_price price) (ds_cost_basis s) (ds_cost_basis_local s) pc ic bc (in_product_type instrument) None
    (fr_rate <$> rate) = Ok (Some c) ->
  (forall x, rate = Some x -> fr_rate_date x = ds_date s) -> vc_supportability receipt = RECEIPT_LEGACY_UNSCOPED -> stored tolerance -> 0 <= ul tolerance ->
  exists findings, position_valuation_reconciliation_findings
      (snapshot_evidence (apply_valuation_result price (ds_date s) c rate pc bc s) instrument (Some receipt)) tolerance = Ok findings /\
    (findings = [] <-> Z.abs (ul (ds_cost_basis_local s)) <= ul tolerance).
Proof.
  intros Sc Sl Ez Hc Hrate R St Ht. destruct (legacy_inv _ _ _ _ _ _ _ _ _ _ Sc Sl Hc) as (_ & _ & Hd). rewrite Ez in Hd. injection Hd as _ Em _ Et _ _.
  pose proof Sl as [Ul Bl]. apply dis_zero_spec in Ez.
  destruct (ambient_exact (mul_exact (ds_quantity s) (mk_price price)) 0) as (product & Hprod & Up); [|lia|].
  { unfold units. rewrite mul_exact_val, Ez. change (inject_Z 0) with 0%Q. ring. }
  destruct (ambient_exact (add_exact product (neg_exact (ds_cost_basis_local s))) (0 - ul (ds_cost_basis_local s))) as (un & Hun & Uun); [by apply units_sub|lia|].
  destruct (beyond_units dzero product tolerance 0 0 (units_dzero _) Up ltac:(lia) ltac:(lia) St) as (d1 & B1).
  destruct (beyond_units dzero un tolerance 0 (0 - ul (ds_cost_basis_local s)) (units_dzero _) Uun ltac:(lia) ltac:(lia) St) as (d2 & B2).
  rewrite <- Em in B1. rewrite <- Et in B2.
  destruct (priced_control s price pc ic bc rate c instrument receipt tolerance product un _ _ Sc Sl Hc Hrate R Hprod Hun B1 B2) as (findings & -> & Hf).
  exists findings. split; [done|]. rewrite Hf. rewrite (proj2 (Z.ltb_ge _ _)) by lia.
  destruct (Z.ltb_spec (ul tolerance) (Z.abs (0 - (0 - ul (ds_cost_basis_local s))))); split; [intros [_ E]; discriminate E|lia|lia|done].
Qed.

(** C11: a snapshot that is published with a receipt and a price, under an assigned policy or by a plain price, passes the valuation control for every
    tolerance of at least one storage unit: the control recognises the receipt, finds the rate on the valuation date, and what it recomputes in the
    ambient precision agrees with the value and the result that were published.  The one exception is a position without quantity that a plain
    price values: it is published with a result of zero, and the control reports it exactly when the local cost it still carries is beyond
    the tolerance. *)
Theorem published_snapshot_reconciles portfolio_id security_id valuation_date epoch quantity cost_basis cost_basis_local instrument portfolio price tolerance r receipt :
  Forall stored [quantity; cost_basis; cost_basis_local; tolerance] -> (forall p, price = Some p -> stored (mk_price p)) -> 1 <= ul tolerance ->
  build_snapshot assignments prices get_exact_fx_rate builder portfolio_id security_id valuation_date epoch quantity cost_basis cost_basis_local instrument portfolio price = Ok r ->
  sr_receipt r = Some receipt -> ds_market_price (sr_snapshot r) <> None ->
  exists findings, position_valuation_reconciliation_findings (snapshot_evidence (sr_snapshot r) instrument (sr_receipt r)) tolerance = Ok findings /\
    (findings = [] <-> (zero_valued quantity receipt -> Z.abs (ul cost_basis_local) <= ul tolerance)).
Proof.
  rewrite !Forall_cons. intros (Sq & Sc & Sl & St & _) Sp Ht H Hr Hm. rewrite Hr. apply published_cases with (receipt := receipt) in H; [|done]. unfold zero_valued.
  destruct H as [request result rate sc rc id version Hp Eq Ec El Ei Hc Hrate E R1 R2 R3 R4|sc rc Hf E|p pc ic bc rate c Hg Hc Hrate E R]; rewrite E.
  - exists []. split; [by eapply policy_passes; try lia|]. split; [|done]. intros _ [? _]. congruence.
  - by rewrite E in Hm.
  - destruct (dis_zero quantity) eqn:Ez.
    + destruct (zero_decided (new_snapshot portfolio_id security_id valuation_date epoch quantity cost_basis cost_basis_local) p pc ic bc rate c instrument receipt tolerance Sc Sl Ez Hc Hrate R St ltac:(lia)) as (findings & H1 & H2). exists findings. split; [exact H1|].
      cbn in H2. rewrite H2. naive_solver.
    + exists []. split; [|split; [by intros _ []|done]]. by eapply quantity_passes; [| | | | |exact Hc| | | |]; auto.
Qed.
End Published.
End Facts.
