(* ===== verification/SnapshotValuationExamples.v ===== *)
(** * Valued position snapshots: examples

    A foreign position valued by a plain price and a rate, and a position valued under the policy that its book assigns. *)

From Stdlib Require Import ZArith Lia String.
From stdpp Require Import base tactics list sorting sets strings.
From S2P Require Import PositionValuationFacts Prelude PyDecimal DecimalFacts PyTime Precision Lineage Values Position Lots AccruedIncome PositionValuation Timeseries Reconciliation ReconciliationFacts SourceVersions BookCostAuthority BookCostAuthorityFacts ValuationAuthority ValuationAuthorityExamples SnapshotValuation SnapshotValuationFacts.

#[local] Open Scope string_scope.
#[local] Open Scope Z_scope.

Definition euro_book : Portfolio := {| po_base_currency := " eur"; po_tenant_id := Some "T"; po_legal_book_id := None |}.
Definition scoped_book : Portfolio := {| po_base_currency := "USD"; po_tenant_id := Some "T"; po_legal_book_id := Some "B" |}.
Definition dollar_share : Instrument := {| in_currency := "USD"; in_product_type := Some "EQUITY" |}.
Definition dollar_bond : Instrument := {| in_currency := "USD"; in_product_type := Some "Bond" |}.
Definition plain_price : MarketPrice := {| mk_price := Dec 333333 (-5); mk_currency := "usd"; mk_price_date := 99 |}.
Definition euro_rate (source target : string) (day : date) : option FxRate := Some {| fr_rate := Dec 91 (-2); fr_rate_date := day |}.
Definition no_rate (source target : string) (day : date) : option FxRate := None.

Definition example_source_evidence (a : ResolvedValuationPolicyAssignment) (p : MarketPriceSourceFact) (rate : option FxRate) : PositionValuation.PositionValuationEvidence :=
  {| ve_policy_assignment := example_reference "assignment"; ve_source_value := pf_source_reference p; ve_source_currency := pf_source_reference p;
     ve_reporting_currency := example_reference "portfolio"; ve_signed_quantity := Some (example_reference "position"); ve_signed_face_amount := None;
     ve_principal_factor := None; ve_signed_current_principal := None; ve_contract_multiplier := None; ve_calculated_accrued_income := None;
     ve_supplied_accrued_income := None; ve_direct_source_to_reporting_fx_rate := match rate with Some _ => Some (example_reference "rate") | None => None end |}.

Definition plain_snapshot (portfolio : Portfolio) (instrument : Instrument) (rate : string -> string -> date -> option FxRate) (price : option MarketPrice) : result ValuationSnapshotResult :=
  @build_snapshot constant_hashing first_table first_prices rate example_source_evidence "P" "S" 100 0 (dint 7) (dint 20) (dint 22) instrument portfolio price.

(** What decides whether a snapshot is published: a rate of the day, the authority to value a bond, a price. *)
Example unpublished_snapshots :
  (fun r => match r with Ok r => (ds_valuation_status (sr_snapshot r), sr_job_failure_reason r, sr_receipt r) | Raise _ => (None, None, None) end) <$>
    [plain_snapshot euro_book dollar_share no_rate (Some plain_price); plain_snapshot euro_book dollar_bond euro_rate (Some plain_price);
     plain_snapshot euro_book dollar_share euro_rate None] =
  [(Some "FAILED", Some "Missing exact-date FX rate for USD->EUR on 1970-04-11", None); (Some "FAILED", Some BOND_QUOTE_AUTHORITY_REQUIRED_REASON, None);
   (Some "UNVALUED", None, None)].
Proof. vm_compute. reflexivity. Qed.


Lemma published_snapshot_decomposes_witness : exists r total price_pnl fx_pnl,
  plain_snapshot euro_book dollar_share euro_rate (Some plain_price) = Ok r /\
  (ds_unrealized_gain_loss (sr_snapshot r), ds_unrealized_price_gain_loss (sr_snapshot r), ds_unrealized_fx_gain_loss (sr_snapshot r)) =
    (Some total, Some price_pnl, Some fx_pnl) /\ ul price_pnl + ul fx_pnl = ul total.
Proof.
  destruct (plain_snapshot euro_book dollar_share euro_rate (Some plain_price)) as [r|e] eqn:E; [|vm_compute in E; discriminate E].
  destruct (sr_receipt r) as [receipt|] eqn:Er; [|vm_compute in E; injection E as <-; discriminate Er].
  destruct (@published_snapshot_decomposes constant_hashing first_table first_prices euro_rate example_source_evidence "P" "S" 100 0 (dint 7) (dint 20) (dint 22) dollar_share euro_book
    (Some plain_price) r receipt (stored_dint 20 eq_refl) (stored_dint 22 eq_refl) E Er) as (mv & mvl & t & tl & p & f & [= _ _ Et _ Ep Ef] & [[[_ Hz] _]|[_ D]]);
    [discriminate Hz|].
  exists r, t, p, f. split; [reflexivity|]. rewrite Et, Ep, Ef. split; [reflexivity|]. exact (de_split _ _ _ _ _ _ _ _ D).
Defined.

Lemma published_snapshot_reconciles_witness : exists r,
  @build_snapshot constant_hashing first_table first_prices no_rate example_source_evidence "P" "S" 100 0 (dint 7) (dint 20) (dint 22) dollar_bond scoped_book None = Ok r /\
  ds_market_price (sr_snapshot r) = Some (dint 99) /\
  @position_valuation_reconciliation_findings constant_hashing (snapshot_evidence (sr_snapshot r) dollar_bond (sr_receipt r)) (Dec 1 (-10)) = Ok [].
Proof.
  destruct (@build_snapshot constant_hashing first_table first_prices no_rate example_source_evidence "P" "S" 100 0 (dint 7) (dint 20) (dint 22) dollar_bond scoped_book None) as [r|e] eqn:E;
    [|vm_compute in E; discriminate E].
  destruct (sr_receipt r) as [receipt|] eqn:Er; [|vm_compute in E; injection E as <-; discriminate Er].
  exists r. split; [reflexivity|]. assert (Hp : ds_market_price (sr_snapshot r) = Some (dint 99)) by (vm_compute in E; injection E as <-; reflexivity). split; [exact Hp|].
  destruct (@published_snapshot_reconciles constant_hashing first_table first_prices no_rate example_source_evidence "P" "S" 100 0 (dint 7) (dint 20) (dint 22) dollar_bond scoped_book None
    (Dec 1 (-10)) r receipt) as (findings & Hf & Hiff).
  - repeat (constructor; [split; vm_compute; reflexivity|]). constructor.
  - discriminate.
  - vm_compute. discriminate.
  - exact E.
  - exact Er.
  - rewrite Hp. discriminate.
  - rewrite Hf. f_equal. apply Hiff. intros [_ Hz]. discriminate Hz.
Defined.

(** A position without quantity that still carries a cost: the plain price publishes a result of zero, and the control reports it. *)
Example residual_cost_is_reported :
  match @build_snapshot constant_hashing [] [] no_rate example_source_evidence "P" "S" 100 0 dzero (dint 1) (dint 1) dollar_share
          {| po_base_currency := "USD"; po_tenant_id := Some "T"; po_legal_book_id := None |} (Some plain_price) with
  | Ok r => (ds_unrealized_gain_loss_local (sr_snapshot r),
             findings ← @position_valuation_reconciliation_findings constant_hashing (snapshot_evidence (sr_snapshot r) dollar_share (sr_receipt r)) DEFAULT_VALUE_TOLERANCE;
             Ok (map rf_finding_type findings))
  | Raise e => (None, Raise e)
  end = (Some dzero, Ok ["unrealized_gain_loss_local_mismatch"]).
Proof. vm_compute. reflexivity. Qed.
